(* ===== verification/_CoqProject ===== *)
-Q . S2P
Prelude.v
WrappingInts.v
Buffers.v
ByteStreams.v
Reassembler.v
Checksum.v
Parser.v
TCPSegments.v
Receiver.v
Sender.v
Connection.v
EndToEnd.v
Emitted.v
Transfer.v
Benchmark.v
BenchmarkRun.v
IPv4.v
Ethernet.v
Addresses.v
Adapters.v
CommandLine.v
PacketDump.v
Interface.v
Frames.v
Router.v
Simulator.v
Delivery.v
FileDescriptors.v
Text.v
Handles.v
Sockets.v
EventLoop.v
Devices.v
TapAdapter.v
SpongeSocket.v
SocketLoop.v
SocketNet.v
SocketThread.v
StreamCopy.v
Lab7.v
Programs.v
Lab7Net.v
Bouncer.v
