(* ===== verification/Prelude.v ===== *)
(** * Verification of Sponge, a user-level TCP/IP stack

    Sponge implements TCP, IPv4, Ethernet with ARP, and a router, in C++. This library
    translates it into definitions that compute, bottom up, and proves what each part
    promises to the next, up to two sockets exchanging a byte stream over a network that
    loses, duplicates, delays and reorders datagrams.

    ** The program

    An owner writes bytes to a socket (TCPSpongeSocket). The socket's thread is an event
    loop with four rules: datagrams from the adapter go to the TCPConnection, bytes from the
    owner go to it, reassembled bytes go back to the owner, and queued segments go out
    through the adapter. A TCPConnection is a TCPSender, which cuts an outbound ByteStream
    into segments, and a TCPReceiver, which feeds a StreamReassembler. The adapter wraps
    segments in UDP, in IPv4 over a TUN device, or in IPv4 over Ethernet; the last uses a
    NetworkInterface, which resolves addresses with ARP. The Router forwards datagrams
    between such interfaces.

    ** The files

    Under src/libsponge, unless said otherwise; definitions keep the names of the code,
    methods as Class_method.

    - Prelude: machine integers, byte lists, the outcome type [res] (a value, an exception,
      or out of fuel), the monad [method] of methods that change their object and may throw
      midway, reachability.
    - WrappingInts: wrapping_integers (wrap, unwrap, the operators).
    - Buffers: util/buffer. ByteStreams: byte_stream, and the FIFO queue it refines.
    - Reassembler: stream_reassembler.
    - Checksum: InternetChecksum of util/util. Parser: util/parser, and the class of wire
      formats that the header types share.
    - TCPSegments, IPv4, Ethernet: the header and packet types of tcp_helpers.
    - Receiver, Sender, Connection: tcp_receiver, tcp_sender, tcp_connection, with
      tcp_helpers/tcp_state and tcp_config. Receiver states the contract [ReceiverContract]
      that Connection is proved against.
    - EndToEnd: two connections and a network. Emitted: what a connection sends can be
      serialized. Transfer: what is under way between two connections whose segments
      arrive in order. Benchmark: src/apps/tcp_benchmark, two connections in one process;
      BenchmarkRun follows it to its end.
    - Addresses: util/address. Adapters: tcp_helpers/fd_adapter, tcp_over_ip on single
      datagrams.
    - CommandLine: the options and configurations of src/apps/tcp_udp, tcp_ipv4 and
      tcp_ip_ethernet. PacketDump: src/apps/udp_tcpdump and hexdump of util/util.
    - Interface, Router: network_interface, router. Frames: what an interface puts on the
      wire, for any property of datagrams. Simulator: src/apps/network_simulator, a
      network of hosts around a router; Delivery proves that it delivers.
    - FileDescriptors: util/file_descriptor, util/socket, SystemCall, on one descriptor.
      Handles: who owns which descriptor, as a store of objects, shared wrappers and open
      numbers. Sockets: util/socket and util/tun on that store. EventLoop: util/eventloop.
    - Text: what is printed of headers, addresses and frames; src/apps/tun.
    - Devices: the adapters on descriptors, the lossy adapter; the class [FdAdapter] is the
      interface the socket's template uses, [AdapterContract] what an adapter promises to the
      socket and [WireContract] what its datagrams carry to the other end.
      TapAdapter: tcp_helpers/tuntap_adapter over Ethernet.
    - SpongeSocket: tcp_helpers/tcp_sponge_socket (rules, loop, connect, listen_and_accept,
      the thread's main). SocketLoop: one turn of that loop follows the connection, for any
      adapter with the contract. SocketNet: two sockets and a network. SocketThread: the
      constructor, the thread's start, wait_until_closed and the destructor.
    - StreamCopy: src/apps/bidirectional_stream_copy, on the same event loop.
    - Lab7: src/apps/lab7, a socket behind a router that a second thread runs; Lab7Net: two
      such programs and the Internet. Bouncer: src/apps/bouncer, the relay between them.
    - Programs: src/apps/tcp_native, and the main functions of tcp_udp, tcp_ipv4,
      tcp_ip_ethernet, webget and lab7, with the scopes of their sockets.

    ** The theorems

    - Streams: the ByteStream refines a bounded FIFO; the reassembler's output is always a
      prefix of the stream whose substrings it is given, in whatever order they come.
    - Sequence numbers: unwrap is the closest index, and inverts wrap.
    - Receiver and sender: acknowledgment number and window are those of the bytes
      delivered; what is sent is a slice of the stream, in the window; acknowledged segments
      leave the queue; a timeout re-sends the oldest with backoff.
    - Connection: no operation throws whatever the peer sends; handshake, reset, abort,
      lingering and both ways of closing; what is emitted can be serialized.
    - Composition: in a network that loses, duplicates and reorders, each side reads a
      prefix of what the other wrote, for connections (EndToEnd) and for whole sockets with
      their event loops, adapters, IPv4 and TCP encoding (SocketNet), and for the whole of
      lab 7: two hosts, each with its socket, its Ethernet and its router (Lab7Net).
    - Formats: each packet type parses back from its serialization; one corrupted byte
      changes the Internet checksum; parsing is total on any bytes.
    - Interface and router: a datagram waits for ARP and is delivered after the reply; no
      frame from the network makes the interface throw; longest-prefix match; the queues are
      drained; in the simulated network every datagram between hosts on different links of
      the router arrives, whatever the random numbers are.
    - Event loop and descriptors: after a poll that is interrupted or succeeds, which rules run in a turn and in which order; rules only
      leave by cancellation; a complete write; the Ethernet adapter accepts any frame.
    - Lifetimes: every open descriptor has an owner, a constructor that throws gives back what
      it opened, and tcp_native closes everything however it ends; the two threads of a
      socket interleave safely, the destructor returns after one more pass of the loop, and
      the programs on such a socket leave no thread behind.
    - Texts: the text of a header, an ARP message or an address tells every field; tun prints
      one text for each packet until a read fails; webget prints the whole response.
    - The stream copier loses nothing and returns when both sides have ended; the benchmark
      never receives anything but a prefix of the string it sends, and without reordering it
      returns: the handshake, the transfer through every filling of the window, the closing
      of both streams and the lingering all come to an end, with both connections closed; the
      router thread of lab 7 ends only when it is told to; the bouncer passes each
      datagram on once, from the other socket of the pair to the last peer heard there.
    - Command lines: which are accepted, with what effect, which exit and which convert a loss
      rate out of range; every configuration is within the types its users expect. The packet dump reads a capture within its bounds, with one
      exception, and shows the segment that was sent.

    ** What the theorems leave out

    Each states its conditions. The recurring ones:

    - No write after the end of the input ([writes_before_end], the steps of Sender and
      Connection): the stream's class rules it out, but the code accepts such a write and
      sends it behind the FIN (write_after_end_sends_second_fin, late_write_goes_past_the_fin).
    - A FIN that arrives alone before missing bytes ([segment_at] of Receiver): the
      reassembler then ends the stream early (early_fin_acknowledged). The prefix
      theorems of EndToEnd, SocketNet and Lab7Net cover this case.
    - Fewer than 2^31 bytes written to a connection, and counters below their widths.
    - Five seconds or more between two ticks of a network interface: the code's loop does not
      end (interface_tick_diverges).
    - Datagrams that cannot be serialized, given to an interface
      (unserializable_datagram_breaks_recv_frame), ARP messages for others
      (overheard_arp_teaches_nothing), unacceptable resets (unacceptable_reset_is_obeyed) and
      errors of poll other than EINTR (poll_error_taken_for_success): there the code does
      not do what its comments or its tests say, and separate theorems state what it does.
    - Sockets in a network ([fair_turn], [socket_turn], [net_turn]): the kernel reports no
      error to their threads.

    Several more theorems record where the code departs from its comments or from what it
    means to do; the statement is always that of the code.

    ** Integers, fuel and the outside

    w-bit unsigned values are integers with the wrap-around written out ([u8], [u16], [u32],
    [u64]); assumptions that a count stays below 2^31, 2^32 or 2^64 are hypotheses. Loops over a list
    or over a number of bytes are structural. Others take fuel computed from their argument
    (the length of the queue that a pass shortens, the bytes a window leaves), and the
    theorems show that the fuel suffices: their results are never [NoFuel]. Loops of programs
    that run until an event (the socket's loop, the copier's, lab 7's, the bouncer's, the
    capture, a complete write) take the list of the kernel's answers instead, and the
    benchmark's a number of turns: [NoFuel] there means still running after these turns. Each
    turn of the benchmark moves the receiver by a byte at least until the stream has ended,
    and 14 turns close the connections, so that the length of the string and 14 turns are enough.
    NetworkInterface::tick takes fuel as an argument because the loop need not end; Interface proves when
    it does.

    The kernel (socket, accept, read, writev, recvfrom, sendmsg, poll, shutdown, fcntl, ioctl,
    close), the clock and the random numbers are arguments, as are getaddrinfo, strtof,
    the text of an IPv6 address and libpcap's answers. The iteration order of an unordered_map
    is an argument of the operations that depend on it. Undefined behaviour is the exception [UB]:
    also the conversion of a float outside the range of uint16_t. What close reports of an
    open number is part of the store of Handles; it releases the number in either case, as
    close(2) documents for Linux.

    ** Not modelled

    Usage texts and debug output; the seeding of random numbers and the clock; the setup of
    libpcap; the time measurement of the benchmark; the documentation examples other than
    that of the parser. *)

From stdpp Require Export base list numbers gmap strings.
From Stdlib Require Export ZArith Lia.
From Stdlib Require Strings.Byte.

#[global] Open Scope Z_scope.

(** ** Machine integers

    A w-bit unsigned integer is a [Z]; the wrap-around of every arithmetic
    operation that can leave the range is written out with these functions. *)

Declare Scope word_scope.
Delimit Scope word_scope with word.

Abbreviation W16 := 65536 (only parsing).
Abbreviation W31 := 2147483648 (only parsing).
Abbreviation W32 := 4294967296 (only parsing).
Abbreviation W64 := 18446744073709551616 (only parsing).

Definition u8 (x : Z) : Z := x mod 256.
Definition u16 (x : Z) : Z := x mod W16.
Definition u32 (x : Z) : Z := x mod W32.
Definition u64 (x : Z) : Z := x mod W64.

(** [int32_t] from a 32-bit pattern (two's complement). *)
Definition s32 (x : Z) : Z := let y := u32 x in if y <? W31 then y else y - W32.

(** Unsigned 64-bit sum and difference ([uint64_t], [size_t]). *)
Notation "x +64 y" := (u64 (x + y)) (at level 50, left associativity) : word_scope.
Notation "x -64 y" := (u64 (x - y)) (at level 50, left associativity) : word_scope.
#[global] Open Scope word_scope.

Lemma u8_id x : 0 <= x < 256 -> u8 x = x.
Proof. apply Z.mod_small. Qed.

Lemma u16_id x : 0 <= x < W16 -> u16 x = x.
Proof. apply Z.mod_small. Qed.

Lemma u32_id x : 0 <= x < W32 -> u32 x = x.
Proof. apply Z.mod_small. Qed.

Lemma u64_id x : 0 <= x < W64 -> u64 x = x.
Proof. apply Z.mod_small. Qed.

Lemma u8_range x : 0 <= u8 x < 256.
Proof. by apply Z.mod_pos_bound. Qed.

Lemma u16_range x : 0 <= u16 x < W16.
Proof. by apply Z.mod_pos_bound. Qed.

Lemma u32_range x : 0 <= u32 x < W32.
Proof. by apply Z.mod_pos_bound. Qed.

Lemma u64_range x : 0 <= u64 x < W64.
Proof. by apply Z.mod_pos_bound. Qed.

Create HintDb sponge.
#[export] Hint Resolve u8_range u16_range u32_range u64_range : sponge.

(** Remove wrap-arounds that provably do not happen. *)
Ltac nowrap :=
  repeat match goal with
  | |- context [u64 ?x] => rewrite (u64_id x) by lia
  | |- context [u32 ?x] => rewrite (u32_id x) by lia
  | |- context [u16 ?x] => rewrite (u16_id x) by lia
  | |- context [u8 ?x] => rewrite (u8_id x) by lia
  end.

Ltac nowrap_in H :=
  repeat match type of H with
  | context [u64 ?x] => rewrite (u64_id x) in H by lia
  | context [u32 ?x] => rewrite (u32_id x) in H by lia
  | context [u16 ?x] => rewrite (u16_id x) in H by lia
  | context [u8 ?x] => rewrite (u8_id x) in H by lia
  end.

(** Case analysis on the boolean tests of the code. *)
Ltac ztest :=
  match goal with
  | |- context [Z.ltb ?a ?b] => destruct (Z.ltb_spec a b)
  | |- context [Z.leb ?a ?b] => destruct (Z.leb_spec a b)
  | |- context [Z.eqb ?a ?b] => destruct (Z.eqb_spec a b)
  end.

Ltac ztest_in H :=
  match type of H with
  | context [Z.ltb ?a ?b] => destruct (Z.ltb_spec a b)
  | context [Z.leb ?a ?b] => destruct (Z.leb_spec a b)
  | context [Z.eqb ?a ?b] => destruct (Z.eqb_spec a b)
  end.

(** ** Bytes

    [char] and [uint8_t] data in buffers are [byte]s; [byte_val] is the numeric
    value and [byte_of] the conversion [uint8_t(x)]. *)

Abbreviation byte := Corelib.Init.Byte.byte.
Abbreviation bytes := (list Corelib.Init.Byte.byte).

Definition byte_val (b : byte) : Z := Z.of_N (Strings.Byte.to_N b).

Definition byte_of (z : Z) : byte :=
  default Corelib.Init.Byte.x00 (Strings.Byte.of_N (Z.to_N (z mod 256))).

Lemma byte_val_range b : 0 <= byte_val b < 256.
Proof. unfold byte_val. pose proof (Strings.Byte.to_N_bounded b). lia. Qed.

Lemma byte_of_val b : byte_of (byte_val b) = b.
Proof.
  unfold byte_of. rewrite Z.mod_small by apply byte_val_range.
  unfold byte_val. by rewrite N2Z.id, Strings.Byte.of_to_N.
Qed.

Lemma byte_val_of z : byte_val (byte_of z) = z mod 256.
Proof.
  unfold byte_of, byte_val. pose proof (Z.mod_pos_bound z 256 ltac:(lia)).
  destruct (Strings.Byte.of_N (Z.to_N (z mod 256))) as [b|] eqn:E; simpl.
  - apply Strings.Byte.to_of_N in E. lia.
  - apply Strings.Byte.of_N_None_iff in E. lia.
Qed.

#[export] Hint Resolve byte_val_range : sponge.

#[export] Instance byte_eq_decision : EqDecision byte := Strings.Byte.byte_eq_dec.

(** ** Lengths

    [std::string::size] and friends are [size_t]: lengths as [Z]. *)

Definition zlen {A} (l : list A) : Z := Z.of_nat (length l).

#[global] Arguments zlen {A} l : simpl never.

Definition ztake {A} (n : Z) (l : list A) : list A := take (Z.to_nat n) l.
Definition zdrop {A} (n : Z) (l : list A) : list A := drop (Z.to_nat n) l.

(** [l[i]] for a [size_t] index. *)
Definition znth {A} (l : list A) (i : Z) : option A :=
  if i <? 0 then None else l !! Z.to_nat i.

Section Lengths.
Context {A : Type}.
Implicit Types l : list A.

Lemma zlen_nonneg l : 0 <= zlen l.
Proof. unfold zlen. lia. Qed.

Lemma zlen_nil : zlen (@nil A) = 0.
Proof. done. Qed.

Lemma zlen_cons x l : zlen (x :: l) = 1 + zlen l.
Proof. unfold zlen. simpl. lia. Qed.

Lemma zlen_app l k : zlen (l ++ k) = zlen l + zlen k.
Proof. unfold zlen. rewrite length_app. lia. Qed.

Lemma zlen_ztake n l : 0 <= n <= zlen l -> zlen (ztake n l) = n.
Proof. unfold zlen, ztake. intros. rewrite length_take. lia. Qed.

Lemma zlen_ztake_min n l : 0 <= n -> zlen (ztake n l) = Z.min n (zlen l).
Proof. unfold zlen, ztake. intros. rewrite length_take. lia. Qed.

Lemma zlen_zdrop n l : 0 <= n <= zlen l -> zlen (zdrop n l) = zlen l - n.
Proof. unfold zlen, zdrop. intros. rewrite length_drop. lia. Qed.

Lemma zlen_0_nil l : zlen l = 0 -> l = [].
Proof. destruct l; [done|]. rewrite zlen_cons. pose proof (zlen_nonneg l). lia. Qed.

Lemma ztake_all n l : zlen l <= n -> ztake n l = l.
Proof. unfold zlen, ztake. intros. apply take_ge. lia. Qed.

Lemma ztake_0 l : ztake 0 l = [].
Proof. done. Qed.

Lemma zdrop_0 l : zdrop 0 l = l.
Proof. done. Qed.

Lemma zdrop_all n l : zlen l <= n -> zdrop n l = [].
Proof. unfold zlen, zdrop. intros. apply drop_ge. lia. Qed.

Lemma zdrop_zdrop a b l : 0 <= a -> 0 <= b -> zdrop a (zdrop b l) = zdrop (b + a) l.
Proof. unfold zdrop. intros. rewrite drop_drop. f_equal. lia. Qed.

Lemma ztake_zdrop_id n l : ztake n l ++ zdrop n l = l.
Proof. apply take_drop. Qed.

Lemma zdrop_app_le n l k : 0 <= n <= zlen l -> zdrop n (l ++ k) = zdrop n l ++ k.
Proof. unfold zlen, zdrop. intros. apply drop_app_le. lia. Qed.

Lemma zdrop_app_ge n l k : zlen l <= n -> zdrop n (l ++ k) = zdrop (n - zlen l) k.
Proof.
  unfold zlen, zdrop. intros. rewrite drop_app_ge by lia. f_equal. lia.
Qed.

Lemma ztake_app_le n l k : 0 <= n <= zlen l -> ztake n (l ++ k) = ztake n l.
Proof. unfold zlen, ztake. intros. apply take_app_le. lia. Qed.

Lemma ztake_app_ge n l k : zlen l <= n -> ztake n (l ++ k) = l ++ ztake (n - zlen l) k.
Proof.
  unfold zlen, ztake. intros. rewrite take_app_ge by lia. do 2 f_equal. lia.
Qed.

Lemma znth_app_l i l k : i < zlen l -> znth (l ++ k) i = znth l i.
Proof. unfold znth, zlen. intros. ztest; [done|]. apply lookup_app_l. lia. Qed.

Lemma znth_app_r i l k : zlen l <= i -> znth (l ++ k) i = znth k (i - zlen l).
Proof.
  unfold znth, zlen. intros. do 2 ztest; try lia.
  rewrite lookup_app_r by lia. f_equal. lia.
Qed.

Lemma znth_Some_range i l x : znth l i = Some x -> 0 <= i < zlen l.
Proof.
  unfold znth, zlen. ztest; [done|]. intros E%lookup_lt_Some. lia.
Qed.

Lemma znth_is_Some i l : 0 <= i < zlen l -> is_Some (znth l i).
Proof. unfold znth, zlen. intros. ztest; [lia|]. apply lookup_lt_is_Some. lia. Qed.

Lemma znth_None i l : zlen l <= i -> znth l i = None.
Proof. unfold znth, zlen. intros. ztest; [done|]. apply lookup_ge_None. lia. Qed.

Lemma znth_zdrop i n l : 0 <= i -> 0 <= n -> znth (zdrop n l) i = znth l (n + i).
Proof.
  unfold znth, zdrop. intros. do 2 ztest; try lia.
  rewrite lookup_drop. f_equal. lia.
Qed.

Lemma znth_ztake i n l : i < n -> znth (ztake n l) i = znth l i.
Proof.
  unfold znth, ztake. intros. ztest; [done|]. apply lookup_take_lt. lia.
Qed.

Lemma znth_cons_0 x l : znth (x :: l) 0 = Some x.
Proof. done. Qed.

Lemma znth_cons_pos i x l : 0 < i -> znth (x :: l) i = znth l (i - 1).
Proof. intros. change (x :: l) with ([x] ++ l). by rewrite znth_app_r by (unfold zlen; simpl; lia). Qed.

(** Extensionality: lists with the same entries are equal. *)
Lemma znth_ext l k : (forall i, 0 <= i -> znth l i = znth k i) -> l = k.
Proof.
  intros E. apply list_eq. intros i. specialize (E (Z.of_nat i) ltac:(lia)).
  unfold znth in E. rewrite Nat2Z.id in E.
  by destruct (Z.ltb_spec (Z.of_nat i) 0); [lia|].
Qed.
End Lengths.

#[export] Hint Resolve zlen_nonneg : sponge.

(** Pose the non-negativity of every length in sight, then [lia]. *)
Ltac zlen_facts :=
  repeat match goal with
  | |- context [zlen ?l] =>
      lazymatch goal with
      | _ : 0 <= zlen l |- _ => fail
      | _ => pose proof (zlen_nonneg l)
      end
  | _ : context [zlen ?l] |- _ =>
      lazymatch goal with
      | _ : 0 <= zlen l |- _ => fail
      | _ => pose proof (zlen_nonneg l)
      end
  end.

Ltac zlia := zlen_facts; lia.

(** ** Errors

    A C++ function that can throw returns a [res]; [NoFuel] is the outcome of a
    loop that was given too little fuel, and is proved unreachable wherever the
    loop terminates. [UB] is undefined behaviour of the language. *)

Inductive exn : Type :=
| out_of_range (what : string)
| runtime_error (what : string)
| unix_error (attempt : string) (error_code : Z)
| tagged_error (category attempt : string) (error_code : Z)
| UB (what : string).

Inductive res (A : Type) : Type :=
| Ok (a : A)
| Throw (e : exn)
| NoFuel.
Arguments Ok {A} a.
Arguments Throw {A} e.
Arguments NoFuel {A}.

#[export] Instance res_ret : MRet res := fun A a => Ok a.

#[export] Instance res_bind : MBind res := fun A B f m =>
  match m with
  | Ok a => f a
  | Throw e => Throw e
  | NoFuel => NoFuel
  end.

#[export] Instance res_fmap : FMap res := fun A B f m =>
  match m with
  | Ok a => Ok (f a)
  | Throw e => Throw e
  | NoFuel => NoFuel
  end.

Lemma res_bind_Ok {A B} (f : A -> res B) (a : A) : (Ok a ≫= f) = f a.
Proof. done. Qed.

Lemma bind_Ok_inv {A B} (m : res A) (f : A -> res B) (b : B) :
  (m ≫= f) = Ok b -> exists a, m = Ok a /\ f a = Ok b.
Proof. destruct m; simpl; [eauto|done|done]. Qed.

(** ** Methods of an object that can throw midway

    The changes made before the throw stay: state and outcome are both results. *)

Definition method (S A : Type) : Type := S -> res A * S.

#[export] Instance method_ret {S} : MRet (method S) := fun A a s => (Ok a, s).

#[export] Instance method_bind {S} : MBind (method S) := fun A B f m s =>
  match m s with
  | (Ok a, s') => f a s'
  | (Throw e, s') => (Throw e, s')
  | (NoFuel, s') => (NoFuel, s')
  end.

Definition modify {S} (f : S -> S) : method S unit := fun s => (Ok tt, f s).
Definition gets {S A} (f : S -> A) : method S A := fun s => (Ok (f s), s).
Definition lift {S A} (r : res A) : method S A := fun s => (r, s).

(** A call on a member object. *)
Definition zoom {S T A} (get : S -> T) (set : T -> S -> S) (m : method T A) : method S A := fun s =>
  let '(r, t) := m (get s) in (r, set t s).

Section Methods.
Context {S A B : Type}.

Lemma run_gets (g : S -> A) (f : A -> method S B) s : (gets g ≫= f) s = f (g s) s.
Proof. done. Qed.

Lemma run_modify (g : S -> S) (f : unit -> method S B) s : (modify g ≫= f) s = f tt (g s).
Proof. done. Qed.

Lemma run_lift (a : A) (f : A -> method S B) s : (lift (Ok a) ≫= f) s = f a s.
Proof. done. Qed.

Lemma run_ret (a : A) (f : A -> method S B) s : ((mret a : method S A) ≫= f) s = f a s.
Proof. done. Qed.

Lemma run_bind (m : method S A) (f : A -> method S B) s a s' : m s = (Ok a, s') -> (m ≫= f) s = f a s'.
Proof. intros E. unfold mbind, method_bind. by rewrite E. Qed.

Lemma run_out (m : method S A) (f : A -> method S B) s s' : m s = (NoFuel, s') -> (m ≫= f) s = (NoFuel, s').
Proof. intros E. unfold mbind, method_bind. by rewrite E. Qed.

Lemma run_zoom {T} (get : S -> T) (set : T -> S -> S) (m : method T A) (f : A -> method S B) s a t :
  m (get s) = (Ok a, t) -> (zoom get set m ≫= f) s = f a (set t s).
Proof. intros E. unfold mbind, method_bind, zoom. by rewrite E. Qed.

Lemma zoom_eq {T} (get : S -> T) (set : T -> S -> S) (m : method T A) s r t :
  m (get s) = (r, t) -> zoom get set m s = (r, set t s).
Proof. intros E. unfold zoom. by rewrite E. Qed.

(** What a successful composite call was made of. *)
Lemma run_bind_inv (m : method S A) (f : A -> method S B) s b s' : (m ≫= f) s = (Ok b, s') ->
  exists a s1, m s = (Ok a, s1) /\ f a s1 = (Ok b, s').
Proof. unfold mbind, method_bind. destruct (m s) as [[a| |] s1]; intros E; [eauto|done|done]. Qed.
End Methods.

(** Symbolic execution of a method up to the next call that is not evaluated. *)
Ltac mrun := repeat (first [rewrite run_gets | rewrite run_modify | rewrite run_lift | rewrite run_ret]; cbv beta iota; cbn [negb]).

(** What a call that returned normally went through: every bind taken apart, every test
    decided. *)
Ltac invert_method E :=
  repeat (first
    [ apply run_bind_inv in E as (? & ? & ? & E)
    | match type of E with context [if ?x then _ else _] => destruct x eqn:?; try done end
    | match type of E with context [let '(_, _) := ?x in _] => destruct x eqn:? end ]);
  repeat match goal with
    | H : lift _ _ = (Ok _, _) |- _ => unfold lift in H; injection H as H ?; subst
    | H : negb (bool_decide _) = false |- _ => apply negb_false_iff, bool_decide_eq_true in H; subst
    end.

(** ** What a method leaves alone, however it ends *)

Definition keeps {S A : Type} (R : S -> S -> Prop) (m : method S A) : Prop := forall s, R s (snd (m s)).

Section Keeps.
Context {S : Type} (R : S -> S -> Prop) `{!PreOrder R}.

Lemma keeps_ret {A} (a : A) : keeps R (mret a : method S A).
Proof. intros s. reflexivity. Qed.

Lemma keeps_gets {A} (g : S -> A) : keeps R (gets g).
Proof. intros s. reflexivity. Qed.

Lemma keeps_lift {A} (r : res A) : keeps R (lift r).
Proof. intros s. reflexivity. Qed.

Lemma keeps_modify f : (forall s, R s (f s)) -> keeps R (modify f).
Proof. intros H s. apply H. Qed.

Lemma keeps_bind {A B} (m : method S A) (f : A -> method S B) : keeps R m -> (forall a, keeps R (f a)) -> keeps R (m ≫= f).
Proof.
  intros Hm Hf s. specialize (Hm s). unfold mbind, method_bind. destruct (m s) as [[a|e|] s']; cbn in *; [|done..]. etrans; [exact Hm|apply Hf].
Qed.

Lemma keeps_zoom {T A} (R' : T -> T -> Prop) (get : S -> T) (set : T -> S -> S) (m : method T A) :
  (forall s t, R' (get s) t -> R s (set t s)) -> keeps R' m -> keeps R (zoom get set m).
Proof. intros Hs Hm s. specialize (Hm (get s)). unfold zoom. destruct (m (get s)) as [r t]. by apply Hs. Qed.
End Keeps.

(** Goes through the binds and tests of a method. *)
Ltac keeping := cbv zeta; repeat lazymatch goal with
  | |- keeps _ (_ ≫= _) => apply keeps_bind; [apply _| |intros ?]
  | |- keeps _ (mret _) => apply keeps_ret; apply _
  | |- keeps _ (gets _) => apply keeps_gets; apply _
  | |- keeps _ (lift _) => apply keeps_lift; apply _
  | |- keeps _ (modify _) => apply keeps_modify; intros ?
  | |- context [match _ with _ => _ end] => case_match
  end.

(** ** Reachability *)

Section Reach.
Context {S : Type} (step : S -> S -> Prop).

Inductive reach (s : S) : S -> Prop :=
| reach_refl : reach s s
| reach_step t u : reach s t -> step t u -> reach s u.

Lemma reach_invariant (I : S -> Prop) s t :
  (forall a b, I a -> step a b -> I b) -> I s -> reach s t -> I t.
Proof. intros Hstep Hs. induction 1; eauto. Qed.
End Reach.
