(* ===== verification/WrappingInts.v ===== *)
(** * Wrapping 32-bit sequence numbers

    Models [libsponge/wrapping_integers.hh] and [wrapping_integers.cc]: the class
    [WrappingInt32], its operators, and the conversions [wrap] and [unwrap]
    between absolute 64-bit and relative 32-bit sequence numbers. *)

From S2P Require Import Prelude.

(** A 32-bit integer relative to an arbitrary initial sequence number. *)
Record WrappingInt32 : Type := mkWrappingInt32 { raw_value : Z }.

(** The explicit constructor takes a [uint32_t]: its argument is converted. *)
Definition to_WrappingInt32 (raw : Z) : WrappingInt32 := mkWrappingInt32 (u32 raw).

#[export] Instance WrappingInt32_eq_dec : EqDecision WrappingInt32.
Proof. solve_decision. Defined.

(** What the type [uint32_t] of the field guarantees. *)
Definition wi_ok (w : WrappingInt32) : Prop := 0 <= raw_value w < W32.

(** [operator==]. *)
Definition wi_eqb (a b : WrappingInt32) : bool := raw_value a =? raw_value b.

(** [operator+ (WrappingInt32, uint32_t)]. *)
Definition wi_add (a : WrappingInt32) (b : Z) : WrappingInt32 :=
  to_WrappingInt32 (raw_value a + b).

(** [operator- (WrappingInt32, uint32_t)]: [a + -b]. *)
Definition wi_sub (a : WrappingInt32) (b : Z) : WrappingInt32 := wi_add a (u32 (- b)).

(** [operator- (WrappingInt32, WrappingInt32)], an [int32_t]. *)
Definition wi_diff (a b : WrappingInt32) : Z := s32 (u32 (raw_value a - raw_value b)).

Definition wrap (n : Z) (isn : WrappingInt32) : WrappingInt32 :=
  let n := n mod (4294967295 + 1) in
  wi_add isn (u32 n).

Definition unwrap (n isn : WrappingInt32) (checkpoint : Z) : Z :=
  let t := u32 (raw_value n - raw_value isn) in
  if checkpoint <=? t then t
  else
    let time := u64 (checkpoint - t) / W32 in
    let t := u64 (t + u64 (time * W32)) in
    if W31 <? u64 (checkpoint - t) then u64 (t + W32) else t.

(** ** Properties *)

Lemma to_WrappingInt32_ok z : wi_ok (to_WrappingInt32 z).
Proof. apply u32_range. Qed.

Lemma wi_add_ok a b : wi_ok (wi_add a b).
Proof. apply to_WrappingInt32_ok. Qed.

Lemma wrap_ok n isn : wi_ok (wrap n isn).
Proof. apply wi_add_ok. Qed.

#[export] Hint Resolve to_WrappingInt32_ok wi_add_ok wrap_ok : sponge.

Lemma wi_eqb_true a b : wi_eqb a b = true <-> a = b.
Proof.
  destruct a, b. unfold wi_eqb. simpl. rewrite Z.eqb_eq. split; congruence.
Qed.

Lemma raw_wrap n isn : raw_value (wrap n isn) = (raw_value isn + n) mod W32.
Proof.
  unfold wrap, wi_add, to_WrappingInt32, u32. simpl.
  change (4294967295 + 1) with W32.
  by rewrite Zmod_mod, Zplus_mod_idemp_r.
Qed.

Lemma wi_ext a b : raw_value a = raw_value b -> a = b.
Proof. destruct a, b. simpl. by intros ->. Qed.

(** Two absolute numbers wrap to the same value exactly when they differ by a
    multiple of 2^32. *)
Lemma wrap_eq_iff n m isn :
  wrap n isn = wrap m isn <-> n mod W32 = m mod W32.
Proof.
  split.
  - intros E%(f_equal raw_value). rewrite !raw_wrap in E.
    rewrite <- (Z.add_simpl_l (raw_value isn) n), <- (Z.add_simpl_l (raw_value isn) m).
    by rewrite <- (Zminus_mod_idemp_l (raw_value isn + n)), E, Zminus_mod_idemp_l.
  - intros E. apply wi_ext. rewrite !raw_wrap.
    by rewrite <- Zplus_mod_idemp_r, E, Zplus_mod_idemp_r.
Qed.

(** Adding in sequence space commutes with [wrap]. *)
Lemma wi_add_wrap n isn b : wi_add (wrap n isn) b = wrap (n + b) isn.
Proof.
  apply wi_ext. rewrite raw_wrap.
  change (u32 (raw_value (wrap n isn) + b) = (raw_value isn + (n + b)) mod W32).
  rewrite raw_wrap. unfold u32. rewrite Zplus_mod_idemp_l. f_equal. lia.
Qed.

(** The distance from [isn] that [unwrap] starts from. *)
Lemma unwrap_residue n isn :
  wi_ok n -> wrap (u32 (raw_value n - raw_value isn)) isn = n.
Proof.
  intros Hn. apply wi_ext. rewrite raw_wrap. unfold u32.
  rewrite Zplus_mod_idemp_r. rewrite Z.mod_small; unfold wi_ok in Hn; lia.
Qed.

(** The three outcomes of [unwrap]: the residue [t] itself, or the candidate
    below or above the checkpoint. *)
Lemma unwrap_cases n isn cp :
  wi_ok n -> 0 <= cp < W64 - W32 ->
  let t := u32 (raw_value n - raw_value isn) in
  exists k, 0 <= k /\ unwrap n isn cp = t + k * W32 /\
    ((k = 0 /\ cp <= t) \/
     (unwrap n isn cp <= cp /\ cp - unwrap n isn cp <= W31) \/
     (cp < unwrap n isn cp /\ unwrap n isn cp - cp < W31)).
Proof.
  intros Hn Hcp t. pose proof (u32_range (raw_value n - raw_value isn)) as Ht.
  unfold unwrap. fold t in Ht |- *.
  destruct (Z.leb_spec cp t) as [Hle|Hlt]; [exists 0; lia|].
  set (time := u64 (cp - t) / W32).
  assert (Htime : time = (cp - t) / W32) by (unfold time; nowrap; done).
  pose proof (Z_div_mod_eq_full (cp - t) W32) as Hdm.
  pose proof (Z.mod_pos_bound (cp - t) W32 ltac:(lia)) as Hr.
  assert (0 <= time) by (rewrite Htime; apply Z.div_pos; lia).
  rewrite <- Htime in Hdm. nowrap.
  ztest; [exists (time + 1)|exists time]; nowrap; lia.
Qed.

(** [unwrap] inverts [wrap] in a window around the checkpoint. *)
Lemma unwrap_wrap n isn cp :
  wi_ok isn -> 0 <= n -> 0 <= cp < W64 - W32 -> n - cp < W31 -> cp - n <= W31 ->
  unwrap (wrap n isn) isn cp = n.
Proof.
  intros Hi Hn Hcp H1 H2.
  destruct (unwrap_cases (wrap n isn) isn cp (wrap_ok _ _) Hcp) as (k & Hk & E & Hc).
  assert (Ht : u32 (raw_value (wrap n isn) - raw_value isn) = n mod W32).
  { rewrite raw_wrap. unfold u32. rewrite Zminus_mod_idemp_l. f_equal. lia. }
  rewrite Ht in *. pose proof (Z_div_mod_eq_full n W32).
  pose proof (Z.mod_pos_bound n W32 ltac:(lia)).
  pose proof (Z.div_pos n W32 ltac:(lia) ltac:(lia)).
  rewrite E in *. lia.
Qed.

(** within 2^31 of the checkpoint (strictly less above it) the absolute and the
    relative numbers determine each other: unwrapping the wrapped [n] gives [n]
    back for every ISN, and two absolute numbers of that window with the same
    32-bit representation are equal. *)
Theorem seqno_roundtrip n m isn cp :
  wi_ok isn -> 0 <= n -> 0 <= m -> 0 <= cp < W64 - W32 ->
  -W31 <= n - cp < W31 -> -W31 <= m - cp < W31 ->
  unwrap (wrap n isn) isn cp = n /\ (wrap n isn = wrap m isn -> n = m).
Proof.
  intros Hi Hn Hm Hcp H1 H2. assert (E := unwrap_wrap n isn cp Hi Hn Hcp ltac:(lia) ltac:(lia)).
  split; [done|]. intros Hw. rewrite <- E, Hw. apply unwrap_wrap; done || lia.
Qed.

Lemma seqno_roundtrip_witness :
  unwrap (wrap 4294967300 (to_WrappingInt32 4294967290)) (to_WrappingInt32 4294967290) 4294967000
  = 4294967300.
Proof.
  apply (seqno_roundtrip 4294967300 4294967299 (to_WrappingInt32 4294967290) 4294967000);
    [apply to_WrappingInt32_ok|lia..].
Defined.

(** C17: the documented contract of [unwrap]: the result is an absolute sequence
    number that wraps to [n], and no other one is closer to the checkpoint, for
    checkpoints below 2^64 - 2^32 (beyond, the 64-bit result may wrap). *)
Theorem unwrap_closest n isn cp :
  wi_ok n -> 0 <= cp < W64 - W32 ->
  0 <= unwrap n isn cp < W64 /\
  wrap (unwrap n isn cp) isn = n /\
  forall x, 0 <= x -> wrap x isn = n -> Z.abs (unwrap n isn cp - cp) <= Z.abs (x - cp).
Proof.
  intros Hn Hcp.
  destruct (unwrap_cases n isn cp Hn Hcp) as (k & Hk & E & Hc).
  pose proof (u32_range (raw_value n - raw_value isn)) as Ht.
  pose proof (unwrap_residue n isn Hn) as Hres.
  set (t := u32 (raw_value n - raw_value isn)) in *.
  assert (Hmod : forall x, wrap x isn = n -> x mod W32 = t).
  { intros x Hx. rewrite <- Hres, wrap_eq_iff in Hx. by rewrite (Z.mod_small t) in Hx by lia. }
  split; [lia|split].
  - rewrite E, <- Hres at 1. apply wrap_eq_iff. apply Z_mod_plus_full.
  - intros x Hx Hw%Hmod. pose proof (Z_div_mod_eq_full x W32).
    pose proof (Z.div_pos x W32 ltac:(lia) ltac:(lia)). lia.
Qed.

Lemma unwrap_closest_witness :
  unwrap (to_WrappingInt32 10) (to_WrappingInt32 0) 4294967295 = 4294967306 /\
  wrap 4294967306 (to_WrappingInt32 0) = to_WrappingInt32 10.
Proof.
  destruct (unwrap_closest (to_WrappingInt32 10) (to_WrappingInt32 0) 4294967295) as (_ & H & _);
    [apply to_WrappingInt32_ok|lia|].
  split; [reflexivity|exact H].
Defined.
