(* ===== verification/Buffers.v ===== *)
(** * Reference-counted buffers

    Models [libsponge/util/buffer.hh] and [buffer.cc]: [Buffer] (a shared string
    with a starting offset), [BufferList] (a queue of buffers) and
    [BufferViewList]. The shared string is never written after construction, and
    [remove_prefix] changes only the buffer's own offset and pointer, so sharing
    is not observable and a buffer is a value. *)

From S2P Require Import Prelude.

(** ** Buffer *)

Record Buffer : Type := mkBuffer {
  _storage : option bytes;       (* std::shared_ptr<std::string> *)
  _starting_offset : Z           (* size_t *)
}.

(** [Buffer() = default]. *)
Definition Buffer_empty : Buffer := mkBuffer None 0.

(** [Buffer(std::string &&str)]. *)
Definition Buffer_of_string (str : bytes) : Buffer := mkBuffer (Some str) 0.

Definition Buffer_str (b : Buffer) : bytes :=
  match _storage b with
  | None => []
  | Some s => zdrop (_starting_offset b) s
  end.

Definition Buffer_size (b : Buffer) : Z := zlen (Buffer_str b).

(** [Buffer::at]: [std::string_view::at] throws on a bad position. *)
Definition Buffer_at (b : Buffer) (n : Z) : res Z :=
  match znth (Buffer_str b) n with
  | Some c => Ok (byte_val c)
  | None => Throw (out_of_range "basic_string_view::at")
  end.

Definition Buffer_copy (b : Buffer) : bytes := Buffer_str b.

Definition Buffer_remove_prefix (b : Buffer) (n : Z) : res Buffer :=
  if Buffer_size b <? n then Throw (out_of_range "Buffer::remove_prefix")
  else
    let off := _starting_offset b +64 n in
    match _storage b with
    | Some s => if off =? zlen s then Ok (mkBuffer None off) else Ok (mkBuffer (Some s) off)
    | None => Ok (mkBuffer None off)
    end.

(** ** BufferList *)

Abbreviation BufferList := (list Buffer).

Definition BufferList_append (l other : BufferList) : BufferList := l ++ other.

(** [BufferList(Buffer)] and [BufferList(std::string &&)]. *)
Definition BufferList_of_Buffer (b : Buffer) : BufferList := [b].
Definition BufferList_of_string (str : bytes) : BufferList :=
  BufferList_append [] (BufferList_of_Buffer (Buffer_of_string str)).

(** [BufferList::operator Buffer]. *)
Definition BufferList_to_Buffer (l : BufferList) : res Buffer :=
  match l with
  | [] => Ok Buffer_empty
  | [b] => Ok b
  | _ => Throw (runtime_error
      "BufferList: please use concatenate() to combine a multi-Buffer BufferList into one Buffer")
  end.

Definition BufferList_concatenate (l : BufferList) : bytes :=
  fold_left (fun ret b => ret ++ Buffer_str b) l [].

Definition BufferList_size (l : BufferList) : Z :=
  fold_left (fun ret b => ret +64 Buffer_size b) l 0.

Fixpoint BufferList_remove_prefix (l : BufferList) (n : Z) : res BufferList :=
  if 0 <? n then
    match l with
    | [] => Throw (out_of_range "BufferList::remove_prefix")
    | b :: r =>
        if n <? Buffer_size b then
          b' ← Buffer_remove_prefix b n; Ok (b' :: r)
        else BufferList_remove_prefix r (n -64 Buffer_size b)
    end
  else Ok l.

(** ** BufferViewList: a queue of [std::string_view]s *)

Abbreviation BufferViewList := (list bytes).

Definition BufferViewList_of_string (str : bytes) : BufferViewList := [str].

Definition BufferViewList_of_BufferList (l : BufferList) : BufferViewList :=
  fold_left (fun views x => views ++ [Buffer_str x]) l [].

Fixpoint BufferViewList_remove_prefix (l : BufferViewList) (n : Z) : res BufferViewList :=
  if 0 <? n then
    match l with
    | [] => Throw (out_of_range "BufferListView::remove_prefix")
    | v :: r =>
        if n <? zlen v then Ok (zdrop n v :: r)
        else BufferViewList_remove_prefix r (n -64 zlen v)
    end
  else Ok l.

Definition BufferViewList_size (l : BufferViewList) : Z :=
  fold_left (fun ret v => ret +64 zlen v) l 0.

(** ** Properties *)

(** A buffer as the constructors and [remove_prefix] leave it. *)
Definition Buffer_wf (b : Buffer) : Prop :=
  0 <= _starting_offset b < W64 /\
  match _storage b with
  | Some s => _starting_offset b <= zlen s < W64
  | None => True
  end.

Lemma Buffer_wf_of_string s : zlen s < W64 -> Buffer_wf (Buffer_of_string s).
Proof. unfold Buffer_wf. simpl. zlia. Qed.

Lemma Buffer_str_of_string s : Buffer_str (Buffer_of_string s) = s.
Proof. done. Qed.

Lemma Buffer_size_nonneg b : 0 <= Buffer_size b.
Proof. apply zlen_nonneg. Qed.

Lemma Buffer_size_lt b : Buffer_wf b -> Buffer_size b < W64.
Proof.
  unfold Buffer_wf, Buffer_size, Buffer_str. destruct (_storage b) as [s|]; simpl; [|done].
  intros [? ?]. rewrite zlen_zdrop by lia. lia.
Qed.

(** [Buffer::remove_prefix] drops [n] bytes or throws when there are fewer. *)
Lemma Buffer_remove_prefix_spec b n :
  Buffer_wf b -> 0 <= n ->
  if Buffer_size b <? n
  then Buffer_remove_prefix b n = Throw (out_of_range "Buffer::remove_prefix")
  else exists b', Buffer_remove_prefix b n = Ok b' /\ Buffer_wf b' /\
       Buffer_str b' = zdrop n (Buffer_str b).
Proof.
  intros [Hoff Hs] Hn. unfold Buffer_remove_prefix.
  destruct (Z.ltb_spec (Buffer_size b) n) as [Hlt|Hge]; [done|].
  unfold Buffer_size, Buffer_str in *. destruct (_storage b) as [s|] eqn:Es.
  - rewrite zlen_zdrop in Hge by lia. nowrap.
    ztest; (eexists; split; [done|]); unfold Buffer_wf; simpl.
    + split; [lia|]. rewrite zdrop_zdrop by lia. by rewrite zdrop_all by lia.
    + split; [lia|]. by rewrite zdrop_zdrop by lia.
  - rewrite zlen_nil in Hge. assert (n = 0) by lia. subst. nowrap.
    eexists. split; [done|]. unfold Buffer_wf. simpl. split; [lia|done].
Qed.

Lemma concatenate_acc l acc :
  fold_left (fun ret b => ret ++ Buffer_str b) l acc = acc ++ BufferList_concatenate l.
Proof.
  unfold BufferList_concatenate. revert acc. induction l as [|b l IH]; intros acc; simpl.
  - by rewrite app_nil_r.
  - rewrite IH, (IH (Buffer_str b)). by rewrite app_assoc.
Qed.

Lemma concatenate_cons b l :
  BufferList_concatenate (b :: l) = Buffer_str b ++ BufferList_concatenate l.
Proof. unfold BufferList_concatenate at 1. simpl. by rewrite concatenate_acc. Qed.

Lemma concatenate_app l k :
  BufferList_concatenate (l ++ k) = BufferList_concatenate l ++ BufferList_concatenate k.
Proof.
  induction l as [|b l IH]; simpl; [done|]. by rewrite !concatenate_cons, IH, app_assoc.
Qed.

Lemma concatenate_of_string s : BufferList_concatenate (BufferList_of_string s) = s.
Proof. done. Qed.

Lemma size_acc (l : BufferList) acc :
  0 <= acc -> acc + zlen (BufferList_concatenate l) < W64 ->
  fold_left (fun ret b => ret +64 Buffer_size b) l acc = acc + zlen (BufferList_concatenate l).
Proof.
  revert acc. induction l as [|b l IH]; intros acc Ha Hb; simpl.
  - change (BufferList_concatenate []) with (@nil byte). rewrite zlen_nil. lia.
  - rewrite concatenate_cons, zlen_app in *. fold (Buffer_size b) in *.
    pose proof (Buffer_size_nonneg b). pose proof (zlen_nonneg (BufferList_concatenate l)).
    nowrap. rewrite IH; lia.
Qed.

(** As long as the total fits in a [size_t], [size] is the number of bytes. *)
Lemma BufferList_size_spec l :
  zlen (BufferList_concatenate l) < W64 ->
  BufferList_size l = zlen (BufferList_concatenate l).
Proof. intros H. unfold BufferList_size. rewrite size_acc; lia. Qed.

(** [BufferList::remove_prefix(n)] discards exactly the first [n] bytes, or
    throws when there are fewer. *)
Lemma BufferList_remove_prefix_spec l n :
  Forall Buffer_wf l -> 0 <= n < W64 ->
  if zlen (BufferList_concatenate l) <? n
  then BufferList_remove_prefix l n = Throw (out_of_range "BufferList::remove_prefix")
  else exists l', BufferList_remove_prefix l n = Ok l' /\ Forall Buffer_wf l' /\
       BufferList_concatenate l' = zdrop n (BufferList_concatenate l).
Proof.
  intros Hwf. revert n. induction Hwf as [|b l Hb Hl IH]; intros n Hn.
  - change (BufferList_concatenate []) with (@nil byte). rewrite zlen_nil. simpl.
    ztest; [done|]. replace n with 0 by lia. by exists [].
  - rewrite concatenate_cons, zlen_app. fold (Buffer_size b). simpl.
    destruct (Z.ltb_spec 0 n) as [Hpos|Hz].
    2:{ replace n with 0 by lia. pose proof (Buffer_size_nonneg b).
        ztest; [zlia|]. exists (b :: l). rewrite concatenate_cons. by auto. }
    pose proof (Buffer_size_nonneg b).
    destruct (Z.ltb_spec n (Buffer_size b)) as [Hlt|Hge].
    + pose proof (Buffer_remove_prefix_spec b n Hb ltac:(lia)) as Hr.
      destruct (Z.ltb_spec (Buffer_size b) n); [lia|].
      destruct Hr as (b' & -> & Hb' & E). simpl. ztest; [zlia|].
      exists (b' :: l). split; [done|]. split; [by constructor|].
      rewrite concatenate_cons, E, zdrop_app_le; [done|]. unfold Buffer_size in *. lia.
    + nowrap. specialize (IH (n - Buffer_size b) ltac:(lia)).
      destruct (Z.ltb_spec (zlen (BufferList_concatenate l)) (n - Buffer_size b)); ztest; try lia.
      * done.
      * destruct IH as (l' & -> & Hl' & E). exists l'.
        by rewrite E, zdrop_app_ge by (unfold Buffer_size in *; lia).
Qed.

(** The non-owning view list behaves as the list it was built from. *)
Lemma views_of_BufferList l :
  BufferViewList_of_BufferList l = map Buffer_str l.
Proof.
  unfold BufferViewList_of_BufferList.
  enough (forall acc, fold_left (fun views x => views ++ [Buffer_str x]) l acc
                      = acc ++ map Buffer_str l) as H by apply H.
  induction l as [|b l IH]; intros acc; simpl; [by rewrite app_nil_r|].
  by rewrite IH, <- app_assoc.
Qed.

Lemma BufferViewList_size_views l :
  BufferViewList_size (map Buffer_str l) = BufferList_size l.
Proof.
  unfold BufferViewList_size, BufferList_size. generalize 0.
  induction l as [|b l IH]; intros a; simpl; [done|]. apply IH.
Qed.

(** Discarding a prefix commutes with taking views. *)
Lemma BufferViewList_simulates l n l' :
  Forall Buffer_wf l -> 0 <= n < W64 ->
  BufferList_remove_prefix l n = Ok l' ->
  BufferViewList_remove_prefix (map Buffer_str l) n = Ok (map Buffer_str l').
Proof.
  intros Hwf. revert n. induction Hwf as [|b l Hb Hl IH]; intros n Hn; simpl.
  - ztest; [done|]. by intros [= <-].
  - destruct (Z.ltb_spec 0 n); [|by intros [= <-]]. fold (Buffer_size b).
    destruct (Z.ltb_spec n (Buffer_size b)).
    + pose proof (Buffer_remove_prefix_spec b n Hb ltac:(lia)) as Hr.
      destruct (Z.ltb_spec (Buffer_size b) n); [lia|].
      destruct Hr as (b' & -> & _ & E). intros [= <-]. simpl. by rewrite E.
    + pose proof (Buffer_size_nonneg b). intros Hrun. apply IH; [|done]. nowrap. lia.
Qed.

(** [BufferList::remove_prefix(n)] discards exactly the first [n] bytes of the
    concatenated contents and keeps the list well formed, [size()] is then the
    number of bytes left, and the non-owning [BufferViewList] taken before does
    the same on its own; with fewer than [n] bytes it throws [out_of_range]. *)
Theorem buffer_lists_drop_prefix l n :
  Forall Buffer_wf l -> zlen (BufferList_concatenate l) < W64 -> 0 <= n < W64 ->
  if zlen (BufferList_concatenate l) <? n
  then BufferList_remove_prefix l n = Throw (out_of_range "BufferList::remove_prefix")
  else exists l', BufferList_remove_prefix l n = Ok l' /\ Forall Buffer_wf l' /\
       BufferList_concatenate l' = zdrop n (BufferList_concatenate l) /\
       BufferList_size l' = zlen (BufferList_concatenate l) - n /\
       BufferViewList_remove_prefix (BufferViewList_of_BufferList l) n
         = Ok (BufferViewList_of_BufferList l') /\
       BufferViewList_size (BufferViewList_of_BufferList l') = BufferList_size l'.
Proof.
  intros Hwf Hsz Hn. pose proof (BufferList_remove_prefix_spec l n Hwf Hn) as H.
  destruct (Z.ltb_spec (zlen (BufferList_concatenate l)) n); [done|].
  destruct H as (l' & Hrun & Hwf' & E). exists l'.
  rewrite BufferList_size_spec; rewrite E, ?zlen_zdrop by lia; [|lia].
  rewrite !views_of_BufferList. repeat split; try done.
  - by apply BufferViewList_simulates.
  - by rewrite BufferViewList_size_views, BufferList_size_spec, E, zlen_zdrop
      by (rewrite ?E, ?zlen_zdrop; lia).
Qed.

Lemma buffer_lists_drop_prefix_witness :
  exists l', BufferList_remove_prefix
               [Buffer_of_string [byte_of 1; byte_of 2]; Buffer_empty;
                Buffer_of_string [byte_of 3; byte_of 4]] 3 = Ok l' /\ Forall Buffer_wf l' /\ BufferList_concatenate l' = [byte_of 4].
Proof.
  destruct (buffer_lists_drop_prefix
           [Buffer_of_string [byte_of 1; byte_of 2]; Buffer_empty;
            Buffer_of_string [byte_of 3; byte_of 4]] 3) as (l' & H1 & H2 & H3 & _);
    [repeat constructor; vm_compute; congruence|reflexivity|lia|].
  exists l'. split; [exact H1|]. split; [exact H2|exact H3].
Defined.
