(* ===== verification/ByteStreams.v ===== *)
(** * The in-order byte stream

    Models the live class [ByteStream] of [libsponge/byte_stream.hh] and
    [byte_stream.cc] (both files also hold an older version, commented out), its
    abstract specification as a bounded FIFO with its whole history, and the
    refinement between the two. *)

From S2P Require Import Prelude Buffers.

Record ByteStream : Type := mkByteStream {
  bs_buffer : BufferList;
  bs_capacity : Z;
  bs_read_count : Z;
  bs_write_count : Z;
  bs_input_ended_flag : bool;
  bs_error : bool
}.

Definition ByteStream_new (capacity : Z) : ByteStream :=
  mkByteStream [] capacity 0 0 false false.

(** Returns the number of bytes accepted. *)
Definition ByteStream_write (s : ByteStream) (data : bytes) : Z * ByteStream :=
  let len := zlen data in
  let len := if (bs_capacity s -64 BufferList_size (bs_buffer s)) <? len
             then bs_capacity s -64 BufferList_size (bs_buffer s) else len in
  (len,
   mkByteStream
     (BufferList_append (bs_buffer s) (BufferList_of_string (ztake len data)))
     (bs_capacity s) (bs_read_count s) (bs_write_count s +64 len)
     (bs_input_ended_flag s) (bs_error s)).

Definition ByteStream_peek_output (s : ByteStream) (len : Z) : bytes :=
  let length := if BufferList_size (bs_buffer s) <? len
                then BufferList_size (bs_buffer s) else len in
  ztake length (BufferList_concatenate (bs_buffer s)).

Definition ByteStream_pop_output (s : ByteStream) (len : Z) : res ByteStream :=
  let length := if BufferList_size (bs_buffer s) <? len
                then BufferList_size (bs_buffer s) else len in
  buf ← BufferList_remove_prefix (bs_buffer s) length;
  Ok (mkByteStream buf (bs_capacity s) (bs_read_count s +64 length)
        (bs_write_count s) (bs_input_ended_flag s) (bs_error s)).

Definition ByteStream_read (s : ByteStream) (len : Z) : res (bytes * ByteStream) :=
  let ret := ByteStream_peek_output s len in
  s' ← ByteStream_pop_output s len;
  Ok (ret, s').

Definition ByteStream_end_input (s : ByteStream) : ByteStream :=
  mkByteStream (bs_buffer s) (bs_capacity s) (bs_read_count s) (bs_write_count s) true (bs_error s).

Definition ByteStream_set_error (s : ByteStream) : ByteStream :=
  mkByteStream (bs_buffer s) (bs_capacity s) (bs_read_count s) (bs_write_count s)
    (bs_input_ended_flag s) true.

Definition ByteStream_input_ended (s : ByteStream) : bool := bs_input_ended_flag s.
Definition ByteStream_error (s : ByteStream) : bool := bs_error s.
Definition ByteStream_buffer_size (s : ByteStream) : Z := BufferList_size (bs_buffer s).
Definition ByteStream_buffer_empty (s : ByteStream) : bool := BufferList_size (bs_buffer s) =? 0.
Definition ByteStream_eof (s : ByteStream) : bool :=
  ByteStream_buffer_empty s && ByteStream_input_ended s.
Definition ByteStream_bytes_written (s : ByteStream) : Z := bs_write_count s.
Definition ByteStream_bytes_read (s : ByteStream) : Z := bs_read_count s.
Definition ByteStream_remaining_capacity (s : ByteStream) : Z :=
  bs_capacity s -64 BufferList_size (bs_buffer s).

(** ** Specification: a bounded FIFO that remembers every byte written *)

Record fifo : Type := mkFifo {
  ff_hist : bytes;      (* every byte accepted so far *)
  ff_nread : Z;         (* how many of them were popped *)
  ff_cap : Z;
  ff_ended : bool;
  ff_err : bool
}.

Definition fifo_pending (f : fifo) : bytes := zdrop (ff_nread f) (ff_hist f).
Definition fifo_room (f : fifo) : Z := ff_cap f - zlen (fifo_pending f).

(** Bytes that a write of [data] adds to the history. *)
Definition fifo_accepts (f : fifo) (data : bytes) : bytes := ztake (fifo_room f) data.

Definition fifo_write (f : fifo) (data : bytes) : fifo :=
  mkFifo (ff_hist f ++ fifo_accepts f data) (ff_nread f) (ff_cap f) (ff_ended f) (ff_err f).

Definition fifo_pop (f : fifo) (n : Z) : fifo :=
  mkFifo (ff_hist f) (ff_nread f + Z.min n (zlen (fifo_pending f))) (ff_cap f)
    (ff_ended f) (ff_err f).

(** The state [s] represents the FIFO [f]. *)
Record bs_repr (s : ByteStream) (f : fifo) : Prop := {
  br_wf : Forall Buffer_wf (bs_buffer s);
  br_pending : BufferList_concatenate (bs_buffer s) = fifo_pending f;
  br_cap : bs_capacity s = ff_cap f;
  br_capb : 0 <= ff_cap f < W64;
  br_room : zlen (fifo_pending f) <= ff_cap f;
  br_nread : bs_read_count s = ff_nread f;
  br_nreadb : 0 <= ff_nread f <= zlen (ff_hist f);
  br_written : bs_write_count s = zlen (ff_hist f);
  br_total : zlen (ff_hist f) < W64;
  br_ended : bs_input_ended_flag s = ff_ended f;
  br_err : bs_error s = ff_err f
}.

(** ** Per-operation refinement lemmas, used by the clients of the stream *)

Lemma fifo_pending_len f :
  0 <= ff_nread f <= zlen (ff_hist f) -> zlen (fifo_pending f) = zlen (ff_hist f) - ff_nread f.
Proof. apply zlen_zdrop. Qed.

Lemma bs_repr_new cap : 0 <= cap < W64 -> bs_repr (ByteStream_new cap) (mkFifo [] 0 cap false false).
Proof. intros. split; unfold zlen; simpl; done || lia. Qed.

Section Refinement.
Context (s : ByteStream) (f : fifo) (R : bs_repr s f).

Lemma bs_size : BufferList_size (bs_buffer s) = zlen (fifo_pending f).
Proof. destruct R. rewrite <- br_pending0. apply BufferList_size_spec. rewrite br_pending0. lia. Qed.

Lemma bs_buffer_size_spec : ByteStream_buffer_size s = zlen (fifo_pending f).
Proof. apply bs_size. Qed.

Lemma bs_buffer_empty_spec : ByteStream_buffer_empty s = (zlen (fifo_pending f) =? 0).
Proof. unfold ByteStream_buffer_empty. by rewrite bs_size. Qed.

Lemma bs_remaining_spec : ByteStream_remaining_capacity s = fifo_room f.
Proof.
  unfold ByteStream_remaining_capacity, fifo_room. rewrite bs_size. destruct R.
  rewrite br_cap0. pose proof (zlen_nonneg (fifo_pending f)). by nowrap.
Qed.

Lemma bs_eof_spec : ByteStream_eof s = (zlen (fifo_pending f) =? 0) && ff_ended f.
Proof.
  unfold ByteStream_eof. rewrite bs_buffer_empty_spec. unfold ByteStream_input_ended.
  by rewrite (br_ended _ _ R).
Qed.

(** [write] appends the part that fits and returns its length. *)
Lemma bs_write_spec data :
  zlen (ff_hist f) + zlen (fifo_accepts f data) < W64 ->
  fst (ByteStream_write s data) = zlen (fifo_accepts f data) /\
  bs_repr (snd (ByteStream_write s data)) (fifo_write f data).
Proof.
  intros Hfit. pose proof bs_remaining_spec as Hrem. unfold ByteStream_remaining_capacity in Hrem.
  unfold ByteStream_write. rewrite Hrem. simpl.
  assert (Hroom : 0 <= fifo_room f) by (unfold fifo_room; destruct R; lia).
  set (len := if fifo_room f <? zlen data then fifo_room f else zlen data).
  assert (Hlen : ztake len data = fifo_accepts f data /\ len = zlen (fifo_accepts f data)).
  { unfold len, fifo_accepts. rewrite zlen_ztake_min by lia. ztest; split; try lia; [done|].
    rewrite !ztake_all; [done|lia..]. }
  destruct Hlen as [Ht Hl]. rewrite Ht. split; [done|].
  destruct R. pose proof (fifo_pending_len f br_nreadb0) as Hp.
  assert (Hpend : fifo_pending (fifo_write f data) = fifo_pending f ++ fifo_accepts f data).
  { unfold fifo_pending. simpl. apply zdrop_app_le. lia. }
  assert (zlen (fifo_accepts f data) <= fifo_room f)
    by (unfold fifo_accepts; rewrite zlen_ztake_min; lia).
  unfold fifo_room in *. pose proof (zlen_nonneg (fifo_accepts f data)).
  pose proof (zlen_nonneg data).
  split; simpl; rewrite ?Hpend, ?zlen_app; try done; try lia.
  - apply Forall_app. split; [done|]. constructor; [|done].
    apply Buffer_wf_of_string. lia.
  - unfold BufferList_append. by rewrite concatenate_app, br_pending0.
  - nowrap. lia.
Qed.

Lemma bs_peek_spec n : 0 <= n -> ByteStream_peek_output s n = ztake n (fifo_pending f).
Proof.
  intros Hn. unfold ByteStream_peek_output. rewrite bs_size, (br_pending _ _ R).
  ztest; [|done]. rewrite !ztake_all; [done|lia..].
Qed.

(** [pop_output] never throws: it removes at most what is buffered. *)
Lemma bs_pop_spec n :
  0 <= n -> exists s', ByteStream_pop_output s n = Ok s' /\ bs_repr s' (fifo_pop f n).
Proof.
  intros Hn. unfold ByteStream_pop_output. rewrite bs_size.
  set (len := if zlen (fifo_pending f) <? n then zlen (fifo_pending f) else n).
  assert (Hlen : len = Z.min n (zlen (fifo_pending f))) by (unfold len; ztest; lia).
  rewrite Hlen. clear len Hlen. destruct R.
  pose proof (fifo_pending_len f br_nreadb0) as Hp. pose proof (zlen_nonneg (fifo_pending f)).
  pose proof (BufferList_remove_prefix_spec (bs_buffer s) (Z.min n (zlen (fifo_pending f)))
    br_wf0 ltac:(lia)) as Hrp.
  rewrite br_pending0 in Hrp. destruct (Z.ltb_spec (zlen (fifo_pending f))
    (Z.min n (zlen (fifo_pending f)))); [lia|].
  destruct Hrp as (l' & -> & Hwf & Hl). simpl. eexists. split; [done|].
  assert (Hpend : fifo_pending (fifo_pop f n)
                  = zdrop (Z.min n (zlen (fifo_pending f))) (fifo_pending f)).
  { unfold fifo_pending at 1. simpl. unfold fifo_pending at 3. by rewrite zdrop_zdrop by lia. }
  split; simpl; rewrite ?Hpend, ?zlen_zdrop by lia; try done; try lia.
  nowrap. lia.
Qed.

Lemma bs_read_spec n :
  0 <= n -> exists s', ByteStream_read s n = Ok (ztake n (fifo_pending f), s') /\
            bs_repr s' (fifo_pop f n).
Proof.
  intros Hn. unfold ByteStream_read. rewrite bs_peek_spec by done.
  destruct (bs_pop_spec n Hn) as (s' & -> & R'). by exists s'.
Qed.

Lemma bs_end_input_repr :
  bs_repr (ByteStream_end_input s) (mkFifo (ff_hist f) (ff_nread f) (ff_cap f) true (ff_err f)).
Proof. by destruct R. Qed.

Lemma bs_set_error_repr :
  bs_repr (ByteStream_set_error s) (mkFifo (ff_hist f) (ff_nread f) (ff_cap f) (ff_ended f) true).
Proof. by destruct R. Qed.
End Refinement.

(** Reading extends what was delivered along the history. *)
Lemma pop_take f n : 0 <= ff_nread f <= zlen (ff_hist f) -> 0 <= n ->
  ztake (ff_nread f) (ff_hist f) ++ ztake n (fifo_pending f)
  = ztake (ff_nread (fifo_pop f n)) (ff_hist (fifo_pop f n)).
Proof.
  intros Hb Hn. pose proof (fifo_pending_len f Hb) as Hp. simpl. apply znth_ext. intros k Hk.
  set (m := Z.min n (zlen (fifo_pending f))).
  assert (Hm : ztake n (fifo_pending f) = ztake m (fifo_pending f)).
  { unfold m. destruct (Z.le_ge_cases n (zlen (fifo_pending f))).
    - by rewrite Z.min_l. - rewrite Z.min_r by lia. rewrite !ztake_all; [done|lia..]. }
  rewrite Hm. assert (0 <= m <= zlen (fifo_pending f)) by (unfold m; zlia).
  assert (Hd : zlen (ztake (ff_nread f) (ff_hist f)) = ff_nread f) by (apply zlen_ztake; lia).
  destruct (Z.lt_ge_cases k (ff_nread f)) as [?|?].
  { rewrite znth_app_l, !znth_ztake by lia. done. }
  rewrite znth_app_r by lia. rewrite Hd. destruct (Z.lt_ge_cases k (ff_nread f + m)) as [?|?].
  + rewrite !znth_ztake by lia. unfold fifo_pending. rewrite znth_zdrop by lia. f_equal. lia.
  + rewrite !znth_None; [done| |]; rewrite zlen_ztake; lia.
Qed.

(** ** Trace refinement *)

Inductive bs_op : Type :=
| OpWrite (data : bytes)
| OpRead (n : Z)
| OpPop (n : Z)
| OpEnd
| OpError.

(** What a caller can see after an operation: its result and every accessor. *)
Record bs_obs : Type := mkObs {
  ob_count : Z; ob_data : bytes;
  ob_size : Z; ob_empty : bool; ob_eof : bool; ob_ended : bool; ob_error : bool;
  ob_written : Z; ob_read : Z; ob_room : Z; ob_peek : bytes
}.

Definition bs_observe (count : Z) (data : bytes) (s : ByteStream) : bs_obs :=
  mkObs count data (ByteStream_buffer_size s) (ByteStream_buffer_empty s) (ByteStream_eof s)
    (ByteStream_input_ended s) (ByteStream_error s) (ByteStream_bytes_written s)
    (ByteStream_bytes_read s) (ByteStream_remaining_capacity s)
    (ByteStream_peek_output s (ByteStream_buffer_size s)).

Definition bs_step (s : ByteStream) (o : bs_op) : res (bs_obs * ByteStream) :=
  match o with
  | OpWrite d => let '(n, s') := ByteStream_write s d in Ok (bs_observe n [] s', s')
  | OpRead n => '(d, s') ← ByteStream_read s n; Ok (bs_observe 0 d s', s')
  | OpPop n => s' ← ByteStream_pop_output s n; Ok (bs_observe 0 [] s', s')
  | OpEnd => let s' := ByteStream_end_input s in Ok (bs_observe 0 [] s', s')
  | OpError => let s' := ByteStream_set_error s in Ok (bs_observe 0 [] s', s')
  end.

Fixpoint bs_run (s : ByteStream) (ops : list bs_op) : res (list bs_obs) :=
  match ops with
  | [] => Ok []
  | o :: r => '(ob, s') ← bs_step s o; obs ← bs_run s' r; Ok (ob :: obs)
  end.

(** The same on the specification. *)
Definition fifo_observe (count : Z) (data : bytes) (f : fifo) : bs_obs :=
  let n := zlen (fifo_pending f) in
  mkObs count data n (n =? 0) ((n =? 0) && ff_ended f) (ff_ended f) (ff_err f)
    (zlen (ff_hist f)) (ff_nread f) (ff_cap f - n) (fifo_pending f).

(** As the class comment has it, nothing is accepted once the input has ended. *)
Definition fifo_step (f : fifo) (o : bs_op) : bs_obs * fifo :=
  match o with
  | OpWrite d =>
      let d := if ff_ended f then [] else d in
      let f' := fifo_write f d in (fifo_observe (zlen (fifo_accepts f d)) [] f', f')
  | OpRead n => let f' := fifo_pop f n in (fifo_observe 0 (ztake n (fifo_pending f)) f', f')
  | OpPop n => let f' := fifo_pop f n in (fifo_observe 0 [] f', f')
  | OpEnd => let f' := mkFifo (ff_hist f) (ff_nread f) (ff_cap f) true (ff_err f) in
             (fifo_observe 0 [] f', f')
  | OpError => let f' := mkFifo (ff_hist f) (ff_nread f) (ff_cap f) (ff_ended f) true in
               (fifo_observe 0 [] f', f')
  end.

Fixpoint fifo_run (f : fifo) (ops : list bs_op) : list bs_obs :=
  match ops with
  | [] => []
  | o :: r => let '(ob, f') := fifo_step f o in ob :: fifo_run f' r
  end.

(** The caller's part of the contract: counts are [size_t]s, and fewer than
    2^64 bytes are written in all. *)
Definition op_ok (o : bs_op) : Prop :=
  match o with OpRead n | OpPop n => 0 <= n | _ => True end.

(** The writer's part: nothing is written after the end. *)
Fixpoint writes_before_end (ended : bool) (ops : list bs_op) : bool :=
  match ops with
  | [] => true
  | OpWrite d :: r => (negb ended || (zlen d =? 0)) && writes_before_end ended r
  | OpEnd :: r => writes_before_end true r
  | _ :: r => writes_before_end ended r
  end.

Definition op_bytes (o : bs_op) : Z := match o with OpWrite d => zlen d | _ => 0 end.

Definition ops_bytes (ops : list bs_op) : Z := fold_right (fun o a => op_bytes o + a) 0 ops.

Lemma ops_bytes_nonneg ops : 0 <= ops_bytes ops.
Proof. induction ops as [|[] ops IH]; simpl; zlia. Qed.

#[local] Arguments bs_observe : simpl never.
#[local] Arguments fifo_observe : simpl never.

Lemma bs_observe_spec s f n d : bs_repr s f -> bs_observe n d s = fifo_observe n d f.
Proof.
  intros R. unfold bs_observe, fifo_observe.
  rewrite (bs_buffer_size_spec s f R), (bs_buffer_empty_spec s f R), (bs_eof_spec s f R),
    (bs_remaining_spec s f R), (bs_peek_spec s f R) by apply zlen_nonneg.
  rewrite ztake_all by lia. unfold fifo_room. destruct R.
  unfold ByteStream_input_ended, ByteStream_error, ByteStream_bytes_written, ByteStream_bytes_read.
  congruence.
Qed.

Lemma bs_step_refines s f o :
  bs_repr s f -> op_ok o -> zlen (ff_hist f) + op_bytes o < W64 ->
  writes_before_end (ff_ended f) [o] = true ->
  exists s', bs_step s o = Ok (fst (fifo_step f o), s') /\ bs_repr s' (snd (fifo_step f o)) /\
  zlen (ff_hist (snd (fifo_step f o))) <= zlen (ff_hist f) + op_bytes o.
Proof.
  intros R Hok Hfit Hw.
  destruct o as [d|n|n| |]; cbn [bs_step fifo_step fst snd op_ok op_bytes writes_before_end] in *.
  - assert (Hd : (if ff_ended f then [] else d) = d).
    { destruct (ff_ended f); [|done]. rewrite andb_true_r in Hw. apply Z.eqb_eq in Hw. by rewrite (zlen_0_nil d Hw). }
    rewrite Hd. assert (Hacc : zlen (fifo_accepts f d) <= zlen d).
    { unfold fifo_accepts. rewrite zlen_ztake_min; unfold fifo_room; destruct R; lia. }
    destruct (bs_write_spec s f R d ltac:(lia)) as [E R'].
    destruct (ByteStream_write s d) as [n s']. cbn [fst snd] in *. subst n.
    exists s'. rewrite (bs_observe_spec _ _ _ _ R'). simpl ff_hist. rewrite zlen_app. split; [done|]. split; [done|simpl; lia].
  - destruct (bs_read_spec s f R n Hok) as (s' & -> & R'). simpl.
    exists s'. rewrite (bs_observe_spec _ _ _ _ R'). split; [done|]. split; [done|simpl; lia].
  - destruct (bs_pop_spec s f R n Hok) as (s' & -> & R'). simpl.
    exists s'. rewrite (bs_observe_spec _ _ _ _ R'). split; [done|]. split; [done|simpl; lia].
  - pose proof (bs_end_input_repr s f R) as R'. eexists. rewrite (bs_observe_spec _ _ _ _ R').
    split; [done|]. split; [done|simpl; lia].
  - pose proof (bs_set_error_repr s f R) as R'. eexists. rewrite (bs_observe_spec _ _ _ _ R').
    split; [done|]. split; [done|simpl; lia].
Qed.

(** The flag of the specification is the one the writer's discipline is about. *)
Lemma writes_before_end_step f o ops :
  writes_before_end (ff_ended f) (o :: ops) = true ->
  writes_before_end (ff_ended f) [o] = true /\
  writes_before_end (ff_ended (snd (fifo_step f o))) ops = true.
Proof. destruct o; cbn; [intros [-> ->]%andb_prop|..]; done. Qed.

(** C18: trace refinement of [ByteStream] to its class comment: for every capacity and
    every sequence of operations (fewer than 2^64 bytes written in all) whose writer
    writes nothing after [end_input], no operation throws, and every result and every
    accessor ([buffer_size], [eof], [bytes_written], [remaining_capacity],
    [peek_output], ...) after every operation is that of a bounded FIFO that holds the
    whole history of accepted bytes and accepts none once its input has ended. (A
    writer that does write after the end is not refused, against the comment:
    [write_after_end_input_accepted].) *)
Theorem ByteStream_refines_fifo cap ops :
  0 <= cap < W64 -> Forall op_ok ops -> ops_bytes ops < W64 -> writes_before_end false ops = true ->
  bs_run (ByteStream_new cap) ops = Ok (fifo_run (mkFifo [] 0 cap false false) ops).
Proof.
  intros Hcap Hops Hb Hw. pose proof (bs_repr_new cap Hcap) as R. revert R.
  assert (Hh : zlen (ff_hist (mkFifo [] 0 cap false false)) + ops_bytes ops < W64)
    by (simpl; rewrite zlen_nil; lia).
  change false with (ff_ended (mkFifo [] 0 cap false false)) in Hw at 1.
  revert Hh Hw. clear Hcap Hb. generalize (ByteStream_new cap), (mkFifo [] 0 cap false false).
  induction Hops as [|o ops Ho Hops IH]; intros s f Hh Hw R; [done|].
  apply writes_before_end_step in Hw as [Hw1 Hw2]. cbn [bs_run fifo_run ops_bytes fold_right] in *.
  fold (ops_bytes ops) in Hh. pose proof (ops_bytes_nonneg ops).
  destruct (bs_step_refines s f o R Ho ltac:(lia) Hw1) as (s' & -> & R' & Hl). simpl.
  destruct (fifo_step f o) as [ob f']. simpl in *.
  rewrite (IH s' f'); [done|lia|done|done].
Qed.

Lemma ByteStream_refines_fifo_witness :
  bs_run (ByteStream_new 2) [OpWrite [byte_of 1; byte_of 2; byte_of 3]; OpRead 1; OpEnd; OpPop 7]
  = Ok (fifo_run (mkFifo [] 0 2 false false)
          [OpWrite [byte_of 1; byte_of 2; byte_of 3]; OpRead 1; OpEnd; OpPop 7]).
Proof.
  apply (ByteStream_refines_fifo 2); [lia|repeat constructor; simpl; lia|reflexivity|reflexivity].
Defined.

(** divergence from the class comment "the writer can end the input, and then no
    more bytes can be written": [write] does not look at the flag, so bytes
    written after [end_input] are accepted, and a stream at [eof] leaves it. *)
Theorem write_after_end_input_accepted :
  exists s data,
    ByteStream_eof s = true /\ fst (ByteStream_write s data) = zlen data /\ 0 < zlen data /\
    ByteStream_eof (snd (ByteStream_write s data)) = false.
Proof.
  exists (ByteStream_end_input (ByteStream_new 4)), [byte_of 65]. vm_compute. done.
Qed.
