(* ===== verification/Reassembler.v ===== *)
(** * The stream reassembler

    Models the live class [StreamReassembler] of [libsponge/stream_reassembler.hh]
    and [stream_reassembler.cc]: substrings arrive with their index, possibly out of
    order and overlapping, and are written to a [ByteStream] in order.

    The specification is a partial map from indices to the bytes accepted so far
    ([accept], the first byte accepted at an index wins); the output is its longest
    gap-free prefix. *)

From S2P Require Import Prelude Buffers ByteStreams.

Record StreamReassembler : Type := mkReassembler {
  sr_output : ByteStream;
  sr_capacity : Z;
  sr_first_unread : Z;
  sr_first_unassembled : Z;
  sr_first_unacceptable : Z;
  sr_unassembled : Z;
  sr_eof : bool;
  sr_exist : gmap Z bool;        (* m_exist *)
  sr_char : gmap Z byte          (* m_char *)
}.

Definition StreamReassembler_new (capacity : Z) : StreamReassembler :=
  mkReassembler (ByteStream_new capacity) capacity 0 0 capacity 0 false ∅ ∅.

(** The fields the loops of [push_substring] change. *)
Definition sr_set_loop (st : StreamReassembler) (fu un : Z) (ex : gmap Z bool) (ch : gmap Z byte)
  : StreamReassembler :=
  mkReassembler (sr_output st) (sr_capacity st) (sr_first_unread st) fu
    (sr_first_unacceptable st) un (sr_eof st) ex ch.

Definition sr_set_first_unread (st : StreamReassembler) (v : Z) : StreamReassembler :=
  mkReassembler (sr_output st) (sr_capacity st) v (sr_first_unassembled st)
    (sr_first_unacceptable st) (sr_unassembled st) (sr_eof st) (sr_exist st) (sr_char st).

Definition sr_set_output (st : StreamReassembler) (out : ByteStream) (eof : bool)
  : StreamReassembler :=
  mkReassembler out (sr_capacity st) (sr_first_unread st) (sr_first_unassembled st)
    (sr_first_unacceptable st) (sr_unassembled st) eof (sr_exist st) (sr_char st).

(** [m[k]] of an [unordered_map]: the value, default-constructed when absent. *)
Definition map_at {V} (d : V) (m : gmap Z V) (k : Z) : V := default d (m !! k).

Definition NUL : byte := Corelib.Init.Byte.x00.

(** The body of the [for] loop for a byte that passes the capacity test. *)
Definition push_byte (st : StreamReassembler) (to_write : bytes) (cur : Z) (c : byte)
  : StreamReassembler * bytes :=
  let fu := sr_first_unassembled st in
  let un := sr_unassembled st in
  let exist := map_at false (sr_exist st) cur in
  if negb exist then
    let ex := <[cur := true]> (sr_exist st) in
    if cur =? fu then (sr_set_loop st (fu +64 1) un ex (sr_char st), to_write ++ [c])
    else (sr_set_loop st fu (un +64 1) ex (<[cur := c]> (sr_char st)), to_write)
  else if cur =? fu then
    let c' := map_at NUL (sr_char st) cur in
    (sr_set_loop st (fu +64 1) (un -64 1) (sr_exist st) (<[cur := c']> (sr_char st)),
     to_write ++ [c'])
  else (st, to_write).

(** The [for] loop over the bytes of [data], from position [i]. *)
Fixpoint push_loop (st : StreamReassembler) (to_write : bytes) (data : bytes) (i index : Z)
  : StreamReassembler * bytes :=
  match data with
  | [] => (st, to_write)
  | c :: rest =>
      let cur := i +64 index in
      if cur <? (sr_first_unread st +64 sr_capacity st) then
        let '(st', to_write') := push_byte st to_write cur c in
        push_loop st' to_write' rest (i + 1) index
      else (st, to_write)
  end.

(** The [while] loop that moves stored bytes that became contiguous. *)
Fixpoint drain_loop (fuel : nat) (st : StreamReassembler) (to_write : bytes) (cur : Z)
  : res (StreamReassembler * bytes) :=
  match fuel with
  | O => NoFuel
  | S fuel' =>
      let fu := sr_first_unassembled st in
      if cur =? fu then
        let exist := map_at false (sr_exist st) cur in
        let ex := <[cur := exist]> (sr_exist st) in
        if exist then
          let c := map_at NUL (sr_char st) cur in
          drain_loop fuel'
            (sr_set_loop st (fu +64 1) (sr_unassembled st -64 1) ex (<[cur := c]> (sr_char st)))
            (to_write ++ [c]) (cur +64 1)
        else Ok (sr_set_loop st fu (sr_unassembled st) ex (sr_char st), to_write)
      else Ok (st, to_write)
  end.

Definition StreamReassembler_empty (st : StreamReassembler) : bool := sr_unassembled st =? 0.
Definition StreamReassembler_unassembled_bytes (st : StreamReassembler) : Z := sr_unassembled st.

(** The loop of [drain_loop] visits distinct keys of [m_exist]. *)
Definition push_substring (st : StreamReassembler) (data : bytes) (index : Z) (eof : bool)
  : res StreamReassembler :=
  let len := zlen data in
  let st := sr_set_first_unread st (ByteStream_bytes_read (sr_output st)) in
  let '(st, to_write) := push_loop st [] data 0 index in
  '(st, to_write) ← drain_loop (S (size (sr_exist st))) st to_write (index +64 len);
  let out := snd (ByteStream_write (sr_output st) to_write) in
  let eof' := if eof && negb (sr_eof st)
                 && ((index +64 len) <=? (sr_first_unread st +64 sr_capacity st))
              then true else sr_eof st in
  let out := if StreamReassembler_empty st && eof' then ByteStream_end_input out else out in
  Ok (sr_set_output st out eof').

(** The owner of the reassembler reads from [stream_out()]. *)
Definition sr_read (st : StreamReassembler) (n : Z) : res (bytes * StreamReassembler) :=
  '(d, out) ← ByteStream_read (sr_output st) n;
  Ok (d, sr_set_output st out (sr_eof st)).

(** ** Specification *)

Definition accept1 (A : gmap Z byte) (cur : Z) (c : byte) : gmap Z byte :=
  match A !! cur with Some _ => A | None => <[cur := c]> A end.

(** Accept [data] at index [cur], up to but not including [limit]. *)
Fixpoint accept (A : gmap Z byte) (data : bytes) (cur limit : Z) : gmap Z byte :=
  match data with
  | [] => A
  | c :: rest => if cur <? limit then accept (accept1 A cur c) rest (cur + 1) limit else A
  end.

(** The loop variables [fu], [un], [ex], [ch] represent the accepted map [A], of
    which the gap-free part [out] has been written or is about to be. *)
Record sr_core (fu un : Z) (ex : gmap Z bool) (ch : gmap Z byte) (out : bytes)
  (A : gmap Z byte) (limit : Z) : Prop := {
  sc_fu : fu = zlen out;
  sc_exist : forall k, map_at false ex k = true <-> is_Some (A !! k);
  sc_out : forall k c, A !! k = Some c -> k < fu -> znth out k = Some c;
  sc_full : forall k, 0 <= k < fu -> is_Some (A !! k);
  sc_char : forall k c, A !! k = Some c -> fu <= k -> ch !! k = Some c;
  sc_un : un = Z.of_nat (size A) - fu;
  sc_keys : forall k, is_Some (A !! k) -> 0 <= k < limit
}.

(** The object represents the accepted map [A] and the output FIFO [f]. *)
Record sr_repr (st : StreamReassembler) (f : fifo) (A : gmap Z byte) : Prop := {
  rp_out : bs_repr (sr_output st) f;
  rp_cap : sr_capacity st = ff_cap f;
  rp_core : sr_core (sr_first_unassembled st) (sr_unassembled st) (sr_exist st) (sr_char st)
              (ff_hist f) A (ff_nread f + ff_cap f);
  rp_gap : A !! sr_first_unassembled st = None
}.

(** ** Counting keys *)

Lemma size_le_interval {V} (A : gmap Z V) (n : Z) :
  (forall k, is_Some (A !! k) -> 0 <= k < n) -> Z.of_nat (size A) <= Z.max 0 n.
Proof.
  intros H. rewrite <- size_dom.
  assert (Hsub : dom A ⊆ (list_to_set (seqZ 0 (Z.max 0 n)) : gset Z)).
  { intros k Hk. apply elem_of_dom in Hk. apply elem_of_list_to_set, elem_of_seqZ.
    specialize (H k Hk). lia. }
  apply subseteq_size in Hsub. rewrite size_list_to_set in Hsub by apply NoDup_seqZ.
  rewrite length_seqZ in Hsub. lia.
Qed.

Lemma interval_le_size {V} (A : gmap Z V) (n : Z) :
  (forall k, 0 <= k < n -> is_Some (A !! k)) -> n <= Z.of_nat (size A).
Proof.
  intros H. rewrite <- size_dom.
  assert (Hsub : (list_to_set (seqZ 0 n) : gset Z) ⊆ dom A).
  { intros k Hk. apply elem_of_list_to_set, elem_of_seqZ in Hk. apply elem_of_dom, H. lia. }
  apply subseteq_size in Hsub. rewrite size_list_to_set in Hsub by apply NoDup_seqZ.
  rewrite length_seqZ in Hsub. lia.
Qed.

Lemma map_at_true_size (ex : gmap Z bool) (A : gmap Z byte) :
  (forall k, map_at false ex k = true <-> is_Some (A !! k)) -> (size A <= size ex)%nat.
Proof.
  intros H. rewrite <- !size_dom. apply subseteq_size. intros k Hk.
  apply elem_of_dom in Hk. apply elem_of_dom. apply H in Hk.
  unfold map_at in Hk. destruct (ex !! k); [by eexists|done].
Qed.

Lemma map_at_insert_true (ex : gmap Z bool) cur k :
  map_at false (<[cur := true]> ex) k = true <-> k = cur \/ map_at false ex k = true.
Proof.
  unfold map_at. destruct (decide (cur = k)) as [->|Hne].
  - rewrite lookup_insert_eq. split; [by left|done].
  - rewrite lookup_insert_ne by done. split; [by right|by intros [->|?]].
Qed.

(** Re-inserting the value that [operator[]] found changes no lookup. *)
Lemma map_at_insert_id (ex : gmap Z bool) cur k :
  map_at false (<[cur := map_at false ex cur]> ex) k = map_at false ex k.
Proof.
  unfold map_at. destruct (decide (cur = k)) as [->|Hne].
  - by rewrite lookup_insert_eq.
  - by rewrite lookup_insert_ne.
Qed.

(** ** The three ways the loops change the state *)

Section Core.
Context {fu un : Z} {ex : gmap Z bool} {ch : gmap Z byte} {out : bytes}
  {A : gmap Z byte} {limit : Z}.
Context (C : sr_core fu un ex ch out A limit).

Lemma core_fu_nonneg : 0 <= fu.
Proof. rewrite (sc_fu _ _ _ _ _ _ _ C). apply zlen_nonneg. Qed.

Lemma core_fu_le : 0 <= limit -> fu <= limit.
Proof.
  intros Hl. pose proof (interval_le_size A fu (sc_full _ _ _ _ _ _ _ C)).
  pose proof (size_le_interval A limit (sc_keys _ _ _ _ _ _ _ C)). lia.
Qed.

Lemma core_un_bounds : 0 <= limit -> 0 <= un /\ fu + un <= limit.
Proof.
  intros Hl. pose proof (interval_le_size A fu (sc_full _ _ _ _ _ _ _ C)).
  pose proof (size_le_interval A limit (sc_keys _ _ _ _ _ _ _ C)).
  rewrite (sc_un _ _ _ _ _ _ _ C). lia.
Qed.

(** Something beyond the gap-free prefix is counted by [un]. *)
Lemma core_un_pos k : is_Some (A !! k) -> fu <= k -> 1 <= un.
Proof.
  intros Hk Hge. rewrite (sc_un _ _ _ _ _ _ _ C).
  assert (Hsub : (list_to_set (k :: seqZ 0 fu) : gset Z) ⊆ dom A).
  { intros j Hj. apply elem_of_list_to_set in Hj. apply elem_of_dom.
    apply list_elem_of_In in Hj. destruct Hj as [<-|Hj]; [done|].
    apply list_elem_of_In, elem_of_seqZ in Hj. apply (sc_full _ _ _ _ _ _ _ C). lia. }
  apply subseteq_size in Hsub. rewrite size_list_to_set, size_dom in Hsub.
  - simpl in Hsub. rewrite length_seqZ in Hsub. pose proof core_fu_nonneg. lia.
  - constructor; [|apply NoDup_seqZ]. rewrite elem_of_seqZ. lia.
Qed.

Lemma core_absent_ge cur : A !! cur = None -> 0 <= cur -> fu <= cur.
Proof.
  intros Hn Hc. destruct (Z.lt_ge_cases cur fu) as [Hlt|]; [|done].
  destruct (sc_full _ _ _ _ _ _ _ C cur ltac:(lia)) as [? Hs]. congruence.
Qed.

(** A new byte at the first unassembled index goes straight to the output. *)
Lemma core_new_at_fu c :
  A !! fu = None -> fu < limit ->
  sr_core (fu + 1) un (<[fu := true]> ex) ch (out ++ [c]) (<[fu := c]> A) limit.
Proof.
  intros Hn Hlt. pose proof core_fu_nonneg as H0. destruct C. split.
  - rewrite zlen_app, zlen_cons, zlen_nil. lia.
  - intros k. rewrite map_at_insert_true, sc_exist0, lookup_insert_is_Some'.
    split; (intros [->|?]; [by left|by right]).
  - intros k d Hk Hlt'. destruct (decide (k = fu)) as [->|Hne].
    + rewrite lookup_insert_eq in Hk. injection Hk as ->.
      rewrite znth_app_r by lia. by replace (fu - zlen out) with 0 by lia.
    + rewrite lookup_insert_ne in Hk by done. rewrite znth_app_l by lia. apply sc_out0; [done|lia].
  - intros k Hk. rewrite lookup_insert_is_Some'. destruct (decide (k = fu)) as [->|]; [by left|right].
    apply sc_full0. lia.
  - intros k d Hk Hge. rewrite lookup_insert_ne in Hk by lia. apply sc_char0; [done|lia].
  - rewrite map_size_insert_None by done. lia.
  - intros k. rewrite lookup_insert_is_Some'. intros [<-|Hk]; [lia|by apply sc_keys0].
Qed.

(** A new byte beyond it is stored. *)
Lemma core_store cur c :
  A !! cur = None -> fu < cur < limit ->
  sr_core fu (un + 1) (<[cur := true]> ex) (<[cur := c]> ch) out (<[cur := c]> A) limit.
Proof.
  intros Hn Hlt. pose proof core_fu_nonneg as H0. destruct C. split.
  - done.
  - intros k. rewrite map_at_insert_true, sc_exist0, lookup_insert_is_Some'.
    split; (intros [->|?]; [by left|by right]).
  - intros k d Hk Hlt'. rewrite lookup_insert_ne in Hk by lia. by apply sc_out0.
  - intros k Hk. rewrite lookup_insert_is_Some'. right. by apply sc_full0.
  - intros k d Hk Hge. destruct (decide (k = cur)) as [->|Hne].
    + rewrite lookup_insert_eq in *. done.
    + rewrite lookup_insert_ne in Hk by done. rewrite lookup_insert_ne by done. by apply sc_char0.
  - rewrite map_size_insert_None by done. lia.
  - intros k. rewrite lookup_insert_is_Some'. intros [<-|Hk]; [lia|by apply sc_keys0].
Qed.

(** A stored byte at the first unassembled index moves to the output. *)
Lemma core_take c ex' :
  A !! fu = Some c -> (forall k, map_at false ex' k = map_at false ex k) ->
  sr_core (fu + 1) (un - 1) ex' (<[fu := c]> ch) (out ++ [c]) A limit.
Proof.
  intros Hs Hex. pose proof core_fu_nonneg as H0. destruct C. split.
  - rewrite zlen_app, zlen_cons, zlen_nil. lia.
  - intros k. by rewrite Hex.
  - intros k d Hk Hlt'. destruct (decide (k = fu)) as [->|Hne].
    + rewrite znth_app_r by lia. replace (fu - zlen out) with 0 by lia.
      rewrite znth_cons_0. congruence.
    + rewrite znth_app_l by lia. apply sc_out0; [done|lia].
  - intros k Hk. destruct (decide (k = fu)) as [->|]; [by eexists|]. apply sc_full0. lia.
  - intros k d Hk Hge. rewrite lookup_insert_ne by lia. apply sc_char0; [done|lia].
  - lia.
  - done.
Qed.

Lemma core_same_exist ex' :
  (forall k, map_at false ex' k = map_at false ex k) -> sr_core fu un ex' ch out A limit.
Proof. intros Hex. destruct C. split; try done. intros k. by rewrite Hex. Qed.

Lemma core_limit_mono limit' : limit <= limit' -> sr_core fu un ex ch out A limit'.
Proof. intros Hl. destruct C. split; try done. intros k Hk. specialize (sc_keys0 k Hk). lia. Qed.
End Core.

(** The core of an object in the middle of [push_substring]. *)
Definition sr_mid (st : StreamReassembler) (out : bytes) (A : gmap Z byte) (limit : Z) : Prop :=
  sr_core (sr_first_unassembled st) (sr_unassembled st) (sr_exist st) (sr_char st) out A limit.

(** What the loops leave alone. *)
Definition sr_frame (st st' : StreamReassembler) : Prop :=
  sr_output st' = sr_output st /\ sr_capacity st' = sr_capacity st /\
  sr_first_unread st' = sr_first_unread st /\ sr_eof st' = sr_eof st.

Lemma sr_frame_refl st : sr_frame st st.
Proof. done. Qed.

Lemma sr_frame_trans a b c : sr_frame a b -> sr_frame b c -> sr_frame a c.
Proof. unfold sr_frame. intuition congruence. Qed.

Lemma sr_frame_loop st fu un ex ch : sr_frame st (sr_set_loop st fu un ex ch).
Proof. done. Qed.

Lemma accept1_ne A cur c k : k <> cur -> accept1 A cur c !! k = A !! k.
Proof. unfold accept1. destruct (A !! cur) eqn:E; [done|]. intros. by rewrite lookup_insert_ne. Qed.

(** One byte of the [for] loop. *)
Lemma push_byte_spec st tw cur c pre A limit :
  sr_mid st (pre ++ tw) A limit -> 0 <= cur < limit -> limit < W64 ->
  let '(st', tw') := push_byte st tw cur c in
  sr_mid st' (pre ++ tw') (accept1 A cur c) limit /\ sr_frame st st' /\
  (cur = sr_first_unassembled st -> sr_first_unassembled st' = cur + 1) /\
  (cur <> sr_first_unassembled st -> sr_first_unassembled st' = sr_first_unassembled st).
Proof.
  intros C Hcur Hlim. unfold push_byte, accept1, sr_mid in *.
  pose proof (sc_exist _ _ _ _ _ _ _ C cur) as Hex.
  pose proof (core_fu_nonneg C) as Hfu. pose proof (core_fu_le C ltac:(lia)) as Hful.
  pose proof (core_un_bounds C ltac:(lia)) as Hun.
  destruct (map_at false (sr_exist st) cur) eqn:Hm; simpl.
  - destruct (proj1 Hex eq_refl) as [d Hd]. rewrite Hd.
    destruct (Z.eqb_spec cur (sr_first_unassembled st)) as [->|Hne]; [|by auto using sr_frame_refl].
    assert (Hch : map_at NUL (sr_char st) (sr_first_unassembled st) = d).
    { unfold map_at. by rewrite (sc_char _ _ _ _ _ _ _ C _ _ Hd) by lia. }
    pose proof (core_un_pos C _ (ex_intro _ d Hd) ltac:(lia)).
    rewrite Hch. simpl. nowrap. rewrite app_assoc. split; [|done]. by apply (core_take C).
  - assert (Hn : A !! cur = None).
    { destruct (A !! cur) as [d|] eqn:E; [|done].
      discriminate (proj2 Hex (ex_intro _ d eq_refl)). }
    rewrite Hn. destruct (Z.eqb_spec cur (sr_first_unassembled st)) as [->|Hne]; simpl.
    + nowrap. rewrite app_assoc. split; [|done]. apply (core_new_at_fu C); [done|lia].
    + pose proof (core_absent_ge C cur Hn ltac:(lia)).
      pose proof (core_store C cur c Hn ltac:(lia)) as C'.
      pose proof (core_un_bounds C' ltac:(lia)). by nowrap.
Qed.

(** The whole [for] loop: it accepts the bytes below [limit], and afterwards either
    there is a gap at the first unassembled index or that index is the end of
    [data], where the [while] loop takes over. *)
Lemma push_loop_spec data : forall st tw i index pre A limit,
  sr_mid st (pre ++ tw) A limit -> 0 <= i -> 0 <= index -> i + index + zlen data < W64 ->
  limit < W64 -> limit = sr_first_unread st +64 sr_capacity st ->
  A !! sr_first_unassembled st = None \/ sr_first_unassembled st = i + index ->
  let '(st', tw') := push_loop st tw data i index in
  let A' := accept A data (i + index) limit in
  sr_mid st' (pre ++ tw') A' limit /\ sr_frame st st' /\
  (A' !! sr_first_unassembled st' = None \/ sr_first_unassembled st' = i + index + zlen data).
Proof.
  induction data as [|c data IH]; intros st tw i index pre A limit C Hi Hx Hlen Hlim Hl Hgap; simpl.
  { rewrite zlen_nil, Z.add_0_r. auto using sr_frame_refl. }
  rewrite zlen_cons in Hlen. pose proof (zlen_nonneg data). nowrap. rewrite <- Hl.
  destruct (Z.ltb_spec (i + index) limit) as [Hlt|Hge].
  - pose proof (push_byte_spec st tw (i + index) c pre A limit C ltac:(lia) Hlim) as Hb.
    destruct (push_byte st tw (i + index) c) as [st1 tw1]. destruct Hb as (C1 & F1 & Heq & Hne).
    specialize (IH st1 tw1 (i + 1) index pre (accept1 A (i + index) c) limit C1).
    destruct F1 as (Fo & Fc & Fu & Fe). rewrite Fc, Fu in IH.
    specialize (IH ltac:(lia) Hx ltac:(lia) Hlim Hl). replace (i + 1 + index) with (i + index + 1) in IH by lia.
    destruct (push_loop st1 tw1 data (i + 1) index) as [st2 tw2].
    destruct IH as (C2 & F2 & G2).
    { destruct (decide (i + index = sr_first_unassembled st)) as [E|E].
      - right. by rewrite (Heq E).
      - left. rewrite (Hne E), accept1_ne by done. destruct Hgap as [?|?]; [done|lia]. }
    split; [done|]. split; [eapply sr_frame_trans; [|exact F2]; done|].
    rewrite zlen_cons. destruct G2 as [?|G2]; [by left|right; lia].
  - split; [done|]. split; [apply sr_frame_refl|]. left.
    destruct Hgap as [?|Hgap]; [done|].
    destruct (A !! sr_first_unassembled st) eqn:E; [|done].
    pose proof (sc_keys _ _ _ _ _ _ _ C _ (ex_intro _ _ E)). lia.
Qed.

(** The [while] loop ends at a gap; its fuel is enough. *)
Lemma drain_loop_spec fuel : forall st tw cur pre A limit,
  sr_mid st (pre ++ tw) A limit -> 0 <= limit < W64 -> sr_unassembled st < Z.of_nat fuel ->
  A !! sr_first_unassembled st = None \/ sr_first_unassembled st = cur ->
  exists st' tw', drain_loop fuel st tw cur = Ok (st', tw') /\
    sr_mid st' (pre ++ tw') A limit /\ sr_frame st st' /\ A !! sr_first_unassembled st' = None.
Proof.
  induction fuel as [|fuel IH]; intros st tw cur pre A limit C Hlim Hfuel Hgap;
    pose proof (core_un_bounds C ltac:(lia)) as Hun; [lia|]. cbn [drain_loop].
  destruct (Z.eqb_spec cur (sr_first_unassembled st)) as [->|Hne].
  2:{ exists st, tw. destruct Hgap as [?|?]; [auto using sr_frame_refl|congruence]. }
  set (ex := <[_ := _]> (sr_exist st)).
  assert (Hex : forall k, map_at false ex k = map_at false (sr_exist st) k)
    by (intros k; apply map_at_insert_id).
  pose proof (sc_exist _ _ _ _ _ _ _ C (sr_first_unassembled st)) as Hst.
  destruct (map_at false (sr_exist st) (sr_first_unassembled st)) eqn:Hm.
  - destruct (proj1 Hst eq_refl) as [d Hd]. clear Hgap.
    assert (Hch : map_at NUL (sr_char st) (sr_first_unassembled st) = d).
    { unfold map_at. by rewrite (sc_char _ _ _ _ _ _ _ C _ _ Hd) by lia. }
    pose proof (core_un_pos C _ (ex_intro _ d Hd) ltac:(lia)).
    pose proof (core_fu_nonneg C). rewrite Hch. nowrap.
    edestruct (IH (sr_set_loop st (sr_first_unassembled st + 1) (sr_unassembled st - 1) ex
      (<[sr_first_unassembled st := d]> (sr_char st))) (tw ++ [d]) (sr_first_unassembled st + 1)
      pre A limit) as (st' & tw' & -> & C' & F' & G').
    + unfold sr_mid. simpl. rewrite app_assoc. by apply (core_take C).
    + done.
    + simpl. lia.
    + by right.
    + exists st', tw'. split; [done|]. split; [done|]. split; [|done].
      eapply sr_frame_trans; [|exact F']. done.
  - eexists _, _. split; [done|]. split; [|split; [done|]].
    + apply (core_same_exist C). done.
    + simpl. destruct (A !! sr_first_unassembled st) as [d|] eqn:E; [|done].
      discriminate (proj2 Hst (ex_intro _ d eq_refl)).
Qed.

(** ** [push_substring] implements the specification *)

Lemma sr_repr_new cap :
  0 <= cap < W64 -> sr_repr (StreamReassembler_new cap) (mkFifo [] 0 cap false false) ∅.
Proof.
  intros Hc. split; simpl.
  - by apply bs_repr_new.
  - done.
  - split; simpl; try done.
    + intros k. unfold map_at. rewrite !lookup_empty. split; [done|]. by intros [? ?].
    + lia.
    + intros k. rewrite lookup_empty. by intros [? ?].
  - apply lookup_empty.
Qed.

(** A FIFO write of exactly the bytes that fit. *)
Lemma sr_write_fits out f tw :
  bs_repr out f -> zlen (ff_hist f) + zlen tw <= ff_nread f + ff_cap f ->
  zlen (ff_hist f) + zlen tw < W64 ->
  bs_repr (snd (ByteStream_write out tw))
    (mkFifo (ff_hist f ++ tw) (ff_nread f) (ff_cap f) (ff_ended f) (ff_err f)).
Proof.
  intros R Hfit Hlt.
  assert (Hacc : fifo_accepts f tw = tw).
  { unfold fifo_accepts. apply ztake_all. unfold fifo_room.
    rewrite fifo_pending_len by apply R. lia. }
  pose proof (bs_write_spec out f R tw) as [_ R']; [by rewrite Hacc|].
  unfold fifo_write in R'. by rewrite Hacc in R'.
Qed.

Definition fifo_push (f : fifo) (tw : bytes) (fin : bool) : fifo :=
  mkFifo (ff_hist f ++ tw) (ff_nread f) (ff_cap f) (ff_ended f || fin) (ff_err f).

(** Beyond the window the [for] loop stops at once. *)
Lemma push_loop_far st tw data index limit :
  limit = sr_first_unread st +64 sr_capacity st -> limit <= index < W64 ->
  push_loop st tw data 0 index = (st, tw).
Proof.
  intros Hl Hi. destruct data as [|c data]; [done|]. simpl. rewrite Z.add_0_l, (u64_id index), <- Hl.
  - by destruct (Z.ltb_spec index limit); [lia|].
  - rewrite Hl in Hi. pose proof (u64_range (sr_first_unread st + sr_capacity st)). lia.
Qed.

Lemma accept_far A data index limit : limit <= index -> accept A data index limit = A.
Proof. intros. destruct data; [done|]. simpl. by destruct (Z.ltb_spec index limit); [lia|]. Qed.

(** For every index a [size_t] can hold: beyond the window nothing is accepted, though
    the end-of-file test may see a wrapped-around position. *)
Lemma push_substring_total st f A data index eof :
  sr_repr st f A -> 0 <= index < W64 -> ff_nread f + ff_cap f < W64 ->
  index + zlen data < W64 \/ ff_nread f + ff_cap f <= index ->
  exists st' tw,
    push_substring st data index eof = Ok st' /\
    sr_repr st' (fifo_push f tw (StreamReassembler_empty st' && sr_eof st'))
      (accept A data index (ff_nread f + ff_cap f)) /\
    sr_eof st' = sr_eof st || (eof && ((index +64 zlen data) <=? ff_nread f + ff_cap f)).
Proof.
  intros [Rout Rcap Rcore Rgap] Hx Hlim Hcase.
  pose proof (br_nread _ _ Rout) as Hnr.
  pose proof (br_nreadb _ _ Rout) as Hnrb. pose proof (br_capb _ _ Rout) as Hcb.
  pose proof (zlen_nonneg data). unfold push_substring. unfold ByteStream_bytes_read. rewrite Hnr.
  assert (Hb : 0 <= ff_nread f + ff_cap f < W64) by lia.
  set (st0 := sr_set_first_unread st (ff_nread f)). set (limit := ff_nread f + ff_cap f) in *.
  assert (Hl0 : limit = sr_first_unread st0 +64 sr_capacity st0)
    by (simpl; rewrite Rcap; by rewrite u64_id).
  assert (C0 : sr_mid st0 (ff_hist f ++ []) A limit) by (rewrite app_nil_r; exact Rcore).
  assert (Hp : let '(st1, tw1) := push_loop st0 [] data 0 index in
    sr_mid st1 (ff_hist f ++ tw1) (accept A data index limit) limit /\ sr_frame st0 st1 /\
    (accept A data index limit !! sr_first_unassembled st1 = None \/
     sr_first_unassembled st1 = index +64 zlen data)).
  { destruct Hcase as [Hlt|Hge].
    - pose proof (push_loop_spec data st0 [] 0 index (ff_hist f) A limit C0 ltac:(lia) ltac:(lia) ltac:(lia)
        ltac:(lia) Hl0 (or_introl Rgap)) as Hp. rewrite Z.add_0_l in Hp. by rewrite u64_id by lia.
    - rewrite (push_loop_far st0 [] data index limit Hl0 ltac:(lia)), accept_far by lia.
      split; [done|]. split; [apply sr_frame_refl|by left]. }
  destruct (push_loop st0 [] data 0 index) as [st1 tw1]. destruct Hp as (C1 & F1 & G1).
  assert (Hfuel : sr_unassembled st1 < Z.of_nat (S (size (sr_exist st1)))).
  { pose proof (map_at_true_size _ _ (sc_exist _ _ _ _ _ _ _ C1)).
    pose proof (core_fu_nonneg C1). rewrite (sc_un _ _ _ _ _ _ _ C1). lia. }
  destruct (drain_loop_spec _ st1 tw1 (index +64 zlen data) (ff_hist f) _ limit C1 ltac:(lia) Hfuel G1)
    as (st2 & tw2 & -> & C2 & F2 & G2).
  destruct (sr_frame_trans _ _ _ F1 F2) as (Fo & Fc & Fu & Fe). simpl in Fo, Fc, Fu, Fe.
  cbn [mbind res_bind]. rewrite Fo, Fc, Fu, Fe, Rcap. fold limit. rewrite (u64_id limit) by lia.
  set (pos := index +64 zlen data).
  set (eof' := if eof && negb (sr_eof st) && (pos <=? limit) then true else sr_eof st).
  exists (sr_set_output st2
    (if StreamReassembler_empty st2 && eof' then ByteStream_end_input (snd (ByteStream_write (sr_output st) tw2))
     else snd (ByteStream_write (sr_output st) tw2)) eof'), tw2.
  split; [done|]. assert (He : eof' = sr_eof st || (eof && (pos <=? limit))).
  { unfold eof'. by destruct (sr_eof st), eof, (pos <=? limit). }
  split; [|done]. pose proof (core_fu_le C2 ltac:(lia)) as Hfu.
  pose proof (sc_fu _ _ _ _ _ _ _ C2) as Hfe. rewrite zlen_app in Hfe.
  pose proof (sr_write_fits (sr_output st) f tw2 Rout ltac:(fold limit; lia) ltac:(lia)) as Rw.
  split; [|simpl; congruence|done|done]. unfold fifo_push. simpl. change (StreamReassembler_empty (sr_set_output st2 _ _)) with
    (StreamReassembler_empty st2).
  destruct (StreamReassembler_empty st2 && eof').
  - rewrite orb_true_r. apply (bs_end_input_repr _ _ Rw).
  - rewrite orb_false_r. exact Rw.
Qed.

Lemma push_substring_spec st f A data index eof :
  sr_repr st f A -> 0 <= index -> index + zlen data < W64 -> ff_nread f + ff_cap f < W64 ->
  exists st' tw,
    push_substring st data index eof = Ok st' /\
    sr_repr st' (fifo_push f tw (StreamReassembler_empty st' && sr_eof st'))
      (accept A data index (ff_nread f + ff_cap f)) /\
    sr_eof st' = sr_eof st || (eof && (index + zlen data <=? ff_nread f + ff_cap f)).
Proof.
  intros R Hx Hlen Hlim. pose proof (br_nreadb _ _ (rp_out _ _ _ R)). pose proof (br_capb _ _ (rp_out _ _ _ R)).
  pose proof (zlen_nonneg data).
  destruct (push_substring_total st f A data index eof R) as (st' & tw & E & R' & He); [lia|lia|lia|].
  rewrite u64_id in He by lia. eauto.
Qed.

Lemma sr_read_spec st f A n :
  sr_repr st f A -> 0 <= n ->
  exists st', sr_read st n = Ok (ztake n (fifo_pending f), st') /\
    sr_repr st' (fifo_pop f n) A /\ sr_eof st' = sr_eof st.
Proof.
  intros [Rout Rcap Rcore Rgap] Hn. unfold sr_read.
  destruct (bs_read_spec _ _ Rout n Hn) as (out' & -> & R'). cbn.
  eexists. split; [done|]. split; [|done]. split; try done.
  simpl. apply (core_limit_mono Rcore). pose proof (zlen_nonneg (fifo_pending f)). simpl. lia.
Qed.

(** ** What the accepted map says about the output *)

Lemma accept1_lookup A cur c k d :
  accept1 A cur c !! k = Some d <-> A !! k = Some d \/ (A !! k = None /\ k = cur /\ d = c).
Proof.
  unfold accept1. destruct (A !! cur) eqn:E.
  - split; [by left|]. intros [?|(H & -> & _)]; [done|congruence].
  - destruct (decide (k = cur)) as [->|Hne].
    + rewrite lookup_insert_eq. split; [intros [= <-]; by right|].
      intros [?|(_ & _ & ->)]; [congruence|done].
    + rewrite lookup_insert_ne by done. split; [by left|]. by intros [?|(_ & ? & _)].
Qed.

(** Which bytes are in the map after accepting [data]. *)
Lemma accept_lookup data : forall A cur limit k d, 0 <= cur ->
  accept A data cur limit !! k = Some d <->
  A !! k = Some d \/ (A !! k = None /\ k < limit /\ znth data (k - cur) = Some d).
Proof.
  induction data as [|c data IH]; intros A cur limit k d Hcur; simpl.
  - split; [by left|]. intros [?|(_ & _ & H)]; [done|].
    apply znth_Some_range in H. unfold zlen in H. simpl in H. lia.
  - destruct (Z.ltb_spec cur limit) as [Hlt|Hge].
    2:{ split; [by left|]. intros [?|(_ & Hk & H)]; [done|]. apply znth_Some_range in H. lia. }
    rewrite IH, accept1_lookup by lia. destruct (decide (k = cur)) as [->|Hne].
    + rewrite Z.sub_diag, znth_cons_0. replace (cur - (cur + 1)) with (-1) by lia.
      split.
      * intros [[?|(? & _ & ->)]|(_ & _ & [=])]; [by left|by right].
      * intros [?|(? & _ & [= ->])]; [by do 2 left|left; by right].
    + assert (Hn : accept1 A cur c !! k = None <-> A !! k = None) by (by rewrite accept1_ne).
      assert (Hz : znth (c :: data) (k - cur) = znth data (k - (cur + 1))
                   \/ znth data (k - (cur + 1)) = None /\ znth (c :: data) (k - cur) = None).
      { destruct (Z.lt_ge_cases k cur) as [?|?].
        - right. unfold znth. ztest; [|lia]. ztest; [done|lia].
        - left. rewrite znth_cons_pos by lia. f_equal. lia. }
      rewrite Hn. clear IH Hn. destruct Hz as [->|[-> ->]]; intuition congruence.
Qed.

(** The map agrees with a reference stream [S]. *)
Definition agrees (S : bytes) (A : gmap Z byte) : Prop :=
  forall k d, A !! k = Some d -> znth S k = Some d.

Definition is_prefix (l S : bytes) : Prop := exists r, S = l ++ r.

Lemma agrees_accept S A data index limit :
  agrees S A -> 0 <= index -> (forall k d, znth data k = Some d -> znth S (index + k) = Some d) ->
  agrees S (accept A data index limit).
Proof.
  intros HA Hi Hd k d [?|(_ & _ & H)]%accept_lookup; [by apply HA| |done].
  replace k with (index + (k - index)) by lia. by apply Hd.
Qed.

(** If every accepted byte is the stream's, the output is a prefix of the stream. *)
Lemma agrees_prefix S st f A : sr_repr st f A -> agrees S A -> is_prefix (ff_hist f) S.
Proof.
  intros R HA. exists (zdrop (zlen (ff_hist f)) S).
  rewrite <- (ztake_zdrop_id (zlen (ff_hist f)) S) at 1. f_equal.
  apply znth_ext. intros i Hi. destruct R as [_ _ C _].
  pose proof (sc_fu _ _ _ _ _ _ _ C) as Hfu.
  destruct (Z.lt_ge_cases i (zlen (ff_hist f))) as [Hlt|Hge].
  - rewrite znth_ztake by done. destruct (sc_full _ _ _ _ _ _ _ C i ltac:(lia)) as [d Hd].
    rewrite (HA _ _ Hd). symmetry. apply (sc_out _ _ _ _ _ _ _ C); [done|lia].
  - rewrite (znth_None _ (ff_hist f)) by lia. apply znth_None.
    rewrite zlen_ztake_min; zlia.
Qed.

(** ** Runs of the reassembler

    The environment pushes slices of one stream [S] in any order, any number of
    times, with any overlap, and reads the output. A slice that reaches the end of
    [S] may carry the end-of-file mark, provided it is not an empty slice ahead of
    the first unassembled byte (see [early_fin_truncates] for that case). *)

Definition slice (S : bytes) (i l : Z) : bytes := ztake l (zdrop i S).

(** A push the environment may make in state [st]. *)
Definition legal_push (S : bytes) (st : StreamReassembler) (i l : Z) (eof : bool) : Prop :=
  0 <= i <= zlen S /\ 0 <= l /\
  (eof = true -> zlen S <= i + l /\ (i < zlen S \/ i <= sr_first_unassembled st)).

Inductive sr_step (S : bytes) : StreamReassembler * bytes -> StreamReassembler * bytes -> Prop :=
| step_push st del i l eof st' :
    legal_push S st i l eof ->
    push_substring st (slice S i l) i eof = Ok st' ->
    sr_step S (st, del) (st', del)
| step_read st del n d st' :
    0 <= n -> sr_read st n = Ok (d, st') ->
    sr_step S (st, del) (st', del ++ d).

(** The end of the stream is accounted for: assembled, or stored. *)
Definition fin_seen (S : bytes) (st : StreamReassembler) (A : gmap Z byte) : Prop :=
  zlen S <= sr_first_unassembled st \/ is_Some (A !! (zlen S - 1)).

Record sr_inv (S : bytes) (cap : Z) (st : StreamReassembler) (del : bytes) (f : fifo)
  (A : gmap Z byte) : Prop := {
  si_repr : sr_repr st f A;
  si_cap : ff_cap f = cap;
  si_agrees : agrees S A;
  si_del : del = ztake (ff_nread f) (ff_hist f);
  si_fin : sr_eof st = true -> fin_seen S st A;
  si_ended : ff_ended f = true -> ff_hist f = S
}.

Lemma slice_nth S i l k d : 0 <= i -> znth (slice S i l) k = Some d -> znth S (i + k) = Some d.
Proof.
  intros Hi Hk. pose proof (znth_Some_range _ _ _ Hk) as Hr. unfold slice in *.
  assert (k < l) as Hl.
  { destruct (Z.lt_ge_cases k l); [done|].
    unfold ztake, zlen in Hr. rewrite length_take in Hr. lia. }
  rewrite znth_ztake in Hk by done. by rewrite znth_zdrop in Hk by lia.
Qed.

Lemma slice_len S i l : 0 <= i <= zlen S -> 0 <= l -> zlen (slice S i l) = Z.min l (zlen S - i).
Proof. intros. unfold slice. rewrite zlen_ztake_min, zlen_zdrop by lia. done. Qed.

Lemma prefix_full l S : is_prefix l S -> zlen S <= zlen l -> l = S.
Proof.
  intros [r ->] H. rewrite zlen_app in H. pose proof (zlen_nonneg r).
  by rewrite (zlen_0_nil r ltac:(lia)), app_nil_r.
Qed.

(** With the end accounted for and nothing stored, the whole stream is out. *)
Lemma fin_seen_complete S st f A :
  sr_repr st f A -> agrees S A -> fin_seen S st A -> sr_unassembled st = 0 -> ff_hist f = S.
Proof.
  intros R HA Hfin Hun. apply (prefix_full _ _ (agrees_prefix S st f A R HA)).
  destruct R as [_ _ C _]. rewrite <- (sc_fu _ _ _ _ _ _ _ C).
  destruct Hfin as [?|Hs]; [done|].
  destruct (Z.lt_ge_cases (zlen S - 1) (sr_first_unassembled st)) as [?|Hge]; [lia|].
  pose proof (core_un_pos C _ Hs Hge). lia.
Qed.

(** A legal push keeps the invariant and never throws. *)
Lemma push_inv S cap st del f A i l eof :
  zlen S + cap < W64 -> sr_inv S cap st del f A -> legal_push S st i l eof ->
  exists st' f', push_substring st (slice S i l) i eof = Ok st' /\
    sr_inv S cap st' del f' (accept A (slice S i l) i (ff_nread f + ff_cap f)) /\
    sr_eof st' = sr_eof st || (eof && (i + zlen (slice S i l) <=? ff_nread f + ff_cap f)) /\
    ff_ended f' = ff_ended f || (StreamReassembler_empty st' && sr_eof st') /\
    is_prefix (ff_hist f) (ff_hist f') /\ ff_nread f' = ff_nread f /\ ff_err f' = ff_err f.
Proof.
  intros Hb [R Hcap HA Hdel Hfin Hend] (Hi & Hl & Heof).
  pose proof (agrees_prefix S st f A R HA) as [r Hpre].
  assert (Hh : zlen (ff_hist f) <= zlen S) by (rewrite Hpre, zlen_app; zlia).
  pose proof (rp_out _ _ _ R) as Ro. pose proof (br_nreadb _ _ Ro). pose proof (br_capb _ _ Ro).
  pose proof (slice_len S i l Hi Hl) as Hsl.
  set (limit := ff_nread f + ff_cap f) in *. set (data := slice S i l) in *.
  destruct (push_substring_spec st f A data i eof R ltac:(lia) ltac:(zlia) ltac:(lia))
    as (st' & tw & Hrun & R' & He').
  fold limit in R', He'. set (A' := accept A data i limit) in *.
  assert (HA' : agrees S A').
  { apply agrees_accept; [done|lia|]. intros k d. apply slice_nth. lia. }
  assert (Hfu : sr_first_unassembled st <= sr_first_unassembled st').
  { rewrite (sc_fu _ _ _ _ _ _ _ (rp_core _ _ _ R)), (sc_fu _ _ _ _ _ _ _ (rp_core _ _ _ R')).
    simpl. rewrite zlen_app. zlia. }
  assert (Hfin' : sr_eof st' = true -> fin_seen S st' A').
  { rewrite He'. intros [Ho|[-> Hle]%andb_prop]%orb_prop.
    - destruct (Hfin Ho) as [?|[d Hd]]; [left; lia|right]. exists d. apply accept_lookup; [lia|by left].
    - destruct (Heof eq_refl) as [Hle2 Hord].
      destruct (Z.lt_ge_cases i (zlen S)) as [Hin|Hout]; [right|left; lia].
      apply Z.leb_le in Hle. assert (zlen data = zlen S - i) as Hd by lia.
      destruct (A !! (zlen S - 1)) as [c|] eqn:Ec; [exists c; apply accept_lookup; [lia|by left]|].
      destruct (znth_is_Some (zlen S - 1 - i) data ltac:(lia)) as [c Hc].
      exists c. apply accept_lookup; [lia|]. right. repeat split; [done|lia|done]. }
  exists st', (fifo_push f tw (StreamReassembler_empty st' && sr_eof st')).
  split; [done|]. split; [|by split; [|split; [|split; [exists tw|split]]]]. split; try done.
  - simpl. rewrite ztake_app_le by lia. done.
  - simpl ff_ended. intros [Ho|[Hemp Heo]%andb_prop]%orb_prop.
    + apply (prefix_full _ _ (agrees_prefix S st' _ A' R' HA')).
      simpl. rewrite <- (Hend Ho), zlen_app. zlia.
    + apply (fin_seen_complete S st' _ A' R' HA' (Hfin' Heo)). by apply Z.eqb_eq in Hemp.
Qed.

Lemma read_inv S cap st del f A n :
  sr_inv S cap st del f A -> 0 <= n ->
  exists st', sr_read st n = Ok (ztake n (fifo_pending f), st') /\
    sr_inv S cap st' (del ++ ztake n (fifo_pending f)) (fifo_pop f n) A.
Proof.
  intros [R Hcap HA Hdel Hfin Hend] Hn.
  destruct (sr_read_spec st f A n R Hn) as (st' & -> & R' & He'). exists st'. split; [done|].
  split; try done.
  - rewrite Hdel. apply pop_take; [apply R|done].
  - intros He. rewrite He' in He. destruct (Hfin He) as [?|?]; [left|by right].
    rewrite (sc_fu _ _ _ _ _ _ _ (rp_core _ _ _ R')). simpl.
    by rewrite <- (sc_fu _ _ _ _ _ _ _ (rp_core _ _ _ R)).
Qed.

Lemma sr_inv_new S cap : 0 <= cap < W64 ->
  sr_inv S cap (StreamReassembler_new cap) [] (mkFifo [] 0 cap false false) ∅.
Proof. intros. split; try done; by apply sr_repr_new. Qed.

Lemma sr_inv_reach S cap st del :
  0 <= cap -> zlen S + cap < W64 ->
  reach (sr_step S) (StreamReassembler_new cap, []) (st, del) ->
  exists f A, sr_inv S cap st del f A.
Proof.
  intros Hc Hb Hr. pose proof (zlen_nonneg S).
  apply (reach_invariant (sr_step S)
    (fun x => exists f A, sr_inv S cap (fst x) (snd x) f A) _ (st, del)) in Hr; [done| |].
  - intros [a da] [b db] (f & A & I) Hstep. inversion Hstep as [? ? i l e ? Hl Hp|? ? n d ? Hn Hrd]; subst.
    + destruct (push_inv S cap a db f A i l e Hb I Hl) as (st' & f' & E & I' & _).
      rewrite Hp in E. injection E as ->. by eauto.
    + destruct (read_inv S cap a da f A n I Hn) as (st' & E & I'). rewrite Hrd in E.
      injection E as -> ->. by eauto.
  - simpl. eauto using sr_inv_new with lia.
Qed.

(** Once every index of [S] is accepted, all of [S] is out and nothing is stored. *)
Lemma covered_complete S st f A :
  sr_repr st f A -> agrees S A -> (forall k, 0 <= k < zlen S -> is_Some (A !! k)) ->
  zlen (ff_hist f) = zlen S /\ sr_unassembled st = 0.
Proof.
  intros R HA Hall. pose proof (rp_core _ _ _ R) as C. pose proof (sc_fu _ _ _ _ _ _ _ C) as Hf.
  assert (Hkeys : forall k, is_Some (A !! k) -> 0 <= k < zlen S).
  { intros k [c Hk]. apply znth_Some_range with c. by apply HA. }
  assert (Hsz : Z.of_nat (size A) = zlen S).
  { pose proof (interval_le_size A (zlen S) Hall). pose proof (size_le_interval A (zlen S) Hkeys).
    zlia. }
  assert (E : zlen (ff_hist f) = zlen S).
  { rewrite <- Hf. pose proof (core_fu_nonneg C). pose proof (rp_gap _ _ _ R) as Hgap.
    destruct (Z.lt_trichotomy (sr_first_unassembled st) (zlen S)) as [Hl|[?|Hg]]; [|done|].
    - destruct (Hall (sr_first_unassembled st) ltac:(lia)) as [c Hcc]. congruence.
    - destruct (sc_full _ _ _ _ _ _ _ C (zlen S) ltac:(zlia)) as [c Hcc].
      specialize (Hkeys _ (ex_intro _ c Hcc)). lia. }
  split; [done|]. rewrite (sc_un _ _ _ _ _ _ _ C). lia.
Qed.

(** Pushing the missing suffix with FIN covers every index, if the window allows. *)
Lemma push_suffix_covers S cap st del f A :
  zlen S + cap < W64 -> sr_inv S cap st del f A -> zlen S <= ff_nread f + ff_cap f ->
  let fu := sr_first_unassembled st in
  exists st' f' A', push_substring st (slice S fu (zlen S)) fu true = Ok st' /\
    sr_inv S cap st' del f' A' /\ sr_eof st' = true /\
    ff_ended f' = ff_ended f || (StreamReassembler_empty st' && sr_eof st') /\
    forall k, 0 <= k < zlen S -> is_Some (A' !! k).
Proof.
  intros Hb I Hw fu. pose proof I as [R Hcap HA _ _ _].
  pose proof (rp_core _ _ _ R) as C. pose proof (core_fu_nonneg C) as Hfu0.
  pose proof (sc_fu _ _ _ _ _ _ _ C) as Hfu. fold fu in Hfu, Hfu0.
  destruct (agrees_prefix S st f A R HA) as [r Hpre].
  assert (HfuS : fu <= zlen S) by (rewrite Hpre, zlen_app; zlia).
  assert (Hsl : zlen (slice S fu (zlen S)) = zlen S - fu) by (rewrite slice_len; zlia).
  destruct (push_inv S cap st del f A fu (zlen S) true Hb I) as (st' & f' & E & I' & He' & Hd' & _).
  { unfold legal_push. fold fu. zlia. }
  eexists st', f', _. split; [done|]. split; [exact I'|]. split; [|split; [done|]].
  - rewrite He', Hsl. destruct (Z.leb_spec (fu + (zlen S - fu)) (ff_nread f + ff_cap f)); [|lia].
    by rewrite orb_true_r.
  - intros k Hk. destruct (A !! k) as [c|] eqn:Ek; [exists c; apply accept_lookup; [done|by left]|].
    pose proof (core_absent_ge C k Ek ltac:(lia)) as Hge. fold fu in Hge.
    destruct (znth_is_Some (k - fu) (slice S fu (zlen S)) ltac:(lia)) as [c Hk'].
    exists c. apply accept_lookup; [done|]. right. repeat split; [done|lia|done].
Qed.

(** ** The reassembler's theorems *)

Definition text (l : list Z) : bytes := map byte_of l.

(** C10: functional correctness of [push_substring], for indices whose end fits in a
    [size_t]: from an object that holds the accepted bytes [A] it returns one that
    holds [A'], which differs from [A] exactly in the bytes of [data] whose index is
    below [bytes_read + capacity] and was not accepted before; the output history is
    extended to the longest gap-free prefix of [A'], each byte of [A'] beyond it is
    stored in [m_char] and marked in [m_exist], [unassembled_bytes] counts those
    indices once each, and the output is ended when end of file was seen within the
    window and nothing is left to assemble. *)
Theorem push_substring_correct st f A data index eof :
  sr_repr st f A -> 0 <= index -> index + zlen data < W64 -> ff_nread f + ff_cap f < W64 ->
  exists st' tw A',
    let f' := fifo_push f tw (StreamReassembler_empty st' && sr_eof st') in
    push_substring st data index eof = Ok st' /\ sr_repr st' f' A' /\
    (forall k c, A' !! k = Some c <->
       A !! k = Some c \/
       A !! k = None /\ k < ff_nread f + ff_cap f /\ znth data (k - index) = Some c) /\
    (forall k c, znth (ff_hist f ++ tw) k = Some c -> A' !! k = Some c) /\
    A' !! zlen (ff_hist f ++ tw) = None /\
    (forall k c, A' !! k = Some c -> zlen (ff_hist f ++ tw) <= k -> sr_char st' !! k = Some c) /\
    (forall k, map_at false (sr_exist st') k = true <-> is_Some (A' !! k)) /\
    StreamReassembler_unassembled_bytes st' = Z.of_nat (size A') - zlen (ff_hist f ++ tw) /\
    sr_eof st' = sr_eof st || (eof && (index + zlen data <=? ff_nread f + ff_cap f)).
Proof.
  intros R Hi Hlen Hlim.
  destruct (push_substring_spec st f A data index eof R Hi Hlen Hlim) as (st' & tw & E & R' & He).
  exists st', tw, (accept A data index (ff_nread f + ff_cap f)). cbv zeta.
  pose proof (rp_core _ _ _ R') as C. pose proof (sc_fu _ _ _ _ _ _ _ C) as Hfu.
  cbn [fifo_push ff_hist] in C, Hfu. rewrite <- Hfu.
  split; [exact E|]. split; [exact R'|]. split; [intros k c; by apply accept_lookup|].
  split; [intros k c Hk|]; [|split; [exact (rp_gap _ _ _ R')|]].
  - pose proof (znth_Some_range _ _ _ Hk).
    destruct (sc_full _ _ _ _ _ _ _ C k ltac:(lia)) as [d Hd].
    rewrite (sc_out _ _ _ _ _ _ _ C k d Hd ltac:(lia)) in Hk. congruence.
  - split; [exact (sc_char _ _ _ _ _ _ _ C)|]. split; [exact (sc_exist _ _ _ _ _ _ _ C)|].
    split; [exact (sc_un _ _ _ _ _ _ _ C)|exact He].
Qed.

(** Three bytes pushed ahead of a gap: nothing is written, the bytes are stored. *)
Lemma push_substring_correct_witness :
  exists st' tw A', push_substring (StreamReassembler_new 4) (text [66; 67; 68; 69]) 1 false = Ok st' /\
    A' !! 0 = None /\ A' !! 3 = Some (byte_of 68) /\
    sr_repr st' (fifo_push (mkFifo [] 0 4 false false) tw (StreamReassembler_empty st' && sr_eof st')) A' /\
    map_at false (sr_exist st') 4 = false.
Proof.
  destruct (push_substring_correct (StreamReassembler_new 4) (mkFifo [] 0 4 false false) ∅
    (text [66; 67; 68; 69]) 1 false) as (st' & tw & A' & E & R & HA & _ & _ & _ & Hex & _ & _);
    [apply sr_repr_new; lia|lia|reflexivity|reflexivity|].
  exists st', tw, A'. split; [exact E|]. split; [|split; [|split; [exact R|]]].
  - destruct (A' !! 0) as [c|] eqn:H0; [|done]. apply HA in H0 as [H0|(_ & _ & H0)]; vm_compute in H0; done.
  - apply HA. right. repeat split; reflexivity.
  - destruct (map_at false (sr_exist st') 4) eqn:H4; [|done]. apply Hex in H4 as [c H4].
    apply HA in H4 as [H4|(_ & H4 & _)]; [vm_compute in H4; done|simpl in H4; lia].
Defined.

(** C9: safety of reassembly: whatever slices of a stream [S] arrive, in any order,
    duplicated or overlapping, interleaved with reads, no legal push throws or
    diverges, and the bytes handed to the reader are a prefix of [S] at all
    times, followed there by the bytes still buffered. *)
Theorem reassembler_delivers_prefix S cap st del :
  0 <= cap -> zlen S + cap < W64 ->
  reach (sr_step S) (StreamReassembler_new cap, []) (st, del) ->
  (exists rest, S = del ++ ByteStream_peek_output (sr_output st) cap ++ rest) /\
  (forall i l eof, legal_push S st i l eof ->
     exists st', push_substring st (slice S i l) i eof = Ok st') /\
  (forall n, 0 <= n -> exists d st', sr_read st n = Ok (d, st')).
Proof.
  intros Hc Hb Hr. destruct (sr_inv_reach S cap st del Hc Hb Hr) as (f & A & I).
  split; [|split].
  - destruct I as [R Hcap HA Hdel _ _]. destruct (agrees_prefix S st f A R HA) as [r Hr'].
    exists r. rewrite (bs_peek_spec _ _ (rp_out _ _ _ R)) by lia.
    pose proof (br_room _ _ (rp_out _ _ _ R)). rewrite ztake_all by lia.
    rewrite Hr', Hdel, app_assoc. f_equal. symmetry. apply ztake_zdrop_id.
  - intros i l eof Hl. destruct (push_inv S cap st del f A i l eof Hb I Hl) as (st' & _ & ? & _).
    by exists st'.
  - intros n Hn. destruct (read_inv S cap st del f A n I Hn) as (st' & ? & _). by eauto.
Qed.

(** A three-byte stream pushed back to front, then read. *)
Lemma demo_run_reaches :
  exists st del, reach (sr_step (text [65; 66; 67])) (StreamReassembler_new 4, []) (st, del) /\
    del = text [65; 66].
Proof.
  eexists _, _. split.
  - eapply reach_step; [eapply reach_step; [eapply reach_step; [apply reach_refl|]|]|].
    + eapply (step_push _ _ _ 1 2 true); [|vm_compute; reflexivity].
      unfold legal_push. change (zlen (text [65; 66; 67])) with 3. simpl. lia.
    + eapply (step_push _ _ _ 0 2 false); [|vm_compute; reflexivity].
      unfold legal_push. change (zlen (text [65; 66; 67])) with 3. simpl. lia.
    + eapply (step_read _ _ _ 2); [lia|vm_compute; reflexivity].
  - reflexivity.
Qed.

Lemma reassembler_delivers_prefix_witness :
  exists st rest, text [65; 66; 67] = text [65; 66] ++ ByteStream_peek_output (sr_output st) 4 ++ rest.
Proof.
  destruct demo_run_reaches as (st & del & R & Hd). exists st. rewrite <- Hd.
  apply (reassembler_delivers_prefix (text [65; 66; 67]) 4 st del ltac:(lia) ltac:(reflexivity) R).
Defined.

(** C40: in every run of legal pushes and reads of a stream [S], the bytes
    reassembled but unread plus the bytes stored but not reassembled never exceed
    the capacity. (This counts stored bytes; the index map [m_exist] is not
    bounded by the capacity: [exist_map_never_shrinks].) *)
Theorem reassembler_within_capacity S cap st del :
  0 <= cap -> zlen S + cap < W64 ->
  reach (sr_step S) (StreamReassembler_new cap, []) (st, del) ->
  0 <= StreamReassembler_unassembled_bytes st /\
  ByteStream_buffer_size (sr_output st) + StreamReassembler_unassembled_bytes st <= cap.
Proof.
  intros Hc Hb Hr. destruct (sr_inv_reach S cap st del Hc Hb Hr) as (f & A & I).
  destruct I as [R Hcap _ _ _ _]. pose proof (rp_out _ _ _ R) as Ro.
  pose proof (br_nreadb _ _ Ro). pose proof (rp_core _ _ _ R) as C.
  pose proof (core_un_bounds C ltac:(lia)) as Hu. pose proof (sc_fu _ _ _ _ _ _ _ C).
  rewrite (bs_buffer_size_spec _ _ Ro), fifo_pending_len by done.
  unfold StreamReassembler_unassembled_bytes. lia.
Qed.

(** Capacity 2, three bytes pushed from index 1: only one of them is stored. *)
Lemma reassembler_within_capacity_witness :
  exists st, push_substring (StreamReassembler_new 2) (text [66; 67]) 1 true = Ok st /\
    StreamReassembler_unassembled_bytes st = 1 /\
    ByteStream_buffer_size (sr_output st) + StreamReassembler_unassembled_bytes st <= 2.
Proof.
  eexists. split; [vm_compute; reflexivity|]. split; [vm_compute; reflexivity|].
  eapply (reassembler_within_capacity (text [65; 66; 67]) 2 _ []); [lia|reflexivity|].
  eapply reach_step; [apply reach_refl|].
  eapply (step_push _ _ _ 1 2 true); [|vm_compute; reflexivity].
  unfold legal_push. change (zlen (text [65; 66; 67])) with 3. simpl. lia.
Defined.

(** end of file is sound and complete: in every run whose FIN marks are legal, a
    stream marked as ended holds all of [S]; and pushing the missing suffix with
    its FIN, when it fits in the window, ends the stream with exactly [S]. *)
Theorem reassembler_eof_correct S cap st del :
  0 <= cap -> zlen S + cap < W64 ->
  reach (sr_step S) (StreamReassembler_new cap, []) (st, del) ->
  (ByteStream_input_ended (sr_output st) = true ->
     ByteStream_bytes_written (sr_output st) = zlen S /\
     S = del ++ ByteStream_peek_output (sr_output st) cap) /\
  (zlen S <= ByteStream_bytes_read (sr_output st) + cap ->
     let fu := sr_first_unassembled st in
     exists st', push_substring st (slice S fu (zlen S)) fu true = Ok st' /\
       ByteStream_input_ended (sr_output st') = true /\
       ByteStream_bytes_written (sr_output st') = zlen S).
Proof.
  intros Hc Hb Hr. destruct (sr_inv_reach S cap st del Hc Hb Hr) as (f & A & I).
  pose proof I as [R Hcap HA Hdel Hfin Hend]. pose proof (rp_out _ _ _ R) as Ro.
  unfold ByteStream_input_ended, ByteStream_bytes_written, ByteStream_bytes_read.
  rewrite (br_ended _ _ Ro), (br_written _ _ Ro), (br_nread _ _ Ro). split.
  - intros He. split; [by rewrite (Hend He)|].
    rewrite (bs_peek_spec _ _ Ro) by lia. rewrite ztake_all by (pose proof (br_room _ _ Ro); lia).
    rewrite Hdel. unfold fifo_pending. by rewrite ztake_zdrop_id, (Hend He).
  - intros Hw. cbv zeta. destruct (push_suffix_covers S cap st del f A Hb I ltac:(lia))
      as (st' & f' & A' & E & I' & He' & Hd' & Hall).
    pose proof (rp_out _ _ _ (si_repr _ _ _ _ _ _ I')) as Ro'.
    destruct (covered_complete S st' f' A' (si_repr _ _ _ _ _ _ I') (si_agrees _ _ _ _ _ _ I') Hall)
      as [Hlen Hun].
    exists st'. rewrite (br_ended _ _ Ro'), (br_written _ _ Ro'). split; [done|]. split; [|done].
    rewrite Hd', He'. unfold StreamReassembler_empty. rewrite Hun. apply orb_true_r.
Qed.

Lemma reassembler_eof_correct_witness :
  exists st', push_substring (StreamReassembler_new 4) (slice (text [65; 66]) 0 2) 0 true = Ok st' /\
    ByteStream_input_ended (sr_output st') = true /\ ByteStream_bytes_written (sr_output st') = 2.
Proof.
  destruct (reassembler_eof_correct (text [65; 66]) 4 (StreamReassembler_new 4) []) as [_ H];
    [lia|reflexivity|apply reach_refl|]. apply H. vm_compute. congruence.
Defined.

(** a FIN that carries no data and arrives ahead of missing bytes ends the stream
    at once: with nothing received, an empty substring at index 5 marked [eof]
    makes [eof()] true although bytes 0..4 never arrived. *)
Theorem early_fin_truncates :
  exists st, push_substring (StreamReassembler_new 8) [] 5 true = Ok st /\
    ByteStream_eof (sr_output st) = true /\ ByteStream_bytes_written (sr_output st) = 0.
Proof. eexists. split; [vm_compute; reflexivity|]. vm_compute. done. Qed.

(** the index map [m_exist] is never trimmed: it keeps an entry for every byte
    ever assembled, so the object's memory grows with the length of the stream
    although the class promises to stay within [capacity]. *)
Theorem exist_map_never_shrinks S cap st del :
  0 <= cap -> zlen S + cap < W64 ->
  reach (sr_step S) (StreamReassembler_new cap, []) (st, del) ->
  ByteStream_bytes_written (sr_output st) + StreamReassembler_unassembled_bytes st
    <= Z.of_nat (size (sr_exist st)).
Proof.
  intros Hc Hb Hr. destruct (sr_inv_reach S cap st del Hc Hb Hr) as (f & A & [R _ _ _ _ _]).
  pose proof (rp_core _ _ _ R) as C. pose proof (map_at_true_size _ _ (sc_exist _ _ _ _ _ _ _ C)).
  unfold ByteStream_bytes_written, StreamReassembler_unassembled_bytes.
  rewrite (br_written _ _ (rp_out _ _ _ R)), (sc_un _ _ _ _ _ _ _ C), (sc_fu _ _ _ _ _ _ _ C). lia.
Qed.

Lemma exist_map_never_shrinks_witness :
  ByteStream_bytes_written (sr_output (StreamReassembler_new 4)) + 0 <= 0.
Proof.
  apply (exist_map_never_shrinks [] 4 (StreamReassembler_new 4) []); [lia|reflexivity|apply reach_refl].
Defined.
