(* ===== verification/Checksum.v ===== *)
(** * The Internet checksum

    Models the class [InternetChecksum] of [libsponge/util/util.hh] and [util.cc]:
    a 32-bit accumulator of big-endian 16-bit words fed byte by byte, folded to
    16 bits and complemented by [value]. *)

From S2P Require Import Prelude.

Record InternetChecksum : Type := mkChecksum {
  ck_sum : Z;          (* uint32_t *)
  ck_parity : bool
}.

Definition InternetChecksum_new (initial_sum : Z) : InternetChecksum := mkChecksum initial_sum false.

Definition InternetChecksum_add1 (c : InternetChecksum) (b : byte) : InternetChecksum :=
  let val := byte_val b in
  let val := if negb (ck_parity c) then u16 (Z.shiftl val 8) else val in
  mkChecksum (u32 (ck_sum c + val)) (negb (ck_parity c)).

Definition InternetChecksum_add (c : InternetChecksum) (data : bytes) : InternetChecksum :=
  fold_left InternetChecksum_add1 data c.

(** [while (ret > 0xffff) ret = (ret >> 16) + (ret & 0xffff);] *)
Fixpoint checksum_fold (fuel : nat) (ret : Z) : res Z :=
  match fuel with
  | O => NoFuel
  | S fuel' =>
      if 65535 <? ret then checksum_fold fuel' (u32 (Z.shiftr ret 16 + Z.land ret 65535))
      else Ok ret
  end.

(** Two passes bring any 32-bit value to 16 bits; the third sees it. *)
Definition InternetChecksum_value (c : InternetChecksum) : res Z :=
  ret ← checksum_fold 3 (ck_sum c); Ok (u16 (Z.lnot ret)).

(** ** The sum without wrap-around *)

Definition weight (parity : bool) (b : byte) : Z :=
  if parity then byte_val b else 256 * byte_val b.

Fixpoint word_sum (parity : bool) (data : bytes) : Z :=
  match data with
  | [] => 0
  | b :: r => weight parity b + word_sum (negb parity) r
  end.

Definition flip (parity : bool) (data : bytes) : bool := xorb parity (Z.odd (zlen data)).

Lemma weight_range p b : 0 <= weight p b <= 65280.
Proof. unfold weight. pose proof (byte_val_range b). destruct p; lia. Qed.

Lemma word_sum_range data : forall p, 0 <= word_sum p data <= 65280 * zlen data.
Proof.
  induction data as [|b data IH]; intros p; simpl; [rewrite (@zlen_nil byte); lia|].
  rewrite zlen_cons. pose proof (weight_range p b). specialize (IH (negb p)). lia.
Qed.

Lemma flip_cons p b data : flip p (b :: data) = flip (negb p) data.
Proof.
  unfold flip. rewrite zlen_cons, Z.odd_add. by destruct p, (Z.odd (zlen data)).
Qed.

Lemma flip_app p a b : flip p (a ++ b) = flip (flip p a) b.
Proof.
  unfold flip. rewrite zlen_app, Z.odd_add.
  by destruct p, (Z.odd (zlen a)), (Z.odd (zlen b)).
Qed.

Lemma word_sum_app a : forall p b, word_sum p (a ++ b) = word_sum p a + word_sum (flip p a) b.
Proof.
  induction a as [|x a IH]; intros p b; simpl.
  - unfold flip. rewrite (@zlen_nil byte). simpl. by rewrite xorb_false_r.
  - rewrite IH, flip_cons. lia.
Qed.

(** [add] computes the sum as long as it fits in 32 bits. *)
Lemma add_spec data : forall c,
  0 <= ck_sum c -> ck_sum c + word_sum (ck_parity c) data < W32 ->
  InternetChecksum_add c data
  = mkChecksum (ck_sum c + word_sum (ck_parity c) data) (flip (ck_parity c) data).
Proof.
  unfold InternetChecksum_add. induction data as [|b data IH]; intros c H0 Hb; simpl in *.
  - unfold flip. rewrite (@zlen_nil byte). simpl. rewrite xorb_false_r, Z.add_0_r. by destruct c.
  - pose proof (weight_range (ck_parity c) b). pose proof (word_sum_range data (negb (ck_parity c))).
    assert (E : InternetChecksum_add1 c b
                = mkChecksum (ck_sum c + weight (ck_parity c) b) (negb (ck_parity c))).
    { unfold InternetChecksum_add1, weight in *. pose proof (byte_val_range b).
      rewrite Z.shiftl_mul_pow2 by lia. change (2 ^ 8) with 256.
      destruct (ck_parity c); simpl; nowrap; f_equal; lia. }
    rewrite E, IH; simpl; [|lia..]. rewrite flip_cons. f_equal. lia.
Qed.

(** ** Folding *)

Lemma fold_step x : 0 <= x < W32 ->
  u32 (Z.shiftr x 16 + Z.land x 65535) = x / 65536 + x mod 65536.
Proof.
  intros H. rewrite Z.shiftr_div_pow2 by lia. change 65535 with (Z.ones 16).
  rewrite Z.land_ones by lia. change (2 ^ 16) with 65536.
  pose proof (Z.mod_pos_bound x 65536 ltac:(lia)).
  assert (x / 65536 < 65536) by (apply Z.div_lt_upper_bound; lia).
  pose proof (Z.div_pos x 65536 ltac:(lia) ltac:(lia)). by nowrap.
Qed.

(** The folded value is congruent to the sum modulo 2^16 - 1 and is zero only for
    a zero sum; the fuel is enough. *)
Lemma checksum_fold_spec x : 0 <= x < W32 ->
  exists y q, checksum_fold 3 x = Ok y /\ 0 <= y <= 65535 /\ x = y + q * 65535 /\ 0 <= q /\ (y = 0 -> x = 0).
Proof.
  intros Hx. cbn [checksum_fold].
  destruct (Z.ltb_spec 65535 x); [|exists x, 0; split; [done|lia]].
  rewrite fold_step by lia. pose proof (Z_div_mod_eq_full x 65536) as E1.
  pose proof (Z.mod_pos_bound x 65536 ltac:(lia)) as M1.
  assert (B1 : 1 <= x / 65536 < 65536).
  { split; [apply Z.div_le_lower_bound; lia|apply Z.div_lt_upper_bound; lia]. }
  remember (x / 65536 + x mod 65536) as x1 eqn:Hx1.
  destruct (Z.ltb_spec 65535 x1); [|exists x1, (x / 65536); split; [done|lia]].
  rewrite fold_step by lia. pose proof (Z_div_mod_eq_full x1 65536) as E2.
  pose proof (Z.mod_pos_bound x1 65536 ltac:(lia)) as M2.
  assert (B2 : x1 / 65536 = 1) by lia.
  remember (x1 / 65536 + x1 mod 65536) as x2 eqn:Hx2.
  destruct (Z.ltb_spec 65535 x2); [lia|].
  exists x2, (x / 65536 + x1 / 65536). split; [done|lia].
Qed.

Lemma value_spec c : 0 <= ck_sum c < W32 ->
  exists v q, InternetChecksum_value c = Ok v /\ 0 <= v <= 65535 /\
    ck_sum c + v = 65535 + q * 65535 /\ 0 <= q /\ (v = 65535 -> ck_sum c = 0).
Proof.
  intros H. destruct (checksum_fold_spec _ H) as (y & q & E & Hy & Hq & Hq0 & Hz).
  exists (65535 - y), q. unfold InternetChecksum_value. rewrite E. cbn.
  assert (u16 (Z.lnot y) = 65535 - y).
  { unfold u16, Z.lnot. symmetry. apply Z.mod_unique with (-1); lia. }
  rewrite H0. split; [done|]. lia.
Qed.

(** A sum checks out exactly when it is a positive multiple of 2^16 - 1. *)
Lemma value_zero_iff c : 0 <= ck_sum c < W32 ->
  InternetChecksum_value c = Ok 0 <-> (0 < ck_sum c /\ (65535 | ck_sum c)).
Proof.
  intros H. destruct (value_spec c H) as (v & q & E & Hv & Hq & Hq0 & Hz). rewrite E. split.
  - intros [= ->]. split; [lia|]. exists (1 + q). lia.
  - intros [Hpos [k Hk]]. f_equal. destruct (decide (v = 0)) as [|Hne]; [done|].
    exfalso. assert (v = 65535) by nia. specialize (Hz ltac:(done)). lia.
Qed.

(** ** Checking what was computed *)

(** The two bytes of a checksum [v] as they are put on the wire. *)
Definition word_bytes (v : Z) : bytes := [byte_of (v / 256); byte_of v].

Lemma word_bytes_sum v : 0 <= v <= 65535 -> word_sum false (word_bytes v) = v.
Proof.
  intros Hv. simpl. unfold weight. rewrite !byte_val_of.
  assert (v / 256 < 256) by (apply Z.div_lt_upper_bound; lia).
  pose proof (Z.div_pos v 256 ltac:(lia) ltac:(lia)).
  rewrite (Z.mod_small (v / 256)) by lia. pose proof (Z_div_mod_eq_full v 256). lia.
Qed.

(** Setting a zero 16-bit field at an even offset to the checksum of the data makes
    the checksum of the result zero. *)
Lemma checksum_field_valid init pre post v :
  0 <= init -> Z.odd (zlen pre) = false ->
  init + 65280 * (zlen pre + zlen post) + 65535 < W32 ->
  InternetChecksum_value
    (InternetChecksum_add (InternetChecksum_new init) (pre ++ word_bytes 0 ++ post)) = Ok v ->
  InternetChecksum_value
    (InternetChecksum_add (InternetChecksum_new init) (pre ++ word_bytes v ++ post)) = Ok 0.
Proof.
  intros Hi Hev Hb.
  assert (Hsum : forall w, 0 <= w <= 65535 ->
    word_sum false (pre ++ word_bytes w ++ post) = word_sum false pre + w + word_sum false post).
  { intros w Hw. assert (flip false pre = false) as F1 by (unfold flip; by rewrite Hev).
    assert (flip false (word_bytes w) = false) as F2 by done.
    rewrite !word_sum_app, F1, F2, word_bytes_sum by done. lia. }
  pose proof (word_sum_range pre false). pose proof (word_sum_range post false).
  assert (Hadd : forall w, 0 <= w <= 65535 ->
    ck_sum (InternetChecksum_add (InternetChecksum_new init) (pre ++ word_bytes w ++ post))
    = init + word_sum false pre + w + word_sum false post).
  { intros w Hw. rewrite add_spec; cbn [ck_sum ck_parity InternetChecksum_new]; rewrite ?Hsum by done; lia. }
  destruct (value_spec (InternetChecksum_add (InternetChecksum_new init) (pre ++ word_bytes 0 ++ post)))
    as (v' & q & E & Hv & Hq & Hq0 & Hz); [rewrite Hadd; lia|].
  rewrite E. intros [= <-]. apply value_zero_iff; rewrite Hadd by done; rewrite Hadd in Hq by lia.
  - lia.
  - split; [lia|]. exists (1 + q). lia.
Qed.

(** C38: the checksum detects every single-byte corruption: if data whose checksum is
    zero is changed in exactly one byte, the checksum is no longer zero. (Up to
    65535 bytes, so that the 32-bit accumulator cannot overflow.) *)
Theorem checksum_detects_byte_corruption init pre b b' post :
  0 <= init -> init + 65280 * (zlen pre + 1 + zlen post) < W32 -> b <> b' ->
  InternetChecksum_value
    (InternetChecksum_add (InternetChecksum_new init) (pre ++ b :: post)) = Ok 0 ->
  InternetChecksum_value
    (InternetChecksum_add (InternetChecksum_new init) (pre ++ b' :: post)) <> Ok 0.
Proof.
  intros Hi Hb Hne.
  assert (Hsum : forall x, ck_sum (InternetChecksum_add (InternetChecksum_new init) (pre ++ x :: post))
    = init + word_sum false pre + weight (flip false pre) x + word_sum (negb (flip false pre)) post /\
    0 <= ck_sum (InternetChecksum_add (InternetChecksum_new init) (pre ++ x :: post)) < W32).
  { intros x. pose proof (word_sum_range pre false). pose proof (word_sum_range post (negb (flip false pre))).
    pose proof (weight_range (flip false pre) x).
    rewrite add_spec; cbn [ck_sum ck_parity InternetChecksum_new]; rewrite ?word_sum_app; cbn [word_sum]; lia. }
  destruct (Hsum b) as [E1 B1], (Hsum b') as [E2 B2].
  rewrite !value_zero_iff by done. rewrite E1, E2. intros [_ [k1 Hk1]] [_ [k2 Hk2]].
  assert (Hv : byte_val b <> byte_val b').
  { intros E. apply Hne. by rewrite <- (byte_of_val b), E, byte_of_val. }
  pose proof (byte_val_range b). pose proof (byte_val_range b').
  unfold weight in *. destruct (flip false pre); lia.
Qed.

Lemma checksum_detects_byte_corruption_witness :
  InternetChecksum_value (InternetChecksum_add (InternetChecksum_new 0)
    ([byte_of 18] ++ byte_of 53 :: word_bytes 60875)) <> Ok 0.
Proof.
  apply (checksum_detects_byte_corruption 0 [byte_of 18] (byte_of 52) (byte_of 53) (word_bytes 60875)
    ltac:(lia)).
  - reflexivity.
  - vm_compute. congruence.
  - vm_compute. reflexivity.
Defined.
