(* ===== verification/Parser.v ===== *)
(** * Parsing and writing network byte order

    Models [libsponge/util/parser.hh] and [parser.cc]: [ParseResult], [NetParser]
    (a buffer and a sticky error) and [NetUnparser]. The class [WireFormat] is what
    the header types promise to the code that frames them: parsing what was
    serialized gives the value back and leaves the bytes that follow. *)

From S2P Require Import Prelude Buffers.

Inductive ParseResult : Type :=
| NoError
| BadChecksum
| PacketTooShort
| WrongIPVersion
| HeaderTooShort
| TruncatedPacket
| Unsupported.

#[export] Instance ParseResult_eq_dec : EqDecision ParseResult.
Proof. solve_decision. Defined.

Definition ParseResult_code (r : ParseResult) : nat :=
  match r with
  | NoError => 0 | BadChecksum => 1 | PacketTooShort => 2 | WrongIPVersion => 3
  | HeaderTooShort => 4 | TruncatedPacket => 5 | Unsupported => 6
  end.

(** The table of [as_string]; indexing past its end is undefined behaviour. *)
Definition parse_result_names : list string :=
  ["NoError"; "BadChecksum"; "PacketTooShort"; "WrongIPVersion"; "HeaderTooShort"; "TruncatedPacket"]%string.

Definition as_string (r : ParseResult) : res string :=
  match parse_result_names !! ParseResult_code r with
  | Some s => Ok s
  | None => Throw (UB "as_string: read past the end of _names")
  end.

(** ** NetParser *)

Record NetParser : Type := mkNetParser {
  np_buffer : Buffer;
  np_error : ParseResult
}.

Definition NetParser_new (b : Buffer) : NetParser := mkNetParser b NoError.

Definition NetParser_has_error (p : NetParser) : bool :=
  negb (bool_decide (np_error p = NoError)).

Definition NetParser_check_size (p : NetParser) (size : Z) : NetParser :=
  if Buffer_size (np_buffer p) <? size then mkNetParser (np_buffer p) PacketTooShort else p.

(** [ret <<= 8; ret += uint8_t(_buffer.at(i));] for [len] positions from [i], in a
    type of [w] bits. *)
Fixpoint parse_bytes (b : Buffer) (w : Z) (len : nat) (i ret : Z) : res Z :=
  match len with
  | O => Ok ret
  | S len' =>
      c ← Buffer_at b i;
      parse_bytes b w len' (i + 1) ((((ret * 256) mod 2 ^ w) + c) mod 2 ^ w)
  end.

(** [_parse_int<T>] for a type of [len] bytes. *)
Definition NetParser_parse_int (len : nat) (p : NetParser) : res (Z * NetParser) :=
  let p := NetParser_check_size p (Z.of_nat len) in
  if NetParser_has_error p then Ok (0, p)
  else
    ret ← parse_bytes (np_buffer p) (8 * Z.of_nat len) len 0 0;
    b ← Buffer_remove_prefix (np_buffer p) (Z.of_nat len);
    Ok (ret, mkNetParser b (np_error p)).

Definition NetParser_u32 : NetParser -> res (Z * NetParser) := NetParser_parse_int 4.
Definition NetParser_u16 : NetParser -> res (Z * NetParser) := NetParser_parse_int 2.
Definition NetParser_u8 : NetParser -> res (Z * NetParser) := NetParser_parse_int 1.

Definition NetParser_remove_prefix (p : NetParser) (n : Z) : res NetParser :=
  let p := NetParser_check_size p n in
  if NetParser_has_error p then Ok p
  else b ← Buffer_remove_prefix (np_buffer p) n; Ok (mkNetParser b (np_error p)).

(** [for (auto &byte : addr) byte = p.u8();] *)
Fixpoint NetParser_u8s (n : nat) (p : NetParser) : res (list Z * NetParser) :=
  match n with
  | O => Ok ([], p)
  | S n' => '(b, p) ← NetParser_u8 p; '(bs, p) ← NetParser_u8s n' p; Ok (b :: bs, p)
  end.

(** ** NetUnparser *)

(** [_unparse_int<T>]: appends [len] bytes, most significant first. *)
Fixpoint unparse_from (len i : nat) (val : Z) (s : bytes) : bytes :=
  match i with
  | O => s
  | S i' => unparse_from len i' val (s ++ [byte_of (Z.land (Z.shiftr val (Z.of_nat i' * 8)) 255)])
  end.

Definition NetUnparser_unparse_int (len : nat) (s : bytes) (val : Z) : bytes := unparse_from len len val s.

Definition NetUnparser_u32 (s : bytes) (val : Z) : bytes := NetUnparser_unparse_int 4 s (u32 val).
Definition NetUnparser_u16 (s : bytes) (val : Z) : bytes := NetUnparser_unparse_int 2 s (u16 val).
Definition NetUnparser_u8 (s : bytes) (val : Z) : bytes := NetUnparser_unparse_int 1 s (u8 val).

(** [for (auto &byte : addr) NetUnparser::u8(ret, byte);] *)
Definition NetUnparser_u8s (s : bytes) (vals : list Z) : bytes := fold_left NetUnparser_u8 vals s.

(** ** What a parser has left *)

Record np_repr (p : NetParser) (rest : bytes) (err : ParseResult) : Prop := {
  nr_wf : Buffer_wf (np_buffer p);
  nr_rest : Buffer_str (np_buffer p) = rest;
  nr_err : np_error p = err
}.

Lemma np_repr_new b : Buffer_wf b -> np_repr (NetParser_new b) (Buffer_str b) NoError.
Proof. intros H. by split. Qed.

(** Big-endian value of a byte string. *)
Fixpoint be_val (acc : Z) (bs : bytes) : Z :=
  match bs with
  | [] => acc
  | b :: r => be_val (acc * 256 + byte_val b) r
  end.

Fixpoint be_bytes (len : nat) (v : Z) : bytes :=
  match len with
  | O => []
  | S len' => byte_of (v / 256 ^ Z.of_nat len') :: be_bytes len' v
  end.

Lemma be_bytes_length len v : length (be_bytes len v) = len.
Proof. induction len; simpl; auto. Qed.

Lemma zlen_be_bytes len v : zlen (be_bytes len v) = Z.of_nat len.
Proof. unfold zlen. by rewrite be_bytes_length. Qed.

Lemma be_val_bound bs : forall acc k,
  0 <= acc < k -> 0 <= be_val acc bs < k * 256 ^ zlen bs.
Proof.
  induction bs as [|b bs IH]; intros acc k H; simpl.
  - rewrite (@zlen_nil byte), Z.pow_0_r. lia.
  - rewrite zlen_cons, Z.pow_add_r by zlia. rewrite Z.mul_assoc. apply IH.
    pose proof (byte_val_range b). change (256 ^ 1) with 256. nia.
Qed.

Lemma be_val_bytes len : forall v acc, 0 <= v ->
  be_val acc (be_bytes len v) = acc * 256 ^ Z.of_nat len + v mod 256 ^ Z.of_nat len.
Proof.
  induction len as [|len IH]; intros v acc Hv; simpl.
  - rewrite Z.mod_1_r. lia.
  - rewrite IH, byte_val_of by done. rewrite Nat2Z.inj_succ, Z.pow_succ_r by lia.
    set (m := 256 ^ Z.of_nat len). assert (0 < m) by (apply Z.pow_pos_nonneg; lia).
    rewrite (Z.mul_comm 256 m), Z.rem_mul_r by lia. lia.
Qed.

(** Writing appends the big-endian bytes. *)
Lemma unparse_from_spec len i : forall val s, 0 <= val ->
  unparse_from len i val s = s ++ be_bytes i val.
Proof.
  induction i as [|i IH]; intros val s Hv; simpl; [by rewrite app_nil_r|].
  rewrite IH by done. rewrite <- app_assoc. simpl. do 2 f_equal.
  rewrite Z.shiftr_div_pow2 by lia. change 255 with (Z.ones 8). rewrite Z.land_ones by lia.
  replace (2 ^ (Z.of_nat i * 8)) with (256 ^ Z.of_nat i).
  2:{ change 256 with (2 ^ 8). rewrite <- Z.pow_mul_r by lia. f_equal. lia. }
  change (2 ^ 8) with 256. unfold byte_of. by rewrite Zmod_mod.
Qed.

Lemma unparse_u32 s v : NetUnparser_u32 s v = s ++ be_bytes 4 (u32 v).
Proof. apply unparse_from_spec. apply u32_range. Qed.

Lemma unparse_u16 s v : NetUnparser_u16 s v = s ++ be_bytes 2 (u16 v).
Proof. apply unparse_from_spec. apply u16_range. Qed.

Lemma unparse_u8 s v : NetUnparser_u8 s v = s ++ be_bytes 1 (u8 v).
Proof. apply unparse_from_spec. apply u8_range. Qed.

(** An octet string as [u8]s. *)
Definition octets (vals : list Z) : bytes := map byte_of vals.

Lemma unparse_u8s vals : forall s, NetUnparser_u8s s vals = s ++ octets vals.
Proof.
  unfold NetUnparser_u8s. induction vals as [|v vals IH]; intros s; simpl; [by rewrite app_nil_r|].
  rewrite unparse_u8, IH, <- app_assoc. simpl. rewrite Z.div_1_r.
  do 2 f_equal. unfold byte_of, u8. by rewrite Zmod_mod.
Qed.

(** ** Reading *)

Lemma parse_bytes_spec b w bs : forall i ret pre suf,
  Buffer_str b = pre ++ bs ++ suf -> i = zlen pre -> 0 <= ret ->
  be_val ret bs < 2 ^ w ->
  parse_bytes b w (length bs) i ret = Ok (be_val ret bs).
Proof.
  induction bs as [|c bs IH]; intros i ret pre suf Hs Hi Hr Hb; simpl; [done|].
  unfold Buffer_at. rewrite Hs, Hi, znth_app_r, Z.sub_diag by lia. simpl.
  pose proof (byte_val_range c). simpl in Hb.
  assert (ret * 256 + byte_val c <= be_val (ret * 256 + byte_val c) bs).
  { clear -Hr H. assert (0 <= ret * 256 + byte_val c) as H0 by lia. revert H0.
    generalize (ret * 256 + byte_val c). induction bs as [|b bs IH]; intros a Ha; simpl; [lia|].
    pose proof (byte_val_range b). specialize (IH (a * 256 + byte_val b) ltac:(lia)). lia. }
  rewrite (Z.mod_small (ret * 256)) by lia. rewrite Z.mod_small by lia.
  apply (IH _ _ (pre ++ [c]) suf); [by rewrite <- app_assoc| |lia|done].
  rewrite zlen_app, zlen_cons, (@zlen_nil byte). lia.
Qed.

(** With enough data, [_parse_int] returns the big-endian value of the next bytes. *)
Lemma parse_int_ok len p bs rest :
  np_repr p (bs ++ rest) NoError -> length bs = len ->
  exists p', NetParser_parse_int len p = Ok (be_val 0 bs, p') /\ np_repr p' rest NoError.
Proof.
  intros [Hwf Hr He] Hl. unfold NetParser_parse_int, NetParser_check_size.
  assert (Hz : zlen bs = Z.of_nat len) by (unfold zlen; by rewrite Hl).
  unfold Buffer_size. rewrite Hr, zlen_app. ztest; [zlia|].
  unfold NetParser_has_error. rewrite He. simpl.
  pose proof (be_val_bound bs 0 1 ltac:(lia)) as Hb. rewrite Hz, Z.mul_1_l in Hb.
  rewrite <- Hl, (parse_bytes_spec (np_buffer p) _ bs 0 0 [] rest);
    [|done|done|lia|].
  2:{ rewrite Hl. replace (2 ^ (8 * Z.of_nat len)) with (256 ^ Z.of_nat len); [lia|].
      change 256 with (2 ^ 8). by rewrite <- Z.pow_mul_r by lia. }
  cbn. pose proof (Buffer_remove_prefix_spec (np_buffer p) (Z.of_nat (length bs)) Hwf ltac:(lia)) as H'.
  unfold Buffer_size in H'. rewrite Hr, zlen_app in H'. fold (zlen bs) in *.
  destruct (Z.ltb_spec (zlen bs + zlen rest) (zlen bs)); [zlia|].
  destruct H' as (b' & -> & Hb' & E). cbn. eexists. split; [done|]. split; [done| |done].
  simpl. rewrite E. by rewrite zdrop_app_ge, Z.sub_diag by lia.
Qed.

(** Without, it returns 0 and records the error (or keeps an earlier one). *)
Lemma parse_int_short len p rest err :
  np_repr p rest err -> zlen rest < Z.of_nat len ->
  exists p', NetParser_parse_int len p = Ok (0, p') /\ np_repr p' rest PacketTooShort.
Proof.
  intros [Hwf Hr He] Hl. unfold NetParser_parse_int, NetParser_check_size, Buffer_size.
  rewrite Hr. ztest; [|lia]. eexists. by split.
Qed.

Lemma parse_u8s_ok vals : forall p rest,
  Forall (fun v => 0 <= v < 256) vals -> np_repr p (octets vals ++ rest) NoError ->
  exists p', NetParser_u8s (length vals) p = Ok (vals, p') /\ np_repr p' rest NoError.
Proof.
  induction vals as [|v vals IH]; intros p rest Hv R; simpl; [by exists p|].
  inversion Hv as [|? ? Hv1 Hv2]; subst.
  destruct (parse_int_ok 1 p [byte_of v] (octets vals ++ rest)) as (p1 & E1 & R1); [done|done|].
  unfold NetParser_u8. rewrite E1. cbn -[byte_val byte_of].
  destruct (IH p1 rest Hv2 R1) as (p2 & -> & R2). cbn -[byte_val byte_of].
  exists p2. split; [|done]. rewrite byte_val_of, Z.mod_small by lia. done.
Qed.

Lemma parser_remove_prefix_ok p pre rest n :
  np_repr p (pre ++ rest) NoError -> n = zlen pre ->
  exists p', NetParser_remove_prefix p n = Ok p' /\ np_repr p' rest NoError.
Proof.
  intros [Hwf Hr He] ->. unfold NetParser_remove_prefix, NetParser_check_size.
  unfold Buffer_size. rewrite Hr, zlen_app. ztest; [zlia|].
  unfold NetParser_has_error. rewrite He. cbn.
  pose proof (Buffer_remove_prefix_spec (np_buffer p) (zlen pre) Hwf ltac:(zlia)) as H'.
  unfold Buffer_size in H'. rewrite Hr, zlen_app in H'.
  destruct (Z.ltb_spec (zlen pre + zlen rest) (zlen pre)); [zlia|].
  destruct H' as (b' & -> & Hb' & E). cbn. eexists. split; [done|]. split; [done| |done].
  simpl. rewrite E. by rewrite zdrop_app_ge, Z.sub_diag by lia.
Qed.

(** An integer that was written is read back. *)
Lemma parse_int_be len p v rest :
  0 <= v < 256 ^ Z.of_nat len -> np_repr p (be_bytes len v ++ rest) NoError ->
  exists p', NetParser_parse_int len p = Ok (v, p') /\ np_repr p' rest NoError.
Proof.
  intros Hv R. destruct (parse_int_ok len p (be_bytes len v) rest R (be_bytes_length _ _))
    as (p' & E & R'). exists p'. split; [|done].
  rewrite E, be_val_bytes, Z.mod_small by lia. done.
Qed.

Lemma parse_u32_be p v rest :
  np_repr p (be_bytes 4 v ++ rest) NoError -> 0 <= v < W32 ->
  exists p', NetParser_u32 p = Ok (v, p') /\ np_repr p' rest NoError.
Proof. intros R Hv. by apply parse_int_be. Qed.

Lemma parse_u16_be p v rest :
  np_repr p (be_bytes 2 v ++ rest) NoError -> 0 <= v < W16 ->
  exists p', NetParser_u16 p = Ok (v, p') /\ np_repr p' rest NoError.
Proof. intros R Hv. by apply parse_int_be. Qed.

Lemma parse_u8_be p v rest :
  np_repr p (be_bytes 1 v ++ rest) NoError -> 0 <= v < 256 ->
  exists p', NetParser_u8 p = Ok (v, p') /\ np_repr p' rest NoError.
Proof. intros R Hv. by apply parse_int_be. Qed.

(** Symbolic execution of a header parser: read back the next field. *)
Ltac parse_step R :=
  let p := fresh "p" in let E := fresh "E" in let R' := fresh "R" in
  first
    [ destruct (parse_u32_be _ _ _ R ltac:(lia)) as (p & E & R')
    | destruct (parse_u16_be _ _ _ R ltac:(lia)) as (p & E & R')
    | destruct (parse_u8_be _ _ _ R ltac:(lia)) as (p & E & R') ];
  rewrite E; clear E R; rename R' into R; rewrite res_bind_Ok; cbv beta iota.

(** ** Reading any input

    On a well-formed buffer no parser method throws, whatever the data. *)

Lemma parse_bytes_total b w len : forall i ret, 0 <= w -> 0 <= i -> i + Z.of_nat len <= Buffer_size b ->
  0 <= ret < 2 ^ w -> exists v, parse_bytes b w len i ret = Ok v /\ 0 <= v < 2 ^ w.
Proof.
  induction len as [|len IH]; intros i ret Hw Hi Hl Hr; simpl; [by exists ret|].
  unfold Buffer_at. destruct (znth_is_Some i (Buffer_str b)) as [c ->]; [unfold Buffer_size in Hl; lia|].
  cbn. apply IH; [lia..|]. apply Z.mod_pos_bound. lia.
Qed.

(** A well-formed buffer of at most [lim] bytes. *)
Definition Buffer_in (lim : Z) (b : Buffer) : Prop := Buffer_wf b /\ zlen (Buffer_str b) <= lim.

Lemma wf_in b : Buffer_wf b -> Buffer_in (zlen (Buffer_str b)) b.
Proof. by split. Qed.

Lemma shrunk_in {lim} b b' n : zlen (Buffer_str b) <= lim -> Buffer_wf b' -> Buffer_str b' = zdrop n (Buffer_str b) ->
  Buffer_in lim b'.
Proof. intros Hl Hw E. split; [done|]. rewrite E. unfold zdrop, zlen in *. rewrite length_drop. lia. Qed.

Lemma parse_int_total {lim} len p : Buffer_in lim (np_buffer p) ->
  exists v p', NetParser_parse_int len p = Ok (v, p') /\ Buffer_in lim (np_buffer p') /\
    0 <= v < 256 ^ Z.of_nat len.
Proof.
  intros [Hwf Hlim]. assert (Hp : 2 ^ (8 * Z.of_nat len) = 256 ^ Z.of_nat len)
    by (change 256 with (2 ^ 8); by rewrite <- Z.pow_mul_r by lia).
  assert (0 < 256 ^ Z.of_nat len) by (apply Z.pow_pos_nonneg; lia).
  unfold NetParser_parse_int, NetParser_check_size. ztest.
  - simpl. eexists 0, _. split; [done|]. split; [by split|lia].
  - destruct (NetParser_has_error p); [eexists 0, _; split; [done|split; [by split|lia]]|].
    destruct (parse_bytes_total (np_buffer p) (8 * Z.of_nat len) len 0 0) as (v & -> & Hv); [lia..|].
    pose proof (Buffer_remove_prefix_spec (np_buffer p) (Z.of_nat len) Hwf ltac:(lia)) as H'.
    ztest_in H'; [lia|]. destruct H' as (b' & Eb & Hb' & Hs'). cbn [mbind res_bind]. rewrite Eb. cbn.
    eexists v, _. split; [done|]. split; [|lia]. by apply (shrunk_in (np_buffer p) b' (Z.of_nat len)).
Qed.

Lemma parse_u32_total {lim} p : Buffer_in lim (np_buffer p) ->
  exists v p', NetParser_u32 p = Ok (v, p') /\ Buffer_in lim (np_buffer p') /\ 0 <= v < W32.
Proof. apply (parse_int_total 4). Qed.

Lemma parse_u16_total {lim} p : Buffer_in lim (np_buffer p) ->
  exists v p', NetParser_u16 p = Ok (v, p') /\ Buffer_in lim (np_buffer p') /\ 0 <= v < W16.
Proof. apply (parse_int_total 2). Qed.

Lemma parse_u8_total {lim} p : Buffer_in lim (np_buffer p) ->
  exists v p', NetParser_u8 p = Ok (v, p') /\ Buffer_in lim (np_buffer p') /\ 0 <= v < 256.
Proof. apply (parse_int_total 1). Qed.

Lemma parse_u8s_total {lim} n : forall p, Buffer_in lim (np_buffer p) ->
  exists vs p', NetParser_u8s n p = Ok (vs, p') /\ Buffer_in lim (np_buffer p') /\
    length vs = n /\ Forall (fun v => 0 <= v < 256) vs.
Proof.
  induction n as [|n IH]; intros p Hwf; simpl; [by exists [], p|].
  destruct (parse_u8_total p Hwf) as (v & p1 & -> & H1 & Hv). cbn.
  destruct (IH p1 H1) as (vs & p2 & -> & H2 & Hl & Hvs). cbn.
  exists (v :: vs), p2. split; [done|]. split; [done|]. split; [simpl; congruence|]. by constructor.
Qed.

Lemma parser_remove_prefix_total {lim} p n : Buffer_in lim (np_buffer p) -> 0 <= n ->
  exists p', NetParser_remove_prefix p n = Ok p' /\ Buffer_in lim (np_buffer p').
Proof.
  intros [Hwf Hlim] Hn. unfold NetParser_remove_prefix, NetParser_check_size.
  ztest; [by eexists|]. destruct (NetParser_has_error p); [by eexists|].
  pose proof (Buffer_remove_prefix_spec (np_buffer p) n Hwf Hn) as H'.
  ztest_in H'; [lia|]. destruct H' as (b' & -> & Hb' & Hs'). cbn. eexists. split; [done|].
  by apply (shrunk_in (np_buffer p) b' n).
Qed.

(** Symbolic execution on arbitrary data: the next field is some value of its type. *)
Ltac parse_any H :=
  let v := fresh "v" in let p := fresh "p" in let E := fresh "E" in
  let H' := fresh "W" in let Hv := fresh "Hv" in
  match goal with
  | |- context [NetParser_u8s ?n ?q] =>
      destruct (parse_u8s_total n q H) as (v & p & E & H' & Hv)
  | |- context [NetParser_u32 ?q] => destruct (parse_u32_total q H) as (v & p & E & H' & Hv)
  | |- context [NetParser_u16 ?q] => destruct (parse_u16_total q H) as (v & p & E & H' & Hv)
  | |- context [NetParser_u8 ?q] => destruct (parse_u8_total q H) as (v & p & E & H' & Hv)
  end;
  rewrite E; clear E H; rename H' into H; rewrite res_bind_Ok; cbv beta iota.

(** ** The contract of a header type *)

Class WireFormat (T : Type) : Type := {
  wire_valid : T -> Prop;
  wire_serialize : T -> res bytes;
  wire_parse : NetParser -> res (ParseResult * T * NetParser);
  wire_length : T -> Z;
  wire_serialize_ok : forall x, wire_valid x ->
    exists bs, wire_serialize x = Ok bs /\ zlen bs = wire_length x;
  wire_roundtrip : forall x bs rest p, wire_valid x -> wire_serialize x = Ok bs ->
    np_repr p (bs ++ rest) NoError ->
    exists p', wire_parse p = Ok (NoError, x, p') /\ np_repr p' rest NoError
}.

(** [as_string] indexes past the end of its table for [ParseResult::Unsupported]
    (the table has six names for seven results); every other result has its name. *)
Theorem as_string_unsupported_is_ub r :
  (exists s, as_string r = Ok s) <-> r <> Unsupported.
Proof. destruct r; split; intros H; try done; try (by eexists). by destruct H. Qed.

(** ** The example of the documentation *)

(** [doctests/parser_example.cc] *)
Definition parser_example : res unit :=
  let val1 := 3735928559 in
  let val2 := 49344 in
  let val3 := 255 in
  let val4 := 201719550 in
  let buffer := [byte_of 50] in
  let buffer := NetUnparser_u32 buffer val1 in
  let buffer := NetUnparser_u16 buffer val2 in
  let buffer := NetUnparser_u8 buffer val3 in
  let buffer := NetUnparser_u32 buffer val4 in
  let p := NetParser_new (Buffer_of_string buffer) in
  '(out0, p) ← NetParser_u8 p;
  '(out1, p) ← NetParser_u32 p;
  '(out2, p) ← NetParser_u16 p;
  '(out3, p) ← NetParser_u8 p;
  '(out4, p) ← NetParser_u32 p;
  if negb (out0 =? 50) || negb (out1 =? val1) || negb (out2 =? val2) || negb (out3 =? val3) || negb (out4 =? val4)
  then Throw (runtime_error "bad parse") else Ok tt.

(** What the documentation shows of the parser and the unparser holds. *)
Theorem parser_example_passes : parser_example = Ok tt.
Proof. vm_compute. reflexivity. Qed.
