(* ===== verification/TCPSegments.v ===== *)
(** * TCP headers and segments

    Models [libsponge/tcp_helpers/tcp_header.hh], [tcp_header.cc], [tcp_segment.hh]
    and [tcp_segment.cc]: the header record, its parser and serializer, the segment
    with its checksum, and the length in sequence space. *)

From S2P Require Import Prelude WrappingInts Buffers Checksum Parser.

Record TCPHeader : Type := mkTCPHeader {
  th_sport : Z; th_dport : Z;
  th_seqno : WrappingInt32; th_ackno : WrappingInt32;
  th_doff : Z;
  th_urg : bool; th_ack : bool; th_psh : bool; th_rst : bool; th_syn : bool; th_fin : bool;
  th_win : Z; th_cksum : Z; th_uptr : Z
}.

Definition TCPHeader_LENGTH : Z := 20.

Definition TCPHeader_default : TCPHeader :=
  mkTCPHeader 0 0 (mkWrappingInt32 0) (mkWrappingInt32 0) (TCPHeader_LENGTH / 4)
    false false false false false false 0 0 0.

Definition th_set_cksum (h : TCPHeader) (c : Z) : TCPHeader :=
  mkTCPHeader (th_sport h) (th_dport h) (th_seqno h) (th_ackno h) (th_doff h) (th_urg h) (th_ack h)
    (th_psh h) (th_rst h) (th_syn h) (th_fin h) (th_win h) c (th_uptr h).

Definition th_set_ports (h : TCPHeader) (sport dport : Z) : TCPHeader :=
  mkTCPHeader sport dport (th_seqno h) (th_ackno h) (th_doff h) (th_urg h) (th_ack h)
    (th_psh h) (th_rst h) (th_syn h) (th_fin h) (th_win h) (th_cksum h) (th_uptr h).

Definition th_set_seqno (h : TCPHeader) (s : WrappingInt32) : TCPHeader :=
  mkTCPHeader (th_sport h) (th_dport h) s (th_ackno h) (th_doff h) (th_urg h) (th_ack h)
    (th_psh h) (th_rst h) (th_syn h) (th_fin h) (th_win h) (th_cksum h) (th_uptr h).

Definition th_set_syn (h : TCPHeader) (b : bool) : TCPHeader :=
  mkTCPHeader (th_sport h) (th_dport h) (th_seqno h) (th_ackno h) (th_doff h) (th_urg h) (th_ack h)
    (th_psh h) (th_rst h) b (th_fin h) (th_win h) (th_cksum h) (th_uptr h).

Definition th_set_fin (h : TCPHeader) (b : bool) : TCPHeader :=
  mkTCPHeader (th_sport h) (th_dport h) (th_seqno h) (th_ackno h) (th_doff h) (th_urg h) (th_ack h)
    (th_psh h) (th_rst h) (th_syn h) b (th_win h) (th_cksum h) (th_uptr h).

Definition th_set_rst (h : TCPHeader) (b : bool) : TCPHeader :=
  mkTCPHeader (th_sport h) (th_dport h) (th_seqno h) (th_ackno h) (th_doff h) (th_urg h) (th_ack h)
    (th_psh h) b (th_syn h) (th_fin h) (th_win h) (th_cksum h) (th_uptr h).

(** [ack = true; ackno = a; win = w] *)
Definition th_set_ack (h : TCPHeader) (a : WrappingInt32) (w : Z) : TCPHeader :=
  mkTCPHeader (th_sport h) (th_dport h) (th_seqno h) a (th_doff h) (th_urg h) true
    (th_psh h) (th_rst h) (th_syn h) (th_fin h) w (th_cksum h) (th_uptr h).

(** [static_cast<bool>(b & mask)] *)
Definition flag (b mask : Z) : bool := negb (Z.land b mask =? 0).

(** Every field is assigned whatever the parser's error state; the result is the
    returned [ParseResult], the header and the parser. *)
Definition TCPHeader_parse (p : NetParser) : res (ParseResult * TCPHeader * NetParser) :=
  '(sport, p) ← NetParser_u16 p;
  '(dport, p) ← NetParser_u16 p;
  '(seqno, p) ← NetParser_u32 p;
  '(ackno, p) ← NetParser_u32 p;
  '(off, p) ← NetParser_u8 p;
  '(fl_b, p) ← NetParser_u8 p;
  '(win, p) ← NetParser_u16 p;
  '(cksum, p) ← NetParser_u16 p;
  '(uptr, p) ← NetParser_u16 p;
  let doff := Z.shiftr off 4 in
  let h := mkTCPHeader sport dport (to_WrappingInt32 seqno) (to_WrappingInt32 ackno) doff
             (flag fl_b 32) (flag fl_b 16) (flag fl_b 8) (flag fl_b 4) (flag fl_b 2) (flag fl_b 1)
             win cksum uptr in
  if doff <? 5 then Ok (HeaderTooShort, h, p)
  else
    p ← NetParser_remove_prefix p (doff * 4 -64 TCPHeader_LENGTH);
    if NetParser_has_error p then Ok (np_error p, h, p) else Ok (NoError, h, p).

Definition flag_bits (h : TCPHeader) : Z :=
  Z.lor (Z.lor (Z.lor (Z.lor (Z.lor (if th_urg h then 32 else 0) (if th_ack h then 16 else 0))
    (if th_psh h then 8 else 0)) (if th_rst h then 4 else 0)) (if th_syn h then 2 else 0))
    (if th_fin h then 1 else 0).

(** [std::string::resize]. *)
Definition resize (s : bytes) (n : Z) : bytes :=
  ztake n s ++ replicate (Z.to_nat (n - zlen s)) Corelib.Init.Byte.x00.

Definition TCPHeader_serialize (h : TCPHeader) : res bytes :=
  if th_doff h <? 5 then Throw (runtime_error "TCP header too short")
  else
    let ret := NetUnparser_u16 [] (th_sport h) in
    let ret := NetUnparser_u16 ret (th_dport h) in
    let ret := NetUnparser_u32 ret (raw_value (th_seqno h)) in
    let ret := NetUnparser_u32 ret (raw_value (th_ackno h)) in
    let ret := NetUnparser_u8 ret (Z.shiftl (th_doff h) 4) in
    let ret := NetUnparser_u8 ret (flag_bits h) in
    let ret := NetUnparser_u16 ret (th_win h) in
    let ret := NetUnparser_u16 ret (th_cksum h) in
    let ret := NetUnparser_u16 ret (th_uptr h) in
    Ok (resize ret (4 * th_doff h)).

(** [TCPHeader::operator==]: ports and checksum are not compared. *)
Definition TCPHeader_eqb (a b : TCPHeader) : bool :=
  wi_eqb (th_seqno a) (th_seqno b) && wi_eqb (th_ackno a) (th_ackno b) &&
  (th_doff a =? th_doff b) && eqb (th_urg a) (th_urg b) && eqb (th_ack a) (th_ack b) &&
  eqb (th_psh a) (th_psh b) && eqb (th_rst a) (th_rst b) && eqb (th_syn a) (th_syn b) &&
  eqb (th_fin a) (th_fin b) && (th_win a =? th_win b) && (th_uptr a =? th_uptr b).

(** ** Segments *)

Record TCPSegment : Type := mkTCPSegment {
  ts_header : TCPHeader;
  ts_payload : Buffer
}.

Definition TCPSegment_default : TCPSegment := mkTCPSegment TCPHeader_default Buffer_empty.

(** [parse] overwrites the object only when the checksum is right; the return value
    of [_header.parse(p)] is dropped. *)
Definition TCPSegment_parse (seg : TCPSegment) (buffer : Buffer) (datagram_layer_checksum : Z)
  : res (ParseResult * TCPSegment) :=
  let check := InternetChecksum_add (InternetChecksum_new datagram_layer_checksum) (Buffer_str buffer) in
  v ← InternetChecksum_value check;
  if negb (v =? 0) then Ok (BadChecksum, seg)
  else
    '(_, h, p) ← TCPHeader_parse (NetParser_new buffer);
    Ok (np_error p, mkTCPSegment h (np_buffer p)).

Definition length_in_sequence_space (seg : TCPSegment) : Z :=
  zlen (Buffer_str (ts_payload seg)) + (if th_syn (ts_header seg) then 1 else 0)
    +64 (if th_fin (ts_header seg) then 1 else 0).

Definition TCPSegment_serialize (seg : TCPSegment) (datagram_layer_checksum : Z) : res BufferList :=
  let header_out := th_set_cksum (ts_header seg) 0 in
  let check := InternetChecksum_new datagram_layer_checksum in
  hdr0 ← TCPHeader_serialize header_out;
  let check := InternetChecksum_add check hdr0 in
  let check := InternetChecksum_add check (Buffer_str (ts_payload seg)) in
  v ← InternetChecksum_value check;
  let header_out := th_set_cksum header_out v in
  hdr ← TCPHeader_serialize header_out;
  let ret := BufferList_append [] (BufferList_of_string hdr) in
  Ok (BufferList_append ret (BufferList_of_Buffer (ts_payload seg))).

(** ** Header round trip *)

(** What the field types and a representable data offset guarantee. *)
Record TCPHeader_valid (h : TCPHeader) : Prop := {
  tv_sport : 0 <= th_sport h < W16;
  tv_dport : 0 <= th_dport h < W16;
  tv_seqno : wi_ok (th_seqno h);
  tv_ackno : wi_ok (th_ackno h);
  tv_doff : 5 <= th_doff h <= 15;
  tv_win : 0 <= th_win h < W16;
  tv_cksum : 0 <= th_cksum h < W16;
  tv_uptr : 0 <= th_uptr h < W16
}.

Lemma TCPHeader_default_valid : TCPHeader_valid TCPHeader_default.
Proof. split; vm_compute; split; congruence. Qed.

Lemma to_wi_raw w : wi_ok w -> to_WrappingInt32 (raw_value w) = w.
Proof. intros H. unfold to_WrappingInt32. rewrite u32_id by done. by destruct w. Qed.

Lemma flag_bits_u8 h : u8 (flag_bits h) = flag_bits h /\ 0 <= flag_bits h < 256.
Proof.
  unfold flag_bits.
  destruct (th_urg h), (th_ack h), (th_psh h), (th_rst h), (th_syn h), (th_fin h); vm_compute;
    repeat split; congruence.
Qed.

Lemma flag_bits_decode h :
  flag (flag_bits h) 32 = th_urg h /\ flag (flag_bits h) 16 = th_ack h /\
  flag (flag_bits h) 8 = th_psh h /\ flag (flag_bits h) 4 = th_rst h /\
  flag (flag_bits h) 2 = th_syn h /\ flag (flag_bits h) 1 = th_fin h.
Proof.
  unfold flag_bits.
  destruct (th_urg h), (th_ack h), (th_psh h), (th_rst h), (th_syn h), (th_fin h); by vm_compute.
Qed.

(** The bytes before and after the checksum field. *)
Definition tcp_head_bytes (h : TCPHeader) : bytes :=
  be_bytes 2 (th_sport h) ++ be_bytes 2 (th_dport h) ++ be_bytes 4 (raw_value (th_seqno h)) ++
  be_bytes 4 (raw_value (th_ackno h)) ++ be_bytes 1 (th_doff h * 16) ++ be_bytes 1 (flag_bits h) ++
  be_bytes 2 (th_win h).

Definition tcp_tail_bytes (h : TCPHeader) : bytes :=
  be_bytes 2 (th_uptr h) ++ replicate (Z.to_nat (4 * th_doff h - 20)) Corelib.Init.Byte.x00.

Lemma tcp_head_len h : zlen (tcp_head_bytes h) = 16.
Proof. unfold tcp_head_bytes. rewrite !zlen_app, !zlen_be_bytes. lia. Qed.

Lemma tcp_tail_len h : TCPHeader_valid h -> zlen (tcp_tail_bytes h) = 4 * th_doff h - 18.
Proof.
  intros [? ? ? ? ? ? ? ?]. unfold tcp_tail_bytes. rewrite zlen_app, zlen_be_bytes.
  unfold zlen. rewrite length_replicate. lia.
Qed.

Lemma tcp_serialize_eq h : TCPHeader_valid h ->
  TCPHeader_serialize h
  = Ok (tcp_head_bytes h ++ be_bytes 2 (th_cksum h) ++ tcp_tail_bytes h).
Proof.
  intros V. destruct V. unfold TCPHeader_serialize. destruct (Z.ltb_spec (th_doff h) 5); [lia|].
  cbv zeta. rewrite !unparse_u16, !unparse_u8, !unparse_u32. unfold wi_ok in *.
  rewrite (proj1 (flag_bits_u8 h)).
  rewrite Z.shiftl_mul_pow2 by lia. change (2 ^ 4) with 16. nowrap.
  unfold resize. set (ret := _ ++ be_bytes 2 (th_uptr h)).
  assert (Hret : ret = tcp_head_bytes h ++ be_bytes 2 (th_cksum h) ++ be_bytes 2 (th_uptr h)).
  { unfold ret, tcp_head_bytes. rewrite <- !app_assoc. done. }
  assert (Hlen : zlen ret = 20).
  { rewrite Hret, !zlen_app, tcp_head_len, !zlen_be_bytes. lia. }
  rewrite ztake_all by lia. rewrite Hlen, Hret. unfold tcp_tail_bytes. by rewrite <- !app_assoc.
Qed.

Lemma tcp_header_roundtrip h rest p :
  TCPHeader_valid h ->
  np_repr p ((tcp_head_bytes h ++ be_bytes 2 (th_cksum h) ++ tcp_tail_bytes h) ++ rest) NoError ->
  exists p', TCPHeader_parse p = Ok (NoError, h, p') /\ np_repr p' rest NoError.
Proof.
  intros V R. destruct V. unfold wi_ok in *. pose proof (proj2 (flag_bits_u8 h)).
  unfold tcp_head_bytes, tcp_tail_bytes in R. rewrite <- !app_assoc in R.
  unfold TCPHeader_parse. do 9 parse_step R.
  rewrite Z.shiftr_div_pow2 by lia. change (2 ^ 4) with 16. rewrite Z.div_mul by lia.
  destruct (Z.ltb_spec (th_doff h) 5); [lia|]. unfold TCPHeader_LENGTH. nowrap.
  edestruct (parser_remove_prefix_ok _ _ _ (th_doff h * 4 - 20) R) as (p' & -> & R').
  { unfold zlen. rewrite length_replicate. lia. }
  rewrite res_bind_Ok. unfold NetParser_has_error. rewrite (nr_err _ _ _ R'). simpl.
  exists p'. split; [|done]. destruct (flag_bits_decode h) as (-> & -> & -> & -> & -> & ->).
  rewrite !to_wi_raw by done. by destruct h.
Qed.

Lemma TCPHeader_serialize_ok h : TCPHeader_valid h ->
  exists bs, TCPHeader_serialize h = Ok bs /\ zlen bs = 4 * th_doff h.
Proof.
  intros V. rewrite (tcp_serialize_eq h V). eexists. split; [done|].
  rewrite !zlen_app, tcp_head_len, tcp_tail_len, zlen_be_bytes by done. lia.
Qed.

Lemma TCPHeader_wire_roundtrip h bs rest p : TCPHeader_valid h -> TCPHeader_serialize h = Ok bs ->
  np_repr p (bs ++ rest) NoError ->
  exists p', TCPHeader_parse p = Ok (NoError, h, p') /\ np_repr p' rest NoError.
Proof.
  intros V E R. rewrite (tcp_serialize_eq h V) in E. injection E as <-.
  by apply tcp_header_roundtrip.
Qed.

#[export] Instance TCPHeader_wire : WireFormat TCPHeader := {
  wire_valid := TCPHeader_valid;
  wire_serialize := TCPHeader_serialize;
  wire_parse := TCPHeader_parse;
  wire_length h := 4 * th_doff h;
  wire_serialize_ok := TCPHeader_serialize_ok;
  wire_roundtrip := TCPHeader_wire_roundtrip
}.

(** ** Segment round trip *)

Lemma be_bytes_2_word v : be_bytes 2 v = word_bytes v.
Proof. unfold word_bytes. simpl. by rewrite Z.div_1_r. Qed.

Lemma th_set_cksum_valid h c : TCPHeader_valid h -> 0 <= c < W16 -> TCPHeader_valid (th_set_cksum h c).
Proof. intros [] ?. by split. Qed.

Lemma checksum_add_app c a b :
  InternetChecksum_add (InternetChecksum_add c a) b = InternetChecksum_add c (a ++ b).
Proof. unfold InternetChecksum_add. by rewrite fold_left_app. Qed.

(** The segment is small enough for the 32-bit accumulator of the checksum. *)
Definition segment_fits (seg : TCPSegment) (ck : Z) : Prop :=
  0 <= ck /\
  ck + 65280 * (4 * th_doff (ts_header seg) + zlen (Buffer_str (ts_payload seg))) + 65535 < W32.

(** [serialize] yields the header with the checksum filled in, then the payload, and
    the whole checks out. *)
Lemma TCPSegment_serialize_spec seg ck :
  TCPHeader_valid (ts_header seg) -> segment_fits seg ck ->
  exists v hdr, 0 <= v < W16 /\
    TCPSegment_serialize seg ck = Ok [Buffer_of_string hdr; ts_payload seg] /\
    TCPHeader_serialize (th_set_cksum (ts_header seg) v) = Ok hdr /\
    zlen hdr = 4 * th_doff (ts_header seg) /\
    InternetChecksum_value (InternetChecksum_add (InternetChecksum_new ck)
      (hdr ++ Buffer_str (ts_payload seg))) = Ok 0.
Proof.
  intros V [Hck Hfit]. set (h := ts_header seg) in *. set (pl := Buffer_str (ts_payload seg)) in *.
  pose proof (th_set_cksum_valid h 0 V ltac:(lia)) as V0. pose proof (tcp_tail_len h V) as Ht.
  unfold TCPSegment_serialize. fold h pl. rewrite (tcp_serialize_eq _ V0), res_bind_Ok. cbv zeta.
  rewrite checksum_add_app.
  change (tcp_head_bytes (th_set_cksum h 0)) with (tcp_head_bytes h).
  change (tcp_tail_bytes (th_set_cksum h 0)) with (tcp_tail_bytes h).
  change (th_cksum (th_set_cksum h 0)) with 0. rewrite be_bytes_2_word, <- !app_assoc.
  pose proof (tcp_head_len h) as Hh. pose proof (zlen_nonneg pl).
  pose proof (tv_doff _ V) as Hd.
  pose proof (checksum_field_valid ck (tcp_head_bytes h) (tcp_tail_bytes h ++ pl)) as Hval.
  rewrite zlen_app, Hh, Ht in Hval.
  destruct (value_spec (InternetChecksum_add (InternetChecksum_new ck)
    (tcp_head_bytes h ++ word_bytes 0 ++ tcp_tail_bytes h ++ pl))) as (v & q & E & Hv & _).
  { pose proof (word_sum_range (tcp_head_bytes h ++ word_bytes 0 ++ tcp_tail_bytes h ++ pl) false) as Hw.
    rewrite !zlen_app, Hh, Ht in Hw. change (zlen (word_bytes 0)) with 2 in Hw.
    rewrite add_spec; cbn [ck_sum ck_parity InternetChecksum_new]; lia. }
  specialize (Hval v Hck eq_refl ltac:(lia) E). rewrite E, res_bind_Ok.
  pose proof (th_set_cksum_valid h v V ltac:(lia)) as Vv.
  change (th_set_cksum (th_set_cksum h 0) v) with (th_set_cksum h v).
  rewrite (tcp_serialize_eq _ Vv), res_bind_Ok. eexists v, _. split; [lia|]. split; [done|].
  split; [by apply tcp_serialize_eq|].
  change (tcp_head_bytes (th_set_cksum h v)) with (tcp_head_bytes h).
  change (tcp_tail_bytes (th_set_cksum h v)) with (tcp_tail_bytes h).
  change (th_cksum (th_set_cksum h v)) with v. rewrite be_bytes_2_word. split.
  - rewrite !zlen_app, Hh, Ht. change (zlen (word_bytes v)) with 2. lia.
  - by rewrite <- !app_assoc.
Qed.

(** [parse] on bytes that check out is the header parser followed by the payload. *)
Lemma TCPSegment_parse_spec seg0 buf ck h hdr pl :
  Buffer_wf buf -> Buffer_str buf = hdr ++ pl -> TCPHeader_valid h ->
  TCPHeader_serialize h = Ok hdr ->
  InternetChecksum_value (InternetChecksum_add (InternetChecksum_new ck) (hdr ++ pl)) = Ok 0 ->
  exists seg', TCPSegment_parse seg0 buf ck = Ok (NoError, seg') /\ ts_header seg' = h /\
    Buffer_str (ts_payload seg') = pl /\ Buffer_wf (ts_payload seg').
Proof.
  intros Hwf Hstr V Es Hck. unfold TCPSegment_parse. rewrite Hstr, Hck, res_bind_Ok. simpl.
  pose proof (np_repr_new buf Hwf) as R. rewrite Hstr in R.
  destruct (TCPHeader_wire_roundtrip h hdr pl _ V Es R) as (p' & -> & [Hw Hr He]).
  cbn. eexists. rewrite He. by split.
Qed.

(** ** Parsing any data *)

(** What the field types guarantee of a parsed header. *)
Record TCPHeader_typed (h : TCPHeader) : Prop := {
  tt_sport : 0 <= th_sport h < W16;
  tt_dport : 0 <= th_dport h < W16;
  tt_seqno : wi_ok (th_seqno h);
  tt_ackno : wi_ok (th_ackno h);
  tt_win : 0 <= th_win h < W16
}.

Lemma TCPHeader_parse_total {lim} p : Buffer_in lim (np_buffer p) ->
  exists r h p', TCPHeader_parse p = Ok (r, h, p') /\ Buffer_in lim (np_buffer p') /\ TCPHeader_typed h.
Proof.
  intros H. unfold TCPHeader_parse. do 9 parse_any H. cbv zeta.
  assert (forall a b c e, TCPHeader_typed (mkTCPHeader v v0 (to_WrappingInt32 v1) (to_WrappingInt32 v2) a
    (flag b 32) (flag b 16) (flag b 8) (flag b 4) (flag b 2) (flag b 1) v5 c e)) as Ht
    by (intros; split; simpl; try assumption; apply u32_range).
  ztest; [eexists _, _, _; split; [reflexivity|split; [assumption|apply Ht]]|].
  destruct (parser_remove_prefix_total p8 (Z.shiftr v3 4 * 4 -64 TCPHeader_LENGTH) H) as (p9 & -> & H9);
    [apply u64_range|].
  rewrite res_bind_Ok. destruct (NetParser_has_error p9); eexists _, _, _; (split; [reflexivity|split; [assumption|apply Ht]]).
Qed.

(** The checksum accumulator stays in its 32 bits whatever is added. *)
Lemma checksum_add_range data : forall c, 0 <= ck_sum c < W32 -> 0 <= ck_sum (InternetChecksum_add c data) < W32.
Proof.
  unfold InternetChecksum_add. induction data as [|b data IH]; intros c H; simpl; [done|].
  apply IH. unfold InternetChecksum_add1. simpl. apply u32_range.
Qed.

(** [TCPSegment::parse] never throws. *)
Lemma TCPSegment_parse_total lim seg0 buf ck : Buffer_in lim buf -> 0 <= ck < W32 -> TCPHeader_typed (ts_header seg0) ->
  Buffer_in lim (ts_payload seg0) ->
  exists r seg, TCPSegment_parse seg0 buf ck = Ok (r, seg) /\ TCPHeader_typed (ts_header seg) /\
    Buffer_in lim (ts_payload seg).
Proof.
  intros Hwf Hck H0 Hp0. unfold TCPSegment_parse. cbv zeta.
  destruct (value_spec (InternetChecksum_add (InternetChecksum_new ck) (Buffer_str buf))) as (v & q & -> & _);
    [by apply checksum_add_range|].
  rewrite res_bind_Ok. destruct (negb (v =? 0)); [by eexists _, _|].
  destruct (TCPHeader_parse_total (NetParser_new buf) Hwf) as (r & h & p & -> & Hp & Ht).
  rewrite res_bind_Ok. by eexists _, _.
Qed.

Lemma TCPSegment_default_typed lim : 0 <= lim ->
  TCPHeader_typed (ts_header TCPSegment_default) /\ Buffer_in lim (ts_payload TCPSegment_default).
Proof. intros H. split; [split; vm_compute; repeat split; congruence|]. split; [repeat split; vm_compute; congruence|done]. Qed.

(** C35: TCP segments survive the wire: for every segment with a valid header and any
    payload and pseudo-header sum that fit the accumulator, [serialize] succeeds,
    and parsing the concatenated bytes under the same sum returns [NoError] with
    the same header (but for the checksum field, now filled in) and payload. *)
Theorem tcp_segment_roundtrip seg seg0 ck :
  TCPHeader_valid (ts_header seg) -> Buffer_wf (ts_payload seg) -> segment_fits seg ck ->
  exists bl seg' v, TCPSegment_serialize seg ck = Ok bl /\
    TCPSegment_parse seg0 (Buffer_of_string (BufferList_concatenate bl)) ck = Ok (NoError, seg') /\
    ts_header seg' = th_set_cksum (ts_header seg) v /\
    Buffer_str (ts_payload seg') = Buffer_str (ts_payload seg).
Proof.
  intros V Hwf Hfit. destruct (TCPSegment_serialize_spec seg ck V Hfit) as (v & hdr & Hv & E & Eh & Hl & Hck).
  destruct Hfit as [? Hf]. pose proof (zlen_nonneg (Buffer_str (ts_payload seg))).
  set (bl := [Buffer_of_string hdr; ts_payload seg]) in *.
  assert (Hc : BufferList_concatenate bl = hdr ++ Buffer_str (ts_payload seg))
    by (unfold bl; by rewrite !concatenate_cons, app_nil_r).
  destruct (TCPSegment_parse_spec seg0 (Buffer_of_string (BufferList_concatenate bl)) ck
    (th_set_cksum (ts_header seg) v) hdr (Buffer_str (ts_payload seg))) as (seg' & Hp & ? & ? & _);
    [|by rewrite Hc|by apply th_set_cksum_valid|done|done|].
  - apply Buffer_wf_of_string. rewrite Hc, zlen_app. destruct V. lia.
  - exists bl, seg', v. done.
Qed.

Definition sample_segment : TCPSegment :=
  mkTCPSegment (th_set_syn (th_set_ports TCPHeader_default 1234 80) true)
    (Buffer_of_string (map byte_of [72; 105; 33])).

Lemma tcp_segment_roundtrip_witness :
  exists bl seg' v, TCPSegment_serialize sample_segment 7 = Ok bl /\
    TCPSegment_parse TCPSegment_default (Buffer_of_string (BufferList_concatenate bl)) 7 = Ok (NoError, seg') /\
    ts_header seg' = th_set_cksum (ts_header sample_segment) v /\
    Buffer_str (ts_payload seg') = map byte_of [72; 105; 33].
Proof.
  apply (tcp_segment_roundtrip sample_segment TCPSegment_default 7).
  - split; vm_compute; split; congruence.
  - repeat split; vm_compute; congruence.
  - split; [lia|reflexivity].
Defined.

(** A segment whose data offset is 0 words: 20 zero bytes but for a matching
    checksum and the flags. *)
Definition short_offset_bytes : bytes := map byte_of [0;0;0;0; 0;0;0;0; 0;0;0;0; 0;2;0;0; 255;253;0;0].

(** [TCPSegment::parse] drops the result of [TCPHeader::parse]: a header whose
    data offset is below the minimum is rejected by the header parser with
    [HeaderTooShort], but the segment parser reports [NoError] for it. *)
Theorem tcp_segment_parse_ignores_header_result :
  (exists h p, TCPHeader_parse (NetParser_new (Buffer_of_string short_offset_bytes))
               = Ok (HeaderTooShort, h, p)) /\
  (exists seg, TCPSegment_parse TCPSegment_default (Buffer_of_string short_offset_bytes) 0
               = Ok (NoError, seg) /\ th_doff (ts_header seg) = 0).
Proof.
  split; [eexists _, _; vm_compute; reflexivity|].
  eexists. split; [vm_compute; reflexivity|done].
Qed.
