(* ===== verification/Receiver.v ===== *)
(** * The TCP receiver

    Models [libsponge/tcp_receiver.hh] and [tcp_receiver.cc]: [segment_received]
    hands payloads to the reassembler at the index given by the unwrapped sequence
    number and keeps the acknowledgment number; [ackno] and [window_size] are the
    feedback to the peer. *)

From S2P Require Import Prelude WrappingInts Buffers ByteStreams Reassembler Parser TCPSegments.

Record TCPReceiver : Type := mkTCPReceiver {
  rv_reassembler : StreamReassembler;
  rv_capacity : Z;
  rv_syn : bool;
  rv_fin : bool;
  rv_isn : WrappingInt32;
  rv_ackno : WrappingInt32;
  rv_checkpoint : Z
}.

Definition TCPReceiver_new (capacity : Z) : TCPReceiver :=
  mkTCPReceiver (StreamReassembler_new capacity) capacity false false
    (to_WrappingInt32 0) (to_WrappingInt32 0) 0.

Definition TCPReceiver_stream_out (r : TCPReceiver) : ByteStream := sr_output (rv_reassembler r).

Definition TCPReceiver_segment_received (r : TCPReceiver) (seg : TCPSegment) : res TCPReceiver :=
  let hdr := ts_header seg in
  if negb (th_syn hdr) && negb (rv_syn r) then Ok r
  else if ByteStream_eof (TCPReceiver_stream_out r) && rv_fin r then Ok r
  else
    let isn := if th_syn hdr && negb (rv_syn r) then th_seqno hdr else rv_isn r in
    let syn := if th_syn hdr && negb (rv_syn r) then true else rv_syn r in
    let seq_start := unwrap (wi_add (th_seqno hdr) (if th_syn hdr then 1 else 0)) isn (rv_checkpoint r) in
    rs ← push_substring (rv_reassembler r) (Buffer_str (ts_payload seg)) (seq_start -64 1) (th_fin hdr);
    let checkpoint := sr_first_unassembled rs in
    let fin := if th_fin hdr && negb (rv_fin r) && sr_eof rs then true else rv_fin r in
    let ackno := if StreamReassembler_empty rs && fin
                 then wrap (sr_first_unassembled rs +64 2) isn
                 else wrap (sr_first_unassembled rs +64 1) isn in
    Ok (mkTCPReceiver rs (rv_capacity r) syn fin isn ackno checkpoint).

Definition TCPReceiver_ackno (r : TCPReceiver) : option WrappingInt32 :=
  if negb (rv_syn r) then None else Some (rv_ackno r).

Definition TCPReceiver_window_size (r : TCPReceiver) : Z :=
  ByteStream_remaining_capacity (TCPReceiver_stream_out r).

Definition TCPReceiver_unassembled_bytes (r : TCPReceiver) : Z :=
  StreamReassembler_unassembled_bytes (rv_reassembler r).

(** The owner reads from, or flags an error on, [stream_out()]. *)
Definition TCPReceiver_read (r : TCPReceiver) (n : Z) : res (bytes * TCPReceiver) :=
  '(d, rs) ← sr_read (rv_reassembler r) n;
  Ok (d, mkTCPReceiver rs (rv_capacity r) (rv_syn r) (rv_fin r) (rv_isn r) (rv_ackno r) (rv_checkpoint r)).

Definition TCPReceiver_set_error (r : TCPReceiver) : TCPReceiver :=
  let rs := rv_reassembler r in
  mkTCPReceiver (sr_set_output rs (ByteStream_set_error (sr_output rs)) (sr_eof rs))
    (rv_capacity r) (rv_syn r) (rv_fin r) (rv_isn r) (rv_ackno r) (rv_checkpoint r).

(** ** Runs against one peer stream

    The peer's stream [S] starts at the initial sequence number [isn]: the SYN has
    absolute number 0, byte [k] of [S] has number [k + 1] and the FIN [zlen S + 1]. *)

(** Segments the peer may send: the SYN (with or without data) or a slice of the
    stream, with FIN only at its end. A data-less FIN ahead of missing bytes is
    excluded, as in [legal_push]: the code mistakes it for the end of the stream
    ([early_fin_acknowledged]). *)
Definition segment_at (S : bytes) (isn : WrappingInt32) (r : TCPReceiver) (seg : TCPSegment) (i l : Z) : Prop :=
  th_seqno (ts_header seg) = wrap (if th_syn (ts_header seg) then 0 else i + 1) isn /\
  (th_syn (ts_header seg) = true -> i = 0) /\
  Buffer_str (ts_payload seg) = slice S i l /\
  legal_push S (rv_reassembler r) i l (th_fin (ts_header seg)).

Definition legal_segment (S : bytes) (isn : WrappingInt32) (r : TCPReceiver) (seg : TCPSegment) : Prop :=
  exists i l, segment_at S isn r seg i l.

Record rv_inv (S : bytes) (isn : WrappingInt32) (cap : Z) (r : TCPReceiver) (del : bytes)
  (f : fifo) (A : gmap Z byte) : Prop := {
  ri_sr : sr_inv S cap (rv_reassembler r) del f A;
  ri_check : rv_checkpoint r = sr_first_unassembled (rv_reassembler r);
  ri_fin : rv_fin r = sr_eof (rv_reassembler r);
  ri_ended : ff_ended f = StreamReassembler_empty (rv_reassembler r) && sr_eof (rv_reassembler r);
  ri_fin_syn : rv_fin r = true -> rv_syn r = true;
  ri_syn : rv_syn r = true -> rv_isn r = isn /\
    rv_ackno r = wrap (1 + zlen (ff_hist f) + (if ff_ended f then 1 else 0)) isn
}.

Lemma rv_inv_new S isn cap : 0 <= cap < W64 ->
  rv_inv S isn cap (TCPReceiver_new cap) [] (mkFifo [] 0 cap false false) ∅.
Proof. intros. split; simpl; try done. by apply sr_inv_new. Qed.

(** A stream all of which is out stores nothing. *)
Lemma ended_nothing_stored S cap st del f A :
  sr_inv S cap st del f A -> ff_hist f = S -> sr_unassembled st = 0.
Proof.
  intros [R _ HA _ _ _] Hh.
  apply (covered_complete S st f A R HA). intros k Hk.
  apply (sc_full _ _ _ _ _ _ _ (rp_core _ _ _ R)).
  by rewrite (sc_fu _ _ _ _ _ _ _ (rp_core _ _ _ R)), Hh.
Qed.

Lemma wrap_0 isn : wi_ok isn -> wrap 0 isn = isn.
Proof. intros H. apply wi_ext. rewrite raw_wrap, Z.add_0_r. by apply Z.mod_small. Qed.

(** Where the payload of a legal segment is pushed. *)
Lemma legal_index isn cp (syn : bool) i :
  wi_ok isn -> 0 <= i < W31 - 1 -> 0 <= cp < W31 - 1 -> (syn = true -> i = 0) ->
  unwrap (wi_add (wrap (if syn then 0 else i + 1) isn) (if syn then 1 else 0)) isn cp -64 1 = i.
Proof.
  intros Hisn Hi Hcp Hs. rewrite wi_add_wrap.
  replace ((if syn then 0 else i + 1) + (if syn then 1 else 0)) with (i + 1)
    by (destruct syn; [rewrite Hs by done|]; lia).
  rewrite unwrap_wrap by (done || lia). nowrap. lia.
Qed.

(** One legal segment: the state machine never throws and keeps the invariant. *)
Lemma segment_received_at S isn cap r del f A seg i l :
  wi_ok isn -> zlen S + cap < W64 -> zlen S + 1 < W31 -> rv_inv S isn cap r del f A ->
  th_seqno (ts_header seg) = wrap (if th_syn (ts_header seg) then 0 else i + 1) isn ->
  (th_syn (ts_header seg) = true -> i = 0) -> Buffer_str (ts_payload seg) = slice S i l ->
  legal_push S (rv_reassembler r) i l (th_fin (ts_header seg)) ->
  exists r' f' A', TCPReceiver_segment_received r seg = Ok r' /\ rv_inv S isn cap r' del f' A' /\
    (th_syn (ts_header seg) = true \/ rv_syn r = true -> rv_syn r' = true) /\
    is_prefix (ff_hist f) (ff_hist f') /\ (ff_nread f' = ff_nread f /\ ff_err f' = ff_err f) /\
    (f' = f /\ A' = A /\ (th_syn (ts_header seg) = true \/ rv_syn r = true -> ff_ended f = true) \/
     A' = accept A (slice S i l) i (ff_nread f + ff_cap f) /\
     sr_eof (rv_reassembler r') = sr_eof (rv_reassembler r) ||
       (th_fin (ts_header seg) && (i + zlen (slice S i l) <=? ff_nread f + ff_cap f))).
Proof.
  intros Hisn Hb HS I Hseq Hsyn Hpl Hleg. pose proof I as [Isr Hck Hf Hend Hfs Hs].
  set (h := ts_header seg) in *. unfold TCPReceiver_segment_received. fold h.
  assert (Hrefl : is_prefix (ff_hist f) (ff_hist f)) by (exists []; by rewrite app_nil_r).
  destruct (negb (th_syn h) && negb (rv_syn r)) eqn:G1.
  { apply andb_prop in G1 as [G1 G2]. apply negb_true_iff in G1, G2.
    exists r, f, A. rewrite G1, G2. split; [done|]. split; [done|]. split; [by intros [?|?]|]. split; [done|]. split; [done|].
    left. split; [done|]. split; [done|]. by intros [?|?]. }
  destruct (ByteStream_eof (TCPReceiver_stream_out r) && rv_fin r) eqn:G2.
  { apply andb_prop in G2 as [G2 G3]. exists r, f, A. split; [done|]. split; [done|]. split; [by auto|]. split; [done|]. split; [done|].
    left. split; [done|]. split; [done|]. intros _. unfold TCPReceiver_stream_out in G2.
    rewrite (bs_eof_spec _ _ (rp_out _ _ _ (si_repr _ _ _ _ _ _ Isr))) in G2. by apply andb_prop in G2 as [_ ?]. }
  assert (Hsy : (if th_syn h && negb (rv_syn r) then true else rv_syn r) = true)
    by (by destruct (th_syn h), (rv_syn r)).
  assert (Hisn' : (if th_syn h && negb (rv_syn r) then th_seqno h else rv_isn r) = isn).
  { destruct (th_syn h) eqn:Eh, (rv_syn r) eqn:Er; simpl; try done; try (by apply Hs).
    rewrite Hseq. by apply wrap_0. }
  rewrite Hsy, Hisn'. pose proof (core_fu_nonneg (rp_core _ _ _ (si_repr _ _ _ _ _ _ Isr))) as Hfu0.
  destruct (agrees_prefix S _ f A (si_repr _ _ _ _ _ _ Isr) (si_agrees _ _ _ _ _ _ Isr)) as [t Ht].
  assert (Hfu : sr_first_unassembled (rv_reassembler r) <= zlen S).
  { rewrite (sc_fu _ _ _ _ _ _ _ (rp_core _ _ _ (si_repr _ _ _ _ _ _ Isr))), Ht, zlen_app. zlia. }
  destruct Hleg as (Hi & Hlen & Hfin). rewrite Hseq, Hck, legal_index, Hpl by (done || lia).
  destruct (push_inv S cap (rv_reassembler r) del f A i l (th_fin h) Hb Isr) as
    (rs & f' & -> & I' & He & Hd & Hpre & Hnr & Her); [by split; [|split]|].
  rewrite res_bind_Ok. cbv zeta.
  assert (Hfin' : (if th_fin h && negb (rv_fin r) && sr_eof rs then true else rv_fin r) = sr_eof rs).
  { rewrite Hf, He. by destruct (th_fin h), (sr_eof (rv_reassembler r)), (_ <=? _). }
  assert (Hended : ff_ended f' = StreamReassembler_empty rs && sr_eof rs).
  { rewrite Hd. destruct (ff_ended f) eqn:Ef; [|done]. simpl.
    assert (Hh' : ff_hist f' = S) by (apply (si_ended _ _ _ _ _ _ I'); by rewrite Hd).
    unfold StreamReassembler_empty. rewrite (ended_nothing_stored _ _ _ _ _ _ I' Hh').
    symmetry in Hend. apply andb_prop in Hend as [_ Hend]. by rewrite He, Hend. }
  rewrite Hfin', <- Hended. pose proof (rp_core _ _ _ (si_repr _ _ _ _ _ _ I')) as C'.
  pose proof (core_fu_nonneg C'). destruct (agrees_prefix S rs f' _ (si_repr _ _ _ _ _ _ I')
    (si_agrees _ _ _ _ _ _ I')) as [t' Ht'].
  assert (sr_first_unassembled rs <= zlen S)
    by (rewrite (sc_fu _ _ _ _ _ _ _ C'), Ht', zlen_app; zlia).
  eexists _, f', _. split; [done|]. split; [|split; [done|]; split; [done|]; split; [done|]; by right].
  split; simpl; try done. intros _. split; [done|]. rewrite <- (sc_fu _ _ _ _ _ _ _ C').
  destruct (ff_ended f'); nowrap; f_equal; lia.
Qed.

Lemma segment_received_inv S isn cap r del f A seg :
  wi_ok isn -> zlen S + cap < W64 -> zlen S + 1 < W31 ->
  rv_inv S isn cap r del f A -> legal_segment S isn r seg ->
  exists r' f' A', TCPReceiver_segment_received r seg = Ok r' /\ rv_inv S isn cap r' del f' A' /\
    (th_syn (ts_header seg) = true \/ rv_syn r = true -> rv_syn r' = true) /\
    is_prefix (ff_hist f) (ff_hist f').
Proof.
  intros Hisn Hb HS I (i & l & Hseq & Hsyn & Hpl & Hleg).
  destruct (segment_received_at S isn cap r del f A seg i l Hisn Hb HS I Hseq Hsyn Hpl Hleg)
    as (r' & f' & A' & ? & ? & ? & ? & _). by eexists _, _, _.
Qed.

Lemma receiver_read_inv S isn cap r del f A n :
  rv_inv S isn cap r del f A -> 0 <= n ->
  exists r', TCPReceiver_read r n = Ok (ztake n (fifo_pending f), r') /\
    rv_inv S isn cap r' (del ++ ztake n (fifo_pending f)) (fifo_pop f n) A /\ rv_syn r' = rv_syn r.
Proof.
  intros [Isr Hck Hf Hend Hfs Hs] Hn. unfold TCPReceiver_read.
  pose proof (si_repr _ _ _ _ _ _ Isr) as R.
  destruct (bs_read_spec _ _ (rp_out _ _ _ R) n Hn) as (out & Eo & _).
  destruct (read_inv S cap _ del f A n Isr Hn) as (rs & E & I'). rewrite E. simpl.
  eexists. split; [done|]. split; [|done].
  unfold sr_read in E. rewrite Eo in E. simpl in E. injection E as <-. by split.
Qed.

(** ** Any segment at all

    The lemmas above are about segments of one well-behaved peer. These are about
    arbitrary segments: what reaches the reassembler, and that nothing throws. *)

(** Where the code pushes a payload, and under which initial sequence number. *)
Definition rv_isn_after (r : TCPReceiver) (seg : TCPSegment) : WrappingInt32 :=
  if th_syn (ts_header seg) && negb (rv_syn r) then th_seqno (ts_header seg) else rv_isn r.

Definition rv_index (r : TCPReceiver) (seg : TCPSegment) : Z :=
  unwrap (wi_add (th_seqno (ts_header seg)) (if th_syn (ts_header seg) then 1 else 0))
    (rv_isn_after r seg) (rv_checkpoint r) -64 1.

Lemma segment_received_total r f A seg :
  sr_repr (rv_reassembler r) f A ->
  ff_nread f + ff_cap f + zlen (Buffer_str (ts_payload seg)) < W64 ->
  exists r' f' A', TCPReceiver_segment_received r seg = Ok r' /\
    sr_repr (rv_reassembler r') f' A' /\ ff_nread f' = ff_nread f /\ ff_cap f' = ff_cap f /\
    ff_err f' = ff_err f /\ (ff_ended f = true -> ff_ended f' = true) /\
    is_prefix (ff_hist f) (ff_hist f') /\
    (r' = r /\ f' = f /\ A' = A \/
     (th_syn (ts_header seg) = true \/ rv_syn r = true) /\ rv_syn r' = true /\
     rv_isn r' = rv_isn_after r seg /\
     A' = accept A (Buffer_str (ts_payload seg)) (rv_index r seg) (ff_nread f + ff_cap f) /\
     rv_checkpoint r' = sr_first_unassembled (rv_reassembler r')).
Proof.
  intros R Hlim. unfold TCPReceiver_segment_received.
  assert (Hrefl : is_prefix (ff_hist f) (ff_hist f)) by (exists []; by rewrite app_nil_r).
  destruct (negb (th_syn (ts_header seg)) && negb (rv_syn r)) eqn:G1; [exists r, f, A; split_and!; auto|].
  destruct (ByteStream_eof (TCPReceiver_stream_out r) && rv_fin r); [exists r, f, A; split_and!; auto|].
  fold (rv_isn_after r seg). fold (rv_index r seg). pose proof (zlen_nonneg (Buffer_str (ts_payload seg))).
  pose proof (br_nreadb _ _ (rp_out _ _ _ R)). pose proof (br_capb _ _ (rp_out _ _ _ R)).
  assert (Hi : 0 <= rv_index r seg < W64) by apply u64_range.
  destruct (push_substring_total (rv_reassembler r) f A (Buffer_str (ts_payload seg)) (rv_index r seg)
    (th_fin (ts_header seg)) R Hi) as (rs & tw & -> & R' & _); [lia|lia|].
  rewrite res_bind_Ok. cbv zeta. eexists _, _, _. split; [done|]. split; [exact R'|].
  split; [done|]. split; [done|]. split; [done|]. split; [by simpl; intros ->|].
  split; [by exists tw|]. right. simpl.
  apply andb_false_iff in G1. rewrite !negb_false_iff in G1.
  split; [done|]. split; [|done].
  by destruct (th_syn (ts_header seg)), (rv_syn r); destruct G1.
Qed.

(** Without new bytes the output does not move. *)
Lemma same_map_no_output st st' f A tw e :
  sr_repr st f A -> sr_repr st' (fifo_push f tw e) A -> tw = [].
Proof.
  intros R R'. pose proof (rp_core _ _ _ R) as C. pose proof (rp_core _ _ _ R') as C'.
  apply zlen_0_nil. pose proof (zlen_nonneg tw).
  destruct (Z.eq_dec (zlen tw) 0) as [?|Hne]; [done|].
  pose proof (sc_fu _ _ _ _ _ _ _ C) as Hf. pose proof (sc_fu _ _ _ _ _ _ _ C') as Hf'. simpl in Hf'.
  rewrite zlen_app in Hf'. pose proof (core_fu_nonneg C).
  destruct (sc_full _ _ _ _ _ _ _ C' (sr_first_unassembled st) ltac:(lia)) as [b Hb].
  pose proof (rp_gap _ _ _ R). congruence.
Qed.

(** A segment without data or FIN - a SYN, or a bare acknowledgment - on a stream that
    has not ended changes nothing but the initial sequence number and the ackno. *)
Lemma segment_received_quiet r f A seg :
  sr_repr (rv_reassembler r) f A -> sr_eof (rv_reassembler r) = false -> rv_fin r = false ->
  zlen (ff_hist f) + 2 < W64 -> ff_nread f + ff_cap f < W64 ->
  Buffer_str (ts_payload seg) = [] -> th_fin (ts_header seg) = false ->
  th_syn (ts_header seg) = true \/ rv_syn r = true ->
  exists r', TCPReceiver_segment_received r seg = Ok r' /\ sr_repr (rv_reassembler r') f A /\
    sr_eof (rv_reassembler r') = false /\ rv_fin r' = false /\ rv_syn r' = true /\
    rv_isn r' = rv_isn_after r seg /\ TCPReceiver_ackno r' = Some (wrap (zlen (ff_hist f) + 1) (rv_isn_after r seg)).
Proof.
  intros R He Hf Hh Hlim Hp Hfin Hsyn. unfold TCPReceiver_segment_received. rewrite Hp, Hfin, Hf, andb_false_r.
  replace (negb (th_syn (ts_header seg)) && negb (rv_syn r)) with false by (by destruct Hsyn as [->| ->]; rewrite ?andb_false_r).
  fold (rv_isn_after r seg). fold (rv_index r seg).
  pose proof (br_nreadb _ _ (rp_out _ _ _ R)). pose proof (br_capb _ _ (rp_out _ _ _ R)).
  assert (Hi : 0 <= rv_index r seg < W64) by apply u64_range.
  destruct (push_substring_total (rv_reassembler r) f A [] (rv_index r seg) false R Hi) as (rs & tw & -> & R' & He');
    [lia|rewrite (@zlen_nil byte); lia|]. cbn [accept] in R'. rewrite He in He'. simpl in He'.
  pose proof (same_map_no_output _ _ _ _ _ _ R R') as ->. rewrite He', andb_false_r in R'.
  unfold fifo_push in R'. rewrite app_nil_r, orb_false_r in R'.
  assert (Ef : mkFifo (ff_hist f) (ff_nread f) (ff_cap f) (ff_ended f) (ff_err f) = f) by (by destruct f).
  rewrite Ef in R'. pose proof (sc_fu _ _ _ _ _ _ _ (rp_core _ _ _ R')) as Hfu. pose proof (zlen_nonneg (ff_hist f)).
  rewrite res_bind_Ok. cbv zeta. cbn [andb]. rewrite andb_false_r. eexists. split; [done|]. simpl.
  split_and!; try done.
  - by destruct Hsyn as [->| ->]; destruct (rv_syn r), (th_syn (ts_header seg)).
  - unfold TCPReceiver_ackno. simpl. rewrite Hfu, u64_id by lia.
    by destruct Hsyn as [->| ->]; destruct (rv_syn r), (th_syn (ts_header seg)).
Qed.

(** The receiver is consistent, whoever the peer is. *)
Definition rv_sound (r : TCPReceiver) (del : bytes) : Prop := exists f A, sr_repr (rv_reassembler r) f A.

(** ** What a connection relies on

    A relation [Q] between receivers and what was read from them so far that survives
    reads, the error flag, and every segment allowed by [P]. The connection is
    verified against this contract. *)
Class ReceiverContract (Q : TCPReceiver -> bytes -> Prop) (P : TCPReceiver -> TCPSegment -> Prop)
  : Prop := {
  rc_segment r del seg : Q r del -> P r seg ->
    exists r', TCPReceiver_segment_received r seg = Ok r' /\ Q r' del;
  rc_read r del n : Q r del -> 0 <= n ->
    exists d r', TCPReceiver_read r n = Ok (d, r') /\ Q r' (del ++ d);
  rc_error r del : Q r del -> Q (TCPReceiver_set_error r) del;
  rc_sound r del : Q r del -> rv_sound r del
}.

Lemma sr_set_error_repr st f A : sr_repr st f A ->
  sr_repr (sr_set_output st (ByteStream_set_error (sr_output st)) (sr_eof st))
    (mkFifo (ff_hist f) (ff_nread f) (ff_cap f) (ff_ended f) true) A.
Proof. intros [Ro Rc Rk Rg]. split; try done. by apply bs_set_error_repr. Qed.

Lemma receiver_read_repr r f A n : sr_repr (rv_reassembler r) f A -> 0 <= n ->
  exists r', TCPReceiver_read r n = Ok (ztake n (fifo_pending f), r') /\
    sr_repr (rv_reassembler r') (fifo_pop f n) A /\ rv_syn r' = rv_syn r /\ rv_isn r' = rv_isn r /\
    rv_checkpoint r' = rv_checkpoint r.
Proof.
  intros R Hn. unfold TCPReceiver_read.
  destruct (sr_read_spec _ f A n R Hn) as (rs & -> & R' & _). simpl. by eexists.
Qed.

(** Any segment whose payload leaves the 64-bit indices of the window intact. *)
Definition any_segment (r : TCPReceiver) (seg : TCPSegment) : Prop :=
  ByteStream_bytes_read (TCPReceiver_stream_out r) + sr_capacity (rv_reassembler r)
    + zlen (Buffer_str (ts_payload seg)) < W64.

#[export] Instance receiver_sound_contract : ReceiverContract rv_sound any_segment.
Proof.
  split.
  - intros r del seg (f & A & R) Hp. unfold any_segment, ByteStream_bytes_read, TCPReceiver_stream_out in Hp.
    rewrite (br_nread _ _ (rp_out _ _ _ R)), (rp_cap _ _ _ R) in Hp.
    destruct (segment_received_total r f A seg R Hp) as (r' & f' & A' & E & R' & _).
    exists r'. split; [done|]. by exists f', A'.
  - intros r del n (f & A & R) Hn. destruct (receiver_read_repr r f A n R Hn) as (r' & E & R' & _).
    eexists _, r'. split; [done|]. by eexists _, A.
  - intros r del (f & A & R). eexists _, A. by apply sr_set_error_repr.
  - done.
Qed.

(** ** Runs *)

Inductive rv_step (S : bytes) (isn : WrappingInt32) : TCPReceiver * bytes -> TCPReceiver * bytes -> Prop :=
| rv_step_segment r del seg r' :
    legal_segment S isn r seg -> TCPReceiver_segment_received r seg = Ok r' ->
    rv_step S isn (r, del) (r', del)
| rv_step_read r del n d r' :
    0 <= n -> TCPReceiver_read r n = Ok (d, r') -> rv_step S isn (r, del) (r', del ++ d).

Lemma rv_inv_reach S isn cap r del :
  wi_ok isn -> 0 <= cap -> zlen S + cap < W64 -> zlen S + 1 < W31 ->
  reach (rv_step S isn) (TCPReceiver_new cap, []) (r, del) ->
  exists f A, rv_inv S isn cap r del f A.
Proof.
  intros Hi Hc Hb HS Hr. pose proof (zlen_nonneg S).
  apply (reach_invariant (rv_step S isn)
    (fun x => exists f A, rv_inv S isn cap (fst x) (snd x) f A) _ (r, del)) in Hr; [done| |].
  - intros [a da] [b db] (f & A & I) Hstep.
    inversion Hstep as [? ? seg ? Hl Hp|? ? n d ? Hn Hrd]; subst.
    + destruct (segment_received_inv S isn cap a db f A seg Hi Hb HS I Hl) as (r' & f' & A' & E & I' & _).
      rewrite Hp in E. injection E as ->. by eauto.
    + destruct (receiver_read_inv S isn cap a da f A n I Hn) as (st' & E & I' & _). rewrite Hrd in E.
      injection E as -> ->. by eauto.
  - simpl. eauto using rv_inv_new with lia.
Qed.

(** ** The receiver's theorems *)

(** C11: the acknowledgment number is right in every run against a peer whose stream
    [S] is shorter than [2^31 - 1] bytes: once the SYN has arrived, [ackno()] is the
    sequence number of the first byte not yet assembled - one past the FIN when the
    stream has ended, which is only when all of [S] has been assembled - for any
    slices of [S], duplicated, overlapping or out of order, with FIN on the last;
    before the SYN there is none. One reordering is outside the claim because the
    code gets it wrong: a FIN without data that overtakes missing bytes
    ([early_fin_acknowledged] proves what happens then). *)
Theorem receiver_ackno_correct S isn cap r del :
  wi_ok isn -> 0 <= cap -> zlen S + cap < W64 -> zlen S + 1 < W31 ->
  reach (rv_step S isn) (TCPReceiver_new cap, []) (r, del) ->
  let out := TCPReceiver_stream_out r in
  TCPReceiver_ackno r =
    (if rv_syn r
     then Some (wrap (1 + ByteStream_bytes_written out
                      + (if ByteStream_input_ended out then 1 else 0)) isn)
     else None) /\
  (ByteStream_input_ended out = true -> ByteStream_bytes_written out = zlen S).
Proof.
  intros Hi Hc Hb HS Hr out.
  destruct (rv_inv_reach S isn cap r del Hi Hc Hb HS Hr) as (f & A & [Isr _ _ _ _ Hs]).
  pose proof (rp_out _ _ _ (si_repr _ _ _ _ _ _ Isr)) as Ro.
  unfold TCPReceiver_ackno, ByteStream_bytes_written, ByteStream_input_ended.
  unfold out, TCPReceiver_stream_out. rewrite (br_written _ _ Ro), (br_ended _ _ Ro). split.
  - destruct (rv_syn r); [|done]. simpl. by rewrite (proj2 (Hs eq_refl)).
  - intros He. by rewrite (si_ended _ _ _ _ _ _ Isr He).
Qed.

Definition syn_segment (isn : WrappingInt32) : TCPSegment :=
  mkTCPSegment (th_set_syn (th_set_seqno TCPHeader_default isn) true) Buffer_empty.

Definition data_segment (isn : WrappingInt32) (seqno : Z) (d : bytes) (fin : bool) : TCPSegment :=
  mkTCPSegment (th_set_fin (th_set_seqno TCPHeader_default (wrap seqno isn)) fin) (Buffer_of_string d).

(** The SYN, then the last byte with the FIN, and only then the first byte. *)
Lemma receiver_demo_reaches :
  exists r, reach (rv_step (text [65; 66]) (to_WrappingInt32 9)) (TCPReceiver_new 4, []) (r, []) /\
    rv_syn r = true /\ ByteStream_input_ended (TCPReceiver_stream_out r) = true /\
    ByteStream_bytes_written (TCPReceiver_stream_out r) = 2.
Proof.
  eexists. split.
  - eapply reach_step; [eapply reach_step; [eapply reach_step; [apply reach_refl|]|]|].
    + eapply (rv_step_segment _ _ _ _ (syn_segment (to_WrappingInt32 9))); [|vm_compute; reflexivity].
      exists 0, 0. split; [reflexivity|]. split; [done|]. split; [reflexivity|].
      unfold legal_push. change (zlen (text [65; 66])) with 2. simpl. lia.
    + eapply (rv_step_segment _ _ _ _ (data_segment (to_WrappingInt32 9) 2 (text [66]) true));
        [|vm_compute; reflexivity].
      exists 1, 1. split; [reflexivity|]. split; [done|]. split; [reflexivity|].
      unfold legal_push. change (zlen (text [65; 66])) with 2. simpl. lia.
    + eapply (rv_step_segment _ _ _ _ (data_segment (to_WrappingInt32 9) 1 (text [65]) false));
        [|vm_compute; reflexivity].
      exists 0, 1. split; [reflexivity|]. split; [done|]. split; [reflexivity|].
      unfold legal_push. change (zlen (text [65; 66])) with 2. simpl. lia.
  - by vm_compute.
Qed.

Lemma receiver_ackno_correct_witness :
  exists r, rv_syn r = true /\ TCPReceiver_ackno r = Some (wrap 4 (to_WrappingInt32 9)).
Proof.
  destruct receiver_demo_reaches as (r & R & Hs & He & Hw). exists r. split; [exact Hs|].
  destruct (receiver_ackno_correct (text [65; 66]) (to_WrappingInt32 9) 4 r []) as [H _];
    [apply to_WrappingInt32_ok|lia|reflexivity|reflexivity|exact R|].
  rewrite Hs, He, Hw in H. exact H.
Defined.

(** What a legal segment leaves stored: of the bytes it carries, exactly those below
    the window's end. *)
Lemma segment_stores_window S isn cap r del f A seg i l r' :
  wi_ok isn -> zlen S + cap < W64 -> zlen S + 1 < W31 -> rv_inv S isn cap r del f A ->
  segment_at S isn r seg i l -> th_syn (ts_header seg) = true \/ rv_syn r = true ->
  TCPReceiver_segment_received r seg = Ok r' ->
  forall k, i <= k < i + zlen (Buffer_str (ts_payload seg)) ->
    (map_at false (sr_exist (rv_reassembler r')) k = true <-> k < ff_nread f + ff_cap f).
Proof.
  intros Hisn Hb HS I (Hseq & Hsyn & Hpl & Hleg) Hon Hrun k Hk. pose proof Hleg as (Hi & Hl & _).
  destruct (segment_received_at S isn cap r del f A seg i l Hisn Hb HS I Hseq Hsyn Hpl Hleg)
    as (r1 & f' & A' & E & I' & _ & _ & [Hnr _] & Hcase).
  rewrite Hrun in E. injection E as <-. pose proof (ri_sr _ _ _ _ _ _ _ I') as J'.
  pose proof (rp_core _ _ _ (si_repr _ _ _ _ _ _ J')) as C'.
  pose proof (si_cap _ _ _ _ _ _ J') as Hc'. pose proof (si_cap _ _ _ _ _ _ (ri_sr _ _ _ _ _ _ _ I)) as Hc.
  rewrite (sc_exist _ _ _ _ _ _ _ C' k). rewrite Hpl in Hk. pose proof (slice_len S i l Hi Hl).
  split; [intros Hs; pose proof (sc_keys _ _ _ _ _ _ _ C' k Hs); lia|]. intros Hlt.
  destruct Hcase as [(-> & -> & Hend)|[-> _]].
  - apply (sc_full _ _ _ _ _ _ _ C'). rewrite (sc_fu _ _ _ _ _ _ _ C').
    rewrite (si_ended _ _ _ _ _ _ J' (Hend Hon)). lia.
  - destruct (znth_is_Some (k - i) (slice S i l) ltac:(lia)) as [c Hc1].
    destruct (A !! k) as [d|] eqn:Ek; [exists d|exists c]; apply accept_lookup; try lia; [by left|by right].
Qed.

(** C12: flow control on the receiving side, in every run against a peer whose stream
    [S] is shorter than [2^31 - 1] bytes and whose data-less FIN does not overtake
    missing bytes: the advertised window is the capacity minus the bytes buffered;
    of the bytes a segment carries, exactly those below the window's end
    [bytes_written + window_size] are held by the reassembler afterwards; the bytes
    handed to the reader, followed by those buffered, are a prefix of [S]; and no
    such segment makes the receiver throw. *)
Theorem receiver_window_and_delivery S isn cap r del :
  wi_ok isn -> 0 <= cap -> zlen S + cap < W64 -> zlen S + 1 < W31 ->
  reach (rv_step S isn) (TCPReceiver_new cap, []) (r, del) ->
  let out := TCPReceiver_stream_out r in
  TCPReceiver_window_size r = cap - ByteStream_buffer_size out /\
  ByteStream_bytes_written out + TCPReceiver_window_size r = ByteStream_bytes_read out + cap /\
  0 <= TCPReceiver_window_size r <= cap /\
  (exists rest, S = del ++ ByteStream_peek_output out cap ++ rest) /\
  (forall seg, legal_segment S isn r seg -> exists r', TCPReceiver_segment_received r seg = Ok r') /\
  (forall seg i l r', segment_at S isn r seg i l -> th_syn (ts_header seg) = true \/ rv_syn r = true ->
     TCPReceiver_segment_received r seg = Ok r' ->
     forall k, i <= k < i + zlen (Buffer_str (ts_payload seg)) ->
       (map_at false (sr_exist (rv_reassembler r')) k = true <->
        k < ByteStream_bytes_written out + TCPReceiver_window_size r)).
Proof.
  intros Hi Hc Hb HS Hr out.
  destruct (rv_inv_reach S isn cap r del Hi Hc Hb HS Hr) as (f & A & I).
  pose proof I as [Isr _ _ _ _ Hs]. pose proof (si_repr _ _ _ _ _ _ Isr) as R.
  pose proof (rp_out _ _ _ R) as Ro. pose proof (si_cap _ _ _ _ _ _ Isr) as Hcap.
  unfold TCPReceiver_window_size, ByteStream_bytes_written, ByteStream_bytes_read. fold out.
  change (sr_output (rv_reassembler r)) with out in Ro.
  rewrite (bs_remaining_spec _ _ Ro), (bs_buffer_size_spec _ _ Ro), (br_written _ _ Ro), (br_nread _ _ Ro).
  pose proof (fifo_pending_len f (br_nreadb _ _ Ro)) as Hp. pose proof (br_nreadb _ _ Ro).
  pose proof (br_room _ _ Ro). unfold fifo_room.
  split; [lia|]. split; [lia|]. split; [lia|]. split; [|split].
  - destruct (agrees_prefix S _ f A R (si_agrees _ _ _ _ _ _ Isr)) as [t Ht]. exists t.
    rewrite (bs_peek_spec _ _ Ro) by lia. rewrite ztake_all by lia.
    rewrite Ht, (si_del _ _ _ _ _ _ Isr), app_assoc. f_equal. symmetry. apply ztake_zdrop_id.
  - intros seg Hl. destruct (segment_received_inv S isn cap r del f A seg Hi Hb HS I Hl) as (r' & _ & _ & ? & _).
    by exists r'.
  - intros seg i l r' Hat Hon Hrun k Hk.
    rewrite (segment_stores_window S isn cap r del f A seg i l r' Hi Hb HS I Hat Hon Hrun k Hk). lia.
Qed.

Lemma receiver_window_and_delivery_witness :
  exists r, TCPReceiver_window_size r = 4 - ByteStream_buffer_size (TCPReceiver_stream_out r) /\
    ByteStream_bytes_written (TCPReceiver_stream_out r) = 2 /\
    exists rest, text [65; 66] = [] ++ ByteStream_peek_output (TCPReceiver_stream_out r) 4 ++ rest.
Proof.
  destruct receiver_demo_reaches as (r & R & _ & _ & Hw). exists r.
  destruct (receiver_window_and_delivery (text [65; 66]) (to_WrappingInt32 9) 4 r []) as (H & _ & _ & Hp & _);
    [apply to_WrappingInt32_ok|lia|reflexivity|reflexivity|exact R|].
  split; [exact H|]. split; [exact Hw|exact Hp].
Defined.

(** a data-less FIN that overtakes five missing bytes makes the receiver
    acknowledge one sequence number past the SYN - as if byte 0 were the FIN - and
    report end of file; the late data is then ignored by the early return. *)
Theorem early_fin_acknowledged :
  let isn := to_WrappingInt32 1000 in
  exists r1 r2, TCPReceiver_segment_received (TCPReceiver_new 64) (syn_segment isn) = Ok r1 /\
    TCPReceiver_segment_received r1 (data_segment isn 6 [] true) = Ok r2 /\
    ByteStream_eof (TCPReceiver_stream_out r2) = true /\
    TCPReceiver_ackno r2 = Some (wrap 2 isn) /\
    TCPReceiver_segment_received r2 (data_segment isn 1 (text [1; 2; 3; 4; 5]) false) = Ok r2.
Proof.
  eexists _, _. split; [vm_compute; reflexivity|]. split; [vm_compute; reflexivity|].
  vm_compute. done.
Qed.
