(* ===== verification/Sender.v ===== *)
(** * The TCP sender

    Models [libsponge/tcp_sender.hh] and [tcp_sender.cc]: the class [TCPSender], which
    cuts its [ByteStream] into segments ([fill_window]), tracks what is outstanding
    ([ack_received]) and retransmits on a timer ([tick]). *)

From S2P Require Import Prelude WrappingInts Buffers ByteStreams Reassembler Parser TCPSegments.

(** [TCPConfig] constants used by the sender ([tcp_config.hh]). *)
Definition MAX_PAYLOAD_SIZE : Z := 1000.

Record TCPSender : Type := mkTCPSender {
  sd_isn : WrappingInt32;
  sd_segments_out : list TCPSegment;
  sd_initial_retransmission_timeout : Z;
  sd_stream : ByteStream;
  sd_next_seqno : Z;
  sd_segments_outstanding : list TCPSegment;
  sd_bytes_in_flight : Z;
  sd_receiver_window_size : Z;
  sd_consecutive_retransmissions : Z;
  sd_rto : Z;
  sd_tick : Z;
  sd_timer_running : bool;
  sd_syn : bool;
  sd_fin : bool
}.

(** Field updates. *)
Definition sd_set_segments_out (s : TCPSender) (v : list TCPSegment) : TCPSender :=
  mkTCPSender (sd_isn s) v (sd_initial_retransmission_timeout s) (sd_stream s) (sd_next_seqno s)
    (sd_segments_outstanding s) (sd_bytes_in_flight s) (sd_receiver_window_size s)
    (sd_consecutive_retransmissions s) (sd_rto s) (sd_tick s) (sd_timer_running s) (sd_syn s)
    (sd_fin s).

Definition sd_set_stream (s : TCPSender) (v : ByteStream) : TCPSender :=
  mkTCPSender (sd_isn s) (sd_segments_out s) (sd_initial_retransmission_timeout s) v
    (sd_next_seqno s) (sd_segments_outstanding s) (sd_bytes_in_flight s)
    (sd_receiver_window_size s) (sd_consecutive_retransmissions s) (sd_rto s) (sd_tick s)
    (sd_timer_running s) (sd_syn s) (sd_fin s).

Definition sd_set_next_seqno (s : TCPSender) (v : Z) : TCPSender :=
  mkTCPSender (sd_isn s) (sd_segments_out s) (sd_initial_retransmission_timeout s) (sd_stream s)
    v (sd_segments_outstanding s) (sd_bytes_in_flight s) (sd_receiver_window_size s)
    (sd_consecutive_retransmissions s) (sd_rto s) (sd_tick s) (sd_timer_running s) (sd_syn s)
    (sd_fin s).

Definition sd_set_segments_outstanding (s : TCPSender) (v : list TCPSegment) : TCPSender :=
  mkTCPSender (sd_isn s) (sd_segments_out s) (sd_initial_retransmission_timeout s) (sd_stream s)
    (sd_next_seqno s) v (sd_bytes_in_flight s) (sd_receiver_window_size s)
    (sd_consecutive_retransmissions s) (sd_rto s) (sd_tick s) (sd_timer_running s) (sd_syn s)
    (sd_fin s).

Definition sd_set_bytes_in_flight (s : TCPSender) (v : Z) : TCPSender :=
  mkTCPSender (sd_isn s) (sd_segments_out s) (sd_initial_retransmission_timeout s) (sd_stream s)
    (sd_next_seqno s) (sd_segments_outstanding s) v (sd_receiver_window_size s)
    (sd_consecutive_retransmissions s) (sd_rto s) (sd_tick s) (sd_timer_running s) (sd_syn s)
    (sd_fin s).

Definition sd_set_receiver_window_size (s : TCPSender) (v : Z) : TCPSender :=
  mkTCPSender (sd_isn s) (sd_segments_out s) (sd_initial_retransmission_timeout s) (sd_stream s)
    (sd_next_seqno s) (sd_segments_outstanding s) (sd_bytes_in_flight s) v
    (sd_consecutive_retransmissions s) (sd_rto s) (sd_tick s) (sd_timer_running s) (sd_syn s)
    (sd_fin s).

Definition sd_set_consecutive_retransmissions (s : TCPSender) (v : Z) : TCPSender :=
  mkTCPSender (sd_isn s) (sd_segments_out s) (sd_initial_retransmission_timeout s) (sd_stream s)
    (sd_next_seqno s) (sd_segments_outstanding s) (sd_bytes_in_flight s)
    (sd_receiver_window_size s) v (sd_rto s) (sd_tick s) (sd_timer_running s) (sd_syn s) (sd_fin
    s).

Definition sd_set_rto (s : TCPSender) (v : Z) : TCPSender :=
  mkTCPSender (sd_isn s) (sd_segments_out s) (sd_initial_retransmission_timeout s) (sd_stream s)
    (sd_next_seqno s) (sd_segments_outstanding s) (sd_bytes_in_flight s)
    (sd_receiver_window_size s) (sd_consecutive_retransmissions s) v (sd_tick s)
    (sd_timer_running s) (sd_syn s) (sd_fin s).

Definition sd_set_tick (s : TCPSender) (v : Z) : TCPSender :=
  mkTCPSender (sd_isn s) (sd_segments_out s) (sd_initial_retransmission_timeout s) (sd_stream s)
    (sd_next_seqno s) (sd_segments_outstanding s) (sd_bytes_in_flight s)
    (sd_receiver_window_size s) (sd_consecutive_retransmissions s) (sd_rto s) v
    (sd_timer_running s) (sd_syn s) (sd_fin s).

Definition sd_set_timer_running (s : TCPSender) (v : bool) : TCPSender :=
  mkTCPSender (sd_isn s) (sd_segments_out s) (sd_initial_retransmission_timeout s) (sd_stream s)
    (sd_next_seqno s) (sd_segments_outstanding s) (sd_bytes_in_flight s)
    (sd_receiver_window_size s) (sd_consecutive_retransmissions s) (sd_rto s) (sd_tick s) v
    (sd_syn s) (sd_fin s).

Definition sd_set_syn (s : TCPSender) (v : bool) : TCPSender :=
  mkTCPSender (sd_isn s) (sd_segments_out s) (sd_initial_retransmission_timeout s) (sd_stream s)
    (sd_next_seqno s) (sd_segments_outstanding s) (sd_bytes_in_flight s)
    (sd_receiver_window_size s) (sd_consecutive_retransmissions s) (sd_rto s) (sd_tick s)
    (sd_timer_running s) v (sd_fin s).

Definition sd_set_fin (s : TCPSender) (v : bool) : TCPSender :=
  mkTCPSender (sd_isn s) (sd_segments_out s) (sd_initial_retransmission_timeout s) (sd_stream s)
    (sd_next_seqno s) (sd_segments_outstanding s) (sd_bytes_in_flight s)
    (sd_receiver_window_size s) (sd_consecutive_retransmissions s) (sd_rto s) (sd_tick s)
    (sd_timer_running s) (sd_syn s) v.

(** [fixed_isn.value_or(WrappingInt32{random_device()()})]: the random value is an
    argument. *)
Definition TCPSender_new (capacity retx_timeout : Z) (fixed_isn : option WrappingInt32) (random : Z)
  : TCPSender :=
  mkTCPSender (default (to_WrappingInt32 random) fixed_isn) [] retx_timeout (ByteStream_new capacity)
    0 [] 0 1 0 0 0 false false false.

(** A [std::string] that was moved from is empty in libstdc++. *)
Definition moved_from (s : bytes) : bytes := [].

(** [_segments_out.push(seg)] together with [_segments_outstanding.push(seg)]. *)
Definition sd_push (s : TCPSender) (seg : TCPSegment) : TCPSender :=
  sd_set_segments_outstanding (sd_set_segments_out s (sd_segments_out s ++ [seg]))
    (sd_segments_outstanding s ++ [seg]).

(** [if(!_timer_running){ _timer_running = true; _rto = ...; _tick = 0; }] *)
Definition sd_start_timer (s : TCPSender) : TCPSender :=
  if negb (sd_timer_running s) then
    sd_set_tick (sd_set_rto (sd_set_timer_running s true) (sd_initial_retransmission_timeout s)) 0
  else s.

(** One pass of the [while] loop of [fill_window], after its test. *)
Definition fill_once (s : TCPSender) (remain : Z) : res (TCPSender * Z) :=
  let payload_size := Z.min remain MAX_PAYLOAD_SIZE in
  '(payload, stream) ← ByteStream_read (sd_stream s) payload_size;
  let s := sd_set_stream s stream in
  let remain := remain -64 zlen payload in
  let seg := mkTCPSegment TCPHeader_default (Buffer_of_string payload) in
  let payload := moved_from payload in
  let seqno := wrap (sd_next_seqno s) (sd_isn s) in
  let seg := mkTCPSegment (th_set_seqno (ts_header seg) seqno) (ts_payload seg) in
  let s := sd_set_next_seqno s
             (unwrap seqno (sd_isn s) (sd_next_seqno s) +64 length_in_sequence_space seg) in
  let '(s, seg) :=
    if ByteStream_eof (sd_stream s) && ((zlen payload + 1) <=? remain) then
      (sd_set_next_seqno (sd_set_fin s true) (sd_next_seqno s +64 1),
       mkTCPSegment (th_set_fin (ts_header seg) true) (ts_payload seg))
    else (s, seg) in
  let s := sd_push s seg in
  let s := sd_set_bytes_in_flight s (sd_bytes_in_flight s +64 length_in_sequence_space seg) in
  Ok (sd_start_timer s, remain).

(** [while(remain > 0 && _stream.buffer_size() > 0)] *)
Fixpoint fill_loop (fuel : nat) (s : TCPSender) (remain : Z) : res (TCPSender * Z) :=
  match fuel with
  | O => NoFuel
  | S fuel' =>
      if (0 <? remain) && (0 <? ByteStream_buffer_size (sd_stream s)) then
        '(s, remain) ← fill_once s remain; fill_loop fuel' s remain
      else Ok (s, remain)
  end.

(** The first call: the SYN alone. *)
Definition send_syn (s : TCPSender) : TCPSender :=
  let s := sd_set_syn s true in
  let seg := mkTCPSegment (th_set_seqno (th_set_syn TCPHeader_default true) (sd_isn s)) Buffer_empty in
  let s := sd_push s seg in
  let s := sd_set_next_seqno s 1 in
  let s := sd_set_bytes_in_flight s (length_in_sequence_space seg) in
  sd_start_timer s.

(** The last block: a FIN without data. *)
Definition send_fin (s : TCPSender) : TCPSender :=
  let s := sd_set_fin s true in
  let seg := mkTCPSegment
               (th_set_fin (th_set_seqno TCPHeader_default (wrap (sd_next_seqno s) (sd_isn s))) true)
               Buffer_empty in
  let s := sd_push s seg in
  let s := sd_set_bytes_in_flight s (sd_bytes_in_flight s +64 length_in_sequence_space seg) in
  let s := sd_set_next_seqno s (sd_next_seqno s +64 1) in
  sd_start_timer s.

(** Every pass reads at least one byte, so the buffer size bounds their number. *)
Definition TCPSender_fill_window (s : TCPSender) : res TCPSender :=
  if negb (sd_syn s) then Ok (send_syn s)
  else
    let remain := sd_receiver_window_size s -64 sd_bytes_in_flight s in
    let remain := if sd_receiver_window_size s =? 0 then remain +64 1 else remain in
    '(s, remain) ← fill_loop (S (Z.to_nat (ByteStream_buffer_size (sd_stream s)))) s remain;
    if negb (sd_fin s) && ByteStream_eof (sd_stream s) && negb (remain =? 0) then Ok (send_fin s)
    else Ok s.

(** The [do ... while] loop of [ack_received] over the outstanding queue. *)
Fixpoint ack_loop (outstanding : list TCPSegment) (s : TCPSender) (unwrap_ackno : Z) : TCPSender :=
  match outstanding with
  | [] => sd_set_segments_outstanding s []
  | t :: rest =>
      let len := length_in_sequence_space t in
      if (unwrap (th_seqno (ts_header t)) (sd_isn s) (sd_next_seqno s) + len -64 1) <? unwrap_ackno then
        let s := sd_set_bytes_in_flight s (sd_bytes_in_flight s -64 len) in
        let s := sd_set_rto (sd_set_tick s 0) (sd_initial_retransmission_timeout s) in
        ack_loop rest (sd_set_consecutive_retransmissions s 0) unwrap_ackno
      else sd_set_segments_outstanding s (t :: rest)
  end.

Definition TCPSender_ack_received (s : TCPSender) (ackno : WrappingInt32) (window_size : Z) : res TCPSender :=
  let unwrap_ackno := unwrap ackno (sd_isn s) (sd_next_seqno s) in
  let s := if (unwrap_ackno =? sd_next_seqno s) && negb (window_size =? sd_receiver_window_size s)
           then sd_set_receiver_window_size s window_size else s in
  match sd_segments_outstanding s with
  | [] => Ok s
  | t :: _ =>
      if (sd_next_seqno s <? unwrap_ackno) ||
         ((unwrap_ackno + window_size - 1 +64 (if window_size =? 0 then 1 else 0)) <?
          (unwrap (th_seqno (ts_header t)) (sd_isn s) (sd_next_seqno s) +64 length_in_sequence_space t))
      then Ok s
      else
        let s := sd_set_receiver_window_size s window_size in
        let s := ack_loop (sd_segments_outstanding s) s unwrap_ackno in
        let s := if sd_bytes_in_flight s =? 0 then sd_set_timer_running s false else s in
        TCPSender_fill_window s
  end.

Definition TCPSender_tick (s : TCPSender) (ms_since_last_tick : Z) : TCPSender :=
  let s := sd_set_tick s (sd_tick s +64 ms_since_last_tick) in
  match sd_segments_outstanding s with
  | t :: _ =>
      if sd_rto s <=? sd_tick s then
        let s := sd_set_segments_out s (sd_segments_out s ++ [t]) in
        let s := if negb (sd_receiver_window_size s =? 0) || th_syn (ts_header t) then
                   sd_set_rto
                     (sd_set_consecutive_retransmissions s (u16 (sd_consecutive_retransmissions s + 1)))
                     (u32 (Z.shiftl (sd_rto s) 1))
                 else s in
        sd_set_tick s 0
      else s
  | [] => s
  end.

Definition TCPSender_send_empty_segment (s : TCPSender) : TCPSender :=
  let seg := mkTCPSegment (th_set_seqno TCPHeader_default (wrap (sd_next_seqno s) (sd_isn s))) Buffer_empty in
  sd_set_segments_out s (sd_segments_out s ++ [seg]).

(** The owner writes to, ends, or flags an error on [stream_in()]. *)
Definition TCPSender_write (s : TCPSender) (data : bytes) : Z * TCPSender :=
  let '(n, st) := ByteStream_write (sd_stream s) data in (n, sd_set_stream s st).

Definition TCPSender_end_input (s : TCPSender) : TCPSender :=
  sd_set_stream s (ByteStream_end_input (sd_stream s)).

Definition TCPSender_set_error (s : TCPSender) : TCPSender :=
  sd_set_stream s (ByteStream_set_error (sd_stream s)).

(** ** What the sender's segments say

    The stream's history is [H]; the SYN has absolute number 0, byte [k] has number
    [k + 1]. A segment at absolute number [start] carries the SYN alone, or the
    bytes of the history that belong there, with FIN only at the history's end. *)

Definition payload_of (t : TCPSegment) : bytes := Buffer_str (ts_payload t).

Record seg_ok (isn : WrappingInt32) (H : bytes) (ended : bool) (start : Z) (t : TCPSegment) : Prop := {
  sg_seqno : th_seqno (ts_header t) = wrap start isn;
  sg_small : zlen (payload_of t) <= MAX_PAYLOAD_SIZE;
  sg_start : if th_syn (ts_header t)
             then start = 0 /\ th_fin (ts_header t) = false /\ payload_of t = []
             else 1 <= start /\ start - 1 + zlen (payload_of t) <= zlen H /\
                  payload_of t = slice H (start - 1) (zlen (payload_of t));
  sg_fin : th_fin (ts_header t) = true -> ended = true /\ start - 1 + zlen (payload_of t) = zlen H
}.

(** Sequence numbers a queue of segments occupies. *)
Definition flight (l : list TCPSegment) : Z :=
  fold_right (fun t a => length_in_sequence_space t + a) 0 l.

(** The queue tiles the sequence space from [start] on, without gaps. *)
Fixpoint chain (isn : WrappingInt32) (H : bytes) (ended : bool) (start : Z) (l : list TCPSegment) : Prop :=
  match l with
  | [] => True
  | t :: r => seg_ok isn H ended start t /\ 0 < length_in_sequence_space t /\
              chain isn H ended (start + length_in_sequence_space t) r
  end.

(** A segment that was put on the wire: one of those, or an empty one, which carries
    only the next sequence number. *)
Definition sent_ok (isn : WrappingInt32) (H : bytes) (ended : bool) (t : TCPSegment) : Prop :=
  (exists start, seg_ok isn H ended start t) \/
  (exists n, 0 <= n <= zlen H + 2 /\ th_seqno (ts_header t) = wrap n isn /\
             payload_of t = [] /\ th_syn (ts_header t) = false /\ th_fin (ts_header t) = false).

Lemma seq_len t :
  zlen (payload_of t) + 2 < W64 ->
  length_in_sequence_space t = zlen (payload_of t) + (if th_syn (ts_header t) then 1 else 0)
    + (if th_fin (ts_header t) then 1 else 0).
Proof.
  unfold length_in_sequence_space. fold (payload_of t). intros. pose proof (zlen_nonneg (payload_of t)).
  destruct (th_syn (ts_header t)), (th_fin (ts_header t)); by nowrap.
Qed.

Lemma seg_ok_len isn H e start t : seg_ok isn H e start t ->
  length_in_sequence_space t = zlen (payload_of t) + (if th_syn (ts_header t) then 1 else 0)
    + (if th_fin (ts_header t) then 1 else 0).
Proof. intros []. apply seq_len. unfold MAX_PAYLOAD_SIZE in *. lia. Qed.

Lemma flight_nonneg l : 0 <= flight l.
Proof. induction l as [|t l IH]; simpl; [lia|]. pose proof (u64_range
  (zlen (Buffer_str (ts_payload t)) + (if th_syn (ts_header t) then 1 else 0) + (if th_fin (ts_header t) then 1 else 0))).
  unfold length_in_sequence_space. lia. Qed.

Lemma flight_app l k : flight (l ++ k) = flight l + flight k.
Proof. induction l as [|t l IH]; simpl; lia. Qed.

Lemma chain_app isn H e start l k :
  chain isn H e start (l ++ k) <-> chain isn H e start l /\ chain isn H e (start + flight l) k.
Proof.
  revert start. induction l as [|t l IH]; intros start; simpl; [rewrite Z.add_0_r; tauto|].
  rewrite IH, Z.add_assoc. tauto.
Qed.

Lemma slice_app (S R : bytes) i l : 0 <= i -> 0 <= l -> i + l <= zlen S -> slice (S ++ R) i l = slice S i l.
Proof.
  intros. unfold slice. rewrite zdrop_app_le by lia. rewrite ztake_app_le; [done|].
  rewrite zlen_zdrop; lia.
Qed.

(** Writing more bytes, before the end, does not invalidate what was sent. *)
Lemma seg_ok_grow isn H e start t d :
  e = false -> seg_ok isn H e start t -> seg_ok isn (H ++ d) e start t.
Proof.
  intros -> [? ? Hs Hf]. split; try done.
  - destruct (th_syn (ts_header t)); [done|]. destruct Hs as (? & ? & E).
    rewrite zlen_app, slice_app by (zlia). split; [done|]. split; [zlia|done].
  - intros [? _]%Hf. done.
Qed.

Lemma seg_ok_end isn H e start t : seg_ok isn H e start t -> seg_ok isn H true start t.
Proof. intros [? ? ? Hf]. split; try done. intros [? ?]%Hf. done. Qed.

Lemma chain_impl isn H e H' e' start l :
  (forall a t, seg_ok isn H e a t -> seg_ok isn H' e' a t) ->
  chain isn H e start l -> chain isn H' e' start l.
Proof. intros Hi. revert start. induction l as [|t l IH]; intros start; simpl; naive_solver. Qed.

Lemma sent_ok_impl isn H e H' e' t :
  (forall a, seg_ok isn H e a t -> seg_ok isn H' e' a t) -> zlen H <= zlen H' ->
  sent_ok isn H e t -> sent_ok isn H' e' t.
Proof.
  intros Hi Hl [[a Ha]|(n & ? & Hn)]; [left; eauto|right]. exists n. split; [lia|done].
Qed.

(** ** The invariant *)

Record sd_inv (s : TCPSender) (f : fifo) : Prop := {
  di_stream : bs_repr (sd_stream s) f;
  di_isn : wi_ok (sd_isn s);
  di_init : 0 <= sd_initial_retransmission_timeout s < W16;
  di_win : 0 <= sd_receiver_window_size s < W16;
  di_fresh : sd_syn s = false ->
    sd_segments_outstanding s = [] /\ sd_fin s = false /\ ff_nread f = 0;
  di_next : sd_next_seqno s =
    (if sd_syn s then 1 + ff_nread f + (if sd_fin s then 1 else 0) else 0);
  di_fin : sd_fin s = true -> ff_ended f = true /\ ff_nread f = zlen (ff_hist f);
  di_flight : sd_bytes_in_flight s = flight (sd_segments_outstanding s);
  di_una : sd_bytes_in_flight s <= sd_next_seqno s;
  di_chain : chain (sd_isn s) (ff_hist f) (ff_ended f)
               (sd_next_seqno s - sd_bytes_in_flight s) (sd_segments_outstanding s);
  di_out : Forall (sent_ok (sd_isn s) (ff_hist f) (ff_ended f)) (sd_segments_out s);
  di_timer : sd_segments_outstanding s <> [] -> sd_timer_running s = true;
  di_stopped : sd_segments_outstanding s = [] -> sd_timer_running s = false;
  di_idle : sd_timer_running s = false -> sd_consecutive_retransmissions s = 0;
  di_rto : sd_timer_running s = true ->
    sd_rto s = u32 (sd_initial_retransmission_timeout s * 2 ^ sd_consecutive_retransmissions s);
  di_consec : 0 <= sd_consecutive_retransmissions s;
  di_tick : 0 <= sd_tick s
}.

(** Fewer bytes are written in all than absolute sequence numbers can count. *)
Definition sd_bound (f : fifo) : Prop := zlen (ff_hist f) + 2 < W64 - W32.

Lemma sd_inv_new cap rt fixed random :
  0 <= cap < W64 -> 0 <= rt < W16 -> (forall w, fixed = Some w -> wi_ok w) ->
  sd_inv (TCPSender_new cap rt fixed random) (mkFifo [] 0 cap false false).
Proof.
  intros. split; simpl; try done; try lia.
  - by apply bs_repr_new.
  - destruct fixed; simpl; [auto|apply to_WrappingInt32_ok].
Qed.

(** Sending one more segment at [next_seqno] keeps the invariant. *)
Lemma inv_send s f f' stream' seg fin' :
  let len := length_in_sequence_space seg in
  sd_inv s f -> bs_repr stream' f' -> ff_hist f' = ff_hist f -> ff_ended f' = ff_ended f ->
  seg_ok (sd_isn s) (ff_hist f) (ff_ended f) (sd_next_seqno s) seg -> 0 < len ->
  sd_next_seqno s + len = 1 + ff_nread f' + (if fin' : bool then 1 else 0) ->
  (fin' = true -> ff_ended f = true /\ ff_nread f' = zlen (ff_hist f)) ->
  sd_inv (sd_start_timer (mkTCPSender (sd_isn s) (sd_segments_out s ++ [seg])
      (sd_initial_retransmission_timeout s) stream' (sd_next_seqno s + len)
      (sd_segments_outstanding s ++ [seg]) (sd_bytes_in_flight s + len)
      (sd_receiver_window_size s) (sd_consecutive_retransmissions s) (sd_rto s) (sd_tick s)
      (sd_timer_running s) true fin')) f'.
Proof.
  intros len I Rs Hh He Hseg Hlen Hnext Hfin. destruct I.
  unfold sd_start_timer. simpl.
  destruct (sd_timer_running s) eqn:Et; simpl; split; simpl; rewrite ?Hh, ?He; try done; try lia.
  all: try (rewrite flight_app; simpl; lia).
  all: try (apply chain_app; simpl; rewrite <- di_flight0;
    replace (sd_next_seqno s + len - (sd_bytes_in_flight s + len)) with
      (sd_next_seqno s - sd_bytes_in_flight s) by lia;
    split; [done|]; replace (sd_next_seqno s - sd_bytes_in_flight s + sd_bytes_in_flight s)
      with (sd_next_seqno s) by lia; done).
  all: try (apply Forall_app; split; [done|]; constructor; [|done]; left; by eexists).
  all: try (by intros [_ ?]%app_eq_nil).
  intros _. rewrite di_idle0 by done. rewrite Z.pow_0_r, Z.mul_1_r, u32_id; lia.
Qed.

(** ** [fill_window] *)

(** What a call that only sends new segments leaves alone, and what it appends. *)
Record sends (s s' : TCPSender) (new : list TCPSegment) : Prop := {
  sn_isn : sd_isn s' = sd_isn s;
  sn_init : sd_initial_retransmission_timeout s' = sd_initial_retransmission_timeout s;
  sn_win : sd_receiver_window_size s' = sd_receiver_window_size s;
  sn_consec : sd_consecutive_retransmissions s' = sd_consecutive_retransmissions s;
  sn_out : sd_segments_out s' = sd_segments_out s ++ new;
  sn_outstanding : sd_segments_outstanding s' = sd_segments_outstanding s ++ new
}.

Lemma sends_nil s : sends s s [].
Proof. split; by rewrite ?app_nil_r. Qed.

Lemma sends_trans s t u a b : sends s t a -> sends t u b -> sends s u (a ++ b).
Proof. intros [] []. split; try congruence; rewrite app_assoc; congruence. Qed.

(** [_next_seqno] and [_bytes_in_flight] are far from wrapping around. *)
Lemma next_bound s f : sd_inv s f -> sd_bound f ->
  0 <= sd_bytes_in_flight s <= sd_next_seqno s /\ sd_next_seqno s <= zlen (ff_hist f) + 2 /\
  0 <= ff_nread f <= zlen (ff_hist f).
Proof.
  intros I Hb. pose proof (br_nreadb _ _ (di_stream _ _ I)). pose proof (di_una _ _ I).
  rewrite (di_flight _ _ I) in *. pose proof (flight_nonneg (sd_segments_outstanding s)).
  pose proof (di_next _ _ I). destruct (sd_syn s), (sd_fin s); lia.
Qed.

(** A pass of the loop sends the next [n] bytes, with FIN if that ends the stream and
    there is room for it. *)
Lemma fill_once_spec s f remain :
  sd_inv s f -> sd_bound f -> sd_syn s = true -> 0 < remain < W64 -> 0 < zlen (fifo_pending f) ->
  let n := Z.min (Z.min remain MAX_PAYLOAD_SIZE) (zlen (fifo_pending f)) in
  exists s' seg, fill_once s remain = Ok (s', remain - n) /\ sd_inv s' (fifo_pop f n) /\
    sends s s' [seg] /\ sd_syn s' = true /\
    payload_of seg = slice (ff_hist f) (ff_nread f) n /\
    sd_fin s' = (zlen (fifo_pending f) =? n) && ff_ended f && (1 <=? remain - n) /\
    sd_bytes_in_flight s' = sd_bytes_in_flight s + n + (if sd_fin s' then 1 else 0).
Proof.
  intros I Hb Hsyn Hr Hp n. unfold sd_bound in *. destruct (next_bound s f I Hb) as (Hbif & Hnx & Hnr).
  pose proof (di_stream _ _ I) as Rs. pose proof (fifo_pending_len f (br_nreadb _ _ Rs)) as Hpl.
  assert (Hn : 0 < n <= 1000 /\ n <= remain /\ n <= zlen (fifo_pending f))
    by (unfold n, MAX_PAYLOAD_SIZE; lia).
  assert (Hfin : sd_fin s = false).
  { destruct (sd_fin s) eqn:E; [|done]. pose proof (di_fin _ _ I E). lia. }
  unfold fill_once.
  destruct (bs_read_spec _ _ Rs (Z.min remain MAX_PAYLOAD_SIZE)) as (st' & -> & Rs');
    [unfold MAX_PAYLOAD_SIZE; lia|].
  assert (Hpop : fifo_pop f (Z.min remain MAX_PAYLOAD_SIZE) = fifo_pop f n)
    by (unfold fifo_pop; f_equal; unfold n; lia).
  rewrite Hpop in Rs'.
  assert (Hpay : ztake (Z.min remain MAX_PAYLOAD_SIZE) (fifo_pending f) = slice (ff_hist f) (ff_nread f) n).
  { unfold slice. fold (fifo_pending f). unfold n.
    destruct (Z.min_spec (Z.min remain MAX_PAYLOAD_SIZE) (zlen (fifo_pending f))) as [[? ->]|[? ->]]; [done|].
    rewrite !ztake_all by lia. done. }
  rewrite Hpay, res_bind_Ok. cbv beta iota zeta.
  assert (Hlen : zlen (slice (ff_hist f) (ff_nread f) n) = n) by (rewrite slice_len; lia).
  rewrite Hlen, (u64_id (remain - n)) by lia. unfold moved_from. rewrite (@zlen_nil byte). 
  cbn [sd_stream sd_next_seqno sd_isn sd_set_stream sd_set_next_seqno ts_header ts_payload].
  rewrite unwrap_wrap by (exact (di_isn _ _ I) || lia).
  assert (HnextI := di_next _ _ I). rewrite Hsyn, Hfin in HnextI.
  rewrite (bs_eof_spec _ _ Rs'), (fifo_pending_len (fifo_pop f n)) by apply Rs'.
  cbn [ff_hist ff_nread ff_ended fifo_pop]. rewrite (Z.min_l n) by lia.
  replace (zlen (ff_hist f) - (ff_nread f + n) =? 0) with (zlen (fifo_pending f) =? n)
    by (rewrite Hpl; do 2 ztest; lia).
  rewrite Z.add_0_l. set (fin := (zlen (fifo_pending f) =? n) && ff_ended f && (1 <=? remain - n)).
  set (seg0 := mkTCPSegment _ (Buffer_of_string _)).
  assert (L0 : length_in_sequence_space seg0 = n).
  { rewrite seq_len; change (payload_of seg0) with (slice (ff_hist f) (ff_nread f) n);
      rewrite Hlen; simpl; lia. }
  rewrite L0, (u64_id (sd_next_seqno s + n)) by lia.
  set (seg := mkTCPSegment (th_set_fin (ts_header seg0) fin) (ts_payload seg0)).
  assert (L1 : length_in_sequence_space seg = n + (if fin then 1 else 0)).
  { rewrite seq_len; change (payload_of seg) with (slice (ff_hist f) (ff_nread f) n);
      rewrite Hlen; simpl; lia. }
  assert (Hpos : 0 < length_in_sequence_space seg) by (rewrite L1; destruct fin; lia).
  assert (Hfe : fin = true -> ff_ended f = true /\ ff_nread f + n = zlen (ff_hist f)).
  { unfold fin. intros [[E ->]%andb_prop _]%andb_prop. apply Z.eqb_eq in E. split; [done|lia]. }
  pose proof (inv_send s f (fifo_pop f n) st' seg fin I Rs' eq_refl eq_refl) as I'.
  cbv zeta in I'. rewrite L1 in I'. 
  match type of I' with _ -> _ -> _ -> _ -> sd_inv ?s1 _ => exists s1, seg end.
  split; [|split; [|split; [|split; [|split; [|split]]]]].
  - unfold sd_push, sd_set_bytes_in_flight, seg, seg0 in *. cbn.
    destruct fin; cbn in L1 |- *.
    + rewrite ?L1. nowrap. by rewrite Hsyn, !Z.add_assoc.
    + rewrite L0. nowrap. by rewrite Hsyn, Hfin, !Z.add_0_r.
  - apply I'; [|destruct fin; lia| |].
    + split; change (payload_of seg) with (slice (ff_hist f) (ff_nread f) n); rewrite ?Hlen; simpl; try done; try lia.
      * split; [lia|]. split; [lia|]. f_equal. lia.
      * intros [? ?]%Hfe. split; [done|lia].
    + simpl. rewrite Z.min_l by lia. destruct fin; lia.
    + simpl. rewrite Z.min_l by lia. done.
  - unfold sd_start_timer. destruct (sd_timer_running s); by split.
  - unfold sd_start_timer. by destruct (sd_timer_running s).
  - done.
  - unfold sd_start_timer. by destruct (sd_timer_running s).
  - unfold sd_start_timer. destruct (sd_timer_running s); simpl; lia.
Qed.

(** [m] more bytes of the history are read. *)
Definition fifo_adv (f : fifo) (m : Z) : fifo :=
  mkFifo (ff_hist f) (ff_nread f + m) (ff_cap f) (ff_ended f) (ff_err f).

Lemma fifo_pop_adv f n : n <= zlen (fifo_pending f) -> fifo_pop f n = fifo_adv f n.
Proof. intros. unfold fifo_pop, fifo_adv. by rewrite Z.min_l. Qed.

Lemma fifo_adv_adv f n m : fifo_adv (fifo_adv f n) m = fifo_adv f (n + m).
Proof. unfold fifo_adv. simpl. f_equal. lia. Qed.

Lemma fifo_adv_0 f : fifo_adv f 0 = f.
Proof. destruct f. unfold fifo_adv. simpl. f_equal. lia. Qed.

Definition payloads (l : list TCPSegment) : bytes := concat (map payload_of l).

Lemma payloads_app l k : payloads (l ++ k) = payloads l ++ payloads k.
Proof. unfold payloads. by rewrite map_app, concat_app. Qed.

Lemma slice_split (S : bytes) i n m : 0 <= i -> 0 <= n -> 0 <= m -> i + n + m <= zlen S ->
  slice S i (n + m) = slice S i n ++ slice S (i + n) m.
Proof.
  intros. unfold slice. rewrite <- (zdrop_zdrop n i) by lia.
  rewrite <- (ztake_zdrop_id n (zdrop i S)) at 1.
  assert (zlen (ztake n (zdrop i S)) = n) by (rewrite zlen_ztake; [done|rewrite zlen_zdrop; lia]).
  rewrite ztake_app_ge by lia. do 2 f_equal. lia.
Qed.

(** The loop sends as much as the window and the stream allow; its fuel is enough. *)
Lemma fill_loop_spec fuel : forall s f remain,
  sd_inv s f -> sd_bound f -> sd_syn s = true -> 0 <= remain < W64 ->
  zlen (fifo_pending f) < Z.of_nat fuel ->
  let p := zlen (fifo_pending f) in let m := Z.min remain p in
  exists s' new, fill_loop fuel s remain = Ok (s', remain - m) /\ sd_inv s' (fifo_adv f m) /\
    sends s s' new /\ sd_syn s' = true /\ payloads new = slice (ff_hist f) (ff_nread f) m /\
    sd_fin s' = sd_fin s || ((0 <? p) && (p =? m) && ff_ended f && (1 <=? remain - m)) /\
    sd_bytes_in_flight s' = sd_bytes_in_flight s + m + (if sd_fin s' && negb (sd_fin s) then 1 else 0).
Proof.
  induction fuel as [|fuel IH]; intros s f remain I Hb Hsyn Hr Hfuel p m;
    pose proof (zlen_nonneg (fifo_pending f)) as Hp; [lia|]. cbn [fill_loop].
  pose proof (di_stream _ _ I) as Rs. rewrite (bs_buffer_size_spec _ _ Rs).
  destruct ((0 <? remain) && (0 <? zlen (fifo_pending f))) eqn:G.
  2:{ assert (m = 0) as -> by (unfold m, p; apply andb_false_iff in G; do 2 ztest_in G; lia).
      exists s, []. rewrite fifo_adv_0, Z.sub_0_r, Z.add_0_r.
      split; [done|]. split; [done|]. split; [apply sends_nil|]. split; [done|]. split; [done|].
      destruct (sd_fin s); simpl; [split; [done|lia]|].
      split; [|lia]. destruct (Z.ltb_spec 0 p); simpl; [|done].
      destruct (Z.eqb_spec p 0); [lia|done]. }
  apply andb_prop in G as [G1%Z.ltb_lt G2%Z.ltb_lt].
  destruct (fill_once_spec s f remain I Hb Hsyn ltac:(lia) G2)
    as (s1 & seg & -> & I1 & S1 & Hsyn1 & Hpay & Hf1 & Hbif1). rewrite res_bind_Ok.
  set (n := Z.min (Z.min remain MAX_PAYLOAD_SIZE) (zlen (fifo_pending f))) in *.
  assert (Hn : 0 < n /\ n <= remain /\ n <= p) by (unfold n, p, MAX_PAYLOAD_SIZE; lia).
  pose proof (fifo_pending_len f (br_nreadb _ _ Rs)) as Hpl. fold p in Hpl.
  pose proof (br_nreadb _ _ Rs) as Hnr.
  rewrite fifo_pop_adv in I1 by (fold p; lia).
  assert (Hpl1 : zlen (fifo_pending (fifo_adv f n)) = p - n).
  { rewrite fifo_pending_len; simpl; [lia|]. pose proof (br_nreadb _ _ (di_stream _ _ I1)). simpl in *. lia. }
  destruct (IH s1 (fifo_adv f n) (remain - n) I1 Hb Hsyn1 ltac:(lia) ltac:(rewrite Hpl1; unfold p in *; lia))
    as (s2 & new & -> & I2 & S2 & Hsyn2 & Hpay2 & Hf2 & Hbif2).
  rewrite Hpl1 in *. assert (Hm : Z.min (remain - n) (p - n) = m - n) by (unfold m; lia).
  rewrite Hm in *. rewrite fifo_adv_adv in I2. replace (n + (m - n)) with m in I2 by lia.
  exists s2, ([seg] ++ new). replace (remain - n - (m - n)) with (remain - m) in * by lia.
  split; [done|]. split; [done|]. split; [by eapply sends_trans|]. split; [done|]. split.
  { rewrite payloads_app, Hpay2. unfold payloads. simpl. rewrite app_nil_r, Hpay.
    rewrite <- slice_split by (unfold m; lia). f_equal. lia. }
  assert (Hfin0 : sd_fin s = false).
  { destruct (sd_fin s) eqn:E; [|done]. pose proof (di_fin _ _ I E). lia. }
  rewrite Hfin0, Hf1 in *. fold p in Hf1, Hf2, Hbif1, Hbif2 |- *. cbn [ff_ended fifo_adv] in *.
  replace (0 <? p) with true by (symmetry; apply Z.ltb_lt; lia).
  assert (Hpm : p = m \/ p <> m /\ m = remain) by (unfold m; lia).
  rewrite Hbif2, Hbif1, Hf2. destruct (ff_ended f); rewrite ?andb_false_r; simpl; [|split; [done|lia]].
  rewrite !andb_true_r.
  destruct (Z.eqb_spec p n), (Z.eqb_spec p m), (Z.eqb_spec (p - n) (m - n)), (Z.ltb_spec 0 (p - n)),
    (Z.leb_spec 1 (remain - n)), (Z.leb_spec 1 (remain - m)); simpl; split; done || lia.
Qed.

(** The local [remain] when the loop starts. *)
Definition window_room (s : TCPSender) : Z :=
  let remain := sd_receiver_window_size s -64 sd_bytes_in_flight s in
  if sd_receiver_window_size s =? 0 then remain +64 1 else remain.

Lemma window_room_range s : 0 <= window_room s < W64.
Proof. unfold window_room. ztest; apply u64_range. Qed.

Lemma window_room_fits s f : sd_inv s f -> sd_bound f ->
  sd_bytes_in_flight s <= Z.max (sd_receiver_window_size s) 1 ->
  window_room s = Z.max (sd_receiver_window_size s) 1 - sd_bytes_in_flight s.
Proof.
  intros I Hb Hw. destruct (next_bound s f I Hb) as (? & ? & _). pose proof (di_win _ _ I).
  unfold window_room. ztest; [|nowrap; lia].
  replace (sd_receiver_window_size s) with 0 in * by lia. unfold u64.
  rewrite Zplus_mod_idemp_l. rewrite Z.mod_small; lia.
Qed.

(** The first call sends the SYN and nothing else. *)
Lemma fill_window_syn s f : sd_inv s f -> sd_syn s = false ->
  exists s' seg, TCPSender_fill_window s = Ok s' /\ sd_inv s' f /\ sends s s' [seg] /\
    th_syn (ts_header seg) = true /\ seg_ok (sd_isn s) (ff_hist f) (ff_ended f) 0 seg /\
    sd_syn s' = true /\ sd_fin s' = false /\ sd_bytes_in_flight s' = 1 /\ sd_next_seqno s' = 1.
Proof.
  intros I Hsyn. unfold TCPSender_fill_window. rewrite Hsyn. cbn [negb]. unfold send_syn. cbv zeta.
  destruct (di_fresh _ _ I Hsyn) as (Ho & Hf & Hnr). pose proof (di_next _ _ I) as Hnx. rewrite Hsyn in Hnx.
  pose proof (di_flight _ _ I) as Hfl. rewrite Ho in Hfl. simpl in Hfl.
  set (seg := mkTCPSegment _ _).
  assert (Hseg : seg_ok (sd_isn s) (ff_hist f) (ff_ended f) 0 seg).
  { split; try done. simpl. symmetry. apply wi_ext. rewrite raw_wrap, Z.add_0_r.
    apply Z.mod_small, (di_isn _ _ I). }
  assert (Hlen : length_in_sequence_space seg = 1) by done. rewrite <- Hnx in Hseg.
  pose proof (inv_send s f f (sd_stream s) seg false I (di_stream _ _ I) eq_refl eq_refl Hseg) as I'.
  cbv zeta in I'. rewrite Hlen, Hnx, Hfl in *. eexists _, seg. split; [done|].
  split; [|split; [|split; [done|split; [done|]]]].
  - rewrite <- Hf in I'. apply I'; rewrite ?Hf; done || lia.
  - unfold sd_start_timer. simpl. destruct (sd_timer_running s); by split.
  - unfold sd_start_timer. simpl. by destruct (sd_timer_running s).
Qed.

(** A FIN without data takes one sequence number, after the last byte. *)
Lemma send_fin_spec s f : sd_inv s f -> sd_bound f -> sd_syn s = true -> sd_fin s = false ->
  ff_ended f = true -> ff_nread f = zlen (ff_hist f) ->
  exists seg, sd_inv (send_fin s) f /\ sends s (send_fin s) [seg] /\ payload_of seg = [] /\
    sd_syn (send_fin s) = true /\ sd_fin (send_fin s) = true /\
    sd_bytes_in_flight (send_fin s) = sd_bytes_in_flight s + 1.
Proof.
  intros I Hb Hsyn Hfin He Hn. destruct (next_bound s _ I Hb) as (Hbif & Hnx & Hnr).
  unfold send_fin. cbn [sd_set_fin sd_next_seqno sd_isn]. cbv zeta. set (seg := mkTCPSegment _ _).
  assert (Hlen : length_in_sequence_space seg = 1) by done. exists seg.
  pose proof (di_next _ _ I) as Hnext. rewrite Hsyn, Hfin in Hnext.
  assert (Hseg : seg_ok (sd_isn s) (ff_hist f) (ff_ended f) (sd_next_seqno s) seg).
  { split; try done; change (payload_of seg) with (@nil byte); rewrite (@zlen_nil byte); simpl;
      [|by intros _; split; [|lia]].
    split; [lia|]. split; [lia|]. done. }
  pose proof (inv_send s f f (sd_stream s) seg true I (di_stream _ _ I) eq_refl eq_refl Hseg) as I'.
  cbv zeta in I'. rewrite Hlen in I' |- *. unfold sd_bound in Hb. cbn. nowrap.
  unfold sd_push, sd_set_next_seqno, sd_set_bytes_in_flight. cbn. rewrite Hsyn.
  split; [by apply I'; [lia|lia|]|]. unfold sd_start_timer. simpl.
  by destruct (sd_timer_running s).
Qed.

(** Later calls send the longest run of pending bytes that fits in [window_room], and
    the FIN after the last byte if it fits too. *)
Lemma fill_window_spec s f : sd_inv s f -> sd_bound f -> sd_syn s = true ->
  let p := zlen (fifo_pending f) in let m := Z.min (window_room s) p in
  exists s' new, TCPSender_fill_window s = Ok s' /\ sd_inv s' (fifo_adv f m) /\
    sends s s' new /\ sd_syn s' = true /\ payloads new = slice (ff_hist f) (ff_nread f) m /\
    sd_fin s' = sd_fin s || ((p =? m) && ff_ended f && (1 <=? window_room s - m)) /\
    sd_bytes_in_flight s' = sd_bytes_in_flight s + m + (if sd_fin s' && negb (sd_fin s) then 1 else 0).
Proof.
  intros I Hb Hsyn p m. unfold TCPSender_fill_window. rewrite Hsyn. cbn [negb]. cbv zeta.
  fold (window_room s). pose proof (window_room_range s) as Hr. pose proof (di_stream _ _ I) as Rs.
  rewrite (bs_buffer_size_spec _ _ Rs). fold p. pose proof (zlen_nonneg (fifo_pending f)) as Hp.
  destruct (fill_loop_spec (Datatypes.S (Z.to_nat p)) s f (window_room s) I Hb Hsyn Hr)
    as (s1 & new & -> & I1 & S1 & Hsyn1 & Hpay & Hf1 & Hbif1); [unfold p in *; lia|].
  fold p m in I1, Hpay, Hf1, Hbif1 |- *. rewrite res_bind_Ok. cbv beta iota.
  pose proof (di_stream _ _ I1) as Rs1. rewrite (bs_eof_spec _ _ Rs1), fifo_pending_len by apply Rs1.
  pose proof (fifo_pending_len f (br_nreadb _ _ Rs)) as Hpl. fold p in Hpl.
  cbn [ff_hist ff_nread ff_ended fifo_adv].
  replace (zlen (ff_hist f) - (ff_nread f + m) =? 0) with (p =? m) by (do 2 ztest; lia).
  assert (Hrm : (1 <=? window_room s - m) = negb (window_room s - m =? 0)).
  { destruct (Z.leb_spec 1 (window_room s - m)), (Z.eqb_spec (window_room s - m) 0);
      done || (unfold m in *; lia). }
  destruct (negb (sd_fin s1) && _ && _) eqn:G.
  - apply andb_prop in G as [G G3]. apply andb_prop in G as [G1 G2]. apply negb_true_iff in G1.
    assert (Hfs : sd_fin s = false) by (rewrite Hf1 in G1; by apply orb_false_iff in G1 as [? _]).
    rewrite Hrm, Hfs, G2, G3. rewrite Hfs, G1 in Hbif1. simpl in Hbif1.
    apply andb_prop in G2 as [G2%Z.eqb_eq G4].
    destruct (send_fin_spec s1 _ I1 Hb Hsyn1 G1 G4) as (seg & I2 & S2 & Hp2 & Hs2 & Hf2 & Hb2);
      [simpl; lia|].
    eexists _, (new ++ [seg]). split; [done|]. split; [done|]. split; [by eapply sends_trans|].
    split; [done|]. rewrite payloads_app, Hpay, Hf2, Hb2, Hbif1. unfold payloads. simpl. rewrite Hp2.
    split; [apply app_nil_r|]. split; [done|lia].
  - exists s1, new. split; [done|]. split; [done|]. split; [done|]. split; [done|]. split; [done|].
    split; [|done]. rewrite Hrm. rewrite Hf1 in G |- *. destruct (sd_fin s); [done|]. simpl in G |- *.
    rewrite Hrm in G |- *. destruct (0 <? p), (p =? m), (ff_ended f), (window_room s - m =? 0); done.
Qed.

(** ** [ack_received] *)

(** The state after the loop popped [acked] off the queue and left [rest]. *)
Definition acked_state (s : TCPSender) (acked rest : list TCPSegment) : TCPSender :=
  let fresh := match acked with [] => false | _ => true end in
  mkTCPSender (sd_isn s) (sd_segments_out s) (sd_initial_retransmission_timeout s) (sd_stream s)
    (sd_next_seqno s) rest (flight rest) (sd_receiver_window_size s)
    (if fresh then 0 else sd_consecutive_retransmissions s)
    (if fresh then sd_initial_retransmission_timeout s else sd_rto s)
    (if fresh then 0 else sd_tick s) (sd_timer_running s) (sd_syn s) (sd_fin s).

(** [acked] is the longest prefix of the queue (starting at [start]) all of whose
    sequence numbers are below [a]. *)
Definition acked_prefix (start a : Z) (acked rest : list TCPSegment) : Prop :=
  (acked <> [] -> start + flight acked <= a) /\
  match rest with
  | [] => True
  | t :: _ => a < start + flight acked + length_in_sequence_space t
  end.

Lemma ack_loop_spec l : forall s H e start a,
  chain (sd_isn s) H e start l -> wi_ok (sd_isn s) -> 0 <= start ->
  start + flight l = sd_next_seqno s -> flight l <= W31 -> sd_next_seqno s < W64 - W32 ->
  sd_bytes_in_flight s = flight l ->
  exists acked rest, l = acked ++ rest /\ ack_loop l s a = acked_state s acked rest /\
    acked_prefix start a acked rest.
Proof.
  induction l as [|t l IH]; intros s H e start a Hch Hisn H0 Hnext Hfl Hb Hbif.
  { exists [], []. split; [done|]. split; [|done]. simpl in *. unfold acked_state, flight.
    destruct s. simpl in *. by subst. }
  cbn [chain flight fold_right] in *. fold (flight l) in *. destruct Hch as (Hseg & Hpos & Hch).
  pose proof (flight_nonneg l). cbn [ack_loop].
  rewrite (sg_seqno _ _ _ _ _ Hseg), unwrap_wrap by (done || lia). nowrap.
  destruct (Z.ltb_spec (start + length_in_sequence_space t - 1) a) as [Hlt|Hge].
  - edestruct (IH (sd_set_consecutive_retransmissions
      (sd_set_rto (sd_set_tick (sd_set_bytes_in_flight s
        (sd_bytes_in_flight s - length_in_sequence_space t)) 0)
        (sd_initial_retransmission_timeout s)) 0) H e _ a Hch) as (acked & rest & El & Eq & Hp1 & Hp2);
      try done; simpl; try lia.
    exists (t :: acked), rest. split; [by rewrite El|]. split.
    + cbn in Eq |- *. rewrite Eq. unfold acked_state. by destruct acked.
    + split; [|destruct rest; [done|]; cbn [flight fold_right]; fold (flight acked); lia].
      intros _. cbn [flight fold_right]. fold (flight acked).
      destruct acked; [simpl; lia|]. specialize (Hp1 ltac:(done)). lia.
  - exists [], (t :: l). split; [done|]. split.
    + unfold acked_state, sd_set_segments_outstanding. cbn [flight fold_right]. fold (flight l). by rewrite Hbif.
    + split; [done|]. simpl. lia.
Qed.

(** The window update before the queue is looked at. *)
Lemma inv_window s f w : sd_inv s f -> 0 <= w < W16 -> sd_inv (sd_set_receiver_window_size s w) f.
Proof. intros []. by split. Qed.

(** Popping an acknowledged prefix keeps the invariant. *)
Lemma inv_acked s f acked rest : sd_inv s f -> sd_bound f ->
  sd_segments_outstanding s = acked ++ rest -> sd_segments_outstanding s <> [] ->
  let s1 := acked_state s acked rest in
  sd_inv (if sd_bytes_in_flight s1 =? 0 then sd_set_timer_running s1 false else s1) f.
Proof.
  intros I Hb Eo Hne s1. destruct (next_bound s f I Hb) as (Hbif & _ & _).
  pose proof (di_flight _ _ I) as Hfl. pose proof (di_chain _ _ I) as Hch. rewrite Eo in Hfl, Hch.
  pose proof (di_timer _ _ I Hne) as Hrun. rewrite flight_app in Hfl. apply chain_app in Hch as [_ Hch].
  pose proof (flight_nonneg acked). pose proof (flight_nonneg rest).
  replace (sd_next_seqno s - sd_bytes_in_flight s + flight acked) with (sd_next_seqno s - flight rest)
    in Hch by lia.
  assert (Hrest : flight rest = 0 -> rest = []).
  { destruct rest as [|t r]; [done|]. simpl in *. pose proof (flight_nonneg r). lia. }
  rewrite Eo in Hne. destruct I. unfold s1. cbn [sd_bytes_in_flight acked_state].
  destruct (Z.eqb_spec (flight rest) 0) as [E|E].
  - apply Hrest in E as ->. rewrite app_nil_r in Hne. destruct acked as [|t acked]; [done|].
    split; simpl; try done; try lia. by intros (_ & ? & ?)%di_fresh0.
  - assert (rest <> []) by (by intros ->).
    split; simpl; try done; try lia.
    + intros Hs. destruct (di_fresh0 Hs) as (Hx & _). rewrite Eo in Hx. by apply app_eq_nil in Hx as [_ ?].
    + destruct acked; congruence.
    + intros _. destruct acked; [auto|]. rewrite Z.pow_0_r, Z.mul_1_r, u32_id; lia.
    + destruct acked; lia.
    + destruct acked; lia.
Qed.

(** The flow-control half of [fill_window_spec]: what is in flight stays within the
    window (counted as one when it is zero), and the call stops only when the window
    is full or nothing is left to send. *)
Lemma fill_window_flow s f s' f' : sd_inv s f -> sd_bound f -> sd_syn s = true ->
  TCPSender_fill_window s = Ok s' -> sd_inv s' f' ->
  sd_bytes_in_flight s <= Z.max (sd_receiver_window_size s) 1 ->
  sd_bytes_in_flight s' <= Z.max (sd_receiver_window_size s) 1 /\
  (sd_bytes_in_flight s' = Z.max (sd_receiver_window_size s) 1 \/
   fifo_pending f' = [] /\ (ff_ended f = true -> sd_fin s' = true)).
Proof.
  intros I Hb Hsyn E I' Hw. pose proof (window_room_fits s f I Hb Hw) as Hroom.
  destruct (fill_window_spec s f I Hb Hsyn) as (s1 & new & E1 & I1 & S1 & _ & _ & Hf & Hbif).
  rewrite E in E1. injection E1 as <-. rewrite Hroom in *.
  pose proof (zlen_nonneg (fifo_pending f)). set (p := zlen (fifo_pending f)) in *.
  set (W := Z.max _ 1) in *. set (b := sd_bytes_in_flight s) in *. set (m := Z.min (W - b) p) in *.
  pose proof (fifo_pending_len _ (br_nreadb _ _ (di_stream _ _ I))) as Hp. fold p in Hp.
  pose proof (di_fin _ _ I) as Hfin. 
  assert (Hp1 : zlen (fifo_pending f') = p - m).
  { rewrite <- (bs_buffer_size_spec _ _ (di_stream _ _ I')), (bs_buffer_size_spec _ _ (di_stream _ _ I1)).
    rewrite fifo_pending_len by apply (di_stream _ _ I1). simpl. lia. }
  assert (Hm : m = W - b \/ m = p) by (unfold m; lia). assert (0 <= m <= W - b) by (unfold m; lia).
  destruct (sd_fin s) eqn:Es.
  { rewrite Hf in *. simpl in *. specialize (Hfin eq_refl). split; [lia|]. right.
    split; [apply zlen_0_nil; lia|done]. }
  simpl in Hf. rewrite andb_true_r in Hbif. destruct (sd_fin s') eqn:Es'.
  - symmetry in Hf. apply andb_prop in Hf as [[Hpm%Z.eqb_eq _]%andb_prop Hr%Z.leb_le].
    split; [lia|]. right. split; [apply zlen_0_nil; lia|done].
  - split; [lia|]. destruct (Z.eq_dec m (W - b)); [left; lia|]. right.
    split; [apply zlen_0_nil; lia|]. intros He. rewrite He in Hf.
    destruct (Z.eqb_spec p m), (Z.leb_spec 1 (W - b - m)); simpl in Hf; done || lia.
Qed.

(** The guards of [ack_received], without wrap-around: an acknowledgment is acted on
    when it does not exceed [next_seqno] and the window it opens reaches past the
    oldest outstanding segment; otherwise at most the window is noted. *)
Definition ack_accepts (s : TCPSender) (a win : Z) : bool :=
  match sd_segments_outstanding s with
  | [] => false
  | t :: _ => (a <=? sd_next_seqno s) &&
      (sd_next_seqno s - sd_bytes_in_flight s + length_in_sequence_space t <? a + Z.max win 1)
  end.

Definition noted_window (s : TCPSender) (a win : Z) : Z :=
  if a =? sd_next_seqno s then win else sd_receiver_window_size s.

Lemma set_same_window s : sd_set_receiver_window_size s (sd_receiver_window_size s) = s.
Proof. by destruct s. Qed.

Section Acks.
Context (s : TCPSender) (f : fifo) (ackno : WrappingInt32) (win : Z).
Context (I : sd_inv s f) (Hb : sd_bound f) (Hfl : sd_bytes_in_flight s <= W31).
Context (Hack : wi_ok ackno) (Hwin : 0 <= win < W16).
Let a := unwrap ackno (sd_isn s) (sd_next_seqno s).
Let una := sd_next_seqno s - sd_bytes_in_flight s.

Lemma ackno_range : 0 <= a < W64.
Proof.
  unfold sd_bound in Hb. destruct (next_bound s f I Hb) as (? & ? & _).
  destruct (unwrap_cases ackno (sd_isn s) (sd_next_seqno s) Hack ltac:(lia)) as (k & ? & E & Hc).
  pose proof (u32_range (raw_value ackno - raw_value (sd_isn s))). fold a in E, Hc. lia.
Qed.

Lemma ack_received_eq :
  TCPSender_ack_received s ackno win =
  if ack_accepts s a win then
    let s1 := ack_loop (sd_segments_outstanding s) (sd_set_receiver_window_size s win) a in
    TCPSender_fill_window (if sd_bytes_in_flight s1 =? 0 then sd_set_timer_running s1 false else s1)
  else Ok (sd_set_receiver_window_size s (noted_window s a win)).
Proof.
  pose proof ackno_range as Ha. unfold TCPSender_ack_received. fold a.
  assert (Hs0 : (if (a =? sd_next_seqno s) && negb (win =? sd_receiver_window_size s)
           then sd_set_receiver_window_size s win else s)
           = sd_set_receiver_window_size s (noted_window s a win)).
  { unfold noted_window. destruct (a =? sd_next_seqno s); simpl; [|by rewrite set_same_window].
    destruct (Z.eqb_spec win (sd_receiver_window_size s)) as [->|]; simpl; [by rewrite set_same_window|done]. }
  rewrite Hs0. clear Hs0. unfold ack_accepts. cbn [sd_segments_outstanding sd_set_receiver_window_size].
  destruct (sd_segments_outstanding s) as [|t l] eqn:Eo; [done|].
  pose proof (di_chain _ _ I) as Hch. pose proof (di_flight _ _ I) as Hf. rewrite Eo in Hch, Hf.
  destruct Hch as (Hseg & Hpos & _). cbn [flight fold_right] in Hf. fold (flight l) in Hf.
  pose proof (flight_nonneg l). unfold sd_bound in Hb.
  set (sn := sd_set_receiver_window_size s (noted_window s a win)).
  change (sd_isn sn) with (sd_isn s). change (sd_next_seqno sn) with (sd_next_seqno s).
  change (sd_set_receiver_window_size sn win) with (sd_set_receiver_window_size s win).
  destruct (next_bound s f I Hb) as (? & ? & _).
  rewrite (sg_seqno _ _ _ _ _ Hseg), unwrap_wrap by (exact (di_isn _ _ I) || lia). fold una.
  rewrite (u64_id (una + _)) by (unfold una; lia).
  destruct (Z.ltb_spec (sd_next_seqno s) a), (Z.leb_spec a (sd_next_seqno s)); try lia; [done|].
  rewrite u64_id by (destruct (Z.eqb_spec win 0); lia). cbn [orb andb].
  destruct (Z.ltb_spec (a + win - 1 + (if win =? 0 then 1 else 0)) (una + length_in_sequence_space t)),
    (Z.ltb_spec (una + length_in_sequence_space t) (a + Z.max win 1)); try done;
    destruct (Z.eqb_spec win 0); lia.
Qed.

(** An ignored acknowledgment acknowledges no segment. *)
Lemma ack_ignored : ack_accepts s a win = false -> a <= sd_next_seqno s ->
  acked_prefix una a [] (sd_segments_outstanding s).
Proof.
  unfold ack_accepts. intros G Ha. split; [done|].
  destruct (sd_segments_outstanding s) as [|t l]; [done|]. fold una in G.
  destruct (Z.leb_spec a (sd_next_seqno s)); [|lia]. simpl in G. apply Z.ltb_ge in G. simpl. lia.
Qed.

(** An accepted one pops the acknowledged prefix, then fills the window. *)
Lemma ack_accepted : ack_accepts s a win = true ->
  exists s2 s' m acked rest new,
    TCPSender_ack_received s ackno win = Ok s' /\ sd_inv s' (fifo_adv f m) /\
    sd_inv s2 f /\ sd_syn s2 = true /\ TCPSender_fill_window s2 = Ok s' /\
    sends s2 s' new /\ sd_syn s' = true /\
    sd_isn s2 = sd_isn s /\ sd_receiver_window_size s2 = win /\ sd_segments_out s2 = sd_segments_out s /\
    sd_segments_outstanding s = acked ++ rest /\ sd_segments_outstanding s2 = rest /\
    acked_prefix una a acked rest /\ sd_fin s2 = sd_fin s /\
    sd_consecutive_retransmissions s2 =
      match acked with [] => sd_consecutive_retransmissions s | _ => 0 end.
Proof.
  intros G. rewrite ack_received_eq, G. cbv zeta.
  assert (Hne : sd_segments_outstanding s <> []) by (intros E; unfold ack_accepts in G; by rewrite E in G).
  assert (Hsyn : sd_syn s = true).
  { destruct (sd_syn s) eqn:E; [done|]. by destruct (di_fresh _ _ I E). }
  destruct (next_bound s f I Hb) as (? & ? & _). pose proof (inv_window s f win I Hwin) as Iw.
  set (sw := sd_set_receiver_window_size s win) in *. unfold sd_bound in Hb.
  destruct (ack_loop_spec (sd_segments_outstanding s) sw (ff_hist f) (ff_ended f) una a)
    as (acked & rest & El & -> & Hpre);
    [apply (di_chain _ _ I)|apply (di_isn _ _ I)|simpl; rewrite <- ?(di_flight _ _ I); unfold una; lia..|].
  pose proof (inv_acked sw f acked rest Iw Hb El Hne) as I2. cbv zeta in I2.
  set (s2 := if _ =? 0 then _ else _) in *.
  assert (Hsyn2 : sd_syn s2 = true) by (unfold s2; case_match; done).
  destruct (fill_window_spec s2 f I2 Hb Hsyn2) as (s' & new & E & I' & S' & Hs' & _).
  eexists s2, s', _, acked, rest, new. repeat (split; [first [done|unfold s2; by case_match]|]).
  unfold s2. cbn. case_match; by destruct acked.
Qed.
End Acks.

(** ** The other operations *)

Lemma inv_tick s f ms : sd_inv s f -> sd_consecutive_retransmissions s < 65535 ->
  sd_inv (TCPSender_tick s ms) f.
Proof.
  intros I Hc. unfold TCPSender_tick. cbn [sd_set_tick sd_segments_outstanding].
  destruct (sd_segments_outstanding s) as [|t l] eqn:Eo.
  { destruct I. split; simpl; rewrite ?Eo in *; try done. apply u64_range. }
  cbn [sd_rto sd_tick]. case_match.
  2:{ destruct I. split; simpl; rewrite ?Eo in *; try done. apply u64_range. }
  pose proof (di_chain _ _ I) as Hch. rewrite Eo in Hch. destruct Hch as (Hseg & _).
  assert (Hrun : sd_timer_running s = true) by (apply I; by rewrite Eo).
  pose proof (di_rto _ _ I Hrun) as Hrto. pose proof (di_consec _ _ I).
  assert (Hout : Forall (sent_ok (sd_isn s) (ff_hist f) (ff_ended f)) (sd_segments_out s ++ [t])).
  { apply Forall_app. split; [apply I|]. constructor; [|done]. left. by eexists. }
  destruct I. cbn [sd_receiver_window_size sd_set_segments_out].
  destruct (negb _ || _); split; simpl; rewrite ?Eo in *; try done; nowrap; try lia.
  - intros ?. congruence.
  - intros _. rewrite Hrto, Z.shiftl_mul_pow2 by lia. unfold u32.
    rewrite Zmult_mod_idemp_l. f_equal. rewrite Z.pow_add_r by lia. lia.
Qed.

Lemma inv_empty_segment s f : sd_inv s f -> sd_bound f -> sd_inv (TCPSender_send_empty_segment s) f.
Proof.
  intros I Hb. destruct (next_bound s f I Hb) as (? & ? & _).
  unfold TCPSender_send_empty_segment. destruct I. split; simpl; try done.
  apply Forall_app. split; [done|]. constructor; [|done]. right. exists (sd_next_seqno s).
  split; [lia|]. done.
Qed.

Lemma inv_pop s f popped rest : sd_inv s f -> sd_segments_out s = popped ++ rest ->
  sd_inv (sd_set_segments_out s rest) f /\
  Forall (sent_ok (sd_isn s) (ff_hist f) (ff_ended f)) popped.
Proof.
  intros I E. pose proof (di_out _ _ I) as Ho. rewrite E in Ho. apply Forall_app in Ho as [? ?].
  split; [|done]. destruct I. by split.
Qed.

Lemma inv_stream s f stream' f' : sd_inv s f -> bs_repr stream' f' ->
  ff_nread f' = ff_nread f -> zlen (ff_hist f) <= zlen (ff_hist f') ->
  (forall a t, seg_ok (sd_isn s) (ff_hist f) (ff_ended f) a t ->
               seg_ok (sd_isn s) (ff_hist f') (ff_ended f') a t) ->
  (ff_ended f = true -> ff_ended f' = true /\ zlen (ff_hist f') = zlen (ff_hist f)) ->
  sd_inv (sd_set_stream s stream') f'.
Proof.
  intros I Rs Hn Hl Hseg He. destruct I. split; simpl; rewrite ?Hn; try done.
  - intros [E ?]%di_fin0. destruct (He E). split; [done|lia].
  - eapply chain_impl; [|done]. done.
  - eapply Forall_impl; [done|]. intros t. apply sent_ok_impl; [|done].
    intros a. apply Hseg.
Qed.

Lemma inv_write s f data : sd_inv s f -> ff_ended f = false ->
  zlen (ff_hist f) + zlen (fifo_accepts f data) < W64 ->
  sd_inv (snd (TCPSender_write s data)) (fifo_write f data) /\
  fst (TCPSender_write s data) = zlen (fifo_accepts f data).
Proof.
  intros I He Hfit. destruct (bs_write_spec _ _ (di_stream _ _ I) data Hfit) as [En Rs].
  unfold TCPSender_write. destruct (ByteStream_write _ _) as [n st]. simpl in *. split; [|done].
  apply (inv_stream s f); try done.
  - simpl. rewrite zlen_app. zlia.
  - intros a t. simpl. by apply seg_ok_grow.
  - by rewrite He.
Qed.

Lemma inv_end_input s f : sd_inv s f ->
  sd_inv (TCPSender_end_input s) (mkFifo (ff_hist f) (ff_nread f) (ff_cap f) true (ff_err f)).
Proof.
  intros I. apply (inv_stream s f); try done; [apply bs_end_input_repr, (di_stream _ _ I)|].
  intros a t. apply seg_ok_end.
Qed.

Lemma inv_set_error s f : sd_inv s f ->
  sd_inv (TCPSender_set_error s) (mkFifo (ff_hist f) (ff_nread f) (ff_cap f) (ff_ended f) true).
Proof. intros I. apply (inv_stream s f); try done. apply bs_set_error_repr, (di_stream _ _ I). Qed.

(** ** Runs of the sender

    The owner may call every operation in any order with any arguments the types
    allow; the peer's acknowledgments are arbitrary. The guards are the limits of
    the arithmetic: writes stop at [end_input] (the class would accept more, see
    [write_after_end_input_accepted]) and before 2^64 - 2^32 bytes, at most 2^31
    sequence numbers are in flight when an acknowledgment arrives, and the 16-bit
    retransmission counter has not run out. The second component is what the owner
    wrote. *)
Inductive sd_step : TCPSender * bytes -> TCPSender * bytes -> Prop :=
| sd_step_write s w data n s' :
    ByteStream_input_ended (sd_stream s) = false -> zlen w + zlen data + 2 < W64 - W32 ->
    TCPSender_write s data = (n, s') -> sd_step (s, w) (s', w ++ ztake n data)
| sd_step_end s w : sd_step (s, w) (TCPSender_end_input s, w)
| sd_step_error s w : sd_step (s, w) (TCPSender_set_error s, w)
| sd_step_fill s w s' : TCPSender_fill_window s = Ok s' -> sd_step (s, w) (s', w)
| sd_step_ack s w ackno win s' :
    wi_ok ackno -> 0 <= win < W16 -> sd_bytes_in_flight s <= W31 ->
    TCPSender_ack_received s ackno win = Ok s' -> sd_step (s, w) (s', w)
| sd_step_tick s w ms :
    0 <= ms < W64 -> sd_consecutive_retransmissions s < 65535 -> sd_step (s, w) (TCPSender_tick s ms, w)
| sd_step_empty s w : sd_step (s, w) (TCPSender_send_empty_segment s, w)
| sd_step_pop s w popped rest :
    sd_segments_out s = popped ++ rest -> sd_step (s, w) (sd_set_segments_out s rest, w).

Definition sd_good (x : TCPSender * bytes) : Prop :=
  exists f, sd_inv (fst x) f /\ ff_hist f = snd x /\ sd_bound f.

Lemma fill_window_inv s f : sd_inv s f -> sd_bound f ->
  exists s' m new, TCPSender_fill_window s = Ok s' /\ sd_inv s' (fifo_adv f m) /\ sends s s' new.
Proof.
  intros I Hb. destruct (sd_syn s) eqn:Hsyn.
  - destruct (fill_window_spec s f I Hb Hsyn) as (s' & new & ? & ? & ? & _). by eexists s', _, new.
  - destruct (fill_window_syn s f I Hsyn) as (s' & seg & ? & ? & ? & _). exists s', 0, [seg].
    by rewrite fifo_adv_0.
Qed.

Lemma ack_received_inv s f ackno win : sd_inv s f -> sd_bound f -> sd_bytes_in_flight s <= W31 ->
  wi_ok ackno -> 0 <= win < W16 ->
  exists s' m, TCPSender_ack_received s ackno win = Ok s' /\ sd_inv s' (fifo_adv f m) /\
    sd_isn s' = sd_isn s /\ sd_consecutive_retransmissions s' <= sd_consecutive_retransmissions s.
Proof.
  intros I Hb Hfl Ha Hw.
  destruct (ack_accepts s (unwrap ackno (sd_isn s) (sd_next_seqno s)) win) eqn:G.
  - destruct (ack_accepted s f ackno win I Hb Hfl Ha Hw G) as
      (s2 & s' & m & acked & _ & new & ? & ? & _ & _ & _ & S' & _ & Hi & _ & _ & _ & _ & _ & _ & Hc).
    exists s', m. rewrite (sn_isn _ _ _ S'), (sn_consec _ _ _ S'), Hc. split; [done|]. split; [done|].
    split; [done|]. pose proof (di_consec _ _ I). destruct acked; lia.
  - rewrite (ack_received_eq s f ackno win I Hb Hfl Ha Hw), G. eexists _, 0. split; [done|].
    rewrite fifo_adv_0. split; [|by split]. apply inv_window; [done|].
    unfold noted_window. case_match; [done|apply I].
Qed.

Lemma sd_step_good x y : sd_good x -> sd_step x y -> sd_good y.
Proof.
  intros (f & I & Hh & Hb) Hstep. destruct Hstep as [s w data n s' He Hfit E|s w|s w|s w s' E|
    s w ackno win s' Ha Hw Hfl E|s w ms Hms Hc|s w|s w popped rest E]; cbn [fst snd] in *; subst w.
  - pose proof (br_ended _ _ (di_stream _ _ I)) as Hee. unfold ByteStream_input_ended in He.
    assert (Hacc : zlen (fifo_accepts f data) <= zlen data).
    { unfold fifo_accepts. rewrite zlen_ztake_min; [lia|]. unfold fifo_room.
      pose proof (br_room _ _ (di_stream _ _ I)). lia. }
    destruct (inv_write s f data I ltac:(congruence) ltac:(lia)) as [I' En]. rewrite E in *. simpl in *.
    exists (fifo_write f data). split; [done|]. simpl. subst n. split.
    + f_equal. unfold fifo_accepts in *. destruct (Z.le_ge_cases (fifo_room f) (zlen data)).
      * rewrite zlen_ztake; [done|]. unfold fifo_room in *. pose proof (br_room _ _ (di_stream _ _ I)). lia.
      * by rewrite !ztake_all by (rewrite ?ztake_all; lia).
    + unfold sd_bound in *. simpl. rewrite zlen_app. lia.
  - eexists. split; [by apply inv_end_input|]. done.
  - eexists. split; [by apply inv_set_error|]. done.
  - destruct (fill_window_inv s f I Hb) as (s1 & m & new & E1 & I1 & _). rewrite E in E1. injection E1 as <-. by eexists.
  - destruct (ack_received_inv s f ackno win I Hb Hfl Ha Hw) as (s1 & m & E1 & I1 & _).
    rewrite E in E1. injection E1 as <-. by eexists.
  - exists f. split; [by apply inv_tick|done].
  - exists f. split; [by apply inv_empty_segment|done].
  - exists f. split; [by eapply inv_pop|done].
Qed.

Section Runs.
Context (cap rt : Z) (fixed : option WrappingInt32) (random : Z).
Context (Hcap : 0 <= cap < W64) (Hrt : 0 <= rt < W16) (Hfixed : forall w, fixed = Some w -> wi_ok w).

Lemma sd_reach_good x : reach sd_step (TCPSender_new cap rt fixed random, []) x -> sd_good x.
Proof.
  apply reach_invariant; [by intros ? ?; apply sd_step_good|].
  exists (mkFifo [] 0 cap false false). split; [by apply sd_inv_new|]. done.
Qed.
End Runs.

(** ** The sender's theorems *)

(** C13: the sender's bookkeeping in every run of writes, [end_input], [set_error],
    [fill_window], [ack_received], [tick] and [send_empty_segment] in any order, whose
    owner writes nothing after [end_input] (the code then sends a second FIN:
    [write_after_end_sends_second_fin]) and less than [2^64 - 2^32 - 2] bytes, with at
    most [2^31] sequence numbers in flight at each acknowledgment and less than 65535
    retransmissions in a row: the unacknowledged queue tiles the sequence space from
    [next_seqno - bytes_in_flight] to [next_seqno] without gaps; every segment of it
    and of [segments_out] carries exactly the bytes the owner wrote at its place, at
    most [MAX_PAYLOAD_SIZE] of them, with FIN only after the last one; [next_seqno]
    counts what was read from the stream; and neither [fill_window] nor
    [ack_received] throws or diverges. *)
Theorem sender_tracks_stream cap rt fixed random s w :
  0 <= cap < W64 -> 0 <= rt < W16 -> (forall i, fixed = Some i -> wi_ok i) ->
  reach sd_step (TCPSender_new cap rt fixed random, []) (s, w) ->
  let ended := ByteStream_input_ended (sd_stream s) in
  sd_bytes_in_flight s = flight (sd_segments_outstanding s) /\
  chain (sd_isn s) w ended (sd_next_seqno s - sd_bytes_in_flight s) (sd_segments_outstanding s) /\
  Forall (sent_ok (sd_isn s) w ended) (sd_segments_out s) /\
  sd_next_seqno s = (if sd_syn s then 1 + ByteStream_bytes_read (sd_stream s) + (if sd_fin s then 1 else 0) else 0) /\
  (sd_fin s = true -> ended = true /\ ByteStream_bytes_read (sd_stream s) = zlen w) /\
  (exists s', TCPSender_fill_window s = Ok s') /\
  (forall ackno win, wi_ok ackno -> 0 <= win < W16 -> sd_bytes_in_flight s <= W31 ->
     exists s', TCPSender_ack_received s ackno win = Ok s').
Proof.
  intros Hc Hr Hf Hreach. destruct (sd_reach_good cap rt fixed random Hc Hr Hf _ Hreach) as (f & I & Hh & Hb).
  simpl in *. subst w. pose proof (di_stream _ _ I) as Rs.
  unfold ByteStream_input_ended, ByteStream_bytes_read. rewrite (br_ended _ _ Rs), (br_nread _ _ Rs).
  split; [apply I|]. split; [apply (di_chain _ _ I)|]. split; [apply (di_out _ _ I)|].
  split; [apply (di_next _ _ I)|]. split; [apply (di_fin _ _ I)|]. split.
  - destruct (fill_window_inv s f I Hb) as (s' & _ & _ & ? & _). by exists s'.
  - intros ackno win Ha Hw Hfl. destruct (ack_received_inv s f ackno win I Hb Hfl Ha Hw) as (s' & _ & ? & _).
    by exists s'.
Qed.

(** A sender that sent its SYN, got it acknowledged with a window of 3, and holds
    four bytes. *)
Definition demo_isn : WrappingInt32 := to_WrappingInt32 4294967294.

Definition demo_sender (data : list Z) (win : Z) : TCPSender :=
  let s0 := TCPSender_new 4000 1000 (Some demo_isn) 0 in
  match TCPSender_fill_window s0 with
  | Ok s1 =>
      match TCPSender_ack_received s1 (wi_add demo_isn 1) win with
      | Ok s2 => snd (TCPSender_write s2 (text data))
      | _ => s0
      end
  | _ => s0
  end.

Lemma demo_sender_reaches :
  reach sd_step (TCPSender_new 4000 1000 (Some demo_isn) 0, []) (demo_sender [65; 66; 67; 68] 3, text [65; 66; 67; 68]).
Proof.
  change (text [65; 66; 67; 68]) with ([] ++ ztake 4 (text [65; 66; 67; 68])).
  eapply reach_step; [eapply reach_step; [eapply reach_step; [apply reach_refl|]|]|].
  - eapply sd_step_fill. vm_compute. reflexivity.
  - eapply (sd_step_ack _ _ (wi_add demo_isn 1) 3); [apply wi_add_ok|lia|vm_compute; congruence|].
    vm_compute. reflexivity.
  - eapply (sd_step_write _ [] (text [65; 66; 67; 68]) 4); [reflexivity|reflexivity|].
    vm_compute. reflexivity.
Qed.

Lemma demo_isn_ok i : Some demo_isn = Some i -> wi_ok i.
Proof. intros [= <-]. apply to_WrappingInt32_ok. Qed.

(** The same sender with its input ended, after it has filled the window: three
    bytes are in flight, the last one and the FIN are still to be sent. *)
Definition demo_filled : TCPSender :=
  match TCPSender_fill_window (TCPSender_end_input (demo_sender [65; 66; 67; 68] 3)) with
  | Ok s => s
  | _ => demo_sender [65; 66; 67; 68] 3
  end.

Lemma demo_filled_reaches :
  reach sd_step (TCPSender_new 4000 1000 (Some demo_isn) 0, []) (demo_filled, text [65; 66; 67; 68]).
Proof.
  eapply reach_step; [eapply reach_step; [exact demo_sender_reaches|apply sd_step_end]|].
  apply sd_step_fill. vm_compute. reflexivity.
Qed.

Lemma sender_tracks_stream_witness :
  sd_bytes_in_flight demo_filled = 3 /\ sd_next_seqno demo_filled = 4 /\
  chain demo_isn (text [65; 66; 67; 68]) true 1 (sd_segments_outstanding demo_filled) /\
  exists s', TCPSender_fill_window demo_filled = Ok s'.
Proof.
  destruct (sender_tracks_stream 4000 1000 (Some demo_isn) 0 demo_filled
    (text [65; 66; 67; 68])) as (_ & Hc & _ & _ & _ & H & _);
    [lia|lia|apply demo_isn_ok|apply demo_filled_reaches|].
  split; [vm_compute; reflexivity|]. split; [vm_compute; reflexivity|]. split; [exact Hc|exact H].
Defined.

(** C14: flow control: [fill_window] keeps the sequence numbers in flight within the
    peer's window - counted as one byte when it is zero - if they were within it
    before; it uses the window fully: it stops only when the window is full or every
    byte, and the FIN if the stream has ended, is sent; and what it sends is the
    next stretch of the stream, both to the wire and to the unacknowledged queue. *)
Theorem fill_window_fills_the_window cap rt fixed random s w :
  0 <= cap < W64 -> 0 <= rt < W16 -> (forall i, fixed = Some i -> wi_ok i) ->
  reach sd_step (TCPSender_new cap rt fixed random, []) (s, w) -> sd_syn s = true ->
  sd_bytes_in_flight s <= Z.max (sd_receiver_window_size s) 1 ->
  exists s' new, TCPSender_fill_window s = Ok s' /\
    sd_bytes_in_flight s' <= Z.max (sd_receiver_window_size s') 1 /\
    (sd_bytes_in_flight s' = Z.max (sd_receiver_window_size s') 1 \/
     ByteStream_buffer_size (sd_stream s') = 0 /\
       (ByteStream_input_ended (sd_stream s') = true -> sd_fin s' = true)) /\
    sd_segments_out s' = sd_segments_out s ++ new /\
    sd_segments_outstanding s' = sd_segments_outstanding s ++ new /\
    payloads new = slice w (ByteStream_bytes_read (sd_stream s))
                     (ByteStream_bytes_read (sd_stream s') - ByteStream_bytes_read (sd_stream s)).
Proof.
  intros Hc Hr Hf Hreach Hsyn Hw.
  destruct (sd_reach_good cap rt fixed random Hc Hr Hf _ Hreach) as (f & I & Hh & Hb).
  simpl in *. subst w.
  destruct (fill_window_spec s f I Hb Hsyn) as (s' & new & E & I' & S' & _ & Hpay & _).
  destruct (fill_window_flow s f s' _ I Hb Hsyn E I' Hw) as [H1 H2].
  exists s', new. pose proof (di_stream _ _ I) as Rs. pose proof (di_stream _ _ I') as Rs'.
  rewrite (sn_win _ _ _ S'). unfold ByteStream_bytes_read, ByteStream_input_ended.
  rewrite (bs_buffer_size_spec _ _ Rs'), (br_nread _ _ Rs), (br_nread _ _ Rs'), (br_ended _ _ Rs').
  split; [done|]. split; [done|]. split; [|split; [apply S'|split; [apply S'|]]].
  - destruct H2 as [?|[-> ?]]; [by left|by right].
  - rewrite Hpay. f_equal. simpl. lia.
Qed.

Lemma fill_window_fills_the_window_witness :
  exists s' new, TCPSender_fill_window (demo_sender [65; 66; 67; 68] 3) = Ok s' /\
    sd_bytes_in_flight s' <= Z.max (sd_receiver_window_size s') 1 /\
    sd_segments_out s' = sd_segments_out (demo_sender [65; 66; 67; 68] 3) ++ new.
Proof.
  destruct (fill_window_fills_the_window 4000 1000 (Some demo_isn) 0
    (demo_sender [65; 66; 67; 68] 3) (text [65; 66; 67; 68])) as (s' & new & E & H & _ & Ho & _);
    [lia|lia|apply demo_isn_ok|apply demo_sender_reaches|reflexivity|vm_compute; congruence|].
  exists s', new. split; [exact E|]. split; [exact H|exact Ho].
Defined.

(** C15: acknowledgments: in every run, an acknowledgment of [a] beyond [next_seqno] is
    ignored; any other one pops from the queue exactly the segments all of whose
    sequence numbers are below [a], and resends nothing: only new segments are
    appended to the queue and to the wire. An acknowledgment of a whole segment
    resets the retransmission count and installs the new window; if what remains in
    flight fits the new window it still does after the call; and the timer runs
    afterwards exactly when something is outstanding. *)
Theorem ack_received_correct cap rt fixed random s w ackno win :
  0 <= cap < W64 -> 0 <= rt < W16 -> (forall i, fixed = Some i -> wi_ok i) ->
  reach sd_step (TCPSender_new cap rt fixed random, []) (s, w) ->
  wi_ok ackno -> 0 <= win < W16 -> sd_bytes_in_flight s <= W31 ->
  let a := unwrap ackno (sd_isn s) (sd_next_seqno s) in
  exists s' acked rest new, TCPSender_ack_received s ackno win = Ok s' /\
    sd_segments_outstanding s = acked ++ rest /\ sd_segments_outstanding s' = rest ++ new /\
    sd_segments_out s' = sd_segments_out s ++ new /\
    (if sd_next_seqno s <? a then s' = s /\ acked = []
     else acked_prefix (sd_next_seqno s - sd_bytes_in_flight s) a acked rest) /\
    (acked <> [] -> sd_consecutive_retransmissions s' = 0 /\ sd_receiver_window_size s' = win) /\
    (new <> [] -> sd_receiver_window_size s' = win /\
       (flight rest <= Z.max win 1 -> sd_bytes_in_flight s' <= Z.max win 1)) /\
    (sd_timer_running s' = true <-> sd_segments_outstanding s' <> []).
Proof.
  intros Hc Hr Hf Hreach Ha Hw Hfl a.
  destruct (sd_reach_good cap rt fixed random Hc Hr Hf _ Hreach) as (f & I & Hh & Hb). simpl in I.
  assert (Htimer : forall s' f', sd_inv s' f' ->
    (sd_timer_running s' = true <-> sd_segments_outstanding s' <> [])).
  { intros s' f' I'. split; [|apply (di_timer _ _ I')].
    intros E1 E2. pose proof (di_stopped _ _ I' E2). congruence. }
  destruct (ack_accepts s a win) eqn:G.
  - destruct (ack_accepted s f ackno win I Hb Hfl Ha Hw G) as
      (s2 & s' & m & acked & rest & new & E & I' & I2 & Hs2 & E2 & S' & _ & _ & Hw2 & Ho & El & Er & Hp & _ & Hcr).
    exists s', acked, rest, new. split; [done|]. split; [done|].
    split; [rewrite (sn_outstanding _ _ _ S'); congruence|]. split; [rewrite (sn_out _ _ _ S'); congruence|].
    split; [|split; [|split; [|by apply (Htimer _ _ I')]]].
    + destruct (Z.ltb_spec (sd_next_seqno s) a); [|done]. unfold ack_accepts in G.
      destruct (sd_segments_outstanding s); [done|]. apply andb_prop in G as [?%Z.leb_le _]. lia.
    + intros Hne. rewrite (sn_consec _ _ _ S'), (sn_win _ _ _ S'), Hcr. by destruct acked.
    + intros _. rewrite (sn_win _ _ _ S'). split; [done|]. intros Hfit. rewrite <- Hw2.
      apply (fill_window_flow s2 f s' _ I2 Hb Hs2 E2 I'). rewrite (di_flight _ _ I2), Er, Hw2. done.
  - exists (sd_set_receiver_window_size s (noted_window s a win)), [], (sd_segments_outstanding s), [].
    rewrite (ack_received_eq s f ackno win I Hb Hfl Ha Hw), !app_nil_r. fold a. rewrite G.
    split; [done|]. split; [done|]. split; [done|]. split; [done|].
    split; [|split; [done|split; [done|by apply (Htimer s f)]]].
    destruct (Z.ltb_spec (sd_next_seqno s) a); [|by apply (ack_ignored s ackno win)].
    split; [|done]. unfold noted_window. destruct (Z.eqb_spec a (sd_next_seqno s)); [lia|].
    apply set_same_window.
Qed.

Lemma ack_received_correct_witness :
  exists s' acked rest new,
    TCPSender_ack_received (demo_sender [65; 66; 67; 68] 3) (wi_add demo_isn 1) 9 = Ok s' /\
    sd_segments_outstanding (demo_sender [65; 66; 67; 68] 3) = acked ++ rest /\
    sd_segments_outstanding s' = rest ++ new.
Proof.
  destruct (ack_received_correct 4000 1000 (Some demo_isn) 0 (demo_sender [65; 66; 67; 68] 3)
    (text [65; 66; 67; 68]) (wi_add demo_isn 1) 9) as (s' & acked & rest & new & E & H1 & H2 & _);
    [lia|lia|apply demo_isn_ok|apply demo_sender_reaches|apply wi_add_ok|lia|vm_compute; congruence|].
  exists s', acked, rest, new. split; [exact E|]. split; [exact H1|exact H2].
Defined.

(** C16: retransmission, in every run as in [sd_step] and for fewer than 15
    retransmissions in a row (the connection gives up after
    [TCPConfig::MAX_RETX_ATTEMPTS] = 8; from the 16th on the 32-bit timeout could
    wrap): [tick] does nothing but count time until the timeout; then, if something
    is outstanding, it resends exactly the oldest segment and restarts the clock; it
    counts a consecutive retransmission - the timeout being the initial one doubled
    once for each - unless the window is zero and the segment is not the SYN. *)
Theorem tick_retransmits_oldest cap rt fixed random s w ms :
  0 <= cap < W64 -> 0 <= rt < W16 -> (forall i, fixed = Some i -> wi_ok i) ->
  reach sd_step (TCPSender_new cap rt fixed random, []) (s, w) ->
  0 <= ms -> sd_tick s + ms < W64 -> sd_consecutive_retransmissions s < 15 ->
  let s' := TCPSender_tick s ms in
  sd_segments_outstanding s' = sd_segments_outstanding s /\
  sd_bytes_in_flight s' = sd_bytes_in_flight s /\ sd_next_seqno s' = sd_next_seqno s /\
  match sd_segments_outstanding s with
  | [] => sd_segments_out s' = sd_segments_out s
  | oldest :: _ =>
      let rto := sd_initial_retransmission_timeout s * 2 ^ sd_consecutive_retransmissions s in
      if sd_tick s + ms <? rto then
        sd_segments_out s' = sd_segments_out s /\ sd_tick s' = sd_tick s + ms /\
        sd_consecutive_retransmissions s' = sd_consecutive_retransmissions s
      else
        sd_segments_out s' = sd_segments_out s ++ [oldest] /\ sd_tick s' = 0 /\
        sd_consecutive_retransmissions s' = sd_consecutive_retransmissions s +
          (if (sd_receiver_window_size s =? 0) && negb (th_syn (ts_header oldest)) then 0 else 1)
  end /\
  (sd_segments_outstanding s <> [] ->
   sd_rto s' = sd_initial_retransmission_timeout s * 2 ^ sd_consecutive_retransmissions s').
Proof.
  intros Hc Hr Hf Hreach Hms Ht Hcr s'.
  destruct (sd_reach_good cap rt fixed random Hc Hr Hf _ Hreach) as (f & I & _ & _). simpl in I.
  pose proof (di_init _ _ I) as Hinit. pose proof (di_consec _ _ I) as Hc0. pose proof (di_tick _ _ I) as Ht0.
  assert (Hpow : forall c, 0 <= c <= 15 -> u32 (sd_initial_retransmission_timeout s * 2 ^ c)
    = sd_initial_retransmission_timeout s * 2 ^ c).
  { intros c Hcc. pose proof (Z.pow_le_mono_r 2 c 15 ltac:(lia) ltac:(lia)) as Hp.
    change (2 ^ 15) with 32768 in Hp. pose proof (Z.pow_nonneg 2 c ltac:(lia)). apply u32_id. nia. }
  pose proof (inv_tick s f ms I ltac:(lia)) as I'. fold s' in I'.
  assert (Hrto : sd_segments_outstanding s' <> [] -> sd_rto s' =
    u32 (sd_initial_retransmission_timeout s' * 2 ^ sd_consecutive_retransmissions s')).
  { intros Hne. apply (di_rto _ _ I'), (di_timer _ _ I'), Hne. }
  pose proof (di_rto _ _ I) as Hrto0. pose proof (di_timer _ _ I) as Htm.
  unfold s', TCPSender_tick in *. clear s' I'. cbn [sd_set_tick sd_segments_outstanding] in *.
  destruct (sd_segments_outstanding s) as [|t l] eqn:Eo; [simpl; rewrite ?Eo; done|].
  specialize (Hrto0 (Htm ltac:(done))). rewrite Hpow in Hrto0 by lia.
  cbn [sd_rto sd_tick sd_set_tick] in *. rewrite u64_id in Hrto |- * by lia. rewrite Hrto0 in Hrto |- *.
  destruct (Z.ltb_spec (sd_tick s + ms) (sd_initial_retransmission_timeout s * 2 ^ sd_consecutive_retransmissions s)),
    (Z.leb_spec (sd_initial_retransmission_timeout s * 2 ^ sd_consecutive_retransmissions s) (sd_tick s + ms));
    try lia; [simpl; rewrite Eo; done|].
  cbn [sd_set_segments_out sd_set_tick sd_receiver_window_size sd_segments_out] in *. 
  replace ((sd_receiver_window_size s =? 0) && negb (th_syn (ts_header t)))
    with (negb (negb (sd_receiver_window_size s =? 0) || th_syn (ts_header t)))
    by (by destruct (sd_receiver_window_size s =? 0), (th_syn (ts_header t))).
  destruct (negb (sd_receiver_window_size s =? 0) || th_syn (ts_header t)); simpl in *; rewrite ?Eo in *.
  - rewrite u16_id in Hrto |- * by lia. rewrite Hpow in Hrto by lia. by split_and!.
  - rewrite Hpow in Hrto by lia. rewrite Z.add_0_r. by split_and!.
Qed.

(** Three bytes in flight when the timeout of one second expires: they are resent. *)
Lemma demo_filled_queue :
  exists t, sd_segments_outstanding demo_filled = [t] /\ payload_of t = text [65; 66; 67] /\
    sd_tick demo_filled = 0 /\ sd_initial_retransmission_timeout demo_filled = 1000 /\
    sd_consecutive_retransmissions demo_filled = 0 /\
    sd_consecutive_retransmissions (TCPSender_tick demo_filled 1000) = 1.
Proof. eexists. split; [vm_compute; reflexivity|]. repeat split; vm_compute; reflexivity. Qed.

Lemma tick_retransmits_oldest_witness :
  exists t, sd_segments_outstanding demo_filled = [t] /\ payload_of t = text [65; 66; 67] /\
    sd_segments_out (TCPSender_tick demo_filled 1000) = sd_segments_out demo_filled ++ [t] /\
    sd_rto (TCPSender_tick demo_filled 1000) = 1000 * 2 ^ 1.
Proof.
  destruct demo_filled_queue as (t & Ht & Hp & E1 & E2 & E3 & E4).
  destruct (tick_retransmits_oldest 4000 1000 (Some demo_isn) 0 demo_filled (text [65; 66; 67; 68]) 1000)
    as (_ & _ & _ & H & Hr); [lia|lia|apply demo_isn_ok|apply demo_filled_reaches|lia|..].
  { rewrite E1. reflexivity. }
  { rewrite E3. reflexivity. }
  rewrite Ht, E1, E2, E3 in H. rewrite Ht, E2, E4 in Hr.
  exists t. split; [exact Ht|]. split; [exact Hp|]. split; [exact (proj1 H)|]. by apply Hr.
Defined.

(** Two segments of two bytes each in flight, three more bytes written, window 10. *)
Definition two_in_flight : res TCPSender :=
  let s := snd (TCPSender_write (demo_sender [1; 2] 10) []) in
  s ← TCPSender_fill_window s;
  s ← TCPSender_fill_window (snd (TCPSender_write s (text [3; 4])));
  Ok (snd (TCPSender_write s (text [5; 6; 7]))).

(** the window arithmetic [remain = _receiver_window_size - _bytes_in_flight] is
    unsigned and unchecked: when the peer shrinks its window below what is still in
    flight, [remain] wraps to almost 2^64 and the sender transmits everything it has.
    Here four bytes are in flight in a window of ten; the peer acknowledges two and
    announces a window of one; the sender answers with three more bytes, five in
    flight. *)
Theorem shrunk_window_overrun :
  exists s s', two_in_flight = Ok s /\ sd_bytes_in_flight s = 4 /\ sd_receiver_window_size s = 10 /\
    TCPSender_ack_received s (wrap 3 demo_isn) 1 = Ok s' /\
    sd_receiver_window_size s' = 1 /\ sd_bytes_in_flight s' = 5 /\
    payloads (sd_segments_outstanding s') = text [3; 4; 5; 6; 7].
Proof.
  eexists _, _. split; [vm_compute; reflexivity|]. split; [reflexivity|]. split; [reflexivity|].
  split; [vm_compute; reflexivity|]. vm_compute. done.
Qed.

(** [ByteStream::write] accepts bytes after [end_input()], and [fill_window] sets FIN on
    whatever empties an ended stream: one byte, the end, the FIN, and then one more byte
    makes the sender transmit the late byte after the FIN, with a second FIN; the FIN
    and the byte after it count as data and [next_seqno] is 5 with two bytes written. *)
Theorem write_after_end_sends_second_fin :
  exists s1 s2,
    TCPSender_fill_window (TCPSender_end_input (demo_sender [65] 10)) = Ok s1 /\
    TCPSender_fill_window (snd (TCPSender_write s1 (text [66]))) = Ok s2 /\
    map (fun t => (payload_of t, th_fin (ts_header t))) (sd_segments_outstanding s2)
      = [(text [65], true); (text [66], true)] /\
    ByteStream_bytes_written (sd_stream s2) = 2 /\ sd_next_seqno s2 = 5.
Proof.
  eexists _, _. split; [vm_compute; reflexivity|]. split; [vm_compute; reflexivity|]. by vm_compute.
Qed.
