(* ===== verification/Connection.v ===== *)
(** * The TCP connection

    Models [libsponge/tcp_connection.hh], [tcp_connection.cc] and the [TCPConfig] of
    [tcp_helpers/tcp_config.hh]: the class [TCPConnection] joins a [TCPSender] and a
    [TCPReceiver], stamps acknowledgments on outgoing segments, and decides when the
    connection is over. [tcp_helpers/tcp_state.hh] and [tcp_state.cc], which name its
    states, are modelled at the end of the definitions. *)

From S2P Require Import Prelude WrappingInts Buffers ByteStreams Reassembler Parser TCPSegments Receiver Sender.

Definition DEFAULT_CAPACITY : Z := 64000.
Definition TIMEOUT_DFLT : Z := 1000.
Definition MAX_RETX_ATTEMPTS : Z := 8.

Record TCPConfig : Type := mkTCPConfig {
  cfg_rt_timeout : Z;
  cfg_recv_capacity : Z;
  cfg_send_capacity : Z;
  cfg_fixed_isn : option WrappingInt32
}.

Definition TCPConfig_default : TCPConfig := mkTCPConfig TIMEOUT_DFLT DEFAULT_CAPACITY DEFAULT_CAPACITY None.

Record TCPConnection : Type := mkTCPConnection {
  cn_cfg : TCPConfig;
  cn_receiver : TCPReceiver;
  cn_sender : TCPSender;
  cn_segments_out : list TCPSegment;
  cn_linger_after_streams_finish : bool;
  cn_time_since_last_segment_received : Z;
  cn_active : bool;
  cn_need_send_rst : bool
}.

(** Field updates. *)
Definition cn_set_receiver (c : TCPConnection) (v : TCPReceiver) : TCPConnection :=
  mkTCPConnection (cn_cfg c) v (cn_sender c) (cn_segments_out c) (cn_linger_after_streams_finish c)
    (cn_time_since_last_segment_received c) (cn_active c) (cn_need_send_rst c).

Definition cn_set_sender (c : TCPConnection) (v : TCPSender) : TCPConnection :=
  mkTCPConnection (cn_cfg c) (cn_receiver c) v (cn_segments_out c) (cn_linger_after_streams_finish c)
    (cn_time_since_last_segment_received c) (cn_active c) (cn_need_send_rst c).

Definition cn_set_segments_out (c : TCPConnection) (v : list TCPSegment) : TCPConnection :=
  mkTCPConnection (cn_cfg c) (cn_receiver c) (cn_sender c) v (cn_linger_after_streams_finish c)
    (cn_time_since_last_segment_received c) (cn_active c) (cn_need_send_rst c).

Definition cn_set_linger (c : TCPConnection) (v : bool) : TCPConnection :=
  mkTCPConnection (cn_cfg c) (cn_receiver c) (cn_sender c) (cn_segments_out c) v
    (cn_time_since_last_segment_received c) (cn_active c) (cn_need_send_rst c).

Definition cn_set_time (c : TCPConnection) (v : Z) : TCPConnection :=
  mkTCPConnection (cn_cfg c) (cn_receiver c) (cn_sender c) (cn_segments_out c)
    (cn_linger_after_streams_finish c) v (cn_active c) (cn_need_send_rst c).

Definition cn_set_active (c : TCPConnection) (v : bool) : TCPConnection :=
  mkTCPConnection (cn_cfg c) (cn_receiver c) (cn_sender c) (cn_segments_out c)
    (cn_linger_after_streams_finish c) (cn_time_since_last_segment_received c) v (cn_need_send_rst c).

Definition cn_set_need_send_rst (c : TCPConnection) (v : bool) : TCPConnection :=
  mkTCPConnection (cn_cfg c) (cn_receiver c) (cn_sender c) (cn_segments_out c)
    (cn_linger_after_streams_finish c) (cn_time_since_last_segment_received c) (cn_active c) v.

(** [random] is the sender's random initial sequence number. *)
Definition TCPConnection_new (cfg : TCPConfig) (random : Z) : TCPConnection :=
  mkTCPConnection cfg (TCPReceiver_new (cfg_recv_capacity cfg))
    (TCPSender_new (cfg_send_capacity cfg) (cfg_rt_timeout cfg) (cfg_fixed_isn cfg) random)
    [] true 0 true false.

Definition TCPConnection_remaining_outbound_capacity (c : TCPConnection) : Z :=
  ByteStream_remaining_capacity (sd_stream (cn_sender c)).
Definition TCPConnection_bytes_in_flight (c : TCPConnection) : Z := sd_bytes_in_flight (cn_sender c).
Definition TCPConnection_unassembled_bytes (c : TCPConnection) : Z :=
  TCPReceiver_unassembled_bytes (cn_receiver c).
Definition TCPConnection_inbound_stream (c : TCPConnection) : ByteStream :=
  TCPReceiver_stream_out (cn_receiver c).

Definition clean_shutdown (c : TCPConnection) : TCPConnection :=
  if ByteStream_input_ended (TCPReceiver_stream_out (cn_receiver c)) then
    if negb (sd_fin (cn_sender c)) then cn_set_linger c false
    else if sd_bytes_in_flight (cn_sender c) =? 0 then
      if negb (cn_linger_after_streams_finish c) ||
         (10 * cfg_rt_timeout (cn_cfg c) <=? cn_time_since_last_segment_received c)
      then cn_set_active c false
      else c
    else c
  else c.

(** The fields filled in on an outgoing segment; the window is a [uint16_t]. *)
Definition stamp (r : TCPReceiver) (need_rst : bool) (seg : TCPSegment) : TCPSegment :=
  let h := ts_header seg in
  let h := match TCPReceiver_ackno r with
           | Some a => th_set_ack h a (u16 (TCPReceiver_window_size r))
           | None => h
           end in
  let h := if need_rst then th_set_rst h true else h in
  mkTCPSegment h (ts_payload seg).

(** The [while] loop of [send_sender_segments] over the sender's queue. *)
Fixpoint flush_loop (segs : list TCPSegment) (c : TCPConnection) : TCPConnection :=
  match segs with
  | [] => cn_set_sender c (sd_set_segments_out (cn_sender c) [])
  | seg :: rest =>
      let seg := stamp (cn_receiver c) (cn_need_send_rst c) seg in
      let c := cn_set_need_send_rst c false in
      flush_loop rest (cn_set_segments_out c (cn_segments_out c ++ [seg]))
  end.

Definition is_empty {A} (l : list A) : bool := match l with [] => true | _ => false end.

Definition send_sender_segments (c : TCPConnection) : TCPConnection :=
  let c := if is_empty (sd_segments_out (cn_sender c)) && cn_need_send_rst c
           then cn_set_sender c (TCPSender_send_empty_segment (cn_sender c)) else c in
  clean_shutdown (flush_loop (sd_segments_out (cn_sender c)) c).

Definition unclean_shutdown (c : TCPConnection) (rst : bool) : TCPConnection :=
  let c := cn_set_sender c (TCPSender_set_error (cn_sender c)) in
  let c := cn_set_receiver c (TCPReceiver_set_error (cn_receiver c)) in
  let c := cn_set_active c false in
  let c := cn_set_need_send_rst c rst in
  send_sender_segments c.

Definition TCPConnection_connect (c : TCPConnection) : res TCPConnection :=
  s ← TCPSender_fill_window (cn_sender c);
  Ok (send_sender_segments (cn_set_sender c s)).

Definition TCPConnection_write (c : TCPConnection) (data : bytes) : res (Z * TCPConnection) :=
  match data with
  | [] => Ok (0, c)
  | _ =>
      let '(ret, s) := TCPSender_write (cn_sender c) data in
      s ← TCPSender_fill_window s;
      Ok (ret, send_sender_segments (cn_set_sender c s))
  end.

Definition TCPConnection_end_input_stream (c : TCPConnection) : res TCPConnection :=
  s ← TCPSender_fill_window (TCPSender_end_input (cn_sender c));
  Ok (send_sender_segments (cn_set_sender c s)).

Definition TCPConnection_tick (c : TCPConnection) (ms_since_last_tick : Z) : TCPConnection :=
  if negb (cn_active c) then c
  else
    let c := cn_set_time c (cn_time_since_last_segment_received c +64 ms_since_last_tick) in
    let c := cn_set_sender c (TCPSender_tick (cn_sender c) ms_since_last_tick) in
    let c := if MAX_RETX_ATTEMPTS <? sd_consecutive_retransmissions (cn_sender c)
             then unclean_shutdown c true else c in
    send_sender_segments c.

Definition is_none {A} (o : option A) : bool := match o with None => true | _ => false end.

(** The part of [segment_received] after the state-dependent early returns. *)
Definition segment_received_tail (c : TCPConnection) (seg : TCPSegment) : res TCPConnection :=
  let header := ts_header seg in
  r ← TCPReceiver_segment_received (cn_receiver c) seg;
  let c := cn_set_receiver c r in
  if th_ack header then
    s ← TCPSender_ack_received (cn_sender c) (th_ackno header) (th_win header);
    let s := if (0 <? length_in_sequence_space seg) && is_empty (sd_segments_out s)
             then TCPSender_send_empty_segment s else s in
    Ok (send_sender_segments (cn_set_sender c s))
  else Ok c.

Definition TCPConnection_segment_received (c : TCPConnection) (seg : TCPSegment) : res TCPConnection :=
  if negb (cn_active c) then Ok c
  else
    let c := cn_set_time c 0 in
    let header := ts_header seg in
    if (sd_next_seqno (cn_sender c) =? 0) && is_none (TCPReceiver_ackno (cn_receiver c)) then
      if th_rst header then Ok c
      else if negb (th_syn header) then Ok c
      else
        r ← TCPReceiver_segment_received (cn_receiver c) seg;
        TCPConnection_connect (cn_set_receiver c r)
    else if th_rst header then Ok (unclean_shutdown c false)
    else if (0 <? sd_next_seqno (cn_sender c)) &&
            (sd_bytes_in_flight (cn_sender c) =? sd_next_seqno (cn_sender c)) then
      if 0 <? zlen (Buffer_str (ts_payload seg)) then Ok c
      else if negb (th_ack header) then
        if th_syn header then
          r ← TCPReceiver_segment_received (cn_receiver c) seg;
          let c := cn_set_receiver c r in
          Ok (send_sender_segments (cn_set_sender c (TCPSender_send_empty_segment (cn_sender c))))
        else Ok c
      else segment_received_tail c seg
    else segment_received_tail c seg.

(** The destructor of an active connection; the object's last segments are what
    [segments_out] holds afterwards. *)
Definition TCPConnection_destroy (c : TCPConnection) : TCPConnection :=
  if cn_active c then unclean_shutdown c true else c.

(** The owner reads from [inbound_stream()]. *)
Definition TCPConnection_read (c : TCPConnection) (n : Z) : res (bytes * TCPConnection) :=
  '(d, r) ← TCPReceiver_read (cn_receiver c) n;
  Ok (d, cn_set_receiver c r).

(** ** Official state names *)

(** [namespace TCPReceiverStateSummary] and [namespace TCPSenderStateSummary]. *)
Definition R_ERROR : string := "error (connection was reset)".
Definition R_LISTEN : string := "waiting for SYN: ackno is empty".
Definition R_SYN_RECV : string := "SYN received (ackno exists), and input to stream hasn't ended".
Definition R_FIN_RECV : string := "input to stream has ended".

Definition S_ERROR : string := "error (connection was reset)".
Definition S_CLOSED : string := "waiting for stream to begin (no SYN sent)".
Definition S_SYN_SENT : string := "stream started but nothing acknowledged".
Definition S_SYN_ACKED : string := "stream ongoing".
Definition S_FIN_SENT : string := "stream finished (FIN sent) but not fully acknowledged".
Definition S_FIN_ACKED : string := "stream finished and fully acknowledged".

Record TCPState : Type := mkTCPState {
  st_sender : string; st_receiver : string; st_active : bool; st_linger : bool
}.

Inductive State : Type :=
| LISTEN | SYN_RCVD | SYN_SENT | ESTABLISHED | CLOSE_WAIT | LAST_ACK
| FIN_WAIT_1 | FIN_WAIT_2 | CLOSING | TIME_WAIT | CLOSED | RESET.

(** [operator==]. *)
Definition TCPState_eqb (a b : TCPState) : bool :=
  eqb (st_active a) (st_active b) && eqb (st_linger a) (st_linger b) &&
  String.eqb (st_sender a) (st_sender b) && String.eqb (st_receiver a) (st_receiver b).

(** [TCPState::name]; [to_string] of a [bool] is a digit. *)
Definition TCPState_name (a : TCPState) : string :=
  let digit (b : bool) : string := if b then "1" else "0" in
  "sender=`" +:+ st_sender a +:+ "`, receiver=`" +:+ st_receiver a +:+ "`, active=" +:+
  digit (st_active a) +:+ ", linger_after_streams_finish=" +:+ digit (st_linger a).

Definition TCPState_of (state : State) : TCPState :=
  match state with
  | LISTEN => mkTCPState S_CLOSED R_LISTEN true true
  | SYN_RCVD => mkTCPState S_SYN_SENT R_SYN_RECV true true
  | SYN_SENT => mkTCPState S_SYN_SENT R_LISTEN true true
  | ESTABLISHED => mkTCPState S_SYN_ACKED R_SYN_RECV true true
  | CLOSE_WAIT => mkTCPState S_SYN_ACKED R_FIN_RECV true false
  | LAST_ACK => mkTCPState S_FIN_SENT R_FIN_RECV true false
  | CLOSING => mkTCPState S_FIN_SENT R_FIN_RECV true true
  | FIN_WAIT_1 => mkTCPState S_FIN_SENT R_SYN_RECV true true
  | FIN_WAIT_2 => mkTCPState S_FIN_ACKED R_SYN_RECV true true
  | TIME_WAIT => mkTCPState S_FIN_ACKED R_FIN_RECV true true
  | RESET => mkTCPState S_ERROR R_ERROR false false
  | CLOSED => mkTCPState S_FIN_ACKED R_FIN_RECV false false
  end.

Definition receiver_summary (r : TCPReceiver) : string :=
  if ByteStream_error (TCPReceiver_stream_out r) then R_ERROR
  else if is_none (TCPReceiver_ackno r) then R_LISTEN
  else if ByteStream_input_ended (TCPReceiver_stream_out r) then R_FIN_RECV
  else R_SYN_RECV.

Definition sender_summary (s : TCPSender) : string :=
  if ByteStream_error (sd_stream s) then S_ERROR
  else if sd_next_seqno s =? 0 then S_CLOSED
  else if sd_next_seqno s =? sd_bytes_in_flight s then S_SYN_SENT
  else if negb (ByteStream_eof (sd_stream s)) then S_SYN_ACKED
  else if sd_next_seqno s <? (ByteStream_bytes_written (sd_stream s) +64 2) then S_SYN_ACKED
  else if negb (sd_bytes_in_flight s =? 0) then S_FIN_SENT
  else S_FIN_ACKED.

(** [TCPConnection::state]. *)
Definition TCPConnection_state (c : TCPConnection) : TCPState :=
  mkTCPState (sender_summary (cn_sender c)) (receiver_summary (cn_receiver c)) (cn_active c)
    (if cn_active c then cn_linger_after_streams_finish c else false).

(** ** Flushing the sender's queue *)

(** Only the first segment of a flush takes the pending RST. *)
Definition stamped (r : TCPReceiver) (rst : bool) (segs : list TCPSegment) : list TCPSegment :=
  match segs with
  | [] => []
  | seg :: rest => stamp r rst seg :: map (stamp r false) rest
  end.

Lemma flush_loop_eq segs : forall c,
  flush_loop segs c =
  mkTCPConnection (cn_cfg c) (cn_receiver c) (sd_set_segments_out (cn_sender c) [])
    (cn_segments_out c ++ stamped (cn_receiver c) (cn_need_send_rst c) segs)
    (cn_linger_after_streams_finish c) (cn_time_since_last_segment_received c) (cn_active c)
    (is_empty segs && cn_need_send_rst c).
Proof.
  induction segs as [|seg segs IH]; intros c; simpl; [by rewrite app_nil_r|].
  rewrite IH. simpl. rewrite andb_false_r, <- app_assoc. simpl. do 3 f_equal.
  by destruct segs.
Qed.

(** The payload, the flags of the sender and the sequence number are not touched. *)
Lemma stamp_sent_ok isn H e r b seg : sent_ok isn H e seg -> sent_ok isn H e (stamp r b seg).
Proof.
  assert (Hh : th_seqno (ts_header (stamp r b seg)) = th_seqno (ts_header seg) /\
    th_syn (ts_header (stamp r b seg)) = th_syn (ts_header seg) /\
    th_fin (ts_header (stamp r b seg)) = th_fin (ts_header seg)).
  { unfold stamp. destruct (TCPReceiver_ackno r), b; done. }
  destruct Hh as (E1 & E2 & E3). intros [[start [? ? Hs Hf]]|(n & Hn & Es & El)]; [left; exists start|right; exists n].
  - split; rewrite ?E1, ?E2, ?E3; done.
  - rewrite E1, E2, E3. done.
Qed.

Lemma stamped_sent_ok isn H e r b segs :
  Forall (sent_ok isn H e) segs -> Forall (sent_ok isn H e) (stamped r b segs).
Proof.
  intros [|seg rest Hs Hr]; simpl; constructor; [by apply stamp_sent_ok|].
  apply Forall_map. eapply Forall_impl; [done|]. intros t. apply stamp_sent_ok.
Qed.

(** Fields [clean_shutdown] can change. *)
Lemma clean_shutdown_eq c : exists l a,
  clean_shutdown c = cn_set_active (cn_set_linger c l) a /\ (cn_active c = false -> a = false) /\
  (cn_linger_after_streams_finish c = false -> l = false).
Proof.
  unfold clean_shutdown. repeat case_match.
  all: try (exists (cn_linger_after_streams_finish c), (cn_active c); by destruct c).
  - exists false, (cn_active c). by destruct c.
  - exists (cn_linger_after_streams_finish c), false. by destruct c.
Qed.

(** ** The invariant *)

Section Connection.
Context {Q : TCPReceiver -> bytes -> Prop} {P : TCPReceiver -> TCPSegment -> Prop}.
Context {RC : ReceiverContract Q P}.

(** Between calls: the sender's queue is flushed, no RST is pending, everything in
    [segments_out] carries the owner's bytes, and at most eight consecutive
    retransmissions were made while active. *)
Record cn_inv (c : TCPConnection) (f : fifo) (del : bytes) : Prop := {
  ci_sender : sd_inv (cn_sender c) f;
  ci_total : zlen (ff_hist f) + 2 <= W31;
  ci_flushed : sd_segments_out (cn_sender c) = [];
  ci_recv : Q (cn_receiver c) del;
  ci_out : Forall (sent_ok (sd_isn (cn_sender c)) (ff_hist f) (ff_ended f)) (cn_segments_out c);
  ci_consec : sd_consecutive_retransmissions (cn_sender c) <=
    (if cn_active c then MAX_RETX_ATTEMPTS else MAX_RETX_ATTEMPTS + 1);
  ci_rst : cn_need_send_rst c = false
}.

(** The same in the middle of a call, before the flush. *)
Record cn_pre (c : TCPConnection) (f : fifo) (del : bytes) : Prop := {
  cp_sender : sd_inv (cn_sender c) f;
  cp_total : zlen (ff_hist f) + 2 <= W31;
  cp_recv : Q (cn_receiver c) del;
  cp_out : Forall (sent_ok (sd_isn (cn_sender c)) (ff_hist f) (ff_ended f)) (cn_segments_out c);
  cp_consec : sd_consecutive_retransmissions (cn_sender c) <=
    (if cn_active c then MAX_RETX_ATTEMPTS else MAX_RETX_ATTEMPTS + 1)
}.

Lemma pre_of_inv c f del : cn_inv c f del -> cn_pre c f del.
Proof. by intros []. Qed.

Lemma total_bound f : zlen (ff_hist f) + 2 <= W31 -> sd_bound f.
Proof. unfold sd_bound. lia. Qed.

Lemma pre_flight c f del : cn_pre c f del -> sd_bytes_in_flight (cn_sender c) <= W31.
Proof.
  intros [I Ht _ _ _]. destruct (next_bound _ _ I (total_bound f Ht)) as (? & ? & _). lia.
Qed.

(** The flush establishes the invariant. *)
Lemma flush_inv c f del : cn_pre c f del -> cn_inv (send_sender_segments c) f del.
Proof.
  intros [I Ht Hq Ho Hc]. unfold send_sender_segments.
  set (c0 := if _ && _ then _ else _).
  assert (I0 : sd_inv (cn_sender c0) f).
  { unfold c0. destruct (is_empty _ && _); [|done]. by apply inv_empty_segment, total_bound. }
  assert (E0 : cn_receiver c0 = cn_receiver c /\ cn_segments_out c0 = cn_segments_out c /\
    cn_active c0 = cn_active c /\ sd_isn (cn_sender c0) = sd_isn (cn_sender c) /\
    sd_consecutive_retransmissions (cn_sender c0) = sd_consecutive_retransmissions (cn_sender c) /\
    is_empty (sd_segments_out (cn_sender c0)) && cn_need_send_rst c0 = false).
  { unfold c0. destruct (is_empty _ && _) eqn:E; [|done]. simpl. rewrite andb_true_iff in E.
    by destruct (sd_segments_out (cn_sender c)). }
  clearbody c0. destruct E0 as (Er & Eo & Ea & Ei & Ec & En). rewrite flush_loop_eq.
  destruct (clean_shutdown_eq (mkTCPConnection (cn_cfg c0) (cn_receiver c0)
    (sd_set_segments_out (cn_sender c0) []) (cn_segments_out c0 ++
      stamped (cn_receiver c0) (cn_need_send_rst c0) (sd_segments_out (cn_sender c0)))
    (cn_linger_after_streams_finish c0) (cn_time_since_last_segment_received c0) (cn_active c0)
    (is_empty (sd_segments_out (cn_sender c0)) && cn_need_send_rst c0))) as (l & a & -> & Ha & _).
  destruct (inv_pop _ f (sd_segments_out (cn_sender c0)) [] I0) as [I1 Hs]; [by rewrite app_nil_r|].
  split; simpl in *; rewrite ?Er, ?Eo, ?Ei, ?Ec, ?En in *; try done.
  - apply Forall_app. split; [done|]. by apply stamped_sent_ok.
  - rewrite Ea in Ha. unfold MAX_RETX_ATTEMPTS in *. destruct (cn_active c), a; try lia.
Qed.

(** Sub-operations of the sender inside a call. *)
Lemma pre_sender c f del s' f' : cn_pre c f del -> sd_inv s' f' ->
  ff_hist f' = ff_hist f -> ff_ended f' = ff_ended f -> sd_isn s' = sd_isn (cn_sender c) ->
  sd_consecutive_retransmissions s' <= sd_consecutive_retransmissions (cn_sender c) ->
  cn_pre (cn_set_sender c s') f' del.
Proof.
  intros [I Ht Hq Ho Hc] I' Hh He Hi Hcc. split; simpl; rewrite ?Hh, ?He, ?Hi; try done. lia.
Qed.

Lemma pre_receiver c f del r' del' : cn_pre c f del -> Q r' del' -> cn_pre (cn_set_receiver c r') f del'.
Proof. intros []. by split. Qed.

(** The shutdown keeps everything but the error flags and [active]. *)
Lemma unclean_inv c f del rst : cn_pre c f del -> sd_consecutive_retransmissions (cn_sender c) <= 9 ->
  cn_inv (unclean_shutdown c rst) (mkFifo (ff_hist f) (ff_nread f) (ff_cap f) (ff_ended f) true) del.
Proof.
  intros [I Ht Hq Ho Hc] Hc9. unfold unclean_shutdown. apply flush_inv. split; simpl; try done.
  - by apply inv_set_error.
  - by apply rc_error.
Qed.
End Connection.
#[global] Arguments cn_inv : clear implicits.
#[global] Arguments cn_pre : clear implicits.

(** How the outbound stream may change: it grows before its end, then ends. What was
    sent stays right. *)
Definition evolves (f f' : fifo) : Prop :=
  is_prefix (ff_hist f) (ff_hist f') /\
  forall isn t, sent_ok isn (ff_hist f) (ff_ended f) t -> sent_ok isn (ff_hist f') (ff_ended f') t.

Lemma evolves_same f f' : ff_hist f' = ff_hist f -> ff_ended f' = ff_ended f -> evolves f f'.
Proof. intros E1 E2. split; rewrite E1, ?E2; [exists []; by rewrite app_nil_r|done]. Qed.

Lemma evolves_write f data : ff_ended f = false -> evolves f (fifo_write f data).
Proof.
  intros He. split; simpl; [by eexists|]. intros isn t. apply sent_ok_impl.
  - intros a. by apply seg_ok_grow.
  - rewrite zlen_app. zlia.
Qed.

Lemma evolves_end f : evolves f (mkFifo (ff_hist f) (ff_nread f) (ff_cap f) true (ff_err f)).
Proof.
  split; simpl; [exists []; by rewrite app_nil_r|]. intros isn t. apply sent_ok_impl; [|done].
  intros a. apply seg_ok_end.
Qed.

(** ** Runs of a connection

    A run alternates calls of the owner with segments from the network, restricted
    by [P]; with the connection go the bytes its owner wrote and read. *)
Definition cn_state : Type := TCPConnection * bytes * bytes.

Definition segment_typed (seg : TCPSegment) : Prop :=
  wi_ok (th_ackno (ts_header seg)) /\ 0 <= th_win (ts_header seg) < W16.

Inductive cn_step (P : TCPReceiver -> TCPSegment -> Prop) : cn_state -> cn_state -> Prop :=
| cn_step_connect c w d c' : TCPConnection_connect c = Ok c' -> cn_step P (c, w, d) (c', w, d)
| cn_step_write c w d data n c' :
    ByteStream_input_ended (sd_stream (cn_sender c)) = false -> zlen w + zlen data + 2 <= W31 ->
    TCPConnection_write c data = Ok (n, c') -> cn_step P (c, w, d) (c', w ++ ztake n data, d)
| cn_step_end c w d c' : TCPConnection_end_input_stream c = Ok c' -> cn_step P (c, w, d) (c', w, d)
| cn_step_tick c w d ms : 0 <= ms < W64 -> cn_step P (c, w, d) (TCPConnection_tick c ms, w, d)
| cn_step_segment c w d seg c' :
    P (cn_receiver c) seg -> segment_typed seg ->
    TCPConnection_segment_received c seg = Ok c' -> cn_step P (c, w, d) (c', w, d)
| cn_step_read c w d n b c' :
    0 <= n -> TCPConnection_read c n = Ok (b, c') -> cn_step P (c, w, d) (c', w, d ++ b)
| cn_step_pop c w d popped rest :
    cn_segments_out c = popped ++ rest -> cn_step P (c, w, d) (cn_set_segments_out c rest, w, d).

Section Operations.
Context {Q : TCPReceiver -> bytes -> Prop} {P : TCPReceiver -> TCPSegment -> Prop}.
Context {RC : ReceiverContract Q P}.
Context (c : TCPConnection) (f : fifo) (del : bytes).

(** [c'] is a good result of a call on [c]. *)
Definition good_result (c' : TCPConnection) (f' : fifo) (del' : bytes) : Prop :=
  cn_inv Q c' f' del' /\ sd_isn (cn_sender c') = sd_isn (cn_sender c).

Lemma flush_isn c0 : sd_isn (cn_sender (send_sender_segments c0)) = sd_isn (cn_sender c0).
Proof.
  unfold send_sender_segments. rewrite flush_loop_eq.
  match goal with |- context [clean_shutdown ?x] => destruct (clean_shutdown_eq x) as (l & a & -> & _) end.
  simpl. by destruct (is_empty _ && _).
Qed.

Lemma connect_inv_pre c1 : cn_pre Q c1 f del ->
  exists c' m, TCPConnection_connect c1 = Ok c' /\ cn_inv Q c' (fifo_adv f m) del /\
    sd_isn (cn_sender c') = sd_isn (cn_sender c1).
Proof.
  intros Hp. pose proof (total_bound f (cp_total _ _ _ Hp)) as Hb.
  destruct (fill_window_inv _ f (cp_sender _ _ _ Hp) Hb) as (s' & m & new & E & I' & S').
  unfold TCPConnection_connect. rewrite E. eexists _, m. split; [done|]. split.
  - apply flush_inv. apply (pre_sender c1 f); try done; [apply S'|]. by rewrite (sn_consec _ _ _ S').
  - rewrite flush_isn. apply S'.
Qed.

Lemma write_inv data : cn_inv Q c f del -> ff_ended f = false ->
  zlen (ff_hist f) + zlen data + 2 <= W31 ->
  exists c' m, TCPConnection_write c data = Ok (zlen (fifo_accepts f data), c') /\
    good_result c' (fifo_adv (fifo_write f data) m) del.
Proof.
  intros Hi He Hl. pose proof (ci_sender _ _ _ Hi) as I.
  assert (Hacc : zlen (fifo_accepts f data) <= zlen data).
  { unfold fifo_accepts. rewrite zlen_ztake_min; [lia|]. unfold fifo_room.
    pose proof (br_room _ _ (di_stream _ _ I)). lia. }
  destruct data as [|b data].
  { exists c, 0. unfold fifo_write, fifo_accepts, ztake. rewrite take_nil. split; [done|].
    unfold fifo_adv. simpl. rewrite app_nil_r, Z.add_0_r. split; [|done]. by destruct f. }
  set (dat := b :: data) in *. destruct (inv_write _ f dat I He ltac:(lia)) as [I1 En].
  unfold TCPConnection_write. unfold dat at 1.
  assert (Hfr : sd_isn (snd (TCPSender_write (cn_sender c) dat)) = sd_isn (cn_sender c) /\
    sd_consecutive_retransmissions (snd (TCPSender_write (cn_sender c) dat))
    = sd_consecutive_retransmissions (cn_sender c)).
  { unfold TCPSender_write. by destruct (ByteStream_write _ _). }
  destruct (TCPSender_write (cn_sender c) dat) as [n s1]. cbn [fst snd] in *. destruct Hfr as [Hi1 Hc1].
  assert (Hb1 : zlen (ff_hist (fifo_write f dat)) + 2 <= W31) by (simpl; rewrite zlen_app; lia).
  destruct (fill_window_inv s1 _ I1 (total_bound _ Hb1)) as (s' & m & new & -> & I' & S').
  rewrite res_bind_Ok, En. eexists _, m. split; [done|]. split.
  - apply flush_inv. split; simpl.
    + done.
    + done.
    + apply Hi.
    + rewrite (sn_isn _ _ _ S'), Hi1. eapply Forall_impl; [exact (ci_out _ _ _ Hi)|].
      intros t. apply (evolves_write f dat He).
    + rewrite (sn_consec _ _ _ S'), Hc1. apply Hi.
  - rewrite flush_isn. simpl. by rewrite (sn_isn _ _ _ S').
Qed.

Lemma end_input_stream_inv : cn_inv Q c f del ->
  exists c' m, TCPConnection_end_input_stream c = Ok c' /\
    good_result c' (fifo_adv (mkFifo (ff_hist f) (ff_nread f) (ff_cap f) true (ff_err f)) m) del.
Proof.
  intros Hi. pose proof (inv_end_input _ f (ci_sender _ _ _ Hi)) as I1.
  destruct (fill_window_inv _ _ I1 (total_bound _ (ci_total _ _ _ Hi))) as (s' & m & new & E & I' & S').
  unfold TCPConnection_end_input_stream. rewrite E. eexists _, m. split; [done|]. split.
  - apply flush_inv. split; simpl; try done.
    + apply Hi.
    + apply Hi.
    + rewrite (sn_isn _ _ _ S'). eapply Forall_impl; [exact (ci_out _ _ _ Hi)|].
      intros t. apply (evolves_end f).
    + rewrite (sn_consec _ _ _ S'). apply Hi.
  - rewrite flush_isn. simpl. by rewrite (sn_isn _ _ _ S').
Qed.
(** [unclean_shutdown] from any point of a call. *)
Lemma shutdown_result c1 rst : cn_pre Q (cn_set_active c1 false) f del ->
  cn_inv Q (unclean_shutdown c1 rst) (mkFifo (ff_hist f) (ff_nread f) (ff_cap f) (ff_ended f) true) del /\
  sd_isn (cn_sender (unclean_shutdown c1 rst)) = sd_isn (cn_sender c1).
Proof.
  intros Hp. split; [|unfold unclean_shutdown; by rewrite flush_isn].
  change (unclean_shutdown c1 rst) with (unclean_shutdown (cn_set_active c1 false) rst).
  apply (unclean_inv (P := P)); [done|]. pose proof (cp_consec _ _ _ Hp) as Hc. simpl in *.
  unfold MAX_RETX_ATTEMPTS in Hc. lia.
Qed.

Lemma sender_tick_fields s ms : 0 <= sd_consecutive_retransmissions s < 65535 ->
  sd_isn (TCPSender_tick s ms) = sd_isn s /\
  sd_consecutive_retransmissions s <= sd_consecutive_retransmissions (TCPSender_tick s ms)
    <= sd_consecutive_retransmissions s + 1.
Proof.
  intros Hc. unfold TCPSender_tick. simpl. destruct (sd_segments_outstanding s); simpl; [split; [done|lia]|].
  destruct (_ <=? _); simpl; [|split; [done|lia]].
  destruct (negb _ || _); simpl; nowrap; split; done || lia.
Qed.

Lemma connection_tick_inv ms : cn_inv Q c f del ->
  exists f', ff_hist f' = ff_hist f /\ ff_ended f' = ff_ended f /\
    good_result (TCPConnection_tick c ms) f' del.
Proof.
  intros Hi. unfold TCPConnection_tick. destruct (cn_active c) eqn:Ea; cbn [negb]; [|by exists f].
  pose proof (ci_consec _ _ _ Hi) as Hc. rewrite Ea in Hc. unfold MAX_RETX_ATTEMPTS in Hc.
  pose proof (di_consec _ _ (ci_sender _ _ _ Hi)) as H0.
  destruct (sender_tick_fields (cn_sender c) ms ltac:(lia)) as [Eisn Hcc].
  pose proof (inv_tick _ f ms (ci_sender _ _ _ Hi) ltac:(lia)) as I'.
  set (s' := TCPSender_tick (cn_sender c) ms) in *.
  cbv zeta. cbn [cn_sender cn_set_time cn_time_since_last_segment_received].
  set (ct := cn_set_time c (cn_time_since_last_segment_received c +64 ms)).
  change (cn_sender ct) with (cn_sender c). fold s'. set (c1 := cn_set_sender ct s').
  assert (Hp : cn_pre Q (cn_set_active c1 false) f del).
  { destruct Hi. unfold c1. split; simpl; rewrite ?Eisn; unfold MAX_RETX_ATTEMPTS; done || lia. }
  cbn [cn_sender cn_set_sender c1]. destruct (Z.ltb_spec MAX_RETX_ATTEMPTS (sd_consecutive_retransmissions s')).
  - destruct (shutdown_result c1 true Hp) as [Hu Hui]. eexists. split; [|split; [|split]];
      [..|by apply flush_inv, pre_of_inv|rewrite flush_isn, Hui; apply Eisn]; done.
  - exists f. split; [done|]. split; [done|]. split; [|by rewrite flush_isn; apply Eisn].
    apply flush_inv. destruct Hp. split; try done. simpl. by rewrite Ea.
Qed.

Lemma read_result n : cn_inv Q c f del -> 0 <= n ->
  exists b c', TCPConnection_read c n = Ok (b, c') /\ good_result c' f (del ++ b).
Proof.
  intros Hi Hn. destruct (rc_read _ del n (ci_recv _ _ _ Hi) Hn) as (b & r' & E & Hq).
  unfold TCPConnection_read. rewrite E. eexists _, _. split; [done|]. destruct Hi. by split.
Qed.

(** The common tail of [segment_received]. *)
Lemma tail_inv c1 seg : cn_inv Q c1 f del -> P (cn_receiver c1) seg -> segment_typed seg ->
  exists c' m, segment_received_tail c1 seg = Ok c' /\ cn_inv Q c' (fifo_adv f m) del /\
    sd_isn (cn_sender c') = sd_isn (cn_sender c1).
Proof.
  intros Hi HP [Ha Hw]. unfold segment_received_tail.
  destruct (rc_segment _ del seg (ci_recv _ _ _ Hi) HP) as (r' & -> & Hq). rewrite res_bind_Ok.
  destruct (th_ack (ts_header seg)).
  2:{ eexists _, 0. split; [done|]. rewrite fifo_adv_0. destruct Hi. by split. }
  pose proof (pre_receiver _ _ _ _ _ (pre_of_inv _ _ _ Hi) Hq) as Hp.
  destruct (ack_received_inv _ f (th_ackno (ts_header seg)) (th_win (ts_header seg)) (cp_sender _ _ _ Hp)
    (total_bound _ (cp_total _ _ _ Hp)) (pre_flight _ _ _ Hp) Ha Hw) as (s' & m & E & I' & Ei & Ec).
  cbn [cn_sender cn_set_receiver] in *. rewrite E, res_bind_Ok. eexists _, m. split; [done|].
  set (s2 := if _ && _ then _ else _).
  assert (I2 : sd_inv s2 (fifo_adv f m) /\ sd_isn s2 = sd_isn s' /\
    sd_consecutive_retransmissions s2 = sd_consecutive_retransmissions s').
  { unfold s2. destruct (_ && _); [|done]. split; [|done].
    apply inv_empty_segment; [done|]. apply total_bound, (cp_total _ _ _ Hp). }
  destruct I2 as (I2 & Ei2 & Ec2). split.
  - apply flush_inv. apply (pre_sender _ f); try done; simpl; [congruence|lia].
  - rewrite flush_isn. simpl. congruence.
Qed.

Lemma segment_inv seg : cn_inv Q c f del -> P (cn_receiver c) seg -> segment_typed seg ->
  exists c' f', TCPConnection_segment_received c seg = Ok c' /\
    ff_hist f' = ff_hist f /\ ff_ended f' = ff_ended f /\ good_result c' f' del.
Proof.
  intros Hi HP Ht. unfold TCPConnection_segment_received.
  destruct (cn_active c) eqn:Ea; cbn [negb]; [|by exists c, f].
  set (c0 := cn_set_time c 0). assert (Hi0 : cn_inv Q c0 f del) by (by destruct Hi).
  assert (Hok : exists c' f', Ok c0 = Ok c' /\ ff_hist f' = ff_hist f /\ ff_ended f' = ff_ended f /\
    good_result c' f' del) by (by exists c0, f).
  assert (Htail : exists c' f', segment_received_tail c0 seg = Ok c' /\ ff_hist f' = ff_hist f /\
    ff_ended f' = ff_ended f /\ good_result c' f' del).
  { destruct (tail_inv c0 seg Hi0 HP Ht) as (c' & m & -> & ? & ?). by exists c', (fifo_adv f m). }
  destruct (rc_segment _ del seg (ci_recv _ _ _ Hi0) HP) as (r' & Er & Hq). rewrite Er.
  pose proof (pre_receiver _ _ _ _ _ (pre_of_inv _ _ _ Hi0) Hq) as Hp. rewrite !res_bind_Ok.
  destruct (_ && is_none _).
  { destruct (th_rst _); [done|]. destruct (negb (th_syn _)); [done|].
    destruct (connect_inv_pre (cn_set_receiver c0 r') Hp) as (c' & m & -> & ? & ?).
    by exists c', (fifo_adv f m). }
  destruct (th_rst _).
  { destruct (shutdown_result c0 false) as [Hu Hui].
    - destruct Hi0. split; try done. simpl in *. rewrite Ea in *. unfold MAX_RETX_ATTEMPTS in *. lia.
    - eexists _, (mkFifo (ff_hist f) (ff_nread f) (ff_cap f) (ff_ended f) true).
      split; [done|]. split; [done|]. split; [done|]. by split. }
  destruct (_ && _); [|done]. destruct (0 <? zlen _); [done|].
  destruct (negb (th_ack _)); [|done]. destruct (th_syn _); [|done].
  eexists _, f. split; [done|]. split; [done|]. split; [done|]. split; [|by rewrite flush_isn].
  apply flush_inv. apply (pre_sender _ f); try done.
  apply inv_empty_segment; [apply (cp_sender _ _ _ Hp)|apply total_bound, (cp_total _ _ _ Hp)].
Qed.
End Operations.

Section Steps.
Context {Q : TCPReceiver -> bytes -> Prop} {P : TCPReceiver -> TCPSegment -> Prop}.
Context {RC : ReceiverContract Q P}.

(** Every step keeps the invariant; the outbound stream only evolves. *)
Lemma cn_step_inv c w d c' w' d' f :
  cn_step P (c, w, d) (c', w', d') -> cn_inv Q c f d -> ff_hist f = w ->
  exists f', cn_inv Q c' f' d' /\ ff_hist f' = w' /\ evolves f f' /\
    sd_isn (cn_sender c') = sd_isn (cn_sender c).
Proof.
  intros Hstep Hi Hh. inversion Hstep as [? ? ? ? E|? ? ? data n ? He Hl E|? ? ? ? E|? ? ? ms Hms|
    ? ? ? seg ? HP Ht E|? ? ? n b ? Hn E|? ? ? popped rest E]; subst.
  - destruct (connect_inv_pre f d' c (pre_of_inv _ _ _ Hi)) as (c1 & m & E1 & I1 & Hs).
    rewrite E in E1. injection E1 as <-. exists (fifo_adv f m). by split_and!; try apply evolves_same.
  - unfold ByteStream_input_ended in He. rewrite (br_ended _ _ (di_stream _ _ (ci_sender _ _ _ Hi))) in He.
    destruct (write_inv c f d' data Hi He Hl) as (c1 & m & E1 & I1 & Hs).
    rewrite E in E1. injection E1 as -> <-. exists (fifo_adv (fifo_write f data) m).
    split; [done|]. split; [|split; [|done]].
    + simpl. f_equal. unfold fifo_accepts. destruct (Z.le_ge_cases (fifo_room f) (zlen data)).
      * rewrite zlen_ztake; [done|]. unfold fifo_room in *.
        pose proof (br_room _ _ (di_stream _ _ (ci_sender _ _ _ Hi))). lia.
      * by rewrite !ztake_all by (rewrite ?ztake_all; lia).
    + apply (evolves_write f data He).
  - destruct (end_input_stream_inv c f d' Hi) as (c1 & m & E1 & I1 & Hs).
    rewrite E in E1. injection E1 as <-. eexists. split; [exact I1|]. split; [done|]. split; [|done].
    apply (evolves_end f).
  - destruct (connection_tick_inv c f d' ms Hi) as (f' & Hh' & He' & I1 & Hs).
    exists f'. split_and!; try done; by apply evolves_same.
  - destruct (segment_inv c f d' seg Hi HP Ht) as (c1 & f' & E1 & Hh' & He' & I1 & Hs).
    rewrite E in E1. injection E1 as <-. exists f'. split_and!; try done; by apply evolves_same.
  - destruct (read_result c f d n Hi Hn) as (b1 & c1 & E1 & I1 & Hs).
    rewrite E in E1. injection E1 as <- <-. exists f. split_and!; try done; by apply evolves_same.
  - exists f. split; [|split; [done|split; [by apply evolves_same|done]]].
    destruct Hi. split; try done. simpl. rewrite E in ci_out0. by apply Forall_app in ci_out0 as [_ ?].
Qed.

Definition cn_good (x : cn_state) : Prop :=
  let '(c, w, d) := x in exists f, cn_inv Q c f d /\ ff_hist f = w.

Lemma cn_reach_good x y : cn_good x -> reach (cn_step P) x y -> cn_good y.
Proof.
  intros Hx. apply (reach_invariant (cn_step P) cn_good); [|done].
  intros [[c w] d] [[c' w'] d'] (f & Hi & Hh) Hstep.
  destruct (cn_step_inv c w d c' w' d' f Hstep Hi Hh) as (f' & ? & ? & _). by exists f'.
Qed.

Lemma cn_inv_new cfg random :
  0 <= cfg_send_capacity cfg < W64 -> 0 <= cfg_rt_timeout cfg < W16 ->
  (forall i, cfg_fixed_isn cfg = Some i -> wi_ok i) -> Q (TCPReceiver_new (cfg_recv_capacity cfg)) [] ->
  cn_inv Q (TCPConnection_new cfg random) (mkFifo [] 0 (cfg_send_capacity cfg) false false) [].
Proof. intros. split; simpl; try done. by apply sd_inv_new. Qed.
End Steps.

(** The configuration is within its types. *)
Record cfg_ok (cfg : TCPConfig) : Prop := {
  co_send : 0 <= cfg_send_capacity cfg < W64;
  co_recv : 0 <= cfg_recv_capacity cfg < W64;
  co_rt : 0 <= cfg_rt_timeout cfg < W16;
  co_isn : forall i, cfg_fixed_isn cfg = Some i -> wi_ok i
}.

Lemma rv_sound_new cap : 0 <= cap < W64 -> rv_sound (TCPReceiver_new cap) [].
Proof. intros H. eexists _, _. by apply sr_repr_new. Qed.

Lemma sound_reach cfg random c w d : cfg_ok cfg ->
  reach (cn_step any_segment) (TCPConnection_new cfg random, [], []) (c, w, d) ->
  exists f, cn_inv rv_sound c f d /\ ff_hist f = w.
Proof.
  intros [? ? ? ?] Hr. apply (cn_reach_good (Q := rv_sound)) in Hr; [done|].
  eexists. split; [apply cn_inv_new; try done; by apply rv_sound_new|done].
Qed.

(** ** The connection's theorems *)

(** C5: a connection survives any peer: in every run of the owner's calls, of passing
    time and of arriving segments (any flags, sequence numbers, acknowledgments and
    payloads), no call throws or diverges; every segment queued for the network
    carries the bytes the owner wrote at its sequence number; the sender's queue is
    empty and no RST is pending between calls; and an active connection made at most
    [MAX_RETX_ATTEMPTS] consecutive retransmissions. The owner's side is restricted:
    it writes less than [2^31] bytes in all, and nothing after [end_input_stream]
    (the code then sends the late bytes behind the FIN:
    [late_write_goes_past_the_fin]). *)
Theorem connection_survives_any_peer cfg random c w d :
  cfg_ok cfg -> reach (cn_step any_segment) (TCPConnection_new cfg random, [], []) (c, w, d) ->
  (exists c', TCPConnection_connect c = Ok c') /\
  (exists c', TCPConnection_end_input_stream c = Ok c') /\
  (forall data, ByteStream_input_ended (sd_stream (cn_sender c)) = false ->
     zlen w + zlen data + 2 <= W31 -> exists n c', TCPConnection_write c data = Ok (n, c') /\ n <= zlen data) /\
  (forall seg, any_segment (cn_receiver c) seg -> segment_typed seg ->
     exists c', TCPConnection_segment_received c seg = Ok c') /\
  (forall n, 0 <= n -> exists b c', TCPConnection_read c n = Ok (b, c')) /\
  Forall (sent_ok (sd_isn (cn_sender c)) w (ByteStream_input_ended (sd_stream (cn_sender c))))
    (cn_segments_out c) /\
  sd_segments_out (cn_sender c) = [] /\ cn_need_send_rst c = false /\
  (cn_active c = true -> sd_consecutive_retransmissions (cn_sender c) <= MAX_RETX_ATTEMPTS).
Proof.
  intros Hcfg Hr. destruct (sound_reach cfg random c w d Hcfg Hr) as (f & Hi & Hh). subst w.
  pose proof (ci_sender _ _ _ Hi) as I. unfold ByteStream_input_ended.
  rewrite (br_ended _ _ (di_stream _ _ I)).
  split; [|split; [|split; [|split; [|split; [|split; [|split; [|split]]]]]]].
  - destruct (connect_inv_pre f d c (pre_of_inv _ _ _ Hi)) as (c' & _ & ? & _). by exists c'.
  - destruct (end_input_stream_inv c f d Hi) as (c' & _ & ? & _). by exists c'.
  - intros data He Hl. destruct (write_inv c f d data Hi He Hl) as (c' & _ & E & _). eexists _, c'.
    split; [exact E|]. unfold fifo_accepts. rewrite zlen_ztake_min; [lia|]. unfold fifo_room.
    pose proof (br_room _ _ (di_stream _ _ I)). lia.
  - intros seg HP Ht. destruct (segment_inv c f d seg Hi HP Ht) as (c' & _ & ? & _). by exists c'.
  - intros n Hn. destruct (read_result c f d n Hi Hn) as (b & c' & ? & _). by exists b, c'.
  - apply (ci_out _ _ _ Hi).
  - apply Hi.
  - apply Hi.
  - intros Ea. pose proof (ci_consec _ _ _ Hi) as Hc. by rewrite Ea in Hc.
Qed.

Definition demo_cfg : TCPConfig := mkTCPConfig 1000 64000 64000 (Some demo_isn).

Lemma demo_cfg_ok : cfg_ok demo_cfg.
Proof. split; simpl; try lia. apply demo_isn_ok. Qed.


(** *** Activity *)

(** [send_sender_segments] can only deactivate. *)
Lemma flush_inactive c : cn_active c = false -> cn_active (send_sender_segments c) = false.
Proof.
  intros Ha. unfold send_sender_segments. rewrite flush_loop_eq.
  match goal with |- context [clean_shutdown ?x] => destruct (clean_shutdown_eq x) as (l & a & -> & Hx & _) end.
  simpl in *. apply Hx. by destruct (is_empty _ && _).
Qed.

Lemma inactive_step P x y : cn_step P x y -> cn_active (fst (fst x)) = false -> cn_active (fst (fst y)) = false.
Proof.
  intros Hstep Ha. destruct Hstep as [? ? ? ? E|? ? ? data n ? He Hl E|? ? ? ? E|? ? ? ms Hms|
    ? ? ? seg ? HP Ht E|? ? ? n b ? Hn E|? ? ? popped rest E]; simpl in *.
  - unfold TCPConnection_connect in E. apply bind_Ok_inv in E as (s & _ & [= <-]). by apply flush_inactive.
  - unfold TCPConnection_write in E. destruct data; [by injection E as _ <-|].
    destruct (TCPSender_write _ _). apply bind_Ok_inv in E as (s & _ & [= _ <-]). by apply flush_inactive.
  - unfold TCPConnection_end_input_stream in E. apply bind_Ok_inv in E as (s & _ & [= <-]). by apply flush_inactive.
  - unfold TCPConnection_tick. by rewrite Ha.
  - unfold TCPConnection_segment_received in E. rewrite Ha in E. by injection E as <-.
  - unfold TCPConnection_read in E. apply bind_Ok_inv in E as ([b' r] & _ & [= _ <-]). done.
  - done.
Qed.

(** "active only ever goes from true to false": once a connection is inactive it
    stays so in every run, and it ignores segments and time. *)
Theorem inactive_is_final P c w d c' w' d' :
  cn_active c = false -> reach (cn_step P) (c, w, d) (c', w', d') ->
  cn_active c' = false /\ (forall seg, TCPConnection_segment_received c' seg = Ok c') /\
  (forall ms, TCPConnection_tick c' ms = c').
Proof.
  intros Ha Hr. assert (Hf : cn_active c' = false).
  { change c' with (fst (fst (c', w', d'))).
    apply (reach_invariant (cn_step P) (fun x => cn_active (fst (fst x)) = false) (c, w, d)); try done.
    intros a b Hx Hs. by apply (inactive_step P a b). }
  split; [done|]. unfold TCPConnection_segment_received, TCPConnection_tick. by rewrite Hf.
Qed.

Lemma inactive_is_final_witness :
  let c := TCPConnection_destroy (TCPConnection_new demo_cfg 0) in
  cn_active c = false /\ TCPConnection_tick c 5 = c.
Proof.
  destruct (inactive_is_final any_segment (TCPConnection_destroy (TCPConnection_new demo_cfg 0)) [] []
    (TCPConnection_destroy (TCPConnection_new demo_cfg 0)) [] []) as (H1 & _ & H2);
    [reflexivity|apply reach_refl|]. split; [exact H1|apply H2].
Defined.

(** *** Resets *)

(** What a flush appends when an RST is pending. *)
Lemma flush_out c : cn_segments_out (send_sender_segments c) = cn_segments_out c ++
  stamped (cn_receiver c) (cn_need_send_rst c)
    (if is_empty (sd_segments_out (cn_sender c)) && cn_need_send_rst c
     then [mkTCPSegment (th_set_seqno TCPHeader_default
             (wrap (sd_next_seqno (cn_sender c)) (sd_isn (cn_sender c)))) Buffer_empty]
     else sd_segments_out (cn_sender c)) /\
  cn_receiver (send_sender_segments c) = cn_receiver c /\
  cn_sender (send_sender_segments c) = sd_set_segments_out (cn_sender c) [].
Proof.
  unfold send_sender_segments. rewrite flush_loop_eq.
  match goal with |- context [clean_shutdown ?x] => destruct (clean_shutdown_eq x) as (l & a & -> & _) end.
  simpl. destruct (is_empty (sd_segments_out (cn_sender c)) && cn_need_send_rst c) eqn:E; simpl; [|done].
  apply andb_prop in E as [E _]. by destruct (sd_segments_out (cn_sender c)).
Qed.

Lemma unclean_state c rst : TCPConnection_state (unclean_shutdown c rst) = TCPState_of RESET.
Proof.
  unfold unclean_shutdown. set (c1 := cn_set_need_send_rst _ rst).
  assert (Ha : cn_active (send_sender_segments c1) = false) by (by apply flush_inactive).
  destruct (flush_out c1) as (_ & Hr & Hs). unfold TCPConnection_state. rewrite Ha, Hr, Hs. done.
Qed.

(** The official state LISTEN, as [segment_received] tests for it. *)
Definition listening (c : TCPConnection) : bool :=
  (sd_next_seqno (cn_sender c) =? 0) && is_none (TCPReceiver_ackno (cn_receiver c)).

(** What the code does with any RST at all: outside LISTEN it resets the connection,
    whatever the segment's sequence and acknowledgment numbers are. *)
Lemma any_reset_received cfg random c w d seg :
  cfg_ok cfg -> reach (cn_step any_segment) (TCPConnection_new cfg random, [], []) (c, w, d) ->
  cn_active c = true -> th_rst (ts_header seg) = true ->
  exists c', TCPConnection_segment_received c seg = Ok c' /\ cn_segments_out c' = cn_segments_out c /\
    TCPConnection_state c' = (if listening c then TCPConnection_state c else TCPState_of RESET) /\
    (listening c = true -> c' = cn_set_time c 0).
Proof.
  intros Hcfg Hr Ha Hrst. destruct (sound_reach cfg random c w d Hcfg Hr) as (f & Hi & _).
  unfold TCPConnection_segment_received, listening. rewrite Ha, Hrst. cbn [negb]. cbv zeta.
  cbn [cn_sender cn_receiver cn_set_time].
  destruct ((sd_next_seqno (cn_sender c) =? 0) && is_none (TCPReceiver_ackno (cn_receiver c))).
  - eexists. split; [done|]. split; [done|]. split; [|done]. unfold TCPConnection_state. simpl. done.
  - eexists. split; [done|]. split; [|split; [apply unclean_state|done]]. unfold unclean_shutdown.
    match goal with |- cn_segments_out (send_sender_segments ?x) = _ => destruct (flush_out x) as (-> & _) end.
    simpl. rewrite andb_false_r, (ci_flushed _ _ _ Hi). simpl. apply app_nil_r.
Qed.

(** A RST the peer may send: in SYN_SENT one that acknowledges the SYN, afterwards one
    inside the receive window. *)
Definition rst_acceptable (c : TCPConnection) (seg : TCPSegment) : bool :=
  let hdr := ts_header seg in
  match TCPReceiver_ackno (cn_receiver c) with
  | None => th_ack hdr &&
      (raw_value (th_ackno hdr) =? raw_value (wrap (sd_next_seqno (cn_sender c)) (sd_isn (cn_sender c))))
  | Some ackno =>
      u32 (raw_value (th_seqno hdr) - raw_value ackno) <? Z.max 1 (TCPReceiver_window_size (cn_receiver c))
  end.

(** A retransmission is counted only when the oldest segment is sent again. *)
Lemma tick_counts_sent s ms : sd_segments_out s = [] -> 0 <= sd_consecutive_retransmissions s < 65535 ->
  sd_consecutive_retransmissions s < sd_consecutive_retransmissions (TCPSender_tick s ms) ->
  exists t, sd_segments_out (TCPSender_tick s ms) = [t].
Proof.
  unfold TCPSender_tick. intros Ho Hc. simpl. destruct (sd_segments_outstanding s) as [|t l]; simpl; [lia|].
  destruct (_ <=? _); simpl; [|lia]. intros _. exists t. rewrite Ho. by destruct (negb _ || _).
Qed.

(** A flush with nothing to send leaves an inactive connection as it is. *)
Lemma flush_idle c : sd_segments_out (cn_sender c) = [] -> cn_need_send_rst c = false -> cn_active c = false ->
  cn_segments_out (send_sender_segments c) = cn_segments_out c /\
  TCPConnection_state (send_sender_segments c) = TCPConnection_state c.
Proof.
  intros Ho Hn Ha. destruct (flush_out c) as (E1 & E2 & E3). rewrite Ho, Hn in E1. simpl in E1.
  rewrite app_nil_r in E1. split; [done|]. unfold TCPConnection_state.
  by rewrite (flush_inactive c Ha), E2, E3, Ha.
Qed.

Lemma stamp_rst r seg : th_rst (ts_header (stamp r true seg)) = true.
Proof. unfold stamp. by destruct (TCPReceiver_ackno r). Qed.

Lemma stamp_length r b seg : length_in_sequence_space (stamp r b seg) = length_in_sequence_space seg.
Proof. unfold stamp, length_in_sequence_space. by destruct (TCPReceiver_ackno r), b. Qed.

(** [unclean_shutdown(true)] puts RST on the first segment it flushes. *)
Lemma unclean_rst c : exists seg rest,
  cn_segments_out (unclean_shutdown c true) = cn_segments_out c ++ seg :: rest /\
  th_rst (ts_header seg) = true /\ zlen rest = Z.max 0 (zlen (sd_segments_out (cn_sender c)) - 1) /\
  (sd_segments_out (cn_sender c) = [] -> length_in_sequence_space seg = 0).
Proof.
  unfold unclean_shutdown.
  match goal with |- context [send_sender_segments ?x] => destruct (flush_out x) as (-> & _) end.
  cbn [cn_sender cn_receiver cn_need_send_rst cn_segments_out cn_set_need_send_rst cn_set_active
    cn_set_receiver cn_set_sender sd_segments_out TCPSender_set_error sd_set_stream].
  rewrite andb_true_r. destruct (sd_segments_out (cn_sender c)) as [|t l]; cbn [is_empty stamped map].
  - eexists _, []. split; [done|]. rewrite stamp_length. split; [apply stamp_rst|done].
  - eexists _, _. split; [done|]. split; [apply stamp_rst|]. split; [|done].
    rewrite zlen_cons. unfold zlen. rewrite length_map. lia.
Qed.

Lemma flush_done c : sd_segments_out (cn_sender (send_sender_segments c)) = [] /\
  cn_need_send_rst (send_sender_segments c) = false.
Proof.
  split; [by rewrite (proj2 (proj2 (flush_out c)))|]. unfold send_sender_segments. rewrite flush_loop_eq.
  match goal with |- context [clean_shutdown ?x] => destruct (clean_shutdown_eq x) as (l & a & -> & _) end.
  simpl. destruct (is_empty _ && cn_need_send_rst c) eqn:E; simpl; [|done].
  by destruct (sd_segments_out (cn_sender c)).
Qed.

(** giving up: in every run, when the retransmission timer of an active connection
    fires once more than [MAX_RETX_ATTEMPTS] times in a row, or when an active
    connection is destroyed, the connection ends in the official state RESET and
    exactly one segment is sent, with RST set. *)
Theorem abort_sends_one_reset cfg random c w d :
  cfg_ok cfg -> reach (cn_step any_segment) (TCPConnection_new cfg random, [], []) (c, w, d) ->
  cn_active c = true ->
  (forall ms, MAX_RETX_ATTEMPTS < sd_consecutive_retransmissions (TCPSender_tick (cn_sender c) ms) ->
     exists seg, TCPConnection_state (TCPConnection_tick c ms) = TCPState_of RESET /\
       cn_segments_out (TCPConnection_tick c ms) = cn_segments_out c ++ [seg] /\
       th_rst (ts_header seg) = true) /\
  (exists seg, TCPConnection_state (TCPConnection_destroy c) = TCPState_of RESET /\
     cn_segments_out (TCPConnection_destroy c) = cn_segments_out c ++ [seg] /\
     th_rst (ts_header seg) = true /\ length_in_sequence_space seg = 0).
Proof.
  intros Hcfg Hr Ha. destruct (sound_reach cfg random c w d Hcfg Hr) as (f & Hi & _).
  pose proof (ci_consec _ _ _ Hi) as Hc. pose proof (di_consec _ _ (ci_sender _ _ _ Hi)) as H0.
  rewrite Ha in Hc. unfold MAX_RETX_ATTEMPTS in *. split.
  - intros ms Hms. unfold TCPConnection_tick. rewrite Ha. cbn [negb]. cbv zeta.
    set (ct := cn_set_time c _). change (cn_sender ct) with (cn_sender c).
    destruct (tick_counts_sent (cn_sender c) ms (ci_flushed _ _ _ Hi) ltac:(lia) ltac:(lia)) as [t Ht].
    set (c1 := cn_set_sender ct _). unfold MAX_RETX_ATTEMPTS.
    change (sd_consecutive_retransmissions (cn_sender c1)) with
      (sd_consecutive_retransmissions (TCPSender_tick (cn_sender c) ms)).
    destruct (Z.ltb_spec 8 (sd_consecutive_retransmissions (TCPSender_tick (cn_sender c) ms))); [|lia].
    destruct (unclean_rst c1) as (seg & rest & Eo & Er & El & _).
    assert (rest = []) as -> by (apply zlen_0_nil; rewrite El; unfold c1; simpl; rewrite Ht; done).
    destruct (flush_idle (unclean_shutdown c1 true)) as [E1 E2];
      [apply flush_done|apply flush_done|by apply flush_inactive|].
    exists seg. rewrite E1, E2, Eo. split; [apply unclean_state|]. done.
  - unfold TCPConnection_destroy. rewrite Ha. destruct (unclean_rst c) as (seg & rest & Eo & Er & El & Hs).
    rewrite (ci_flushed _ _ _ Hi) in *. assert (rest = []) as -> by (apply zlen_0_nil; by rewrite El).
    exists seg. split; [apply unclean_state|]. auto.
Qed.

Lemma abort_sends_one_reset_witness :
  exists seg, TCPConnection_state (TCPConnection_destroy (TCPConnection_new demo_cfg 0)) = TCPState_of RESET /\
    cn_segments_out (TCPConnection_destroy (TCPConnection_new demo_cfg 0)) = [seg].
Proof.
  destruct (abort_sends_one_reset demo_cfg 0 (TCPConnection_new demo_cfg 0) [] []) as [_ (seg & H1 & H2 & _)];
    [apply demo_cfg_ok|apply reach_refl|reflexivity|].
  exists seg. split; [exact H1|exact H2].
Defined.

(** *** Opening *)

Definition syn_of (isn : WrappingInt32) : TCPSegment :=
  mkTCPSegment (th_set_seqno (th_set_syn TCPHeader_default true) isn) Buffer_empty.

(** The sender between its SYN and the acknowledgment, and after it. *)
Definition syn_sent_sender (isn : WrappingInt32) (cap rt : Z) : TCPSender :=
  mkTCPSender isn [] rt (ByteStream_new cap) 1 [syn_of isn] 1 1 0 rt 0 true true false.

Definition syn_acked_sender (isn : WrappingInt32) (cap rt win : Z) : TCPSender :=
  mkTCPSender isn [] rt (ByteStream_new cap) 1 [] 0 win 0 rt 0 false true false.

Lemma unwrap_self isn : unwrap isn isn 1 = 0.
Proof. unfold unwrap. by rewrite Z.sub_diag. Qed.

Lemma syn_sent_inv isn cap rt : wi_ok isn -> 0 <= cap < W64 -> 0 <= rt < W16 ->
  sd_inv (syn_sent_sender isn cap rt) (mkFifo [] 0 cap false false).
Proof.
  intros Hi Hc Hr. pose proof (sd_inv_new cap rt (Some isn) 0 Hc Hr) as I.
  destruct (fill_window_syn _ _ (I ltac:(by intros w [= <-])) eq_refl) as (s' & seg & [= <-] & I' & _).
  apply (inv_pop _ _ [syn_of isn] [] I'). done.
Qed.

Lemma syn_acked isn cap rt win : wi_ok isn -> 0 <= cap < W64 -> 0 <= rt < W16 -> 0 <= win < W16 ->
  TCPSender_ack_received (syn_sent_sender isn cap rt) (wrap 1 isn) win = Ok (syn_acked_sender isn cap rt win).
Proof.
  intros Hi Hc Hr Hw.
  rewrite (ack_received_eq _ _ _ _ (syn_sent_inv isn cap rt Hi Hc Hr)) by (done || lia || apply wrap_ok).
  cbn [syn_sent_sender sd_isn sd_next_seqno]. rewrite unwrap_wrap by (done || lia).
  unfold ack_accepts. cbn [syn_sent_sender sd_segments_outstanding sd_next_seqno sd_bytes_in_flight].
  change (length_in_sequence_space (syn_of isn)) with 1.
  destruct (Z.ltb_spec (1 - 1 + 1) (1 + Z.max win 1)); [|lia]. cbn [Z.leb Z.compare Pos.compare Pos.compare_cont andb].
  cbn [ack_loop sd_set_receiver_window_size syn_sent_sender sd_isn sd_next_seqno syn_of ts_header th_set_seqno th_seqno
    th_set_syn]. rewrite unwrap_self. change (length_in_sequence_space _) with 1.
  change ((0 + 1 -64 1) <? 1) with true. cbv iota.
  unfold TCPSender_fill_window. cbn. unfold syn_acked_sender. rewrite andb_false_r. simpl. done.
Qed.

(** The initial sequence number of a new connection. *)
Definition isn_of (cfg : TCPConfig) (random : Z) : WrappingInt32 :=
  default (to_WrappingInt32 random) (cfg_fixed_isn cfg).

Lemma isn_of_ok cfg random : cfg_ok cfg -> wi_ok (isn_of cfg random).
Proof.
  intros [_ _ _ H]. unfold isn_of. destruct (cfg_fixed_isn cfg); simpl; [auto|apply to_WrappingInt32_ok].
Qed.

(** A connection that has sent its SYN, with receiver [r]. *)
Definition opening (cfg : TCPConfig) (random : Z) (r : TCPReceiver) (out : list TCPSegment) : TCPConnection :=
  mkTCPConnection cfg r (syn_sent_sender (isn_of cfg random) (cfg_send_capacity cfg) (cfg_rt_timeout cfg))
    out true 0 true false.

(** A receiver that holds an open, empty stream of peer [isn]. *)
Record open_receiver (r : TCPReceiver) (cap : Z) (isn : WrappingInt32) : Prop := {
  or_repr : sr_repr (rv_reassembler r) (mkFifo [] 0 cap false false) ∅;
  or_eof : sr_eof (rv_reassembler r) = false;
  or_fin : rv_fin r = false;
  or_syn : rv_syn r = true;
  or_isn : rv_isn r = isn;
  or_ackno : TCPReceiver_ackno r = Some (wrap 1 isn)
}.

Lemma open_receiver_stream r cap isn : open_receiver r cap isn ->
  ByteStream_input_ended (TCPReceiver_stream_out r) = false /\ ByteStream_error (TCPReceiver_stream_out r) = false /\
  receiver_summary r = R_SYN_RECV.
Proof.
  intros [[Ro _ _ _] _ _ _ _ Ha]. pose proof (br_ended _ _ Ro) as E1. pose proof (br_err _ _ Ro) as E2. simpl in *.
  unfold receiver_summary, ByteStream_input_ended, ByteStream_error, TCPReceiver_stream_out in *.
  by rewrite Ha, E1, E2.
Qed.

(** A SYN on a new receiver, or a bare segment on an open one, leaves it open. *)
Lemma open_on_syn cap seg : 0 <= cap < W64 -> th_syn (ts_header seg) = true -> th_fin (ts_header seg) = false ->
  Buffer_str (ts_payload seg) = [] ->
  exists r, TCPReceiver_segment_received (TCPReceiver_new cap) seg = Ok r /\
    open_receiver r cap (th_seqno (ts_header seg)).
Proof.
  intros Hc Hs Hf Hp.
  destruct (segment_received_quiet (TCPReceiver_new cap) _ _ seg (sr_repr_new cap Hc)) as
    (r & E & R & He & Hfin & Hsyn & Hisn & Hack); simpl; try done; [lia|by left|].
  exists r. split; [done|]. unfold rv_isn_after in *. rewrite Hs in *. by split.
Qed.

Lemma open_on_bare r cap isn seg : 0 <= cap < W64 -> open_receiver r cap isn ->
  th_syn (ts_header seg) = false -> th_fin (ts_header seg) = false -> Buffer_str (ts_payload seg) = [] ->
  exists r', TCPReceiver_segment_received r seg = Ok r' /\ open_receiver r' cap isn.
Proof.
  intros Hc [R He Hfin Hsyn Hisn Hack] Hs Hf Hp.
  destruct (segment_received_quiet r _ _ seg R He Hfin) as (r' & E & R' & He' & Hfin' & Hsyn' & Hisn' & Hack');
    simpl; try done; [lia|by right|].
  exists r'. split; [done|]. unfold rv_isn_after in *. rewrite Hs in *. simpl in *. rewrite Hisn in *. by split.
Qed.

(** Flushing a connection whose inbound stream is open only stamps and queues. *)
Lemma flush_open c r cap isn : open_receiver r cap isn -> cn_receiver c = r -> cn_need_send_rst c = false ->
  send_sender_segments c = mkTCPConnection (cn_cfg c) r (sd_set_segments_out (cn_sender c) [])
    (cn_segments_out c ++ map (stamp r false) (sd_segments_out (cn_sender c)))
    (cn_linger_after_streams_finish c) (cn_time_since_last_segment_received c) (cn_active c) false.
Proof.
  intros Ho Hr Hn. unfold send_sender_segments. rewrite Hn, andb_false_r, flush_loop_eq, Hn, andb_false_r, Hr.
  unfold clean_shutdown. simpl. destruct (open_receiver_stream r cap isn Ho) as (-> & _). simpl.
  by destruct (sd_segments_out (cn_sender c)).
Qed.

Lemma connect_opening c random r isn : cfg_ok (cn_cfg c) -> open_receiver r (cfg_recv_capacity (cn_cfg c)) isn ->
  c = cn_set_receiver (TCPConnection_new (cn_cfg c) random) r ->
  TCPConnection_connect c = Ok (opening (cn_cfg c) random r
    [stamp r false (syn_of (isn_of (cn_cfg c) random))]).
Proof.
  intros Hok Ho ->. unfold TCPConnection_connect. cbn [cn_cfg cn_set_receiver TCPConnection_new].
  rewrite (res_bind_Ok _ (send_syn (TCPSender_new (cfg_send_capacity (cn_cfg c)) (cfg_rt_timeout (cn_cfg c))
    (cfg_fixed_isn (cn_cfg c)) random))). by rewrite (flush_open _ r _ isn Ho).
Qed.

(** An acknowledgment of the SYN, on an open receiver, establishes the connection. *)
Lemma established_by cfg random r out seg r' isn : cfg_ok cfg -> th_rst (ts_header seg) = false ->
  zlen (Buffer_str (ts_payload seg)) = 0 -> th_ack (ts_header seg) = true ->
  th_ackno (ts_header seg) = wrap 1 (isn_of cfg random) -> 0 <= th_win (ts_header seg) < W16 ->
  TCPReceiver_segment_received r seg = Ok r' -> open_receiver r' (cfg_recv_capacity cfg) isn ->
  exists c', TCPConnection_segment_received (opening cfg random r out) seg = Ok c' /\
    TCPConnection_state c' = TCPState_of ESTABLISHED /\ TCPConnection_bytes_in_flight c' = 0 /\
    cn_segments_out c' = out ++ (if 0 <? length_in_sequence_space seg
      then [stamp r' false (mkTCPSegment (th_set_seqno TCPHeader_default (wrap 1 (isn_of cfg random))) Buffer_empty)]
      else []).
Proof.
  intros Hok Hrst Hpl Hack Hackno Hwin Er Ho. pose proof (isn_of_ok cfg random Hok) as Hi. destruct Hok.
  unfold TCPConnection_segment_received. cbn [opening cn_active negb]. cbv zeta.
  cbn [cn_sender cn_set_time sd_next_seqno sd_bytes_in_flight syn_sent_sender].
  rewrite Hrst, Hpl, Hack. cbn [Z.eqb Pos.eqb Z.ltb Z.compare andb negb].
  unfold segment_received_tail. rewrite Hack, Hackno. cbn [cn_receiver opening cn_set_time]. rewrite Er, res_bind_Ok.
  change (TCPSender_ack_received _ _ _) with (TCPSender_ack_received
    (syn_sent_sender (isn_of cfg random) (cfg_send_capacity cfg) (cfg_rt_timeout cfg))
    (wrap 1 (isn_of cfg random)) (th_win (ts_header seg))).
  rewrite syn_acked, res_bind_Ok by done. eexists. split; [done|].
  rewrite (flush_open _ r' _ isn Ho) by done. destruct (open_receiver_stream r' _ isn Ho) as (_ & _ & Hs).
  unfold TCPConnection_state, TCPConnection_bytes_in_flight. simpl. rewrite Hs.
  by destruct (0 <? length_in_sequence_space seg).
Qed.

(** C8: the three-way handshake: for any two configurations and initial sequence
    numbers, a fresh connection is in LISTEN; [connect] sends one SYN and enters
    SYN_SENT; the listening peer answers that SYN with a SYN+ACK of it and enters
    SYN_RCVD; the SYN+ACK is answered with an ACK and establishes the first
    connection; the ACK establishes the second, which sends nothing more. *)
Theorem three_way_handshake cfgA cfgB ra rb : cfg_ok cfgA -> cfg_ok cfgB ->
  let A0 := TCPConnection_new cfgA ra in let B0 := TCPConnection_new cfgB rb in
  TCPConnection_state A0 = TCPState_of LISTEN /\ TCPConnection_state B0 = TCPState_of LISTEN /\
  exists A1 A2 B1 B2 syn synack ack,
    TCPConnection_connect A0 = Ok A1 /\ cn_segments_out A1 = [syn] /\
    TCPConnection_state A1 = TCPState_of SYN_SENT /\
    TCPConnection_segment_received B0 syn = Ok B1 /\ cn_segments_out B1 = [synack] /\
    TCPConnection_state B1 = TCPState_of SYN_RCVD /\
    TCPConnection_segment_received A1 synack = Ok A2 /\ cn_segments_out A2 = [syn; ack] /\
    TCPConnection_state A2 = TCPState_of ESTABLISHED /\
    TCPConnection_segment_received B1 ack = Ok B2 /\ cn_segments_out B2 = [synack] /\
    TCPConnection_state B2 = TCPState_of ESTABLISHED.
Proof.
  intros HA HB A0 B0. split; [done|]. split; [done|].
  set (ia := isn_of cfgA ra). set (ib := isn_of cfgB rb).
  destruct (open_on_syn (cfg_recv_capacity cfgB) (syn_of ia)) as (rB & EB & OB); try done; [apply HB|].
  change (th_seqno (ts_header (syn_of ia))) with ia in OB.
  set (synack := stamp rB false (syn_of ib)).
  assert (Hsa : synack = mkTCPSegment (th_set_ack (ts_header (syn_of ib)) (wrap 1 ia)
    (u16 (TCPReceiver_window_size rB))) Buffer_empty) by (unfold synack, stamp; by rewrite (or_ackno _ _ _ OB)).
  destruct (open_on_syn (cfg_recv_capacity cfgA) synack) as (rA & EA & OA); rewrite ?Hsa; try done; [apply HA|].
  rewrite Hsa in OA at 1. change (th_seqno _) with ib in OA.
  set (ack := stamp rA false (mkTCPSegment (th_set_seqno TCPHeader_default (wrap 1 ia)) Buffer_empty)).
  assert (Hak : ack = mkTCPSegment (th_set_ack (th_set_seqno TCPHeader_default (wrap 1 ia)) (wrap 1 ib)
    (u16 (TCPReceiver_window_size rA))) Buffer_empty) by (unfold ack, stamp; by rewrite (or_ackno _ _ _ OA)).
  destruct (open_on_bare rB _ ia ack (co_recv _ HB) OB) as (rB' & EB' & OB'); rewrite ?Hak; try done.
  destruct (established_by cfgA ra (TCPReceiver_new (cfg_recv_capacity cfgA)) [syn_of ia] synack rA ib HA)
    as (A2 & RA2 & SA2 & _ & OA2); rewrite ?Hsa; try done; [apply u16_range|by rewrite <- Hsa|].
  destruct (established_by cfgB rb rB [synack] ack rB' ia HB)
    as (B2 & RB2 & SB2 & _ & OB2); rewrite ?Hak; try done; [apply u16_range|by rewrite <- Hak|].
  exists (opening cfgA ra (TCPReceiver_new (cfg_recv_capacity cfgA)) [syn_of ia]), A2,
    (opening cfgB rb rB [synack]), B2, (syn_of ia), synack, ack.
  rewrite Hsa in OA2. rewrite Hak in OB2.
  assert (HB1 : TCPConnection_segment_received B0 (syn_of ia) = Ok (opening cfgB rb rB [synack])).
  { change (TCPConnection_segment_received B0 (syn_of ia)) with
      (r ← TCPReceiver_segment_received (TCPReceiver_new (cfg_recv_capacity cfgB)) (syn_of ia);
       TCPConnection_connect (cn_set_receiver B0 r)).
    rewrite EB, res_bind_Ok. by apply (connect_opening (cn_set_receiver B0 rB) rb rB ia). }
  split_and!; try done.
  unfold TCPConnection_state. simpl. by destruct (open_receiver_stream rB _ _ OB) as (_ & _ & ->).
Qed.

Lemma three_way_handshake_witness :
  exists A1 A2 B1 syn synack, TCPConnection_connect (TCPConnection_new demo_cfg 0) = Ok A1 /\
    TCPConnection_segment_received (TCPConnection_new TCPConfig_default 7) syn = Ok B1 /\
    TCPConnection_segment_received A1 synack = Ok A2 /\ TCPConnection_state A2 = TCPState_of ESTABLISHED.
Proof.
  destruct (three_way_handshake demo_cfg TCPConfig_default 0 7) as
    (_ & _ & A1 & A2 & B1 & B2 & syn & synack & ack & H1 & _ & _ & H2 & _ & _ & H3 & _ & H4 & _);
    [apply demo_cfg_ok|split; simpl; done || lia|].
  exists A1, A2, B1, syn, synack. split; [exact H1|]. split; [exact H2|]. split; [exact H3|exact H4].
Defined.

(** *** Closing *)

(** The official names decoded: FIN_ACKED means that the FIN is sent and nothing is in
    flight. *)
Lemma fin_acked_iff s f : sd_inv s f -> zlen (ff_hist f) + 2 <= W31 ->
  sender_summary s = S_FIN_ACKED <->
  ff_err f = false /\ sd_fin s = true /\ sd_bytes_in_flight s = 0.
Proof.
  intros I Ht. pose proof (di_stream _ _ I) as Rs. destruct (next_bound s f I (total_bound f Ht)) as (? & ? & ?).
  pose proof (di_next _ _ I) as Hn. pose proof (di_fin _ _ I) as Hf.
  pose proof (fifo_pending_len f (br_nreadb _ _ Rs)) as Hp.
  unfold sender_summary, ByteStream_error, ByteStream_bytes_written.
  rewrite (br_err _ _ Rs), (bs_eof_spec _ _ Rs), (br_written _ _ Rs), Hp. rewrite (u64_id (zlen _ + 2)) by lia.
  destruct (ff_err f); [by split; intros H'; [|destruct H']|].
  destruct (Z.eqb_spec (sd_next_seqno s) 0) as [E0|E0].
  { split; [done|]. intros (_ & E & _). rewrite E in Hn. destruct (di_fresh _ _ I) as (_ & ? & _); [|congruence].
    destruct (sd_syn s); [lia|done]. }
  destruct (sd_syn s) eqn:Es; [|lia].
  destruct (Z.eqb_spec (sd_next_seqno s) (sd_bytes_in_flight s)) as [E1|E1].
  { split; [done|]. intros (_ & _ & E). lia. }
  destruct (sd_fin s) eqn:Ef.
  - destruct (Hf eq_refl) as [-> Hnr]. rewrite Hnr, Z.sub_diag. cbn [Z.eqb andb negb].
    destruct (Z.ltb_spec (sd_next_seqno s) (zlen (ff_hist f) + 2)); [lia|].
    destruct (Z.eqb_spec (sd_bytes_in_flight s) 0); simpl; split; done || (intros (_ & _ & ?); lia).
  - split; [|by intros (_ & ? & _)]. destruct (negb _); [done|].
    destruct (Z.ltb_spec (sd_next_seqno s) (zlen (ff_hist f) + 2)); [done|lia].
Qed.

Lemma fin_recv_iff r del : rv_sound r del ->
  receiver_summary r = R_FIN_RECV <->
  ByteStream_error (TCPReceiver_stream_out r) = false /\ rv_syn r = true /\
  ByteStream_input_ended (TCPReceiver_stream_out r) = true.
Proof.
  intros _. unfold receiver_summary, TCPReceiver_ackno.
  destruct (ByteStream_error _), (rv_syn r), (ByteStream_input_ended _); simpl; split; intros; destruct_and?; done.
Qed.

(** TIME_WAIT: in every run, a connection in the official state TIME_WAIT stays
    there, silent, until [10 * rt_timeout] milliseconds have passed since the last
    segment, and then is CLOSED. *)
Theorem time_wait_expires cfg random c w d ms :
  cfg_ok cfg -> reach (cn_step any_segment) (TCPConnection_new cfg random, [], []) (c, w, d) ->
  TCPConnection_state c = TCPState_of TIME_WAIT ->
  0 <= cn_time_since_last_segment_received c + ms < W64 ->
  TCPConnection_state (TCPConnection_tick c ms) =
    TCPState_of (if 10 * cfg_rt_timeout (cn_cfg c) <=? cn_time_since_last_segment_received c + ms
                 then CLOSED else TIME_WAIT) /\
  cn_segments_out (TCPConnection_tick c ms) = cn_segments_out c.
Proof.
  intros Hcfg Hr Hst Hms. destruct (sound_reach cfg random c w d Hcfg Hr) as (f & Hi & _).
  pose proof (ci_sender _ _ _ Hi) as I. unfold TCPConnection_state in Hst. simpl in Hst.
  injection Hst as Es Er Ea El. rewrite Ea in El.
  pose proof Es as Es'. pose proof Er as Er'.
  apply (fin_acked_iff _ f I (ci_total _ _ _ Hi)) in Es' as (Herr & Hfin & Hbif).
  apply (fin_recv_iff _ _ (rc_sound _ _ (ci_recv _ _ _ Hi))) in Er' as (_ & _ & Hend).
  pose proof (di_flight _ _ I) as Hfl. rewrite Hbif in Hfl.
  assert (Ho : sd_segments_outstanding (cn_sender c) = []).
  { pose proof (di_chain _ _ I) as Hch. destruct (sd_segments_outstanding (cn_sender c)) as [|t l]; [done|].
    destruct Hch as (_ & Hpos & _). simpl in Hfl. pose proof (flight_nonneg l). lia. }
  assert (Hc0 : sd_consecutive_retransmissions (cn_sender c) = 0) by (apply (di_idle _ _ I), (di_stopped _ _ I), Ho).
  unfold TCPConnection_tick. rewrite Ea. cbn [negb]. cbv zeta.
  assert (Htick : TCPSender_tick (cn_sender c) ms = sd_set_tick (cn_sender c) (sd_tick (cn_sender c) +64 ms))
    by (unfold TCPSender_tick; simpl; by rewrite Ho).
  cbn [cn_set_time cn_sender cn_time_since_last_segment_received]. rewrite Htick. rewrite u64_id by done.
  set (c1 := cn_set_sender _ _).
  replace (MAX_RETX_ATTEMPTS <? sd_consecutive_retransmissions (cn_sender c1)) with false
    by (unfold c1; simpl; by rewrite Hc0).
  unfold send_sender_segments. rewrite flush_loop_eq. unfold c1. simpl. rewrite (ci_flushed _ _ _ Hi). simpl.
  rewrite (ci_rst _ _ _ Hi). simpl. rewrite (ci_flushed _ _ _ Hi). simpl. rewrite app_nil_r.
  unfold clean_shutdown. simpl. rewrite Hend, Hfin, Hbif, El. simpl.
  unfold TCPConnection_state. destruct (10 * cfg_rt_timeout (cn_cfg c) <=? _); simpl.
  all: split; [|done]; unfold sender_summary in Es |- *; simpl; rewrite ?Es, ?Er, ?Ea, ?El; done.
Qed.

(** Segments of a demonstration peer with initial sequence number 500. *)
Definition demo_segment (seqno ackno : Z) (syn fin : bool) : TCPSegment :=
  mkTCPSegment (th_set_ack (th_set_fin (th_set_syn (th_set_seqno TCPHeader_default
    (wrap seqno (to_WrappingInt32 500))) syn) fin) (wrap ackno demo_isn) 1000) Buffer_empty.

Lemma demo_segment_typed seqno ackno syn fin : segment_typed (demo_segment seqno ackno syn fin).
Proof. split; [apply wrap_ok|simpl; lia]. Qed.

Lemma demo_reaches_time_wait : exists c,
  reach (cn_step any_segment) (TCPConnection_new demo_cfg 0, [], []) (c, [], []) /\
  TCPConnection_state c = TCPState_of TIME_WAIT /\ cn_time_since_last_segment_received c = 0 /\
  cfg_rt_timeout (cn_cfg c) = 1000.
Proof.
  eexists. split.
  - eapply reach_step; [eapply reach_step; [eapply reach_step; [eapply reach_step; [apply reach_refl|]|]|]|].
    + eapply cn_step_connect. vm_compute. reflexivity.
    + eapply (cn_step_segment _ _ _ _ (demo_segment 0 1 true false)); [|apply demo_segment_typed|];
        vm_compute; reflexivity.
    + eapply cn_step_end. vm_compute. reflexivity.
    + eapply (cn_step_segment _ _ _ _ (demo_segment 1 2 false true)); [|apply demo_segment_typed|];
        vm_compute; reflexivity.
  - vm_compute. done.
Qed.

Lemma time_wait_expires_witness : exists c,
  TCPConnection_state c = TCPState_of TIME_WAIT /\
  TCPConnection_state (TCPConnection_tick c 10000) = TCPState_of CLOSED.
Proof.
  destruct demo_reaches_time_wait as (c & Hr & Hs & Ht & Hrt). exists c. split; [exact Hs|].
  destruct (time_wait_expires demo_cfg 0 c [] [] 10000) as [H _];
    [apply demo_cfg_ok|exact Hr|exact Hs|rewrite Ht; lia|]. rewrite Ht, Hrt in H. exact H.
Defined.

(** An acknowledgment of everything empties the queue; with the FIN already sent
    nothing follows. *)
Lemma ack_of_all s f win : sd_inv s f -> zlen (ff_hist f) + 2 <= W31 -> sd_fin s = true ->
  sd_bytes_in_flight s <> 0 -> 0 <= win < W16 ->
  exists s' m, TCPSender_ack_received s (wrap (sd_next_seqno s) (sd_isn s)) win = Ok s' /\
    sd_inv s' (fifo_adv f m) /\ sd_fin s' = true /\ sd_bytes_in_flight s' = 0.
Proof.
  intros I Ht Hfin Hne Hw. pose proof (total_bound f Ht) as Hb.
  destruct (next_bound s f I Hb) as (Hbif & Hnx & Hnr).
  assert (Ha : unwrap (wrap (sd_next_seqno s) (sd_isn s)) (sd_isn s) (sd_next_seqno s) = sd_next_seqno s)
    by (apply unwrap_wrap; [apply (di_isn _ _ I)|lia..]).
  pose proof (di_flight _ _ I) as Hfl.
  assert (G : ack_accepts s (sd_next_seqno s) win = true).
  { unfold ack_accepts. destruct (sd_segments_outstanding s) as [|t l] eqn:Eo; [simpl in Hfl; lia|].
    simpl in Hfl. fold (flight l) in Hfl. pose proof (flight_nonneg l).
    apply andb_true_intro. split; [apply Z.leb_le; lia|apply Z.ltb_lt; lia]. }
  rewrite <- Ha in G at 1.
  destruct (ack_accepted s f _ win I Hb ltac:(lia) (wrap_ok _ _) Hw G) as
    (s2 & s' & m & acked & rest & new & E & I' & I2 & Hs2 & E2 & S' & Hs' & Hi & Hw2 & Hout & El & Er & Hpre & Hf2 & _).
  rewrite Ha in Hpre. exists s', m. split; [done|]. split; [done|].
  pose proof (di_chain _ _ I) as Hch. rewrite El, flight_app in Hfl. rewrite El in Hch.
  assert (Hrest : rest = []).
  { destruct rest as [|t r]; [done|]. destruct Hpre as [_ Hpre]. simpl in Hfl.
    pose proof (flight_nonneg r). lia. }
  assert (Hb2 : sd_bytes_in_flight s2 = 0) by (rewrite (di_flight _ _ I2), Er, Hrest; done).
  rewrite Hfin in Hf2. pose proof (di_fin _ _ I2 Hf2) as [_ Hn2].
  pose proof (fifo_pending_len f (br_nreadb _ _ (di_stream _ _ I2))) as Hp.
  destruct (fill_window_spec s2 f I2 Hb Hs2) as (s3 & new' & E3 & _ & _ & _ & _ & Hf3 & Hb3).
  rewrite E2 in E3. injection E3 as <-. rewrite Hf2 in Hf3. simpl in Hf3. split; [done|].
  rewrite Hb3, Hf3, Hf2, Hb2. simpl. pose proof (window_room_range s2). lia.
Qed.

(** What the receiver's summary needs survives a further segment. *)
Lemma fin_recv_stable r del seg r' : rv_sound r del -> any_segment r seg ->
  receiver_summary r = R_FIN_RECV -> TCPReceiver_segment_received r seg = Ok r' ->
  receiver_summary r' = R_FIN_RECV.
Proof.
  intros (f & A & R) Hp Hs E. apply (fin_recv_iff r del) in Hs as (He & Hy & Hd); [|by exists f, A].
  unfold any_segment, ByteStream_bytes_read, TCPReceiver_stream_out in Hp.
  rewrite (br_nread _ _ (rp_out _ _ _ R)), (rp_cap _ _ _ R) in Hp.
  destruct (segment_received_total r f A seg R Hp) as (r1 & f1 & A1 & E1 & R1 & _ & _ & Herr & Hend & _ & Hcase).
  rewrite E in E1. injection E1 as <-. apply (fin_recv_iff r' del); [by exists f1, A1|].
  unfold ByteStream_error, ByteStream_input_ended, TCPReceiver_stream_out in *.
  rewrite (br_err _ _ (rp_out _ _ _ R)), (br_ended _ _ (rp_out _ _ _ R)) in *.
  rewrite (br_err _ _ (rp_out _ _ _ R1)), (br_ended _ _ (rp_out _ _ _ R1)), Herr.
  split; [done|]. split; [|auto]. by destruct Hcase as [[-> _]|(_ & ? & _)].
Qed.

Lemma fin_sent_facts s f : sd_inv s f -> zlen (ff_hist f) + 2 <= W31 -> sender_summary s = S_FIN_SENT ->
  ff_err f = false /\ sd_fin s = true /\ sd_bytes_in_flight s <> 0 /\ sd_next_seqno s <> 0 /\
  sd_next_seqno s <> sd_bytes_in_flight s.
Proof.
  intros I Ht. pose proof (di_stream _ _ I) as Rs. destruct (next_bound s f I (total_bound f Ht)) as (? & ? & ?).
  pose proof (di_next _ _ I) as Hn. unfold sender_summary, ByteStream_error, ByteStream_bytes_written.
  rewrite (br_err _ _ Rs), (br_written _ _ Rs). rewrite (u64_id (zlen _ + 2)) by lia.
  destruct (ff_err f); [done|]. destruct (Z.eqb_spec (sd_next_seqno s) 0); [done|].
  destruct (Z.eqb_spec (sd_next_seqno s) (sd_bytes_in_flight s)); [done|].
  destruct (negb (ByteStream_eof _)); [done|].
  destruct (Z.ltb_spec (sd_next_seqno s) (zlen (ff_hist f) + 2)); [done|].
  destruct (Z.eqb_spec (sd_bytes_in_flight s) 0); [done|]. intros _.
  split; [done|]. split; [|done]. destruct (sd_syn s), (sd_fin s); done || lia.
Qed.

(** passive close without lingering: in every run, a connection in the official
    state LAST_ACK that receives the acknowledgment of its FIN is CLOSED at once,
    whatever else the segment carries. *)
Theorem last_ack_closes cfg random c w d seg :
  cfg_ok cfg -> reach (cn_step any_segment) (TCPConnection_new cfg random, [], []) (c, w, d) ->
  TCPConnection_state c = TCPState_of LAST_ACK ->
  any_segment (cn_receiver c) seg -> 0 <= th_win (ts_header seg) < W16 ->
  th_rst (ts_header seg) = false -> th_ack (ts_header seg) = true ->
  th_ackno (ts_header seg) = wrap (sd_next_seqno (cn_sender c)) (sd_isn (cn_sender c)) ->
  exists c', TCPConnection_segment_received c seg = Ok c' /\ TCPConnection_state c' = TCPState_of CLOSED.
Proof.
  intros Hcfg Hr Hst Hany Hw Hrst Hack Hackno.
  destruct (sound_reach cfg random c w d Hcfg Hr) as (f & Hi & _).
  pose proof (ci_sender _ _ _ Hi) as I. unfold TCPConnection_state in Hst. injection Hst as Es Er Ea El.
  rewrite Ea in El. destruct (fin_sent_facts _ f I (ci_total _ _ _ Hi) Es) as (Herr & Hfin & Hbif & Hn0 & Hn1).
  destruct (next_bound _ f I (total_bound f (ci_total _ _ _ Hi))) as (? & ? & _).
  destruct (ack_of_all _ f (th_win (ts_header seg)) I (ci_total _ _ _ Hi) Hfin Hbif Hw)
    as (s' & m & E & I' & Hf' & Hb').
  destruct (rc_segment _ d seg (ci_recv _ _ _ Hi) Hany) as (r' & Er' & Hq').
  pose proof (fin_recv_stable _ d seg r' (ci_recv _ _ _ Hi) Hany Er Er') as Hsum.
  unfold TCPConnection_segment_received. rewrite Ea, Hrst. cbn [negb]. cbv zeta.
  cbn [cn_sender cn_set_time]. destruct (Z.eqb_spec (sd_next_seqno (cn_sender c)) 0); [lia|].
  destruct (Z.eqb_spec (sd_bytes_in_flight (cn_sender c)) (sd_next_seqno (cn_sender c))); [lia|].
  rewrite andb_false_r. cbn [andb]. unfold segment_received_tail. cbn [cn_receiver cn_set_time].
  rewrite Er', res_bind_Ok, Hack, Hackno. cbn [cn_sender cn_set_receiver cn_set_time]. rewrite E, res_bind_Ok.
  eexists. split; [done|]. set (s2 := if _ && _ then _ else s').
  assert (H2 : sd_fin s2 = true /\ sd_bytes_in_flight s2 = 0 /\ sender_summary s2 = sender_summary s').
  { unfold s2. by destruct (_ && _). }
  destruct H2 as (Hf2 & Hb2 & Hs2). apply (fin_recv_iff _ d Hq') in Hsum as Hsum'. destruct Hsum' as (_ & _ & Hend).
  assert (Hs' : sender_summary s' = S_FIN_ACKED) by (by apply (fin_acked_iff s' _ I' (ci_total _ _ _ Hi))).
  unfold send_sender_segments. rewrite flush_loop_eq. set (c2 := if _ && _ then _ else _).
  assert (Hc2 : c2 = cn_set_sender (cn_set_receiver (cn_set_time c 0) r') s2).
  { unfold c2. simpl. by rewrite (ci_rst _ _ _ Hi), andb_false_r. }
  rewrite Hc2. unfold clean_shutdown. cbn [cn_receiver cn_sender cn_set_sender cn_set_receiver cn_set_time
    cn_linger_after_streams_finish]. rewrite Hend, El.
  cbn [sd_fin sd_bytes_in_flight sd_set_segments_out]. rewrite Hf2, Hb2.
  cbn [negb orb Z.eqb]. unfold TCPConnection_state. cbn [cn_set_active cn_sender cn_receiver cn_active].
  change (sender_summary (sd_set_segments_out s2 [])) with (sender_summary s2). by rewrite Hsum, Hs2, Hs'.
Qed.

Lemma demo_reaches_last_ack : exists c,
  reach (cn_step any_segment) (TCPConnection_new demo_cfg 0, [], []) (c, [], []) /\
  TCPConnection_state c = TCPState_of LAST_ACK /\ sd_next_seqno (cn_sender c) = 2 /\
  sd_isn (cn_sender c) = demo_isn /\ any_segment (cn_receiver c) (demo_segment 2 2 false false).
Proof.
  eexists. split.
  - eapply reach_step; [eapply reach_step; [eapply reach_step; [eapply reach_step; [apply reach_refl|]|]|]|].
    + eapply cn_step_connect. vm_compute. reflexivity.
    + eapply (cn_step_segment _ _ _ _ (demo_segment 0 1 true false)); [|apply demo_segment_typed|];
        vm_compute; reflexivity.
    + eapply (cn_step_segment _ _ _ _ (demo_segment 1 1 false true)); [|apply demo_segment_typed|];
        vm_compute; reflexivity.
    + eapply cn_step_end. vm_compute. reflexivity.
  - vm_compute. done.
Qed.

Lemma last_ack_closes_witness : exists c c',
  TCPConnection_segment_received c (demo_segment 2 2 false false) = Ok c' /\
  TCPConnection_state c' = TCPState_of CLOSED.
Proof.
  destruct demo_reaches_last_ack as (c & Hr & Hs & Hn & Hi & Ha). exists c.
  apply (last_ack_closes demo_cfg 0 c [] [] (demo_segment 2 2 false false));
    [apply demo_cfg_ok|exact Hr|exact Hs|exact Ha|simpl; lia|reflexivity|reflexivity|].
  rewrite Hn, Hi. reflexivity.
Defined.

(** *** Replies *)

Lemma stamp_ack r b t a : TCPReceiver_ackno r = Some a ->
  th_ack (ts_header (stamp r b t)) = true /\ th_ackno (ts_header (stamp r b t)) = a /\
  th_win (ts_header (stamp r b t)) = u16 (TCPReceiver_window_size r).
Proof. intros E. unfold stamp. rewrite E. by destruct b. Qed.

(** replies: in every run, when a segment with ACK that occupies sequence numbers
    reaches an active connection that is past LISTEN (and carries no data in
    SYN_SENT), at least one segment is sent back, and every segment sent carries the
    receiver's updated acknowledgment number and its window modulo 2^16. *)
Theorem occupying_segment_is_answered cfg random c w d seg :
  cfg_ok cfg -> reach (cn_step any_segment) (TCPConnection_new cfg random, [], []) (c, w, d) ->
  cn_active c = true -> 0 < sd_next_seqno (cn_sender c) ->
  (sd_bytes_in_flight (cn_sender c) = sd_next_seqno (cn_sender c) -> Buffer_str (ts_payload seg) = []) ->
  any_segment (cn_receiver c) seg -> segment_typed seg ->
  th_rst (ts_header seg) = false -> th_ack (ts_header seg) = true -> 0 < length_in_sequence_space seg ->
  exists c' new, TCPConnection_segment_received c seg = Ok c' /\
    cn_segments_out c' = cn_segments_out c ++ new /\ new <> [] /\
    Forall (fun t => forall a, TCPReceiver_ackno (cn_receiver c') = Some a ->
      th_ack (ts_header t) = true /\ th_ackno (ts_header t) = a /\
      th_win (ts_header t) = u16 (TCPReceiver_window_size (cn_receiver c'))) new.
Proof.
  intros Hcfg Hr Ha Hn Hss Hany [Hta Htw] Hrst Hack Hlen.
  destruct (sound_reach cfg random c w d Hcfg Hr) as (f & Hi & _).
  destruct (rc_segment _ d seg (ci_recv _ _ _ Hi) Hany) as (r' & Er & _).
  destruct (ack_received_inv _ f (th_ackno (ts_header seg)) (th_win (ts_header seg)) (ci_sender _ _ _ Hi)
    (total_bound _ (ci_total _ _ _ Hi)) (pre_flight _ _ _ (pre_of_inv _ _ _ Hi)) Hta Htw) as (s' & m & Es & _).
  set (s2 := if is_empty (sd_segments_out s') then TCPSender_send_empty_segment s' else s').
  set (c2 := cn_set_sender (cn_set_receiver (cn_set_time c 0) r') s2).
  assert (E : TCPConnection_segment_received c seg = Ok (send_sender_segments c2)).
  { unfold TCPConnection_segment_received. rewrite Ha, Hrst, Hack. cbn [negb]. cbv zeta.
    cbn [cn_sender cn_receiver cn_set_time].
    destruct (Z.eqb_spec (sd_next_seqno (cn_sender c)) 0), (Z.ltb_spec 0 (sd_next_seqno (cn_sender c))); try lia.
    cbn [andb]. assert (Ht : segment_received_tail (cn_set_time c 0) seg = Ok (send_sender_segments c2)).
    { unfold segment_received_tail. cbn [cn_receiver cn_set_time]. rewrite Er, res_bind_Ok, Hack.
      cbn [cn_sender cn_set_receiver cn_set_time]. rewrite Es, res_bind_Ok.
      by destruct (Z.ltb_spec 0 (length_in_sequence_space seg)); [|lia]. }
    destruct (Z.eqb_spec (sd_bytes_in_flight (cn_sender c)) (sd_next_seqno (cn_sender c))) as [Eb|]; [|done].
    by rewrite (Hss Eb). }
  eexists _, _. split; [exact E|]. destruct (flush_out c2) as (-> & -> & _). split; [done|].
  assert (Hnr : cn_need_send_rst c2 = false) by apply (ci_rst _ _ _ Hi). rewrite Hnr, andb_false_r.
  assert (Hne : exists t l, sd_segments_out (cn_sender c2) = t :: l).
  { unfold c2, s2. simpl. destruct (sd_segments_out s') as [|t l] eqn:Eo; simpl; rewrite ?Eo; eauto. }
  destruct Hne as (t & l & ->). split; [done|]. simpl. constructor; [intros a; apply stamp_ack|].
  apply Forall_map, Forall_forall. intros x _ a. apply stamp_ack.
Qed.

Definition rst_segment (seqno : Z) : TCPSegment :=
  mkTCPSegment (th_set_rst (th_set_seqno TCPHeader_default (wrap seqno (to_WrappingInt32 500))) true) Buffer_empty.

Lemma demo_reaches_established : exists c,
  reach (cn_step any_segment) (TCPConnection_new demo_cfg 0, [], []) (c, [], []) /\
  cn_active c = true /\ sd_next_seqno (cn_sender c) = 1 /\ sd_bytes_in_flight (cn_sender c) = 0 /\
  any_segment (cn_receiver c) (demo_segment 1 1 false true) /\
  TCPConnection_state c = TCPState_of ESTABLISHED /\ listening c = false /\
  rst_acceptable c (rst_segment 1) = true.
Proof.
  eexists. split.
  - eapply reach_step; [eapply reach_step; [apply reach_refl|]|].
    + eapply cn_step_connect. vm_compute. reflexivity.
    + eapply (cn_step_segment _ _ _ _ (demo_segment 0 1 true false)); [|apply demo_segment_typed|];
        vm_compute; reflexivity.
  - vm_compute. done.
Qed.

Lemma occupying_segment_is_answered_witness : exists c c' new,
  TCPConnection_segment_received c (demo_segment 1 1 false true) = Ok c' /\
  cn_segments_out c' = cn_segments_out c ++ new /\ new <> [].
Proof.
  destruct demo_reaches_established as (c & Hr & Ha & Hn & Hb & Hany & _).
  destruct (occupying_segment_is_answered demo_cfg 0 c [] [] (demo_segment 1 1 false true))
    as (c' & new & E & Ho & Hne & _);
    [apply demo_cfg_ok|exact Hr|exact Ha|rewrite Hn; lia|reflexivity|exact Hany|apply demo_segment_typed
    |reflexivity|reflexivity|reflexivity|].
  exists c, c', new. split; [exact E|]. split; [exact Ho|exact Hne].
Defined.

(** *** Witnesses on the established demonstration connection *)

(** After the handshake, a segment with all flags but RST set, far outside the window
    and acknowledging bytes never sent. *)
Definition wild_segment : TCPSegment :=
  mkTCPSegment (th_set_ack (th_set_fin (th_set_syn (th_set_seqno TCPHeader_default
    (to_WrappingInt32 4000000000)) true) true) (to_WrappingInt32 77) 65535) (Buffer_of_string (text [1; 2; 3])).

Lemma wild_run : exists c,
  reach (cn_step any_segment) (TCPConnection_new demo_cfg 0, [], []) (c, text [72; 105], []) /\
  map (fun t => Buffer_str (ts_payload t)) (cn_segments_out c) = [[]; []; text [72; 105]; []] /\
  any_segment (cn_receiver c) wild_segment.
Proof.
  change (text [72; 105]) with ([] ++ ztake 2 (text [72; 105])) at 1.
  eexists. split.
  - eapply reach_step; [eapply reach_step; [eapply reach_step; [eapply reach_step; [apply reach_refl|]|]|]|].
    + eapply cn_step_connect. vm_compute. reflexivity.
    + eapply (cn_step_segment _ _ _ _ (demo_segment 0 1 true false)); [|apply demo_segment_typed|];
        vm_compute; reflexivity.
    + eapply (cn_step_write _ _ _ _ (text [72; 105]) 2); [reflexivity|vm_compute; congruence|vm_compute; reflexivity].
    + eapply (cn_step_segment _ _ _ _ wild_segment); [vm_compute; reflexivity| |vm_compute; reflexivity].
      split; [apply to_WrappingInt32_ok|simpl; lia].
  - split; vm_compute; reflexivity.
Qed.

Lemma connection_survives_any_peer_witness : exists c,
  map (fun t => Buffer_str (ts_payload t)) (cn_segments_out c) = [[]; []; text [72; 105]; []] /\
  (exists c', TCPConnection_segment_received c wild_segment = Ok c') /\
  Forall (sent_ok (sd_isn (cn_sender c)) (text [72; 105]) (ByteStream_input_ended (sd_stream (cn_sender c))))
    (cn_segments_out c).
Proof.
  destruct wild_run as (c & Hr & Ho & Hany). exists c. split; [exact Ho|].
  destruct (connection_survives_any_peer demo_cfg 0 c (text [72; 105]) []) as (_ & _ & _ & Hs & _ & Hf & _);
    [apply demo_cfg_ok|exact Hr|].
  split; [|exact Hf]. apply Hs; [exact Hany|]. split; [apply to_WrappingInt32_ok|simpl; lia].
Defined.

(** C39: a reset from the peer, in every run (owner as in [cn_step]): in LISTEN a segment
    with RST changes nothing but the time since the last segment; in SYN_SENT a RST that acknowledges the SYN, and in any
    later state a RST inside the receive window, puts the connection in the official
    state RESET - both streams in error, inactive. In neither case is anything sent in
    reply. (The code also resets on the RSTs the tests want ignored:
    [unacceptable_reset_is_obeyed].) *)
Theorem reset_received cfg random c w d seg :
  cfg_ok cfg -> reach (cn_step any_segment) (TCPConnection_new cfg random, [], []) (c, w, d) ->
  cn_active c = true -> th_rst (ts_header seg) = true ->
  listening c = true \/ rst_acceptable c seg = true ->
  exists c', TCPConnection_segment_received c seg = Ok c' /\ cn_segments_out c' = cn_segments_out c /\
    TCPConnection_state c' = (if listening c then TCPConnection_state c else TCPState_of RESET) /\
    (listening c = true -> c' = cn_set_time c 0).
Proof. intros Hcfg Hr Ha Hrst _. by eapply any_reset_received. Qed.

Lemma reset_received_witness : exists c c',
  TCPConnection_state c = TCPState_of ESTABLISHED /\
  TCPConnection_segment_received c (rst_segment 1) = Ok c' /\ TCPConnection_state c' = TCPState_of RESET.
Proof.
  destruct demo_reaches_established as (c & Hr & Ha & _ & _ & _ & Hst & Hl & Hacc).
  destruct (reset_received demo_cfg 0 c [] [] (rst_segment 1)) as (c' & E & _ & Hs & _);
    [apply demo_cfg_ok|exact Hr|exact Ha|reflexivity|right; exact Hacc|].
  exists c, c'. rewrite Hl in Hs. split; [exact Hst|]. split; [exact E|exact Hs].
Defined.

(** *** Divergences *)

Definition demo_established : res TCPConnection :=
  c ← TCPConnection_connect (TCPConnection_new demo_cfg 0);
  TCPConnection_segment_received c (demo_segment 0 1 true false).

Definition demo_reset : res TCPConnection :=
  c ← demo_established;
  TCPConnection_segment_received c (mkTCPSegment (th_set_rst TCPHeader_default true) Buffer_empty).

(** the comment above the last lines of [segment_received] says that any segment
    that occupies sequence numbers gets a reply; a data segment without the ACK
    flag gets none although its byte is accepted. And the advertised window is the
    free capacity truncated to 16 bits: a connection with a 65536-byte receive
    buffer, all of it free, advertises a window of 0. *)
Theorem reply_divergences :
  (exists c c', demo_established = Ok c /\
     TCPConnection_segment_received c
       (mkTCPSegment (th_set_seqno TCPHeader_default (to_WrappingInt32 501)) (Buffer_of_string (text [65]))) = Ok c' /\
     ByteStream_bytes_written (TCPConnection_inbound_stream c') = 1 /\ cn_segments_out c' = cn_segments_out c) /\
  (exists c seg, TCPConnection_segment_received
       (TCPConnection_new (mkTCPConfig 1000 65536 64000 (Some demo_isn)) 0)
       (syn_of (to_WrappingInt32 500)) = Ok c /\
     TCPReceiver_window_size (cn_receiver c) = 65536 /\ cn_segments_out c = [seg] /\
     th_win (ts_header seg) = 0).
Proof.
  split.
  - eexists _, _. split; [vm_compute; reflexivity|]. split; [vm_compute; reflexivity|]. vm_compute. done.
  - eexists _, _. split; [vm_compute; reflexivity|]. vm_compute. done.
Qed.

(** [write] does not look at [active()]: after the peer's RST has put the
    connection in the state RESET, writing still queues data segments for the
    network. *)
Theorem write_after_reset_transmits :
  exists c c' n seg, demo_reset = Ok c /\
    TCPConnection_state c = TCPState_of RESET /\
    TCPConnection_write c (text [72; 105]) = Ok (n, c') /\
    cn_segments_out c' = cn_segments_out c ++ [seg] /\ Buffer_str (ts_payload seg) = text [72; 105].
Proof.
  eexists _, _, _, _. split; [vm_compute; reflexivity|]. split; [reflexivity|].
  split; [vm_compute; reflexivity|]. vm_compute. done.
Qed.

(** [fsm_ack_rst.cc] (tests 4 and 5) wants a RST without ACK, or with an ACK of something
    never sent, ignored in SYN_SENT; the guard for it is commented out in
    [segment_received] and both reset the connection. So does, in ESTABLISHED, a RST
    outside the receive window. *)
Theorem unacceptable_reset_is_obeyed :
  let rst_ack := mkTCPSegment (th_set_ack (ts_header (rst_segment 0)) (wrap 5 demo_isn) 0) Buffer_empty in
  exists c c1 c2 e c3, TCPConnection_connect (TCPConnection_new demo_cfg 0) = Ok c /\
    TCPConnection_state c = TCPState_of SYN_SENT /\
    rst_acceptable c (rst_segment 0) = false /\ rst_acceptable c rst_ack = false /\
    TCPConnection_segment_received c (rst_segment 0) = Ok c1 /\ TCPConnection_state c1 = TCPState_of RESET /\
    TCPConnection_segment_received c rst_ack = Ok c2 /\ TCPConnection_state c2 = TCPState_of RESET /\
    demo_established = Ok e /\ rst_acceptable e (rst_segment 100000) = false /\
    TCPConnection_segment_received e (rst_segment 100000) = Ok c3 /\ TCPConnection_state c3 = TCPState_of RESET.
Proof.
  eexists _, _, _, _, _. split; [vm_compute; reflexivity|].
  repeat (split; [vm_compute; reflexivity|]). vm_compute. reflexivity.
Qed.

(** [write] does not look at [input_ended()] either: bytes written after
    [end_input_stream] are sent behind the FIN already transmitted, with a second FIN. *)
Theorem late_write_goes_past_the_fin :
  exists e c1 c2 n, demo_established = Ok e /\ TCPConnection_end_input_stream e = Ok c1 /\
    TCPConnection_write c1 (text [72]) = Ok (n, c2) /\ n = 1 /\
    map (fun t => (u32 (raw_value (th_seqno (ts_header t)) - raw_value (wrap 1 demo_isn)),
                   Buffer_str (ts_payload t), th_fin (ts_header t))) (drop 2 (cn_segments_out c2))
      = [(0, [], true); (1, text [72], true)].
Proof.
  eexists _, _, _, _. split; [vm_compute; reflexivity|]. split; [vm_compute; reflexivity|].
  split; [vm_compute; reflexivity|]. by vm_compute.
Qed.
