(* ===== verification/EndToEnd.v ===== *)
(** * Two connections and a network between them

    Composes two [TCPConnection]s ([libsponge/tcp_connection.cc]) over a network that
    may lose, duplicate, delay and reorder segments but does not alter them: what is
    handed to the application on one side is a prefix of what the application on the
    other side wrote. The network is not code of the repository; it is the
    nondeterminism of [net_step]. *)

From S2P Require Import Prelude WrappingInts Buffers ByteStreams Reassembler Parser TCPSegments Receiver Sender Connection.

(** ** The receiver against one peer

    [rv_safe S isn cap r del]: everything the receiver accepted agrees with the peer's
    stream [S], which starts at [isn]. Unlike [rv_inv] of [Receiver.v] it says nothing
    about end-of-file marks, so it holds under any loss and reordering. *)
Record rv_safe (S : bytes) (isn : WrappingInt32) (cap : Z) (r : TCPReceiver) (del : bytes) : Prop :=
  mk_safe {
  rs_ex : exists g M, sr_repr (rv_reassembler r) g M /\ agrees S M /\ ff_cap g = cap /\
            del = ztake (ff_nread g) (ff_hist g);
  rs_isn : rv_syn r = true -> rv_isn r = isn;
  rs_check : rv_checkpoint r = sr_first_unassembled (rv_reassembler r)
}.

Lemma rv_safe_new isn cap : 0 <= cap < W64 -> rv_safe [] isn cap (TCPReceiver_new cap) [].
Proof.
  intros Hc. split; [|done|done]. exists (mkFifo [] 0 cap false false), ∅.
  split; [by apply sr_repr_new|]. split; [intros k d; by rewrite lookup_empty|]. done.
Qed.

Lemma agrees_prefix_mono S S' M : is_prefix S S' -> agrees S M -> agrees S' M.
Proof.
  intros [t ->] HA k d Hk. pose proof (HA k d Hk) as Hn. pose proof (znth_Some_range _ _ _ Hn).
  by rewrite znth_app_l by lia.
Qed.

Lemma rv_safe_mono S S' isn cap r del : is_prefix S S' -> rv_safe S isn cap r del -> rv_safe S' isn cap r del.
Proof.
  intros Hp [(g & M & R & HA & Hg) Hi Hc]. split; [|done|done]. exists g, M.
  split; [done|]. split; [by eapply agrees_prefix_mono|done].
Qed.

Section Peer.
Context (S : bytes) (isn : WrappingInt32) (cap : Z).
Context (Hisn : wi_ok isn) (HS : zlen S + 2 <= W31) (Hlim : cap + W32 < W64).

(** Bytes a peer's segment puts in the map are bytes of its stream. *)
Lemma peer_bytes_agree r e seg M limit :
  sent_ok isn S e seg -> rv_isn_after r seg = isn -> agrees S M ->
  0 <= rv_checkpoint r <= zlen S ->
  agrees S (accept M (Buffer_str (ts_payload seg)) (rv_index r seg) limit).
Proof.
  intros Hs Hi HM Hck. unfold rv_index. rewrite Hi.
  destruct Hs as [[start [Hseq Hsm Hst _]]|(n & Hn & Hseq & Hp & _)]; unfold payload_of in *.
  2:{ by rewrite Hp. }
  destruct (th_syn (ts_header seg)) eqn:Esyn.
  - destruct Hst as (-> & _ & Hp). by rewrite Hp.
  - destruct Hst as (Hst & Hend & Hp). rewrite Hseq.
    pose proof (zlen_nonneg (Buffer_str (ts_payload seg))).
    pose proof (legal_index isn (rv_checkpoint r) false (start - 1) Hisn ltac:(lia) ltac:(lia) ltac:(done)) as El.
    replace (start - 1 + 1) with start in El by lia. rewrite El.
    apply agrees_accept; [done|lia|]. intros k b. rewrite Hp. apply slice_nth. lia.
Qed.

(** The initial sequence number in force after a peer's segment. *)
Lemma peer_isn r e seg : sent_ok isn S e seg -> (rv_syn r = true -> rv_isn r = isn) ->
  th_syn (ts_header seg) = true \/ rv_syn r = true -> rv_isn_after r seg = isn.
Proof.
  intros Hs Hr Hsyn. unfold rv_isn_after.
  destruct (th_syn (ts_header seg)) eqn:Es, (rv_syn r) eqn:Er; simpl; try by auto.
  - destruct Hs as [[start [Hseq _ Hst _]]|(n & _ & _ & _ & Hn & _)]; [|congruence].
    rewrite Es in Hst. destruct Hst as (-> & _). rewrite Hseq. by apply wrap_0.
  - by destruct Hsyn.
Qed.

Lemma peer_payload_small e seg : sent_ok isn S e seg -> zlen (Buffer_str (ts_payload seg)) <= MAX_PAYLOAD_SIZE.
Proof.
  intros [[start [_ ? _ _]]|(n & _ & _ & Hp & _)]; [done|]. unfold payload_of in Hp. by rewrite Hp.
Qed.

Definition from_peer (r : TCPReceiver) (seg : TCPSegment) : Prop := exists e, sent_ok isn S e seg.

Lemma safe_facts r del : rv_safe S isn cap r del -> exists g M,
  sr_repr (rv_reassembler r) g M /\ agrees S M /\ ff_cap g = cap /\ del = ztake (ff_nread g) (ff_hist g) /\
  is_prefix (ff_hist g) S /\ 0 <= rv_checkpoint r <= zlen S /\ 0 <= ff_nread g <= zlen S.
Proof.
  intros [(g & M & R & HM & Hg & Hd) _ Hc]. exists g, M. destruct (agrees_prefix S _ g M R HM) as [t Ht].
  pose proof (sc_fu _ _ _ _ _ _ _ (rp_core _ _ _ R)) as Hf. pose proof (br_nreadb _ _ (rp_out _ _ _ R)).
  assert (zlen (ff_hist g) <= zlen S) by (rewrite Ht, zlen_app; zlia).
  split_and!; try done; [by exists t|rewrite Hc, Hf; zlia|rewrite Hc, Hf; zlia|lia|lia].
Qed.

(** The receiver keeps its promise to a connection whose peer sends [S]. *)
Lemma safe_contract : ReceiverContract (rv_safe S isn cap) from_peer.
Proof.
  split.
  - intros r del seg Hs [e Hp]. destruct (safe_facts r del Hs) as (g & M & R & HM & Hg & Hd & _ & Hck & Hnr).
    pose proof (peer_payload_small e seg Hp) as Hpl. unfold MAX_PAYLOAD_SIZE in Hpl.
    destruct (segment_received_total r g M seg R ltac:(lia)) as
      (r' & g' & M' & E & R' & Hn' & Hc' & _ & _ & [t Ht] & Hcase).
    exists r'. split; [done|]. destruct Hcase as [(-> & _ & _)|(Hsyn & Hs' & Hi' & HM' & Hck')]; [done|].
    pose proof (peer_isn r e seg Hp (rs_isn _ _ _ _ _ Hs) Hsyn) as Hia.
    split; [|intros _; by rewrite Hi'|done]. exists g', M'. split; [done|]. split; [|split; [congruence|]].
    + rewrite HM'. by eapply peer_bytes_agree.
    + pose proof (br_nreadb _ _ (rp_out _ _ _ R)). rewrite Hd, Hn', Ht. by rewrite ztake_app_le by lia.
  - intros r del n Hs Hn. destruct (safe_facts r del Hs) as (g & M & R & HM & Hg & Hd & _).
    destruct (receiver_read_repr r g M n R Hn) as (r' & E & R' & Hs1 & Hi1 & Hc1).
    eexists _, r'. split; [done|]. split.
    + exists (fifo_pop g n), M. split; [done|]. split; [done|]. split; [done|].
      rewrite Hd. apply pop_take; [apply R|done].
    + intros Hy. rewrite Hi1. apply (rs_isn _ _ _ _ _ Hs). congruence.
    + rewrite Hc1, (rs_check _ _ _ _ _ Hs).
      by rewrite (sc_fu _ _ _ _ _ _ _ (rp_core _ _ _ R)), (sc_fu _ _ _ _ _ _ _ (rp_core _ _ _ R')).
  - intros r del [(g & M & R & HM & Hg & Hd) Hi Hc]. split; [|done|done].
    eexists _, M. split; [by apply sr_set_error_repr|]. done.
  - intros r del Hs. destruct (safe_facts r del Hs) as (g & M & R & _). by exists g, M.
Qed.
End Peer.

(** ** The network *)

Record net : Type := mkNet {
  nt_a : cn_state;                  (* connection, bytes written, bytes read *)
  nt_b : cn_state;
  nt_ab : list TCPSegment;          (* segments A put on the wire so far *)
  nt_ba : list TCPSegment
}.

Definition conn (x : cn_state) : TCPConnection := fst (fst x).
Definition written (x : cn_state) : bytes := snd (fst x).
Definition delivered (x : cn_state) : bytes := snd x.

(** Each side runs its calls; it may receive any segment the other side ever put on the
    wire, any number of times, or never. *)
Inductive net_step : net -> net -> Prop :=
| net_a a a' b ab ba : cn_step (fun _ seg => seg ∈ ba) a a' -> net_step (mkNet a b ab ba) (mkNet a' b ab ba)
| net_b a b b' ab ba : cn_step (fun _ seg => seg ∈ ab) b b' -> net_step (mkNet a b ab ba) (mkNet a b' ab ba)
| net_send_a a b ab ba seg :
    seg ∈ cn_segments_out (conn a) -> net_step (mkNet a b ab ba) (mkNet a b (seg :: ab) ba)
| net_send_b a b ab ba seg :
    seg ∈ cn_segments_out (conn b) -> net_step (mkNet a b ab ba) (mkNet a b ab (seg :: ba)).

Definition net_new (cfgA cfgB : TCPConfig) (ra rb : Z) : net :=
  mkNet (TCPConnection_new cfgA ra, [], []) (TCPConnection_new cfgB rb, [], []) [] [].

Lemma cn_step_weaken (P P' : TCPReceiver -> TCPSegment -> Prop) x y :
  (forall r seg, P r seg -> P' r seg) -> cn_step P x y -> cn_step P' x y.
Proof.
  intros HP []; [eapply cn_step_connect|eapply cn_step_write|eapply cn_step_end|eapply cn_step_tick|
    eapply cn_step_segment|eapply cn_step_read|eapply cn_step_pop]; eauto.
Qed.

Lemma cn_inv_weaken (Q Q' : TCPReceiver -> bytes -> Prop) c f d :
  (forall r, Q r d -> Q' r d) -> cn_inv Q c f d -> cn_inv Q' c f d.
Proof. intros HQ []. split; try done. by apply HQ. Qed.

(** One direction of the joint invariant: [x] sends, [y] receives. *)
Record flow (isn : WrappingInt32) (f : fifo) (wire : list TCPSegment) : Prop := {
  fl_isn : wi_ok isn;
  fl_total : zlen (ff_hist f) + 2 <= W31;
  fl_wire : Forall (sent_ok isn (ff_hist f) (ff_ended f)) wire
}.

(** One side [x] of the pair: its sender serves [f], its receiver agrees with the
    peer's stream [g]. *)
Record side (isn : WrappingInt32) (cap : Z) (x : cn_state) (f : fifo) (peer : WrappingInt32) (g : fifo) : Prop := {
  sde_inv : cn_inv (rv_safe (ff_hist g) peer cap) (conn x) f (delivered x);
  sde_hist : ff_hist f = written x;
  sde_isn : sd_isn (cn_sender (conn x)) = isn;
  sde_cap : 0 <= cap /\ cap + W32 < W64
}.

Lemma wire_evolves isn f f' wire : evolves f f' -> Forall (sent_ok isn (ff_hist f) (ff_ended f)) wire ->
  Forall (sent_ok isn (ff_hist f') (ff_ended f')) wire.
Proof. intros [_ He] Hw. eapply Forall_impl; [exact Hw|]. apply He. Qed.

(** The peer's stream grew: this side still agrees with it. *)
Lemma side_peer_evolves isn cap x f peer g g' : evolves g g' -> side isn cap x f peer g -> side isn cap x f peer g'.
Proof.
  intros [Hp _] [I Hh Hi Hc]. split; try done.
  eapply cn_inv_weaken; [|exact I]. intros r. by apply rv_safe_mono.
Qed.

(** A step of one side, fed from a wire that carries the peer's stream. *)
Lemma side_step isn cap x x' f peer g wire :
  side isn cap x f peer g -> flow peer g wire -> cn_step (fun _ seg => seg ∈ wire) x x' ->
  exists f', side isn cap x' f' peer g /\ evolves f f' /\ zlen (ff_hist f') + 2 <= W31.
Proof.
  intros [I Hh Hi [Hc1 Hc2]] [Hisn Ht Hw] Hstep. destruct x as [[c w] d], x' as [[c' w'] d'].
  apply (cn_step_weaken _ (from_peer (ff_hist g) peer)) in Hstep.
  2:{ intros r seg Hin. rewrite Forall_forall in Hw. eexists. by apply Hw. }
  destruct (cn_step_inv (RC := safe_contract (ff_hist g) peer cap Hisn Ht Hc2) c w d c' w' d' f Hstep I Hh)
    as (f' & I' & Hh' & He & Hi').
  exists f'. split; [|split; [done|apply I']]. split; try done. unfold conn in *. simpl in *. congruence.
Qed.

Definition net_inv (ia ib : WrappingInt32) (ca cb : Z) (n : net) : Prop :=
  exists f g, side ia ca (nt_a n) f ib g /\ side ib cb (nt_b n) g ia f /\
    flow ia f (nt_ab n) /\ flow ib g (nt_ba n).

Lemma net_step_inv ia ib ca cb n n' : net_inv ia ib ca cb n -> net_step n n' -> net_inv ia ib ca cb n'.
Proof.
  intros (f & g & HA & HB & Fa & Fb) Hstep.
  destruct Hstep as [a a' b ab ba Hs|a b b' ab ba Hs|a b ab ba seg Hin|a b ab ba seg Hin]; simpl in *.
  - destruct (side_step _ _ _ _ _ _ _ _ HA Fb Hs) as (f' & HA' & He & Ht). exists f', g.
    split; [done|]. split; [by eapply side_peer_evolves|]. split; [|done].
    destruct Fa. split; try done. by eapply wire_evolves.
  - destruct (side_step _ _ _ _ _ _ _ _ HB Fa Hs) as (g' & HB' & He & Ht). exists f, g'.
    split; [by eapply side_peer_evolves|]. split; [done|]. split; [done|].
    destruct Fb. split; try done. by eapply wire_evolves.
  - exists f, g. split; [done|]. split; [done|]. split; [|done]. destruct Fa. split; try done.
    constructor; [|done]. pose proof (ci_out _ _ _ (sde_inv _ _ _ _ _ _ HA)) as Ho.
    rewrite (sde_isn _ _ _ _ _ _ HA), Forall_forall in Ho. by apply Ho.
  - exists f, g. split; [done|]. split; [done|]. split; [done|]. destruct Fb. split; try done.
    constructor; [|done]. pose proof (ci_out _ _ _ (sde_inv _ _ _ _ _ _ HB)) as Ho.
    rewrite (sde_isn _ _ _ _ _ _ HB), Forall_forall in Ho. by apply Ho.
Qed.

Lemma side_new cfg random peer cap : cfg_ok cfg -> cfg_recv_capacity cfg + W32 < W64 ->
  side (isn_of cfg random) (cfg_recv_capacity cfg) (TCPConnection_new cfg random, [], [])
    (mkFifo [] 0 (cfg_send_capacity cfg) false false) peer (mkFifo [] 0 cap false false).
Proof.
  intros Hok Hr. destruct Hok as [H1 H2 H3 H4]. split; try done; [|lia].
  apply cn_inv_new; try done. by apply rv_safe_new.
Qed.

Lemma net_reach_inv cfgA cfgB ra rb n : cfg_ok cfgA -> cfg_ok cfgB ->
  cfg_recv_capacity cfgA + W32 < W64 -> cfg_recv_capacity cfgB + W32 < W64 ->
  reach net_step (net_new cfgA cfgB ra rb) n ->
  net_inv (isn_of cfgA ra) (isn_of cfgB rb) (cfg_recv_capacity cfgA) (cfg_recv_capacity cfgB) n.
Proof.
  intros HA HB HrA HrB. apply reach_invariant; [by intros ? ?; apply net_step_inv|].
  eexists _, _. split; [by apply side_new|]. split; [by apply side_new|].
  split; split; try done; by apply isn_of_ok.
Qed.

(** What the receiving side knows about the sending side. *)
Lemma side_prefix isn cap x f peer g : side isn cap x f peer g ->
  exists rest, ff_hist g =
    delivered x ++ ByteStream_peek_output (TCPConnection_inbound_stream (conn x)) cap ++ rest.
Proof.
  intros [I _ _ [Hc _]]. destruct (ci_recv _ _ _ I) as [(h & M & R & HM & Hcap & Hd) _ _].
  destruct (agrees_prefix _ _ h M R HM) as [t Ht]. exists t. pose proof (rp_out _ _ _ R) as Ro.
  unfold TCPConnection_inbound_stream, TCPReceiver_stream_out. rewrite (bs_peek_spec _ _ Ro) by lia.
  rewrite ztake_all by (pose proof (br_room _ _ Ro); lia).
  rewrite Hd, Ht, app_assoc. f_equal. symmetry. apply ztake_zdrop_id.
Qed.

Lemma side_accepts isn cap x f peer g wire seg :
  side isn cap x f peer g -> flow peer g wire -> seg ∈ wire -> segment_typed seg ->
  exists c', TCPConnection_segment_received (conn x) seg = Ok c'.
Proof.
  intros [I _ _ [Hc1 Hc2]] [Hisn Ht Hw] Hin Htyped.
  destruct (segment_inv (RC := safe_contract (ff_hist g) peer cap Hisn Ht Hc2) (conn x) f (delivered x) seg I)
    as (c' & _ & E & _); [|done|by exists c'].
  rewrite Forall_forall in Hw. eexists. by apply Hw.
Qed.

(** C3: end-to-end safety: two connections, started from any configurations and initial
    sequence numbers, over a network that loses, duplicates, delays and reorders
    segments at will: in every run in which each application writes less than 2^31 bytes,
    none of them after it has ended its stream, what either application has read,
    followed by what is buffered for it, is a prefix of what the other application
    wrote; and no segment of the run makes a connection throw. *)
Theorem tcp_delivers_prefix cfgA cfgB ra rb n : cfg_ok cfgA -> cfg_ok cfgB ->
  cfg_recv_capacity cfgA + W32 < W64 -> cfg_recv_capacity cfgB + W32 < W64 ->
  reach net_step (net_new cfgA cfgB ra rb) n ->
  (exists rest, written (nt_a n) = delivered (nt_b n) ++
     ByteStream_peek_output (TCPConnection_inbound_stream (conn (nt_b n))) (cfg_recv_capacity cfgB) ++ rest) /\
  (exists rest, written (nt_b n) = delivered (nt_a n) ++
     ByteStream_peek_output (TCPConnection_inbound_stream (conn (nt_a n))) (cfg_recv_capacity cfgA) ++ rest) /\
  (forall seg, seg ∈ nt_ba n -> segment_typed seg ->
     exists c', TCPConnection_segment_received (conn (nt_a n)) seg = Ok c') /\
  (forall seg, seg ∈ nt_ab n -> segment_typed seg ->
     exists c', TCPConnection_segment_received (conn (nt_b n)) seg = Ok c').
Proof.
  intros HA HB HrA HrB Hr.
  destruct (net_reach_inv cfgA cfgB ra rb n HA HB HrA HrB Hr) as (f & g & SA & SB & Fa & Fb).
  split; [|split; [|split]].
  - destruct (side_prefix _ _ _ _ _ _ SB) as [t Ht]. exists t. by rewrite <- (sde_hist _ _ _ _ _ _ SA).
  - destruct (side_prefix _ _ _ _ _ _ SA) as [t Ht]. exists t. by rewrite <- (sde_hist _ _ _ _ _ _ SB).
  - intros seg Hin Ht. eapply side_accepts; eauto.
  - intros seg Hin Ht. eapply side_accepts; eauto.
Qed.

(** ** Demonstration runs *)

Definition cfgA_demo : TCPConfig := demo_cfg.
Definition cfgB_demo : TCPConfig := mkTCPConfig 1000 64000 64000 (Some (to_WrappingInt32 500)).

Lemma cfgB_demo_ok : cfg_ok cfgB_demo.
Proof. split; simpl; try lia. intros i [= <-]. apply to_WrappingInt32_ok. Qed.

Ltac net_compute := vm_compute; reflexivity.
Ltac pick skip := cbn; skip; apply list_elem_of_here.
Ltac deliver skip := eapply cn_step_segment;
  [pick skip|split; vm_compute; split; congruence|net_compute].
Ltac next := apply list_elem_of_further.

(** The handshake, two bytes written by A, and the end of A's stream. *)
Ltac demo_open :=
  eapply reach_step; [eapply reach_step; [eapply reach_step; [eapply reach_step; [eapply reach_step;
    [eapply reach_step; [eapply reach_step; [apply reach_refl|]|]|]|]|]|]|];
  [eapply net_a, cn_step_connect; net_compute
  |eapply net_send_a; pick idtac
  |eapply net_b; deliver idtac
  |eapply net_send_b; pick idtac
  |eapply net_a; deliver idtac
  |eapply net_a, (cn_step_write _ _ _ _ (text [104; 105])); [reflexivity|vm_compute; congruence|net_compute]
  |eapply net_a, cn_step_end; net_compute].

(** The data segment arrives, and B reads it. *)
Lemma demo_delivered : exists n, reach net_step (net_new cfgA_demo cfgB_demo 0 0) n /\
  written (nt_a n) = text [104; 105] /\ delivered (nt_b n) = text [104; 105].
Proof.
  eexists. split.
  - eapply reach_step; [eapply reach_step; [eapply reach_step; [eapply reach_step; [eapply reach_step;
      [demo_open|]|]|]|]|].
    + eapply net_send_a. pick ltac:(do 1 next).
    + eapply net_b. deliver idtac.
    + eapply net_send_a. pick ltac:(do 2 next).
    + eapply net_b. deliver idtac.
    + eapply net_b, (cn_step_read _ _ _ _ 10); [lia|net_compute].
  - vm_compute. done.
Qed.

Lemma tcp_delivers_prefix_witness : exists n, delivered (nt_b n) = text [104; 105] /\
  exists rest, written (nt_a n) = delivered (nt_b n) ++
    ByteStream_peek_output (TCPConnection_inbound_stream (conn (nt_b n))) 64000 ++ rest.
Proof.
  destruct demo_delivered as (n & Hr & _ & Hd). exists n. split; [exact Hd|].
  destruct (tcp_delivers_prefix cfgA_demo cfgB_demo 0 0 n) as (H & _);
    [apply demo_cfg_ok|apply cfgB_demo_ok|reflexivity|reflexivity|exact Hr|exact H].
Defined.

(** end of file is not end-to-end safe: in a run where A writes two bytes and then
    ends its stream, the data segment is lost and the separate FIN segment arrives:
    B's application sees end of file - nothing read, nothing more to come - as if
    the stream had been empty. *)
Theorem lost_segment_truncates_stream : exists n,
  reach net_step (net_new cfgA_demo cfgB_demo 0 0) n /\ written (nt_a n) = text [104; 105] /\
  ByteStream_eof (TCPConnection_inbound_stream (conn (nt_b n))) = true /\
  ByteStream_bytes_written (TCPConnection_inbound_stream (conn (nt_b n))) = 0.
Proof.
  eexists. split.
  - eapply reach_step; [eapply reach_step; [demo_open|]|].
    + eapply net_send_a. pick ltac:(do 3 next).
    + eapply net_b. deliver idtac.
  - vm_compute. done.
Qed.
