(* ===== verification/Emitted.v ===== *)
(** * The segments a connection hands to its adapter

    Every segment that [TCPConnection] queues in [segments_out] has a header whose fields
    are within their wire formats and a payload that fits, so that serializing it and
    wrapping it in a datagram succeed. *)

From S2P Require Import Prelude WrappingInts Buffers ByteStreams Reassembler Checksum Parser TCPSegments Receiver Sender Connection.

(** A segment that can be serialized and sent: no options, a small payload. *)
Record seg_wire (seg : TCPSegment) : Prop := {
  sw_header : TCPHeader_valid (ts_header seg);
  sw_doff : th_doff (ts_header seg) = 5;
  sw_payload : Buffer_wf (ts_payload seg);
  sw_small : zlen (Buffer_str (ts_payload seg)) <= MAX_PAYLOAD_SIZE
}.

Lemma default_wire : seg_wire TCPSegment_default.
Proof. split; [apply TCPHeader_default_valid|done| |done]. repeat split; done. Qed.

(** The header fields the sender and the connection fill in. *)
Section Fields.
Context (h : TCPHeader) (p : Buffer) (W : seg_wire (mkTCPSegment h p)).

Lemma seqno_wire s : wi_ok s -> seg_wire (mkTCPSegment (th_set_seqno h s) p).
Proof. intros Hs. destruct W as [[] ? ? ?]. by repeat (split; try done). Qed.

Lemma syn_wire b : seg_wire (mkTCPSegment (th_set_syn h b) p).
Proof. destruct W as [[] ? ? ?]. by repeat (split; try done). Qed.

Lemma fin_wire b : seg_wire (mkTCPSegment (th_set_fin h b) p).
Proof. destruct W as [[] ? ? ?]. by repeat (split; try done). Qed.

Lemma rst_wire b : seg_wire (mkTCPSegment (th_set_rst h b) p).
Proof. destruct W as [[] ? ? ?]. by repeat (split; try done). Qed.

Lemma ack_wire a w : wi_ok a -> 0 <= w < W16 -> seg_wire (mkTCPSegment (th_set_ack h a w) p).
Proof. intros Ha Hw. destruct W as [[] ? ? ?]. by repeat (split; try done). Qed.
End Fields.

Lemma data_wire h p d : seg_wire (mkTCPSegment h p) -> zlen d <= MAX_PAYLOAD_SIZE ->
  seg_wire (mkTCPSegment h (Buffer_of_string d)).
Proof.
  intros [] Hd. split; try done. apply Buffer_wf_of_string. unfold MAX_PAYLOAD_SIZE in Hd. lia.
Qed.

#[local] Hint Resolve seqno_wire syn_wire fin_wire rst_wire ack_wire data_wire default_wire wrap_ok : sponge.

Lemma snoc_wire l seg : Forall seg_wire l -> seg_wire seg -> Forall seg_wire (l ++ [seg]).
Proof. intros Hl Hs. apply Forall_app. split; [done|]. by apply Forall_singleton. Qed.

(** ** The sender *)

(** The sender's own segments never carry RST: the connection sets it. *)
Definition plain (seg : TCPSegment) : Prop := th_rst (ts_header seg) = false.

Record sd_wire (s : TCPSender) : Prop := {
  dw_isn : wi_ok (sd_isn s);
  dw_out : Forall seg_wire (sd_segments_out s);
  dw_outstanding : Forall seg_wire (sd_segments_outstanding s);
  dw_plain_out : Forall plain (sd_segments_out s);
  dw_plain : Forall plain (sd_segments_outstanding s)
}.

(** A change of the other fields. *)
Lemma sd_wire_same s s' : sd_isn s' = sd_isn s -> sd_segments_out s' = sd_segments_out s ->
  sd_segments_outstanding s' = sd_segments_outstanding s -> sd_wire s -> sd_wire s'.
Proof. intros E1 E2 E3 []. split; by rewrite ?E1, ?E2, ?E3. Qed.

Lemma timer_wire s : sd_wire s -> sd_wire (sd_start_timer s).
Proof. unfold sd_start_timer. destruct (negb _); [by apply sd_wire_same|done]. Qed.

Lemma push_wire s seg : sd_wire s -> seg_wire seg -> plain seg -> sd_wire (sd_push s seg).
Proof.
  intros [] Hs Hp. split; simpl; [done|by apply snoc_wire|by apply snoc_wire|..]; (apply Forall_app; split; [done|by apply Forall_singleton]).
Qed.

Lemma read_small st n d st' : n <= MAX_PAYLOAD_SIZE -> ByteStream_read st n = Ok (d, st') -> zlen d <= MAX_PAYLOAD_SIZE.
Proof.
  intros Hn E. apply bind_Ok_inv in E as (? & _ & [= <- _]). unfold ByteStream_peek_output.
  set (m := if _ <? n then _ else n). assert (m <= n) by (unfold m; ztest; lia).
  unfold ztake, zlen. rewrite length_take. unfold MAX_PAYLOAD_SIZE in *. lia.
Qed.

Lemma fill_once_wire s remain s' r' : sd_wire s -> fill_once s remain = Ok (s', r') -> sd_wire s'.
Proof.
  intros Hs E. unfold fill_once in E. apply bind_Ok_inv in E as ([d st] & Hr & E). cbv beta iota zeta in E.
  apply read_small in Hr; [|lia].
  assert (Hseg : seg_wire (mkTCPSegment (th_set_seqno TCPHeader_default (wrap (sd_next_seqno s) (sd_isn s))) (Buffer_of_string d)))
    by (apply data_wire with Buffer_empty; [|done]; apply seqno_wire; [apply default_wire|apply wrap_ok]).
  cbn [ts_header ts_payload sd_set_stream sd_next_seqno sd_isn] in E.
  destruct (_ && _); injection E as <- <-; apply timer_wire;
    (eapply sd_wire_same; [..|apply push_wire]); try done; try (by apply fin_wire); by apply (sd_wire_same s).
Qed.

Lemma fill_loop_wire fuel : forall s remain s' r', sd_wire s -> fill_loop fuel s remain = Ok (s', r') -> sd_wire s'.
Proof.
  induction fuel as [|fuel IH]; intros s remain s' r' Hs E; [done|]. cbn [fill_loop] in E.
  destruct (_ && _); [|by injection E as <- _].
  apply bind_Ok_inv in E as ([s1 r1] & E1 & E2). apply (IH s1 r1 s' r'); [|done]. by eapply fill_once_wire.
Qed.

Lemma fill_window_wire s s' : sd_wire s -> TCPSender_fill_window s = Ok s' -> sd_wire s'.
Proof.
  intros Hs E. unfold TCPSender_fill_window in E. destruct (negb (sd_syn s)).
  - injection E as <-. unfold send_syn. cbv zeta. apply timer_wire.
    eapply sd_wire_same; [..|apply (push_wire (sd_set_syn s true))]; try done; [by apply (sd_wire_same s)|].
    apply seqno_wire; [apply syn_wire, default_wire|apply Hs].
  - cbv zeta in E. apply bind_Ok_inv in E as ([s1 r1] & E1 & E). apply fill_loop_wire in E1; [|done].
    destruct (_ && _ && _); injection E as <-; [|done]. unfold send_fin. cbv zeta. apply timer_wire.
    eapply sd_wire_same; [..|apply (push_wire (sd_set_fin s1 true))]; try done; [by apply (sd_wire_same s1)|].
    apply fin_wire, seqno_wire; [apply default_wire|apply wrap_ok].
Qed.

Lemma ack_loop_wire l : forall s u, sd_wire s -> Forall seg_wire l -> Forall plain l -> sd_wire (ack_loop l s u).
Proof.
  induction l as [|t l IH]; intros s u [? ? ? ? ?] Hl Hp; cbn [ack_loop]; [by split|].
  destruct (_ <? u); [|by split]. apply IH; [by split|by apply Forall_cons in Hl as [_ ?]|by apply Forall_cons in Hp as [_ ?]].
Qed.

Lemma ack_received_wire s a w s' : sd_wire s -> TCPSender_ack_received s a w = Ok s' -> sd_wire s'.
Proof.
  intros Hs E. unfold TCPSender_ack_received in E. cbv zeta in E.
  set (s1 := if (_ =? _) && _ then _ else s) in E.
  assert (H1 : sd_wire s1) by (unfold s1; destruct (_ && _); [by apply (sd_wire_same s)|done]). clearbody s1.
  destruct (sd_segments_outstanding s1) as [|t l] eqn:Eo; [by injection E as <-|].
  destruct (_ || _); [by injection E as <-|]. apply fill_window_wire in E; [done|].
  pose proof H1 as [? ? Ho ? Hp]. rewrite Eo in Ho, Hp.
  assert (H2 : sd_wire (ack_loop (t :: l) (sd_set_receiver_window_size s1 w)
    (unwrap a (sd_isn s) (sd_next_seqno s)))) by (apply ack_loop_wire; [by apply (sd_wire_same s1)|done|done]).
  cbn [sd_segments_outstanding sd_set_receiver_window_size]. rewrite Eo.
  generalize dependent (ack_loop (t :: l) (sd_set_receiver_window_size s1 w) (unwrap a (sd_isn s) (sd_next_seqno s))).
  intros s2 H2. destruct (sd_bytes_in_flight s2 =? 0); [|done]. by apply (sd_wire_same s2).
Qed.

Lemma tick_wire s ms : sd_wire s -> sd_wire (TCPSender_tick s ms).
Proof.
  intros [? ? Ho ? Hp]. unfold TCPSender_tick. cbv zeta. cbn [sd_segments_outstanding sd_set_tick].
  destruct (sd_segments_outstanding s) as [|t l] eqn:Eo; [split; simpl; by rewrite ?Eo|].
  assert (Ht : seg_wire t) by (by apply Forall_cons in Ho as [? _]).
  assert (Htp : plain t) by (by apply Forall_cons in Hp as [? _]).
  destruct (_ <=? _); [|split; simpl; by rewrite ?Eo].
  destruct (_ || _); split; simpl; rewrite ?Eo; try done; try (by apply snoc_wire); (apply Forall_app; split; [done|by apply Forall_singleton]).
Qed.

Lemma empty_wire s : sd_wire s -> sd_wire (TCPSender_send_empty_segment s).
Proof.
  intros []. split; simpl; try done; [apply snoc_wire; [done|]; apply seqno_wire; [apply default_wire|apply wrap_ok]|].
  apply Forall_app. split; [done|by apply Forall_singleton].
Qed.

(** ** The connection *)

Record cn_wire (c : TCPConnection) : Prop := {
  cw_sender : sd_wire (cn_sender c);
  cw_ackno : wi_ok (rv_ackno (cn_receiver c));
  cw_out : Forall seg_wire (cn_segments_out c)
}.

Lemma stamp_wire r b seg : wi_ok (rv_ackno r) -> seg_wire seg -> seg_wire (stamp r b seg).
Proof.
  intros Ha Hs. unfold stamp, TCPReceiver_ackno. cbv zeta. destruct seg as [h p]. cbn [ts_header ts_payload].
  assert (H1 : seg_wire (mkTCPSegment (th_set_ack h (rv_ackno r) (u16 (TCPReceiver_window_size r))) p))
    by (apply ack_wire; [done|done|apply u16_range]).
  destruct (negb (rv_syn r)), b; try done; by apply rst_wire.
Qed.

Lemma flush_wire c : cn_wire c -> cn_wire (send_sender_segments c).
Proof.
  intros [Hs Ha Ho]. unfold send_sender_segments. cbv zeta.
  set (c1 := if is_empty _ && _ then _ else c).
  assert (H1 : cn_wire c1) by (unfold c1; destruct (is_empty _ && _); [split; [by apply empty_wire|done|done]|done]).
  clearbody c1. rewrite flush_loop_eq.
  match goal with |- context [clean_shutdown ?x] => destruct (clean_shutdown_eq x) as (l & a & -> & _) end.
  destruct H1 as [H1 H2 H3]. split; simpl; [by destruct H1; split|done|]. apply Forall_app. split; [done|].
  destruct H1 as [_ Hq _ _ _]. destruct Hq as [|t q Ht Hq]; simpl; constructor; [by apply stamp_wire|].
  apply Forall_map. eapply Forall_impl; [done|]. intros x. by apply stamp_wire.
Qed.

Lemma connect_wire c c' : cn_wire c -> TCPConnection_connect c = Ok c' -> cn_wire c'.
Proof.
  intros [Hs Ha Ho] E. apply bind_Ok_inv in E as (s & E & [= <-]). apply flush_wire.
  split; simpl; [by eapply fill_window_wire|done|done].
Qed.

Lemma unclean_wire c b : cn_wire c -> cn_wire (unclean_shutdown c b).
Proof. intros [Hs Ha Ho]. apply flush_wire. split; simpl; [by apply (sd_wire_same (cn_sender c))|done|done]. Qed.

Lemma receiver_wire r seg r' : wi_ok (rv_ackno r) -> TCPReceiver_segment_received r seg = Ok r' -> wi_ok (rv_ackno r').
Proof.
  intros Ha E. unfold TCPReceiver_segment_received in E. destruct (_ && _); [by injection E as <-|].
  destruct (_ && _); [by injection E as <-|]. cbv zeta in E. apply bind_Ok_inv in E as (rs & _ & [= <-]). simpl.
  destruct (_ && _); apply wrap_ok.
Qed.

Lemma tail_wire c seg c' : cn_wire c -> segment_received_tail c seg = Ok c' -> cn_wire c'.
Proof.
  intros [Hs Ha Ho] E. unfold segment_received_tail in E. cbv zeta in E.
  apply bind_Ok_inv in E as (r & Er & E). apply receiver_wire in Er; [|done].
  destruct (th_ack _); [|injection E as <-; by split].
  apply bind_Ok_inv in E as (s & Es & [= <-]). apply ack_received_wire in Es; [|done]. apply flush_wire.
  destruct (_ && _); split; simpl; try done. by apply empty_wire.
Qed.

Lemma segment_wire c seg c' : cn_wire c -> TCPConnection_segment_received c seg = Ok c' -> cn_wire c'.
Proof.
  intros Hc E. unfold TCPConnection_segment_received in E. destruct (negb (cn_active c)); [by injection E as <-|].
  cbv zeta in E. set (c0 := cn_set_time c 0) in E. assert (H0 : cn_wire c0) by (by destruct Hc).
  change (cn_sender c) with (cn_sender c0) in E. clearbody c0.
  assert (Hr : forall r, TCPReceiver_segment_received (cn_receiver c0) seg = Ok r -> cn_wire (cn_set_receiver c0 r)).
  { intros r Er. destruct H0. apply receiver_wire in Er; [|done]. by split. }
  destruct (_ && is_none _).
  { destruct (th_rst _); [by injection E as <-|]. destruct (negb (th_syn _)); [by injection E as <-|].
    apply bind_Ok_inv in E as (r & Er & E). eapply connect_wire; [by apply Hr|done]. }
  destruct (th_rst _); [injection E as <-; by apply unclean_wire|].
  destruct (_ && _); [|by eapply tail_wire]. destruct (0 <? _); [by injection E as <-|].
  destruct (negb (th_ack _)); [|by eapply tail_wire]. destruct (th_syn _); [|by injection E as <-].
  apply bind_Ok_inv in E as (r & Er & [= <-]). destruct (Hr r Er). apply flush_wire. split; simpl; try done.
  by apply empty_wire.
Qed.

Lemma cn_step_wire P x y : cn_step P x y -> cn_wire (fst (fst x)) -> cn_wire (fst (fst y)).
Proof.
  intros Hstep Hw. destruct Hstep as [? ? ? ? E|? ? ? data n ? He Hl E|? ? ? ? E|? ? ? ms Hms|
    ? ? ? seg ? HP Ht E|? ? ? n b ? Hn E|? ? ? popped rest E]; simpl in *; pose proof Hw as [Hs Ha Ho].
  - by eapply connect_wire.
  - unfold TCPConnection_write in E. destruct data as [|x data]; [by injection E as _ <-|].
    destruct (TCPSender_write (cn_sender c) (x :: data)) as [k s1] eqn:Ew.
    apply bind_Ok_inv in E as (s2 & E2 & [= _ <-]). apply fill_window_wire in E2; [by apply flush_wire; split|].
    unfold TCPSender_write in Ew. destruct (ByteStream_write _ _). injection Ew as _ <-. by apply (sd_wire_same (cn_sender c)).
  - unfold TCPConnection_end_input_stream in E. apply bind_Ok_inv in E as (s & E & [= <-]).
    apply fill_window_wire in E; [by apply flush_wire; split|]. by apply (sd_wire_same (cn_sender c)).
  - unfold TCPConnection_tick. destruct (negb _); [done|]. cbv zeta. apply flush_wire.
    assert (H1 : cn_wire (cn_set_sender (cn_set_time c (cn_time_since_last_segment_received c +64 ms))
      (TCPSender_tick (cn_sender c) ms))) by (split; simpl; [by apply tick_wire|done|done]).
    destruct (_ <? _); [by apply unclean_wire|done].
  - by eapply segment_wire.
  - unfold TCPConnection_read in E. apply bind_Ok_inv in E as ([b' r] & Er & [= _ <-]).
    unfold TCPReceiver_read in Er. apply bind_Ok_inv in Er as ([? rs] & _ & [= _ <-]). by split.
  - split; [done|done|]. simpl. rewrite E in Ho. by apply Forall_app in Ho as [_ ?].
Qed.

Lemma cn_wire_new cfg random : cfg_ok cfg -> cn_wire (TCPConnection_new cfg random).
Proof.
  intros H. split; simpl; [|apply to_WrappingInt32_ok|done]. split; simpl; [apply (isn_of_ok cfg random H)|done..].
Qed.

Lemma wire_reach P x y : cn_wire (fst (fst x)) -> reach (cn_step P) x y -> cn_wire (fst (fst y)).
Proof.
  intros Hx Hr. apply (reach_invariant (cn_step P) (fun z => cn_wire (fst (fst z))) x y); [|done|done].
  intros a b Ha Hs. by eapply cn_step_wire.
Qed.

(** C24: whatever the peer sends to a connection and in whatever order its operations are
    called, with less than 2^31 bytes written and none after the end of the stream, every
    segment it queues for the network can be sent: its header fields are within their wire widths, it has no options, its payload
    is at most [MAX_PAYLOAD_SIZE] bytes, and so [serialize] succeeds on it. *)
Theorem emitted_segments_serialize cfg random P c w d seg : cfg_ok cfg ->
  reach (cn_step P) (TCPConnection_new cfg random, [], []) (c, w, d) -> seg ∈ cn_segments_out c ->
  TCPHeader_valid (ts_header seg) /\ th_doff (ts_header seg) = 5 /\
  zlen (Buffer_str (ts_payload seg)) <= MAX_PAYLOAD_SIZE /\
  exists bl, TCPSegment_serialize seg 0 = Ok bl /\
    zlen (BufferList_concatenate bl) = 20 + zlen (Buffer_str (ts_payload seg)).
Proof.
  intros Hcfg Hr Hin.
  pose proof (wire_reach P (TCPConnection_new cfg random, [], []) _ (cn_wire_new cfg random Hcfg) Hr) as Hw.
  destruct Hw as [_ _ Ho]. rewrite Forall_forall in Ho. destruct (Ho seg Hin) as [V Hd Hp Hs].
  split; [done|]. split; [done|]. split; [done|].
  destruct (TCPSegment_serialize_spec seg 0 V) as (v & hdr & _ & E & _ & Hl & _).
  - unfold segment_fits. rewrite Hd. unfold MAX_PAYLOAD_SIZE in Hs. split; zlia.
  - eexists. split; [exact E|]. rewrite !concatenate_cons, app_nil_r, zlen_app. change (Buffer_str (Buffer_of_string hdr)) with hdr. lia.
Qed.

Lemma emitted_segments_serialize_witness : exists c seg,
  seg ∈ cn_segments_out c /\ th_doff (ts_header seg) = 5.
Proof.
  destruct (TCPConnection_connect (TCPConnection_new demo_cfg 0)) as [c| |] eqn:E; [|discriminate|discriminate].
  destruct (cn_segments_out c) as [|seg rest] eqn:Eo.
  - exfalso. vm_compute in E. injection E as <-. discriminate Eo.
  - exists c, seg. assert (Hin : seg ∈ cn_segments_out c) by (rewrite Eo; left).
    split; [exact Hin|].
    apply (emitted_segments_serialize demo_cfg 0 any_segment c [] [] seg); [apply demo_cfg_ok| |exact Hin].
    eapply reach_step; [apply reach_refl|]. apply cn_step_connect. exact E.
Defined.
