(* ===== verification/Transfer.v ===== *)
(** * Transfer over a link that keeps the order

    Two connections whose segments reach each other complete and in order, as in
    [apps/tcp_benchmark.cc]. Nothing is modelled here: the definitions describe the
    segments that are under way between two connections, the lemmas say what every
    operation of a connection does to them. *)

From S2P Require Import Prelude WrappingInts Buffers ByteStreams Reassembler Parser TCPSegments Receiver Sender Connection Emitted.

(** ** The receiver *)

(** The sequence number up to which a stream is assembled, counted from that of the SYN. *)
Definition position (g : fifo) : Z := 1 + zlen (ff_hist g) + (if ff_ended g then 1 else 0).

(** Where in the stream [S] a segment lies: it starts at [start]. *)
Record lies (S : bytes) (isn : WrappingInt32) (start : Z) (seg : TCPSegment) : Prop := {
  ly_seqno : th_seqno (ts_header seg) = wrap start isn;
  ly_small : zlen (payload_of seg) <= MAX_PAYLOAD_SIZE;
  ly_bytes :
    if th_syn (ts_header seg) then start = 0 /\ th_fin (ts_header seg) = false /\ payload_of seg = []
    else 1 <= start /\
      (payload_of seg = [] /\ th_fin (ts_header seg) = false \/
       start - 1 + zlen (payload_of seg) <= zlen S /\ payload_of seg = slice S (start - 1) (zlen (payload_of seg)) /\
       (th_fin (ts_header seg) = true -> start - 1 + zlen (payload_of seg) = zlen S))
}.

Definition past (start : Z) (seg : TCPSegment) : Z := start + length_in_sequence_space seg.

Lemma lies_past S isn start seg : lies S isn start seg ->
  past start seg = start + zlen (payload_of seg) + (if th_syn (ts_header seg) then 1 else 0) + (if th_fin (ts_header seg) then 1 else 0).
Proof. intros [_ Hs _]. unfold past. rewrite seq_len by (unfold MAX_PAYLOAD_SIZE in *; lia). lia. Qed.

(** The receiver [r] has received the stream [S] up to [position g], and nothing beyond. *)
Record in_step (S : bytes) (isn : WrappingInt32) (cap : Z) (r : TCPReceiver) (del : bytes) (g : fifo) (A : gmap Z byte) : Prop := {
  is_inv : rv_inv S isn cap r del g A;
  is_syn : rv_syn r = true;
  is_tight : agrees (ff_hist g) A;
  is_clean : ff_err g = false
}.

Section InStep.
Context (S : bytes) (isn : WrappingInt32) (cap : Z).

Section State.
Context {r : TCPReceiver} {del : bytes} {g : fifo} {A : gmap Z byte} (Hr : in_step S isn cap r del g A).

Lemma step_repr : sr_repr (rv_reassembler r) g A.
Proof. apply Hr. Qed.

Lemma step_prefix : is_prefix (ff_hist g) S.
Proof. apply (agrees_prefix S _ g A step_repr). apply Hr. Qed.

Lemma step_short : zlen (ff_hist g) <= zlen S.
Proof. destruct step_prefix as [t ->]. rewrite zlen_app. zlia. Qed.

Lemma step_ended : ff_ended g = true -> ff_hist g = S.
Proof. apply Hr. Qed.

Lemma step_ackno : TCPReceiver_ackno r = Some (wrap (position g) isn).
Proof.
  unfold TCPReceiver_ackno. rewrite (is_syn _ _ _ _ _ _ _ Hr). cbn [negb].
  by destruct (ri_syn _ _ _ _ _ _ _ (is_inv _ _ _ _ _ _ _ Hr) (is_syn _ _ _ _ _ _ _ Hr)) as [_ ->].
Qed.

Lemma step_window : TCPReceiver_window_size r = cap - zlen (fifo_pending g) /\ 0 <= zlen (fifo_pending g) <= cap.
Proof.
  unfold TCPReceiver_window_size, TCPReceiver_stream_out. pose proof (rp_out _ _ _ step_repr) as Ro.
  rewrite (bs_remaining_spec _ _ Ro). unfold fifo_room. pose proof (br_room _ _ Ro).
  assert (ff_cap g = cap) as Hc by apply Hr. rewrite Hc in *. zlia.
Qed.

Lemma step_nothing_stored : StreamReassembler_empty (rv_reassembler r) = true.
Proof.
  unfold StreamReassembler_empty. apply Z.eqb_eq. pose proof (rp_core _ _ _ step_repr) as C.
  apply (covered_complete (ff_hist g) _ g A step_repr (is_tight _ _ _ _ _ _ _ Hr)). intros k Hk.
  apply (sc_full _ _ _ _ _ _ _ C). by rewrite (sc_fu _ _ _ _ _ _ _ C).
Qed.

Lemma position_range : 1 <= position g <= zlen S + 2.
Proof. pose proof step_short. unfold position. pose proof (zlen_nonneg (ff_hist g)). destruct (ff_ended g); lia. Qed.

(** Accepting the slice of [S] at [i] when all before [i] is there: everything up to its end. *)
Lemma accept_next i l : 0 <= i <= zlen (ff_hist g) -> 0 <= l -> i + l <= zlen S -> i + l <= ff_nread g + ff_cap g \/ l = 0 ->
  let A' := accept A (slice S i l) i (ff_nread g + ff_cap g) in let m := Z.max (zlen (ff_hist g)) (i + l) in
  agrees (ztake m S) A' /\ forall k, 0 <= k < m -> is_Some (A' !! k).
Proof.
  intros Hi Hl Hil Hfit A' m. pose proof step_short. pose proof step_prefix as [t Ht]. pose proof (rp_core _ _ _ step_repr) as C.
  split.
  - intros k d [Hk|(_ & _ & Hk)]%accept_lookup; [| |lia].
    + apply (is_tight _ _ _ _ _ _ _ Hr) in Hk. pose proof (znth_Some_range _ _ _ Hk). rewrite znth_ztake by lia. rewrite Ht, znth_app_l by lia. done.
    + pose proof (znth_Some_range _ _ _ Hk) as Hkr. rewrite slice_len in Hkr by lia. rewrite znth_ztake by lia.
      apply slice_nth in Hk; [|lia]. by replace (i + (k - i)) with k in Hk by lia.
  - intros k Hk. destruct (A !! k) as [c|] eqn:Ek; [exists c; apply accept_lookup; [lia|by left]|].
    assert (zlen (ff_hist g) <= k).
    { destruct (Z.lt_ge_cases k (zlen (ff_hist g))); [|done]. destruct (sc_full _ _ _ _ _ _ _ C k) as [c Hc]; [rewrite (sc_fu _ _ _ _ _ _ _ C); lia|congruence]. }
    destruct (znth_is_Some (k - i) (slice S i l)) as [c Hc]; [rewrite slice_len; lia|].
    exists c. apply accept_lookup; [lia|]. right. split; [done|]. split; [lia|done].
Qed.

Context (Hisn : wi_ok isn) (Hcap : zlen S + cap < W64) (HS : zlen S + 2 <= W31).

(** A bare acknowledgment leaves the receiver as it is. *)
Lemma step_bare seg : payload_of seg = [] -> th_fin (ts_header seg) = false -> th_syn (ts_header seg) = false ->
  exists r', TCPReceiver_segment_received r seg = Ok r' /\ in_step S isn cap r' del g A.
Proof.
  intros Hp Hf Hs. pose proof (is_inv _ _ _ _ _ _ _ Hr) as [Isr Hck Hfin Hend Hfs Hsy]. pose proof (is_syn _ _ _ _ _ _ _ Hr) as Hsyn.
  unfold TCPReceiver_segment_received. fold (payload_of seg). rewrite Hp, Hf, Hs, Hsyn. cbn [negb andb].
  destruct (_ && rv_fin r); [by exists r|]. pose proof step_repr as R. pose proof (rp_out _ _ _ R) as Ro.
  pose proof (br_nreadb _ _ Ro). pose proof (br_capb _ _ Ro). pose proof step_short.
  assert (ff_cap g = cap) as Hc by apply Hr. pose proof (zlen_nonneg (ff_hist g)).
  match goal with |- context [push_substring _ [] ?i false] => set (idx := i); assert (Hi : 0 <= idx < W64) by apply u64_range end.
  destruct (push_substring_total (rv_reassembler r) g A [] idx false R Hi) as (rs & tw & -> & R' & He); [lia|rewrite (@zlen_nil byte); lia|].
  cbn [accept] in R'. rewrite orb_false_r in He. pose proof (same_map_no_output _ _ _ _ _ _ R R') as ->.
  assert (Hemp : StreamReassembler_empty rs = true).
  { unfold StreamReassembler_empty. apply Z.eqb_eq. pose proof (rp_core _ _ _ R) as C. pose proof (rp_core _ _ _ R') as C'.
    pose proof step_nothing_stored as Hn. apply Z.eqb_eq in Hn. rewrite (sc_un _ _ _ _ _ _ _ C) in Hn. rewrite (sc_un _ _ _ _ _ _ _ C').
    rewrite (sc_fu _ _ _ _ _ _ _ C'), (sc_fu _ _ _ _ _ _ _ C) in *. cbn [ff_hist fifo_push]. by rewrite app_nil_r. }
  assert (Eg : fifo_push g [] (StreamReassembler_empty rs && sr_eof rs) = g).
  { unfold fifo_push. rewrite app_nil_r, Hemp, He. cbn [andb]. rewrite step_nothing_stored in Hend. cbn [andb] in Hend.
    rewrite <- Hend, orb_diag. by destruct g. }
  rewrite Eg in R'. rewrite res_bind_Ok. cbv zeta. cbn [andb]. eexists. split; [reflexivity|].
  pose proof (sc_fu _ _ _ _ _ _ _ (rp_core _ _ _ R')) as Hfu. pose proof (sc_fu _ _ _ _ _ _ _ (rp_core _ _ _ R)) as Hfu0.
  split; [|done|apply Hr|apply Hr]. split; cbn; try done.
  - destruct Isr as [_ ? ? ? Hseen ?]. split; try done. rewrite He. intros E. destruct (Hseen E) as [?|?]; [left; lia|by right].
  - by rewrite He.
  - by rewrite Hemp, He, Hend, step_nothing_stored.
  - intros _. destruct (Hsy Hsyn) as [Ei _]. split; [done|]. rewrite Ei, Hemp, Hfin, Hfu. cbn [andb]. rewrite step_nothing_stored in Hend. cbn [andb] in Hend. rewrite <- Hend.
    destruct (ff_ended g); nowrap; f_equal; lia.
Qed.

(** A segment that leaves no gap moves the position past itself. *)
Lemma step_segment seg start : lies S isn start seg -> start <= position g ->
  (payload_of seg <> [] -> start - 1 + zlen (payload_of seg) <= ff_nread g + cap) ->
  exists r' g' A', TCPReceiver_segment_received r seg = Ok r' /\ in_step S isn cap r' del g' A' /\
    position g' = Z.max (position g) (past start seg) /\ ff_nread g' = ff_nread g.
Proof.
  intros L Hstart Hfit. pose proof (lies_past S isn start seg L) as Hpast. pose proof position_range as Hpos. pose proof L as [Hseq Hsm Hb].
  pose proof step_short as Hsh. pose proof (zlen_nonneg (ff_hist g)). pose proof (zlen_nonneg (payload_of seg)).
  assert (Hc : ff_cap g = cap) by apply Hr.
  destruct (decide (th_syn (ts_header seg) = false /\ payload_of seg = [] /\ th_fin (ts_header seg) = false)) as [(Es & Ep & Ef)|Hnb].
  { destruct (step_bare seg Ep Ef Es) as (r' & E & Hr'). exists r', g, A. split; [done|]. split; [done|]. split; [|done].
    rewrite Hpast, Es, Ef, Ep, (@zlen_nil byte). lia. }
  set (l := zlen (payload_of seg)) in *. set (i := if th_syn (ts_header seg) then 0 else start - 1).
  assert (Hil : 0 <= i <= zlen (ff_hist g) /\ i + l <= zlen S /\ payload_of seg = slice S i l /\
    th_seqno (ts_header seg) = wrap (if th_syn (ts_header seg) then 0 else i + 1) isn /\
    (th_fin (ts_header seg) = true -> i + l = zlen S) /\ (i + l <= ff_nread g + ff_cap g \/ l = 0) /\ past start seg = 1 + i + l + (if th_fin (ts_header seg) then 1 else 0)).
  { unfold i. rewrite Hpast. destruct (th_syn (ts_header seg)).
    - destruct Hb as (-> & Ef & Ep). rewrite Ef. unfold l. rewrite Ep, (@zlen_nil byte). split; [lia|]. split; [lia|]. done || (split; [done|]; split; [done|]; split; [done|]; split; [by right|lia]).
    - destruct Hb as (H1 & [[? ?]|(Hle & Hp & Hf)]); [by destruct Hnb|]. assert (start - 1 <= zlen (ff_hist g)).
      { unfold position in Hstart. destruct (ff_ended g) eqn:E; [|lia]. rewrite (step_ended E). lia. }
      split; [lia|]. split; [lia|]. split; [done|]. split; [rewrite Hseq; f_equal; lia|]. split; [done|]. split; [|lia].
      destruct (decide (payload_of seg = [])) as [E|E]; [right; unfold l; by rewrite E|left; rewrite Hc; by apply Hfit]. }
  destruct Hil as (Hi & Hle & Hp & Hsq & Hf & Hlim & Ep). pose proof (rp_core _ _ _ step_repr) as C.
  destruct (segment_received_at S isn cap r del g A seg i l Hisn Hcap ltac:(lia) (is_inv _ _ _ _ _ _ _ Hr) Hsq)
    as (r' & g' & A' & E & I' & Hsyn & Hpre & [Hnr Her] & Hcase).
  { unfold i. by intros ->. }
  { done. }
  { split; [lia|]. split; [lia|]. intros Ef. specialize (Hf Ef). split; [lia|]. rewrite (sc_fu _ _ _ _ _ _ _ C). lia. }
  specialize (Hsyn (or_intror (is_syn _ _ _ _ _ _ _ Hr))). exists r', g', A'. split; [done|].
  pose proof (ri_ended _ _ _ _ _ _ _ (is_inv _ _ _ _ _ _ _ Hr)) as Hend. rewrite step_nothing_stored in Hend. cbn [andb] in Hend.
  destruct Hcase as [(-> & -> & Hen)|[-> He]].
  - specialize (Hen (or_intror (is_syn _ _ _ _ _ _ _ Hr))). split; [split; [done|done|apply Hr|apply Hr]|]. split; [|done].
    rewrite Ep. unfold position. rewrite Hen, (step_ended Hen). destruct (th_fin _); lia.
  - destruct (accept_next i l ltac:(lia) ltac:(lia) Hle Hlim) as [Hag Hall]. cbv zeta in Hag, Hall. set (m := Z.max _ _) in *.
    pose proof (si_repr _ _ _ _ _ _ (ri_sr _ _ _ _ _ _ _ I')) as R'. assert (Em : zlen (ztake m S) = m) by (apply zlen_ztake; lia).
    destruct (covered_complete (ztake m S) _ g' _ R' Hag) as [Hz Hun]; [by rewrite Em|]. rewrite Em in Hz.
    assert (Eh : ff_hist g' = ztake m S) by (apply prefix_full; [by eapply agrees_prefix|lia]).
    split; [split; [done|done|by rewrite Eh|rewrite Her; apply Hr]|]. split; [|done].
    assert (Hended : ff_ended g' = ff_ended g || th_fin (ts_header seg)).
    { rewrite (ri_ended _ _ _ _ _ _ _ I'). unfold StreamReassembler_empty. rewrite Hun, He, <- Hend. cbn [andb Z.eqb]. f_equal.
      destruct (th_fin (ts_header seg)) eqn:Ef; [|done]. cbn [andb]. apply Z.leb_le. rewrite slice_len by lia.
      pose proof (step_window). pose proof (fifo_pending_len g (br_nreadb _ _ (rp_out _ _ _ step_repr))). specialize (Hf eq_refl). lia. }
    rewrite Ep. unfold position. rewrite Hended, Hz. destruct (ff_ended g) eqn:Eg; cbn [orb].
    + pose proof (f_equal zlen (step_ended Eg)). unfold m. destruct (th_fin _); lia.
    + destruct (th_fin _) eqn:Ef; [|lia]. specialize (Hf eq_refl). lia.
Qed.
End State.
End InStep.

(** The owner reads. *)
Lemma step_read S isn cap r del g A n : in_step S isn cap r del g A -> 0 <= n ->
  exists r', TCPReceiver_read r n = Ok (ztake n (fifo_pending g), r') /\
    in_step S isn cap r' (del ++ ztake n (fifo_pending g)) (fifo_pop g n) A.
Proof.
  intros [I Hs Ht Hc] Hn. destruct (receiver_read_inv S isn cap r del g A n I Hn) as (r' & E & I' & Hs').
  exists r'. split; [done|]. split; [done|congruence|done|done].
Qed.

(** ** The sender *)

(** The oldest unacknowledged number, the right edge of the window, and the numbers at
    which an outstanding segment ends. *)
Definition una (s : TCPSender) : Z := sd_next_seqno s - sd_bytes_in_flight s.
Definition edge (s : TCPSender) : Z := una s + Z.max (sd_receiver_window_size s) 1.
Definition boundary (s : TCPSender) (a : Z) : Prop :=
  a <= una s \/ exists l1 l2, sd_segments_outstanding s = l1 ++ l2 /\ a = una s + flight l1.

(** A sender of the stream [S] that has sent what the window allows. *)
Record sender_ok (S : bytes) (s : TCPSender) (f : fifo) : Prop := {
  so_inv : sd_inv s f;
  so_hist : is_prefix (ff_hist f) S;
  so_ended : ff_ended f = true -> ff_hist f = S;
  so_syn : sd_syn s = true;
  so_room : sd_bytes_in_flight s <= Z.max (sd_receiver_window_size s) 1;
  so_busy : sd_segments_outstanding s = [] -> fifo_pending f = [] /\ (ff_ended f = true -> sd_fin s = true);
  so_clean : ff_err f = false
}.

(** A call that sent [new]. *)
Record emits (S : bytes) (s : TCPSender) (f : fifo) (s' : TCPSender) (f' : fifo) (new : list TCPSegment) : Prop := {
  em_ok : sender_ok S s' f';
  em_isn : sd_isn s' = sd_isn s;
  em_fifo : exists m, f' = fifo_adv f m;
  em_out : sd_segments_out s' = sd_segments_out s ++ new;
  em_chain : chain (sd_isn s) (ff_hist f) (ff_ended f) (sd_next_seqno s) new;
  em_next : sd_next_seqno s' = sd_next_seqno s + flight new;
  em_mono : forall a, boundary s a -> boundary s' a;
  em_ends : forall l1 l2, new = l1 ++ l2 -> boundary s' (sd_next_seqno s + flight l1)
}.

Lemma next_from_fifo s s' f : sd_inv s f -> sd_inv s' f -> sd_syn s' = sd_syn s -> sd_fin s' = sd_fin s -> sd_next_seqno s' = sd_next_seqno s.
Proof. intros I I' Es Ef. rewrite (di_next _ _ I), (di_next _ _ I'). by rewrite Es, Ef. Qed.

(** The queue is split at a number in one way only. *)
Lemma flight_split isn H e start (a b c d : list TCPSegment) : chain isn H e start (a ++ b) -> a ++ b = c ++ d -> flight a = flight c -> a = c /\ b = d.
Proof.
  revert start c. induction a as [|t a IH]; intros start c Hch Eq Hfl; destruct c as [|u c]; cbn in *.
  - by subst.
  - subst b. destruct Hch as (_ & Hpos & _). fold (flight c) in Hfl. pose proof (flight_nonneg c). lia.
  - subst d. destruct Hch as (_ & Hpos & _). fold (flight a) in Hfl. pose proof (flight_nonneg a). lia.
  - injection Eq as -> Eq. destruct Hch as (_ & _ & Hch). fold (flight a) (flight c) in Hfl.
    destruct (IH _ c Hch Eq ltac:(lia)) as [-> ->]. done.
Qed.

Section Sender.
Context (S : bytes) (HS : zlen S + 2 <= W31).

Lemma sender_bound f : is_prefix (ff_hist f) S -> sd_bound f /\ zlen (ff_hist f) <= zlen S.
Proof. intros [t ->]. rewrite zlen_app in HS. unfold sd_bound. rewrite zlen_app. zlia. Qed.

Lemma fill_ok s f : sd_inv s f -> is_prefix (ff_hist f) S -> (ff_ended f = true -> ff_hist f = S) -> sd_syn s = true ->
  sd_bytes_in_flight s <= Z.max (sd_receiver_window_size s) 1 -> ff_err f = false ->
  exists s' f' new, TCPSender_fill_window s = Ok s' /\ emits S s f s' f' new /\
    una s' = una s /\ sd_receiver_window_size s' = sd_receiver_window_size s /\
    sd_consecutive_retransmissions s' = sd_consecutive_retransmissions s.
Proof.
  intros I Hp He Hsyn Hroom Hclean. destruct (sender_bound f Hp) as [Hb _].
  destruct (fill_window_spec s f I Hb Hsyn) as (s' & new & E & I' & Sn & Hsyn' & _ & Hfin & Hbif).
  destruct (fill_window_flow s f s' _ I Hb Hsyn E I' Hroom) as [Hr' Hb'].
  set (m := Z.min _ _) in *. pose proof Sn as [Ei Einit Ew Ec Eo Eout].
  assert (Hnx : sd_next_seqno s' = sd_next_seqno s + flight new).
  { pose proof (di_flight _ _ I') as Hf'. rewrite Eout, flight_app, <- (di_flight _ _ I) in Hf'.
    pose proof (di_next _ _ I) as N. pose proof (di_next _ _ I') as N'. rewrite Hsyn in N. rewrite Hsyn' in N'. cbn [ff_nread fifo_adv] in N'.
    rewrite Hfin in *. destruct (sd_fin s); cbn [orb andb negb] in *; [lia|]. destruct (_ && _ && _); cbn [andb negb] in *; lia. }
  assert (Hun : una s' = una s).
  { unfold una. rewrite (di_flight _ _ I'), Eout, flight_app, <- (di_flight _ _ I). lia. }
  assert (Hch : chain (sd_isn s) (ff_hist f) (ff_ended f) (una s) (sd_segments_outstanding s ++ new)).
  { rewrite <- Hun. pose proof (di_chain _ _ I') as Hch. rewrite Ei, Eout in Hch. exact Hch. }
  exists s', (fifo_adv f m), new. split; [done|]. split; [|by split; [|split]]. split; try done.
  - split; try done; [by rewrite Ew|]. intros En. destruct Hb' as [Hfull|?]; [|done].
    rewrite (di_flight _ _ I'), En in Hfull. cbn in Hfull. lia.
  - by exists m.
  - apply chain_app in Hch as [_ Hch]. unfold una in Hch. rewrite <- (di_flight _ _ I) in Hch.
    by replace (sd_next_seqno s - sd_bytes_in_flight s + sd_bytes_in_flight s) with (sd_next_seqno s) in Hch by lia.
  - intros a [Ha|(l1 & l2 & El & ->)]; [left; lia|right]. exists l1, (l2 ++ new). by rewrite Eout, El, app_assoc, Hun.
  - intros l1 l2 ->. right. exists (sd_segments_outstanding s ++ l1), l2. rewrite Eout, app_assoc, flight_app, Hun. split; [done|].
    unfold una. rewrite <- (di_flight _ _ I). lia.
Qed.

(** An acknowledgment at the end of a segment, with a window that does not shrink. *)
Lemma ack_ok s f a w : sender_ok S s f -> una s <= a -> boundary s a -> edge s <= a + Z.max w 1 -> 0 <= w < W16 ->
  exists s' f' new, TCPSender_ack_received s (wrap a (sd_isn s)) w = Ok s' /\ emits S s f s' f' new /\
    una s' = a /\ edge s' <= a + Z.max w 1 /\
    (sd_receiver_window_size s' = w \/ sd_receiver_window_size s' = sd_receiver_window_size s) /\
    sd_consecutive_retransmissions s' <= sd_consecutive_retransmissions s /\
    (una s < a -> sd_consecutive_retransmissions s' = 0) /\ (sd_segments_outstanding s = [] -> new = []).
Proof.
  intros [I Hp He Hsyn Hroom Hbusy Hclean] Hua Hba Hedge Hw. destruct (sender_bound f Hp) as [Hb Hlen].
  destruct (next_bound s f I Hb) as (Hbif & Hnx & Hnr). unfold sd_bound in Hb.
  assert (Ha : exists l1 l2, sd_segments_outstanding s = l1 ++ l2 /\ a = una s + flight l1).
  { destruct Hba as [?|?]; [|done]. exists [], (sd_segments_outstanding s). split; [done|]. cbn. lia. }
  destruct Ha as (l1 & l2 & El & Ea). pose proof (di_flight _ _ I) as Hfl. rewrite El, flight_app in Hfl.
  pose proof (flight_nonneg l1). pose proof (flight_nonneg l2).
  assert (Han : a <= sd_next_seqno s) by (unfold una in *; lia).
  assert (Hun : unwrap (wrap a (sd_isn s)) (sd_isn s) (sd_next_seqno s) = a) by (apply unwrap_wrap; [apply (di_isn _ _ I)|unfold una in *; lia..]).
  assert (Hflb : sd_bytes_in_flight s <= W31) by lia.
  pose proof (di_chain _ _ I) as Hch. rewrite El in Hch. fold (una s) in Hch. pose proof (di_consec _ _ I) as Hc0.
  destruct (ack_accepts s a w) eqn:G.
  - destruct (ack_accepted s f (wrap a (sd_isn s)) w I Hb Hflb (wrap_ok _ _) Hw) as
      (s2 & s1 & m & acked & rest & new & E & _ & I2 & Hsyn2 & E2 & _ & _ & Ei & Ew & Eo & Eout & Eout2 & Hpre & Ef & Ec); [by rewrite Hun|].
    rewrite Hun in Hpre. fold (una s) in Hpre. destruct Hpre as [Hpre1 Hpre2].
    assert (Hsplit : l1 = acked /\ l2 = rest).
    { destruct (decide (flight l1 = flight acked)) as [Heq|Hne]; [eapply flight_split; [exact Hch|congruence|done]|exfalso].
      assert (Eq : l1 ++ l2 = acked ++ rest) by congruence. apply app_eq_inv in Eq as [(k & -> & ->)|(k & -> & ->)]; rewrite flight_app in *.
      - destruct k as [|t k]; [cbn in Hne; lia|]. cbn [app] in Hpre2. cbn in Ea. fold (flight k) in Ea. pose proof (flight_nonneg k). lia.
      - assert (l1 ++ k <> []) by (destruct k; [cbn in Hne; lia|by destruct l1]). specialize (Hpre1 H1). pose proof (flight_nonneg k). lia. }
    destruct Hsplit as [-> ->]. clear Hpre1 Hpre2.
    pose proof (next_from_fifo s s2 f I I2 ltac:(congruence) Ef) as En.
    assert (Hb2 : sd_bytes_in_flight s2 = flight rest) by (by rewrite (di_flight _ _ I2), Eout2).
    assert (Hu2 : una s2 = a) by (unfold una in *; lia).
    destruct (fill_ok s2 f I2 Hp He Hsyn2) as (s' & f' & nw & E' & Em & Hu' & Hw' & Hc').
    { rewrite Ew, Hb2. unfold edge, una in *. lia. }
    { done. }
    rewrite E2 in E'. injection E' as ->. exists s', f', nw. split; [done|]. split; [|split; [congruence|]].
    + destruct Em as [? Hi ? Ho Hchn Hnn Hmono Hends]. split; try done; try congruence.
      * intros b Hbb. apply Hmono. destruct Hbb as [Hbb|(m1 & m2 & Em12 & ->)]; [left; lia|].
        assert (Eq : acked ++ rest = m1 ++ m2) by congruence. apply app_eq_inv in Eq as [(k & -> & ->)|(k & -> & ->)].
        -- left. rewrite Hu2, Ea, flight_app. pose proof (flight_nonneg k). lia.
        -- right. exists k, m2. rewrite flight_app. split; [done|lia].
      * intros x y Exy. rewrite <- En. by apply (Hends x y).
    + split; [unfold edge; rewrite Hw', Ew, Hu', Hu2; lia|]. split; [left; congruence|]. rewrite Hc', Ec. split; [destruct acked; lia|].
      split; [intros Hlt; destruct acked; [cbn in Ea; lia|done]|]. intros En0. unfold ack_accepts in G. by rewrite En0 in G.
  - rewrite (ack_received_eq s f (wrap a (sd_isn s)) w I Hb Hflb (wrap_ok _ _) Hw), Hun, G.
    pose proof (ack_ignored s (wrap a (sd_isn s)) w) as Hig. rewrite Hun in Hig. destruct (Hig G Han) as [_ Hig2]. fold (una s) in Hig2. clear Hig.
    assert (Eua : a = una s).
    { rewrite El in Hig2. destruct l1 as [|t l1]; [cbn in Ea; lia|]. cbn in Hig2, Ea. fold (flight l1) in Ea. pose proof (flight_nonneg l1). lia. }
    set (s' := sd_set_receiver_window_size s (noted_window s a w)).
    assert (Hnw : 0 <= noted_window s a w < W16) by (pose proof (di_win _ _ I); unfold noted_window; destruct (_ =? _); lia).
    assert (Hwin : noted_window s a w = w /\ sd_bytes_in_flight s = 0 \/ noted_window s a w = sd_receiver_window_size s).
    { unfold noted_window. destruct (Z.eqb_spec a (sd_next_seqno s)); [left; split; [done|unfold una in *; lia]|by right]. }
    exists s', f, []. split; [done|]. split; [|split; [done|]].
    + split; cbn; rewrite ?app_nil_r, ?Z.add_0_r; try done.
      * split; try done; [by apply inv_window|]. cbn. destruct Hwin as [[-> ->]| ->]; [lia|done].
      * exists 0. by rewrite fifo_adv_0.
      * intros x y Exy. symmetry in Exy. apply app_eq_nil in Exy as [-> ->]. right. exists (sd_segments_outstanding s), []. rewrite app_nil_r. split; [done|].
        cbn. change (una s') with (una s). unfold una. rewrite <- (di_flight _ _ I). lia.
    + unfold edge in *. change (una s') with (una s). cbn. split; [destruct Hwin as [[-> _]| ->]; lia|]. split; [destruct Hwin as [[-> _]| ->]; auto|]. split; [lia|]. split; [lia|done].
Qed.
End Sender.

(** ** Segments under way *)

(** Seen from the sender [s] of [S]: the segments [q], delivered in order to a receiver at
    position [p], leave no gap and bring it to [n]; each ends where one of [s] ends. *)
Fixpoint carries (S : bytes) (isn : WrappingInt32) (s : TCPSender) (p : Z) (q : list TCPSegment) (n : Z) : Prop :=
  match q with
  | [] => p = n
  | seg :: q' => exists start, lies S isn start seg /\ start <= p /\ boundary s (past start seg) /\
      carries S isn s (Z.max p (past start seg)) q' n
  end.

(** The acknowledgments in [k], for [s] with oldest number [u] and right edge [e]: neither
    the number nor the edge goes back, and they end at [p] and [E]. *)
Fixpoint acked (isn : WrappingInt32) (cap : Z) (s : TCPSender) (u e : Z) (k : list TCPSegment) (p E : Z) : Prop :=
  match k with
  | [] => u = p /\ e <= E
  | seg :: k' => exists a, th_ack (ts_header seg) = true /\ th_rst (ts_header seg) = false /\ th_ackno (ts_header seg) = wrap a isn /\
      0 <= th_win (ts_header seg) <= cap /\ u <= a /\ e <= a + Z.max (th_win (ts_header seg)) 1 /\ boundary s a /\
      acked isn cap s a (a + Z.max (th_win (ts_header seg)) 1) k' p E
  end.

Section Queues.
Context (S : bytes) (isn : WrappingInt32) (cap : Z).

Lemma carries_mono s s' q : (forall a, boundary s a -> boundary s' a) -> forall p n, carries S isn s p q n -> carries S isn s' p q n.
Proof.
  intros Hm. induction q as [|seg q IH]; intros p n; [done|]. intros (start & L & Hs & Hb & Hq). exists start. auto.
Qed.

Lemma carries_app s q k : forall p n m, carries S isn s p q n -> carries S isn s n k m -> carries S isn s p (q ++ k) m.
Proof.
  induction q as [|seg q IH]; intros p n m; [by intros ->|]. intros (start & L & Hs & Hb & Hq) Hk. exists start. eauto.
Qed.

Lemma carries_one s start seg n : lies S isn start seg -> start <= n -> past start seg <= n -> boundary s (past start seg) -> carries S isn s n [seg] n.
Proof. intros L Hs Hp Hb. exists start. split; [done|]. split; [done|]. split; [done|]. cbn. lia. Qed.

Lemma acked_mono s s' k : (forall a, boundary s a -> boundary s' a) -> forall u e p E, acked isn cap s u e k p E -> acked isn cap s' u e k p E.
Proof.
  intros Hm. induction k as [|seg k IH]; intros u e p E; [done|]. intros (a & H1 & H2 & H3 & H4 & H5 & H6 & H7 & H8). exists a. auto 10.
Qed.

Lemma acked_weaken s k u e e' p E E' : e <= e' -> E' <= E -> acked isn cap s u e' k p E' -> acked isn cap s u e k p E.
Proof.
  revert u e e'. induction k as [|seg k IH]; intros u e e' He HE.
  - intros [-> ?]. split; [done|lia].
  - intros (a & H1 & H2 & H3 & H4 & H5 & H6 & H7 & H8). exists a. do 4 (split; [done|]). split; [done|]. split; [lia|]. split; [done|].
    by eapply IH; [| |exact H8].
Qed.

Lemma acked_app s k k' p' E' : forall u e p E, acked isn cap s u e k p E -> acked isn cap s p E k' p' E' -> acked isn cap s u e (k ++ k') p' E'.
Proof.
  induction k as [|seg k IH]; intros u e p E.
  - intros [-> He] Hk. by eapply acked_weaken; [exact He| |exact Hk].
  - intros (a & H1 & H2 & H3 & H4 & H5 & H6 & H7 & H8) Hk. exists a. eauto 12.
Qed.

(** The position that [k] acknowledges last is the end of a segment. *)
Lemma acked_boundary s k u e p E : acked isn cap s u e k p E -> boundary s u -> boundary s p.
Proof.
  revert u e. induction k as [|seg k IH]; intros u e; [by intros [-> _]|]. intros (a & _ & _ & _ & _ & _ & _ & Hb & Hk) _. by eapply IH.
Qed.

Lemma acked_le s k u e p E : acked isn cap s u e k p E -> u <= p /\ e <= E.
Proof.
  revert u e. induction k as [|seg k IH]; intros u e; [by intros [-> ?]|]. intros (a & _ & _ & _ & _ & Hu & He & _ & Hk). apply IH in Hk. lia.
Qed.

Lemma carries_le s q p n : carries S isn s p q n -> p <= n.
Proof. revert p. induction q as [|seg q IH]; intros p; [by intros ->|]. intros (start & _ & _ & _ & Hq). apply IH in Hq. lia. Qed.
End Queues.

(** ** Stamps *)

Lemma stamp_payload r b seg : payload_of (stamp r b seg) = payload_of seg.
Proof. done. Qed.

Lemma stamp_flags r b seg : th_seqno (ts_header (stamp r b seg)) = th_seqno (ts_header seg) /\
  th_syn (ts_header (stamp r b seg)) = th_syn (ts_header seg) /\ th_fin (ts_header (stamp r b seg)) = th_fin (ts_header seg).
Proof. unfold stamp. by destruct (TCPReceiver_ackno r), b. Qed.

Lemma stamp_len r b seg : length_in_sequence_space (stamp r b seg) = length_in_sequence_space seg.
Proof. unfold length_in_sequence_space. destruct (stamp_flags r b seg) as (_ & -> & ->). done. Qed.

Lemma lies_stamp S isn start r b seg : lies S isn start seg -> lies S isn start (stamp r b seg).
Proof. intros [H1 H2 H3]. destruct (stamp_flags r b seg) as (E1 & E2 & E3). split; rewrite ?E1, ?E2, ?E3; done. Qed.

Lemma seg_lies S isn H e start t : seg_ok isn H e start t -> is_prefix H S -> (e = true -> H = S) -> lies S isn start t.
Proof.
  intros [Hs Hm Hb Hf] [tl ->] He. split; [done|done|]. destruct (th_syn _); [done|]. destruct Hb as (H1 & H2 & H3). split; [done|]. right.
  rewrite zlen_app. split; [zlia|]. split; [rewrite slice_app by zlia; done|]. intros Et. destruct (Hf Et) as [E1 E2].
  rewrite (He E1) at 1. rewrite zlen_app in *. specialize (He E1). apply (f_equal zlen) in He. rewrite zlen_app in He. lia.
Qed.

(** The first flush of segments [segs] that form a chain. *)
Lemma chain_carries S isn H e s r segs : is_prefix H S -> (e = true -> H = S) -> forall start, chain isn H e start segs ->
  (forall l1 l2, segs = l1 ++ l2 -> boundary s (start + flight l1)) ->
  carries S isn s start (map (stamp r false) segs) (start + flight segs).
Proof.
  intros HpS HeS. induction segs as [|t segs IH]; intros start Hch Hb; cbn [map carries].
  - cbn. lia.
  - destruct Hch as (Hok & Hpos & Hch). exists start. split; [by eapply lies_stamp, seg_lies|]. split; [lia|].
    assert (Ep : past start (stamp r false t) = start + length_in_sequence_space t) by (unfold past; by rewrite stamp_len).
    rewrite Ep. split.
    + specialize (Hb [t] segs eq_refl). cbn in Hb. by rewrite Z.add_0_r in Hb.
    + rewrite Z.max_r by lia. replace (start + flight (t :: segs)) with (start + length_in_sequence_space t + flight segs) by (cbn; fold (flight segs); lia).
      apply IH; [done|]. intros l1 l2 ->. specialize (Hb (t :: l1) l2 eq_refl). cbn in Hb. fold (flight l1) in Hb. by rewrite Z.add_assoc in Hb.
Qed.

(** The right edge a receiver offers; its acknowledgments. *)
Definition offer (cap : Z) (g : fifo) : Z := Z.max (1 + ff_nread g + cap + (if ff_ended g then 1 else 0)) (position g + 1).

Lemma stamp_acks S isn cap s r del g A segs : in_step S isn cap r del g A -> cap < W16 -> boundary s (position g) -> Forall plain segs ->
  forall u e, u <= position g -> e <= offer cap g -> segs <> [] -> acked isn cap s u e (map (stamp r false) segs) (position g) (offer cap g).
Proof.
  intros Hr Hc Hb Hp. pose proof (step_ackno S isn cap Hr) as Ea. destruct (step_window S isn cap Hr) as [Ew Hw].
  pose proof (fifo_pending_len g (br_nreadb _ _ (rp_out _ _ _ (step_repr S isn cap Hr)))) as Hl.
  assert (Eo : position g + Z.max (u16 (TCPReceiver_window_size r)) 1 = offer cap g).
  { rewrite Ew, u16_id by lia. unfold offer, position. destruct (ff_ended g); lia. }
  induction Hp as [|t segs Ht Hp IH]; intros u e Hu He Hne; [done|]. cbn [map acked]. exists (position g).
  assert (Hh : th_ack (ts_header (stamp r false t)) = true /\ th_rst (ts_header (stamp r false t)) = false /\
    th_ackno (ts_header (stamp r false t)) = wrap (position g) isn /\ th_win (ts_header (stamp r false t)) = u16 (TCPReceiver_window_size r)).
  { unfold stamp. by rewrite Ea. }
  destruct Hh as (-> & -> & -> & ->). rewrite Eo. do 3 (split; [done|]). split; [rewrite Ew, u16_id by lia; lia|].
  split; [done|]. split; [done|]. split; [done|]. destruct segs as [|t' segs]; [done|]. by apply IH.
Qed.

(** A receiver that moves on offers no less. *)
Lemma offer_mono cap g g' : position g <= position g' -> ff_nread g <= ff_nread g' -> (ff_ended g = true -> ff_ended g' = true) -> offer cap g <= offer cap g'.
Proof. intros Hp Hn He. unfold offer. destruct (ff_ended g); [rewrite He by done|destruct (ff_ended g')]; lia. Qed.

(** ** One direction of the link

    The sender [s] of the stream [S], the receiver [r] at the other end, the segments [q] on
    their way to [r] and the acknowledgments [k] on their way back. *)
Record half (S : bytes) (isn : WrappingInt32) (cap : Z) (s : TCPSender) (f : fifo)
  (r : TCPReceiver) (del : bytes) (g : fifo) (A : gmap Z byte) (q k : list TCPSegment) : Prop := {
  ha_snd : sender_ok S s f;
  ha_isn : sd_isn s = isn;
  ha_wire : sd_wire s;
  ha_win : sd_receiver_window_size s <= cap;
  ha_rcv : in_step S isn cap r del g A;
  ha_carry : carries S isn s (position g) q (sd_next_seqno s);
  ha_acks : acked isn cap s (una s) (edge s) k (position g) (offer cap g)
}.

Lemma ended_stays S isn cap r del g A r' del' g' A' : in_step S isn cap r del g A -> in_step S isn cap r' del' g' A' ->
  position g <= position g' -> ff_ended g = true -> ff_ended g' = true.
Proof.
  intros H H' Hp He. destruct (ff_ended g') eqn:E; [done|]. unfold position in Hp. rewrite He, E, (step_ended S isn cap H He) in Hp.
  pose proof (step_short S isn cap H'). lia.
Qed.

Section Half.
Context (S : bytes) (isn : WrappingInt32) (cap : Z).
Context (HS : zlen S + 2 <= W31) (Hcap : 1 <= cap < W16).

Section Facts.
Context {s : TCPSender} {f : fifo} {r : TCPReceiver} {del : bytes} {g : fifo} {A : gmap Z byte} {q k : list TCPSegment}.
Context (H : half S isn cap s f r del g A q k).

Lemma half_isn : wi_ok isn.
Proof. rewrite <- (ha_isn _ _ _ _ _ _ _ _ _ _ _ H). apply (dw_isn _ (ha_wire _ _ _ _ _ _ _ _ _ _ _ H)). Qed.

Lemma half_next : sd_next_seqno s <= zlen S + 2 /\ una s <= sd_next_seqno s /\ 0 <= una s /\ 1 <= sd_next_seqno s /\ ff_nread f <= zlen S /\
  sd_next_seqno s = 1 + ff_nread f + (if sd_fin s then 1 else 0).
Proof.
  destruct (ha_snd _ _ _ _ _ _ _ _ _ _ _ H) as [I Hp _ Hsyn _ _]. destruct (sender_bound S HS f Hp) as [Hb Hl].
  destruct (next_bound s f I Hb) as (? & ? & ?). unfold una. pose proof (di_next _ _ I) as N. rewrite Hsyn in N. destruct (sd_fin s); lia.
Qed.

Lemma half_order : una s <= position g <= sd_next_seqno s.
Proof. destruct H as [_ _ _ _ _ Hc Ha]. apply acked_le in Ha. apply carries_le in Hc. lia. Qed.

Lemma half_boundary : boundary s (position g).
Proof. eapply acked_boundary; [apply H|]. by left. Qed.

(** Everything was acknowledged. *)
Lemma half_quiet : sd_bytes_in_flight s = 0 -> sd_segments_outstanding s = [] /\ una s = sd_next_seqno s /\ position g = sd_next_seqno s.
Proof.
  intros Hb. pose proof half_order. assert (una s = sd_next_seqno s) by (unfold una; lia). split; [|lia].
  destruct (ha_snd _ _ _ _ _ _ _ _ _ _ _ H) as [I _ _ _ _ _]. pose proof (di_flight _ _ I) as Hf. pose proof (di_chain _ _ I) as Hc.
  destruct (sd_segments_outstanding s) as [|t l]; [done|]. destruct Hc as (_ & Hpos & _). cbn in Hf. fold (flight l) in Hf. pose proof (flight_nonneg l). lia.
Qed.
End Facts.

(** The next segment of [q] arrives. *)
Lemma half_receive s f r del g A seg q k : half S isn cap s f r del g A (seg :: q) k -> ff_nread f <= ff_nread g + cap ->
  exists r' g' A', TCPReceiver_segment_received r seg = Ok r' /\ in_step S isn cap r' del g' A' /\
    carries S isn s (position g') q (sd_next_seqno s) /\ position g <= position g' /\ boundary s (position g') /\
    offer cap g <= offer cap g' /\ ff_nread g' = ff_nread g /\ (length_in_sequence_space seg = 0 -> position g' = position g).
Proof.
  intros H Hfit. pose proof (half_next H) as Hn. pose proof H as [Hs _ _ _ Hr (start & L & Hst & Hb & Hq) _].
  pose proof (step_short S isn cap Hr). pose proof (step_window S isn cap Hr) as [_ Hw].
  destruct (step_segment S isn cap Hr (half_isn H) ltac:(lia) HS seg start L Hst) as (r' & g' & A' & E & Hr' & Ep & En).
  { intros Hne. pose proof (carries_le _ _ _ _ _ _ Hq). pose proof (lies_past _ _ _ _ L) as Hpast. destruct L as [_ _ Hl].
    destruct (th_syn _); [by destruct Hl as (_ & _ & ?)|]. destruct Hl as (? & [[? _]|(? & _ & Hf)]); [done|].
    destruct (sd_fin s) eqn:Ef; [|destruct (th_fin _); lia].
    destruct (so_inv _ _ _ Hs). destruct (di_fin Ef) as [Hy Hx]. pose proof (so_ended _ _ _ Hs Hy) as Hz. apply (f_equal zlen) in Hz.
    destruct (th_fin _); lia. }
  exists r', g', A'. split; [done|]. split; [done|]. rewrite <- Ep in Hq. split; [done|]. split; [lia|]. split.
  { rewrite Ep. destruct (Z.max_spec (position g) (past start seg)) as [[_ ->]|[_ ->]]; [done|]. apply (half_boundary H). }
  split; [|split; [done|]].
  - apply offer_mono; [lia|lia|]. apply (ended_stays S isn cap r del g A r' del g' A' Hr Hr'). lia.
  - intros E0. rewrite Ep. unfold past. rewrite E0. lia.
Qed.

(** The replies of the receiver. *)
Lemma half_reply s f r del g A q k r' g' A' segs : half S isn cap s f r del g A q k -> in_step S isn cap r' del g' A' ->
  position g <= position g' -> offer cap g <= offer cap g' -> boundary s (position g') -> Forall plain segs ->
  (segs = [] -> position g' = position g) ->
  acked isn cap s (una s) (edge s) (k ++ map (stamp r' false) segs) (position g') (offer cap g').
Proof.
  intros H Hr' Hp Ho Hb Hpl Hnil. eapply acked_app; [apply H|].
  destruct (decide (segs = [])) as [->|Hne]; [cbn; rewrite Hnil by done; lia|].
  by apply (stamp_acks S isn cap s r' del g' A' segs Hr' ltac:(lia)).
Qed.

(** What a sender emits follows what is under way. *)
Lemma emit_carries s f s' f' new r p q : carries S isn s p q (sd_next_seqno s) -> is_prefix (ff_hist f) S -> (ff_ended f = true -> ff_hist f = S) ->
  sd_isn s = isn -> emits S s f s' f' new -> carries S isn s' p (q ++ map (stamp r false) new) (sd_next_seqno s').
Proof.
  intros Hq Hp Hend Ei [Hok _ _ _ Hch En Hm He]. eapply carries_app; [eapply carries_mono; [exact Hm|exact Hq]|]. rewrite En.
  rewrite Ei in Hch. by eapply chain_carries.
Qed.

(** The next acknowledgment of [k] arrives. *)
Lemma half_ack s f r del g A q seg k : half S isn cap s f r del g A q (seg :: k) ->
  exists s' f' new, th_ack (ts_header seg) = true /\ th_rst (ts_header seg) = false /\
    TCPSender_ack_received s (th_ackno (ts_header seg)) (th_win (ts_header seg)) = Ok s' /\
    emits S s f s' f' new /\ sd_wire s' /\ sd_receiver_window_size s' <= cap /\
    acked isn cap s' (una s') (edge s') k (position g) (offer cap g) /\ una s <= una s' /\
    sd_consecutive_retransmissions s' <= sd_consecutive_retransmissions s /\
    (una s < una s' -> sd_consecutive_retransmissions s' = 0) /\ (sd_segments_outstanding s = [] -> new = []) /\
    th_ackno (ts_header seg) = wrap (una s') isn.
Proof.
  intros H. pose proof H as [Hs Hi Hwire Hwin Hr Hc (a & Hack & Hrst & Ea & Hw & Hu & He & Hb & Hk)].
  destruct (ack_ok S HS s f a (th_win (ts_header seg)) Hs Hu Hb He ltac:(lia)) as (s' & f' & new & E & Hem & Eu & Hedge & Hww & Hc1 & Hc2 & Hnil).
  exists s', f', new. rewrite Ea. rewrite Hi in E. do 3 (split; [done|]). split; [done|]. split; [by eapply ack_received_wire|].
  split; [destruct Hww as [->| ->]; lia|]. split.
  - rewrite Eu. apply (acked_weaken _ _ _ _ a _ (a + Z.max (th_win (ts_header seg)) 1) _ _ (offer cap g)); [lia|lia|].
    eapply acked_mono; [apply Hem|done].
  - rewrite Eu. split; [lia|]. by split_and!.
Qed.
End Half.

(** ** Connections *)

(** Both streams have ended and everything sent was acknowledged. *)
Definition over (c : TCPConnection) : Prop :=
  ByteStream_input_ended (TCPConnection_inbound_stream c) = true /\ sd_fin (cn_sender c) = true /\ sd_bytes_in_flight (cn_sender c) = 0.

(** Between calls, when nothing has gone wrong. *)
Record calm (c : TCPConnection) : Prop := {
  ca_rst : cn_need_send_rst c = false;
  ca_flushed : sd_segments_out (cn_sender c) = [];
  ca_active : cn_active c = false -> over c;
  ca_linger : over c -> cn_active c = true -> cn_linger_after_streams_finish c = true
}.

(** What the flush at the end of a call does. *)
Record flushed (c c' : TCPConnection) : Prop := {
  fl_calm : calm c';
  fl_cfg : cn_cfg c' = cn_cfg c;
  fl_receiver : cn_receiver c' = cn_receiver c;
  fl_sender : cn_sender c' = sd_set_segments_out (cn_sender c) [];
  fl_out : cn_segments_out c' = cn_segments_out c ++ map (stamp (cn_receiver c) false) (sd_segments_out (cn_sender c));
  fl_time : cn_time_since_last_segment_received c' = cn_time_since_last_segment_received c;
  fl_active : cn_active c' = true -> cn_active c = true;
  fl_expires : over c -> cn_active c' = true -> cn_time_since_last_segment_received c < 10 * cfg_rt_timeout (cn_cfg c)
}.

Lemma flush_calm c : cn_need_send_rst c = false -> (cn_active c = false -> over c) -> flushed c (send_sender_segments c).
Proof.
  intros Hr Ha. unfold send_sender_segments. rewrite Hr, andb_false_r, flush_loop_eq, Hr, andb_false_r.
  assert (Es : stamped (cn_receiver c) false (sd_segments_out (cn_sender c)) = map (stamp (cn_receiver c) false) (sd_segments_out (cn_sender c)))
    by (by destruct (sd_segments_out (cn_sender c))).
  rewrite Es. unfold clean_shutdown, over, TCPConnection_inbound_stream in *. cbn.
  destruct (ByteStream_input_ended (TCPReceiver_stream_out (cn_receiver c))) eqn:E1; [|by split; [split|..]; cbn; unfold over, TCPConnection_inbound_stream; cbn; rewrite ?E1; intuition].
  destruct (sd_fin (cn_sender c)) eqn:E2; cbn [negb]; [|by split; [split|..]; cbn; unfold over, TCPConnection_inbound_stream; cbn; rewrite ?E1, ?E2; intuition].
  destruct (Z.eqb_spec (sd_bytes_in_flight (cn_sender c)) 0) as [E3|E3];
    [|by split; [split|..]; cbn; unfold over, TCPConnection_inbound_stream; cbn; rewrite ?E1, ?E2; intuition].
  destruct (negb _ || _) eqn:E4.
  - split; [split|..]; cbn; unfold over, TCPConnection_inbound_stream; cbn; rewrite ?E1, ?E2; try done; intuition congruence.
  - apply orb_false_iff in E4 as [E4 E5]. apply negb_false_iff in E4. apply Z.leb_gt in E5.
    split; [split|..]; cbn; unfold over, TCPConnection_inbound_stream; cbn; rewrite ?E1, ?E2; intuition.
Qed.

(** The sender's queue plays no part in what it has sent. *)
Lemma sender_queue S s f l : sender_ok S s f -> Forall (sent_ok (sd_isn s) (ff_hist f) (ff_ended f)) l -> sender_ok S (sd_set_segments_out s l) f.
Proof. intros [[] ? ? ? ? ?] Hl. by repeat (split; try done). Qed.

Lemma wire_queue s l : sd_wire s -> Forall seg_wire l -> Forall plain l -> sd_wire (sd_set_segments_out s l).
Proof. intros [] ? ?. by split. Qed.

(** The acknowledgment without data. *)
Definition bare (s : TCPSender) : TCPSegment :=
  mkTCPSegment (th_set_seqno TCPHeader_default (wrap (sd_next_seqno s) (sd_isn s))) Buffer_empty.

Lemma boundary_next s f : sd_inv s f -> boundary s (sd_next_seqno s).
Proof. intros I. right. exists (sd_segments_outstanding s), []. rewrite app_nil_r. split; [done|]. unfold una. rewrite <- (di_flight _ _ I). lia. Qed.

Lemma bare_carries S isn s f r : sd_inv s f -> sd_isn s = isn -> 1 <= sd_next_seqno s ->
  carries S isn s (sd_next_seqno s) (map (stamp r false) [bare s]) (sd_next_seqno s).
Proof.
  intros I Ei Hn. assert (Ep : past (sd_next_seqno s) (stamp r false (bare s)) = sd_next_seqno s) by (unfold past; rewrite stamp_len; change (length_in_sequence_space (bare s)) with 0; lia).
  apply (carries_one S isn s (sd_next_seqno s)); [|lia|lia|rewrite Ep; by eapply boundary_next].
  apply lies_stamp. split; cbn; [by rewrite Ei|by vm_compute|]. split; [lia|]. by left.
Qed.

Section Duplex.
Context (cap : Z) (Hcap : 1 <= cap < W16).

(** One direction of a link between two connections. *)
Definition flow (S : bytes) (isn : WrappingInt32) (c d : TCPConnection) (q k : list TCPSegment) (f : fifo) (del : bytes) (g : fifo) : Prop :=
  exists A, half S isn cap (cn_sender c) f (cn_receiver d) del g A q k.

(** What a call on [d] has done to the two directions: [d] sent [new]. *)
Record progress (S S' : bytes) (i i' : WrappingInt32) (c d d' : TCPConnection) (q k new : list TCPSegment)
  (f : fifo) (del : bytes) (g : fifo) (f' : fifo) (del' : bytes) (g' : fifo) : Prop := {
  pr_calm : calm d';
  pr_out : cn_segments_out d' = cn_segments_out d ++ new;
  pr_cfg : cn_cfg d' = cn_cfg d;
  pr_in : flow S i c d' q (k ++ new) f del g;
  pr_back : flow S' i' d' c (k ++ new) q f' del' g'
}.

(** Acknowledgments move on; one that acknowledges something stops the backoff. *)
Record acking (d d' : TCPConnection) : Prop := {
  pr_una : una (cn_sender d) <= una (cn_sender d');
  pr_consec : sd_consecutive_retransmissions (cn_sender d') <= sd_consecutive_retransmissions (cn_sender d);
  pr_reset : una (cn_sender d) < una (cn_sender d') -> sd_consecutive_retransmissions (cn_sender d') = 0
}.

Context (S S' : bytes) (i i' : WrappingInt32) (HS : zlen S + 2 <= W31) (HS' : zlen S' + 2 <= W31).

(** The next segment for [d] arrives. *)
Lemma receive_link c d seg q k f del g f' del' g' :
  flow S i c d (seg :: q) k f del g -> flow S' i' d c k (seg :: q) f' del' g' -> calm d -> cn_active d = true ->
  (una (cn_sender d) = 0 -> payload_of seg = []) -> ff_nread f <= ff_nread g + cap ->
  exists d' new f2 g2, TCPConnection_segment_received d seg = Ok d' /\
    progress S S' i i' c d d' q k new f del g2 f2 del' g' /\ acking d d' /\ th_ackno (ts_header seg) = wrap (una (cn_sender d')) i' /\
    ff_nread g2 = ff_nread g /\ position g <= position g2 /\ (exists m, f2 = fifo_adv f' m) /\
    (over d -> Forall (fun t => length_in_sequence_space t = 0) new /\ (length_in_sequence_space seg = 0 -> new = [])).
Proof.
  intros [A H1] [A' H2] Hcalm Hact Hgreet Hfit. pose proof Hcalm as [Hrst Hfl _ _].
  destruct (half_receive S i cap HS Hcap _ _ _ _ _ _ _ _ _ H1 Hfit) as (r' & g2 & A2 & Er & Hr' & Hcar & Hpos & Hbd & Hoff & Hnr & Hsame).
  destruct (half_ack S' i' cap HS' Hcap _ _ _ _ _ _ _ _ _ H2) as (s' & f2 & new0 & Hack & Hr0 & Es & Hem & Hwire & Hwin & Hacks & Hun & Hc1 & Hc2 & Hnil & Eackno).
  pose proof (half_next S' i' cap HS' H2) as (_ & Hn2 & Hn3 & Hn4 & _). set (s := cn_sender d) in *.
  assert (Hout : sd_segments_out s' = new0) by (by rewrite (em_out _ _ _ _ _ _ Hem), Hfl).
  set (bareq := (0 <? length_in_sequence_space seg) && is_empty (sd_segments_out s')).
  set (s2 := if bareq then TCPSender_send_empty_segment s' else s').
  assert (Erun : TCPConnection_segment_received d seg = Ok (send_sender_segments (cn_set_sender (cn_set_receiver (cn_set_time d 0) r') s2))).
  { unfold TCPConnection_segment_received. rewrite Hact. cbn [negb]. cbv zeta. cbn [cn_sender cn_set_time cn_receiver]. fold s.
    destruct (Z.eqb_spec (sd_next_seqno s) 0); [lia|]. cbn [andb]. rewrite Hr0.
    assert (Et : segment_received_tail (cn_set_time d 0) seg = Ok (send_sender_segments (cn_set_sender (cn_set_receiver (cn_set_time d 0) r') s2))).
    { unfold segment_received_tail. cbn [cn_receiver cn_set_time]. rewrite Er, res_bind_Ok, Hack. cbn [cn_sender cn_set_receiver cn_set_time]. fold s. rewrite Es. done. }
    destruct ((0 <? sd_next_seqno s) && _) eqn:Eb; [|done]. apply andb_prop in Eb as [_ Eb]. apply Z.eqb_eq in Eb.
    assert (payload_of seg = []) as Ep by (apply Hgreet; unfold una; lia). fold (payload_of seg). rewrite Ep, Hack. done. }
  set (segs := if bareq then [bare s'] else new0).
  assert (Esegs : sd_segments_out s2 = segs).
  { unfold s2, segs. destruct bareq eqn:Eb; [|done]. apply andb_prop in Eb as [_ Eb]. cbn. destruct (sd_segments_out s'); [done|done]. }
  assert (Enew : bareq = true -> new0 = []).
  { intros Eb. apply andb_prop in Eb as [_ Eb]. rewrite <- Hout. by destruct (sd_segments_out s'). }
  assert (Hpl : Forall plain segs).
  { unfold segs. destruct bareq; [by apply Forall_singleton|]. rewrite <- Hout. apply Hwire. }
  assert (Hempty : segs = [] -> length_in_sequence_space seg = 0).
  { unfold segs, bareq. intros Eq. assert (0 <= length_in_sequence_space seg) by apply u64_range.
    destruct (Z.ltb_spec 0 (length_in_sequence_space seg)); [|lia]. cbn [andb] in Eq. rewrite Hout in Eq. destruct new0; cbn [is_empty] in Eq; done. }
  pose proof (em_ok _ _ _ _ _ _ Hem) as Hok. pose proof (so_inv _ _ _ Hok) as I'.
  assert (Hem0 : forall new1, emits S' s f' s' f2 new1 -> carries S' i' s' (position g') (k ++ map (stamp r' false) new1) (sd_next_seqno s')).
  { intros new1. destruct H2 as [[] ? ? ? ? ? ?]. by apply (emit_carries S' i' s f' s' f2 new1 r'). }
  assert (Hcar2 : carries S' i' s' (position g') (k ++ map (stamp r' false) segs) (sd_next_seqno s')).
  { unfold segs. destruct bareq; [|by apply Hem0]. rewrite (Enew eq_refl) in Hem.
    pose proof (Hem0 [] Hem) as Hx. cbn [map] in Hx. rewrite app_nil_r in Hx.
    eapply carries_app; [exact Hx|]. eapply bare_carries; [done|by rewrite (em_isn _ _ _ _ _ _ Hem), (ha_isn _ _ _ _ _ _ _ _ _ _ _ H2)|].
    rewrite (em_next _ _ _ _ _ _ Hem). cbn. lia. }
  set (d1 := cn_set_sender (cn_set_receiver (cn_set_time d 0) r') s2) in *.
  destruct (flush_calm d1) as [Hcalm' Ecfg Erv Esd Eout _ Hactive _]; [done|by change (cn_active d1) with (cn_active d); rewrite Hact|].
  cbn [cn_receiver cn_sender cn_segments_out d1 cn_set_sender cn_set_receiver cn_set_time] in Erv, Esd, Eout. rewrite Esegs in Eout.
  set (d' := send_sender_segments d1) in *.
  assert (Esame : una (cn_sender d') = una s' /\ sd_consecutive_retransmissions (cn_sender d') = sd_consecutive_retransmissions s').
  { rewrite Esd. unfold s2. by destruct bareq. }
  destruct Esame as [Eu Ec].
  assert (Es2 : cn_sender d' = sd_set_segments_out s' []) by (rewrite Esd; unfold s2; by destruct bareq).
  exists d', (map (stamp r' false) segs), f2, g2. split; [done|]. split; [|split; [|split; [by rewrite Eu|]; split; [done|]; split; [done|]; split; [apply Hem|]]].
  - split; try done.
    + exists A2. destruct H1 as [X1 X2 X3 X4 X5 X6 X7]. rewrite Erv. split; try done.
      apply (half_reply S i cap Hcap _ f (cn_receiver d) del g A (seg :: q) k r' g2 A2 segs); try done. intros E0. by apply Hsame, Hempty.
    + exists A'. rewrite Es2. split.
      * apply sender_queue; [done|by apply Forall_nil].
      * cbn. by rewrite (em_isn _ _ _ _ _ _ Hem), (ha_isn _ _ _ _ _ _ _ _ _ _ _ H2).
      * apply wire_queue; [done|by apply Forall_nil|by apply Forall_nil].
      * done.
      * apply H2.
      * eapply carries_mono; [|exact Hcar2]. done.
      * eapply acked_mono; [|exact Hacks]. done.
  - split; by rewrite ?Eu, ?Ec.
  - intros (_ & _ & Hbif). destruct (half_quiet S' i' cap H2 Hbif) as (Hno & _). specialize (Hnil Hno). subst new0.
    unfold segs. split.
    + destruct bareq; cbn; [|by apply Forall_nil]. apply Forall_singleton. by rewrite stamp_len.
    + intros E0. unfold bareq. rewrite E0. done.
Qed.

(** A connection that is over can ignore what is under way to it. *)
Lemma ignore_ok c d seg q k f del g f' del' g' :
  flow S i c d (seg :: q) k f del g -> flow S' i' d c k (seg :: q) f' del' g' -> over d ->
  flow S i c d q k f del g /\ flow S' i' d c k q f' del' g'.
Proof.
  intros [A H1] [A' H2] (Hend & Hfin & Hbif). pose proof (half_next S i cap HS H1) as (Hn & _).
  destruct (half_quiet S' i' cap H2 Hbif) as (_ & Hq1 & Hq2). split.
  - exists A. destruct H1 as [X1 X2 X3 X4 X5 (start & L & Hs & Hb & Hc) X7]. split; try done.
    assert (Eg : ff_ended g = true).
    { unfold TCPConnection_inbound_stream, TCPReceiver_stream_out, ByteStream_input_ended in Hend.
      by rewrite (br_ended _ _ (rp_out _ _ _ (step_repr S i cap X5))) in Hend. }
    assert (Ep : position g = zlen S + 2) by (unfold position; rewrite Eg, (step_ended S i cap X5 Eg); lia).
    pose proof (carries_le _ _ _ _ _ _ Hc). by rewrite Z.max_l in Hc by lia.
  - exists A'. destruct H2 as [X1 X2 X3 X4 X5 X6 (a & _ & _ & _ & _ & Hu & He & _ & Hk)]. split; try done.
    pose proof (acked_le _ _ _ _ _ _ _ _ Hk). assert (a = una (cn_sender d)) as -> by lia.
    eapply acked_weaken; [exact He| |exact Hk]. lia.
Qed.

(** ** Operations of the owner, and time *)

(** [d] has sent the segments [segs] of its sender [s1], which has sent no other since [d]
    was calm; [f1] is what its owner wrote by then. *)
Lemma flush_link c d s1 f1 q k f del g f' del' g' :
  flow S i c d q k f del g -> flow S' i' d c k q f' del' g' -> calm d -> cn_active d = true ->
  sender_ok S' s1 f1 -> sd_isn s1 = i' -> sd_wire s1 -> sd_receiver_window_size s1 <= cap ->
  una s1 = una (cn_sender d) -> edge s1 = edge (cn_sender d) -> (forall a, boundary (cn_sender d) a -> boundary s1 a) ->
  carries S' i' s1 (position g') (k ++ map (stamp (cn_receiver d) false) (sd_segments_out s1)) (sd_next_seqno s1) ->
  forall t, let d' := send_sender_segments (cn_set_sender (cn_set_time d t) s1) in
  progress S S' i i' c d d' q k (map (stamp (cn_receiver d) false) (sd_segments_out s1)) f del g f1 del' g' /\
  flushed (cn_set_sender (cn_set_time d t) s1) d'.
Proof.
  intros [A H1] [A' H2] Hcalm Hact Hok Ei Hwire Hwin Eu Ee Hm Hcar t d'.
  pose proof (flush_calm (cn_set_sender (cn_set_time d t) s1)) as Hfl. fold d' in Hfl.
  destruct Hfl as [Hcalm' Ecfg Erv Esd Eout Etm Hactive Hexp]; [apply Hcalm|cbn; by rewrite Hact|]. split; [|done].
  cbn [cn_receiver cn_sender cn_segments_out cn_set_sender cn_set_time] in *. split; try done.
  - exists A. destruct H1 as [X1 X2 X3 X4 X5 X6 X7]. rewrite Erv. split; try done.
    apply (half_reply S i cap Hcap _ f (cn_receiver d) del g A q k _ g A); try done; [lia..| |apply Hwire].
    eapply acked_boundary; [exact X7|by left].
  - exists A'. rewrite Esd. destruct H2 as [X1 X2 X3 X4 X5 X6 X7]. split; try done.
    + apply sender_queue; [done|by apply Forall_nil].
    + apply wire_queue; [done|by apply Forall_nil|by apply Forall_nil].
    + eapply carries_mono; [|exact Hcar]. done.
    + change (una (sd_set_segments_out s1 [])) with (una s1). change (edge (sd_set_segments_out s1 [])) with (edge s1). rewrite Eu, Ee.
      eapply acked_mono; [|exact X7]. exact Hm.
Qed.

(** [fill_window] after the owner changed the outbound stream to [st]. *)
Lemma fill_stream c d st f1 q k f del g f' del' g' :
  flow S i c d q k f del g -> flow S' i' d c k q f' del' g' -> calm d -> cn_active d = true ->
  sd_inv (sd_set_stream (cn_sender d) st) f1 -> is_prefix (ff_hist f1) S' -> (ff_ended f1 = true -> ff_hist f1 = S') -> ff_err f1 = false ->
  exists s1 f2 new, TCPSender_fill_window (sd_set_stream (cn_sender d) st) = Ok s1 /\ (exists m, f2 = fifo_adv f1 m) /\
    let d' := send_sender_segments (cn_set_sender d s1) in
    progress S S' i i' c d d' q k new f del g f2 del' g' /\ acking d d' /\ una (cn_sender d') = una (cn_sender d).
Proof.
  intros H1 H2 Hcalm Hact I1 Hp He Hcl. pose proof H2 as [A' [X1 X2 X3 X4 X5 X6 X7]]. set (s0 := sd_set_stream (cn_sender d) st) in *.
  destruct (fill_ok S' HS' s0 f1 I1 Hp He (so_syn _ _ _ X1) (so_room _ _ _ X1) Hcl) as (s1 & f2 & new & E & Hem & Eu & Ew & Ec).
  assert (Hwire : sd_wire s1) by (apply (fill_window_wire s0 s1); [by apply (sd_wire_same (cn_sender d))|done]).
  assert (Hout : sd_segments_out s1 = new) by (rewrite (em_out _ _ _ _ _ _ Hem); cbn; by rewrite (ca_flushed _ Hcalm)).
  assert (Hcar : carries S' i' s1 (position g') (k ++ map (stamp (cn_receiver d) false) (sd_segments_out s1)) (sd_next_seqno s1)).
  { rewrite Hout. apply (emit_carries S' i' s0 f1 s1 f2 new); try done. by apply (carries_mono S' i' (cn_sender d) s0). }
  assert (Et : cn_set_time d (cn_time_since_last_segment_received d) = d) by (by destruct d).
  destruct (flush_link c d s1 f2 q k f del g f' del' g' H1 H2 Hcalm Hact (em_ok _ _ _ _ _ _ Hem)) with (t := cn_time_since_last_segment_received d)
    as [Hpr Hfl]; try done.
  { by rewrite (em_isn _ _ _ _ _ _ Hem). }
  { by rewrite Ew. }
  { unfold edge. by rewrite Eu, Ew. }
  { intros a Ha. by apply Hem. }
  rewrite Et in Hpr, Hfl. eexists s1, f2, _. split; [done|]. split; [apply Hem|]. split; [exact Hpr|].
  assert (Eu' : una (cn_sender (send_sender_segments (cn_set_sender d s1))) = una (cn_sender d)) by (rewrite (fl_sender _ _ Hfl); exact Eu).
  split; [|done]. split; rewrite ?Eu'; [lia| |lia]. rewrite (fl_sender _ _ Hfl). cbn. rewrite Ec. cbn. lia.
Qed.

(** The owner's write is taken whole. *)
Lemma write_ok c d data q k f del g f' del' g' :
  flow S i c d q k f del g -> flow S' i' d c k q f' del' g' -> calm d -> cn_active d = true ->
  ff_ended f' = false -> is_prefix (ff_hist f' ++ data) S' -> 0 < zlen data <= TCPConnection_remaining_outbound_capacity d ->
  exists d' f2 new, TCPConnection_write d data = Ok (zlen data, d') /\ ff_hist f2 = ff_hist f' ++ data /\ ff_ended f2 = false /\ ff_cap f2 = ff_cap f' /\
    progress S S' i i' c d d' q k new f del g f2 del' g' /\ acking d d' /\ una (cn_sender d') = una (cn_sender d).
Proof.
  intros H1 H2 Hcalm Hact Hend Hp [Hz Hroom]. pose proof H2 as [A' [X1 _ _ _ _ _ _]]. pose proof (so_inv _ _ _ X1) as I.
  unfold TCPConnection_remaining_outbound_capacity in Hroom. rewrite (bs_remaining_spec _ _ (di_stream _ _ I)) in Hroom.
  assert (Eacc : fifo_accepts f' data = data) by (unfold fifo_accepts; by apply ztake_all).
  destruct (sender_bound S' HS' (mkFifo (ff_hist f' ++ data) 0 0 false false) Hp) as [_ Hl]. cbn in Hl. rewrite zlen_app in Hl.
  destruct (inv_write (cn_sender d) f' data I Hend) as [I1 En]; [rewrite Eacc; lia|]. rewrite Eacc in En.
  unfold TCPConnection_write. destruct data as [|b data]; [by rewrite (@zlen_nil byte) in Hz|].
  unfold TCPSender_write in *. destruct (ByteStream_write _ _) as [n st]. cbn [fst snd] in *. subst n.
  destruct (fill_stream c d st (fifo_write f' (b :: data)) q k f del g f' del' g' H1 H2 Hcalm Hact I1) as (s1 & f2 & new & E & [m ->] & Hpr & Hack & Eu).
  { cbn [ff_hist fifo_write]. by rewrite Eacc. }
  { cbn. by rewrite Hend. }
  { apply X1. }
  rewrite E. eexists _, (fifo_adv (fifo_write f' (b :: data)) m), new. split; [reflexivity|]. split; [cbn [ff_hist fifo_adv fifo_write]; by rewrite Eacc|]. by split_and!.
Qed.

(** The owner ends the stream. *)
Lemma end_ok c d q k f del g f' del' g' :
  flow S i c d q k f del g -> flow S' i' d c k q f' del' g' -> calm d -> cn_active d = true -> ff_hist f' = S' ->
  exists d' f2 new, TCPConnection_end_input_stream d = Ok d' /\ ff_hist f2 = S' /\ ff_ended f2 = true /\ ff_cap f2 = ff_cap f' /\
    progress S S' i i' c d d' q k new f del g f2 del' g' /\ acking d d' /\ una (cn_sender d') = una (cn_sender d).
Proof.
  intros H1 H2 Hcalm Hact Hh. pose proof H2 as [A' [X1 _ _ _ _ _ _]]. pose proof (inv_end_input _ _ (so_inv _ _ _ X1)) as I1.
  destruct (fill_stream c d _ _ q k f del g f' del' g' H1 H2 Hcalm Hact I1) as (s1 & f2 & new & E & [m ->] & Hpr & Hack & Eu).
  { cbn. rewrite Hh. exists []. by rewrite app_nil_r. }
  { done. }
  { apply X1. }
  unfold TCPConnection_end_input_stream, TCPSender_end_input. rewrite E. eexists _, (fifo_adv (mkFifo (ff_hist f') (ff_nread f') (ff_cap f') true (ff_err f')) m), new. split; [reflexivity|]. by split_and!.
Qed.

(** Time passes: at most the oldest segment is sent again. *)
Lemma tick_ok c d ms q k f del g f' del' g' :
  flow S i c d q k f del g -> flow S' i' d c k q f' del' g' -> calm d -> sd_consecutive_retransmissions (cn_sender d) <= 7 ->
  exists new, let d' := TCPConnection_tick d ms in
    progress S S' i i' c d d' q k new f del g f' del' g' /\ una (cn_sender d') = una (cn_sender d) /\
    sd_next_seqno (cn_sender d') = sd_next_seqno (cn_sender d) /\
    sd_consecutive_retransmissions (cn_sender d') <= sd_consecutive_retransmissions (cn_sender d) + 1 /\
    (over d -> new = [] /\ (cn_active d' = true -> cn_active d = true /\
       cn_time_since_last_segment_received d' = cn_time_since_last_segment_received d +64 ms /\
       cn_time_since_last_segment_received d' < 10 * cfg_rt_timeout (cn_cfg d))).
Proof.
  intros H1 H2 Hcalm Hc. destruct (cn_active d) eqn:Hact.
  2:{ unfold TCPConnection_tick. rewrite Hact. exists []. cbn zeta. cbn [negb]. split; [split; rewrite ?app_nil_r; done|]. split; [done|]. split; [done|]. split; [lia|]. intros _. split; [done|]. by rewrite Hact. }
  pose proof H2 as [A' H2']. pose proof H2' as [X1 X2 X3 X4 X5 X6 X7]. pose proof X1 as [I Hp He Hsyn Hroom Hbusy]. set (s := cn_sender d) in *. set (s1 := TCPSender_tick s ms).
  pose proof (di_consec _ _ I) as Hc0.
  assert (Hs1 : sd_isn s1 = sd_isn s /\ una s1 = una s /\ sd_receiver_window_size s1 = sd_receiver_window_size s /\ sd_next_seqno s1 = sd_next_seqno s /\
    sd_bytes_in_flight s1 = sd_bytes_in_flight s /\ sd_syn s1 = sd_syn s /\ sd_fin s1 = sd_fin s /\
    sd_segments_outstanding s1 = sd_segments_outstanding s /\ sd_consecutive_retransmissions s1 <= sd_consecutive_retransmissions s + 1 /\
    (sd_segments_out s1 = [] \/ exists t l, sd_segments_outstanding s = t :: l /\ sd_segments_out s1 = [t])).
  { assert (Hfl : sd_segments_out s = []) by apply Hcalm. unfold s1, TCPSender_tick. cbn [sd_segments_outstanding sd_set_tick].
    destruct (sd_segments_outstanding s) as [|t l] eqn:Eo; [|destruct (_ <=? _); [destruct (_ || _)|]]; cbn; rewrite ?Eo, ?Hfl; split_and!;
      try done; try lia; try nowrap; try lia; try (by left); right; by exists t, l. }
  destruct Hs1 as (Ei & Eu & Ew & En & Eb & Esy & Ef & Eo & Ec & Hout).
  assert (I1 : sd_inv s1 f') by (apply inv_tick; [done|lia]).
  assert (Hok : sender_ok S' s1 f') by (split; rewrite ?Esy, ?Eb, ?Ew, ?Eo, ?Ef; done).
  assert (Hm : forall a, boundary s a -> boundary s1 a) by (intros a; unfold boundary; by rewrite Eu, Eo).
  assert (Etick : TCPConnection_tick d ms = send_sender_segments (cn_set_sender (cn_set_time d (cn_time_since_last_segment_received d +64 ms)) s1)).
  { unfold TCPConnection_tick. rewrite Hact. cbn [negb]. cbv zeta. cbn [cn_sender cn_set_sender cn_set_time]. fold s. fold s1.
    destruct (Z.ltb_spec MAX_RETX_ATTEMPTS (sd_consecutive_retransmissions s1)) as [Hx|_]; [unfold MAX_RETX_ATTEMPTS in Hx; lia|done]. }
  rewrite Etick.
  destruct (flush_link c d s1 f' q k f del g f' del' g' H1 H2 Hcalm Hact Hok) with (t := cn_time_since_last_segment_received d +64 ms) as [Hpr Hfl]; try done.
  { by rewrite Ei. }
  { by apply tick_wire. }
  { by rewrite Ew. }
  { unfold edge. by rewrite Eu, Ew. }
  { rewrite En. destruct Hout as [-> |(t & l & El & ->)].
    - cbn. rewrite app_nil_r. by apply (carries_mono S' i' s s1).
    - eapply carries_app; [by apply (carries_mono S' i' s s1)|]. pose proof (di_chain _ _ I) as Hch. pose proof (di_flight _ _ I) as Hfl. rewrite El in Hch, Hfl.
      destruct Hch as (Hseg & Hpos & _). cbn in Hfl. fold (flight l) in Hfl. pose proof (flight_nonneg l). fold (una s) in Hseg.
      assert (Ep : past (una s) (stamp (cn_receiver d) false t) = una s + length_in_sequence_space t) by (unfold past; by rewrite stamp_len).
      apply (carries_one S' i' s1 (una s)); [|unfold una in *; lia..|].
      + apply lies_stamp. rewrite <- X2. by eapply seg_lies.
      + rewrite Ep. right. exists [t], l. rewrite Eo, Eu. split; [done|]. cbn. lia. }
  eexists. split; [exact Hpr|]. cbn zeta. rewrite (fl_sender _ _ Hfl). cbn [cn_sender cn_set_sender]. split; [exact Eu|]. split; [exact En|]. split; [exact Ec|].
  intros Hov. pose proof Hov as (_ & _ & Hbif). destruct (half_quiet S' i' cap H2' Hbif) as (Hno & _).
  split.
  - destruct Hout as [-> |(t & l & El & _)]; [done|]. fold s in Hno. congruence.
  - intros Ha. split; [done|]. rewrite (fl_time _ _ Hfl). split; [done|]. apply (fl_expires _ _ Hfl); [|done].
    destruct Hov as (? & ? & ?). unfold over, TCPConnection_inbound_stream in *. cbn. by rewrite Ef, Eb.
Qed.

(** The owner reads. *)
Lemma read_ok c d n q k f del g f' del' g' :
  flow S i c d q k f del g -> flow S' i' d c k q f' del' g' -> calm d -> 0 <= n ->
  exists d', TCPConnection_read d n = Ok (ztake n (fifo_pending g), d') /\ calm d' /\ cn_segments_out d' = cn_segments_out d /\ cn_cfg d' = cn_cfg d /\
    cn_sender d' = cn_sender d /\ cn_active d' = cn_active d /\ cn_time_since_last_segment_received d' = cn_time_since_last_segment_received d /\
    (over d <-> over d') /\
    flow S i c d' q k f (del ++ ztake n (fifo_pending g)) (fifo_pop g n) /\ flow S' i' d' c k q f' del' g'.
Proof.
  intros [A H1] H2 Hcalm Hn. pose proof H1 as [X1 X2 X3 X4 X5 X6 X7].
  destruct (step_read S i cap _ del g A n X5 Hn) as (r' & E & Hr'). unfold TCPConnection_read. rewrite E, res_bind_Ok.
  eexists. split; [reflexivity|]. cbn. 
  assert (Hov : over d <-> over (cn_set_receiver d r')).
  { unfold over, TCPConnection_inbound_stream, TCPReceiver_stream_out, ByteStream_input_ended. cbn.
    rewrite (br_ended _ _ (rp_out _ _ _ (step_repr S i cap X5))), (br_ended _ _ (rp_out _ _ _ (step_repr S i cap Hr'))). done. }
  split; [|split; [done|]; split; [done|]; split; [done|]; split; [done|]; split; [done|]; split; [done|]; split].
  - destruct Hcalm as [? ? Ha Hl]. split; cbn; try done; [intros Ea; by apply Hov, Ha|intros Ho Ea; apply Hl; [by apply Hov|done]].
  - exists A. cbn. split; try done. cbn. eapply acked_weaken; [| |exact X7]; [lia|]. apply offer_mono; [done|cbn; pose proof (zlen_nonneg (fifo_pending g)); lia|done].
  - destruct H2 as [A' H2]. exists A'. done.
Qed.
End Duplex.

(** ** Opening

    Both ends have sent their SYN and received nothing. *)
Record syn_sent (S : bytes) (isn : WrappingInt32) (cap : Z) (c : TCPConnection) (f : fifo) : Prop := {
  op_snd : sender_ok S (cn_sender c) f;
  op_isn : sd_isn (cn_sender c) = isn;
  op_wire : sd_wire (cn_sender c);
  op_una : una (cn_sender c) = 0;
  op_next : sd_next_seqno (cn_sender c) = 1;
  op_win : sd_receiver_window_size (cn_sender c) = 1;
  op_consec : sd_consecutive_retransmissions (cn_sender c) = 0;
  op_rst : cn_need_send_rst c = false;
  op_flushed : sd_segments_out (cn_sender c) = [];
  op_active : cn_active c = true;
  op_rcv : cn_receiver c = TCPReceiver_new cap
}.

Lemma flight_zero isn H e start l : chain isn H e start l -> flight l = 0 -> l = [].
Proof.
  destruct l as [|t l]; [done|]. intros (_ & Hpos & _) Hf. cbn in Hf. fold (flight l) in Hf. pose proof (flight_nonneg l). lia.
Qed.

Section Opening.
Context (S : bytes) (isn : WrappingInt32) (cap : Z) (HS : zlen S + 2 <= W31) (Hcap : 1 <= cap < W16).

(** The window is closed until the SYN is acknowledged. *)
Lemma syn_sent_fill c f st f1 : syn_sent S isn cap c f -> sd_inv (sd_set_stream (cn_sender c) st) f1 ->
  is_prefix (ff_hist f1) S -> (ff_ended f1 = true -> ff_hist f1 = S) -> ff_err f1 = false ->
  exists s1 m, TCPSender_fill_window (sd_set_stream (cn_sender c) st) = Ok s1 /\
    let c' := send_sender_segments (cn_set_sender c s1) in
    syn_sent S isn cap c' (fifo_adv f1 m) /\ cn_segments_out c' = cn_segments_out c /\ cn_cfg c' = cn_cfg c.
Proof.
  intros [X1 X2 X3 X4 X5 X6 X7 X8 X9 X10 X11] I1 Hp He Hcl. set (s0 := sd_set_stream (cn_sender c) st) in *.
  destruct (fill_ok S HS s0 f1 I1 Hp He (so_syn _ _ _ X1) (so_room _ _ _ X1) Hcl) as (s1 & f2 & new & E & Hem & Eu & Ew & Ec).
  pose proof Hem as [Hok Ei [m ->] Eo Hch En _ _].
  assert (Enew : new = []).
  { apply (flight_zero _ _ _ _ _ Hch). pose proof (so_room _ _ _ Hok) as Hr. rewrite Ew in Hr. pose proof (flight_nonneg new).
    assert (una s1 = 0) by (rewrite Eu; exact X4). assert (sd_receiver_window_size s0 = 1) by exact X6. assert (sd_next_seqno s0 = 1) by exact X5.
    unfold una in *. lia. }
  subst new. cbn in En. rewrite Z.add_0_r in En. rewrite app_nil_r in Eo.
  assert (Eo' : sd_segments_out s1 = []) by (rewrite Eo; exact X9).
  exists s1, m. split; [done|]. cbn zeta.
  destruct (flush_calm (cn_set_sender c s1)) as [_ Ecfg Erv Esd Eout _ _ _]; [done|cbn; by rewrite X10|].
  cbn [cn_sender cn_receiver cn_segments_out cn_set_sender cn_cfg] in *. rewrite Eo' in Eout. cbn in Eout. rewrite app_nil_r in Eout.
  split; [|done]. split; rewrite ?Esd, ?Erv; cbn.
  - apply sender_queue; [done|by apply Forall_nil].
  - by rewrite Ei.
  - apply wire_queue; [|by apply Forall_nil|by apply Forall_nil]. apply (fill_window_wire s0 s1); [by apply (sd_wire_same (cn_sender c))|done].
  - change (una (sd_set_segments_out s1 [])) with (una s1). rewrite Eu. exact X4.
  - rewrite En. exact X5.
  - rewrite Ew. exact X6.
  - rewrite Ec. exact X7.
  - destruct (flush_calm (cn_set_sender c s1)) as [Hc _ _ _ _ _ _ _]; [done|cbn; by rewrite X10|]. apply Hc.
  - done.
  - destruct (cn_active (send_sender_segments (cn_set_sender c s1))) eqn:Ea; [done|].
    destruct (flush_calm (cn_set_sender c s1)) as [Hc _ _ _ _ _ _ _]; [done|cbn; by rewrite X10|].
    destruct (ca_active _ Hc Ea) as (Hend & _). unfold TCPConnection_inbound_stream in Hend. by rewrite Erv, X11 in Hend.
  - exact X11.
Qed.

Lemma syn_sent_write c f data : syn_sent S isn cap c f -> ff_ended f = false -> is_prefix (ff_hist f ++ data) S ->
  0 < zlen data <= TCPConnection_remaining_outbound_capacity c ->
  exists c' f2, TCPConnection_write c data = Ok (zlen data, c') /\ syn_sent S isn cap c' f2 /\ ff_hist f2 = ff_hist f ++ data /\ ff_ended f2 = false /\
    ff_cap f2 = ff_cap f /\ cn_segments_out c' = cn_segments_out c /\ cn_cfg c' = cn_cfg c.
Proof.
  intros Ho Hend Hp [Hz Hroom]. pose proof (so_inv _ _ _ (op_snd _ _ _ _ _ Ho)) as I.
  unfold TCPConnection_remaining_outbound_capacity in Hroom. rewrite (bs_remaining_spec _ _ (di_stream _ _ I)) in Hroom.
  assert (Eacc : fifo_accepts f data = data) by (unfold fifo_accepts; by apply ztake_all).
  destruct (sender_bound S HS (mkFifo (ff_hist f ++ data) 0 0 false false) Hp) as [_ Hl]. cbn in Hl. rewrite zlen_app in Hl.
  destruct (inv_write (cn_sender c) f data I Hend) as [I1 En]; [rewrite Eacc; lia|]. rewrite Eacc in En.
  unfold TCPConnection_write. destruct data as [|b data]; [by rewrite (@zlen_nil byte) in Hz|].
  unfold TCPSender_write in *. destruct (ByteStream_write _ _) as [n st]. cbn [fst snd] in *. subst n.
  destruct (syn_sent_fill c f st (fifo_write f (b :: data)) Ho I1) as (s1 & m & E & Ho' & Eo & Ecfg).
  { cbn [ff_hist fifo_write]. by rewrite Eacc. }
  { cbn. by rewrite Hend. }
  { apply (op_snd _ _ _ _ _ Ho). }
  rewrite E. eexists _, (fifo_adv (fifo_write f (b :: data)) m). split; [reflexivity|]. split; [done|].
  split; [cbn [ff_hist fifo_adv fifo_write]; by rewrite Eacc|]. by split_and!.
Qed.

Lemma syn_sent_end c f : syn_sent S isn cap c f -> ff_hist f = S ->
  exists c' f2, TCPConnection_end_input_stream c = Ok c' /\ syn_sent S isn cap c' f2 /\ ff_hist f2 = S /\ ff_ended f2 = true /\
    ff_cap f2 = ff_cap f /\ cn_segments_out c' = cn_segments_out c /\ cn_cfg c' = cn_cfg c.
Proof.
  intros Ho Hh. pose proof (inv_end_input _ _ (so_inv _ _ _ (op_snd _ _ _ _ _ Ho))) as I1.
  destruct (syn_sent_fill c f _ _ Ho I1) as (s1 & m & E & Ho' & Eo & Ecfg).
  { cbn. rewrite Hh. exists []. by rewrite app_nil_r. }
  { done. }
  { apply (op_snd _ _ _ _ _ Ho). }
  unfold TCPConnection_end_input_stream, TCPSender_end_input. rewrite E.
  eexists _, (fifo_adv (mkFifo (ff_hist f) (ff_nread f) (ff_cap f) true (ff_err f)) m). split; [reflexivity|]. by split_and!.
Qed.
End Opening.

(** A receiver that gets the SYN. *)
Lemma fresh_syn S isn cap : wi_ok isn -> 1 <= cap < W16 -> zlen S + 2 <= W31 ->
  exists r g, TCPReceiver_segment_received (TCPReceiver_new cap) (syn_of isn) = Ok r /\ in_step S isn cap r [] g ∅ /\
    position g = 1 /\ ff_nread g = 0 /\ fifo_pending g = [].
Proof.
  intros Hi Hc HS. pose proof (rv_inv_new S isn cap ltac:(lia)) as I0. pose proof (zlen_nonneg S).
  destruct (segment_received_at S isn cap _ [] _ ∅ (syn_of isn) 0 0 Hi ltac:(lia) ltac:(lia) I0) as (r & g & A & E & I & Hs & Hp & [Hn Her] & Hcase).
  { cbn. by rewrite wrap_0. }
  { done. }
  { cbn. unfold slice, ztake. done. }
  { by split; [|split]. }
  assert (EA : A = ∅) by (destruct Hcase as [(_ & -> & _)|[-> _]]; done).
  subst A. pose proof (si_repr _ _ _ _ _ _ (ri_sr _ _ _ _ _ _ _ I)) as R. pose proof (rp_core _ _ _ R) as C.
  assert (Hh : ff_hist g = []).
  { apply zlen_0_nil. pose proof (sc_fu _ _ _ _ _ _ _ C) as Hf. pose proof (zlen_nonneg (ff_hist g)). destruct (Z.eq_dec (zlen (ff_hist g)) 0); [done|].
    destruct (sc_full _ _ _ _ _ _ _ C 0 ltac:(lia)) as [x Hx]. by rewrite lookup_empty in Hx. }
  assert (He : ff_ended g = false).
  { destruct Hcase as [(-> & _)|[_ He]]; [done|]. rewrite (ri_ended _ _ _ _ _ _ _ I), He. cbn. by rewrite andb_false_r. }
  exists r, g. split; [done|]. split; [split; [done|by apply Hs; left| |by rewrite Her]|].
  - intros k d Hk. by rewrite lookup_empty in Hk.
  - unfold position. rewrite Hh, He. split; [done|]. split; [by rewrite Hn|]. unfold fifo_pending. rewrite Hh, Hn. done.
Qed.

(** The SYN of the other end, without acknowledgment: it is acknowledged at once. *)
Lemma syn_sent_syn S S' i i' cap c f : wi_ok i' -> 1 <= cap < W16 -> zlen S' + 2 <= W31 -> syn_sent S i cap c f ->
  exists c' g, TCPConnection_segment_received c (syn_of i') = Ok c' /\ calm c' /\ cn_active c' = true /\ cn_cfg c' = cn_cfg c /\ cn_sender c' = cn_sender c /\
    in_step S' i' cap (cn_receiver c') [] g ∅ /\ position g = 1 /\ ff_nread g = 0 /\ fifo_pending g = [] /\
    cn_segments_out c' = cn_segments_out c ++ map (stamp (cn_receiver c') false) [bare (cn_sender c)].
Proof.
  intros Hi Hc HS' [X1 X2 X3 X4 X5 X6 X7 X8 X9 X10 X11].
  destruct (fresh_syn S' i' cap Hi Hc HS') as (r & g & Er & Hr & Hp & Hn & Hpend).
  set (c1 := cn_set_sender (cn_set_receiver (cn_set_time c 0) r) (TCPSender_send_empty_segment (cn_sender c))).
  assert (E : TCPConnection_segment_received c (syn_of i') = Ok (send_sender_segments c1)).
  { unfold TCPConnection_segment_received. rewrite X10. cbn [negb]. cbv zeta. cbn [cn_sender cn_set_time cn_receiver]. rewrite X5, X11.
    assert (Eb : sd_bytes_in_flight (cn_sender c) = 1) by (unfold una in X4; lia). rewrite Eb.
    change (th_rst (ts_header (syn_of i'))) with false. change (th_ack (ts_header (syn_of i'))) with false. change (th_syn (ts_header (syn_of i'))) with true.
    change (zlen (Buffer_str (ts_payload (syn_of i')))) with 0. cbn [Z.eqb Z.ltb Z.compare Pos.compare Pos.compare_cont andb negb Pos.eqb]. by rewrite Er. }
  destruct (flush_calm c1) as [Hcalm Ecfg Erv Esd Eout _ _ _]; [done|cbn; by rewrite X10|].
  cbn [cn_sender cn_receiver cn_segments_out cn_set_sender cn_cfg c1 cn_set_receiver cn_set_time] in Ecfg, Erv, Esd, Eout.
  assert (Es : cn_sender (send_sender_segments c1) = cn_sender c).
  { rewrite Esd. clear - X9. destruct (cn_sender c). cbn in *. by subst. }
  exists (send_sender_segments c1), g. split; [done|]. split; [done|]. split.
  { destruct (cn_active (send_sender_segments c1)) eqn:Ea; [done|]. destruct (ca_active _ Hcalm Ea) as (Hend & _).
    unfold TCPConnection_inbound_stream, TCPReceiver_stream_out, ByteStream_input_ended in Hend.
    rewrite Erv, (br_ended _ _ (rp_out _ _ _ (step_repr S' i' cap Hr))) in Hend. unfold position in Hp. rewrite Hend in Hp. pose proof (zlen_nonneg (ff_hist g)). lia. }
  split; [done|]. split; [done|]. rewrite Erv. split; [done|]. split; [done|]. split; [done|]. split; [done|].
  rewrite Eout. f_equal. cbn. by rewrite X9.
Qed.

(** The two directions once both SYNs have arrived. *)
Lemma opened_half S isn cap c f r g : 1 <= cap < W16 -> syn_sent S isn cap c f -> in_step S isn cap r [] g ∅ -> position g = 1 ->
  forall s' r',
  half S isn cap (cn_sender c) f r [] g ∅ (map (stamp r' false) [bare (cn_sender c)]) (map (stamp r false) [bare s']).
Proof.
  intros Hc [X1 X2 X3 X4 X5 X6 X7 X8 X9 X10 X11] Hr Hp s' r'. pose proof (so_inv _ _ _ X1) as I. split; try done.
  - lia.
  - rewrite Hp, <- X5. eapply bare_carries; [exact I|done|lia].
  - apply (stamp_acks S isn cap _ r [] g ∅ _ Hr ltac:(lia)); [|by apply Forall_singleton|lia| |done].
    + rewrite Hp, <- X5. by eapply boundary_next.
    + unfold edge. rewrite X4, X6. unfold offer. lia.
Qed.
