(* ===== verification/Benchmark.v ===== *)
(** * The throughput benchmark

    Models [apps/tcp_benchmark.cc]: two connections in one process that exchange segments
    directly, in order or reversed. The string to send, whose length the program fixes, and
    the initial sequence numbers are arguments; the measurement of time is left out. *)

From S2P Require Import Prelude WrappingInts Buffers ByteStreams Reassembler Parser TCPSegments Receiver Sender Connection EndToEnd Emitted.

Record Benchmark : Type := mkBench {
  be_x : TCPConnection;
  be_y : TCPConnection;
  be_bytes_to_send : Buffer;
  be_x_closed : bool;
  be_string_received : bytes
}.

Definition be_set_x (c : TCPConnection) (b : Benchmark) : Benchmark :=
  mkBench c (be_y b) (be_bytes_to_send b) (be_x_closed b) (be_string_received b).
Definition be_set_y (c : TCPConnection) (b : Benchmark) : Benchmark :=
  mkBench (be_x b) c (be_bytes_to_send b) (be_x_closed b) (be_string_received b).
Definition be_set_bytes (v : Buffer) (b : Benchmark) : Benchmark :=
  mkBench (be_x b) (be_y b) v (be_x_closed b) (be_string_received b).
Definition be_set_closed (v : bool) (b : Benchmark) : Benchmark :=
  mkBench (be_x b) (be_y b) (be_bytes_to_send b) v (be_string_received b).
Definition be_append (d : bytes) (b : Benchmark) : Benchmark :=
  mkBench (be_x b) (be_y b) (be_bytes_to_send b) (be_x_closed b) (be_string_received b ++ d).

Abbreviation bench := (method Benchmark).

(** A fallible operation of a connection. *)
Definition on_connection (op : TCPConnection -> res TCPConnection) : method TCPConnection unit :=
  c ← gets id; c' ← lift (op c); modify (fun _ => c').

Abbreviation at_x := (zoom be_x be_set_x).
Abbreviation at_y := (zoom be_y be_set_y).

Fixpoint receive_all (segments : list TCPSegment) : method TCPConnection unit :=
  match segments with
  | [] => mret tt
  | seg :: segments' => _ ← on_connection (fun c => TCPConnection_segment_received c seg); receive_all segments'
  end.

(** [move_segments(x, y, segments, reorder)], called with an empty vector. *)
Definition move_segments (x_of : Benchmark -> TCPConnection) (set_x : TCPConnection -> Benchmark -> Benchmark)
    (to_y : method TCPConnection unit -> bench unit) (reorder : bool) : bench unit :=
  segments ← gets (fun b => cn_segments_out (x_of b));
  _ ← modify (fun b => set_x (cn_set_segments_out (x_of b) []) b);
  to_y (receive_all (if reorder then reverse segments else segments)).

(** [while (bytes_to_send.size() and x.remaining_outbound_capacity())] *)
Fixpoint write_input (fuel : nat) : bench unit :=
  match fuel with
  | O => lift NoFuel
  | S fuel' =>
      x ← gets be_x;
      bytes_to_send ← gets be_bytes_to_send;
      let capacity := TCPConnection_remaining_outbound_capacity x in
      if negb (Buffer_size bytes_to_send =? 0) && negb (capacity =? 0) then
        let want := Z.min capacity (Buffer_size bytes_to_send) in
        '(written, x') ← lift (TCPConnection_write x (ztake want (Buffer_str bytes_to_send)));
        _ ← modify (be_set_x x');
        if negb (want =? written) then lift (Throw (runtime_error "want != written"))
        else
          bytes_to_send' ← lift (Buffer_remove_prefix bytes_to_send written);
          _ ← modify (be_set_bytes bytes_to_send');
          write_input fuel'
      else mret tt
  end.

(** The lambda [loop]. Each pass of [write_input] takes a byte at least. *)
Definition bench_loop (reorder : bool) : bench unit :=
  b ← gets id;
  _ ← write_input (S (Z.to_nat (Buffer_size (be_bytes_to_send b))));
  b ← gets id;
  _ ← ((if (Buffer_size (be_bytes_to_send b) =? 0) && negb (be_x_closed b) then
          _ ← at_x (on_connection TCPConnection_end_input_stream);
          modify (be_set_closed true)
        else mret tt) : bench unit);
  _ ← move_segments be_x be_set_x at_y reorder;
  _ ← move_segments be_y be_set_y at_x false;
  y ← gets be_y;
  let available_output := ByteStream_buffer_size (TCPConnection_inbound_stream y) in
  _ ← ((if 0 <? available_output then
          '(d, y') ← lift (TCPConnection_read y available_output);
          _ ← modify (be_set_y y');
          modify (be_append d)
        else mret tt) : bench unit);
  _ ← at_x (on_connection (fun c => Ok (TCPConnection_tick c 1000)));
  at_y (on_connection (fun c => Ok (TCPConnection_tick c 1000))).

(** [while (condition) loop();]; [NoFuel] when it is still running after that many turns. *)
Fixpoint bench_while (fuel : nat) (condition : Benchmark -> bool) (reorder : bool) : bench unit :=
  b ← gets id;
  if negb (condition b) then mret tt
  else
    match fuel with
    | O => lift NoFuel
    | S fuel' => _ ← bench_loop reorder; bench_while fuel' condition reorder
    end.

Definition bench_start (string_to_send : bytes) (random_x random_y : Z) : Benchmark :=
  mkBench (TCPConnection_new TCPConfig_default random_x) (TCPConnection_new TCPConfig_default random_y)
    (Buffer_of_string string_to_send) false [].

Definition main_loop (fuel : nat) (reorder : bool) (string_to_send : bytes) : bench unit :=
  _ ← at_x (on_connection TCPConnection_connect);
  _ ← at_y (on_connection TCPConnection_end_input_stream);
  _ ← bench_while fuel (fun b => negb (ByteStream_eof (TCPConnection_inbound_stream (be_y b)))) reorder;
  b ← gets id;
  if negb (bool_decide (be_string_received b = string_to_send))
  then lift (Throw (runtime_error "strings sent vs. received don't match"))
  else bench_while fuel (fun b => cn_active (be_x b) || cn_active (be_y b)) reorder.

Definition bench_string (n : nat) : bytes := map (fun k => byte_of (Z.of_nat (k * 37 + 11) mod 256)) (seq 0 n).

(** ** The two connections and the link between them *)

Definition outbound_open (c : TCPConnection) : Prop := ByteStream_input_ended (sd_stream (cn_sender c)) = false.

Lemma seg_wire_typed seg : seg_wire seg -> segment_typed seg.
Proof. intros [V _ _ _]. destruct V. by split. Qed.

(** [net_inv] of [EndToEnd.v], and segments that fit the wire. *)
Record link_inv (ia ib : WrappingInt32) (ca cb : Z) (n : net) : Prop := {
  li_net : net_inv ia ib ca cb n;
  li_a : cn_wire (conn (nt_a n));
  li_b : cn_wire (conn (nt_b n));
  li_ab : Forall seg_wire (nt_ab n);
  li_ba : Forall seg_wire (nt_ba n)
}.

Lemma link_swap ia ib ca cb a b ab ba :
  link_inv ia ib ca cb (mkNet a b ab ba) -> link_inv ib ia cb ca (mkNet b a ba ab).
Proof. intros [(f & g & ? & ? & ? & ?) ? ? ? ?]. split; try done. by exists g, f. Qed.

(** The lemmas below speak of side [a]; [link_swap] carries them over to side [b]. *)
Section Link.
Context (ia ib : WrappingInt32) (ca cb : Z) (b : cn_state).
Abbreviation linked a ab ba := (link_inv ia ib ca cb (mkNet a b ab ba)).

Lemma link_step a a' ab ba : linked a ab ba -> cn_step (fun _ seg => seg ∈ ba) a a' -> linked a' ab ba.
Proof.
  intros [Hn Ha Hb Hab Hba] Hs. split; try done; simpl in *.
  - eapply net_step_inv; [exact Hn|]. by constructor.
  - by eapply cn_step_wire.
Qed.

Lemma link_send a ab ba segs : linked a ab ba -> segs ⊆ cn_segments_out (conn a) -> linked a (segs ++ ab) ba.
Proof.
  intros L. induction segs as [|seg segs IH]; intros Hsub; [done|].
  destruct IH as [Hn Ha Hb Hab Hba]; [set_solver|]. assert (Hin : seg ∈ cn_segments_out (conn a)) by set_solver.
  split; try done; simpl in *.
  - eapply net_step_inv; [exact Hn|]. by constructor.
  - constructor; [|done]. destruct Ha as [_ _ Ho]. rewrite Forall_forall in Ho. by apply Ho.
Qed.

Lemma link_flush c w d ab ba : linked (c, w, d) ab ba ->
  linked (cn_set_segments_out c [], w, d) (cn_segments_out c ++ ab) ba.
Proof.
  intros L. eapply link_step; [by apply link_send|]. apply (cn_step_pop _ _ _ _ (cn_segments_out c)).
  by rewrite app_nil_r.
Qed.

Lemma open_iff Q c f d : cn_inv Q c f d -> outbound_open c <-> ff_ended f = false.
Proof.
  intros I. unfold outbound_open, ByteStream_input_ended. by rewrite (br_ended _ _ (di_stream _ _ (ci_sender _ _ _ I))).
Qed.

(** What the link says of the connection at its end [a]. *)
Lemma link_facts c w d ab ba : linked (c, w, d) ab ba -> exists f g,
  cn_inv (rv_safe (ff_hist g) ib ca) c f d /\ ff_hist f = w /\
  ReceiverContract (rv_safe (ff_hist g) ib ca) (from_peer (ff_hist g) ib) /\
  forall seg, seg ∈ ba -> (forall r, from_peer (ff_hist g) ib r seg) /\ segment_typed seg.
Proof.
  intros [(f & g & [I Hh _ [_ Hc2]] & _ & _ & [Hisn Hz Hw]) _ _ _ Hba]. unfold written in *. simpl in *. exists f, g.
  split; [done|]. split; [done|]. split; [by apply safe_contract|]. rewrite !Forall_forall in *.
  intros seg Hin. split; [intros r; eexists; by apply Hw|]. by apply seg_wire_typed, Hba.
Qed.

Lemma link_receive c w d ab ba seg : linked (c, w, d) ab ba -> seg ∈ ba ->
  exists c', TCPConnection_segment_received c seg = Ok c' /\ linked (c', w, d) ab ba /\
    (outbound_open c -> outbound_open c').
Proof.
  intros L Hin. destruct (link_facts c w d ab ba L) as (f & g & I & _ & RC & Hba). destruct (Hba seg Hin) as [Hp Ht].
  destruct (segment_inv c f d seg I (Hp _) Ht) as (c' & f' & E & _ & He & I' & _).
  exists c'. split; [done|]. split; [eapply link_step; [done|]; by apply (cn_step_segment _ _ _ _ seg)|].
  by rewrite (open_iff _ _ _ _ I), (open_iff _ _ _ _ I'), He.
Qed.

Lemma link_receive_all segs : forall c w d ab ba, linked (c, w, d) ab ba -> segs ⊆ ba ->
  exists c', receive_all segs c = (Ok tt, c') /\ linked (c', w, d) ab ba /\ (outbound_open c -> outbound_open c').
Proof.
  induction segs as [|seg segs IH]; intros c w d ab ba L Hsub; [by exists c|].
  destruct (link_receive c w d ab ba seg L) as (c1 & E1 & L1 & O1); [set_solver|].
  destruct (IH c1 w d ab ba L1) as (c2 & E2 & L2 & O2); [set_solver|].
  exists c2. split; [|split; [done|tauto]]. cbn [receive_all]. unfold on_connection.
  erewrite run_bind; [exact E2|]. mrun. unfold id. rewrite E1. by mrun.
Qed.

Lemma link_tick c w d ab ba ms : linked (c, w, d) ab ba -> 0 <= ms < W64 ->
  linked (TCPConnection_tick c ms, w, d) ab ba /\ (outbound_open c -> outbound_open (TCPConnection_tick c ms)).
Proof.
  intros L Hms. split; [eapply link_step; [done|by constructor]|].
  destruct (link_facts c w d ab ba L) as (f & g & I & _ & RC & _).
  destruct (connection_tick_inv c f d ms I) as (f' & _ & He & I' & _).
  by rewrite (open_iff _ _ _ _ I), (open_iff _ _ _ _ I'), He.
Qed.

Lemma link_read c w d ab ba n : linked (c, w, d) ab ba -> 0 <= n ->
  exists out c', TCPConnection_read c n = Ok (out, c') /\ linked (c', w, d ++ out) ab ba.
Proof.
  intros L Hn. destruct (link_facts c w d ab ba L) as (f & g & I & _ & RC & _).
  destruct (read_result c f d n I Hn) as (out & c' & E & _).
  exists out, c'. split; [done|]. eapply link_step; [done|]. by apply (cn_step_read _ _ _ _ n).
Qed.

Lemma link_connect c w d ab ba : linked (c, w, d) ab ba ->
  exists c', TCPConnection_connect c = Ok c' /\ linked (c', w, d) ab ba /\ (outbound_open c -> outbound_open c').
Proof.
  intros L. destruct (link_facts c w d ab ba L) as (f & g & I & _ & RC & _).
  destruct (connect_inv_pre f d c (pre_of_inv _ _ _ I)) as (c' & m & E & I' & _). exists c'. split; [done|].
  split; [eapply link_step; [done|by constructor]|]. by rewrite (open_iff _ _ _ _ I), (open_iff _ _ _ _ I').
Qed.

Lemma link_end c w d ab ba : linked (c, w, d) ab ba ->
  exists c', TCPConnection_end_input_stream c = Ok c' /\ linked (c', w, d) ab ba.
Proof.
  intros L. destruct (link_facts c w d ab ba L) as (f & g & I & _ & RC & _).
  destruct (end_input_stream_inv c f d I) as (c' & m & E & _). exists c'. split; [done|].
  eapply link_step; [done|by constructor].
Qed.

(** A write that fits is taken whole. *)
Lemma link_write c w d ab ba data : linked (c, w, d) ab ba -> outbound_open c ->
  zlen w + zlen data + 2 <= W31 -> zlen data <= TCPConnection_remaining_outbound_capacity c ->
  exists c', TCPConnection_write c data = Ok (zlen data, c') /\ linked (c', w ++ data, d) ab ba /\ outbound_open c'.
Proof.
  intros L O Hz Hroom. destruct (link_facts c w d ab ba L) as (f & g & I & Hh & RC & _).
  pose proof (proj1 (open_iff _ _ _ _ I) O) as He.
  destruct (write_inv c f d data I He) as (c' & m & E & I' & _); [by rewrite Hh|].
  unfold TCPConnection_remaining_outbound_capacity in Hroom.
  rewrite (bs_remaining_spec _ _ (di_stream _ _ (ci_sender _ _ _ I))) in Hroom.
  unfold fifo_accepts in E. rewrite ztake_all in E by done. exists c'. split; [done|].
  split; [|by apply (open_iff _ _ _ _ I')]. eapply link_step; [done|].
  pose proof (cn_step_write (fun _ seg => seg ∈ ba) c w d data _ c' O Hz E) as Hs. by rewrite ztake_all in Hs by lia.
Qed.
End Link.

(** ** The invariant of the benchmark *)

Section Run.
Context (S : bytes) (ix iy : WrappingInt32) (HS : zlen S + 2 <= W31).

Definition bench_net (b : Benchmark) (w : bytes) (ab ba : list TCPSegment) : net :=
  mkNet (be_x b, w, []) (be_y b, [], be_string_received b) ab ba.

Record bench_inv (b : Benchmark) : Prop := {
  bi_link : exists w ab ba, link_inv ix iy DEFAULT_CAPACITY DEFAULT_CAPACITY (bench_net b w ab ba) /\
              S = w ++ Buffer_str (be_bytes_to_send b);
  bi_buffer : Buffer_wf (be_bytes_to_send b);
  bi_open : be_x_closed b = false -> outbound_open (be_x b);
  bi_sent : be_x_closed b = true -> Buffer_str (be_bytes_to_send b) = []
}.

(** The string received so far grows, up to the string sent. *)
Definition later (b b' : Benchmark) : Prop :=
  bench_inv b' /\ is_prefix (be_string_received b) (be_string_received b').

Lemma received_prefix b : bench_inv b -> is_prefix (be_string_received b) S.
Proof.
  intros [(w & ab & ba & [(f & g & SA & SB & _) _ _ _ _] & ->) _ _ _]. destruct (side_prefix _ _ _ _ _ _ SB) as [t Ht].
  rewrite (sde_hist _ _ _ _ _ _ SA) in Ht. unfold written, delivered in *. simpl in *. rewrite Ht, <- !app_assoc. by eexists.
Qed.

Definition finishes (m : bench unit) (b : Benchmark) : Prop := exists b', m b = (Ok tt, b') /\ later b b'.

Lemma finishes_then m k b : finishes m b -> (forall b', bench_inv b' -> finishes k b') -> finishes (m ≫= fun _ => k) b.
Proof.
  intros (b1 & E1 & H1 & P1) Hk. destruct (Hk b1 H1) as (b2 & E2 & H2 & P2). exists b2.
  split; [by erewrite run_bind by exact E1|]. split; [done|by etrans].
Qed.

Lemma finishes_gets {A} (g : Benchmark -> A) k b : finishes (k (g b)) b -> finishes (gets g ≫= k) b.
Proof. intros (b' & E & H). exists b'. by rewrite run_gets. Qed.

Lemma finishes_done b : bench_inv b -> finishes (mret tt) b.
Proof. intros H. by exists b. Qed.

Lemma write_input_ok fuel : forall b, bench_inv b -> (Z.to_nat (Buffer_size (be_bytes_to_send b)) < fuel)%nat ->
  finishes (write_input fuel) b.
Proof.
  induction fuel as [|fuel IH]; intros b H Hf; [lia|]. cbn [write_input]. unfold finishes. mrun.
  destruct (negb _ && negb _) eqn:Ec; [|by exists b].
  apply andb_prop in Ec as [E1 E2]. apply negb_true_iff, Z.eqb_neq in E1, E2.
  pose proof H as [(w & ab & ba & L & HSw) Hw Ho Hs].
  assert (Hcl : be_x_closed b = false).
  { destruct (be_x_closed b); [|done]. unfold Buffer_size in E1. rewrite Hs in E1 by done. done. }
  destruct b as [x y buf cl rcv]. unfold bench_net in *. simpl in *.
  set (cap := TCPConnection_remaining_outbound_capacity x) in *. set (want := Z.min cap (Buffer_size buf)).
  assert (Hcap : 0 <= cap).
  { destruct (link_facts _ _ _ _ _ _ _ _ _ _ L) as (f & g & I & _). unfold cap, TCPConnection_remaining_outbound_capacity.
    rewrite (bs_remaining_spec _ _ (di_stream _ _ (ci_sender _ _ _ I))). unfold fifo_room.
    pose proof (br_room _ _ (di_stream _ _ (ci_sender _ _ _ I))). lia. }
  unfold Buffer_size in *. rewrite HSw, zlen_app in HS.
  assert (Hwant : 0 < want <= zlen (Buffer_str buf)) by (unfold want; zlia).
  assert (Hwc : want <= cap) by (unfold want; lia). clearbody want.
  assert (Hz : zlen (ztake want (Buffer_str buf)) = want) by (apply zlen_ztake; lia).
  destruct (link_write _ _ _ _ _ _ _ _ _ _ (ztake want (Buffer_str buf)) L (Ho Hcl)) as (x' & E & L' & O');
    [lia|fold cap; lia|].
  rewrite Hz in E. rewrite E. mrun. rewrite Z.eqb_refl. mrun.
  pose proof (Buffer_remove_prefix_spec buf want Hw ltac:(lia)) as Hr.
  unfold Buffer_size in Hr. destruct (Z.ltb_spec (zlen (Buffer_str buf)) want); [lia|].
  destruct Hr as (buf' & -> & Hw' & Eb). mrun.
  destruct (IH (be_set_bytes buf' (be_set_x x' (mkBench x y buf cl rcv)))) as (b' & Eb' & H' & Hr').
  - split; simpl; try done; [|congruence]. eexists _, _, _. split; [exact L'|]. rewrite HSw, Eb, <- app_assoc. f_equal.
    symmetry. apply ztake_zdrop_id.
  - simpl. unfold Buffer_size. rewrite Eb, zlen_zdrop by lia. lia.
  - by exists b'.
Qed.

Lemma at_x_ok op b x' : op (be_x b) = Ok x' -> bench_inv (be_set_x x' b) -> finishes (at_x (on_connection op)) b.
Proof. intros E H. exists (be_set_x x' b). unfold zoom, on_connection. mrun. unfold id. rewrite E. by mrun. Qed.

Lemma at_y_ok op b y' : op (be_y b) = Ok y' -> bench_inv (be_set_y y' b) -> finishes (at_y (on_connection op)) b.
Proof. intros E H. exists (be_set_y y' b). unfold zoom, on_connection. mrun. unfold id. rewrite E. by mrun. Qed.

Lemma close_ok b : bench_inv b -> Buffer_size (be_bytes_to_send b) = 0 ->
  finishes (_ ← at_x (on_connection TCPConnection_end_input_stream); modify (be_set_closed true)) b.
Proof.
  intros [(w & ab & ba & L & HSw) Hw Ho Hs] Hb. destruct (link_end _ _ _ _ _ _ _ _ _ _ L) as (x' & E & L').
  exists (be_set_closed true (be_set_x x' b)). split.
  - unfold zoom, on_connection. erewrite run_bind; [done|]. mrun. unfold id. rewrite E. by mrun.
  - split; [|done]. split; simpl; try done; [by exists w, ab, ba|]. intros _. unfold Buffer_size in Hb.
    apply nil_length_inv. unfold zlen in Hb. lia.
Qed.

Lemma move_to_y_ok reorder b : bench_inv b -> finishes (move_segments be_x be_set_x at_y reorder) b.
Proof.
  intros [(w & ab & ba & L & HSw) Hw Ho Hs]. unfold move_segments. apply finishes_gets.
  pose proof (link_swap _ _ _ _ _ _ _ _ (link_flush _ _ _ _ _ _ _ _ _ _ L)) as L1.
  destruct (link_receive_all _ _ _ _ _ (if reorder then reverse (cn_segments_out (be_x b)) else cn_segments_out (be_x b))
    _ _ _ _ _ L1) as (y' & E & L2 & _); [destruct reorder; set_solver|].
  exists (be_set_y y' (be_set_x (cn_set_segments_out (be_x b) []) b)). unfold zoom. mrun. simpl. rewrite E. split; [done|].
  split; [|done]. split; simpl; try done. eexists _, _, _. split; [apply (link_swap _ _ _ _ _ _ _ _ L2)|done].
Qed.

Lemma move_to_x_ok b : bench_inv b -> finishes (move_segments be_y be_set_y at_x false) b.
Proof.
  intros [(w & ab & ba & L & HSw) Hw Ho Hs]. unfold move_segments. apply finishes_gets.
  pose proof (link_swap _ _ _ _ _ _ _ _ (link_flush _ _ _ _ _ _ _ _ _ _ (link_swap _ _ _ _ _ _ _ _ L))) as L1.
  destruct (link_receive_all _ _ _ _ _ (cn_segments_out (be_y b)) _ _ _ _ _ L1) as (x' & E & L2 & O); [set_solver|].
  exists (be_set_x x' (be_set_y (cn_set_segments_out (be_y b) []) b)). unfold zoom. mrun. simpl. rewrite E. split; [done|].
  split; [|done]. split; simpl; try done; [by eexists _, _, _|]. by auto.
Qed.

Lemma read_output_ok b n : bench_inv b -> 0 <= n ->
  finishes ('(d, y') ← lift (TCPConnection_read (be_y b) n); _ ← modify (be_set_y y'); modify (be_append d)) b.
Proof.
  intros [(w & ab & ba & L & HSw) Hw Ho Hs] Hn.
  destruct (link_read _ _ _ _ _ _ _ _ _ _ n (link_swap _ _ _ _ _ _ _ _ L) Hn) as (out & y' & E & L').
  exists (be_append out (be_set_y y' b)). rewrite E. mrun. split; [done|].
  split; [|by eexists]. split; simpl; try done. eexists _, _, _. split; [apply (link_swap _ _ _ _ _ _ _ _ L')|done].
Qed.

Lemma tick_x_ok b : bench_inv b -> finishes (at_x (on_connection (fun c => Ok (TCPConnection_tick c 1000)))) b.
Proof.
  intros [(w & ab & ba & L & HSw) Hw Ho Hs]. eapply at_x_ok; [done|].
  destruct (link_tick _ _ _ _ _ _ _ _ _ _ 1000 L ltac:(lia)) as [L' O'].
  split; simpl; try done; [by eexists _, _, _|]. by auto.
Qed.

Lemma tick_y_ok b : bench_inv b -> finishes (at_y (on_connection (fun c => Ok (TCPConnection_tick c 1000)))) b.
Proof.
  intros [(w & ab & ba & L & HSw) Hw Ho Hs]. eapply at_y_ok; [done|].
  destruct (link_tick _ _ _ _ _ _ _ _ _ _ 1000 (link_swap _ _ _ _ _ _ _ _ L) ltac:(lia)) as [L' _].
  split; simpl; try done. eexists _, _, _. split; [apply (link_swap _ _ _ _ _ _ _ _ L')|done].
Qed.

Lemma bench_loop_ok reorder b : bench_inv b -> finishes (bench_loop reorder) b.
Proof.
  intros H. unfold bench_loop. apply finishes_gets, finishes_then; [apply write_input_ok; [done|unfold id; lia]|].
  clear H b. intros b H. apply finishes_gets, finishes_then.
  { destruct (_ && _) eqn:Ec; [|by apply finishes_done]. apply andb_prop in Ec as [Ec _].
    apply close_ok; [done|]. by apply Z.eqb_eq in Ec. }
  clear H b. intros b H. apply finishes_then; [by apply move_to_y_ok|].
  clear H b. intros b H. apply finishes_then; [by apply move_to_x_ok|].
  clear H b. intros b H. apply finishes_gets, finishes_then.
  { destruct (Z.ltb_spec 0 (ByteStream_buffer_size (TCPConnection_inbound_stream (be_y b)))); [|by apply finishes_done].
    apply read_output_ok; [done|lia]. }
  clear H b. intros b H. apply finishes_then; [by apply tick_x_ok|]. by apply tick_y_ok.
Qed.

Lemma bench_while_ok condition reorder fuel : forall b, bench_inv b -> exists r b',
  bench_while fuel condition reorder b = (r, b') /\ later b b' /\ (r = Ok tt \/ r = NoFuel).
Proof.
  induction fuel as [|fuel IH]; intros b H; cbn [bench_while]; mrun; unfold id; destruct (negb _);
    try by (eexists _, b; split; [done|]; split; [done|tauto]).
  destruct (bench_loop_ok reorder b H) as (b1 & E1 & H1 & P1). erewrite run_bind by exact E1.
  destruct (IH b1 H1) as (r & b' & E & [H' P'] & Hr). exists r, b'. split; [done|]. split; [|done]. split; [done|by etrans].
Qed.

Lemma prefix_longest b b' : be_string_received b = S -> later b b' -> be_string_received b' = S.
Proof.
  intros E [H' [t Ht]]. destruct (received_prefix b' H') as [u Hu]. rewrite E in Ht.
  assert (Hl : zlen t + zlen u = 0) by (apply (f_equal zlen) in Hu; rewrite Ht, !zlen_app in Hu; lia).
  rewrite Ht. destruct t; [by rewrite app_nil_r|]. rewrite zlen_cons in Hl. zlia.
Qed.
End Run.

Lemma TCPConfig_default_ok : cfg_ok TCPConfig_default.
Proof. by split. Qed.

Lemma bench_inv_start S rx ry : zlen S + 2 <= W31 ->
  bench_inv S (isn_of TCPConfig_default rx) (isn_of TCPConfig_default ry) (bench_start S rx ry).
Proof.
  intros HS. pose proof TCPConfig_default_ok as Hc. split; simpl; try done.
  - exists [], [], []. split; [|done]. split; simpl; try by apply cn_wire_new.
    + apply (net_reach_inv TCPConfig_default TCPConfig_default rx ry _ Hc Hc); [done|done|apply reach_refl].
    + done.
    + done.
  - unfold Buffer_wf. simpl. split; [lia|]. zlia.
Qed.

(** [main_loop] carries [string_to_send] from [x] to [y]: whatever the initial sequence
    numbers, in order or reordered, and however often its loops turn, what [y] has
    received is a prefix of the string; no call inside throws, so that the only
    exception it can end with is its own; and if it returns, all was received. *)
Theorem benchmark_carries_the_string S fuel reorder rx ry : zlen S + 2 <= W31 ->
  exists r b', main_loop fuel reorder S (bench_start S rx ry) = (r, b') /\ is_prefix (be_string_received b') S /\
    (r = Ok tt /\ be_string_received b' = S \/ r = NoFuel \/
     r = Throw (runtime_error "strings sent vs. received don't match") /\ be_string_received b' <> S).
Proof.
  intros HS. pose proof (bench_inv_start S rx ry HS) as H0. set (ix := isn_of _ rx) in H0. set (iy := isn_of _ ry) in H0.
  assert (H1 : finishes S ix iy (_ ← at_x (on_connection TCPConnection_connect);
                                at_y (on_connection TCPConnection_end_input_stream)) (bench_start S rx ry)).
  { apply finishes_then.
    - destruct H0 as [(w & ab & ba & L & HSw) Hw Ho Hs]. destruct (link_connect _ _ _ _ _ _ _ _ _ _ L) as (x' & E & L' & O).
      eapply at_x_ok; [exact E|]. split; simpl; try done; by eexists _, _, _.
    - intros b [(w & ab & ba & L & HSw) Hw Ho Hs].
      destruct (link_end _ _ _ _ _ _ _ _ _ _ (link_swap _ _ _ _ _ _ _ _ L)) as (y' & E & L').
      eapply at_y_ok; [exact E|]. split; simpl; try done. eexists _, _, _. split; [apply (link_swap _ _ _ _ _ _ _ _ L')|done]. }
  destruct H1 as (b1 & E1 & H1 & _). apply run_bind_inv in E1 as ([] & b0 & E0 & E1).
  unfold main_loop. erewrite run_bind by exact E0. erewrite run_bind by exact E1.
  destruct (bench_while_ok S ix iy HS (fun b => negb (ByteStream_eof (TCPConnection_inbound_stream (be_y b)))) reorder fuel b1 H1)
    as (r2 & b2 & E2 & [H2 _] & [->| ->]).
  2:{ rewrite (run_out _ _ _ _ E2). eexists _, b2. split; [done|]. split; [by eapply received_prefix|]. tauto. }
  erewrite run_bind by exact E2. mrun. unfold id. destruct (bool_decide_reflect (be_string_received b2 = S)) as [Eq|Ne].
  2:{ eexists _, b2. split; [done|]. split; [by eapply received_prefix|]. tauto. }
  destruct (bench_while_ok S ix iy HS (fun b => cn_active (be_x b) || cn_active (be_y b)) reorder fuel b2 H2)
    as (r3 & b3 & E3 & L3 & Hr). exists r3, b3. split; [done|]. split; [apply (received_prefix S ix iy HS b3), L3|].
  pose proof (prefix_longest S ix iy HS b2 b3 Eq L3). destruct Hr as [->| ->]; tauto.
Qed.

Lemma benchmark_carries_the_string_witness :
  is_prefix (be_string_received (snd (main_loop 30 true (bench_string 200) (bench_start (bench_string 200) 7 99))))
    (bench_string 200) /\
  fst (main_loop 30 true (bench_string 200) (bench_start (bench_string 200) 7 99)) = Ok tt /\
  fst (main_loop 30 false (bench_string 200) (bench_start (bench_string 200) 7 99)) = Ok tt.
Proof.
  split; [|split; vm_compute; reflexivity].
  destruct (benchmark_carries_the_string (bench_string 200) 30 true 7 99) as (r & b' & E & H & _);
    [vm_compute; congruence|]. rewrite E. exact H.
Defined.
