(* ===== verification/BenchmarkRun.v ===== *)
(** * The benchmark runs to its end

    [main_loop] of [apps/tcp_benchmark.cc] over a link that keeps the order: the turns of
    its two loops, followed with the invariant of [Transfer.v], until both connections have
    closed. The program is the one of [Benchmark.v]. *)

From S2P Require Import Prelude WrappingInts Buffers ByteStreams Reassembler Parser TCPSegments Receiver Sender Connection Emitted Transfer Benchmark.

(** ** A batch of segments *)

Abbreviation empty_segments := (Forall (fun t => length_in_sequence_space t = 0)).

Section Batch.
Context (cap : Z) (Hcap : 1 <= cap < W16).
Context (S S' : bytes) (i i' : WrappingInt32) (HS : zlen S + 2 <= W31) (HS' : zlen S' + 2 <= W31).

(** A connection is over when both streams are past their ends. *)
Lemma over_iff c d q k f del g f' del' g' : flow cap S i c d q k f del g -> flow cap S' i' d c k q f' del' g' ->
  over d <-> position g = zlen S + 2 /\ una (cn_sender d) = zlen S' + 2.
Proof.
  intros [A H1] [A' H2]. pose proof (half_next S' i' cap HS' H2) as (Hn & Hu & _ & _ & Hr & En).
  pose proof (ha_rcv _ _ _ _ _ _ _ _ _ _ _ H1) as Hs. pose proof (step_short S i cap Hs).
  assert (Ee : ByteStream_input_ended (TCPConnection_inbound_stream d) = ff_ended g).
  { unfold TCPConnection_inbound_stream, TCPReceiver_stream_out, ByteStream_input_ended. apply (br_ended _ _ (rp_out _ _ _ (step_repr S i cap Hs))). }
  unfold over. rewrite Ee. unfold una, position in *. split.
  - intros (E1 & E2 & E3). rewrite E1, (step_ended S i cap Hs E1), E3. split; [lia|].
    pose proof (ha_snd _ _ _ _ _ _ _ _ _ _ _ H2) as Ho. destruct (di_fin _ _ (so_inv _ _ _ Ho) E2) as [E4 E5].
    rewrite (so_ended _ _ _ Ho E4) in E5. rewrite E2 in En. lia.
  - intros [Hp Hx]. destruct (ff_ended g); [|lia]. destruct (sd_fin (cn_sender d)); [|lia]. split_and!; [done|done|lia].
Qed.

(** Nothing outstanding: the backoff is reset. *)
Lemma quiet_consec c d q k f del g : flow cap S i c d q k f del g -> una (cn_sender c) = sd_next_seqno (cn_sender c) ->
  sd_consecutive_retransmissions (cn_sender c) = 0.
Proof.
  intros [A H] Hu. destruct (half_quiet S i cap H) as [Ho _]; [unfold una in Hu; lia|].
  pose proof (so_inv _ _ _ (ha_snd _ _ _ _ _ _ _ _ _ _ _ H)) as I. by apply (di_idle _ _ I), (di_stopped _ _ I).
Qed.

(** What is left to send, or to end, keeps something outstanding. *)
Lemma flow_busy c d q k f del g : flow cap S i c d q k f del g -> fifo_pending f <> [] -> una (cn_sender c) < sd_next_seqno (cn_sender c).
Proof.
  intros [A H] Hp. pose proof (half_next S i cap HS H). destruct (Z.eq_dec (sd_bytes_in_flight (cn_sender c)) 0) as [E|E]; [|unfold una in *; lia].
  destruct (half_quiet S i cap H E) as [Ho _]. by destruct (so_busy _ _ _ (ha_snd _ _ _ _ _ _ _ _ _ _ _ H) Ho).
Qed.

Lemma flow_done c d q k f del g : flow cap S i c d q k f del g -> ff_ended f = true ->
  una (cn_sender c) < sd_next_seqno (cn_sender c) \/ una (cn_sender c) = zlen S + 2.
Proof.
  intros [A H] He. pose proof (half_next S i cap HS H) as (_ & _ & _ & _ & _ & En). pose proof (half_order S i cap H).
  destruct (Z.eq_dec (sd_bytes_in_flight (cn_sender c)) 0) as [E|E]; [right|left; unfold una in *; lia].
  destruct (half_quiet S i cap H E) as (Ho & Eu & _). pose proof (ha_snd _ _ _ _ _ _ _ _ _ _ _ H) as Hs. destruct (so_busy _ _ _ Hs Ho) as [_ Hf].
  specialize (Hf He). destruct (di_fin _ _ (so_inv _ _ _ Hs) Hf) as [_ Hn]. rewrite (so_ended _ _ _ Hs He) in Hn. rewrite Hf in En. lia.
Qed.

(** When the SYN is not acknowledged yet, the first segment to arrive does it. *)
Definition greets (d : TCPConnection) (q : list TCPSegment) : Prop :=
  una (cn_sender d) = 0 ->
  match q with [] => False | seg :: _ => payload_of seg = [] /\ th_ackno (ts_header seg) <> i' end.

Lemma acking_refl d : acking d d.
Proof. split; [done|done|lia]. Qed.

Lemma flow_consec c d q k f del g : flow cap S i c d q k f del g -> 0 <= sd_consecutive_retransmissions (cn_sender c).
Proof. intros [A H]. apply (di_consec _ _ (so_inv _ _ _ (ha_snd _ _ _ _ _ _ _ _ _ _ _ H))). Qed.

Lemma acking_trans d d1 d2 : 0 <= sd_consecutive_retransmissions (cn_sender d2) -> acking d d1 -> acking d1 d2 -> acking d d2.
Proof.
  intros H0 [A1 A2 A3] [B1 B2 B3]. split; [lia|lia|]. intros Hlt.
  destruct (Z.lt_ge_cases (una (cn_sender d1)) (una (cn_sender d2))) as [Hx|Hx]; [by apply B3|]. specialize (A3 ltac:(lia)). lia.
Qed.

Lemma receive_all_ok segs : forall c d q k f del g f' del' g',
  flow cap S i c d (segs ++ q) k f del g -> flow cap S' i' d c k (segs ++ q) f' del' g' -> calm d -> greets d segs ->
  ff_nread f <= ff_nread g + cap ->
  exists d' new f2 g2, receive_all segs d = (Ok tt, d') /\
    progress cap S S' i i' c d d' q k new f del g2 f2 del' g' /\ acking d d' /\
    ff_nread g2 = ff_nread g /\ position g <= position g2 /\ (exists m, f2 = fifo_adv f' m) /\
    (over d -> empty_segments new /\ (empty_segments segs -> new = [])) /\ (cn_active d' = true -> cn_active d = true).
Proof.
  induction segs as [|seg segs IH]; intros c d q k f del g f' del' g' H1 H2 Hcalm Hg Hfit.
  { exists d, [], f', g. split; [done|]. split; [split; rewrite ?app_nil_r; done|]. split; [apply acking_refl|]. split_and!; try done.
    exists 0. by rewrite fifo_adv_0. }
  cbn [app] in H1, H2. unfold on_connection. destruct (cn_active d) eqn:Hact.
  - destruct (receive_link cap Hcap S S' i i' HS HS' c d seg (segs ++ q) k f del g f' del' g' H1 H2 Hcalm Hact) as
      (d1 & new1 & f1 & g1 & E1 & [P1 P2 P3 P4 P5] & Ha & Eack & En & Hpos & [m1 ->] & Hov); [intros E0; by apply Hg|done|].
    destruct (IH c d1 q (k ++ new1) f del g1 (fifo_adv f' m1) del' g' P4 P5 P1) as
      (d2 & new2 & f2 & g2 & E2 & [Q1 Q2 Q3 Q4 Q5] & Ha2 & En2 & Hpos2 & [m2 ->] & Hov2 & Hact2).
    { intros E0. exfalso. rewrite E0 in Eack. assert (i' = sd_isn (cn_sender d1)) as Ei by (destruct P5 as [? []]; done).
      assert (una (cn_sender d) = 0) as Eu by (destruct Ha; destruct H2 as [A' H2]; pose proof (half_next S' i' cap HS' H2); lia).
      destruct (Hg Eu) as [_ Hne]. apply Hne. rewrite Eack. apply wrap_0. destruct H2 as [A' H2]. apply (half_isn S' i' cap H2). }
    { lia. }
    exists d2, (new1 ++ new2), (fifo_adv (fifo_adv f' m1) m2), g2. split.
    { cbn [receive_all]. erewrite run_bind; [exact E2|]. unfold on_connection. mrun. unfold id. rewrite E1. by mrun. }
    split; [split; [done|by rewrite Q2, P2, app_assoc|congruence|by rewrite app_assoc..]|].
    split; [eapply acking_trans; [|exact Ha|exact Ha2]; destruct Q5 as [? Q5]; apply (di_consec _ _ (so_inv _ _ _ (ha_snd _ _ _ _ _ _ _ _ _ _ _ Q5)))|].
    split; [lia|]. split; [lia|]. split; [exists (m1 + m2); by rewrite fifo_adv_adv|]. split; [|done].
    intros Ho. destruct (Hov Ho) as [Hl1 Hn1].
    assert (Ho1 : over d1).
    { apply (over_iff c d1 _ _ _ _ _ _ _ _ P4 P5). apply (over_iff c d _ _ _ _ _ _ _ _ H1 H2) in Ho as [O1 O2].
      destruct Ha as [Hu _ _]. destruct P4 as [? P4]. destruct P5 as [? P5]. pose proof (half_next S' i' cap HS' P5).
      pose proof (position_range S i cap (ha_rcv _ _ _ _ _ _ _ _ _ _ _ P4)). lia. }
    destruct (Hov2 Ho1) as [Hl2 Hn2]. split; [by apply Forall_app|]. intros [Hz Hzs]%Forall_cons. by rewrite (Hn1 Hz), (Hn2 Hzs).
  - destruct (ignore_ok cap S S' i i' HS c d seg (segs ++ q) k f del g f' del' g' H1 H2 (ca_active _ Hcalm Hact)) as [H1' H2'].
    assert (Hg' : greets d segs).
    { intros E0. exfalso. pose proof (proj1 (over_iff c d _ _ _ _ _ _ _ _ H1 H2) (ca_active _ Hcalm Hact)) as [_ Hu]. zlia. }
    destruct (IH c d q k f del g f' del' g' H1' H2' Hcalm Hg' Hfit) as (d2 & new2 & f2 & g2 & E2 & Q & Ha2 & En2 & Hpos2 & Hf2 & Hov2 & Hact2).
    exists d2, new2, f2, g2. split.
    { cbn [receive_all]. erewrite run_bind; [exact E2|]. unfold on_connection. mrun. unfold id, TCPConnection_segment_received.
      rewrite Hact. by mrun. }
    split_and!; try done; [intros Ho; destruct (Hov2 Ho) as [Hl Hn]; split; [done|]; intros [_ Hz]%Forall_cons; by apply Hn|].
    intros Ha. specialize (Hact2 Ha). congruence.
Qed.
End Batch.

(** ** The two directions of the benchmark *)

Section Run.
Context (S : bytes) (ix iy : WrappingInt32) (HS : zlen S + 2 <= W31).

Abbreviation cap := DEFAULT_CAPACITY.

Lemma cap_fits : 1 <= cap < W16.
Proof. by vm_compute. Qed.

Lemma none_fits : zlen (@nil byte) + 2 <= W31.
Proof. done. Qed.

(** What the owner of [x] has still to write and to end, when [f] is what it wrote. *)
Record owes (buf : Buffer) (closed : bool) (f : fifo) : Prop := {
  ow_sum : S = ff_hist f ++ Buffer_str buf;
  ow_closed : closed = ff_ended f;
  ow_buffer : Buffer_wf buf;
  ow_cap : ff_cap f = cap
}.

Lemma owes_adv buf closed f m : owes buf closed f -> owes buf closed (fifo_adv f m).
Proof. by intros []. Qed.

(** [x] sends [S], [y] sends nothing and has ended its stream; [qx] and [qy] are under way. *)
Record wired (b : Benchmark) (qx qy : list TCPSegment) (f g f' g' : fifo) : Prop := {
  wr_xy : flow cap S ix (be_x b) (be_y b) qx qy f (be_string_received b) g;
  wr_yx : flow cap [] iy (be_y b) (be_x b) qy qx f' [] g';
  wr_calm_x : calm (be_x b);
  wr_calm_y : calm (be_y b);
  wr_cfg_x : cn_cfg (be_x b) = TCPConfig_default;
  wr_cfg_y : cn_cfg (be_y b) = TCPConfig_default;
  wr_owes : owes (be_bytes_to_send b) (be_x_closed b) f;
  wr_end : ff_ended f' = true
}.

Section Facts.
Context {b : Benchmark} {qx qy : list TCPSegment} {f g f' g' : fifo} (W : wired b qx qy f g f' g').

(** What [x] may send fits the buffer of [y] when all was read. *)
Lemma wired_fits : fifo_pending g = [] -> ff_nread f <= ff_nread g + cap.
Proof.
  intros Hp. destruct (wr_xy _ _ _ _ _ _ _ W) as [A H]. pose proof (half_next S ix cap HS H) as (_ & _ & _ & _ & Hr & En).
  pose proof (half_order S ix cap H) as Ho. pose proof H as [Hs _ _ _ Hrv _ Ha]. apply acked_le in Ha. pose proof (so_room _ _ _ Hs) as Hroom.
  pose proof (fifo_pending_len g (br_nreadb _ _ (rp_out _ _ _ (step_repr S ix cap Hrv)))) as Hl. rewrite Hp, (@zlen_nil byte) in Hl.
  unfold edge, offer, una, position, DEFAULT_CAPACITY in *. destruct (ff_ended g) eqn:Eg; [|destruct (sd_fin _); lia].
  rewrite (step_ended S ix cap Hrv Eg) in *. destruct (sd_fin _); lia.
Qed.

Lemma wired_bounds : 1 <= position g <= zlen S + 2 /\ 1 <= position g' <= 2 /\
  una (cn_sender (be_x b)) <= zlen S + 2 /\ 0 <= una (cn_sender (be_y b)) <= 2 /\
  una (cn_sender (be_y b)) <= sd_next_seqno (cn_sender (be_y b)) <= 2.
Proof.
  destruct (wr_xy _ _ _ _ _ _ _ W) as [A H]. destruct (wr_yx _ _ _ _ _ _ _ W) as [A' H'].
  pose proof (half_next S ix cap HS H). pose proof (half_next [] iy cap none_fits H') as Hn. rewrite (@zlen_nil byte) in Hn.
  pose proof (position_range S ix cap (ha_rcv _ _ _ _ _ _ _ _ _ _ _ H)).
  pose proof (position_range [] iy cap (ha_rcv _ _ _ _ _ _ _ _ _ _ _ H')) as Hp. rewrite (@zlen_nil byte) in Hp. lia.
Qed.

Lemma wired_over_x : over (be_x b) <-> position g' = 2 /\ una (cn_sender (be_x b)) = zlen S + 2.
Proof. apply (over_iff cap [] S iy ix HS _ _ _ _ _ _ _ _ _ _ (wr_yx _ _ _ _ _ _ _ W) (wr_xy _ _ _ _ _ _ _ W)). Qed.

Lemma wired_over_y : over (be_y b) <-> position g = zlen S + 2 /\ una (cn_sender (be_y b)) = 2.
Proof. apply (over_iff cap S [] ix iy none_fits _ _ _ _ _ _ _ _ _ _ (wr_xy _ _ _ _ _ _ _ W) (wr_yx _ _ _ _ _ _ _ W)). Qed.
End Facts.

(** ** The owner of [x] writes *)

(** The loop that writes and the call that ends the stream, with a property [P] of [x] that
    both operations keep. *)
Section Fill.
Context (P : TCPConnection -> fifo -> Prop).
Context (P_sender : forall x f, P x f -> sender_ok S (cn_sender x) f).
Context (P_write : forall x f data, P x f -> ff_ended f = false -> is_prefix (ff_hist f ++ data) S ->
  0 < zlen data <= TCPConnection_remaining_outbound_capacity x ->
  exists x' f2, TCPConnection_write x data = Ok (zlen data, x') /\ P x' f2 /\
    ff_hist f2 = ff_hist f ++ data /\ ff_ended f2 = false /\ ff_cap f2 = ff_cap f).
Context (P_end : forall x f, P x f -> ff_ended f = false -> ff_hist f = S ->
  exists x' f2, TCPConnection_end_input_stream x = Ok x' /\ P x' f2 /\ ff_hist f2 = S /\ ff_ended f2 = true /\ ff_cap f2 = ff_cap f).

Lemma owes_open x buf closed f : P x f -> owes buf closed f -> Buffer_str buf <> [] -> ff_ended f = false.
Proof.
  intros HP [Hs _ _ _] Hne. destruct (ff_ended f) eqn:He; [|done]. pose proof (so_ended _ _ _ (P_sender x f HP) He) as Eh. rewrite Eh in Hs.
  destruct Hne. apply zlen_0_nil. apply (f_equal zlen) in Hs. rewrite zlen_app in Hs. lia.
Qed.

Lemma write_input_run fuel : forall b f, P (be_x b) f -> owes (be_bytes_to_send b) (be_x_closed b) f ->
  (Z.to_nat (Buffer_size (be_bytes_to_send b)) < fuel)%nat ->
  exists x' buf' f2, let b' := be_set_bytes buf' (be_set_x x' b) in
    write_input fuel b = (Ok tt, b') /\ P x' f2 /\ owes buf' (be_x_closed b) f2 /\
    (Buffer_size buf' = 0 \/ fifo_pending f2 <> []) /\ (ff_ended f = true -> b' = b).
Proof.
  induction fuel as [|fuel IH]; intros b f HP Ho Hf; [lia|]. cbn [write_input]. mrun. pose proof Ho as [Hs Hcl Hwf Hcap].
  pose proof (so_inv _ _ _ (P_sender _ _ HP)) as I. set (room := TCPConnection_remaining_outbound_capacity (be_x b)).
  assert (Ecap : room = cap - zlen (fifo_pending f) /\ zlen (fifo_pending f) <= cap).
  { unfold room, TCPConnection_remaining_outbound_capacity. rewrite (bs_remaining_spec _ _ (di_stream _ _ I)). unfold fifo_room.
    pose proof (br_room _ _ (di_stream _ _ I)) as Hr. rewrite Hcap in *. lia. }
  destruct Ecap as [Ecap Hpl]. destruct (negb _ && negb _) eqn:Ec.
  2:{ exists (be_x b), (be_bytes_to_send b), f. cbv zeta. replace (be_set_bytes _ _) with b by (by destruct b). split; [done|]. split; [done|]. split; [done|].
      split; [|done]. apply andb_false_iff in Ec as [Ec|Ec]; apply negb_false_iff, Z.eqb_eq in Ec; [by left|right].
      intros Hp. rewrite Hp, (@zlen_nil byte) in Ecap. unfold DEFAULT_CAPACITY in Ecap. lia. }
  apply andb_prop in Ec as [E1 E2]. apply negb_true_iff, Z.eqb_neq in E1, E2.
  unfold Buffer_size in *. set (buf := be_bytes_to_send b) in *. pose proof (zlen_nonneg (Buffer_str buf)).
  assert (Hopen : ff_ended f = false) by (apply (owes_open _ _ _ _ HP Ho); intros E0; by rewrite E0 in E1).
  set (want := Z.min _ _). assert (Hwant : 0 < want <= zlen (Buffer_str buf) /\ want <= room) by (unfold want; lia).
  destruct Hwant as [Hwant Hwc]. clearbody want. assert (Hz : zlen (ztake want (Buffer_str buf)) = want) by (apply zlen_ztake; lia).
  destruct (P_write (be_x b) f (ztake want (Buffer_str buf)) HP Hopen) as (x' & f2 & E & HP' & Eh & Ee & Ecp); [|fold room; lia|].
  { rewrite Hs. exists (zdrop want (Buffer_str buf)). by rewrite <- app_assoc, ztake_zdrop_id. }
  rewrite Hz in E. rewrite E. mrun. rewrite Z.eqb_refl. mrun.
  pose proof (Buffer_remove_prefix_spec buf want Hwf ltac:(lia)) as Hr. unfold Buffer_size in Hr.
  destruct (Z.ltb_spec (zlen (Buffer_str buf)) want); [lia|]. destruct Hr as (buf' & -> & Hw' & Eb). mrun.
  destruct (IH (be_set_bytes buf' (be_set_x x' b)) f2) as (x2 & buf2 & f3 & Er & HP2 & Ho2 & Hfull & _); [done| | |].
  { split; cbn; [by rewrite Eh, Eb, <- app_assoc, ztake_zdrop_id|congruence|done|congruence]. }
  { cbn. unfold Buffer_size in *. rewrite Eb, zlen_zdrop by lia. lia. }
  exists x2, buf2, f3. split; [exact Er|]. split; [done|]. split; [done|]. split; [done|congruence].
Qed.

(** The part of a turn that belongs to the owner of [x]. *)
Definition first_part (b : Benchmark) : bench unit :=
  _ ← write_input (Datatypes.S (Z.to_nat (Buffer_size (be_bytes_to_send b))));
  b ← gets id;
  if (Buffer_size (be_bytes_to_send b) =? 0) && negb (be_x_closed b) then
    _ ← at_x (on_connection TCPConnection_end_input_stream);
    modify (be_set_closed true)
  else mret tt.

Lemma first_part_run b f : P (be_x b) f -> owes (be_bytes_to_send b) (be_x_closed b) f ->
  exists b' f2, first_part b b = (Ok tt, b') /\ P (be_x b') f2 /\ owes (be_bytes_to_send b') (be_x_closed b') f2 /\
    be_y b' = be_y b /\ be_string_received b' = be_string_received b /\
    (ff_ended f2 = true \/ fifo_pending f2 <> []) /\ (ff_ended f = true -> b' = b).
Proof.
  intros HP Ho. destruct (write_input_run _ b f HP Ho (Nat.lt_succ_diag_r _)) as (x1 & buf1 & f1 & E1 & HP1 & Ho1 & Hfull & Hid).
  unfold first_part. erewrite run_bind by exact E1. mrun. unfold id. cbn [be_bytes_to_send be_set_bytes be_x_closed be_set_x].
  pose proof Ho1 as [Hs Hcl Hwf Hcap]. destruct (_ && _) eqn:Ec.
  - apply andb_prop in Ec as [E2 E3]. apply Z.eqb_eq, zlen_0_nil in E2. apply negb_true_iff in E3. rewrite E3 in Hcl. symmetry in Hcl.
    assert (Eh : ff_hist f1 = S) by (by rewrite Hs, E2, app_nil_r).
    destruct (P_end x1 f1 HP1 Hcl Eh) as (x2 & f2 & E4 & HP2 & Eh2 & Ee & Ecp).
    exists (be_set_closed true (be_set_x x2 (be_set_bytes buf1 (be_set_x x1 b)))), f2. split.
    { erewrite run_bind; [done|]. unfold zoom, on_connection. mrun. unfold id. cbn. rewrite E4. by mrun. }
    split; [done|]. split; [split; cbn; [by rewrite Eh2, E2, app_nil_r|done|done|congruence]|]. split_and!; try done; [by left|].
    intros E5. rewrite (ow_closed _ _ _ Ho), E5 in E3. done.
  - exists (be_set_bytes buf1 (be_set_x x1 b)), f1. split; [done|]. split; [done|]. split; [done|]. split; [done|]. split; [done|]. split; [|done].
    destruct Hfull as [E0|?]; [left|by right]. rewrite E0 in Ec. cbn in Ec. apply negb_false_iff in Ec. congruence.
Qed.
End Fill.

(** ** Moving the segments *)

Lemma calm_pop c l : calm c -> calm (cn_set_segments_out c l).
Proof. by intros []. Qed.

Lemma wired_pop_x b l qx qy f g f' g' : wired b qx qy f g f' g' -> wired (be_set_x (cn_set_segments_out (be_x b) l) b) qx qy f g f' g'.
Proof. intros []. split; try done. by apply calm_pop. Qed.

Lemma wired_pop_y b l qx qy f g f' g' : wired b qx qy f g f' g' -> wired (be_set_y (cn_set_segments_out (be_y b) l) b) qx qy f g f' g'.
Proof. intros []. split; try done. by apply calm_pop. Qed.

(** All that [x] sent has arrived; all that [y] sent has arrived. *)
Lemma wired_arrived_y b qy f g f' g' : wired b [] qy f g f' g' ->
  position g = sd_next_seqno (cn_sender (be_x b)) /\ una (cn_sender (be_y b)) = position g'.
Proof. intros W. destruct (wr_xy _ _ _ _ _ _ _ W) as [A [_ _ _ _ _ Hc _]]. destruct (wr_yx _ _ _ _ _ _ _ W) as [A' [_ _ _ _ _ _ [Ha _]]]. done. Qed.

Lemma wired_arrived_x b qx f g f' g' : wired b qx [] f g f' g' ->
  position g' = sd_next_seqno (cn_sender (be_y b)) /\ una (cn_sender (be_x b)) = position g.
Proof. intros W. destruct (wr_yx _ _ _ _ _ _ _ W) as [A [_ _ _ _ _ Hc _]]. destruct (wr_xy _ _ _ _ _ _ _ W) as [A' [_ _ _ _ _ _ [Ha _]]]. done. Qed.

Lemma receive_y_run b segs q qy f g f' g' : wired b (segs ++ q) qy f g f' g' -> fifo_pending g = [] -> greets iy (be_y b) segs ->
  exists b' new f2 g2, at_y (receive_all segs) b = (Ok tt, b') /\ wired b' q (qy ++ new) f g2 f2 g' /\
    be_x b' = be_x b /\ be_bytes_to_send b' = be_bytes_to_send b /\ be_x_closed b' = be_x_closed b /\
    cn_segments_out (be_y b') = cn_segments_out (be_y b) ++ new /\ acking (be_y b) (be_y b') /\ position g <= position g2 /\
    (over (be_y b) -> empty_segments new /\ (empty_segments segs -> new = [])) /\ (segs = [] -> b' = b).
Proof.
  intros W Hp Hg.
  destruct (receive_all_ok cap cap_fits S [] ix iy HS none_fits segs (be_x b) (be_y b) q qy f (be_string_received b) g f' [] g'
    (wr_xy _ _ _ _ _ _ _ W) (wr_yx _ _ _ _ _ _ _ W) (wr_calm_y _ _ _ _ _ _ _ W) Hg (wired_fits W Hp)) as
    (y' & new & f2 & g2 & E & [P1 P2 P3 P4 P5] & Ha & _ & Hpos & [m ->] & Hov & _).
  exists (be_set_y y' b), new, (fifo_adv f' m), g2. split; [by apply zoom_eq|].
  split; [split; try done; cbn [be_x be_y be_x_closed be_bytes_to_send be_set_y]; try (by destruct W); rewrite P3; apply W|]. split_and!; try done.
  intros ->. injection E as <-. by destruct b.
Qed.

Lemma receive_x_run b segs qx q f g f' g' : wired b qx (segs ++ q) f g f' g' -> greets ix (be_x b) segs ->
  exists b' new f2 g2, at_x (receive_all segs) b = (Ok tt, b') /\ wired b' (qx ++ new) q f2 g f' g2 /\
    be_y b' = be_y b /\ be_bytes_to_send b' = be_bytes_to_send b /\ be_x_closed b' = be_x_closed b /\
    cn_segments_out (be_x b') = cn_segments_out (be_x b) ++ new /\ acking (be_x b) (be_x b') /\ position g' <= position g2 /\
    (over (be_x b) -> empty_segments new /\ (empty_segments segs -> new = [])) /\ (segs = [] -> b' = b).
Proof.
  intros W Hg. assert (Hfit : ff_nread f' <= ff_nread g' + cap).
  { destruct (wr_yx _ _ _ _ _ _ _ W) as [A H]. pose proof (half_next [] iy cap none_fits H) as (_ & _ & _ & _ & Hr & _).
    pose proof (rp_out _ _ _ (step_repr [] iy cap (ha_rcv _ _ _ _ _ _ _ _ _ _ _ H))) as Ro. pose proof (br_nreadb _ _ Ro). pose proof cap_fits.
    rewrite (@zlen_nil byte) in Hr. lia. }
  destruct (receive_all_ok cap cap_fits [] S iy ix none_fits HS segs (be_y b) (be_x b) q qx f' [] g' f (be_string_received b) g
    (wr_yx _ _ _ _ _ _ _ W) (wr_xy _ _ _ _ _ _ _ W) (wr_calm_x _ _ _ _ _ _ _ W) Hg Hfit) as
    (x' & new & f2 & g2 & E & [P1 P2 P3 P4 P5] & Ha & _ & Hpos & [m ->] & Hov & _).
  exists (be_set_x x' b), new, (fifo_adv f m), g2. split; [by apply zoom_eq|].
  split; [split; try done; cbn [be_x be_y be_x_closed be_bytes_to_send be_set_x]; try (by destruct W); [rewrite P3; apply W|apply owes_adv, W]|]. split_and!; try done.
  intros ->. injection E as <-. by destruct b.
Qed.

(** [y] reads all there is. *)
Lemma read_run b qx qy f g f' g' : wired b qx qy f g f' g' ->
  exists b' g2, ((if 0 <? ByteStream_buffer_size (TCPConnection_inbound_stream (be_y b)) then
          '(d, y') ← lift (TCPConnection_read (be_y b) (ByteStream_buffer_size (TCPConnection_inbound_stream (be_y b))));
          _ ← modify (be_set_y y');
          modify (be_append d)
        else mret tt) : bench unit) b = (Ok tt, b') /\ wired b' qx qy f g2 f' g' /\ fifo_pending g2 = [] /\ position g2 = position g /\
    be_x b' = be_x b /\ cn_sender (be_y b') = cn_sender (be_y b) /\ cn_segments_out (be_y b') = cn_segments_out (be_y b) /\
    cn_active (be_y b') = cn_active (be_y b) /\
    cn_time_since_last_segment_received (be_y b') = cn_time_since_last_segment_received (be_y b).
Proof.
  intros W. destruct (wr_xy _ _ _ _ _ _ _ W) as [A H]. pose proof (rp_out _ _ _ (step_repr S ix cap (ha_rcv _ _ _ _ _ _ _ _ _ _ _ H))) as Ro.
  set (n := ByteStream_buffer_size _).
  assert (En : n = zlen (fifo_pending g)) by apply (bs_buffer_size_spec _ _ Ro).
  destruct (Z.ltb_spec 0 n) as [Hn|Hn].
  2:{ exists b, g. split; [done|]. split; [done|]. split; [apply zlen_0_nil; zlia|]. done. }
  destruct (read_ok cap S [] ix iy (be_x b) (be_y b) n qx qy f (be_string_received b) g f' [] g'
    (wr_xy _ _ _ _ _ _ _ W) (wr_yx _ _ _ _ _ _ _ W) (wr_calm_y _ _ _ _ _ _ _ W) ltac:(lia)) as
    (y' & E & Hc & Eo & Ecfg & Es & Ea & Et & _ & F1 & F2).
  exists (be_append (ztake n (fifo_pending g)) (be_set_y y' b)), (fifo_pop g n). rewrite E. mrun. split; [done|].
  split; [split; try done; cbn [be_x be_y be_x_closed be_bytes_to_send be_set_y be_append]; try (by destruct W); rewrite Ecfg; apply W|].
  split; [|done]. pose proof (fifo_pending_len g (br_nreadb _ _ Ro)). unfold fifo_pending at 1. cbn. apply zdrop_all. lia.
Qed.

(** ** Turns of the loop *)

(** Between two turns: [y] stands at [p] and has been read out, all that [y] sent up to [p']
    has arrived and [y] knows that it did up to [u]. *)
Record between (b : Benchmark) (p p' u : Z) : Prop := {
  bt_wired : exists f g f' g', wired b (cn_segments_out (be_x b)) (cn_segments_out (be_y b)) f g f' g' /\
    fifo_pending g = [] /\ position g = p /\ position g' = p';
  bt_una : una (cn_sender (be_x b)) = p;
  bt_next : sd_next_seqno (cn_sender (be_y b)) = p';
  bt_known : una (cn_sender (be_y b)) = u;
  bt_greets : greets iy (be_y b) (cn_segments_out (be_x b))
}.

(** A connection that is over waits for its linger time to pass. *)
Definition lingers (c : TCPConnection) : Prop :=
  cn_active c = true -> 0 <= cn_time_since_last_segment_received c < 10 * TIMEOUT_DFLT.
Definition ages (c c' : TCPConnection) : Prop :=
  cn_active c' = true -> cn_active c = true /\
  cn_time_since_last_segment_received c' = cn_time_since_last_segment_received c +64 1000.

(** The rest of a turn after the segments [segs] of [y] were taken. *)
Definition second_half (segs : list TCPSegment) : bench unit :=
  _ ← at_x (receive_all segs);
  y ← gets be_y;
  _ ← ((if 0 <? ByteStream_buffer_size (TCPConnection_inbound_stream y) then
          '(d, y') ← lift (TCPConnection_read y (ByteStream_buffer_size (TCPConnection_inbound_stream y)));
          _ ← modify (be_set_y y');
          modify (be_append d)
        else mret tt) : bench unit);
  _ ← at_x (on_connection (fun c => Ok (TCPConnection_tick c 1000)));
  at_y (on_connection (fun c => Ok (TCPConnection_tick c 1000))).

Lemma tick_x_run b qx qy f g f' g' : wired b qx qy f g f' g' -> sd_consecutive_retransmissions (cn_sender (be_x b)) = 0 ->
  exists b' new, at_x (on_connection (fun c => Ok (TCPConnection_tick c 1000))) b = (Ok tt, b') /\ wired b' (qx ++ new) qy f g f' g' /\
    be_y b' = be_y b /\ una (cn_sender (be_x b')) = una (cn_sender (be_x b)) /\
    cn_segments_out (be_x b') = cn_segments_out (be_x b) ++ new /\
    (over (be_x b) -> new = [] /\ lingers (be_x b') /\ ages (be_x b) (be_x b')).
Proof.
  intros W Hc. destruct (tick_ok cap cap_fits [] S iy ix (be_y b) (be_x b) 1000 qy qx f' [] g' f (be_string_received b) g
    (wr_yx _ _ _ _ _ _ _ W) (wr_xy _ _ _ _ _ _ _ W) (wr_calm_x _ _ _ _ _ _ _ W) ltac:(lia)) as (new & Hpr & Eu & En & _ & Hov).
  cbv zeta in *. destruct Hpr as [P1 P2 P3 P4 P5]. exists (be_set_x (TCPConnection_tick (be_x b) 1000) b), new. split; [done|].
  split; [split; try done; cbn [be_x be_y be_x_closed be_bytes_to_send be_set_x]; try (by destruct W); rewrite P3; apply W|].
  split; [done|]. split; [done|]. split; [done|]. intros Ho. destruct (Hov Ho) as [-> Ht]. split; [done|]. split.
  - intros Ha. destruct (Ht Ha) as (_ & Et & Hlt). rewrite (wr_cfg_x _ _ _ _ _ _ _ W) in Hlt. split; [|exact Hlt].
    cbn [be_x be_set_x]. rewrite Et. apply u64_range.
  - intros Ha. by destruct (Ht Ha) as (? & ? & _).
Qed.

Lemma tick_y_run b qx qy f g f' g' : wired b qx qy f g f' g' -> sd_consecutive_retransmissions (cn_sender (be_y b)) = 0 ->
  exists b' new, at_y (on_connection (fun c => Ok (TCPConnection_tick c 1000))) b = (Ok tt, b') /\ wired b' qx (qy ++ new) f g f' g' /\
    be_x b' = be_x b /\ una (cn_sender (be_y b')) = una (cn_sender (be_y b)) /\ sd_next_seqno (cn_sender (be_y b')) = sd_next_seqno (cn_sender (be_y b)) /\
    cn_segments_out (be_y b') = cn_segments_out (be_y b) ++ new /\
    (over (be_y b) -> new = [] /\ lingers (be_y b') /\ ages (be_y b) (be_y b')).
Proof.
  intros W Hc. destruct (tick_ok cap cap_fits S [] ix iy (be_x b) (be_y b) 1000 qx qy f (be_string_received b) g f' [] g'
    (wr_xy _ _ _ _ _ _ _ W) (wr_yx _ _ _ _ _ _ _ W) (wr_calm_y _ _ _ _ _ _ _ W) ltac:(lia)) as (new & Hpr & Eu & En & _ & Hov).
  cbv zeta in *. destruct Hpr as [P1 P2 P3 P4 P5]. exists (be_set_y (TCPConnection_tick (be_y b) 1000) b), new. split; [done|].
  split; [split; try done; cbn [be_x be_y be_x_closed be_bytes_to_send be_set_y]; try (by destruct W); rewrite P3; apply W|].
  split; [done|]. split; [done|]. split; [done|]. split; [done|]. intros Ho. destruct (Hov Ho) as [-> Ht]. split; [done|]. split.
  - intros Ha. destruct (Ht Ha) as (_ & Et & Hlt). rewrite (wr_cfg_y _ _ _ _ _ _ _ W) in Hlt. split; [|exact Hlt].
    cbn [be_y be_set_y]. rewrite Et. apply u64_range.
  - intros Ha. by destruct (Ht Ha) as (? & ? & _).
Qed.

Lemma second_half_run b segs f g f' g' : wired b (cn_segments_out (be_x b)) segs f g f' g' -> cn_segments_out (be_y b) = [] ->
  greets ix (be_x b) segs -> greets iy (be_y b) (cn_segments_out (be_x b)) ->
  (una (cn_sender (be_x b)) = position g -> sd_consecutive_retransmissions (cn_sender (be_x b)) = 0) ->
  sd_consecutive_retransmissions (cn_sender (be_y b)) = 0 ->
  exists b', second_half segs b = (Ok tt, b') /\
    between b' (position g) (sd_next_seqno (cn_sender (be_y b))) (una (cn_sender (be_y b))) /\
    (over (be_x b) -> over (be_y b) -> cn_segments_out (be_y b') = [] /\ lingers (be_x b') /\ lingers (be_y b') /\
       ages (be_y b) (be_y b') /\ (segs = [] -> ages (be_x b) (be_x b')) /\
       (empty_segments (cn_segments_out (be_x b)) -> empty_segments (cn_segments_out (be_x b'))) /\
       (empty_segments segs -> cn_segments_out (be_x b') = cn_segments_out (be_x b))).
Proof.
  intros W Hout Hgx Hgy Hcx Hcy. rewrite <- (app_nil_r segs) in W.
  destruct (receive_x_run b segs _ [] f g f' g' W Hgx) as (b1 & n1 & f1 & g1' & E1 & W1 & Ey1 & _ & _ & Eo1 & [Hu1 Hc1 Hr1] & Hp1 & Hov1 & Hid1).
  rewrite app_nil_r in W. destruct (wired_arrived_x _ _ _ _ _ _ W1) as [En1 Eu1].
  assert (Hcx1 : sd_consecutive_retransmissions (cn_sender (be_x b1)) = 0).
  { pose proof (flow_consec _ _ _ _ _ _ _ _ _ _ (wr_xy _ _ _ _ _ _ _ W1)).
    destruct (Z.eq_dec (una (cn_sender (be_x b))) (position g)) as [E|E]; [specialize (Hcx E); lia|apply Hr1; lia]. }
  destruct (read_run b1 _ _ _ _ _ _ W1) as (b2 & g2 & E2 & W2 & Hpd & Epos & Ex2 & Es2 & Eo2 & Ea2 & Et2).
  destruct (tick_x_run b2 _ _ _ _ _ _ W2) as (b3 & n3 & E3 & W3 & Ey3 & Eu3 & Eo3 & Hov3); [by rewrite Ex2|].
  destruct (tick_y_run b3 _ _ _ _ _ _ W3) as (b4 & n4 & E4 & W4 & Ex4 & Eu4 & En4 & Eo4 & Hov4); [by rewrite Ey3, Es2, Ey1|].
  exists b4. split.
  { unfold second_half. erewrite run_bind by exact E1. rewrite run_gets. erewrite run_bind by exact E2. erewrite run_bind by exact E3. exact E4. }
  assert (Eox : cn_segments_out (be_x b4) = cn_segments_out (be_x b) ++ n1 ++ n3) by (by rewrite Ex4, Eo3, Ex2, Eo1, app_assoc).
  assert (Eoy : cn_segments_out (be_y b4) = n4) by (by rewrite Eo4, Ey3, Eo2, Ey1, Hout).
  assert (Euy : una (cn_sender (be_y b4)) = una (cn_sender (be_y b))) by (by rewrite Eu4, Ey3, Es2, Ey1).
  assert (Eny : sd_next_seqno (cn_sender (be_y b4)) = sd_next_seqno (cn_sender (be_y b))) by (by rewrite En4, Ey3, Es2, Ey1).
  split.
  - split; [| |done|done|].
    + exists f1, g2, f', g1'. rewrite Eox, Eoy. rewrite app_assoc. split; [done|]. split; [done|]. split; [done|]. by rewrite En1, Ey1.
    + by rewrite Ex4, Eu3, Ex2, Eu1.
    + intros E0. rewrite Euy in E0. specialize (Hgy E0). rewrite Eox. by destruct (cn_segments_out (be_x b)).
  - intros Hx Hy. destruct (Hov1 Hx) as [He1 Hz1]. pose proof (wired_bounds W2) as B2.
    apply (wired_over_x W) in Hx as [Hx1 Hx2]. apply (wired_over_y W) in Hy as [Hy1 Hy2].
    assert (Ho2 : over (be_x b2)) by (apply (wired_over_x W2); rewrite Ex2 in *; lia).
    assert (Ho3 : over (be_y b3)) by (apply (wired_over_y W3); rewrite Ey3, Es2, Ey1; lia).
    destruct (Hov3 Ho2) as (-> & Hl3 & Ha3). destruct (Hov4 Ho3) as (-> & Hl4 & Ha4). rewrite app_nil_r in Eox.
    split; [done|]. split; [by rewrite Ex4|]. split; [done|]. split.
    { unfold ages in *. rewrite Ey3, Ea2, Et2, Ey1 in Ha4. exact Ha4. }
    split; [intros E0; rewrite Ex4; unfold ages in *; by rewrite Ex2, (Hid1 E0) in Ha3|]. rewrite Eox.
    split; [intros Hz; by apply Forall_app|]. intros Hz. by rewrite (Hz1 Hz), app_nil_r.
Qed.

(** What [x] can still send is under way after its owner's part of the turn. *)
Lemma fill_run b qx qy f g f' g' : wired b qx qy f g f' g' ->
  exists b' f2 new, first_part b b = (Ok tt, b') /\ wired b' (qx ++ new) qy f2 g f' g' /\
    be_y b' = be_y b /\ cn_segments_out (be_x b') = cn_segments_out (be_x b) ++ new /\ una (cn_sender (be_x b')) = una (cn_sender (be_x b)) /\
    (una (cn_sender (be_x b')) < sd_next_seqno (cn_sender (be_x b')) \/ una (cn_sender (be_x b')) = zlen S + 2) /\
    (ff_ended f = true -> b' = b).
Proof.
  intros [Hxy Hyx Hcx Hcy Cx Cy Ho He]. set (del := be_string_received b) in *.
  set (P x f := exists new, flow cap [] iy (be_y b) x qy (qx ++ new) f' [] g' /\ flow cap S ix x (be_y b) (qx ++ new) qy f del g /\
    calm x /\ cn_cfg x = TCPConfig_default /\ cn_segments_out x = cn_segments_out (be_x b) ++ new /\
    una (cn_sender x) = una (cn_sender (be_x b))).
  assert (Hact : forall x h, P x h -> ff_ended h = false -> cn_active x = true).
  { intros x h (new & _ & [A H] & Hc & _) Eh. destruct (cn_active x) eqn:E; [done|]. destruct (ca_active _ Hc E) as (_ & Hf & _).
    destruct (di_fin _ _ (so_inv _ _ _ (ha_snd _ _ _ _ _ _ _ _ _ _ _ H)) Hf). congruence. }
  destruct (first_part_run P) with (b := b) (f := f) as (b' & f2 & E & (new & F1 & F2 & P1 & P2 & P3 & P4) & Ho' & Ey & Er & Hleft & Hid).
  - by intros x h (new & _ & [A []] & _).
  - intros x h data HP Eh Hpre Hroom. pose proof HP as (new & F1 & F2 & P1 & P2 & P3 & P4).
    destruct (write_ok cap cap_fits [] S iy ix HS (be_y b) x data qy (qx ++ new) f' [] g' h del g F1 F2 P1 (Hact x h HP Eh) Eh Hpre Hroom) as
      (x' & h2 & n2 & E & Eh2 & Ee & Ecp & [Q1 Q2 Q3 Q4 Q5] & _ & Eu).
    exists x', h2. split; [done|]. split; [|done]. exists (new ++ n2). rewrite !app_assoc. split_and!; try done; congruence.
  - intros x h HP Eh Hh. pose proof HP as (new & F1 & F2 & P1 & P2 & P3 & P4).
    destruct (end_ok cap cap_fits [] S iy ix HS (be_y b) x qy (qx ++ new) f' [] g' h del g F1 F2 P1 (Hact x h HP Eh) Hh) as
      (x' & h2 & n2 & E & Eh2 & Ee & Ecp & [Q1 Q2 Q3 Q4 Q5] & _ & Eu).
    exists x', h2. split; [done|]. split; [|done]. exists (new ++ n2). rewrite !app_assoc. split_and!; try done; congruence.
  - exists []. rewrite !app_nil_r. by split_and!.
  - done.
  - exists b', f2, new. split; [done|]. split; [split; rewrite ?Ey, ?Er; done|]. split_and!; try done.
    destruct Hleft as [Hl|Hl]; [eapply flow_done; [exact HS|exact F2|done]|left; eapply flow_busy; [exact HS|exact F2|done]].
Qed.

Lemma bench_loop_eq b b2 b4 : first_part b b = (Ok tt, b2) ->
  at_y (receive_all (cn_segments_out (be_x b2))) (be_set_x (cn_set_segments_out (be_x b2) []) b2) = (Ok tt, b4) ->
  bench_loop false b = second_half (cn_segments_out (be_y b4)) (be_set_y (cn_set_segments_out (be_y b4) []) b4).
Proof.
  intros E1 E2. apply run_bind_inv in E1 as ([] & b1 & E0 & E1). rewrite run_gets in E1. unfold id in E1. unfold bench_loop. rewrite run_gets. unfold id.
  erewrite run_bind by exact E0. rewrite run_gets. erewrite run_bind by exact E1.
  erewrite (run_bind (move_segments be_x be_set_x at_y false)); [|unfold move_segments; mrun; exact E2].
  done.
Qed.

(** One turn: [y] moves on until its stream has ended, and so does [x]. *)
Lemma turn_run b p p' u : between b p p' u ->
  exists b' p2 p2', bench_loop false b = (Ok tt, b') /\ between b' p2 p2' p' /\
    p <= p2 /\ (p < p2 \/ p = zlen S + 2) /\ p' <= p2' /\ (p' < p2' \/ p' = 2) /\
    (p = zlen S + 2 -> p' = 2 -> u = 2 -> cn_segments_out (be_y b') = [] /\ lingers (be_x b') /\ lingers (be_y b') /\
       empty_segments (cn_segments_out (be_x b')) /\
       (cn_segments_out (be_y b) = [] -> empty_segments (cn_segments_out (be_x b)) -> cn_segments_out (be_x b') = []) /\
       (cn_segments_out (be_x b) = [] -> cn_segments_out (be_y b) = [] -> ages (be_x b) (be_x b') /\ ages (be_y b) (be_y b'))).
Proof.
  intros [(f & g & f' & g' & W & Hpd & Ep & Ep') Hu Hn Hk Hg].
  destruct (fill_run b _ _ _ _ _ _ W) as (b2 & f2 & n2 & E2 & W2 & Sy & So & Su & Hsent & Hid).
  pose proof (wired_bounds W) as B. rewrite <- So in W2.
  apply (wired_pop_x b2 []) in W2. set (b3 := be_set_x _ b2) in W2.
  assert (Hg3 : greets iy (be_y b3) (cn_segments_out (be_x b2))).
  { intros E0. cbn in E0. rewrite Sy in E0. specialize (Hg E0). rewrite So. by destruct (cn_segments_out (be_x b)). }
  rewrite <- (app_nil_r (cn_segments_out (be_x b2))) in W2.
  destruct (receive_y_run b3 _ [] _ _ _ _ _ W2 Hpd Hg3) as (b4 & n4 & f4 & g4 & E4 & W4 & Ex4 & _ & _ & Eo4 & [A1 A2 A3] & Hpos & Hov4 & Hid4).
  rewrite app_nil_r in W2. change (be_y b3) with (be_y b2) in *. rewrite Sy in *.
  rewrite <- Eo4 in W4. destruct (wired_arrived_y _ _ _ _ _ _ W4) as [En4 Eu4]. rewrite Ex4 in En4. change (cn_sender (be_x b3)) with (cn_sender (be_x b2)) in En4.
  assert (Hcy : sd_consecutive_retransmissions (cn_sender (be_y b4)) = 0).
  { pose proof (flow_consec _ _ _ _ _ _ _ _ _ _ (wr_yx _ _ _ _ _ _ _ W4)).
    destruct (Z.eq_dec u p') as [E|E]; [|apply A3; lia]. pose proof (quiet_consec _ _ _ _ _ _ _ _ _ _ (wr_yx _ _ _ _ _ _ _ W) ltac:(lia)). lia. }
  pose proof (flow_done _ _ _ none_fits _ _ _ _ _ _ _ (wr_yx _ _ _ _ _ _ _ W4) (wr_end _ _ _ _ _ _ _ W4)) as Hdone. rewrite (@zlen_nil byte) in Hdone. pose proof (wired_bounds W4) as B4.
  apply (wired_pop_y b4 []) in W4. set (b5 := be_set_y _ b4) in W4.
  assert (Ex5 : cn_segments_out (be_x b5) = [] /\ cn_sender (be_x b5) = cn_sender (be_x b2)) by (unfold b5; cbn; by rewrite Ex4).
  destruct Ex5 as [Ex5 Es5].
  destruct (second_half_run b5 (cn_segments_out (be_y b4)) f2 g4 f4 g') as (b6 & E6 & Hb6 & Hover).
  { by rewrite Ex5. }
  { done. }
  { intros E0. exfalso. rewrite Es5, Su in E0. lia. }
  { intros E0. exfalso. change (cn_sender (be_y b5)) with (cn_sender (be_y b4)) in E0. lia. }
  { rewrite Es5. intros Eu. apply (quiet_consec _ _ _ _ _ _ _ _ _ _ (wr_xy _ _ _ _ _ _ _ W2)). change (cn_sender (be_x b3)) with (cn_sender (be_x b2)). lia. }
  { done. }
  change (cn_sender (be_y b5)) with (cn_sender (be_y b4)) in *. rewrite Eu4, Ep' in Hb6.
  exists b6, (position g4), (sd_next_seqno (cn_sender (be_y b4))). split; [by rewrite (bench_loop_eq b b2 b4 E2 E4)|]. split; [done|].
  split; [lia|]. split; [rewrite En4; lia|]. split; [lia|]. split; [lia|].
  intros Hp1 Hp2 Hu2. assert (Ho : over (be_x b) /\ over (be_y b)) by (rewrite (wired_over_x W), (wired_over_y W); lia). destruct Ho as [Hox Hoy].
  assert (Hend : ff_ended f = true).
  { destruct Hox as (_ & Hf & _). destruct (wr_xy _ _ _ _ _ _ _ W) as [A H]. by apply (di_fin _ _ (so_inv _ _ _ (ha_snd _ _ _ _ _ _ _ _ _ _ _ H))). }
  assert (b2 = b) as -> by (by apply Hid). clear Hid E2 So Sy Su.
  assert (Ho5 : over (be_x b5) /\ over (be_y b5)).
  { rewrite (wired_over_x W4), (wired_over_y W4), Es5. change (cn_sender (be_y b5)) with (cn_sender (be_y b4)). lia. }
  destruct (Hover (proj1 Ho5) (proj2 Ho5)) as (R1 & R2 & R3 & R4 & R5 & R6 & R7). destruct (Hov4 Hoy) as [Hz1 Hz2].
  rewrite Ex5 in R6, R7. split; [done|]. split; [done|]. split; [done|]. split; [by apply R6, Forall_nil|]. split.
  - intros Ey0 Hz. apply R7. rewrite Eo4. cbn. rewrite Ey0. cbn. rewrite (Hz2 Hz). by apply Forall_nil.
  - intros Ex0 Ey0. specialize (Hid4 Ex0). assert (Es : cn_segments_out (be_y b4) = []) by (by rewrite Hid4).
    specialize (R5 Es). unfold b5 in R4, R5. rewrite Hid4 in R4, R5. by split.
Qed.

(** ** The two loops *)

Lemma between_eof b p p' u : between b p p' u ->
  ByteStream_eof (TCPConnection_inbound_stream (be_y b)) = (p =? zlen S + 2) /\ p <= zlen S + 2 /\
  (p = zlen S + 2 -> be_string_received b = S).
Proof.
  intros [(f & g & f' & g' & W & Hpd & <- & _) _ _ _ _]. pose proof (wired_bounds W) as B. destruct (wr_xy _ _ _ _ _ _ _ W) as [A H].
  pose proof (ha_rcv _ _ _ _ _ _ _ _ _ _ _ H) as Hr. pose proof (rp_out _ _ _ (step_repr S ix cap Hr)) as Ro.
  pose proof (step_short S ix cap Hr) as Hs. unfold TCPConnection_inbound_stream, TCPReceiver_stream_out.
  rewrite (bs_eof_spec _ _ Ro), Hpd. cbn [andb zlen]. change (zlen [] =? 0) with true. cbn [andb]. split; [|split; [lia|]].
  - unfold position. destruct (ff_ended g) eqn:E; symmetry; [apply Z.eqb_eq; rewrite (step_ended S ix cap Hr E); lia|apply Z.eqb_neq; lia].
  - intros Ep. assert (E : ff_ended g = true) by (unfold position in Ep; destruct (ff_ended g); [done|lia]).
    pose proof (fifo_pending_len g (br_nreadb _ _ Ro)) as Hl. rewrite Hpd, (@zlen_nil byte) in Hl.
    rewrite (si_del _ _ _ _ _ _ (ri_sr _ _ _ _ _ _ _ (is_inv _ _ _ _ _ _ _ Hr))), ztake_all by lia. by apply (step_ended S ix cap Hr).
Qed.

(** A loop whose turns count down ends. *)
Lemma while_ends condition (I : nat -> Benchmark -> Prop) :
  (forall n b, I (Datatypes.S n) b -> condition b = true -> exists b', bench_loop false b = (Ok tt, b') /\ I n b') ->
  (forall b, I 0%nat b -> condition b = false) ->
  forall n fuel b, I n b -> (n <= fuel)%nat ->
  exists b' m, bench_while fuel condition false b = (Ok tt, b') /\ I m b' /\ condition b' = false.
Proof.
  intros Hstep Hzero n. induction n as [|n IH]; intros fuel b Hb Hf.
  - exists b, 0%nat. destruct fuel; cbn [bench_while]; mrun; unfold id; by rewrite (Hzero b Hb).
  - destruct fuel as [|fuel]; [lia|]. cbn [bench_while]. mrun. unfold id. destruct (condition b) eqn:Ec; [|by exists b, (Datatypes.S n)].
    destruct (Hstep n b Hb Ec) as (b1 & E1 & Hb1). cbn [negb]. erewrite run_bind by exact E1. apply IH; [done|lia].
Qed.

Lemma first_loop_run fuel b p p' u : between b p p' u -> zlen S + 2 - p <= Z.of_nat fuel ->
  exists b' p2' u2, bench_while fuel (fun b => negb (ByteStream_eof (TCPConnection_inbound_stream (be_y b)))) false b = (Ok tt, b') /\
    between b' (zlen S + 2) p2' u2.
Proof.
  intros Hb Hf. destruct (while_ends (fun b => negb (ByteStream_eof (TCPConnection_inbound_stream (be_y b))))
    (fun n b => exists p p' u, between b p p' u /\ zlen S + 2 - p <= Z.of_nat n)) with (n := fuel) (fuel := fuel) (b := b) as (b' & m & E & (q & q' & v & Hb' & _) & Hc).
  - intros n c (q & q' & v & Hc & Hq) Hcond. destruct (turn_run c q q' v Hc) as (c' & q2 & q2' & E & Hc' & Hle & Hlt & _).
    exists c'. split; [done|]. exists q2, q2', q'. split; [done|]. destruct (between_eof _ _ _ _ Hc) as [Ee _]. rewrite Ee in Hcond.
    apply negb_true_iff, Z.eqb_neq in Hcond. lia.
  - intros c (q & q' & v & Hc & Hq). destruct (between_eof _ _ _ _ Hc) as (-> & Hle & _). apply negb_false_iff, Z.eqb_eq. lia.
  - by exists p, p', u.
  - done.
  - destruct (between_eof _ _ _ _ Hb') as [Ee _]. rewrite Ee in Hc. apply negb_false_iff, Z.eqb_eq in Hc. subst q. by exists b', q', v.
Qed.

(** A sender whose FIN has been acknowledged. *)
Lemma done_summary T s h : zlen T + 2 <= W31 -> sender_ok T s h -> sd_fin s = true -> sd_bytes_in_flight s = 0 ->
  sender_summary s = S_FIN_ACKED.
Proof.
  intros HT [I Hp _ Hsyn _ _ Hcl] Hfin Hb. pose proof (di_stream _ _ I) as R. destruct (di_fin _ _ I Hfin) as [He Hn].
  pose proof (di_next _ _ I) as Hx. rewrite Hsyn, Hfin in Hx. pose proof (zlen_nonneg (ff_hist h)).
  destruct (sender_bound T HT h Hp) as [_ Hl]. pose proof (fifo_pending_len h (br_nreadb _ _ R)) as Hpl.
  unfold sender_summary. unfold ByteStream_error, ByteStream_bytes_written. rewrite (br_err _ _ R), Hcl, (bs_eof_spec _ _ R), He, (br_written _ _ R), Hb.
  replace (zlen (fifo_pending h)) with 0 by lia. rewrite u64_id by lia.
  destruct (Z.eqb_spec (sd_next_seqno s) 0); [lia|]. cbn [Z.eqb andb negb].
  destruct (Z.ltb_spec (sd_next_seqno s) (zlen (ff_hist h) + 2)); [lia|]. done.
Qed.

(** A connection that is over and inactive, in the middle of two sound directions. *)
Lemma over_closed T U j i c d q k f del g f' del' g' : zlen T + 2 <= W31 ->
  flow cap T j c d q k f del g -> flow cap U i d c k q f' del' g' -> over c -> cn_active c = false ->
  TCPConnection_state c = TCPState_of CLOSED.
Proof.
  intros HT [A H1] [A' H2] (Hi & Hf & Hb) Ha. unfold TCPConnection_state. rewrite Ha.
  rewrite (done_summary T _ f HT (ha_snd _ _ _ _ _ _ _ _ _ _ _ H1) Hf Hb).
  pose proof (ha_rcv _ _ _ _ _ _ _ _ _ _ _ H2) as Hr. pose proof (rp_out _ _ _ (step_repr _ _ _ Hr)) as Ro.
  unfold receiver_summary, TCPReceiver_ackno. unfold TCPConnection_inbound_stream in Hi. rewrite Hi, (is_syn _ _ _ _ _ _ _ Hr).
  unfold ByteStream_error, TCPReceiver_stream_out. rewrite (br_err _ _ Ro), (is_clean _ _ _ _ _ _ _ Hr). done.
Qed.

(** The end: how many turns are left at most. *)
Definition aged (n : Z) (c : TCPConnection) : Prop :=
  cn_active c = true -> 1000 * n <= cn_time_since_last_segment_received c < 10 * TIMEOUT_DFLT.

Record closing (n : nat) (b : Benchmark) : Prop := {
  cl_between : exists p' u, between b (zlen S + 2) p' u /\ ((n <= 13)%nat -> p' = 2) /\ ((n <= 12)%nat -> u = 2);
  cl_y : (n <= 11)%nat -> cn_segments_out (be_y b) = [] /\ empty_segments (cn_segments_out (be_x b));
  cl_x : (n <= 10)%nat -> cn_segments_out (be_x b) = [] /\ aged (10 - Z.of_nat n) (be_x b) /\ aged (10 - Z.of_nat n) (be_y b)
}.

Lemma aged_next n c c' : 0 <= n -> aged n c -> ages c c' -> lingers c' -> aged (n + 1) c'.
Proof.
  intros Hn H A L Ha. destruct (A Ha) as [Hc Et]. specialize (H Hc). specialize (L Ha). unfold TIMEOUT_DFLT in *.
  rewrite Et in *. rewrite u64_id in * by lia. lia.
Qed.

Lemma closing_turn n b : closing (Datatypes.S n) b -> exists b', bench_loop false b = (Ok tt, b') /\ closing n b'.
Proof.
  intros [(p' & u & Hb & Hp & Hu) Hy Hx]. destruct (turn_run b _ p' u Hb) as (b' & p2 & p2' & E & Hb' & Hle & _ & Hle' & Hlt & Hov).
  exists b'. split; [done|]. assert (Ep2 : p2 = zlen S + 2) by (pose proof (between_eof _ _ _ _ Hb'); lia). rewrite Ep2 in Hb'.
  assert (B : 1 <= p' /\ p2' <= 2).
  { destruct Hb as [(f & g & f' & g' & W & _ & _ & Ep) _ _ _ _]. destruct Hb' as [(f1 & g1 & f1' & g1' & W' & _ & _ & Ep') _ _ _ _].
    pose proof (wired_bounds W). pose proof (wired_bounds W'). lia. }
  split.
  - exists p2', p'. split; [done|]. split; [lia|]. intros Hn. apply Hp. lia.
  - intros Hn. destruct (Hov eq_refl (Hp ltac:(lia)) (Hu ltac:(lia))) as (? & _ & _ & ? & _). done.
  - intros Hn. destruct (Hov eq_refl (Hp ltac:(lia)) (Hu ltac:(lia))) as (Ey & Lx & Ly & _ & Hempty & Hages). destruct (Hy ltac:(lia)) as [Ey0 Ex0].
    split; [by apply Hempty|]. destruct (Nat.eq_dec n 10) as [->|Hne]; [by split|]. destruct (Hx ltac:(lia)) as (Ex & Ax & Ay).
    destruct (Hages Ex Ey0) as [Gx Gy]. replace (10 - Z.of_nat n) with (10 - Z.of_nat (Datatypes.S n) + 1) by lia.
    split; [apply (aged_next _ (be_x b))|apply (aged_next _ (be_y b))]; (done || lia).
Qed.

Lemma second_loop_run fuel b p' u : between b (zlen S + 2) p' u -> (14 <= fuel)%nat ->
  exists b', bench_while fuel (fun b => cn_active (be_x b) || cn_active (be_y b)) false b = (Ok tt, b') /\
    be_string_received b' = S /\ TCPConnection_state (be_x b') = TCPState_of CLOSED /\
    TCPConnection_state (be_y b') = TCPState_of CLOSED /\ ByteStream_eof (TCPConnection_inbound_stream (be_y b')) = true.
Proof.
  intros Hb Hf. destruct (while_ends (fun b => cn_active (be_x b) || cn_active (be_y b)) closing) with (n := 14%nat) (fuel := fuel) (b := b)
    as (b' & m & E & [(q' & v & Hb' & _) _ _] & Hc).
  - intros n c Hc _. by apply closing_turn.
  - intros c [_ _ Hx]. destruct (Hx ltac:(lia)) as (_ & Ax & Ay). unfold aged, TIMEOUT_DFLT in *.
    destruct (cn_active (be_x c)); [specialize (Ax eq_refl); lia|]. destruct (cn_active (be_y c)); [specialize (Ay eq_refl); lia|done].
  - split; [exists p', u; split; [done|]; split; lia|lia|lia].
  - done.
  - exists b'. split; [done|]. apply orb_false_iff in Hc as [Hx Hy]. destruct (between_eof _ _ _ _ Hb') as (Ee & _ & Er).
    split; [by apply Er|]. destruct (bt_wired _ _ _ _ Hb') as (f & g & f' & g' & W & _). split; [|split; [|by rewrite Ee, Z.eqb_refl]].
    + apply (over_closed S [] ix iy (be_x b') (be_y b') _ _ _ _ _ _ _ _ HS (wr_xy _ _ _ _ _ _ _ W) (wr_yx _ _ _ _ _ _ _ W)); [by apply (wr_calm_x _ _ _ _ _ _ _ W)|done].
    + apply (over_closed [] S iy ix (be_y b') (be_x b') _ _ _ _ _ _ _ _ none_fits (wr_yx _ _ _ _ _ _ _ W) (wr_xy _ _ _ _ _ _ _ W)); [by apply (wr_calm_y _ _ _ _ _ _ _ W)|done].
Qed.

(** ** The first turn *)

(** Both ends have sent their SYN. *)
Record greeting (b : Benchmark) (f f' : fifo) : Prop := {
  gr_x : syn_sent S ix cap (be_x b) f;
  gr_y : syn_sent [] iy cap (be_y b) f';
  gr_out_x : cn_segments_out (be_x b) = [syn_of ix];
  gr_out_y : cn_segments_out (be_y b) = [syn_of iy];
  gr_cfg_x : cn_cfg (be_x b) = TCPConfig_default;
  gr_cfg_y : cn_cfg (be_y b) = TCPConfig_default;
  gr_owes : owes (be_bytes_to_send b) (be_x_closed b) f;
  gr_end : ff_ended f' = true;
  gr_received : be_string_received b = []
}.

(** The window is closed until the SYN is acknowledged: what is written waits. *)
Lemma greeting_fill b f f' : greeting b f f' -> exists b' f2, first_part b b = (Ok tt, b') /\ greeting b' f2 f'.
Proof.
  intros [Gx Gy Ox Oy Cx Cy Ho He Hr].
  destruct (first_part_run (fun x f => syn_sent S ix cap x f /\ cn_segments_out x = [syn_of ix] /\ cn_cfg x = TCPConfig_default)) with (b := b) (f := f)
    as (b' & f2 & E & (G & O & C) & Ho' & Ey & Er & _ & _); try done.
  - by intros x h [[] _].
  - intros x h data (G & O & C) Eh Hpre Hroom.
    destruct (syn_sent_write S ix cap HS x h data G Eh Hpre Hroom) as (x' & h2 & E & G' & Eh2 & Ee & Ecp & Eo & Ec).
    exists x', h2. split_and!; try done; congruence.
  - intros x h (G & O & C) Eh Hh.
    destruct (syn_sent_end S ix cap HS x h G Hh) as (x' & h2 & E & G' & Eh2 & Ee & Ecp & Eo & Ec).
    exists x', h2. split_and!; try done; congruence.
  - exists b', f2. split; [done|]. by split; rewrite ?Ey, ?Er.
Qed.

Lemma wrap_1_neq i : wi_ok i -> wrap 1 i <> i.
Proof.
  intros Hi E. apply (f_equal raw_value) in E. rewrite raw_wrap in E. unfold wi_ok in Hi.
  destruct (Z.eq_dec (raw_value i) (W32 - 1)) as [E1|E1]; [rewrite E1 in E; vm_compute in E; lia|]. rewrite Z.mod_small in E; lia.
Qed.

Lemma second_half_cons seg segs b x' : TCPConnection_segment_received (be_x b) seg = Ok x' ->
  second_half (seg :: segs) b = second_half segs (be_set_x x' b).
Proof.
  intros E. unfold second_half.
  assert (Er : at_x (receive_all (seg :: segs)) b = at_x (receive_all segs) (be_set_x x' b)).
  { unfold zoom. cbn [receive_all]. erewrite run_bind; [|unfold on_connection; mrun; unfold id; rewrite E; by mrun]. cbn. by destruct (receive_all segs x'), b. }
  unfold mbind, method_bind. by rewrite Er.
Qed.

Lemma syn_sent_pop T i c f l : syn_sent T i cap c f -> syn_sent T i cap (cn_set_segments_out c l) f.
Proof. by intros []. Qed.

(** The acknowledgment of a SYN. *)
Lemma bare_greets T i r g s d : wi_ok i -> in_step T i cap r [] g ∅ -> position g = 1 -> greets i d (map (stamp r false) [bare s]).
Proof.
  intros Hi Hr Hp _. cbn [map]. rewrite stamp_payload. split; [done|]. unfold stamp. rewrite (step_ackno T i cap Hr), Hp. by apply wrap_1_neq.
Qed.

Lemma first_turn_run b f f' : wi_ok ix -> wi_ok iy -> greeting b f f' ->
  exists b' p p' u, bench_loop false b = (Ok tt, b') /\ between b' p p' u /\ 1 <= p.
Proof.
  intros Hix Hiy G0. destruct (greeting_fill b f f' G0) as (b2 & f2 & E2 & [Gx Gy Ox Oy Cx Cy Ho He Hr]).
  destruct (syn_sent_syn [] S iy ix cap (be_y b2) f' Hix cap_fits HS Gy) as (y' & g & Ey & Ly & Ay & Cy' & Sy & Ry & Py & _ & _ & Outy).
  destruct (syn_sent_syn S [] ix iy cap (cn_set_segments_out (be_x b2) []) f2 Hiy cap_fits none_fits) as (x' & g' & Ex & Lx & Ax & Cx' & Sx & Rx & Px & _ & _ & Outx).
  { by apply syn_sent_pop. }
  cbn [cn_segments_out cn_set_segments_out cn_sender cn_cfg app] in Outx, Sx, Cx'. rewrite Oy in Outy. cbn [app] in Outy.
  set (b4 := be_set_y y' (be_set_x (cn_set_segments_out (be_x b2) []) b2)).
  assert (E4 : at_y (receive_all (cn_segments_out (be_x b2))) (be_set_x (cn_set_segments_out (be_x b2) []) b2) = (Ok tt, b4)).
  { apply zoom_eq. rewrite Ox. cbn [receive_all]. erewrite run_bind; [done|]. unfold on_connection. mrun. unfold id. cbn. rewrite Ey. by mrun. }
  assert (Wd : wired (be_set_x x' (be_set_y (cn_set_segments_out y' []) b4)) (cn_segments_out x') (map (stamp (cn_receiver y') false) [bare (cn_sender (be_y b2))]) f2 g f' g').
  { split; cbn [be_x be_y be_set_x be_set_y b4 be_string_received be_bytes_to_send be_x_closed cn_cfg cn_set_segments_out]; try done; try (by apply calm_pop); try congruence.
    - exists ∅. rewrite Hr, Outx, Sx. cbn [cn_receiver cn_set_segments_out]. by apply opened_half.
    - exists ∅. rewrite Outx. cbn [cn_sender cn_set_segments_out]. rewrite Sy. by apply opened_half. }
  destruct (second_half_run _ _ _ _ _ _ Wd) as (b' & E & Hb & _).
  - done.
  - by apply (bare_greets S _ _ g).
  - cbn [be_x be_y be_set_x be_set_y]. rewrite Outx. by apply (bare_greets [] _ _ g').
  - intros _. cbn. rewrite Sx. by destruct Gx.
  - cbn. rewrite Sy. by destruct Gy.
  - eexists b', (position g), _, _. split; [|split; [exact Hb|lia]]. rewrite (bench_loop_eq b b2 b4 E2 E4).
    change (be_y b4) with y'. rewrite Outy. erewrite second_half_cons; [exact E|exact Ex].
Qed.
End Run.

(** ** The run *)

Lemma send_syn_out s : sd_segments_out (send_syn s) = sd_segments_out s ++ [syn_of (sd_isn s)].
Proof. unfold send_syn, sd_start_timer. cbn. by destruct (sd_timer_running s). Qed.

Lemma syn_sent_start S random ended : zlen S + 2 <= W31 -> (ended = true -> S = []) ->
  let i := isn_of TCPConfig_default random in let c := TCPConnection_new TCPConfig_default random in
  exists c', (if ended then TCPConnection_end_input_stream c else TCPConnection_connect c) = Ok c' /\
    syn_sent S i DEFAULT_CAPACITY c' (mkFifo [] 0 DEFAULT_CAPACITY ended false) /\ cn_segments_out c' = [syn_of i] /\ cn_cfg c' = TCPConfig_default.
Proof.
  intros HS He i c. set (s := if ended then TCPSender_end_input (cn_sender c) else cn_sender c).
  assert (I : sd_inv s (mkFifo [] 0 DEFAULT_CAPACITY ended false)).
  { assert (I0 : sd_inv (cn_sender c) (mkFifo [] 0 DEFAULT_CAPACITY false false)) by (by apply sd_inv_new).
    unfold s. destruct ended; [apply (inv_end_input _ _ I0)|done]. }
  assert (Hw : sd_wire s).
  { assert (sd_wire (cn_sender c)) by (apply cn_wire_new, TCPConfig_default_ok). unfold s. destruct ended; [by apply (sd_wire_same (cn_sender c))|done]. }
  destruct (fill_window_syn s _ I) as (s' & seg & E & I' & Sn & Hsy & Hok & Hsyn & Hfin & Hb & Hn); [by unfold s; destruct ended|].
  pose proof (fill_window_wire s s' Hw E) as Hw'.
  set (c' := send_sender_segments (cn_set_sender c s')).
  assert (Ec : (if ended then TCPConnection_end_input_stream c else TCPConnection_connect c) = Ok c').
  { unfold TCPConnection_end_input_stream, TCPConnection_connect, s in *. by destruct ended; rewrite E. }
  pose proof Sn as [Ei _ Ew Ecs _ _].
  assert (Es : sd_isn s = i /\ sd_receiver_window_size s = 1 /\ sd_consecutive_retransmissions s = 0 /\ sd_segments_out s = [] /\ sd_syn s = false)
    by (unfold s; by destruct ended).
  destruct Es as (Ei0 & Ew0 & Ec0 & Eo0 & Esy0).
  assert (Eo : sd_segments_out s' = [syn_of i]).
  { unfold TCPSender_fill_window in E. rewrite Esy0 in E. injection E as <-. by rewrite send_syn_out, Eo0, Ei0. }
  destruct (flush_calm (cn_set_sender c s')) as [Hcalm Ecfg Erv Esd Eout _ _ _]; [done|done|]. fold c' in Hcalm, Ecfg, Erv, Esd, Eout.
  cbn [cn_sender cn_set_sender cn_receiver cn_segments_out] in Erv, Esd, Eout. rewrite Eo in Eout.
  exists c'. split; [done|]. split; [|done]. split; rewrite ?Esd, ?Erv; cbn [sd_isn sd_next_seqno sd_receiver_window_size sd_consecutive_retransmissions sd_segments_out sd_set_segments_out]; try done; try congruence.
  - apply sender_queue; [|by apply Forall_nil]. split; try done.
    + by exists S.
    + intros E0. by rewrite (He E0).
    + rewrite Hb. lia.
    + destruct (sn_outstanding _ _ _ Sn). intros E0. pose proof (di_flight _ _ I') as Hf. rewrite E0, Hb in Hf. done.
  - by apply wire_queue.
  - unfold una. cbn. lia.
  - apply Hcalm.
  - destruct (cn_active c') eqn:Ea; [done|]. destruct (ca_active _ Hcalm Ea) as (Hend & _). unfold TCPConnection_inbound_stream in Hend. by rewrite Erv in Hend.
Qed.

(** C4: [main_loop] without reordering always returns: whatever the string of fewer than
    2^31 - 1 bytes and the initial sequence numbers, after at most as many turns of its
    loops as the string has bytes and 14 more, [y] has received exactly the string and is
    at end of file, and both connections are in the official state CLOSED: no stream is in
    error, both streams of each have ended, both FINs are acknowledged, and neither
    connection is active. *)
Theorem benchmark_completes S fuel rx ry : zlen S + 2 <= W31 -> zlen S + 14 <= Z.of_nat fuel ->
  exists b', main_loop fuel false S (bench_start S rx ry) = (Ok tt, b') /\ be_string_received b' = S /\
    TCPConnection_state (be_x b') = TCPState_of CLOSED /\ TCPConnection_state (be_y b') = TCPState_of CLOSED /\
    ByteStream_eof (TCPConnection_inbound_stream (be_y b')) = true.
Proof.
  intros HS Hf. set (ix := isn_of TCPConfig_default rx). set (iy := isn_of TCPConfig_default ry). pose proof (zlen_nonneg S).
  destruct (syn_sent_start S rx false HS ltac:(done)) as (x & Ex & Gx & Ox & Cx).
  destruct (syn_sent_start [] ry true none_fits ltac:(done)) as (y & Ey & Gy & Oy & Cy).
  set (b0 := be_set_y y (be_set_x x (bench_start S rx ry))).
  assert (G : greeting S ix iy b0 (mkFifo [] 0 DEFAULT_CAPACITY false false) (mkFifo [] 0 DEFAULT_CAPACITY true false)).
  { split; try done. split; try done. unfold Buffer_wf. simpl. split; [lia|]. zlia. }
  destruct (first_turn_run S ix iy HS b0 _ _ (isn_of_ok _ rx TCPConfig_default_ok) (isn_of_ok _ ry TCPConfig_default_ok) G)
    as (b1 & p & p' & u & E1 & Hb1 & Hp).
  destruct fuel as [|fuel]; [lia|].
  destruct (first_loop_run S ix iy HS fuel b1 p p' u Hb1 ltac:(lia)) as (b2 & p2' & u2 & E2 & Hb2).
  destruct (second_loop_run S ix iy HS (Datatypes.S fuel) b2 p2' u2 Hb2 ltac:(lia)) as (b3 & E3 & Hend).
  assert (Ew : bench_while (Datatypes.S fuel) (fun b => negb (ByteStream_eof (TCPConnection_inbound_stream (be_y b)))) false b0 = (Ok tt, b2)).
  { cbn [bench_while]. mrun. unfold id. change (be_y b0) with y. unfold TCPConnection_inbound_stream. rewrite (op_rcv _ _ _ _ _ Gy).
    change (ByteStream_eof (TCPReceiver_stream_out (TCPReceiver_new DEFAULT_CAPACITY))) with false. cbn [negb]. erewrite run_bind by exact E1. exact E2. }
  exists b3. split; [|done]. unfold main_loop.
  erewrite (run_bind _ _ (bench_start S rx ry)); [|apply zoom_eq; unfold on_connection; mrun; unfold id; change (be_x (bench_start S rx ry)) with (TCPConnection_new TCPConfig_default rx); rewrite Ex; by mrun].
  erewrite run_bind; [|apply zoom_eq; unfold on_connection; mrun; unfold id; change (be_y (be_set_x x (bench_start S rx ry))) with (TCPConnection_new TCPConfig_default ry); rewrite Ey; by mrun].
  erewrite run_bind by exact Ew. mrun. unfold id. destruct (between_eof S ix iy HS _ _ _ _ Hb2) as (_ & _ & Hrec).
  rewrite bool_decide_true by (by apply Hrec). exact E3.
Qed.

Lemma benchmark_completes_witness :
  exists b', main_loop 60 false (bench_string 40) (bench_start (bench_string 40) 7 4294967290) = (Ok tt, b') /\
    be_string_received b' = bench_string 40 /\
    TCPConnection_state (be_x b') = TCPState_of CLOSED /\ TCPConnection_state (be_y b') = TCPState_of CLOSED /\
    ByteStream_eof (TCPConnection_inbound_stream (be_y b')) = true.
Proof. apply (benchmark_completes (bench_string 40) 60 7 4294967290); by vm_compute. Defined.
