(* ===== verification/IPv4.v ===== *)
(** * IPv4 headers and datagrams

    Models [libsponge/tcp_helpers/ipv4_header.hh], [ipv4_header.cc],
    [ipv4_datagram.hh] and [ipv4_datagram.cc] (the printing functions are in [Text.v]). *)

From S2P Require Import Prelude Buffers Checksum Parser WrappingInts TCPSegments.

Record IPv4Header : Type := mkIPv4Header {
  ip_ver : Z; ip_hlen : Z; ip_tos : Z; ip_len : Z; ip_id : Z;
  ip_df : bool; ip_mf : bool; ip_offset : Z;
  ip_ttl : Z; ip_proto : Z; ip_cksum : Z; ip_src : Z; ip_dst : Z
}.

Definition IPv4Header_LENGTH : Z := 20.
Definition IPv4Header_DEFAULT_TTL : Z := 128.
Definition PROTO_TCP : Z := 6.

Definition IPv4Header_default : IPv4Header :=
  mkIPv4Header 4 (IPv4Header_LENGTH / 4) 0 0 0 true false 0 IPv4Header_DEFAULT_TTL PROTO_TCP 0 0 0.

Definition ip_set_cksum (h : IPv4Header) (c : Z) : IPv4Header :=
  mkIPv4Header (ip_ver h) (ip_hlen h) (ip_tos h) (ip_len h) (ip_id h) (ip_df h) (ip_mf h) (ip_offset h)
    (ip_ttl h) (ip_proto h) c (ip_src h) (ip_dst h).

Definition ip_set_ttl (h : IPv4Header) (t : Z) : IPv4Header :=
  mkIPv4Header (ip_ver h) (ip_hlen h) (ip_tos h) (ip_len h) (ip_id h) (ip_df h) (ip_mf h) (ip_offset h)
    t (ip_proto h) (ip_cksum h) (ip_src h) (ip_dst h).

(** [src], [dst] and [len] as [wrap_tcp_in_ip] sets them. *)
Definition ip_set_route (h : IPv4Header) (src dst len : Z) : IPv4Header :=
  mkIPv4Header (ip_ver h) (ip_hlen h) (ip_tos h) len (ip_id h) (ip_df h) (ip_mf h) (ip_offset h)
    (ip_ttl h) (ip_proto h) (ip_cksum h) src dst.

(** [parse] on the object [h0]: when the data is shorter than a header nothing is
    assigned; otherwise every field is, whatever the result. *)
Definition IPv4Header_parse (h0 : IPv4Header) (p : NetParser) : res (ParseResult * IPv4Header * NetParser) :=
  let original_serialized_version := np_buffer p in
  let data_size := Buffer_size (np_buffer p) in
  if data_size <? IPv4Header_LENGTH then Ok (PacketTooShort, h0, p)
  else
    '(first_byte, p) ← NetParser_u8 p;
    let ver := Z.shiftr first_byte 4 in
    let hlen := Z.land first_byte 15 in
    '(tos, p) ← NetParser_u8 p;
    '(len, p) ← NetParser_u16 p;
    '(id, p) ← NetParser_u16 p;
    '(fo_val, p) ← NetParser_u16 p;
    let df := flag fo_val 16384 in
    let mf := flag fo_val 8192 in
    let offset := Z.land fo_val 8191 in
    '(ttl, p) ← NetParser_u8 p;
    '(proto, p) ← NetParser_u8 p;
    '(cksum, p) ← NetParser_u16 p;
    '(src, p) ← NetParser_u32 p;
    '(dst, p) ← NetParser_u32 p;
    let h := mkIPv4Header ver hlen tos len id df mf offset ttl proto cksum src dst in
    if data_size <? 4 * hlen then Ok (PacketTooShort, h, p)
    else if negb (ver =? 4) then Ok (WrongIPVersion, h, p)
    else if hlen <? 5 then Ok (HeaderTooShort, h, p)
    else if negb (data_size =? len) then Ok (TruncatedPacket, h, p)
    else
      p ← NetParser_remove_prefix p (hlen * 4 -64 IPv4Header_LENGTH);
      if NetParser_has_error p then Ok (np_error p, h, p)
      else
        let check := InternetChecksum_add (InternetChecksum_new 0)
                       (ztake (4 * hlen) (Buffer_str original_serialized_version)) in
        v ← InternetChecksum_value check;
        if negb (v =? 0) then Ok (BadChecksum, h, p) else Ok (NoError, h, p).

Definition IPv4Header_serialize (h : IPv4Header) : res bytes :=
  if negb (ip_ver h =? 4) then Throw (runtime_error "wrong IP version")
  else if 4 * ip_hlen h <? IPv4Header_LENGTH then Throw (runtime_error "IP header too short")
  else
    let first_byte := u8 (Z.lor (Z.shiftl (ip_ver h) 4) (Z.land (ip_hlen h) 15)) in
    let ret := NetUnparser_u8 [] first_byte in
    let ret := NetUnparser_u8 ret (ip_tos h) in
    let ret := NetUnparser_u16 ret (ip_len h) in
    let ret := NetUnparser_u16 ret (ip_id h) in
    let fo_val := Z.lor (Z.lor (if ip_df h then 16384 else 0) (if ip_mf h then 8192 else 0))
                    (Z.land (ip_offset h) 8191) in
    let ret := NetUnparser_u16 ret fo_val in
    let ret := NetUnparser_u8 ret (ip_ttl h) in
    let ret := NetUnparser_u8 ret (ip_proto h) in
    let ret := NetUnparser_u16 ret (ip_cksum h) in
    let ret := NetUnparser_u32 ret (ip_src h) in
    let ret := NetUnparser_u32 ret (ip_dst h) in
    Ok (resize ret (4 * ip_hlen h)).

Definition IPv4Header_payload_length (h : IPv4Header) : Z := u16 (ip_len h - 4 * ip_hlen h).

Definition IPv4Header_pseudo_cksum (h : IPv4Header) : Z :=
  let pcksum := u32 (Z.shiftr (ip_src h) 16 + Z.land (ip_src h) 65535) in
  let pcksum := u32 (pcksum + u32 (Z.shiftr (ip_dst h) 16 + Z.land (ip_dst h) 65535)) in
  let pcksum := u32 (pcksum + ip_proto h) in
  u32 (pcksum + IPv4Header_payload_length h).

(** ** Datagrams *)

Record IPv4Datagram : Type := mkIPv4Datagram {
  ipd_header : IPv4Header;
  ipd_payload : BufferList
}.

Abbreviation InternetDatagram := IPv4Datagram.

Definition IPv4Datagram_default : IPv4Datagram := mkIPv4Datagram IPv4Header_default [].

(** The return value of [_header.parse(p)] is dropped. *)
Definition IPv4Datagram_parse (d : IPv4Datagram) (buffer : Buffer) : res (ParseResult * IPv4Datagram) :=
  '(_, h, p) ← IPv4Header_parse (ipd_header d) (NetParser_new buffer);
  let payload := BufferList_of_Buffer (np_buffer p) in
  let d := mkIPv4Datagram h payload in
  if negb (BufferList_size payload =? IPv4Header_payload_length h) then Ok (PacketTooShort, d)
  else Ok (np_error p, d).

Definition IPv4Datagram_serialize (d : IPv4Datagram) : res BufferList :=
  if negb (BufferList_size (ipd_payload d) =? IPv4Header_payload_length (ipd_header d)) then
    Throw (runtime_error "IPv4Datagram::serialize: payload is wrong size")
  else
    let header_out := ip_set_cksum (ipd_header d) 0 in
    header_zero_checksum ← IPv4Header_serialize header_out;
    let check := InternetChecksum_add (InternetChecksum_new 0) header_zero_checksum in
    v ← InternetChecksum_value check;
    let header_out := ip_set_cksum header_out v in
    hdr ← IPv4Header_serialize header_out;
    let ret := BufferList_append [] (BufferList_of_string hdr) in
    Ok (BufferList_append ret (ipd_payload d)).

(** ** Round trip *)

Record IPv4Header_valid (h : IPv4Header) : Prop := {
  iv_ver : ip_ver h = 4;
  iv_hlen : 5 <= ip_hlen h <= 15;
  iv_tos : 0 <= ip_tos h < 256;
  iv_len : 0 <= ip_len h < W16;
  iv_id : 0 <= ip_id h < W16;
  iv_offset : 0 <= ip_offset h < 8192;
  iv_ttl : 0 <= ip_ttl h < 256;
  iv_proto : 0 <= ip_proto h < 256;
  iv_cksum : 0 <= ip_cksum h < W16;
  iv_src : 0 <= ip_src h < W32;
  iv_dst : 0 <= ip_dst h < W32
}.

Definition fo_word (h : IPv4Header) : Z :=
  (if ip_df h then 16384 else 0) + (if ip_mf h then 8192 else 0) + ip_offset h.

(** Bits of disjoint fields do not meet, and add up. *)
Lemma land_disjoint a b k : 0 <= k -> 0 <= b < 2 ^ k -> Z.land (a * 2 ^ k) b = 0.
Proof.
  intros Hk Hb. rewrite <- (Z.mod_small b (2 ^ k)) by lia. rewrite <- Z.land_ones by lia.
  rewrite (Z.land_comm b), Z.land_assoc, Z.land_ones by lia. by rewrite Z_mod_mult.
Qed.

Lemma lor_add_low a b k : 0 <= k -> 0 <= b < 2 ^ k -> Z.lor (a * 2 ^ k) b = a * 2 ^ k + b.
Proof. intros Hk Hb. symmetry. apply Z.add_nocarry_lor. by apply land_disjoint. Qed.

Lemma fo_word_bits h : 0 <= ip_offset h < 8192 ->
  Z.lor (Z.lor (if ip_df h then 16384 else 0) (if ip_mf h then 8192 else 0)) (Z.land (ip_offset h) 8191) = fo_word h /\
  0 <= fo_word h < W16 /\
  flag (fo_word h) 16384 = ip_df h /\ flag (fo_word h) 8192 = ip_mf h /\ Z.land (fo_word h) 8191 = ip_offset h.
Proof.
  intros Ho. unfold fo_word, flag. change 8191 with (Z.ones 13).
  rewrite !Z.land_ones by lia. change (2 ^ 13) with 8192. rewrite (Z.mod_small (ip_offset h)) by lia.
  set (o := ip_offset h) in *.
  assert (H1 : Z.land o 16384 = 0) by (rewrite Z.land_comm; apply (land_disjoint 2 o 13); simpl; lia).
  assert (H2 : Z.land o 8192 = 0) by (rewrite Z.land_comm; apply (land_disjoint 1 o 13); simpl; lia).
  set (c := (if ip_df h then 2 else 0) + (if ip_mf h then 1 else 0)).
  assert (Hc : (if ip_df h then 16384 else 0) + (if ip_mf h then 8192 else 0) = c * 2 ^ 13 /\
    Z.lor (if ip_df h then 16384 else 0) (if ip_mf h then 8192 else 0) = c * 2 ^ 13 /\ 0 <= c <= 3 /\
    negb (Z.land (c * 2 ^ 13) 16384 =? 0) = ip_df h /\ negb (Z.land (c * 2 ^ 13) 8192 =? 0) = ip_mf h)
    by (unfold c; by destruct (ip_df h), (ip_mf h)).
  destruct Hc as (-> & -> & Hc & Hd & Hm).
  pose proof (lor_add_low c o 13 ltac:(lia) Ho) as Hl. 
  assert (Hf : forall k, Z.land (c * 2 ^ 13 + o) k = Z.lor (Z.land (c * 2 ^ 13) k) (Z.land o k))
    by (intros k; rewrite <- Hl; apply Z.land_lor_distr_l).
  rewrite !Hf, H1, H2, !Z.lor_0_r, Hl. change (2 ^ 13) with 8192 in *.
  split; [done|]. split; [lia|]. split; [done|]. split; [done|].
  rewrite Z.add_comm, Z_mod_plus_full. apply Z.mod_small. lia.
Qed.

(** Version and header length share the first byte. *)
Lemma first_byte_bits hlen : 0 <= hlen <= 15 ->
  u8 (Z.lor (Z.shiftl 4 4) (Z.land hlen 15)) = 64 + hlen /\
  Z.shiftr (64 + hlen) 4 = 4 /\ Z.land (64 + hlen) 15 = hlen.
Proof.
  intros Hh. change 15 with (Z.ones 4). rewrite !Z.land_ones by lia. change (2 ^ 4) with 16.
  rewrite (Z.mod_small hlen) by lia. change (Z.shiftl 4 4) with (4 * 2 ^ 4). rewrite lor_add_low by (simpl; lia).
  change (4 * 2 ^ 4) with 64. rewrite Z.shiftr_div_pow2 by lia. change (2 ^ 4) with 16. nowrap.
  split; [done|]. split.
  - symmetry. apply (Z.div_unique _ _ _ hlen); lia.
  - symmetry. apply (Z.mod_unique _ _ 4); lia.
Qed.

(** The bytes before and after the checksum field. *)
Definition ip_head_bytes (h : IPv4Header) : bytes :=
  be_bytes 1 (64 + ip_hlen h) ++ be_bytes 1 (ip_tos h) ++ be_bytes 2 (ip_len h) ++ be_bytes 2 (ip_id h) ++
  be_bytes 2 (fo_word h) ++ be_bytes 1 (ip_ttl h) ++ be_bytes 1 (ip_proto h).

Definition ip_tail_bytes (h : IPv4Header) : bytes :=
  be_bytes 4 (ip_src h) ++ be_bytes 4 (ip_dst h) ++
  replicate (Z.to_nat (4 * ip_hlen h - 20)) Corelib.Init.Byte.x00.

Definition ip_bytes (h : IPv4Header) : bytes := ip_head_bytes h ++ be_bytes 2 (ip_cksum h) ++ ip_tail_bytes h.

Lemma ip_head_len h : zlen (ip_head_bytes h) = 10.
Proof. unfold ip_head_bytes. rewrite !zlen_app, !zlen_be_bytes. lia. Qed.

Lemma ip_tail_len h : IPv4Header_valid h -> zlen (ip_tail_bytes h) = 4 * ip_hlen h - 12.
Proof.
  intros []. unfold ip_tail_bytes. rewrite !zlen_app, !zlen_be_bytes. unfold zlen. rewrite length_replicate. lia.
Qed.

Lemma ip_bytes_len h : IPv4Header_valid h -> zlen (ip_bytes h) = 4 * ip_hlen h.
Proof.
  intros V. unfold ip_bytes. rewrite !zlen_app, ip_head_len, ip_tail_len, zlen_be_bytes by done. lia.
Qed.

Lemma ip_serialize_eq h : IPv4Header_valid h -> IPv4Header_serialize h = Ok (ip_bytes h).
Proof.
  intros V. pose proof (fo_word_bits h (iv_offset _ V)) as (Hfo & Hfr & _).
  pose proof (first_byte_bits (ip_hlen h) ltac:(destruct V; lia)) as (Hfb & _). destruct V.
  unfold IPv4Header_serialize. rewrite iv_ver0, Hfb, Hfo. cbn [Z.eqb Pos.eqb negb]. unfold IPv4Header_LENGTH.
  destruct (Z.ltb_spec (4 * ip_hlen h) 20); [lia|]. cbv zeta.
  rewrite !unparse_u16, !unparse_u8, !unparse_u32. nowrap. unfold resize. set (ret := _ ++ be_bytes 4 (ip_dst h)).
  assert (Hret : ret = ip_head_bytes h ++ be_bytes 2 (ip_cksum h) ++ be_bytes 4 (ip_src h) ++ be_bytes 4 (ip_dst h)).
  { unfold ret, ip_head_bytes. rewrite <- !app_assoc. done. }
  assert (Hlen : zlen ret = 20) by (rewrite Hret, !zlen_app, ip_head_len, !zlen_be_bytes; lia).
  rewrite ztake_all by lia. rewrite Hlen, Hret. unfold ip_bytes, ip_tail_bytes. by rewrite <- !app_assoc.
Qed.

(** The header's checksum is taken over its own bytes. *)
Definition ip_checks (h : IPv4Header) : Prop :=
  InternetChecksum_value (InternetChecksum_add (InternetChecksum_new 0) (ip_bytes h)) = Ok 0.

(** Parsing a whole datagram: the header comes back, the payload is left. *)
Lemma IPv4Header_parse_ok h0 h payload p :
  IPv4Header_valid h -> ip_checks h -> ip_len h = 4 * ip_hlen h + zlen payload ->
  np_repr p (ip_bytes h ++ payload) NoError ->
  exists p', IPv4Header_parse h0 p = Ok (NoError, h, p') /\ np_repr p' payload NoError.
Proof.
  intros V Hck Hlen R. pose proof (ip_bytes_len h V) as Hbl. pose proof (zlen_nonneg payload).
  pose proof (fo_word_bits h (iv_offset _ V)) as (_ & Hfr & Hdf & Hmf & Hoff).
  pose proof (first_byte_bits (ip_hlen h) ltac:(destruct V; lia)) as (_ & Hv4 & Hh4).
  unfold IPv4Header_parse. unfold Buffer_size. rewrite (nr_rest _ _ _ R).
  rewrite zlen_app, Hbl. pose proof (iv_hlen _ V). unfold IPv4Header_LENGTH.
  destruct (Z.ltb_spec (4 * ip_hlen h + zlen payload) 20); [lia|]. cbv zeta.
  assert (Hpre : ztake (4 * ip_hlen h) (ip_bytes h ++ payload) = ip_bytes h).
  { rewrite ztake_app_le by lia. apply ztake_all. lia. }
  rewrite <- Hlen. unfold ip_checks in Hck. rewrite <- Hpre in Hck. clear Hpre.
  remember (ip_bytes h ++ payload) as all eqn:Eall.
  assert (R0 : np_repr p (ip_bytes h ++ payload) NoError) by congruence.
  unfold ip_bytes, ip_head_bytes, ip_tail_bytes in R0. rewrite <- !app_assoc in R0.
  clear Eall R. destruct V. do 10 parse_step R0.
  rewrite Hv4, Hh4, Hdf, Hmf, Hoff. cbn [Z.eqb Pos.eqb negb].
  destruct (Z.ltb_spec (ip_len h) (4 * ip_hlen h)); [lia|]. destruct (Z.ltb_spec (ip_hlen h) 5); [lia|].
  rewrite Z.eqb_refl. cbn [negb]. nowrap.
  edestruct (parser_remove_prefix_ok _ _ _ (ip_hlen h * 4 - 20) R0) as (p' & -> & R').
  { unfold zlen. rewrite length_replicate. lia. }
  rewrite res_bind_Ok. unfold NetParser_has_error. rewrite (nr_err _ _ _ R'). cbn [bool_decide decide decide_rel negb].
  rewrite Hck, res_bind_Ok. simpl. exists p'. split; [|done]. do 3 f_equal. rewrite <- iv_ver0. by destruct h.
Qed.

(** The payload of a datagram as bytes, and what its header says about it. *)
Definition datagram_valid (d : IPv4Datagram) : Prop :=
  IPv4Header_valid (ipd_header d) /\ Forall Buffer_wf (ipd_payload d) /\
  ip_len (ipd_header d) = 4 * ip_hlen (ipd_header d) + zlen (BufferList_concatenate (ipd_payload d)).

Lemma ip_set_cksum_valid h c : IPv4Header_valid h -> 0 <= c < W16 -> IPv4Header_valid (ip_set_cksum h c).
Proof. intros [] ?. by split. Qed.

Lemma payload_length_ok h n : IPv4Header_valid h -> ip_len h = 4 * ip_hlen h + n -> 0 <= n ->
  IPv4Header_payload_length h = n.
Proof. intros [] E Hn. unfold IPv4Header_payload_length. rewrite E, u16_id; lia. Qed.

(** [serialize] fills in a checksum that checks out. *)
Lemma IPv4Datagram_serialize_ok d : datagram_valid d ->
  exists v, 0 <= v < W16 /\ ip_checks (ip_set_cksum (ipd_header d) v) /\
    IPv4Datagram_serialize d
    = Ok (Buffer_of_string (ip_bytes (ip_set_cksum (ipd_header d) v)) :: ipd_payload d).
Proof.
  intros (V & Hwf & Hlen). set (h := ipd_header d) in *. unfold IPv4Datagram_serialize. fold h.
  pose proof (zlen_nonneg (BufferList_concatenate (ipd_payload d))).
  rewrite BufferList_size_spec by (destruct V; lia). rewrite (payload_length_ok h _ V Hlen) by lia.
  rewrite Z.eqb_refl. cbn [negb]. pose proof (ip_set_cksum_valid h 0 V ltac:(lia)) as V0.
  rewrite (ip_serialize_eq _ V0), res_bind_Ok.
  assert (Hb : forall c, ip_bytes (ip_set_cksum h c) = ip_head_bytes h ++ word_bytes c ++ ip_tail_bytes h)
    by (intros c; unfold ip_bytes; by rewrite be_bytes_2_word).
  pose proof (ip_head_len h) as Hh. pose proof (ip_tail_len h V) as Ht. pose proof (iv_hlen _ V).
  rewrite Hb. destruct (value_spec (InternetChecksum_add (InternetChecksum_new 0)
    (ip_head_bytes h ++ word_bytes 0 ++ ip_tail_bytes h))) as (v & q & E & Hv & _).
  { pose proof (word_sum_range (ip_head_bytes h ++ word_bytes 0 ++ ip_tail_bytes h) false) as Hw.
    rewrite !zlen_app, Hh, Ht in Hw. change (zlen (word_bytes 0)) with 2 in Hw.
    rewrite add_spec; cbn [ck_sum ck_parity InternetChecksum_new]; lia. }
  pose proof (checksum_field_valid 0 (ip_head_bytes h) (ip_tail_bytes h) v ltac:(lia)) as Hval.
  rewrite Hh, Ht in Hval. specialize (Hval eq_refl ltac:(lia) E).
  rewrite E, res_bind_Ok. change (ip_set_cksum (ip_set_cksum h 0) v) with (ip_set_cksum h v).
  rewrite (ip_serialize_eq _ (ip_set_cksum_valid h v V ltac:(lia))), res_bind_Ok.
  exists v. split; [lia|]. split; [|done]. unfold ip_checks. by rewrite Hb.
Qed.

(** [parse] of bytes that form a datagram. *)
Lemma IPv4Datagram_parse_ok d0 buf h payload : Buffer_wf buf ->
  Buffer_str buf = ip_bytes h ++ payload -> IPv4Header_valid h -> ip_checks h ->
  ip_len h = 4 * ip_hlen h + zlen payload ->
  exists b, IPv4Datagram_parse d0 buf = Ok (NoError, mkIPv4Datagram h [b]) /\
    Buffer_wf b /\ Buffer_str b = payload.
Proof.
  intros Hwf Hs V Hck Hlen. pose proof (np_repr_new buf Hwf) as R. rewrite Hs in R.
  destruct (IPv4Header_parse_ok (ipd_header d0) h payload _ V Hck Hlen R) as (p' & E & [Hw Hr He]).
  unfold IPv4Datagram_parse. rewrite E, res_bind_Ok. cbv beta iota zeta. exists (np_buffer p').
  assert (Hsz : BufferList_size (BufferList_of_Buffer (np_buffer p')) = zlen payload).
  { assert (Hc : BufferList_concatenate (BufferList_of_Buffer (np_buffer p')) = payload)
      by (unfold BufferList_of_Buffer; by rewrite concatenate_cons, app_nil_r).
    rewrite BufferList_size_spec; rewrite Hc; [done|]. destruct V. lia. }
  rewrite Hsz, (payload_length_ok h _ V Hlen), Z.eqb_refl, He by apply zlen_nonneg. done.
Qed.

(** ** Parsing any data *)

(** What the field types guarantee of a parsed header. *)
Record IPv4Header_typed (h : IPv4Header) : Prop := {
  it_hlen : 0 <= ip_hlen h < 16;
  it_ttl : 0 <= ip_ttl h < 256;
  it_proto : 0 <= ip_proto h < 256;
  it_src : 0 <= ip_src h < W32;
  it_dst : 0 <= ip_dst h < W32
}.

Lemma IPv4Header_parse_total {lim} h0 p : Buffer_in lim (np_buffer p) -> IPv4Header_typed h0 ->
  exists r h p', IPv4Header_parse h0 p = Ok (r, h, p') /\ Buffer_in lim (np_buffer p') /\ IPv4Header_typed h.
Proof.
  intros H H0. unfold IPv4Header_parse. ztest; [by eexists _, _, _|]. do 10 parse_any H. cbv zeta.
  assert (Hh : 0 <= Z.land v 15 < 16).
  { change 15 with (Z.ones 4). rewrite Z.land_ones by lia. apply Z.mod_pos_bound. lia. }
  match goal with |- context [Ok (PacketTooShort, ?h, _)] => assert (Ht : IPv4Header_typed h) by by split end.
  ztest; [by eexists _, _, _|]. destruct (negb _); [by eexists _, _, _|].
  ztest; [by eexists _, _, _|]. destruct (negb _); [by eexists _, _, _|].
  destruct (parser_remove_prefix_total p9 (Z.land v 15 * 4 -64 IPv4Header_LENGTH) H) as (p10 & -> & H10);
    [apply u64_range|].
  rewrite res_bind_Ok. destruct (NetParser_has_error p10); [by eexists _, _, _|].
  match goal with |- context [InternetChecksum_value ?c] => destruct (value_spec c) as (w & q & -> & _) end;
    [by apply checksum_add_range|].
  rewrite res_bind_Ok. by destruct (negb _); eexists _, _, _.
Qed.

(** [IPv4Datagram::parse] never throws. *)
Lemma IPv4Datagram_parse_total lim d0 buf : Buffer_in lim buf -> IPv4Header_typed (ipd_header d0) ->
  exists r h b, IPv4Datagram_parse d0 buf = Ok (r, mkIPv4Datagram h [b]) /\ Buffer_in lim b /\ IPv4Header_typed h.
Proof.
  intros Hwf H0. unfold IPv4Datagram_parse.
  destruct (IPv4Header_parse_total (ipd_header d0) (NetParser_new buf) Hwf H0) as (r & h & p & -> & Hp & Ht).
  rewrite res_bind_Ok. cbv beta iota zeta. unfold BufferList_of_Buffer.
  by destruct (negb _); eexists _, _, _.
Qed.

Lemma IPv4Header_default_typed : IPv4Header_typed (ipd_header IPv4Datagram_default).
Proof. split; vm_compute; split; congruence. Qed.

(** The sum over the pseudo-header fits its type. *)
(** [d'] is [d] as it comes off a wire: with its checksum, the payload in other buffers. *)
Definition arrives (d d' : InternetDatagram) : Prop := exists v, 0 <= v < W16 /\ ipd_header d' = ip_set_cksum (ipd_header d) v /\
  Forall Buffer_wf (ipd_payload d') /\ BufferList_concatenate (ipd_payload d') = BufferList_concatenate (ipd_payload d).

Lemma arrives_valid d d' : datagram_valid d -> arrives d d' -> datagram_valid d'.
Proof.
  intros (V & Hw & Hl) (v & Hv & Hh & Hw' & Hp). split; [rewrite Hh; by apply ip_set_cksum_valid|]. split; [done|].
  rewrite Hh, Hp. exact Hl.
Qed.

Lemma pseudo_cksum_range h : 0 <= IPv4Header_pseudo_cksum h < W32.
Proof. apply u32_range. Qed.

(** [serialize] succeeds exactly when the length fields fit the payload and the header is
    one of version 4 and at least 20 bytes. *)
Lemma IPv4Datagram_serialize_iff d : (exists bl, IPv4Datagram_serialize d = Ok bl) <->
  BufferList_size (ipd_payload d) = IPv4Header_payload_length (ipd_header d) /\
  ip_ver (ipd_header d) = 4 /\ IPv4Header_LENGTH <= 4 * ip_hlen (ipd_header d).
Proof.
  unfold IPv4Datagram_serialize. destruct (Z.eqb_spec (BufferList_size (ipd_payload d))
    (IPv4Header_payload_length (ipd_header d))) as [E|N]; cbn [negb]; [|split; [by intros [? ?]|lia]].
  assert (Hs : forall c, (exists bs, IPv4Header_serialize (ip_set_cksum (ipd_header d) c) = Ok bs) <->
    ip_ver (ipd_header d) = 4 /\ IPv4Header_LENGTH <= 4 * ip_hlen (ipd_header d)).
  { intros c. unfold IPv4Header_serialize. cbn [ip_ver ip_hlen ip_set_cksum].
    destruct (Z.eqb_spec (ip_ver (ipd_header d)) 4); cbn [negb]; [|split; [by intros [? ?]|lia]].
    destruct (Z.ltb_spec (4 * ip_hlen (ipd_header d)) IPv4Header_LENGTH); [split; [by intros [? ?]|lia]|].
    split; [done|]. intros _. by eexists. }
  split.
  - intros [bl H]. split; [done|]. apply (Hs 0). apply bind_Ok_inv in H as (bs & H & _). by exists bs.
  - intros [_ H]. destruct (proj2 (Hs 0) H) as [bs ->]. rewrite res_bind_Ok.
    destruct (value_spec (InternetChecksum_add (InternetChecksum_new 0) bs)) as (v & q & -> & _);
      [by apply checksum_add_range|]. rewrite res_bind_Ok.
    change (ip_set_cksum (ip_set_cksum (ipd_header d) 0) v) with (ip_set_cksum (ipd_header d) v).
    destruct (proj2 (Hs v) H) as [bs' ->]. by eexists.
Qed.

(** C36: IPv4 datagrams survive the wire: for every datagram with a valid header whose
    length field matches the payload (in any number of buffers), [serialize] succeeds
    and parsing the concatenated bytes returns [NoError] with the same header (but
    for the checksum, now filled in) and the same payload bytes. *)
Theorem ipv4_datagram_roundtrip d d0 : datagram_valid d ->
  exists bl d' v, IPv4Datagram_serialize d = Ok bl /\
    IPv4Datagram_parse d0 (Buffer_of_string (BufferList_concatenate bl)) = Ok (NoError, d') /\
    ipd_header d' = ip_set_cksum (ipd_header d) v /\
    BufferList_concatenate (ipd_payload d') = BufferList_concatenate (ipd_payload d).
Proof.
  intros Hd. destruct (IPv4Datagram_serialize_ok d Hd) as (v & Hv & Hck & E). destruct Hd as (V & Hwf & Hlen).
  pose proof (ip_set_cksum_valid _ v V Hv) as Vv. pose proof (ip_bytes_len _ Vv) as Hbl.
  assert (Hc : BufferList_concatenate (Buffer_of_string (ip_bytes (ip_set_cksum (ipd_header d) v)) :: ipd_payload d)
    = ip_bytes (ip_set_cksum (ipd_header d) v) ++ BufferList_concatenate (ipd_payload d)) by apply concatenate_cons.
  destruct (IPv4Datagram_parse_ok d0 (Buffer_of_string (ip_bytes (ip_set_cksum (ipd_header d) v)
    ++ BufferList_concatenate (ipd_payload d))) (ip_set_cksum (ipd_header d) v)
    (BufferList_concatenate (ipd_payload d))) as (b & Ep & Hb & Hs); try done.
  - apply Buffer_wf_of_string. rewrite zlen_app, Hbl. destruct V. simpl. lia.
  - eexists _, _, v. split; [exact E|]. rewrite Hc. split; [exact Ep|]. split; [done|].
    simpl. by rewrite concatenate_cons, Hs, app_nil_r.
Qed.

Definition sample_datagram : IPv4Datagram :=
  mkIPv4Datagram (ip_set_route IPv4Header_default 167772161 167772162 25)
    [Buffer_of_string (map byte_of [1; 2]); Buffer_of_string (map byte_of [3; 4; 5])].

Lemma ipv4_datagram_roundtrip_witness : exists bl d',
  IPv4Datagram_serialize sample_datagram = Ok bl /\
  IPv4Datagram_parse IPv4Datagram_default (Buffer_of_string (BufferList_concatenate bl)) = Ok (NoError, d') /\
  BufferList_concatenate (ipd_payload d') = map byte_of [1; 2; 3; 4; 5].
Proof.
  destruct (ipv4_datagram_roundtrip sample_datagram IPv4Datagram_default) as (bl & d' & v & H1 & H2 & _ & H3).
  - split; [split; vm_compute; repeat split; congruence|].
    split; [repeat constructor; repeat split; vm_compute; congruence|reflexivity].
  - exists bl, d'. split; [exact H1|]. split; [exact H2|exact H3].
Defined.

(** A 20-byte datagram of IP version 6 with a wrong checksum. *)
Definition bad_datagram_bytes : bytes :=
  map byte_of [101;0;0;20; 0;0;64;0; 128;6;18;52; 10;0;0;1; 10;0;0;2].

(** [IPv4Datagram::parse] drops the result of [IPv4Header::parse]: bytes that the
    header parser rejects with [WrongIPVersion], or whose checksum is wrong, are
    accepted by the datagram parser with [NoError]. *)
Theorem ipv4_datagram_parse_ignores_header_result :
  (exists h p, IPv4Header_parse IPv4Header_default (NetParser_new (Buffer_of_string bad_datagram_bytes))
               = Ok (WrongIPVersion, h, p)) /\
  (exists d, IPv4Datagram_parse IPv4Datagram_default (Buffer_of_string bad_datagram_bytes) = Ok (NoError, d) /\
             ip_ver (ipd_header d) = 6) /\
  (exists h p, IPv4Header_parse IPv4Header_default
      (NetParser_new (Buffer_of_string (byte_of 69 :: tail bad_datagram_bytes))) = Ok (BadChecksum, h, p)) /\
  (exists d, IPv4Datagram_parse IPv4Datagram_default (Buffer_of_string (byte_of 69 :: tail bad_datagram_bytes))
               = Ok (NoError, d)).
Proof.
  split_and!; [eexists _, _; vm_compute; reflexivity|eexists; split; [vm_compute; reflexivity|done]
    |eexists _, _; vm_compute; reflexivity|eexists; vm_compute; reflexivity].
Qed.
