(* ===== verification/Ethernet.v ===== *)
(** * Ethernet frames and ARP messages

    Models [libsponge/tcp_helpers/ethernet_header.hh], [ethernet_header.cc],
    [ethernet_frame.hh], [ethernet_frame.cc], [arp_message.hh] and [arp_message.cc]
    (the printing functions are in [Text.v]). *)

From S2P Require Import Prelude Buffers Parser.

(** [std::array<uint8_t, 6>] as the list of its octets. *)
Abbreviation EthernetAddress := (list Z).

Definition ETHERNET_BROADCAST : EthernetAddress := [255; 255; 255; 255; 255; 255].

Definition EthernetAddress_valid (a : EthernetAddress) : Prop :=
  length a = 6%nat /\ Forall (fun v => 0 <= v < 256) a.

Record EthernetHeader : Type := mkEthernetHeader {
  eh_dst : EthernetAddress; eh_src : EthernetAddress; eh_type : Z
}.

Definition EthernetHeader_LENGTH : Z := 14.
Definition TYPE_IPv4 : Z := 2048.
Definition TYPE_ARP : Z := 2054.

(** [EthernetHeader _header{}]: value-initialized. *)
Definition EthernetHeader_default : EthernetHeader :=
  mkEthernetHeader [0; 0; 0; 0; 0; 0] [0; 0; 0; 0; 0; 0] 0.

Definition EthernetHeader_parse (h0 : EthernetHeader) (p : NetParser)
  : res (ParseResult * EthernetHeader * NetParser) :=
  if Buffer_size (np_buffer p) <? EthernetHeader_LENGTH then Ok (PacketTooShort, h0, p)
  else
    '(dst, p) ← NetParser_u8s 6 p;
    '(src, p) ← NetParser_u8s 6 p;
    '(type, p) ← NetParser_u16 p;
    Ok (np_error p, mkEthernetHeader dst src type, p).

Definition EthernetHeader_serialize (h : EthernetHeader) : bytes :=
  let ret := NetUnparser_u8s [] (eh_dst h) in
  let ret := NetUnparser_u8s ret (eh_src h) in
  NetUnparser_u16 ret (eh_type h).

Record EthernetFrame : Type := mkEthernetFrame {
  ef_header : EthernetHeader;
  ef_payload : BufferList
}.

Definition EthernetFrame_default : EthernetFrame := mkEthernetFrame EthernetHeader_default [].

(** The return value of [_header.parse(p)] is dropped. *)
Definition EthernetFrame_parse (f : EthernetFrame) (buffer : Buffer) : res (ParseResult * EthernetFrame) :=
  '(_, h, p) ← EthernetHeader_parse (ef_header f) (NetParser_new buffer);
  Ok (np_error p, mkEthernetFrame h (BufferList_of_Buffer (np_buffer p))).

Definition EthernetFrame_serialize (f : EthernetFrame) : BufferList :=
  let ret := BufferList_append [] (BufferList_of_string (EthernetHeader_serialize (ef_header f))) in
  BufferList_append ret (ef_payload f).

(** ** ARP *)

Record ARPMessage : Type := mkARPMessage {
  arp_hardware_type : Z; arp_protocol_type : Z;
  arp_hardware_address_size : Z; arp_protocol_address_size : Z;
  arp_opcode : Z;
  arp_sender_ethernet_address : EthernetAddress; arp_sender_ip_address : Z;
  arp_target_ethernet_address : EthernetAddress; arp_target_ip_address : Z
}.

Definition ARPMessage_LENGTH : Z := 28.
Definition TYPE_ETHERNET : Z := 1.
Definition OPCODE_REQUEST : Z := 1.
Definition OPCODE_REPLY : Z := 2.

Definition ARPMessage_default : ARPMessage :=
  mkARPMessage TYPE_ETHERNET TYPE_IPv4 6 4 0 [0; 0; 0; 0; 0; 0] 0 [0; 0; 0; 0; 0; 0] 0.

Definition ARPMessage_supported (m : ARPMessage) : bool :=
  (arp_hardware_type m =? TYPE_ETHERNET) && (arp_protocol_type m =? TYPE_IPv4) &&
  (arp_hardware_address_size m =? 6) && (arp_protocol_address_size m =? 4) &&
  ((arp_opcode m =? OPCODE_REQUEST) || (arp_opcode m =? OPCODE_REPLY)).

(** [parse] on the object [m0]: its addresses keep their values when the message type
    is not supported. *)
Definition ARPMessage_parse (m0 : ARPMessage) (buffer : Buffer) : res (ParseResult * ARPMessage) :=
  let p := NetParser_new buffer in
  if Buffer_size (np_buffer p) <? ARPMessage_LENGTH then Ok (PacketTooShort, m0)
  else
    '(hardware_type, p) ← NetParser_u16 p;
    '(protocol_type, p) ← NetParser_u16 p;
    '(hardware_address_size, p) ← NetParser_u8 p;
    '(protocol_address_size, p) ← NetParser_u8 p;
    '(opcode, p) ← NetParser_u16 p;
    let m := mkARPMessage hardware_type protocol_type hardware_address_size protocol_address_size opcode
               (arp_sender_ethernet_address m0) (arp_sender_ip_address m0)
               (arp_target_ethernet_address m0) (arp_target_ip_address m0) in
    if negb (ARPMessage_supported m) then Ok (Unsupported, m)
    else
      '(sender_eth, p) ← NetParser_u8s 6 p;
      '(sender_ip, p) ← NetParser_u32 p;
      '(target_eth, p) ← NetParser_u8s 6 p;
      '(target_ip, p) ← NetParser_u32 p;
      Ok (np_error p, mkARPMessage hardware_type protocol_type hardware_address_size protocol_address_size
            opcode sender_eth sender_ip target_eth target_ip).

Definition ARPMessage_serialize (m : ARPMessage) : res bytes :=
  if negb (ARPMessage_supported m) then Throw (runtime_error
    "ARPMessage::serialize(): unsupported field combination (must be Ethernet/IP, and request or reply)")
  else
    let ret := NetUnparser_u16 [] (arp_hardware_type m) in
    let ret := NetUnparser_u16 ret (arp_protocol_type m) in
    let ret := NetUnparser_u8 ret (arp_hardware_address_size m) in
    let ret := NetUnparser_u8 ret (arp_protocol_address_size m) in
    let ret := NetUnparser_u16 ret (arp_opcode m) in
    let ret := NetUnparser_u8s ret (arp_sender_ethernet_address m) in
    let ret := NetUnparser_u32 ret (arp_sender_ip_address m) in
    let ret := NetUnparser_u8s ret (arp_target_ethernet_address m) in
    Ok (NetUnparser_u32 ret (arp_target_ip_address m)).

(** ** Ethernet headers on the wire *)

Record EthernetHeader_valid (h : EthernetHeader) : Prop := {
  ev_dst : EthernetAddress_valid (eh_dst h);
  ev_src : EthernetAddress_valid (eh_src h);
  ev_type : 0 <= eh_type h < W16
}.

Lemma zlen_octets a : zlen (octets a) = zlen a.
Proof. unfold zlen, octets. by rewrite length_map. Qed.

Lemma address_len a : EthernetAddress_valid a -> zlen (octets a) = 6.
Proof. intros [H _]. rewrite zlen_octets. unfold zlen. by rewrite H. Qed.

Lemma eth_serialize_eq h : EthernetHeader_valid h ->
  EthernetHeader_serialize h = octets (eh_dst h) ++ octets (eh_src h) ++ be_bytes 2 (eh_type h).
Proof.
  intros [? ? ?]. unfold EthernetHeader_serialize. rewrite unparse_u16, !unparse_u8s, u16_id by done.
  by rewrite <- app_assoc.
Qed.

(** Read back a six-octet address. *)
Lemma parse_address a p rest : EthernetAddress_valid a -> np_repr p (octets a ++ rest) NoError ->
  exists p', NetParser_u8s 6 p = Ok (a, p') /\ np_repr p' rest NoError.
Proof. intros [Hl Hv] R. rewrite <- Hl. by apply parse_u8s_ok. Qed.

Ltac parse_addr V R :=
  let p := fresh "p" in let E := fresh "E" in let R' := fresh "R" in
  destruct (parse_address _ _ _ V R) as (p & E & R');
  rewrite E; clear E R; rename R' into R; rewrite res_bind_Ok; cbv beta iota.

Lemma EthernetHeader_parse_ok h0 h bs rest p : EthernetHeader_valid h -> EthernetHeader_serialize h = bs ->
  np_repr p (bs ++ rest) NoError ->
  exists p', EthernetHeader_parse h0 p = Ok (NoError, h, p') /\ np_repr p' rest NoError.
Proof.
  intros V <- R. rewrite (eth_serialize_eq h V), <- !app_assoc in R. destruct V as [V1 V2 V3].
  unfold EthernetHeader_parse, Buffer_size. rewrite (nr_rest _ _ _ R).
  rewrite !zlen_app, (address_len _ V1), (address_len _ V2), zlen_be_bytes. unfold EthernetHeader_LENGTH.
  ztest; [zlia|]. parse_addr V1 R. parse_addr V2 R. parse_step R.
  rewrite (nr_err _ _ _ R). eexists. split; [|done]. by destruct h.
Qed.

Lemma EthernetHeader_serialize_ok h : EthernetHeader_valid h ->
  exists bs, Ok (A := bytes) (EthernetHeader_serialize h) = Ok bs /\ zlen bs = EthernetHeader_LENGTH.
Proof.
  intros V. eexists. split; [done|]. rewrite (eth_serialize_eq h V). destruct V as [V1 V2 _].
  by rewrite !zlen_app, (address_len _ V1), (address_len _ V2), zlen_be_bytes.
Qed.

Lemma EthernetHeader_wire_roundtrip h bs rest p : EthernetHeader_valid h ->
  Ok (A := bytes) (EthernetHeader_serialize h) = Ok bs -> np_repr p (bs ++ rest) NoError ->
  exists p', EthernetHeader_parse EthernetHeader_default p = Ok (NoError, h, p') /\ np_repr p' rest NoError.
Proof. intros V [= E] R. by eapply EthernetHeader_parse_ok. Qed.

#[export] Instance EthernetHeader_wire : WireFormat EthernetHeader := {
  wire_valid := EthernetHeader_valid;
  wire_serialize h := Ok (EthernetHeader_serialize h);
  wire_parse := EthernetHeader_parse EthernetHeader_default;
  wire_length _ := EthernetHeader_LENGTH;
  wire_serialize_ok := EthernetHeader_serialize_ok;
  wire_roundtrip := EthernetHeader_wire_roundtrip
}.

(** A frame whose bytes were concatenated comes back with its payload in one buffer. *)
Lemma EthernetFrame_parse_ok f0 buf h payload : Buffer_wf buf -> EthernetHeader_valid h ->
  Buffer_str buf = EthernetHeader_serialize h ++ payload ->
  exists b, EthernetFrame_parse f0 buf = Ok (NoError, mkEthernetFrame h [b]) /\
    Buffer_wf b /\ Buffer_str b = payload.
Proof.
  intros Hwf V Hs. pose proof (np_repr_new buf Hwf) as R. rewrite Hs in R.
  destruct (EthernetHeader_parse_ok (ef_header f0) h _ payload _ V eq_refl R) as (p' & E & [Hw Hr He]).
  unfold EthernetFrame_parse. rewrite E, res_bind_Ok. exists (np_buffer p'). by rewrite He.
Qed.

(** ** ARP messages on the wire *)

Record ARPMessage_valid (m : ARPMessage) : Prop := {
  av_supported : ARPMessage_supported m = true;
  av_sender : EthernetAddress_valid (arp_sender_ethernet_address m);
  av_sender_ip : 0 <= arp_sender_ip_address m < W32;
  av_target : EthernetAddress_valid (arp_target_ethernet_address m);
  av_target_ip : 0 <= arp_target_ip_address m < W32
}.

Lemma supported_fields m : ARPMessage_supported m = true ->
  arp_hardware_type m = 1 /\ arp_protocol_type m = 2048 /\ arp_hardware_address_size m = 6 /\
  arp_protocol_address_size m = 4 /\ (arp_opcode m = 1 \/ arp_opcode m = 2).
Proof.
  unfold ARPMessage_supported. intros H. repeat (apply andb_prop in H as [H ?]).
  repeat match goal with E : (_ =? _) = true |- _ => apply Z.eqb_eq in E end.
  split_and!; try done. destruct (Z.eqb_spec (arp_opcode m) OPCODE_REQUEST); [by left|right].
  simpl in *. by apply Z.eqb_eq.
Qed.

Lemma ARPMessage_serialize_ok m : ARPMessage_valid m ->
  exists bs, ARPMessage_serialize m = Ok bs /\ zlen bs = ARPMessage_LENGTH /\
    forall m0 buf, Buffer_wf buf -> Buffer_str buf = bs -> ARPMessage_parse m0 buf = Ok (NoError, m).
Proof.
  intros [Hs V1 H1 V2 H2]. destruct (supported_fields m Hs) as (E1 & E2 & E3 & E4 & E5).
  unfold ARPMessage_serialize. rewrite Hs. cbn [negb]. cbv zeta.
  rewrite !unparse_u32, !unparse_u8s, !unparse_u16, !unparse_u8. rewrite E1, E2, E3, E4. nowrap.
  eexists. split; [done|]. split.
  - rewrite !zlen_app, !zlen_be_bytes, (address_len _ V1), (address_len _ V2). done.
  - intros m0 buf Hwf Hb. pose proof (np_repr_new buf Hwf) as R.
    rewrite Hb in R. rewrite <- (app_nil_r (_ ++ be_bytes 4 (arp_target_ip_address m))), <- !app_assoc in R.
    unfold ARPMessage_parse. cbv zeta. unfold Buffer_size. cbn [np_buffer NetParser_new].
    rewrite Hb, !zlen_app, !zlen_be_bytes, (address_len _ V1), (address_len _ V2).
    unfold ARPMessage_LENGTH. simpl (_ <? _). cbv iota.
    do 5 parse_step R. replace (ARPMessage_supported _) with true by (by destruct E5 as [->| ->]).
    cbn [negb]. parse_addr V1 R. parse_step R. parse_addr V2 R. parse_step R.
    rewrite (nr_err _ _ _ R). destruct m. simpl in *. by subst.
Qed.

(** ** Parsing any data *)

Lemma EthernetFrame_parse_total lim f0 buf : Buffer_in lim buf ->
  exists r h b, EthernetFrame_parse f0 buf = Ok (r, mkEthernetFrame h [b]) /\ Buffer_in lim b.
Proof.
  intros Hwf. unfold EthernetFrame_parse, EthernetHeader_parse. ztest.
  - eexists _, _, _. split; [reflexivity|done].
  - pose proof Hwf as H'. change buf with (np_buffer (NetParser_new buf)) in H'.
    do 3 parse_any H'. rewrite res_bind_Ok. by eexists _, _, _.
Qed.

(** A message that parses without error has a known opcode and six-octet addresses. *)
Lemma ARPMessage_parse_total {lim} m0 buf : Buffer_in lim buf ->
  exists r m, ARPMessage_parse m0 buf = Ok (r, m) /\ (r = NoError -> ARPMessage_valid m).
Proof.
  intros Hwf. unfold ARPMessage_parse. cbv zeta. ztest; [by eexists _, _|].
  pose proof Hwf as H'. change buf with (np_buffer (NetParser_new buf)) in H'.
  do 5 parse_any H'. match goal with |- context [ARPMessage_supported ?m] => destruct (ARPMessage_supported m) eqn:Es end;
    cbn [negb]; [|by eexists _, _].
  do 4 parse_any H'. eexists _, _. split; [done|]. intros _. by split.
Qed.

(** C37: Ethernet frames and ARP messages survive the wire: every frame with a valid
    header and any payload, and every supported ARP message, serializes and parses
    back to itself with [NoError] (the payload's bytes in one buffer). *)
Theorem ethernet_and_arp_roundtrip f f0 m m0 :
  EthernetHeader_valid (ef_header f) -> zlen (BufferList_concatenate (ef_payload f)) + 14 < W64 ->
  ARPMessage_valid m ->
  (exists f', EthernetFrame_parse f0 (Buffer_of_string (BufferList_concatenate (EthernetFrame_serialize f)))
     = Ok (NoError, f') /\ ef_header f' = ef_header f /\
     BufferList_concatenate (ef_payload f') = BufferList_concatenate (ef_payload f)) /\
  (exists bs, ARPMessage_serialize m = Ok bs /\ ARPMessage_parse m0 (Buffer_of_string bs) = Ok (NoError, m)).
Proof.
  intros V Hlen Vm. split.
  - assert (Hc : BufferList_concatenate (EthernetFrame_serialize f)
      = EthernetHeader_serialize (ef_header f) ++ BufferList_concatenate (ef_payload f)).
    { unfold EthernetFrame_serialize, BufferList_append. simpl. by rewrite concatenate_cons. }
    destruct (EthernetHeader_serialize_ok _ V) as (bs & [= <-] & Hbs).
    destruct (EthernetFrame_parse_ok f0 (Buffer_of_string (BufferList_concatenate (EthernetFrame_serialize f)))
      (ef_header f) (BufferList_concatenate (ef_payload f))) as (b & E & _ & Hb); try done.
    + apply Buffer_wf_of_string. rewrite Hc, zlen_app, Hbs. unfold EthernetHeader_LENGTH. lia.
    + exists (mkEthernetFrame (ef_header f) [b]). split; [done|]. split; [done|].
      simpl. by rewrite concatenate_cons, Hb, app_nil_r.
  - destruct (ARPMessage_serialize_ok m Vm) as (bs & E & Hl & Hp). exists bs. split; [done|].
    apply Hp; [|done]. apply Buffer_wf_of_string. rewrite Hl. done.
Qed.

Definition sample_arp : ARPMessage :=
  mkARPMessage 1 2048 6 4 OPCODE_REQUEST [2; 0; 0; 0; 0; 1] 167772161 [0; 0; 0; 0; 0; 0] 167772162.

Lemma ethernet_and_arp_roundtrip_witness :
  exists bs, ARPMessage_serialize sample_arp = Ok bs /\
    ARPMessage_parse ARPMessage_default (Buffer_of_string bs) = Ok (NoError, sample_arp).
Proof.
  apply (ethernet_and_arp_roundtrip (mkEthernetFrame EthernetHeader_default []) EthernetFrame_default
    sample_arp ARPMessage_default).
  - split; [split; [reflexivity|repeat constructor; lia]..|simpl; lia].
  - reflexivity.
  - split; [reflexivity|split; [reflexivity|repeat constructor; lia]|simpl; lia
      |split; [reflexivity|repeat constructor; lia]|simpl; lia].
Defined.

(** [EthernetFrame::parse] drops the result of [EthernetHeader::parse], which checks
    the length before reading: a frame shorter than its header is rejected by the
    header parser with [PacketTooShort] but accepted by the frame parser with
    [NoError], the header left as it was. *)
Theorem ethernet_frame_accepts_short_frames f buf :
  Buffer_size buf < EthernetHeader_LENGTH ->
  EthernetHeader_parse (ef_header f) (NetParser_new buf) = Ok (PacketTooShort, ef_header f, NetParser_new buf) /\
  EthernetFrame_parse f buf = Ok (NoError, mkEthernetFrame (ef_header f) [buf]).
Proof.
  intros H. assert (E : EthernetHeader_parse (ef_header f) (NetParser_new buf)
    = Ok (PacketTooShort, ef_header f, NetParser_new buf)).
  { unfold EthernetHeader_parse. simpl. by ztest; [|lia]. }
  split; [done|]. unfold EthernetFrame_parse. by rewrite E.
Qed.

Lemma ethernet_frame_accepts_short_frames_witness :
  EthernetFrame_parse EthernetFrame_default (Buffer_of_string [byte_of 1])
  = Ok (NoError, mkEthernetFrame EthernetHeader_default [Buffer_of_string [byte_of 1]]).
Proof.
  apply (ethernet_frame_accepts_short_frames EthernetFrame_default (Buffer_of_string [byte_of 1])).
  reflexivity.
Defined.
