(* ===== verification/Addresses.v ===== *)
(** * Socket addresses

    Models [libsponge/util/address.hh] and [address.cc] on the bytes of the wrapped
    [sockaddr_storage]. Names are resolved by the C library ([getaddrinfo] and
    [getnameinfo]); what the rest of the program uses of it is the numeric case, where
    an IPv4 address and a port become a [sockaddr_in] and back. The host is
    little-endian: [ss_family] is stored low byte first. *)

From S2P Require Import Prelude Buffers Parser.

Definition AF_INET : Z := 2.
Definition AF_INET6 : Z := 10.
Definition SOCKADDR_STORAGE_SIZE : Z := 128.
Definition SOCKADDR_IN_SIZE : Z := 16.
Definition SOCKADDR_IN6_SIZE : Z := 28.

Record Address : Type := mkAddress {
  ad_size : Z;
  ad_storage : bytes
}.

(** [len] bytes at offset [off]. *)
Definition sub_bytes (off len : Z) (s : bytes) : bytes := ztake len (zdrop off s).

Definition zeros (n : Z) : bytes := replicate (Z.to_nat n) Corelib.Init.Byte.x00.

Definition Address_family (a : Address) : Z := be_val 0 (reverse (sub_bytes 0 2 (ad_storage a))).

(** [Address(const sockaddr *, size_t)]: [addr] is the [size] bytes pointed to; the
    rest of the storage is zero-initialized. *)
Definition Address_of_sockaddr (addr : bytes) (size : Z) : res Address :=
  if SOCKADDR_STORAGE_SIZE <? size then Throw (runtime_error "invalid sockaddr size")
  else Ok (mkAddress size (ztake size addr ++ zeros (SOCKADDR_STORAGE_SIZE - zlen (ztake size addr)))).

(** A [sockaddr_in] in memory. *)
Definition sockaddr_in (port ip : Z) : bytes :=
  [byte_of AF_INET; byte_of 0] ++ be_bytes 2 port ++ be_bytes 4 ip ++ zeros 8.

(** [Address(ip, port)] for a numeric [ip]: [getaddrinfo] with [AI_NUMERICHOST |
    AI_NUMERICSERV] and [AF_INET] answers with the [sockaddr_in]. *)
Definition Address_of_ip_port (ip port : Z) : res Address :=
  Address_of_sockaddr (sockaddr_in port ip) SOCKADDR_IN_SIZE.

(** The port of [ip_port()]: [getnameinfo] with [NI_NUMERICSERV]. *)
Definition Address_port (a : Address) : res Z :=
  if ((Address_family a =? AF_INET) && (SOCKADDR_IN_SIZE <=? ad_size a)) ||
     ((Address_family a =? AF_INET6) && (SOCKADDR_IN6_SIZE <=? ad_size a))
  then Ok (be_val 0 (sub_bytes 2 2 (ad_storage a)))
  else Throw (runtime_error "getnameinfo").

Definition ipv4_numeric (a : Address) : res Z :=
  if negb (Address_family a =? AF_INET) || negb (ad_size a =? SOCKADDR_IN_SIZE)
  then Throw (runtime_error "ipv4_numeric called on non-IPV4 address")
  else Ok (be_val 0 (sub_bytes 4 4 (ad_storage a))).

Definition from_ipv4_numeric (ip_address : Z) : res Address :=
  Address_of_sockaddr (sockaddr_in 0 ip_address) SOCKADDR_IN_SIZE.

(** [operator==]: the sizes, then [memcmp] over that many bytes. *)
Definition Address_eqb (a b : Address) : bool :=
  if negb (ad_size a =? ad_size b) then false
  else bool_decide (ztake (ad_size a) (ad_storage a) = ztake (ad_size a) (ad_storage b)).

(** ** IPv4 addresses *)

(** The object the constructors build for an IPv4 address. *)
Definition inet (ip port : Z) : Address :=
  mkAddress SOCKADDR_IN_SIZE (sockaddr_in port ip ++ zeros 112).

Lemma sockaddr_in_len port ip : zlen (sockaddr_in port ip) = 16.
Proof. done. Qed.

Lemma inet_of_sockaddr port ip : Address_of_sockaddr (sockaddr_in port ip) SOCKADDR_IN_SIZE = Ok (inet ip port).
Proof.
  unfold Address_of_sockaddr. simpl (_ <? _). cbv iota. rewrite ztake_all by done. done.
Qed.

Lemma from_ipv4_numeric_inet ip : from_ipv4_numeric ip = Ok (inet ip 0).
Proof. apply inet_of_sockaddr. Qed.

Lemma of_ip_port_inet ip port : Address_of_ip_port ip port = Ok (inet ip port).
Proof. apply inet_of_sockaddr. Qed.

Lemma be_val_be_bytes len v : 0 <= v < 256 ^ Z.of_nat len -> be_val 0 (be_bytes len v) = v.
Proof. intros H. rewrite be_val_bytes by lia. rewrite Z.mod_small; lia. Qed.

Lemma ipv4_numeric_inet ip port : 0 <= ip < W32 -> ipv4_numeric (inet ip port) = Ok ip.
Proof.
  intros H. unfold ipv4_numeric. change (Ok (be_val 0 (be_bytes 4 ip)) = Ok ip).
  by rewrite be_val_be_bytes.
Qed.

Lemma port_inet ip port : 0 <= port < W16 -> Address_port (inet ip port) = Ok port.
Proof.
  intros H. unfold Address_port. change (Ok (be_val 0 (be_bytes 2 port)) = Ok port).
  by rewrite be_val_be_bytes.
Qed.

(** Two IPv4 addresses are equal when address and port are. *)
Lemma inet_eqb ip port ip' port' : 0 <= ip < W32 -> 0 <= port < W16 -> 0 <= ip' < W32 -> 0 <= port' < W16 ->
  Address_eqb (inet ip port) (inet ip' port') = (ip =? ip') && (port =? port').
Proof.
  intros Hi Hp Hi' Hp'. unfold Address_eqb. cbn [ad_size inet]. rewrite Z.eqb_refl. cbn [negb].
  destruct (Z.eqb_spec ip ip') as [->|Ni]; [destruct (Z.eqb_spec port port') as [->|Np]|]; simpl (_ && _).
  - by rewrite bool_decide_eq_true_2.
  - apply bool_decide_eq_false_2. intros E. apply Np.
    rewrite <- (be_val_be_bytes 2 port), <- (be_val_be_bytes 2 port') by done.
    f_equal. apply (f_equal (sub_bytes 2 2)) in E. exact E.
  - apply bool_decide_eq_false_2. intros E. apply Ni.
    rewrite <- (be_val_be_bytes 4 ip), <- (be_val_be_bytes 4 ip') by done.
    f_equal. apply (f_equal (sub_bytes 4 4)) in E. exact E.
Qed.

(** The two conversions return values of their types. *)
Lemma sub_bytes_val off len s : 0 <= len -> 0 <= be_val 0 (sub_bytes off len s) < 256 ^ len.
Proof.
  intros Hl. pose proof (be_val_bound (sub_bytes off len s) 0 1 ltac:(lia)) as H.
  assert (zlen (sub_bytes off len s) <= len) by (unfold sub_bytes; rewrite zlen_ztake_min by done; lia).
  pose proof (Z.pow_le_mono_r 256 (zlen (sub_bytes off len s)) len ltac:(lia) ltac:(lia)). lia.
Qed.

Lemma ipv4_numeric_range a ip : ipv4_numeric a = Ok ip -> 0 <= ip < W32.
Proof. unfold ipv4_numeric. destruct (_ || _); [done|]. intros [= <-]. by apply (sub_bytes_val 4 4). Qed.

Lemma port_range a p : Address_port a = Ok p -> 0 <= p < W16.
Proof. unfold Address_port. destruct (_ || _); [|done]. intros [= <-]. by apply (sub_bytes_val 2 2). Qed.
