(* ===== verification/Adapters.v ===== *)
(** * TCP segments over IPv4 and UDP

    Models [FdAdapterConfig] of [tcp_config.hh], [fd_adapter.hh], [fd_adapter.cc],
    [tcp_over_ip.hh], [tcp_over_ip.cc] and the TUN adapter of [tuntap_adapter.hh]. A read
    takes what the device or socket returned as its argument; a write returns what it
    hands to the device or socket. *)

From S2P Require Import Prelude WrappingInts Buffers Checksum Parser TCPSegments IPv4 Addresses.

Record FdAdapterConfig : Type := mkFdAdapterConfig {
  fa_source : Address;
  fa_destination : Address;
  fa_loss_rate_dn : Z;
  fa_loss_rate_up : Z
}.

Record FdAdapterBase : Type := mkFdAdapterBase {
  fb_cfg : FdAdapterConfig;
  fb_listen : bool
}.

(** [Address("0", 0)] twice, no loss, not listening. *)
Definition FdAdapterBase_default : FdAdapterBase :=
  mkFdAdapterBase (mkFdAdapterConfig (inet 0 0) (inet 0 0) 0 0) false.

Definition set_listening (l : bool) (s : FdAdapterBase) : FdAdapterBase := mkFdAdapterBase (fb_cfg s) l.

(** [config_mutable().source = a] and [config_mutable().destination = a] *)
Definition set_source (a : Address) (s : FdAdapterBase) : FdAdapterBase :=
  mkFdAdapterBase (mkFdAdapterConfig a (fa_destination (fb_cfg s)) (fa_loss_rate_dn (fb_cfg s))
    (fa_loss_rate_up (fb_cfg s))) (fb_listen s).
Definition set_destination (a : Address) (s : FdAdapterBase) : FdAdapterBase :=
  mkFdAdapterBase (mkFdAdapterConfig (fa_source (fb_cfg s)) a (fa_loss_rate_dn (fb_cfg s))
    (fa_loss_rate_up (fb_cfg s))) (fb_listen s).

(** ** TCP in IPv4 *)

(** [not listening() and (x != a.ipv4_numeric())] *)
Definition not_listening_and_differs (listening : bool) (x : Z) (a : Address) : res bool :=
  if listening then Ok false else y ← ipv4_numeric a; Ok (negb (x =? y)).

Definition unwrap_tcp_in_ip (ip_dgram : InternetDatagram) : method FdAdapterBase (option TCPSegment) :=
  let h := ipd_header ip_dgram in
  listening ← gets fb_listen;
  cfg ← gets fb_cfg;
  not_for_us ← lift (not_listening_and_differs listening (ip_dst h) (fa_source cfg));
  if not_for_us : bool then mret None else
  not_from_peer ← lift (not_listening_and_differs listening (ip_src h) (fa_destination cfg));
  if not_from_peer : bool then mret None else
  if negb (ip_proto h =? PROTO_TCP) then mret None else
  payload ← lift (BufferList_to_Buffer (ipd_payload ip_dgram));
  '(result, tcp_seg) ← lift (TCPSegment_parse TCPSegment_default payload (IPv4Header_pseudo_cksum h));
  if negb (bool_decide (result = NoError)) then mret None else
  source_port ← lift (Address_port (fa_source cfg));
  if negb (th_dport (ts_header tcp_seg) =? source_port) then mret None else
  related ← ((if listening : bool then
      if th_syn (ts_header tcp_seg) && negb (th_rst (ts_header tcp_seg)) then
        source ← lift (Address_of_ip_port (ip_dst h) source_port);
        _ ← modify (set_source source);
        destination ← lift (Address_of_ip_port (ip_src h) (th_sport (ts_header tcp_seg)));
        _ ← modify (set_destination destination);
        _ ← modify (set_listening false);
        mret true
      else mret false
    else mret true) : method FdAdapterBase bool);
  if negb related then mret None else
  destination ← gets (fun s => fa_destination (fb_cfg s));
  destination_port ← lift (Address_port destination);
  if negb (th_sport (ts_header tcp_seg) =? destination_port) then mret None else
  mret (Some tcp_seg).

(** [wrap_tcp_in_ip(seg)]: the datagram, and the segment with its ports set. *)
Definition wrap_tcp_in_ip (s : FdAdapterBase) (seg : TCPSegment) : res (InternetDatagram * TCPSegment) :=
  sport ← Address_port (fa_source (fb_cfg s));
  dport ← Address_port (fa_destination (fb_cfg s));
  let seg := mkTCPSegment (th_set_ports (ts_header seg) sport dport) (ts_payload seg) in
  src ← ipv4_numeric (fa_source (fb_cfg s));
  dst ← ipv4_numeric (fa_destination (fb_cfg s));
  let h := IPv4Header_default in
  let len := u16 (ip_hlen h * 4 + th_doff (ts_header seg) * 4 + Buffer_size (ts_payload seg)) in
  let h := ip_set_route h src dst len in
  payload ← TCPSegment_serialize seg (IPv4Header_pseudo_cksum h);
  Ok (mkIPv4Datagram h payload, seg).

(** The TUN adapter adds the IPv4 framing. *)
Definition TunAdapter_read (from_tun : bytes) : method FdAdapterBase (option TCPSegment) :=
  '(result, ip_dgram) ← lift (IPv4Datagram_parse IPv4Datagram_default (Buffer_of_string from_tun));
  if negb (bool_decide (result = NoError)) then mret None else unwrap_tcp_in_ip ip_dgram.

Definition TunAdapter_write (seg : TCPSegment) : method FdAdapterBase BufferList :=
  s ← gets id;
  '(d, _) ← lift (wrap_tcp_in_ip s seg);
  lift (IPv4Datagram_serialize d).

(** ** TCP in UDP *)

(** [read()] on the datagram [(source_address, payload)] that [_sock.recv()] returned. *)
Definition UDPAdapter_read (datagram : Address * bytes) : method FdAdapterBase (option TCPSegment) :=
  let '(source_address, payload) := datagram in
  listening ← gets fb_listen;
  cfg ← gets fb_cfg;
  if negb listening && negb (Address_eqb source_address (fa_destination cfg)) then mret None else
  '(result, seg) ← lift (TCPSegment_parse TCPSegment_default (Buffer_of_string payload) 0);
  if negb (bool_decide (result = NoError)) then mret None else
  if listening : bool then
    if th_syn (ts_header seg) && negb (th_rst (ts_header seg)) then
      _ ← modify (set_destination source_address);
      _ ← modify (set_listening false);
      mret (Some seg)
    else mret None
  else mret (Some seg).

(** The address and the buffers given to [_sock.sendto]. *)
Definition UDPAdapter_write (seg : TCPSegment) : method FdAdapterBase (Address * BufferList) :=
  cfg ← gets fb_cfg;
  sport ← lift (Address_port (fa_source cfg));
  dport ← lift (Address_port (fa_destination cfg));
  let seg := mkTCPSegment (th_set_ports (ts_header seg) sport dport) (ts_payload seg) in
  bl ← lift (TCPSegment_serialize seg 0);
  mret (fa_destination cfg, bl).

(** ** Delivery *)

(** The config of an adapter for the connection between two IPv4 endpoints. *)
Definition connects (s : FdAdapterBase) (src sport dst dport : Z) : Prop :=
  fa_source (fb_cfg s) = inet src sport /\ fa_destination (fb_cfg s) = inet dst dport.

(** An adapter that takes segments sent by [connects]' peer: connected, or listening
    on the port. *)
Definition accepts (s : FdAdapterBase) (src sport dst dport : Z) (h : TCPHeader) : Prop :=
  if fb_listen s then
    Address_port (fa_source (fb_cfg s)) = Ok dport /\ th_syn h = true /\ th_rst h = false
  else connects s dst dport src sport.

Definition datagram_to (h : IPv4Header) (src dst : Z) : Prop :=
  ip_src h = src /\ ip_dst h = dst /\ ip_proto h = PROTO_TCP /\ 0 <= src < W32 /\ 0 <= dst < W32.

(** A datagram that reached the right adapter and parses yields its segment, and the
    adapter is connected to the sender. *)
Lemma unwrap_accepts s h buf seg src dst :
  datagram_to h src dst -> TCPHeader_typed (ts_header seg) ->
  TCPSegment_parse TCPSegment_default buf (IPv4Header_pseudo_cksum h) = Ok (NoError, seg) ->
  accepts s src (th_sport (ts_header seg)) dst (th_dport (ts_header seg)) (ts_header seg) ->
  exists s', unwrap_tcp_in_ip (mkIPv4Datagram h [buf]) s = (Ok (Some seg), s') /\ fb_listen s' = false /\
    connects s' dst (th_dport (ts_header seg)) src (th_sport (ts_header seg)).
Proof.
  intros (Hs & Hd & Hp & Rs & Rd) [Ts Td _ _ _] E Ha. unfold unwrap_tcp_in_ip, accepts, not_listening_and_differs in *.
  cbn [ipd_header ipd_payload BufferList_to_Buffer]. rewrite Hs, Hd, Hp. mrun.
  destruct (fb_listen s) eqn:El.
  - destruct Ha as (Hport & Hsyn & Hrst). mrun. rewrite Z.eqb_refl. cbn [negb]. mrun. rewrite E. mrun.
    rewrite bool_decide_eq_true_2 by done. cbn [negb]. rewrite Hport. mrun. rewrite Z.eqb_refl, Hsyn, Hrst. cbn [negb andb].
    rewrite !of_ip_port_inet. mrun.
    erewrite run_bind by (unfold mbind, method_bind, lift, modify, mret, method_ret; reflexivity).
    cbn [negb]. mrun. cbn [set_listening set_destination set_source fb_cfg fa_destination fa_source].
    rewrite port_inet by done. mrun. rewrite Z.eqb_refl. cbn [negb]. eexists. split; [reflexivity|]. by split.
  - destruct Ha as [H1 H2]. rewrite H1, H2, !ipv4_numeric_inet by done. cbn [mbind res_bind]. mrun.
    rewrite !Z.eqb_refl. cbn [negb]. mrun. rewrite E. mrun.
    rewrite bool_decide_eq_true_2 by done. cbn [negb]. rewrite port_inet by done. mrun. rewrite Z.eqb_refl. cbn [negb]. mrun.
    rewrite H2, port_inet by done. mrun. rewrite Z.eqb_refl. cbn [negb]. exists s. split; [done|]. split; [done|].
    by split.
Qed.

(** An adapter whose endpoints are IPv4 addresses. *)
Definition inet_adapter (s : FdAdapterBase) : Prop :=
  exists src sport dst dport, connects s src sport dst dport /\
    0 <= src < W32 /\ 0 <= sport < W16 /\ 0 <= dst < W32 /\ 0 <= dport < W16.

(** What is known of the segment [o] that came out of the datagram [h]: nothing came
    out and nothing changed, or it belongs to the connection of the adapter, which
    was that connection before, or was listening and got a SYN. *)
Definition unwrapped (s : FdAdapterBase) (h : IPv4Header) (o : option TCPSegment) (s' : FdAdapterBase) : Prop :=
  match o with
  | None => s' = s
  | Some seg =>
      ip_proto h = PROTO_TCP /\ fb_listen s' = false /\
      connects s' (ip_dst h) (th_dport (ts_header seg)) (ip_src h) (th_sport (ts_header seg)) /\
      if fb_listen s
      then th_syn (ts_header seg) = true /\ th_rst (ts_header seg) = false /\
           Address_port (fa_source (fb_cfg s)) = Ok (th_dport (ts_header seg))
      else s' = s
  end.

(** A segment that came out of at most [lim] bytes. *)
Definition readable (lim : Z) (o : option TCPSegment) : Prop :=
  match o with
  | None => True
  | Some seg => TCPHeader_typed (ts_header seg) /\ Buffer_in lim (ts_payload seg)
  end.

Lemma unwrap_total lim s h buf : inet_adapter s -> IPv4Header_typed h -> Buffer_in lim buf ->
  exists o s', unwrap_tcp_in_ip (mkIPv4Datagram h [buf]) s = (Ok o, s') /\ inet_adapter s' /\ unwrapped s h o s' /\
    readable lim o.
Proof.
  intros Hin Hh Hb. pose proof Hin as (src & sport & dst & dport & [C1 C2] & R1 & R2 & R3 & R4).
  pose proof (it_src _ Hh). pose proof (it_dst _ Hh).
  assert (Hnone : exists o s', (Ok None, s) = (Ok o, s') /\ inet_adapter s' /\ unwrapped s h o s' /\ readable lim o)
    by (by exists None, s).
  destruct (TCPSegment_default_typed lim) as [D1 D2]; [destruct Hb; zlia|].
  destruct (TCPSegment_parse_total lim TCPSegment_default buf (IPv4Header_pseudo_cksum h) Hb
    (pseudo_cksum_range h) D1 D2) as (r & seg & E & Ht & Hpl).
  unfold unwrap_tcp_in_ip, not_listening_and_differs. cbn [ipd_header ipd_payload BufferList_to_Buffer]. mrun.
  rewrite C1, C2, !ipv4_numeric_inet by done. cbn [mbind res_bind].
  pose proof (tt_sport _ Ht). pose proof (tt_dport _ Ht).
  destruct (fb_listen s) eqn:El; mrun.
  - ztest; cbn [negb]; [|done]. mrun. rewrite E. mrun.
    destruct (bool_decide _); cbn [negb]; [|done]. rewrite port_inet by done. mrun.
    ztest; cbn [negb]; [|done]. subst sport.
    destruct (th_syn (ts_header seg)) eqn:Es; cbn [andb]; [|done].
    destruct (th_rst (ts_header seg)) eqn:Er; cbn [negb andb]; [done|].
    rewrite !of_ip_port_inet. mrun.
    erewrite run_bind by (unfold mbind, method_bind, lift, modify, mret, method_ret; reflexivity). cbn [negb]. mrun.
    cbn [set_listening set_destination set_source fb_cfg fa_destination fa_source].
    rewrite port_inet by done. mrun. rewrite Z.eqb_refl. cbn [negb].
    eexists (Some seg), _. split; [reflexivity|]. split.
    + eexists _, _, _, _. split; [by split|]. repeat (split; [assumption|]); assumption.
    + split; [|by split]. unfold unwrapped. rewrite El, C1, port_inet by done. by repeat split.
  - ztest; cbn [negb]; mrun; [|done]. ztest; cbn [negb]; mrun; [|done].
    ztest; cbn [negb]; mrun; [|done]. rewrite E. mrun.
    destruct (bool_decide _); cbn [negb]; [|done]. rewrite port_inet by done. mrun.
    ztest; cbn [negb]; [|done]. mrun. rewrite C2, port_inet by done. mrun.
    ztest; cbn [negb]; [|done].
    eexists (Some seg), s. split; [reflexivity|]. split; [done|]. split; [|by split].
    unfold unwrapped. rewrite El. repeat split; try done; congruence.
Qed.

Lemma th_set_ports_valid h p q : TCPHeader_valid h -> 0 <= p < W16 -> 0 <= q < W16 ->
  TCPHeader_valid (th_set_ports h p q).
Proof. intros [] ? ?. by split. Qed.

Lemma valid_typed h : TCPHeader_valid h -> TCPHeader_typed h.
Proof. intros []. by split. Qed.

(** The segment as the peer gets it: the adapter's ports, the checksum filled in. *)
Definition on_wire (seg seg' : TCPSegment) (sport dport : Z) : Prop :=
  exists v, ts_header seg' = th_set_cksum (th_set_ports (ts_header seg) sport dport) v /\
    Buffer_str (ts_payload seg') = Buffer_str (ts_payload seg).

Section Wire.
Context (s : FdAdapterBase) (seg : TCPSegment) (src sport dst dport : Z).
Context (C : connects s src sport dst dport).
Context (Rsrc : 0 <= src < W32) (Rsport : 0 <= sport < W16) (Rdst : 0 <= dst < W32) (Rdport : 0 <= dport < W16).
Context (V : TCPHeader_valid (ts_header seg)) (Hwf : Buffer_wf (ts_payload seg)).
Context (Hlen : 20 + 4 * th_doff (ts_header seg) + zlen (Buffer_str (ts_payload seg)) < W16).

(** What [wrap_tcp_in_ip] builds is a valid datagram whose payload parses back. *)
Lemma wrap_tcp_ok : exists h seg' hdr v,
  wrap_tcp_in_ip s seg = Ok (mkIPv4Datagram h [Buffer_of_string hdr; ts_payload seg], seg') /\
  datagram_to h src dst /\ datagram_valid (mkIPv4Datagram h [Buffer_of_string hdr; ts_payload seg]) /\
  0 <= v < W16 /\ TCPHeader_serialize (th_set_cksum (th_set_ports (ts_header seg) sport dport) v) = Ok hdr /\
  InternetChecksum_value (InternetChecksum_add (InternetChecksum_new (IPv4Header_pseudo_cksum h))
    (hdr ++ Buffer_str (ts_payload seg))) = Ok 0.
Proof.
  destruct C as [C1 C2]. unfold wrap_tcp_in_ip.
  rewrite C1, C2, !port_inet, !ipv4_numeric_inet by done. rewrite !res_bind_Ok. cbv zeta.
  set (seg1 := mkTCPSegment (th_set_ports (ts_header seg) sport dport) (ts_payload seg)).
  assert (Hn : u16 (ip_hlen IPv4Header_default * 4 + th_doff (ts_header seg1) * 4 + Buffer_size (ts_payload seg1))
    = 20 + 4 * th_doff (ts_header seg) + zlen (Buffer_str (ts_payload seg))).
  { change (u16 (5 * 4 + th_doff (ts_header seg) * 4 + zlen (Buffer_str (ts_payload seg)))
      = 20 + 4 * th_doff (ts_header seg) + zlen (Buffer_str (ts_payload seg))).
    pose proof (tv_doff _ V). rewrite u16_id by zlia. lia. }
  rewrite Hn. clear Hn. remember (20 + 4 * th_doff (ts_header seg) + zlen (Buffer_str (ts_payload seg))) as n eqn:Hn.
  set (h := ip_set_route IPv4Header_default src dst n).
  pose proof (th_set_ports_valid _ sport dport V Rsport Rdport) as V1.
  pose proof (tv_doff _ V) as Hd. pose proof (zlen_nonneg (Buffer_str (ts_payload seg))) as Hp.
  assert (Hps : IPv4Header_pseudo_cksum h <= 65535 * 6).
  { unfold IPv4Header_pseudo_cksum. simpl (ip_src h). simpl (ip_dst h). simpl (ip_proto h).
    rewrite !(fold_step src), !(fold_step dst) by done.
    pose proof (u16_range (ip_len h - 4 * ip_hlen h)). unfold IPv4Header_payload_length.
    pose proof (Z.mod_pos_bound src 65536 ltac:(lia)). pose proof (Z.mod_pos_bound dst 65536 ltac:(lia)).
    assert (0 <= src / 65536 < 65536) by (split; [apply Z.div_pos|apply Z.div_lt_upper_bound]; lia).
    assert (0 <= dst / 65536 < 65536) by (split; [apply Z.div_pos|apply Z.div_lt_upper_bound]; lia).
    nowrap. change PROTO_TCP with 6. nowrap. lia. }
  destruct (TCPSegment_serialize_spec seg1 (IPv4Header_pseudo_cksum h)) as (v & hdr & Hv & E & Eh & Hl & Hck).
  - exact V1.
  - split; [apply pseudo_cksum_range|]. simpl. lia.
  - change (th_doff (ts_header seg1)) with (th_doff (ts_header seg)) in Hl. exists h, seg1, hdr, v. rewrite E. split; [done|]. split; [by repeat (split; [done|])|].
    split; [|done]. assert (Hc : BufferList_concatenate [Buffer_of_string hdr; ts_payload seg]
      = hdr ++ Buffer_str (ts_payload seg)) by (by rewrite !concatenate_cons, app_nil_r).
    split; [|split].
    + split; simpl; try done; lia.
    + apply Forall_cons. split; [|by apply Forall_singleton]. apply Buffer_wf_of_string. rewrite Hl. lia.
    + cbn [ipd_payload ipd_header]. rewrite Hc, zlen_app, Hl. change (n = 4 * 5 + (4 * th_doff (ts_header seg) + zlen (Buffer_str (ts_payload seg)))). lia.
Qed.
End Wire.

(** ** What a written datagram carries *)

(** The fields that carry the stream. *)
Record same_data (seg seg' : TCPSegment) : Prop := {
  sm_seqno : th_seqno (ts_header seg') = th_seqno (ts_header seg);
  sm_syn : th_syn (ts_header seg') = th_syn (ts_header seg);
  sm_fin : th_fin (ts_header seg') = th_fin (ts_header seg);
  sm_payload : Buffer_str (ts_payload seg') = Buffer_str (ts_payload seg)
}.

Lemma on_wire_same seg seg' sport dport : on_wire seg seg' sport dport -> same_data seg seg'.
Proof. intros (v & E & Ep). split; [by rewrite E..|done]. Qed.

(** The bytes of an IPv4 datagram from which only this segment can be read. *)
Definition carried (seg : TCPSegment) (bs : bytes) : Prop :=
  forall buf, Buffer_wf buf -> Buffer_str buf = bs ->
  exists h b seg', IPv4Datagram_parse IPv4Datagram_default buf = Ok (NoError, mkIPv4Datagram h [b]) /\
    TCPSegment_parse TCPSegment_default b (IPv4Header_pseudo_cksum h) = Ok (NoError, seg') /\ same_data seg seg'.

(** A datagram whose payload can only be read as this segment, by whoever has its bytes. *)
Definition transports (seg : TCPSegment) (d : InternetDatagram) : Prop := datagram_valid d /\
  forall b, Buffer_wf b -> Buffer_str b = BufferList_concatenate (ipd_payload d) ->
  exists seg', TCPSegment_parse TCPSegment_default b (IPv4Header_pseudo_cksum (ipd_header d)) = Ok (NoError, seg') /\
    same_data seg seg'.

Lemma wrap_transports s seg src sport dst dport : connects s src sport dst dport -> 0 <= src < W32 -> 0 <= sport < W16 ->
  0 <= dst < W32 -> 0 <= dport < W16 -> TCPHeader_valid (ts_header seg) -> Buffer_wf (ts_payload seg) ->
  20 + 4 * th_doff (ts_header seg) + zlen (Buffer_str (ts_payload seg)) < W16 ->
  exists d seg', wrap_tcp_in_ip s seg = Ok (d, seg') /\ transports seg d /\ ip_src (ipd_header d) = src /\ ip_dst (ipd_header d) = dst.
Proof.
  intros C Rs Rsp Rd Rdp V Hwf Hlen.
  destruct (wrap_tcp_ok s seg src sport dst dport C Rs Rsp Rd Rdp V Hwf Hlen)
    as (h & seg1 & hdr & v & Ew & Hto & Hdv & Hv & Eh & Hck).
  eexists _, seg1. split; [exact Ew|]. split; [|by destruct Hto as (? & ? & _)]. split; [done|]. intros b Hb Hbs. cbn [ipd_header ipd_payload] in *.
  rewrite !concatenate_cons, app_nil_r in Hbs. change (Buffer_str (Buffer_of_string hdr)) with hdr in Hbs.
  pose proof (th_set_cksum_valid _ v (th_set_ports_valid _ sport dport V Rsp Rdp) Hv) as V1.
  destruct (TCPSegment_parse_spec TCPSegment_default b (IPv4Header_pseudo_cksum h)
    (th_set_cksum (th_set_ports (ts_header seg) sport dport) v) hdr (Buffer_str (ts_payload seg)))
    as (seg' & Et & Hh' & Hp' & _); try done.
  exists seg'. split; [exact Et|]. apply (on_wire_same _ _ sport dport). by exists v.
Qed.

Lemma transports_carried seg d bl : transports seg d -> IPv4Datagram_serialize d = Ok bl ->
  20 <= zlen (BufferList_concatenate bl) < W16 /\ carried seg (BufferList_concatenate bl).
Proof.
  intros [Hdv Ht] Es. destruct (IPv4Datagram_serialize_ok _ Hdv) as (c & Hc & Hchk & Es'). rewrite Es in Es'. injection Es' as ->.
  destruct Hdv as (Vh & _ & Hl). pose proof (ip_set_cksum_valid _ c Vh Hc) as Vc.
  rewrite concatenate_cons. change (Buffer_str (Buffer_of_string ?x)) with x. split.
  { rewrite zlen_app, (ip_bytes_len _ Vc). cbn [ip_set_cksum ip_hlen]. destruct Vh. zlia. }
  intros buf Hb Hbs.
  destruct (IPv4Datagram_parse_ok IPv4Datagram_default buf (ip_set_cksum (ipd_header d) c) (BufferList_concatenate (ipd_payload d)))
    as (b & Ep & Hbw & Hbb); try done.
  destruct (Ht b Hbw Hbb) as (seg' & Et & Hs). by eexists _, b, seg'.
Qed.

Lemma wrap_carried s seg : inet_adapter s -> TCPHeader_valid (ts_header seg) -> Buffer_wf (ts_payload seg) ->
  20 + 4 * th_doff (ts_header seg) + zlen (Buffer_str (ts_payload seg)) < W16 ->
  exists d seg' bl, wrap_tcp_in_ip s seg = Ok (d, seg') /\ datagram_valid d /\ IPv4Datagram_serialize d = Ok bl /\
    20 <= zlen (BufferList_concatenate bl) < W16 /\ carried seg (BufferList_concatenate bl).
Proof.
  intros (src & sport & dst & dport & C & Rs & Rsp & Rd & Rdp) V Hwf Hlen.
  destruct (wrap_transports s seg src sport dst dport C Rs Rsp Rd Rdp V Hwf Hlen) as (d & seg' & Ew & Ht & _).
  destruct (IPv4Datagram_serialize_ok d (proj1 Ht)) as (c & _ & _ & Es). eexists d, seg', _. split; [done|]. split; [apply Ht|].
  split; [exact Es|]. by apply (transports_carried seg d).
Qed.

(** A segment that comes out was parsed from the datagram's payload. *)
Lemma unwrap_result h b s seg s' : unwrap_tcp_in_ip (mkIPv4Datagram h [b]) s = (Ok (Some seg), s') ->
  TCPSegment_parse TCPSegment_default b (IPv4Header_pseudo_cksum h) = Ok (NoError, seg).
Proof.
  unfold unwrap_tcp_in_ip. cbn [ipd_header ipd_payload BufferList_to_Buffer]. intros E.
  invert_method E; injection E as <- _; congruence.
Qed.

Lemma carried_read seg bs r seg' r' : carried seg bs -> zlen bs < W64 ->
  TunAdapter_read bs r = (Ok (Some seg'), r') -> same_data seg seg'.
Proof.
  intros Hc Hl E. destruct (Hc (Buffer_of_string bs)) as (h & b & seg1 & Ep & Et & Hs); [by apply Buffer_wf_of_string|done|].
  unfold TunAdapter_read in E. rewrite Ep in E. rewrite run_lift in E. cbn in E. apply unwrap_result in E. congruence.
Qed.

(** The bytes the adapter writes parse as a datagram between the endpoints with the segment
    in it. *)
Lemma tun_write_parses s seg src sport dst dport : connects s src sport dst dport ->
  0 <= src < W32 -> 0 <= sport < W16 -> 0 <= dst < W32 -> 0 <= dport < W16 ->
  TCPHeader_valid (ts_header seg) -> Buffer_wf (ts_payload seg) ->
  20 + 4 * th_doff (ts_header seg) + zlen (Buffer_str (ts_payload seg)) < W16 ->
  exists bl h b seg', TunAdapter_write seg s = (Ok bl, s) /\
    IPv4Datagram_parse IPv4Datagram_default (Buffer_of_string (BufferList_concatenate bl)) = Ok (NoError, mkIPv4Datagram h [b]) /\
    TCPSegment_parse TCPSegment_default b (IPv4Header_pseudo_cksum h) = Ok (NoError, seg') /\
    IPv4Header_valid h /\ datagram_to h src dst /\ TCPHeader_valid (ts_header seg') /\ on_wire seg seg' sport dport.
Proof.
  intros C Rs Rsp Rd Rdp V Hwf Hlen.
  destruct (wrap_tcp_ok s seg src sport dst dport C Rs Rsp Rd Rdp V Hwf Hlen)
    as (h & seg1 & hdr & v & Ew & Hto & Hdv & Hv & Eh & Hck).
  destruct (IPv4Datagram_serialize_ok _ Hdv) as (c & Hc & Hchk & Es). cbn [ipd_header ipd_payload] in *.
  set (bl := Buffer_of_string (ip_bytes (ip_set_cksum h c)) :: _ :: _) in Es. exists bl, (ip_set_cksum h c).
  assert (Hcat : BufferList_concatenate bl = ip_bytes (ip_set_cksum h c) ++ hdr ++ Buffer_str (ts_payload seg))
    by (unfold bl; by rewrite !concatenate_cons, app_nil_r).
  assert (Hpl : BufferList_concatenate [Buffer_of_string hdr; ts_payload seg] = hdr ++ Buffer_str (ts_payload seg))
    by (by rewrite !concatenate_cons, app_nil_r).
  destruct Hdv as (Vh & _ & Hl). cbn [ipd_header ipd_payload] in *. rewrite Hpl in Hl.
  pose proof (ip_set_cksum_valid h c Vh Hc) as Vc.
  destruct (IPv4Datagram_parse_ok IPv4Datagram_default (Buffer_of_string (BufferList_concatenate bl))
    (ip_set_cksum h c) (hdr ++ Buffer_str (ts_payload seg))) as (b & Ep & Hbw & Hbs); try done.
  { apply Buffer_wf_of_string. rewrite Hcat, zlen_app, (ip_bytes_len _ Vc). destruct Vh. simpl. lia. }
  pose proof (th_set_cksum_valid _ v (th_set_ports_valid _ sport dport V Rsp Rdp) Hv) as V1.
  destruct (TCPSegment_parse_spec TCPSegment_default b (IPv4Header_pseudo_cksum h)
    (th_set_cksum (th_set_ports (ts_header seg) sport dport) v) hdr (Buffer_str (ts_payload seg)))
    as (seg' & Et & Hh' & Hp' & _); try done.
  exists b, seg'. split; [|split; [exact Ep|split; [exact Et|split; [done|split; [exact Hto|split; [by rewrite Hh'|by exists v]]]]]].
  unfold TunAdapter_write. mrun. unfold id. rewrite Ew. mrun. unfold lift. rewrite Es. reflexivity.
Qed.

(** C23: TCP over IPv4 over TUN delivers: for every segment with a valid header that fits a
    datagram, the bytes the sending adapter writes are read by the peer's adapter
    (connected to the sender, or listening on the port when the segment is a SYN) as
    the same segment, with the connection's ports and the checksum filled in;
    afterwards the reader is connected to the sender. *)
Theorem tcp_over_ip_delivers s r seg src sport dst dport :
  connects s src sport dst dport -> accepts r src sport dst dport (ts_header seg) ->
  0 <= src < W32 -> 0 <= sport < W16 -> 0 <= dst < W32 -> 0 <= dport < W16 ->
  TCPHeader_valid (ts_header seg) -> Buffer_wf (ts_payload seg) ->
  20 + 4 * th_doff (ts_header seg) + zlen (Buffer_str (ts_payload seg)) < W16 ->
  exists bl seg' r', TunAdapter_write seg s = (Ok bl, s) /\
    TunAdapter_read (BufferList_concatenate bl) r = (Ok (Some seg'), r') /\
    on_wire seg seg' sport dport /\ fb_listen r' = false /\ connects r' dst dport src sport.
Proof.
  intros C A Rs Rsp Rd Rdp V Hwf Hlen.
  destruct (tun_write_parses s seg src sport dst dport C Rs Rsp Rd Rdp V Hwf Hlen) as (bl & h & b & seg' & Ew & Ep & Et & _ & Hto & V' & v & Hh' & Hp').
  destruct (unwrap_accepts r h b seg' src dst) as (r' & Eu & Hn & Hc').
  - exact Hto.
  - by apply valid_typed.
  - exact Et.
  - rewrite Hh'. exact A.
  - rewrite Hh' in Hc'. exists bl, seg', r'. split; [done|]. split; [|split; [by exists v|done]].
    unfold TunAdapter_read. rewrite Ep. mrun. rewrite bool_decide_eq_true_2 by done. exact Eu.
Qed.

(** Two hosts, 10.0.0.1:1234 and 10.0.0.2:80; the second listens. *)
Definition demo_client : FdAdapterBase :=
  mkFdAdapterBase (mkFdAdapterConfig (inet 167772161 1234) (inet 167772162 80) 0 0) false.
Definition demo_server : FdAdapterBase :=
  mkFdAdapterBase (mkFdAdapterConfig (inet 0 80) (inet 0 0) 0 0) true.

Lemma tcp_over_ip_delivers_witness : exists bl seg' r',
  TunAdapter_write sample_segment demo_client = (Ok bl, demo_client) /\
  TunAdapter_read (BufferList_concatenate bl) demo_server = (Ok (Some seg'), r') /\
  on_wire sample_segment seg' 1234 80 /\ fb_listen r' = false /\ connects r' 167772162 80 167772161 1234.
Proof.
  apply (tcp_over_ip_delivers demo_client demo_server sample_segment 167772161 1234 167772162 80).
  - split; reflexivity.
  - split; [reflexivity|split; reflexivity].
  - lia.
  - lia.
  - lia.
  - lia.
  - split; vm_compute; split; congruence.
  - repeat split; vm_compute; congruence.
  - reflexivity.
Defined.

Lemma tun_read_total s from_tun : inet_adapter s -> zlen from_tun < W64 ->
  exists o s', TunAdapter_read from_tun s = (Ok o, s') /\ inet_adapter s' /\ readable (zlen from_tun) o /\
    match o with
    | None => s' = s
    | Some seg => exists d, IPv4Datagram_parse IPv4Datagram_default (Buffer_of_string from_tun) = Ok (NoError, d) /\
        unwrapped s (ipd_header d) (Some seg) s'
    end.
Proof.
  intros Hs Hl.
  destruct (IPv4Datagram_parse_total (zlen from_tun) IPv4Datagram_default (Buffer_of_string from_tun))
    as (r & h & b & E & Hb & Hh); [split; [by apply Buffer_wf_of_string|done]|apply IPv4Header_default_typed|].
  unfold TunAdapter_read. rewrite E. mrun. case_bool_decide as Hr; cbn [negb]; [|by exists None, s].
  destruct (unwrap_total _ s h b Hs Hh Hb) as (o & s' & Eu & Hi & Hu & Ho). exists o, s'. split; [done|]. split; [done|].
  split; [done|]. destruct o as [seg|]; [|done]. subst r. by eexists.
Qed.

(** a TUN adapter survives anything the device delivers: on every byte string,
    reading neither throws nor loses the adapter's IPv4 endpoints; it returns either
    nothing, leaving the adapter as it was, or a segment of a TCP datagram between
    the adapter's endpoints and ports; a connected adapter is unchanged, a listening
    one got a SYN without RST for its port and is now connected to its sender. *)
Theorem tun_read_filters s from_tun : inet_adapter s -> zlen from_tun < W64 ->
  exists o s', TunAdapter_read from_tun s = (Ok o, s') /\ inet_adapter s' /\
    match o with
    | None => s' = s
    | Some seg => exists d, IPv4Datagram_parse IPv4Datagram_default (Buffer_of_string from_tun) = Ok (NoError, d) /\
        unwrapped s (ipd_header d) (Some seg) s'
    end.
Proof.
  intros Hs Hl. destruct (tun_read_total s from_tun Hs Hl) as (o & s' & E & Hi & _ & Ho). by exists o, s'.
Qed.

Lemma tun_read_filters_witness : exists o s',
  TunAdapter_read bad_datagram_bytes demo_client = (Ok o, s') /\ inet_adapter s'.
Proof.
  destruct (tun_read_filters demo_client bad_datagram_bytes) as (o & s' & H1 & H2 & _).
  - exists 167772161, 1234, 167772162, 80. split; [split; reflexivity|lia].
  - reflexivity.
  - exists o, s'. split; [exact H1|exact H2].
Defined.

Lemma udp_read_total r from payload : zlen payload < W64 ->
  exists o r', UDPAdapter_read (from, payload) r = (Ok o, r') /\ readable (zlen payload) o /\
    match o with
    | None => r' = r
    | Some seg' =>
        if fb_listen r
        then th_syn (ts_header seg') = true /\ th_rst (ts_header seg') = false /\
             r' = set_listening false (set_destination from r)
        else r' = r /\ Address_eqb from (fa_destination (fb_cfg r)) = true
    end.
Proof.
  intros Hlen. destruct (TCPSegment_default_typed (zlen payload)) as [D1 D2]; [zlia|].
  destruct (TCPSegment_parse_total (zlen payload) TCPSegment_default (Buffer_of_string payload) 0)
    as (res & seg' & E & Ht & Hp); [split; [by apply Buffer_wf_of_string|done]|done|done|done|].
  unfold UDPAdapter_read. mrun. rewrite E. destruct (fb_listen r) eqn:El; cbn [negb andb].
  - mrun. destruct (bool_decide _); cbn [negb]; [|by exists None, r].
    destruct (th_syn (ts_header seg')) eqn:Es; cbn [andb]; [|by exists None, r].
    destruct (th_rst (ts_header seg')) eqn:Er; cbn [negb]; [by exists None, r|]. mrun. by eexists _, _.
  - destruct (Address_eqb _ _) eqn:Ea; cbn [negb]; [|by exists None, r]. mrun.
    destruct (bool_decide _); cbn [negb]; [|by exists None, r]. by eexists _, _.
Qed.

(** TCP over UDP delivers and filters: a datagram written by one adapter is read by
    the peer's, connected to the sender or listening, as the same segment; and on
    any datagram reading returns a segment only when it came from the destination,
    or for a listening adapter when it is a SYN without RST, whose sender becomes
    the destination. *)
Theorem udp_adapter_delivers_and_filters s r seg src sport dst dport :
  connects s src sport dst dport ->
  0 <= src < W32 -> 0 <= sport < W16 -> 0 <= dst < W32 -> 0 <= dport < W16 ->
  TCPHeader_valid (ts_header seg) -> Buffer_wf (ts_payload seg) -> segment_fits seg 0 ->
  (if fb_listen r then th_syn (ts_header seg) = true /\ th_rst (ts_header seg) = false
   else fa_destination (fb_cfg r) = inet src sport) ->
  (exists bl seg' r', UDPAdapter_write seg s = (Ok (inet dst dport, bl), s) /\
     UDPAdapter_read (inet src sport, BufferList_concatenate bl) r = (Ok (Some seg'), r') /\
     on_wire seg seg' sport dport /\ fb_listen r' = false /\ fa_destination (fb_cfg r') = inet src sport) /\
  (forall from payload, zlen payload < W64 ->
     exists o r', UDPAdapter_read (from, payload) r = (Ok o, r') /\
       match o with
       | None => r' = r
       | Some seg' =>
           if fb_listen r
           then th_syn (ts_header seg') = true /\ th_rst (ts_header seg') = false /\
                r' = set_listening false (set_destination from r)
           else r' = r /\ Address_eqb from (fa_destination (fb_cfg r)) = true
       end).
Proof.
  intros [C1 C2] Rs Rsp Rd Rdp V Hwf Hfit Hr. split.
  - set (seg1 := mkTCPSegment (th_set_ports (ts_header seg) sport dport) (ts_payload seg)).
    destruct (TCPSegment_serialize_spec seg1 0 (th_set_ports_valid _ _ _ V Rsp Rdp) Hfit)
      as (v & hdr & Hv & E & Eh & Hl & Hck).
    set (bl := [Buffer_of_string hdr; ts_payload seg1]) in *. exists bl.
    assert (Hc : BufferList_concatenate bl = hdr ++ Buffer_str (ts_payload seg))
      by (unfold bl; by rewrite !concatenate_cons, app_nil_r).
    destruct (TCPSegment_parse_spec TCPSegment_default (Buffer_of_string (BufferList_concatenate bl)) 0
      (th_set_cksum (ts_header seg1) v) hdr (Buffer_str (ts_payload seg))) as (seg' & Et & Hh & Hp & _); try done.
    { apply Buffer_wf_of_string. rewrite Hc, zlen_app, Hl. destruct Hfit. simpl. pose proof (tv_doff _ V). zlia. }
    { apply th_set_cksum_valid; [by apply th_set_ports_valid|done]. }
    exists seg'. unfold UDPAdapter_write, UDPAdapter_read. mrun. rewrite C1, C2, !port_inet by done. mrun.
    fold seg1. rewrite E. mrun. rewrite Et. destruct (fb_listen r) eqn:El.
    + destruct Hr as [Hsyn Hrst]. cbn [negb andb]. mrun. rewrite bool_decide_eq_true_2 by done. cbn [negb]. rewrite Hh. cbn [ts_header seg1 th_syn th_rst th_set_cksum th_set_ports].
      rewrite Hsyn, Hrst. cbn [negb andb]. mrun. eexists. split; [reflexivity|]. split; [reflexivity|].
      split; [|by split]. by exists v.
    + rewrite Hr, inet_eqb, !Z.eqb_refl by done. cbn [negb andb]. mrun. rewrite bool_decide_eq_true_2 by done.
      exists r. split; [done|]. split; [done|]. split; [by exists v|done].
  - intros from payload Hlen. destruct (udp_read_total r from payload Hlen) as (o & r' & E & _ & Ho). by exists o, r'.
Qed.

Lemma udp_adapter_delivers_and_filters_witness : exists bl seg' r',
  UDPAdapter_write sample_segment demo_client = (Ok (inet 167772162 80, bl), demo_client) /\
  UDPAdapter_read (inet 167772161 1234, BufferList_concatenate bl) demo_server = (Ok (Some seg'), r') /\
  on_wire sample_segment seg' 1234 80 /\ fb_listen r' = false /\ fa_destination (fb_cfg r') = inet 167772161 1234.
Proof.
  apply (udp_adapter_delivers_and_filters demo_client demo_server sample_segment 167772161 1234 167772162 80).
  - split; reflexivity.
  - lia.
  - lia.
  - lia.
  - lia.
  - split; vm_compute; split; congruence.
  - repeat split; vm_compute; congruence.
  - split; [lia|reflexivity].
  - split; reflexivity.
Defined.
