(* ===== verification/CommandLine.v ===== *)
(** * Command lines

    Models [get_config] of [apps/tcp_udp.cc], [apps/tcp_ipv4.cc] and
    [apps/tcp_ip_ethernet.cc], which turn the options of a program into the configuration
    of a connection and its adapter, and the functions of the C library they use on
    strings. Three things are parameters: [getaddrinfo], the value of a loss rate (a product
    of [float]s, before its conversion to 16 bits) and the random port. *)

From stdpp Require Import pretty.
From Stdlib Require Import String Ascii.
From S2P Require Import Prelude WrappingInts Buffers Parser Addresses Adapters Sender Connection.

(** ** The C library *)

(** [strncmp(s1, s2, n) == 0] for strings that end at their first NUL. *)
Fixpoint strncmp_eq (s1 s2 : string) (n : nat) : bool :=
  match n, s1, s2 with
  | O, _, _ => true
  | S _, EmptyString, EmptyString => true
  | S n', String c1 s1', String c2 s2' => Ascii.eqb c1 c2 && strncmp_eq s1' s2' n'
  | S _, _, _ => false
  end.

Definition code (c : ascii) : Z := Z.of_N (N_of_ascii c).

Definition isspace (c : ascii) : bool := (code c =? 32) || ((9 <=? code c) && (code c <=? 13)).

(** The value of a digit, 36 for other characters. *)
Definition digit (c : ascii) : Z :=
  let v := code c in
  if (48 <=? v) && (v <=? 57) then v - 48
  else if (97 <=? v) && (v <=? 122) then v - 87
  else if (65 <=? v) && (v <=? 90) then v - 55
  else 36.

Fixpoint digits (base acc : Z) (s : string) : Z :=
  match s with
  | String c s' => if digit c <? base then digits base (acc * base + digit c) s' else acc
  | EmptyString => acc
  end.

Fixpoint skip_space (s : string) : string :=
  match s with String c s' => if isspace c then skip_space s' else s | EmptyString => s end.

(** Base 0: hexadecimal after 0x, octal after 0, decimal otherwise. *)
Definition based (s : string) : Z :=
  match s with
  | String "0" (String x (String h _ as hex)) =>
      if ((code x =? 120) || (code x =? 88)) && (digit h <? 16) then digits 16 0 hex else digits 8 0 s
  | String "0" _ => digits 8 0 s
  | _ => digits 10 0 s
  end.

Definition LONG_MAX : Z := 9223372036854775807.

(** [strtol(s, nullptr, 0)] *)
Definition strtol (s : string) : Z :=
  let v := match skip_space s with
           | String "-" s' => - based s'
           | String "+" s' => based s'
           | s' => based s'
           end in
  Z.max (- LONG_MAX - 1) (Z.min LONG_MAX v).

(** A function that returns or ends the program with [exit]. *)
Inductive run (A : Type) : Type :=
| Returns (a : A)
| Exits (code : Z).
Arguments Returns {A} a.
Arguments Exits {A} code.

(** [argv[i]] *)
Definition argv_at (argv : list string) (i : Z) : res string :=
  match znth argv i with Some s => Ok s | None => Throw (UB "argv out of range") end.

(** ** The options *)

(** The local variables of the three functions. *)
Record Options : Type := mkOptions {
  op_c_fsm : TCPConfig;
  op_loss_rate_dn : Z;
  op_loss_rate_up : Z;
  op_listen : bool;
  op_device : option string;
  op_source_address : string;
  op_source_port : string;
  op_next_hop_address : string
}.

Definition set_recv_capacity (v : Z) (o : Options) : Options :=
  let c := op_c_fsm o in
  mkOptions (mkTCPConfig (cfg_rt_timeout c) v (cfg_send_capacity c) (cfg_fixed_isn c)) (op_loss_rate_dn o) (op_loss_rate_up o)
    (op_listen o) (op_device o) (op_source_address o) (op_source_port o) (op_next_hop_address o).
Definition set_rt_timeout (v : Z) (o : Options) : Options :=
  let c := op_c_fsm o in
  mkOptions (mkTCPConfig v (cfg_recv_capacity c) (cfg_send_capacity c) (cfg_fixed_isn c)) (op_loss_rate_dn o) (op_loss_rate_up o)
    (op_listen o) (op_device o) (op_source_address o) (op_source_port o) (op_next_hop_address o).
Definition set_loss_dn (v : Z) (o : Options) : Options :=
  mkOptions (op_c_fsm o) v (op_loss_rate_up o) (op_listen o) (op_device o) (op_source_address o) (op_source_port o) (op_next_hop_address o).
Definition set_loss_up (v : Z) (o : Options) : Options :=
  mkOptions (op_c_fsm o) (op_loss_rate_dn o) v (op_listen o) (op_device o) (op_source_address o) (op_source_port o) (op_next_hop_address o).
Definition set_listen (v : bool) (o : Options) : Options :=
  mkOptions (op_c_fsm o) (op_loss_rate_dn o) (op_loss_rate_up o) v (op_device o) (op_source_address o) (op_source_port o) (op_next_hop_address o).
Definition set_device (v : string) (o : Options) : Options :=
  mkOptions (op_c_fsm o) (op_loss_rate_dn o) (op_loss_rate_up o) (op_listen o) (Some v) (op_source_address o) (op_source_port o) (op_next_hop_address o).
Definition set_source_address (v : string) (o : Options) : Options :=
  mkOptions (op_c_fsm o) (op_loss_rate_dn o) (op_loss_rate_up o) (op_listen o) (op_device o) v (op_source_port o) (op_next_hop_address o).
Definition set_source_port (v : string) (o : Options) : Options :=
  mkOptions (op_c_fsm o) (op_loss_rate_dn o) (op_loss_rate_up o) (op_listen o) (op_device o) (op_source_address o) v (op_next_hop_address o).
Definition set_next_hop (v : string) (o : Options) : Options :=
  mkOptions (op_c_fsm o) (op_loss_rate_dn o) (op_loss_rate_up o) (op_listen o) (op_device o) (op_source_address o) (op_source_port o) v.

(** What the chain of comparisons makes of [argv[curr]]. *)
Inductive action : Type :=
| Flag (f : Options -> Options)
| Valued (f : string -> Options -> res Options)
| Help
| Unrecognized.

Section Options.
(** The integral part of [static_cast<float>(65535) * strtof(s, nullptr)]; [None] when the
    product is infinite or not a number. *)
Context (loss_rate : string -> option Z).

(** [static_cast<uint16_t>] of that [float]: defined only when the integral part fits. *)
Definition to_uint16 (integral_part : option Z) : res Z :=
  match integral_part with
  | Some v => if (0 <=? v) && (v <? 65536) then Ok v else Throw (UB "float out of the range of uint16_t")
  | None => Throw (UB "float out of the range of uint16_t")
  end.

(** [c_fsm.recv_capacity = strtol(...)] and [c_fsm.rt_timeout = strtol(...)] *)
Definition window_option (s : string) (o : Options) : res Options := Ok (set_recv_capacity (u64 (strtol s)) o).
Definition timeout_option (s : string) (o : Options) : res Options := Ok (set_rt_timeout (u16 (strtol s)) o).

Definition loss_option (set : Z -> Options -> Options) (s : string) (o : Options) : res Options :=
  v ← to_uint16 (loss_rate s); Ok (set v o).

(** An option whose value is kept as a string. *)
Definition text_option (set : string -> Options -> Options) (s : string) (o : Options) : res Options := Ok (set s o).

Definition udp_action (a : string) : action :=
  if strncmp_eq "-l" a 3 then Flag (set_listen true)
  else if strncmp_eq "-w" a 3 then Valued window_option
  else if strncmp_eq "-t" a 3 then Valued timeout_option
  else if strncmp_eq "-Lu" a 3 then Valued (loss_option set_loss_up)
  else if strncmp_eq "-Ld" a 3 then Valued (loss_option set_loss_dn)
  else if strncmp_eq "-h" a 3 then Help
  else Unrecognized.

Definition ipv4_action (a : string) : action :=
  if strncmp_eq "-l" a 3 then Flag (set_listen true)
  else if strncmp_eq "-a" a 3 then Valued (text_option set_source_address)
  else if strncmp_eq "-s" a 3 then Valued (text_option set_source_port)
  else if strncmp_eq "-w" a 3 then Valued window_option
  else if strncmp_eq "-t" a 3 then Valued timeout_option
  else if strncmp_eq "-d" a 3 then Valued (text_option set_device)
  else if strncmp_eq "-Lu" a 3 then Valued (loss_option set_loss_up)
  else if strncmp_eq "-Ld" a 3 then Valued (loss_option set_loss_dn)
  else if strncmp_eq "-h" a 3 then Help
  else Unrecognized.

Definition ethernet_action (a : string) : action :=
  if strncmp_eq "-a" a 3 then Valued (text_option set_source_address)
  else if strncmp_eq "-s" a 3 then Valued (text_option set_source_port)
  else if strncmp_eq "-n" a 3 then Valued (text_option set_next_hop)
  else if strncmp_eq "-w" a 3 then Valued window_option
  else if strncmp_eq "-t" a 3 then Valued timeout_option
  else if strncmp_eq "-d" a 3 then Valued (text_option set_device)
  else if strncmp_eq "-h" a 3 then Help
  else Unrecognized.

(** [check_argc(argc, argv, curr, err)]: whether it ends the program. *)
Definition check_argc (argv : list string) (curr : Z) : bool := zlen argv <=? curr + 3.

(** [while (argc - curr > 2)]: where it stops, and the options. *)
Fixpoint options_loop (fuel : nat) (act : string -> action) (argv : list string) (curr : Z) (o : Options)
  : res (run (Z * Options)) :=
  match fuel with
  | O => NoFuel
  | S fuel' =>
      if 2 <? zlen argv - curr then
        a ← argv_at argv curr;
        match act a with
        | Flag f => options_loop fuel' act argv (curr + 1) (f o)
        | Valued f =>
            if check_argc argv curr then Ok (Exits 1)
            else v ← argv_at argv (curr + 1); o' ← f v o; options_loop fuel' act argv (curr + 2) o'
        | Help => Ok (Exits 0)
        | Unrecognized => Ok (Exits 1)
        end
      else Ok (Returns (curr, o))
  end.

(** Each turn passes an argument. *)
Definition options (act : string -> action) (argv : list string) (o : Options) : res (run (Z * Options)) :=
  options_loop (S (List.length argv)) act argv 1 o.

(** ** The configurations *)

(** [getaddrinfo(node, service)] with the hints of [Address(hostname, service)]: an error
    code, or the first result if there is one. *)
Context (getaddrinfo : string -> string -> Z + option bytes).

Definition Address_resolve (node service : string) : res Address :=
  match getaddrinfo node service with
  | inl gai_ret => Throw (tagged_error "gai_error_category" ("getaddrinfo(" +:+ node +:+ ", " +:+ service +:+ ")") gai_ret)
  | inr None => Throw (runtime_error "getaddrinfo returned successfully but with no results")
  | inr (Some addr) => Address_of_sockaddr addr (zlen addr)
  end.

Definition start_options (source_address source_port next_hop_address : string) : Options :=
  mkOptions TCPConfig_default 0 0 false None source_address source_port next_hop_address.

Definition filter_config (source destination : Address) (o : Options) : FdAdapterConfig :=
  mkFdAdapterConfig source destination (op_loss_rate_dn o) (op_loss_rate_up o).

Definition udp_get_config (argv : list string) : res (run (TCPConfig * FdAdapterConfig * bool)) :=
  r ← options udp_action argv (start_options "" "" "");
  match r with
  | Exits c => Ok (Exits c)
  | Returns (_, o) =>
      let argc := zlen argv in
      if op_listen o then
        p ← argv_at argv (argc - 1);
        source ← Address_resolve "0" p;
        Ok (Returns (op_c_fsm o, filter_config source (inet 0 0) o, true))
      else
        h ← argv_at argv (argc - 2);
        p ← argv_at argv (argc - 1);
        destination ← Address_resolve h p;
        Ok (Returns (op_c_fsm o, filter_config (inet 0 0) destination o, false))
  end.

Definition ipv4_LOCAL_ADDRESS_DFLT : string := "169.254.144.9".

Definition ipv4_get_config (random : Z) (argv : list string) : res (run (TCPConfig * FdAdapterConfig * bool * option string)) :=
  r ← options ipv4_action argv (start_options ipv4_LOCAL_ADDRESS_DFLT (pretty (u16 random)) "");
  match r with
  | Exits c => Ok (Exits c)
  | Returns (curr, o) =>
      if op_listen o then
        p ← argv_at argv (curr + 1);
        source ← Address_resolve "0" p;
        port ← Address_port source;
        if port =? 0 then Ok (Exits 1)
        else Ok (Returns (op_c_fsm o, filter_config source (inet 0 0) o, true, op_device o))
      else
        h ← argv_at argv curr;
        p ← argv_at argv (curr + 1);
        destination ← Address_resolve h p;
        source ← Address_resolve (op_source_address o) (op_source_port o);
        Ok (Returns (op_c_fsm o, filter_config source destination o, false, op_device o))
  end.

Definition TAP_DFLT : string := "tap10".
Definition ethernet_LOCAL_ADDRESS_DFLT : string := "169.254.10.9".
Definition GATEWAY_DFLT : string := "169.254.10.1".

Definition ethernet_get_config (random : Z) (argv : list string) : res (run (TCPConfig * FdAdapterConfig * Address * string)) :=
  r ← options ethernet_action argv (start_options ethernet_LOCAL_ADDRESS_DFLT (pretty (u16 random)) GATEWAY_DFLT);
  match r with
  | Exits c => Ok (Exits c)
  | Returns (curr, o) =>
      h ← argv_at argv curr;
      p ← argv_at argv (curr + 1);
      destination ← Address_resolve h p;
      source ← Address_resolve (op_source_address o) (op_source_port o);
      next_hop ← Address_resolve (op_next_hop_address o) "0";
      Ok (Returns (op_c_fsm o, filter_config source destination o, next_hop, default TAP_DFLT (op_device o)))
  end.
End Options.

(** ** What a command line means *)

Inductive arg : Type :=
| A_listen
| A_source_address (v : string)
| A_source_port (v : string)
| A_next_hop (v : string)
| A_window (v : string)
| A_timeout (v : string)
| A_device (v : string)
| A_loss_up (suffix v : string)
| A_loss_dn (suffix v : string).

(** The words of an option; whatever follows -Lu and -Ld in their word is ignored. *)
Definition words (a : arg) : list string :=
  match a with
  | A_listen => ["-l"]
  | A_source_address v => ["-a"; v]
  | A_source_port v => ["-s"; v]
  | A_next_hop v => ["-n"; v]
  | A_window v => ["-w"; v]
  | A_timeout v => ["-t"; v]
  | A_device v => ["-d"; v]
  | A_loss_up suffix v => ["-Lu" +:+ suffix; v]
  | A_loss_dn suffix v => ["-Ld" +:+ suffix; v]
  end%string.

Inductive program : Type := tcp_udp | tcp_ipv4 | tcp_ip_ethernet.

(** The options a program knows. *)
Definition knows (p : program) (a : arg) : bool :=
  match a, p with
  | (A_window _ | A_timeout _), _ => true
  | (A_listen | A_loss_up _ _ | A_loss_dn _ _), (tcp_udp | tcp_ipv4) => true
  | (A_source_address _ | A_source_port _ | A_device _), (tcp_ipv4 | tcp_ip_ethernet) => true
  | A_next_hop _, tcp_ip_ethernet => true
  | _, _ => false
  end.

Section Meaning.
Context (loss_rate : string -> option Z).

Definition act_of (p : program) : string -> action :=
  match p with tcp_udp => udp_action loss_rate | tcp_ipv4 => ipv4_action loss_rate | tcp_ip_ethernet => ethernet_action end.

Definition effect (a : arg) (o : Options) : res Options :=
  match a with
  | A_listen => Ok (set_listen true o)
  | A_source_address v => Ok (set_source_address v o)
  | A_source_port v => Ok (set_source_port v o)
  | A_next_hop v => Ok (set_next_hop v o)
  | A_window v => Ok (set_recv_capacity (u64 (strtol v)) o)
  | A_timeout v => Ok (set_rt_timeout (u16 (strtol v)) o)
  | A_device v => Ok (set_device v o)
  | A_loss_up _ v => r ← to_uint16 (loss_rate v); Ok (set_loss_up r o)
  | A_loss_dn _ v => r ← to_uint16 (loss_rate v); Ok (set_loss_dn r o)
  end.

(** The options one after the other; a later one overrides. *)
Fixpoint effects (l : list arg) (o : Options) : res Options :=
  match l with [] => Ok o | a :: l' => o' ← effect a o; effects l' o' end.

(** The argument sets a loss rate that is out of range. *)
Definition bad_rate (a : arg) : Prop :=
  match a with
  | A_loss_up _ v | A_loss_dn _ v => to_uint16 (loss_rate v) = Throw (UB "float out of the range of uint16_t")
  | _ => False
  end.

Lemma effect_cases a o : (exists o', effect a o = Ok o') \/
  bad_rate a /\ effect a o = Throw (UB "float out of the range of uint16_t").
Proof.
  destruct a; cbn; try (left; by eexists); unfold to_uint16; (destruct (loss_rate v) as [x|]; [|by right]);
    (destruct ((0 <=? x) && (x <? 65536)); [left; by eexists|by right]).
Qed.

Lemma strncmp_word c a : strncmp_eq (String "-" (String c "")) a 3 = true <-> a = String "-" (String c "").
Proof.
  split; [|intros ->; simpl; by rewrite Ascii.eqb_refl]. destruct a as [|a1 [|a2 [|a3 a]]]; cbn [strncmp_eq]; rewrite ?andb_false_r; try done.
  rewrite andb_true_r. intros [->%Ascii.eqb_eq ->%Ascii.eqb_eq]%andb_prop. done.
Qed.

Lemma strncmp_prefix c1 c2 c3 a : strncmp_eq (String c1 (String c2 (String c3 ""))) a 3 = true <->
  exists suffix, a = String c1 (String c2 (String c3 suffix)).
Proof.
  split; [|intros [suffix ->]; simpl; by rewrite !Ascii.eqb_refl]. destruct a as [|a1 [|a2 [|a3 a]]]; cbn [strncmp_eq]; rewrite ?andb_false_r; try done.
  rewrite andb_true_r. intros [->%Ascii.eqb_eq [->%Ascii.eqb_eq ->%Ascii.eqb_eq]%andb_prop]%andb_prop. by exists a.
Qed.

(** One word against the chain of comparisons. *)
Lemma action_flag p w f : act_of p w = Flag f -> exists a, knows p a = true /\ words a = [w] /\ forall o, effect a o = Ok (f o).
Proof.
  intros E. exists A_listen. destruct p; cbn [act_of] in E; unfold udp_action, ipv4_action, ethernet_action in E;
    repeat match type of E with (if strncmp_eq ?x ?y ?n then _ else _) = _ => destruct (strncmp_eq x y n) eqn:?; try discriminate E end;
    injection E as <-; (split; [done|split; [|done]]); by (apply strncmp_word in Heqb as ->).
Qed.

Lemma action_valued p w f : act_of p w = Valued f ->
  exists a, forall v, knows p (a v) = true /\ words (a v) = [w; v] /\ f v = effect (a v).
Proof.
  intros E. destruct p; cbn [act_of] in E; unfold udp_action, ipv4_action, ethernet_action in E;
    repeat match type of E with (if strncmp_eq ?x ?y ?n then _ else _) = _ => destruct (strncmp_eq x y n) eqn:?; try discriminate E end;
    injection E as <-;
    match goal with
    | H : strncmp_eq _ w 3 = true |- _ => first [apply strncmp_word in H as ->|apply strncmp_prefix in H as [suffix ->]]
    end;
    first [by exists A_source_address|by exists A_source_port|by exists A_next_hop|by exists A_window|by exists A_timeout|
           by exists A_device|by exists (A_loss_up suffix)|by exists (A_loss_dn suffix)].
Qed.

Lemma action_known p a : knows p a = true ->
  match words a with
  | [w] => exists f, act_of p w = Flag f /\ forall o, effect a o = Ok (f o)
  | [w; v] => exists f, act_of p w = Valued f /\ f v = effect a
  | _ => False
  end.
Proof. by destruct p, a; try done; intros _; eexists. Qed.

Lemma argv_at_app l k i : 0 <= i < zlen k -> argv_at (l ++ k) (zlen l + i) = argv_at k i.
Proof. intros H. unfold argv_at. rewrite znth_app_r by lia. by rewrite Z.add_simpl_l. Qed.

Lemma loop_turn p fuel done w rest o : 2 <= zlen rest ->
  options_loop (S fuel) (act_of p) (done ++ w :: rest) (zlen done) o =
  match act_of p w with
  | Flag f => options_loop fuel (act_of p) ((done ++ [w]) ++ rest) (zlen (done ++ [w])) (f o)
  | Valued f =>
      match rest with
      | v :: (_ :: _ :: _) as rest' =>
          o' ← f v o; options_loop fuel (act_of p) ((done ++ [w; v]) ++ tail rest) (zlen (done ++ [w; v])) o'
      | _ => Ok (Exits 1)
      end
  | Help => Ok (Exits 0)
  | Unrecognized => Ok (Exits 1)
  end.
Proof.
  intros Hr. cbn [options_loop]. rewrite zlen_app, zlen_cons. destruct (Z.ltb_spec 2 (zlen done + (1 + zlen rest) - zlen done)); [|lia].
  replace (argv_at (done ++ w :: rest) (zlen done)) with (Ok w).
  2:{ symmetry. rewrite <- (Z.add_0_r (zlen done)). rewrite argv_at_app by (rewrite zlen_cons; lia). done. }
  rewrite res_bind_Ok. destruct (act_of p w) as [f|f| |]; [| |done|done].
  - rewrite <- app_assoc, zlen_app. done.
  - unfold check_argc. rewrite zlen_app, zlen_cons. destruct rest as [|v [|h [|q rest]]]; try (unfold zlen in Hr; simpl in Hr; lia).
    + by destruct (Z.leb_spec (zlen done + (1 + zlen [v; h])) (zlen done + 3)) as [|Hf]; [|change (zlen [v; h]) with 2 in Hf; lia].
    + destruct (Z.leb_spec (zlen done + (1 + zlen (v :: h :: q :: rest))) (zlen done + 3)) as [Hf|_]; [rewrite !zlen_cons in Hf; zlia|].
      rewrite argv_at_app by (rewrite !zlen_cons; zlia).
      change (argv_at (w :: v :: h :: q :: rest) 1) with (Ok v). rewrite res_bind_Ok. cbn [tail].
      rewrite <- app_assoc, zlen_app. done.
Qed.

Definition joined (l : list arg) : list string := List.concat (map words l).

(** What the loop has found in the arguments [rest]. *)
Definition outcome (p : program) (argc : Z) (rest : list string) (o : Options) (r : res (run (Z * Options))) : Prop :=
  match r with
  | Ok (Returns (curr, o')) => curr = argc - 2 /\
      exists args h q, Forall (fun a => knows p a = true) args /\ rest = joined args ++ [h; q] /\ effects args o = Ok o'
  | Ok (Exits c) => c ∈ [0; 1]
  | Throw e => e = UB "float out of the range of uint16_t" /\
      exists args a rest', Forall (fun a => knows p a = true) (args ++ [a]) /\ bad_rate a /\ rest = joined (args ++ [a]) ++ rest'
  | NoFuel => False
  end.

(** One more option in front. *)
Lemma consumed p a ws argc rest o o1 r : knows p a = true -> words a = ws -> effect a o = Ok o1 ->
  outcome p argc rest o1 r -> outcome p argc (ws ++ rest) o r.
Proof.
  intros Ka <- Ea. unfold outcome, joined. destruct r as [[[curr o']|c]|e|]; [| |intros [-> H]; split; [done|]|]; try done.
  - intros (-> & args & h & q & Hk & -> & E). split; [done|]. exists (a :: args), h, q.
    split; [by constructor|]. split; [cbn [map List.concat]; by rewrite <- app_assoc|]. cbn. by rewrite Ea.
  - destruct H as (args & b & rest' & Hk & Hb & ->). exists (a :: args), b, rest'. cbn [app map List.concat].
    split; [by constructor|]. split; [done|]. by rewrite <- app_assoc.
Qed.

(** Options are taken one after the other until two arguments are left. *)
Lemma loop_sound p fuel : forall done rest o, 2 <= zlen rest -> (List.length rest < fuel + 2)%nat ->
  outcome p (zlen (done ++ rest)) rest o (options_loop fuel (act_of p) (done ++ rest) (zlen done) o).
Proof.
  induction fuel as [|fuel IH]; intros done rest o Hr Hf; [unfold zlen in Hr; lia|].
  destruct rest as [|w [|h [|q rest]]]; try (unfold zlen in Hr; simpl in Hr; lia).
  { cbn [options_loop]. rewrite zlen_app. destruct (Z.ltb_spec 2 (zlen done + zlen [w; h] - zlen done)) as [Hl|_];
      [change (zlen [w; h]) with 2 in Hl; lia|]. split; [change (zlen [w; h]) with 2; lia|]. by exists [], w, h. }
  rewrite loop_turn by (rewrite !zlen_cons; zlia). destruct (act_of p w) as [f|f| |] eqn:Ea; [| |left|right; left].
  - destruct (action_flag p w f Ea) as (a & Ka & Wa & Ef).
    specialize (IH (done ++ [w]) (h :: q :: rest) (f o) ltac:(rewrite !zlen_cons; zlia) ltac:(simpl in *; lia)).
    rewrite <- (app_assoc done [w]) in *. cbn [app] in *. apply (consumed p a [w] _ (h :: q :: rest) o (f o)); [done|done|apply Ef|exact IH].
  - destruct rest as [|q' rest]; [right; left|]. destruct (action_valued p w f Ea) as [a Ha]. destruct (Ha h) as (Ka & Wa & Ef).
    cbn [tail]. rewrite Ef. destruct (effect_cases (a h) o) as [[o1 E1]|[Hb E1]]; rewrite E1; cbn [mbind res_bind].
    + specialize (IH (done ++ [w; h]) (q :: q' :: rest) o1 ltac:(rewrite !zlen_cons; zlia) ltac:(simpl in *; lia)).
      rewrite <- (app_assoc done [w; h]) in *. cbn [app] in *. apply (consumed p (a h) [w; h] _ (q :: q' :: rest) o o1); [done|done|done|exact IH].
    + split; [done|]. exists [], (a h), (q :: q' :: rest). split; [by repeat constructor|]. split; [done|].
      unfold joined. cbn. by rewrite Wa.
Qed.

Lemma loop_complete p args : forall fuel done h q o o', Forall (fun a => knows p a = true) args ->
  (List.length (joined args) < fuel)%nat -> effects args o = Ok o' ->
  options_loop fuel (act_of p) (done ++ joined args ++ [h; q]) (zlen done) o =
    Ok (Returns (zlen (done ++ joined args ++ [h; q]) - 2, o')).
Proof.
  induction args as [|a args IH]; intros [|fuel] done h q o o' Hk Hf He; try lia.
  { cbn [options_loop]. rewrite zlen_app. destruct (Z.ltb_spec 2 (zlen done + zlen (joined [] ++ [h; q]) - zlen done)) as [Hl|_];
      [change (zlen (joined [] ++ [h; q])) with 2 in Hl; lia|]. injection He as <-.
    do 2 f_equal. f_equal. change (zlen (joined [] ++ [h; q])) with 2. lia. }
  apply Forall_cons in Hk as [Ka Hk]. pose proof (action_known p a Ka) as Ha.
  assert (Hz : 2 <= zlen (joined args ++ [h; q])) by (rewrite zlen_app; change (zlen [h; q]) with 2; zlia).
  change (joined (a :: args)) with (words a ++ joined args). change (joined (a :: args)) with (words a ++ joined args) in Hf.
  rewrite length_app in Hf. rewrite <- !(app_assoc (words a)). cbn [effects] in He.
  destruct (effect a o) as [o1| |] eqn:E1; try discriminate He. cbn [mbind res_bind] in He.
  destruct (words a) as [|w [|v [|]]]; try done; cbn [app].
  - destruct Ha as (f & Ef & Ev). rewrite Ev in E1. injection E1 as <-. rewrite loop_turn by done.
    rewrite Ef. rewrite (IH fuel (done ++ [w]) h q (f o) o') by (simpl in Hf; done || lia). by rewrite <- app_assoc.
  - destruct Ha as (f & Ef & Ev). rewrite loop_turn by (rewrite zlen_cons; lia). rewrite Ef. cbn [tail].
    destruct (joined args ++ [h; q]) as [|x [|y l]] eqn:El; try (unfold zlen in Hz; simpl in Hz; lia).
    rewrite <- El, Ev, E1. cbn [mbind res_bind]. rewrite (IH fuel (done ++ [w; v]) h q o1 o') by (simpl in Hf; done || lia).
    by rewrite <- app_assoc.
Qed.

(** No word merely begins like a loss option. *)
Definition plain_word (w : string) : bool :=
  negb (strncmp_eq "-Lu" w 3 || strncmp_eq "-Ld" w 3) || String.eqb w "-Lu" || String.eqb w "-Ld".

(** The options as the usage text has them: -Lu and -Ld are words of their own. *)
Definition documented (p : program) (a : arg) : bool :=
  knows p a && match a with A_loss_up suffix _ | A_loss_dn suffix _ => String.eqb suffix "" | _ => true end.

Lemma plain_documented p args tail : Forall (fun w => plain_word w = true) (joined args ++ tail) ->
  Forall (fun a => knows p a = true) args -> Forall (fun a => documented p a = true) args.
Proof.
  intros Hw%Forall_app Hk. destruct Hw as [Hw _]. induction Hk as [|a args Ka _ IH]; [constructor|].
  unfold joined in Hw. cbn [map List.concat] in Hw. apply Forall_app in Hw as [Hw Hws]. constructor; [|by apply IH].
  unfold documented. rewrite Ka. destruct a as [| | | | | | |x v|x v]; try done; cbn [words] in Hw; apply Forall_cons in Hw as [Hw _]; by destruct x.
Qed.

(** C28: What a command line means, when no word only begins with -Lu or -Ld (the code takes such
    a word for the option, against the usage text: [loss_option_prefix_taken]) and there
    are at least two arguments after the program's name: the option loop of each program
    returns exactly when the arguments are options of its usage text with loss rates whose
    scaled value fits in 16 bits, followed by two words; the result is then the effect of
    the options from left to right, and the loop stops at the last two words. Otherwise the
    program exits with status 0 or 1, or an option sets a loss rate out of range, whose
    conversion to [uint16_t] is undefined. *)
Theorem command_line_meaning p prog rest o : 2 <= zlen rest -> Forall (fun w => plain_word w = true) rest ->
  (forall curr o', options (act_of p) (prog :: rest) o = Ok (Returns (curr, o')) <->
     curr = zlen rest - 1 /\ exists args h q, Forall (fun a => documented p a = true) args /\
       rest = joined args ++ [h; q] /\ effects args o = Ok o') /\
  ((exists r, options (act_of p) (prog :: rest) o = Ok (Returns r)) \/
   (exists c, c ∈ [0; 1] /\ options (act_of p) (prog :: rest) o = Ok (Exits c)) \/
   (options (act_of p) (prog :: rest) o = Throw (UB "float out of the range of uint16_t") /\
    exists args a rest', Forall (fun a => documented p a = true) (args ++ [a]) /\ bad_rate a /\
      rest = joined (args ++ [a]) ++ rest')).
Proof.
  intros Hr Hw. pose proof (loop_sound p (S (List.length (prog :: rest))) [prog] rest o Hr ltac:(simpl; lia)) as H.
  change ([prog] ++ rest) with (prog :: rest) in H. change (zlen [prog]) with 1 in H. fold (options (act_of p) (prog :: rest) o) in H.
  split.
  - intros curr o'. split.
    + intros E. rewrite E in H. destruct H as (-> & args & h & q & Hk & -> & He). rewrite zlen_cons. split; [lia|].
      exists args, h, q. split; [by apply (plain_documented p args [h; q])|done].
    + intros (-> & args & h & q & Hk & -> & He). unfold options. change (prog :: joined args ++ [h; q]) with ([prog] ++ joined args ++ [h; q]).
      rewrite (loop_complete p args _ [prog] h q o o'); [|eapply Forall_impl; [exact Hk|by intros a [? _]%andb_prop]|simpl; rewrite length_app; simpl; lia|done].
      do 2 f_equal. f_equal. rewrite (zlen_app [prog]). change (zlen [prog]) with 1. lia.
  - destruct (options _ _ _) as [[r|c]|e|]; [left; by exists r|right; left; by exists c|right; right|done].
    destruct H as (-> & args & a & rest' & Hk & Hb & ->). split; [done|]. exists args, a, rest'.
    split; [by apply (plain_documented p _ rest')|done].
Qed.
End Meaning.

(** Loss rates of a demonstration: what [strtof] makes of some words. *)
Definition demo_rate (s : string) : option Z :=
  if String.eqb s "0.1" then Some 6553 else if String.eqb s "1" then Some 65535
  else if String.eqb s "2" then Some 131070 else if String.eqb s "inf" then None else Some 0.

Lemma command_line_meaning_witness : exists o',
  options (act_of demo_rate tcp_ipv4) ["tcp_ipv4"; "-t"; "200"; "-Lu"; "0.1"; "-w"; "0x100"; "-l"; "host"; "80"]%string
    (start_options "" "" "") = Ok (Returns (8, o')) /\
  op_c_fsm o' = mkTCPConfig 200 256 64000 None /\ op_loss_rate_up o' = 6553 /\ op_listen o' = true.
Proof.
  destruct (command_line_meaning demo_rate tcp_ipv4 "tcp_ipv4"
    ["-t"; "200"; "-Lu"; "0.1"; "-w"; "0x100"; "-l"; "host"; "80"]%string (start_options "" "" "")) as [H _];
    [vm_compute; congruence|repeat constructor|].
  eexists. split; [apply H; split; [reflexivity|]|].
  - exists [A_timeout "200"; A_loss_up "" "0.1"; A_window "0x100"; A_listen], "host"%string, "80"%string.
    split; [repeat constructor|]. split; reflexivity.
  - vm_compute. repeat split.
Defined.

(** the usage text knows -Lu and -Ld; the comparison of three characters takes any word
    that begins so for the option, here -Lupper. *)
Theorem loss_option_prefix_taken : exists o',
  options (act_of demo_rate tcp_udp) ["tcp_udp"; "-Lupper"; "0.1"; "host"; "80"]%string (start_options "" "" "")
    = Ok (Returns (3, o')) /\ op_loss_rate_up o' = 6553.
Proof. eexists. split; vm_compute; reflexivity. Qed.

(** nothing checks that a loss rate is in 0..1: with 2 the conversion of the [float] 131070
    to [uint16_t] is undefined. *)
Theorem loss_rate_above_one_is_undefined :
  options (act_of demo_rate tcp_udp) ["tcp_udp"; "-Lu"; "2"; "host"; "80"]%string (start_options "" "" "")
    = Throw (UB "float out of the range of uint16_t").
Proof. vm_compute. reflexivity. Qed.

(** ** What the configurations hold *)

(** The outcome of a [get_config]: a result with [P], an exit, or an exception of the
    address resolution; nothing undefined, and no endless loop. *)
Definition configures {A} (P : A -> Prop) (r : res (run A)) : Prop :=
  match r with
  | Ok (Returns a) => P a
  | Ok (Exits c) => c ∈ [0; 1]
  | Throw (tagged_error _ _ _) | Throw (runtime_error _) => True
  | _ => False
  end.

Definition adapter_ok (c : FdAdapterConfig) : Prop := 0 <= fa_loss_rate_dn c < W16 /\ 0 <= fa_loss_rate_up c < W16.

(** Options that a program can hold. *)
Record options_ok (o : Options) : Prop := {
  oo_fsm : cfg_ok (op_c_fsm o);
  oo_send : cfg_send_capacity (op_c_fsm o) = DEFAULT_CAPACITY;
  oo_dn : 0 <= op_loss_rate_dn o < W16;
  oo_up : 0 <= op_loss_rate_up o < W16
}.

Lemma to_uint16_range v r : to_uint16 v = Ok r -> 0 <= r < W16.
Proof.
  unfold to_uint16. destruct v as [v|]; [|done]. destruct (Z.leb_spec 0 v), (Z.ltb_spec v 65536); cbn; try done.
  intros [= <-]. split; [done|]. by change W16 with 65536.
Qed.

Lemma effect_ok loss_rate a o o' : options_ok o -> effect loss_rate a o = Ok o' -> options_ok o'.
Proof.
  intros [[] ? ? ?]. destruct a; cbn; try (intros [= <-]; split; simpl; try done; split; simpl; try done;
    first [apply u64_range|apply u16_range]).
  all: destruct (to_uint16 (loss_rate v)) as [r| |] eqn:Er; try done; intros [= <-]; split; simpl; try done;
    by eapply to_uint16_range.
Qed.

Lemma effects_ok loss_rate args : forall o o', options_ok o -> effects loss_rate args o = Ok o' -> options_ok o'.
Proof.
  induction args as [|a args IH]; cbn; intros o o' Ho; [by intros [= <-]|].
  destruct (effect loss_rate a o) as [o1| |] eqn:E1; try done. cbn. apply IH. by eapply effect_ok.
Qed.

Lemma start_options_ok a b c : options_ok (start_options a b c).
Proof. by repeat split. Qed.

Section Configurations.
Context (loss_rate : string -> option Z) (getaddrinfo : string -> string -> Z + option bytes).

Lemma configures_resolve {A} (P : A -> Prop) node service k : (forall a, configures P (k a)) ->
  configures P (Address_resolve getaddrinfo node service ≫= k).
Proof.
  intros H. unfold Address_resolve. destruct (getaddrinfo node service) as [e|[addr|]]; try done.
  unfold Address_of_sockaddr. destruct (_ <? _); [done|]. apply H.
Qed.

(** Every word that follows one that begins with -Lu or -Ld is a rate in range. *)
Fixpoint rates_ok (argv : list string) : bool :=
  match argv with
  | w :: (v :: _) as rest =>
      (if strncmp_eq "-Lu" w 3 || strncmp_eq "-Ld" w 3 then match to_uint16 (loss_rate v) with Ok _ => true | _ => false end else true) && rates_ok rest
  | _ => true
  end.

Lemma rates_ok_suffix l k : rates_ok (l ++ k) = true -> rates_ok k = true.
Proof.
  induction l as [|w l IH]; [done|]. cbn. destruct (l ++ k) eqn:E; [|by intros [_ ?]%andb_prop; apply IH].
  by apply app_nil in E as [_ ->].
Qed.

Lemma rates_ok_no_bad l a rest : bad_rate loss_rate a -> rates_ok (l ++ words a ++ rest) = true -> False.
Proof.
  intros Hb H%rates_ok_suffix. destruct a; try done; cbn in H; apply andb_prop in H as [H _];
    cbn in Hb; by rewrite Hb in H.
Qed.

(** The loop in front of each function. *)
Lemma configures_options {A} (P : A -> Prop) p argv o k : 3 <= zlen argv -> rates_ok argv = true -> options_ok o ->
  (forall o', options_ok o' -> configures P (k (Returns (zlen argv - 2, o')))) -> (forall c, k (Exits c) = Ok (Exits c)) ->
  configures P (options (act_of loss_rate p) argv o ≫= k).
Proof.
  intros Hl Hrates Ho Hk He. destruct argv as [|prog rest]; [done|]. rewrite zlen_cons in Hl.
  pose proof (loop_sound loss_rate p (S (List.length (prog :: rest))) [prog] rest o ltac:(lia) ltac:(simpl; lia)) as H.
  change ([prog] ++ rest) with (prog :: rest) in H. change (zlen [prog]) with 1 in H.
  fold (options (act_of loss_rate p) (prog :: rest) o) in H.
  destruct (options _ _ _) as [[[curr o']|c]|e|]; try done; cbn [mbind res_bind].
  - destruct H as (-> & args & h & q & _ & _ & E). apply Hk. by eapply effects_ok.
  - by rewrite He.
  - destruct H as (_ & args & a & rest' & _ & Hb & ->). exfalso.
    unfold joined in Hrates. rewrite map_app, List.concat_app in Hrates. cbn in Hrates. rewrite app_nil_r, <- app_assoc in Hrates.
    by apply (rates_ok_no_bad (prog :: List.concat (map words args)) a rest' Hb).
Qed.

Lemma argv_at_ok argv i : 0 <= i < zlen argv -> exists s, argv_at argv i = Ok s.
Proof. intros H. unfold argv_at. destruct (znth_is_Some i argv H) as [s ->]. by exists s. Qed.

(** C29: Configurations are within their types: whatever names resolve to, and on every command
    line with at least two arguments in which each word after one that begins with -Lu or
    -Ld is a loss rate whose scaled value fits in 16 bits (for others the conversion is
    undefined: [loss_rate_above_one_is_undefined]), each [get_config] returns a
    configuration with which a connection and an adapter can be built, exits with status 0
    or 1, or throws the error of the name resolution; it never reads past [argv]. *)
Theorem get_config_well_typed random argv : 3 <= zlen argv -> rates_ok argv = true ->
  configures (fun '(c_fsm, c_filt, _) => cfg_ok c_fsm /\ adapter_ok c_filt) (udp_get_config loss_rate getaddrinfo argv) /\
  configures (fun '(c_fsm, c_filt, _, _) => cfg_ok c_fsm /\ adapter_ok c_filt) (ipv4_get_config loss_rate getaddrinfo random argv) /\
  configures (fun '(c_fsm, c_filt, _, _) => cfg_ok c_fsm /\ adapter_ok c_filt) (ethernet_get_config getaddrinfo random argv).
Proof.
  intros Hl Hrates. destruct (argv_at_ok argv (zlen argv - 1) ltac:(lia)) as [p Ep]. destruct (argv_at_ok argv (zlen argv - 2) ltac:(lia)) as [h Eh].
  assert (Ep' : argv_at argv (zlen argv - 2 + 1) = Ok p) by (rewrite <- Ep; f_equal; lia).
  split; [|split].
  - apply (configures_options _ tcp_udp); [done|done|apply start_options_ok| |done]. intros o Ho. cbv beta iota zeta. rewrite ?Ep, Eh.
    destruct (op_listen o); cbn [mbind res_bind]; apply configures_resolve; intros a; cbn; (split; [apply Ho|]; split; apply Ho).
  - apply (configures_options _ tcp_ipv4); [done|done|apply start_options_ok| |done]. intros o Ho. cbv beta iota zeta. rewrite ?Ep', Eh.
    destruct (op_listen o); cbn [mbind res_bind]; apply configures_resolve; intros a.
    + unfold Address_port. destruct (_ || _); [|done]. cbn. destruct (_ =? 0); [right; left|]. split; [apply Ho|]. split; apply Ho.
    + apply configures_resolve. intros b. cbn. split; [apply Ho|]. split; apply Ho.
  - apply (configures_options _ tcp_ip_ethernet); [done|done|apply start_options_ok| |done]. intros o Ho. cbv beta iota zeta. rewrite Ep', Eh. cbn [mbind res_bind].
    do 3 (apply configures_resolve; intros ?). cbn. split; [apply Ho|]. split; apply Ho.
Qed.
End Configurations.

Definition demo_getaddrinfo (node service : string) : Z + option bytes :=
  if String.eqb node "nowhere" then inl (-2) else inr (Some (sockaddr_in (strtol service) 16909060)).

Lemma get_config_well_typed_witness :
  configures (fun '(c_fsm, c_filt, _, _) => cfg_ok c_fsm /\ adapter_ok c_filt)
    (ipv4_get_config demo_rate demo_getaddrinfo 9 ["tcp_ipv4"; "-w"; "-1"; "-Ld"; "1"; "host"; "80"]%string) /\
  exists c, ipv4_get_config demo_rate demo_getaddrinfo 9 ["tcp_ipv4"; "-w"; "-1"; "-Ld"; "1"; "host"; "80"]%string =
    Ok (Returns (mkTCPConfig 1000 18446744073709551615 64000 None, c, false, None)) /\ fa_loss_rate_dn c = 65535.
Proof.
  split; [|eexists; split; vm_compute; reflexivity].
  apply (get_config_well_typed demo_rate demo_getaddrinfo 9 ["tcp_ipv4"; "-w"; "-1"; "-Ld"; "1"; "host"; "80"]%string).
  - vm_compute. congruence.
  - vm_compute. reflexivity.
Defined.

(** ** Decimal numbers *)

Lemma digit_of_char d : (d < 10)%N -> digit (pretty_N_char d) = Z.of_N d /\ isspace (pretty_N_char d) = false.
Proof.
  intros H. assert (Hd : Forall (fun d => digit (pretty_N_char d) = Z.of_N d /\ isspace (pretty_N_char d) = false)
    [0; 1; 2; 3; 4; 5; 6; 7; 8; 9]%N) by (vm_compute; repeat constructor).
  rewrite Forall_forall in Hd. apply Hd. rewrite !elem_of_cons. lia.
Qed.

Lemma digits_pretty_go x : forall s, digits 10 0 (pretty_N_go x s) = digits 10 (Z.of_N x) s.
Proof.
  induction (N.lt_wf_0 x) as [x _ IH]. intros s. destruct (decide (0 < x)%N) as [Hx|Hx].
  - rewrite pretty_N_go_step by done. rewrite IH by (apply N.div_lt; lia). cbn [digits].
    destruct (digit_of_char (x `mod` 10)) as [-> _]; [by apply N.mod_lt|].
    destruct (Z.ltb_spec (Z.of_N (x `mod` 10)) 10) as [_|Hl]; [|pose proof (N.mod_lt x 10 ltac:(done)); lia].
    f_equal. rewrite (N.div_mod x 10) at 3 by done. lia.
  - assert (x = 0%N) as -> by lia. done.
Qed.

(** The first character is the leading digit. *)
Lemma pretty_go_head x : forall s, (0 < x)%N -> exists d t, (0 < d < 10)%N /\ pretty_N_go x s = String (pretty_N_char d) t.
Proof.
  induction (N.lt_wf_0 x) as [x _ IH]. intros s Hx. rewrite pretty_N_go_step by done.
  destruct (decide (0 < x `div` 10)%N) as [Hd|Hd]; [apply IH; [apply N.div_lt; lia|done]|].
  assert (E : (x `div` 10 = 0)%N) by (by apply N.le_0_r, N.nlt_ge). rewrite E. exists (x `mod` 10)%N, s. split; [|done].
  pose proof (N.mod_lt x 10 ltac:(done)). pose proof (N.div_mod x 10 ltac:(done)) as Hm. rewrite E in Hm. lia.
Qed.

(** [strtol] reads back the decimal numerals that [std::to_string] writes. *)
Theorem strtol_reads_decimal n : 0 <= n <= LONG_MAX -> strtol (pretty n) = n.
Proof.
  intros Hn. unfold strtol. assert (Hp : (n = 0 /\ pretty n = "0"%string) \/ 0 < n /\ pretty n = pretty_N_go (Z.to_N n) "").
  { destruct n as [|p|p]; [by left|right; split; [lia|done]|lia]. }
  destruct Hp as [[-> ->]|[H0 ->]]; [done|].
  pose proof (digits_pretty_go (Z.to_N n) "") as Hd. destruct (pretty_go_head (Z.to_N n) "" ltac:(lia)) as (d & t & Hr & Eg).
  rewrite Eg in *. cbn [skip_space]. destruct (digit_of_char d) as [_ ->]; [lia|].
  assert (Hd1 : (d = 1 \/ d = 2 \/ d = 3 \/ d = 4 \/ d = 5 \/ d = 6 \/ d = 7 \/ d = 8 \/ d = 9)%N) by lia.
  assert (Hb : based (String (pretty_N_char d) t) = n).
  { transitivity (digits 10 0 (String (pretty_N_char d) t)); [|rewrite Hd; cbn; lia].
    by destruct Hd1 as [->|[->|[->|[->|[->|[->|[->|[->| ->]]]]]]]]. }
  transitivity (Z.max (- LONG_MAX - 1) (Z.min LONG_MAX (based (String (pretty_N_char d) t)))).
  - by destruct Hd1 as [->|[->|[->|[->|[->|[->|[->|[->| ->]]]]]]]].
  - rewrite Hb. unfold LONG_MAX in *. lia.
Qed.

Lemma strtol_reads_decimal_witness : strtol (pretty 64000) = 64000 /\ strtol " -0x1f rest" = -31 /\ strtol "0755" = 493.
Proof. split; [apply strtol_reads_decimal; vm_compute; split; congruence|split; reflexivity]. Defined.
