(* ===== verification/PacketDump.v ===== *)
(** * The packet dump

    Models [apps/udp_tcpdump.cc] and the [hexdump] of [util/util.cc]: captured packets are
    taken apart by link type and IP version, and what should be TCP in UDP is printed.
    Packets come from the pcap library and are arguments, of which the captured bytes are
    given; reading past them is undefined. [inet_ntop] is a parameter. *)

From stdpp Require Import pretty.
From Stdlib Require Import String Ascii.
From S2P Require Import Prelude WrappingInts Buffers Checksum Parser TCPSegments IPv4 CommandLine.

(** ** hexdump *)

Definition hex_digit (d : Z) : ascii := ascii_of_N (Z.to_N (if d <? 10 then 48 + d else 87 + d)).

(** [hex << setfill('0') << setw(width)] for a number of at most [width] digits. *)
Fixpoint hex (width : nat) (v : Z) : string :=
  match width with
  | O => ""
  | S w => hex w (v / 16) +:+ String (hex_digit (v mod 16)) ""
  end.

Fixpoint spaces (n : nat) : string := match n with O => "" | S n' => String " " (spaces n') end.

(** A [stringstream] that is written to: its contents and the write position. *)
Record ostream : Type := mkStream { os_str : string; os_put : nat }.

(** The constructor and [str(s)] put the position at the front. *)
Definition stream_of (s : string) : ostream := mkStream s 0.

Definition put (c : ascii) (o : ostream) : ostream :=
  mkStream (String.substring 0 (os_put o) (os_str o) +:+
            String c (String.substring (S (os_put o)) (String.length (os_str o)) (os_str o)))
    (S (os_put o)).

(** [isprint] in the C locale. *)
Definition isprint (v : Z) : bool := (32 <=? v) && (v <=? 126).

Definition shown (b : byte) : ascii :=
  if isprint (byte_val b) then ascii_of_N (Z.to_N (byte_val b)) else "."%char.

(** The loop over the bytes; [out] is what was written to [cout]. *)
Fixpoint hexdump_loop (indent : string) (data : bytes) (printed : Z) (pchars : ostream) (out : string)
  : Z * ostream * string :=
  match data with
  | [] => (printed, pchars, out)
  | b :: data' =>
      let '(pchars, out) :=
        if Z.land printed 15 =? 0 then
          let '(pchars, out) :=
            if negb (printed =? 0)
            then (stream_of " ", out +:+ "    " +:+ os_str pchars +:+ String "010" "")
            else (pchars, out) in
          (pchars, out +:+ indent +:+ hex 8 printed +:+ ":    ")
        else if Z.land printed 1 =? 0 then (pchars, out +:+ " ")
        else (pchars, out) in
      let out := out +:+ hex 2 (byte_val b) in
      hexdump_loop indent data' (printed + 1) (put (shown b) pchars) out
  end.

Definition hexdump (data : bytes) (indent : nat) : string :=
  let '(printed, pchars, out) := hexdump_loop (spaces indent) data 0 (stream_of " ") "" in
  let print_rem := (16 - Z.land printed 15) mod 16 in
  out +:+ spaces (Z.to_nat (2 * print_rem + print_rem / 2 + 4)) +:+ os_str pchars +:+ String "010" (String "010" "").

(** ** Command line *)

Fixpoint parse_arguments_loop (fuel : nat) (argv : list string) (curr : Z) (dev : option string)
  : res (run (Z * option string)) :=
  match fuel with
  | O => NoFuel
  | S fuel' =>
      if curr <? zlen argv then
        a ← argv_at argv curr;
        if strncmp_eq "-i" a 3 then
          if zlen argv <=? curr + 1 then Ok (Exits 1)
          else d ← argv_at argv (curr + 1); parse_arguments_loop fuel' argv (curr + 2) (Some d)
        else if strncmp_eq "-h" a 3 || strncmp_eq "--help" a 7 then Ok (Exits 0)
        else Ok (Returns (curr, dev))
      else Ok (Returns (curr, dev))
  end.

(** Where the filter expression starts, and the device; each turn passes an argument. *)
Definition parse_arguments (argv : list string) : res (run (Z * option string)) :=
  parse_arguments_loop (S (List.length argv)) argv 1 None.

(** ** Taking packets apart *)

(** [data[i]] *)
Definition data_at (data : bytes) (i : Z) : res Z :=
  match znth data i with Some b => Ok (byte_val b) | None => Throw (UB "read past the captured packet") end.

(** The [len] bytes [inet_ntop] reads at [data + off]. *)
Definition data_sub (data : bytes) (off len : Z) : res bytes :=
  if off + len <=? zlen data then Ok (ztake len (zdrop off data)) else Throw (UB "read past the captured packet").

(** The walk over the IPv6 extension headers: [None] is the return of -1. *)
Fixpoint extension_loop (fuel : nat) (data : bytes) (nxt data_offset : Z) : res (option Z) :=
  match fuel with
  | O => NoFuel
  | S fuel' =>
      if nxt =? 17 then Ok (Some data_offset)
      else if negb (nxt =? 0) && negb (nxt =? 43) && negb (nxt =? 60) then Ok None
      else
        nxt ← data_at data data_offset;
        l ← data_at data (data_offset + 1);
        let data_offset := data_offset + 8 * (1 + l) in
        if zlen data <? data_offset + 2 then Ok None
        else extension_loop fuel' data nxt data_offset
  end.

(** [process_ipv4_ipv6(len, data, src_addr, dst_addr)]: the offset of the UDP payload and
    the bytes of both addresses, or [None] for -1. Each extension header has 8 bytes at
    least. *)
Definition process_ipv4_ipv6 (data : bytes) : res (option (Z * bytes * bytes)) :=
  let len := zlen data in
  if len <? 1 then Ok None
  else
    b0 ← data_at data 0;
    let pt := Z.land b0 240 in
    if pt =? 64 then
      let data_offset := Z.land b0 15 * 4 in
      if len <? data_offset then Ok None
      else
        proto ← data_at data 9;
        if negb (proto =? 17) then Ok None
        else
          src ← data_sub data 12 4;
          dst ← data_sub data 16 4;
          Ok (Some (data_offset + 8, src, dst))
    else if pt =? 96 then
      if len <? 42 then Ok None
      else
        nxt ← data_at data 6;
        o ← extension_loop (S (List.length data)) data nxt 40;
        match o with
        | None => Ok None
        | Some data_offset =>
            src ← data_sub data 8 16;
            dst ← data_sub data 24 16;
            Ok (Some (data_offset + 8, src, dst))
        end
    else Ok None.

(** ** One packet *)

Definition DLT_NULL : Z := 0.
Definition DLT_EN10MB : Z := 1.
Definition DLT_RAW : Z := 12.
Definition DLT_LINUX_SLL : Z := 113.
Definition DLT_LINUX_SLL2 : Z := 276.

(** What becomes of a packet; diagnostics on [cerr] are left out. *)
Inductive outcome : Type :=
| Malformed
| Non_IP
| Mysterious                      (* ends the program *)
| Bad_IP
| Dumped (out : string).

(** The big-endian number in two bytes of the link header. *)
Definition ether_type (pkt : bytes) (i : Z) : res Z :=
  hi ← data_at pkt i;
  lo ← data_at pkt (i + 1);
  Ok (Z.lor (Z.shiftl hi 8) lo).

Definition ip_ether_type (pt : Z) : bool := (pt =? 2048) || (pt =? 34525).

(** Where the network layer starts. *)
Definition link_offset (dl_type : Z) (pkt : bytes) : res (outcome + Z) :=
  let ethertype off at_ :=
    if zlen pkt <? off then Ok (inl Malformed)
    else pt ← ether_type pkt at_; if negb (ip_ether_type pt) then Ok (inl Non_IP) else Ok (inr off) in
  if dl_type =? DLT_NULL then
    if zlen pkt <? 4 then Ok (inl Malformed)
    else
      pt ← data_at pkt 3;
      if negb (pt =? 2) && negb (pt =? 24) && negb (pt =? 28) && negb (pt =? 30) then Ok (inl Non_IP) else Ok (inr 4)
  else if dl_type =? DLT_EN10MB then ethertype 14 12
  else if dl_type =? DLT_LINUX_SLL then ethertype 16 14
  else if dl_type =? DLT_LINUX_SLL2 then ethertype 20 0
  else if negb (dl_type =? DLT_RAW) then Ok (inl Mysterious)
  else Ok (inr 0).

Section Dump.
Context (inet_ntop : bytes -> string).

Definition flag_letter (b : bool) (s : string) : string := if b then s else "".

(** The lines printed for a segment. *)
Definition show_segment (src dst : string) (result : ParseResult) (seg : TCPSegment) (payload_len : Z) : string :=
  let tcp_hdr := ts_header seg in
  let seqlen := u32 (length_in_sequence_space seg) in
  src +:+ ":" +:+ pretty (th_sport tcp_hdr) +:+ " > " +:+ dst +:+ ":" +:+ pretty (th_dport tcp_hdr) +:+
  String "010" "    Flags [" +:+
  flag_letter (th_urg tcp_hdr) "U" +:+ flag_letter (th_psh tcp_hdr) "P" +:+ flag_letter (th_rst tcp_hdr) "R" +:+
  flag_letter (th_syn tcp_hdr) "S" +:+ flag_letter (th_fin tcp_hdr) "F" +:+ flag_letter (th_ack tcp_hdr) "." +:+
  "] cksum 0x" +:+ hex 4 (th_cksum tcp_hdr) +:+
  (if bool_decide (result = NoError) then " (correct)" else " (incorrect!)") +:+
  " seq " +:+ pretty (raw_value (th_seqno tcp_hdr)) +:+
  (if 0 <? seqlen then ":" +:+ pretty (raw_value (wi_add (th_seqno tcp_hdr) seqlen)) else "") +:+
  " ack " +:+ pretty (raw_value (th_ackno tcp_hdr)) +:+ " win " +:+ pretty (th_win tcp_hdr) +:+
  " length " +:+ pretty payload_len +:+ String "010" "".

(** The body of the capture loop for a packet. *)
Definition show_packet (dl_type : Z) (pkt : bytes) : res outcome :=
  l ← link_offset dl_type pkt;
  match l with
  | inl o => Ok o
  | inr hdr_off =>
      ip ← process_ipv4_ipv6 (zdrop hdr_off pkt);
      match ip with
      | None => Ok Bad_IP
      | Some (start_off, src, dst) =>
          let payload_off := hdr_off + start_off in
          let payload_len := zlen pkt -64 payload_off in
          if zlen pkt <? payload_off then Throw (UB "the payload lies past the captured packet")
          else
            let payload := zdrop payload_off pkt in
            '(result, seg) ← TCPSegment_parse TCPSegment_default (Buffer_of_string payload) 0;
            let text :=
              if Nat.ltb (ParseResult_code BadChecksum) (ParseResult_code result)
              then "(did not recognize TCP header) src: " +:+ inet_ntop src +:+ " dst: " +:+ inet_ntop dst +:+ String "010" ""
              else show_segment (inet_ntop src) (inet_ntop dst) result seg payload_len in
            Ok (Dumped (text +:+ hexdump payload 8))
      end
  end.

(** What [pcap_next_ex] answers: a packet, a timeout, or a negative number. *)
Inductive next_ex : Type :=
| Packet (pkt : bytes)
| No_packet
| Stopped (next_ret : Z).

(** The capture loop: what was printed for each packet, and the exit status; [NoFuel]
    when capturing goes on. *)
Fixpoint capture_loop (dl_type : Z) (answers : list next_ex) : res (list outcome * Z) :=
  match answers with
  | [] => NoFuel
  | No_packet :: answers' => capture_loop dl_type answers'
  | Stopped next_ret :: _ => Ok ([], if next_ret =? -1 then 1 else 0)
  | Packet pkt :: answers' =>
      o ← show_packet dl_type pkt;
      match o with
      | Mysterious => Ok ([], 1)
      | _ => '(l, status) ← capture_loop dl_type answers'; Ok (o :: l, status)
      end
  end.
End Dump.

(** ** The layout of a hex dump *)

Section Layout.
Context (indent : nat).

(** The bytes of a line in pairs, the first of them number [i] of its line. *)
Fixpoint hex_pairs (i : Z) (l : bytes) : string :=
  match l with
  | [] => ""
  | b :: l' => (if (i =? 0) || negb (i mod 2 =? 0) then "" else " ") +:+ hex 2 (byte_val b) +:+ hex_pairs (i + 1) l'
  end.

Fixpoint shown_text (l : bytes) : string := match l with [] => "" | b :: l' => String (shown b) (shown_text l') end.

Definition padding (l : bytes) : nat := Z.to_nat (2 * (16 - zlen l) + (16 - zlen l) / 2 + 4).

(** Line [k] of a dump: the offset, the bytes in pairs, the printable characters. *)
Definition dump_line (k : nat) (l : bytes) : string :=
  spaces indent +:+ hex 8 (16 * Z.of_nat k) +:+ ":    " +:+ hex_pairs 0 l +:+ spaces (padding l) +:+ shown_text l +:+ String "010" "".

Fixpoint dump_lines (k : nat) (ls : list bytes) : string :=
  match ls with [] => "" | l :: ls' => dump_line k l +:+ dump_lines (S k) ls' end.
End Layout.

Lemma string_app_assoc (s t u : string) : (s +:+ t) +:+ u = s +:+ t +:+ u.
Proof. induction s as [|c s IH]; [done|]. exact (f_equal (String c) IH). Qed.

Lemma string_app_nil_r (s : string) : s +:+ "" = s.
Proof. induction s as [|c s IH]; [done|]. exact (f_equal (String c) IH). Qed.

Lemma shown_text_app l l' : shown_text (l ++ l') = shown_text l +:+ shown_text l'.
Proof. induction l as [|b l IH]; [done|]. exact (f_equal (String (shown b)) IH). Qed.

Lemma shown_text_length l : String.length (shown_text l) = List.length l.
Proof. induction l as [|b l IH]; simpl; [done|]. by f_equal. Qed.

Lemma substring_all s : String.substring 0 (String.length s) s = s.
Proof. induction s as [|c s IH]; simpl; [done|]. by f_equal. Qed.

Lemma substring_none n : forall s m, (String.length s <= n)%nat -> String.substring n m s = "".
Proof. induction n as [|n IH]; intros [|c s] [|m] H; simpl in *; try done; try lia; apply IH; lia. Qed.

(** Characters put one after the other; the first overwrites the initial space. *)
Definition holding (l : bytes) : ostream := mkStream (match l with [] => " " | _ => shown_text l end) (List.length l).

Lemma put_holding l b : put (shown b) (holding l) = holding (l ++ [b]).
Proof.
  destruct l as [|a l]; [done|]. unfold put, holding. cbn [os_put os_str]. destruct ((a :: l) ++ [b]) eqn:E; [done|].
  rewrite <- E, shown_text_app, <- (shown_text_length (a :: l)), substring_all, substring_none by lia.
  f_equal. rewrite shown_text_length, length_app. simpl. lia.
Qed.

(** The loop within a line, of which [l] is already printed. *)
Lemma hexdump_loop_within indent rest : forall l k out,
  (List.length l + List.length rest <= 16)%nat -> l <> [] ->
  hexdump_loop indent rest (16 * k + zlen l) (holding l) out =
    (16 * k + zlen l + zlen rest, holding (l ++ rest), out +:+ hex_pairs (zlen l) rest).
Proof.
  induction rest as [|b rest IH]; intros l k out Hl Hne; cbn [hexdump_loop hex_pairs].
  { by rewrite app_nil_r, string_app_nil_r, (@zlen_nil byte), Z.add_0_r. }
  assert (Hz : 0 < zlen l < 16) by (unfold zlen; destruct l; simpl in *; [done|lia]).
  assert (E15 : Z.land (16 * k + zlen l) 15 = zlen l).
  { change 15 with (Z.ones 4). rewrite Z.land_ones by lia. change (2 ^ 4) with 16. replace (16 * k + zlen l) with (zlen l + k * 16) by lia.
    rewrite Z.mod_add by lia. apply Z.mod_small. lia. }
  assert (E1 : Z.land (16 * k + zlen l) 1 = zlen l mod 2).
  { change 1 with (Z.ones 1) at 1. rewrite Z.land_ones by lia. change (2 ^ 1) with 2.
    replace (16 * k + zlen l) with (zlen l + (8 * k) * 2) by lia. by rewrite Z.mod_add by lia. }
  rewrite E15, E1. destruct (Z.eqb_spec (zlen l) 0); [lia|]. cbn [orb].
  rewrite zlen_cons. pose proof (IH (l ++ [b]) k) as IH'. rewrite zlen_app, <- app_assoc in IH'. change (zlen [b]) with 1 in IH'.
  rewrite Z.add_assoc in IH'. destruct (zlen l mod 2 =? 0); cbn [negb]; rewrite put_holding;
    (rewrite IH' by (rewrite ?length_app; simpl in *; try lia; by destruct l)); f_equal; try (f_equal; lia);
    rewrite ?string_app_assoc; done.
Qed.

Lemma hexdump_loop_app indent l1 : forall l2 printed pchars out,
  hexdump_loop indent (l1 ++ l2) printed pchars out =
    let '(printed, pchars, out) := hexdump_loop indent l1 printed pchars out in hexdump_loop indent l2 printed pchars out.
Proof.
  induction l1 as [|b l1 IH]; intros l2 printed pchars out; [done|]. cbn [app hexdump_loop].
  destruct (if Z.land printed 15 =? 0 then _ else _) as [pchars' out']. apply IH.
Qed.

(** The text before line [k]: the end of the line before it is written only now. *)
Definition flushed (k : nat) (pchars : ostream) (out : string) : string :=
  match k with O => out | S _ => out +:+ "    " +:+ os_str pchars +:+ String "010" "" end.

Lemma hexdump_loop_line indent l k pchars out : (0 < List.length l <= 16)%nat -> (k = 0%nat -> pchars = stream_of " ") ->
  hexdump_loop indent l (16 * Z.of_nat k) pchars out = (16 * Z.of_nat k + zlen l, holding l,
    flushed k pchars out +:+ indent +:+ hex 8 (16 * Z.of_nat k) +:+ ":    " +:+ hex_pairs 0 l).
Proof.
  intros Hl Hk. destruct l as [|b l]; [simpl in Hl; lia|]. cbn [hexdump_loop hex_pairs]. rewrite zlen_cons.
  assert (E : Z.land (16 * Z.of_nat k) 15 = 0).
  { change 15 with (Z.ones 4). rewrite Z.land_ones by lia. change (2 ^ 4) with 16. by rewrite Z.mul_comm, Z.mod_mul. }
  rewrite E. cbn [Z.eqb].
  assert (Ep : (if negb (16 * Z.of_nat k =? 0) then (stream_of " ", out +:+ "    " +:+ os_str pchars +:+ String "010" "")
                else (pchars, out)) = (stream_of " ", flushed k pchars out)).
  { destruct k as [|k]; [by rewrite (Hk eq_refl)|]. by destruct (Z.eqb_spec (16 * Z.of_nat (S k)) 0); [lia|]. }
  rewrite Ep. change (stream_of " ") with (holding []). rewrite put_holding. cbn [app orb].
  rewrite (hexdump_loop_within _ l [b] (Z.of_nat k)); [|simpl in *; lia|done].
  change (zlen [b]) with 1. f_equal; [f_equal; lia|]. by rewrite !string_app_assoc.
Qed.

Lemma hexdump_loop_lines indent cs : forall l k pchars out, Forall (fun c => List.length c = 16%nat) cs ->
  (0 < List.length l <= 16)%nat -> (k = 0%nat -> pchars = stream_of " ") ->
  hexdump_loop (spaces indent) (List.concat cs ++ l) (16 * Z.of_nat k) pchars out =
    (16 * Z.of_nat (k + List.length cs) + zlen l, holding l, flushed k pchars out +:+ dump_lines indent k cs +:+
     spaces indent +:+ hex 8 (16 * Z.of_nat (k + List.length cs)) +:+ ":    " +:+ hex_pairs 0 l).
Proof.
  induction cs as [|c cs IH]; intros l k pchars out Hcs Hl Hk; cbn [List.concat dump_lines List.length].
  { rewrite Nat.add_0_r. rewrite app_nil_l. by apply hexdump_loop_line. }
  apply Forall_cons in Hcs as [Hc Hcs]. rewrite <- app_assoc, hexdump_loop_app, hexdump_loop_line by (done || lia).
  assert (Ez : zlen c = 16) by (unfold zlen; lia).
  replace (16 * Z.of_nat k + zlen c) with (16 * Z.of_nat (S k)) by lia. rewrite IH by done.
  rewrite <- Nat.add_succ_comm. f_equal. cbn [flushed]. unfold dump_line, padding. rewrite Ez. change (Z.to_nat _) with 4%nat.
  destruct c as [|b c]; [done|]. cbn [holding os_str]. by rewrite !string_app_assoc.
Qed.

(** [hexdump] prints data in lines of sixteen bytes, the last of which may be shorter: each
    with its offset, its bytes as pairs of hexadecimal digits and, in the same column in
    every line, its printable characters; then an empty line. *)
Theorem hexdump_prints_lines indent cs l : Forall (fun c => List.length c = 16%nat) cs -> (0 < List.length l <= 16)%nat ->
  hexdump (List.concat cs ++ l) indent = dump_lines indent 0 (cs ++ [l]) +:+ String "010" "".
Proof.
  intros Hcs Hl. unfold hexdump. rewrite (hexdump_loop_lines indent cs l 0) by done. cbn [flushed Nat.add].
  assert (Hz : 0 < zlen l <= 16) by (unfold zlen; lia).
  assert (E : (16 - Z.land (16 * Z.of_nat (List.length cs) + zlen l) 15) mod 16 = 16 - zlen l).
  { change 15 with (Z.ones 4). rewrite Z.land_ones by lia. change (2 ^ 4) with 16.
    replace (16 * Z.of_nat (List.length cs) + zlen l) with (zlen l + Z.of_nat (List.length cs) * 16) by lia.
    rewrite Z.mod_add by lia. destruct (Z.eq_dec (zlen l) 16) as [->|]; [done|]. rewrite (Z.mod_small (zlen l)) by lia. apply Z.mod_small. lia. }
  rewrite E. fold (padding l).
  assert (Ed : forall k, dump_lines indent k (cs ++ [l]) = dump_lines indent k cs +:+ dump_line indent (k + List.length cs) l).
  { clear. induction cs as [|c cs IH]; intros k; cbn [app dump_lines List.length].
    - by rewrite string_app_nil_r, Nat.add_0_r.
    - by rewrite IH, string_app_assoc, <- Nat.add_succ_comm. }
  rewrite Ed. cbn [Nat.add]. unfold dump_line. destruct l as [|b l]; [simpl in Hl; lia|]. cbn [holding os_str].
  by rewrite !string_app_assoc.
Qed.

Lemma hexdump_prints_lines_witness : hexdump (List.concat [map byte_of (seqZ 60 16)] ++ map byte_of [104; 105; 10]) 2 =
  dump_lines 2 0 ([map byte_of (seqZ 60 16)] ++ [map byte_of [104; 105; 10]]) +:+ String "010" "".
Proof. apply hexdump_prints_lines; [repeat constructor|simpl; lia]. Defined.

(** ** Reading a packet *)

Lemma data_at_ok data i : 0 <= i < zlen data -> exists v, data_at data i = Ok v /\ 0 <= v < 256.
Proof.
  intros H. unfold data_at. destruct (znth_is_Some i data H) as [b ->]. exists (byte_val b).
  split; [done|apply byte_val_range].
Qed.

Lemma data_sub_ok data off len : 0 <= off -> 0 <= len -> off + len <= zlen data ->
  exists s, data_sub data off len = Ok s /\ zlen s = len.
Proof.
  intros Ho Hl H. unfold data_sub. destruct (Z.leb_spec (off + len) (zlen data)); [|lia]. eexists. split; [done|].
  apply zlen_ztake. rewrite zlen_zdrop; lia.
Qed.

(** The walk ends, and stays within the packet with two bytes to spare. *)
Lemma extension_loop_in_bounds data fuel : forall nxt off, 0 <= off -> off + 2 <= zlen data -> (Z.to_nat (zlen data - off) < fuel)%nat ->
  exists o, extension_loop fuel data nxt off = Ok o /\ forall off', o = Some off' -> off <= off' /\ off' + 2 <= zlen data.
Proof.
  induction fuel as [|fuel IH]; intros nxt off H0 H2 Hf; [lia|]. cbn [extension_loop].
  destruct (nxt =? 17); [eexists; split; [done|]; intros off' [= <-]; lia|].
  destruct (_ && _); [by eexists|].
  destruct (data_at_ok data off ltac:(lia)) as (n & -> & _). destruct (data_at_ok data (off + 1) ltac:(lia)) as (l & -> & Hl).
  cbn. destruct (Z.ltb_spec (zlen data) (off + 8 * (1 + l) + 2)); [by eexists|].
  destruct (IH n (off + 8 * (1 + l))) as (o & E & Ho); [lia|lia|lia|]. exists o. split; [exact E|].
  intros off' Eo. specialize (Ho off' Eo). lia.
Qed.

(** The IP layer of a captured packet is read within its bounds, and reading it ends: the
    payload offset it finds is eight bytes past headers that lie in the packet. The
    exception is an IPv4 packet of which less than a minimal header was captured: only there
    is memory past the packet read. *)
Theorem ip_layer_read_in_bounds data :
  (exists o, process_ipv4_ipv6 data = Ok o /\
     forall off src dst, o = Some (off, src, dst) -> 8 <= off <= zlen data + 8 /\ zlen src = zlen dst /\ (zlen src = 4 \/ zlen src = 16)) \/
  (exists b0 what, data_at data 0 = Ok b0 /\ Z.land b0 240 = 64 /\ zlen data < 20 /\ process_ipv4_ipv6 data = Throw (UB what)).
Proof.
  unfold process_ipv4_ipv6. destruct (Z.ltb_spec (zlen data) 1); [left; by eexists|].
  destruct (data_at_ok data 0 ltac:(lia)) as (b0 & E0 & Hb0). rewrite E0, !res_bind_Ok.
  assert (H15 : 0 <= Z.land b0 15 < 16).
  { change 15 with (Z.ones 4). rewrite Z.land_ones by lia. by apply Z.mod_pos_bound. }
  destruct (Z.eqb_spec (Z.land b0 240) 64) as [E4|].
  - destruct (Z.ltb_spec (zlen data) (Z.land b0 15 * 4)); [left; by eexists|].
    destruct (Z.ltb_spec (zlen data) 20) as [Hs|Hs].
    + unfold data_at. destruct (znth data 9) as [b|]; [|right; by exists b0, "read past the captured packet"%string]. cbn.
      destruct (negb _); [left; by eexists|].
      assert (E16 : data_sub data 16 4 = Throw (UB "read past the captured packet")).
      { unfold data_sub. destruct (Z.leb_spec (16 + 4) (zlen data)); [lia|done]. }
      rewrite E16. unfold data_sub. destruct (12 + 4 <=? zlen data); right; by exists b0, "read past the captured packet"%string.
    + left. destruct (data_at_ok data 9 ltac:(lia)) as (p & -> & _). cbn. destruct (negb _); [by eexists|].
      destruct (data_sub_ok data 12 4) as (src & -> & Hsrc); [lia|lia|lia|].
      destruct (data_sub_ok data 16 4) as (dst & -> & Hdst); [lia|lia|lia|]. eexists. split; [done|].
      intros off s d [= <- <- <-]. split; [lia|]. split; [congruence|by left].
  - left. destruct (_ =? 96); [|by eexists]. destruct (Z.ltb_spec (zlen data) 42); [by eexists|].
    destruct (data_at_ok data 6 ltac:(lia)) as (nxt & -> & _). rewrite !res_bind_Ok.
    destruct (extension_loop_in_bounds data (S (List.length data)) nxt 40) as (o & -> & Ho); [lia|lia|unfold zlen; lia|].
    rewrite !res_bind_Ok. destruct o as [off|]; [|by eexists]. specialize (Ho off eq_refl).
    destruct (data_sub_ok data 8 16) as (src & -> & Hsrc); [lia|lia|lia|].
    destruct (data_sub_ok data 24 16) as (dst & -> & Hdst); [lia|lia|lia|]. eexists. split; [done|].
    intros o s d [= <- <- <-]. split; [lia|]. split; [congruence|by right].
Qed.

(** ** TCP in UDP in IP *)

(** IPv6 extension headers, each with its type and its contents after the two leading
    bytes, which say what comes next and how long the header is. *)
Definition first_header (exts : list (Z * bytes)) : Z := match exts with [] => 17 | (kind, _) :: _ => kind end.

Fixpoint ext_bytes (exts : list (Z * bytes)) : bytes :=
  match exts with
  | [] => []
  | (_, body) :: exts' => byte_of (first_header exts') :: byte_of ((zlen body + 2) / 8 - 1) :: body ++ ext_bytes exts'
  end.

Definition ext_ok (e : Z * bytes) : Prop :=
  fst e ∈ [0; 43; 60] /\ exists l, 0 <= l < 256 /\ zlen (snd e) = 8 * (1 + l) - 2.

Inductive udp_in_ip (src dst udp : bytes) : bytes -> Prop :=
| udp_in_ipv4 h hdr : IPv4Header_valid h -> ip_proto h = 17 -> src = be_bytes 4 (ip_src h) -> dst = be_bytes 4 (ip_dst h) ->
    IPv4Header_serialize h = Ok hdr -> udp_in_ip src dst udp (hdr ++ udp)
| udp_in_ipv6 class flow hop exts : 0 <= class < 16 -> zlen flow = 5 -> zlen src = 16 -> zlen dst = 16 -> Forall ext_ok exts ->
    udp_in_ip src dst udp
      ((byte_of (96 + class) :: flow ++ [byte_of (first_header exts); hop] ++ src ++ dst) ++ ext_bytes exts ++ udp).

(** Link headers that announce IP. *)
Inductive link_header : Z -> bytes -> Prop :=
| link_raw : link_header DLT_RAW []
| link_null a b c family : family ∈ [2; 24; 28; 30] -> link_header DLT_NULL [a; b; c; byte_of family]
| link_ethernet macs type : zlen macs = 12 -> type ∈ [2048; 34525] -> link_header DLT_EN10MB (macs ++ be_bytes 2 type)
| link_sll sll type : zlen sll = 14 -> type ∈ [2048; 34525] -> link_header DLT_LINUX_SLL (sll ++ be_bytes 2 type)
| link_sll2 sll type : zlen sll = 18 -> type ∈ [2048; 34525] -> link_header DLT_LINUX_SLL2 (be_bytes 2 type ++ sll).

Lemma data_at_app_l l k i : i < zlen l -> data_at (l ++ k) i = data_at l i.
Proof. intros H. unfold data_at. by rewrite znth_app_l. Qed.

Lemma data_at_app_r l k i : zlen l <= i -> data_at (l ++ k) i = data_at k (i - zlen l).
Proof. intros H. unfold data_at. by rewrite znth_app_r. Qed.

Lemma ether_type_at pre rest type : type ∈ [2048; 34525] -> ether_type (pre ++ be_bytes 2 type ++ rest) (zlen pre) = Ok type.
Proof.
  intros H. unfold ether_type. rewrite (data_at_app_r pre _ (zlen pre)), (data_at_app_r pre _ (zlen pre + 1)) by lia.
  rewrite Z.sub_diag, Z.add_simpl_l. apply elem_of_cons in H as [->|H]; [done|]. by apply list_elem_of_singleton in H as ->.
Qed.

Lemma link_offset_ok dl lh rest : link_header dl lh -> link_offset dl (lh ++ rest) = Ok (inr (zlen lh)).
Proof.
  assert (Ht : forall type, type ∈ [2048; 34525] -> ip_ether_type type = true).
  { intros type H. apply elem_of_cons in H as [->|H]; [done|]. by apply list_elem_of_singleton in H as ->. }
  intros []; unfold link_offset; cbn [Z.eqb Pos.eqb DLT_RAW DLT_NULL DLT_EN10MB DLT_LINUX_SLL DLT_LINUX_SLL2 negb].
  - done.
  - rewrite zlen_app. destruct (Z.ltb_spec (zlen [a; b; c; byte_of family] + zlen rest) 4) as [Hl|]; [change (zlen [a; b; c; byte_of family]) with 4 in Hl; zlia|].
    repeat (apply elem_of_cons in H as [->|H]; [done|]). by apply elem_of_nil in H.
  - rewrite !zlen_app, zlen_be_bytes, H. destruct (Z.ltb_spec (12 + Z.of_nat 2 + zlen rest) 14); [zlia|].
    rewrite <- app_assoc. rewrite <- H at 1. rewrite ether_type_at by done. cbn. by rewrite Ht.
  - rewrite !zlen_app, zlen_be_bytes, H. destruct (Z.ltb_spec (14 + Z.of_nat 2 + zlen rest) 16); [zlia|].
    rewrite <- app_assoc. rewrite <- H at 1. rewrite ether_type_at by done. cbn. by rewrite Ht.
  - rewrite !zlen_app, zlen_be_bytes, H. destruct (Z.ltb_spec (Z.of_nat 2 + 18 + zlen rest) 20); [zlia|].
    rewrite <- app_assoc. change (ether_type (be_bytes 2 type ++ sll ++ rest) 0) with (ether_type ([] ++ be_bytes 2 type ++ sll ++ rest) (zlen (@nil byte))).
    rewrite ether_type_at by done. cbn. by rewrite Ht.
Qed.

Lemma first_header_range exts : Forall ext_ok exts -> 0 <= first_header exts < 256.
Proof.
  destruct exts as [|[k b] exts]; simpl; [lia|]. intros [[Hk _] _]%Forall_cons. cbn [fst] in Hk.
  repeat (apply elem_of_cons in Hk as [->|Hk]; [lia|]). by apply elem_of_nil in Hk.
Qed.

(** The walk passes all extension headers. *)
Lemma extension_loop_ok exts : forall fuel pre rest, Forall ext_ok exts -> 2 <= zlen rest ->
  (List.length exts < fuel)%nat ->
  extension_loop fuel (pre ++ ext_bytes exts ++ rest) (first_header exts) (zlen pre) = Ok (Some (zlen (pre ++ ext_bytes exts))).
Proof.
  induction exts as [|[kind body] exts IH]; intros [|fuel] pre rest Hx Hr Hf; try (simpl in Hf; lia);
    cbn [extension_loop first_header ext_bytes].
  { by rewrite app_nil_r. }
  apply Forall_cons in Hx as [[Hk (l & Hl & Hb)] Hx]. pose proof (first_header_range exts Hx) as Hn.
  assert (Hkind : (kind =? 17) = false /\ negb (kind =? 0) && negb (kind =? 43) && negb (kind =? 60) = false).
  { cbn [fst] in Hk. repeat (apply elem_of_cons in Hk as [->|Hk]; [done|]). by apply elem_of_nil in Hk. }
  destruct Hkind as [-> ->]. cbn [snd] in Hb.
  set (here := byte_of (first_header exts) :: byte_of ((zlen body + 2) / 8 - 1) :: body).
  change (byte_of (first_header exts) :: byte_of ((zlen body + 2) / 8 - 1) :: body ++ ext_bytes exts) with (here ++ ext_bytes exts).
  assert (Hh : zlen here = 8 * (1 + l)) by (unfold here; rewrite !zlen_cons; lia).
  assert (E1 : data_at (pre ++ (here ++ ext_bytes exts) ++ rest) (zlen pre) = Ok (first_header exts)).
  { rewrite data_at_app_r by lia. rewrite Z.sub_diag.
    transitivity (Ok (byte_val (byte_of (first_header exts)))); [done|]. by rewrite byte_val_of, Z.mod_small. }
  assert (E2 : data_at (pre ++ (here ++ ext_bytes exts) ++ rest) (zlen pre + 1) = Ok l).
  { rewrite data_at_app_r by lia. rewrite Z.add_simpl_l.
    transitivity (Ok (byte_val (byte_of ((zlen body + 2) / 8 - 1)))); [done|]. rewrite byte_val_of, Hb.
    replace ((8 * (1 + l) - 2 + 2) / 8 - 1) with l by (rewrite Z.sub_add, Z.mul_comm, Z.div_mul; lia). by rewrite Z.mod_small. }
  rewrite E1, E2, !res_bind_Ok. rewrite <- Hh, <- zlen_app.
  destruct (Z.ltb_spec (zlen (pre ++ (here ++ ext_bytes exts) ++ rest)) (zlen (pre ++ here) + 2)) as [Hlt|_].
  { rewrite !zlen_app in Hlt. zlia. }
  rewrite <- (app_assoc here), (app_assoc pre here). rewrite IH by (done || (simpl in Hf; lia)). by rewrite <- !app_assoc.
Qed.

(** Version 4 or 6 in the high half of the first byte. *)
Lemma version_nibble version c : version ∈ [4; 6] -> 0 <= c < 16 ->
  Z.land (16 * version + c) 240 = 16 * version /\ Z.land (16 * version + c) 15 = c.
Proof.
  intros Hv Hc. assert (H : Forall (fun c => Forall (fun v => Z.land (16 * v + c) 240 = 16 * v /\ Z.land (16 * v + c) 15 = c) [4; 6]) (seqZ 0 16))
    by (vm_compute; repeat constructor).
  rewrite Forall_forall in H. specialize (H c ltac:(apply elem_of_seqZ; lia)). rewrite Forall_forall in H. by apply H.
Qed.

Lemma process_ok src dst udp ip : udp_in_ip src dst udp ip -> 8 <= zlen udp ->
  exists hdrs, ip = hdrs ++ udp /\ process_ipv4_ipv6 ip = Ok (Some (zlen hdrs + 8, src, dst)).
Proof.
  intros H Hu. destruct H as [h hdr V Hp -> -> Es|class flow hop exts Hc Hf Hs Hd Hx].
  - exists hdr. split; [done|]. rewrite ip_serialize_eq in Es by done. injection Es as <-.
    pose proof (ip_bytes_len h V) as Hl. pose proof (iv_hlen _ V) as Hh.
    destruct (version_nibble 4 (ip_hlen h)) as [E240 E15]; [left|lia|]. change (16 * 4) with 64 in *.
    assert (E0 : data_at (ip_bytes h ++ udp) 0 = Ok (64 + ip_hlen h)).
    { transitivity (Ok (byte_val (byte_of ((64 + ip_hlen h) / 1)))); [reflexivity|]. rewrite Z.div_1_r. by rewrite byte_val_of, Z.mod_small by lia. }
    assert (E9 : data_at (ip_bytes h ++ udp) 9 = Ok 17).
    { transitivity (Ok (byte_val (byte_of (ip_proto h / 1)))); [reflexivity|]. by rewrite Hp. }
    assert (E12 : data_sub (ip_bytes h ++ udp) 12 4 = Ok (be_bytes 4 (ip_src h))).
    { unfold data_sub. rewrite zlen_app. destruct (Z.leb_spec (12 + 4) (zlen (ip_bytes h) + zlen udp)); [reflexivity|zlia]. }
    assert (E16 : data_sub (ip_bytes h ++ udp) 16 4 = Ok (be_bytes 4 (ip_dst h))).
    { unfold data_sub. rewrite zlen_app. destruct (Z.leb_spec (16 + 4) (zlen (ip_bytes h) + zlen udp)); [reflexivity|zlia]. }
    unfold process_ipv4_ipv6. rewrite zlen_app. destruct (Z.ltb_spec (zlen (ip_bytes h) + zlen udp) 1); [zlia|].
    rewrite E0, res_bind_Ok, E240, E15, Z.eqb_refl.
    destruct (Z.ltb_spec (zlen (ip_bytes h) + zlen udp) (ip_hlen h * 4)); [zlia|].
    rewrite E9, res_bind_Ok. cbn [Z.eqb Pos.eqb negb]. rewrite E12, E16, !res_bind_Ok. do 2 f_equal. f_equal. f_equal. lia.
  - set (fixed := byte_of (96 + class) :: flow ++ [byte_of (first_header exts); hop] ++ src ++ dst).
    exists (fixed ++ ext_bytes exts). split; [by rewrite app_assoc|].
    assert (Hl : zlen fixed = 40) by (unfold fixed; rewrite zlen_cons, !zlen_app, Hf, Hs, Hd; done).
    destruct (version_nibble 6 class) as [E240 _]; [right; left|lia|]. change (16 * 6) with 96 in *.
    assert (E0 : data_at (fixed ++ ext_bytes exts ++ udp) 0 = Ok (96 + class)).
    { transitivity (Ok (byte_val (byte_of (96 + class)))); [reflexivity|]. by rewrite byte_val_of, Z.mod_small by lia. }
    assert (Hpre : forall off len, 0 <= off -> 0 <= len -> off + len <= 40 ->
      data_sub (fixed ++ ext_bytes exts ++ udp) off len = Ok (ztake len (zdrop off fixed))).
    { intros off len Ho Hle Hol. unfold data_sub. rewrite zlen_app, Hl. destruct (Z.leb_spec (off + len) (40 + zlen (ext_bytes exts ++ udp))); [|zlia].
      rewrite zdrop_app_le, ztake_app_le by (rewrite ?zlen_zdrop; lia). done. }
    destruct flow as [|f1 [|f2 [|f3 [|f4 [|f5 [|]]]]]]; try (unfold zlen in Hf; simpl in Hf; lia).
    assert (E6 : data_at (fixed ++ ext_bytes exts ++ udp) 6 = Ok (first_header exts)).
    { transitivity (Ok (byte_val (byte_of (first_header exts)))); [reflexivity|].
      by rewrite byte_val_of, Z.mod_small by (by apply first_header_range). }
    unfold process_ipv4_ipv6. rewrite E0, res_bind_Ok, E240, zlen_app, Hl. rewrite zlen_app.
    destruct (Z.ltb_spec (40 + (zlen (ext_bytes exts) + zlen udp)) 1); [zlia|]. cbn [Z.eqb Pos.eqb].
    destruct (Z.ltb_spec (40 + (zlen (ext_bytes exts) + zlen udp)) 42); [zlia|]. rewrite E6, res_bind_Ok.
    rewrite <- Hl at 1. rewrite extension_loop_ok.
    + rewrite res_bind_Ok. rewrite !Hpre by lia. rewrite !res_bind_Ok. do 2 f_equal. f_equal; [f_equal|].
      * unfold fixed. cbn [app]. change (ztake 16 (src ++ dst) = src). by rewrite ztake_app_le, ztake_all by lia.
      * unfold fixed. cbn [app]. change (ztake 16 (zdrop 16 (src ++ dst)) = dst).
        rewrite zdrop_app_ge by lia. rewrite Hs, Z.sub_diag, zdrop_0. by rewrite ztake_all by lia.
    + done.
    + lia.
    + rewrite length_app. rewrite length_app. assert (List.length exts <= List.length (ext_bytes exts))%nat; [|lia].
      clear. induction exts as [|[] exts IH]; simpl; [done|]. rewrite length_app. lia.
Qed.

(** The sequence numbers of a segment as they are printed: the first and, if it occupies
    any, the first one after it. *)
Definition seq_range (h : TCPHeader) (payload : bytes) : string :=
  let seqlen := zlen payload + (if th_syn h then 1 else 0) + (if th_fin h then 1 else 0) in
  pretty (raw_value (th_seqno h)) +:+
  (if 0 <? seqlen then ":" +:+ pretty ((raw_value (th_seqno h) + seqlen) mod W32) else "").

Lemma shown_seq_range seg h payload : ts_header seg = h -> Buffer_str (ts_payload seg) = payload -> zlen payload < W31 ->
  let seqlen := u32 (length_in_sequence_space seg) in
  pretty (raw_value (th_seqno h)) +:+
    (if 0 <? seqlen then ":" +:+ pretty (raw_value (wi_add (th_seqno h) seqlen)) else "") = seq_range h payload.
Proof.
  intros <- <- Hl. pose proof (zlen_nonneg (Buffer_str (ts_payload seg))). unfold length_in_sequence_space, seq_range.
  set (n := zlen _ + (if th_syn _ then 1 else 0) + (if th_fin _ then 1 else 0)).
  assert (Hn : 0 <= n < W32) by (unfold n; destruct (th_syn _), (th_fin _); lia).
  rewrite (u64_id n), (u32_id n) by lia. done.
Qed.

(** C30: A TCP segment in a UDP datagram is recognized and shown: for every link type the
    program knows, in IPv4 or in IPv6 behind any chain of hop-by-hop, routing and
    destination-options headers (kinds 0, 43 and 60; the code gives up on others), the
    text is the two addresses of the IP header with the segment's ports, source first, the
    letters of its flags, its checksum word found correct, its sequence numbers,
    acknowledgment number, window and length, followed by all bytes of the segment in lines
    of sixteen. (The segment's fields are those sent; [v] is the checksum word its
    serialization carries.) *)
Theorem packet_dump_shows_segments inet_ntop dl lh src dst uh seg bl ip cs l :
  link_header dl lh -> zlen uh = 8 -> TCPHeader_valid (ts_header seg) -> segment_fits seg 0 ->
  TCPSegment_serialize seg 0 = Ok bl -> udp_in_ip src dst (uh ++ BufferList_concatenate bl) ip ->
  BufferList_concatenate bl = List.concat cs ++ l -> Forall (fun c => List.length c = 16%nat) cs ->
  (0 < List.length l <= 16)%nat ->
  let h := ts_header seg in
  exists v hdr, TCPHeader_serialize (th_set_cksum h v) = Ok hdr /\
    BufferList_concatenate bl = hdr ++ Buffer_str (ts_payload seg) /\
    show_packet inet_ntop dl (lh ++ ip) = Ok (Dumped
      (inet_ntop src +:+ ":" +:+ pretty (th_sport h) +:+ " > " +:+ inet_ntop dst +:+ ":" +:+ pretty (th_dport h) +:+
       String "010" "    Flags [" +:+
       (if th_urg h then "U" else "") +:+ (if th_psh h then "P" else "") +:+ (if th_rst h then "R" else "") +:+
       (if th_syn h then "S" else "") +:+ (if th_fin h then "F" else "") +:+ (if th_ack h then "." else "") +:+
       "] cksum 0x" +:+ hex 4 v +:+ " (correct)" +:+
       " seq " +:+ seq_range h (Buffer_str (ts_payload seg)) +:+
       " ack " +:+ pretty (raw_value (th_ackno h)) +:+ " win " +:+ pretty (th_win h) +:+
       " length " +:+ pretty (zlen hdr + zlen (Buffer_str (ts_payload seg))) +:+ String "010" "" +:+
       dump_lines 8 0 (cs ++ [l]) +:+ String "010" "")).
Proof.
  intros Hl Hu V Hfit Es Hip Hcs H16 Hlast h. destruct (TCPSegment_serialize_spec seg 0 V Hfit) as (v & hdr & Hv & E & Eh & Hhdr & Hck).
  rewrite E in Es. injection Es as <-. rewrite <- (hexdump_prints_lines 8 cs l H16 Hlast), <- Hcs. clear Hcs. set (payload := BufferList_concatenate _) in *.
  assert (Hp : payload = hdr ++ Buffer_str (ts_payload seg)) by (unfold payload; by rewrite !concatenate_cons, app_nil_r).
  assert (Hsmall : zlen payload < W31).
  { rewrite Hp, zlen_app, Hhdr. destruct Hfit as [_ Hfit]. destruct V. zlia. }
  destruct (process_ok _ _ _ _ Hip) as (hdrs & -> & Epr); [rewrite zlen_app; zlia|].
  destruct (TCPSegment_parse_spec TCPSegment_default (Buffer_of_string payload) 0 (th_set_cksum (ts_header seg) v) hdr
    (Buffer_str (ts_payload seg))) as (seg' & Ep & Hh & Hs & _); [apply Buffer_wf_of_string; lia|done|by apply th_set_cksum_valid|done|done|].
  exists v, hdr. split; [done|]. split; [done|].
  unfold show_packet. rewrite link_offset_ok by done. rewrite res_bind_Ok.
  rewrite zdrop_app_ge, Z.sub_diag, zdrop_0 by lia. rewrite Epr, res_bind_Ok.
  assert (Hz : zlen (lh ++ hdrs ++ uh ++ payload) = zlen lh + (zlen hdrs + 8) + zlen payload) by (rewrite !zlen_app; lia).
  rewrite Hz. destruct (Z.ltb_spec (zlen lh + (zlen hdrs + 8) + zlen payload) (zlen lh + (zlen hdrs + 8))); [zlia|].
  replace (zlen lh + (zlen hdrs + 8)) with (zlen (lh ++ hdrs ++ uh)) by (rewrite !zlen_app; lia).
  replace (lh ++ hdrs ++ uh ++ payload) with ((lh ++ hdrs ++ uh) ++ payload) by (by rewrite <- !app_assoc).
  rewrite zdrop_app_ge, Z.sub_diag, zdrop_0 by lia. rewrite Ep. cbn [mbind res_bind].
  rewrite Z.add_simpl_l, u64_id by zlia. cbn [Nat.ltb Nat.leb ParseResult_code]. do 2 f_equal. unfold show_segment. rewrite Hh.
  rewrite bool_decide_eq_true_2 by done. change (th_set_cksum (ts_header seg) v) with (th_set_cksum h v).
  assert (Hpl : zlen (Buffer_str (ts_payload seg)) < W31) by (rewrite Hp, zlen_app in Hsmall; zlia).
  pose proof (shown_seq_range seg' _ _ Hh Hs Hpl) as Hseq. cbv zeta in Hseq |- *. fold h in Hseq.
  change (seq_range (th_set_cksum h v)) with (seq_range h) in Hseq. rewrite <- Hseq.
  rewrite Hp, zlen_app. rewrite !string_app_assoc. done.
Qed.

(** A UDP datagram on Ethernet and one in IPv6 with a destination-options header. *)
Definition sample_link : bytes := replicate 12 (byte_of 2) ++ be_bytes 2 34525.
Definition sample_list : BufferList := match TCPSegment_serialize sample_segment 0 with Ok bl => bl | _ => [] end.
Definition sample_payload : bytes := BufferList_concatenate sample_list.
Definition sample_exts : list (Z * bytes) := [(60, replicate 14 (byte_of 1))].
Definition sample_ipv6 : bytes :=
  (byte_of (96 + 3) :: replicate 5 (byte_of 0) ++ [byte_of (first_header sample_exts); byte_of 64] ++
   replicate 16 (byte_of 7) ++ replicate 16 (byte_of 8)) ++ ext_bytes sample_exts ++ replicate 8 (byte_of 0) ++ sample_payload.

(** A SYN with three bytes from port 1234 to port 80, as it is printed. *)
Lemma packet_dump_shows_segments_witness : exists v,
  show_packet (fun _ => "addr"%string) DLT_EN10MB (sample_link ++ sample_ipv6) = Ok (Dumped
    ("addr:1234 > addr:80" +:+ String "010" "    Flags [S] cksum 0x" +:+ hex 4 v +:+
     " (correct) seq 0:4 ack 0 win 0 length 23" +:+ String "010" "" +:+
     dump_lines 8 0 ([ztake 16 sample_payload] ++ [zdrop 16 sample_payload]) +:+ String "010" "")).
Proof.
  assert (E : TCPSegment_serialize sample_segment 0 = Ok sample_list) by (vm_compute; reflexivity).
  destruct (packet_dump_shows_segments (fun _ => "addr"%string) DLT_EN10MB sample_link (replicate 16 (byte_of 7))
    (replicate 16 (byte_of 8)) (replicate 8 (byte_of 0)) sample_segment sample_list sample_ipv6
    [ztake 16 sample_payload] (zdrop 16 sample_payload)) as (v & hdr & Hh & _ & Hp).
  - apply link_ethernet; [reflexivity|right; left].
  - reflexivity.
  - split; vm_compute; split; congruence.
  - split; [lia|reflexivity].
  - exact E.
  - apply (udp_in_ipv6 _ _ _ 3 (replicate 5 (byte_of 0)) (byte_of 64) sample_exts);
      [lia|reflexivity|reflexivity|reflexivity|]. constructor; [|constructor]. split; [right; right; left|]. exists 1. split; [lia|reflexivity].
  - vm_compute. reflexivity.
  - constructor; [vm_compute; reflexivity|constructor].
  - vm_compute. lia.
  - exists v. rewrite Hp. injection Hh as <-. reflexivity.
Defined.

(** ** Where the dump goes wrong *)

(** a packet that was captured short makes the program read past it: here an IPv4 packet of
    one byte, and one whose UDP header is cut off, for which the payload length wraps around. *)
Theorem short_capture_read_past inet_ntop :
  show_packet inet_ntop DLT_RAW [byte_of 64] = Throw (UB "read past the captured packet") /\
  show_packet inet_ntop DLT_RAW (map byte_of [69;0;0;20; 0;0;0;0; 9;17;0;0; 1;2;3;4; 5;6;7;8]) =
    Throw (UB "the payload lies past the captured packet").
Proof. split; reflexivity. Qed.

(** A SYN from port 4660 whose checksum is wrong. *)
Definition corrupt_segment : bytes := map byte_of [18;52;0;80; 0;0;0;7; 0;0;0;0; 80;2;16;0; 1;1;0;0].
Definition corrupt_packet : bytes :=
  map byte_of [69;0;0;48; 0;0;0;0; 9;17;0;0; 1;2;3;4; 5;6;7;8] ++ replicate 8 (byte_of 0) ++ corrupt_segment.

(** a segment with a wrong checksum is not shown: [parse] leaves the default segment in
    place, and its fields are printed as if they had been received. *)
Theorem corrupt_segment_shown_blank inet_ntop :
  show_packet inet_ntop DLT_RAW corrupt_packet = Ok (Dumped
    (show_segment (inet_ntop (map byte_of [1; 2; 3; 4])) (inet_ntop (map byte_of [5; 6; 7; 8])) BadChecksum TCPSegment_default 20 +:+
     hexdump corrupt_segment 8)).
Proof. vm_compute. reflexivity. Qed.
