(* ===== verification/Interface.v ===== *)
(** * The network interface

    Models [libsponge/network_interface.hh] and [network_interface.cc]: Ethernet framing of
    IPv4 datagrams and address resolution by ARP. The iteration order of the two
    [std::unordered_map]s in [tick] is unspecified, so it is an argument. *)

From S2P Require Import Prelude WrappingInts Buffers Checksum Parser TCPSegments IPv4 Ethernet Addresses.

Record ARP_Entry : Type := mkARP_Entry { ae_eth_addr : EthernetAddress; ae_ttl : Z }.

Record NetworkInterface : Type := mkNI {
  ni_ethernet_address : EthernetAddress;
  ni_ip_address : Address;
  ni_frames_out : list EthernetFrame;
  ni_arp_table : gmap Z ARP_Entry;
  ni_waiting_arp_response_ip_addr : gmap Z Z;
  ni_waiting_arp_internet_datagrams : list (Address * InternetDatagram)
}.

Definition arp_entry_default_ttl : Z := 30 * 1000.
Definition arp_response_default_ttl : Z := 5 * 1000.

Definition NetworkInterface_new (ethernet_address : EthernetAddress) (ip_address : Address) : NetworkInterface :=
  mkNI ethernet_address ip_address [] ∅ ∅ [].

Definition ni_push_frame (f : EthernetFrame) (s : NetworkInterface) : NetworkInterface :=
  mkNI (ni_ethernet_address s) (ni_ip_address s) (ni_frames_out s ++ [f]) (ni_arp_table s)
    (ni_waiting_arp_response_ip_addr s) (ni_waiting_arp_internet_datagrams s).

Definition ni_set_frames (l : list EthernetFrame) (s : NetworkInterface) : NetworkInterface :=
  mkNI (ni_ethernet_address s) (ni_ip_address s) l (ni_arp_table s)
    (ni_waiting_arp_response_ip_addr s) (ni_waiting_arp_internet_datagrams s).

Definition ni_set_arp_table (t : gmap Z ARP_Entry) (s : NetworkInterface) : NetworkInterface :=
  mkNI (ni_ethernet_address s) (ni_ip_address s) (ni_frames_out s) t
    (ni_waiting_arp_response_ip_addr s) (ni_waiting_arp_internet_datagrams s).

Definition ni_set_pending (m : gmap Z Z) (s : NetworkInterface) : NetworkInterface :=
  mkNI (ni_ethernet_address s) (ni_ip_address s) (ni_frames_out s) (ni_arp_table s)
    m (ni_waiting_arp_internet_datagrams s).

Definition ni_set_waiting (l : list (Address * InternetDatagram)) (s : NetworkInterface) : NetworkInterface :=
  mkNI (ni_ethernet_address s) (ni_ip_address s) (ni_frames_out s) (ni_arp_table s)
    (ni_waiting_arp_response_ip_addr s) l.

(** The ARP request for [target], as [send_datagram] and [tick] both build it. *)
Definition make_arp_request (s : NetworkInterface) (target : Z) : res EthernetFrame :=
  sender_ip ← ipv4_numeric (ni_ip_address s);
  let arp_request := mkARPMessage TYPE_ETHERNET TYPE_IPv4 6 4 OPCODE_REQUEST
    (ni_ethernet_address s) sender_ip [0; 0; 0; 0; 0; 0] target in
  payload ← ARPMessage_serialize arp_request;
  Ok (mkEthernetFrame (mkEthernetHeader ETHERNET_BROADCAST (ni_ethernet_address s) TYPE_ARP)
        (BufferList_of_string payload)).

Definition make_arp_reply (s : NetworkInterface) (target_eth : EthernetAddress) (target_ip : Z) : res EthernetFrame :=
  sender_ip ← ipv4_numeric (ni_ip_address s);
  let arp_reply := mkARPMessage TYPE_ETHERNET TYPE_IPv4 6 4 OPCODE_REPLY
    (ni_ethernet_address s) sender_ip target_eth target_ip in
  payload ← ARPMessage_serialize arp_reply;
  Ok (mkEthernetFrame (mkEthernetHeader target_eth (ni_ethernet_address s) TYPE_ARP)
        (BufferList_of_string payload)).

Definition send_datagram (dgram : InternetDatagram) (next_hop : Address) : method NetworkInterface unit :=
  next_hop_ip ← lift (ipv4_numeric next_hop);
  arp_table ← gets ni_arp_table;
  match arp_table !! next_hop_ip with
  | None =>
      pending ← gets ni_waiting_arp_response_ip_addr;
      _ ← ((match pending !! next_hop_ip with
           | None =>
               s ← gets id;
               eth_frame ← lift (make_arp_request s next_hop_ip);
               _ ← modify (ni_push_frame eth_frame);
               modify (ni_set_pending (<[next_hop_ip := arp_response_default_ttl]> pending))
           | Some _ => mret tt
           end) : method NetworkInterface unit);
      modify (fun s => ni_set_waiting (ni_waiting_arp_internet_datagrams s ++ [(next_hop, dgram)]) s)
  | Some entry =>
      payload ← lift (IPv4Datagram_serialize dgram);
      modify (fun s => ni_push_frame
        (mkEthernetFrame (mkEthernetHeader (ae_eth_addr entry) (ni_ethernet_address s) TYPE_IPv4) payload) s)
  end.

(** The loop over the waiting datagrams: [i] is the iterator's position; the call of
    [send_datagram] works on the whole object, the list included. *)
Fixpoint flush_waiting (fuel : nat) (src_ip_addr : Z) (i : nat) : method NetworkInterface unit :=
  match fuel with
  | O => lift NoFuel
  | S fuel' =>
      waiting ← gets ni_waiting_arp_internet_datagrams;
      match waiting !! i with
      | None => mret tt
      | Some (addr, dgram) =>
          ip ← lift (ipv4_numeric addr);
          if ip =? src_ip_addr then
            _ ← send_datagram dgram addr;
            _ ← modify (fun s => ni_set_waiting (delete i (ni_waiting_arp_internet_datagrams s)) s);
            flush_waiting fuel' src_ip_addr i
          else flush_waiting fuel' src_ip_addr (S i)
      end
  end.

Definition recv_frame (frame : EthernetFrame) : method NetworkInterface (option InternetDatagram) :=
  let hdr := ef_header frame in
  my_eth ← gets ni_ethernet_address;
  if negb (bool_decide (eh_dst hdr = my_eth)) && negb (bool_decide (eh_dst hdr = ETHERNET_BROADCAST)) then mret None
  else if eh_type hdr =? TYPE_IPv4 then
    buffer ← lift (BufferList_to_Buffer (ef_payload frame));
    '(result, datagram) ← lift (IPv4Datagram_parse IPv4Datagram_default buffer);
    if negb (bool_decide (result = NoError)) then mret None else mret (Some datagram)
  else if eh_type hdr =? TYPE_ARP then
    buffer ← lift (BufferList_to_Buffer (ef_payload frame));
    '(result, arp_msg) ← lift (ARPMessage_parse ARPMessage_default buffer);
    if negb (bool_decide (result = NoError)) then mret None
    else
      let src_ip_addr := arp_sender_ip_address arp_msg in
      let dst_ip_addr := arp_target_ip_address arp_msg in
      let src_eth_addr := arp_sender_ethernet_address arp_msg in
      let dst_eth_addr := arp_target_ethernet_address arp_msg in
      my_ip_address ← gets ni_ip_address;
      is_valid_arp_request ← lift (if arp_opcode arp_msg =? OPCODE_REQUEST
        then my_ip ← ipv4_numeric my_ip_address; Ok (dst_ip_addr =? my_ip) else Ok false);
      let is_valid_arp_reply := (arp_opcode arp_msg =? OPCODE_REPLY) && bool_decide (dst_eth_addr = my_eth) in
      _ ← ((if is_valid_arp_request : bool then
              s ← gets id;
              eth_frame ← lift (make_arp_reply s src_eth_addr src_ip_addr);
              modify (ni_push_frame eth_frame)
            else mret tt) : method NetworkInterface unit);
      _ ← ((if is_valid_arp_reply || is_valid_arp_request then
              _ ← modify (fun s => ni_set_arp_table
                    (<[src_ip_addr := mkARP_Entry src_eth_addr arp_entry_default_ttl]> (ni_arp_table s)) s);
              waiting ← gets ni_waiting_arp_internet_datagrams;
              _ ← flush_waiting (S (length waiting)) src_ip_addr 0;
              modify (fun s => ni_set_pending (delete src_ip_addr (ni_waiting_arp_response_ip_addr s)) s)
            else mret tt) : method NetworkInterface unit);
      mret None
  else mret None.

(** ** [tick] *)

(** The first loop, over the entries of the ARP table in the order [keys]. *)
Fixpoint expire_arp (ms : Z) (keys : list Z) (t : gmap Z ARP_Entry) : gmap Z ARP_Entry :=
  match keys with
  | [] => t
  | k :: keys' =>
      expire_arp ms keys'
        match t !! k with
        | Some e => if ae_ttl e <=? ms then delete k t
                    else <[k := mkARP_Entry (ae_eth_addr e) (ae_ttl e -64 ms)]> t
        | None => t
        end
  end.

(** The second loop at one entry: an expired request is sent again and its time reset,
    but the iterator does not move, so the same entry is looked at again. *)
Fixpoint tick_pending_entry (fuel : nat) (ms ip : Z) : method NetworkInterface unit :=
  match fuel with
  | O => lift NoFuel
  | S fuel' =>
      pending ← gets ni_waiting_arp_response_ip_addr;
      match pending !! ip with
      | None => mret tt
      | Some ttl =>
          if ttl <=? ms then
            s ← gets id;
            eth_frame ← lift (make_arp_request s ip);
            _ ← modify (ni_push_frame eth_frame);
            _ ← modify (ni_set_pending (<[ip := arp_response_default_ttl]> pending));
            tick_pending_entry fuel' ms ip
          else modify (ni_set_pending (<[ip := ttl -64 ms]> pending))
      end
  end.

Fixpoint tick_pending (fuel : nat) (ms : Z) (keys : list Z) : method NetworkInterface unit :=
  match keys with
  | [] => mret tt
  | ip :: keys' => _ ← tick_pending_entry fuel ms ip; tick_pending fuel ms keys'
  end.

(** [arp_order] and [pending_order] list the keys of the two maps. *)
Definition NetworkInterface_tick (fuel : nat) (arp_order pending_order : list Z) (ms_since_last_tick : Z)
  : method NetworkInterface unit :=
  _ ← modify (fun s => ni_set_arp_table (expire_arp ms_since_last_tick arp_order (ni_arp_table s)) s);
  tick_pending fuel ms_since_last_tick pending_order.

(** ** The invariant *)

Record ni_inv (s : NetworkInterface) : Prop := {
  nv_eth : EthernetAddress_valid (ni_ethernet_address s);
  nv_ip : exists ip, ipv4_numeric (ni_ip_address s) = Ok ip;
  nv_disjoint : forall ip, is_Some (ni_arp_table s !! ip) -> ni_waiting_arp_response_ip_addr s !! ip = None;
  nv_table : map_Forall (fun _ e => EthernetAddress_valid (ae_eth_addr e) /\ 0 < ae_ttl e <= 30000) (ni_arp_table s);
  nv_pending : map_Forall (fun ip t => 0 <= ip < W32 /\ 0 < t <= 5000) (ni_waiting_arp_response_ip_addr s);
  nv_waiting : Forall (fun x => (exists bl, IPv4Datagram_serialize (snd x) = Ok bl) /\
      exists ip, ipv4_numeric (fst x) = Ok ip /\ is_Some (ni_waiting_arp_response_ip_addr s !! ip))
    (ni_waiting_arp_internet_datagrams s)
}.

Lemma ni_inv_new eth ip port : EthernetAddress_valid eth -> 0 <= ip < W32 ->
  ni_inv (NetworkInterface_new eth (inet ip port)).
Proof.
  intros He Hi. split; simpl; try done.
  - exists ip. by apply ipv4_numeric_inet.
Qed.

(** [f] carries the ARP message [m]. *)
Definition arp_frame (f : EthernetFrame) (dst src : EthernetAddress) (m : ARPMessage) : Prop :=
  exists bs, ARPMessage_serialize m = Ok bs /\
    f = mkEthernetFrame (mkEthernetHeader dst src TYPE_ARP) [Buffer_of_string bs].

Definition arp_request_for (s : NetworkInterface) (target : Z) (f : EthernetFrame) : Prop :=
  exists my_ip, ipv4_numeric (ni_ip_address s) = Ok my_ip /\
    arp_frame f ETHERNET_BROADCAST (ni_ethernet_address s)
      (mkARPMessage TYPE_ETHERNET TYPE_IPv4 6 4 OPCODE_REQUEST (ni_ethernet_address s) my_ip [0; 0; 0; 0; 0; 0] target).

(** [f] carries the datagram [d] to [dst]. *)
Definition carries (s : NetworkInterface) (dst : EthernetAddress) (d : InternetDatagram) (f : EthernetFrame) : Prop :=
  exists bl, IPv4Datagram_serialize d = Ok bl /\
    f = mkEthernetFrame (mkEthernetHeader dst (ni_ethernet_address s) TYPE_IPv4) bl.

Lemma no_ethernet_address : EthernetAddress_valid [0; 0; 0; 0; 0; 0].
Proof. split; [done|]. repeat constructor; lia. Qed.

Lemma make_arp_request_ok s target : ni_inv s -> 0 <= target < W32 ->
  exists f, make_arp_request s target = Ok f /\ arp_request_for s target f.
Proof.
  intros I Ht. destruct (nv_ip _ I) as [ip Eip]. pose proof (ipv4_numeric_range _ _ Eip).
  unfold make_arp_request. rewrite Eip, res_bind_Ok. cbv zeta.
  match goal with |- context [ARPMessage_serialize ?m] => destruct (ARPMessage_serialize_ok m) as (bs & E & _) end.
  { split; simpl; try done; [apply I|apply no_ethernet_address]. }
  rewrite E, res_bind_Ok. eexists. split; [done|]. exists ip. split; [done|]. by exists bs.
Qed.

Lemma make_arp_reply_ok s eth ip : ni_inv s -> EthernetAddress_valid eth -> 0 <= ip < W32 ->
  exists f my_ip, make_arp_reply s eth ip = Ok f /\ ipv4_numeric (ni_ip_address s) = Ok my_ip /\
    arp_frame f eth (ni_ethernet_address s)
      (mkARPMessage TYPE_ETHERNET TYPE_IPv4 6 4 OPCODE_REPLY (ni_ethernet_address s) my_ip eth ip).
Proof.
  intros I He Ht. destruct (nv_ip _ I) as [my Eip]. pose proof (ipv4_numeric_range _ _ Eip).
  unfold make_arp_reply. rewrite Eip, res_bind_Ok. cbv zeta.
  match goal with |- context [ARPMessage_serialize ?m] => destruct (ARPMessage_serialize_ok m) as (bs & E & _) end.
  { split; simpl; try done. apply I. }
  rewrite E, res_bind_Ok. eexists _, my. split; [done|]. split; [done|]. by exists bs.
Qed.

(** ** [send_datagram] *)

Definition enqueue (next_hop : Address) (d : InternetDatagram) (s : NetworkInterface) : NetworkInterface :=
  ni_set_waiting (ni_waiting_arp_internet_datagrams s ++ [(next_hop, d)]) s.

Definition sent (s : NetworkInterface) (d : InternetDatagram) (next_hop : Address) (ip : Z) (s' : NetworkInterface) : Prop :=
  match ni_arp_table s !! ip, ni_waiting_arp_response_ip_addr s !! ip with
  | Some e, _ => exists f, carries s (ae_eth_addr e) d f /\ s' = ni_push_frame f s
  | None, Some _ => s' = enqueue next_hop d s
  | None, None => exists f, arp_request_for s ip f /\
      s' = enqueue next_hop d (ni_set_pending (<[ip := 5000]> (ni_waiting_arp_response_ip_addr s)) (ni_push_frame f s))
  end.

Lemma send_datagram_spec s d next_hop ip bl :
  ni_inv s -> ipv4_numeric next_hop = Ok ip -> IPv4Datagram_serialize d = Ok bl ->
  exists s', send_datagram d next_hop s = (Ok tt, s') /\ sent s d next_hop ip s' /\ ni_inv s'.
Proof.
  intros I Eip Ed. pose proof (ipv4_numeric_range _ _ Eip) as Hr. unfold send_datagram, sent. rewrite Eip. mrun.
  destruct (ni_arp_table s !! ip) as [e|] eqn:Et.
  - rewrite Ed. mrun. eexists. split; [reflexivity|]. split; [eexists; split; [by exists bl|done]|].
    destruct I. by split.
  - mrun. destruct (ni_waiting_arp_response_ip_addr s !! ip) as [t|] eqn:Ep.
    + mrun. eexists. split; [reflexivity|]. split; [done|]. destruct I. split; try done. simpl.
      apply Forall_app. split; [done|]. apply Forall_singleton. split; [by exists bl|]. exists ip. by rewrite Ep.
    + mrun. destruct (make_arp_request_ok s ip I Hr) as (f & Ef & Hf).
      erewrite run_bind by (mrun; unfold id; rewrite Ef; mrun; reflexivity).
      eexists. split; [reflexivity|]. split; [exists f; split; [done|reflexivity]|]. destruct I. split; try done; simpl.
      * intros k Hk. rewrite lookup_insert_ne; [by apply nv_disjoint0|]. intros <-. rewrite Et in Hk. by destruct Hk.
      * apply map_Forall_insert_2; [|done]. split; [done|]. unfold arp_response_default_ttl. lia.
      * apply Forall_app. split.
        -- eapply Forall_impl; [exact nv_waiting0|]. intros x (Hx & k & Hk & Hs). split; [done|].
           exists k. split; [done|]. destruct (decide (ip = k)) as [->|]; [by rewrite lookup_insert_eq|by rewrite lookup_insert_ne].
        -- apply Forall_singleton. split; [by exists bl|]. exists ip. by rewrite lookup_insert_eq.
Qed.

(** ** [recv_frame] *)

Definition goes_to (ip : Z) (x : Address * InternetDatagram) : bool :=
  match ipv4_numeric (fst x) with Ok k => k =? ip | _ => false end.

(** The waiting datagrams for [ip] in order, and the rest. *)
Definition matching (ip : Z) (l : list (Address * InternetDatagram)) : list InternetDatagram :=
  map snd (List.filter (goes_to ip) l).
Definition others (ip : Z) (l : list (Address * InternetDatagram)) : list (Address * InternetDatagram) :=
  List.filter (fun x => negb (goes_to ip x)) l.

(** A datagram that can be sent: its next hop is an IPv4 address and it serializes. *)
Definition sendable (x : Address * InternetDatagram) : Prop :=
  (exists bl, IPv4Datagram_serialize (snd x) = Ok bl) /\ exists ip, ipv4_numeric (fst x) = Ok ip.

Lemma flush_step fuel ip i :
  flush_waiting (S fuel) ip i =
    (waiting ← gets ni_waiting_arp_internet_datagrams;
     match waiting !! i with
     | None => mret tt
     | Some (addr, dgram) =>
         k ← lift (ipv4_numeric addr);
         if k =? ip then
           _ ← send_datagram dgram addr;
           _ ← modify (fun s => ni_set_waiting (delete i (ni_waiting_arp_internet_datagrams s)) s);
           flush_waiting fuel ip i
         else flush_waiting fuel ip (S i)
     end).
Proof. done. Qed.

(** The loop sends the datagrams for a resolved address in the order in which they
    were queued and keeps the others; one unit of fuel per entry and one to see the
    end are enough. *)
Lemma flush_ok ip e todo : forall kept s,
  ni_waiting_arp_internet_datagrams s = kept ++ todo -> ni_arp_table s !! ip = Some e -> Forall sendable todo ->
  exists fs, flush_waiting (S (length todo)) ip (length kept) s
      = (Ok tt, ni_set_waiting (kept ++ others ip todo) (ni_set_frames (ni_frames_out s ++ fs) s)) /\
    Forall2 (carries s (ae_eth_addr e)) (matching ip todo) fs.
Proof.
  induction todo as [|[a d] todo IH]; intros kept s Hw He Hs; rewrite flush_step; mrun; rewrite Hw.
  - rewrite lookup_ge_None_2 by (rewrite app_nil_r; lia). exists []. split; [|constructor].
    rewrite !app_nil_r. destruct s. cbn in *. by rewrite Hw, app_nil_r.
  - change (length ((a, d) :: todo)) with (S (length todo)). rewrite list_lookup_middle by done. apply Forall_cons in Hs as [((bl & Ed) & k & Ek) Hs]. cbn [fst snd] in *.
    rewrite Ek. mrun. assert (Hg : goes_to ip (a, d) = (k =? ip)) by (unfold goes_to; simpl; by rewrite Ek).
    unfold matching, others. cbn [List.filter]. rewrite Hg. destruct (Z.eqb_spec k ip) as [->|Hne]; cbn [negb map].
    + set (f := mkEthernetFrame (mkEthernetHeader (ae_eth_addr e) (ni_ethernet_address s) TYPE_IPv4) bl).
      erewrite run_bind; [|unfold send_datagram; rewrite Ek; mrun; rewrite He, Ed; mrun; reflexivity]. fold f. mrun.
      destruct (IH kept (ni_set_waiting (kept ++ todo) (ni_push_frame f s))) as (fs & E & Hfs); [done..|].
      exists (f :: fs). split.
      * cbn [ni_waiting_arp_internet_datagrams ni_push_frame]. rewrite Hw.
        replace (delete (length kept) (kept ++ (a, d) :: todo)) with (kept ++ todo) by (by rewrite delete_middle).
        rewrite E. cbn. by rewrite <- app_assoc.
      * constructor; [by exists bl|exact Hfs].
    + destruct (IH (kept ++ [(a, d)]) s) as (fs & E & Hfs); [by rewrite <- app_assoc|done..|].
      exists fs. split; [|exact Hfs]. rewrite length_app, Nat.add_1_r in E. rewrite E, <- app_assoc. done.
Qed.

(** The messages that teach an address: a request for our address, a reply to us. *)
Definition request_for_us (s : NetworkInterface) (m : ARPMessage) : bool :=
  (arp_opcode m =? OPCODE_REQUEST) &&
  match ipv4_numeric (ni_ip_address s) with Ok ip => arp_target_ip_address m =? ip | _ => false end.
Definition reply_to_us (s : NetworkInterface) (m : ARPMessage) : bool :=
  (arp_opcode m =? OPCODE_REPLY) && bool_decide (arp_target_ethernet_address m = ni_ethernet_address s).

(** The state after such a message: a request is answered, the sender's address is in
    the table for 30 s and is no longer being asked for, and the datagrams that
    waited for it have been sent, in order, and left the queue. *)
Definition learned (s : NetworkInterface) (m : ARPMessage) (s' : NetworkInterface) : Prop :=
  let ip := arp_sender_ip_address m in let eth := arp_sender_ethernet_address m in
  exists replies fs,
    s' = mkNI (ni_ethernet_address s) (ni_ip_address s) (ni_frames_out s ++ replies ++ fs)
           (<[ip := mkARP_Entry eth 30000]> (ni_arp_table s)) (delete ip (ni_waiting_arp_response_ip_addr s))
           (others ip (ni_waiting_arp_internet_datagrams s)) /\
    Forall2 (carries s eth) (matching ip (ni_waiting_arp_internet_datagrams s)) fs /\
    if request_for_us s m
    then exists f my_ip, replies = [f] /\ ipv4_numeric (ni_ip_address s) = Ok my_ip /\
      arp_frame f eth (ni_ethernet_address s)
        (mkARPMessage TYPE_ETHERNET TYPE_IPv4 6 4 OPCODE_REPLY (ni_ethernet_address s) my_ip eth ip)
    else replies = [].

Definition received (s : NetworkInterface) (frame : EthernetFrame) (b : Buffer)
    (o : option InternetDatagram) (s' : NetworkInterface) : Prop :=
  let dst := eh_dst (ef_header frame) in
  if decide (dst = ni_ethernet_address s \/ dst = ETHERNET_BROADCAST) then
    if eh_type (ef_header frame) =? TYPE_IPv4 then
      s' = s /\ exists r d, IPv4Datagram_parse IPv4Datagram_default b = Ok (r, d) /\
        o = if bool_decide (r = NoError) then Some d else None
    else if eh_type (ef_header frame) =? TYPE_ARP then
      o = None /\ exists r m, ARPMessage_parse ARPMessage_default b = Ok (r, m) /\
        if bool_decide (r = NoError) && (reply_to_us s m || request_for_us s m) then learned s m s' else s' = s
    else o = None /\ s' = s
  else o = None /\ s' = s.

Lemma learned_inv s m s' : ni_inv s -> ARPMessage_valid m -> learned s m s' -> ni_inv s'.
Proof.
  intros I [_ Ve Vi _ _] (replies & fs & -> & _). destruct I. split; cbn -[arp_sender_ip_address]; try done.
  - intros k Hk. destruct (decide (arp_sender_ip_address m = k)) as [<-|Hne]; [by rewrite lookup_delete_eq|].
    rewrite lookup_insert_ne in Hk by done. rewrite lookup_delete_ne by done. by apply nv_disjoint0.
  - apply map_Forall_insert_2; [|done]. split; [done|]. simpl. lia.
  - by apply map_Forall_delete.
  - apply Forall_forall. intros x Hx. apply list_elem_of_In in Hx. apply filter_In in Hx as [Hx Hn].
    apply list_elem_of_In in Hx. rewrite Forall_forall in nv_waiting0.
    destruct (nv_waiting0 x Hx) as (? & k & Ek & Hk). split; [done|]. exists k. split; [done|].
    unfold goes_to in Hn. rewrite Ek in Hn. destruct (Z.eqb_spec k (arp_sender_ip_address m)); [done|].
    by rewrite lookup_delete_ne.
Qed.

(** The loop and the two updates around it. *)
Lemma learn_spec s0 s m (replies : list EthernetFrame) :
  let ip := arp_sender_ip_address m in let eth := arp_sender_ethernet_address m in
  ni_inv s0 -> s = ni_set_frames (ni_frames_out s0 ++ replies) s0 ->
  exists fs,
    (_ ← modify (fun s => ni_set_arp_table (<[ip := mkARP_Entry eth arp_entry_default_ttl]> (ni_arp_table s)) s);
     waiting ← gets ni_waiting_arp_internet_datagrams;
     _ ← flush_waiting (S (length waiting)) ip 0;
     modify (fun s => ni_set_pending (delete ip (ni_waiting_arp_response_ip_addr s)) s)) s
    = (Ok tt, mkNI (ni_ethernet_address s0) (ni_ip_address s0) (ni_frames_out s0 ++ replies ++ fs)
         (<[ip := mkARP_Entry eth 30000]> (ni_arp_table s0)) (delete ip (ni_waiting_arp_response_ip_addr s0))
         (others ip (ni_waiting_arp_internet_datagrams s0))) /\
    Forall2 (carries s0 eth) (matching ip (ni_waiting_arp_internet_datagrams s0)) fs.
Proof.
  intros ip eth I ->. mrun.
  destruct (flush_ok ip (mkARP_Entry eth 30000) (ni_waiting_arp_internet_datagrams s0) []
    (ni_set_arp_table (<[ip := mkARP_Entry eth 30000]> (ni_arp_table s0))
       (ni_set_frames (ni_frames_out s0 ++ replies) s0))) as (fs & E & Hfs).
  - done.
  - apply lookup_insert_eq.
  - eapply Forall_impl; [apply (nv_waiting _ I)|]. intros x (? & k & ? & _). split; [done|]. by exists k.
  - exists fs. split; [|exact Hfs]. erewrite run_bind by exact E. cbn. by rewrite <- app_assoc.
Qed.

(** A request for our address is answered. *)
Lemma reply_spec s m : ni_inv s -> ARPMessage_valid m -> exists replies,
  ((if request_for_us s m then s ← gets id;
      eth_frame ← lift (make_arp_reply s (arp_sender_ethernet_address m) (arp_sender_ip_address m));
      modify (ni_push_frame eth_frame) else mret tt) : method NetworkInterface unit) s
  = (Ok tt, ni_set_frames (ni_frames_out s ++ replies) s) /\
  if request_for_us s m then exists f my_ip, replies = [f] /\ ipv4_numeric (ni_ip_address s) = Ok my_ip /\
    arp_frame f (arp_sender_ethernet_address m) (ni_ethernet_address s)
      (mkARPMessage TYPE_ETHERNET TYPE_IPv4 6 4 OPCODE_REPLY (ni_ethernet_address s) my_ip
         (arp_sender_ethernet_address m) (arp_sender_ip_address m)) else replies = [].
Proof.
  intros I Vm. destruct (request_for_us s m).
  - destruct (make_arp_reply_ok s (arp_sender_ethernet_address m) (arp_sender_ip_address m) I)
      as (f & k & Ef & ? & ?); [apply Vm..|]. exists [f]. split; [mrun; unfold id; by rewrite Ef|]. by exists f, k.
  - exists []. split; [|done]. rewrite app_nil_r. by destruct s.
Qed.

Lemma recv_frame_spec s frame b : ni_inv s -> ef_payload frame = [b] -> Buffer_wf b ->
  exists o s', recv_frame frame s = (Ok o, s') /\ received s frame b o s' /\ ni_inv s'.
Proof.
  intros I Hb Hwf. unfold recv_frame, received. mrun.
  destruct (decide (_ \/ _)) as [Hdst|Hdst].
  2:{ rewrite !bool_decide_eq_false_2 by (intros ?; apply Hdst; auto). by exists None, s. }
  assert (Hours : negb (bool_decide (eh_dst (ef_header frame) = ni_ethernet_address s)) &&
    negb (bool_decide (eh_dst (ef_header frame) = ETHERNET_BROADCAST)) = false).
  { destruct Hdst as [Hd|Hd]; rewrite (bool_decide_eq_true_2 _ Hd); [done|apply andb_false_r]. }
  rewrite Hours.
  destruct (Z.eqb_spec (eh_type (ef_header frame)) TYPE_IPv4) as [Et|Et].
  - rewrite Hb. cbn [BufferList_to_Buffer]. mrun. destruct (IPv4Datagram_parse_total _ IPv4Datagram_default b (wf_in b Hwf) IPv4Header_default_typed)
      as (r & h & b' & Ep & _). rewrite Ep. mrun.
    exists (if bool_decide (r = NoError) then Some (mkIPv4Datagram h [b']) else None), s.
    split; [by destruct (bool_decide (r = NoError))|].
    split; [|done]. split; [done|]. by eexists _, _.
  - destruct (Z.eqb_spec (eh_type (ef_header frame)) TYPE_ARP) as [Ea|Ea]; [|by exists None, s].
    rewrite Hb. cbn [BufferList_to_Buffer]. mrun. destruct (ARPMessage_parse_total ARPMessage_default b (wf_in b Hwf)) as (r & m & Ep & Vm). rewrite Ep. mrun.
    destruct (bool_decide (r = NoError)) eqn:Hr; cbn [negb].
    2:{ exists None, s. split; [done|]. split; [|done]. split; [done|]. exists r, m. by rewrite Hr. }
    specialize (Vm (bool_decide_eq_true_1 _ Hr)).
    mrun. destruct (nv_ip _ I) as [my Emy].
    assert (Hq : (if arp_opcode m =? OPCODE_REQUEST then my_ip ← ipv4_numeric (ni_ip_address s);
      Ok (arp_target_ip_address m =? my_ip) else Ok false) = Ok (request_for_us s m)).
    { unfold request_for_us. rewrite Emy. by destruct (_ =? OPCODE_REQUEST). }
    rewrite Hq. mrun. fold (reply_to_us s m).
    destruct (reply_spec s m I Vm) as (replies & E1 & Hreplies). erewrite run_bind by exact E1.
    destruct (reply_to_us s m || request_for_us s m) eqn:Hlearn.
    + destruct (learn_spec s _ m replies I eq_refl) as (fs & E2 & Hfs). erewrite run_bind by exact E2.
      assert (L : learned s m (mkNI (ni_ethernet_address s) (ni_ip_address s) (ni_frames_out s ++ replies ++ fs)
         (<[arp_sender_ip_address m := mkARP_Entry (arp_sender_ethernet_address m) 30000]> (ni_arp_table s))
         (delete (arp_sender_ip_address m) (ni_waiting_arp_response_ip_addr s))
         (others (arp_sender_ip_address m) (ni_waiting_arp_internet_datagrams s)))) by (by exists replies, fs).
      eexists None, _. split; [reflexivity|]. split; [|by eapply learned_inv]. split; [done|].
      exists r, m. split; [done|]. by rewrite Hr, Hlearn.
    + apply orb_false_iff in Hlearn as [H1 H2]. rewrite H2 in Hreplies. subst replies. rewrite app_nil_r.
      exists None, s. split; [by destruct s|]. split; [|done]. split; [done|]. exists r, m. split; [done|].
      by rewrite H1, H2, andb_false_r.
Qed.

(** ** [tick] *)

(** [keys] is an iteration order of the map [m]. *)
Definition order_of {V} (keys : list Z) (m : gmap Z V) : Prop :=
  NoDup keys /\ forall k, k ∈ keys <-> is_Some (m !! k).

Definition aged (ms : Z) (e : ARP_Entry) : option ARP_Entry :=
  if ae_ttl e <=? ms then None else Some (mkARP_Entry (ae_eth_addr e) (ae_ttl e - ms)).

Lemma expire_lookup ms keys : forall t, NoDup keys ->
  map_Forall (fun _ e => 0 < ae_ttl e <= 30000) t -> 0 <= ms ->
  forall k, expire_arp ms keys t !! k = if decide (k ∈ keys) then t !! k ≫= aged ms else t !! k.
Proof.
  induction keys as [|x keys IH]; intros t Hn Ht Hms k; simpl.
  - by destruct (decide (k ∈ [])) as [H%elem_of_nil|].
  - apply NoDup_cons in Hn as [Hx Hn].
    set (t' := match t !! x with Some e => _ | None => t end).
    assert (Hsame : forall j, j <> x -> t' !! j = t !! j).
    { intros j Hj. unfold t'. destruct (t !! x); [|done]. destruct (_ <=? _);
        [by rewrite lookup_delete_ne|by rewrite lookup_insert_ne]. }
    assert (Hat : t' !! x = t !! x ≫= aged ms).
    { unfold t'. destruct (t !! x) as [e|] eqn:Ex; simpl; [|done]. unfold aged. specialize (Ht x e Ex). simpl in Ht.
      destruct (Z.leb_spec (ae_ttl e) ms); [by rewrite lookup_delete_eq|]. rewrite lookup_insert_eq. by nowrap. }
    rewrite IH; [|done| |done].
    + destruct (decide (k = x)) as [->|Hk].
      * rewrite decide_False by done. rewrite decide_True by (left). done.
      * rewrite (Hsame k Hk). destruct (decide (k ∈ keys)).
        -- by rewrite decide_True by (by right).
        -- rewrite decide_False; [done|]. intros [?|?]%elem_of_cons; done.
    + intros j e Hj. destruct (decide (j = x)) as [->|Hjx]; [|rewrite Hsame in Hj by done; by apply (Ht j)].
      rewrite Hat in Hj. destruct (t !! x) as [e0|] eqn:Ex; [|done]. simpl in Hj. specialize (Ht x e0 Ex). simpl in Ht.
      unfold aged in Hj. destruct (Z.leb_spec (ae_ttl e0) ms); [done|]. injection Hj as <-. simpl. lia.
Qed.

(** The first loop ages the table: the order of iteration does not matter. *)
Lemma expire_arp_spec ms keys t : order_of keys t ->
  map_Forall (fun _ e => 0 < ae_ttl e <= 30000) t -> 0 <= ms ->
  expire_arp ms keys t = omap (aged ms) t.
Proof.
  intros [Hn Hk] Ht Hms. apply map_eq. intros k. rewrite expire_lookup, lookup_omap by done.
  destruct (decide (k ∈ keys)) as [|Hout]; [done|]. destruct (t !! k) eqn:E; [|done].
  exfalso. apply Hout, Hk. by rewrite E.
Qed.

(** An entry of the second loop, for ticks shorter than the request's lifetime. *)
Definition renewed (ms t : Z) : Z := if t <=? ms then 5000 - ms else t - ms.

Lemma tick_entry_spec s ms ip t : ni_inv s -> 0 <= ms < 5000 -> ni_waiting_arp_response_ip_addr s !! ip = Some t ->
  exists fs, tick_pending_entry 2 ms ip s
      = (Ok tt, ni_set_pending (<[ip := renewed ms t]> (ni_waiting_arp_response_ip_addr s))
          (ni_set_frames (ni_frames_out s ++ fs) s)) /\
    if t <=? ms then exists f, fs = [f] /\ arp_request_for s ip f else fs = [].
Proof.
  intros I Hms Et. pose proof (nv_pending _ I ip t Et) as [Hip Ht]. simpl in Hip, Ht.
  cbn [tick_pending_entry]. mrun. rewrite Et. unfold renewed.
  destruct (Z.leb_spec t ms) as [Hle|Hgt].
  - destruct (make_arp_request_ok s ip I Hip) as (f & Ef & Hf). mrun. unfold id. rewrite Ef. mrun.
    cbn [ni_waiting_arp_response_ip_addr ni_set_pending]. rewrite lookup_insert_eq. unfold arp_response_default_ttl.
    destruct (Z.leb_spec (5 * 1000) ms); [lia|]. nowrap. exists [f]. split; [|by exists f].
    unfold modify. cbn. by rewrite insert_insert_eq.
  - exists []. split; [|done]. unfold modify. rewrite app_nil_r. nowrap. by destruct s.
Qed.

Lemma renewed_range ms t : 0 <= ms < 5000 -> 0 < t <= 5000 -> 0 < renewed ms t <= 5000.
Proof. intros. unfold renewed. ztest; lia. Qed.

(** Frames come and go, and the times of pending requests move, without harm. *)
Lemma ni_inv_retime s l m : ni_inv s ->
  (forall ip, is_Some (m !! ip) <-> is_Some (ni_waiting_arp_response_ip_addr s !! ip)) ->
  map_Forall (fun _ t => 0 < t <= 5000) m -> ni_inv (ni_set_pending m (ni_set_frames l s)).
Proof.
  intros [] Hd Hm. split; try done; cbn.
  - intros ip Hip. apply nv_disjoint0 in Hip. apply eq_None_not_Some. rewrite Hd, Hip. by intros [? ?].
  - intros ip t Et. split; [|by apply (Hm ip)]. destruct (proj1 (Hd ip) ltac:(by rewrite Et)) as [t' Et'].
    by apply (nv_pending0 ip t').
  - eapply Forall_impl; [exact nv_waiting0|]. intros x (? & ip & ? & ?). split; [done|].
    exists ip. by rewrite Hd.
Qed.

Definition overdue (ms : Z) (p : gmap Z Z) (ip : Z) : bool :=
  match p !! ip with Some t => t <=? ms | None => false end.

Lemma overdue_ext ms p q keys : (forall k, k ∈ keys -> p !! k = q !! k) ->
  List.filter (overdue ms p) keys = List.filter (overdue ms q) keys.
Proof.
  intros H. apply filter_ext_in. intros k Hk. unfold overdue. rewrite H; [done|]. by apply list_elem_of_In.
Qed.

Lemma tick_pending_spec ms keys : forall s, ni_inv s -> 0 <= ms < 5000 -> NoDup keys ->
  (forall k, k ∈ keys -> is_Some (ni_waiting_arp_response_ip_addr s !! k)) ->
  exists m fs, tick_pending 2 ms keys s = (Ok tt, ni_set_pending m (ni_set_frames (ni_frames_out s ++ fs) s)) /\
    (forall k, m !! k = if decide (k ∈ keys) then renewed ms <$> ni_waiting_arp_response_ip_addr s !! k
                        else ni_waiting_arp_response_ip_addr s !! k) /\
    Forall2 (arp_request_for s) (List.filter (overdue ms (ni_waiting_arp_response_ip_addr s)) keys) fs.
Proof.
  induction keys as [|x keys IH]; intros s I Hms Hn Hk; cbn [tick_pending].
  - exists (ni_waiting_arp_response_ip_addr s), []. split; [by rewrite app_nil_r; destruct s|]. split; [|constructor].
    intros k. by destruct (decide (k ∈ [])) as [H%elem_of_nil|].
  - apply NoDup_cons in Hn as [Hx Hn]. destruct (Hk x ltac:(left)) as [t Et].
    destruct (tick_entry_spec s ms x t I Hms Et) as (f1 & E1 & Hf1). erewrite run_bind by exact E1.
    set (p := ni_waiting_arp_response_ip_addr s) in *. pose proof (nv_pending _ I x t Et) as [_ Ht]. simpl in Ht.
    set (s1 := ni_set_pending _ _). assert (I1 : ni_inv s1).
    { apply ni_inv_retime; [done| |].
      - intros k. fold p. destruct (decide (k = x)) as [->|]; [rewrite lookup_insert_eq, Et; by split; eexists|].
        by rewrite lookup_insert_ne.
      - apply map_Forall_insert_2; [by apply renewed_range|]. intros k v Hv. by apply (nv_pending _ I k v). }
    assert (Hp1 : forall k, k <> x -> ni_waiting_arp_response_ip_addr s1 !! k = p !! k)
      by (intros k Hne; cbn; by rewrite lookup_insert_ne).
    destruct (IH s1 I1 Hms Hn) as (m & f2 & E2 & Hm & Hf2).
    { intros k Hin. rewrite Hp1 by (by intros ->). apply Hk. by right. }
    exists m, (f1 ++ f2). split; [rewrite E2; cbn; by rewrite <- app_assoc|]. split.
    + intros k. rewrite Hm. destruct (decide (k = x)) as [->|Hne].
      * rewrite decide_False by done. rewrite decide_True by left. cbn. by rewrite lookup_insert_eq, Et.
      * rewrite (Hp1 k Hne). destruct (decide (k ∈ keys)); [by rewrite decide_True by (by right)|].
        rewrite decide_False; [done|]. intros [?|?]%elem_of_cons; done.
    + rewrite (overdue_ext ms (ni_waiting_arp_response_ip_addr s1) p) in Hf2 by (intros k Hin; apply Hp1; by intros ->).
      cbn [List.filter]. unfold overdue at 1. rewrite Et. destruct (t <=? ms).
      * destruct Hf1 as (f & -> & Hf). by constructor.
      * by rewrite Hf1.
Qed.

(** The state after a tick shorter than 5 s: the table aged, each overdue request sent
    again, in the order of iteration. *)
Definition ticked (ms : Z) (pending_order : list Z) (s s' : NetworkInterface) : Prop :=
  exists fs, s' = mkNI (ni_ethernet_address s) (ni_ip_address s) (ni_frames_out s ++ fs)
      (omap (aged ms) (ni_arp_table s)) (renewed ms <$> ni_waiting_arp_response_ip_addr s)
      (ni_waiting_arp_internet_datagrams s) /\
    Forall2 (arp_request_for s) (List.filter (overdue ms (ni_waiting_arp_response_ip_addr s)) pending_order) fs.

Lemma aged_inv s ms : ni_inv s -> 0 <= ms -> ni_inv (ni_set_arp_table (omap (aged ms) (ni_arp_table s)) s).
Proof.
  intros [] Hms. split; try done; cbn.
  - intros ip [e He]. rewrite lookup_omap in He. apply nv_disjoint0. by destruct (ni_arp_table s !! ip).
  - intros ip e He. rewrite lookup_omap in He. destruct (ni_arp_table s !! ip) as [e0|] eqn:E0; [|done].
    destruct (nv_table0 ip e0 E0) as [? ?]. simpl in He. unfold aged in He.
    destruct (Z.leb_spec (ae_ttl e0) ms); [done|]. injection He as <-. simpl. split; [done|lia].
Qed.

Lemma tick_spec s ms ao po : ni_inv s -> 0 <= ms < 5000 ->
  order_of ao (ni_arp_table s) -> order_of po (ni_waiting_arp_response_ip_addr s) ->
  exists s', NetworkInterface_tick 2 ao po ms s = (Ok tt, s') /\ ticked ms po s s' /\ ni_inv s'.
Proof.
  intros I Hms Ha [Hn Hk]. unfold NetworkInterface_tick. mrun.
  rewrite expire_arp_spec; [|done| |lia]. 2:{ intros k e He. by apply (nv_table _ I k e). }
  pose proof (aged_inv s ms I ltac:(lia)) as I1. set (s1 := ni_set_arp_table _ s) in *.
  destruct (tick_pending_spec ms po s1 I1 Hms Hn) as (m & fs & E & Hm & Hfs). { intros k Hin. by apply Hk. }
  assert (Em : m = renewed ms <$> ni_waiting_arp_response_ip_addr s).
  { apply map_eq. intros k. rewrite Hm, lookup_fmap. destruct (decide (k ∈ po)) as [|Ho]; [done|]. cbn.
    destruct (ni_waiting_arp_response_ip_addr s !! k) eqn:Ek; [|done]. exfalso. apply Ho, Hk. by rewrite Ek. }
  subst m. eexists. split; [exact E|]. split; [by exists fs|].
  apply ni_inv_retime; [done| |].
  - intros k. rewrite lookup_fmap. apply fmap_is_Some.
  - intros k v Hv. rewrite lookup_fmap in Hv. destruct (ni_waiting_arp_response_ip_addr s !! k) as [t|] eqn:Ek; [|done].
    injection Hv as <-. apply renewed_range; [done|]. by apply (nv_pending _ I k t).
Qed.

(** ** Runs of an interface *)

Inductive ni_step : NetworkInterface -> NetworkInterface -> Prop :=
| ni_step_send s d next_hop ip bl s' :
    ipv4_numeric next_hop = Ok ip -> IPv4Datagram_serialize d = Ok bl ->
    send_datagram d next_hop s = (Ok tt, s') -> ni_step s s'
| ni_step_recv s frame b o s' :
    ef_payload frame = [b] -> Buffer_wf b -> recv_frame frame s = (Ok o, s') -> ni_step s s'
| ni_step_tick s ms ao po s' :
    0 <= ms < 5000 -> order_of ao (ni_arp_table s) -> order_of po (ni_waiting_arp_response_ip_addr s) ->
    NetworkInterface_tick 2 ao po ms s = (Ok tt, s') -> ni_step s s'
| ni_step_pop s popped rest :
    ni_frames_out s = popped ++ rest -> ni_step s (ni_set_frames rest s).

Lemma ni_inv_step s s' : ni_inv s -> ni_step s s' -> ni_inv s'.
Proof.
  intros I Hs. destruct Hs as [s d hop ip bl s' H1 H2 E|s frame b o s' H1 H2 E|s ms ao po s' H1 H2 H3 E|s popped rest E].
  - destruct (send_datagram_spec s d hop ip bl I H1 H2) as (s1 & E1 & _ & I1). assert (s1 = s') by congruence. by subst.
  - destruct (recv_frame_spec s frame b I H1 H2) as (o1 & s1 & E1 & _ & I1). assert (s1 = s') by congruence. by subst.
  - destruct (tick_spec s ms ao po I H1 H2 H3) as (s1 & E1 & _ & I1). assert (s1 = s') by congruence. by subst.
  - destruct I. by split.
Qed.

(** C22: an interface survives any network: in every run from construction in which the
    datagrams sent have an IPv4 next hop and can be serialized, and ticks are below
    5 s, whatever frames arrive, no such call throws or diverges, and every datagram
    that waits has its ARP request pending and its next hop unresolved, so that the
    next ARP message about it releases it. (A datagram that cannot be serialized is
    queued all the same and makes a later [recv_frame] throw:
    [unserializable_datagram_breaks_recv_frame]; a tick of 5 s may diverge:
    [interface_tick_diverges].) *)
Theorem interface_survives_any_network eth ip port s :
  EthernetAddress_valid eth -> 0 <= ip < W32 -> reach ni_step (NetworkInterface_new eth (inet ip port)) s ->
  (forall d next_hop k bl, ipv4_numeric next_hop = Ok k -> IPv4Datagram_serialize d = Ok bl ->
     exists s', send_datagram d next_hop s = (Ok tt, s')) /\
  (forall frame b, ef_payload frame = [b] -> Buffer_wf b -> exists o s', recv_frame frame s = (Ok o, s')) /\
  (forall ms ao po, 0 <= ms < 5000 -> order_of ao (ni_arp_table s) ->
     order_of po (ni_waiting_arp_response_ip_addr s) -> exists s', NetworkInterface_tick 2 ao po ms s = (Ok tt, s')) /\
  Forall (fun x => exists k, ipv4_numeric (fst x) = Ok k /\ ni_arp_table s !! k = None /\
     exists t, ni_waiting_arp_response_ip_addr s !! k = Some t /\ 0 < t <= 5000) (ni_waiting_arp_internet_datagrams s).
Proof.
  intros He Hi Hr. assert (I : ni_inv s).
  { eapply reach_invariant; [exact ni_inv_step| |exact Hr]. by apply ni_inv_new. }
  split; [|split; [|split]].
  - intros d hop k bl H1 H2. destruct (send_datagram_spec s d hop k bl I H1 H2) as (s' & ? & _). by exists s'.
  - intros frame b H1 H2. destruct (recv_frame_spec s frame b I H1 H2) as (o & s' & ? & _). by exists o, s'.
  - intros ms ao po H1 H2 H3. destruct (tick_spec s ms ao po I H1 H2 H3) as (s' & ? & _). by exists s'.
  - eapply Forall_impl; [apply (nv_waiting _ I)|]. intros x (_ & k & Ek & [t Et]). exists k. split; [done|]. split.
    + apply eq_None_not_Some. intros H. apply (nv_disjoint _ I) in H. congruence.
    + exists t. split; [done|]. by apply (nv_pending _ I k t).
Qed.

Definition demo_eth : EthernetAddress := [2; 0; 0; 0; 0; 1].

Lemma demo_eth_valid : EthernetAddress_valid demo_eth.
Proof. split; [done|]. repeat constructor; lia. Qed.

Definition demo_interface : NetworkInterface := NetworkInterface_new demo_eth (inet 167772161 0).

(** [send_datagram] on every branch: to a resolved next hop the datagram goes out in one
    IPv4 frame; otherwise it joins the queue, and one ARP request is broadcast
    unless one for that address is already pending, which is then pending for 5 s. *)
Theorem send_datagram_correct s d next_hop ip bl :
  ni_inv s -> ipv4_numeric next_hop = Ok ip -> IPv4Datagram_serialize d = Ok bl ->
  exists s', send_datagram d next_hop s = (Ok tt, s') /\ sent s d next_hop ip s' /\ ni_inv s'.
Proof. apply send_datagram_spec. Qed.

Lemma demo_interface_inv : ni_inv demo_interface.
Proof. apply ni_inv_new; [apply demo_eth_valid|lia]. Qed.

Lemma send_datagram_correct_witness : exists s',
  send_datagram sample_datagram (inet 167772162 0) demo_interface = (Ok tt, s') /\
  ni_waiting_arp_internet_datagrams s' = [(inet 167772162 0, sample_datagram)].
Proof.
  destruct (send_datagram_correct demo_interface sample_datagram (inet 167772162 0) 167772162
    (match IPv4Datagram_serialize sample_datagram with Ok bl => bl | _ => [] end)) as (s' & E & H & _).
  - exact demo_interface_inv.
  - reflexivity.
  - vm_compute. reflexivity.
  - exists s'. split; [exact E|]. destruct H as (f & _ & ->). reflexivity.
Defined.

(** [tick] below 5 s, whatever the iteration order of the maps: table entries lose the
    elapsed time and those that run out disappear; every overdue request is sent
    again exactly once and no other frame is; two rounds per pending entry are
    enough fuel. *)
Theorem interface_tick_correct s ms ao po : ni_inv s -> 0 <= ms < 5000 ->
  order_of ao (ni_arp_table s) -> order_of po (ni_waiting_arp_response_ip_addr s) ->
  exists s', NetworkInterface_tick 2 ao po ms s = (Ok tt, s') /\ ticked ms po s s' /\ ni_inv s'.
Proof. apply tick_spec. Qed.

(** An interface that asks for 10.0.0.2. *)
Definition asking_interface : NetworkInterface := snd (send_datagram sample_datagram (inet 167772162 0) demo_interface).

Lemma asking_interface_inv : ni_inv asking_interface /\
  order_of [] (ni_arp_table asking_interface) /\ order_of [167772162] (ni_waiting_arp_response_ip_addr asking_interface).
Proof.
  destruct (send_datagram_spec demo_interface sample_datagram (inet 167772162 0) 167772162
    (match IPv4Datagram_serialize sample_datagram with Ok bl => bl | _ => [] end) demo_interface_inv)
    as (s' & E & H & I); [reflexivity|vm_compute; reflexivity|].
  unfold asking_interface. rewrite E. split; [exact I|]. destruct H as (f & _ & ->). split.
  - split; [constructor|]. intros k. split; [by intros ?%elem_of_nil|]. cbn. rewrite lookup_empty. by intros [? ?].
  - split; [apply NoDup_singleton|]. intros k. cbn. rewrite list_elem_of_singleton. split.
    + intros ->. by rewrite lookup_insert_eq.
    + intros [t Ht]. destruct (decide (k = 167772162)); [done|]. by rewrite lookup_insert_ne, lookup_empty in Ht.
Qed.

Lemma interface_tick_correct_witness : exists s',
  NetworkInterface_tick 2 [] [167772162] 4999 asking_interface = (Ok tt, s') /\
  ticked 4999 [167772162] asking_interface s'.
Proof.
  destruct asking_interface_inv as (I & H1 & H2).
  destruct (interface_tick_correct asking_interface 4999 [] [167772162] I) as (s' & E & H & _).
  - lia.
  - exact H1.
  - exact H2.
  - exists s'. split; [exact E|exact H].
Defined.

(** The waiting datagram of an interface that has asked for its next hop. *)
Lemma interface_survives_any_network_witness : exists t,
  ni_waiting_arp_internet_datagrams asking_interface = [(inet 167772162 0, sample_datagram)] /\
  ni_waiting_arp_response_ip_addr asking_interface !! 167772162 = Some t /\ 0 < t <= 5000 /\
  exists o s', recv_frame (mkEthernetFrame (mkEthernetHeader ETHERNET_BROADCAST demo_eth TYPE_ARP)
    [Buffer_of_string [byte_of 1]]) asking_interface = (Ok o, s').
Proof.
  destruct (interface_survives_any_network demo_eth 167772161 0 asking_interface) as (_ & Hr & _ & Hw).
  - exact demo_eth_valid.
  - lia.
  - eapply reach_step; [apply reach_refl|].
    eapply (ni_step_send _ sample_datagram (inet 167772162 0)); [reflexivity|vm_compute; reflexivity|].
    vm_compute. reflexivity.
  - assert (E : ni_waiting_arp_internet_datagrams asking_interface = [(inet 167772162 0, sample_datagram)])
      by (vm_compute; reflexivity).
    rewrite E in Hw |- *. apply Forall_inv in Hw as (k & Ek & _ & t & Et & Ht). injection Ek as <-.
    exists t. split; [reflexivity|]. split; [exact Et|]. split; [exact Ht|].
    eapply Hr; [reflexivity|]. repeat split; vm_compute; congruence.
Defined.

(** An ARP message that is neither a request for our address nor a reply to us. *)
Definition overheard (s : NetworkInterface) (frame : EthernetFrame) (b : Buffer) : Prop :=
  eh_type (ef_header frame) = TYPE_ARP /\
  exists m, ARPMessage_parse ARPMessage_default b = Ok (NoError, m) /\ reply_to_us s m || request_for_us s m = false.

(** C21: [recv_frame] on every branch, for all frames but overheard ARP messages: frames for
    others are ignored; an IPv4 frame yields its datagram exactly when it parses; an ARP
    request for our address is answered, and such a request or a reply to us teaches the
    sender's address for 30 s, sends the datagrams that waited for it in order and keeps
    the others; an ARP frame that does not parse and a frame of another type change
    nothing. (ARP requests for other addresses and replies to other interfaces, which
    [network_interface.hh] wants learned too, are left out here: the code ignores them,
    [overheard_arp_teaches_nothing].) *)
Theorem recv_frame_correct s frame b : ni_inv s -> ef_payload frame = [b] -> Buffer_wf b ->
  ~ overheard s frame b ->
  exists o s', recv_frame frame s = (Ok o, s') /\ received s frame b o s' /\ ni_inv s'.
Proof. intros I Hb Hwf _. by apply recv_frame_spec. Qed.

(** The reply of 10.0.0.2 to the asking interface. *)
Definition demo_reply : EthernetFrame :=
  match make_arp_reply (NetworkInterface_new [2; 0; 0; 0; 0; 2] (inet 167772162 0)) demo_eth 167772161 with
  | Ok f => f
  | _ => mkEthernetFrame (mkEthernetHeader ETHERNET_BROADCAST demo_eth TYPE_ARP) []
  end.

Definition demo_reply_buffer : Buffer :=
  match ef_payload demo_reply with [b] => b | _ => Buffer_empty end.

Lemma recv_frame_correct_witness : exists s',
  recv_frame demo_reply asking_interface = (Ok None, s') /\
  received asking_interface demo_reply demo_reply_buffer None s' /\
  ni_arp_table s' !! 167772162 = Some (mkARP_Entry [2; 0; 0; 0; 0; 2] 30000) /\
  ni_waiting_arp_internet_datagrams s' = [] /\
  length (ni_frames_out s') = S (length (ni_frames_out asking_interface)).
Proof.
  destruct (recv_frame_correct asking_interface demo_reply demo_reply_buffer) as (o & s' & E & R & _).
  - exact (proj1 asking_interface_inv).
  - vm_compute. reflexivity.
  - repeat split; vm_compute; congruence.
  - intros (_ & m & Hp & Hn). vm_compute in Hp. injection Hp as <-. vm_compute in Hn. discriminate.
  - assert (Eo : fst (recv_frame demo_reply asking_interface) = Ok None) by (vm_compute; reflexivity).
    rewrite E in Eo. injection Eo as ->. exists s'. split; [exact E|]. split; [exact R|].
    assert (Es : s' = snd (recv_frame demo_reply asking_interface)) by (by rewrite E).
    rewrite Es. split; [vm_compute; reflexivity|]. split; vm_compute; reflexivity.
Defined.

(** [network_interface.hh] says of [recv_frame]: if type is ARP request, or ARP reply,
    learn a mapping from the sender fields. The code learns only from requests for
    its own address and replies to its own Ethernet address: any other ARP message
    leaves the interface as it was. *)
Theorem overheard_arp_teaches_nothing s frame b : ni_inv s -> ef_payload frame = [b] -> Buffer_wf b ->
  overheard s frame b -> recv_frame frame s = (Ok None, s).
Proof.
  intros I Hb Hwf (Et & m & Hp & Hn). destruct (recv_frame_spec s frame b I Hb Hwf) as (o & s' & E & R & _).
  unfold received in R. rewrite Et, Hp in R. change (TYPE_ARP =? TYPE_IPv4) with false in R. cbn [Z.eqb] in R.
  rewrite Z.eqb_refl in R. rewrite E. destruct (decide _); [|by destruct R as [-> ->]].
  destruct R as (-> & r & m' & [= <- <-] & R). rewrite Hn, andb_false_r in R. by rewrite R.
Qed.

Lemma overheard_arp_teaches_nothing_witness :
  recv_frame (mkEthernetFrame (mkEthernetHeader ETHERNET_BROADCAST [2; 0; 0; 0; 0; 2] TYPE_ARP) [demo_reply_buffer])
    (NetworkInterface_new [2; 0; 0; 0; 0; 3] (inet 167772163 0))
  = (Ok None, NetworkInterface_new [2; 0; 0; 0; 0; 3] (inet 167772163 0)).
Proof.
  apply (overheard_arp_teaches_nothing _ _ demo_reply_buffer).
  - apply ni_inv_new; [split; [done|repeat constructor; lia]|lia].
  - reflexivity.
  - repeat split; vm_compute; congruence.
  - split; [reflexivity|]. eexists. split; [vm_compute; reflexivity|]. vm_compute. reflexivity.
Defined.

(** A datagram whose payload is longer than its header says. *)
Definition malformed_datagram : InternetDatagram :=
  mkIPv4Datagram (ipd_header sample_datagram) (ipd_payload sample_datagram ++ [Buffer_of_string [byte_of 0]]).

(** [send_datagram] queues a datagram for an unresolved next hop without serializing it;
    if it cannot be serialized, the ARP reply that resolves the next hop makes
    [recv_frame] throw, and the entry stays queued. *)
Theorem unserializable_datagram_breaks_recv_frame :
  exists s1, send_datagram malformed_datagram (inet 167772162 0) demo_interface = (Ok tt, s1) /\
    length (ni_waiting_arp_internet_datagrams s1) = 1%nat /\
    (exists e, fst (recv_frame demo_reply s1) = Throw e) /\
    length (ni_waiting_arp_internet_datagrams (snd (recv_frame demo_reply s1))) = 1%nat.
Proof.
  eexists. split; [vm_compute; reflexivity|]. split; [vm_compute; reflexivity|].
  split; [eexists|]; vm_compute; reflexivity.
Qed.

Lemma tick_entry_diverges fuel ms ip : forall s t, ni_inv s -> 5000 <= ms ->
  ni_waiting_arp_response_ip_addr s !! ip = Some t -> fst (tick_pending_entry fuel ms ip s) = NoFuel.
Proof.
  induction fuel as [|fuel IH]; intros s t I Hms Et; [done|]. cbn [tick_pending_entry]. mrun. rewrite Et.
  pose proof (nv_pending _ I ip t Et) as [Hip Ht]. simpl in Hip, Ht. destruct (Z.leb_spec t ms); [|lia].
  destruct (make_arp_request_ok s ip I Hip) as (f & Ef & Hf). mrun. unfold id. rewrite Ef. mrun.
  apply (IH _ 5000); [|done|cbn; by rewrite lookup_insert_eq].
  change (ni_inv (ni_set_pending (<[ip := 5000]> (ni_waiting_arp_response_ip_addr s))
    (ni_set_frames (ni_frames_out s ++ [f]) s))).
  apply ni_inv_retime; [done| |].
  - intros k. destruct (decide (ip = k)) as [->|]; [rewrite lookup_insert_eq, Et; by split; eexists|by rewrite lookup_insert_ne].
  - apply map_Forall_insert_2; [lia|]. intros k v Hv. by apply (nv_pending _ I k v).
Qed.

(** a tick of 5 s or more while an ARP request is pending never returns: the loop
    resets the entry to 5 s without moving on, finds it overdue again, and sends the
    request again forever; no fuel is enough. *)
Theorem interface_tick_diverges s ms ao po fuel : ni_inv s -> 5000 <= ms ->
  order_of ao (ni_arp_table s) -> po <> [] -> order_of po (ni_waiting_arp_response_ip_addr s) ->
  fst (NetworkInterface_tick fuel ao po ms s) = NoFuel.
Proof.
  intros I Hms Ha Hne [_ Hk]. unfold NetworkInterface_tick. mrun. destruct po as [|ip po]; [done|].
  destruct (proj1 (Hk ip) ltac:(left)) as [t Et].
  rewrite expire_arp_spec; [|done| |lia]. 2:{ intros k e He. by apply (nv_table _ I k e). }
  pose proof (tick_entry_diverges fuel ms ip _ t (aged_inv s ms I ltac:(lia)) Hms Et) as Hd.
  cbn [tick_pending]. unfold mbind, method_bind.
  destruct (tick_pending_entry fuel ms ip _) as [[u|e|] s2]; simpl in *; congruence.
Qed.

Lemma interface_tick_diverges_witness : 
  fst (NetworkInterface_tick 100 [] [167772162] 5000 asking_interface) = NoFuel.
Proof.
  destruct asking_interface_inv as (I & H1 & H2).
  apply (interface_tick_diverges asking_interface 5000 [] [167772162] 100 I).
  - lia.
  - exact H1.
  - discriminate.
  - exact H2.
Defined.

(** Ticks of the given lengths, with no table entry and the one pending request. *)
Fixpoint ticks (l : list Z) (s : NetworkInterface) : list nat :=
  match l with
  | [] => []
  | ms :: l' => let s' := snd (NetworkInterface_tick 2 [] [167772162] ms s) in
      length (ni_frames_out s') :: ticks l' s'
  end.

(** the comment in [send_datagram] promises at most one ARP request per address within
    5 s; after a request is sent again the loop also subtracts the tick that
    triggered it, so a second one can follow 1 ms later: with ticks of 4999, 4999
    and 1 ms there are 1, 2 and 3 requests. *)
Theorem arp_request_repeated_after_1ms :
  ticks [4999; 4999; 1] asking_interface = [1%nat; 2%nat; 3%nat].
Proof. vm_compute. reflexivity. Qed.

(** ** Resolution between two interfaces *)

(** A frame sent over the wire: serialized, concatenated, parsed by the receiver. *)
Definition over_the_wire (f : EthernetFrame) : res EthernetFrame :=
  '(_, f') ← EthernetFrame_parse EthernetFrame_default
      (Buffer_of_string (BufferList_concatenate (EthernetFrame_serialize f)));
  Ok f'.

Lemma over_the_wire_ok f : EthernetHeader_valid (ef_header f) ->
  zlen (BufferList_concatenate (ef_payload f)) + 14 < W64 ->
  exists b, over_the_wire f = Ok (mkEthernetFrame (ef_header f) [b]) /\ Buffer_wf b /\
    Buffer_str b = BufferList_concatenate (ef_payload f).
Proof.
  intros V Hl. assert (Hc : BufferList_concatenate (EthernetFrame_serialize f)
    = EthernetHeader_serialize (ef_header f) ++ BufferList_concatenate (ef_payload f)).
  { unfold EthernetFrame_serialize, BufferList_append. simpl. by rewrite concatenate_cons. }
  destruct (EthernetHeader_serialize_ok _ V) as (bs & [= <-] & Hbs).
  destruct (EthernetFrame_parse_ok EthernetFrame_default
    (Buffer_of_string (BufferList_concatenate (EthernetFrame_serialize f)))
    (ef_header f) (BufferList_concatenate (ef_payload f))) as (b & E & Hw & Hb); try done.
  - apply Buffer_wf_of_string. rewrite Hc, zlen_app, Hbs. unfold EthernetHeader_LENGTH. lia.
  - exists b. unfold over_the_wire. by rewrite E.
Qed.

Lemma broadcast_valid : EthernetAddress_valid ETHERNET_BROADCAST.
Proof. split; [done|]. repeat constructor; lia. Qed.

(** An ARP frame holds its message. *)
Lemma arp_payload f dst src m : arp_frame f dst src m -> ARPMessage_valid m ->
  ef_header f = mkEthernetHeader dst src TYPE_ARP /\ zlen (BufferList_concatenate (ef_payload f)) + 14 < W64 /\
  forall b, Buffer_wf b -> Buffer_str b = BufferList_concatenate (ef_payload f) ->
    ARPMessage_parse ARPMessage_default b = Ok (NoError, m).
Proof.
  intros (bs & E & ->) V. destruct (ARPMessage_serialize_ok m V) as (bs' & E' & Hl & Hp).
  assert (bs' = bs) by congruence. subst bs'. cbn [ef_payload]. rewrite concatenate_cons, app_nil_r.
  split; [done|]. split; [change (zlen bs + 14 < W64); rewrite Hl; reflexivity|]. intros b Hb Hs. by apply Hp.
Qed.

(** ... and arrives with it. *)
Lemma arp_over_the_wire f dst src m : arp_frame f dst src m -> ARPMessage_valid m ->
  EthernetAddress_valid dst -> EthernetAddress_valid src ->
  exists b, over_the_wire f = Ok (mkEthernetFrame (mkEthernetHeader dst src TYPE_ARP) [b]) /\ Buffer_wf b /\
    ARPMessage_parse ARPMessage_default b = Ok (NoError, m).
Proof.
  intros Hf V Vd Vs. destruct (arp_payload f dst src m Hf V) as (Eh & Hl & Hp).
  destruct (over_the_wire_ok f) as (b & Eb & Hw & Hs); [by rewrite Eh|done|].
  rewrite Eh in Eb. exists b. split; [done|]. split; [done|]. by apply Hp.
Qed.

(** An IPv4 frame holds its datagram. *)
Lemma datagram_payload s dst d f : carries s dst d f -> datagram_valid d ->
  ef_header f = mkEthernetHeader dst (ni_ethernet_address s) TYPE_IPv4 /\
  zlen (BufferList_concatenate (ef_payload f)) + 14 < W64 /\
  exists v, 0 <= v < W16 /\ forall b, Buffer_wf b -> Buffer_str b = BufferList_concatenate (ef_payload f) ->
    exists d', IPv4Datagram_parse IPv4Datagram_default b = Ok (NoError, d') /\
      ipd_header d' = ip_set_cksum (ipd_header d) v /\ Forall Buffer_wf (ipd_payload d') /\
      BufferList_concatenate (ipd_payload d') = BufferList_concatenate (ipd_payload d).
Proof.
  intros (bl & E & ->) Vd. destruct (IPv4Datagram_serialize_ok d Vd) as (v & Hv & Hck & E').
  rewrite E in E'. injection E' as ->. destruct Vd as (V & Hwf & Hlen).
  pose proof (ip_set_cksum_valid _ v V Hv) as Vv. pose proof (ip_bytes_len _ Vv) as Hbl.
  cbn [ef_payload]. rewrite concatenate_cons, Buffer_str_of_string.
  split; [done|]. split; [rewrite zlen_app, Hbl; destruct V; cbn [ip_set_cksum ip_hlen]; lia|].
  exists v. split; [done|]. intros b Hw Hs.
  destruct (IPv4Datagram_parse_ok IPv4Datagram_default b _ _ Hw Hs Vv Hck Hlen) as (b' & Ep & Hb' & Hs').
  eexists. split; [exact Ep|]. split; [done|]. split; [by constructor|].
  cbn [ipd_payload]. by rewrite concatenate_cons, Hs', app_nil_r.
Qed.

Lemma datagram_over_the_wire s dst d f : carries s dst d f -> datagram_valid d ->
  EthernetAddress_valid dst -> EthernetAddress_valid (ni_ethernet_address s) ->
  exists b d' v, over_the_wire f = Ok (mkEthernetFrame (mkEthernetHeader dst (ni_ethernet_address s) TYPE_IPv4) [b]) /\
    Buffer_wf b /\ IPv4Datagram_parse IPv4Datagram_default b = Ok (NoError, d') /\
    ipd_header d' = ip_set_cksum (ipd_header d) v /\
    BufferList_concatenate (ipd_payload d') = BufferList_concatenate (ipd_payload d).
Proof.
  intros Hf Vd Ve Vs. destruct (datagram_payload s dst d f Hf Vd) as (Eh & Hl & v & _ & Hp).
  destruct (over_the_wire_ok f) as (b & Eb & Hw & Hs); [by rewrite Eh|done|].
  destruct (Hp b Hw Hs) as (d' & Ep & Hh & _ & Hpl). rewrite Eh in Eb. by exists b, d', v.
Qed.

(** Nothing waits for an address that nobody asked for. *)
Lemma matching_none s ip : ni_inv s -> ni_waiting_arp_response_ip_addr s !! ip = None ->
  matching ip (ni_waiting_arp_internet_datagrams s) = [].
Proof.
  intros I Hp. unfold matching. pose proof (nv_waiting _ I) as Hw. induction Hw as [|x l Hx Hw IH]; [done|].
  cbn [List.filter]. destruct Hx as (_ & k & Ek & [t Et]). unfold goes_to. rewrite Ek.
  destruct (Z.eqb_spec k ip) as [->|]; [congruence|exact IH].
Qed.

Lemma matching_app ip l k : matching ip (l ++ k) = matching ip l ++ matching ip k.
Proof. unfold matching. by rewrite List.filter_app, map_app. Qed.

(** What happens to an ARP message that concerns us, and to an IPv4 frame for us. *)
Lemma recv_arp s dst src b m : ni_inv s -> Buffer_wf b -> ARPMessage_parse ARPMessage_default b = Ok (NoError, m) ->
  (dst = ni_ethernet_address s \/ dst = ETHERNET_BROADCAST) -> reply_to_us s m || request_for_us s m = true ->
  exists s', recv_frame (mkEthernetFrame (mkEthernetHeader dst src TYPE_ARP) [b]) s = (Ok None, s') /\
    learned s m s' /\ ni_inv s'.
Proof.
  intros I Hw Ep Hd Hus. destruct (recv_frame_spec s (mkEthernetFrame (mkEthernetHeader dst src TYPE_ARP) [b]) b I eq_refl Hw)
    as (o & s' & E & R & I'). unfold received in R. cbn [ef_header eh_dst eh_type] in R.
  rewrite decide_True in R by done. cbn [Z.eqb Pos.eqb TYPE_IPv4 TYPE_ARP] in R.
  destruct R as (-> & r & m' & Em & Hl). rewrite Ep in Em. injection Em as <- <-.
  rewrite bool_decide_eq_true_2, Hus in Hl by done. by exists s'.
Qed.

Lemma recv_ipv4 s dst src b d : ni_inv s -> Buffer_wf b -> IPv4Datagram_parse IPv4Datagram_default b = Ok (NoError, d) ->
  (dst = ni_ethernet_address s \/ dst = ETHERNET_BROADCAST) ->
  recv_frame (mkEthernetFrame (mkEthernetHeader dst src TYPE_IPv4) [b]) s = (Ok (Some d), s).
Proof.
  intros I Hw Ep Hd. destruct (recv_frame_spec s (mkEthernetFrame (mkEthernetHeader dst src TYPE_IPv4) [b]) b I eq_refl Hw)
    as (o & s' & E & R & I'). unfold received in R. cbn [ef_header eh_dst eh_type] in R.
  rewrite decide_True in R by done. cbn [Z.eqb Pos.eqb TYPE_IPv4] in R.
  destruct R as (-> & r & d' & Em & Ho). rewrite Ep in Em. injection Em as <- <-.
  by rewrite bool_decide_eq_true_2 in Ho; subst.
Qed.

(** The request for the address of [ipb]. *)
Definition request_from (s : NetworkInterface) (ipa ipb : Z) : ARPMessage :=
  mkARPMessage TYPE_ETHERNET TYPE_IPv4 6 4 OPCODE_REQUEST (ni_ethernet_address s) ipa [0; 0; 0; 0; 0; 0] ipb.
(** The answer of [s], whose address it is. *)
Definition answer_from (s : NetworkInterface) (ipb : Z) (eth : EthernetAddress) (ipa : Z) : ARPMessage :=
  mkARPMessage TYPE_ETHERNET TYPE_IPv4 6 4 OPCODE_REPLY (ni_ethernet_address s) ipb eth ipa.

Lemma request_valid s ipa ipb : ni_inv s -> 0 <= ipa < W32 -> 0 <= ipb < W32 -> ARPMessage_valid (request_from s ipa ipb).
Proof. intros I Ha Hb. split; simpl; try done; [apply I|apply no_ethernet_address]. Qed.

Lemma answer_valid s ipb eth ipa : ni_inv s -> EthernetAddress_valid eth -> 0 <= ipa < W32 -> 0 <= ipb < W32 ->
  ARPMessage_valid (answer_from s ipb eth ipa).
Proof. intros I Ve Ha Hb. split; simpl; try done. apply I. Qed.

(** [s] and [s'] are the same interface: its addresses have not changed. *)
Definition same_nic (s s' : NetworkInterface) : Prop :=
  ni_ethernet_address s' = ni_ethernet_address s /\ ni_ip_address s' = ni_ip_address s.

(** Resolution in three steps. A datagram for an unknown address: the request is sent. *)
Lemma resolution_asks a ipa ipb next_hop d : ni_inv a -> ipv4_numeric (ni_ip_address a) = Ok ipa ->
  ipv4_numeric next_hop = Ok ipb -> ni_arp_table a !! ipb = None -> ni_waiting_arp_response_ip_addr a !! ipb = None ->
  (exists bl, IPv4Datagram_serialize d = Ok bl) ->
  exists a1 req, send_datagram d next_hop a = (Ok tt, a1) /\ ni_inv a1 /\ same_nic a a1 /\
    ni_frames_out a1 = ni_frames_out a ++ [req] /\
    arp_frame req ETHERNET_BROADCAST (ni_ethernet_address a) (request_from a ipa ipb) /\
    matching ipb (ni_waiting_arp_internet_datagrams a1) = [d] /\
    ni_arp_table a1 = ni_arp_table a /\ ni_waiting_arp_response_ip_addr a1 = <[ipb := 5000]> (ni_waiting_arp_response_ip_addr a).
Proof.
  intros I Ea Eh Ht Hp [bl Ed]. destruct (send_datagram_spec a d next_hop ipb _ I Eh Ed) as (a1 & E1 & S1 & I1).
  unfold sent in S1. rewrite Ht, Hp in S1. destruct S1 as (req & (ip1 & Eip1 & Hreq) & Ha1).
  rewrite Ea in Eip1. injection Eip1 as <-. exists a1, req. split; [done|]. split; [done|]. rewrite Ha1. split; [done|].
  split; [done|]. split; [done|]. split; [|done]. cbn [enqueue ni_waiting_arp_internet_datagrams ni_set_waiting ni_set_pending ni_push_frame].
  rewrite matching_app, (matching_none a ipb I Hp). unfold matching, goes_to. simpl. by rewrite Eh, Z.eqb_refl.
Qed.

(** The owner of the address answers, and knows who asked. *)
Lemma resolution_answers a b ipa ipb buf : ni_inv b -> ipv4_numeric (ni_ip_address b) = Ok ipb -> Buffer_wf buf ->
  ARPMessage_parse ARPMessage_default buf = Ok (NoError, request_from a ipa ipb) ->
  exists b1 rep more, recv_frame (mkEthernetFrame (mkEthernetHeader ETHERNET_BROADCAST (ni_ethernet_address a) TYPE_ARP) [buf]) b
      = (Ok None, b1) /\ ni_inv b1 /\ same_nic b b1 /\ ni_frames_out b1 = ni_frames_out b ++ rep :: more /\
    arp_frame rep (ni_ethernet_address a) (ni_ethernet_address b) (answer_from b ipb (ni_ethernet_address a) ipa) /\
    ni_arp_table b1 = <[ipa := mkARP_Entry (ni_ethernet_address a) 30000]> (ni_arp_table b) /\
    ni_waiting_arp_response_ip_addr b1 = delete ipa (ni_waiting_arp_response_ip_addr b) /\
    (ni_waiting_arp_response_ip_addr b !! ipa = None -> more = []).
Proof.
  intros I Eb Hw Hp. destruct (recv_arp b ETHERNET_BROADCAST (ni_ethernet_address a) buf _ I Hw Hp (or_intror eq_refl)) as (b1 & E2 & L2 & I1).
  { unfold request_for_us. rewrite Eb. cbn [arp_opcode arp_target_ip_address request_from]. rewrite !Z.eqb_refl. apply orb_true_r. }
  destruct L2 as (reps & more & Hb1 & Hmore & Hreps).
  unfold request_for_us in Hreps. rewrite Eb in Hreps. cbn [arp_opcode arp_target_ip_address request_from] in Hreps.
  rewrite !Z.eqb_refl in Hreps. cbn [andb] in Hreps. destruct Hreps as (rep & ip2 & -> & Eip2 & Hrep). injection Eip2 as <-.
  exists b1, rep, more. split; [done|]. split; [done|]. rewrite Hb1. split; [done|]. split; [done|]. split; [done|].
  split; [done|]. split; [done|]. intros Hn. cbn [arp_sender_ip_address request_from] in Hmore.
  rewrite (matching_none b ipa I Hn) in Hmore. by apply Forall2_nil_inv_l in Hmore.
Qed.

(** The answer releases the datagram that waited for it. *)
Lemma resolution_releases a1 b ipa ipb buf d : ni_inv a1 -> Buffer_wf buf ->
  ARPMessage_parse ARPMessage_default buf = Ok (NoError, answer_from b ipb (ni_ethernet_address a1) ipa) ->
  matching ipb (ni_waiting_arp_internet_datagrams a1) = [d] ->
  exists a2 fr, recv_frame (mkEthernetFrame (mkEthernetHeader (ni_ethernet_address a1) (ni_ethernet_address b) TYPE_ARP) [buf]) a1
      = (Ok None, a2) /\ ni_inv a2 /\ same_nic a1 a2 /\ ni_frames_out a2 = ni_frames_out a1 ++ [fr] /\
    carries a1 (ni_ethernet_address b) d fr /\
    ni_arp_table a2 = <[ipb := mkARP_Entry (ni_ethernet_address b) 30000]> (ni_arp_table a1) /\
    ni_waiting_arp_response_ip_addr a2 = delete ipb (ni_waiting_arp_response_ip_addr a1) /\
    ni_waiting_arp_internet_datagrams a2 = others ipb (ni_waiting_arp_internet_datagrams a1).
Proof.
  intros I Hw Hp Hm.
  destruct (recv_arp a1 (ni_ethernet_address a1) (ni_ethernet_address b) buf _ I Hw Hp (or_introl eq_refl)) as (a2 & E3 & L3 & I2).
  { unfold reply_to_us. cbn [arp_opcode arp_target_ethernet_address answer_from]. by rewrite bool_decide_eq_true_2. }
  destruct L3 as (none & fs & Ha2 & Hfs & Hnone). unfold request_for_us in Hnone.
  cbn [arp_opcode andb Z.eqb OPCODE_REQUEST OPCODE_REPLY Pos.eqb answer_from] in Hnone. subst none.
  cbn [arp_sender_ethernet_address arp_sender_ip_address answer_from] in *. rewrite Hm in Hfs.
  apply Forall2_cons_inv_l in Hfs as (fr & l & Hfr & Hnil & ->). apply Forall2_nil_inv_l in Hnil as ->.
  exists a2, fr. split; [done|]. split; [done|]. rewrite Ha2. split; [done|]. split; [done|]. split; [done|].
  done.
Qed.

(** C20: address resolution delivers: when an interface sends a datagram to an address it
    does not know, its broadcast request crosses the wire and is answered by the
    interface that owns the address; the answer, back over the wire, releases the
    datagram in a frame which the owner accepts and hands up with the same header
    (but for the checksum) and payload. *)
Theorem arp_resolution_delivers a b ipa ipb next_hop d :
  ni_inv a -> ni_inv b -> ipv4_numeric (ni_ip_address a) = Ok ipa -> ipv4_numeric (ni_ip_address b) = Ok ipb ->
  ipv4_numeric next_hop = Ok ipb -> ni_arp_table a !! ipb = None -> ni_waiting_arp_response_ip_addr a !! ipb = None ->
  datagram_valid d ->
  exists a1 req req' b1 rep rep' more a2 fr fr' d' v,
    send_datagram d next_hop a = (Ok tt, a1) /\ ni_frames_out a1 = ni_frames_out a ++ [req] /\
    over_the_wire req = Ok req' /\ recv_frame req' b = (Ok None, b1) /\
    ni_frames_out b1 = ni_frames_out b ++ rep :: more /\
    over_the_wire rep = Ok rep' /\ recv_frame rep' a1 = (Ok None, a2) /\
    ni_frames_out a2 = ni_frames_out a1 ++ [fr] /\ ni_waiting_arp_internet_datagrams a2 = others ipb (ni_waiting_arp_internet_datagrams a1) /\
    over_the_wire fr = Ok fr' /\ recv_frame fr' b1 = (Ok (Some d'), b1) /\
    ipd_header d' = ip_set_cksum (ipd_header d) v /\
    BufferList_concatenate (ipd_payload d') = BufferList_concatenate (ipd_payload d).
Proof.
  intros Ia Ib Ea Eb Eh Ht Hp Vd. pose proof (ipv4_numeric_range _ _ Ea). pose proof (ipv4_numeric_range _ _ Eb).
  destruct (IPv4Datagram_serialize_ok d Vd) as (v0 & _ & _ & Ed).
  destruct (resolution_asks a ipa ipb next_hop d Ia Ea Eh Ht Hp) as (a1 & req & E1 & Ia1 & [Hea1 _] & F1 & Hreq & Hm & _); [by eexists|].
  destruct (arp_over_the_wire _ _ _ _ Hreq) as (bq & Ewq & Wq & Pq);
    [by apply request_valid|apply broadcast_valid|apply Ia|].
  destruct (resolution_answers a b ipa ipb bq Ib Eb Wq Pq) as (b1 & rep & more & E2 & Ib1 & [Heb1 _] & F2 & Hrep & _).
  destruct (arp_over_the_wire _ _ _ _ Hrep) as (br & Ewr & Wr & Pr); [apply answer_valid; [done|apply Ia|done..]|apply Ia|apply Ib|].
  rewrite <- Hea1 in Pr.
  destruct (resolution_releases a1 b ipa ipb br d Ia1 Wr Pr Hm) as (a2 & fr & E3 & Ia2 & _ & F3 & Hfr & _ & _ & Hw).
  destruct (datagram_over_the_wire _ _ _ _ Hfr Vd) as (bd & d' & v & Ewd & Wd & Pd & Hh & Hpl); [apply Ib|apply Ia1|].
  exists a1, req. eexists. exists b1, rep. eexists. exists more, a2, fr. eexists. exists d', v.
  split; [exact E1|]. split; [done|]. split; [exact Ewq|]. split; [exact E2|].
  split; [done|]. split; [exact Ewr|]. split; [by rewrite <- Hea1|]. split; [done|].
  split; [done|]. split; [exact Ewd|]. split; [|done].
  apply recv_ipv4; [done|done|exact Pd|left]. by rewrite Heb1.
Qed.

Definition demo_interface2 : NetworkInterface := NetworkInterface_new [2; 0; 0; 0; 0; 2] (inet 167772162 0).

Lemma demo_interface2_inv : ni_inv demo_interface2.
Proof. apply ni_inv_new; [split; [done|repeat constructor; lia]|lia]. Qed.

Lemma sample_datagram_valid : datagram_valid sample_datagram.
Proof.
  split; [split; vm_compute; repeat split; congruence|].
  split; [repeat constructor; repeat split; vm_compute; congruence|reflexivity].
Qed.

Lemma arp_resolution_delivers_witness : exists a1 req,
  send_datagram sample_datagram (inet 167772162 0) demo_interface = (Ok tt, a1) /\
  ni_frames_out a1 = [] ++ [req].
Proof.
  destruct (arp_resolution_delivers demo_interface demo_interface2 167772161 167772162 (inet 167772162 0)
    sample_datagram) as (a1 & req & _ & _ & _ & _ & _ & _ & _ & _ & _ & _ & H1 & H2 & _).
  - exact demo_interface_inv.
  - exact demo_interface2_inv.
  - reflexivity.
  - reflexivity.
  - reflexivity.
  - reflexivity.
  - reflexivity.
  - exact sample_datagram_valid.
  - exists a1, req. split; [exact H1|exact H2].
Defined.
