(* ===== verification/Frames.v ===== *)
(** * What an interface holds

    Datagrams wait in a [NetworkInterface] and leave it in frames. For a property [D] of
    datagrams, that all of them have it is kept by every operation of the interface; with
    it go the frames on the wire and what a receiver reads from them. The Ethernet adapter
    and the router instantiate [D]. *)

From S2P Require Import Prelude WrappingInts Buffers Checksum Parser TCPSegments IPv4 Ethernet Addresses Interface.

Section Holds.
Context (D : InternetDatagram -> Prop) (D_valid : forall d, D d -> datagram_valid d).

(** A frame that can be sent; an IPv4 one carries a datagram of [D]. *)
Record good_frame (f : EthernetFrame) : Prop := {
  gf_header : EthernetHeader_valid (ef_header f);
  gf_size : zlen (BufferList_concatenate (ef_payload f)) < W16;
  gf_datagram : eh_type (ef_header f) = TYPE_IPv4 -> exists d bl, D d /\ IPv4Datagram_serialize d = Ok bl /\
    BufferList_concatenate (ef_payload f) = BufferList_concatenate bl
}.

Record ni_holds (s : NetworkInterface) : Prop := {
  nh_waiting : Forall (fun x => D (snd x)) (ni_waiting_arp_internet_datagrams s);
  nh_frames : Forall good_frame (ni_frames_out s)
}.

Lemma serialized_size d bl : datagram_valid d -> IPv4Datagram_serialize d = Ok bl -> zlen (BufferList_concatenate bl) < W16.
Proof.
  intros V E. destruct (IPv4Datagram_serialize_ok d V) as (v & Hv & _ & E'). rewrite E in E'. injection E' as ->.
  destruct V as (Vh & _ & Hl). pose proof (ip_bytes_len _ (ip_set_cksum_valid _ v Vh Hv)) as Hb.
  rewrite concatenate_cons, Buffer_str_of_string, zlen_app, Hb. cbn [ip_set_cksum ip_hlen]. destruct Vh. lia.
Qed.

Lemma carries_good s dst d f : ni_inv s -> EthernetAddress_valid dst -> D d -> carries s dst d f -> good_frame f.
Proof.
  intros I Vd HD (bl & E & ->). split; cbn [ef_header ef_payload].
  - split; [done|apply I|done].
  - apply (serialized_size d); [by apply D_valid|done].
  - intros _. by exists d, bl.
Qed.

Lemma arp_good f dst src m : arp_frame f dst src m -> ARPMessage_valid m -> EthernetAddress_valid dst ->
  EthernetAddress_valid src -> good_frame f.
Proof.
  intros (bs & E & ->) V Vd Vs. destruct (ARPMessage_serialize_ok m V) as (bs' & E' & Hl & _).
  assert (bs' = bs) as -> by congruence. split; cbn [ef_header ef_payload]; [by split| |done].
  rewrite concatenate_cons, app_nil_r. change (zlen bs < W16). by rewrite Hl.
Qed.

Lemma request_good s ip f : ni_inv s -> 0 <= ip < W32 -> arp_request_for s ip f -> good_frame f.
Proof.
  intros I Hip (my & Emy & Hf). pose proof (ipv4_numeric_range _ _ Emy).
  apply (arp_good _ _ _ _ Hf); [|apply broadcast_valid|apply I].
  split; simpl; try done; [apply I|apply no_ethernet_address].
Qed.

Lemma sent_holds s d hop ip s' : ni_inv s -> 0 <= ip < W32 -> ni_holds s -> D d -> sent s d hop ip s' -> ni_holds s'.
Proof.
  intros I Hip [Hw Hf] Hd Hs. unfold sent in Hs.
  assert (Hw' : Forall (fun x : Address * InternetDatagram => D (snd x)) (ni_waiting_arp_internet_datagrams s ++ [(hop, d)]))
    by (apply Forall_app; split; [done|by apply Forall_singleton]).
  destruct (ni_arp_table s !! ip) as [e|] eqn:Ee.
  - destruct Hs as (f & Hc & ->). split; [done|]. apply Forall_app. split; [done|]. apply Forall_singleton.
    apply (carries_good s (ae_eth_addr e) d); try done. by apply (nv_table _ I ip e).
  - destruct (ni_waiting_arp_response_ip_addr s !! ip); [by subst s'|]. destruct Hs as (f & Hr & ->). split; [done|].
    apply Forall_app. split; [done|]. apply Forall_singleton. by apply (request_good s ip).
Qed.

Lemma learned_holds s m s' : ni_inv s -> ARPMessage_valid m -> ni_holds s -> learned s m s' -> ni_holds s'.
Proof.
  intros I V [Hw Hf] (replies & fs & -> & Hfs & Hr). pose proof V as [_ Ve Vi _ _]. split; cbn [ni_waiting_arp_internet_datagrams ni_frames_out].
  - unfold others. rewrite Forall_forall in Hw |- *. intros x Hx. apply Hw. apply list_elem_of_In, filter_In in Hx as [Hx _].
    by apply list_elem_of_In.
  - apply Forall_app. split; [done|]. apply Forall_app. split.
    + destruct (request_for_us s m); [|by subst]. destruct Hr as (f & my & -> & Emy & Ha). apply Forall_singleton.
      pose proof (ipv4_numeric_range _ _ Emy). apply (arp_good _ _ _ _ Ha); [|done|apply I].
      split; simpl; try done. apply I.
    + assert (Hm : Forall D (matching (arp_sender_ip_address m) (ni_waiting_arp_internet_datagrams s))).
      { unfold matching. apply Forall_map. rewrite Forall_forall in Hw |- *. intros x Hx. apply Hw.
        apply list_elem_of_In, filter_In in Hx as [Hx _]. by apply list_elem_of_In. }
      clear -D_valid I Ve Hm Hfs. induction Hfs as [|d f ds fs Hc Hfs IH]; [done|]. apply Forall_cons in Hm as [Hd Hm].
      constructor; [|by apply IH]. by apply (carries_good s (arp_sender_ethernet_address m) d).
Qed.

Lemma ticked_holds ms po s s' : ni_inv s -> order_of po (ni_waiting_arp_response_ip_addr s) -> ni_holds s -> ticked ms po s s' -> ni_holds s'.
Proof.
  intros I [_ Hk] [Hw Hf] (fs & -> & Hfs). split; [done|]. apply Forall_app. split; [done|].
  assert (Hr : Forall (fun ip => 0 <= ip < W32) (List.filter (overdue ms (ni_waiting_arp_response_ip_addr s)) po)).
  { apply Forall_forall. intros ip Hin. apply list_elem_of_In, filter_In in Hin as [Hin _]. apply list_elem_of_In, Hk in Hin as [t Ht].
    by apply (nv_pending _ I ip t). }
  induction Hfs as [|ip f l fs Hc Hfs IH]; [done|]. apply Forall_cons in Hr as [Hip Hr]. constructor; [|by apply IH].
  by apply (request_good s ip).
Qed.

Lemma received_holds s frame b o s' : ni_inv s -> Buffer_wf b -> ni_holds s -> received s frame b o s' -> ni_holds s'.
Proof.
  intros I Hb Hh Hr. unfold received in Hr. destruct (decide _); [|by destruct Hr as [_ ->]].
  destruct (_ =? TYPE_IPv4); [by destruct Hr as [-> _]|]. destruct (_ =? TYPE_ARP); [|by destruct Hr as [_ ->]].
  destruct Hr as (_ & r & m & Ep & Hl). destruct (bool_decide (r = NoError)) eqn:Er; cbn [andb] in Hl; [|by subst].
  apply bool_decide_eq_true in Er. destruct (_ || _); [|by subst].
  destruct (ARPMessage_parse_total ARPMessage_default b (wf_in b Hb)) as (r' & m' & E' & V). rewrite Ep in E'. injection E' as <- <-.
  apply (learned_holds s m); [done|by apply V|done|done].
Qed.

(** ** On the wire *)

(** The bytes of a good frame. *)
Definition on_the_wire (bs : bytes) : Prop := exists f, good_frame f /\ bs = BufferList_concatenate (EthernetFrame_serialize f).

Lemma frame_bytes f : BufferList_concatenate (EthernetFrame_serialize f)
  = EthernetHeader_serialize (ef_header f) ++ BufferList_concatenate (ef_payload f).
Proof. unfold EthernetFrame_serialize, BufferList_append. simpl. by rewrite concatenate_cons. Qed.

Lemma frame_length f : good_frame f -> zlen (BufferList_concatenate (EthernetFrame_serialize f))
  = 14 + zlen (BufferList_concatenate (ef_payload f)).
Proof.
  intros [V _ _]. rewrite frame_bytes, zlen_app. by destruct (EthernetHeader_serialize_ok _ V) as (bs & [= <-] & ->).
Qed.

Lemma on_the_wire_length bs : on_the_wire bs -> 14 <= zlen bs < W16 + 14.
Proof. intros (f & Hf & ->). rewrite frame_length by done. pose proof (gf_size f Hf). zlia. Qed.

(** What a receiver makes of them: an IPv4 frame carries a datagram of [D], but for the
    checksum. *)
Lemma read_off_the_wire bs h b d : on_the_wire bs ->
  EthernetFrame_parse EthernetFrame_default (Buffer_of_string bs) = Ok (NoError, mkEthernetFrame h [b]) ->
  eh_type h = TYPE_IPv4 -> IPv4Datagram_parse IPv4Datagram_default b = Ok (NoError, d) ->
  exists d0, D d0 /\ arrives d0 d.
Proof.
  intros (f & Hf & ->) Ep Ht Ed. pose proof (frame_length f Hf) as Hl. pose proof (gf_size f Hf) as Hs.
  destruct (EthernetFrame_parse_ok EthernetFrame_default (Buffer_of_string (BufferList_concatenate (EthernetFrame_serialize f)))
    (ef_header f) (BufferList_concatenate (ef_payload f))) as (b1 & Ep1 & Hw1 & Hs1).
  { apply Buffer_wf_of_string. rewrite Hl. lia. }
  { apply Hf. }
  { by rewrite <- frame_bytes. }
  rewrite Ep in Ep1. injection Ep1 as -> ->. destruct (gf_datagram f Hf Ht) as (d0 & bl & HD & Es & Eb).
  exists d0. split; [done|]. rewrite Eb in Hs1.
  pose proof (D_valid d0 HD) as V. destruct (IPv4Datagram_serialize_ok d0 V) as (v & Hv & Hck & Es'). rewrite Es in Es'. injection Es' as ->.
  destruct V as (V & _ & Hlen). rewrite concatenate_cons, Buffer_str_of_string in Hs1.
  destruct (IPv4Datagram_parse_ok IPv4Datagram_default b1 _ _ Hw1 Hs1 (ip_set_cksum_valid _ v V Hv) Hck Hlen) as (b' & Ep' & Hb' & Hs').
  rewrite Ed in Ep'. injection Ep' as ->. exists v. split; [done|]. split; [done|]. split; [by constructor|].
  cbn [ipd_payload]. by rewrite concatenate_cons, Hs', app_nil_r.
Qed.
End Holds.

Lemma good_frame_mono (D D' : InternetDatagram -> Prop) f : (forall d, D d -> D' d) -> good_frame D f -> good_frame D' f.
Proof.
  intros HD [V Hz Hs]. split; [done|done|]. intros Ht. destruct (Hs Ht) as (d & bl & Hd & ?). exists d, bl. split; [by apply HD|done].
Qed.

Lemma on_the_wire_mono (D D' : InternetDatagram -> Prop) bs : (forall d, D d -> D' d) -> on_the_wire D bs -> on_the_wire D' bs.
Proof. intros HD (f & Hf & ->). exists f. split; [by apply (good_frame_mono D)|done]. Qed.

Lemma ni_holds_mono (D D' : InternetDatagram -> Prop) s : (forall d, D d -> D' d) -> ni_holds D s -> ni_holds D' s.
Proof.
  intros HD [Hw Hf]. split.
  - eapply Forall_impl; [exact Hw|]. intros x. apply HD.
  - eapply Forall_impl; [exact Hf|]. intros f. by apply good_frame_mono.
Qed.
