(* ===== verification/Router.v ===== *)
(** * The router

    Models [libsponge/router.hh] and [router.cc]: interfaces that queue what they receive,
    the route table, longest-prefix matching and forwarding. *)

From S2P Require Import Prelude WrappingInts Buffers Checksum Parser TCPSegments IPv4 Ethernet Addresses Interface.

(** [AsyncNetworkInterface]. *)
Record AsyncNetworkInterface : Type := mkAsync {
  ai_interface : NetworkInterface;
  ai_datagrams_out : list InternetDatagram
}.

Definition AsyncNetworkInterface_new (i : NetworkInterface) : AsyncNetworkInterface := mkAsync i [].

(** A call on the [NetworkInterface] part. *)
Definition on_base {T} (m : method NetworkInterface T) : method AsyncNetworkInterface T := fun s =>
  let '(r, i) := m (ai_interface s) in (r, mkAsync i (ai_datagrams_out s)).

Definition AsyncNetworkInterface_recv_frame (frame : EthernetFrame) : method AsyncNetworkInterface unit :=
  optional_dgram ← on_base (recv_frame frame);
  match optional_dgram with
  | Some d => modify (fun s => mkAsync (ai_interface s) (ai_datagrams_out s ++ [d]))
  | None => mret tt
  end.

Record route_item : Type := mkRoute {
  rt_route_prefix : Z;
  rt_prefix_length : Z;
  rt_next_hop : option Address;
  rt_interface_num : Z
}.

Record Router : Type := mkRouter {
  ro_interfaces : list AsyncNetworkInterface;
  ro_route_table : list route_item
}.

Definition Router_new : Router := mkRouter [] [].

Definition add_interface (i : AsyncNetworkInterface) (r : Router) : Z * Router :=
  let r' := mkRouter (ro_interfaces r ++ [i]) (ro_route_table r) in (zlen (ro_interfaces r') - 1, r').

Definition add_route (route_prefix prefix_length : Z) (next_hop : option Address) (interface_num : Z) (r : Router) : Router :=
  mkRouter (ro_interfaces r) (ro_route_table r ++ [mkRoute route_prefix prefix_length next_hop interface_num]).

(** [interface(N)]: [std::vector::at]. *)
Definition Router_interface (r : Router) (n : Z) : res AsyncNetworkInterface :=
  match znth (ro_interfaces r) n with
  | Some i => Ok i
  | None => Throw (out_of_range "vector::at")
  end.

Definition set_interface (n : Z) (i : AsyncNetworkInterface) (r : Router) : Router :=
  mkRouter (<[Z.to_nat n := i]> (ro_interfaces r)) (ro_route_table r).

(** [prefix_length == 0 || (route_prefix ^ dst) >> (32 - prefix_length) == 0]; shifting
    a [uint32_t] by a negative amount is undefined. *)
Definition route_matches (dst_ip_addr : Z) (it : route_item) : res bool :=
  if rt_prefix_length it =? 0 then Ok true
  else if 32 <? rt_prefix_length it then Throw (UB "negative shift")
  else Ok (Z.shiftr (Z.lxor (rt_route_prefix it) dst_ip_addr) (32 - rt_prefix_length it) =? 0).

(** The loop that looks for [match_entry]; [None] is [_route_table.end()]. *)
Fixpoint find_route (dst_ip_addr : Z) (match_entry : option route_item) (table : list route_item)
  : res (option route_item) :=
  match table with
  | [] => Ok match_entry
  | it :: table' =>
      m ← route_matches dst_ip_addr it;
      find_route dst_ip_addr
        (if m : bool then
           match match_entry with
           | None => Some it
           | Some e => if rt_prefix_length e <? rt_prefix_length it then Some it else match_entry
           end
         else match_entry) table'
  end.

(** A call of [send_datagram] on interface [n]. *)
Definition send_on (n : Z) (dgram : InternetDatagram) (next_hop : Address) : method Router unit := fun r =>
  match Router_interface r n with
  | Ok i => let '(x, i') := on_base (send_datagram dgram next_hop) i in (x, set_interface n i' r)
  | Throw e => (Throw e, r)
  | NoFuel => (NoFuel, r)
  end.

(** [route_one_datagram(dgram)]: the datagram is a reference, whose TTL is decremented
    once a route is found, whether it is forwarded or not. *)
Definition route_one_datagram (dgram : InternetDatagram) (r : Router) : res unit * Router * InternetDatagram :=
  let dst_ip_addr := ip_dst (ipd_header dgram) in
  match find_route dst_ip_addr None (ro_route_table r) with
  | Throw e => (Throw e, r, dgram)
  | NoFuel => (NoFuel, r, dgram)
  | Ok None => (Ok tt, r, dgram)
  | Ok (Some it) =>
      let ttl := ip_ttl (ipd_header dgram) in
      let dgram := mkIPv4Datagram (ip_set_ttl (ipd_header dgram) (u8 (ttl - 1))) (ipd_payload dgram) in
      if 1 <? ttl then
        let '(x, r') := (next_hop ← lift (match rt_next_hop it with
                                          | Some a => Ok a
                                          | None => from_ipv4_numeric dst_ip_addr
                                          end);
                         send_on (rt_interface_num it) dgram next_hop) r in (x, r', dgram)
      else (Ok tt, r, dgram)
  end.

(** [while (not queue.empty()) { route_one_datagram(queue.front()); queue.pop(); }] for
    the queue of interface [i]; when routing throws, the datagram stays in front. *)
Fixpoint route_queue (fuel : nat) (i : nat) : method Router unit := fun r =>
  match fuel with
  | O => (NoFuel, r)
  | S fuel' =>
      match ro_interfaces r !! i with
      | None => (Ok tt, r)
      | Some ifc =>
          match ai_datagrams_out ifc with
          | [] => (Ok tt, r)
          | dgram :: _ =>
              let '(x, r', dgram') := route_one_datagram dgram r in
              let set_queue f r := mkRouter (alter (fun a => mkAsync (ai_interface a) (f (ai_datagrams_out a))) i
                                               (ro_interfaces r)) (ro_route_table r) in
              match x with
              | Ok _ => route_queue fuel' i (set_queue tail r')
              | Throw e => (Throw e, set_queue (fun q => dgram' :: tail q) r')
              | NoFuel => (NoFuel, r')
              end
          end
      end
  end.

Fixpoint route_from (l : list nat) : method Router unit :=
  match l with
  | [] => mret tt
  | i :: l' => fun r =>
      (_ ← route_queue (S (match ro_interfaces r !! i with Some a => length (ai_datagrams_out a) | None => 0 end)) i;
       route_from l') r
  end.

Definition route : method Router unit := fun r => route_from (seq 0 (length (ro_interfaces r))) r.

(** ** Longest prefix match *)

(** The high-order [prefix_length] bits agree. *)
Definition in_prefix (dst : Z) (it : route_item) : Prop :=
  rt_route_prefix it / 2 ^ (32 - rt_prefix_length it) = dst / 2 ^ (32 - rt_prefix_length it).

#[export] Instance in_prefix_dec dst it : Decision (in_prefix dst it) := Z.eq_dec _ _.

Record route_ok (it : route_item) : Prop := {
  rk_prefix : 0 <= rt_route_prefix it < W32;
  rk_length : 0 <= rt_prefix_length it <= 32
}.

Lemma route_matches_spec dst it : route_ok it -> 0 <= dst < W32 ->
  route_matches dst it = Ok (bool_decide (in_prefix dst it)).
Proof.
  intros [Hp Hl] Hd. unfold route_matches. destruct (Z.eqb_spec (rt_prefix_length it) 0) as [E|Hne].
  - rewrite bool_decide_eq_true_2; [done|]. unfold in_prefix. rewrite E, !Z.div_small; lia.
  - destruct (Z.ltb_spec 32 (rt_prefix_length it)); [lia|]. f_equal.
    rewrite Z.shiftr_lxor, !Z.shiftr_div_pow2 by lia. unfold in_prefix. case_bool_decide as Hc.
    + apply Z.eqb_eq. by apply Z.lxor_eq_0_iff.
    + apply Z.eqb_neq. intros E. by apply Hc, Z.lxor_eq_0_iff.
Qed.

(** [o] is the first of the longest matches in [l]. *)
Definition best_of (dst : Z) (l : list route_item) (o : option route_item) : Prop :=
  match o with
  | None => Forall (fun x => ~ in_prefix dst x) l
  | Some e => in_prefix dst e /\ exists l1 l2, l = l1 ++ e :: l2 /\
      Forall (fun x => in_prefix dst x -> rt_prefix_length x < rt_prefix_length e) l1 /\
      Forall (fun x => in_prefix dst x -> rt_prefix_length x <= rt_prefix_length e) l2
  end.

Definition better (dst : Z) (o : option route_item) (it : route_item) : option route_item :=
  if bool_decide (in_prefix dst it) then
    match o with
    | None => Some it
    | Some e => if rt_prefix_length e <? rt_prefix_length it then Some it else o
    end
  else o.

Lemma best_of_step dst l o it : best_of dst l o -> best_of dst (l ++ [it]) (better dst o it).
Proof.
  unfold better. intros H. case_bool_decide as Hm.
  - destruct o as [e|]; simpl in *.
    + destruct H as (He & l1 & l2 & -> & H1 & H2). destruct (Z.ltb_spec (rt_prefix_length e) (rt_prefix_length it)).
      * split; [done|]. exists (l1 ++ e :: l2), []. split; [done|]. split; [|constructor].
        apply Forall_app. split; [|apply Forall_cons; split; [done|]];
          (eapply Forall_impl; [eassumption|]; simpl; intros x Hx Hin; specialize (Hx Hin); lia).
      * split; [done|]. exists l1, (l2 ++ [it]). rewrite <- app_assoc. split; [done|]. split; [done|].
        apply Forall_app. split; [done|]. apply Forall_singleton. lia.
    + split; [done|]. exists l, []. split; [done|]. split; [|constructor].
      eapply Forall_impl; [exact H|]. simpl. intros x Hx Hin. by destruct Hx.
  - destruct o as [e|]; simpl in *.
    + destruct H as (He & l1 & l2 & -> & H1 & H2). split; [done|]. exists l1, (l2 ++ [it]). rewrite <- app_assoc.
      split; [done|]. split; [done|]. apply Forall_app. split; [done|]. by apply Forall_singleton.
    + apply Forall_app. split; [done|]. by apply Forall_singleton.
Qed.

Lemma find_route_spec dst table : forall seen o, 0 <= dst < W32 -> Forall route_ok table -> best_of dst seen o ->
  exists o', find_route dst o table = Ok o' /\ best_of dst (seen ++ table) o'.
Proof.
  induction table as [|it table IH]; intros seen o Hd Hok Hb; simpl.
  - exists o. by rewrite app_nil_r.
  - apply Forall_cons in Hok as [Hit Hok]. rewrite (route_matches_spec dst it Hit Hd), res_bind_Ok.
    destruct (IH (seen ++ [it]) (better dst o it) Hd Hok) as (o' & E & Hb'); [by apply best_of_step|].
    exists o'. rewrite <- app_assoc in Hb'. split; [|done]. rewrite <- E. unfold better. by destruct (bool_decide _), o.
Qed.

Lemma find_route_best dst table : 0 <= dst < W32 -> Forall route_ok table ->
  exists o, find_route dst None table = Ok o /\ best_of dst table o.
Proof. intros Hd Hok. apply (find_route_spec dst table [] None Hd Hok). constructor. Qed.

(** C19: the route lookup is longest-prefix match: on every table of valid routes it returns
    the first of the routes of greatest prefix length among those whose prefix
    agrees with the destination, and nothing exactly when no route matches. *)
Theorem longest_prefix_match dst table : 0 <= dst < W32 -> Forall route_ok table ->
  exists o, find_route dst None table = Ok o /\ best_of dst table o.
Proof. apply find_route_best. Qed.

Definition demo_routes : list route_item :=
  [mkRoute 0 0 (Some (inet 167772161 0)) 0; mkRoute 167772160 8 None 1; mkRoute 167837696 16 None 2;
   mkRoute 167837696 16 None 3].

Lemma demo_routes_ok : Forall route_ok demo_routes.
Proof. repeat constructor; simpl; lia. Qed.

Lemma longest_prefix_match_witness : exists o, find_route 167837953 None demo_routes = Ok o /\
  best_of 167837953 demo_routes o /\ option_map rt_interface_num o = Some 2.
Proof.
  destruct (longest_prefix_match 167837953 demo_routes) as (o & E & H).
  - lia.
  - exact demo_routes_ok.
  - exists o. split; [exact E|]. split; [exact H|]. vm_compute in E. injection E as <-. reflexivity.
Defined.

(** ** Forwarding *)

Definition dgram_ok (d : InternetDatagram) : Prop :=
  (exists bl, IPv4Datagram_serialize d = Ok bl) /\ 0 <= ip_dst (ipd_header d) < W32.

Record ro_inv (r : Router) : Prop := {
  rv_interfaces : Forall (fun a => ni_inv (ai_interface a) /\ Forall dgram_ok (ai_datagrams_out a)) (ro_interfaces r);
  rv_routes : Forall (fun it => route_ok it /\ 0 <= rt_interface_num it < zlen (ro_interfaces r) /\
      forall a, rt_next_hop it = Some a -> exists ip, ipv4_numeric a = Ok ip) (ro_route_table r)
}.

Definition decremented (d : InternetDatagram) : InternetDatagram :=
  mkIPv4Datagram (ip_set_ttl (ipd_header d) (u8 (ip_ttl (ipd_header d) - 1))) (ipd_payload d).

Lemma decremented_ok d : dgram_ok d -> dgram_ok (decremented d).
Proof. intros [Hs Hd]. split; [|done]. apply IPv4Datagram_serialize_iff in Hs. by apply IPv4Datagram_serialize_iff. Qed.

Lemma decremented_valid d : datagram_valid d -> datagram_valid (decremented d).
Proof. intros ([] & Hw & Hl). split; [split; try done; apply u8_range|done]. Qed.

Definition queues (r : Router) : list (list InternetDatagram) := map ai_datagrams_out (ro_interfaces r).

(** What forwarding [d] does: without a route, nothing; with one, the TTL goes down, and
    unless it had run out the interface of the longest match sends the datagram to
    the route's next hop, or to the destination itself. *)
Definition forwarded (r : Router) (d : InternetDatagram) (r' : Router) (d' : InternetDatagram) : Prop :=
  exists o, best_of (ip_dst (ipd_header d)) (ro_route_table r) o /\
  match o with
  | None => r' = r /\ d' = d
  | Some it => d' = decremented d /\
      if 1 <? ip_ttl (ipd_header d) then
        exists i i' hop ip, znth (ro_interfaces r) (rt_interface_num it) = Some i /\
          hop = default (inet (ip_dst (ipd_header d)) 0) (rt_next_hop it) /\ ipv4_numeric hop = Ok ip /\
          sent (ai_interface i) d' hop ip i' /\
          r' = set_interface (rt_interface_num it) (mkAsync i' (ai_datagrams_out i)) r
      else r' = r
  end.

Lemma best_of_in dst l e : best_of dst l (Some e) -> e ∈ l.
Proof. intros (_ & l1 & l2 & -> & _). apply elem_of_app. right. left. Qed.

Lemma set_interface_queues n i' i r : znth (ro_interfaces r) n = Some i ->
  queues (set_interface n (mkAsync i' (ai_datagrams_out i)) r) = queues r.
Proof.
  unfold znth, queues. destruct (_ <? _); [done|]. intros E. cbn [ro_interfaces set_interface].
  apply list_eq. intros k. rewrite !list_lookup_fmap. destruct (decide (k = Z.to_nat n)) as [->|].
  - rewrite list_lookup_insert_eq by (by eapply lookup_lt_Some). by rewrite E.
  - by rewrite list_lookup_insert_ne.
Qed.

Lemma route_one_spec r d : ro_inv r -> dgram_ok d ->
  exists r' d', route_one_datagram d r = (Ok tt, r', d') /\ forwarded r d r' d' /\ ro_inv r' /\ queues r' = queues r.
Proof.
  intros [Ri Rt] Hd. destruct Hd as [Hs Hdst] eqn:Ed. clear Ed. unfold route_one_datagram, forwarded.
  destruct (find_route_best (ip_dst (ipd_header d)) (ro_route_table r) Hdst) as (o & E & Hb).
  { eapply Forall_impl; [exact Rt|]. by intros it (? & _). }
  rewrite E. destruct o as [it|]; [|exists r, d; split; [done|split; [by exists None|split; [by split|done]]]].
  fold (decremented d). cbv zeta. rewrite Forall_forall in Rt.
  destruct (Rt it (best_of_in _ _ _ Hb)) as (_ & Hn & Hh).
  destruct (Z.ltb_spec 1 (ip_ttl (ipd_header d))) as [Httl|Httl].
  2:{ exists r, (decremented d). split; [done|]. split; [|by split; [split; [|by apply Forall_forall]|]].
      exists (Some it). split; [done|]. split; [done|]. by destruct (Z.ltb_spec 1 (ip_ttl (ipd_header d))); [lia|]. }
  destruct (znth_is_Some _ _ Hn) as [i Ei].
  assert (Hi : ni_inv (ai_interface i) /\ Forall dgram_ok (ai_datagrams_out i)).
  { unfold znth in Ei. destruct (_ <? _); [done|]. apply (Forall_lookup_1 _ _ _ _ Ri Ei). }
  destruct Hi as [Ii Hq].
  set (hop := default (inet (ip_dst (ipd_header d)) 0) (rt_next_hop it)).
  assert (Hhop : exists ip, ipv4_numeric hop = Ok ip).
  { unfold hop. destruct (rt_next_hop it) as [a|] eqn:Ea; simpl; [by apply Hh|].
    eexists. by apply ipv4_numeric_inet. }
  destruct Hhop as [ip Eip]. destruct (decremented_ok d (conj Hs Hdst)) as [[bl Ebl] _].
  destruct (send_datagram_spec _ _ _ _ _ Ii Eip Ebl) as (i' & Es & Hsent & Ii').
  exists (set_interface (rt_interface_num it) (mkAsync i' (ai_datagrams_out i)) r), (decremented d).
  split; [|split; [|split]].
  - replace (match rt_next_hop it with Some a => Ok a | None => from_ipv4_numeric _ end) with (Ok hop)
      by (unfold hop; rewrite from_ipv4_numeric_inet; by destruct (rt_next_hop it)).
    rewrite run_lift. unfold send_on, Router_interface, on_base. by rewrite Ei, Es.
  - exists (Some it). split; [done|]. split; [done|]. destruct (Z.ltb_spec 1 (ip_ttl (ipd_header d))); [|lia].
    by exists i, i', hop, ip.
  - split; cbn.
    + apply Forall_insert; [done|]. by split.
    + apply Forall_forall. intros x Hx. destruct (Rt x Hx) as (? & ? & ?). split; [done|].
      split; [unfold zlen in *; by rewrite length_insert|done].
  - by apply set_interface_queues.
Qed.

(** ** Draining the queues *)

(** Take the front datagram of queue [i]. *)
Definition pop_queue (i : nat) (r : Router) : Router :=
  mkRouter (alter (fun a => mkAsync (ai_interface a) (tail (ai_datagrams_out a))) i (ro_interfaces r)) (ro_route_table r).

Lemma queues_pop i r : queues (pop_queue i r) = alter tail i (queues r).
Proof.
  unfold queues, pop_queue. cbn [ro_interfaces]. apply list_eq. intros k. rewrite list_lookup_fmap.
  destruct (decide (k = i)) as [->|Hk].
  - rewrite !list_lookup_alter_eq, list_lookup_fmap. by destruct (ro_interfaces r !! i).
  - by rewrite !list_lookup_alter_ne, list_lookup_fmap.
Qed.

Lemma ro_inv_pop i r : ro_inv r -> ro_inv (pop_queue i r).
Proof.
  intros [Ri Rt]. split; cbn.
  - apply Forall_alter; [done|]. intros a Ha [H1 H2]. split; [done|]. cbn. by destruct H2.
  - eapply Forall_impl; [exact Rt|]. intros it (? & ? & ?). split; [done|].
    split; [unfold zlen in *; by rewrite length_alter|done].
Qed.

Lemma queue_length_ok r r' : queues r' = queues r -> length (ro_interfaces r') = length (ro_interfaces r).
Proof. intros H. apply (f_equal length) in H. unfold queues in H. by rewrite !length_map in H. Qed.

(** With a property of the router that forwarding keeps for the datagrams of [Q]. *)
Section Draining.
Context (J : Router -> Prop) (Q : InternetDatagram -> Prop).
Context (J_forwarded : forall r d r' d', ro_inv r -> J r -> dgram_ok d -> Q d -> forwarded r d r' d' -> J r').
Context (J_pop : forall i r, J r -> J (pop_queue i r)).

(** As many rounds as there are datagrams, and one to see the queue empty. *)
Lemma route_queue_spec i q : forall r, ro_inv r -> J r -> queues r !! i = Some q -> Forall Q q ->
  exists r', route_queue (S (length q)) i r = (Ok tt, r') /\ ro_inv r' /\ J r' /\ queues r' = <[i := []]> (queues r).
Proof.
  induction q as [|d q IH]; intros r I HJ Hq HQ; pose proof Hq as Hq'; unfold queues in Hq'; rewrite list_lookup_fmap in Hq';
    (destruct (ro_interfaces r !! i) as [a|] eqn:Ea; [|done]); injection Hq' as Hq'; cbn [route_queue]; rewrite Ea, Hq'.
  - exists r. split; [done|]. split; [done|]. split; [done|]. by rewrite list_insert_id.
  - pose proof (Forall_lookup_1 _ _ _ _ (rv_interfaces _ I) Ea) as [_ Hok]. rewrite Hq' in Hok.
    apply Forall_cons in Hok as [Hd _]. apply Forall_cons in HQ as [HQd HQ].
    destruct (route_one_spec r d I Hd) as (r1 & d1 & E & Hf & I1 & Q1). rewrite E.
    destruct (IH (pop_queue i r1)) as (r2 & E2 & I2 & J2 & Q2).
    + by apply ro_inv_pop.
    + apply J_pop. by apply (J_forwarded r d r1 d1).
    + rewrite queues_pop, list_lookup_alter_eq, Q1, Hq. done.
    + done.
    + exists r2. split; [exact E2|]. split; [done|]. split; [done|]. rewrite Q2, queues_pop, Q1.
      apply list_eq. intros k. destruct (decide (k = i)) as [->|Hk].
      * rewrite !list_lookup_insert_eq; [done|by eapply lookup_lt_Some|rewrite length_alter; by eapply lookup_lt_Some].
      * by rewrite !list_lookup_insert_ne, list_lookup_alter_ne.
Qed.

Lemma route_from_spec l : forall r, ro_inv r -> J r -> Forall (Forall Q) (queues r) -> Forall (fun i => (i < length (ro_interfaces r))%nat) l ->
  exists r', route_from l r = (Ok tt, r') /\ ro_inv r' /\ J r' /\ length (ro_interfaces r') = length (ro_interfaces r) /\
    forall k, queues r' !! k = if decide (k ∈ l) then (fun _ => []) <$> queues r !! k else queues r !! k.
Proof.
  induction l as [|i l IH]; intros r I HJ HQ Hl; cbn [route_from].
  - exists r. split; [done|]. split; [done|]. split; [done|]. split; [done|]. intros k. by destruct (decide (k ∈ [])) as [H%elem_of_nil|].
  - apply Forall_cons in Hl as [Hi Hl]. destruct (lookup_lt_is_Some_2 _ _ Hi) as [a Ea]. rewrite Ea.
    assert (Hq : queues r !! i = Some (ai_datagrams_out a)) by (unfold queues; by rewrite list_lookup_fmap, Ea).
    destruct (route_queue_spec i (ai_datagrams_out a) r I HJ Hq (Forall_lookup_1 _ _ _ _ HQ Hq)) as (r1 & E1 & I1 & J1 & Q1).
    erewrite run_bind by exact E1.
    assert (Hlen : length (ro_interfaces r1) = length (ro_interfaces r)).
    { apply (f_equal length) in Q1. rewrite length_insert in Q1. unfold queues in Q1. by rewrite !length_map in Q1. }
    destruct (IH r1 I1 J1) as (r2 & E2 & I2 & J2 & L2 & Q2); [rewrite Q1; by apply Forall_insert|by rewrite Hlen|].
    exists r2. split; [exact E2|]. split; [done|]. split; [done|]. split; [congruence|]. intros k. rewrite Q2, Q1.
    destruct (decide (k = i)) as [->|Hk].
    + rewrite (decide_True (P := i ∈ i :: l)) by left. rewrite list_lookup_insert_eq, Hq by (by eapply lookup_lt_Some).
      by destruct (decide (i ∈ l)).
    + rewrite list_lookup_insert_ne by done. destruct (decide (k ∈ l)).
      * by rewrite decide_True by (by right).
      * rewrite decide_False; [done|]. intros [?|?]%elem_of_cons; done.
Qed.

Lemma route_spec r : ro_inv r -> J r -> Forall (Forall Q) (queues r) ->
  exists r', route r = (Ok tt, r') /\ ro_inv r' /\ J r' /\ length (ro_interfaces r') = length (ro_interfaces r) /\
    Forall (fun a => ai_datagrams_out a = []) (ro_interfaces r').
Proof.
  intros I HJ HQ. unfold route. destruct (route_from_spec (seq 0 (length (ro_interfaces r))) r I HJ HQ) as (r' & E & I' & J' & L & K).
  { apply Forall_seq. lia. }
  exists r'. split; [done|]. split; [done|]. split; [done|]. split; [done|]. apply Forall_lookup. intros k a Ea.
  pose proof (lookup_lt_Some _ _ _ Ea) as Hk. specialize (K k). rewrite decide_True in K by (apply elem_of_seq; lia).
  unfold queues in K. rewrite !list_lookup_fmap, Ea in K. destruct (ro_interfaces r !! k); [|done]. by injection K.
Qed.
End Draining.

(** [route] returns, with every queue of received datagrams drained: on a router whose
    routes name its interfaces and IPv4 next hops, and whose datagrams serialize,
    each is looked up, forwarded or dropped; nothing throws, the loops end within
    their fuel, and the interfaces stay well formed. *)
Theorem route_drains_all_queues r : ro_inv r ->
  exists r', route r = (Ok tt, r') /\ ro_inv r' /\ Forall (fun a => ai_datagrams_out a = []) (ro_interfaces r').
Proof.
  intros I. destruct (route_spec (fun _ => True) (fun _ => True)) with (r := r) as (r' & E & I' & _ & _ & H); try done.
  - apply Forall_forall. intros q _. by apply Forall_forall.
  - by exists r'.
Qed.

(** forwarding one datagram: without a matching route nothing happens; otherwise the TTL
    is decremented and, unless it was 0 or 1, the interface of the longest match
    sends the datagram to the next hop, or to its destination when the network is
    attached directly; the queues of received datagrams are untouched. *)
Theorem route_one_datagram_correct r d : ro_inv r -> dgram_ok d ->
  exists r' d', route_one_datagram d r = (Ok tt, r', d') /\ forwarded r d r' d' /\ ro_inv r' /\ queues r' = queues r.
Proof. apply route_one_spec. Qed.

Definition demo_router : Router :=
  mkRouter [mkAsync demo_interface [sample_datagram]; mkAsync demo_interface2 []]
    [mkRoute 0 0 (Some (inet 167772162 0)) 0; mkRoute 167772160 8 None 1].

Lemma sample_datagram_ok : dgram_ok sample_datagram.
Proof. split; [eexists; vm_compute; reflexivity|vm_compute; split; congruence]. Qed.

Lemma demo_router_inv : ro_inv demo_router.
Proof.
  split; cbn.
  - apply Forall_cons. split; [|apply Forall_singleton]; cbn.
    + split; [apply demo_interface_inv|]. apply Forall_singleton, sample_datagram_ok.
    + split; [apply demo_interface2_inv|constructor].
  - apply Forall_cons. split; [|apply Forall_singleton]; (split; [split; cbn; lia|]); (split; [vm_compute; split; congruence|]).
    + intros a [= <-]. by eexists.
    + done.
Qed.

Lemma route_drains_all_queues_witness : exists r', route demo_router = (Ok tt, r') /\
  Forall (fun a => ai_datagrams_out a = []) (ro_interfaces r').
Proof.
  destruct (route_drains_all_queues demo_router demo_router_inv) as (r' & E & _ & H).
  exists r'. split; [exact E|exact H].
Defined.

Lemma route_one_datagram_correct_witness : exists r' d',
  route_one_datagram sample_datagram demo_router = (Ok tt, r', d') /\ queues r' = queues demo_router.
Proof.
  destruct (route_one_datagram_correct demo_router sample_datagram demo_router_inv) as (r' & d' & E & _ & _ & H).
  - exact sample_datagram_ok.
  - exists r', d'. split; [exact E|exact H].
Defined.

(** *** Datagrams that cannot be sent *)

(** A 20-byte IPv4 frame to the first demo interface whose datagram says version 6. *)
Definition poison_frame : EthernetFrame :=
  mkEthernetFrame (mkEthernetHeader demo_eth demo_eth TYPE_IPv4) [Buffer_of_string bad_datagram_bytes].

(** A router whose next hop for everything is resolved. *)
Definition resolved_router : Router :=
  mkRouter [mkAsync (ni_set_arp_table {[167772162 := mkARP_Entry [2; 0; 0; 0; 0; 2] 30000]} demo_interface) []]
    [mkRoute 0 0 (Some (inet 167772162 0)) 0].

Definition poisoned_router : Router :=
  match ro_interfaces resolved_router with
  | a :: l => mkRouter (snd (AsyncNetworkInterface_recv_frame poison_frame a) :: l) (ro_route_table resolved_router)
  | [] => resolved_router
  end.

(** a datagram with a wrong IP version passes [recv_frame], because [IPv4Datagram::parse]
    ignores the header's verdict, but cannot be serialized again: forwarding it makes
    [route] throw, and the datagram stays at the head of its queue, so that the next
    call throws again until its TTL has run out. *)
Theorem malformed_datagram_stops_the_router :
  fst (route poisoned_router) = Throw (runtime_error "wrong IP version") /\
  fst (route (snd (route poisoned_router))) = Throw (runtime_error "wrong IP version") /\
  map (fun a => length (ai_datagrams_out a)) (ro_interfaces (snd (route (snd (route poisoned_router))))) = [1%nat].
Proof. split; [|split]; vm_compute; reflexivity. Qed.

(** a route with a prefix length above 32, which [add_route]'s [uint8_t] allows, makes the
    lookup shift by a negative amount: undefined behaviour for every datagram. *)
Theorem long_prefix_is_undefined d r prefix len hop n : 32 < len < 256 -> ro_route_table r = [] ->
  exists r' d', route_one_datagram d (add_route prefix len hop n r) = (Throw (UB "negative shift"), r', d').
Proof.
  intros Hl Ht. unfold route_one_datagram, add_route. cbn [ro_route_table]. rewrite Ht. cbn [app find_route].
  unfold route_matches. cbn [rt_prefix_length]. destruct (Z.eqb_spec len 0); [lia|].
  destruct (Z.ltb_spec 32 len); [|lia]. by eexists _, _.
Qed.

Lemma long_prefix_is_undefined_witness : exists r' d',
  route_one_datagram sample_datagram (add_route 0 33 None 0 Router_new) = (Throw (UB "negative shift"), r', d').
Proof. apply (long_prefix_is_undefined sample_datagram Router_new 0 33 None 0); [lia|reflexivity]. Defined.
