(* ===== verification/Simulator.v ===== *)
(** * The network simulator

    Models [apps/network_simulator.cc]: hosts and a router joined by links over which the
    Ethernet frames are exchanged in rounds, and the scenarios the program runs. The random
    numbers are a stream [rd]; the iteration order of the [std::unordered_map] of hosts is
    an argument. What is printed is left out. *)

From stdpp Require Import pretty.
From Stdlib Require Import String.
From S2P Require Import Prelude WrappingInts Buffers Checksum Parser TCPSegments IPv4 Ethernet Addresses Interface Router.

(** Six draws from position [i] on. *)
Definition draws (rd : nat -> Z) (i : nat) : EthernetAddress := map (fun k => u8 (rd (i + k)%nat)) (seq 0 6).

Definition random_host_ethernet_address (rd : nat -> Z) (i : nat) : EthernetAddress :=
  alter (fun b => u8 (Z.land (u8 (Z.lor b 2)) 254)) 0%nat (draws rd i).

Definition random_router_ethernet_address (rd : nat -> Z) (i : nat) : EthernetAddress :=
  <[0%nat := 2]> (<[1%nat := 0]> (<[2%nat := 0]> (draws rd i))).

(** The dotted quad a.b.c.d, as [ip] computes it. *)
Definition ip (a b c d : Z) : Z := a * 2 ^ 24 + b * 2 ^ 16 + c * 2 ^ 8 + d.
Abbreviation host_at a b c d := (inet (ip a b c d) 0).

(** [clear]: pops from the second queue as often as from the first; popping an empty
    queue is undefined. *)
Fixpoint clear {T} (queue1 queue2 : list T) : res (list T) :=
  match queue1, queue2 with
  | [], _ => Ok queue2
  | _ :: queue1', _ :: queue2' => clear queue1' queue2'
  | _ :: _, [] => Throw (UB "pop of an empty queue")
  end.

(** ** Host *)

Record Host : Type := mkHost {
  ho_name : string;
  ho_my_address : Address;
  ho_interface : AsyncNetworkInterface;
  ho_next_hop : Address;
  ho_expecting_to_receive : list InternetDatagram
}.

Definition ho_set_interface (i : AsyncNetworkInterface) (h : Host) : Host :=
  mkHost (ho_name h) (ho_my_address h) i (ho_next_hop h) (ho_expecting_to_receive h).
Definition ho_set_expecting (l : list InternetDatagram) (h : Host) : Host :=
  mkHost (ho_name h) (ho_my_address h) (ho_interface h) (ho_next_hop h) l.

Definition Host_new (name : string) (my_address next_hop : Address) (rd : nat -> Z) (i : nat) : Host :=
  mkHost name my_address (AsyncNetworkInterface_new (NetworkInterface_new (random_host_ethernet_address rd i) my_address))
    next_hop [].

(** [x.serialize().concatenate()] *)
Definition serialized (x : InternetDatagram) : res bytes := bl ← IPv4Datagram_serialize x; Ok (BufferList_concatenate bl).

Fixpoint expecting (expected : InternetDatagram) (l : list InternetDatagram) : res bool :=
  match l with
  | [] => Ok false
  | x :: l' =>
      a ← serialized x; b ← serialized expected;
      if bool_decide (a = b) then Ok true else expecting expected l'
  end.

Fixpoint remove_expectation (expected : InternetDatagram) (l : list InternetDatagram) : res (list InternetDatagram) :=
  match l with
  | [] => Ok []
  | x :: l' =>
      a ← serialized x; b ← serialized expected;
      if bool_decide (a = b) then Ok l' else r ← remove_expectation expected l'; Ok (x :: r)
  end.

Definition random_payload (random : Z) : bytes :=
  list_byte_of_string ("random payload: {" ++ pretty (Z.to_N random) ++ "}").

Definition host_datagram (src dst ttl random : Z) : InternetDatagram :=
  let payload := BufferList_of_string (random_payload random) in
  let len := u16 (ip_hlen IPv4Header_default * 4 + BufferList_size payload) in
  mkIPv4Datagram (ip_set_ttl (ip_set_route IPv4Header_default src dst len) ttl) payload.

Definition Host_send_to (destination : Address) (ttl : Z) (random : Z) : method Host InternetDatagram :=
  my_address ← gets ho_my_address;
  src ← lift (ipv4_numeric my_address);
  dst ← lift (ipv4_numeric destination);
  let dgram := host_datagram src dst ttl random in
  next_hop ← gets ho_next_hop;
  _ ← zoom ho_interface ho_set_interface (on_base (send_datagram dgram next_hop));
  mret dgram.

Definition Host_expect (expected : InternetDatagram) (h : Host) : Host :=
  ho_set_expecting (ho_expecting_to_receive h ++ [expected]) h.

Definition pop_received (i : AsyncNetworkInterface) : AsyncNetworkInterface := mkAsync (ai_interface i) (tail (ai_datagrams_out i)).

(** The loop of [check]; each pass takes one datagram from the queue. *)
Fixpoint check_loop (fuel : nat) : method Host unit :=
  match fuel with
  | O => lift NoFuel
  | S fuel' =>
      i ← gets ho_interface;
      match ai_datagrams_out i with
      | [] => mret tt
      | dgram_received :: _ =>
          l ← gets ho_expecting_to_receive;
          expected ← lift (expecting dgram_received l);
          if negb expected then lift (Throw (runtime_error "received unexpected Internet datagram"))
          else
            l' ← lift (remove_expectation dgram_received l);
            _ ← modify (ho_set_expecting l');
            _ ← modify (fun h => ho_set_interface (pop_received (ho_interface h)) h);
            check_loop fuel'
      end
  end.

Definition Host_check : method Host unit :=
  i ← gets ho_interface;
  _ ← check_loop (S (length (ai_datagrams_out i)));
  l ← gets ho_expecting_to_receive;
  match l with [] => mret tt | _ :: _ => lift (Throw (runtime_error "did NOT receive an expected Internet datagram")) end.

(** ** Network *)

Record Network : Type := mkNetwork {
  nw_router : Router;
  nw_default_id : Z; nw_eth0_id : Z; nw_eth1_id : Z; nw_eth2_id : Z; nw_uun3_id : Z; nw_hs4_id : Z; nw_mit5_id : Z;
  nw_hosts : gmap string Host
}.

Definition nw_set_router (r : Router) (n : Network) : Network :=
  mkNetwork r (nw_default_id n) (nw_eth0_id n) (nw_eth1_id n) (nw_eth2_id n) (nw_uun3_id n) (nw_hs4_id n) (nw_mit5_id n) (nw_hosts n).
Definition nw_set_hosts (m : gmap string Host) (n : Network) : Network :=
  mkNetwork (nw_router n) (nw_default_id n) (nw_eth0_id n) (nw_eth1_id n) (nw_eth2_id n) (nw_uun3_id n) (nw_hs4_id n) (nw_mit5_id n) m.

Definition frames_of (i : AsyncNetworkInterface) : list EthernetFrame := ni_frames_out (ai_interface i).
Definition set_frames (l : list EthernetFrame) (i : AsyncNetworkInterface) : AsyncNetworkInterface :=
  mkAsync (ni_set_frames l (ai_interface i)) (ai_datagrams_out i).

Fixpoint deliver (src : list EthernetFrame) : method AsyncNetworkInterface unit :=
  match src with
  | [] => mret tt
  | frame :: to_send =>
      let payload := BufferList_of_string (BufferList_concatenate (ef_payload frame)) in
      _ ← AsyncNetworkInterface_recv_frame (mkEthernetFrame (ef_header frame) payload);
      deliver to_send
  end.

Definition clear_frames (frames : list EthernetFrame) : method AsyncNetworkInterface unit :=
  i ← gets id;
  q ← lift (clear frames (frames_of i));
  modify (set_frames q).

Abbreviation on_x := (zoom fst (fun i (p : AsyncNetworkInterface * AsyncNetworkInterface) => (i, snd p))).
Abbreviation on_y := (zoom snd (fun i (p : AsyncNetworkInterface * AsyncNetworkInterface) => (fst p, i))).

(** [exchange_frames(x, y)] *)
Definition exchange_frames : method (AsyncNetworkInterface * AsyncNetworkInterface) unit :=
  x_frames ← gets (fun p => frames_of (fst p));
  y_frames ← gets (fun p => frames_of (snd p));
  _ ← on_y (deliver x_frames);
  _ ← on_x (deliver y_frames);
  _ ← on_x (clear_frames x_frames);
  on_y (clear_frames y_frames).

(** [exchange_frames(x, y, z)] *)
Abbreviation three := (AsyncNetworkInterface * (AsyncNetworkInterface * AsyncNetworkInterface))%type.
Abbreviation on_x3 := (zoom fst (fun i (p : three) => (i, snd p))).
Abbreviation on_y3 := (zoom (fun p : three => fst (snd p)) (fun i p => (fst p, (i, snd (snd p))))).
Abbreviation on_z3 := (zoom (fun p : three => snd (snd p)) (fun i p => (fst p, (fst (snd p), i)))).

Definition exchange_frames3 : method three unit :=
  x_frames ← gets (fun p => frames_of (fst p));
  y_frames ← gets (fun p => frames_of (fst (snd p)));
  z_frames ← gets (fun p => frames_of (snd (snd p)));
  _ ← on_y3 (deliver x_frames);
  _ ← on_z3 (deliver x_frames);
  _ ← on_x3 (deliver y_frames);
  _ ← on_z3 (deliver y_frames);
  _ ← on_x3 (deliver z_frames);
  _ ← on_y3 (deliver z_frames);
  _ ← on_x3 (clear_frames x_frames);
  _ ← on_y3 (clear_frames y_frames);
  on_z3 (clear_frames z_frames).

(** [host(name)] *)
Definition find_host (name : string) : method Network Host :=
  hosts ← gets nw_hosts;
  lift (match hosts !! name with
        | None => Throw (runtime_error "unknown host")
        | Some h => if negb (bool_decide (ho_name h = name)) then Throw (runtime_error "invalid host") else Ok h
        end).

(** A call on the object [host(name)] refers to. *)
Definition on_host {X} (name : string) (m : method Host X) : method Network X :=
  h ← find_host name;
  ((fun n => let '(r, h') := m h in (r, nw_set_hosts (<[name := h']> (nw_hosts n)) n)) : method Network X).

Definition router_interface (id : Z) : method Network AsyncNetworkInterface :=
  r ← gets nw_router; lift (Router_interface r id).

Definition put_interface (id : Z) (i : AsyncNetworkInterface) (n : Network) : Network :=
  nw_set_router (set_interface id i (nw_router n)) n.
Definition put_host (name : string) (i : AsyncNetworkInterface) (n : Network) : Network :=
  nw_set_hosts (alter (ho_set_interface i) name (nw_hosts n)) n.

(** A link between an interface of the router and a host. *)
Definition link (id : Z) (name : string) : method Network unit :=
  x ← router_interface id;
  y ← find_host name;
  ((fun n => let '(r, (x', y')) := exchange_frames (x, ho_interface y) in
             (r, put_host name y' (put_interface id x' n))) : method Network unit).

Definition link3 (id : Z) (name1 name2 : string) : method Network unit :=
  x ← router_interface id;
  y ← find_host name1;
  z ← find_host name2;
  ((fun n => let '(r, (x', (y', z'))) := exchange_frames3 (x, (ho_interface y, ho_interface z)) in
             (r, put_host name2 z' (put_host name1 y' (put_interface id x' n)))) : method Network unit).

Fixpoint run_links (links : list (Z * string)) : method Network unit :=
  match links with
  | [] => mret tt
  | (id, name) :: links' => _ ← link id name; run_links links'
  end.

(** The links with one host. *)
Definition links (n : Network) : list (Z * string) :=
  [(nw_default_id n, "default_router"); (nw_eth0_id n, "applesauce"); (nw_eth2_id n, "cherrypie"); (nw_hs4_id n, "hs_router")].

Definition simulate_physical_connections : method Network unit :=
  n ← gets id;
  _ ← run_links (links n);
  link3 (nw_uun3_id n) "dm42" "dm43".

Fixpoint simulate_rounds (rounds : nat) : method Network unit :=
  match rounds with
  | O => mret tt
  | S rounds' =>
      _ ← zoom nw_router nw_set_router route;
      _ ← simulate_physical_connections;
      simulate_rounds rounds'
  end.

Fixpoint check_hosts (order : list string) : method Network unit :=
  match order with
  | [] => mret tt
  | name :: order' => _ ← on_host name Host_check; check_hosts order'
  end.

(** [order] lists the names of the hosts. *)
Definition simulate (order : list string) : method Network unit :=
  _ ← simulate_rounds 256; check_hosts order.

(** The constructor: addresses are drawn for the router's interfaces first. *)
Definition Network_new (rd : nat -> Z) : Network :=
  let interface k address := AsyncNetworkInterface_new (NetworkInterface_new (random_router_ethernet_address rd (6 * k)) address) in
  let '(default_id, r) := add_interface (interface 0%nat (host_at 171 67 76 46)) Router_new in
  let '(eth0_id, r) := add_interface (interface 1%nat (host_at 10 0 0 1)) r in
  let '(eth1_id, r) := add_interface (interface 2%nat (host_at 172 16 0 1)) r in
  let '(eth2_id, r) := add_interface (interface 3%nat (host_at 192 168 0 1)) r in
  let '(uun3_id, r) := add_interface (interface 4%nat (host_at 198 178 229 1)) r in
  let '(hs4_id, r) := add_interface (interface 5%nat (host_at 143 195 0 2)) r in
  let '(mit5_id, r) := add_interface (interface 6%nat (host_at 128 30 76 255)) r in
  let host k name address next_hop := (name, Host_new name address next_hop rd (42 + 6 * k)) in
  let default_router := host_at 171 67 76 1 in
  let hs_router := host_at 143 195 0 1 in
  let hosts := list_to_map
    [host 0%nat "applesauce" (host_at 10 0 0 2) (host_at 10 0 0 1);
     host 1%nat "default_router" default_router (host_at 0 0 0 0);
     host 2%nat "cherrypie" (host_at 192 168 0 2) (host_at 192 168 0 1);
     host 3%nat "hs_router" hs_router (host_at 0 0 0 0);
     host 4%nat "dm42" (host_at 198 178 229 42) (host_at 198 178 229 1);
     host 5%nat "dm43" (host_at 198 178 229 43) (host_at 198 178 229 1)] in
  let r := add_route (ip 0 0 0 0) 0 (Some default_router) default_id r in
  let r := add_route (ip 10 0 0 0) 8 None eth0_id r in
  let r := add_route (ip 172 16 0 0) 16 None eth1_id r in
  let r := add_route (ip 192 168 0 0) 24 None eth2_id r in
  let r := add_route (ip 198 178 229 0) 24 None uun3_id r in
  let r := add_route (ip 143 195 0 0) 17 (Some hs_router) hs4_id r in
  let r := add_route (ip 143 195 128 0) 18 (Some hs_router) hs4_id r in
  let r := add_route (ip 143 195 192 0) 19 (Some hs_router) hs4_id r in
  let r := add_route (ip 128 30 76 255) 16 (Some (host_at 128 30 0 1)) mit5_id r in
  mkNetwork r default_id eth0_id eth1_id eth2_id uun3_id hs4_id mit5_id hosts.

(** ** The scenarios *)

(** [host(from).send_to(destination, ttl)], and the copy of the datagram the caller gets. *)
Definition send_from (from : string) (destination : Address) (ttl random : Z) : method Network InternetDatagram :=
  on_host from (Host_send_to destination ttl random).

(** Send, expect the datagram with one hop less at the other host, simulate. *)
Definition scenario (order : list string) (from : string) (destination : Address) (to : string) (random : Z) : method Network unit :=
  dgram_sent ← send_from from destination 64 random;
  _ ← on_host to (modify (Host_expect (decremented dgram_sent)));
  simulate order.

(** Send with a time to live that does not reach the router's other side. *)
Definition lost_scenario (order : list string) (from : string) (destination : Address) (ttl random : Z) : method Network unit :=
  _ ← send_from from destination ttl random;
  simulate order.

(** The scenarios in which the datagram crosses the router from one link to another. *)
Definition routed_scenarios (rd : nat -> Z) (order : list string) : method Network unit :=
  cherrypie ← find_host "cherrypie";
  _ ← scenario order "applesauce" (ho_my_address cherrypie) "cherrypie" (rd 78%nat);
  applesauce ← find_host "applesauce";
  _ ← scenario order "cherrypie" (ho_my_address applesauce) "applesauce" (rd 79%nat);
  _ ← scenario order "applesauce" (host_at 1 2 3 4) "default_router" (rd 80%nat);
  _ ← scenario order "applesauce" (host_at 143 195 131 17) "hs_router" (rd 81%nat);
  _ ← scenario order "cherrypie" (host_at 143 195 193 52) "hs_router" (rd 82%nat);
  _ ← scenario order "cherrypie" (host_at 143 195 223 255) "hs_router" (rd 83%nat);
  scenario order "cherrypie" (host_at 143 195 224 0) "default_router" (rd 84%nat).

Definition network_simulator (rd : nat -> Z) (order : list string) : res unit * Network :=
  (_ ← routed_scenarios rd order;
   dm43 ← find_host "dm43";
   _ ← scenario order "dm42" (ho_my_address dm43) "dm43" (rd 85%nat);
   _ ← lost_scenario order "applesauce" (host_at 1 2 3 4) 1 (rd 86%nat);
   lost_scenario order "applesauce" (host_at 1 2 3 4) 0 (rd 87%nat)) (Network_new rd).

Definition demo_rd (i : nat) : Z := (Z.of_nat i * 2654435761 + 12345) mod W32.
Definition all_hosts : list string := ["applesauce"; "default_router"; "cherrypie"; "hs_router"; "dm42"; "dm43"].

(** The addresses drawn at random are valid. *)
Lemma host_address_valid rd k : EthernetAddress_valid (random_host_ethernet_address rd k).
Proof. split; [done|]. repeat (constructor; [apply u8_range|]). constructor. Qed.

Lemma router_address_valid rd k : EthernetAddress_valid (random_router_ethernet_address rd k).
Proof. split; [done|]. repeat (constructor; [lia || apply u8_range|]). constructor. Qed.

(** ** Exchanging frames *)

Lemma clear_prefix {T} (q r : list T) : clear q (q ++ r) = Ok r.
Proof. by induction q. Qed.

(** Both sides get what was queued when the exchange began; what that makes them queue
    waits for the next one. *)
Lemma exchange_spec x y x1 y1 fx fy : deliver (frames_of y) x = (Ok tt, x1) -> deliver (frames_of x) y = (Ok tt, y1) ->
  frames_of x1 = frames_of x ++ fx -> frames_of y1 = frames_of y ++ fy ->
  exchange_frames (x, y) = (Ok tt, (set_frames fx x1, set_frames fy y1)).
Proof.
  intros Ex Ey Fx Fy. unfold exchange_frames. mrun. erewrite run_zoom by exact Ey. erewrite run_zoom by exact Ex. cbn [fst snd].
  erewrite run_zoom by (cbn [fst]; unfold clear_frames; mrun; unfold id; rewrite Fx, clear_prefix; mrun; reflexivity).
  unfold zoom. cbn [fst snd]. unfold clear_frames. mrun. unfold id. by rewrite Fy, clear_prefix.
Qed.

(** The sender's position on the link. *)
Definition orient {T} (first : bool) (x y : T) : T * T := if first then (x, y) else (y, x).

Lemma exchange_oriented first x y x1 y1 fx fy : deliver (frames_of y) x = (Ok tt, x1) -> deliver (frames_of x) y = (Ok tt, y1) ->
  frames_of x1 = frames_of x ++ fx -> frames_of y1 = frames_of y ++ fy ->
  exchange_frames (orient first x y) = (Ok tt, orient first (set_frames fx x1) (set_frames fy y1)).
Proof. intros. destruct first; by apply exchange_spec. Qed.

Fixpoint exchange_rounds (rounds : nat) : method (AsyncNetworkInterface * AsyncNetworkInterface) unit :=
  match rounds with O => mret tt | S n => _ ← exchange_frames; exchange_rounds n end.

(** A frame as [deliver] passes it on. *)
Definition rewrapped (f : EthernetFrame) : EthernetFrame :=
  mkEthernetFrame (ef_header f) (BufferList_of_string (BufferList_concatenate (ef_payload f))).

Lemma deliver_one f i o s : recv_frame (rewrapped f) (ai_interface i) = (Ok o, s) ->
  deliver [f] i = (Ok tt, mkAsync s (match o with Some d => ai_datagrams_out i ++ [d] | None => ai_datagrams_out i end)).
Proof.
  intros E. cbn [deliver]. fold (rewrapped f). unfold AsyncNetworkInterface_recv_frame, on_base.
  unfold mbind, method_bind. rewrite E. by destruct o.
Qed.

(** What [deliver] hands to the interface parses as what the frame holds. *)
Lemma rewrapped_buffer f : zlen (BufferList_concatenate (ef_payload f)) + 14 < W64 ->
  exists b, rewrapped f = mkEthernetFrame (ef_header f) [b] /\ Buffer_wf b /\ Buffer_str b = BufferList_concatenate (ef_payload f).
Proof. intros H. eexists. split; [reflexivity|]. split; [apply Buffer_wf_of_string; lia|apply Buffer_str_of_string]. Qed.

(** ** Host::check *)

(** The datagrams the host has received and those it expects, as bytes. *)
Definition all_serialized (l : list InternetDatagram) (bs : list bytes) : Prop := Forall2 (fun d b => serialized d = Ok b) l bs.

Lemma expecting_spec d b l bs : serialized d = Ok b -> all_serialized l bs -> expecting d l = Ok (bool_decide (b ∈ bs)).
Proof.
  intros Ed H. induction H as [|x c l bs Hx H IH]; [done|]. cbn [expecting]. rewrite Hx, Ed, !res_bind_Ok.
  destruct (bool_decide_reflect (c = b)) as [->|Hc].
  - by rewrite bool_decide_eq_true_2 by left.
  - rewrite IH. f_equal. apply bool_decide_ext. rewrite elem_of_cons. split; [by right|]. by intros [->|?].
Qed.

(** The first expectation with the same bytes is removed. *)
Lemma remove_spec d b l bs : serialized d = Ok b -> all_serialized l bs -> b ∈ bs ->
  exists l' bs', remove_expectation d l = Ok l' /\ all_serialized l' bs' /\ bs ≡ₚ b :: bs'.
Proof.
  intros Ed H. induction H as [|x c l bs Hx H IH]; intros Hin; [by apply elem_of_nil in Hin|].
  cbn [remove_expectation]. rewrite Hx, Ed, !res_bind_Ok. case_bool_decide as Hc.
  - subst. by exists l, bs.
  - apply elem_of_cons in Hin as [->|Hin]; [done|]. destruct (IH Hin) as (l' & bs' & -> & Hs & Hp).
    exists (x :: l'), (c :: bs'). split; [done|]. split; [by constructor|]. rewrite Hp. apply Permutation_swap.
Qed.

(** The loop takes one expectation for each datagram received, or throws at the first
    for which there is none. *)
Lemma check_loop_spec received : forall fuel h bs es, (length received < fuel)%nat -> ai_datagrams_out (ho_interface h) = received ->
  all_serialized received bs -> all_serialized (ho_expecting_to_receive h) es ->
  match check_loop fuel h with
  | (Ok _, h') => exists rest, es ≡ₚ bs ++ rest /\ all_serialized (ho_expecting_to_receive h') rest
  | (Throw (runtime_error _), _) => forall rest, ~ es ≡ₚ bs ++ rest
  | _ => False
  end.
Proof.
  induction received as [|d received IH]; intros [|fuel] h bs es Hf Er Hr He; try (simpl in Hf; lia);
    inversion Hr as [|? b ? bs' Hd Hr']; subst; cbn [check_loop]; mrun; rewrite Er; [by exists es|].
  mrun. rewrite (expecting_spec d b _ _ Hd He). mrun. case_bool_decide as Hin; cbn [negb].
  - mrun. destruct (remove_spec d b _ _ Hd He Hin) as (l' & es' & El & He' & Hp). rewrite El. mrun.
    set (h1 := ho_set_interface (pop_received (ho_interface (ho_set_expecting l' h))) (ho_set_expecting l' h)).
    assert (E1 : ai_datagrams_out (ho_interface h1) = received) by (simpl; by rewrite Er).
    specialize (IH fuel h1 bs' es' ltac:(simpl in Hf; lia) E1 Hr' He'). destruct (check_loop fuel h1) as [[|[]|] h']; try done.
    + destruct IH as (rest & Hes & Hrest). exists rest. split; [|done]. by rewrite Hp, Hes.
    + intros rest Hes. apply (IH rest). apply (Permutation_cons_inv (a := b)). by rewrite <- Hp.
  - intros rest Hes. apply Hin. rewrite Hes. left.
Qed.

(** C31: [Host::check] decides whether the host got exactly what it expected: it returns if the
    datagrams received are, as bytes and in whatever order, the expected ones, each as often
    as expected, and throws a [runtime_error] otherwise. *)
Theorem host_check_correct h bs es : all_serialized (ai_datagrams_out (ho_interface h)) bs ->
  all_serialized (ho_expecting_to_receive h) es ->
  match fst (Host_check h) with
  | Ok _ => bs ≡ₚ es
  | Throw (runtime_error _) => ~ bs ≡ₚ es
  | _ => False
  end.
Proof.
  intros Hr He. unfold Host_check. mrun. pose proof (check_loop_spec _ _ h bs es (Nat.lt_succ_diag_r _) eq_refl Hr He) as H.
  unfold mbind, method_bind. destruct (check_loop _ h) as [[u|[]|] h']; try done.
  - destruct H as (rest & Hp & Hs). cbn [gets]. unfold gets. destruct (ho_expecting_to_receive h'); inversion Hs; subst; cbn.
    + by rewrite Hp, app_nil_r.
    + intros Hq. rewrite Hq in Hp. apply Permutation_length in Hp. rewrite length_app in Hp. simpl in Hp. lia.
  - cbn. intros Hp. apply (H []). by rewrite app_nil_r.
Qed.

(** A host that got the datagram it expected. *)
Definition served_host : Host :=
  mkHost "host" (host_at 10 0 0 2) (mkAsync (NetworkInterface_new [2; 0; 0; 0; 0; 1] (host_at 10 0 0 2)) [host_datagram 1 2 63 7])
    (host_at 10 0 0 1) [host_datagram 1 2 63 7].

Lemma host_check_correct_witness : exists b : bytes, match fst (Host_check served_host) with
  | Ok _ => [b] ≡ₚ [b] | Throw (runtime_error _) => ~ [b] ≡ₚ [b] | _ => False end.
Proof.
  assert (H : exists b, serialized (host_datagram 1 2 63 7) = Ok b) by (eexists; vm_compute; reflexivity).
  destruct H as [b Hb]. exists b. apply (host_check_correct served_host [b] [b]); (constructor; [exact Hb|constructor]).
Defined.

(** ** A link delivers *)

(** [n] exchanges in which [x] and [y] become [x'] and [y'], whichever side [x] is on; no
    datagram is received before the last. *)
Inductive rounds : nat -> AsyncNetworkInterface -> AsyncNetworkInterface -> AsyncNetworkInterface -> AsyncNetworkInterface -> Prop :=
| rounds_done x y : rounds 0 x y x y
| rounds_step n x y x1 y1 x' y' :
    (forall first, exchange_frames (orient first x y) = (Ok tt, orient first x1 y1)) ->
    (n <> 0%nat -> ai_datagrams_out x1 = ai_datagrams_out x /\ ai_datagrams_out y1 = ai_datagrams_out y) ->
    rounds n x1 y1 x' y' -> rounds (S n) x y x' y'.

Lemma rounds_exchange n x y x1 y1 fx fy x' y' : deliver (frames_of y) x = (Ok tt, x1) -> deliver (frames_of x) y = (Ok tt, y1) ->
  frames_of x1 = frames_of x ++ fx -> frames_of y1 = frames_of y ++ fy ->
  (n <> 0%nat -> ai_datagrams_out x1 = ai_datagrams_out x /\ ai_datagrams_out y1 = ai_datagrams_out y) ->
  rounds n (set_frames fx x1) (set_frames fy y1) x' y' -> rounds (S n) x y x' y'.
Proof.
  intros Ex Ey Fx Fy Hq. apply rounds_step; [|done]. intros first. by apply exchange_oriented.
Qed.

Lemma rounds_run n x y x' y' first : rounds n x y x' y' -> exchange_rounds n (orient first x y) = (Ok tt, orient first x' y').
Proof. induction 1 as [|n x y x1 y1 x' y' E _ _ IH]; [done|]. cbn [exchange_rounds]. by erewrite run_bind by apply E. Qed.

(** Only the frame queue differs. *)
Lemma ni_inv_frames l s : ni_inv s -> ni_inv (ni_set_frames l s).
Proof. intros []. by split. Qed.

(** [x] and [y] share a link: an interface that is waiting for nothing. *)
Record quiet (x : AsyncNetworkInterface) (ip : Z) : Prop := {
  qt_inv : ni_inv (ai_interface x);
  qt_ip : ipv4_numeric (ni_ip_address (ai_interface x)) = Ok ip;
  qt_frames : frames_of x = [];
  qt_pending : ni_waiting_arp_response_ip_addr (ai_interface x) = ∅
}.

(** A frame with a datagram for [y] is received in one round. *)
Lemma frame_delivers x y s fr d : ni_inv (ai_interface y) -> carries s (ni_ethernet_address (ai_interface y)) d fr -> datagram_valid d ->
  frames_of x = [fr] -> frames_of y = [] ->
  exists d', rounds 1 x y (set_frames [] x) (mkAsync (ai_interface y) (ai_datagrams_out y ++ [d'])) /\ arrives d d'.
Proof.
  intros Iy Hfr Vd Fx Fy. destruct (datagram_payload _ _ _ _ Hfr Vd) as (Eh & Hl & v & Hv & Hp).
  destruct (rewrapped_buffer fr Hl) as (b & Er & Wb & Sb). destruct (Hp b Wb Sb) as (d' & Ep & Hh & Hw & Hpl).
  exists d'. split; [|by exists v]. rewrite Eh in Er.
  pose proof (recv_ipv4 (ai_interface y) _ (ni_ethernet_address s) b d' Iy Wb Ep (or_introl eq_refl)) as E. rewrite <- Er in E.
  assert (Hset : set_frames [] (mkAsync (ai_interface y) (ai_datagrams_out y ++ [d'])) = mkAsync (ai_interface y) (ai_datagrams_out y ++ [d'])).
  { unfold set_frames. cbn. unfold frames_of in Fy. by destruct (ai_interface y); cbn in Fy; subst. }
  eapply (rounds_exchange 0 x y x _ [] []); [rewrite Fy; reflexivity|rewrite Fx; by apply deliver_one|..].
  - by rewrite app_nil_r.
  - by rewrite Fy.
  - done.
  - cbv beta iota. rewrite Hset. apply rounds_done.
Qed.

(** The ARP table has at most gained the entry for [ip]. *)
Definition learns (s : NetworkInterface) (ip : Z) (eth : EthernetAddress) (s' : NetworkInterface) : Prop :=
  forall k e, ni_arp_table s' !! k = Some e -> ni_arp_table s !! k = Some e \/ (k = ip /\ ae_eth_addr e = eth).

Lemma learns_same s s' ip eth : ni_arp_table s' = ni_arp_table s -> learns s ip eth s'.
Proof. intros H k e. rewrite H. by left. Qed.

Lemma learns_insert s s' ip eth : ni_arp_table s' = <[ip := mkARP_Entry eth 30000]> (ni_arp_table s) -> learns s ip eth s'.
Proof.
  intros H k e. rewrite H. destruct (decide (ip = k)) as [<-|]; [rewrite lookup_insert_eq; intros [= <-]; by right|].
  rewrite lookup_insert_ne by done. by left.
Qed.

Section Resolution.
Context (x y : AsyncNetworkInterface) (ipx ipy : Z) (next_hop : Address) (d : InternetDatagram).
Context (Qx : quiet x ipx) (Qy : quiet y ipy) (Hhop : ipv4_numeric next_hop = Ok ipy) (Vd : datagram_valid d).

(** The states of the two sides afterwards: the sender knows the receiver and conversely, both are
    quiet again, and the datagram is in the receiver's queue. *)
Record link_done (x' y' : AsyncNetworkInterface) : Prop := {
  ld_x : quiet x' ipx;
  ld_y : quiet y' ipy;
  ld_nic_x : same_nic (ai_interface x) (ai_interface x');
  ld_nic_y : same_nic (ai_interface y) (ai_interface y');
  ld_sent : ai_datagrams_out x' = ai_datagrams_out x;
  ld_received : exists d', ai_datagrams_out y' = ai_datagrams_out y ++ [d'] /\ arrives d d';
  ld_table_x : learns (ai_interface x) ipy (ni_ethernet_address (ai_interface y)) (ai_interface x');
  ld_table_y : learns (ai_interface y) ipx (ni_ethernet_address (ai_interface x)) (ai_interface y')
}.

Lemma quiet_frames z ip : quiet z ip -> set_frames [] z = z.
Proof. intros [_ _ F _]. destruct z as [[] q]. unfold frames_of in F. cbn in F. by subst. Qed.

Lemma serializes : exists bl, IPv4Datagram_serialize d = Ok bl.
Proof. destruct (IPv4Datagram_serialize_ok d Vd) as (v & _ & _ & E). by eexists. Qed.

(** The sender already knows the receiver's Ethernet address. *)
Lemma link_delivers_known e : ni_arp_table (ai_interface x) !! ipy = Some e ->
  ae_eth_addr e = ni_ethernet_address (ai_interface y) ->
  exists x1 x' y', on_base (send_datagram d next_hop) x = (Ok tt, x1) /\ rounds 1 x1 y x' y' /\ link_done x' y'.
Proof.
  intros Ht He. destruct serializes as [bl Ed].
  destruct (send_datagram_spec _ d next_hop ipy _ (qt_inv _ _ Qx) Hhop Ed) as (s1 & E1 & S1 & I1).
  unfold sent in S1. rewrite Ht in S1. destruct S1 as (fr & Hfr & ->). rewrite He in Hfr.
  set (x1 := mkAsync (ni_push_frame fr (ai_interface x)) (ai_datagrams_out x)).
  destruct (frame_delivers x1 y (ai_interface x) fr d (qt_inv _ _ Qy) Hfr Vd) as (d' & Hr & Ha).
  { unfold x1, frames_of. cbn. pose proof (qt_frames _ _ Qx) as F. unfold frames_of in F. by rewrite F. }
  { apply Qy. }
  exists x1, (set_frames [] x1), (mkAsync (ai_interface y) (ai_datagrams_out y ++ [d'])).
  split; [unfold on_base; by rewrite E1|]. split; [exact Hr|].
  split; try done.
  - destruct Qx. split; try done. by apply (ni_inv_frames []) in I1.
  - by destruct Qy.
  - by exists d'.
  - by apply learns_same.
  - by apply learns_same.
Qed.

(** The sender has to ask for it first. *)
Lemma link_delivers_unknown : ni_arp_table (ai_interface x) !! ipy = None ->
  exists x1 x' y', on_base (send_datagram d next_hop) x = (Ok tt, x1) /\ rounds 3 x1 y x' y' /\ link_done x' y'.
Proof.
  intros Ht. pose proof Qx as [Ix Ex Fx Px]. pose proof Qy as [Iy Ey Fy Py]. unfold frames_of in Fx, Fy.
  pose proof (ipv4_numeric_range _ _ Ex). pose proof (ipv4_numeric_range _ _ Ey).
  destruct (resolution_asks (ai_interface x) ipx ipy next_hop d Ix Ex Hhop Ht) as (s1 & req & E1 & I1 & [N1 M1] & F1 & Hreq & Hm & T1 & P1);
    [by rewrite Px|apply serializes|]. rewrite Fx in F1.
  (* the request reaches the receiver *)
  destruct (arp_payload _ _ _ _ Hreq) as (Eh1 & Hl1 & Hp1); [by apply request_valid|].
  destruct (rewrapped_buffer req Hl1) as (b1 & Er1 & W1 & S1). rewrite Eh1 in Er1.
  destruct (resolution_answers (ai_interface x) (ai_interface y) ipx ipy b1 Iy Ey W1 (Hp1 b1 W1 S1))
    as (t1 & rep & more & E2 & J1 & [N2 M2] & F2 & Hrep & T2 & P2 & Hmore).
  rewrite Hmore in F2 by (by rewrite Py). rewrite Fy in F2. rewrite <- Er1 in E2.
  (* the answer reaches the sender *)
  destruct (arp_payload _ _ _ _ Hrep) as (Eh2 & Hl2 & Hp2); [apply answer_valid; [done|apply Ix|done..]|].
  destruct (rewrapped_buffer rep Hl2) as (b2 & Er2 & W2 & S2). rewrite Eh2, <- N1 in Er2.
  specialize (Hp2 b2 W2 S2). rewrite <- N1 in Hp2.
  destruct (resolution_releases (ni_set_frames [] s1) (ai_interface y) ipx ipy b2 d (ni_inv_frames [] _ I1) W2 Hp2 Hm)
    as (s2 & fr & E3 & I2 & [N3 M3] & F3 & Hfr & T3 & P3 & _).
  change (ni_ethernet_address (ni_set_frames [] s1)) with (ni_ethernet_address s1) in E3. rewrite <- Er2 in E3.
  (* the datagram reaches the receiver *)
  set (x2 := mkAsync (ni_set_frames [fr] s2) (ai_datagrams_out x)). set (y2 := mkAsync (ni_set_frames [] t1) (ai_datagrams_out y)).
  destruct (frame_delivers x2 y2 (ni_set_frames [] s1) fr d (ni_inv_frames [] _ J1)) as (d' & Hr & Ha);
    [by simpl; rewrite N2|done|done|done|].
  exists (mkAsync s1 (ai_datagrams_out x)), (set_frames [] x2), (mkAsync (ai_interface y2) (ai_datagrams_out y2 ++ [d'])).
  split; [unfold on_base; by rewrite E1|]. split.
  - eapply (rounds_exchange 2 _ _ (mkAsync s1 (ai_datagrams_out x)) (mkAsync t1 (ai_datagrams_out y)) [] [rep]);
      [unfold frames_of; rewrite Fy; reflexivity|unfold frames_of; simpl; rewrite F1; apply (deliver_one req _ None), E2| | | |].
    + by rewrite app_nil_r.
    + unfold frames_of. simpl. by rewrite Fy.
    + done.
    + eapply (rounds_exchange 1 _ _ (mkAsync s2 (ai_datagrams_out x)) (mkAsync (ni_set_frames [rep] t1) (ai_datagrams_out y)) [fr] []);
        [exact (deliver_one rep (set_frames [] (mkAsync s1 (ai_datagrams_out x))) None s2 E3)|reflexivity| | |done|exact Hr].
      * unfold frames_of. simpl. by rewrite F3.
      * by rewrite app_nil_r.
  - split; try done.
    + split; [by do 2 apply ni_inv_frames|cbn; by rewrite M3; simpl; rewrite M1|done|]. cbn. rewrite P3. cbn. rewrite P1, Px. by rewrite delete_insert_id.
    + split; [by apply ni_inv_frames|cbn; by rewrite M2|done|]. cbn. by rewrite P2, Py, delete_empty.
    + split; cbn; [by rewrite N3|by rewrite M3].
    + by exists d'.
    + apply learns_insert. cbn. rewrite T3. cbn. by rewrite T1.
    + by apply learns_insert.
Qed.

(** Known or not, a datagram for the other side of the link is there after three rounds
    at most. *)
Lemma link_delivers : (forall e, ni_arp_table (ai_interface x) !! ipy = Some e -> ae_eth_addr e = ni_ethernet_address (ai_interface y)) ->
  exists k x1 x' y', (0 < k <= 3)%nat /\ on_base (send_datagram d next_hop) x = (Ok tt, x1) /\ ai_datagrams_out x1 = ai_datagrams_out x /\
    rounds k x1 y x' y' /\ link_done x' y'.
Proof.
  intros Hright. assert (Hq : forall x1, on_base (send_datagram d next_hop) x = (Ok tt, x1) -> ai_datagrams_out x1 = ai_datagrams_out x)
    by (intros x1; unfold on_base; destruct (send_datagram d next_hop (ai_interface x)); by intros [= _ <-]).
  destruct (ni_arp_table (ai_interface x) !! ipy) as [e|] eqn:Et.
  - destruct (link_delivers_known e Et (Hright e eq_refl)) as (x1 & x' & y' & E & H & D). exists 1%nat, x1, x', y'. auto with lia.
  - destruct (link_delivers_unknown Et) as (x1 & x' & y' & E & H & D). exists 3%nat, x1, x', y'. auto with lia.
Qed.
End Resolution.
