(* ===== verification/Delivery.v ===== *)
(** * The simulated network delivers

    In the network of [apps/network_simulator.cc], at rest and with whatever the hosts have
    learned of each other's Ethernet addresses, a datagram from one host to another on a
    different link of the router arrives, in any of the simulator's scenarios and whatever
    the random numbers are. *)

From S2P Require Import Prelude WrappingInts Buffers Checksum Parser TCPSegments IPv4 Ethernet Addresses Interface Router Simulator.

(** ** One link *)

Definition at_link (n : Network) (i : Z) (name : string) (x y : AsyncNetworkInterface) : Prop :=
  znth (ro_interfaces (nw_router n)) i = Some x /\
  exists h, nw_hosts n !! name = Some h /\ ho_name h = name /\ ho_interface h = y.

Definition set_link (i : Z) (name : string) (x y : AsyncNetworkInterface) (n : Network) : Network :=
  put_host name y (put_interface i x n).

Lemma znth_Some {T} (l : list T) i x : znth l i = Some x <-> 0 <= i /\ l !! Z.to_nat i = Some x.
Proof. unfold znth. destruct (Z.ltb_spec i 0); [split; [done|lia]|]. by split; [|intros [_ ?]]. Qed.

Lemma find_host_at n name h : nw_hosts n !! name = Some h -> ho_name h = name -> find_host name n = (Ok h, n).
Proof. intros E Eh. unfold find_host. mrun. rewrite E. by rewrite bool_decide_eq_true_2. Qed.

Lemma link_runs n i name x y x' y' : at_link n i name x y -> exchange_frames (x, y) = (Ok tt, (x', y')) ->
  link i name n = (Ok tt, set_link i name x' y' n).
Proof.
  intros (Ex & h & Eh & Hn & <-) E. unfold link, router_interface.
  erewrite run_bind by (mrun; unfold Router_interface; rewrite Ex; reflexivity).
  erewrite run_bind by (by apply find_host_at). by rewrite E.
Qed.

Lemma network_eta n : nw_set_hosts (nw_hosts n) n = n.
Proof. by destruct n. Qed.

Lemma put_interface_same n i x : znth (ro_interfaces (nw_router n)) i = Some x -> put_interface i x n = n.
Proof.
  intros Ex. apply znth_Some in Ex as [_ Ex]. unfold put_interface, set_interface. rewrite list_insert_id by done. by destruct n as [[] ].
Qed.

Lemma put_host_same n name h : nw_hosts n !! name = Some h -> put_host name (ho_interface h) n = n.
Proof.
  intros Eh. unfold put_host. rewrite <- (network_eta n) at 3. f_equal. apply map_eq. intros k.
  destruct (decide (name = k)) as [<-|]; [|by rewrite lookup_alter_ne]. rewrite lookup_alter_eq, Eh. by destruct h.
Qed.

Lemma set_link_same n i name x y : at_link n i name x y -> set_link i name x y n = n.
Proof. intros (Ex & h & Eh & _ & <-). unfold set_link. rewrite put_interface_same by done. by apply put_host_same. Qed.

Lemma at_link_set n i name x y x' y' : at_link n i name x y -> at_link (set_link i name x' y' n) i name x' y'.
Proof.
  intros (Ex & h & Eh & Hn & _). apply znth_Some in Ex as [Hi Ex]. split.
  - apply znth_Some. split; [done|]. cbn. rewrite list_lookup_insert_eq; [done|]. by eapply lookup_lt_Some.
  - exists (ho_set_interface y' h). split; [|done]. cbn. by rewrite lookup_alter_eq, Eh.
Qed.

Lemma at_link_set_ne n i name j name2 x y x2 y2 : i <> j -> name <> name2 -> 0 <= i ->
  at_link n j name2 x2 y2 -> at_link (set_link i name x y n) j name2 x2 y2.
Proof.
  intros Hij Hn Hi (Ex & h & Eh & Hh & Hy). apply znth_Some in Ex as [Hj Ex]. split.
  - apply znth_Some. split; [done|]. cbn. rewrite list_lookup_insert_ne; [done|]. intros E. apply Hij. lia.
  - exists h. split; [|done]. cbn. by rewrite lookup_alter_ne.
Qed.

Lemma set_link_set n i name x y x' y' : set_link i name x' y' (set_link i name x y n) = set_link i name x' y' n.
Proof.
  unfold set_link, put_host, put_interface, set_interface. destruct n as [[] ]. cbn. unfold nw_set_hosts, nw_set_router. cbn.
  rewrite list_insert_insert_eq. f_equal.
  apply map_eq. intros k. destruct (decide (name = k)) as [<-|]; [|by rewrite !lookup_alter_ne].
  rewrite !lookup_alter_eq. by destruct (_ !! _).
Qed.

Lemma exchange_idle x y : frames_of x = [] -> frames_of y = [] -> exchange_frames (x, y) = (Ok tt, (x, y)).
Proof.
  intros Fx Fy. rewrite (exchange_spec x y x y [] []); [|by rewrite Fy|by rewrite Fx|by rewrite app_nil_r|by rewrite app_nil_r].
  destruct x as [[] ?], y as [[] ?]. unfold frames_of in *. cbn in *. by subst.
Qed.

Definition idle_link (n : Network) (l : Z * string) : Prop :=
  exists x y, at_link n (fst l) (snd l) x y /\ frames_of x = [] /\ frames_of y = [].

Lemma link_idle n i name : idle_link n (i, name) -> link i name n = (Ok tt, n).
Proof.
  intros (x & y & Hat & Fx & Fy). rewrite (link_runs n i name x y x y Hat) by (by apply exchange_idle).
  by rewrite set_link_same.
Qed.

Lemma run_links_idle l n : Forall (idle_link n) l -> run_links l n = (Ok tt, n).
Proof.
  induction 1 as [|[i name] l Hi _ IH]; [done|]. cbn [run_links]. by erewrite run_bind by (by apply link_idle).
Qed.

Lemma idle_link_set n i name x y l : 0 <= i -> i <> fst l -> name <> snd l -> idle_link n l -> idle_link (set_link i name x y n) l.
Proof. intros Hi H1 H2 (x2 & y2 & Hat & F). exists x2, y2. split; [|done]. by apply at_link_set_ne. Qed.

(** The links apart from the one to [name]. *)
Definition other_than (i : Z) (name : string) (l : Z * string) : Prop := i <> fst l /\ name <> snd l.

Lemma run_links_active l1 l2 n i name x y x' y' : at_link n i name x y -> exchange_frames (x, y) = (Ok tt, (x', y')) ->
  Forall (idle_link n) (l1 ++ l2) -> Forall (other_than i name) (l1 ++ l2) ->
  run_links (l1 ++ (i, name) :: l2) n = (Ok tt, set_link i name x' y' n).
Proof.
  intros Hat E Hidle Hother. apply Forall_app in Hidle as [Hi1 Hi2]. apply Forall_app in Hother as [Ho1 Ho2].
  induction l1 as [|[j name2] l1 IH]; cbn [run_links app].
  - erewrite run_bind by (by eapply link_runs). apply run_links_idle. apply Forall_forall. intros l Hl.
    rewrite Forall_forall in Hi2, Ho2. destruct (Ho2 l Hl). apply idle_link_set; [|done|done|by apply Hi2].
    destruct Hat as [Hz _]. by apply znth_Some in Hz as [? _].
  - apply Forall_cons in Hi1 as [Hj Hi1], Ho1 as [_ Ho1]. erewrite run_bind by (by apply link_idle). by apply IH.
Qed.

(** The link with two hosts, with nothing on it. *)
Definition idle_link3 (n : Network) : Prop :=
  exists x h1 h2, znth (ro_interfaces (nw_router n)) (nw_uun3_id n) = Some x /\ frames_of x = [] /\
    nw_hosts n !! "dm42"%string = Some h1 /\ ho_name h1 = "dm42"%string /\ frames_of (ho_interface h1) = [] /\
    nw_hosts n !! "dm43"%string = Some h2 /\ ho_name h2 = "dm43"%string /\ frames_of (ho_interface h2) = [].

Lemma exchange3_idle x y z : frames_of x = [] -> frames_of y = [] -> frames_of z = [] ->
  exchange_frames3 (x, (y, z)) = (Ok tt, (x, (y, z))).
Proof.
  destruct x as [[] ?], y as [[] ?], z as [[] ?]. unfold frames_of. cbn. intros -> -> ->. reflexivity.
Qed.

Lemma link3_idle n : idle_link3 n -> link3 (nw_uun3_id n) "dm42" "dm43" n = (Ok tt, n).
Proof.
  intros (x & h1 & h2 & Ex & Fx & E1 & N1 & F1 & E2 & N2 & F2). unfold link3, router_interface.
  erewrite run_bind by (mrun; unfold Router_interface; rewrite Ex; reflexivity).
  erewrite run_bind by (by apply find_host_at). erewrite run_bind by (by apply find_host_at).
  rewrite exchange3_idle by done. rewrite put_interface_same by done. rewrite (put_host_same n "dm42" h1) by done.
  by rewrite put_host_same.
Qed.

(** ** The router *)

Definition no_queue (a : AsyncNetworkInterface) : Prop := ai_datagrams_out a = [].

Lemma route_from_idle l r : (forall i a, i ∈ l -> ro_interfaces r !! i = Some a -> no_queue a) -> route_from l r = (Ok tt, r).
Proof.
  induction l as [|i l IH]; intros H; [done|]. cbn [route_from]. erewrite run_bind; [apply IH; intros k a Hk; apply H; by right|].
  cbn [route_queue]. destruct (ro_interfaces r !! i) as [a|] eqn:E; [|done]. by rewrite (H i a (list_elem_of_here i l) E).
Qed.

Lemma route_idle r : Forall no_queue (ro_interfaces r) -> route r = (Ok tt, r).
Proof. intros H. apply route_from_idle. intros i a _ E. by apply (Forall_lookup_1 _ _ _ _ H E). Qed.

(** One datagram [d] waits, at interface [i]; forwarding it goes through interface [j]. *)
Lemma route_single r i j x xj xj1 d d' : ro_interfaces r !! i = Some x -> ai_datagrams_out x = [d] ->
  (forall k a, k <> i -> ro_interfaces r !! k = Some a -> no_queue a) ->
  ro_interfaces r !! j = Some xj -> i <> j -> no_queue xj1 ->
  route_one_datagram d r = (Ok tt, mkRouter (<[j := xj1]> (ro_interfaces r)) (ro_route_table r), d') ->
  route r = (Ok tt, mkRouter (<[j := xj1]> (<[i := mkAsync (ai_interface x) []]> (ro_interfaces r))) (ro_route_table r)).
Proof.
  intros Ei Eq Hother Ej Hij Hq E. set (r' := mkRouter _ _).
  assert (Hlen : (i < length (ro_interfaces r))%nat) by (by eapply lookup_lt_Some).
  assert (Hjlen : (j < length (ro_interfaces r))%nat) by (by eapply lookup_lt_Some).
  assert (Hrest : forall k a, ro_interfaces r' !! k = Some a -> no_queue a).
  { intros k a. cbn. destruct (decide (k = j)) as [->|Hkj].
    - rewrite list_lookup_insert_eq by (by rewrite length_insert). by intros [= <-].
    - rewrite list_lookup_insert_ne by done. destruct (decide (k = i)) as [->|Hki].
      + rewrite list_lookup_insert_eq by done. by intros [= <-].
      + rewrite list_lookup_insert_ne by done. by apply Hother. }
  assert (Hpop : route_queue 2 i r = (Ok tt, r')).
  { cbn [route_queue]. rewrite Ei, Eq, E. cbn [ro_interfaces ro_route_table].
    assert (Ha : alter (fun a => mkAsync (ai_interface a) (tail (ai_datagrams_out a))) i (<[j := xj1]> (ro_interfaces r))
      = <[j := xj1]> (<[i := mkAsync (ai_interface x) []]> (ro_interfaces r))).
    { apply list_eq. intros k. destruct (decide (k = i)) as [->|].
      - rewrite list_lookup_alter_eq, !list_lookup_insert_ne, list_lookup_insert_eq, Ei by done. simpl. by rewrite Eq.
      - rewrite list_lookup_alter_ne by done. destruct (decide (k = j)) as [->|].
        + rewrite !list_lookup_insert_eq by (by rewrite ?length_insert). done.
        + by rewrite !list_lookup_insert_ne by done. }
    rewrite Ha, list_lookup_insert_ne, list_lookup_insert_eq by done. reflexivity. }
  unfold route. assert (Hseq : seq 0 (length (ro_interfaces r)) = seq 0 i ++ i :: seq (S i) (length (ro_interfaces r) - S i)).
  { replace (length (ro_interfaces r)) with (i + S (length (ro_interfaces r) - S i))%nat at 1 by lia. by rewrite seq_app. }
  rewrite Hseq. assert (Hpre : forall k a, k ∈ seq 0 i -> ro_interfaces r !! k = Some a -> no_queue a).
  { intros k a Hk. apply Hother. apply elem_of_seq in Hk. lia. }
  revert Hpre. generalize (seq 0 i). intros l. induction l as [|k l IH]; intros Hpre; cbn [route_from app].
  - rewrite Ei, Eq. erewrite run_bind by exact Hpop. apply route_from_idle. intros k a _. apply Hrest.
  - erewrite run_bind; [apply IH; intros k' a Hk; apply Hpre; by right|].
    cbn [route_queue]. destruct (ro_interfaces r !! k) as [a|] eqn:Ek; [|done]. by rewrite (Hpre k a (list_elem_of_here k l) Ek).
Qed.

(** ** Rounds *)

(** Everything but the link [(i, name)] is idle. *)
Record surroundings (n : Network) (i : Z) (name : string) : Prop := {
  su_links : exists l1 l2, links n = l1 ++ (i, name) :: l2 /\ Forall (idle_link n) (l1 ++ l2) /\ Forall (other_than i name) (l1 ++ l2);
  su_link3 : idle_link3 n;
  su_id : 0 <= i /\ i <> nw_uun3_id n;
  su_name : name <> "dm42"%string /\ name <> "dm43"%string
}.

Lemma idle_link3_set n i name x y : 0 <= i /\ i <> nw_uun3_id n -> name <> "dm42"%string /\ name <> "dm43"%string ->
  idle_link3 n -> idle_link3 (set_link i name x y n).
Proof.
  intros [Hi Hne] [H42 H43] (x3 & h1 & h2 & Ex & Fx & E1 & N1 & F1 & E2 & N2 & F2). exists x3, h1, h2.
  apply znth_Some in Ex as [Hu Ex]. split.
  - apply znth_Some. split; [done|]. cbn. rewrite list_lookup_insert_ne; [done|]. intros E. apply Hne. cbn in Hu. lia.
  - cbn. by rewrite !lookup_alter_ne.
Qed.

Lemma surroundings_set n i name x y : surroundings n i name -> surroundings (set_link i name x y n) i name.
Proof.
  intros [(l1 & l2 & El & Hidle & Hother) H3 Hi Hn]. split; try done; [|by apply idle_link3_set].
  exists l1, l2. split; [done|]. split; [|done]. rewrite Forall_forall in *. intros l Hl. destruct (Hother l Hl).
  apply idle_link_set; [apply Hi|done|done|by apply Hidle].
Qed.

Definition queues_empty (n : Network) : Prop := Forall no_queue (ro_interfaces (nw_router n)).

Lemma queues_empty_set n i name x y : queues_empty n -> no_queue x -> queues_empty (set_link i name x y n).
Proof. intros H Hx. unfold queues_empty. cbn. by apply Forall_insert. Qed.

(** One round with one busy link. *)
Lemma active_round n k i name x y x' y' : surroundings n i name -> at_link n i name x y -> queues_empty n ->
  exchange_frames (x, y) = (Ok tt, (x', y')) ->
  simulate_rounds (S k) n = simulate_rounds k (set_link i name x' y' n).
Proof.
  intros S Hat Hq E. pose proof (surroundings_set n i name x' y' S) as [_ H3 _ _]. destruct S as [(l1 & l2 & El & Hidle & Hother) _ _ _].
  cbn [simulate_rounds]. erewrite run_zoom by (by apply route_idle).
  assert (Hn : nw_set_router (nw_router n) n = n) by by destruct n. rewrite Hn.
  erewrite run_bind; [reflexivity|]. unfold simulate_physical_connections. mrun. unfold id. rewrite El.
  erewrite run_bind by (by eapply run_links_active). exact (link3_idle (set_link i name x' y' n) H3).
Qed.

Definition router_side {T} (first : bool) (s t : T) : T := if first then s else t.
Definition host_side {T} (first : bool) (s t : T) : T := if first then t else s.

Lemma orient_sides {T} first (s t : T) : orient first s t = (router_side first s t, host_side first s t).
Proof. by destruct first. Qed.

(** Rounds on one link, [s] sending; the sender is at the router if [first]. *)
Lemma active_rounds first k s t s' t' : rounds k s t s' t' -> forall n m i name, surroundings n i name ->
  at_link n i name (router_side first s t) (host_side first s t) -> queues_empty n ->
  simulate_rounds (k + m) n = simulate_rounds m (set_link i name (router_side first s' t') (host_side first s' t') n).
Proof.
  induction 1 as [s t|k s t s1 t1 s' t' E Hq H IH]; intros n m i name Hs Hat Hqn; [by rewrite set_link_same|].
  specialize (E first). rewrite !orient_sides in E. cbn [Nat.add]. rewrite (active_round n _ i name _ _ _ _ Hs Hat Hqn E).
  inversion H as [|k' ? ? ? ? ? ? _ _ _]; subst; [by rewrite Nat.add_0_l|].
  rewrite (IH (set_link i name (router_side first s1 t1) (host_side first s1 t1) n) m i name).
  - by rewrite set_link_set.
  - by apply surroundings_set.
  - by eapply at_link_set.
  - apply queues_empty_set; [done|]. destruct (Hq ltac:(done)) as [Q1 Q2]. destruct Hat as [Ex _]. apply znth_Some in Ex as [_ Ex].
    pose proof (Forall_lookup_1 _ _ _ _ Hqn Ex) as Hx. unfold no_queue in *. destruct first; cbn in *; congruence.
Qed.

(** ** Datagrams *)

Lemma pretty_length k : forall x s, (x < 10 ^ N.of_nat k)%N -> (String.length (pretty.pretty_N_go x s) <= k + String.length s)%nat.
Proof.
  induction k as [|k IH]; intros x s Hx.
  - change (10 ^ N.of_nat 0)%N with 1%N in Hx. assert (x = 0)%N as -> by lia. rewrite pretty.pretty_N_go_0. lia.
  - destruct (decide (x = 0)%N) as [->|Hne]; [rewrite pretty.pretty_N_go_0; lia|].
    rewrite pretty.pretty_N_go_step by lia. etrans; [apply IH|simpl; lia].
    apply N.Div0.div_lt_upper_bound. by rewrite <- N.pow_succ_r', <- Nat2N.inj_succ.
Qed.

Lemma length_string_bytes s : length (String.list_byte_of_string s) = String.length s.
Proof. unfold String.list_byte_of_string. rewrite length_map. induction s as [|c s IH]; [done|]. simpl. by rewrite IH. Qed.

Lemma length_string_app s1 s2 : String.length (s1 ++ s2) = (String.length s1 + String.length s2)%nat.
Proof. induction s1 as [|c s1 IH]; [done|]. simpl. by rewrite IH. Qed.

Lemma random_payload_short random : 0 <= random < W32 -> 0 <= zlen (random_payload random) <= 28.
Proof.
  intros H. split; [apply zlen_nonneg|]. unfold random_payload, zlen. rewrite length_string_bytes, !length_string_app.
  unfold pretty.pretty, pretty.pretty_N. cbn [String.length]. destruct (decide _); [simpl; lia|].
  pose proof (pretty_length 10 (Z.to_N random) "") as Hp. simpl in Hp. lia.
Qed.

Lemma host_datagram_valid src dst ttl random : 0 <= src < W32 -> 0 <= dst < W32 -> 0 <= ttl < 256 -> 0 <= random < W32 ->
  datagram_valid (host_datagram src dst ttl random).
Proof.
  intros Hs Hd Ht Hr. pose proof (random_payload_short random Hr) as Hp.
  assert (Hc : BufferList_concatenate (BufferList_of_string (random_payload random)) = random_payload random) by apply concatenate_of_string.
  assert (Hl : BufferList_size (BufferList_of_string (random_payload random)) = zlen (random_payload random))
    by (rewrite BufferList_size_spec; rewrite Hc; [done|lia]).
  unfold host_datagram. rewrite Hl. cbn [ip_hlen IPv4Header_default]. change (IPv4Header_LENGTH / 4 * 4) with 20.
  rewrite u16_id by lia. split; [|split].
  - split; cbn; first [lia | by vm_compute].
  - constructor; [apply Buffer_wf_of_string; lia|done].
  - change (20 + zlen (random_payload random) = 4 * 5 + zlen (BufferList_concatenate (BufferList_of_string (random_payload random)))).
    rewrite Hc. lia.
Qed.

(** The same datagram, but for the checksum field. *)
Definition same_datagram (d d' : InternetDatagram) : Prop :=
  ip_set_cksum (ipd_header d) 0 = ip_set_cksum (ipd_header d') 0 /\
  BufferList_concatenate (ipd_payload d) = BufferList_concatenate (ipd_payload d').

Lemma arrives_same d d' : arrives d d' -> same_datagram d d'.
Proof. intros (v & _ & Hh & _ & Hp). split; [by rewrite Hh|done]. Qed.

Lemma same_trans d1 d2 d3 : same_datagram d1 d2 -> same_datagram d2 d3 -> same_datagram d1 d3.
Proof. intros [H1 H2] [H3 H4]. split; congruence. Qed.

Lemma same_field {T} (g : IPv4Header -> T) d d' : (forall h v, g (ip_set_cksum h v) = g h) -> same_datagram d d' ->
  g (ipd_header d) = g (ipd_header d').
Proof. intros Hg [H _]. by rewrite <- (Hg (ipd_header d) 0), H, Hg. Qed.

Lemma same_decremented d d' : same_datagram d d' -> same_datagram (decremented d) (decremented d').
Proof.
  intros H. pose proof (same_field ip_ttl d d' (fun h v => eq_refl) H) as Ht. destruct H as [Hh Hp]. split; [|done].
  cbn [decremented ipd_header]. rewrite <- Ht.
  change (ip_set_ttl (ip_set_cksum (ipd_header d) 0) (u8 (ip_ttl (ipd_header d) - 1))
    = ip_set_ttl (ip_set_cksum (ipd_header d') 0) (u8 (ip_ttl (ipd_header d) - 1))). by rewrite Hh.
Qed.

(** The checksum is computed anew: the bytes are the same. *)
Lemma serialized_same d d' : datagram_valid d -> datagram_valid d' -> same_datagram d d' ->
  exists b, serialized d = Ok b /\ serialized d' = Ok b.
Proof.
  intros V V' [Hh Hp]. destruct (IPv4Datagram_serialize_ok d V) as (v & _ & _ & E). destruct V as (Vh & Vw & Vl), V' as (Vh' & Vw' & Vl').
  assert (Hs : BufferList_size (ipd_payload d') = BufferList_size (ipd_payload d)).
  { rewrite !BufferList_size_spec; rewrite ?Hp; [done|destruct Vh'; zlia|destruct Vh'; zlia]. }
  assert (Hl : IPv4Header_payload_length (ipd_header d') = IPv4Header_payload_length (ipd_header d))
    by (change (IPv4Header_payload_length (ip_set_cksum (ipd_header d') 0) = IPv4Header_payload_length (ip_set_cksum (ipd_header d) 0)); by rewrite Hh).
  unfold serialized. rewrite E. eexists. split; [reflexivity|]. revert E. unfold IPv4Datagram_serialize. rewrite Hs, Hl, <- Hh.
  destruct (negb _); [done|]. cbv zeta. destruct (IPv4Header_serialize _) as [z| |]; [|done..]. rewrite !res_bind_Ok.
  destruct (InternetChecksum_value _) as [c| |]; [|done..]. rewrite !res_bind_Ok.
  destruct (IPv4Header_serialize _) as [hdr| |]; [|done..]. rewrite !res_bind_Ok. intros [= ->]. f_equal.
  change (BufferList_append _ _) with (Buffer_of_string (ip_bytes (ip_set_cksum (ipd_header d) v)) :: ipd_payload d').
  by rewrite !concatenate_cons, Hp.
Qed.

(** ** The network at rest *)

(** The two sides of a link: nothing is under way, and what they know of each other is right. *)
Record resting (x y : AsyncNetworkInterface) (ipx ipy : Z) : Prop := {
  rs_x : quiet x ipx;
  rs_y : quiet y ipy;
  rs_xy e : ni_arp_table (ai_interface x) !! ipy = Some e -> ae_eth_addr e = ni_ethernet_address (ai_interface y);
  rs_yx e : ni_arp_table (ai_interface y) !! ipx = Some e -> ae_eth_addr e = ni_ethernet_address (ai_interface x)
}.

Record calm (n : Network) : Prop := {
  cl_ids : NoDup (nw_uun3_id n :: map fst (links n));
  cl_links i name : (i, name) ∈ links n -> exists x y ipx ipy, at_link n i name x y /\ resting x y ipx ipy /\ no_queue y;
  cl_link3 : idle_link3 n;
  cl_queues : queues_empty n
}.

Lemma names_distinct n : NoDup (["dm42"%string; "dm43"%string] ++ map snd (links n)).
Proof. change (map snd (links n)) with ["default_router"; "applesauce"; "cherrypie"; "hs_router"]%string. apply (bool_decide_eq_true_1 _). by vm_compute. Qed.

Lemma fst_inj n i name name2 : NoDup (map fst (links n)) -> (i, name) ∈ links n -> (i, name2) ∈ links n -> name = name2.
Proof. generalize (links n). intros l Hl H1 H2. apply list_elem_of_lookup in H1 as [a Ha], H2 as [b Hb].
  assert (a = b) as ->; [|congruence].
  apply (NoDup_lookup _ a b i Hl); by rewrite list_lookup_fmap, ?Ha, ?Hb.
Qed.

Lemma snd_inj n i j name : (i, name) ∈ links n -> (j, name) ∈ links n -> i = j.
Proof.
  pose proof (names_distinct n) as Hl. apply NoDup_app in Hl as (_ & _ & Hl). revert Hl. generalize (links n). intros l Hl H1 H2.
  apply list_elem_of_lookup in H1 as [a Ha], H2 as [b Hb]. assert (a = b) as ->; [|congruence].
  apply (NoDup_lookup _ a b name Hl); by rewrite list_lookup_fmap, ?Ha, ?Hb.
Qed.

Lemma elem_of_map {A B} (f : A -> B) (x : A) (l : list A) : x ∈ l -> f x ∈ map f l.
Proof. rewrite !list_elem_of_In. apply in_map. Qed.

Lemma surroundings_intro n i name : NoDup (nw_uun3_id n :: map fst (links n)) -> (i, name) ∈ links n -> 0 <= i ->
  (forall j name2, (j, name2) ∈ links n -> name2 <> name -> idle_link n (j, name2)) -> idle_link3 n -> surroundings n i name.
Proof.
  intros Hids Hin Hi Hidle H3. apply NoDup_cons in Hids as [Hu Hids]. split; try done.
  - destruct (list_elem_of_split _ _ Hin) as (l1 & l2 & El). exists l1, l2. split; [done|].
    assert (Hother : Forall (other_than i name) (l1 ++ l2)).
    { pose proof (names_distinct n) as Hn. apply NoDup_app in Hn as (_ & _ & Hn). rewrite El, map_app, map_cons in Hids, Hn.
      apply NoDup_app in Hids as (_ & Hi1 & Hi2), Hn as (_ & Hn1 & Hn2). apply NoDup_cons in Hi2 as [Hi2 _], Hn2 as [Hn2 _].
      apply Forall_forall. intros l Hl. apply elem_of_app in Hl as [Hl|Hl]; split; intros ->;
        [apply (Hi1 (fst l)); [by apply elem_of_map|left]|apply (Hn1 (snd l)); [by apply elem_of_map|left]
        |apply Hi2; exact (elem_of_map fst _ _ Hl)|apply Hn2; exact (elem_of_map snd _ _ Hl)]. }
    split; [|done]. rewrite Forall_forall in *. intros [j name2] Hl. apply Hidle; [|destruct (Hother _ Hl); by apply not_eq_sym].
    rewrite El. apply elem_of_app in Hl as [Hl|Hl]; apply elem_of_app; [by left|right; by right].
  - split; [done|]. intros ->. apply Hu. apply (elem_of_map fst _ _ Hin).
  - pose proof (names_distinct n) as Hn. apply NoDup_app in Hn as (_ & Hn & _).
    assert (Hs : name ∈ map snd (links n)) by apply (elem_of_map snd _ _ Hin).
    split; intros ->; eapply Hn; try exact Hs; [left|right; left].
Qed.

Lemma at_link_nonneg n i name x y : at_link n i name x y -> 0 <= i.
Proof. intros [H _]. by apply znth_Some in H as [? _]. Qed.

Lemma quiet_idle n i name x y ipx ipy : at_link n i name x y -> quiet x ipx -> quiet y ipy -> idle_link n (i, name).
Proof. intros Hat Hx Hy. exists x, y. split; [done|]. split; [apply Hx|apply Hy]. Qed.

(** Rounds in which nothing happens. *)
Lemma idle_rounds n m i name : surroundings n i name -> idle_link n (i, name) -> queues_empty n -> simulate_rounds m n = (Ok tt, n).
Proof.
  intros Hs (x & y & Hat & Fx & Fy) Hq. induction m as [|m IH]; [done|].
  rewrite (active_round n m i name x y x y Hs Hat Hq) by (by apply exchange_idle). by rewrite set_link_same.
Qed.

(** [link_delivers] on a resting link: the link rests again, but for the datagram in the
    receiver's queue. *)
Lemma resting_delivers s t ips ipt hop d : resting s t ips ipt -> ipv4_numeric hop = Ok ipt -> datagram_valid d ->
  exists k s1 s' t' d', (0 < k <= 3)%nat /\ on_base (send_datagram d hop) s = (Ok tt, s1) /\ ai_datagrams_out s1 = ai_datagrams_out s /\
    rounds k s1 t s' t' /\ resting s' t' ips ipt /\ ai_datagrams_out s' = ai_datagrams_out s /\
    ai_datagrams_out t' = ai_datagrams_out t ++ [d'] /\ arrives d d' /\
    same_nic (ai_interface s) (ai_interface s') /\ same_nic (ai_interface t) (ai_interface t').
Proof.
  intros [Qs Qt Hst Hts] Hhop Vd.
  destruct (link_delivers s t ips ipt hop d Qs Qt Hhop Vd Hst) as (k & s1 & s' & t' & Hk & E & Eq & Hr & [? ? [Ns Ms] [Nt Mt] ? (d' & Ed & Ha) Ls Lt]).
  exists k, s1, s', t', d'. split; [done|]. split; [done|]. split; [done|]. split; [done|]. split; [|done]. split; try done.
  - intros e He. rewrite Nt. destruct (Ls _ _ He) as [H|[_ H]]; [by apply Hst|done].
  - intros e He. rewrite Ns. destruct (Lt _ _ He) as [H|[_ H]]; [by apply Hts|done].
Qed.

Lemma resting_sym s t ips ipt : resting s t ips ipt -> resting t s ipt ips.
Proof. intros []. by split. Qed.

Lemma resting_queue s t ips ipt q : resting s t ips ipt -> resting (mkAsync (ai_interface s) q) t ips ipt.
Proof. intros [[] ? ? ?]. by split. Qed.

(** The datagram is forwarded at the start of a round. *)
Lemma forward_round n m i from j to x x' y' xj xj1 yj d : at_link n i from x y' -> at_link n j to xj yj -> i <> j -> from <> to ->
  (forall k a, k <> Z.to_nat i -> ro_interfaces (nw_router n) !! k = Some a -> no_queue a) ->
  ai_datagrams_out x = [d] -> x' = mkAsync (ai_interface x) [] -> no_queue xj1 ->
  route_one_datagram d (nw_router n) = (Ok tt, set_interface j xj1 (nw_router n), decremented d) ->
  simulate_rounds (S m) n = simulate_rounds (S m) (set_link j to xj1 yj (set_link i from x' y' n)).
Proof.
  intros Hi Hj Hij Hft Hq Hd -> Hxj E. set (x' := mkAsync (ai_interface x) []). set (n3 := set_link j to xj1 yj (set_link i from x' y' n)).
  pose proof (at_link_nonneg _ _ _ _ _ Hi) as Hi0. pose proof (at_link_nonneg _ _ _ _ _ Hj) as Hj0.
  pose proof (at_link_set_ne n i from j to x' y' xj yj Hij Hft Hi0 Hj) as Hj'.
  pose proof Hi as (Exi & hi & Ehi & Hni & Hyi). pose proof Hj as (Exj & hj & Ehj & Hnj & Hyj).
  apply znth_Some in Exi as [_ Exi], Exj as [_ Exj].
  assert (Hroute : route (nw_router n) = (Ok tt, nw_router n3)).
  { apply (route_single (nw_router n) (Z.to_nat i) (Z.to_nat j) x xj xj1 d (decremented d)); try done. lia. }
  assert (En3 : nw_set_router (nw_router n3) n = n3).
  { assert (Hhosts : nw_hosts n3 = nw_hosts n).
    2:{ transitivity (nw_set_hosts (nw_hosts n3) (nw_set_router (nw_router n3) n)); [rewrite Hhosts; by destruct n|reflexivity]. }
    assert (H1 : nw_hosts (set_link i from x' y' n) = nw_hosts n).
    { change (nw_hosts (put_host from y' n) = nw_hosts n). rewrite <- Hyi. by rewrite put_host_same. }
    change (nw_hosts (put_host to yj (set_link i from x' y' n)) = nw_hosts n). rewrite <- Hyj, put_host_same by (by rewrite H1). exact H1. }
  assert (Hq3 : queues_empty n3).
  { apply queues_empty_set; [|done]. unfold queues_empty. cbn. apply Forall_lookup. intros k a.
    destruct (decide (k = Z.to_nat i)) as [->|Hk].
    - rewrite list_lookup_insert_eq by (by eapply lookup_lt_Some). by intros [= <-].
    - rewrite list_lookup_insert_ne by done. by apply Hq. }
  cbn [simulate_rounds]. erewrite run_zoom by exact Hroute. erewrite (run_zoom _ _ _ _ n3) by (by apply route_idle).
  rewrite En3. assert (nw_set_router (nw_router n3) n3 = n3) as -> by by destruct n3. done.
Qed.

(** The router sends [d] on through interface [j]. *)
Lemma route_one_forwards r it d xj xj1 : find_route (ip_dst (ipd_header d)) None (ro_route_table r) = Ok (Some it) ->
  1 < ip_ttl (ipd_header d) -> znth (ro_interfaces r) (rt_interface_num it) = Some xj ->
  on_base (send_datagram (decremented d) (default (inet (ip_dst (ipd_header d)) 0) (rt_next_hop it))) xj = (Ok tt, xj1) ->
  route_one_datagram d r = (Ok tt, set_interface (rt_interface_num it) xj1 r, decremented d).
Proof.
  intros Ef Ht Ej E. unfold route_one_datagram. rewrite Ef. cbv zeta. destruct (Z.ltb_spec 1 (ip_ttl (ipd_header d))); [|lia].
  fold (decremented d). rewrite from_ipv4_numeric_inet.
  replace (match rt_next_hop it with Some a => Ok a | None => Ok (inet (ip_dst (ipd_header d)) 0) end)
    with (Ok (default (inet (ip_dst (ipd_header d)) 0) (rt_next_hop it)) : res Address) by (by destruct (rt_next_hop it)).
  rewrite run_lift. unfold send_on, Router_interface. by rewrite Ej, E.
Qed.

(** A datagram's way through the network: [i] is the sender's link, [j] the receiver's. *)
Section Way.
Context (n : Network) (from to : string) (i j : Z) (it : route_item) (hop1 : Address) (d : InternetDatagram).
Context (x y xj yj : AsyncNetworkInterface) (ipi ipf ipj ipt : Z).
Context (Hcalm : calm n) (Hfrom : (i, from) ∈ links n) (Hto : (j, to) ∈ links n) (Hft : from <> to).
Context (Hat : at_link n i from x y) (Hrest : resting x y ipi ipf) (Hy : no_queue y).
Context (Hatj : at_link n j to xj yj) (Hrestj : resting xj yj ipj ipt) (Hyj : no_queue yj).
Context (Hhop1 : ipv4_numeric hop1 = Ok ipi) (Vd : datagram_valid d) (Httl : 1 < ip_ttl (ipd_header d)).
Context (Hroute : find_route (ip_dst (ipd_header d)) None (ro_route_table (nw_router n)) = Ok (Some it)) (Hit : rt_interface_num it = j).
Context (Hhop2 : ipv4_numeric (default (inet (ip_dst (ipd_header d)) 0) (rt_next_hop it)) = Ok ipt).

Lemma links_differ : i <> j.
Proof.
  intros E. apply Hft. pose proof (cl_ids _ Hcalm) as Hids. apply NoDup_cons in Hids as [_ Hids].
  apply (fst_inj n i from to Hids Hfrom). by rewrite E.
Qed.

Lemma link_queue l name u v : at_link n l name u v -> no_queue u.
Proof. intros [E _]. apply znth_Some in E as [_ E]. by apply (Forall_lookup_1 _ _ _ _ (cl_queues _ Hcalm) E). Qed.

Lemma others_idle k name : (k, name) ∈ links n -> idle_link n (k, name).
Proof.
  intros Hin. destruct (cl_links _ Hcalm _ _ Hin) as (u & v & ipu & ipv & Hu & [Qu Qv _ _] & _). by apply (quiet_idle n k name u v ipu ipv).
Qed.

(** Whatever is on the sender's link, the rest of the network is idle. *)
Lemma surroundings_from u v : surroundings (set_link i from u v n) i from.
Proof.
  apply surroundings_set. apply surroundings_intro; [apply Hcalm|done|by eapply at_link_nonneg| |apply Hcalm].
  intros k name Hin _. by apply others_idle.
Qed.

(** The same for the receiver's link, once the sender's is idle again. *)
Lemma surroundings_to u v uj vj ipu ipv : quiet u ipu -> quiet v ipv -> surroundings (set_link j to uj vj (set_link i from u v n)) j to.
Proof.
  intros Qu Qv. apply surroundings_set. apply surroundings_intro; [apply Hcalm|done|by eapply at_link_nonneg| |apply surroundings_from].
  intros k name Hin Hname. destruct (decide (name = from)) as [->|Hne].
  - pose proof (snd_inj n k i from Hin Hfrom) as ->. eapply quiet_idle; [eapply at_link_set; exact Hat|exact Qu|exact Qv].
  - apply idle_link_set; [by eapply at_link_nonneg| |by apply not_eq_sym|by apply others_idle].
    intros ->. apply Hne. symmetry. pose proof (cl_ids _ Hcalm) as Hids. apply NoDup_cons in Hids as [_ Hids]. by eapply fst_inj.
Qed.

Lemma network_carries : exists y1, on_base (send_datagram d hop1) y = (Ok tt, y1) /\ exists x2 y2 xj2 yj2 d2,
  simulate_rounds 256 (set_link i from x y1 n) = (Ok tt, set_link j to xj2 yj2 (set_link i from x2 y2 n)) /\
  resting x2 y2 ipi ipf /\ no_queue x2 /\ no_queue y2 /\ resting xj2 yj2 ipj ipt /\ no_queue xj2 /\
  ai_datagrams_out yj2 = [d2] /\ same_datagram (decremented d) d2 /\ datagram_valid d2.
Proof.
  pose proof (at_link_nonneg _ _ _ _ _ Hat) as Hi0. pose proof links_differ as Hij. pose proof (link_queue _ _ _ _ Hat) as Hx.
  pose proof (link_queue _ _ _ _ Hatj) as Hxj.
  (* the sender's link *)
  destruct (resting_delivers y x ipf ipi hop1 d (resting_sym _ _ _ _ Hrest) Hhop1 Vd)
    as (k1 & y1 & y2 & x1 & d1 & Hk1 & E1 & Q1 & R1 & Rest1 & Qy2 & Qx1 & A1 & _ & _).
  rewrite Hx in Qx1. cbn [app] in Qx1. rewrite Hy in Qy2.
  exists y1. split; [done|]. set (n1 := set_link i from x y1 n). set (n2 := set_link i from x1 y2 n).
  assert (Hn2 : forall m, simulate_rounds (k1 + m) n1 = simulate_rounds m n2).
  { intros m. rewrite (active_rounds false k1 _ _ _ _ R1 n1 m i from); [by unfold n1; rewrite set_link_set|apply surroundings_from| |].
    - eapply at_link_set. exact Hat.
    - apply queues_empty_set; [apply Hcalm|done]. }
  (* the router *)
  pose proof (arrives_valid _ _ Vd A1) as V1. pose proof (arrives_same _ _ A1) as S1.
  pose proof (same_field ip_ttl _ _ (fun _ _ => eq_refl) S1) as Et. pose proof (same_field ip_dst _ _ (fun _ _ => eq_refl) S1) as Ed.
  rewrite Ed in Hroute, Hhop2. rewrite Et in Httl.
  destruct (resting_delivers xj yj ipj ipt _ (decremented d1) Hrestj Hhop2 (decremented_valid _ V1))
    as (k2 & xj1 & xj2 & yj2 & d2 & Hk2 & E2 & Q2 & R2 & Rest2 & Qxj2 & Qyj2 & A2 & _ & _).
  rewrite Hyj in Qyj2. rewrite Hxj in Qxj2, Q2.
  set (x2 := mkAsync (ai_interface x1) []). set (n3 := set_link j to xj1 yj (set_link i from x2 y2 n)).
  assert (Hatj2 : at_link n2 j to xj yj) by (by apply at_link_set_ne).
  assert (Hn3 : forall m, simulate_rounds (S m) n2 = simulate_rounds (S m) n3).
  { intros m. rewrite (forward_round n2 m i from j to x1 x2 y2 xj xj1 yj d1); try done.
    - unfold n2. by rewrite set_link_set.
    - eapply at_link_set. exact Hat.
    - intros k a Hk. cbn. rewrite list_lookup_insert_ne by done. apply (Forall_lookup_1 _ _ _ _ (cl_queues _ Hcalm)).
    - rewrite <- Hit. apply (route_one_forwards _ _ _ xj); [done|done| |done]. rewrite Hit. apply Hatj2. }
  (* the receiver's link *)
  set (n4 := set_link j to xj2 yj2 (set_link i from x2 y2 n)).
  pose proof (resting_queue x1 y2 ipi ipf [] (resting_sym _ _ _ _ Rest1)) as Rest1'. fold x2 in Rest1'.
  assert (Hatj3 : at_link (set_link i from x2 y2 n) j to xj yj) by (by apply at_link_set_ne).
  assert (Hq3 : forall u, no_queue u -> forall v, queues_empty (set_link j to u v (set_link i from x2 y2 n)))
    by (intros u Hu v; apply queues_empty_set; [apply queues_empty_set; [apply Hcalm|done]|done]).
  assert (Hn4 : forall m, simulate_rounds (k2 + m) n3 = simulate_rounds m n4).
  { intros m. rewrite (active_rounds true k2 _ _ _ _ R2 n3 m j to); [by unfold n3; rewrite set_link_set| | |by apply Hq3].
    - eapply surroundings_to; apply Rest1'.
    - eapply at_link_set. exact Hatj3. }
  exists x2, y2, xj2, yj2, d2. split.
  - destruct k2 as [|k2]; [lia|]. replace 256%nat with (k1 + S (k2 + (255 - k1 - k2)))%nat by lia. rewrite Hn2, Hn3.
    change (S (k2 + (255 - k1 - k2))) with (S k2 + (255 - k1 - k2))%nat. rewrite Hn4.
    apply (idle_rounds n4 _ j to); [eapply surroundings_to; apply Rest1'| |by apply Hq3].
    eapply quiet_idle; [eapply at_link_set; exact Hatj3|apply Rest2|apply Rest2].
  - split; [done|]. split; [done|]. split; [done|]. split; [done|]. split; [done|]. split; [done|].
    split; [|eapply arrives_valid; [by apply decremented_valid, V1|done]].
    eapply same_trans; [apply same_decremented; exact S1|by apply arrives_same].
Qed.
End Way.

(** ** A scenario *)

(** What does not change: the route table, the links, and the addresses on them. *)
Record Plan : Type := mkPlan {
  pl_links : list (Z * string);
  pl_table : list route_item;
  pl_router_ip : string -> Z;
  pl_host_ip : string -> Z;
  pl_hop : string -> Address
}.

Definition clean (P : Plan) (name : string) (h : Host) : Prop :=
  ho_name h = name /\ ho_expecting_to_receive h = [] /\ no_queue (ho_interface h) /\ ho_next_hop h = pl_hop P name /\
  ipv4_numeric (ho_my_address h) = Ok (pl_host_ip P name).

Record at_rest (P : Plan) (n : Network) : Prop := {
  ar_links_eq : links n = pl_links P;
  ar_table : ro_route_table (nw_router n) = pl_table P;
  ar_ids : NoDup (nw_uun3_id n :: map fst (links n));
  ar_links i name : (i, name) ∈ links n -> exists x y, at_link n i name x y /\ resting x y (pl_router_ip P name) (pl_host_ip P name);
  ar_link3 : idle_link3 n;
  ar_queues : queues_empty n;
  ar_hosts : map_Forall (clean P) (nw_hosts n)
}.

(** The way from one host to another: the sender's next hop is the router, and the longest
    match for the destination leads to the receiver's link and address. *)
Record way (P : Plan) (from to : string) (i j : Z) (destination : Address) (dst : Z) : Prop := {
  wy_from : (i, from) ∈ pl_links P;
  wy_to : (j, to) ∈ pl_links P;
  wy_ne : from <> to;
  wy_hop : ipv4_numeric (pl_hop P from) = Ok (pl_router_ip P from);
  wy_dst : ipv4_numeric destination = Ok dst;
  wy_route : exists it, find_route dst None (pl_table P) = Ok (Some it) /\ rt_interface_num it = j /\
    ipv4_numeric (default (inet dst 0) (rt_next_hop it)) = Ok (pl_host_ip P to)
}.

Definition set_expect (name : string) (l : list InternetDatagram) (n : Network) : Network :=
  nw_set_hosts (alter (ho_set_expecting l) name (nw_hosts n)) n.

Lemma at_link_expect n to l i name x y : at_link n i name x y -> at_link (set_expect to l n) i name x y.
Proof.
  intros (Ex & h & Eh & Hn & Hy). split; [done|]. cbn. destruct (decide (to = name)) as [->|].
  - exists (ho_set_expecting l h). by rewrite lookup_alter_eq, Eh.
  - exists h. by rewrite lookup_alter_ne.
Qed.

Lemma expect_set_link n to l i name x y : name <> to ->
  set_expect to l (set_link i name x y n) = set_link i name x y (set_expect to l n).
Proof.
  intros Hne. unfold set_expect, set_link, put_host, put_interface. destruct n. cbn. unfold nw_set_hosts, nw_set_router. cbn. f_equal.
  apply map_eq. intros k. destruct (decide (to = k)) as [<-|]; [by rewrite lookup_alter_eq, !(lookup_alter_ne _ _ name), lookup_alter_eq by done|].
  rewrite (lookup_alter_ne _ _ to) by done. destruct (decide (name = k)) as [<-|]; [by rewrite !lookup_alter_eq, lookup_alter_ne by done|].
  by rewrite !lookup_alter_ne.
Qed.

Lemma calm_expect P n to l : at_rest P n -> (to <> "dm42"%string /\ to <> "dm43"%string) -> calm (set_expect to l n).
Proof.
  intros R [H1 H2]. split; [apply R| | |apply R].
  - intros i name Hin. destruct (ar_links _ _ R i name Hin) as (x & y & Hat & Hr). exists x, y, (pl_router_ip P name), (pl_host_ip P name).
    split; [by apply at_link_expect|]. split; [done|]. destruct Hat as (_ & h & Eh & _ & <-). by apply (ar_hosts _ _ R name h Eh).
  - destruct (ar_link3 _ _ R) as (x & h1 & h2 & H). exists x, h1, h2. cbn. by rewrite !lookup_alter_ne.
Qed.

Lemma at_rest_set P n i name x y : at_rest P n -> (i, name) ∈ links n -> resting x y (pl_router_ip P name) (pl_host_ip P name) ->
  no_queue x -> no_queue y -> at_rest P (set_link i name x y n).
Proof.
  intros R Hin Hr Hx Hy. pose proof R as [E1 E2 Hids Hl H3 Hq Hh]. destruct (Hl i name Hin) as (x0 & y0 & Hat & _).
  pose proof (at_link_nonneg _ _ _ _ _ Hat) as Hi0.
  assert (Hs : surroundings n i name).
  { apply surroundings_intro; try done. intros j name2 Hj _. destruct (Hl j name2 Hj) as (u & v & Hu & [Qu Qv _ _]). by eapply quiet_idle. }
  split; try done.
  - intros j name2 Hj. destruct (decide (name2 = name)) as [->|Hne].
    + pose proof (snd_inj n j i name Hj Hin) as ->. exists x, y. split; [by eapply at_link_set|done].
    + destruct (Hl j name2 Hj) as (u & v & Hu & Hr2). exists u, v. split; [|done]. apply at_link_set_ne; try done.
      intros ->. apply Hne. apply NoDup_cons in Hids as [_ Hids]. by eapply fst_inj.
  - apply idle_link3_set; [apply Hs|apply Hs|done].
  - by apply queues_empty_set.
  - intros k h. cbn. destruct (decide (name = k)) as [<-|]; [|rewrite lookup_alter_ne by done; apply Hh].
    rewrite lookup_alter_eq. destruct (nw_hosts n !! name) as [h0|] eqn:E0; [|done]. intros [= <-].
    destruct (Hh name h0 E0) as (? & ? & _ & ? & ?). done.
Qed.

(** ** The checks *)

Lemma check_clean h : ho_expecting_to_receive h = [] -> no_queue (ho_interface h) -> Host_check h = (Ok tt, h).
Proof. intros He Hq. unfold Host_check. mrun. rewrite Hq. cbn [length check_loop]. rewrite run_bind with (a := tt) (s' := h); mrun; by rewrite ?He, ?Hq. Qed.

Lemma check_one h d e b : ho_expecting_to_receive h = [e] -> ai_datagrams_out (ho_interface h) = [d] ->
  serialized d = Ok b -> serialized e = Ok b ->
  Host_check h = (Ok tt, ho_set_interface (mkAsync (ai_interface (ho_interface h)) []) (ho_set_expecting [] h)).
Proof.
  intros He Hq Ed Ee. unfold Host_check. mrun. rewrite Hq. cbn [length check_loop]. unfold mbind, method_bind, gets, lift, modify. cbn.
  rewrite Hq, He. cbn. rewrite Ed, Ee. cbn. rewrite !bool_decide_eq_true_2 by done. cbn. unfold pop_received. by rewrite Hq.
Qed.

Lemma on_host_run {X} n name h (m : method Host X) r h' : nw_hosts n !! name = Some h -> ho_name h = name -> m h = (r, h') ->
  on_host name m n = (r, nw_set_hosts (<[name := h']> (nw_hosts n)) n).
Proof. intros E En Em. unfold on_host. erewrite run_bind by (by apply find_host_at). by rewrite Em. Qed.

Lemma check_hosts_clean order : forall n, (forall name, name ∈ order -> exists h, nw_hosts n !! name = Some h /\ ho_name h = name /\
    ho_expecting_to_receive h = [] /\ no_queue (ho_interface h)) -> check_hosts order n = (Ok tt, n).
Proof.
  induction order as [|name order IH]; intros n H; [done|]. cbn [check_hosts].
  destruct (H name (list_elem_of_here _ _)) as (h & E & Hn & He & Hq).
  erewrite run_bind by (eapply on_host_run; [exact E|exact Hn|by apply check_clean]).
  rewrite insert_id by done. rewrite network_eta. apply IH. intros k Hk. apply H. by right.
Qed.

(** One host has a datagram, which it expects; the others are clean. *)
Lemma check_hosts_one order to h d e b n : to ∈ order -> nw_hosts n !! to = Some h -> ho_name h = to ->
  ho_expecting_to_receive h = [e] -> ai_datagrams_out (ho_interface h) = [d] -> serialized d = Ok b -> serialized e = Ok b ->
  (forall name, name ∈ order -> name <> to -> exists h', nw_hosts n !! name = Some h' /\ ho_name h' = name /\
    ho_expecting_to_receive h' = [] /\ no_queue (ho_interface h')) ->
  check_hosts order n = (Ok tt, nw_set_hosts
    (<[to := ho_set_interface (mkAsync (ai_interface (ho_interface h)) []) (ho_set_expecting [] h)]> (nw_hosts n)) n).
Proof.
  intros Hin E Hn He Hq Ed Ee. induction order as [|name order IH]; [by apply elem_of_nil in Hin|]. intros Hc. cbn [check_hosts].
  destruct (decide (name = to)) as [->|Hne].
  - erewrite run_bind by (eapply on_host_run; [exact E|exact Hn|by eapply check_one]). apply check_hosts_clean. intros k Hk. cbn.
    destruct (decide (k = to)) as [->|Hkt]; [rewrite lookup_insert_eq; by eexists|]. rewrite lookup_insert_ne by done.
    apply Hc; [by right|done].
  - destruct (Hc name (list_elem_of_here _ _) Hne) as (h' & E' & Hn' & He' & Hq').
    erewrite run_bind by (eapply on_host_run; [exact E'|exact Hn'|by apply check_clean]). rewrite insert_id by done. rewrite network_eta.
    apply IH; [by apply elem_of_cons in Hin as [?|?]|]. intros k Hk. apply Hc. by right.
Qed.

Lemma send_from_eq n from i x y h destination dst ip random y1 : at_link n i from x y -> nw_hosts n !! from = Some h ->
  ipv4_numeric (ho_my_address h) = Ok ip -> ipv4_numeric destination = Ok dst ->
  on_base (send_datagram (host_datagram ip dst 64 random) (ho_next_hop h)) y = (Ok tt, y1) ->
  send_from from destination 64 random n = (Ok (host_datagram ip dst 64 random), set_link i from x y1 n).
Proof.
  intros (Ex & h0 & E0 & Hn & Hy) Eh Eip Edst Es. rewrite Eh in E0. injection E0 as <-. unfold send_from.
  assert (Em : Host_send_to destination 64 random h = (Ok (host_datagram ip dst 64 random), ho_set_interface y1 h)).
  { unfold Host_send_to. mrun. rewrite Eip. mrun. rewrite Edst. mrun. by erewrite run_zoom by (rewrite Hy; exact Es). }
  rewrite (on_host_run n from h _ _ _ Eh Hn Em). f_equal. unfold set_link. rewrite put_interface_same by done. unfold put_host. f_equal.
  apply map_eq. intros k. destruct (decide (from = k)) as [<-|]; [by rewrite lookup_insert_eq, lookup_alter_eq, Eh|].
  by rewrite lookup_insert_ne, lookup_alter_ne.
Qed.

Lemma expect_eq n to h e : nw_hosts n !! to = Some h -> ho_name h = to -> ho_expecting_to_receive h = [] ->
  on_host to (modify (Host_expect e)) n = (Ok tt, set_expect to [e] n).
Proof.
  intros E Hn He. erewrite on_host_run by done. unfold set_expect. do 2 f_equal. unfold Host_expect. rewrite He. cbn [app].
  apply map_eq. intros k. destruct (decide (to = k)) as [<-|]; [by rewrite lookup_insert_eq, lookup_alter_eq, E|].
  by rewrite lookup_insert_ne, lookup_alter_ne.
Qed.

(** Undoing the expectation at the end. *)
Lemma hosts_restored n i from j to x2 y2 xj2 yj2 yj3 l h : from <> to -> nw_hosts n !! to = Some h -> ho_expecting_to_receive h = [] ->
  nw_set_hosts (<[to := ho_set_interface yj3 (ho_set_expecting [] (ho_set_interface yj2 (ho_set_expecting l h)))]>
      (nw_hosts (set_link j to xj2 yj2 (set_link i from x2 y2 (set_expect to l n)))))
    (set_link j to xj2 yj2 (set_link i from x2 y2 (set_expect to l n)))
  = set_link j to xj2 yj3 (set_link i from x2 y2 n).
Proof.
  intros Hft Eh He. unfold set_link, put_host, put_interface, set_expect. destruct n as [r a b c d' e f g hosts]. cbn in *.
  unfold nw_set_hosts, nw_set_router. cbn. f_equal. apply map_eq. intros k. destruct (decide (to = k)) as [<-|Hk].
  - rewrite lookup_insert_eq, lookup_alter_eq, lookup_alter_ne, Eh by done. cbn. destruct h. cbn in *. by subst.
  - rewrite lookup_insert_ne, !(lookup_alter_ne _ _ to) by done. destruct (decide (from = k)) as [<-|]; [|by rewrite !lookup_alter_ne].
    by rewrite !lookup_alter_eq, lookup_alter_ne.
Qed.

(** A datagram between hosts on different links of a network at rest arrives, the check of
    every host passes, and the network is at rest again. *)
Lemma scenario_succeeds P n order from to i j destination dst random : at_rest P n ->
  (forall name, name ∈ order <-> is_Some (nw_hosts n !! name)) -> way P from to i j destination dst -> 0 <= random < W32 ->
  exists n', scenario order from destination to random n = (Ok tt, n') /\ at_rest P n' /\
    (forall name, name ∈ order <-> is_Some (nw_hosts n' !! name)).
Proof.
  intros R Hord [Hfrom Hto Hft Hhop Hdst (it & Hroute & Hit & Hhop2)] Hrand.
  pose proof R as [EL ET _ HL _ Hq Hh]. rewrite <- EL in Hfrom, Hto.
  destruct (HL i from Hfrom) as (x & y & Hat & Hrest), (HL j to Hto) as (xj & yj & Hatj & Hrestj).
  pose proof Hat as (_ & hf & Ef & Nf & Yf). pose proof Hatj as (_ & ht & Et & Nt & Yt).
  destruct (Hh from hf Ef) as (_ & _ & Qy & Nh & Ipf), (Hh to ht Et) as (_ & Xt & Qyj & _ & Ipt). rewrite Yf in Qy. rewrite Yt in Qyj.
  set (d := host_datagram (pl_host_ip P from) dst 64 random).
  assert (Vd : datagram_valid d).
  { apply host_datagram_valid; [by eapply ipv4_numeric_range|by eapply ipv4_numeric_range|lia|done]. }
  set (ne := set_expect to [decremented d] n).
  assert (Hsur : surroundings n j to).
  { apply surroundings_intro; [apply R|done|by eapply at_link_nonneg| |apply R]. intros k name Hk _.
    destruct (HL k name Hk) as (u & v & Hu & [Qu Qv _ _]). by eapply quiet_idle. }
  destruct (network_carries ne from to i j it (pl_hop P from) d x y xj yj (pl_router_ip P from) (pl_host_ip P from)
    (pl_router_ip P to) (pl_host_ip P to)) as (y1 & Es & x2 & y2 & xj2 & yj2 & d2 & Er & R1 & Qx2 & Qy2 & R2 & Qxj2 & Ed2 & Sd2 & Vd2);
    try done; [eapply calm_expect; [exact R|apply Hsur]|by apply at_link_expect|by apply at_link_expect|change (nw_router ne) with (nw_router n); by rewrite ET|].
  destruct (serialized_same _ _ (decremented_valid _ Vd) Vd2 Sd2) as (b & B1 & B2).
  set (n4 := set_link j to xj2 yj2 (set_link i from x2 y2 ne)) in *. set (yj3 := mkAsync (ai_interface yj2) []).
  set (h4 := ho_set_interface yj2 (ho_set_expecting [decremented d] ht)).
  assert (E4 : nw_hosts n4 !! to = Some h4).
  { unfold n4. cbn. rewrite lookup_alter_eq, lookup_alter_ne, lookup_alter_eq, Et by done. done. }
  exists (set_link j to xj2 yj3 (set_link i from x2 y2 n)). split; [|split].
  - unfold scenario. erewrite run_bind by (eapply send_from_eq; [exact Hat|exact Ef|exact Ipf|exact Hdst|rewrite Nh; exact Es]). fold d.
    erewrite run_bind by (eapply expect_eq; [cbn; rewrite lookup_alter_ne by done; exact Et|done|done]).
    rewrite expect_set_link by done. fold ne. unfold simulate. erewrite run_bind by exact Er.
    rewrite (check_hosts_one order to h4 d2 (decremented d) b n4); try done; [|by apply Hord; eexists|].
    + f_equal. apply hosts_restored; done.
    + intros name Hin Hne. apply Hord in Hin as [h0 E0]. destruct (Hh name h0 E0) as (N0 & X0 & Q0 & _).
      exists (if decide (name = from) then ho_set_interface y2 h0 else h0). unfold n4. cbn. rewrite lookup_alter_ne by done.
      destruct (decide (name = from)) as [->|]; [rewrite lookup_alter_eq, lookup_alter_ne, E0 by done; done|].
      by rewrite !lookup_alter_ne.
  - apply at_rest_set; [apply at_rest_set; done|done| |done|done].
    apply resting_sym, (resting_queue yj2 xj2), resting_sym. done.
  - intros name. rewrite Hord. cbn. rewrite !lookup_alter.
    destruct (decide _), (decide _); subst; by rewrite ?fmap_is_Some.
Qed.

(** ** The network of the simulator *)

Definition fresh (eth : EthernetAddress) (address : Z) : AsyncNetworkInterface :=
  AsyncNetworkInterface_new (NetworkInterface_new eth (inet address 0)).

Lemma fresh_quiet eth address : EthernetAddress_valid eth -> 0 <= address < W32 -> quiet (fresh eth address) address.
Proof. intros He Ha. split; try done; [by apply ni_inv_new|by apply ipv4_numeric_inet]. Qed.

Lemma fresh_resting eth eth2 a b : EthernetAddress_valid eth -> EthernetAddress_valid eth2 -> 0 <= a < W32 -> 0 <= b < W32 ->
  resting (fresh eth a) (fresh eth2 b) a b.
Proof. intros. split; [by apply fresh_quiet|by apply fresh_quiet|done|done]. Qed.

(** The addresses of the hosts, of the router on their links, and their next hops. *)
Definition address_of (name : string) : Z * Z * Address :=
  if bool_decide (name = "applesauce"%string) then (ip 10 0 0 1, ip 10 0 0 2, host_at 10 0 0 1)
  else if bool_decide (name = "default_router"%string) then (ip 171 67 76 46, ip 171 67 76 1, host_at 0 0 0 0)
  else if bool_decide (name = "cherrypie"%string) then (ip 192 168 0 1, ip 192 168 0 2, host_at 192 168 0 1)
  else if bool_decide (name = "hs_router"%string) then (ip 143 195 0 2, ip 143 195 0 1, host_at 0 0 0 0)
  else (ip 198 178 229 1, if bool_decide (name = "dm42"%string) then ip 198 178 229 42 else ip 198 178 229 43, host_at 198 178 229 1).

Definition demo_network : Network := Network_new demo_rd.

Definition simulator_plan : Plan :=
  mkPlan (links demo_network) (ro_route_table (nw_router demo_network))
    (fun name => fst (fst (address_of name))) (fun name => snd (fst (address_of name))) (fun name => snd (address_of name)).

Lemma network_at_rest rd : at_rest simulator_plan (Network_new rd).
Proof.
  split; try done.
  - apply (bool_decide_eq_true_1 _). by vm_compute.
  - assert (Hr : forall k m a b, 0 <= a < W32 -> 0 <= b < W32 ->
      resting (fresh (random_router_ethernet_address rd k) a) (fresh (random_host_ethernet_address rd m) b) a b)
      by (intros; apply fresh_resting; [apply router_address_valid|apply host_address_valid|done|done]).
    intros i name Hin. repeat (apply elem_of_cons in Hin as [[= -> ->]|Hin]); [..|by apply elem_of_nil in Hin];
      (do 2 eexists; split; [split; [reflexivity|eexists; split; [reflexivity|done]]|by apply Hr]).
  - do 3 eexists. repeat (split; [reflexivity|]). reflexivity.
  - repeat (constructor; [reflexivity|]). constructor.
  - intros name h E. apply elem_of_list_to_map_2 in E.
    repeat (apply elem_of_cons in E as [[= -> ->]|E]); [..|by apply elem_of_nil in E]; by vm_compute.
Qed.

(** The ways of the scenarios, checked by evaluation. *)
Ltac check_way :=
  split; [apply (bool_decide_eq_true_1 _); by vm_compute | apply (bool_decide_eq_true_1 _); by vm_compute | done | by vm_compute | done || by vm_compute
         | eexists; split; [vm_compute; reflexivity | split; by vm_compute]].

Ltac run_scenario from to i j destination dst random R H n R' H' E :=
  match type of H with
  | forall name, name ∈ ?order <-> _ =>
      destruct (scenario_succeeds simulator_plan _ order from to i j destination dst random R H) as (n & E & R' & H'); [check_way|done|]
  end.

Lemma plan_host n i name : at_rest simulator_plan n -> (i, name) ∈ links n -> exists h, find_host name n = (Ok h, n) /\
  ipv4_numeric (ho_my_address h) = Ok (pl_host_ip simulator_plan name).
Proof.
  intros R Hin. destruct (ar_links _ _ R i name Hin) as (x & y & (_ & h & E & N & _) & _). exists h.
  split; [by apply find_host_at|]. by apply (ar_hosts _ _ R name h E).
Qed.

(** the simulated network delivers: whatever the random numbers are, and in whatever order the
    hosts are checked, every scenario of [network_simulator] that crosses the router from one link
    to another runs without an exception. The datagram, ARP requests and replies on the way
    included, reaches the host the longest matching prefix leads to with its TTL one lower, and no other
    host gets anything; the network is at rest again afterwards. *)
Theorem routed_scenarios_succeed rd order : (forall k, 0 <= rd k < W32) -> (forall name, name ∈ order <-> name ∈ all_hosts) ->
  exists n', routed_scenarios rd order (Network_new rd) = (Ok tt, n') /\ at_rest simulator_plan n'.
Proof.
  intros Hrd Hord. pose proof (network_at_rest rd) as R0.
  assert (H0 : forall name, name ∈ order <-> is_Some (nw_hosts (Network_new rd) !! name)).
  { intros name. rewrite Hord. split.
    - intros Hin. repeat (apply elem_of_cons in Hin as [->|Hin]); [by eexists..|by apply elem_of_nil in Hin].
    - intros [h E]. apply elem_of_list_to_map_2 in E.
      repeat (apply elem_of_cons in E as [[= -> ->]|E]); [..|by apply elem_of_nil in E]; apply (bool_decide_eq_true_1 _); by vm_compute. }
  unfold routed_scenarios.
  destruct (plan_host _ 3 "cherrypie" R0) as (cherry & Ec & Ac); [apply (bool_decide_eq_true_1 _); by vm_compute|].
  erewrite run_bind by exact Ec.
  run_scenario "applesauce" "cherrypie" 1 3 (ho_my_address cherry) (ip 192 168 0 2) (rd 78%nat) R0 H0 n1 R1 H1 E. erewrite run_bind by exact E. clear E.
  destruct (plan_host _ 1 "applesauce" R1) as (apple & Ea & Aa); [rewrite (ar_links_eq _ _ R1); apply (bool_decide_eq_true_1 _); by vm_compute|].
  erewrite run_bind by exact Ea.
  run_scenario "cherrypie" "applesauce" 3 1 (ho_my_address apple) (ip 10 0 0 2) (rd 79%nat) R1 H1 n2 R2 H2 E. erewrite run_bind by exact E. clear E.
  run_scenario "applesauce" "default_router" 1 0 (host_at 1 2 3 4) (ip 1 2 3 4) (rd 80%nat) R2 H2 n3 R3 H3 E. erewrite run_bind by exact E. clear E.
  run_scenario "applesauce" "hs_router" 1 5 (host_at 143 195 131 17) (ip 143 195 131 17) (rd 81%nat) R3 H3 n4 R4 H4 E. erewrite run_bind by exact E. clear E.
  run_scenario "cherrypie" "hs_router" 3 5 (host_at 143 195 193 52) (ip 143 195 193 52) (rd 82%nat) R4 H4 n5 R5 H5 E. erewrite run_bind by exact E. clear E.
  run_scenario "cherrypie" "hs_router" 3 5 (host_at 143 195 223 255) (ip 143 195 223 255) (rd 83%nat) R5 H5 n6 R6 H6 E. erewrite run_bind by exact E. clear E.
  run_scenario "cherrypie" "default_router" 3 0 (host_at 143 195 224 0) (ip 143 195 224 0) (rd 84%nat) R6 H6 n7 R7 H7 E. by exists n7.
Qed.

Lemma demo_rd_range k : 0 <= demo_rd k < W32.
Proof. unfold demo_rd. by apply Z.mod_pos_bound. Qed.

Lemma routed_scenarios_succeed_witness : exists n', routed_scenarios demo_rd all_hosts (Network_new demo_rd) = (Ok tt, n').
Proof.
  destruct (routed_scenarios_succeed demo_rd all_hosts demo_rd_range (fun name => iff_refl _)) as (n' & E & _). by exists n'.
Defined.

(** the whole program, with these random numbers: all ten scenarios pass, the two hosts on one
    link and the expired datagrams included. *)
Theorem network_simulator_passes : fst (network_simulator demo_rd all_hosts) = Ok tt.
Proof. by vm_compute. Qed.
