(* ===== verification/FileDescriptors.v ===== *)
(** * File descriptors and sockets

    Models [libsponge/util/file_descriptor.hh], [file_descriptor.cc], the reading,
    writing and closing operations of [socket.cc] and [SystemCall] of [util.cc]. What the kernel answers ([read],
    [writev], [recvfrom], [sendmsg], [shutdown]) is an argument. *)

From stdpp Require Import pretty.
From S2P Require Import Prelude Buffers Addresses.

(** ** FileDescriptor *)

(** [FDWrapper], without the descriptor number. *)
Record FDWrapper : Type := mkFD {
  fd_eof : bool;
  fd_closed : bool;
  fd_read_count : Z;
  fd_write_count : Z
}.

Definition FDWrapper_new : FDWrapper := mkFD false false 0 0.

(** [FileDescriptor(fd)] *)
Definition FileDescriptor_of (fd : Z) : res FDWrapper :=
  if fd <? 0 then Throw (runtime_error ("invalid fd number:" +:+ pretty fd)) else Ok FDWrapper_new.

(** [register_read] and [register_write] on [unsigned] counters. *)
Definition register_read (f : FDWrapper) : FDWrapper :=
  mkFD (fd_eof f) (fd_closed f) (u32 (fd_read_count f + 1)) (fd_write_count f).
Definition register_write (f : FDWrapper) : FDWrapper :=
  mkFD (fd_eof f) (fd_closed f) (fd_read_count f) (u32 (fd_write_count f + 1)).

Definition BUFFER_SIZE : Z := 1024 * 1024.

(** [SystemCall(attempt, return_value, errno_mask)] from [util.cc], with the value of [errno]. *)
Definition SystemCall (attempt : string) (return_value errno errno_mask : Z) : res Z :=
  if (0 <=? return_value) || (errno =? errno_mask) then Ok return_value else Throw (unix_error attempt errno).

(** A call that answers 0, or an [errno]. *)
Definition answer (errno : Z) : Z := if errno =? 0 then 0 else -1.

Definition FDWrapper_close (kernel : Z) : method FDWrapper unit :=
  _ ← lift (SystemCall "close" (answer kernel) kernel 0);
  modify (fun f => mkFD true true (fd_read_count f) (fd_write_count f)).

(** [read(limit)]: [kernel] is what [::read] answers to a request of that size, an
    [errno] or data. *)
Definition FileDescriptor_read (limit : Z) (kernel : Z -> Z + bytes) : method FDWrapper bytes :=
  let size_to_read := Z.min BUFFER_SIZE limit in
  match kernel size_to_read with
  | inl errno => _ ← lift (SystemCall "read" (-1) errno 0); lift (Throw (UB "failure without errno"))
  | inr str =>
      bytes_read ← lift (SystemCall "read" (zlen str) 0 0);
      _ ← modify (fun f => if (0 <? limit) && (bytes_read =? 0)
                           then mkFD true (fd_closed f) (fd_read_count f) (fd_write_count f) else f);
      _ ← ((if size_to_read <? bytes_read then lift (Throw (runtime_error "read() read more than requested"))
            else mret tt) : method FDWrapper unit);
      _ ← modify register_read;
      mret str
  end.

(** [write(buffer, write_all)]: [kernel] lists the answers to the successive [::writev]
    calls, each an [errno] or the number of bytes written; the result is the total,
    [NoFuel] when the kernel never answers. *)
Fixpoint FileDescriptor_write (kernel : list (Z + Z)) (buffer : BufferViewList) (write_all : bool) (total : Z)
  : method FDWrapper Z :=
  match kernel with
  | [] => lift NoFuel
  | answer :: kernel' =>
      bytes_written ← lift (match answer with
                            | inl errno => SystemCall "writev" (-1) errno 0
                            | inr n => SystemCall "writev" n 0 0
                            end);
      if (bytes_written =? 0) && negb (BufferViewList_size buffer =? 0)
      then lift (Throw (runtime_error "write returned 0 given non-empty input buffer"))
      else if BufferViewList_size buffer <? bytes_written
      then lift (Throw (runtime_error "write wrote more than length of input buffer"))
      else
        _ ← modify register_write;
        buffer' ← lift (BufferViewList_remove_prefix buffer bytes_written);
        let total := total +64 bytes_written in
        if write_all && negb (BufferViewList_size buffer' =? 0)
        then FileDescriptor_write kernel' buffer' write_all total
        else mret total
  end.

Definition O_NONBLOCK : Z := 2048.

(** [set_blocking]: the new file status flags; [getfl] is an [errno] or the old ones,
    [setfl] is 0 or an [errno]. *)
Definition set_blocking (blocking_state : bool) (getfl : Z + Z) (setfl : Z) : res Z :=
  flags ← match getfl with
          | inl errno => SystemCall "fcntl" (-1) errno 0
          | inr flags => SystemCall "fcntl" flags 0 0
          end;
  let flags := if blocking_state then Z.lxor flags (Z.land flags O_NONBLOCK) else Z.lor flags O_NONBLOCK in
  _ ← SystemCall "fcntl" (answer setfl) setfl 0;
  Ok flags.

(** ** Sockets *)

Definition SHUT_RD : Z := 0.
Definition SHUT_WR : Z := 1.
Definition SHUT_RDWR : Z := 2.

(** [kernel] is 0 or the [errno]. *)
Definition Socket_shutdown (how : Z) (kernel : Z) : method FDWrapper unit :=
  _ ← lift (SystemCall "shutdown" (answer kernel) kernel 0);
  if how =? SHUT_RD then modify register_read
  else if how =? SHUT_WR then modify register_write
  else if how =? SHUT_RDWR then _ ← modify register_read; modify register_write
  else lift (Throw (runtime_error "Socket::shutdown() called with invalid `how`")).

(** The check of [Socket(fd, domain, type)]: the kernel's answers to the two
    [getsockopt] calls, each an [errno] or a value and its length, against what is expected. *)
Definition Socket_verify (domain type : Z) (actual_domain actual_type : Z + Z * Z) : res unit :=
  let getsockopt expected what actual :=
    match actual with
    | inl errno => _ ← SystemCall "getsockopt" (-1) errno 0; Throw (UB "failure without errno")
    | inr (actual_value, len) =>
        if negb (len =? 4) || negb (actual_value =? expected) then Throw (runtime_error what) else Ok tt
    end in
  _ ← getsockopt domain "socket domain mismatch"%string actual_domain;
  getsockopt type "socket type mismatch"%string actual_type.

(** [accept] counts as a read, even when it fails. *)
Definition TCPSocket_accept (kernel : Z + Z) : method FDWrapper Z :=
  _ ← modify register_read;
  lift (match kernel with
        | inl errno => SystemCall "accept" (-1) errno 0
        | inr fd => SystemCall "accept" fd 0 0
        end).

(** [UDPSocket::recv(mtu)] on what [recvfrom] with [MSG_TRUNC] answers: an [errno], or the
    sender and the whole datagram, whose full length it returns. *)
Definition UDPSocket_recv (mtu : Z) (kernel : Z + Address * bytes) : method FDWrapper (Address * bytes) :=
  match kernel with
  | inl errno => _ ← lift (SystemCall "recvfrom" (-1) errno 0); lift (Throw (UB "failure without errno"))
  | inr (source_address, payload) =>
      recv_len ← lift (SystemCall "recvfrom" (zlen payload) 0 0);
      if mtu <? recv_len then lift (Throw (runtime_error "recvfrom (oversized datagram)"))
      else _ ← modify register_read; mret (source_address, ztake recv_len payload)
  end.

(** [kernel] is what [sendmsg] answers, an [errno] or the number of bytes sent. *)
Definition sendmsg_helper (payload : BufferViewList) (kernel : Z + Z) : res unit :=
  bytes_sent ← match kernel with
               | inl errno => SystemCall "sendmsg" (-1) errno 0
               | inr n => SystemCall "sendmsg" n 0 0
               end;
  if negb (u64 bytes_sent =? BufferViewList_size payload)
  then Throw (runtime_error "datagram payload too big for sendmsg()") else Ok tt.

Definition UDPSocket_sendto (payload : BufferViewList) (kernel : Z + Z) : method FDWrapper unit :=
  _ ← lift (sendmsg_helper payload kernel);
  modify register_write.

(** ** Reading and writing *)

Definition fd_ok (f : FDWrapper) : Prop := 0 <= fd_read_count f < W32 /\ 0 <= fd_write_count f < W32.

Lemma SystemCall_ok what n errno mask : 0 <= n -> SystemCall what n errno mask = Ok n.
Proof. intros H. unfold SystemCall. by destruct (Z.leb_spec 0 n); [|lia]. Qed.

Lemma views_size_acc (l : BufferViewList) : forall acc, 0 <= acc -> acc + zlen (concat l) < W64 ->
  fold_left (fun ret v => ret +64 zlen v) l acc = acc + zlen (concat l).
Proof.
  induction l as [|v l IH]; intros acc Ha Hb; simpl in *; [rewrite (@zlen_nil byte); lia|].
  rewrite zlen_app in *. rewrite u64_id by zlia. rewrite IH; zlia.
Qed.

Lemma views_size_spec l : zlen (concat l) < W64 -> BufferViewList_size l = zlen (concat l).
Proof. intros H. unfold BufferViewList_size. rewrite views_size_acc by lia. lia. Qed.

Lemma views_remove_prefix l : forall n, 0 <= n <= zlen (concat l) -> zlen (concat l) < W64 ->
  exists l', BufferViewList_remove_prefix l n = Ok l' /\ concat l' = zdrop n (concat l).
Proof.
  induction l as [|v l IH]; intros n Hn Hl; simpl in *.
  - rewrite (@zlen_nil byte) in Hn. assert (n = 0) as -> by lia. exists []. by split.
  - rewrite zlen_app in *. destruct (Z.ltb_spec 0 n); [|assert (n = 0) by lia; subst; by exists (v :: l)].
    destruct (Z.ltb_spec n (zlen v)).
    + exists (zdrop n v :: l). split; [done|]. simpl. by rewrite zdrop_app_le by lia.
    + rewrite u64_id by zlia. destruct (IH (n - zlen v)) as (l' & E & Hc); [lia|zlia|]. exists l'. split; [done|].
      by rewrite Hc, zdrop_app_ge by lia.
Qed.

Lemma write_all_spec kernel : forall buffer total f, Forall (fun n => 0 < n) kernel ->
  zlen (concat buffer) = fold_right Z.add 0 kernel -> 0 < zlen (concat buffer) -> 0 <= total ->
  total + zlen (concat buffer) < W64 ->
  exists f', FileDescriptor_write (map inr kernel) buffer true total f = (Ok (total + zlen (concat buffer)), f') /\
    fd_eof f' = fd_eof f /\ fd_closed f' = fd_closed f /\ fd_read_count f' = fd_read_count f.
Proof.
  induction kernel as [|n kernel IH]; intros buffer total f Hk Hs Hpos Ht Hb; simpl in Hs; [lia|].
  apply Forall_cons in Hk as [Hn Hk].
  assert (Hrest : 0 <= fold_right Z.add 0 kernel) by (clear -Hk; induction Hk; simpl; lia).
  cbn [map FileDescriptor_write]. rewrite SystemCall_ok by lia. mrun. rewrite views_size_spec by lia.
  destruct (Z.eqb_spec n 0); [lia|]. cbn [andb]. destruct (Z.ltb_spec (zlen (concat buffer)) n); [lia|]. mrun.
  destruct (views_remove_prefix buffer n) as (l' & El & Hc); [lia|lia|]. rewrite El. mrun.
  assert (Hl' : zlen (concat l') = zlen (concat buffer) - n) by (rewrite Hc, zlen_zdrop by lia; done).
  rewrite (views_size_spec l') by lia. rewrite (u64_id (total + n)) by lia. cbn [andb].
  destruct (Z.eqb_spec (zlen (concat l')) 0) as [Hz|Hz]; cbn [negb].
  - exists (register_write f). split; [|done]. unfold mret, method_ret. by replace (total + n) with (total + zlen (concat buffer)) by lia.
  - destruct (IH l' (total + n) (register_write f) Hk) as (f' & E & H1 & H2 & H3); [lia|zlia|lia|lia|].
    exists f'. rewrite E. split; [|done]. by replace (total + n + zlen (concat l')) with (total + zlen (concat buffer)) by lia.
Qed.

(** The reading descriptor ends exactly when a read that asked for something got nothing;
    every read that succeeds is counted. *)
Lemma read_spec limit kernel f : 0 <= limit ->
  (forall n, 0 <= n -> exists d, kernel n = inr d /\ zlen d <= n) ->
  exists d f', FileDescriptor_read limit kernel f = (Ok d, f') /\ zlen d <= Z.min BUFFER_SIZE limit /\
    f' = mkFD (fd_eof f || ((0 <? limit) && (zlen d =? 0))) (fd_closed f) (u32 (fd_read_count f + 1)) (fd_write_count f).
Proof.
  intros Hl Hk. destruct (Hk (Z.min BUFFER_SIZE limit)) as (d & Ed & Hd); [unfold BUFFER_SIZE; lia|]. exists d.
  unfold FileDescriptor_read. rewrite Ed, SystemCall_ok by zlia. mrun.
  destruct (Z.ltb_spec (Z.min BUFFER_SIZE limit) (zlen d)); [lia|]. mrun.
  eexists. split; [reflexivity|]. split; [done|].
  destruct ((0 <? limit) && (zlen d =? 0)); [by rewrite orb_true_r|]. rewrite orb_false_r. by destruct f.
Qed.

(** One [writev] of which part may be accepted. *)
Lemma write_once_spec n b f : 0 <= n <= zlen b -> (b <> [] -> 0 < n) -> zlen b < W64 ->
  FileDescriptor_write [inr n] (BufferViewList_of_string b) false 0 f = (Ok n, register_write f).
Proof.
  intros Hn Hpos Hb. cbn [FileDescriptor_write]. rewrite SystemCall_ok by lia. mrun.
  assert (Hs : BufferViewList_size (BufferViewList_of_string b) = zlen b)
    by (rewrite views_size_spec; simpl; by rewrite app_nil_r).
  rewrite Hs. assert ((n =? 0) && negb (zlen b =? 0) = false) as ->.
  { destruct (Z.eqb_spec n 0), (Z.eqb_spec (zlen b) 0); try done. destruct b; [done|]. enough (0 < n) by lia. by apply Hpos. }
  destruct (Z.ltb_spec (zlen b) n); [lia|]. mrun.
  destruct (views_remove_prefix (BufferViewList_of_string b) n) as (l' & -> & _);
    [simpl; rewrite app_nil_r; lia|simpl; by rewrite app_nil_r|].
  mrun. cbn [andb]. by rewrite Z.add_0_l, u64_id by lia.
Qed.

(** The counters of a descriptor really change: they are taken modulo 2^32. *)
Lemma register_changes n : 0 <= n < W32 -> u32 (n + 1) <> n.
Proof.
  intros H. destruct (Z.eq_dec n (W32 - 1)) as [->|]; [done|]. rewrite u32_id by lia. lia.
Qed.

Lemma register_changes_twice n : 0 <= n < W32 -> u32 (u32 (n + 1) + 1) <> n.
Proof.
  intros H. unfold u32. rewrite Zplus_mod_idemp_l, <- Z.add_assoc.
  destruct (Z.lt_ge_cases (n + 2) W32); [rewrite Z.mod_small by lia; lia|].
  rewrite (Z.mod_eq (n + (1 + 1))) by lia. assert ((n + (1 + 1)) / W32 = 1) as ->; [|lia].
  symmetry. apply Z.div_unique with (n + 2 - W32); lia.
Qed.

(** [set_blocking] changes one bit of the flags. *)
Lemma set_blocking_spec b flags : 0 <= flags -> exists flags', set_blocking b (inr flags) 0 = Ok flags' /\
  forall i, 0 <= i -> Z.testbit flags' i = if i =? 11 then negb b else Z.testbit flags i.
Proof.
  intros Hf. unfold set_blocking. rewrite (SystemCall_ok _ flags) by done. eexists. split; [reflexivity|]. intros i Hi.
  unfold O_NONBLOCK. change 2048 with (2 ^ 11).
  destruct b; rewrite ?Z.lxor_spec, ?Z.land_spec, ?Z.lor_spec, Z.pow2_bits_eqb, (Z.eqb_sym 11) by lia;
    destruct (i =? 11), (Z.testbit flags i); done.
Qed.

(** [write(buffer, true)] returns only when everything is written: whatever positive
    amounts the kernel accepts at a time, once they add up to the buffer's length the call
    returns that length, with end-of-file and read count untouched. *)
Theorem write_all_completes kernel buffer f : Forall (fun n => 0 < n) kernel ->
  zlen (concat buffer) = fold_right Z.add 0 kernel -> 0 < zlen (concat buffer) < W64 ->
  exists f', FileDescriptor_write (map inr kernel) buffer true 0 f = (Ok (zlen (concat buffer)), f') /\
    fd_eof f' = fd_eof f /\ fd_closed f' = fd_closed f /\ fd_read_count f' = fd_read_count f.
Proof. intros Hk Hs Hb. apply (write_all_spec kernel buffer 0 f); [done|done|lia..]. Qed.

Lemma write_all_completes_witness : exists f',
  FileDescriptor_write (map inr [1; 3]) [[byte_of 1; byte_of 2]; [byte_of 3; byte_of 4]] true 0 FDWrapper_new
  = (Ok 4, f') /\ fd_eof f' = false.
Proof.
  destruct (write_all_completes [1; 3] [[byte_of 1; byte_of 2]; [byte_of 3; byte_of 4]] FDWrapper_new) as (f' & H & H1 & _);
    [repeat constructor|reflexivity|split; reflexivity|].
  exists f'. split; [exact H|exact H1].
Defined.
