(* ===== verification/Text.v ===== *)
(** * Printing

    Models the text that the program prints of its data: [to_string] and [summary] of
    [tcp_header.cc], [ipv4_header.cc], [ethernet_header.cc] and [arp_message.cc], the
    output operator of [wrapping_integers.hh], [to_string] of [address.cc], the frame
    summaries of [apps/lab7.cc] and [apps/network_simulator.cc], and [apps/tun.cc], which
    prints what it reads from a device. *)

From stdpp Require Import pretty.
From Stdlib Require Import String Ascii.
From S2P Require Import Prelude WrappingInts Buffers Checksum Parser TCPSegments IPv4 Ethernet Addresses Adapters CommandLine PacketDump FileDescriptors.

(** ** Streams *)

(** [hex << n] for an unsigned number: no leading zeros. *)
Definition hex_of (n : Z) : string := hex (S (Z.to_nat (Z.log2 n / 4))) n.

(** [boolalpha << b] *)
Definition bool_text (b : bool) : string := if b then "true" else "false".

Definition newline : ascii := "010".
Definition nl : string := String newline "".

(** [inet_ntoa({htobe32(address)})] *)
Definition inet_ntoa (address : Z) : string :=
  pretty (Z.shiftr address 24) +:+ "." +:+ pretty (Z.land (Z.shiftr address 16) 255) +:+ "." +:+
  pretty (Z.land (Z.shiftr address 8) 255) +:+ "." +:+ pretty (Z.land address 255).

(** [os << a] on a stream in decimal and one in hexadecimal. *)
Definition wi_dec (a : WrappingInt32) : string := pretty (raw_value a).
Definition wi_hex (a : WrappingInt32) : string := hex_of (raw_value a).

(** ** Headers *)

Definition TCPHeader_to_string (h : TCPHeader) : string :=
  "TCP source port: " +:+ hex_of (th_sport h) +:+ nl +:+
  "TCP dest port: " +:+ hex_of (th_dport h) +:+ nl +:+
  "TCP seqno: " +:+ wi_hex (th_seqno h) +:+ nl +:+
  "TCP ackno: " +:+ wi_hex (th_ackno h) +:+ nl +:+
  "TCP doff: " +:+ hex_of (th_doff h) +:+ nl +:+
  "Flags: urg: " +:+ bool_text (th_urg h) +:+ " ack: " +:+ bool_text (th_ack h) +:+ " psh: " +:+ bool_text (th_psh h) +:+
  " rst: " +:+ bool_text (th_rst h) +:+ " syn: " +:+ bool_text (th_syn h) +:+ " fin: " +:+ bool_text (th_fin h) +:+ nl +:+
  "TCP winsize: " +:+ hex_of (th_win h) +:+ nl +:+
  "TCP cksum: " +:+ hex_of (th_cksum h) +:+ nl +:+
  "TCP uptr: " +:+ hex_of (th_uptr h) +:+ nl.

Definition TCPHeader_summary (h : TCPHeader) : string :=
  "Header(flags=" +:+ flag_letter (th_syn h) "S" +:+ flag_letter (th_ack h) "A" +:+ flag_letter (th_rst h) "R" +:+ flag_letter (th_fin h) "F" +:+
  ",seqno=" +:+ wi_dec (th_seqno h) +:+ ",ack=" +:+ wi_dec (th_ackno h) +:+ ",win=" +:+ pretty (th_win h) +:+ ")".

Definition IPv4Header_to_string (h : IPv4Header) : string :=
  "IP version: " +:+ hex_of (ip_ver h) +:+ nl +:+
  "IP hdr len: " +:+ hex_of (ip_hlen h) +:+ nl +:+
  "IP tos: " +:+ hex_of (ip_tos h) +:+ nl +:+
  "IP dgram len: " +:+ hex_of (ip_len h) +:+ nl +:+
  "IP id: " +:+ hex_of (ip_id h) +:+ nl +:+
  "Flags: df: " +:+ bool_text (ip_df h) +:+ " mf: " +:+ bool_text (ip_mf h) +:+ nl +:+
  "Offset: " +:+ hex_of (ip_offset h) +:+ nl +:+
  "TTL: " +:+ hex_of (ip_ttl h) +:+ nl +:+
  "Protocol: " +:+ hex_of (ip_proto h) +:+ nl +:+
  "Checksum: " +:+ hex_of (ip_cksum h) +:+ nl +:+
  "Src addr: " +:+ hex_of (ip_src h) +:+ nl +:+
  "Dst addr: " +:+ hex_of (ip_dst h) +:+ nl.

(** The stream is in hexadecimal, [::to_string(ttl)] is not. *)
Definition IPv4Header_summary (h : IPv4Header) : string :=
  "IPv" +:+ hex_of (ip_ver h) +:+ ", " +:+ "len=" +:+ hex_of (ip_len h) +:+ ", " +:+
  "protocol=" +:+ hex_of (ip_proto h) +:+ ", " +:+
  (if 10 <=? ip_ttl h then "" else "ttl=" +:+ pretty (ip_ttl h) +:+ ", ") +:+
  "src=" +:+ inet_ntoa (ip_src h) +:+ ", " +:+ "dst=" +:+ inet_ntoa (ip_dst h).

(** The octets, two digits each, with a colon after each but the last. *)
Fixpoint EthernetAddress_to_string (address : EthernetAddress) : string :=
  match address with
  | [] => ""
  | [b] => hex 2 b
  | b :: address' => hex 2 b +:+ ":" +:+ EthernetAddress_to_string address'
  end.

Definition EthernetHeader_to_string (h : EthernetHeader) : string :=
  "dst=" +:+ EthernetAddress_to_string (eh_dst h) +:+ ", src=" +:+ EthernetAddress_to_string (eh_src h) +:+ ", type=" +:+
  (if eh_type h =? TYPE_IPv4 then "IPv4"
   else if eh_type h =? TYPE_ARP then "ARP"
   else "[unknown type " +:+ hex_of (eh_type h) +:+ "!]").

Definition ARPMessage_to_string (m : ARPMessage) : string :=
  let opcode_str := "(unknown type)" in
  let opcode_str := if arp_opcode m =? OPCODE_REQUEST then "REQUEST" else opcode_str in
  let opcode_str := if arp_opcode m =? OPCODE_REPLY then "REPLY" else opcode_str in
  "opcode=" +:+ opcode_str +:+ ", sender=" +:+ EthernetAddress_to_string (arp_sender_ethernet_address m) +:+ "/" +:+
  inet_ntoa (arp_sender_ip_address m) +:+ ", target=" +:+ EthernetAddress_to_string (arp_target_ethernet_address m) +:+ "/" +:+
  inet_ntoa (arp_target_ip_address m).

(** ** Addresses *)

Section Names.
(** The text the C library gives for an IPv6 address. *)
Context (inet_ntop6 : bytes -> string).

(** [getnameinfo] with [NI_NUMERICHOST | NI_NUMERICSERV]. *)
Definition ip_port (a : Address) : res (string * Z) :=
  port ← Address_port a;
  Ok (if Address_family a =? AF_INET then inet_ntoa (be_val 0 (sub_bytes 4 4 (ad_storage a))) else inet_ntop6 (sub_bytes 8 16 (ad_storage a)), port).

Definition Address_to_string (a : Address) : res string :=
  '(ip, port) ← ip_port a;
  Ok (ip +:+ ":" +:+ pretty port).
End Names.

(** ** Frames *)

(** [summary(frame)] of [lab7.cc] and of [network_simulator.cc]: they differ in what they
    show of a datagram; the second converts the payload, which must be one buffer at most. *)
Definition summary_with (datagram_buffer : BufferList -> res Buffer) (more : IPv4Datagram -> res string) (frame : EthernetFrame) : res string :=
  let ret := EthernetHeader_to_string (ef_header frame) in
  let type := eh_type (ef_header frame) in
  if type =? TYPE_IPv4 then
    buffer ← datagram_buffer (ef_payload frame);
    '(result, dgram) ← IPv4Datagram_parse IPv4Datagram_default buffer;
    if bool_decide (result = NoError) then
      text ← more dgram;
      Ok (ret +:+ " " +:+ IPv4Header_summary (ipd_header dgram) +:+ text)
    else Ok (ret +:+ " (bad IPv4)")
  else if type =? TYPE_ARP then
    buffer ← BufferList_to_Buffer (ef_payload frame);
    '(result, arp) ← ARPMessage_parse ARPMessage_default buffer;
    Ok (ret +:+ if bool_decide (result = NoError) then " " +:+ ARPMessage_to_string arp else " (bad ARP)")
  else Ok ret.

Definition lab7_summary : EthernetFrame -> res string :=
  summary_with (fun l => Ok (Buffer_of_string (BufferList_concatenate l))) (fun dgram =>
    if ip_proto (ipd_header dgram) =? PROTO_TCP then
      '(result, tcp_seg) ← TCPSegment_parse TCPSegment_default (Buffer_of_string (BufferList_concatenate (ipd_payload dgram)))
                             (IPv4Header_pseudo_cksum (ipd_header dgram));
      Ok (if bool_decide (result = NoError) then " " +:+ TCPHeader_summary (ts_header tcp_seg) else "")
    else Ok "").

Definition simulator_summary : EthernetFrame -> res string :=
  summary_with BufferList_to_Buffer (fun dgram =>
    Ok (" payload=" +:+ String "034" (string_of_list_byte (BufferList_concatenate (ipd_payload dgram)) +:+ String "034" ""))).

(** ** tun.cc *)

(** What one pass of the loop prints of what was read. *)
Definition show_datagram (buffer : bytes) : res string :=
  let out := nl +:+ nl +:+ "***" +:+ nl +:+ "*** Got packet:" +:+ nl +:+ "***" +:+ nl +:+ hexdump buffer 0 +:+
             "attempting to parse as ipv4 datagram... " in
  '(result, ip_dgram) ← IPv4Datagram_parse IPv4Datagram_default (Buffer_of_string buffer);
  if negb (bool_decide (result = NoError)) then Ok (out +:+ "failed." +:+ nl)
  else
    let out := out +:+ "success! totlen=" +:+ pretty (ip_len (ipd_header ip_dgram)) +:+ ", IPv4 header contents:" +:+ nl +:+
               IPv4Header_to_string (ipd_header ip_dgram) in
    if negb (ip_proto (ipd_header ip_dgram) =? PROTO_TCP) then Ok (out +:+ nl +:+ "Not TCP, skipping." +:+ nl)
    else
      let out := out +:+ nl +:+ "Attempting to parse as a TCP segment... " in
      payload ← BufferList_to_Buffer (ipd_payload ip_dgram);
      '(result, tcp_seg) ← TCPSegment_parse TCPSegment_default payload (IPv4Header_pseudo_cksum (ipd_header ip_dgram));
      if negb (bool_decide (result = NoError)) then Ok (out +:+ "failed." +:+ nl)
      else Ok (out +:+ "success! payload len=" +:+ pretty (Buffer_size (ts_payload tcp_seg)) +:+ ", TCP header contents:" +:+ nl +:+
               TCPHeader_to_string (ts_header tcp_seg) +:+ nl).

(** The loop on the answers of the kernel to the reads of the device: the texts, until an
    exception, which ends the program. *)
Fixpoint show_loop (kernel : list (Z -> Z + bytes)) (tun : FDWrapper) : list string * res unit :=
  match kernel with
  | [] => ([], NoFuel)
  | k :: kernel' =>
      match FileDescriptor_read (W64 - 1) k tun with
      | (Ok buffer, tun') =>
          match show_datagram buffer with
          | Ok text => let '(texts, r) := show_loop kernel' tun' in (text :: texts, r)
          | Throw e => ([], Throw e)
          | NoFuel => ([], NoFuel)
          end
      | (Throw e, _) => ([], Throw e)
      | (NoFuel, _) => ([], NoFuel)
      end
  end.

(** ** Reading texts back *)

(** Texts that end at the character [c] can be told apart. *)
Definition delimited {X} (c : ascii) (ok : X -> Prop) (text : X -> string) : Prop :=
  forall x x' s s', ok x -> ok x' -> text x +:+ String c s = text x' +:+ String c s' -> x = x' /\ s = s'.

(** A text from which a function reads the value. *)
Lemma delimited_by {X} c ok (text : X -> string) (read : string -> X) :
  (forall x s, ok x -> read (text x +:+ String c s) = x) -> delimited c ok text.
Proof.
  intros Hr x x' s s' Hx Hx' E. assert (x = x') as <- by (rewrite <- (Hr x s Hx), E; by apply Hr). split; [done|].
  apply (inj (String.app (text x))) in E. by injection E.
Qed.

Lemma digit_hex d : 0 <= d < 16 -> digit (hex_digit d) = d.
Proof.
  intros H. assert (Hd : forallb (fun d => digit (hex_digit d) =? d) [0;1;2;3;4;5;6;7;8;9;10;11;12;13;14;15] = true) by (vm_compute; reflexivity).
  rewrite forallb_forall in Hd. apply Z.eqb_eq, Hd. cbn. lia.
Qed.

Lemma digits_hex w : forall v acc t, 0 <= v < 16 ^ Z.of_nat w -> digits 16 acc (hex w v +:+ t) = digits 16 (acc * 16 ^ Z.of_nat w + v) t.
Proof.
  induction w as [|w IH]; intros v acc t Hv.
  - change (16 ^ Z.of_nat 0) with 1 in *. assert (v = 0) as -> by lia. cbn. f_equal. lia.
  - rewrite Nat2Z.inj_succ, Z.pow_succ_r in * by lia. cbn [hex]. rewrite string_app_assoc.
    pose proof (Z.div_mod v 16 ltac:(lia)). pose proof (Z.mod_pos_bound v 16 ltac:(lia)).
    rewrite IH by (split; [apply Z.div_pos; lia|apply Z.div_lt_upper_bound; lia]). change (String (hex_digit (v mod 16)) "" +:+ t) with (String (hex_digit (v mod 16)) t). cbn [digits]. rewrite digit_hex by lia.
    destruct (Z.ltb_spec (v mod 16) 16); [|lia]. f_equal. lia.
Qed.

Lemma hex_of_width n : 0 <= n -> n < 16 ^ Z.of_nat (S (Z.to_nat (Z.log2 n / 4))).
Proof.
  intros Hn. pose proof (Z.log2_nonneg n). assert (0 <= Z.log2 n / 4) by (apply Z.div_pos; lia). rewrite Nat2Z.inj_succ, Z2Nat.id by done.
  change 16 with (2 ^ 4). rewrite <- Z.pow_mul_r by lia.
  destruct (Z.eq_dec n 0) as [->|]; [apply Z.pow_pos_nonneg; lia|].
  destruct (Z.log2_spec n ltac:(lia)) as [_ Hl]. eapply Z.lt_le_trans; [exact Hl|]. apply Z.pow_le_mono_r; [lia|].
  pose proof (Z.div_mod (Z.log2 n) 4 ltac:(lia)). pose proof (Z.mod_pos_bound (Z.log2 n) 4 ltac:(lia)). lia.
Qed.

Lemma digits_stop base acc c s : base <= digit c -> digits base acc (String c s) = acc.
Proof. intros H. cbn. by destruct (Z.ltb_spec (digit c) base); [lia|]. Qed.

Lemma hex_delimited c w : 16 <= digit c -> delimited c (fun v => 0 <= v < 16 ^ Z.of_nat w) (hex w).
Proof. intros Hc. apply (delimited_by c _ _ (digits 16 0)). intros v s Hv. rewrite digits_hex, digits_stop by done. lia. Qed.

Lemma hex_of_delimited c : 16 <= digit c -> delimited c (fun v => 0 <= v) hex_of.
Proof.
  intros Hc. apply (delimited_by c _ _ (digits 16 0)). intros v s Hv. unfold hex_of. rewrite digits_hex by (split; [done|by apply hex_of_width]).
  rewrite digits_stop by done. lia.
Qed.

Lemma pretty_go_app x : forall s, pretty_N_go x s = pretty_N_go x "" +:+ s.
Proof.
  induction (N.lt_wf_0 x) as [x _ IH]. intros s. destruct (decide (0 < x)%N) as [Hx|Hx].
  - rewrite !(pretty_N_go_step x) by done. rewrite (IH _ (N.div_lt x 10 Hx ltac:(lia)) (String _ s)), (IH _ (N.div_lt x 10 Hx ltac:(lia)) (String _ "")).
    by rewrite string_app_assoc.
  - assert (x = 0%N) as -> by lia. done.
Qed.

Lemma pretty_delimited c : 10 <= digit c -> delimited c (fun v => 0 <= v) pretty.
Proof.
  intros Hc. apply (delimited_by c _ _ (digits 10 0)). intros n s Hn.
  destruct n as [|p|p]; [|change (pretty (Z.pos p)) with (pretty_N_go (N.pos p) "")|lia].
  - change (digits 10 0 (String c s) = 0). by apply digits_stop.
  - rewrite <- pretty_go_app, digits_pretty_go, digits_stop by done. done.
Qed.

Lemma bool_delimited c : delimited c (fun _ => True) bool_text.
Proof. intros [] [] s s' _ _ E; try discriminate E; injection E; auto. Qed.

Lemma byte_pieces v : 0 <= v < W32 -> v = Z.shiftr v 24 * 2 ^ 24 + Z.land (Z.shiftr v 16) 255 * 2 ^ 16 + Z.land (Z.shiftr v 8) 255 * 2 ^ 8 + Z.land v 255.
Proof.
  intros H. change 255 with (Z.ones 8). rewrite !Z.land_ones, !Z.shiftr_div_pow2 by lia.
  replace (v / 2 ^ 24) with (v / 2 ^ 8 / 2 ^ 8 / 2 ^ 8) by (by rewrite !Z.div_div by lia).
  replace (v / 2 ^ 16) with (v / 2 ^ 8 / 2 ^ 8) by (by rewrite Z.div_div by lia).
  pose proof (Z.div_mod v (2 ^ 8) ltac:(lia)). pose proof (Z.div_mod (v / 2 ^ 8) (2 ^ 8) ltac:(lia)). pose proof (Z.div_mod (v / 2 ^ 8 / 2 ^ 8) (2 ^ 8) ltac:(lia)). lia.
Qed.

Lemma inet_ntoa_delimited c : 10 <= digit c -> delimited c (fun v => 0 <= v < W32) inet_ntoa.
Proof.
  intros Hc x x' s s' Hx Hx' E. unfold inet_ntoa in E. repeat rewrite !string_app_assoc in E.
  assert (Hn : forall v k, 0 <= v -> 0 <= Z.land (Z.shiftr v k) 255) by (intros; apply Z.land_nonneg; right; lia).
  assert (Hn0 : forall v, 0 <= v -> 0 <= Z.land v 255) by (intros; apply Z.land_nonneg; right; lia).
  assert (Hs : forall v, 0 <= v -> 0 <= Z.shiftr v 24) by (intros; by apply Z.shiftr_nonneg).
  apply (pretty_delimited ".") in E as [E1 E]; [|done|apply Hs; lia|apply Hs; lia].
  apply (pretty_delimited ".") in E as [E2 E]; [|done|apply Hn; lia|apply Hn; lia].
  apply (pretty_delimited ".") in E as [E3 E]; [|done|apply Hn; lia|apply Hn; lia].
  apply (pretty_delimited c) in E as [E4 E]; [|done|apply Hn0; lia|apply Hn0; lia].
  split; [|done]. rewrite (byte_pieces x), (byte_pieces x') by done. congruence.
Qed.

Lemma octets_delimited c n : 16 <= digit c -> delimited c (fun a => length a = S n /\ Forall (fun v => 0 <= v < 256) a) EthernetAddress_to_string.
Proof.
  intros Hc. induction n as [|n IH]; intros [|b a] [|b' a'] s s' [Hl Hf] [Hl' Hf'] E; try done; cbn in Hl, Hl'; injection Hl as Hl; injection Hl' as Hl';
    apply Forall_cons in Hf as [Hb Hf]; apply Forall_cons in Hf' as [Hb' Hf'].
  - apply nil_length_inv in Hl as ->. apply nil_length_inv in Hl' as ->. apply (hex_delimited c 2) in E as [-> ->]; done.
  - destruct a as [|b1 a]; [done|]. destruct a' as [|b1' a']; [done|].
    change (EthernetAddress_to_string (?x :: ?y :: ?z)) with (hex 2 x +:+ ":" +:+ EthernetAddress_to_string (y :: z)) in E. rewrite !string_app_assoc in E.
    apply (hex_delimited ":" 2) in E as [-> E]; [|done..]. destruct (IH (b1 :: a) (b1' :: a') s s') as [Ea ->]; [done|done|exact E|]. by rewrite Ea.
Qed.

Lemma EthernetAddress_delimited c : 16 <= digit c -> delimited c EthernetAddress_valid EthernetAddress_to_string.
Proof. intros Hc. by apply (octets_delimited c 5). Qed.

(** A value at the end of a text. *)
Lemma delimited_end {X} c ok (text : X -> string) x x' : delimited c ok text -> ok x -> ok x' -> text x = text x' -> x = x'.
Proof. intros Hd Hx Hx' E. destruct (Hd x x' "" "" Hx Hx') as [-> _]; [by rewrite E|done]. Qed.

Lemma wi_hex_delimited c : 16 <= digit c -> delimited c wi_ok wi_hex.
Proof.
  intros Hc [x] [x'] s s' Hx Hx' E. unfold wi_ok, wi_hex in *. destruct (hex_of_delimited c Hc x x' s s') as [-> ->]; [apply Hx|apply Hx'|exact E|done].
Qed.

Lemma wi_dec_delimited c : 10 <= digit c -> delimited c wi_ok wi_dec.
Proof.
  intros Hc [x] [x'] s s' Hx Hx' E. unfold wi_ok, wi_dec in *. destruct (pretty_delimited c Hc x x' s s') as [-> ->]; [apply Hx|apply Hx'|exact E|done].
Qed.

(** The next label of two equal texts [E], and the value after it. *)
Ltac label E := first [apply (inj (String.app _)) in E | injection E as E].
Ltac field L E := try label E; apply L in E as [? E]; [|done || lia..].

Lemma TCPHeader_text h h' : TCPHeader_valid h -> TCPHeader_valid h' -> TCPHeader_to_string h = TCPHeader_to_string h' -> h = h'.
Proof.
  intros [] [] E. unfold TCPHeader_to_string in E.
  field (hex_of_delimited newline) E. field (hex_of_delimited newline) E. field (wi_hex_delimited newline) E. field (wi_hex_delimited newline) E.
  field (hex_of_delimited newline) E. do 5 field (bool_delimited " ") E. field (bool_delimited newline) E.
  do 3 field (hex_of_delimited newline) E. clear E. destruct h, h'. cbn in *. by f_equal.
Qed.

Lemma IPv4Header_text h h' : IPv4Header_valid h -> IPv4Header_valid h' -> IPv4Header_to_string h = IPv4Header_to_string h' -> h = h'.
Proof.
  intros [] [] E. unfold IPv4Header_to_string in E. do 5 field (hex_of_delimited newline) E. field (bool_delimited " ") E. field (bool_delimited newline) E.
  do 6 field (hex_of_delimited newline) E. clear E. destruct h, h'. cbn in *. by f_equal.
Qed.

Lemma EthernetHeader_text h h' : EthernetHeader_valid h -> EthernetHeader_valid h' -> EthernetHeader_to_string h = EthernetHeader_to_string h' -> h = h'.
Proof.
  intros [] [] E. unfold EthernetHeader_to_string in E. do 2 field (EthernetAddress_delimited ",") E. label E.
  assert (Ht : eh_type h = eh_type h').
  { destruct (Z.eqb_spec (eh_type h) TYPE_IPv4), (Z.eqb_spec (eh_type h') TYPE_IPv4), (Z.eqb_spec (eh_type h) TYPE_ARP), (Z.eqb_spec (eh_type h') TYPE_ARP);
      try congruence; try discriminate E. field (hex_of_delimited "!") E. done. }
  clear E. destruct h, h'. cbn in *. by f_equal.
Qed.

Lemma ARPMessage_text m m' : ARPMessage_valid m -> ARPMessage_valid m' -> ARPMessage_to_string m = ARPMessage_to_string m' -> m = m'.
Proof.
  intros [Hs] [Hs'] E. destruct (supported_fields m Hs) as (? & ? & ? & ? & Ho), (supported_fields m' Hs') as (? & ? & ? & ? & Ho').
  unfold ARPMessage_to_string in E. cbv zeta in E. label E.
  assert (Hop : arp_opcode m = arp_opcode m').
  { destruct Ho as [Ho|Ho], Ho' as [Ho'|Ho']; rewrite Ho, Ho' in E; [congruence|discriminate E|discriminate E|congruence]. }
  rewrite Hop in E. do 2 apply (inj (String.app _)) in E. apply (EthernetAddress_delimited "/") in E as [? E]; [|done..].
  field (inet_ntoa_delimited ",") E. field (EthernetAddress_delimited "/") E.
  assert (arp_target_ip_address m = arp_target_ip_address m').
  { refine (delimited_end "." _ inet_ntoa _ _ (inet_ntoa_delimited "." _) _ _ E); done. }
  clear E. destruct m, m'. cbn in *. f_equal; (done || congruence).
Qed.

Lemma Address_inet_text inet_ntop6 ip port : 0 <= ip < W32 -> 0 <= port < W16 ->
  Address_to_string inet_ntop6 (inet ip port) = Ok (inet_ntoa ip +:+ ":" +:+ pretty port).
Proof.
  intros Hi Hp. unfold Address_to_string, ip_port. rewrite port_inet by done. rewrite res_bind_Ok.
  pose proof (ipv4_numeric_inet ip port Hi) as Hn. unfold ipv4_numeric in Hn.
  destruct (Address_family (inet ip port) =? AF_INET) eqn:Ef; [|done]. cbn [negb orb] in Hn.
  destruct (negb (ad_size (inet ip port) =? SOCKADDR_IN_SIZE)); [done|]. apply (f_equal (fun r => match r with Ok v => v | _ => 0 end)) in Hn. cbv beta iota in Hn. by rewrite Hn.
Qed.

Lemma Address_text ip port ip' port' : 0 <= ip < W32 -> 0 <= port < W16 -> 0 <= ip' < W32 -> 0 <= port' < W16 ->
  inet_ntoa ip +:+ ":" +:+ pretty port = inet_ntoa ip' +:+ ":" +:+ pretty port' -> ip = ip' /\ port = port'.
Proof.
  intros Hi Hp Hi' Hp' E. apply (inet_ntoa_delimited ":") in E as [? E]; [|done..].
  split; [done|]. refine (delimited_end "." _ pretty _ _ (pretty_delimited "." _) _ _ E); (done || lia).
Qed.

(** The one-line text of a TCP header tells what the connection looks at. *)
Lemma TCPHeader_line h h' : TCPHeader_valid h -> TCPHeader_valid h' -> TCPHeader_summary h = TCPHeader_summary h' ->
  th_syn h = th_syn h' /\ th_ack h = th_ack h' /\ th_rst h = th_rst h' /\ th_fin h = th_fin h' /\
  th_seqno h = th_seqno h' /\ th_ackno h = th_ackno h' /\ th_win h = th_win h'.
Proof.
  intros [] [] E. unfold TCPHeader_summary in E. apply (inj (String.app _)) in E.
  assert (Hf : (th_syn h, th_ack h, th_rst h, th_fin h) = (th_syn h', th_ack h', th_rst h', th_fin h')).
  { destruct (th_syn h), (th_syn h'), (th_ack h), (th_ack h'), (th_rst h), (th_rst h'), (th_fin h), (th_fin h'); try reflexivity; discriminate E. }
  injection Hf as Es Ea Er Ef. rewrite Es, Ea, Er, Ef in E. do 4 apply (inj (String.app _)) in E. field (wi_dec_delimited ",") E. field (wi_dec_delimited ",") E. field (pretty_delimited ")") E. done.
Qed.

(** ** Theorems *)

(** what is printed is what there is. Two valid TCP, IPv4 or Ethernet headers, ARP
    messages or IPv4 socket addresses with the same text are equal, so that a reader of the
    text can tell every field; and the one-line text of a TCP header tells the flags that
    the connection acts on, both sequence numbers and the window. *)
Theorem texts_tell_fields :
  (forall h h', TCPHeader_valid h -> TCPHeader_valid h' -> TCPHeader_to_string h = TCPHeader_to_string h' -> h = h') /\
  (forall h h', IPv4Header_valid h -> IPv4Header_valid h' -> IPv4Header_to_string h = IPv4Header_to_string h' -> h = h') /\
  (forall h h', EthernetHeader_valid h -> EthernetHeader_valid h' -> EthernetHeader_to_string h = EthernetHeader_to_string h' -> h = h') /\
  (forall m m', ARPMessage_valid m -> ARPMessage_valid m' -> ARPMessage_to_string m = ARPMessage_to_string m' -> m = m') /\
  (forall inet_ntop6 ip port ip' port', 0 <= ip < W32 -> 0 <= port < W16 -> 0 <= ip' < W32 -> 0 <= port' < W16 ->
     Address_to_string inet_ntop6 (inet ip port) = Address_to_string inet_ntop6 (inet ip' port') -> ip = ip' /\ port = port') /\
  (forall h h', TCPHeader_valid h -> TCPHeader_valid h' -> TCPHeader_summary h = TCPHeader_summary h' ->
     th_syn h = th_syn h' /\ th_ack h = th_ack h' /\ th_rst h = th_rst h' /\ th_fin h = th_fin h' /\
     th_seqno h = th_seqno h' /\ th_ackno h = th_ackno h' /\ th_win h = th_win h').
Proof.
  split_and!; [apply TCPHeader_text|apply IPv4Header_text|apply EthernetHeader_text|apply ARPMessage_text| |apply TCPHeader_line].
  intros inet_ntop6 ip port ip' port' Hi Hp Hi' Hp' E. rewrite !Address_inet_text in E by done. injection E as E. by apply Address_text.
Qed.


(** ** The program tun *)

(** [IPv4Datagram::parse] and [TCPSegment::parse] never throw, so neither does the body of
    the loop. *)
Lemma show_datagram_total bs : zlen bs < W64 -> exists text, show_datagram bs = Ok text.
Proof.
  intros Hl. unfold show_datagram. cbv zeta.
  destruct (IPv4Datagram_parse_total (zlen bs) IPv4Datagram_default (Buffer_of_string bs)) as (r & h & b & E & Hb & Hh);
    [split; [by apply Buffer_wf_of_string|done]|apply IPv4Header_default_typed|].
  rewrite E, res_bind_Ok. cbn [ipd_header ipd_payload]. destruct (negb (bool_decide (r = NoError))); [by eexists|].
  destruct (negb (ip_proto h =? PROTO_TCP)); [by eexists|]. cbn [BufferList_to_Buffer]. rewrite res_bind_Ok.
  destruct (TCPSegment_default_typed (zlen bs) ltac:(zlia)) as [Ht Hp].
  destruct (TCPSegment_parse_total (zlen bs) TCPSegment_default b (IPv4Header_pseudo_cksum h) Hb (pseudo_cksum_range h) Ht Hp) as (r' & seg & E' & _).
  rewrite E', res_bind_Ok. destruct (negb (bool_decide (r' = NoError))); by eexists.
Qed.

(** The text of a TCP segment in an IPv4 datagram. *)
Definition segment_text (buffer : bytes) (h : IPv4Header) (seg : TCPSegment) : string :=
  (((nl +:+ nl +:+ "***" +:+ nl +:+ "*** Got packet:" +:+ nl +:+ "***" +:+ nl +:+ hexdump buffer 0 +:+
     "attempting to parse as ipv4 datagram... ") +:+
    "success! totlen=" +:+ pretty (ip_len h) +:+ ", IPv4 header contents:" +:+ nl +:+ IPv4Header_to_string h) +:+
   nl +:+ "Attempting to parse as a TCP segment... ") +:+
  "success! payload len=" +:+ pretty (zlen (Buffer_str (ts_payload seg))) +:+ ", TCP header contents:" +:+ nl +:+
  TCPHeader_to_string (ts_header seg) +:+ nl.

(** What the loop answers to each packet that it can read in one piece. *)
Lemma show_loop_cons k bs kernel tun : k BUFFER_SIZE = inr bs -> zlen bs <= BUFFER_SIZE -> exists text tun',
  show_datagram bs = Ok text /\ show_loop (k :: kernel) tun = (text :: fst (show_loop kernel tun'), snd (show_loop kernel tun')).
Proof.
  intros Ek Hl. destruct (show_datagram_total bs) as [text Et]; [unfold BUFFER_SIZE in Hl; lia|]. assert (Hr : exists tun', FileDescriptor_read (W64 - 1) k tun = (Ok bs, tun')).
  { unfold FileDescriptor_read. change (Z.min BUFFER_SIZE (W64 - 1)) with BUFFER_SIZE. rewrite Ek, SystemCall_ok by zlia. mrun.
    destruct (Z.ltb_spec BUFFER_SIZE (zlen bs)); [lia|]. mrun. by eexists. }
  destruct Hr as [tun' Er]. exists text, tun'. split; [done|]. cbn [show_loop]. rewrite Er, Et. by destruct (show_loop kernel tun').
Qed.

(** the program [tun] prints every packet. Whatever the packets are that the kernel
    answers the reads of the device with, the loop prints one text for each, in order, and
    ends only when a read fails, with the error of that read; and of a segment that a
    TUN adapter wrote the text shows the bytes and the contents of both headers. *)
Theorem tun_prints_packets :
  (forall packets errno tun, Forall (fun bs => zlen bs <= BUFFER_SIZE) packets -> errno <> 0 ->
     exists texts, show_loop (map (fun bs _ => inr bs) packets ++ [fun _ => inl errno]) tun = (texts, Throw (unix_error "read" errno)) /\
       Forall2 (fun bs text => show_datagram bs = Ok text) packets texts) /\
  (forall s seg src sport dst dport, connects s src sport dst dport ->
     0 <= src < W32 -> 0 <= sport < W16 -> 0 <= dst < W32 -> 0 <= dport < W16 ->
     TCPHeader_valid (ts_header seg) -> Buffer_wf (ts_payload seg) ->
     20 + 4 * th_doff (ts_header seg) + zlen (Buffer_str (ts_payload seg)) < W16 ->
     exists bl h seg', TunAdapter_write seg s = (Ok bl, s) /\
       show_datagram (BufferList_concatenate bl) = Ok (segment_text (BufferList_concatenate bl) h seg') /\
       IPv4Header_valid h /\ datagram_to h src dst /\ TCPHeader_valid (ts_header seg') /\ on_wire seg seg' sport dport).
Proof.
  split.
  - intros packets errno tun Hp He. revert tun. induction Hp as [|bs packets Hb Hp IH]; intros tun.
    + exists []. split; [|constructor]. cbn. unfold FileDescriptor_read. change (Z.min BUFFER_SIZE (W64 - 1)) with BUFFER_SIZE.
      unfold SystemCall. destruct (Z.eqb_spec errno 0); [done|]. reflexivity.
    + destruct (show_loop_cons (fun _ => inr bs) bs (map (fun bs _ => inr bs) packets ++ [fun _ => inl errno]) tun) as (text & tun' & Et & El); [done|done|].
      destruct (IH tun') as (texts & E & HF). rewrite E in El. exists (text :: texts). split; [exact El|by constructor].
  - intros s seg src sport dst dport C Rs Rsp Rd Rdp V Hwf Hlen.
    destruct (tun_write_parses s seg src sport dst dport C Rs Rsp Rd Rdp V Hwf Hlen) as (bl & h & b & seg' & Ew & Ep & Et & Vh & Hto & V' & Hon).
    exists bl, h, seg'. split; [done|]. split; [|done]. unfold show_datagram. cbv zeta. rewrite Ep, res_bind_Ok, bool_decide_true by done.
    cbn [negb ipd_header ipd_payload]. destruct Hto as (_ & _ & Hproto & _). rewrite Hproto, Z.eqb_refl. cbn [negb BufferList_to_Buffer]. rewrite res_bind_Ok, Et, res_bind_Ok.
    by rewrite bool_decide_true by done.
Qed.

(** The frame summaries never throw on a frame whose payload is one buffer, as it is when it
    comes off a wire, whatever the bytes are. *)
Theorem frame_summaries_total header b : Buffer_wf b ->
  (exists text, lab7_summary (mkEthernetFrame header [b]) = Ok text) /\
  (exists text, simulator_summary (mkEthernetFrame header [b]) = Ok text).
Proof.
  intros Hb. assert (Hlen : 0 <= zlen (Buffer_str b) < W64).
  { split; [apply zlen_nonneg|]. exact (Buffer_size_lt b Hb). }
  assert (Hmain : forall conv more, (exists b', conv [b] = Ok b' /\ Buffer_in (zlen (Buffer_str b)) b') ->
    (forall h d, Buffer_in (zlen (Buffer_str b)) d -> exists text, more (mkIPv4Datagram h [d]) = Ok text) ->
    exists text, summary_with conv more (mkEthernetFrame header [b]) = Ok text).
  { intros conv more (b' & Ec & Hb') Hmore. unfold summary_with. cbn [ef_header ef_payload]. destruct (eh_type header =? TYPE_IPv4).
    - rewrite Ec, res_bind_Ok. destruct (IPv4Datagram_parse_total _ IPv4Datagram_default b' Hb' IPv4Header_default_typed) as (r & h & d & E & Hd & _).
      rewrite E, res_bind_Ok. case_bool_decide; [|by eexists]. destruct (Hmore h d Hd) as [text Et]. rewrite Et, res_bind_Ok. by eexists.
    - destruct (eh_type header =? TYPE_ARP); [|by eexists]. cbn [BufferList_to_Buffer]. rewrite res_bind_Ok.
      destruct (ARPMessage_parse_total (lim := zlen (Buffer_str b)) ARPMessage_default b) as (r & m & E & _); [by split|]. rewrite E, res_bind_Ok. by eexists. }
  assert (Hcat : forall d, BufferList_concatenate [d] = Buffer_str d) by (intros d; rewrite concatenate_cons; apply app_nil_r).
  split; apply Hmain; [| | |by eexists].
  - exists (Buffer_of_string (Buffer_str b)). rewrite Hcat. split; [done|]. split; [apply Buffer_wf_of_string; lia|done].
  - intros h d [Hd Hl]. cbn [ipd_header ipd_payload]. destruct (ip_proto h =? PROTO_TCP); [|by eexists]. rewrite Hcat.
    destruct (TCPSegment_default_typed (zlen (Buffer_str b)) ltac:(lia)) as [Ht Hp].
    destruct (TCPSegment_parse_total (zlen (Buffer_str b)) TCPSegment_default (Buffer_of_string (Buffer_str d)) (IPv4Header_pseudo_cksum h)) as (r & seg & E & _);
      [split; [apply Buffer_wf_of_string; lia|done]|apply pseudo_cksum_range|done|done|]. rewrite E, res_bind_Ok. by eexists.
  - exists b. by split.
Qed.

(** *** Witnesses *)

Lemma texts_tell_fields_witness : ARPMessage_to_string (mkARPMessage 1 2048 6 4 1 [2; 0; 0; 1; 2; 255] 167772161 [0; 0; 0; 0; 0; 0] 167772162) =
    "opcode=REQUEST, sender=02:00:00:01:02:ff/10.0.0.1, target=00:00:00:00:00:00/10.0.0.2"%string /\
  TCPHeader_to_string (ts_header sample_segment) <> TCPHeader_to_string TCPHeader_default.
Proof.
  split; [vm_compute; reflexivity|]. intros E. destruct texts_tell_fields as [H _].
  assert ((ts_header sample_segment) = TCPHeader_default) as Eh by (apply H; [split; vm_compute; split; congruence|apply TCPHeader_default_valid|exact E]). discriminate Eh.
Defined.

Lemma tun_prints_packets_witness : exists bl h seg',
  TunAdapter_write sample_segment demo_client = (Ok bl, demo_client) /\
  show_datagram (BufferList_concatenate bl) = Ok (segment_text (BufferList_concatenate bl) h seg') /\ on_wire sample_segment seg' 1234 80.
Proof.
  destruct tun_prints_packets as [_ H]. destruct (H demo_client sample_segment 167772161 1234 167772162 80) as (bl & h & seg' & ? & ? & ? & ? & ? & ?).
  - split; reflexivity.
  - lia.
  - lia.
  - lia.
  - lia.
  - split; vm_compute; split; congruence.
  - repeat split; vm_compute; congruence.
  - reflexivity.
  - exists bl, h, seg'. split; [assumption|split; assumption].
Defined.

Lemma frame_summaries_total_witness : exists text,
  lab7_summary (mkEthernetFrame (mkEthernetHeader ETHERNET_BROADCAST [2; 0; 0; 0; 0; 1] TYPE_IPv4) [Buffer_of_string (map byte_of [1; 2; 3])]) = Ok text.
Proof. apply frame_summaries_total. apply Buffer_wf_of_string. reflexivity. Defined.
