(* ===== verification/Handles.v ===== *)
(** * The lifetime of file descriptors

    Models the ownership side of [libsponge/util/file_descriptor.hh] and
    [file_descriptor.cc]: a [FileDescriptor] object holds a [shared_ptr] to an [FDWrapper];
    [duplicate] shares it, moving hands it over, and the wrapper's destructor closes the
    number when the last owner is gone. The store is explicit: objects point to wrappers,
    wrappers hold a number, the kernel has a set of open numbers. *)

From S2P Require Import Prelude Buffers FileDescriptors.

(** ** The store *)

(** An [FDWrapper] with its number. *)
Record Cell : Type := mkCell { ce_fd : Z; ce_state : FDWrapper }.

(** [w_handles]: the live [FileDescriptor] objects, each with its pointer, which is null
    after a move. [w_raw]: numbers that the kernel has handed out and no object owns.
    [w_close]: the [errno] that [::close] of a number is going to report, if any; it is the
    kernel's and may change at any time. *)
Record World : Type := mkWorld {
  w_open : gset Z;
  w_raw : gset Z;
  w_cells : gmap nat Cell;
  w_handles : gmap nat (option nat);
  w_close : gmap Z Z
}.

Definition w_set_cells (v : gmap nat Cell) (w : World) : World := mkWorld (w_open w) (w_raw w) v (w_handles w) (w_close w).
Definition w_set_handles (v : gmap nat (option nat)) (w : World) : World := mkWorld (w_open w) (w_raw w) (w_cells w) v (w_close w).
Definition w_set_close (v : gmap Z Z) (w : World) : World := mkWorld (w_open w) (w_raw w) (w_cells w) (w_handles w) v.

Definition EBADF : Z := 9.

(** [open], [socket] and the like return a number that is not in use. *)
Definition kernel_open (n : Z) (w : World) : World :=
  mkWorld ({[n]} ∪ w_open w) ({[n]} ∪ w_raw w) (w_cells w) (w_handles w) (w_close w).

(** [::close]: 0 or the [errno]. What it reports of an open number is up to the kernel; the
    number is released also when it reports an error (Linux, close(2): the descriptor is
    always released). *)
Definition close_answer (n : Z) (w : World) : Z := default 0 (w_close w !! n).

Definition kernel_close (n : Z) (w : World) : Z * World :=
  if bool_decide (n ∈ w_open w)
  then (close_answer n w, mkWorld (w_open w ∖ {[n]}) (w_raw w) (w_cells w) (w_handles w) (w_close w)) else (EBADF, w).

(** ** Operations *)

Abbreviation world := (method World).

(** [FileDescriptor(fd)], a new object [h]; the wrapper owns the number from here. *)
Definition FileDescriptor_make (h : nat) (fd : Z) : world unit :=
  st ← lift (FileDescriptor_of fd);
  modify (fun w =>
    let l := fresh (dom (w_cells w)) in
    mkWorld (w_open w) (w_raw w ∖ {[fd]}) (<[l := mkCell fd st]> (w_cells w)) (<[h := Some l]> (w_handles w)) (w_close w)).

(** [_internal_fd->] *)
Definition pointer (h : nat) : world nat :=
  p ← gets (fun w => w_handles w !! h);
  lift (match p with Some (Some l) => Ok l | _ => Throw (UB "null _internal_fd") end).

Definition the_cell (h : nat) : world (nat * Cell) :=
  l ← pointer h;
  c ← gets (fun w => w_cells w !! l);
  lift (match c with Some ce => Ok (l, ce) | None => Throw (UB "dangling _internal_fd") end).

(** A method of the wrapper. *)
Definition on_cell {X} (h : nat) (m : method FDWrapper X) : world X :=
  '(l, ce) ← the_cell h;
  let '(r, st) := m (ce_state ce) in
  _ ← modify (fun w => w_set_cells (<[l := mkCell (ce_fd ce) st]> (w_cells w)) w);
  lift r.

Definition FileDescriptor_close (h : nat) : world unit :=
  '(_, ce) ← the_cell h;
  errno ← (fun w => let '(errno, w') := kernel_close (ce_fd ce) w in (Ok errno, w'));
  on_cell h (FDWrapper_close errno).

Definition FileDescriptor_duplicate (h h' : nat) : world unit :=
  p ← gets (fun w => w_handles w !! h);
  match p with
  | Some p => modify (fun w => w_set_handles (<[h' := p]> (w_handles w)) w)
  | None => lift (Throw (UB "no such object"))
  end.

(** [~FDWrapper] on a wrapper without owners: an exception is printed and dropped. *)
Definition FDWrapper_destroy (l : nat) (w : World) : World :=
  match w_cells w !! l with
  | Some ce =>
      let w := w_set_cells (delete l (w_cells w)) w in
      if fd_closed (ce_state ce) then w else snd (kernel_close (ce_fd ce) w)
  | None => w
  end.

Definition owned (l : nat) (w : World) : bool := bool_decide (map_Exists (fun _ p => p = Some l) (w_handles w)).

(** The [shared_ptr] lets go of its wrapper. *)
Definition release (p : option nat) (w : World) : World :=
  match p with
  | Some l => if owned l w then w else FDWrapper_destroy l w
  | None => w
  end.

Definition FileDescriptor_destroy (h : nat) (w : World) : World :=
  match w_handles w !! h with
  | Some p => release p (w_set_handles (delete h (w_handles w)) w)
  | None => w
  end.

(** The move constructor, and the move assignment to an existing [h']. *)
Definition FileDescriptor_move (h h' : nat) (w : World) : World :=
  match w_handles w !! h with
  | Some p => w_set_handles (<[h' := p]> (<[h := None]> (w_handles w))) w
  | None => w
  end.

Definition FileDescriptor_move_assign (h h' : nat) (w : World) : World :=
  match w_handles w !! h, w_handles w !! h' with
  | Some p, Some old => release old (w_set_handles (<[h' := p]> (<[h := None]> (w_handles w))) w)
  | _, _ => w
  end.

(** ** Programs *)

(** Each number goes to one object, and [close] is called on descriptors that are not closed,
    when the kernel is going to report success. The kernel may change its mind about
    [::close] between any two steps; destructors meet whatever it reports. *)
Inductive own_step (w : World) : World -> Prop :=
| own_open n : 0 <= n -> n ∉ w_open w -> own_step w (kernel_open n w)
| own_make h n : n ∈ w_raw w -> 0 <= n -> w_handles w !! h = None -> own_step w (snd (FileDescriptor_make h n w))
| own_duplicate h h' : w_handles w !! h' = None -> own_step w (snd (FileDescriptor_duplicate h h' w))
| own_move h h' : w_handles w !! h' = None -> h <> h' -> own_step w (FileDescriptor_move h h' w)
| own_assign h h' : h <> h' -> own_step w (FileDescriptor_move_assign h h' w)
| own_destroy h : own_step w (FileDescriptor_destroy h w)
| own_close h l ce : w_handles w !! h = Some (Some l) -> w_cells w !! l = Some ce -> fd_closed (ce_state ce) = false ->
    close_answer (ce_fd ce) w = 0 -> own_step w (snd (FileDescriptor_close h w))
| own_use {X} h (m : method FDWrapper X) : (forall st, fd_closed (snd (m st)) = fd_closed st) -> own_step w (snd (on_cell h m w))
| own_kernel answers : own_step w (w_set_close answers w).

Definition World_empty : World := mkWorld ∅ ∅ ∅ ∅ ∅.

(** ** The invariant *)

Definition live (w : World) (l : nat) (n : Z) : Prop :=
  exists ce, w_cells w !! l = Some ce /\ ce_fd ce = n /\ fd_closed (ce_state ce) = false.

Record own_inv (w : World) : Prop := {
  oi_valid h l : w_handles w !! h = Some (Some l) -> is_Some (w_cells w !! l);
  oi_owned l : is_Some (w_cells w !! l) -> exists h, w_handles w !! h = Some (Some l);
  oi_open n : n ∈ w_open w <-> n ∈ w_raw w \/ exists l, live w l n;
  oi_distinct l l' n : live w l n -> live w l' n -> l = l';
  oi_raw l n : live w l n -> n ∉ w_raw w
}.

(** The part of it that does not speak of owners. *)
Definition own_numbers (w : World) : Prop :=
  (forall n, n ∈ w_open w <-> n ∈ w_raw w \/ exists l, live w l n) /\
  (forall l l' n, live w l n -> live w l' n -> l = l') /\ (forall l n, live w l n -> n ∉ w_raw w).

Lemma own_numbers_of w : own_inv w -> own_numbers w.
Proof. intros []. by split. Qed.

(** The numbers stay in order when the set of live wrappers and the open numbers change together. *)
Lemma numbers_same w w' : own_numbers w -> w_open w' = w_open w -> w_raw w' = w_raw w -> (forall l n, live w' l n <-> live w l n) -> own_numbers w'.
Proof.
  intros (H1 & H2 & H3) E1 E2 HL. unfold own_numbers. rewrite E1, E2. split; [|split].
  - intros n. rewrite (H1 n). by setoid_rewrite HL.
  - intros l l' n Hl Hl'. apply HL in Hl, Hl'. eauto.
  - intros l n Hl. apply HL in Hl. eauto.
Qed.

(** One live wrapper is gone, and its number is closed. *)
Lemma numbers_closed w w' l n : own_numbers w -> live w l n -> w_open w' = w_open w ∖ {[n]} -> w_raw w' = w_raw w ->
  (forall l' n', live w' l' n' <-> l' <> l /\ live w l' n') -> own_numbers w'.
Proof.
  intros (H1 & H2 & H3) Hl E1 E2 HL. unfold own_numbers. rewrite E1, E2. pose proof (H3 l n Hl) as Hn. split; [|split].
  - intros n'. rewrite elem_of_difference, elem_of_singleton, (H1 n'). split.
    + intros [[Hr|[l' Hl']] Hne]; [by left|right]. exists l'. apply HL. split; [|done]. intros ->.
      destruct Hl as (ce & E & En & _), Hl' as (ce' & E' & En' & _). congruence.
    + intros [Hr|[l' [Hne Hl']%HL]]; [split; [by left|congruence]|]. split; [right; by exists l'|]. intros ->. by destruct (Hne (H2 _ _ _ Hl' Hl)).
  - intros l1 l2 n' [_ Hl1]%HL [_ Hl2]%HL. eauto.
  - intros l1 n' [_ Hl1]%HL. eauto.
Qed.

Lemma kernel_close_live w l n : own_numbers w -> live w l n ->
  kernel_close n w = (close_answer n w, mkWorld (w_open w ∖ {[n]}) (w_raw w) (w_cells w) (w_handles w) (w_close w)).
Proof. intros (H1 & _) Hl. unfold kernel_close. rewrite bool_decide_true; [done|]. apply H1. right. by exists l. Qed.

(** Only the objects change. *)
Lemma inv_handles w hs : own_inv w ->
  (forall h l, hs !! h = Some (Some l) -> exists h0, w_handles w !! h0 = Some (Some l)) ->
  (forall h0 l, w_handles w !! h0 = Some (Some l) -> exists h, hs !! h = Some (Some l)) -> own_inv (w_set_handles hs w).
Proof.
  intros [V O N D R] H1 H2. split; try done.
  - intros h l E. destruct (H1 h l E) as [h0 E0]. by eapply V.
  - intros l E. destruct (O l E) as [h0 E0]. by eapply H2.
Qed.

Lemma owned_spec l w : owned l w = true <-> exists h, w_handles w !! h = Some (Some l).
Proof.
  unfold owned. rewrite bool_decide_eq_true. split.
  - intros (h & p & E & ->). by exists h.
  - intros [h E]. by exists h, (Some l).
Qed.

Lemma live_delete w l l' n : live (w_set_cells (delete l (w_cells w)) w) l' n <-> l' <> l /\ live w l' n.
Proof.
  unfold live. cbn. destruct (decide (l' = l)) as [->|Hne].
  - rewrite lookup_delete_eq. split; [by intros (? & ? & _)|by intros [? _]].
  - rewrite lookup_delete_ne by done. split; [done|by intros [_ ?]].
Qed.

Lemma live_closed w l ce : w_cells w !! l = Some ce -> fd_closed (ce_state ce) = true -> forall n, ~ live w l n.
Proof. intros E Hc n (ce' & E' & _ & Hc'). congruence. Qed.

(** A wrapper may have lost its last owner: letting it go restores the invariant. *)
Lemma release_inv w p : own_numbers w -> (forall h l, w_handles w !! h = Some (Some l) -> is_Some (w_cells w !! l)) ->
  (forall l, is_Some (w_cells w !! l) -> p = Some l \/ exists h, w_handles w !! h = Some (Some l)) -> own_inv (release p w).
Proof.
  intros HN V O. assert (Hdone : (forall l, is_Some (w_cells w !! l) -> exists h, w_handles w !! h = Some (Some l)) -> own_inv w).
  { intros O'. destruct HN as (? & ? & ?). by split. }
  destruct p as [l|]; cbn [release]; [|apply Hdone; intros l Hl; by destruct (O l Hl)].
  destruct (owned l w) eqn:Eo; [apply owned_spec in Eo; apply Hdone; intros l' Hl'; destruct (O l' Hl') as [[= <-]|?]; done|].
  assert (Hno : forall h, w_handles w !! h <> Some (Some l)).
  { intros h E. assert (owned l w = true) by (apply owned_spec; by exists h). congruence. }
  assert (HV : forall h l', w_handles w !! h = Some (Some l') -> is_Some (delete l (w_cells w) !! l')).
  { intros h l' E. rewrite lookup_delete_ne; [by eapply V|]. intros ->. by destruct (Hno h). }
  assert (HO : forall l', is_Some (delete l (w_cells w) !! l') -> exists h, w_handles w !! h = Some (Some l')).
  { intros l' [ce Hce]. apply lookup_delete_Some in Hce as [Hne Hce]. destruct (O l') as [[= <-]|?]; [by eexists|done|done]. }
  unfold FDWrapper_destroy. destruct (w_cells w !! l) as [ce|] eqn:Ec.
  2:{ apply Hdone. intros l' Hl'. destruct (O l' Hl') as [[= <-]|?]; [|done]. rewrite Ec in Hl'. by destruct Hl'. }
  set (w1 := w_set_cells (delete l (w_cells w)) w). destruct (fd_closed (ce_state ce)) eqn:Ef.
  - destruct (numbers_same w w1 HN) as (? & ? & ?); [done|done| |by split].
    intros l' n. unfold w1. rewrite live_delete. split; [by intros [_ ?]|]. intros Hl. split; [|done]. intros ->. by apply (live_closed w l ce Ec Ef n).
  - assert (Hl : live w l (ce_fd ce)) by (by exists ce).
    assert (Ek : kernel_close (ce_fd ce) w1 = (close_answer (ce_fd ce) w, mkWorld (w_open w ∖ {[ce_fd ce]}) (w_raw w) (w_cells w1) (w_handles w) (w_close w))).
    { unfold kernel_close. rewrite bool_decide_true; [done|]. destruct HN as (H1 & _). apply H1. right. by exists l. }
    rewrite Ek. cbn [snd]. set (w2 := mkWorld _ _ _ _ _).
    destruct (numbers_closed w w2 l (ce_fd ce) HN Hl) as (? & ? & ?); [done|done| |by split]. intros l' n. apply (live_delete w l l' n).
Qed.

Lemma the_cell_ok w h l ce : w_handles w !! h = Some (Some l) -> w_cells w !! l = Some ce -> the_cell h w = (Ok (l, ce), w).
Proof.
  intros Eh Ec. unfold the_cell. erewrite run_bind; [|unfold pointer; rewrite run_gets, Eh; reflexivity]. cbv beta. rewrite run_gets, Ec. done.
Qed.

Lemma on_cell_eq {X} w h l ce (m : method FDWrapper X) : w_handles w !! h = Some (Some l) -> w_cells w !! l = Some ce ->
  on_cell h m w = (fst (m (ce_state ce)), w_set_cells (<[l := mkCell (ce_fd ce) (snd (m (ce_state ce)))]> (w_cells w)) w).
Proof.
  intros Eh Ec. unfold on_cell. erewrite run_bind by (by apply the_cell_ok). cbv beta iota. destruct (m (ce_state ce)) as [r st]. done.
Qed.

(** An object without a wrapper: nothing happens. *)
Lemma the_cell_bad w h : own_inv w -> (forall l, w_handles w !! h <> Some (Some l)) -> exists e, the_cell h w = (Throw e, w).
Proof.
  intros _ Hn. unfold the_cell, pointer, mbind, method_bind, gets, lift. destruct (w_handles w !! h) as [[l|]|] eqn:E; [by destruct (Hn l)|by eexists..].
Qed.

Lemma handle_cases w h : own_inv w ->
  (exists l ce, w_handles w !! h = Some (Some l) /\ w_cells w !! l = Some ce) \/ (forall l, w_handles w !! h <> Some (Some l)).
Proof.
  intros H. destruct (w_handles w !! h) as [[l|]|] eqn:E; [|by right..]. destruct (oi_valid _ H h l E) as [ce Hce]. left. by exists l, ce.
Qed.

(** The state of a wrapper changes. *)
Lemma inv_cell w l ce st : own_inv w -> w_cells w !! l = Some ce -> own_numbers (w_set_cells (<[l := mkCell (ce_fd ce) st]> (w_cells w)) w) ->
  own_inv (w_set_cells (<[l := mkCell (ce_fd ce) st]> (w_cells w)) w).
Proof.
  intros [V O _ _ _] E (H1 & H2 & H3). split; try done; cbn.
  - intros h l' Eh. rewrite lookup_insert_is_Some'. right. by eapply V.
  - intros l'. rewrite lookup_insert_is_Some'. intros [<-|Hl]; apply O; [by eexists|done].
Qed.

Lemma live_insert w l l' n ce : live (w_set_cells (<[l := ce]> (w_cells w)) w) l' n <->
  (l' = l /\ ce_fd ce = n /\ fd_closed (ce_state ce) = false) \/ (l' <> l /\ live w l' n).
Proof.
  unfold live. cbn. destruct (decide (l' = l)) as [->|Hne].
  - rewrite lookup_insert_eq. split; [intros (ce' & [= <-] & ?); by left|intros [(_ & ? & ?)|[? _]]; [by exists ce|done]].
  - rewrite lookup_insert_ne by done. split; [by right|by intros [[? _]|[_ ?]]].
Qed.

Lemma use_inv {X} w h (m : method FDWrapper X) : own_inv w -> (forall st, fd_closed (snd (m st)) = fd_closed st) -> own_inv (snd (on_cell h m w)).
Proof.
  intros H Hm. destruct (handle_cases w h H) as [(l & ce & Eh & Ec)|Hn].
  - rewrite (on_cell_eq w h l ce m Eh Ec). cbn [snd]. apply inv_cell; [done|done|]. apply (numbers_same w); [by apply own_numbers_of|done|done|].
    intros l' n. rewrite live_insert. cbn. rewrite Hm. split.
    + intros [(-> & ? & ?)|[_ ?]]; [by exists ce|done].
    + intros Hl. destruct (decide (l' = l)) as [->|]; [|by right]. left. destruct Hl as (ce' & E' & ? & ?). split; [done|]. assert (ce' = ce) as -> by congruence. done.
  - destruct (the_cell_bad w h H Hn) as [e E]. unfold on_cell, mbind, method_bind. by rewrite E.
Qed.

(** [close] of a wrapper that is not closed: the number is released, and the flags are set
    unless the kernel reported an error, which is thrown. *)
Lemma close_eq w h l ce : own_inv w -> w_handles w !! h = Some (Some l) -> w_cells w !! l = Some ce -> fd_closed (ce_state ce) = false ->
  let errno := close_answer (ce_fd ce) w in
  FileDescriptor_close h w =
    (if errno =? 0 then Ok tt else Throw (unix_error "close" errno),
     mkWorld (w_open w ∖ {[ce_fd ce]}) (w_raw w)
       (<[l := mkCell (ce_fd ce) (if errno =? 0 then mkFD true true (fd_read_count (ce_state ce)) (fd_write_count (ce_state ce)) else ce_state ce)]> (w_cells w))
       (w_handles w) (w_close w)).
Proof.
  intros H Eh Ec Hc errno. assert (Hl : live w l (ce_fd ce)) by (by exists ce). unfold FileDescriptor_close. erewrite run_bind by (by apply the_cell_ok). cbv beta iota.
  erewrite run_bind by (rewrite (kernel_close_live w l (ce_fd ce) (own_numbers_of w H) Hl); reflexivity). fold errno.
  erewrite on_cell_eq by done. unfold FDWrapper_close, SystemCall, answer. cbn [ce_state ce_fd w_cells w_set_cells w_open w_raw w_handles w_close].
  destruct (errno =? 0) eqn:E0; cbn [Z.leb Z.compare orb]; done.
Qed.

Lemma close_inv w h l ce : own_inv w -> w_handles w !! h = Some (Some l) -> w_cells w !! l = Some ce -> fd_closed (ce_state ce) = false ->
  close_answer (ce_fd ce) w = 0 -> own_inv (snd (FileDescriptor_close h w)).
Proof.
  intros H Eh Ec Hc H0. rewrite (close_eq w h l ce H Eh Ec Hc). cbn [snd]. rewrite H0. cbn [Z.eqb]. set (st := mkFD true true _ _).
  assert (Hl : live w l (ce_fd ce)) by (by exists ce).
  destruct (numbers_closed w (mkWorld (w_open w ∖ {[ce_fd ce]}) (w_raw w) (<[l := mkCell (ce_fd ce) st]> (w_cells w)) (w_handles w) (w_close w)) l (ce_fd ce)
    (own_numbers_of w H) Hl) as (H1 & H2 & H3); [done|done| |].
  { intros l' n. pose proof (live_insert w l l' n (mkCell (ce_fd ce) st)) as Hi. unfold live in *. cbn in *. rewrite Hi. split; [|by right].
    intros [(_ & _ & ?)|?]; done. }
  destruct H as [V O _ _ _]. split; try done; cbn.
  - intros h' l' Eh'. rewrite lookup_insert_is_Some'. right. by eapply V.
  - intros l'. rewrite lookup_insert_is_Some'. intros [<-|Hl']; apply O; [by eexists|done].
Qed.

(** A number from the kernel gets a wrapper and an object of its own. *)
Lemma new_inv w l h n : own_inv w -> w_cells w !! l = None -> n ∈ w_raw w -> w_handles w !! h = None ->
  own_inv (mkWorld (w_open w) (w_raw w ∖ {[n]}) (<[l := mkCell n FDWrapper_new]> (w_cells w)) (<[h := Some l]> (w_handles w)) (w_close w)).
Proof.
  intros [V O N D R] Hl Hn Hh.
  assert (HL : forall l' n', live (w_set_cells (<[l := mkCell n FDWrapper_new]> (w_cells w)) w) l' n' <-> (l' = l /\ n' = n) \/ live w l' n').
  { intros l' n'. rewrite live_insert. cbn. split; [intros [(-> & <- & _)|[_ ?]]; auto|intros [[-> ->]|Hx]; [by left|right]].
    split; [|done]. intros ->. destruct Hx as (? & ? & _). congruence. }
  split; cbn.
  - intros h' l' [[<- [= <-]]|[_ E]]%lookup_insert_Some; rewrite lookup_insert_is_Some'; [by left|right; by eapply V].
  - intros l'. rewrite lookup_insert_is_Some'. intros [<-|Hl']; [exists h; apply lookup_insert_eq|].
    destruct (O l' Hl') as [h' Eh']. exists h'. rewrite lookup_insert_ne; [done|congruence].
  - intros n'. specialize (N n').
    change (n' ∈ w_open w <-> n' ∈ w_raw w ∖ {[n]} \/ exists l', live (w_set_cells (<[l := mkCell n FDWrapper_new]> (w_cells w)) w) l' n').
    setoid_rewrite HL. rewrite N, elem_of_difference, elem_of_singleton. split.
    + intros [Hr|[l' Hl']]; [|right; exists l'; by right]. destruct (decide (n' = n)) as [->|]; [right; exists l; by left|by left].
    + intros [[? _]|[l' [[_ ->]|Hl']]]; [by left|by left|right; by exists l'].
  - intros l1 l2 n' [[-> ->]|H1]%HL [[-> E]|H2]%HL; try done; [exfalso; by apply (R l2 n H2)|subst n'; exfalso; by apply (R l1 n H1)|by eapply D].
  - intros l1 n' [[-> ->]|H1]%HL Hr; apply elem_of_difference in Hr as [Hr Hs]; [by apply Hs, elem_of_singleton|by apply (R l1 n' H1)].
Qed.

Lemma make_inv w h n : own_inv w -> n ∈ w_raw w -> 0 <= n -> w_handles w !! h = None -> own_inv (snd (FileDescriptor_make h n w)).
Proof.
  intros H Hn H0 Hh. unfold FileDescriptor_make, FileDescriptor_of. destruct (Z.ltb_spec n 0); [lia|]. mrun. unfold modify. cbn [snd].
  apply new_inv; [done|apply not_elem_of_dom, is_fresh|done|done].
Qed.

Lemma destroy_inv w h : own_inv w -> own_inv (FileDescriptor_destroy h w).
Proof.
  intros [V O N D R]. unfold FileDescriptor_destroy. destruct (w_handles w !! h) as [p|] eqn:Eh; [|by split]. apply release_inv.
  - by split.
  - cbn. intros h' l [_ E]%lookup_delete_Some. by eapply V.
  - intros l Hl. destruct (O l Hl) as [h0 E0]. destruct (decide (h0 = h)) as [->|Hne]; [left; congruence|right].
    exists h0. cbn. by rewrite lookup_delete_ne.
Qed.

Lemma assign_inv w h h' : h <> h' -> own_inv w -> own_inv (FileDescriptor_move_assign h h' w).
Proof.
  intros Hne [V O N D R]. unfold FileDescriptor_move_assign. destruct (w_handles w !! h) as [p|] eqn:Eh; [|by split].
  destruct (w_handles w !! h') as [old|] eqn:Eh'; [|by split]. apply release_inv.
  - by split.
  - cbn. intros h0 l [[<- ->]|[_ [[<- ?]|[_ E]]%lookup_insert_Some]]%lookup_insert_Some; [by eapply V|done|by eapply V].
  - intros l Hl. destruct (O l Hl) as [h0 E0]. cbn. destruct (decide (h0 = h')) as [->|]; [left; congruence|right].
    destruct (decide (h0 = h)) as [->|]; [exists h'; rewrite lookup_insert_eq; congruence|]. exists h0. by rewrite !lookup_insert_ne by done.
Qed.

Lemma own_step_inv w w' : own_inv w -> own_step w w' -> own_inv w'.
Proof.
  intros H. intros [n Hn Ho|h n Hn H0 Hh|h h' Hh|h h' Hh Hne|h h' Hne|h|h l ce Eh Ec Hc Hans|X h m Hm|answers].
  - destruct H as [V O N D R]. split; try done; cbn.
    + intros n'. rewrite !elem_of_union, elem_of_singleton, (N n'). change (live (kernel_open n w)) with (live w). tauto.
    + intros l n' Hl. rewrite elem_of_union, elem_of_singleton. intros [->|Hr]; [|by eapply R]. apply Ho, N. right. by exists l.
  - by apply make_inv.
  - unfold FileDescriptor_duplicate. rewrite run_gets. destruct (w_handles w !! h) as [p|] eqn:E; [|done]. unfold modify. cbn [snd]. apply inv_handles; [done|..].
    + intros h0 l [[_ ->]|[_ ?]]%lookup_insert_Some; by eexists.
    + intros h0 l E0. exists h0. rewrite lookup_insert_ne; [done|congruence].
  - unfold FileDescriptor_move. destruct (w_handles w !! h) as [p|] eqn:E; [|done]. apply inv_handles; [done|..].
    + intros h0 l [[_ ->]|[_ [[_ ?]|[_ ?]]%lookup_insert_Some]]%lookup_insert_Some; [by eexists|done|by eexists].
    + intros h0 l E0. destruct (decide (h0 = h)) as [->|]; [exists h'; rewrite lookup_insert_eq; congruence|].
      exists h0. rewrite !lookup_insert_ne by (done || congruence). done.
  - by apply assign_inv.
  - by apply destroy_inv.
  - by eapply close_inv.
  - by apply use_inv.
  - by destruct H.
Qed.

Lemma own_inv_empty : own_inv World_empty.
Proof.
  assert (HL : forall l n, ~ live World_empty l n) by (by intros l n (ce & E & _)).
  split.
  - done.
  - by intros l [ce E].
  - intros n. split; [set_solver|]. intros [?|[l Hl]]; [set_solver|by destruct (HL l n)].
  - intros l l' n Hl. by destruct (HL l n).
  - intros l n Hl. by destruct (HL l n).
Qed.

(** ** Theorems *)

(** C32: every open descriptor has an owner. In any program that gives each number from the
    kernel to one [FileDescriptor], moves, assigns, duplicates, uses and destroys such objects
    in any order, and calls [close] only while [closed()] is false and the kernel reports no
    error to it (what the kernel reports to the destructors' [::close] is arbitrary): a
    pointer is never dangling; a wrapper that is not closed has an open number of its own, and
    closing it releases the number and succeeds or throws as the kernel reports; every open
    number is one no object was made of, or that of a wrapper that some object still owns, so
    that nothing is open once the objects are gone; and what is done through one of two
    duplicates is seen through the other. (After a [close] that failed the destructor closes
    the number again: [failed_close_closes_again].) *)
Theorem descriptors_have_owners w : reach own_step World_empty w ->
  (forall h l, w_handles w !! h = Some (Some l) -> exists ce, w_cells w !! l = Some ce /\
     (fd_closed (ce_state ce) = false -> ce_fd ce ∈ w_open w /\
        w_open (snd (FileDescriptor_close h w)) = w_open w ∖ {[ce_fd ce]} /\
        fst (FileDescriptor_close h w) =
          (if close_answer (ce_fd ce) w =? 0 then Ok tt else Throw (unix_error "close" (close_answer (ce_fd ce) w))))) /\
  (forall l l' n, live w l n -> live w l' n -> l = l') /\
  (forall n, n ∈ w_open w -> n ∉ w_raw w -> exists h l, w_handles w !! h = Some (Some l) /\ live w l n) /\
  (w_handles w = ∅ -> w_open w = w_raw w) /\
  (forall X (m : method FDWrapper X) h h' l ce, w_handles w !! h = Some (Some l) -> w_handles w !! h' = Some (Some l) -> w_cells w !! l = Some ce ->
     exists ce', the_cell h' (snd (on_cell h m w)) = (Ok (l, ce'), snd (on_cell h m w)) /\ ce_state ce' = snd (m (ce_state ce))).
Proof.
  intros Hre. pose proof (reach_invariant own_step own_inv _ _ own_step_inv own_inv_empty Hre) as H. pose proof H as [V O N D R].
  split_and!.
  - intros h l Eh. destruct (V h l Eh) as [ce Ec]. exists ce. split; [done|]. intros Hc. rewrite (close_eq w h l ce H Eh Ec Hc). split; [|done].
    apply N. right. exists l. by exists ce.
  - exact D.
  - intros n [?|[l Hl]]%N Hr; [done|]. destruct (O l) as [h Eh]; [destruct Hl as (ce & E & _); by eexists|]. by exists h, l.
  - intros E. apply set_eq. intros n. rewrite (N n). split; [|by left]. intros [?|[l Hl]]; [done|].
    destruct (O l) as [h Eh]; [destruct Hl as (ce & Ec & _); by eexists|]. by rewrite E, lookup_empty in Eh.
  - intros X m h h' l ce Eh Eh' Ec. rewrite (on_cell_eq w h l ce m Eh Ec). cbn [snd]. eexists. split; [apply the_cell_ok; [done|apply lookup_insert_eq]|done].
Qed.

(** A descriptor whose [close] failed with [EIO] (5), and another that was given its number. *)
Definition demo_failed_close : World :=
  let w := w_set_close {[3 := 5]} (kernel_open 3 World_empty) in
  let w := snd (FileDescriptor_make 0 3 w) in
  let w := snd (FileDescriptor_close 0 w) in
  let w := kernel_open 3 w in
  snd (FileDescriptor_make 1 3 w).

(** A [close] that reports an error leaves [_closed] false, although the number is gone: the
    destructor closes it again, and with it the descriptor of another object that was given
    the number in between. *)
Theorem failed_close_closes_again :
  (let w := snd (FileDescriptor_make 0 3 (w_set_close {[3 := 5]} (kernel_open 3 World_empty))) in
   fst (FileDescriptor_close 0 w) = Throw (unix_error "close" 5) /\
   (exists l, w_handles (snd (FileDescriptor_close 0 w)) !! 0%nat = Some (Some l) /\ live (snd (FileDescriptor_close 0 w)) l 3) /\
   3 ∉ w_open (snd (FileDescriptor_close 0 w))) /\
  (let w := FileDescriptor_destroy 0 demo_failed_close in
   (exists l, w_handles w !! 1%nat = Some (Some l) /\ live w l 3) /\ 3 ∉ w_open w).
Proof.
  split; cbv zeta.
  - split; [vm_compute; reflexivity|]. split; [|apply (bool_decide_unpack _); vm_compute; done].
    exists 0%nat. split; [vm_compute; reflexivity|]. eexists. split; [vm_compute; reflexivity|done].
  - split; [|apply (bool_decide_unpack _); vm_compute; done].
    exists 1%nat. split; [vm_compute; reflexivity|]. eexists. split; [vm_compute; reflexivity|done].
Qed.

(** A closed descriptor, and another that was given its number. *)
Definition demo_double_close : World :=
  let w := kernel_open 3 World_empty in
  let w := snd (FileDescriptor_make 0 3 w) in
  let w := snd (FileDescriptor_close 0 w) in
  let w := kernel_open 3 w in
  snd (FileDescriptor_make 1 3 w).

(** [close] does not ask whether the descriptor is closed already: called a second time after
    the kernel has given the number to another [FileDescriptor], it succeeds and closes
    that one's descriptor. *)
Theorem second_close_hits_another :
  let w := demo_double_close in let r := FileDescriptor_close 0 w in
  fst r = Ok tt /\ (exists l, w_handles (snd r) !! 1%nat = Some (Some l) /\ live (snd r) l 3) /\ 3 ∉ w_open (snd r).
Proof.
  cbv zeta. split; [vm_compute; reflexivity|]. split.
  - exists 1%nat. split; [vm_compute; reflexivity|]. eexists. split; [vm_compute; reflexivity|done].
  - apply (bool_decide_unpack _). vm_compute. done.
Qed.

(** An object is made and duplicated and one of the two destroyed; another is made and
    destroyed while the kernel reports errors, which its destructor drops. *)
Definition demo_world : World :=
  let w := kernel_open 3 World_empty in
  let w := snd (FileDescriptor_make 0 3 w) in
  let w := snd (FileDescriptor_duplicate 0 1 w) in
  let w := FileDescriptor_destroy 0 w in
  let w := w_set_close {[4 := 5]} (kernel_open 4 w) in
  let w := snd (FileDescriptor_make 2 4 w) in
  FileDescriptor_destroy 2 w.

Lemma demo_world_reached : reach own_step World_empty demo_world.
Proof.
  unfold demo_world. eapply reach_step; [|apply own_destroy].
  eapply reach_step; [|apply own_make; [vm_compute; done|lia|vm_compute; done]].
  eapply reach_step; [|apply own_kernel]. eapply reach_step; [|apply own_open; [lia|apply (bool_decide_unpack _); vm_compute; done]].
  eapply reach_step; [|apply own_destroy]. eapply reach_step; [|by apply own_duplicate].
  eapply reach_step; [|apply own_make; [set_solver|lia|done]]. eapply reach_step; [apply reach_refl|]. apply own_open; [lia|set_solver].
Qed.

Lemma descriptors_have_owners_witness : exists ce, w_cells demo_world !! 0%nat = Some ce /\ ce_fd ce ∈ w_open demo_world /\
  4 ∉ w_open demo_world /\ fst (FileDescriptor_close 1 demo_world) = Ok tt.
Proof.
  destruct (descriptors_have_owners demo_world demo_world_reached) as [H _].
  destruct (H 1%nat 0%nat) as (ce & E & Hc); [vm_compute; reflexivity|]. exists ce. split; [exact E|].
  assert (Hs : fmap (fun c => (fd_closed (ce_state c), ce_fd c)) (w_cells demo_world !! 0%nat) = Some (false, 3)) by (vm_compute; reflexivity).
  rewrite E in Hs. injection Hs as Hs Hn. destruct (Hc Hs) as (Ho & _ & Hcl). split; [exact Ho|].
  split; [apply (bool_decide_unpack _); vm_compute; done|]. rewrite Hcl, Hn. vm_compute. reflexivity.
Defined.
