(* ===== verification/Sockets.v ===== *)
(** * Kernel sockets and TUN/TAP devices

    Models the rest of [libsponge/util/socket.hh], [socket.cc], [tun.hh] and [tun.cc] on the
    store of [Handles.v]: the constructors, which take a number from the kernel and may
    throw once they own it, and the operations that pass an address or an option to the
    kernel. What the kernel answers is an argument, a function of what the program asks. *)

From S2P Require Import Prelude Buffers Addresses FileDescriptors Handles.

(** ** Constructing *)

Definition SOCK_STREAM : Z := 1.
Definition SOCK_DGRAM : Z := 2.
Definition AF_UNIX : Z := 1.
Definition SO_DOMAIN : Z := 39.
Definition SO_TYPE : Z := 3.

Definition fd_num (h : nat) : world Z := '(_, ce) ← the_cell h; mret (ce_fd ce).

(** A system call that hands out a number: [kernel] is an [errno] or a number not in use. *)
Definition new_number (attempt : string) (kernel : Z + Z) : world Z :=
  match kernel with
  | inl errno => lift (SystemCall attempt (-1) errno 0)
  | inr n => n ← lift (SystemCall attempt n 0 0); _ ← modify (kernel_open n); mret n
  end.

(** The body [m] of a constructor: when it throws, the base object [h], which is complete,
    is destroyed. *)
Definition constructor_body (h : nat) (m : world unit) : world unit := fun w =>
  match m w with
  | (Ok _, w') => (Ok tt, w')
  | (r, w') => (r, FileDescriptor_destroy h w')
  end.

(** A temporary object is destroyed at the end of its expression, however this ends. *)
Definition with_temporary (tmp : nat) (m : world unit) : world unit := fun w =>
  let '(r, w') := m w in (r, FileDescriptor_destroy tmp w').

(** [Socket(domain, type)] *)
Definition Socket_new (h : nat) (domain type : Z) (socket : Z -> Z -> Z + Z) : world unit :=
  fd ← new_number "socket" (socket domain type);
  FileDescriptor_make h fd.

Definition UDPSocket_new (h : nat) := Socket_new h AF_INET SOCK_DGRAM.
Definition TCPSocket_new (h : nat) := Socket_new h AF_INET SOCK_STREAM.

(** [Socket(fd, domain, type)], the object [h'] from the object [h]. *)
Definition Socket_of (h h' : nat) (domain type : Z) (getsockopt : Z -> Z -> Z + Z * Z) : world unit :=
  _ ← modify (FileDescriptor_move h h');
  constructor_body h'
    (n ← fd_num h';
     lift (Socket_verify domain type (getsockopt n SO_DOMAIN) (getsockopt n SO_TYPE))).

Definition UDPSocket_of (h h' : nat) := Socket_of h h' AF_INET SOCK_DGRAM.
Definition TCPSocket_of (h h' : nat) := Socket_of h h' AF_INET SOCK_STREAM.
Definition LocalStreamSocket_make (h h' : nat) := Socket_of h h' AF_UNIX SOCK_STREAM.

(** [accept] on [h]: the new socket is [h'], [tmp] the descriptor it is made of. *)
Definition accept_socket (h tmp h' : nat) (accept : Z -> Z + Z) (getsockopt : Z -> Z -> Z + Z * Z) : world unit :=
  _ ← on_cell h (modify register_read);
  n ← fd_num h;
  fd ← new_number "accept" (accept n);
  _ ← FileDescriptor_make tmp fd;
  with_temporary tmp (TCPSocket_of tmp h' getsockopt).

(** [socket_pair_helper] *)
Definition socket_pair (h0 h1 : nat) (type : Z) (socketpair : Z -> Z -> Z + Z * Z) : world unit :=
  match socketpair AF_UNIX type with
  | inl errno => _ ← lift (SystemCall "socketpair" (-1) errno 0); lift (Throw (UB "failure without errno"))
  | inr (fd0, fd1) =>
      _ ← lift (SystemCall "socketpair" 0 0 0);
      _ ← modify (fun w => kernel_open fd1 (kernel_open fd0 w));
      _ ← FileDescriptor_make h0 fd0;
      constructor_body h0 (FileDescriptor_make h1 fd1)
  end.

(** The descriptors of [TCPSpongeSocket(datagram_interface)]: the owner's socket [h0] and
    [_thread_data] [h1], from the pair [t0], [t1]. *)
Definition TCPSpongeSocket_descriptors (t0 t1 h0 h1 : nat) (socketpair : Z -> Z -> Z + Z * Z) (getsockopt : Z -> Z -> Z + Z * Z)
    (getfl : Z -> Z + Z) (setfl : Z -> Z) : world unit :=
  _ ← socket_pair t0 t1 SOCK_STREAM socketpair;
  with_temporary t0 (with_temporary t1
    (_ ← LocalStreamSocket_make t0 h0 getsockopt;
     constructor_body h0
       (_ ← LocalStreamSocket_make t1 h1 getsockopt;
        constructor_body h1
          (n ← fd_num h1;
           _ ← lift (set_blocking false (getfl n) (setfl n));
           mret tt)))).

(** ** Addresses and options *)

(** The bytes the kernel sees of an address: the pointer and the size. *)
Definition sockaddr_of (address : Address) : bytes := ztake (ad_size address) (ad_storage address).

(** [function] answers with an [errno], or with an address and its size. *)
Definition get_address (name_of_function : string) (h : nat) (function : Z -> Z + bytes * Z) : world Address :=
  n ← fd_num h;
  match function n with
  | inl errno => _ ← lift (SystemCall name_of_function (-1) errno 0); lift (Throw (UB "failure without errno"))
  | inr (address, size) => _ ← lift (SystemCall name_of_function 0 0 0); lift (Address_of_sockaddr address size)
  end.

Definition local_address (h : nat) (getsockname : Z -> Z + bytes * Z) : world Address := get_address "getsockname" h getsockname.
Definition peer_address (h : nat) (getpeername : Z -> Z + bytes * Z) : world Address := get_address "getpeername" h getpeername.

(** A call on the socket's number that answers with 0 or an [errno]. *)
Definition socket_call (attempt : string) (h : nat) (kernel : Z -> Z) : world unit :=
  n ← fd_num h;
  _ ← lift (SystemCall attempt (answer (kernel n)) (kernel n) 0);
  mret tt.

Definition Socket_bind (h : nat) (address : Address) (bind : Z -> bytes -> Z) : world unit :=
  socket_call "bind" h (fun n => bind n (sockaddr_of address)).
Definition Socket_connect_to (h : nat) (address : Address) (connect : Z -> bytes -> Z) : world unit :=
  socket_call "connect" h (fun n => connect n (sockaddr_of address)).
Definition TCPSocket_listen (h : nat) (backlog : Z) (listen : Z -> Z -> Z) : world unit :=
  socket_call "listen" h (fun n => listen n backlog).

Definition SOL_SOCKET : Z := 1.
Definition SO_REUSEADDR : Z := 2.

(** [option_value] as the bytes in memory. *)
Definition Socket_setsockopt (h : nat) (level option : Z) (option_value : bytes) (setsockopt : Z -> Z -> Z -> bytes -> Z) : world unit :=
  socket_call "setsockopt" h (fun n => setsockopt n level option option_value).

(** [int(true)], low byte first. *)
Definition set_reuseaddr (h : nat) (setsockopt : Z -> Z -> Z -> bytes -> Z) : world unit :=
  Socket_setsockopt h SOL_SOCKET SO_REUSEADDR (map byte_of [1; 0; 0; 0]) setsockopt.

(** ** TUN/TAP *)

Definition IFNAMSIZ : nat := 16.
Definition IFF_TUN : Z := 1.
Definition IFF_TAP : Z := 2.
Definition IFF_NO_PI : Z := 4096.

Record ifreq : Type := mkIfreq { ifr_name : bytes; ifr_flags : Z }.

(** [strncpy] into [n] bytes: up to the first zero byte, then zeros. *)
Fixpoint strncpy (n : nat) (src : bytes) : bytes :=
  match n, src with
  | S n', c :: src' => if bool_decide (c = Corelib.Init.Byte.x00) then replicate n Corelib.Init.Byte.x00 else c :: strncpy n' src'
  | _, _ => replicate n Corelib.Init.Byte.x00
  end.

Definition tun_req (devname : bytes) (is_tun : bool) : ifreq :=
  mkIfreq (strncpy (IFNAMSIZ - 1) devname ++ [Corelib.Init.Byte.x00]) (Z.lor (if is_tun then IFF_TUN else IFF_TAP) IFF_NO_PI).

(** [TunTapFD(devname, is_tun)]: [open] answers for [CLONEDEV], [ioctl] to the request. *)
Definition TunTapFD_new (h : nat) (devname : bytes) (is_tun : bool) (open : Z + Z) (ioctl : Z -> ifreq -> Z) : world unit :=
  fd ← new_number "open" open;
  _ ← FileDescriptor_make h fd;
  constructor_body h (socket_call "ioctl" h (fun n => ioctl n (tun_req devname is_tun))).

Definition TunFD_new (h : nat) (devname : bytes) := TunTapFD_new h devname true.
Definition TapFD_new (h : nat) (devname : bytes) := TunTapFD_new h devname false.

(** ** Lemmas *)

(** The store with a new object [h] that owns the open number [n] through the wrapper [l] in
    the state [st], and after [FileDescriptor(n)] on a new number. *)
Definition made_with (st : FDWrapper) (l h : nat) (n : Z) (w : World) : World :=
  mkWorld ({[n]} ∪ w_open w) (w_raw w) (<[l := mkCell n st]> (w_cells w)) (<[h := Some l]> (w_handles w)) (w_close w).
Abbreviation made_at := (made_with FDWrapper_new).
Definition made (h : nat) (n : Z) (w : World) : World := made_at (fresh (dom (w_cells w))) h n w.

Lemma fresh_cell w : w_cells w !! fresh (dom (w_cells w)) = None.
Proof. apply not_elem_of_dom, is_fresh. Qed.

Lemma unused_raw w n : own_inv w -> n ∉ w_open w -> n ∉ w_raw w.
Proof. intros H Hn Hr. apply Hn, (oi_open _ H). by left. Qed.

Lemma make_made w h n : own_inv w -> 0 <= n -> n ∉ w_open w -> FileDescriptor_make h n (kernel_open n w) = (Ok tt, made h n w).
Proof.
  intros H H0 Hn. unfold FileDescriptor_make, FileDescriptor_of. destruct (Z.ltb_spec n 0); [lia|]. mrun. unfold modify, made, made_with, kernel_open. cbn.
  repeat f_equal. pose proof (unused_raw w n H Hn). apply leibniz_equiv. set_solver.
Qed.

Lemma make_beside w h n n' : 0 <= n -> n <> n' ->
  FileDescriptor_make h n (kernel_open n' w) = (Ok tt, kernel_open n' (snd (FileDescriptor_make h n w))).
Proof.
  intros H0 Hne. unfold FileDescriptor_make, FileDescriptor_of. destruct (Z.ltb_spec n 0); [lia|]. mrun. unfold modify, kernel_open. cbn.
  assert (({[n']} ∪ w_raw w) ∖ {[n]} = {[n']} ∪ w_raw w ∖ {[n]}) as -> by (apply leibniz_equiv; set_solver). done.
Qed.

Lemma new_number_ok what w n : 0 <= n -> new_number what (inr n) w = (Ok n, kernel_open n w).
Proof. intros H. unfold new_number. rewrite SystemCall_ok by done. by mrun. Qed.

(** What a call that hands out a number throws on an [errno]. *)
Definition refused (attempt : string) (errno : Z) : exn :=
  if errno =? 0 then runtime_error "invalid fd number:-1" else unix_error attempt errno.

Lemma new_number_refused what h errno w :
  (fd ← new_number what (inl errno); FileDescriptor_make h fd) w = (Throw (refused what errno), w).
Proof.
  unfold new_number, SystemCall, refused. destruct (errno =? 0) eqn:E; cbn [orb Z.leb Z.compare]; [|reflexivity]. rewrite run_lift. reflexivity.
Qed.

Lemma bind_new what kernel h (m : unit -> world unit) w :
  (fd ← new_number what kernel; u ← FileDescriptor_make h fd; m u) w = ((fd ← new_number what kernel; FileDescriptor_make h fd) ≫= m) w.
Proof. unfold mbind, method_bind. destruct (new_number what kernel w) as [[fd|e|] w']; try done. Qed.

(** Taking a number and making an object of it. *)
Lemma new_made what kernel h w : own_inv w -> match kernel with inl _ => True | inr n => 0 <= n /\ n ∉ w_open w end ->
  (fd ← new_number what kernel; FileDescriptor_make h fd) w =
  match kernel with inl errno => (Throw (refused what errno), w) | inr n => (Ok tt, made h n w) end.
Proof.
  intros H Hk. destruct kernel as [errno|n]; [apply new_number_refused|]. destruct Hk. erewrite run_bind by (by apply new_number_ok). by apply make_made.
Qed.

Lemma made_fd_num w st l h n : fd_num h (made_with st l h n w) = (Ok n, made_with st l h n w).
Proof. unfold fd_num. erewrite run_bind by (apply the_cell_ok; apply lookup_insert_eq). done. Qed.

Lemma made_destroy w st l h n : own_inv w -> fd_closed st = false -> w_cells w !! l = None -> n ∉ w_open w -> w_handles w !! h = None ->
  FileDescriptor_destroy h (made_with st l h n w) = w.
Proof.
  intros H Hc Hl Hn Hh. unfold FileDescriptor_destroy. cbn [made_with w_handles]. rewrite lookup_insert_eq. cbn [release].
  set (w1 := w_set_handles _ _). assert (Eo : owned l w1 = false).
  { apply not_true_iff_false. rewrite owned_spec. intros [h' E]. unfold w1 in E. cbn in E. rewrite delete_insert_id in E by done.
    destruct (oi_valid _ H _ _ E) as [ce Hce]. congruence. }
  rewrite Eo. unfold FDWrapper_destroy, w1. cbn [w_set_handles w_cells made_with]. rewrite lookup_insert_eq. cbn [ce_state ce_fd]. rewrite Hc.
  unfold kernel_close. cbn [w_set_cells w_open w_set_handles made_with]. rewrite bool_decide_true by set_solver. cbn. rewrite !delete_insert_id by done.
  destruct w as [o r c hs]. cbn in *. f_equal. apply leibniz_equiv. set_solver.
Qed.

(** An object [t] that was moved from. *)
Definition null (t : nat) (w : World) : World := w_set_handles (<[t := None]> (w_handles w)) w.

Lemma null_inv t w : own_inv w -> w_handles w !! t = None -> own_inv (null t w).
Proof.
  intros H Ht. apply inv_handles; [done| |].
  - intros h l [[_ ?]|[_ E]]%lookup_insert_Some; [done|by exists h].
  - intros h l E. exists h. rewrite lookup_insert_ne; [done|congruence].
Qed.

Lemma null_fresh t h w : t <> h -> w_handles (null t w) !! h = w_handles w !! h.
Proof. intros Hne. by apply lookup_insert_ne. Qed.

Lemma made_fresh w st l h n t : t <> h -> w_handles (made_with st l h n w) !! t = w_handles w !! t.
Proof. intros Hne. by apply lookup_insert_ne. Qed.

Lemma made_cells w st l h n l' : l <> l' -> w_cells (made_with st l h n w) !! l' = w_cells w !! l'.
Proof. intros Hne. by apply lookup_insert_ne. Qed.

Lemma made_move w l t h n : t <> h -> FileDescriptor_move t h (made_at l t n w) = made_at l h n (null t w).
Proof.
  intros Hne. unfold FileDescriptor_move. cbn [made_with w_handles]. rewrite lookup_insert_eq. unfold made_with, null, w_set_handles. cbn. by rewrite insert_insert_eq.
Qed.

Lemma null_destroy t w : w_handles w !! t = None -> FileDescriptor_destroy t (null t w) = w.
Proof.
  intros Ht. unfold FileDescriptor_destroy. cbn. rewrite lookup_insert_eq. cbn [release]. unfold null, w_set_handles. cbn.
  rewrite delete_insert_id by done. by destruct w.
Qed.

Lemma made_null t l h n w : t <> h -> made_at l h n (null t w) = null t (made_at l h n w).
Proof. intros Hne. unfold made_with, null, w_set_handles. cbn. f_equal. by apply insert_insert_ne. Qed.

Lemma made_made st l h n st' l' h' n' w : l <> l' -> h <> h' -> made_with st l h n (made_with st' l' h' n' w) = made_with st' l' h' n' (made_with st l h n w).
Proof.
  intros Hl Hh. unfold made_with. cbn. f_equal; [apply leibniz_equiv; set_solver|by apply insert_insert_ne|by apply insert_insert_ne].
Qed.

(** [Socket(fd, ...)] moves the new descriptor, and destroys it when the check fails. *)
Lemma socket_of_made w l t h n domain type getsockopt : own_inv w -> w_cells w !! l = None -> n ∉ w_open w -> t <> h ->
  w_handles w !! t = None -> w_handles w !! h = None ->
  Socket_of t h domain type getsockopt (made_at l t n w) =
  match Socket_verify domain type (getsockopt n SO_DOMAIN) (getsockopt n SO_TYPE) with
  | Ok _ => (Ok tt, made_at l h n (null t w))
  | r => (r, null t w)
  end.
Proof.
  intros H Hl Hn Hne Ht Hh. unfold Socket_of. rewrite run_modify, made_move by done. unfold constructor_body.
  erewrite run_bind by apply made_fd_num. cbv beta. unfold lift.
  destruct (Socket_verify _ _ _ _) as [[]|e|]; [done| |]; (rewrite made_destroy; [done|by apply null_inv|done..|by rewrite null_fresh]).
Qed.

Lemma socket_call_eq what h kernel w n : fd_num h w = (Ok n, w) ->
  socket_call what h kernel w = (if kernel n =? 0 then Ok tt else Throw (unix_error what (kernel n)), w).
Proof.
  intros E. unfold socket_call. erewrite run_bind by exact E. unfold SystemCall, answer. destruct (kernel n =? 0) eqn:Ek; cbn; [by mrun|done].
Qed.

Lemma made_inv w l h n : own_inv w -> w_cells w !! l = None -> 0 <= n -> n ∉ w_open w -> w_handles w !! h = None -> own_inv (made_at l h n w).
Proof.
  intros H Hl H0 Hn Hh. assert (Ho : own_inv (kernel_open n w)) by (eapply own_step_inv; [exact H|by apply own_open]).
  pose proof (new_inv (kernel_open n w) l h n Ho Hl ltac:(set_solver) Hh) as Hi. pose proof (unused_raw w n H Hn).
  unfold kernel_open, made_with in *. cbn in *. assert (({[n]} ∪ w_raw w) ∖ {[n]} = w_raw w) as Er by (apply leibniz_equiv; set_solver). by rewrite Er in Hi.
Qed.

(** The characters of a C string. *)
Fixpoint c_string (s : bytes) : bytes :=
  match s with
  | c :: s' => if bool_decide (c = Corelib.Init.Byte.x00) then [] else c :: c_string s'
  | [] => []
  end.

Lemma c_string_zeros n : c_string (replicate n Corelib.Init.Byte.x00) = [].
Proof. by destruct n. Qed.

Lemma strncpy_spec n : forall src, length (strncpy n src) = n /\ c_string (strncpy n src ++ [Corelib.Init.Byte.x00]) = take n (c_string src).
Proof.
  induction n as [|n IH]; intros [|c src]; cbn; try done.
  - rewrite length_replicate. split; [done|]. by rewrite bool_decide_true.
  - destruct (IH src) as [IH1 IH2]. case_bool_decide; cbn.
    + rewrite length_replicate. by rewrite bool_decide_true.
    + rewrite IH1, bool_decide_false by done. by rewrite IH2.
Qed.

(** The pair of new descriptors, before they are moved. *)
Lemma socket_pair_made w t0 t1 type socketpair n0 n1 : own_inv w -> 0 <= n0 -> 0 <= n1 -> n0 <> n1 -> n0 ∉ w_open w -> n1 ∉ w_open w ->
  w_handles w !! t0 = None -> t0 <> t1 -> socketpair AF_UNIX type = inr (n0, n1) ->
  socket_pair t0 t1 type socketpair w = (Ok tt, made t1 n1 (made t0 n0 w)).
Proof.
  intros H H0 H1 Hne Hn0 Hn1 Ht0 Ht E. unfold socket_pair. rewrite E, SystemCall_ok by done. mrun.
  erewrite run_bind; [|rewrite make_beside by done; rewrite make_made by done; reflexivity]. cbn [snd]. unfold constructor_body.
  rewrite make_made; [done|apply made_inv; [done|apply fresh_cell|done..]|done|]. cbn. set_solver.
Qed.

(** Everything a constructor holds when it fails after its first part is given back. *)
Lemma undo w l h n t t' : own_inv w -> w_cells w !! l = None -> n ∉ w_open w -> NoDup [t; t'; h] -> Forall (fun h => w_handles w !! h = None) [t; t'; h] ->
  FileDescriptor_destroy t (FileDescriptor_destroy t' (FileDescriptor_destroy h (null t' (null t (made_at l h n w))))) = w.
Proof.
  intros H Hl Hn Hd Hf. apply Forall_cons in Hf as [Ht Hf]. apply Forall_cons in Hf as [Ht' Hf]. apply Forall_cons in Hf as [Hh _].
  assert (t <> t' /\ t <> h /\ t' <> h) as (? & ? & ?) by (repeat apply NoDup_cons in Hd as [? Hd]; set_solver).
  rewrite <- !made_null by done. rewrite made_destroy; [|by repeat (apply null_inv; rewrite ?null_fresh)|done..|by rewrite !null_fresh].
  rewrite null_destroy by (by rewrite null_fresh). by apply null_destroy.
Qed.

(** The descriptors of a socket's two ends are made, or the store is as before. *)
Lemma ends_made w l0 l1 t0 t1 h0 h1 n0 n1 getsockopt getfl setfl : own_inv w -> w_cells w !! l0 = None -> w_cells w !! l1 = None -> l0 <> l1 ->
  0 <= n0 -> 0 <= n1 -> n0 ∉ w_open w -> n1 ∉ w_open w -> n0 <> n1 -> NoDup [t0; t1; h0; h1] -> Forall (fun h => w_handles w !! h = None) [t0; t1; h0; h1] ->
  with_temporary t0 (with_temporary t1
    (_ ← LocalStreamSocket_make t0 h0 getsockopt;
     constructor_body h0
       (_ ← LocalStreamSocket_make t1 h1 getsockopt;
        constructor_body h1
          (n ← fd_num h1;
           _ ← lift (set_blocking false (getfl n) (setfl n));
           mret tt)))) (made_at l1 t1 n1 (made_at l0 t0 n0 w)) =
  let r := _ ← Socket_verify AF_UNIX SOCK_STREAM (getsockopt n0 SO_DOMAIN) (getsockopt n0 SO_TYPE);
           _ ← Socket_verify AF_UNIX SOCK_STREAM (getsockopt n1 SO_DOMAIN) (getsockopt n1 SO_TYPE);
           _ ← set_blocking false (getfl n1) (setfl n1); Ok tt in
  (r, match r with Ok _ => made_at l1 h1 n1 (made_at l0 h0 n0 w) | _ => w end).
Proof.
  intros H Hl0 Hl1 Hl H0 H1 Hn0 Hn1 Hn Hd Hf.
  apply Forall_cons in Hf as [Ht0 Hf]. apply Forall_cons in Hf as [Ht1 Hf]. apply Forall_cons in Hf as [Hh0 Hf]. apply Forall_cons in Hf as [Hh1 _].
  assert (t0 <> t1 /\ t0 <> h0 /\ t0 <> h1 /\ t1 <> h0 /\ t1 <> h1 /\ h0 <> h1) as (? & ? & ? & ? & ? & ?)
    by (repeat apply NoDup_cons in Hd as [? Hd]; set_solver).
  assert (Hi1 : own_inv (made_at l1 t1 n1 w)) by by apply made_inv.
  assert (Hi0 : own_inv (made_at l0 h0 n0 w)) by by apply made_inv.
  rewrite made_made by done. unfold with_temporary, LocalStreamSocket_make. set (w2 := null t0 (made_at l0 h0 n0 w)).
  pose proof (socket_of_made (made_at l1 t1 n1 w) l0 t0 h0 n0 AF_UNIX SOCK_STREAM getsockopt Hi1) as E0.
  rewrite made_cells, !made_fresh in E0 by done. specialize (E0 Hl0 ltac:(set_solver) ltac:(done) Ht0 Hh0).
  assert (Hw2 : made_at l0 h0 n0 (null t0 (made_at l1 t1 n1 w)) = made_at l1 t1 n1 w2).
  { unfold w2. rewrite made_null, made_made, <- made_null by done. done. }
  assert (Hi2 : own_inv w2) by (apply null_inv; [done|by rewrite made_fresh]).
  pose proof (socket_of_made w2 l1 t1 h1 n1 AF_UNIX SOCK_STREAM getsockopt Hi2) as E1. unfold w2 in E1. rewrite !null_fresh, !made_fresh in E1 by done.
  cbn [null w_set_handles w_cells w_open] in E1. rewrite made_cells in E1 by done. fold w2 in E1. specialize (E1 Hl1 ltac:(set_solver) ltac:(done) Ht1 Hh1).
  assert (Hundo : FileDescriptor_destroy t0 (FileDescriptor_destroy t1 (FileDescriptor_destroy h0 (null t1 w2))) = w).
  { unfold w2. apply undo; [done..| |by repeat constructor]. repeat (apply NoDup_cons; split; [set_solver|]). apply NoDup_nil_2. }
  unfold mbind at 1, method_bind at 1. rewrite E0. destruct (Socket_verify _ _ (getsockopt n0 _) _) as [[]|e|]; cbn [mbind res_bind].
  2,3: f_equal; rewrite <- made_null by done; rewrite made_destroy; [by apply null_destroy|by apply null_inv|done..|by rewrite null_fresh].
  rewrite Hw2. unfold constructor_body at 1, mbind at 1, method_bind at 1. rewrite E1.
  destruct (Socket_verify _ _ (getsockopt n1 _) _) as [[]|e|]; cbn [mbind res_bind]; [|by f_equal..].
  unfold constructor_body. erewrite run_bind by apply made_fd_num. cbv beta. unfold mbind at 1, method_bind at 1, lift.
  destruct (set_blocking false (getfl n1) (setfl n1)) as [flags|e|]; cbn [mbind res_bind mret method_ret].
  2,3: f_equal; rewrite made_destroy; [done|by apply null_inv; [|unfold w2; rewrite null_fresh, made_fresh]|done|by apply lookup_insert_None|set_solver|].
  2,3: unfold w2; by rewrite !null_fresh, made_fresh.
  f_equal. rewrite made_null, null_destroy by (done || unfold w2; by rewrite made_fresh, null_fresh, made_fresh).
  unfold w2. rewrite made_null, null_destroy by (done || by rewrite !made_fresh). done.
Qed.

(** What the kernel hands out is a number that is not open. *)
Definition unused (w : World) (kernel : Z + Z) : Prop :=
  match kernel with inl _ => True | inr n => 0 <= n /\ n ∉ w_open w end.

(** A constructor that goes on after it made its object. *)
Lemma new_then what kernel h (m : unit -> world unit) w : own_inv w -> unused w kernel ->
  (fd ← new_number what kernel; u ← FileDescriptor_make h fd; m u) w =
  match kernel with inl errno => (Throw (refused what errno), w) | inr n => m tt (made h n w) end.
Proof. intros H Hk. rewrite bind_new. unfold mbind at 1, method_bind at 1. rewrite new_made by done. by destruct kernel. Qed.

Lemma accept_eq w h l ce tmp h' accept getsockopt : own_inv w -> w_handles w !! h = Some (Some l) -> w_cells w !! l = Some ce ->
  w_handles w !! tmp = None -> w_handles w !! h' = None -> tmp <> h' -> unused w (accept (ce_fd ce)) ->
  let w' := snd (on_cell h (modify register_read) w) in
  accept_socket h tmp h' accept getsockopt w =
  match accept (ce_fd ce) with
  | inl errno => (Throw (refused "accept" errno), w')
  | inr n => let r := Socket_verify AF_INET SOCK_STREAM (getsockopt n SO_DOMAIN) (getsockopt n SO_TYPE) in
             (r, match r with Ok _ => made h' n w' | _ => w' end)
  end.
Proof.
  intros H Eh Ec Ht Hh Hne Hu w'. assert (H' : own_inv w') by by apply use_inv.
  pose proof (on_cell_eq w h l ce (modify register_read) Eh Ec) as E. unfold accept_socket.
  assert (E1 : on_cell h (modify register_read) w = (Ok tt, w')) by (unfold w'; by rewrite E).
  erewrite run_bind by exact E1. assert (E2 : fd_num h w' = (Ok (ce_fd ce), w')).
  { unfold fd_num. erewrite run_bind by (apply the_cell_ok; unfold w'; rewrite E; [exact Eh|apply lookup_insert_eq]). done. }
  erewrite run_bind by exact E2. assert (Hw : w_open w' = w_open w /\ w_handles w' = w_handles w) by (unfold w'; by rewrite E).
  destruct Hw as [Ho Hhs]. rewrite new_then by (done || unfold unused in *; by rewrite Ho). destruct (accept (ce_fd ce)) as [errno|n]; [done|]. destruct Hu as [H0 Hn].
  unfold with_temporary, TCPSocket_of, made. rewrite socket_of_made by (done || rewrite ?Hhs, ?Ho; done || apply fresh_cell). cbv zeta.
  destruct (Socket_verify _ _ _ _) as [[]|e|]; f_equal; rewrite ?made_null by done; apply null_destroy; [rewrite made_fresh by done| |]; by rewrite Hhs.
Qed.

Lemma descriptors_eq w t0 t1 h0 h1 socketpair getsockopt getfl setfl n0 n1 : own_inv w ->
  NoDup [t0; t1; h0; h1] -> Forall (fun h => w_handles w !! h = None) [t0; t1; h0; h1] ->
  unused w (inr n0) -> unused w (inr n1) -> n0 <> n1 -> socketpair AF_UNIX SOCK_STREAM = inr (n0, n1) ->
  TCPSpongeSocket_descriptors t0 t1 h0 h1 socketpair getsockopt getfl setfl w =
  let r := _ ← Socket_verify AF_UNIX SOCK_STREAM (getsockopt n0 SO_DOMAIN) (getsockopt n0 SO_TYPE);
           _ ← Socket_verify AF_UNIX SOCK_STREAM (getsockopt n1 SO_DOMAIN) (getsockopt n1 SO_TYPE);
           _ ← set_blocking false (getfl n1) (setfl n1); Ok tt in
  (r, match r with Ok _ => made h1 n1 (made h0 n0 w) | _ => w end).
Proof.
  intros H Hd Hf [H0 Hn0] [H1 Hn1] Hn E. unfold TCPSpongeSocket_descriptors.
  erewrite run_bind by (apply (socket_pair_made w t0 t1 SOCK_STREAM socketpair n0 n1); try done;
    [by apply Forall_cons in Hf as [? _]|apply NoDup_cons in Hd as [Hd _]; set_solver]).
  unfold made at 1 2. set (l0 := fresh (dom (w_cells w))). set (l1 := fresh _).
  assert (Hl : l0 <> l1 /\ w_cells w !! l1 = None).
  { pose proof (fresh_cell (made_at l0 t0 n0 w)) as Hc. fold l1 in Hc. cbn in Hc. apply lookup_insert_None in Hc. naive_solver. }
  destruct Hl. rewrite (ends_made w l0 l1) by (done || apply fresh_cell). cbv zeta. f_equal.
Qed.

Lemma tuntap_eq w h devname is_tun open ioctl : own_inv w -> w_handles w !! h = None -> unused w open ->
  TunTapFD_new h devname is_tun open ioctl w =
  match open with
  | inl errno => (Throw (refused "open" errno), w)
  | inr n => let errno := ioctl n (tun_req devname is_tun) in
             if errno =? 0 then (Ok tt, made h n w) else (Throw (unix_error "ioctl" errno), w)
  end.
Proof.
  intros H Hh Hu. unfold TunTapFD_new. rewrite new_then by done. destruct open as [errno|n]; [done|]. destruct Hu as [H0 Hn].
  unfold constructor_body. erewrite socket_call_eq by apply made_fd_num. cbv zeta. destruct (_ =? 0); [done|]. f_equal.
  apply made_destroy; [done|done|apply fresh_cell|done|done].
Qed.

(** ** Theorems *)

(** C33: a constructor owns what it opened or gives it back. In any state of a program that
    uses its descriptors properly, opening a socket, accepting a connection, making the
    two ends of a TCP socket and opening a TUN or TAP device either succeed, and then exactly
    one new object owns each new number, or throw the error of the call that failed, and
    then the store is what it was, but for the read count of the listening socket after
    [accept]: what was opened before the failure is closed again, whether the failure is a
    system call or a socket of the wrong domain or type. *)
Theorem constructors_own_or_release w : reach own_step World_empty w ->
  (forall h domain type socket, w_handles w !! h = None -> unused w (socket domain type) ->
     Socket_new h domain type socket w =
     match socket domain type with inl errno => (Throw (refused "socket" errno), w) | inr n => (Ok tt, made h n w) end) /\
  (forall h l ce tmp h' accept getsockopt, w_handles w !! h = Some (Some l) -> w_cells w !! l = Some ce ->
     w_handles w !! tmp = None -> w_handles w !! h' = None -> tmp <> h' -> unused w (accept (ce_fd ce)) ->
     let w' := snd (on_cell h (modify register_read) w) in
     accept_socket h tmp h' accept getsockopt w =
     match accept (ce_fd ce) with
     | inl errno => (Throw (refused "accept" errno), w')
     | inr n => let r := Socket_verify AF_INET SOCK_STREAM (getsockopt n SO_DOMAIN) (getsockopt n SO_TYPE) in
                (r, match r with Ok _ => made h' n w' | _ => w' end)
     end) /\
  (forall t0 t1 h0 h1 socketpair getsockopt getfl setfl, NoDup [t0; t1; h0; h1] -> Forall (fun h => w_handles w !! h = None) [t0; t1; h0; h1] ->
     match socketpair AF_UNIX SOCK_STREAM with
     | inl errno => errno <> 0
     | inr (n0, n1) => unused w (inr n0) /\ unused w (inr n1) /\ n0 <> n1
     end ->
     TCPSpongeSocket_descriptors t0 t1 h0 h1 socketpair getsockopt getfl setfl w =
     match socketpair AF_UNIX SOCK_STREAM with
     | inl errno => (Throw (unix_error "socketpair" errno), w)
     | inr (n0, n1) =>
         let r := _ ← Socket_verify AF_UNIX SOCK_STREAM (getsockopt n0 SO_DOMAIN) (getsockopt n0 SO_TYPE);
                  _ ← Socket_verify AF_UNIX SOCK_STREAM (getsockopt n1 SO_DOMAIN) (getsockopt n1 SO_TYPE);
                  _ ← set_blocking false (getfl n1) (setfl n1); Ok tt in
         (r, match r with Ok _ => made h1 n1 (made h0 n0 w) | _ => w end)
     end) /\
  (forall h devname is_tun open ioctl, w_handles w !! h = None -> unused w open ->
     TunTapFD_new h devname is_tun open ioctl w =
     match open with
     | inl errno => (Throw (refused "open" errno), w)
     | inr n => let errno := ioctl n (tun_req devname is_tun) in
                if errno =? 0 then (Ok tt, made h n w) else (Throw (unix_error "ioctl" errno), w)
     end).
Proof.
  intros Hre. pose proof (reach_invariant own_step own_inv _ _ own_step_inv own_inv_empty Hre) as H. split_and!.
  - intros h domain type socket Hh Hu. by apply new_made.
  - intros *. by apply accept_eq.
  - intros t0 t1 h0 h1 socketpair getsockopt getfl setfl Hd Hf Hk. destruct (socketpair AF_UNIX SOCK_STREAM) as [errno|[n0 n1]] eqn:E.
    + unfold TCPSpongeSocket_descriptors, socket_pair. rewrite E. unfold SystemCall. by destruct (Z.eqb_spec errno 0).
    + destruct Hk as (? & ? & ?). by apply descriptors_eq.
  - intros *. by apply tuntap_eq.
Qed.

(** a device is asked for by the first 15 characters of its name, up to a zero byte, and the
    name in the request is terminated, so that two devices whose names agree there are one
    to this program. *)
Theorem device_request_name devname devname' is_tun :
  zlen (ifr_name (tun_req devname is_tun)) = 16 /\
  c_string (ifr_name (tun_req devname is_tun)) = take 15 (c_string devname) /\
  ifr_flags (tun_req devname is_tun) = (if is_tun then 4097 else 4098) /\
  (take 15 (c_string devname) = take 15 (c_string devname') -> tun_req devname is_tun = tun_req devname' is_tun).
Proof.
  destruct (strncpy_spec 15 devname) as [H1 H2]. split; [|split; [exact H2|split; [by destruct is_tun|]]].
  - cbn [tun_req ifr_name]. change (IFNAMSIZ - 1)%nat with 15%nat. unfold zlen. rewrite length_app, H1. done.
  - intros E. unfold tun_req. f_equal. change (IFNAMSIZ - 1)%nat with 15%nat. f_equal. clear H1 H2. revert devname devname' E. generalize 15%nat as n.
    induction n as [|n IH]; intros [|c s] [|c' s'] E; cbn in *; try done; repeat case_bool_decide; cbn in *; try done; [].
    injection E as -> E. f_equal. by apply IH.
Qed.

(** a socket reports the address it was given: when the kernel answers [getsockname] with the
    bytes that [bind] passed to it, [local_address] is an address equal to that one. *)
Theorem local_address_of_bind w h n address bind getsockname :
  fd_num h w = (Ok n, w) -> 0 <= ad_size address <= SOCKADDR_STORAGE_SIZE -> zlen (ad_storage address) = SOCKADDR_STORAGE_SIZE ->
  (forall a, bind n a = 0 -> getsockname n = inr (a, zlen a)) -> bind n (sockaddr_of address) = 0 ->
  Socket_bind h address bind w = (Ok tt, w) /\
  exists a, local_address h getsockname w = (Ok a, w) /\ Address_eqb a address = true.
Proof.
  intros E Hs Hst Hk Hb. assert (Hl : zlen (sockaddr_of address) = ad_size address) by (unfold sockaddr_of; rewrite zlen_ztake; lia). split.
  - unfold Socket_bind. erewrite socket_call_eq by exact E. cbv beta. by rewrite Hb.
  - unfold local_address, get_address. erewrite run_bind by exact E. rewrite (Hk _ Hb), SystemCall_ok by done. mrun. unfold lift, Address_of_sockaddr.
    rewrite Hl. destruct (Z.ltb_spec SOCKADDR_STORAGE_SIZE (ad_size address)); [lia|]. eexists. split; [reflexivity|].
    unfold Address_eqb. cbn [ad_size ad_storage]. rewrite Z.eqb_refl. cbn [negb]. apply bool_decide_eq_true. rewrite (ztake_all _ (sockaddr_of address)) by lia.
    rewrite ztake_app_le by lia. rewrite ztake_all by lia. done.
Qed.

(** *** Witnesses *)

Definition demo_listening : World := made 0 3 World_empty.

Lemma demo_listening_reached : reach own_step World_empty demo_listening.
Proof.
  unfold demo_listening. assert (E : FileDescriptor_make 0 3 (kernel_open 3 World_empty) = (Ok tt, made 0 3 World_empty)).
  { apply make_made; [apply own_inv_empty|lia|set_solver]. }
  replace (made 0 3 World_empty) with (snd (FileDescriptor_make 0 3 (kernel_open 3 World_empty))) by by rewrite E.
  eapply reach_step; [|apply own_make; [set_solver|lia|done]]. eapply reach_step; [apply reach_refl|]. apply own_open; [lia|set_solver].
Qed.

(** A socket of another type is refused, and its number is closed again. *)
Lemma constructors_own_or_release_witness :
  accept_socket 0 1 2 (fun _ => inr 4) (fun _ o => inr (if o =? SO_DOMAIN then AF_INET else SOCK_DGRAM, 4)) demo_listening =
  (Throw (runtime_error "socket type mismatch"), snd (on_cell 0 (modify register_read) demo_listening)).
Proof.
  destruct (constructors_own_or_release demo_listening demo_listening_reached) as (_ & H & _).
  specialize (H 0%nat (fresh (dom (w_cells World_empty))) (mkCell 3 FDWrapper_new) 1%nat 2%nat (fun _ => inr 4)
    (fun _ o => inr (if o =? SO_DOMAIN then AF_INET else SOCK_DGRAM, 4))). apply H; try done.
Defined.

Lemma local_address_of_bind_witness :
  exists a, local_address 0 (fun _ => inr (sockaddr_of (inet 16777343 80), 16)) demo_listening = (Ok a, demo_listening) /\
    Address_eqb a (inet 16777343 80) = true.
Proof.
  apply (local_address_of_bind demo_listening 0 3 (inet 16777343 80) (fun _ a => if bool_decide (a = sockaddr_of (inet 16777343 80)) then 0 else 98)).
  - apply made_fd_num.
  - cbn. unfold SOCKADDR_IN_SIZE, SOCKADDR_STORAGE_SIZE. lia.
  - reflexivity.
  - intros a. case_bool_decide; [|done]. subst a. done.
  - by rewrite bool_decide_true.
Defined.
