(* ===== verification/EventLoop.v ===== *)
(** * The event loop

    Models [libsponge/util/eventloop.hh] and [eventloop.cc]. The state [W] that the rules'
    callbacks share is a type parameter: a rule finds its file descriptor in it, and
    [poll] is part of what changes it. *)

From stdpp Require Import sorting.
From S2P Require Import Prelude Buffers Addresses FileDescriptors.

Inductive Direction : Type := Direction_In | Direction_Out.

Definition POLLIN : Z := 1.
Definition POLLOUT : Z := 4.
Definition POLLERR : Z := 8.
Definition POLLHUP : Z := 16.
Definition POLLNVAL : Z := 32.
Definition EINTR : Z := 4.

Definition direction_events (d : Direction) : Z := match d with Direction_In => POLLIN | Direction_Out => POLLOUT end.

Inductive Result : Type := Success | Timeout | Exit.

(** What [::poll] does: fail with an [errno] and leave the [revents] alone, or fill them
    in and return the number of entries that are not zero. *)
Inductive poll_outcome : Type :=
| poll_failed (errno : Z)
| poll_ready (revents : list Z).

(** The return value, [errno] and the [revents] in the array. *)
Definition poll_result (pollfds : list Z) (o : poll_outcome) : Z * Z * list Z :=
  match o with
  | poll_failed errno => (-1, errno, map (fun _ => 0) pollfds)
  | poll_ready revents => (zlen (List.filter (fun e => negb (e =? 0)) revents), 0, revents)
  end.

Section EventLoop.
Context {W : Type}.

Record Rule : Type := mkRule {
  ru_fd : W -> FDWrapper;
  ru_direction : Direction;
  ru_callback : method W unit;
  ru_interest : W -> bool;
  ru_cancel : method W unit
}.

Definition service_count (r : Rule) (w : W) : Z :=
  match ru_direction r with
  | Direction_In => fd_read_count (ru_fd r w)
  | Direction_Out => fd_write_count (ru_fd r w)
  end.

(** The loop is the list [_rules]. *)
Definition add_rule (r : Rule) (rules : list Rule) : list Rule := rules ++ [r].

(** [this_rule.cancel(); it = _rules.erase(it);] then [k]; [kept] are the rules before it. *)
Definition cancel_rule {A} (kept : list Rule) (r : Rule) (rest : list Rule)
    (k : W -> res A * (list Rule * W)) (w : W) : res A * (list Rule * W) :=
  match ru_cancel r w with
  | (Ok _, w') => k w'
  | (Throw e, w') => (Throw e, (kept ++ r :: rest, w'))
  | (NoFuel, w') => (NoFuel, (kept ++ r :: rest, w'))
  end.

(** The first loop: cancels what has ended, collects the requested events of the others
    (0 for a rule that is not interested). *)
Fixpoint setup_loop (kept todo : list Rule) (pollfds : list Z) (something_to_poll : bool) (w : W)
  : res (list Z * bool) * (list Rule * W) :=
  match todo with
  | [] => (Ok (pollfds, something_to_poll), (kept, w))
  | r :: rest =>
      if (match ru_direction r with Direction_In => fd_eof (ru_fd r w) | Direction_Out => false end) || fd_closed (ru_fd r w)
      then cancel_rule kept r rest (setup_loop kept rest pollfds something_to_poll) w
      else if ru_interest r w
      then setup_loop (kept ++ [r]) rest (pollfds ++ [direction_events (ru_direction r)]) true w
      else setup_loop (kept ++ [r]) rest (pollfds ++ [0]) something_to_poll w
  end.

(** [static_cast<bool>(a & b)] *)
Definition any_bit (a b : Z) : bool := negb (Z.land a b =? 0).

(** The second loop, over the rules with their events and the poll results. *)
Fixpoint result_loop (kept todo : list Rule) (pollfds : list (Z * Z)) (w : W) : res Result * (list Rule * W) :=
  match todo, pollfds with
  | [], _ => (Ok Success, (kept, w))
  | _ :: _, [] => (Throw (UB "pollfds out of range"), (kept ++ todo, w))
  | r :: rest, (events, revents) :: pollfds' =>
      if any_bit revents (Z.lor POLLERR POLLNVAL)
      then (Throw (runtime_error "EventLoop: error on polled file descriptor"), (kept ++ todo, w))
      else
        let poll_ready := any_bit revents events in
        let poll_hup := any_bit revents POLLHUP in
        if poll_hup && negb (events =? 0) && negb poll_ready
        then cancel_rule kept r rest (result_loop kept rest pollfds') w
        else if poll_ready then
          let count_before := service_count r w in
          match ru_callback r w with
          | (Ok _, w') =>
              if (count_before =? service_count r w') && ru_interest r w'
              then (Throw (runtime_error
                     "EventLoop: busy wait detected: callback did not read/write fd and is still interested"),
                    (kept ++ todo, w'))
              else result_loop (kept ++ [r]) rest pollfds' w'
          | (Throw e, w') => (Throw e, (kept ++ todo, w'))
          | (NoFuel, w') => (NoFuel, (kept ++ todo, w'))
          end
        else result_loop (kept ++ [r]) rest pollfds' w
  end.

(** [wait_next_event]: an error of [poll] other than [EINTR] is caught and ignored, and
    the results are then looked at all the same. *)
Definition wait_next_event (poll : list Z -> W -> poll_outcome * W) (rules : list Rule) (w : W)
  : res Result * (list Rule * W) :=
  match setup_loop [] rules [] false w with
  | (Ok (pollfds, something_to_poll), (rules', w')) =>
      if negb something_to_poll then (Ok Exit, (rules', w'))
      else
        let '(outcome, w') := poll pollfds w' in
        let '(ret, errno, revents) := poll_result pollfds outcome in
        match SystemCall "poll" ret errno 0 with
        | Ok n => if n =? 0 then (Ok Timeout, (rules', w')) else result_loop [] rules' (zip pollfds revents) w'
        | Throw (unix_error _ code) =>
            if code =? EINTR then (Ok Exit, (rules', w')) else result_loop [] rules' (zip pollfds revents) w'
        | Throw e => (Throw e, (rules', w'))
        | NoFuel => (NoFuel, (rules', w'))
        end
  | (Throw e, x) => (Throw e, x)
  | (NoFuel, x) => (NoFuel, x)
  end.

End EventLoop.
Arguments Rule W : clear implicits.

(** ** What the rules leave alone

    A preorder [R] that every method of the rules keeps, whatever its result, is kept by the
    loop. *)
Section Keeps.
Context {W : Type} (R : W -> W -> Prop) `{!PreOrder R}.

Definition rule_keeps (r : Rule W) : Prop := keeps R (ru_callback r) /\ keeps R (ru_cancel r).

Lemma cancel_keeps {A} kept r rest (k : W -> res A * (list (Rule W) * W)) w : rule_keeps r -> Forall rule_keeps kept -> Forall rule_keeps rest ->
  (forall w', R w' (snd (snd (k w'))) /\ Forall rule_keeps (fst (snd (k w')))) ->
  R w (snd (snd (cancel_rule kept r rest k w))) /\ Forall rule_keeps (fst (snd (cancel_rule kept r rest k w))).
Proof.
  intros Hr Hk Hrest Hn. unfold cancel_rule. pose proof (proj2 Hr w) as Hc. destruct (ru_cancel r w) as [[u|e|] w']; cbn in *.
  - destruct (Hn w') as [? ?]. split; [by etrans|done].
  - split; [done|]. apply Forall_app. by split; [|constructor].
  - split; [done|]. apply Forall_app. by split; [|constructor].
Qed.

Lemma setup_keeps todo : forall kept pollfds any w, Forall rule_keeps kept -> Forall rule_keeps todo ->
  R w (snd (snd (setup_loop kept todo pollfds any w))) /\ Forall rule_keeps (fst (snd (setup_loop kept todo pollfds any w))).
Proof.
  induction todo as [|r todo IH]; intros kept pollfds any w Hk Ht; cbn [setup_loop]; [by split|]. apply Forall_cons in Ht as [Hr Ht].
  assert (Hk' : Forall rule_keeps (kept ++ [r])) by (apply Forall_app; split; [done|by apply Forall_singleton]).
  destruct (_ || _); [apply cancel_keeps; try done; intros w'; by apply IH|]. destruct (ru_interest r w); by apply IH.
Qed.

Lemma result_keeps todo : forall kept pollfds w, Forall rule_keeps kept -> Forall rule_keeps todo ->
  R w (snd (snd (result_loop kept todo pollfds w))) /\ Forall rule_keeps (fst (snd (result_loop kept todo pollfds w))).
Proof.
  induction todo as [|r todo IH]; intros kept [|[ev rev] pollfds] w Hk Ht; cbn [result_loop]; try by split.
  { split; [done|]. by apply Forall_app. }
  assert (Hall : Forall rule_keeps (kept ++ r :: todo)) by (by apply Forall_app). apply Forall_cons in Ht as [Hr Ht].
  assert (Hk' : Forall rule_keeps (kept ++ [r])) by (apply Forall_app; split; [done|by apply Forall_singleton]).
  destruct (any_bit rev _); [by split|]. destruct (_ && _ && _); [apply cancel_keeps; try done; intros w'; by apply IH|].
  destruct (any_bit rev ev); [|by apply IH]. pose proof (proj1 Hr w) as Hc. destruct (ru_callback r w) as [[u|e|] w']; cbn in Hc; [|by split..].
  destruct (_ && _); [by split|]. destruct (IH (kept ++ [r]) pollfds w' Hk' Ht) as [? ?]. split; [by etrans|done].
Qed.

Lemma wait_keeps (poll : list Z -> W -> poll_outcome * W) rules w : (forall l w, R w (snd (poll l w))) -> Forall rule_keeps rules ->
  R w (snd (snd (wait_next_event poll rules w))) /\ Forall rule_keeps (fst (snd (wait_next_event poll rules w))).
Proof.
  intros Hp Hr. unfold wait_next_event. destruct (setup_keeps rules [] [] false w ltac:(constructor) Hr) as [H1 H2].
  destruct (setup_loop [] rules [] false w) as [[[pollfds any]|e|] [rules' w']]; cbn [fst snd] in *; [|by split..].
  destruct any; cbn [negb]; [|by split]. pose proof (Hp pollfds w') as H3. destruct (poll pollfds w') as [o w'']. cbn [snd] in H3.
  assert (R w w'') by (by etrans). destruct (poll_result pollfds o) as [[ret errno] revents].
  assert (Hres : forall l, R w (snd (snd (result_loop [] rules' l w''))) /\ Forall rule_keeps (fst (snd (result_loop [] rules' l w'')))).
  { intros l. destruct (result_keeps rules' [] l w'' ltac:(constructor) H2) as [? ?]. split; [by etrans|done]. }
  destruct (SystemCall _ _ _ _) as [n|e|]; [destruct (n =? 0); [by split|apply Hres]| |by split].
  destruct e; try by split. destruct (_ =? EINTR); [by split|apply Hres].
Qed.
End Keeps.

(** ** Dispatch *)

Section Dispatch.
Context {W : Type}.
Implicit Types (r : Rule W) (w : W).

(** Nothing more will come from the rule's descriptor. *)
Definition ended r w : bool :=
  (match ru_direction r with Direction_In => fd_eof (ru_fd r w) | Direction_Out => false end) || fd_closed (ru_fd r w).

Definition events_of w r : Z := if ru_interest r w then direction_events (ru_direction r) else 0.

Lemma events_zero w r : (events_of w r =? 0) = negb (ru_interest r w).
Proof. unfold events_of. destruct (ru_interest r w); [|done]. by destruct (ru_direction r). Qed.

(** Without ended rules the first loop changes nothing and asks for the events of the
    rules that are interested. *)
Lemma setup_live todo w : forall kept pollfds any, Forall (fun r => ended r w = false) todo ->
  setup_loop kept todo pollfds any w
  = (Ok (pollfds ++ map (events_of w) todo, any || existsb (fun r => ru_interest r w) todo), (kept ++ todo, w)).
Proof.
  induction todo as [|r todo IH]; intros kept pollfds any Hl; cbn [setup_loop map existsb].
  - by rewrite orb_false_r, !app_nil_r.
  - apply Forall_cons in Hl as [Hr Hl]. unfold ended in Hr. rewrite Hr. pose proof (eq_refl (events_of w r)) as He. unfold events_of at 2 in He. rewrite He.
    destruct (ru_interest r w); rewrite (IH _ _ _ Hl), <- !app_assoc; cbn [app orb]; by rewrite ?orb_true_r.
Qed.

(** The callbacks of the rules marked ready, one after the other; each must succeed,
    and use its descriptor or lose interest. *)
Inductive dispatched : list (Rule W * bool) -> W -> W -> Prop :=
| dispatched_nil w : dispatched [] w w
| dispatched_skip r l w w' : dispatched l w w' -> dispatched ((r, false) :: l) w w'
| dispatched_run r l w w1 w' :
    ru_callback r w = (Ok tt, w1) -> (service_count r w =? service_count r w1) && ru_interest r w1 = false ->
    dispatched l w1 w' -> dispatched ((r, true) :: l) w w'.

(** No error on a polled descriptor, and no hangup alone on one we asked for. *)
Definition quiet (p : Z * Z) : bool :=
  negb (any_bit (snd p) (Z.lor POLLERR POLLNVAL)) &&
  negb (any_bit (snd p) POLLHUP && negb (fst p =? 0) && negb (any_bit (snd p) (fst p))).

Definition is_ready (p : Z * Z) : bool := any_bit (snd p) (fst p).

Lemma result_dispatch todo : forall kept pollfds w w', length pollfds = length todo ->
  Forall (fun p => quiet p = true) pollfds ->
  dispatched (zip todo (map is_ready pollfds)) w w' ->
  result_loop kept todo pollfds w = (Ok Success, (kept ++ todo, w')).
Proof.
  induction todo as [|r todo IH]; intros kept [|[e v] pollfds] w w' Hl Hq Hd; try done; cbn [result_loop].
  - inversion Hd; subst. by rewrite app_nil_r.
  - apply Forall_cons in Hq as [Hq1 Hq]. unfold quiet in Hq1. cbn [fst snd] in Hq1.
    apply andb_prop in Hq1 as [H1 H2]. apply negb_true_iff in H1, H2. rewrite H1, H2. injection Hl as Hl.
    cbn [map zip zip_with] in Hd. unfold is_ready at 1 in Hd. cbn [fst snd] in Hd.
    destruct (any_bit v e).
    + inversion Hd as [| |? ? ? w1 ? Hc Hs Hr]; subst. rewrite Hc, Hs. rewrite (IH (kept ++ [r]) pollfds w1 w'); [|done..].
      by rewrite <- app_assoc.
    + inversion Hd as [|? ? ? ? Hr|]; subst. rewrite (IH (kept ++ [r]) pollfds w w'); [|done..]. by rewrite <- app_assoc.
Qed.

(** The rules that are left, in order. *)
Lemma setup_sublist todo : forall kept pollfds any w,
  fst (snd (setup_loop kept todo pollfds any w)) `sublist_of` kept ++ todo.
Proof.
  induction todo as [|r todo IH]; intros kept pollfds any w; cbn [setup_loop]; [by rewrite app_nil_r|].
  assert (Hd : kept ++ todo `sublist_of` kept ++ r :: todo) by (apply sublist_app; [done|by apply sublist_cons]).
  destruct (_ || _).
  - unfold cancel_rule. destruct (ru_cancel r w) as [[u|e|] w']; [|done|done].
    etrans; [by apply IH|done].
  - destruct (ru_interest r w); (etrans; [by apply IH|]); by rewrite <- app_assoc.
Qed.

Lemma result_sublist todo : forall kept pollfds w,
  fst (snd (result_loop kept todo pollfds w)) `sublist_of` kept ++ todo.
Proof.
  induction todo as [|r todo IH]; intros kept [|[e v] pollfds] w; cbn [result_loop]; try (by rewrite ?app_nil_r).
  assert (Hd : kept ++ todo `sublist_of` kept ++ r :: todo) by (apply sublist_app; [done|by apply sublist_cons]).
  assert (Hk : forall w', fst (snd (result_loop (kept ++ [r]) todo pollfds w')) `sublist_of` kept ++ r :: todo)
    by (intros w'; etrans; [apply IH|]; by rewrite <- app_assoc).
  destruct (any_bit _ _); [done|]. destruct (_ && _ && _).
  - unfold cancel_rule. destruct (ru_cancel r w) as [[u|e'|] w']; [|done|done]. etrans; [by apply IH|done].
  - destruct (any_bit _ _); [|done]. destruct (ru_callback r w) as [[u|e'|] w']; [|done|done].
    by destruct (_ && _).
Qed.
End Dispatch.

Lemma sorted_sublist {A} (before : A -> A -> Prop) l k :
  l `sublist_of` k -> StronglySorted before k -> StronglySorted before l.
Proof.
  induction 1 as [|x l k Hlk IH|x l k Hlk IH]; intros Hs; [done|..]; apply StronglySorted_inv in Hs as [Hs Hx].
  - constructor; [by apply IH|]. rewrite Forall_forall in Hx |- *. intros y Hy. apply Hx.
    by eapply elem_of_sublist.
  - by apply IH.
Qed.

(** ** Loops whose callbacks keep an invariant

    The rules are those of a list of names; [En t] is what the callback of [t] needs
    beyond the invariant, and holds from the moment the rule asks to be polled. *)
Section Cooperation.
Context {W T : Type} (rule : T -> Rule W) (before : T -> T -> Prop).
Context (Inv Inv0 : W -> Prop) (R : W -> W -> Prop) (En : T -> W -> Prop).
Context (R_refl : forall w, R w w) (R_trans : forall a b c, R a b -> R b c -> R a c).

(** While the rules are set up the stronger [Inv0] holds. *)
Context (Inv0_Inv : forall w, Inv0 w -> Inv w).
Context (interest_enables : forall t w, Inv0 w -> ru_interest (rule t) w = true -> En t w).
Context (cancel_ok : forall t w, Inv w -> exists w', ru_cancel (rule t) w = (Ok tt, w') /\ Inv w' /\ R w w' /\
  (Inv0 w -> Inv0 w') /\ forall t', before t' t \/ before t t' -> En t' w -> En t' w').
Context (callback_ok : forall t w, Inv w -> En t w -> exists w', ru_callback (rule t) w = (Ok tt, w') /\ Inv w' /\
  R w w' /\ (service_count (rule t) w =? service_count (rule t) w') && ru_interest (rule t) w' = false /\
  forall t', before t t' -> En t' w -> En t' w').

(** What was asked of [poll] for the rule. *)
Definition asked w (t : T) (events : Z) : Prop := events <> 0 -> En t w.

Lemma asked_step w w' kept pollfds : (forall t, t ∈ kept -> En t w -> En t w') ->
  Forall2 (asked w) kept pollfds -> Forall2 (asked w') kept pollfds.
Proof.
  intros Hk Ha. induction Ha as [|t e kept pollfds Ht Ha IH]; constructor.
  - intros He. apply Hk; [left|by apply Ht].
  - apply IH. intros t' Ht'. apply Hk. by right.
Qed.

Lemma setup_cooperates todo : forall kept pollfds any w, Inv0 w -> StronglySorted before (kept ++ todo) ->
  Forall2 (asked w) kept pollfds ->
  exists kept' pollfds' any' w', setup_loop (map rule kept) (map rule todo) pollfds any w
    = (Ok (pollfds', any'), (map rule kept', w')) /\
    Inv0 w' /\ R w w' /\ kept' `sublist_of` kept ++ todo /\ Forall2 (asked w') kept' pollfds'.
Proof.
  induction todo as [|t todo IH]; intros kept pollfds any w Hi Hs Ha; cbn [map setup_loop].
  - exists kept, pollfds, any, w. by rewrite app_nil_r.
  - assert (Hdrop : kept ++ todo `sublist_of` kept ++ t :: todo) by (apply sublist_app; [done|by apply sublist_cons]).
    assert (Hrest : forall e any' w', Inv0 w' -> R w w' -> Forall2 (asked w') (kept ++ [t]) (pollfds ++ [e]) ->
      exists kept' pollfds' any'' w'', setup_loop (map rule (kept ++ [t])) (map rule todo) (pollfds ++ [e]) any' w'
        = (Ok (pollfds', any''), (map rule kept', w'')) /\ Inv0 w'' /\ R w w'' /\
        kept' `sublist_of` kept ++ t :: todo /\ Forall2 (asked w'') kept' pollfds').
    { intros e any' w' Hi' HR Ha'. destruct (IH (kept ++ [t]) (pollfds ++ [e]) any' w' Hi') as (k & p & a & w2 & E & ? & ? & Hk & ?);
        [by rewrite <- app_assoc|done|]. rewrite <- app_assoc in Hk. exists k, p, a, w2. split; [done|]. split; [done|].
      split; [by eapply R_trans|done]. }
    destruct (_ || _).
    + unfold cancel_rule. destruct (cancel_ok t w (Inv0_Inv w Hi)) as (w1 & -> & _ & HR & H0 & Hp). specialize (H0 Hi).
      destruct (IH kept pollfds any w1 H0) as (k & p & a & w2 & E & ? & ? & Hk & ?).
      * by apply (sorted_sublist before _ _ Hdrop).
      * eapply asked_step; [|exact Ha]. intros t' Ht' He. apply Hp; [|done]. left.
        by apply (StronglySorted_app_1_elem_of before kept (t :: todo)); [done|done|left].
      * exists k, p, a, w2. split; [done|]. split; [done|]. split; [by eapply R_trans|]. split; [by etrans|done].
    + destruct (ru_interest (rule t) w) eqn:Ei; change [rule t] with (map rule [t]); rewrite <- map_app; apply Hrest; try done;
        apply Forall2_app; try done; constructor; try done; [intros _; by apply interest_enables|by intros []].
Qed.

Lemma result_cooperates todo : forall kept pollfds revents w, Inv w -> StronglySorted before (kept ++ todo) ->
  Forall2 (asked w) todo pollfds -> length revents = length pollfds ->
  Forall (fun v => any_bit v (Z.lor POLLERR POLLNVAL) = false) revents ->
  exists kept' w', result_loop (map rule kept) (map rule todo) (zip pollfds revents) w
    = (Ok Success, (map rule kept', w')) /\ Inv w' /\ R w w' /\ kept' `sublist_of` kept ++ todo.
Proof.
  induction todo as [|t todo IH]; intros kept pollfds revents w Hi Hs Ha Hl He; inversion Ha as [|? e ? pollfds' Ht Ha']; subst;
    destruct revents as [|v revents]; try done; cbn [map zip zip_with result_loop].
  { exists kept, w. by rewrite app_nil_r. }
  apply Forall_cons in He as [Hv He]. rewrite Hv. injection Hl as Hl.
  assert (Hdrop : kept ++ todo `sublist_of` kept ++ t :: todo) by (apply sublist_app; [done|by apply sublist_cons]).
  assert (Hafter : forall t', t' ∈ todo -> before t t').
  { intros t' Ht'. apply StronglySorted_app_1_r in Hs. apply StronglySorted_inv in Hs as [_ Hs].
    rewrite Forall_forall in Hs. by apply Hs. }
  assert (Hkeep : forall w', Inv w' -> R w w' -> (forall t', t' ∈ todo -> En t' w -> En t' w') ->
    exists kept' w'', result_loop (map rule kept ++ [rule t]) (map rule todo) (zip pollfds' revents) w'
      = (Ok Success, (map rule kept', w'')) /\ Inv w'' /\ R w w'' /\ kept' `sublist_of` kept ++ t :: todo).
  { intros w' Hi' HR Hp. destruct (IH (kept ++ [t]) pollfds' revents w' Hi') as (k & w2 & E & ? & ? & Hk);
      [by rewrite <- app_assoc|by apply (asked_step w)|done|done|]. rewrite map_app in E. rewrite <- app_assoc in Hk.
    exists k, w2. split; [done|]. split; [done|]. split; [by eapply R_trans|done]. }
  destruct (_ && _ && _).
  - unfold cancel_rule. destruct (cancel_ok t w Hi) as (w1 & -> & Hi1 & HR & _ & Hp).
    destruct (IH kept pollfds' revents w1 Hi1) as (k & w2 & E & ? & ? & Hk);
      [by apply (sorted_sublist before _ _ Hdrop)|apply (asked_step w); [|done]|done|done|].
    + intros t' Ht'. apply Hp. right. by apply Hafter.
    + exists k, w2. split; [done|]. split; [done|]. split; [by eapply R_trans|by etrans].
  - destruct (any_bit v e) eqn:Eb; [|by apply Hkeep].
    assert (e <> 0) as Hne by (intros ->; unfold any_bit in Eb; by rewrite Z.land_0_r in Eb).
    destruct (callback_ok t w Hi (Ht Hne)) as (w1 & -> & Hi1 & HR & Hbusy & Hp). rewrite Hbusy.
    apply Hkeep; [done|done|]. intros t' Ht'. apply Hp. by apply Hafter.
Qed.

(** With a kernel that reports no error, one turn of the loop returns normally. *)
Lemma wait_cooperates (poll : list Z -> W -> poll_outcome * W) ids w : Inv0 w -> StronglySorted before ids ->
  (forall asked w1, Inv w1 -> exists o, poll asked w1 = (o, w1) /\
     match o with
     | poll_failed _ => True
     | poll_ready revents => length revents = length asked /\
         Forall (fun v => any_bit v (Z.lor POLLERR POLLNVAL) = false) revents
     end) ->
  exists ret ids' w', wait_next_event poll (map rule ids) w = (Ok ret, (map rule ids', w')) /\
    Inv w' /\ R w w' /\ ids' `sublist_of` ids.
Proof.
  intros Hi Hs Hpoll. unfold wait_next_event.
  destruct (setup_cooperates ids [] [] false w Hi Hs) as (k & p & a & w1 & E & Hi1 & HR & Hk & Ha); [constructor|].
  cbn [map] in E. rewrite E. clear E. cbn [app] in Hk. pose proof (Inv0_Inv w1 Hi1) as Hi1'.
  assert (Hdone : forall ret : Result, exists (ret' : Result) ids' w', (Ok ret, (map rule k, w1)) = (Ok ret', (map rule ids', w')) /\
    Inv w' /\ R w w' /\ ids' `sublist_of` ids) by (intros ret; by exists ret, k, w1).
  destruct (negb a); [apply Hdone|]. destruct (Hpoll p w1 Hi1') as (o & -> & Ho).
  assert (Hres : forall revents, length revents = length p ->
    Forall (fun v => any_bit v (Z.lor POLLERR POLLNVAL) = false) revents ->
    exists ret' ids' w', result_loop [] (map rule k) (zip p revents) w1 = (Ok ret', (map rule ids', w')) /\
      Inv w' /\ R w w' /\ ids' `sublist_of` ids).
  { intros revents Hl He. destruct (result_cooperates k [] p revents w1 Hi1') as (k2 & w2 & E & ? & ? & Hk2); try done.
    - by apply (sorted_sublist before _ _ Hk).
    - exists Success, k2, w2. split; [done|]. split; [done|]. split; [by eapply R_trans|by etrans]. }
  destruct o as [errno|revents]; cbn [poll_result].
  - assert (Hz : exists ret' ids' w', result_loop [] (map rule k) (zip p (map (fun _ => 0) p)) w1
      = (Ok ret', (map rule ids', w')) /\ Inv w' /\ R w w' /\ ids' `sublist_of` ids).
    { apply Hres; [by rewrite length_map|]. apply Forall_map. by apply Forall_forall. }
    unfold SystemCall. destruct (_ || _); [destruct (_ =? 0); [apply Hdone|done]|].
    destruct (errno =? EINTR); [apply Hdone|done].
  - rewrite SystemCall_ok by zlia. destruct (_ =? 0); [apply Hdone|]. destruct Ho. by apply Hres.
Qed.
End Cooperation.

(** ** Theorems *)

(** What [poll] reports, as the loop sees it after [SystemCall]. *)
Lemma ready_count revents :
  (zlen (List.filter (fun e => negb (e =? 0)) revents) =? 0) = forallb (fun e => e =? 0) revents.
Proof.
  induction revents as [|e l IH]; [done|]. cbn [List.filter forallb]. destruct (e =? 0); cbn [negb andb]; [done|].
  rewrite zlen_cons. destruct (Z.eqb_spec (1 + zlen (List.filter (fun e0 => negb (e0 =? 0)) l)) 0); [zlia|done].
Qed.

Lemma silent_poll asked : Forall (fun p => quiet p = true) (zip asked (map (fun _ => 0) asked)) /\
  map is_ready (zip asked (map (fun _ => 0) asked)) = map (fun _ => false) asked.
Proof. induction asked as [|e l [IH1 IH2]]; [done|]. cbn. rewrite IH2. split; [by constructor|done]. Qed.

Lemma dispatched_none {W} (rules : list (Rule W)) w (asked : list Z) :
  length asked = length rules -> dispatched (zip rules (map (fun _ => false) asked)) w w.
Proof.
  revert asked. induction rules as [|r rules IH]; intros [|e asked] Hl; try done; cbn; [constructor|].
  constructor. apply IH. by injection Hl.
Qed.

(** The poll results when [poll] failed: no event, so the second loop runs nothing. *)
Lemma failed_poll_runs_nothing {W} (rules : list (Rule W)) (w : W) :
  let asked := map (events_of w) rules in
  forall w1, result_loop [] rules (zip asked (map (fun _ => 0) asked)) w1 = (Ok Success, (rules, w1)).
Proof.
  intros asked w1. assert (Hn : length asked = length rules) by apply length_map.
  destruct (silent_poll asked) as [Hq Hr]. apply (result_dispatch rules []); [|done|].
  - rewrite length_zip, length_map. lia.
  - rewrite Hr. by apply dispatched_none.
Qed.


(** the comment above [wait_next_event] says that an error during polling throws a
    [runtime_error]; a failure of [poll] other than [EINTR] is caught and dropped, and
    the call returns [Success] although no callback has run. *)
Theorem poll_error_taken_for_success {W} (rules : list (Rule W)) (w w1 : W)
    (poll : list Z -> W -> poll_outcome * W) errno :
  Forall (fun r => ended r w = false) rules -> existsb (fun r => ru_interest r w) rules = true ->
  poll (map (events_of w) rules) w = (poll_failed errno, w1) -> errno <> EINTR ->
  wait_next_event poll rules w = (Ok Success, (rules, w1)).
Proof.
  intros Hl He Hp Hne. unfold wait_next_event. rewrite (setup_live rules w [] [] false Hl). cbn [app orb].
  rewrite He, Hp. cbn [negb poll_result]. pose proof (failed_poll_runs_nothing rules w w1).
  unfold SystemCall. cbn [Z.leb Z.compare orb]. destruct (Z.eqb_spec errno 0) as [->|]; [done|].
  by destruct (Z.eqb_spec errno EINTR).
Qed.

(** a rule leaves the loop only by being cancelled: whatever the kernel reports and
    whatever the callbacks do, thrown exceptions included, the rules after
    [wait_next_event] are those before it, in their order, less some. *)
Theorem event_loop_only_removes_rules {W} (rules : list (Rule W)) (w : W) (poll : list Z -> W -> poll_outcome * W) :
  fst (snd (wait_next_event poll rules w)) `sublist_of` rules.
Proof.
  unfold wait_next_event. pose proof (setup_sublist rules [] [] false w) as H.
  destruct (setup_loop [] rules [] false w) as [[[pollfds [|]]|e|] [rules' w']]; cbn [fst snd app negb] in *; [|done..].
  destruct (poll pollfds w') as [outcome w1]. destruct (poll_result pollfds outcome) as [[ret errno] revents].
  assert (Hres : fst (snd (result_loop [] rules' (zip pollfds revents) w1)) `sublist_of` rules)
    by (etrans; [apply result_sublist|done]).
  destruct (SystemCall "poll" ret errno 0) as [n|[]|]; try done; by destruct (_ =? _).
Qed.

(** A loop with one rule that reads a byte. *)
Definition example_rule : Rule FDWrapper :=
  mkRule (fun f => f) Direction_In
    (_ ← FileDescriptor_read 1 (fun _ => inr [byte_of 7]); mret tt) (fun f => fd_read_count f <? 2) (mret tt).

