(* ===== verification/Devices.v ===== *)
(** * Adapters on their devices

    The adapters of [fd_adapter.hh], [tuntap_adapter.hh] and [lossy_fd_adapter.hh] with the
    file descriptor they read and write: the interface [FdAdapter] that
    [TCPSpongeSocket<AdaptT>] and [LossyFdAdapter<AdapterT>] ask of their parameter, the
    contract [AdapterContract] the socket relies on, and the instances for TUN and UDP.
    A device keeps a log of what was written to it. *)

From S2P Require Import Prelude WrappingInts Buffers Checksum Parser TCPSegments IPv4 Addresses Sender Connection Emitted Adapters FileDescriptors.

(** ** The interface *)

Class FdAdapter (A I : Type) : Type := {
  adapter_fd : A -> FDWrapper;                              (* operator const FileDescriptor & *)
  adapter_base : A -> FdAdapterBase;                        (* config(), listening() *)
  adapter_set_base : FdAdapterBase -> A -> A;               (* config_mut(), set_listening() *)
  adapter_read : I -> method A (option TCPSegment);         (* the argument: what the kernel delivers *)
  adapter_write : TCPSegment -> method A unit;
  adapter_tick : Z -> method A unit
}.

(** What the socket relies on. [ac_inv S a]: the adapter works and everything it ever
    sent, or still holds, are segments of [S]; [ac_base]: the configurations it may be given. *)
Class AdapterContract {A I : Type} (FA : FdAdapter A I) : Type := {
  ac_inv : (TCPSegment -> Prop) -> A -> Prop;
  ac_datagram : I -> Prop;
  ac_elapsed : Z -> Prop;
  ac_limit : Z;
  ac_base : FdAdapterBase -> Prop;
  ac_mono (S S' : TCPSegment -> Prop) a : (forall x, S x -> S' x) -> ac_inv S a -> ac_inv S' a;
  ac_fd S a : ac_inv S a -> 0 <= fd_read_count (adapter_fd a) < W32;
  ac_read S a i : ac_inv S a -> ac_datagram i -> exists o a', adapter_read i a = (Ok o, a') /\ ac_inv S a' /\
    fd_read_count (adapter_fd a') = u32 (fd_read_count (adapter_fd a) + 1) /\ readable ac_limit o;
  ac_write S a seg : ac_inv S a -> seg_wire seg -> S seg ->
    exists a', adapter_write seg a = (Ok tt, a') /\ ac_inv S a';
  ac_tick S a ms : ac_inv S a -> ac_elapsed ms -> exists a', adapter_tick ms a = (Ok tt, a') /\ ac_inv S a';
  ac_set_base S a b : ac_inv S a -> ac_base b -> ac_inv S (adapter_set_base b a)
}.

(** Two such adapters on a wire. [ac_wire a i]: the peer's kernel may deliver [i] because
    [a] sent it; the peer then reads a segment that was written to [a]. *)
Class WireContract {A I : Type} {FA : FdAdapter A I} (AC : AdapterContract FA) : Type := {
  ac_wire : A -> I -> Prop;
  ac_wire_datagram S a i : ac_inv S a -> ac_wire a i -> ac_datagram i;
  ac_carries S S' a b i seg' b' : ac_inv S a -> ac_wire a i -> ac_inv S' b ->
    adapter_read i b = (Ok (Some seg'), b') -> exists seg, S seg /\ same_data seg seg'
}.

(** ** Devices *)

Record Device (O : Type) : Type := mkDevice { dv_fd : FDWrapper; dv_written : list O }.
Arguments mkDevice {O} _ _.
Arguments dv_fd {O} _.
Arguments dv_written {O} _.

Definition dv_set_fd {O} (f : FDWrapper) (d : Device O) : Device O := mkDevice f (dv_written d).
Definition dv_log {O} (o : O) (d : Device O) : Device O := mkDevice (dv_fd d) (dv_written d ++ [o]).

(** [size_t]'s largest value, the default limit of [read]. *)
Definition SIZE_MAX : Z := W64 - 1.

(** [_tun.read()] on the kernel's answer. *)
Definition Device_read {O} (kernel : Z + bytes) : method (Device O) bytes :=
  zoom dv_fd dv_set_fd (FileDescriptor_read SIZE_MAX (fun _ => kernel)).

(** [_tun.write(buffers)]; [writev data] are the kernel's answers to writing [data]. *)
Definition Device_write (writev : bytes -> list (Z + Z)) (buffers : BufferList) : method (Device bytes) unit :=
  let views := BufferViewList_of_BufferList buffers in
  _ ← zoom dv_fd dv_set_fd (FileDescriptor_write (writev (concat views)) views true 0);
  modify (dv_log (concat views)).

(** ** TCPOverIPv4OverTunFdAdapter *)

Record TCPOverIPv4OverTunFdAdapter : Type := mkTun { tn_base : FdAdapterBase; tn_tun : Device bytes }.

Definition tn_set_base (b : FdAdapterBase) (a : TCPOverIPv4OverTunFdAdapter) := mkTun b (tn_tun a).
Definition tn_set_tun (d : Device bytes) (a : TCPOverIPv4OverTunFdAdapter) := mkTun (tn_base a) d.

Definition TunFdAdapter_read (kernel : Z + bytes) : method TCPOverIPv4OverTunFdAdapter (option TCPSegment) :=
  str ← zoom tn_tun tn_set_tun (Device_read kernel);
  zoom tn_base tn_set_base (TunAdapter_read str).

Definition TunFdAdapter_write (writev : bytes -> list (Z + Z)) (seg : TCPSegment)
  : method TCPOverIPv4OverTunFdAdapter unit :=
  bl ← zoom tn_base tn_set_base (TunAdapter_write seg);
  zoom tn_tun tn_set_tun (Device_write writev bl).

#[export] Instance TunFdAdapter (writev : bytes -> list (Z + Z)) : FdAdapter TCPOverIPv4OverTunFdAdapter (Z + bytes) := {
  adapter_fd := fun a => dv_fd (tn_tun a);
  adapter_base := tn_base;
  adapter_set_base := tn_set_base;
  adapter_read := TunFdAdapter_read;
  adapter_write := TunFdAdapter_write writev;
  adapter_tick := fun _ => mret tt
}.

(** ** TCPOverUDPSocketAdapter *)

Record TCPOverUDPSocketAdapter : Type := mkUDP { ud_base : FdAdapterBase; ud_sock : Device (Address * bytes) }.

Definition ud_set_base (b : FdAdapterBase) (a : TCPOverUDPSocketAdapter) := mkUDP b (ud_sock a).
Definition ud_set_sock (d : Device (Address * bytes)) (a : TCPOverUDPSocketAdapter) := mkUDP (ud_base a) d.

Definition UDPSocketAdapter_read (kernel : Z + Address * bytes) : method TCPOverUDPSocketAdapter (option TCPSegment) :=
  datagram ← zoom ud_sock ud_set_sock (zoom dv_fd dv_set_fd (UDPSocket_recv 65536 kernel));
  zoom ud_base ud_set_base (UDPAdapter_read datagram).

(** [sendmsg to data]: the kernel's answer to sending [data]. *)
Definition UDPSocketAdapter_write (sendmsg : Address -> bytes -> Z + Z) (seg : TCPSegment)
  : method TCPOverUDPSocketAdapter unit :=
  '(destination, bl) ← zoom ud_base ud_set_base (UDPAdapter_write seg);
  let views := BufferViewList_of_BufferList bl in
  _ ← zoom ud_sock ud_set_sock (zoom dv_fd dv_set_fd (UDPSocket_sendto views (sendmsg destination (concat views))));
  modify (fun a => ud_set_sock (dv_log (destination, concat views) (ud_sock a)) a).

#[export] Instance UDPSocketAdapter (sendmsg : Address -> bytes -> Z + Z)
  : FdAdapter TCPOverUDPSocketAdapter (Z + Address * bytes) := {
  adapter_fd := fun a => dv_fd (ud_sock a);
  adapter_base := ud_base;
  adapter_set_base := ud_set_base;
  adapter_read := UDPSocketAdapter_read;
  adapter_write := UDPSocketAdapter_write sendmsg;
  adapter_tick := fun _ => mret tt
}.

(** ** LossyFdAdapter<AdapterT>, over any random generator [rng] *)

Section Lossy.
Context {A I R : Type} {FA : FdAdapter A I} (rng : R -> Z * R).

Record LossyFdAdapter : Type := mkLossy {
  lo_rand : R;
  lo_adapter : A
}.

Definition lo_set_adapter (a : A) (s : LossyFdAdapter) : LossyFdAdapter := mkLossy (lo_rand s) a.

Definition should_drop (uplink : bool) : method LossyFdAdapter bool := fun s =>
  let cfg := fb_cfg (adapter_base (lo_adapter s)) in
  let loss := if uplink then fa_loss_rate_up cfg else fa_loss_rate_dn cfg in
  if negb (loss =? 0) then
    let '(x, r) := rng (lo_rand s) in (Ok (u16 x <? loss), mkLossy r (lo_adapter s))
  else (Ok false, s).

Definition LossyFdAdapter_read (i : I) : method LossyFdAdapter (option TCPSegment) :=
  ret ← zoom lo_adapter lo_set_adapter (adapter_read i);
  drop ← should_drop false;
  if drop : bool then mret None else mret ret.

Definition LossyFdAdapter_write (seg : TCPSegment) : method LossyFdAdapter unit :=
  drop ← should_drop true;
  if drop : bool then mret tt else zoom lo_adapter lo_set_adapter (adapter_write seg).

#[export] Instance LossyAdapter : FdAdapter LossyFdAdapter I := {
  adapter_fd := fun s => adapter_fd (lo_adapter s);
  adapter_base := fun s => adapter_base (lo_adapter s);
  adapter_set_base := fun b s => lo_set_adapter (adapter_set_base b (lo_adapter s)) s;
  adapter_read := LossyFdAdapter_read;
  adapter_write := LossyFdAdapter_write;
  adapter_tick := fun ms => zoom lo_adapter lo_set_adapter (adapter_tick ms)
}.
End Lossy.
#[global] Arguments LossyFdAdapter A R : clear implicits.

(** ** The contract of the TUN adapter *)

Lemma views_concat bl : concat (BufferViewList_of_BufferList bl) = BufferList_concatenate bl.
Proof.
  rewrite views_of_BufferList. induction bl as [|b bl IH]; [done|]. rewrite concatenate_cons. simpl. by rewrite IH.
Qed.

(** A kernel that takes every datagram, in pieces or whole. *)
Definition accepts_all (writev : bytes -> list (Z + Z)) : Prop := forall d, 0 < zlen d ->
  exists l, writev d = map inr l /\ Forall (fun n => 0 < n) l /\ zlen d = fold_right Z.add 0 l.

(** One that takes it whole. *)
Definition whole_writev (d : bytes) : list (Z + Z) := [inr (zlen d)].

Lemma whole_writev_accepts : accepts_all whole_writev.
Proof. intros d Hd. exists [zlen d]. split; [done|]. split; [by apply Forall_singleton|]. simpl. lia. Qed.

Lemma Device_write_ok writev bl dev : accepts_all writev -> 0 < zlen (BufferList_concatenate bl) < W64 ->
  exists f', Device_write writev bl dev = (Ok tt, mkDevice f' (dv_written dev ++ [BufferList_concatenate bl])) /\
    fd_read_count f' = fd_read_count (dv_fd dev).
Proof.
  intros Hk Hl. destruct (Hk _ (proj1 Hl)) as (l & E & Hpos & Hsum). rewrite <- views_concat in Hl, Hsum.
  destruct (write_all_spec l (BufferViewList_of_BufferList bl) 0 (dv_fd dev) Hpos Hsum) as (f' & Ew & _ & _ & Hr);
    [lia..|]. exists f'. split; [|done]. unfold Device_write. rewrite <- E in Ew.
  rewrite views_concat in *. erewrite run_zoom by exact Ew. reflexivity.
Qed.

(** A read of nothing is taken for the end of the file. *)
Lemma Device_read_spec {O} d (dev : Device O) : zlen d <= BUFFER_SIZE ->
  Device_read (inr d) dev = (Ok d, mkDevice (mkFD (fd_eof (dv_fd dev) || (zlen d =? 0)) (fd_closed (dv_fd dev))
    (u32 (fd_read_count (dv_fd dev) + 1)) (fd_write_count (dv_fd dev))) (dv_written dev)).
Proof.
  intros Hd. unfold Device_read. erewrite zoom_eq; [reflexivity|]. destruct (dv_fd dev) as [e c rc wc].
  unfold FileDescriptor_read. change (Z.min BUFFER_SIZE SIZE_MAX) with BUFFER_SIZE.
  rewrite SystemCall_ok by zlia. mrun. destruct (Z.ltb_spec BUFFER_SIZE (zlen d)); [lia|]. mrun.
  change (0 <? SIZE_MAX) with true. cbn [andb]. unfold mret, method_ret, register_read.
  destruct (zlen d =? 0); simpl; [by rewrite orb_true_r|by rewrite orb_false_r].
Qed.

Lemma Device_read_ok {O} d (dev : Device O) : zlen d <= BUFFER_SIZE -> 0 <= fd_read_count (dv_fd dev) < W32 ->
  exists f', Device_read (inr d) dev = (Ok d, mkDevice f' (dv_written dev)) /\
    fd_read_count f' = u32 (fd_read_count (dv_fd dev) + 1).
Proof. intros Hd _. eexists. split; [by apply Device_read_spec|done]. Qed.

Section TunContract.
Context (writev : bytes -> list (Z + Z)) (Hwritev : accepts_all writev).

Definition tun_sent (S : TCPSegment -> Prop) (bs : bytes) : Prop := zlen bs < W16 /\ exists seg, S seg /\ carried seg bs.

Record tun_inv (S : TCPSegment -> Prop) (a : TCPOverIPv4OverTunFdAdapter) : Prop := {
  tu_base : inet_adapter (tn_base a);
  tu_count : 0 <= fd_read_count (dv_fd (tn_tun a)) < W32;
  tu_sent : Forall (tun_sent S) (dv_written (tn_tun a))
}.

Definition tun_datagram (i : Z + bytes) : Prop := exists d, i = inr d /\ zlen d <= BUFFER_SIZE.
Definition tun_wire (a : TCPOverIPv4OverTunFdAdapter) (i : Z + bytes) : Prop := exists d, i = inr d /\ d ∈ dv_written (tn_tun a).

Lemma tun_fd_read S a d : tun_inv S a -> zlen d <= BUFFER_SIZE ->
  exists o b f', TunFdAdapter_read (inr d) a = (Ok o, mkTun b (mkDevice f' (dv_written (tn_tun a)))) /\
    fd_read_count f' = u32 (fd_read_count (dv_fd (tn_tun a)) + 1) /\ inet_adapter b /\ readable BUFFER_SIZE o /\
    TunAdapter_read d (tn_base a) = (Ok o, b).
Proof.
  intros [Hb Hc Hs] Hd. destruct (Device_read_ok d (tn_tun a) Hd Hc) as (f' & Er & Hf).
  destruct (tun_read_total (tn_base a) d Hb) as (o & b & E & Hi & Ho & _); [unfold BUFFER_SIZE in Hd; lia|].
  exists o, b, f'. split; [|split; [done|split; [done|split; [|done]]]].
  - unfold TunFdAdapter_read. erewrite run_zoom by exact Er. by erewrite zoom_eq by exact E.
  - destruct o as [seg|]; [|done]. destruct Ho as [? [? ?]]. split; [done|]. split; [done|]. lia.
Qed.

Lemma tun_write_ok S a seg : tun_inv S a -> seg_wire seg -> S seg ->
  exists a', TunFdAdapter_write writev seg a = (Ok tt, a') /\ tun_inv S a'.
Proof.
  intros [Hb Hc Hs] [V Hd Hp Hsm] HS.
  destruct (wrap_carried (tn_base a) seg Hb V Hp) as (d & seg' & bl & Ew & _ & Es & Hl & Hcar);
    [rewrite Hd; unfold MAX_PAYLOAD_SIZE in Hsm; lia|].
  destruct (Device_write_ok writev bl (tn_tun a) Hwritev) as (f' & Ed & Hf); [lia|].
  assert (Et : TunAdapter_write seg (tn_base a) = (Ok bl, tn_base a))
    by (unfold TunAdapter_write; mrun; unfold id; rewrite Ew; mrun; unfold lift; by rewrite Es).
  eexists. split.
  - unfold TunFdAdapter_write. erewrite run_zoom by exact Et. by erewrite zoom_eq by exact Ed.
  - split; simpl; [done|by rewrite Hf|]. apply Forall_app. split; [done|]. apply Forall_singleton.
    split; [lia|]. by exists seg.
Qed.

Program Definition tun_contract : AdapterContract (TunFdAdapter writev) := {|
  ac_inv := tun_inv;
  ac_datagram := tun_datagram;
  ac_elapsed := fun _ => True;
  ac_limit := BUFFER_SIZE;
  ac_base := inet_adapter
|}.
Next Obligation.
  intros S S' a HS [Hb Hc Hs]. split; [done|done|]. eapply Forall_impl; [exact Hs|].
  intros bs (Hl & seg & Hseg & Hcar). split; [done|]. exists seg. split; [by apply HS|done].
Qed.
Next Obligation. intros S a H. apply H. Qed.
Next Obligation.
  intros S a i H (d & -> & Hd). destruct (tun_fd_read S a d H Hd) as (o & b & f' & E & Hf & Hb & Ho & _).
  eexists o, _. split; [exact E|]. split; [|by split]. destruct H. split; simpl; try done. rewrite Hf. apply u32_range.
Qed.
Next Obligation. apply tun_write_ok. Qed.
Next Obligation. intros S a ms H _. by exists a. Qed.
Next Obligation. intros S a b [? ? ?] Hb. by split. Qed.

Program Definition tun_wire_contract : WireContract tun_contract := {| ac_wire := tun_wire |}.
Next Obligation.
  intros S a i [_ _ Hs] (d & -> & Hin). rewrite Forall_forall in Hs. destruct (Hs d Hin) as [Hl _].
  exists d. split; [done|]. unfold BUFFER_SIZE. lia.
Qed.
Next Obligation.
  intros S S' a b i seg' b' [_ _ Hs] (d & -> & Hin) Hb E. rewrite Forall_forall in Hs.
  destruct (Hs d Hin) as (Hl & seg & Hseg & Hcar).
  destruct (tun_fd_read S' b d Hb) as (o & b1 & f' & E1 & _ & _ & _ & Er); [unfold BUFFER_SIZE; lia|].
  cbn [adapter_read TunFdAdapter] in E. rewrite E1 in E. injection E as -> _. exists seg. split; [done|].
  by apply (carried_read seg d (tn_base b) seg' b1); [|lia|].
Qed.
End TunContract.

(** ** The contract of the UDP adapter *)

Definition udp_carried (seg : TCPSegment) (bs : bytes) : Prop :=
  exists seg', TCPSegment_parse TCPSegment_default (Buffer_of_string bs) 0 = Ok (NoError, seg') /\ same_data seg seg'.

Lemma udp_read_result from bs r seg r' : UDPAdapter_read (from, bs) r = (Ok (Some seg), r') ->
  TCPSegment_parse TCPSegment_default (Buffer_of_string bs) 0 = Ok (NoError, seg).
Proof. unfold UDPAdapter_read. intros E. invert_method E; injection E as <- _; congruence. Qed.

Lemma udp_write_carried s seg : inet_adapter s -> seg_wire seg ->
  exists bl, UDPAdapter_write seg s = (Ok (fa_destination (fb_cfg s), bl), s) /\
    20 <= zlen (BufferList_concatenate bl) < W16 /\ udp_carried seg (BufferList_concatenate bl).
Proof.
  intros (src & sport & dst & dport & [C1 C2] & Rs & Rsp & Rd & Rdp) [V Hd Hp Hsm].
  set (seg1 := mkTCPSegment (th_set_ports (ts_header seg) sport dport) (ts_payload seg)).
  assert (Hlen : zlen (Buffer_str (ts_payload seg)) <= 1000) by done.
  destruct (TCPSegment_serialize_spec seg1 0 (th_set_ports_valid _ _ _ V Rsp Rdp)) as (v & hdr & Hv & E & Eh & Hl & Hck).
  { unfold segment_fits. change (th_doff (ts_header seg1)) with (th_doff (ts_header seg)).
    change (ts_payload seg1) with (ts_payload seg). rewrite Hd. split; zlia. }
  change (th_doff (ts_header seg1)) with (th_doff (ts_header seg)) in Hl. rewrite Hd in Hl.
  eexists. split; [|].
  - unfold UDPAdapter_write. mrun. rewrite C1, C2, !port_inet by done. mrun. fold seg1. rewrite E. mrun. reflexivity.
  - rewrite !concatenate_cons, app_nil_r. change (Buffer_str (Buffer_of_string hdr)) with hdr.
    change (ts_payload seg1) with (ts_payload seg). split; [rewrite zlen_app; zlia|].
    destruct (TCPSegment_parse_spec TCPSegment_default (Buffer_of_string (hdr ++ Buffer_str (ts_payload seg))) 0
      (th_set_cksum (ts_header seg1) v) hdr (Buffer_str (ts_payload seg))) as (seg' & Et & Hh & Hpl & _); try done.
    { apply Buffer_wf_of_string. rewrite zlen_app. zlia. }
    { apply th_set_cksum_valid; [by apply th_set_ports_valid|done]. }
    exists seg'. split; [done|]. apply (on_wire_same _ _ sport dport). by exists v.
Qed.

Section UDPContract.
Context (sendmsg : Address -> bytes -> Z + Z) (Hsendmsg : forall a d, sendmsg a d = inr (zlen d)).

Definition udp_sent (S : TCPSegment -> Prop) (x : Address * bytes) : Prop :=
  zlen (snd x) < W16 /\ exists seg, S seg /\ udp_carried seg (snd x).

Record udp_inv (S : TCPSegment -> Prop) (a : TCPOverUDPSocketAdapter) : Prop := {
  uu_base : inet_adapter (ud_base a);
  uu_count : 0 <= fd_read_count (dv_fd (ud_sock a)) < W32;
  uu_sent : Forall (udp_sent S) (dv_written (ud_sock a))
}.

(** A datagram from an IPv4 host. *)
Definition from_inet (i : Z + Address * bytes) (d : bytes) : Prop :=
  exists ip port, i = inr (inet ip port, d) /\ 0 <= ip < W32 /\ 0 <= port < W16.

Definition udp_datagram (i : Z + Address * bytes) : Prop := exists d, from_inet i d /\ zlen d <= 65536.
Definition udp_wire (a : TCPOverUDPSocketAdapter) (i : Z + Address * bytes) : Prop :=
  exists to d, from_inet i d /\ (to, d) ∈ dv_written (ud_sock a).

Lemma udp_fd_read S a i d : udp_inv S a -> from_inet i d -> zlen d <= 65536 ->
  exists o b f', UDPSocketAdapter_read i a = (Ok o, mkUDP b (mkDevice f' (dv_written (ud_sock a)))) /\
    fd_read_count f' = u32 (fd_read_count (dv_fd (ud_sock a)) + 1) /\ inet_adapter b /\ readable 65536 o /\
    exists from, UDPAdapter_read (from, d) (ud_base a) = (Ok o, b).
Proof.
  intros [Hb Hc Hs] (ip & port & -> & Rip & Rport) Hd.
  destruct (udp_read_total (ud_base a) (inet ip port) d) as (o & b & E & Ho & Hr); [lia|].
  exists o, b, (register_read (dv_fd (ud_sock a))). split; [|split; [done|split; [|split; [|by exists (inet ip port)]]]].
  - unfold UDPSocketAdapter_read. erewrite run_zoom; [by erewrite zoom_eq by exact E|]. erewrite zoom_eq; [reflexivity|].
    unfold UDPSocket_recv. rewrite SystemCall_ok by zlia. mrun. destruct (Z.ltb_spec 65536 (zlen d)); [lia|]. mrun.
    by rewrite ztake_all by lia.
  - destruct o as [seg|]; [|by subst b]. destruct (fb_listen (ud_base a)); [|by destruct Hr as [-> _]].
    destruct Hr as (_ & _ & ->). destruct Hb as (src & sport & dst & dport & [C1 C2] & ? & ? & ? & ?).
    exists src, sport, ip, port. split; [by split|]. repeat (split; [assumption|]). assumption.
  - destruct o as [seg|]; [|done]. destruct Ho as [? [? ?]]. split; [done|]. split; [done|]. lia.
Qed.

Lemma udp_write_ok S a seg : udp_inv S a -> seg_wire seg -> S seg ->
  exists a', UDPSocketAdapter_write sendmsg seg a = (Ok tt, a') /\ udp_inv S a'.
Proof.
  intros [Hb Hc Hs] Hw HS. destruct (udp_write_carried (ud_base a) seg Hb Hw) as (bl & Ew & Hl & Hcar).
  eexists. split.
  - unfold UDPSocketAdapter_write. erewrite run_zoom by exact Ew. cbv beta iota zeta. rewrite views_concat, Hsendmsg.
    erewrite run_zoom; [unfold modify; reflexivity|]. erewrite zoom_eq; [reflexivity|].
    unfold UDPSocket_sendto, sendmsg_helper. rewrite SystemCall_ok by zlia. cbn [mbind res_bind].
    rewrite views_size_spec by (rewrite views_concat; lia). rewrite views_concat, u64_id by lia. rewrite Z.eqb_refl.
    cbn [negb]. mrun. unfold modify. reflexivity.
  - split; simpl; [done|done|]. apply Forall_app. split; [done|]. apply Forall_singleton.
    split; [simpl; lia|]. by exists seg.
Qed.

Program Definition udp_contract : AdapterContract (UDPSocketAdapter sendmsg) := {|
  ac_inv := udp_inv;
  ac_datagram := udp_datagram;
  ac_elapsed := fun _ => True;
  ac_limit := 65536;
  ac_base := inet_adapter
|}.
Next Obligation.
  intros S S' a HS [Hb Hc Hs]. split; [done|done|]. eapply Forall_impl; [exact Hs|].
  intros bs (Hl & seg & Hseg & Hcar). split; [done|]. exists seg. split; [by apply HS|done].
Qed.
Next Obligation. intros S a H. apply H. Qed.
Next Obligation.
  intros S a i H (d & Hi & Hd). destruct (udp_fd_read S a i d H Hi Hd) as (o & b & f' & E & Hf & Hb & Ho & _).
  eexists o, _. split; [exact E|]. split; [|by split]. destruct H. split; simpl; try done. rewrite Hf. apply u32_range.
Qed.
Next Obligation. apply udp_write_ok. Qed.
Next Obligation. intros S a ms H _. by exists a. Qed.
Next Obligation. intros S a b [? ? ?] Hb. by split. Qed.

Program Definition udp_wire_contract : WireContract udp_contract := {| ac_wire := udp_wire |}.
Next Obligation.
  intros S a i [_ _ Hs] (to & d & Hi & Hin). rewrite Forall_forall in Hs. destruct (Hs _ Hin) as [Hl _].
  exists d. split; [done|]. simpl in Hl. lia.
Qed.
Next Obligation.
  intros S S' a b i seg' b' [_ _ Hs] (to & d & Hi & Hin) Hb E. rewrite Forall_forall in Hs.
  destruct (Hs _ Hin) as (Hl & seg & Hseg & seg1 & Ep & Hsame). simpl in Hl, Ep.
  destruct (udp_fd_read S' b i d Hb Hi) as (o & b1 & f' & E1 & _ & _ & _ & from & Er); [lia|].
  cbn [adapter_read UDPSocketAdapter] in E. rewrite E1 in E. injection E as -> _. exists seg. split; [done|].
  apply udp_read_result in Er. congruence.
Qed.
End UDPContract.

(** ** The contract of a lossy adapter *)

Section LossyContract.
Context {A I R : Type} {FA : FdAdapter A I} (rng : R -> Z * R).

(** A lossy read always reads from the adapter beneath, whose state moves on even when
    the segment is dropped; a dropped write does not reach it; a zero loss rate
    drops nothing and draws no random number. *)
Lemma should_drop_spec up (s : LossyFdAdapter A R) : exists r drop, should_drop rng up s = (Ok drop, mkLossy r (lo_adapter s)) /\
  ((if up : bool then fa_loss_rate_up else fa_loss_rate_dn) (fb_cfg (adapter_base (lo_adapter s))) = 0 ->
   drop = false /\ r = lo_rand s).
Proof.
  unfold should_drop. set (cfg := fb_cfg _).
  replace (if up then fa_loss_rate_up cfg else fa_loss_rate_dn cfg)
    with ((if up then fa_loss_rate_up else fa_loss_rate_dn) cfg) by (by destruct up).
  destruct (Z.eqb_spec ((if up then fa_loss_rate_up else fa_loss_rate_dn) cfg) 0) as [E0|N0]; cbn [negb].
  - exists (lo_rand s), false. split; [by destruct s|done].
  - destruct (rng (lo_rand s)) as [x r]. by eexists _, _.
Qed.

Lemma lossy_read_spec i (s : LossyFdAdapter A R) o a : adapter_read i (lo_adapter s) = (Ok o, a) ->
  exists r drop, LossyFdAdapter_read rng i s = (Ok (if drop : bool then None else o), mkLossy r a) /\
    (fa_loss_rate_dn (fb_cfg (adapter_base a)) = 0 -> drop = false /\ r = lo_rand s).
Proof.
  intros E. destruct (should_drop_spec false (mkLossy (lo_rand s) a)) as (r & drop & Ed & H0). exists r, drop.
  split; [|done]. unfold LossyFdAdapter_read. erewrite run_zoom by exact E. unfold lo_set_adapter.
  erewrite run_bind by exact Ed. by destruct drop.
Qed.

Lemma lossy_write_spec seg (s : LossyFdAdapter A R) : exists r drop,
  LossyFdAdapter_write rng seg s
  = (if drop : bool then (Ok tt, mkLossy r (lo_adapter s))
     else let '(o, a) := adapter_write seg (lo_adapter s) in (o, mkLossy r a)) /\
  (fa_loss_rate_up (fb_cfg (adapter_base (lo_adapter s))) = 0 -> drop = false /\ r = lo_rand s).
Proof.
  destruct (should_drop_spec true s) as (r & drop & Ed & H0). exists r, drop. split; [|done].
  unfold LossyFdAdapter_write. erewrite run_bind by exact Ed. by destruct drop.
Qed.

Context (AC : AdapterContract FA) (WC : WireContract AC).

Program Definition lossy_contract : AdapterContract (LossyAdapter rng (R := R)) := {|
  ac_inv := fun S s => ac_inv S (lo_adapter s);
  ac_datagram := ac_datagram;
  ac_elapsed := ac_elapsed;
  ac_limit := ac_limit;
  ac_base := ac_base
|}.
Next Obligation. intros S S' a HS H. by apply (ac_mono S S'). Qed.
Next Obligation. intros S a H. by apply (ac_fd S (lo_adapter a)). Qed.
Next Obligation.
  intros S a i H Hi. destruct (ac_read S _ i H Hi) as (o & a' & E & Ha & Hf & Ho).
  destruct (lossy_read_spec i a o a' E) as (r & drop & El & _). eexists _, _. split; [exact El|].
  split; [done|]. split; [done|]. by destruct drop.
Qed.
Next Obligation.
  intros S a seg H Hw HS. destruct (ac_write S _ seg H Hw HS) as (a' & E & Ha).
  destruct (lossy_write_spec seg a) as (r & drop & El & _). rewrite E in El. destruct drop; eexists; (split; [exact El|done]).
Qed.
Next Obligation.
  intros S a ms H Hms. destruct (ac_tick S _ ms H Hms) as (a' & E & Ha). exists (lo_set_adapter a' a). split; [|exact Ha].
  cbn [adapter_tick LossyAdapter]. by erewrite zoom_eq by exact E.
Qed.
Next Obligation. intros S a b H Hb. by apply (ac_set_base S (lo_adapter a) b). Qed.

Program Definition lossy_wire_contract : WireContract lossy_contract := {| ac_wire := fun s => ac_wire (lo_adapter s) |}.
Next Obligation. intros S a i H Hi. by apply (ac_wire_datagram S (lo_adapter a)). Qed.
Next Obligation.
  intros S S' a b i seg' b' Ha Hi Hb E. pose proof (ac_wire_datagram S (lo_adapter a) i Ha Hi) as Hd.
  destruct (ac_read S' (lo_adapter b) i Hb Hd) as (o & b1 & E1 & _). destruct (lossy_read_spec i b o b1 E1) as (r & drop & El & _).
  cbn [adapter_read LossyAdapter] in E. rewrite El in E. destruct drop; [done|]. injection E as -> _.
  by apply (ac_carries S S' (lo_adapter a) (lo_adapter b) i seg' b1).
Qed.
End LossyContract.
