(* ===== verification/TapAdapter.v ===== *)
(** * TCP over IPv4 over Ethernet

    Models [TCPOverIPv4OverEthernetAdapter] of [tuntap_adapter.hh] and [tuntap_adapter.cc]:
    segments go through [wrap_tcp_in_ip], a [NetworkInterface] and a TAP device. The
    iteration orders of the interface's hash maps are parameters. *)

From S2P Require Import Prelude WrappingInts Buffers Checksum Parser TCPSegments IPv4 Ethernet Addresses Sender Connection Emitted Adapters Interface Frames FileDescriptors Devices.

Record TCPOverIPv4OverEthernetAdapter : Type := mkTap {
  ta_base : FdAdapterBase;
  ta_tap : Device bytes;
  ta_interface : NetworkInterface;
  ta_next_hop : Address
}.

Definition ta_set_base (v : FdAdapterBase) (a : TCPOverIPv4OverEthernetAdapter) := mkTap v (ta_tap a) (ta_interface a) (ta_next_hop a).
Definition ta_set_tap (v : Device bytes) (a : TCPOverIPv4OverEthernetAdapter) := mkTap (ta_base a) v (ta_interface a) (ta_next_hop a).
Definition ta_set_interface (v : NetworkInterface) (a : TCPOverIPv4OverEthernetAdapter) :=
  mkTap (ta_base a) (ta_tap a) v (ta_next_hop a).

Section Tap.
Context (writev : bytes -> list (Z + Z)).
Context (arp_order : gmap Z ARP_Entry -> list Z) (pending_order : gmap Z Z -> list Z).

Abbreviation tap := (method TCPOverIPv4OverEthernetAdapter).

(** The [while] loop of [send_pending]. *)
Fixpoint send_pending_loop (fuel : nat) : tap unit :=
  match fuel with
  | O => lift NoFuel
  | S fuel' =>
      frames_out ← gets (fun a => ni_frames_out (ta_interface a));
      match frames_out with
      | [] => mret tt
      | frame :: rest =>
          _ ← zoom ta_tap ta_set_tap (Device_write writev (EthernetFrame_serialize frame));
          _ ← modify (fun a => ta_set_interface (ni_set_frames (tail (ni_frames_out (ta_interface a))) (ta_interface a)) a);
          send_pending_loop fuel'
      end
  end.

(** Each pass takes one frame from the queue. *)
Definition send_pending : tap unit :=
  frames_out ← gets (fun a => ni_frames_out (ta_interface a));
  send_pending_loop (S (length frames_out)).

(** The constructor primes the device with a dummy frame. *)
Definition TapAdapter_new (eth_address : EthernetAddress) (ip_address next_hop : Address) : res TCPOverIPv4OverEthernetAdapter :=
  let '(r, d) := Device_write writev (EthernetFrame_serialize EthernetFrame_default) (mkDevice FDWrapper_new []) in
  _ ← r; Ok (mkTap FdAdapterBase_default d (NetworkInterface_new eth_address ip_address) next_hop).

Definition TapAdapter_read (kernel : Z + bytes) : tap (option TCPSegment) :=
  str ← zoom ta_tap ta_set_tap (Device_read kernel);
  '(result, frame) ← lift (EthernetFrame_parse EthernetFrame_default (Buffer_of_string str));
  if negb (bool_decide (result = NoError)) then mret None
  else
    ip_dgram ← zoom ta_interface ta_set_interface (recv_frame frame);
    _ ← send_pending;
    match ip_dgram with
    | Some d => zoom ta_base ta_set_base (unwrap_tcp_in_ip d)
    | None => mret None
    end.

(** Fuel 2: an overdue ARP request is looked at twice. *)
Definition TapAdapter_tick (ms_since_last_tick : Z) : tap unit :=
  _ ← zoom ta_interface ta_set_interface (fun s =>
        NetworkInterface_tick 2 (arp_order (ni_arp_table s)) (pending_order (ni_waiting_arp_response_ip_addr s))
          ms_since_last_tick s);
  send_pending.

Definition TapAdapter_write (seg : TCPSegment) : tap unit :=
  base ← gets ta_base;
  '(d, _) ← lift (wrap_tcp_in_ip base seg);
  next_hop ← gets ta_next_hop;
  _ ← zoom ta_interface ta_set_interface (send_datagram d next_hop);
  send_pending.

#[export] Instance TapAdapter : FdAdapter TCPOverIPv4OverEthernetAdapter (Z + bytes) := {
  adapter_fd := fun a => dv_fd (ta_tap a);
  adapter_base := ta_base;
  adapter_set_base := ta_set_base;
  adapter_read := TapAdapter_read;
  adapter_write := TapAdapter_write;
  adapter_tick := TapAdapter_tick
}.

(** ** The contract *)

Section Contract.
Context (Hwritev : accepts_all writev).
Context (Harp : forall m, order_of (arp_order m) m) (Hpending : forall m, order_of (pending_order m) m).

(** For a property [D] of the datagrams in the interface and on the device. Between calls no
    frame is left in the queue. *)
Record tap_inv (D : InternetDatagram -> Prop) (a : TCPOverIPv4OverEthernetAdapter) : Prop := {
  ti_base : inet_adapter (ta_base a);
  ti_interface : ni_inv (ta_interface a);
  ti_holds : ni_holds D (ta_interface a);
  ti_idle : ni_frames_out (ta_interface a) = [];
  ti_next_hop : exists ip, ipv4_numeric (ta_next_hop a) = Ok ip;
  ti_count : 0 <= fd_read_count (dv_fd (ta_tap a)) < W32;
  ti_sent : Forall (on_the_wire D) (dv_written (ta_tap a))
}.

Section Holding.
Context (D : InternetDatagram -> Prop) (D_valid : forall d, D d -> datagram_valid d).

Lemma send_pending_loop_ok frames : forall a, ni_frames_out (ta_interface a) = frames -> Forall (good_frame D) frames ->
  Forall (on_the_wire D) (dv_written (ta_tap a)) ->
  exists d, send_pending_loop (S (length frames)) a
    = (Ok tt, mkTap (ta_base a) d (ni_set_frames [] (ta_interface a)) (ta_next_hop a)) /\
    fd_read_count (dv_fd d) = fd_read_count (dv_fd (ta_tap a)) /\ Forall (on_the_wire D) (dv_written d).
Proof.
  induction frames as [|f frames IH]; intros a Ef Hg Hs.
  - cbn [send_pending_loop length]. mrun. rewrite Ef. exists (ta_tap a). split; [|done]. destruct a as [? ? [] ?]. cbn in *. by subst.
  - cbn [length]. remember (S (length frames)) as n. cbn [send_pending_loop]. mrun. rewrite Ef.
    apply Forall_cons in Hg as [Hf Hg]. pose proof (frame_length D f Hf) as Hl. pose proof (gf_size _ _ Hf) as Hsz.
    destruct (Device_write_ok writev (EthernetFrame_serialize f) (ta_tap a) Hwritev) as (fd & Ew & Hfd); [zlia|].
    erewrite run_zoom by exact Ew. mrun.
    match goal with |- context [send_pending_loop _ ?x] => set (a1 := x) end.
    destruct (IH a1) as (d & E & Hd & Hsd); [cbn; by rewrite Ef|done| |].
    { cbn. apply Forall_app. split; [done|]. apply Forall_singleton. by exists f. }
    exists d. rewrite E. split; [done|]. split; [by rewrite Hd|done].
Qed.

(** [send_pending] after a call on the interface. *)
Lemma send_pending_ok a s' : tap_inv D a -> ni_inv s' -> ni_holds D s' ->
  exists a', send_pending (ta_set_interface s' a) = (Ok tt, a') /\ tap_inv D a' /\ ta_base a' = ta_base a /\
    fd_read_count (dv_fd (ta_tap a')) = fd_read_count (dv_fd (ta_tap a)).
Proof.
  intros Ha I [Hw Hf]. unfold send_pending. mrun. cbn [ta_interface ta_set_interface].
  destruct (send_pending_loop_ok (ni_frames_out s') (ta_set_interface s' a)) as (d & E & Hd & Hs); [done|done|apply Ha|].
  eexists. split; [exact E|]. split; [|done]. destruct Ha. split; cbn; try done.
  - by destruct I.
  - by rewrite Hd.
Qed.

(** The IPv4 datagram in the bytes of a frame. *)
Definition datagram_in (bs : bytes) (d : InternetDatagram) : Prop := exists h b,
  EthernetFrame_parse EthernetFrame_default (Buffer_of_string bs) = Ok (NoError, mkEthernetFrame h [b]) /\
  eh_type h = TYPE_IPv4 /\ IPv4Datagram_parse IPv4Datagram_default b = Ok (NoError, d).

(** What reading [bs] returned and did to the configuration. *)
Definition unwrapped_from (bs : bytes) (base : FdAdapterBase) (o : option TCPSegment) (base' : FdAdapterBase) : Prop :=
  match o with
  | None => base' = base
  | Some seg => exists h b, datagram_in bs (mkIPv4Datagram h [b]) /\ unwrapped base h o base' /\ Buffer_wf b /\
      TCPSegment_parse TCPSegment_default b (IPv4Header_pseudo_cksum h) = Ok (NoError, seg)
  end.

Lemma tap_fd_read a bs : tap_inv D a -> zlen bs <= BUFFER_SIZE ->
  exists o a', TapAdapter_read (inr bs) a = (Ok o, a') /\ tap_inv D a' /\
    fd_read_count (dv_fd (ta_tap a')) = u32 (fd_read_count (dv_fd (ta_tap a)) + 1) /\ readable BUFFER_SIZE o /\
    unwrapped_from bs (ta_base a) o (ta_base a').
Proof.
  intros Ha Hbs. destruct (Device_read_ok bs (ta_tap a) Hbs (ti_count _ _ Ha)) as (fd & Er & Hfd).
  set (a1 := ta_set_tap (mkDevice fd (dv_written (ta_tap a))) a).
  assert (Ha1 : tap_inv D a1) by (destruct Ha; split; try done; cbn; rewrite Hfd; apply u32_range).
  destruct (EthernetFrame_parse_total BUFFER_SIZE EthernetFrame_default (Buffer_of_string bs)) as (r & h & b & Ep & Hb).
  { split; [apply Buffer_wf_of_string; unfold BUFFER_SIZE in Hbs; lia|done]. }
  unfold TapAdapter_read. erewrite run_zoom by exact Er. fold a1. rewrite Ep. mrun.
  case_bool_decide as Hr; cbn [negb]; [|by exists None, a1]. subst r.
  destruct (recv_frame_spec (ta_interface a1) (mkEthernetFrame h [b]) b (ti_interface _ _ Ha1) eq_refl (proj1 Hb))
    as (o & s' & E & R & I').
  pose proof (received_holds D D_valid _ _ _ _ _ (ti_interface _ _ Ha1) (proj1 Hb) (ti_holds _ _ Ha1) R) as Hh.
  erewrite run_zoom by exact E. destruct (send_pending_ok a1 s' Ha1 I' Hh) as (a2 & E2 & Ha2 & Hbase & Hcnt).
  erewrite run_bind by exact E2. destruct o as [d|]; [|exists None, a2; split; [done|split; [done|split; [by rewrite Hcnt|done]]]].
  unfold received in R. destruct (decide _) as [_|_]; [|by destruct R].
  destruct (Z.eqb_spec (eh_type (ef_header (mkEthernetFrame h [b]))) TYPE_IPv4) as [Ht|];
    [|destruct (_ =? TYPE_ARP); by destruct R].
  destruct R as (_ & r & d' & Ed & Eo). case_bool_decide as Hrr; [|done]. injection Eo as ->. subst r.
  destruct (IPv4Datagram_parse_total BUFFER_SIZE IPv4Datagram_default b Hb IPv4Header_default_typed)
    as (r & h4 & b4 & E4 & Hb4 & Hh4). rewrite Ed in E4. injection E4 as <- ->.
  destruct (unwrap_total BUFFER_SIZE (ta_base a2) h4 b4 (ti_base _ _ Ha2) Hh4 Hb4) as (o & base' & Eu & Hi & Hun & Ho).
  exists o, (ta_set_base base' a2). split; [by erewrite zoom_eq by exact Eu|]. split; [by destruct Ha2|].
  split; [cbn; by rewrite Hcnt|]. split; [done|]. rewrite Hbase in Hun. change (ta_base a1) with (ta_base a) in Hun.
  destruct o as [seg|]; [|exact Hun]. apply unwrap_result in Eu. exists h4, b4. split; [by exists h, b|]. split; [exact Hun|]. split; [apply Hb4|done].
Qed.

Lemma tap_write_ok a seg : tap_inv D a -> seg_wire seg -> (forall d seg', wrap_tcp_in_ip (ta_base a) seg = Ok (d, seg') -> D d) ->
  exists a', TapAdapter_write seg a = (Ok tt, a') /\ tap_inv D a' /\ ta_base a' = ta_base a.
Proof.
  intros Ha [V Hd Hp Hsm] HD. destruct (ti_next_hop _ _ Ha) as [ip Eip].
  destruct (wrap_carried (ta_base a) seg (ti_base _ _ Ha) V Hp) as (d & seg' & bl & Ew & _ & Es & _);
    [rewrite Hd; unfold MAX_PAYLOAD_SIZE in Hsm; lia|].
  destruct (send_datagram_spec (ta_interface a) d (ta_next_hop a) ip bl (ti_interface _ _ Ha) Eip Es) as (s' & E & Hsent & I').
  assert (Hh : ni_holds D s').
  { apply (sent_holds D D_valid (ta_interface a) d (ta_next_hop a) ip); try done; try apply Ha; [by eapply ipv4_numeric_range|].
    by apply (HD d seg'). }
  destruct (send_pending_ok a s' Ha I' Hh) as (a' & E' & Ha' & Hb & _). exists a'. split; [|done].
  unfold TapAdapter_write. mrun. rewrite Ew. mrun. erewrite run_zoom by exact E. exact E'.
Qed.

Lemma tap_tick_ok a ms : tap_inv D a -> 0 <= ms < 5000 ->
  exists a', TapAdapter_tick ms a = (Ok tt, a') /\ tap_inv D a' /\ ta_base a' = ta_base a.
Proof.
  intros Ha Hms.
  destruct (tick_spec (ta_interface a) ms (arp_order (ni_arp_table (ta_interface a)))
    (pending_order (ni_waiting_arp_response_ip_addr (ta_interface a))) (ti_interface _ _ Ha) Hms) as (s' & E & Ht & I'); [done|done|].
  pose proof (ticked_holds D ms _ _ _ (ti_interface _ _ Ha) (Hpending _) (ti_holds _ _ Ha) Ht) as Hh.
  destruct (send_pending_ok a s' Ha I' Hh) as (a' & E' & Ha' & Hb & _). exists a'. split; [|done].
  unfold TapAdapter_tick. erewrite run_zoom by exact E. exact E'.
Qed.
End Holding.

Lemma tap_inv_mono (D D' : InternetDatagram -> Prop) a : (forall d, D d -> D' d) -> tap_inv D a -> tap_inv D' a.
Proof.
  intros HD []. split; try done; [by apply (ni_holds_mono D)|]. eapply Forall_impl; [eassumption|].
  intros bs. by apply on_the_wire_mono.
Qed.

(** A datagram with a segment of [S], which nobody can read as another. *)
Definition holds (S : TCPSegment -> Prop) (d : InternetDatagram) : Prop := exists seg, S seg /\ transports seg d.

Lemma holds_valid S d : holds S d -> datagram_valid d.
Proof. by intros (seg & _ & [? _]). Qed.

Lemma holds_mono (S S' : TCPSegment -> Prop) d : (forall x, S x -> S' x) -> holds S d -> holds S' d.
Proof. intros HS (seg & Hs & Ht). exists seg. split; [by apply HS|done]. Qed.

Lemma wrap_holds (S : TCPSegment -> Prop) base seg : inet_adapter base -> seg_wire seg -> S seg ->
  exists src dst d seg', wrap_tcp_in_ip base seg = Ok (d, seg') /\ holds S d /\ ip_src (ipd_header d) = src /\ ip_dst (ipd_header d) = dst /\
    ipv4_numeric (fa_source (fb_cfg base)) = Ok src /\ ipv4_numeric (fa_destination (fb_cfg base)) = Ok dst.
Proof.
  intros (src & sport & dst & dport & C & Rs & Rsp & Rd & Rdp) [V Hd Hp Hsm] HS.
  destruct (wrap_transports base seg src sport dst dport C Rs Rsp Rd Rdp V Hp) as (d & seg' & Ew & Ht & Es & Ed);
    [rewrite Hd; unfold MAX_PAYLOAD_SIZE in Hsm; lia|].
  exists src, dst, d, seg'. split; [done|]. split; [by exists seg|]. split; [done|]. split; [done|].
  destruct C as [-> ->]. by rewrite !ipv4_numeric_inet.
Qed.

(** The datagrams of a frame on the device, read as a segment. *)
Lemma wire_holds S bs h b seg' : on_the_wire (holds S) bs -> datagram_in bs (mkIPv4Datagram h [b]) -> Buffer_wf b ->
  TCPSegment_parse TCPSegment_default b (IPv4Header_pseudo_cksum h) = Ok (NoError, seg') ->
  exists seg, S seg /\ same_data seg seg'.
Proof.
  intros Hw (he & be & Ep & Ht & E4) Hb Et.
  destruct (read_off_the_wire (holds S) (holds_valid S) bs he be _ Hw Ep Ht E4) as (d0 & (seg & HS & V & Hseg) & Ha).
  destruct Ha as (v & _ & Hh & Hbw & Hpl). cbn [ipd_header ipd_payload] in *. rewrite concatenate_cons, app_nil_r in Hpl.
  destruct (Hseg b) as (seg1 & E1 & Hs); [done|exact Hpl|]. exists seg. split; [done|].
  rewrite Hh in Et. change (IPv4Header_pseudo_cksum (ip_set_cksum (ipd_header d0) v)) with (IPv4Header_pseudo_cksum (ipd_header d0)) in Et.
  rewrite E1 in Et. by injection Et as <-.
Qed.

Program Definition tap_contract : AdapterContract TapAdapter := {|
  ac_inv := fun S => tap_inv (holds S);
  ac_datagram := tun_datagram;
  ac_elapsed := fun ms => 0 <= ms < 5000;
  ac_limit := BUFFER_SIZE;
  ac_base := inet_adapter
|}.
Next Obligation. intros S S' a HS. apply tap_inv_mono. intros d. by apply holds_mono. Qed.
Next Obligation. intros S a H. apply H. Qed.
Next Obligation.
  intros S a i H (d & -> & Hd). destruct (tap_fd_read _ (holds_valid S) a d H Hd) as (o & a' & E & Ha' & Hc & Ho & _). by exists o, a'.
Qed.
Next Obligation.
  intros S a seg H Hw HS. destruct (wrap_holds S (ta_base a) seg (ti_base _ _ H) Hw HS) as (_ & _ & d & seg' & Ew & Hd & _).
  destruct (tap_write_ok _ (holds_valid S) a seg H Hw) as (a' & E & Ha' & _); [|by exists a'].
  intros d1 seg1 E1. rewrite Ew in E1. by injection E1 as <- _.
Qed.
Next Obligation. intros S a ms H Hms. destruct (tap_tick_ok _ a ms H Hms) as (a' & E & Ha' & _). by exists a'. Qed.
Next Obligation. intros S a b [] Hb. by split. Qed.

Program Definition tap_wire_contract : WireContract tap_contract := {|
  ac_wire := fun a i => exists d, i = inr d /\ d ∈ dv_written (ta_tap a)
|}.
Next Obligation.
  intros S a i H (d & -> & Hin). pose proof (ti_sent _ _ H) as Hs. rewrite Forall_forall in Hs.
  eexists. split; [done|]. pose proof (on_the_wire_length _ _ (Hs d Hin)). unfold BUFFER_SIZE. lia.
Qed.
Next Obligation.
  intros S S' a b i seg' b' H (d & -> & Hin) Hb E. pose proof (ti_sent _ _ H) as Hs. rewrite Forall_forall in Hs.
  specialize (Hs d Hin). pose proof (on_the_wire_length _ _ Hs).
  destruct (tap_fd_read _ (holds_valid S') b d Hb) as (o & a' & E' & _ & _ & _ & Hu); [unfold BUFFER_SIZE; lia|].
  cbn [adapter_read TapAdapter] in E. rewrite E' in E. injection E as -> _. destruct Hu as (h4 & b4 & Hdg & _ & Hb4 & Et).
  by apply (wire_holds S d h4 b4).
Qed.

(** ** Runs of the adapter *)

Lemma tap_new_ok eth ip port hop hport : EthernetAddress_valid eth -> 0 <= ip < W32 -> 0 <= hop < W32 ->
  exists a, TapAdapter_new eth (inet ip port) (inet hop hport) = Ok a /\ tap_inv (holds (fun _ => False)) a.
Proof.
  intros Ve Hip Hhop. assert (Hg : good_frame (holds (fun _ => False)) EthernetFrame_default).
  { split; [split; [apply no_ethernet_address..|simpl; lia]|done|done]. }
  destruct (Device_write_ok writev (EthernetFrame_serialize EthernetFrame_default) (mkDevice FDWrapper_new []) Hwritev)
    as (fd & Ew & Hfd); [done|].
  eexists. split; [unfold TapAdapter_new; rewrite Ew; reflexivity|]. split; cbn; try done.
  - exists 0, 0, 0, 0. split; [done|lia].
  - by apply ni_inv_new.
  - exists hop. by apply ipv4_numeric_inet.
  - rewrite Hfd. cbn. lia.
  - apply Forall_singleton. by exists EthernetFrame_default.
Qed.

(** With the adapter go the segments written to it. *)
Inductive tap_step : TCPOverIPv4OverEthernetAdapter * list TCPSegment -> TCPOverIPv4OverEthernetAdapter * list TCPSegment -> Prop :=
| tap_step_read a l bs r a' : zlen bs <= BUFFER_SIZE -> TapAdapter_read (inr bs) a = (r, a') -> tap_step (a, l) (a', l)
| tap_step_write a l seg r a' : seg_wire seg -> TapAdapter_write seg a = (r, a') -> tap_step (a, l) (a', seg :: l)
| tap_step_tick a l ms r a' : 0 <= ms < 5000 -> TapAdapter_tick ms a = (r, a') -> tap_step (a, l) (a', l)
| tap_step_config a l b : inet_adapter b -> tap_step (a, l) (ta_set_base b a, l).

Lemma tap_write_new a l seg : tap_inv (holds (fun x => x ∈ l)) a -> seg_wire seg ->
  exists a', TapAdapter_write seg a = (Ok tt, a') /\ tap_inv (holds (fun x => x ∈ seg :: l)) a'.
Proof.
  intros H Hw. apply (ac_mono (AdapterContract := tap_contract) _ (fun x => x ∈ seg :: l)) in H; [|intros x Hx; by right].
  apply (ac_write (AdapterContract := tap_contract) _ a seg H Hw). left.
Qed.

Lemma tap_step_inv x y : tap_inv (holds (fun seg => seg ∈ snd x)) (fst x) -> tap_step x y -> tap_inv (holds (fun seg => seg ∈ snd y)) (fst y).
Proof.
  intros Hi Hs. destruct Hs as [a l bs r a' Hb E|a l seg r a' Hw E|a l ms r a' Hms E|a l b Hb]; cbn [fst snd] in *.
  - destruct (tap_fd_read _ (holds_valid _) a bs Hi Hb) as (o & a1 & E1 & Hi1 & _). rewrite E in E1. by injection E1 as _ ->.
  - destruct (tap_write_new a l seg Hi Hw) as (a1 & E1 & Hi1). rewrite E in E1. by injection E1 as _ ->.
  - destruct (tap_tick_ok _ a ms Hi Hms) as (a1 & E1 & Hi1 & _). rewrite E in E1. by injection E1 as _ ->.
  - by destruct Hi.
Qed.

Lemma tap_reach_inv a0 l a : tap_inv (holds (fun _ => False)) a0 -> reach tap_step (a0, []) (a, l) -> tap_inv (holds (fun seg => seg ∈ l)) a.
Proof.
  intros H0 Hr. apply (reach_invariant tap_step (fun x => tap_inv (holds (fun seg => seg ∈ snd x)) (fst x)) (a0, []) (a, l)); [|cbn|done].
  - intros x y. apply tap_step_inv.
  - by apply (ac_mono (AdapterContract := tap_contract) (fun _ => False)).
Qed.
End Contract.
End Tap.

(** the Ethernet adapter survives any network: after its constructor, whatever bytes the
    TAP device delivers and in whatever order segments are written and time passes (less
    than 5 s at a time), reading, writing and ticking never throw or diverge and leave no
    frame unsent; and every frame on the device is either not IPv4 or carries in its
    datagram one of the segments written to the adapter, which no reader can mistake for
    another. *)
Theorem ethernet_adapter_survives_any_network writev arp_order pending_order eth ip port hop hport a0 a l :
  accepts_all writev -> (forall m, order_of (arp_order m) m) -> (forall m, order_of (pending_order m) m) ->
  EthernetAddress_valid eth -> 0 <= ip < W32 -> 0 <= hop < W32 ->
  TapAdapter_new writev eth (inet ip port) (inet hop hport) = Ok a0 ->
  reach (tap_step writev arp_order pending_order) (a0, []) (a, l) ->
  (forall bs, zlen bs <= BUFFER_SIZE -> exists o a', TapAdapter_read writev (inr bs) a = (Ok o, a')) /\
  (forall seg, seg_wire seg -> exists a', TapAdapter_write writev seg a = (Ok tt, a')) /\
  (forall ms, 0 <= ms < 5000 -> exists a', TapAdapter_tick writev arp_order pending_order ms a = (Ok tt, a')) /\
  ni_frames_out (ta_interface a) = [] /\
  Forall (fun bs => exists f, bs = BufferList_concatenate (EthernetFrame_serialize f) /\
    (eh_type (ef_header f) = TYPE_IPv4 ->
     exists seg, seg ∈ l /\ carried seg (BufferList_concatenate (ef_payload f)))) (dv_written (ta_tap a)).
Proof.
  intros Hw Ha Hp Ve Hip Hhop E0 Hr. destruct (tap_new_ok writev Hw eth ip port hop hport Ve Hip Hhop) as (a1 & E1 & H0).
  rewrite E0 in E1. injection E1 as <-. pose proof (tap_reach_inv writev arp_order pending_order Hw Ha Hp a0 l a H0 Hr) as Hi.
  split; [|split; [|split; [|split; [apply Hi|]]]].
  - intros bs Hb. destruct (tap_fd_read writev Hw _ (holds_valid _) a bs Hi Hb) as (o & a' & E & _). by exists o, a'.
  - intros seg Hs. destruct (tap_write_new writev arp_order pending_order Hw Ha Hp a l seg Hi Hs) as (a' & E & _). by exists a'.
  - intros ms Hms. destruct (tap_tick_ok writev arp_order pending_order Hw Ha Hp _ a ms Hi Hms) as (a' & E & _). by exists a'.
  - eapply Forall_impl; [apply Hi|]. intros bs (f & Hf & ->). exists f. split; [done|]. intros Ht.
    destruct (gf_datagram _ _ Hf Ht) as (d & bl & (seg & Hs & Htr) & Es & ->). exists seg. split; [done|].
    by apply (transports_carried seg d).
Qed.

(** The keys of a map in the order of its list of entries. *)
Definition keys_of {V} (m : gmap Z V) : list Z := map fst (map_to_list m).

Lemma keys_of_order {V} (m : gmap Z V) : order_of (keys_of m) m.
Proof.
  split; [apply NoDup_fst_map_to_list|]. intros k. unfold keys_of. split.
  - intros Hk. apply list_elem_of_fmap in Hk as ([k' v] & -> & Hin). apply elem_of_map_to_list in Hin. by exists v.
  - intros [v Hv]. apply list_elem_of_fmap. exists (k, v). split; [done|]. by apply elem_of_map_to_list.
Qed.

Lemma ethernet_adapter_survives_any_network_witness : exists a0 a',
  TapAdapter_new whole_writev demo_eth (inet 167772161 0) (inet 167772162 0) = Ok a0 /\
  TapAdapter_write whole_writev sample_segment a0 = (Ok tt, a').
Proof.
  destruct (TapAdapter_new whole_writev demo_eth (inet 167772161 0) (inet 167772162 0)) as [a0| |] eqn:E;
    [|discriminate|discriminate].
  destruct (ethernet_adapter_survives_any_network whole_writev keys_of keys_of demo_eth 167772161 0 167772162 0 a0 a0 [])
    as (_ & Hw & _).
  - apply whole_writev_accepts.
  - intros m. apply keys_of_order.
  - intros m. apply keys_of_order.
  - apply demo_eth_valid.
  - lia.
  - lia.
  - exact E.
  - apply reach_refl.
  - destruct (Hw sample_segment) as [a' Ha']; [split; [split; vm_compute; split; congruence|reflexivity|repeat split; vm_compute; congruence|vm_compute; congruence]|].
    exists a0, a'. split; [reflexivity|exact Ha'].
Defined.
