(* ===== verification/SpongeSocket.v ===== *)
(** * The TCP socket

    Models [libsponge/tcp_helpers/tcp_sponge_socket.hh] and [tcp_sponge_socket.cc]: the four
    rules that connect a [TCPConnection] with the owner's stream socket and the datagram
    adapter, the loop of the TCP thread, [connect], [listen_and_accept] and [_tcp_main].

    Everything the outside decides in one turn of the loop (what [poll] reports, what the
    descriptors deliver, the clock, the owner's abort flag) is an [Env]; a run is a list of
    them. Debugging output is left out. *)

From S2P Require Import Prelude WrappingInts Buffers ByteStreams Reassembler TCPSegments Receiver Sender Connection Addresses Adapters FileDescriptors EventLoop Devices.

Definition TCP_TICK_MS : Z := 10.

Record Env (I : Type) : Type := mkEnv {
  en_poll : list Z -> poll_outcome;
  en_datagram : I;                        (* the adapter's next read *)
  en_owner_read : Z -> Z + bytes;         (* [::read] on the owner's stream *)
  en_owner_write : bytes -> Z + Z;        (* [::writev] to the owner's stream *)
  en_shutdown : Z;                        (* [::shutdown]: 0 or [errno] *)
  en_abort : bool;                        (* [_abort] *)
  en_time : Z                             (* [timestamp_ms()] *)
}.
Arguments mkEnv {I}.
Arguments en_poll {I}.
Arguments en_datagram {I}.
Arguments en_owner_read {I}.
Arguments en_owner_write {I}.
Arguments en_shutdown {I}.
Arguments en_abort {I}.
Arguments en_time {I}.

(** [inbound_stream().pop_output(n)] *)
Definition pop_inbound (c : TCPConnection) (n : Z) : res TCPConnection :=
  out ← ByteStream_pop_output (TCPConnection_inbound_stream c) n;
  let r := cn_receiver c in
  Ok (cn_set_receiver c
        (mkTCPReceiver (sr_set_output (rv_reassembler r) out (sr_eof (rv_reassembler r)))
           (rv_capacity r) (rv_syn r) (rv_fin r) (rv_isn r) (rv_ackno r) (rv_checkpoint r))).

Section Socket.
Context {A I : Type} {FA : FdAdapter A I}.

(** The socket, the current [Env], and a log of the bytes taken from and given to the
    owner. *)
Record TCPSpongeSocket : Type := mkSocket {
  ss_owner : FDWrapper;                   (* the [LocalStreamSocket] itself *)
  ss_thread_data : FDWrapper;
  ss_datagram_adapter : A;
  ss_tcp : option TCPConnection;
  ss_inbound_shutdown : bool;
  ss_outbound_shutdown : bool;
  ss_fully_acked : bool;
  ss_env : Env I;
  ss_from_owner : bytes;
  ss_to_owner : bytes
}.

Definition ss_set_owner (v : FDWrapper) (s : TCPSpongeSocket) : TCPSpongeSocket :=
  mkSocket v (ss_thread_data s) (ss_datagram_adapter s) (ss_tcp s) (ss_inbound_shutdown s)
    (ss_outbound_shutdown s) (ss_fully_acked s) (ss_env s) (ss_from_owner s) (ss_to_owner s).
Definition ss_set_thread_data (v : FDWrapper) (s : TCPSpongeSocket) : TCPSpongeSocket :=
  mkSocket (ss_owner s) v (ss_datagram_adapter s) (ss_tcp s) (ss_inbound_shutdown s)
    (ss_outbound_shutdown s) (ss_fully_acked s) (ss_env s) (ss_from_owner s) (ss_to_owner s).
Definition ss_set_adapter (v : A) (s : TCPSpongeSocket) : TCPSpongeSocket :=
  mkSocket (ss_owner s) (ss_thread_data s) v (ss_tcp s) (ss_inbound_shutdown s)
    (ss_outbound_shutdown s) (ss_fully_acked s) (ss_env s) (ss_from_owner s) (ss_to_owner s).
Definition ss_set_tcp (v : option TCPConnection) (s : TCPSpongeSocket) : TCPSpongeSocket :=
  mkSocket (ss_owner s) (ss_thread_data s) (ss_datagram_adapter s) v (ss_inbound_shutdown s)
    (ss_outbound_shutdown s) (ss_fully_acked s) (ss_env s) (ss_from_owner s) (ss_to_owner s).
Definition ss_set_inbound_shutdown (v : bool) (s : TCPSpongeSocket) : TCPSpongeSocket :=
  mkSocket (ss_owner s) (ss_thread_data s) (ss_datagram_adapter s) (ss_tcp s) v
    (ss_outbound_shutdown s) (ss_fully_acked s) (ss_env s) (ss_from_owner s) (ss_to_owner s).
Definition ss_set_outbound_shutdown (v : bool) (s : TCPSpongeSocket) : TCPSpongeSocket :=
  mkSocket (ss_owner s) (ss_thread_data s) (ss_datagram_adapter s) (ss_tcp s) (ss_inbound_shutdown s)
    v (ss_fully_acked s) (ss_env s) (ss_from_owner s) (ss_to_owner s).
Definition ss_set_fully_acked (v : bool) (s : TCPSpongeSocket) : TCPSpongeSocket :=
  mkSocket (ss_owner s) (ss_thread_data s) (ss_datagram_adapter s) (ss_tcp s) (ss_inbound_shutdown s)
    (ss_outbound_shutdown s) v (ss_env s) (ss_from_owner s) (ss_to_owner s).
Definition ss_set_env (v : Env I) (s : TCPSpongeSocket) : TCPSpongeSocket :=
  mkSocket (ss_owner s) (ss_thread_data s) (ss_datagram_adapter s) (ss_tcp s) (ss_inbound_shutdown s)
    (ss_outbound_shutdown s) (ss_fully_acked s) v (ss_from_owner s) (ss_to_owner s).
Definition ss_log_from_owner (d : bytes) (s : TCPSpongeSocket) : TCPSpongeSocket :=
  mkSocket (ss_owner s) (ss_thread_data s) (ss_datagram_adapter s) (ss_tcp s) (ss_inbound_shutdown s)
    (ss_outbound_shutdown s) (ss_fully_acked s) (ss_env s) (ss_from_owner s ++ d) (ss_to_owner s).
Definition ss_log_to_owner (d : bytes) (s : TCPSpongeSocket) : TCPSpongeSocket :=
  mkSocket (ss_owner s) (ss_thread_data s) (ss_datagram_adapter s) (ss_tcp s) (ss_inbound_shutdown s)
    (ss_outbound_shutdown s) (ss_fully_acked s) (ss_env s) (ss_from_owner s) (ss_to_owner s ++ d).

Abbreviation sock := (method TCPSpongeSocket).

(** The constructor, after [socketpair]. *)
Definition TCPSpongeSocket_new (datagram_interface : A) (env : Env I) : TCPSpongeSocket :=
  mkSocket FDWrapper_new FDWrapper_new datagram_interface None false false false env [] [].

(** [*_tcp]; dereferencing an empty [optional] is undefined. *)
Definition the_tcp : sock TCPConnection :=
  t ← gets ss_tcp; lift (match t with Some c => Ok c | None => Throw (UB "_tcp is empty") end).

Definition on_tcp (op : TCPConnection -> res TCPConnection) : sock unit :=
  c ← the_tcp; c' ← lift (op c); modify (ss_set_tcp (Some c')).

Abbreviation on_adapter := (zoom ss_datagram_adapter ss_set_adapter).
Abbreviation on_thread_data := (zoom ss_thread_data ss_set_thread_data).

(** ** The rules of [_initialize_TCP] *)

(** Rule 1: read from the filtered packet stream and dump into TCPConnection. *)
Definition rule1_callback : sock unit :=
  env ← gets ss_env;
  seg ← on_adapter (adapter_read (en_datagram env));
  _ ← ((match seg with
        | Some seg => on_tcp (fun c => TCPConnection_segment_received c seg)
        | None => mret tt
        end) : sock unit);
  c ← the_tcp;
  modify (fun s => if fd_eof (ss_thread_data s) && (TCPConnection_bytes_in_flight c =? 0) && negb (ss_fully_acked s)
                   then ss_set_fully_acked true s else s).

Definition rule1_interest (s : TCPSpongeSocket) : bool :=
  match ss_tcp s with Some c => cn_active c | None => false end.

(** Rule 2: read from the pipe into the outbound buffer. *)
Definition end_outbound : sock unit :=
  _ ← on_tcp TCPConnection_end_input_stream;
  modify (ss_set_outbound_shutdown true).

Definition rule2_callback : sock unit :=
  env ← gets ss_env;
  c ← the_tcp;
  data ← on_thread_data (FileDescriptor_read (TCPConnection_remaining_outbound_capacity c) (en_owner_read env));
  _ ← modify (ss_log_from_owner data);
  '(amount_written, c) ← lift (TCPConnection_write c data);
  _ ← modify (ss_set_tcp (Some c));
  if negb (amount_written =? zlen data)
  then lift (Throw (runtime_error "TCPConnection::write() accepted less than advertised length"))
  else
    eof ← gets (fun s => fd_eof (ss_thread_data s));
    if eof : bool then end_outbound else mret tt.

Definition rule2_interest (s : TCPSpongeSocket) : bool :=
  match ss_tcp s with
  | Some c => cn_active c && negb (ss_outbound_shutdown s) && (0 <? TCPConnection_remaining_outbound_capacity c)
  | None => false
  end.

(** Rule 3: read from the inbound buffer into the pipe. *)
Definition rule3_callback : sock unit :=
  env ← gets ss_env;
  c ← the_tcp;
  let inbound := TCPConnection_inbound_stream c in
  let amount_to_write := Z.min 65536 (ByteStream_buffer_size inbound) in
  let buffer := ByteStream_peek_output inbound amount_to_write in
  bytes_written ← on_thread_data (FileDescriptor_write [en_owner_write env buffer] (BufferViewList_of_string buffer) false 0);
  _ ← modify (ss_log_to_owner (ztake bytes_written buffer));
  _ ← on_tcp (fun c => pop_inbound c bytes_written);
  c ← the_tcp;
  let inbound := TCPConnection_inbound_stream c in
  if ByteStream_eof inbound || ByteStream_error inbound then
    _ ← on_thread_data (Socket_shutdown SHUT_WR (en_shutdown env));
    modify (ss_set_inbound_shutdown true)
  else mret tt.

Definition rule3_interest (s : TCPSpongeSocket) : bool :=
  match ss_tcp s with
  | Some c =>
      let inbound := TCPConnection_inbound_stream c in
      negb (ByteStream_buffer_empty inbound) ||
      ((ByteStream_eof inbound || ByteStream_error inbound) && negb (ss_inbound_shutdown s))
  | None => false
  end.

(** Rule 4: read outbound segments from TCPConnection and send as datagrams. *)
Fixpoint rule4_loop (fuel : nat) : sock unit :=
  match fuel with
  | O => lift NoFuel
  | S fuel' =>
      c ← the_tcp;
      match cn_segments_out c with
      | [] => mret tt
      | seg :: rest =>
          _ ← on_adapter (adapter_write seg);
          _ ← on_tcp (fun c => Ok (cn_set_segments_out c (tail (cn_segments_out c))));
          rule4_loop fuel'
      end
  end.

(** Each pass takes one segment from the queue. *)
Definition rule4_callback : sock unit :=
  c ← the_tcp; rule4_loop (S (length (cn_segments_out c))).

Definition rule4_interest (s : TCPSpongeSocket) : bool :=
  match ss_tcp s with Some c => negb (is_empty (cn_segments_out c)) | None => false end.

(** The rules by name; they share the descriptors of the socket. *)
Inductive rule_id : Type := R1 | R2 | R3 | R4.

Definition socket_rule (t : rule_id) : Rule TCPSpongeSocket :=
  match t with
  | R1 => mkRule (fun s => adapter_fd (ss_datagram_adapter s)) Direction_In rule1_callback rule1_interest (mret tt)
  | R2 => mkRule ss_thread_data Direction_In rule2_callback rule2_interest end_outbound
  | R3 => mkRule ss_thread_data Direction_Out rule3_callback rule3_interest (mret tt)
  | R4 => mkRule (fun s => adapter_fd (ss_datagram_adapter s)) Direction_Out rule4_callback rule4_interest (mret tt)
  end.

(** ** The loop *)

(** The event loop's rules and the socket. *)
Abbreviation looped := (method (list (Rule TCPSpongeSocket) * TCPSpongeSocket)).

Definition on_socket {X} (m : sock X) : looped X := zoom snd (fun s l => (fst l, s)) m.

(** One pass of [_tcp_loop] after its test: [None] for [break], or the new [base_time]. *)
Definition tcp_loop_body (env : Env I) (base_time : Z) : looped (option Z) :=
  _ ← on_socket (modify (ss_set_env env));
  ret ← (fun l => wait_next_event (fun asked s => (en_poll (ss_env s) asked, s)) (fst l) (snd l));
  if (match ret with Exit => true | _ => false end) || en_abort env then mret None
  else
    c ← on_socket the_tcp;
    if cn_active c then
      let next_time := en_time env in
      _ ← on_socket (on_tcp (fun c => Ok (TCPConnection_tick c (next_time -64 base_time))));
      _ ← on_socket (on_adapter (adapter_tick (next_time -64 base_time)));
      mret (Some next_time)
    else mret (Some base_time).

(** [_tcp_loop]; [NoFuel] when it is still running after the given turns. *)
Fixpoint tcp_loop (condition : TCPSpongeSocket -> bool) (envs : list (Env I)) (base_time : Z) : looped unit :=
  continue ← on_socket (gets condition);
  if negb continue then mret tt
  else
    match envs with
    | [] => lift NoFuel
    | env :: envs' =>
        r ← tcp_loop_body env base_time;
        match r with
        | None => mret tt
        | Some base_time => tcp_loop condition envs' base_time
        end
    end.

(** [random] is the initial sequence number the sender draws. *)
Definition initialize_TCP (config : TCPConfig) (random : Z) : looped unit :=
  _ ← on_socket (modify (ss_set_tcp (Some (TCPConnection_new config random))));
  modify (fun l => (fold_left (fun rules t => add_rule (socket_rule t) rules) [R1; R2; R3; R4] (fst l), snd l)).

Definition set_adapter_config (c_ad : FdAdapterConfig) : sock unit :=
  modify (fun s =>
    let a := ss_datagram_adapter s in
    ss_set_adapter (adapter_set_base (mkFdAdapterBase c_ad (fb_listen (adapter_base a))) a) s).

Definition in_state (states : list State) (s : TCPSpongeSocket) : bool :=
  match ss_tcp s with
  | Some c => existsb (fun st => TCPState_eqb (TCPConnection_state c) (TCPState_of st)) states
  | None => false
  end.

(** [connect] up to the start of the TCP thread. *)
Definition TCPSpongeSocket_connect (c_tcp : TCPConfig) (c_ad : FdAdapterConfig) (random : Z)
    (envs : list (Env I)) (base_time : Z) : looped unit :=
  t ← on_socket (gets ss_tcp);
  if negb (is_none t) then lift (Throw (runtime_error "connect() with TCPConnection already initialized"))
  else
    _ ← initialize_TCP c_tcp random;
    _ ← on_socket (set_adapter_config c_ad);
    _ ← on_socket (on_tcp TCPConnection_connect);
    c ← on_socket the_tcp;
    if negb (TCPState_eqb (TCPConnection_state c) (TCPState_of SYN_SENT))
    then lift (Throw (runtime_error "After TCPConnection::connect(), state was not SYN_SENT"))
    else tcp_loop (in_state [SYN_SENT]) envs base_time.

Definition TCPSpongeSocket_listen_and_accept (c_tcp : TCPConfig) (c_ad : FdAdapterConfig) (random : Z)
    (envs : list (Env I)) (base_time : Z) : looped unit :=
  t ← on_socket (gets ss_tcp);
  if negb (is_none t) then lift (Throw (runtime_error "listen_and_accept() with TCPConnection already initialized"))
  else
    _ ← initialize_TCP c_tcp random;
    _ ← on_socket (set_adapter_config c_ad);
    _ ← on_socket (modify (fun s =>
          let a := ss_datagram_adapter s in
          ss_set_adapter (adapter_set_base (set_listening true (adapter_base a)) a) s));
    tcp_loop (in_state [LISTEN; SYN_RCVD; SYN_SENT]) envs base_time.

(** What the TCP thread does after its loop. [_tcp.reset()] runs the connection's destructor;
    what that leaves in [segments_out] is destroyed with the connection. *)
Definition tcp_finish : looped unit :=
  env ← on_socket (gets ss_env);
  _ ← on_socket (zoom ss_owner ss_set_owner (Socket_shutdown SHUT_RDWR (en_shutdown env)));
  _ ← on_socket (on_tcp (fun c => Ok (TCPConnection_destroy c)));
  on_socket (modify (ss_set_tcp None)).

(** The TCP thread. *)
Definition tcp_main (envs : list (Env I)) (base_time : Z) : looped unit :=
  t ← on_socket (gets ss_tcp);
  if is_none t then lift (Throw (runtime_error "no TCP"))
  else
    _ ← tcp_loop (fun _ => true) envs base_time;
    tcp_finish.

End Socket.
#[global] Arguments TCPSpongeSocket A I : clear implicits.

(** ** The ready-made sockets *)

(** [CS144TCPSocket::connect] and [FullStackSocket::connect]: the configurations they pass on. *)
Definition helper_tcp_config : TCPConfig := mkTCPConfig 100 DEFAULT_CAPACITY DEFAULT_CAPACITY None.

(** 169.254.144.9 and 169.254.10.9 *)
Definition CS144_local_ip : Z := 169 * 2 ^ 24 + 254 * 2 ^ 16 + 144 * 2 ^ 8 + 9.
Definition LOCAL_TAP_IP_ADDRESS : Z := 169 * 2 ^ 24 + 254 * 2 ^ 16 + 10 * 2 ^ 8 + 9.
Definition LOCAL_TAP_NEXT_HOP_ADDRESS : Z := 169 * 2 ^ 24 + 254 * 2 ^ 16 + 10 * 2 ^ 8 + 1.

Definition CS144TCPSocket_config (address : Address) (random : Z) : FdAdapterConfig :=
  mkFdAdapterConfig (inet CS144_local_ip (u16 random)) address 0 0.
Definition FullStackSocket_config (address : Address) (random : Z) : FdAdapterConfig :=
  mkFdAdapterConfig (inet LOCAL_TAP_IP_ADDRESS (u16 random)) address 0 0.

(** [random_private_ethernet_address]; [random] are the six values drawn. *)
Definition random_private_ethernet_address (random : list Z) : list Z :=
  match map u8 random with
  | b :: rest => u8 (Z.land (u8 (Z.lor b 2)) 254) :: rest
  | [] => []
  end.
