(* ===== verification/SocketLoop.v ===== *)
(** * The socket's thread follows the connection

    With a kernel that reports no errors, every turn of the socket's event loop returns
    normally and is a sequence of steps of the connection: the bytes taken from the owner
    are the bytes written, the bytes handed to the owner are the bytes read. Proved for any
    adapter that keeps [AdapterContract] and any receiver contract. *)

From stdpp Require Import sorting.
From S2P Require Import Prelude WrappingInts Buffers ByteStreams Reassembler Checksum Parser TCPSegments Receiver Sender Connection EndToEnd Emitted IPv4 Addresses Adapters FileDescriptors EventLoop Devices SpongeSocket.

Lemma end_input_stream_receiver c c' : TCPConnection_end_input_stream c = Ok c' -> cn_receiver c' = cn_receiver c.
Proof.
  intros E. apply bind_Ok_inv in E as (s & _ & [= <-]). unfold send_sender_segments. cbv zeta.
  set (c1 := if _ && _ then _ else _). assert (Hr : cn_receiver c1 = cn_receiver c) by (unfold c1; by destruct (_ && _)).
  rewrite flush_loop_eq. match goal with |- context [clean_shutdown ?x] => destruct (clean_shutdown_eq x) as (l & a & -> & _) end.
  done.
Qed.

(** Popping what was peeked is reading it. *)
Lemma read_is_peek_pop c n : TCPConnection_read c n
  = (c' ← pop_inbound c n; Ok (ByteStream_peek_output (TCPConnection_inbound_stream c) n, c')).
Proof.
  unfold TCPConnection_read, TCPReceiver_read, sr_read, pop_inbound, ByteStream_read, TCPConnection_inbound_stream, TCPReceiver_stream_out.
  by destruct (ByteStream_pop_output _ n).
Qed.

Section Loop.
Context {A I : Type} {FA : FdAdapter A I} {AC : AdapterContract FA}.
Context {Q : TCPReceiver -> bytes -> Prop} {P : TCPReceiver -> TCPSegment -> Prop} {RC : ReceiverContract Q P}.
Implicit Types (s : TCPSpongeSocket A I) (c : TCPConnection) (f : fifo).

Record sock_inv s c f : Prop := {
  si_tcp : ss_tcp s = Some c;
  si_conn : cn_inv Q c f (ss_to_owner s);
  si_hist : ff_hist f = ss_from_owner s;
  si_wire : cn_wire c;
  si_open : ss_outbound_shutdown s = false -> ff_ended f = false;
  si_adapter : ac_inv (sent_ok (sd_isn (cn_sender c)) (ff_hist f) (ff_ended f)) (ss_datagram_adapter s);
  si_fd : fd_ok (ss_thread_data s)
}.

(** From [s] to [s'] the connection made steps of its own. *)
Record moved s c f s' c' f' : Prop := {
  mv_inv : sock_inv s' c' f';
  mv_evolves : evolves f f';
  mv_isn : sd_isn (cn_sender c') = sd_isn (cn_sender c);
  mv_reach : reach (cn_step P) (c, ss_from_owner s, ss_to_owner s) (c', ss_from_owner s', ss_to_owner s');
  mv_env : ss_env s' = ss_env s
}.

Lemma evolves_refl f : evolves f f.
Proof. by apply evolves_same. Qed.

Lemma evolves_trans f g h : evolves f g -> evolves g h -> evolves f h.
Proof.
  intros [[x Hx] H1] [[y Hy] H2]. split; [|by intros isn t Ht; apply H2, H1].
  exists (x ++ y). by rewrite app_assoc, <- Hx, <- Hy.
Qed.

Lemma reach_trans {T} (step : T -> T -> Prop) a b d : reach step a b -> reach step b d -> reach step a d.
Proof. intros H1 H2. induction H2 as [|t u H2 IH Hs]; [done|]. by eapply reach_step. Qed.

Lemma reach_one {T} (step : T -> T -> Prop) a b : step a b -> reach step a b.
Proof. intros H. eapply reach_step; [apply reach_refl|done]. Qed.

Lemma moved_trans s c f s1 c1 f1 s2 c2 f2 : moved s c f s1 c1 f1 -> moved s1 c1 f1 s2 c2 f2 -> moved s c f s2 c2 f2.
Proof.
  intros [I1 E1 N1 R1 V1] [I2 E2 N2 R2 V2]. split; [done|by eapply evolves_trans|congruence|by eapply reach_trans|congruence].
Qed.

(** Only fields beside the connection changed. *)
Lemma moved_frame s c f s' : sock_inv s c f -> ss_tcp s' = ss_tcp s -> ss_env s' = ss_env s ->
  ss_from_owner s' = ss_from_owner s -> ss_to_owner s' = ss_to_owner s ->
  (ss_outbound_shutdown s' = false -> ss_outbound_shutdown s = false) ->
  ac_inv (sent_ok (sd_isn (cn_sender c)) (ff_hist f) (ff_ended f)) (ss_datagram_adapter s') ->
  fd_ok (ss_thread_data s') -> moved s c f s' c f.
Proof.
  intros [] Et Ee Ef Eo Eout Ha Hf. split; [|by apply evolves_refl|done|rewrite Ef, Eo; apply reach_refl|done].
  split; rewrite ?Et, ?Ef, ?Eo; auto.
Qed.

Lemma moved_refl s c f : sock_inv s c f -> moved s c f s c f.
Proof. intros H. apply moved_frame; try done; apply H. Qed.

(** One step of the connection. *)
Lemma moved_step s c f s' c' f' : sock_inv s c f ->
  cn_step P (c, ss_from_owner s, ss_to_owner s) (c', ss_from_owner s', ss_to_owner s') ->
  cn_inv Q c' f' (ss_to_owner s') -> ff_hist f' = ss_from_owner s' -> evolves f f' ->
  sd_isn (cn_sender c') = sd_isn (cn_sender c) -> (ss_outbound_shutdown s' = false -> ff_ended f' = false) ->
  ss_tcp s' = Some c' -> ss_datagram_adapter s' = ss_datagram_adapter s -> fd_ok (ss_thread_data s') ->
  ss_env s' = ss_env s -> moved s c f s' c' f'.
Proof.
  intros Hs Hstep Hi Hh Hev Hisn Ho Et Ea Hf Ee. split; [|done|done|by apply reach_one|done].
  split; try done.
  - by apply (cn_step_wire P _ _ Hstep), Hs.
  - rewrite Ea, Hisn. eapply ac_mono; [|apply Hs]. intros t. apply Hev.
Qed.

(** ** Running the pieces *)

Lemma the_tcp_ok s c f : sock_inv s c f -> the_tcp s = (Ok c, s).
Proof. intros H. unfold the_tcp. mrun. by rewrite (si_tcp _ _ _ H). Qed.

Lemma on_tcp_some s c op c' : ss_tcp s = Some c -> op c = Ok c' -> on_tcp op s = (Ok tt, ss_set_tcp (Some c') s).
Proof. intros H E. unfold on_tcp, the_tcp. unfold mbind, method_bind, gets, lift. rewrite H. cbn. by rewrite E. Qed.

Lemma on_tcp_ok s c f op c' : sock_inv s c f -> op c = Ok c' -> on_tcp op s = (Ok tt, ss_set_tcp (Some c') s).
Proof. intros H. apply on_tcp_some. apply H. Qed.

(** The end of the outbound stream. *)
Lemma end_outbound_ok s c f : sock_inv s c f -> exists s' c' f', end_outbound s = (Ok tt, s') /\
  moved s c f s' c' f' /\ cn_receiver c' = cn_receiver c /\ ss_datagram_adapter s' = ss_datagram_adapter s /\
  ss_from_owner s' = ss_from_owner s /\ ss_thread_data s' = ss_thread_data s.
Proof.
  intros Hs. destruct (end_input_stream_inv c f _ (si_conn _ _ _ Hs)) as (c' & m & E & Hi & Hn).
  exists (ss_set_outbound_shutdown true (ss_set_tcp (Some c') s)), c'. eexists.
  split; [|split; [|split; [by apply end_input_stream_receiver|done]]].
  - unfold end_outbound. erewrite run_bind by (eapply on_tcp_ok; [exact Hs|exact E]). reflexivity.
  - eapply moved_step; [exact Hs| |exact Hi|..]; try done.
    + by apply cn_step_end.
    + apply Hs.
    + apply evolves_end.
    + apply Hs.
Qed.

(** ** The callbacks

    A kernel that reports no errors, hands over no more than was asked for, and accepts at
    least a byte of what is written. *)
Record env_ok (e : Env I) : Prop := {
  eo_datagram : ac_datagram (en_datagram e);
  eo_read n : 0 <= n -> exists d, en_owner_read e n = inr d /\ zlen d <= n;
  eo_write b : exists n, en_owner_write e b = inr n /\ 0 <= n <= zlen b /\ (b <> [] -> 0 < n);
  eo_shutdown : en_shutdown e = 0;
  eo_poll asked : match en_poll e asked with
                  | poll_failed _ => True
                  | poll_ready revents => length revents = length asked /\
                      Forall (fun v => any_bit v (Z.lor POLLERR POLLNVAL) = false) revents
                  end
}.

(** The segment the adapter is about to deliver is one the receiver's contract covers. *)
Definition segment_welcome s : Prop := forall c seg a', ss_tcp s = Some c ->
  adapter_read (en_datagram (ss_env s)) (ss_datagram_adapter s) = (Ok (Some seg), a') -> P (cn_receiver c) seg.

Lemma rule1_ok s c f : sock_inv s c f -> env_ok (ss_env s) -> segment_welcome s ->
  exists s' c' f', rule1_callback s = (Ok tt, s') /\ moved s c f s' c' f' /\
    fd_read_count (adapter_fd (ss_datagram_adapter s')) = u32 (fd_read_count (adapter_fd (ss_datagram_adapter s)) + 1) /\
    ss_from_owner s' = ss_from_owner s /\ ss_outbound_shutdown s' = ss_outbound_shutdown s.
Proof.
  intros Hs He Hw. destruct (ac_read _ _ _ (si_adapter _ _ _ Hs) (eo_datagram _ He)) as (o & a' & Er & Ha & Hf & Ho).
  set (s1 := ss_set_adapter a' s).
  assert (M1 : moved s c f s1 c f) by (apply moved_frame; try done; apply Hs).
  assert (H2 : exists s2 c2 f2, (match o with
      | Some seg => on_tcp (fun c => TCPConnection_segment_received c seg)
      | None => mret tt
      end : method (TCPSpongeSocket A I) unit) s1 = (Ok tt, s2) /\ moved s c f s2 c2 f2 /\ ss_datagram_adapter s2 = a' /\
      ss_from_owner s2 = ss_from_owner s /\ ss_outbound_shutdown s2 = ss_outbound_shutdown s).
  { destruct o as [seg|]; [|by exists s1, c, f]. destruct Ho as [Ht _].
    assert (Hp : P (cn_receiver c) seg) by (by apply (Hw c seg a'); [apply Hs|]).
    assert (Hty : segment_typed seg) by (by destruct Ht).
    destruct (segment_inv c f _ seg (si_conn _ _ _ Hs) Hp Hty) as (c2 & f2 & E & Hh & Hen & Hi & Hn).
    exists (ss_set_tcp (Some c2) s1), c2, f2. split; [by eapply on_tcp_ok; [apply M1|]|]. split; [|done].
    eapply moved_trans; [exact M1|]. eapply moved_step; [apply M1| |exact Hi|..]; try done.
    - by apply cn_step_segment with seg.
    - rewrite Hh. apply Hs.
    - by apply evolves_same.
    - rewrite Hen. apply Hs.
    - apply Hs. }
  destruct H2 as (s2 & c2 & f2 & E2 & M2 & Ea & Ef & Eo).
  set (s3 := if fd_eof (ss_thread_data s2) && (TCPConnection_bytes_in_flight c2 =? 0) && negb (ss_fully_acked s2)
             then ss_set_fully_acked true s2 else s2).
  exists s3, c2, f2. split; [|split].
  - unfold rule1_callback. mrun. erewrite run_zoom by exact Er. fold s1. erewrite run_bind by exact E2.
    erewrite run_bind by (eapply the_tcp_ok; apply M2). done.
  - eapply moved_trans; [exact M2|]. unfold s3. destruct (_ && _); [|by apply moved_refl, M2].
    apply moved_frame; try done; apply M2.
  - unfold s3. by destruct (_ && _); simpl; rewrite Ea.
Qed.

Lemma rule2_ok s c f : sock_inv s c f -> env_ok (ss_env s) -> ss_outbound_shutdown s = false ->
  zlen (ss_from_owner s) + BUFFER_SIZE + 2 <= W31 ->
  exists s' c' f', rule2_callback s = (Ok tt, s') /\ moved s c f s' c' f' /\
    fd_read_count (ss_thread_data s') = u32 (fd_read_count (ss_thread_data s) + 1).
Proof.
  intros Hs He Hopen Hb. pose proof (si_conn _ _ _ Hs) as Hc. pose proof (di_stream _ _ (ci_sender _ _ _ Hc)) as Hst.
  pose proof (br_room _ _ Hst) as Hroom.
  assert (Hcap : TCPConnection_remaining_outbound_capacity c = fifo_room f) by by apply bs_remaining_spec.
  destruct (read_spec (fifo_room f) (en_owner_read (ss_env s)) (ss_thread_data s)) as (d & fd' & Er & Hd & Hfd).
  { unfold fifo_room. lia. }
  { apply He. }
  assert (Hacc : fifo_accepts f d = d) by (unfold fifo_accepts; apply ztake_all; lia).
  assert (Hended : ff_ended f = false) by by apply Hs.
  destruct (write_inv c f _ d Hc Hended) as (c1 & m & Ew & Hi & Hn); [rewrite (si_hist _ _ _ Hs); unfold BUFFER_SIZE in *; lia|].
  rewrite Hacc in Ew. set (s1 := ss_set_tcp (Some c1) (ss_log_from_owner d (ss_set_thread_data fd' s))).
  assert (M1 : moved s c f s1 c1 (fifo_adv (fifo_write f d) m)).
  { eapply moved_step; [exact Hs| |exact Hi|..]; try done.
    - unfold s1. cbn [ss_from_owner ss_to_owner ss_set_tcp ss_log_from_owner ss_set_thread_data].
      rewrite <- (ztake_all (zlen d) d) at 1 by lia. apply cn_step_write; [unfold ByteStream_input_ended; by rewrite (br_ended _ _ Hst)| |done].
      unfold BUFFER_SIZE in *. lia.
    - simpl. by rewrite Hacc, (si_hist _ _ _ Hs).
    - by apply (evolves_write f d).
    - unfold s1. simpl. rewrite Hfd. split; [apply u32_range|apply (si_fd _ _ _ Hs)]. }
  assert (Hrun : rule2_callback s = (if fd_eof fd' then end_outbound else mret tt) s1).
  { unfold rule2_callback. mrun. erewrite run_bind by (eapply the_tcp_ok; exact Hs). rewrite Hcap.
    erewrite run_zoom by exact Er. mrun. rewrite Ew. mrun. rewrite Z.eqb_refl. cbn [negb]. mrun. done. }
  destruct (fd_eof fd').
  - destruct (end_outbound_ok s1 c1 _ (mv_inv _ _ _ _ _ _ M1)) as (s2 & c2 & f2 & E2 & M2 & _ & _ & _ & Ht).
    exists s2, c2, f2. split; [by rewrite Hrun|]. split; [by eapply moved_trans|]. rewrite Ht. simpl. by rewrite Hfd.
  - exists s1, c1, (fifo_adv (fifo_write f d) m). split; [by rewrite Hrun|]. split; [exact M1|]. simpl. by rewrite Hfd.
Qed.

Lemma inbound_facts s c f : sock_inv s c f -> exists g, bs_repr (TCPConnection_inbound_stream c) g.
Proof. intros H. destruct (rc_sound _ _ (ci_recv _ _ _ (si_conn _ _ _ H))) as (g & M & R). exists g. apply R. Qed.

Lemma rule3_ok s c f : sock_inv s c f -> env_ok (ss_env s) ->
  exists s' c' f', rule3_callback s = (Ok tt, s') /\ moved s c f s' c' f' /\
    fd_write_count (ss_thread_data s') <> fd_write_count (ss_thread_data s).
Proof.
  intros Hs He. destruct (inbound_facts s c f Hs) as [g Rg]. pose proof (bs_buffer_size_spec _ _ Rg) as Hsize.
  set (amount := Z.min 65536 (ByteStream_buffer_size (TCPConnection_inbound_stream c))).
  set (buffer := ByteStream_peek_output (TCPConnection_inbound_stream c) amount).
  assert (Hamount : 0 <= amount <= zlen (fifo_pending g)) by (unfold amount; rewrite Hsize; zlia).
  assert (Hbuf : buffer = ztake amount (fifo_pending g)) by (apply (bs_peek_spec _ _ Rg); lia).
  assert (Hblen : zlen buffer = amount) by (rewrite Hbuf; by apply zlen_ztake).
  destruct (eo_write _ He buffer) as (n & En & Hn & Hpos).
  destruct (read_result c f _ n (si_conn _ _ _ Hs)) as (b & c1 & E1 & Hi & Hisn); [lia|].
  rewrite read_is_peek_pop in E1. apply bind_Ok_inv in E1 as (c1' & Epop & E1). injection E1 as Eb ->.
  assert (Hb : b = ztake n buffer).
  { rewrite <- Eb, Hbuf, (bs_peek_spec _ _ Rg) by lia. unfold ztake. rewrite take_take. f_equal. lia. }
  set (fd1 := register_write (ss_thread_data s)).
  set (s1 := ss_set_tcp (Some c1) (ss_log_to_owner (ztake n buffer) (ss_set_thread_data fd1 s))).
  assert (Hfd1 : fd_ok fd1) by (split; [apply (si_fd _ _ _ Hs)|apply u32_range]).
  assert (M1 : moved s c f s1 c1 f).
  { eapply moved_step; [exact Hs|..]; try done; try apply Hs; try (by apply evolves_refl).
    - unfold s1. simpl. rewrite <- Hb. apply cn_step_read with n; [lia|]. by rewrite read_is_peek_pop, Epop, <- Eb.
    - unfold s1. simpl. by rewrite <- Hb. }
  pose proof (mv_inv _ _ _ _ _ _ M1) as I1.
  assert (Hrun : rule3_callback s =
    (if ByteStream_eof (TCPConnection_inbound_stream c1) || ByteStream_error (TCPConnection_inbound_stream c1)
     then _ ← zoom ss_thread_data ss_set_thread_data (Socket_shutdown SHUT_WR (en_shutdown (ss_env s)));
          modify (ss_set_inbound_shutdown true)
     else mret tt) s1).
  { unfold rule3_callback. mrun. erewrite run_bind by (eapply the_tcp_ok; exact Hs). fold amount. fold buffer. rewrite En.
    erewrite run_zoom by (apply write_once_spec; [lia|done|unfold amount in *; lia]). fold fd1. mrun.
    erewrite run_bind by (by apply on_tcp_some with c; [apply Hs|]).
    change (ss_set_tcp (Some c1) _) with s1. by erewrite run_bind by (eapply the_tcp_ok; exact I1). }
  pose proof (si_fd _ _ _ Hs) as [_ Hwc].
  destruct (_ || _).
  - set (s2 := ss_set_inbound_shutdown true (ss_set_thread_data (register_write fd1) s1)).
    exists s2, c1, f. split; [|split].
    + rewrite Hrun, (eo_shutdown _ He). done.
    + eapply moved_trans; [exact M1|]. apply moved_frame; try done; [apply I1|]. split; [apply Hfd1|apply u32_range].
    + simpl. by apply register_changes_twice.
  - exists s1, c1, f. split; [done|]. split; [done|]. simpl. by apply register_changes.
Qed.

Lemma rule4_loop_ok segs : forall s c f, sock_inv s c f -> cn_segments_out c = segs ->
  exists s' c', rule4_loop (S (length segs)) s = (Ok tt, s') /\ moved s c f s' c' f /\ cn_segments_out c' = [].
Proof.
  induction segs as [|seg rest IH]; intros s c f Hs Eo; cbn [rule4_loop length].
  - exists s, c. split; [|split; [by apply moved_refl|done]].
    erewrite run_bind by (eapply the_tcp_ok; exact Hs). by rewrite Eo.
  - pose proof (ci_out _ _ _ (si_conn _ _ _ Hs)) as Hout. pose proof (cw_out _ (si_wire _ _ _ Hs)) as Hwire.
    rewrite Eo in Hout, Hwire. apply Forall_cons in Hout as [Hsent _]. apply Forall_cons in Hwire as [Hw _].
    destruct (ac_write _ _ seg (si_adapter _ _ _ Hs) Hw Hsent) as (a' & Ew & Ha').
    set (s1 := ss_set_adapter a' s). assert (M1 : moved s c f s1 c f) by (apply moved_frame; try done; apply Hs).
    pose proof (mv_inv _ _ _ _ _ _ M1) as I1. set (c2 := cn_set_segments_out c rest). set (s2 := ss_set_tcp (Some c2) s1).
    assert (M2 : moved s1 c f s2 c2 f).
    { pose proof (cn_step_pop P c (ss_from_owner s1) (ss_to_owner s1) [seg] rest Eo) as Hstep.
      eapply moved_step; [exact I1|exact Hstep|..]; try done; try apply I1; try (by apply evolves_refl).
      destruct (si_conn _ _ _ I1) as [? ? ? ? Ho ? ?]. split; try done. simpl. rewrite Eo in Ho. by apply Forall_cons in Ho as [_ ?]. }
    destruct (IH s2 c2 f (mv_inv _ _ _ _ _ _ M2) eq_refl) as (s3 & c3 & E3 & M3 & Hnil).
    exists s3, c3. split; [|split; [|done]].
    + erewrite run_bind by (eapply the_tcp_ok; exact Hs). rewrite Eo. erewrite run_zoom by exact Ew. fold s1.
      erewrite run_bind by (eapply on_tcp_ok; [exact I1|reflexivity]). rewrite Eo. exact E3.
    + eapply moved_trans; [exact M1|]. by eapply moved_trans.
Qed.

Lemma rule4_ok s c f : sock_inv s c f ->
  exists s' c', rule4_callback s = (Ok tt, s') /\ moved s c f s' c' f /\ rule4_interest s' = false.
Proof.
  intros Hs. destruct (rule4_loop_ok (cn_segments_out c) s c f Hs eq_refl) as (s' & c' & E & M & Hnil).
  exists s', c'. split; [|split; [done|]].
  - unfold rule4_callback. erewrite run_bind by (eapply the_tcp_ok; exact Hs). exact E.
  - unfold rule4_interest. by rewrite (si_tcp _ _ _ (mv_inv _ _ _ _ _ _ M)), Hnil.
Qed.

(** ** One turn of the event loop *)

Definition rank (t : rule_id) : Z := match t with R1 => 1 | R2 => 2 | R3 => 3 | R4 => 4 end.
Definition before (t t' : rule_id) : Prop := rank t < rank t'.

(** Room for the bytes of one more read in the 32-bit sequence space. *)
Definition owner_room s : Prop := zlen (ss_from_owner s) + BUFFER_SIZE + 2 <= W31.

Section Turn.
Context (e : Env I) (He : env_ok e).

Definition turn_inv s : Prop := ss_env s = e /\ exists c f, sock_inv s c f.
Definition turn_start s : Prop := turn_inv s /\ segment_welcome s /\ owner_room s.
Definition turn_moves s s' : Prop := forall c f, sock_inv s c f -> exists c' f', moved s c f s' c' f'.
Definition enabled (t : rule_id) s : Prop :=
  match t with
  | R1 => segment_welcome s
  | R2 => ss_outbound_shutdown s = false /\ owner_room s
  | _ => True
  end.

Lemma turn_moves_refl s : turn_moves s s.
Proof. intros c f H. exists c, f. by apply moved_refl. Qed.

Lemma turn_moves_trans s1 s2 s3 : turn_moves s1 s2 -> turn_moves s2 s3 -> turn_moves s1 s3.
Proof.
  intros H1 H2 c f H. destruct (H1 c f H) as (c1 & f1 & M1). destruct (H2 c1 f1 (mv_inv _ _ _ _ _ _ M1)) as (c2 & f2 & M2).
  exists c2, f2. by eapply moved_trans.
Qed.

(** A callback that moves the socket, whatever the invariant's witnesses are. *)
Lemma deterministic_move (m : method (TCPSpongeSocket A I) unit) (Post : TCPSpongeSocket A I -> Prop) s : turn_inv s ->
  (forall c f, sock_inv s c f -> exists s' c' f', m s = (Ok tt, s') /\ moved s c f s' c' f' /\ Post s') ->
  exists s', m s = (Ok tt, s') /\ turn_inv s' /\ turn_moves s s' /\ Post s'.
Proof.
  intros [Ee (c & f & Hs)] H. destruct (H c f Hs) as (s' & c' & f' & E & M & HP). exists s'. split; [done|].
  split; [split; [rewrite (mv_env _ _ _ _ _ _ M); done|exists c', f'; apply M]|]. split; [|done].
  intros c2 f2 H2. destruct (H c2 f2 H2) as (s2 & c3 & f3 & E2 & M2 & _). rewrite E in E2. injection E2 as <-.
  by exists c3, f3.
Qed.

Lemma callbacks_cooperate t s : turn_inv s -> enabled t s ->
  exists s', ru_callback (socket_rule t) s = (Ok tt, s') /\ turn_inv s' /\ turn_moves s s' /\
    (service_count (socket_rule t) s =? service_count (socket_rule t) s') && ru_interest (socket_rule t) s' = false /\
    forall t', before t t' -> enabled t' s -> enabled t' s'.
Proof.
  intros Hi Hen. pose proof Hi as [Ee _]. destruct t; cbn [socket_rule ru_callback service_count ru_direction ru_fd ru_interest].
  - apply deterministic_move; [done|]. intros c f Hs.
    destruct (rule1_ok s c f Hs) as (s' & c' & f' & E & M & Hc & Hf & Ho); [by rewrite Ee|done|].
    exists s', c', f'. split; [done|]. split; [done|]. split.
    + rewrite Hc, (proj2 (Z.eqb_neq _ _)); [done|]. intros Hx. by apply (register_changes (fd_read_count (adapter_fd (ss_datagram_adapter s)))); [apply (ac_fd _ _ (si_adapter _ _ _ Hs))|].
    + intros [| | |] Hb; try done. cbn [enabled]. unfold owner_room. by rewrite Hf, Ho.
  - apply deterministic_move; [done|]. intros c f Hs. destruct Hen as [Hout Hroom].
    destruct (rule2_ok s c f Hs) as (s' & c' & f' & E & M & Hc); [by rewrite Ee|done|done|].
    exists s', c', f'. split; [done|]. split; [done|]. split.
    + rewrite Hc, (proj2 (Z.eqb_neq _ _)); [done|]. intros Hx. by apply (register_changes (fd_read_count (ss_thread_data s))); [apply (si_fd _ _ _ Hs)|].
    + intros [| | |] Hb; done.
  - apply deterministic_move; [done|]. intros c f Hs.
    destruct (rule3_ok s c f Hs) as (s' & c' & f' & E & M & Hc); [by rewrite Ee|].
    exists s', c', f'. split; [done|]. split; [done|]. split; [|by intros [| | |] Hb].
    by rewrite (proj2 (Z.eqb_neq _ _)) by done.
  - apply deterministic_move; [done|]. intros c f Hs. destruct (rule4_ok s c f Hs) as (s' & c' & E & M & Hn).
    exists s', c', f. split; [done|]. split; [done|]. split; [by rewrite Hn, andb_false_r|by intros [| | |] Hb].
Qed.

Lemma cancels_cooperate t s : turn_inv s ->
  exists s', ru_cancel (socket_rule t) s = (Ok tt, s') /\ turn_inv s' /\ turn_moves s s' /\
    (turn_start s -> turn_start s') /\ forall t', before t' t \/ before t t' -> enabled t' s -> enabled t' s'.
Proof.
  intros Hi. assert (Hsame : exists s', (Ok tt, s) = (Ok tt, s') /\ turn_inv s' /\ turn_moves s s' /\
    (turn_start s -> turn_start s') /\ forall t', before t' t \/ before t t' -> enabled t' s -> enabled t' s').
  { exists s. split; [done|]. split; [done|]. split; [apply turn_moves_refl|done]. }
  destruct t; try exact Hsame. cbn [socket_rule ru_cancel].
  destruct (deterministic_move end_outbound (fun s' => ss_datagram_adapter s' = ss_datagram_adapter s /\
    ss_from_owner s' = ss_from_owner s /\ (segment_welcome s -> segment_welcome s')) s Hi) as (s' & E & Hi' & HR & Ha & Hf & Hw).
  { intros c f Hs. destruct (end_outbound_ok s c f Hs) as (s' & c' & f' & E & M & Hr & Ha & Hf & _).
    exists s', c', f'. split; [done|]. split; [done|]. split; [done|]. split; [done|].
    intros Hw c2 seg a2 Et Er. rewrite (si_tcp _ _ _ (mv_inv _ _ _ _ _ _ M)) in Et. injection Et as <-. rewrite Hr.
    apply (Hw c seg a2); [apply Hs|]. by rewrite <- Ha, <- (mv_env _ _ _ _ _ _ M). }
  exists s'. split; [done|]. split; [done|]. split; [done|]. split.
  - intros (_ & H1 & H2). split; [done|]. split; [by apply Hw|]. unfold owner_room. by rewrite Hf.
  - intros [| | |] Hb; try done. unfold before in Hb. simpl in Hb. lia.
Qed.

Lemma turn_ok ids s c f : sock_inv (ss_set_env e s) c f -> segment_welcome (ss_set_env e s) -> owner_room s ->
  StronglySorted before ids ->
  exists ret ids' s' c' f',
    wait_next_event (fun asked s => (en_poll (ss_env s) asked, s)) (map socket_rule ids) (ss_set_env e s)
      = (Ok ret, (map socket_rule ids', s')) /\ ids' `sublist_of` ids /\ moved (ss_set_env e s) c f s' c' f'.
Proof.
  intros Hs Hw Hroom Hids.
  destruct (wait_cooperates socket_rule before turn_inv turn_start turn_moves enabled turn_moves_refl turn_moves_trans)
    with (poll := fun asked (s0 : TCPSpongeSocket A I) => (en_poll (ss_env s0) asked, s0)) (ids := ids) (w := ss_set_env e s)
    as (ret & ids' & s' & E & Hi & HR & Hsub).
  - by intros s0 [? _].
  - intros t s0 (Hi0 & H1 & H2) Hint. destruct t; try done. split; [|done]. simpl in Hint. unfold rule2_interest in Hint.
    destruct (ss_tcp s0); [|done]. by destruct (cn_active _), (ss_outbound_shutdown s0).
  - apply cancels_cooperate.
  - apply callbacks_cooperate.
  - split; [split; [done|by exists c, f]|]. by split.
  - done.
  - intros asked s0 [-> _]. exists (en_poll e asked). split; [done|apply (eo_poll _ He)].
  - destruct (HR c f Hs) as (c' & f' & M). by exists ret, ids', s', c', f'.
Qed.
End Turn.

(** ** One pass of [_tcp_loop] *)

(** The environment of the next turn: an honest kernel, an elapsed time the adapter can take,
    a welcome segment, and room in the sequence space. *)
Record turn_ready (e : Env I) (base_time : Z) s : Prop := {
  tr_env : env_ok e;
  tr_elapsed : ac_elapsed (en_time e -64 base_time);
  tr_welcome : segment_welcome (ss_set_env e s);
  tr_room : owner_room s
}.

Lemma sock_inv_env s c f e : sock_inv s c f -> sock_inv (ss_set_env e s) c f.
Proof. intros []. by split. Qed.

Lemma body_ok ids s c f e base_time : sock_inv s c f -> turn_ready e base_time s -> StronglySorted before ids ->
  exists o ids' s' c' f', tcp_loop_body e base_time (map socket_rule ids, s) = (Ok o, (map socket_rule ids', s')) /\
    ids' `sublist_of` ids /\ moved (ss_set_env e s) c f s' c' f'.
Proof.
  intros Hs [He Hel Hw Hroom] Hids.
  destruct (turn_ok e He ids s c f (sock_inv_env s c f e Hs) Hw Hroom Hids) as (ret & ids1 & s1 & c1 & f1 & E1 & Hsub & M1).
  pose proof (mv_inv _ _ _ _ _ _ M1) as I1. unfold tcp_loop_body, on_socket. erewrite run_zoom by reflexivity. cbn [fst].
  erewrite run_bind by exact E1. destruct (_ || en_abort e); [by exists None, ids1, s1, c1, f1|].
  erewrite run_zoom by (eapply the_tcp_ok; exact I1). cbn [fst].
  destruct (cn_active c1); [|by exists (Some base_time), ids1, s1, c1, f1].
  destruct (connection_tick_inv c1 f1 _ (en_time e -64 base_time) (si_conn _ _ _ I1)) as (f2 & Hh & Hen & Hi & Hn).
  set (c2 := TCPConnection_tick c1 (en_time e -64 base_time)) in *. set (s2 := ss_set_tcp (Some c2) s1).
  assert (M2 : moved s1 c1 f1 s2 c2 f2).
  { eapply moved_step; [exact I1| |exact Hi|..]; try done.
    - apply cn_step_tick. apply u64_range.
    - rewrite Hh. apply I1.
    - by apply evolves_same.
    - rewrite Hen. apply I1.
    - apply I1. }
  destruct (ac_tick _ _ _ (si_adapter _ _ _ (mv_inv _ _ _ _ _ _ M2)) Hel) as (a' & Ea & Ha).
  set (s3 := ss_set_adapter a' s2).
  exists (Some (en_time e)), ids1, s3, c2, f2. split; [|split; [done|]].
  - erewrite run_zoom by (eapply on_tcp_ok; [exact I1|reflexivity]). cbn [fst]. fold c2. fold s2.
    erewrite run_zoom by (by eapply zoom_eq; exact Ea). reflexivity.
  - eapply moved_trans; [exact M1|]. eapply moved_trans; [exact M2|].
    apply moved_frame; try done; apply (mv_inv _ _ _ _ _ _ M2).
Qed.
End Loop.

#[global] Arguments sock_inv {A I FA AC} Q s c f.
#[global] Arguments moved {A I FA AC} Q P s c f s' c' f'.
#[global] Arguments segment_welcome {A I FA} P s.
#[global] Arguments turn_ready {A I FA AC} P e base_time s.

Lemma sock_weaken {A I} {FA : FdAdapter A I} {AC : AdapterContract FA} (Q Q' : TCPReceiver -> bytes -> Prop)
    (s : TCPSpongeSocket A I) c f :
  (forall r d, Q r d -> Q' r d) -> sock_inv Q s c f -> sock_inv Q' s c f.
Proof. intros HQ []. split; try done. eapply cn_inv_weaken; [|done]. intros r. apply HQ. Qed.

(** A socket after [_initialize_TCP]. *)
Definition opened {A I} {FA : FdAdapter A I} (cfg : TCPConfig) (random : Z) (a : A) (env : Env I) : TCPSpongeSocket A I :=
  ss_set_tcp (Some (TCPConnection_new cfg random)) (TCPSpongeSocket_new a env).

Lemma sock_inv_new {A I} {FA : FdAdapter A I} {AC : AdapterContract FA} (Q : TCPReceiver -> bytes -> Prop) cfg random (a : A) (env : Env I) :
  cfg_ok cfg -> Q (TCPReceiver_new (cfg_recv_capacity cfg)) [] -> ac_inv (fun _ => False) a ->
  sock_inv Q (opened cfg random a env) (TCPConnection_new cfg random) (mkFifo [] 0 (cfg_send_capacity cfg) false false).
Proof.
  intros Hok HQ Ha. split; try done.
  - destruct Hok. by apply cn_inv_new.
  - by apply cn_wire_new.
  - by eapply ac_mono; [|exact Ha].
Qed.

Lemma all_rules_sorted : StronglySorted before [R1; R2; R3; R4].
Proof. repeat (constructor; [|repeat constructor]). constructor. Qed.

Lemma initialize_eq {A I} {FA : FdAdapter A I} cfg random (rules : list (Rule (TCPSpongeSocket A I))) s :
  initialize_TCP cfg random (rules, s)
  = (Ok tt, (rules ++ map socket_rule [R1; R2; R3; R4], ss_set_tcp (Some (TCPConnection_new cfg random)) s)).
Proof. unfold initialize_TCP, on_socket. erewrite run_zoom by reflexivity. unfold modify, add_rule. cbn [fold_left fst snd map]. by rewrite <- !app_assoc. Qed.

(** ** A demonstration kernel *)

Abbreviation demo_socket := (TCPSpongeSocket TCPOverIPv4OverTunFdAdapter (Z + bytes)).
Abbreviation demo_loop := (list (Rule demo_socket) * demo_socket)%type.

#[export] Instance demo_FA : FdAdapter TCPOverIPv4OverTunFdAdapter (Z + bytes) := TunFdAdapter whole_writev.
#[export] Instance demo_AC : AdapterContract demo_FA := tun_contract whole_writev whole_writev_accepts.
#[export] Instance demo_WC : WireContract demo_AC := tun_wire_contract whole_writev whole_writev_accepts.

(** Readable: a datagram, the owner's data; everything is writable. *)
Definition demo_env (datagram : option bytes) (data : bytes) (time : Z) : Env (Z + bytes) :=
  mkEnv (fun asked =>
      poll_ready match asked with
                 | r1 :: r2 :: rest => (if is_none datagram then 0 else Z.land r1 POLLIN) ::
                     (if is_empty data then 0 else Z.land r2 POLLIN) :: map (fun r => Z.land r POLLOUT) rest
                 | _ => map (fun _ => 0) asked
                 end)
    (inr (default [] datagram)) (fun n => inr (ztake n data)) (fun b => inr (zlen b)) 0 false time.

Definition demo_client_tun : TCPOverIPv4OverTunFdAdapter := mkTun demo_client (mkDevice FDWrapper_new []).
Definition demo_server_tun : TCPOverIPv4OverTunFdAdapter := mkTun demo_server (mkDevice FDWrapper_new []).

Lemma no_error_bits r m : Z.land m 40 = 0 -> any_bit (Z.land r m) (Z.lor POLLERR POLLNVAL) = false.
Proof. intros H. unfold any_bit. change (Z.lor POLLERR POLLNVAL) with 40. by rewrite <- Z.land_assoc, H, Z.land_0_r. Qed.

Lemma demo_env_ok data time : env_ok (demo_env None data time).
Proof.
  split; cbn.
  - exists []. by split.
  - intros n Hn. exists (ztake n data). split; [done|]. rewrite zlen_ztake_min by done. lia.
  - intros b. exists (zlen b). split; [done|]. split; [zlia|]. destruct b; [done|]. rewrite zlen_cons. zlia.
  - done.
  - intros asked. destruct asked as [|r1 [|r2 rest]]; cbn; [done|split; [done|by apply Forall_singleton]|].
    split; [by rewrite length_map|]. constructor; [done|]. constructor; [destruct (is_empty data); [done|by apply no_error_bits]|].
    apply Forall_map. apply Forall_forall. intros r _. by apply no_error_bits.
Qed.

Lemma demo_client_tun_fresh : ac_inv (fun _ => False) demo_client_tun.
Proof. split; [exists 167772161, 1234, 167772162, 80; split; [split; reflexivity|lia]|cbn; lia|constructor]. Qed.

Lemma demo_server_tun_fresh : ac_inv (fun _ => False) demo_server_tun.
Proof. split; [exists 0, 80, 0, 0; split; [split; reflexivity|lia]|cbn; lia|constructor]. Qed.

(** Nothing comes out of a silent device. *)
Lemma demo_silent (s : demo_socket) data time seg a' :
  adapter_read (en_datagram (demo_env None data time)) (ss_datagram_adapter s) = (Ok (Some seg), a') -> False.
Proof.
  intros E. cbn in E. unfold TunFdAdapter_read in E. apply run_bind_inv in E as (str & s1 & E1 & E2).
  unfold zoom in E1. destruct (Device_read (inr []) (tn_tun (ss_datagram_adapter s))) as [r1 d1] eqn:Ed.
  injection E1 as -> <-. unfold Device_read, zoom in Ed. cbn in Ed. injection Ed as <- _.
  unfold zoom in E2. by destruct (tn_base _).
Qed.

(** ** Theorems *)

(** C6: the socket's thread only does what its connection does: for any adapter and any
    receiver within their contracts, one pass of [_tcp_loop] (the event loop's turn with
    whatever rules are left, then the timers) under a kernel without errors returns
    normally, keeps the invariant, loses no rule but by cancelling it, and is a sequence
    of steps of the connection in which the bytes read from the owner are written and the
    bytes handed to the owner are read; everything the adapter ever sent are segments of
    the owner's stream. *)
Theorem socket_turn_follows_connection {A I} {FA : FdAdapter A I} {AC : AdapterContract FA}
    (Q : TCPReceiver -> bytes -> Prop) (P : TCPReceiver -> TCPSegment -> Prop) (RC : ReceiverContract Q P)
    ids (s : TCPSpongeSocket A I) c f e base_time :
  sock_inv Q s c f -> turn_ready P e base_time s -> StronglySorted before ids ->
  exists o ids' s' c' f', tcp_loop_body e base_time (map socket_rule ids, s) = (Ok o, (map socket_rule ids', s')) /\
    ids' `sublist_of` ids /\ sock_inv Q s' c' f' /\
    reach (cn_step P) (c, ss_from_owner s, ss_to_owner s) (c', ss_from_owner s', ss_to_owner s').
Proof.
  intros Hs Hr Hids. destruct (body_ok ids s c f e base_time Hs Hr Hids) as (o & ids' & s' & c' & f' & E & Hsub & M).
  exists o, ids', s', c', f'. split; [done|]. split; [done|]. split; [apply M|]. exact (mv_reach _ _ _ _ _ _ M).
Qed.

(** [connect] on a fresh socket installs the four rules and the adapter's configuration,
    queues exactly one segment, the SYN with the initial sequence number, and enters
    the loop in state SYN_SENT without its "state was not SYN_SENT" error; on a socket
    that already has a connection it throws and changes nothing. *)
Theorem socket_connect_starts_handshake {A I} {FA : FdAdapter A I} cfg c_ad random (a : A) (env : Env I) envs base_time :
  cfg_ok cfg ->
  (exists s c, TCPSpongeSocket_connect cfg c_ad random envs base_time ([], TCPSpongeSocket_new a env)
     = tcp_loop (in_state [SYN_SENT]) envs base_time (map socket_rule [R1; R2; R3; R4], s) /\
     ss_tcp s = Some c /\ cn_segments_out c = [syn_of (isn_of cfg random)] /\ in_state [SYN_SENT] s = true /\
     ss_datagram_adapter s = adapter_set_base (mkFdAdapterBase c_ad (fb_listen (adapter_base a))) a) /\
  (forall rules (s : TCPSpongeSocket A I) c, ss_tcp s = Some c ->
     TCPSpongeSocket_connect cfg c_ad random envs base_time (rules, s)
     = (Throw (runtime_error "connect() with TCPConnection already initialized"), (rules, s))).
Proof.
  intros Hcfg. split.
  - set (c1 := opening cfg random (TCPReceiver_new (cfg_recv_capacity cfg)) [syn_of (isn_of cfg random)]).
    set (s1 := ss_set_tcp (Some c1) (ss_set_adapter (adapter_set_base (mkFdAdapterBase c_ad (fb_listen (adapter_base a))) a)
      (TCPSpongeSocket_new a env))).
    exists s1, c1. split; [|split; [done|split; [done|split; [|done]]]]; [|by unfold in_state; cbn].
    assert (E : TCPConnection_connect (TCPConnection_new cfg random) = Ok c1) by done.
    unfold TCPSpongeSocket_connect, on_socket. erewrite run_zoom by reflexivity. cbn [snd TCPSpongeSocket_new ss_tcp is_none negb fst].
    erewrite run_bind by apply initialize_eq. erewrite run_zoom by reflexivity.
    erewrite run_zoom by (apply on_tcp_some with (TCPConnection_new cfg random); [done|exact E]).
    erewrite run_zoom by reflexivity. cbn [fst snd].
    assert (TCPState_eqb (TCPConnection_state c1) (TCPState_of SYN_SENT) = true) as -> by done. done.
  - intros rules s c Hs. unfold TCPSpongeSocket_connect, on_socket. erewrite run_zoom by reflexivity. cbn [snd].
    rewrite Hs. done.
Qed.

(** the destructor's RST is never sent: when the owner aborts the thread, [_tcp_main]
    ends with the adapter as the last turn of the event loop left it; the connection,
    if still active, queues one RST segment in its destructor, and the queue is
    destroyed with it. *)
Theorem aborted_socket_sends_no_reset {A I} {FA : FdAdapter A I} (e : Env I) base_time rules (s : TCPSpongeSocket A I) ret rules' s' c c' :
  en_abort e = true -> en_shutdown e = 0 -> ss_tcp s = Some c -> ss_env s' = e -> ss_tcp s' = Some c' -> cn_active c' = true ->
  wait_next_event (fun asked s => (en_poll (ss_env s) asked, s)) rules (ss_set_env e s) = (Ok ret, (rules', s')) ->
  (exists s'', tcp_main [e] base_time (rules, s) = (Ok tt, (rules', s'')) /\
     ss_datagram_adapter s'' = ss_datagram_adapter s' /\ ss_tcp s'' = None) /\
  exists seg rest, cn_segments_out (TCPConnection_destroy c') = cn_segments_out c' ++ seg :: rest /\
    th_rst (ts_header seg) = true.
Proof.
  intros Hab Hsh Hc Hen Hc' Hact Hw. split.
  - set (s2 := ss_set_owner (register_write (register_read (ss_owner s'))) s').
    exists (ss_set_tcp None (ss_set_tcp (Some (TCPConnection_destroy c')) s2)). split; [|done].
    unfold tcp_main, on_socket. erewrite run_zoom by reflexivity. cbn [snd fst]. rewrite Hc. cbn [is_none].
    assert (Hb : tcp_loop_body e base_time (rules, s) = (Ok None, (rules', s'))).
    { unfold tcp_loop_body, on_socket. erewrite run_zoom by reflexivity. cbn [fst snd].
      erewrite run_bind by exact Hw. by rewrite Hab, orb_true_r. }
    assert (Hl : tcp_loop (fun _ => true) [e] base_time (rules, s) = (Ok tt, (rules', s'))).
    { cbn [tcp_loop]. unfold on_socket. erewrite run_zoom by reflexivity. cbn [negb fst snd].
      by erewrite run_bind by exact Hb. }
    erewrite run_bind by exact Hl. unfold tcp_finish, on_socket.
    erewrite run_zoom by reflexivity. cbn [fst snd]. rewrite Hen, Hsh.
    erewrite run_zoom by (eapply zoom_eq; reflexivity). cbn [fst snd].
    erewrite run_zoom by (apply on_tcp_some with c'; [exact Hc'|reflexivity]). done.
  - unfold TCPConnection_destroy. rewrite Hact. destruct (unclean_rst c') as (seg & rest & E & Hr & _). by exists seg, rest.
Qed.

(** *** Witnesses *)

Abbreviation demo_opened := (opened demo_cfg 0 demo_client_tun (demo_env None [] 0)).

Lemma demo_sock_inv : sock_inv rv_sound demo_opened (TCPConnection_new demo_cfg 0) (mkFifo [] 0 64000 false false).
Proof. apply sock_inv_new; [apply demo_cfg_ok|by apply rv_sound_new|apply demo_client_tun_fresh]. Qed.

Lemma demo_turn_ready data : turn_ready any_segment (demo_env None data 1) 0 demo_opened.
Proof. split; [apply demo_env_ok|done| |done]. intros c seg a' _ E. exfalso. exact (demo_silent demo_opened data 1 seg a' E). Qed.

Lemma socket_turn_follows_connection_witness : exists o ids' s',
  tcp_loop_body (demo_env None [byte_of 104] 1) 0 (map socket_rule [R1; R2; R3; R4], demo_opened)
  = (Ok o, (map socket_rule ids', s')).
Proof.
  destruct (socket_turn_follows_connection rv_sound any_segment receiver_sound_contract [R1; R2; R3; R4] demo_opened
    (TCPConnection_new demo_cfg 0) (mkFifo [] 0 64000 false false) (demo_env None [byte_of 104] 1) 0)
    as (o & ids' & s' & c' & f' & E & _).
  - apply demo_sock_inv.
  - apply demo_turn_ready.
  - apply all_rules_sorted.
  - exists o, ids', s'. exact E.
Defined.

Lemma socket_connect_starts_handshake_witness : exists s c,
  TCPSpongeSocket_connect demo_cfg (fb_cfg demo_client) 0 [] 0 ([], TCPSpongeSocket_new demo_client_tun (demo_env None [] 0))
    = tcp_loop (in_state [SYN_SENT]) [] 0 (map socket_rule [R1; R2; R3; R4], s) /\
  ss_tcp s = Some c /\ cn_segments_out c = [syn_of demo_isn].
Proof.
  destruct (socket_connect_starts_handshake demo_cfg (fb_cfg demo_client) 0 demo_client_tun (demo_env None [] 0) [] 0)
    as [(s & c & E & Hc & Ho & _) _]; [apply demo_cfg_ok|].
  exists s, c. split; [exact E|]. split; [exact Hc|exact Ho].
Defined.

(** The owner aborts; nothing was readable or asked for. *)
Definition demo_abort_env : Env (Z + bytes) :=
  mkEnv (fun asked => poll_ready (map (fun _ => 0) asked)) (inr []) (fun _ => inr []) (fun b => inr (zlen b)) 0 true 1.

Lemma aborted_socket_sends_no_reset_witness : exists s'',
  tcp_main [demo_abort_env] 0 (map socket_rule [R1; R2; R3; R4], demo_opened) = (Ok tt, (map socket_rule [R1; R2; R3; R4], s'')) /\
  dv_written (tn_tun (ss_datagram_adapter s'')) = [] /\ ss_tcp s'' = None.
Proof.
  destruct (aborted_socket_sends_no_reset demo_abort_env 0 (map socket_rule [R1; R2; R3; R4]) demo_opened Timeout
    (map socket_rule [R1; R2; R3; R4]) (ss_set_env demo_abort_env demo_opened)
    (TCPConnection_new demo_cfg 0) (TCPConnection_new demo_cfg 0)) as [(s'' & E & Ha & Ht) _];
    [reflexivity|reflexivity|reflexivity|reflexivity|reflexivity|reflexivity|reflexivity|].
  exists s''. split; [exact E|]. split; [rewrite Ha; reflexivity|exact Ht].
Defined.
