(* ===== verification/SocketNet.v ===== *)
(** * Two sockets

    The composition of the whole stack: two [TCPSpongeSocket]s, each with its event loop,
    connection and adapter, over a network that loses, duplicates, reorders and injects
    datagrams; stated for any adapter with [AdapterContract], hence for TUN, UDP, the lossy
    ones and Ethernet. *)

From stdpp Require Import sorting.
From S2P Require Import Prelude WrappingInts Buffers ByteStreams Reassembler Checksum Parser TCPSegments Receiver Sender Connection EndToEnd Emitted IPv4 Addresses Adapters FileDescriptors EventLoop Devices SpongeSocket SocketLoop.

Lemma same_data_sent isn H e seg seg' : same_data seg seg' -> sent_ok isn H e seg -> sent_ok isn H e seg'.
Proof.
  intros [E1 E2 E3 E4] [[start [? ? Hs Hf]]|(n & Hn & Es & El & ? & ?)]; [left; exists start|right; exists n].
  - unfold payload_of in *. split; unfold payload_of; rewrite ?E1, ?E2, ?E3, ?E4; done.
  - unfold payload_of in *. by rewrite E1, E2, E3, E4.
Qed.

Section Adapter.
Context {A I : Type} {FA : FdAdapter A I}.

(** ** One side of a pair

    The two sides may rely on different contracts of their adapters. [wire p i]: the network
    may deliver [i] because the peer's adapter [p] sent it. *)
Section Side.
Context (AC : AdapterContract FA) (wire : A -> I -> Prop).

(** What may happen to [s] in one turn beside the peer [p]: the system calls of the turn report
    no error and transfer what they say ([env_ok]); the time since the last turn is one the
    adapter's timers can take ([ac_elapsed]: any for TUN and UDP, less than 5 s over
    Ethernet, where a longer one makes [NetworkInterface::tick] loop forever); the owner has
    written less than 2^31 bytes; and a datagram from which the adapter extracts a segment was
    sent by the peer, now or at any earlier time; anything else may arrive too. *)
Record fair_turn (e : Env I) (base_time : Z) (s p : TCPSpongeSocket A I) : Prop := {
  ft_env : env_ok (AC := AC) e;
  ft_elapsed : ac_elapsed (AdapterContract := AC) (en_time e -64 base_time);
  ft_room : owner_room s;
  ft_peer : forall seg a', adapter_read (en_datagram e) (ss_datagram_adapter s) = (Ok (Some seg), a') ->
    wire (ss_datagram_adapter p) (en_datagram e)
}.

Record half (isn : WrappingInt32) (cap : Z) (rules : list rule_id) (s : TCPSpongeSocket A I) c f (peer : WrappingInt32) (g : fifo) : Prop := {
  ha_inv : sock_inv (AC := AC) (rv_safe (ff_hist g) peer cap) s c f;
  ha_isn : sd_isn (cn_sender c) = isn;
  ha_rules : StronglySorted before rules
}.

Lemma half_peer_evolves isn cap rules s c f peer g g' : evolves g g' -> half isn cap rules s c f peer g ->
  half isn cap rules s c f peer g'.
Proof. intros [Hp _] []. split; try done. eapply sock_weaken; [|done]. intros r d. by apply rv_safe_mono. Qed.

Lemma half_prefix isn cap rules s c f peer g : 0 <= cap -> half isn cap rules s c f peer g ->
  ss_tcp s = Some c /\ exists rest, ff_hist g =
    ss_to_owner s ++ ByteStream_peek_output (TCPConnection_inbound_stream c) cap ++ rest.
Proof.
  intros Hc [Ha Hn _]. split; [apply Ha|].
  destruct (ci_recv _ _ _ (si_conn _ _ _ Ha)) as [(h & M & R & HM & Hcap & Hd) _ _].
  destruct (agrees_prefix _ _ h M R HM) as [t Ht]. exists t. pose proof (rp_out _ _ _ R) as Ro.
  unfold TCPConnection_inbound_stream, TCPReceiver_stream_out. rewrite (bs_peek_spec _ _ Ro) by lia.
  rewrite ztake_all by (pose proof (br_room _ _ Ro); lia).
  rewrite Hd, Ht, app_assoc. f_equal. symmetry. apply ztake_zdrop_id.
Qed.

(** [connect] on one side. *)
Lemma half_connect ia ca ra sa conn_a f ib g : half ia ca ra sa conn_a f ib g -> wi_ok ib -> ca + W32 < W64 ->
  zlen (ff_hist g) + 2 <= W31 ->
  exists sa' conn_a' f', on_tcp TCPConnection_connect sa = (Ok tt, sa') /\ half ia ca ra sa' conn_a' f' ib g /\ evolves f f' /\
    ss_datagram_adapter sa' = ss_datagram_adapter sa.
Proof.
  intros [Ha Hna Hra] Hib Hca Hg. pose proof (safe_contract (ff_hist g) ib ca Hib Hg Hca) as RC.
  destruct (connect_inv_pre f (ss_to_owner sa) conn_a (pre_of_inv _ _ _ (si_conn _ _ _ Ha))) as (c' & m & E & Hi & Hn).
  exists (ss_set_tcp (Some c') sa), c', (fifo_adv f m). split; [by apply on_tcp_some with conn_a; [apply Ha|]|].
  assert (M : moved (rv_safe (ff_hist g) ib ca) (from_peer (ff_hist g) ib) sa conn_a f (ss_set_tcp (Some c') sa) c' (fifo_adv f m)).
  { eapply moved_step; [exact Ha| |exact Hi|..]; try done; try apply Ha.
    by apply cn_step_connect. }
  split; [|split; [apply M|done]]. split; [apply M|congruence|done].
Qed.

Lemma half_new cfg random a env peer cap : cfg_ok cfg -> cfg_recv_capacity cfg + W32 < W64 ->
  ac_inv (AdapterContract := AC) (fun _ => False) a ->
  half (isn_of cfg random) (cfg_recv_capacity cfg) [R1; R2; R3; R4] (opened cfg random a env) (TCPConnection_new cfg random)
    (mkFifo [] 0 (cfg_send_capacity cfg) false false) peer (mkFifo [] 0 cap false false).
Proof.
  intros Hok Hr Ha. split; [|done|].
  - apply sock_inv_new; [done| |done]. apply rv_safe_new. apply Hok.
  - apply all_rules_sorted.
Qed.
(** A turn in which the adapter delivers only segments that the peer sent. *)
Lemma half_turn_from ia ib ca ra sa conn_a f g e base_time : wi_ok ib -> ca + W32 < W64 -> zlen (ff_hist g) + 2 <= W31 ->
  half ia ca ra sa conn_a f ib g -> env_ok (AC := AC) e -> ac_elapsed (AdapterContract := AC) (en_time e -64 base_time) -> owner_room sa ->
  (forall seg a', adapter_read (en_datagram e) (ss_datagram_adapter sa) = (Ok (Some seg), a') -> exists en, sent_ok ib (ff_hist g) en seg) ->
  exists o ra' sa' conn_a' f', tcp_loop_body e base_time (map socket_rule ra, sa) = (Ok o, (map socket_rule ra', sa')) /\
    half ia ca ra' sa' conn_a' f' ib g /\ evolves f f' /\ ra' `sublist_of` ra.
Proof.
  intros Hib Hca Hg [Ha Hna Hra] He Hel Hroom Hseg.
  assert (Hready : turn_ready (AC := AC) (from_peer (ff_hist g) ib) e base_time sa).
  { split; try done. intros c' seg a' _ Er. by apply (Hseg seg a'). }
  destruct (body_ok (RC := safe_contract (ff_hist g) ib ca Hib Hg Hca) ra sa conn_a f e base_time Ha Hready Hra)
    as (o & ra' & sa' & conn_a' & f' & E & Hsub & M).
  exists o, ra', sa', conn_a', f'. split; [done|]. split; [|split; [apply M|done]].
  split; [apply M|rewrite (mv_isn _ _ _ _ _ _ M); done|]. by eapply sorted_sublist.
Qed.
End Side.

(** What the network hands over is what was sent: read by this side, it carries a segment
    of the peer. *)
Definition carries_over (AC AC' : AdapterContract FA) (wire : A -> I -> Prop) : Prop :=
  forall S S' a b i seg' b', ac_inv (AdapterContract := AC') S a -> wire a i -> ac_inv (AdapterContract := AC) S' b ->
    adapter_read i b = (Ok (Some seg'), b') -> exists seg, S seg /\ same_data seg seg'.

(** A turn of one side. *)
Lemma half_turn (AC AC' : AdapterContract FA) (wire : A -> I -> Prop) ia ib ca cb ra sa conn_a f rb sb conn_b g e base_time :
  carries_over AC AC' wire -> wi_ok ib -> ca + W32 < W64 ->
  half AC ia ca ra sa conn_a f ib g -> half AC' ib cb rb sb conn_b g ia f -> fair_turn AC wire e base_time sa sb ->
  exists o ra' sa' conn_a' f', tcp_loop_body e base_time (map socket_rule ra, sa) = (Ok o, (map socket_rule ra', sa')) /\
    half AC ia ca ra' sa' conn_a' f' ib g /\ evolves f f' /\ ra' `sublist_of` ra.
Proof.
  intros Hcarry Hib Hca Ha Hb [He Hel Hroom Hpeer].
  eapply half_turn_from; try done; [apply (ci_total _ _ _ (si_conn _ _ _ (ha_inv _ _ _ _ _ _ _ _ _ Hb)))|].
  intros seg a' Er. destruct Ha as [Ha Hna _], Hb as [Hb Hnb _].
  destruct (Hcarry _ _ _ _ _ _ _ (si_adapter _ _ _ Hb) (Hpeer seg a' Er) (si_adapter _ _ _ Ha) Er) as (seg0 & Hs & Hsame).
  rewrite Hnb in Hs. eexists. by eapply same_data_sent.
Qed.
End Adapter.

Section SocketNet.
Context {A I : Type} {FA : FdAdapter A I} {AC : AdapterContract FA} {WC : WireContract AC}.
Implicit Types s : TCPSpongeSocket A I.

(** The rules left in each event loop, and the sockets. *)
Record snet : Type := mkSnet {
  sn_rules_a : list rule_id;
  sn_a : TCPSpongeSocket A I;
  sn_rules_b : list rule_id;
  sn_b : TCPSpongeSocket A I
}.

Inductive snet_step : snet -> snet -> Prop :=
| snet_turn_a e base_time r ra sa rb sb ra' sa' : fair_turn AC ac_wire e base_time sa sb ->
    tcp_loop_body e base_time (map socket_rule ra, sa) = (r, (map socket_rule ra', sa')) ->
    ra' `sublist_of` ra -> snet_step (mkSnet ra sa rb sb) (mkSnet ra' sa' rb sb)
| snet_turn_b e base_time r ra sa rb sb rb' sb' : fair_turn AC ac_wire e base_time sb sa ->
    tcp_loop_body e base_time (map socket_rule rb, sb) = (r, (map socket_rule rb', sb')) ->
    rb' `sublist_of` rb -> snet_step (mkSnet ra sa rb sb) (mkSnet ra sa rb' sb')
| snet_connect_a ra sa rb sb sa' r : on_tcp TCPConnection_connect sa = (r, sa') ->
    snet_step (mkSnet ra sa rb sb) (mkSnet ra sa' rb sb)
| snet_connect_b ra sa rb sb sb' r : on_tcp TCPConnection_connect sb = (r, sb') ->
    snet_step (mkSnet ra sa rb sb) (mkSnet ra sa rb sb').

(** ** The pair *)

Definition snet_inv (ia ib : WrappingInt32) (ca cb : Z) (n : snet) : Prop := exists conn_a f conn_b g,
  half AC ia ca (sn_rules_a n) (sn_a n) conn_a f ib g /\ half AC ib cb (sn_rules_b n) (sn_b n) conn_b g ia f.

Lemma wire_carries : carries_over AC AC ac_wire.
Proof. intros S S' a b i seg' b'. apply ac_carries. Qed.

Section Pair.
Context (ia ib : WrappingInt32) (ca cb : Z).
Context (Hia : wi_ok ia) (Hib : wi_ok ib) (Hca : 0 <= ca /\ ca + W32 < W64) (Hcb : 0 <= cb /\ cb + W32 < W64).

Lemma snet_step_inv n n' : snet_inv ia ib ca cb n -> snet_step n n' -> snet_inv ia ib ca cb n'.
Proof.
  intros (conn_a & f & conn_b & g & Ha & Hb) Hstep.
  destruct Hstep as [e bt r ra sa rb sb ra' sa' Hf E Hsub|e bt r ra sa rb sb rb' sb' Hf E Hsub|ra sa rb sb sa' r E|ra sa rb sb sb' r E];
    simpl in *.
  - destruct (half_turn AC AC ac_wire ia ib ca cb ra sa conn_a f rb sb conn_b g e bt wire_carries Hib (proj2 Hca) Ha Hb Hf)
      as (o & ra1 & sa1 & conn_a1 & f1 & E1 & Ha1 & Hev & _).
    rewrite E in E1. injection E1 as _ _ <-. exists conn_a1, f1, conn_b, g. split; [|by eapply half_peer_evolves].
    split; try apply Ha1. eapply sorted_sublist; [done|apply Ha].
  - destruct (half_turn AC AC ac_wire ib ia cb ca rb sb conn_b g ra sa conn_a f e bt wire_carries Hia (proj2 Hcb) Hb Ha Hf)
      as (o & rb1 & sb1 & conn_b1 & g1 & E1 & Hb1 & Hev & _).
    rewrite E in E1. injection E1 as _ _ <-. exists conn_a, f, conn_b1, g1. split; [by eapply half_peer_evolves|].
    split; try apply Hb1. eapply sorted_sublist; [done|apply Hb].
  - destruct (half_connect AC ia ca ra sa conn_a f ib g Ha Hib (proj2 Hca)) as (sa1 & conn_a1 & f1 & E1 & Ha1 & Hev & _);
      [apply (ci_total _ _ _ (si_conn _ _ _ (ha_inv _ _ _ _ _ _ _ _ _ Hb)))|].
    rewrite E in E1. injection E1 as _ <-. exists conn_a1, f1, conn_b, g. split; [done|by eapply half_peer_evolves].
  - destruct (half_connect AC ib cb rb sb conn_b g ia f Hb Hia (proj2 Hcb)) as (sb1 & conn_b1 & g1 & E1 & Hb1 & Hev & _);
      [apply (ci_total _ _ _ (si_conn _ _ _ (ha_inv _ _ _ _ _ _ _ _ _ Ha)))|].
    rewrite E in E1. injection E1 as _ <-. exists conn_a, f, conn_b1, g1. split; [by eapply half_peer_evolves|done].
Qed.
End Pair.

(** Whatever a fair turn does, it is a step of the pair. *)
Lemma turn_a_steps ia ib ca cb n e base_time : wi_ok ia -> wi_ok ib -> 0 <= ca /\ ca + W32 < W64 -> 0 <= cb /\ cb + W32 < W64 ->
  snet_inv ia ib ca cb n -> fair_turn AC ac_wire e base_time (sn_a n) (sn_b n) ->
  exists o n', snet_step n n' /\ sn_rules_b n' = sn_rules_b n /\ sn_b n' = sn_b n /\
    tcp_loop_body e base_time (map socket_rule (sn_rules_a n), sn_a n) = (Ok o, (map socket_rule (sn_rules_a n'), sn_a n')).
Proof.
  destruct n as [ra sa rb sb]. intros Hia Hib Hca Hcb (conn_a & f & conn_b & g & Ha & Hb) Hf. cbn [sn_rules_a sn_a sn_rules_b sn_b] in *.
  destruct (half_turn AC AC ac_wire ia ib ca cb ra sa conn_a f rb sb conn_b g e base_time wire_carries Hib (proj2 Hca) Ha Hb Hf)
    as (o & ra' & sa' & _ & _ & E & _ & _ & Hsub).
  exists o, (mkSnet ra' sa' rb sb). split; [by eapply snet_turn_a|done].
Qed.

Lemma turn_b_steps ia ib ca cb n e base_time : wi_ok ia -> wi_ok ib -> 0 <= ca /\ ca + W32 < W64 -> 0 <= cb /\ cb + W32 < W64 ->
  snet_inv ia ib ca cb n -> fair_turn AC ac_wire e base_time (sn_b n) (sn_a n) ->
  exists o n', snet_step n n' /\ sn_rules_a n' = sn_rules_a n /\ sn_a n' = sn_a n /\
    tcp_loop_body e base_time (map socket_rule (sn_rules_b n), sn_b n) = (Ok o, (map socket_rule (sn_rules_b n'), sn_b n')).
Proof.
  destruct n as [ra sa rb sb]. intros Hia Hib Hca Hcb (conn_a & f & conn_b & g & Ha & Hb) Hf. cbn [sn_rules_a sn_a sn_rules_b sn_b] in *.
  destruct (half_turn AC AC ac_wire ib ia cb ca rb sb conn_b g ra sa conn_a f e base_time wire_carries Hia (proj2 Hcb) Hb Ha Hf)
    as (o & rb' & sb' & _ & _ & E & _ & _ & Hsub).
  exists o, (mkSnet ra sa rb' sb'). split; [by eapply snet_turn_b|done].
Qed.

Lemma snet_reach_inv cfgA cfgB xa xb adA adB envA envB n : cfg_ok cfgA -> cfg_ok cfgB ->
  cfg_recv_capacity cfgA + W32 < W64 -> cfg_recv_capacity cfgB + W32 < W64 ->
  ac_inv (fun _ => False) adA -> ac_inv (fun _ => False) adB ->
  reach snet_step (mkSnet [R1; R2; R3; R4] (opened cfgA xa adA envA) [R1; R2; R3; R4] (opened cfgB xb adB envB)) n ->
  snet_inv (isn_of cfgA xa) (isn_of cfgB xb) (cfg_recv_capacity cfgA) (cfg_recv_capacity cfgB) n.
Proof.
  intros HA HB HrA HrB IA IB Hr.
  pose proof (isn_of_ok cfgA xa HA) as Hia. pose proof (isn_of_ok cfgB xb HB) as Hib.
  pose proof (co_recv _ HA) as [HcA _]. pose proof (co_recv _ HB) as [HcB _].
  revert Hr. apply reach_invariant; [by intros ? ?; apply snet_step_inv|]. eexists _, _, _, _. split; by apply half_new.
Qed.

(** C1: the whole stack delivers: two sockets, each a TCP thread with its event loop, its
    connection and its adapter (TUN, UDP, lossy or Ethernet), over a network that may lose,
    duplicate, delay and reorder datagrams and inject foreign ones that the adapters reject.
    In every run in which the sockets' system calls report no error, the time between two
    turns is one the adapter can take (over Ethernet less than 5 s, otherwise any) and each
    owner writes less than 2^31 bytes, what a socket has handed to its owner, followed by what
    it holds for it, is a prefix of what the other socket's owner wrote, and every further turn
    of either thread under these conditions returns normally: no exception, no busy-wait
    error, no "accepted less than advertised length". *)
Theorem sockets_deliver_prefix cfgA cfgB xa xb adA adB envA envB n : cfg_ok cfgA -> cfg_ok cfgB ->
  cfg_recv_capacity cfgA + W32 < W64 -> cfg_recv_capacity cfgB + W32 < W64 ->
  ac_inv (fun _ => False) adA -> ac_inv (fun _ => False) adB ->
  reach snet_step (mkSnet [R1; R2; R3; R4] (opened cfgA xa adA envA) [R1; R2; R3; R4] (opened cfgB xb adB envB)) n ->
  (exists c rest, ss_tcp (sn_b n) = Some c /\ ss_from_owner (sn_a n) = ss_to_owner (sn_b n) ++
     ByteStream_peek_output (TCPConnection_inbound_stream c) (cfg_recv_capacity cfgB) ++ rest) /\
  (exists c rest, ss_tcp (sn_a n) = Some c /\ ss_from_owner (sn_b n) = ss_to_owner (sn_a n) ++
     ByteStream_peek_output (TCPConnection_inbound_stream c) (cfg_recv_capacity cfgA) ++ rest) /\
  (forall e base_time, env_ok (AC := AC) e -> ac_elapsed (AdapterContract := AC) (en_time e -64 base_time) ->
     zlen (ss_from_owner (sn_a n)) + BUFFER_SIZE + 2 <= W31 ->
     (forall seg a', adapter_read (en_datagram e) (ss_datagram_adapter (sn_a n)) = (Ok (Some seg), a') ->
        ac_wire (ss_datagram_adapter (sn_b n)) (en_datagram e)) ->
     exists o l, tcp_loop_body e base_time (map socket_rule (sn_rules_a n), sn_a n) = (Ok o, l)) /\
  (forall e base_time, env_ok (AC := AC) e -> ac_elapsed (AdapterContract := AC) (en_time e -64 base_time) ->
     zlen (ss_from_owner (sn_b n)) + BUFFER_SIZE + 2 <= W31 ->
     (forall seg a', adapter_read (en_datagram e) (ss_datagram_adapter (sn_b n)) = (Ok (Some seg), a') ->
        ac_wire (ss_datagram_adapter (sn_a n)) (en_datagram e)) ->
     exists o l, tcp_loop_body e base_time (map socket_rule (sn_rules_b n), sn_b n) = (Ok o, l)).
Proof.
  intros HA HB HrA HrB IA IB Hr.
  pose proof (isn_of_ok cfgA xa HA) as Hia. pose proof (isn_of_ok cfgB xb HB) as Hib.
  pose proof (co_recv _ HA) as [HcA _]. pose proof (co_recv _ HB) as [HcB _].
  assert (Hinv : snet_inv (isn_of cfgA xa) (isn_of cfgB xb) (cfg_recv_capacity cfgA) (cfg_recv_capacity cfgB) n) by (by apply (snet_reach_inv cfgA cfgB xa xb adA adB envA envB)).
  pose proof Hinv as (ca & f & cb & g & Ha & Hb).
  destruct (half_prefix _ _ _ _ _ _ _ _ _ HcA Ha) as (Ta & resta & Hpa).
  destruct (half_prefix _ _ _ _ _ _ _ _ _ HcB Hb) as (Tb & restb & Hpb).
  rewrite (si_hist _ _ _ (ha_inv _ _ _ _ _ _ _ _ _ Ha)) in Hpb. rewrite (si_hist _ _ _ (ha_inv _ _ _ _ _ _ _ _ _ Hb)) in Hpa.
  split; [by exists cb, restb|]. split; [by exists ca, resta|]. split; intros e bt He Hel Hroom Hpeer.
  - destruct (turn_a_steps _ _ _ _ n e bt Hia Hib (conj HcA HrA) (conj HcB HrB) Hinv) as (o & n' & _ & _ & _ & E); [by split|]. by eexists _, _.
  - destruct (turn_b_steps _ _ _ _ n e bt Hia Hib (conj HcA HrA) (conj HcB HrB) Hinv) as (o & n' & _ & _ & _ & E); [by split|]. by eexists _, _.
Qed.
End SocketNet.

(** ** A run over TUN devices *)

(** Alternating turns; each side gets the other's datagrams in order, one per turn, and
    its owner writes what the list says. *)
Fixpoint demo_turns (plan : list (bytes * bytes)) (time : Z) (na nb : nat) (a b : demo_loop) : demo_loop * demo_loop :=
  match plan with
  | [] => (a, b)
  | (da, db) :: plan' =>
      let in_a := dv_written (tn_tun (ss_datagram_adapter (snd b))) !! na in
      let a := snd (tcp_loop_body (demo_env in_a da (time + 1)) time a) in
      let in_b := dv_written (tn_tun (ss_datagram_adapter (snd a))) !! nb in
      let b := snd (tcp_loop_body (demo_env in_b db (time + 1)) time b) in
      demo_turns plan' (time + 1) (if is_none in_a then na else S na) (if is_none in_b then nb else S nb) a b
  end.

Definition demo_start : demo_loop * demo_loop :=
  let rules := map socket_rule [R1; R2; R3; R4] in
  ((rules, snd (on_tcp TCPConnection_connect (opened cfgA_demo 0 demo_client_tun (demo_env None [] 0)))),
   (rules, opened cfgB_demo 0 demo_server_tun (demo_env None [] 0))).

(** The handshake and two bytes each way, datagrams and all. *)
Example demo_sockets_talk :
  let '(a, b) := demo_turns [([], []); ([], []); (text [104; 105], []); ([], text [111; 107]); ([], []); ([], []); ([], []); ([], [])] 0 0 0
    (fst demo_start) (snd demo_start) in
  ss_to_owner (snd b) = text [104; 105] /\ ss_to_owner (snd a) = text [111; 107].
Proof. vm_compute. split; reflexivity. Qed.

(** *** The same run, step by step *)

Lemma demo_env_fair (s p : demo_socket) datagram data time base_time :
  (forall d, datagram = Some d -> zlen d <= BUFFER_SIZE /\ d ∈ dv_written (tn_tun (ss_datagram_adapter p))) ->
  zlen (ss_from_owner s) + BUFFER_SIZE + 2 <= W31 -> fair_turn demo_AC ac_wire (demo_env datagram data time) base_time s p.
Proof.
  intros Hd Hroom. split; [|done|done|].
  - destruct datagram as [d|]; [|apply demo_env_ok]. destruct (Hd d eq_refl) as [Hl _].
    pose proof (demo_env_ok data time) as [_ ? ? ? _]. split; cbn; try done; [by exists d|].
    intros asked. destruct asked as [|r1 [|r2 rest]]; cbn; [done|split; [done|by apply Forall_singleton]|].
    split; [by rewrite length_map|]. constructor; [by apply no_error_bits|]. constructor; [destruct (is_empty data); [done|by apply no_error_bits]|].
    apply Forall_map. apply Forall_forall. intros r _. by apply no_error_bits.
  - intros seg a' E. destruct datagram as [d|]; [|exfalso; exact (demo_silent s data time seg a' E)].
    destruct (Hd d eq_refl) as [_ Hin]. exists d. by split.
Qed.

(** The conditions of each turn of [demo_turns], as a test. *)
Definition demo_turn_ok (s : demo_socket) (datagram : option bytes) : bool :=
  (zlen (default [] datagram) <=? BUFFER_SIZE) && (zlen (ss_from_owner s) + BUFFER_SIZE + 2 <=? W31).

Fixpoint demo_plan_ok (plan : list (bytes * bytes)) (time : Z) (na nb : nat) (a b : demo_loop) : bool :=
  match plan with
  | [] => true
  | (da, db) :: plan' =>
      let in_a := dv_written (tn_tun (ss_datagram_adapter (snd b))) !! na in
      let a' := snd (tcp_loop_body (demo_env in_a da (time + 1)) time a) in
      let in_b := dv_written (tn_tun (ss_datagram_adapter (snd a'))) !! nb in
      let b' := snd (tcp_loop_body (demo_env in_b db (time + 1)) time b) in
      demo_turn_ok (snd a) in_a && demo_turn_ok (snd b) in_b &&
      demo_plan_ok plan' (time + 1) (if is_none in_a then na else S na) (if is_none in_b then nb else S nb) a' b'
  end.

Lemma demo_turn_fair (s p : demo_socket) k data time base_time : let datagram := dv_written (tn_tun (ss_datagram_adapter p)) !! k in
  demo_turn_ok s datagram = true -> fair_turn demo_AC ac_wire (demo_env datagram data time) base_time s p.
Proof.
  intros datagram [Hl%Z.leb_le Hr%Z.leb_le]%andb_prop. apply demo_env_fair; [|done]. intros d Ed.
  rewrite Ed in Hl. split; [done|]. by apply (list_elem_of_lookup_2 _ k).
Qed.

Abbreviation demo_snet := (mkSnet [R1; R2; R3; R4] (opened cfgA_demo 0 demo_client_tun (demo_env None [] 0))
  [R1; R2; R3; R4] (opened cfgB_demo 0 demo_server_tun (demo_env None [] 0))).

Abbreviation loop_a n := (map socket_rule (sn_rules_a n), sn_a n).
Abbreviation loop_b n := (map socket_rule (sn_rules_b n), sn_b n).

Lemma demo_inv n : reach snet_step demo_snet n ->
  snet_inv (isn_of cfgA_demo 0) (isn_of cfgB_demo 0) (cfg_recv_capacity cfgA_demo) (cfg_recv_capacity cfgB_demo) n.
Proof.
  apply snet_reach_inv; [apply demo_cfg_ok|apply cfgB_demo_ok|reflexivity|reflexivity|apply demo_client_tun_fresh|apply demo_server_tun_fresh].
Qed.

Lemma demo_turns_reach plan : forall time na nb n, reach snet_step demo_snet n ->
  demo_plan_ok plan time na nb (loop_a n) (loop_b n) = true ->
  exists n', reach snet_step demo_snet n' /\ demo_turns plan time na nb (loop_a n) (loop_b n) = (loop_a n', loop_b n').
Proof.
  assert (Hia : wi_ok (isn_of cfgA_demo 0)) by apply (isn_of_ok _ _ demo_cfg_ok).
  assert (Hib : wi_ok (isn_of cfgB_demo 0)) by apply (isn_of_ok _ _ cfgB_demo_ok).
  assert (HcA : 0 <= cfg_recv_capacity cfgA_demo /\ cfg_recv_capacity cfgA_demo + W32 < W64) by (by vm_compute).
  assert (HcB : 0 <= cfg_recv_capacity cfgB_demo /\ cfg_recv_capacity cfgB_demo + W32 < W64) by (by vm_compute).
  induction plan as [|[da db] plan IH]; intros time na nb n Hr Hok; [by exists n|]. cbn [demo_plan_ok demo_turns snd] in *.
  apply andb_prop in Hok as [[Hoka Hokb]%andb_prop Hok].
  destruct (turn_a_steps _ _ _ _ n _ time Hia Hib HcA HcB (demo_inv n Hr) (demo_turn_fair (sn_a n) (sn_b n) na da (time + 1) time Hoka))
    as (oa & n1 & Hst1 & Erb & Eb & E1).
  assert (Hr1 : reach snet_step demo_snet n1) by (by eapply reach_step).
  rewrite E1 in Hokb, Hok |- *. cbn [snd] in Hokb, Hok |- *. rewrite <- Eb in Hokb. rewrite <- Erb, <- Eb in Hok |- *.
  destruct (turn_b_steps _ _ _ _ n1 _ time Hia Hib HcA HcB (demo_inv n1 Hr1) (demo_turn_fair (sn_b n1) (sn_a n1) nb db (time + 1) time Hokb))
    as (ob & n2 & Hst2 & Era & Ea & E2).
  assert (Hr2 : reach snet_step demo_snet n2) by (by eapply reach_step).
  rewrite E2 in Hok |- *. cbn [snd] in Hok |- *. rewrite <- Era, <- Ea in Hok |- *. by apply IH.
Qed.

Abbreviation demo_plan := [([], []); ([], []); (text [104; 105], []); ([], text [111; 107]); ([], []); ([], []); ([], []); ([], [])].

Lemma demo_talk_reached : exists n, reach snet_step demo_snet n /\
  ss_from_owner (sn_a n) = text [104; 105] /\ ss_to_owner (sn_b n) = text [104; 105] /\
  ss_from_owner (sn_b n) = text [111; 107] /\ ss_to_owner (sn_a n) = text [111; 107].
Proof.
  assert (H0 : reach snet_step demo_snet (mkSnet [R1; R2; R3; R4]
    (snd (on_tcp TCPConnection_connect (opened cfgA_demo 0 demo_client_tun (demo_env None [] 0))))
    [R1; R2; R3; R4] (opened cfgB_demo 0 demo_server_tun (demo_env None [] 0)))).
  { eapply reach_step; [apply reach_refl|]. eapply snet_connect_a. apply surjective_pairing. }
  destruct (demo_turns_reach demo_plan 0 0 0 _ H0) as (n & Hr & E); [vm_compute; reflexivity|].
  exists n. split; [exact Hr|].
  pose proof (f_equal (fun x => (ss_from_owner (snd (fst x)), ss_to_owner (snd (snd x)))) E) as E1.
  pose proof (f_equal (fun x => (ss_from_owner (snd (snd x)), ss_to_owner (snd (fst x)))) E) as E2.
  cbn [fst snd] in E1, E2. apply pair_equal_spec in E1 as [<- <-]. apply pair_equal_spec in E2 as [<- <-].
  split; [vm_compute; reflexivity|]. split; [vm_compute; reflexivity|]. split; vm_compute; reflexivity.
Qed.

(** After the handshake and two bytes each way, all delivered, another turn. *)
Lemma sockets_deliver_prefix_witness : exists n rest, reach snet_step demo_snet n /\
  ss_to_owner (sn_b n) = text [104; 105] /\ text [104; 105] = text [104; 105] ++ rest /\
  exists o l, tcp_loop_body (demo_env None (text [33]) 9) 8 (map socket_rule (sn_rules_a n), sn_a n) = (Ok o, l).
Proof.
  destruct demo_talk_reached as (n & Hr & Hfa & Htb & Hfb & Hta).
  destruct (sockets_deliver_prefix cfgA_demo cfgB_demo 0 0 demo_client_tun demo_server_tun (demo_env None [] 0) (demo_env None [] 0) n)
    as ((c & rest & _ & Hp) & _ & Ht & _);
    [apply demo_cfg_ok|apply cfgB_demo_ok|reflexivity|reflexivity|apply demo_client_tun_fresh|apply demo_server_tun_fresh|exact Hr|].
  exists n, (ByteStream_peek_output (TCPConnection_inbound_stream c) (cfg_recv_capacity cfgB_demo) ++ rest).
  split; [exact Hr|]. split; [exact Htb|]. split; [rewrite <- Hfa at 1; rewrite Hp, Htb; reflexivity|].
  apply Ht.
  - apply demo_env_ok.
  - exact I.
  - rewrite Hfa. vm_compute. discriminate.
  - intros seg a' E. exfalso. exact (demo_silent (sn_a n) (text [33]) 9 seg a' E).
Defined.
