(* ===== verification/SocketThread.v ===== *)
(** * The life of a socket's thread

    The rest of [libsponge/tcp_helpers/tcp_sponge_socket.cc]: the constructor, the start of
    the TCP thread at the end of [connect] and [listen_and_accept], [wait_until_closed] and
    the destructor. The owner and the thread run at the same time: the steps of a
    [Process] are one pass of the thread's loop or one call of the owner's. They share the
    abort flag, which the thread reads once in a pass, and the counters of the owner's
    descriptor. *)

From stdpp Require Import sorting.
From S2P Require Import Prelude WrappingInts Buffers ByteStreams Reassembler TCPSegments Receiver Sender Connection EndToEnd Emitted Addresses Adapters FileDescriptors Handles Sockets EventLoop Devices SpongeSocket SocketLoop SocketNet.

(** ** The constructor *)

(** [socket_pair_helper]: the kernel's answer is an [errno] or two descriptor numbers. *)
Definition socket_pair_helper (kernel : Z + Z * Z) : res (FDWrapper * FDWrapper) :=
  match kernel with
  | inl errno => _ ← SystemCall "socketpair" (-1) errno 0; Throw (UB "failure without errno")
  | inr (fd0, fd1) =>
      _ ← SystemCall "socketpair" 0 0 0;
      a ← FileDescriptor_of fd0;
      b ← FileDescriptor_of fd1;
      Ok (a, b)
  end.

(** What the kernel answers to [getsockopt], twice, on a descriptor. *)
Abbreviation sockopts := ((Z + Z * Z) * (Z + Z * Z))%type.

(** [LocalStreamSocket(fd)] *)
Definition LocalStreamSocket_of (fd : FDWrapper) (kernel : sockopts) : res FDWrapper :=
  _ ← Socket_verify AF_UNIX SOCK_STREAM (fst kernel) (snd kernel); Ok fd.

Section Life.
Context {A I : Type} {FA : FdAdapter A I}.

Definition TCPSpongeSocket_construct (datagram_interface : A) (env : Env I) (pair : Z + Z * Z) (owner data : sockopts) (fcntl : (Z + Z) * Z)
  : res (TCPSpongeSocket A I) :=
  '(fd0, fd1) ← socket_pair_helper pair;
  socket ← LocalStreamSocket_of fd0 owner;
  thread_data ← LocalStreamSocket_of fd1 data;
  _ ← set_blocking false (fst fcntl) (snd fcntl);
  Ok (ss_set_owner socket (ss_set_thread_data thread_data (TCPSpongeSocket_new datagram_interface env))).

(** ** The two threads *)

(** [_tcp_thread], with the thread's [base_time] while it runs. *)
Inductive Thread : Type :=
| Not_joinable
| Running (base_time : Z)
| Finished.

Definition joinable (t : Thread) : bool := match t with Not_joinable => false | _ => true end.

(** [po_terminated]: the runtime has ended the process with [std::terminate]. *)
Record Process : Type := mkProcess {
  po_rules : list (Rule (TCPSpongeSocket A I));
  po_socket : TCPSpongeSocket A I;
  po_abort : bool;
  po_thread : Thread;
  po_terminated : bool
}.

Definition po_set_loop (l : list (Rule (TCPSpongeSocket A I)) * TCPSpongeSocket A I) (p : Process) : Process :=
  mkProcess (fst l) (snd l) (po_abort p) (po_thread p) (po_terminated p).
Definition po_set_abort (v : bool) (p : Process) : Process :=
  mkProcess (po_rules p) (po_socket p) v (po_thread p) (po_terminated p).
Definition po_set_thread (v : Thread) (p : Process) : Process :=
  mkProcess (po_rules p) (po_socket p) (po_abort p) v (po_terminated p).
Definition terminate (p : Process) : Process :=
  mkProcess (po_rules p) (po_socket p) (po_abort p) (po_thread p) true.

Abbreviation process := (method Process).

Definition on_loop {X} (m : method (list (Rule (TCPSpongeSocket A I)) * TCPSpongeSocket A I) X) : process X :=
  zoom (fun p => (po_rules p, po_socket p)) po_set_loop m.

(** The flag as the thread sees it. *)
Definition with_abort (v : bool) (e : Env I) : Env I :=
  mkEnv (en_poll e) (en_datagram e) (en_owner_read e) (en_owner_write e) (en_shutdown e) v (en_time e).

(** [_tcp_main], one pass of its loop at a time. An exception that leaves the function of a
    thread ends the process. *)
Definition thread_step (env : Env I) (p : Process) : Process :=
  match po_thread p with
  | Running base_time =>
      match tcp_loop_body (with_abort (po_abort p) env) base_time (po_rules p, po_socket p) with
      | (Ok (Some time), l) => po_set_thread (Running time) (po_set_loop l p)
      | (Ok None, l) =>
          match tcp_finish l with
          | (Ok _, l') => po_set_thread Finished (po_set_loop l' p)
          | (_, l') => terminate (po_set_loop l' p)
          end
      | (_, l) => terminate (po_set_loop l p)
      end
  | _ => p
  end.

(** [_tcp_thread = thread(&TCPSpongeSocket::_tcp_main, this)] at [time]: assigning to a
    joinable thread ends the process, and so does the exception of a thread that finds no
    connection. *)
Definition start_thread (time : Z) : process unit := modify (fun p =>
  if joinable (po_thread p) || is_none (ss_tcp (po_socket p)) then terminate p else po_set_thread (Running time) p).

(** [connect] and [listen_and_accept]: [envs] are the passes of the loop on the owner's
    thread. *)
Definition Socket_connect (c_tcp : TCPConfig) (c_ad : FdAdapterConfig) (random : Z) (envs : list (Env I)) (base_time time : Z) : process unit :=
  abort ← gets po_abort;
  _ ← on_loop (TCPSpongeSocket_connect c_tcp c_ad random (map (with_abort abort) envs) base_time);
  start_thread time.

Definition Socket_listen_and_accept (c_tcp : TCPConfig) (c_ad : FdAdapterConfig) (random : Z) (envs : list (Env I)) (base_time time : Z) : process unit :=
  abort ← gets po_abort;
  _ ← on_loop (TCPSpongeSocket_listen_and_accept c_tcp c_ad random (map (with_abort abort) envs) base_time);
  start_thread time.

Definition EINVAL : Z := 22.

(** [_tcp_thread.join()]: the thread makes the passes [envs] meanwhile; [NoFuel] when it has
    not returned after these. *)
Fixpoint join (envs : list (Env I)) (p : Process) : res unit * Process :=
  if po_terminated p then (NoFuel, p)
  else
    match po_thread p with
    | Not_joinable => (Throw (unix_error "join" EINVAL), p)
    | Finished => (Ok tt, po_set_thread Not_joinable p)
    | Running _ =>
        match envs with
        | [] => (NoFuel, p)
        | env :: envs' => join envs' (thread_step env p)
        end
    end.

(** [kernel] is what [::shutdown] answers. *)
Definition wait_until_closed (kernel : Z) (envs : list (Env I)) : process unit :=
  _ ← on_loop (on_socket (zoom ss_owner ss_set_owner (Socket_shutdown SHUT_RDWR kernel)));
  t ← gets po_thread;
  if joinable t then join envs else mret tt.

(** The destructor catches and prints every exception. *)
Definition TCPSpongeSocket_destroy (envs : list (Env I)) : process unit := fun p =>
  if joinable (po_thread p) then
    match join envs (po_set_abort true p) with
    | (Throw _, p') => (Ok tt, p')
    | r => r
    end
  else (Ok tt, p).

(** ** Running *)

Lemma with_abort_same e : with_abort (en_abort e) e = e.
Proof. by destruct e. Qed.

(** Waiting for the thread is running [_tcp_main] to its end. *)
Lemma join_main envs : forall p base_time l, po_terminated p = false -> po_thread p = Running base_time ->
  (_ ← tcp_loop (fun _ => true) (map (with_abort (po_abort p)) envs) base_time; tcp_finish) (po_rules p, po_socket p) = (Ok tt, l) ->
  join envs p = (Ok tt, po_set_thread Not_joinable (po_set_loop l p)).
Proof.
  induction envs as [|e envs IH]; intros p base_time l Ht Hr E; apply run_bind_inv in E as ([] & l1 & E1 & E2); cbn [map tcp_loop] in E1;
    unfold on_socket in E1; erewrite run_zoom in E1 by reflexivity; cbn [negb fst snd] in E1; [done|].
  apply run_bind_inv in E1 as (o & l2 & E3 & E4). cbn [join]. rewrite Ht, Hr. unfold thread_step. rewrite Hr.
  change (mbind _ _ _) with (tcp_loop_body (with_abort (po_abort p) e) base_time (po_rules p, po_socket p)) in E3 || idtac.
  rewrite E3. destruct o as [time|].
  - erewrite (IH (po_set_thread (Running time) (po_set_loop l2 p)) time l); [done|done|done|].
    cbn [po_set_thread po_set_loop po_abort po_rules po_socket]. destruct l2 as [r2 s2]. cbn [fst snd]. erewrite run_bind by exact E4. exact E2.
  - injection E4 as <-. rewrite E2. destruct envs; cbn [join po_set_thread po_terminated po_set_loop po_thread]; by rewrite Ht.
Qed.
End Life.
#[global] Arguments Process A I : clear implicits.

(** ** Safety of every interleaving *)

Section Safe.
Context {A I : Type} {FA : FdAdapter A I} {AC : AdapterContract FA}.
Context {Q : TCPReceiver -> bytes -> Prop} {P : TCPReceiver -> TCPSegment -> Prop} {RC : ReceiverContract Q P}.
Implicit Types (s : TCPSpongeSocket A I) (p : Process A I).

(** A pass of the thread's loop with a kernel that makes no errors; the calls of the owner
    in [wait_until_closed] and in the destructor, the joining when it can return. *)
Inductive life_step p : Process A I -> Prop :=
| life_turn e base_time : po_thread p = Running base_time -> turn_ready P e base_time (po_socket p) -> life_step p (thread_step e p)
| life_shutdown kernel : life_step p (snd (on_loop (on_socket (zoom ss_owner ss_set_owner (Socket_shutdown SHUT_RDWR kernel))) p))
| life_abort : joinable (po_thread p) = true -> life_step p (po_set_abort true p)
| life_join : po_thread p = Finished -> life_step p (po_set_thread Not_joinable p).

(** The connection started from [start] and is there while the thread runs. *)
Record alive (start : cn_state) p : Prop := {
  al_terminated : po_terminated p = false;
  al_conn : exists c f, reach (cn_step P) start (c, ss_from_owner (po_socket p), ss_to_owner (po_socket p)) /\
    match po_thread p with
    | Running _ => sock_inv Q (po_socket p) c f /\ exists ids, po_rules p = map socket_rule ids /\ StronglySorted before ids
    | _ => ss_tcp (po_socket p) = None
    end
}.

Lemma ready_with_abort v e base_time s : turn_ready P e base_time s -> turn_ready P (with_abort v e) base_time s.
Proof. intros [[] ? Hw ?]. by split. Qed.

Lemma finish_ok rules s c f : sock_inv Q s c f -> en_shutdown (ss_env s) = 0 ->
  exists s', tcp_finish (rules, s) = (Ok tt, (rules, s')) /\ ss_tcp s' = None /\ ss_datagram_adapter s' = ss_datagram_adapter s /\
    ss_from_owner s' = ss_from_owner s /\ ss_to_owner s' = ss_to_owner s.
Proof.
  intros Hs Hsh. set (s2 := ss_set_owner (register_write (register_read (ss_owner s))) s).
  exists (ss_set_tcp None (ss_set_tcp (Some (TCPConnection_destroy c)) s2)). split; [|done].
  unfold tcp_finish, on_socket. erewrite run_zoom by reflexivity. cbn [fst snd]. rewrite Hsh.
  erewrite run_zoom by (eapply zoom_eq; reflexivity). cbn [fst snd].
  by erewrite run_zoom by (apply on_tcp_some with c; [apply Hs|reflexivity]).
Qed.

Lemma turn_alive start p e base_time : alive start p -> po_thread p = Running base_time -> turn_ready P e base_time (po_socket p) ->
  alive start (thread_step e p) /\ po_abort (thread_step e p) = po_abort p /\
  (po_abort p = true -> po_thread (thread_step e p) = Finished).
Proof.
  intros [Ht (c & f & Hre & Hth)] Hr He. rewrite Hr in Hth. destruct Hth as (Hs & ids & Eids & Hsort).
  destruct (body_ok ids _ c f _ base_time Hs (ready_with_abort (po_abort p) e _ _ He) Hsort) as (o & ids' & s' & c' & f' & E & Hsub & M).
  rewrite <- Eids in E. pose proof (mv_inv _ _ _ _ _ _ M) as Hs'.
  assert (Hre' : reach (cn_step P) start (c', ss_from_owner s', ss_to_owner s')) by (eapply reach_trans; [exact Hre|exact (mv_reach _ _ _ _ _ _ M)]).
  unfold thread_step. rewrite Hr, E. destruct o as [time|].
  - split; [|split; [done|]].
    + split; [done|]. exists c', f'. split; [done|]. split; [done|]. exists ids'. split; [done|]. by eapply sorted_sublist.
    + intros Hab. exfalso. unfold tcp_loop_body in E. apply run_bind_inv in E as (u & l & _ & E). apply run_bind_inv in E as (ret & l' & _ & E).
      rewrite Hab in E. cbn [en_abort with_abort] in E. rewrite orb_true_r in E. done.
  - destruct (finish_ok (map socket_rule ids') s' c' f' Hs') as (s2 & E2 & H2 & _ & Hf & Hto).
    { rewrite (mv_env _ _ _ _ _ _ M). apply (eo_shutdown _ (tr_env _ _ _ He)). }
    rewrite E2. split; [|done]. split; [done|]. exists c', f'. cbn. by rewrite Hf, Hto.
Qed.

Lemma shutdown_frame p kernel : exists s', snd (on_loop (on_socket (zoom ss_owner ss_set_owner (Socket_shutdown SHUT_RDWR kernel))) p)
  = po_set_loop (po_rules p, s') p /\ exists v, s' = ss_set_owner v (po_socket p).
Proof.
  unfold on_loop, on_socket, zoom. cbn [fst snd]. destruct (Socket_shutdown SHUT_RDWR kernel (ss_owner (po_socket p))) as [r v]. by eexists; eauto.
Qed.

Lemma alive_owner start p v : alive start p -> alive start (po_set_loop (po_rules p, ss_set_owner v (po_socket p)) p).
Proof.
  intros [Ht (c & f & Hre & Hth)]. split; [done|]. exists c, f. split; [done|]. cbn. destruct (po_thread p); try done.
  destruct Hth as [[] ?]. by split; [split|].
Qed.

Lemma life_step_alive start p p' : alive start p -> life_step p p' -> alive start p'.
Proof.
  intros Hp [e base_time Hr He|kernel|Hj|Hf].
  - by eapply turn_alive.
  - destruct (shutdown_frame p kernel) as (s' & -> & v & ->). by apply alive_owner.
  - destruct Hp. by split.
  - destruct Hp as [Ht (c & f & Hre & Hth)]. rewrite Hf in Hth. split; [done|]. by exists c, f.
Qed.

(** The thread gets a connection; the rules are those of one [_initialize_TCP]. *)
Lemma alive_started p c f ids time : po_terminated p = false -> po_thread p = Not_joinable -> sock_inv Q (po_socket p) c f ->
  po_rules p = map socket_rule ids -> StronglySorted before ids ->
  start_thread time p = (Ok tt, po_set_thread (Running time) p) /\
  alive (c, ss_from_owner (po_socket p), ss_to_owner (po_socket p)) (po_set_thread (Running time) p).
Proof.
  intros Ht Hth Hs Er Hsort. split.
  - unfold start_thread, modify. rewrite Hth, (si_tcp _ _ _ Hs). done.
  - split; [done|]. exists c, f. split; [apply reach_refl|]. split; [done|]. by exists ids.
Qed.

(** With the flag set, joining takes one more pass of the loop at most. *)
Lemma abort_joins start p e envs : alive start p -> joinable (po_thread p) = true ->
  (forall base_time, po_thread p = Running base_time -> turn_ready P e base_time (po_socket p)) ->
  exists p', TCPSpongeSocket_destroy (e :: envs) p = (Ok tt, p') /\ alive start p' /\ po_thread p' = Not_joinable.
Proof.
  intros Hp Hj He. unfold TCPSpongeSocket_destroy. rewrite Hj.
  assert (Hp1 : alive start (po_set_abort true p)) by (destruct Hp; by split).
  cbn [join]. change (po_terminated (po_set_abort true p)) with (po_terminated p). rewrite (al_terminated _ _ Hp).
  change (po_thread (po_set_abort true p)) with (po_thread p). destruct (po_thread p) as [|base_time|] eqn:Et; [done| |].
  - destruct (turn_alive start (po_set_abort true p) e base_time Hp1) as (Hp2 & _ & Hf); [done|by apply He|]. specialize (Hf eq_refl).
    set (p2 := thread_step e (po_set_abort true p)) in *. exists (po_set_thread Not_joinable p2). split.
    + destruct envs; cbn [join]; by rewrite (al_terminated _ _ Hp2), Hf.
    + split; [|done]. eapply life_step_alive; [exact Hp2|by constructor].
  - eexists. split; [reflexivity|]. split; [|done]. eapply life_step_alive; [exact Hp1|by constructor].
Qed.
End Safe.
#[global] Arguments life_step {A I FA AC} P p _.
#[global] Arguments alive {A I FA AC} Q P start p.

(** ** Theorems *)

(** C7: a connected socket is safe in the hands of its two threads. However the passes of
    the TCP thread's loop, under a kernel without errors, and the owner's calls of
    [wait_until_closed] and the destructor interleave, the process is never terminated, the
    bytes exchanged with the owner are those of a run of the connection, and the
    connection is there exactly while the thread runs. In each of these states the
    destructor returns after one more pass of the loop, with the thread joined and the
    connection gone. *)
Theorem socket_thread_lifecycle {A I} {FA : FdAdapter A I} {AC : AdapterContract FA}
    (Q : TCPReceiver -> bytes -> Prop) (P : TCPReceiver -> TCPSegment -> Prop) (RC : ReceiverContract Q P)
    (p0 p : Process A I) c f ids time :
  po_terminated p0 = false -> po_thread p0 = Not_joinable -> sock_inv Q (po_socket p0) c f ->
  po_rules p0 = map socket_rule ids -> StronglySorted before ids ->
  reach (life_step P) (snd (start_thread time p0)) p ->
  po_terminated p = false /\
  (exists c', reach (cn_step P) (c, ss_from_owner (po_socket p0), ss_to_owner (po_socket p0))
                (c', ss_from_owner (po_socket p), ss_to_owner (po_socket p))) /\
  (is_none (ss_tcp (po_socket p)) = false <-> exists base_time, po_thread p = Running base_time) /\
  forall e envs, (forall base_time, po_thread p = Running base_time -> turn_ready P e base_time (po_socket p)) ->
    exists p', TCPSpongeSocket_destroy (e :: envs) p = (Ok tt, p') /\ po_terminated p' = false /\
      po_thread p' = Not_joinable /\ ss_tcp (po_socket p') = None.
Proof.
  intros Ht Hn Hs Er Hsort Hre. destruct (alive_started (P := P) p0 c f ids time Ht Hn Hs Er Hsort) as [Est Hal]. rewrite Est in Hre. cbn [snd] in Hre.
  assert (Hp : alive Q P (c, ss_from_owner (po_socket p0), ss_to_owner (po_socket p0)) p).
  { eapply reach_invariant; [|exact Hal|exact Hre]. intros a b. apply life_step_alive. }
  pose proof Hp as [Htp (c' & f' & Hr & Hth)]. split; [done|]. split; [by exists c'|]. split.
  - destruct (po_thread p) as [|b|]; [| |]; [rewrite Hth; split; [done|by intros [? ?]]| |rewrite Hth; split; [done|by intros [? ?]]].
    split; [by exists b|]. intros _. by rewrite (si_tcp _ _ _ (proj1 Hth)).
  - intros e envs He. destruct (joinable (po_thread p)) eqn:Hj.
    + destruct (abort_joins _ p e envs Hp Hj He) as (p' & E & Hp' & Hn'). exists p'. split; [done|].
      pose proof Hp' as [? (? & ? & _ & Hx)]. by rewrite Hn' in Hx.
    + exists p. unfold TCPSpongeSocket_destroy. rewrite Hj. destruct (po_thread p); done.
Qed.

(** [wait_until_closed] shuts the owner's stream down and returns when the thread has run to
    its end, in the state [_tcp_main] leaves; the destructor then finds no thread, does not
    abort and changes nothing. *)
Theorem wait_until_closed_returns {A I} {FA : FdAdapter A I} (p : Process A I) base_time envs envs' l :
  po_terminated p = false -> po_thread p = Running base_time ->
  tcp_main (map (with_abort (po_abort p)) envs) base_time
    (po_rules p, ss_set_owner (register_write (register_read (ss_owner (po_socket p)))) (po_socket p)) = (Ok tt, l) ->
  exists p', wait_until_closed 0 envs p = (Ok tt, p') /\ (po_rules p', po_socket p') = l /\ po_abort p' = po_abort p /\
    TCPSpongeSocket_destroy envs' p' = (Ok tt, p').
Proof.
  intros Ht Hr E. set (s1 := ss_set_owner _ (po_socket p)) in *. set (p1 := po_set_loop (po_rules p, s1) p).
  unfold tcp_main, on_socket in E. erewrite run_zoom in E by reflexivity. cbn [fst snd] in E.
  destruct (is_none (ss_tcp s1)); [done|]. pose proof (join_main envs p1 base_time l Ht Hr E) as Hj.
  exists (po_set_thread Not_joinable (po_set_loop l p1)). split; [|split; [by destruct l|done]].
  unfold wait_until_closed, on_loop. erewrite run_zoom by (unfold on_socket; eapply zoom_eq, zoom_eq; reflexivity).
  rewrite run_gets. change (po_thread (po_set_loop _ p)) with (po_thread p). rewrite Hr. exact Hj.
Qed.

(** a second [connect] after the first connection has come to its end is let through by the
    test for a connection, and ends the process when the new thread is assigned to the
    handle of the old one, unless the owner has called [wait_until_closed] in between. *)
Theorem reconnect_ends_process {A I} {FA : FdAdapter A I} (p p' : Process A I) c_tcp c_ad random envs base_time time :
  po_thread p = Finished -> Socket_connect c_tcp c_ad random envs base_time time p = (Ok tt, p') -> po_terminated p' = true.
Proof.
  intros Hf E. unfold Socket_connect in E. rewrite run_gets in E. apply run_bind_inv in E as (u & p1 & E1 & E2).
  assert (Hf1 : po_thread p1 = Finished).
  { unfold on_loop, zoom in E1. destruct (TCPSpongeSocket_connect _ _ _ _ _ _) as [r l]. injection E1 as _ <-. done. }
  unfold start_thread, modify in E2. injection E2 as <-. by rewrite Hf1.
Qed.

(** *** Witnesses *)

Abbreviation demo_process := (Process TCPOverIPv4OverTunFdAdapter (Z + bytes)).

Definition demo_idle : demo_process := mkProcess (map socket_rule [R1; R2; R3; R4]) demo_opened false Not_joinable false.

Lemma demo_idle_reaches : reach (life_step any_segment) (snd (start_thread 0 demo_idle))
  (po_set_abort true (thread_step (demo_env None [byte_of 104] 1) (snd (start_thread 0 demo_idle)))).
Proof.
  eapply reach_step; [eapply reach_step; [apply reach_refl|]|].
  - eapply life_turn; [reflexivity|]. apply demo_turn_ready.
  - apply life_abort. vm_compute. reflexivity.
Qed.

Lemma socket_thread_lifecycle_witness :
  po_terminated (po_set_abort true (thread_step (demo_env None [byte_of 104] 1) (snd (start_thread 0 demo_idle)))) = false.
Proof.
  apply (socket_thread_lifecycle rv_sound any_segment receiver_sound_contract demo_idle _ (TCPConnection_new demo_cfg 0)
    (mkFifo [] 0 64000 false false) [R1; R2; R3; R4] 0).
  - reflexivity.
  - reflexivity.
  - apply demo_sock_inv.
  - reflexivity.
  - apply all_rules_sorted.
  - apply demo_idle_reaches.
Defined.

(** The owner connects, the peer answers, the thread is told to stop and is not joined. *)
Definition demo_synack : option bytes :=
  let '(_, b) := demo_turns [([], []); ([], [])] 0 0 0 (fst demo_start) (snd demo_start) in
  head (dv_written (tn_tun (ss_datagram_adapter (snd b)))).

Abbreviation demo_connected := (Socket_connect cfgA_demo (fb_cfg demo_client) 0 [demo_env None [] 1; demo_env demo_synack [] 2; demo_env None [] 3] 0 4).

Definition demo_ended : demo_process :=
  let p : demo_process := snd (demo_connected (mkProcess [] (TCPSpongeSocket_new demo_client_tun (demo_env None [] 0)) false Not_joinable false)) in
  po_set_abort false (thread_step (demo_env None [] 5) (po_set_abort true p)).

Lemma wait_until_closed_returns_witness : exists p',
  wait_until_closed 0 [demo_abort_env] (po_set_abort true (snd (start_thread 0 demo_idle))) = (Ok tt, p').
Proof.
  set (run := tcp_main [demo_abort_env] 0 (map socket_rule [R1; R2; R3; R4],
    ss_set_owner (register_write (register_read (ss_owner demo_opened))) demo_opened)).
  assert (Hr : fst run = Ok tt) by (vm_compute; reflexivity).
  destruct (wait_until_closed_returns (po_set_abort true (snd (start_thread 0 demo_idle))) 0 [demo_abort_env] [] (snd run)) as (p' & E & _).
  - reflexivity.
  - reflexivity.
  - rewrite <- Hr. apply surjective_pairing.
  - exists p'. exact E.
Defined.

Lemma reconnect_ends_process_witness : po_thread demo_ended = Finished /\ ss_tcp (po_socket demo_ended) = None /\
  po_terminated demo_ended = false /\ po_terminated (snd (demo_connected demo_ended)) = true.
Proof.
  split; [vm_compute; reflexivity|]. split; [vm_compute; reflexivity|]. split; [vm_compute; reflexivity|].
  assert (E : demo_connected demo_ended = (Ok tt, snd (demo_connected demo_ended))).
  { assert (Hr : fst (demo_connected demo_ended) = Ok tt) by (vm_compute; reflexivity). rewrite <- Hr. apply surjective_pairing. }
  revert E. generalize (snd (demo_connected demo_ended)). intros p' E.
  refine (reconnect_ends_process demo_ended p' _ _ _ _ _ _ _ E). vm_compute. reflexivity.
Defined.
