(* ===== verification/StreamCopy.v ===== *)
(** * Copying between a socket and the standard streams

    Models [apps/bidirectional_stream_copy.cc], the event loop of the command-line
    programs: what is read from standard input is written to the socket, what is read from
    the socket is written to standard output. The answers of the kernel in one turn of the
    loop are a [CopyEnv]; the bytes read and written are logged beside the program's state. *)

From stdpp Require Import sorting.
From S2P Require Import Prelude Buffers ByteStreams FileDescriptors EventLoop.

Definition max_copy_length : Z := 65536.
Definition buffer_size : Z := 1048576.

Record CopyEnv : Type := mkCopyEnv {
  ce_poll : list Z -> poll_outcome;
  ce_input_read : Z -> Z + bytes;
  ce_socket_read : Z -> Z + bytes;
  ce_socket_write : bytes -> Z + Z;
  ce_output_write : bytes -> Z + Z;
  ce_shutdown : Z;
  ce_close : Z
}.

(** One direction: its [ByteStream], its shutdown flag, and the logs of both ends. *)
Record flow : Type := mkFlow {
  fl_from : bytes;
  fl_stream : ByteStream;
  fl_shutdown : bool;
  fl_to : bytes
}.

Definition fl_set_stream (v : ByteStream) (f : flow) : flow := mkFlow (fl_from f) v (fl_shutdown f) (fl_to f).
Definition fl_set_shutdown (v : bool) (f : flow) : flow := mkFlow (fl_from f) (fl_stream f) v (fl_to f).
Definition fl_log_from (d : bytes) (f : flow) : flow := mkFlow (fl_from f ++ d) (fl_stream f) (fl_shutdown f) (fl_to f).
Definition fl_log_to (d : bytes) (f : flow) : flow := mkFlow (fl_from f) (fl_stream f) (fl_shutdown f) (fl_to f ++ d).

Definition fl_new : flow := mkFlow [] (ByteStream_new buffer_size) false [].

(** [_input], [socket], [_output], and [_outbound] and [_inbound] with their flags. *)
Record StreamCopy : Type := mkCopy {
  sc_input : FDWrapper;
  sc_socket : FDWrapper;
  sc_output : FDWrapper;
  sc_outbound : flow;
  sc_inbound : flow;
  sc_env : CopyEnv
}.

Definition sc_set_env (e : CopyEnv) (s : StreamCopy) : StreamCopy :=
  mkCopy (sc_input s) (sc_socket s) (sc_output s) (sc_outbound s) (sc_inbound s) e.

Abbreviation copy := (method StreamCopy).
Abbreviation end_of_flow := (method (FDWrapper * flow)).

(** A descriptor together with the flow it feeds or drains. *)
Definition at_input : end_of_flow unit -> copy unit :=
  zoom (fun s => (sc_input s, sc_outbound s)) (fun p s => mkCopy (fst p) (sc_socket s) (sc_output s) (snd p) (sc_inbound s) (sc_env s)).
Definition to_socket : end_of_flow unit -> copy unit :=
  zoom (fun s => (sc_socket s, sc_outbound s)) (fun p s => mkCopy (sc_input s) (fst p) (sc_output s) (snd p) (sc_inbound s) (sc_env s)).
Definition from_socket : end_of_flow unit -> copy unit :=
  zoom (fun s => (sc_socket s, sc_inbound s)) (fun p s => mkCopy (sc_input s) (fst p) (sc_output s) (sc_outbound s) (snd p) (sc_env s)).
Definition at_output : end_of_flow unit -> copy unit :=
  zoom (fun s => (sc_output s, sc_inbound s)) (fun p s => mkCopy (sc_input s) (sc_socket s) (fst p) (sc_outbound s) (snd p) (sc_env s)).

Abbreviation on_fd := (zoom fst (fun fd (p : FDWrapper * flow) => (fd, snd p))).
Definition on_flow (g : flow -> flow) : end_of_flow unit := modify (fun p => (fst p, g (snd p))).

Definition end_stream (f : flow) : flow := fl_set_stream (ByteStream_end_input (fl_stream f)) f.

(** [stream.write(fd.read(stream.remaining_capacity())); if (fd.eof()) stream.end_input();] *)
Definition read_into (kernel : Z -> Z + bytes) : end_of_flow unit :=
  stream ← gets (fun p => fl_stream (snd p));
  data ← on_fd (FileDescriptor_read (ByteStream_remaining_capacity stream) kernel);
  _ ← on_flow (fl_log_from data);
  _ ← on_flow (fun f => fl_set_stream (snd (ByteStream_write (fl_stream f) data)) f);
  eof ← gets (fun p => fd_eof (fst p));
  if eof : bool then on_flow end_stream else mret tt.

(** The callbacks that drain a stream; [finish] is what is done to the descriptor once the
    stream has ended. *)
Definition write_from (kernel : bytes -> Z + Z) (finish : method FDWrapper unit) : end_of_flow unit :=
  stream ← gets (fun p => fl_stream (snd p));
  let bytes_to_write := Z.min max_copy_length (ByteStream_buffer_size stream) in
  let data := ByteStream_peek_output stream bytes_to_write in
  bytes_written ← on_fd (FileDescriptor_write [kernel data] (BufferViewList_of_string data) false 0);
  _ ← on_flow (fl_log_to (ztake bytes_written data));
  stream ← lift (ByteStream_pop_output stream bytes_written);
  _ ← on_flow (fl_set_stream stream);
  if ByteStream_eof stream then
    _ ← on_fd finish;
    on_flow (fl_set_shutdown true)
  else mret tt.

(** ** The rules *)

(** Rule 1: from standard input into the outbound stream. *)
Definition copy_rule1_callback : copy unit :=
  env ← gets sc_env; at_input (read_into (ce_input_read env)).
Definition copy_rule1_interest (s : StreamCopy) : bool :=
  negb (ByteStream_error (fl_stream (sc_outbound s))) &&
  (0 <? ByteStream_remaining_capacity (fl_stream (sc_outbound s))) &&
  negb (ByteStream_error (fl_stream (sc_inbound s))).

(** Rule 2: from the outbound stream into the socket. *)
Definition copy_rule2_callback : copy unit :=
  env ← gets sc_env; to_socket (write_from (ce_socket_write env) (Socket_shutdown SHUT_WR (ce_shutdown env))).

Definition drain_interest (f : flow) : bool :=
  negb (ByteStream_buffer_empty (fl_stream f)) || (ByteStream_eof (fl_stream f) && negb (fl_shutdown f)).

Definition copy_rule2_interest (s : StreamCopy) : bool := drain_interest (sc_outbound s).

(** Rule 3: from the socket into the inbound stream. *)
Definition copy_rule3_callback : copy unit :=
  env ← gets sc_env; from_socket (read_into (ce_socket_read env)).
Definition copy_rule3_interest (s : StreamCopy) : bool :=
  negb (ByteStream_error (fl_stream (sc_inbound s))) &&
  (0 <? ByteStream_remaining_capacity (fl_stream (sc_inbound s))) &&
  negb (ByteStream_error (fl_stream (sc_outbound s))).

(** Rule 4: from the inbound stream to standard output. *)
Definition copy_rule4_callback : copy unit :=
  env ← gets sc_env; at_output (write_from (ce_output_write env) (FDWrapper_close (ce_close env))).
Definition copy_rule4_interest (s : StreamCopy) : bool := drain_interest (sc_inbound s).

Inductive copy_rule_id : Type := Read_input | Write_socket | Read_socket | Write_output.

Definition copy_rule (t : copy_rule_id) : Rule StreamCopy :=
  match t with
  | Read_input => mkRule sc_input Direction_In copy_rule1_callback copy_rule1_interest (at_input (on_flow end_stream))
  | Write_socket => mkRule sc_socket Direction_Out copy_rule2_callback copy_rule2_interest (to_socket (on_flow end_stream))
  | Read_socket => mkRule sc_socket Direction_In copy_rule3_callback copy_rule3_interest (from_socket (on_flow end_stream))
  | Write_output => mkRule sc_output Direction_Out copy_rule4_callback copy_rule4_interest (at_output (on_flow end_stream))
  end.

(** ** The program *)

Abbreviation copy_loop := (method (list (Rule StreamCopy) * StreamCopy)).

Definition copy_turn (env : CopyEnv) : copy_loop Result := fun l =>
  wait_next_event (fun asked s => (ce_poll (sc_env s) asked, s)) (fst l) (sc_set_env env (snd l)).

(** [while (true)]; [NoFuel] when it is still running after the given turns. *)
Fixpoint copy_until_exit (envs : list CopyEnv) : copy_loop unit :=
  match envs with
  | [] => lift NoFuel
  | env :: envs' =>
      r ← copy_turn env;
      match r with Exit => mret tt | _ => copy_until_exit envs' end
  end.

(** The state at the start: [STDIN_FILENO] and [STDOUT_FILENO] are fresh, the socket is the
    caller's. *)
Definition copy_start (socket : FDWrapper) (env : CopyEnv) : StreamCopy :=
  mkCopy FDWrapper_new socket FDWrapper_new fl_new fl_new env.

Definition all_copy_rules : list copy_rule_id := [Read_input; Write_socket; Read_socket; Write_output].

(** The three pairs are the answers of [fcntl] for the descriptors. *)
Definition bidirectional_stream_copy (socket_fl input_fl output_fl : (Z + Z) * Z) (envs : list CopyEnv) : copy_loop unit :=
  _ ← lift (set_blocking false (fst socket_fl) (snd socket_fl));
  _ ← lift (set_blocking false (fst input_fl) (snd input_fl));
  _ ← lift (set_blocking false (fst output_fl) (snd output_fl));
  _ ← modify (fun l => (fold_left (fun rules t => add_rule (copy_rule t) rules) all_copy_rules (fst l), snd l));
  copy_until_exit envs.

(** ** The socket stays open

    Whatever the kernel answers and however the copying ends, the socket is not closed: only
    its counters and its end-of-file flag change. *)

Definition same_closed (f f' : FDWrapper) : Prop := fd_closed f' = fd_closed f.
#[export] Instance same_closed_preorder : PreOrder same_closed.
Proof. split; unfold same_closed; [done|]. intros x y z -> ->. done. Qed.

Definition socket_open (s s' : StreamCopy) : Prop := same_closed (sc_socket s) (sc_socket s').
#[export] Instance socket_open_preorder : PreOrder socket_open.
Proof. split; unfold socket_open; [done|]. intros x y z. apply same_closed_preorder. Qed.

Definition end_open (p p' : FDWrapper * flow) : Prop := same_closed (fst p) (fst p').
#[export] Instance end_open_preorder : PreOrder end_open.
Proof. split; unfold end_open; [done|]. intros x y z. apply same_closed_preorder. Qed.

Lemma read_keeps limit kernel : keeps same_closed (FileDescriptor_read limit kernel).
Proof. unfold FileDescriptor_read. keeping; exact eq_refl. Qed.

Lemma write_keeps buffer write_all total k : keeps same_closed (FileDescriptor_write [k] buffer write_all total).
Proof. cbn [FileDescriptor_write]. keeping; exact eq_refl. Qed.

Lemma shutdown_keeps how kernel : keeps same_closed (Socket_shutdown how kernel).
Proof. unfold Socket_shutdown. keeping; exact eq_refl. Qed.

Lemma on_fd_keeps {X} (m : method FDWrapper X) : keeps same_closed m -> keeps end_open (on_fd m).
Proof. intros H. apply (keeps_zoom end_open same_closed); [by intros [] t|done]. Qed.

Lemma on_flow_keeps g : keeps end_open (on_flow g).
Proof. apply keeps_modify. by intros []. Qed.

Lemma read_into_keeps kernel : keeps end_open (read_into kernel).
Proof.
  unfold read_into. keeping; try apply on_flow_keeps. apply on_fd_keeps, read_keeps.
Qed.

Lemma write_from_keeps kernel finish : keeps same_closed finish -> keeps end_open (write_from kernel finish).
Proof.
  intros Hf. unfold write_from. keeping; try apply on_flow_keeps; apply on_fd_keeps; [apply write_keeps|done].
Qed.

Lemma to_socket_keeps m : keeps end_open m -> keeps socket_open (to_socket m).
Proof. intros H. apply (keeps_zoom socket_open end_open); [by intros s []|done]. Qed.

Lemma from_socket_keeps m : keeps end_open m -> keeps socket_open (from_socket m).
Proof. intros H. apply (keeps_zoom socket_open end_open); [by intros s []|done]. Qed.

Lemma elsewhere_keeps m : keeps socket_open (at_input m) /\ keeps socket_open (at_output m).
Proof. split; intros s; unfold at_input, at_output, zoom; by destruct (m _). Qed.

Lemma copy_rule_keeps t : rule_keeps socket_open (copy_rule t).
Proof.
  destruct t; split; cbn [copy_rule ru_callback ru_cancel]; unfold copy_rule1_callback, copy_rule2_callback, copy_rule3_callback, copy_rule4_callback;
    keeping; try apply elsewhere_keeps; first [apply to_socket_keeps|apply from_socket_keeps]; try apply on_flow_keeps;
    [apply write_from_keeps, shutdown_keeps|apply read_into_keeps].
Qed.

Lemma copy_until_exit_keeps envs : forall rules s, Forall (rule_keeps socket_open) rules ->
  socket_open s (snd (snd (copy_until_exit envs (rules, s)))).
Proof.
  induction envs as [|e envs IH]; intros rules s Hr; [done|]. cbn [copy_until_exit]. unfold mbind, method_bind, copy_turn. cbn [fst snd].
  destruct (wait_keeps socket_open (fun asked s => (ce_poll (sc_env s) asked, s)) rules (sc_set_env e s)) as [H1 H2]; [done|done|].
  destruct (wait_next_event _ _ _) as [[r|x|] [rules' s']]; cbn [fst snd] in *; [|done..]. destruct r; [| |done]; (etrans; [exact H1|by apply IH]).
Qed.

Lemma stream_copy_keeps fl1 fl2 fl3 envs s : socket_open s (snd (snd (bidirectional_stream_copy fl1 fl2 fl3 envs ([], s)))).
Proof.
  unfold bidirectional_stream_copy. destruct (set_blocking false (fst fl1) (snd fl1)); [mrun|done..].
  destruct (set_blocking false (fst fl2) (snd fl2)); [mrun|done..]. destruct (set_blocking false (fst fl3) (snd fl3)); [mrun|done..].
  apply copy_until_exit_keeps. change (Forall (rule_keeps socket_open) (map copy_rule all_copy_rules)). apply Forall_map, Forall_forall. intros t _. apply copy_rule_keeps.
Qed.

(** ** The ends of a flow *)

(** What was read is what was written and what is still in the stream. *)
Record flow_inv (f : flow) (g : fifo) : Prop := {
  fi_stream : bs_repr (fl_stream f) g;
  fi_hist : ff_hist g = fl_from f;
  fi_to : fl_to f = ztake (ff_nread g) (fl_from f);
  fi_cap : ff_cap g = buffer_size;
  fi_shutdown : fl_shutdown f = true -> ff_ended g = true
}.

Definition flow_ok (f : flow) : Prop := exists g, flow_inv f g.

(** A descriptor that delivers no more than it was asked for, and one that accepts at
    least a byte of what is written. *)
Definition honest_read (kernel : Z -> Z + bytes) : Prop := forall n, 0 <= n -> exists d, kernel n = inr d /\ zlen d <= n.
Definition honest_write (kernel : bytes -> Z + Z) : Prop :=
  forall b, exists n, kernel b = inr n /\ 0 <= n <= zlen b /\ (b <> [] -> 0 < n).

Lemma flow_ok_new : flow_ok fl_new.
Proof. exists (mkFifo [] 0 buffer_size false false). by split; try apply bs_repr_new. Qed.

Lemma flow_ok_end f : flow_ok f -> flow_ok (end_stream f).
Proof.
  intros (g & []). exists (mkFifo (ff_hist g) (ff_nread g) (ff_cap g) true (ff_err g)). split; try done.
  by apply bs_end_input_repr.
Qed.

Lemma read_into_ok kernel fd f : honest_read kernel -> fd_ok fd -> flow_ok f -> zlen (fl_from f) + BUFFER_SIZE < W64 ->
  exists fd' f', read_into kernel (fd, f) = (Ok tt, (fd', f')) /\ fd_ok fd' /\ flow_ok f' /\
    fd_read_count fd' <> fd_read_count fd /\ zlen (fl_from f') <= zlen (fl_from f) + BUFFER_SIZE.
Proof.
  intros Hk Hfd (g & H) Hroom. pose proof (fi_stream _ _ H) as R.
  pose proof (br_room _ _ R) as Hcap. set (limit := ByteStream_remaining_capacity (fl_stream f)).
  assert (El : limit = fifo_room g) by by apply bs_remaining_spec.
  destruct (read_spec limit kernel fd) as (d & fd1 & Er & Hd & E1); [rewrite El; unfold fifo_room; lia|done|].
  assert (Hacc : fifo_accepts g d = d) by (unfold fifo_accepts; apply ztake_all; lia).
  destruct (bs_write_spec (fl_stream f) g R d) as [_ R1]; [rewrite Hacc, (fi_hist _ _ H); lia|].
  set (f1 := fl_set_stream (snd (ByteStream_write (fl_stream f) d)) (fl_log_from d f)).
  assert (H1 : flow_inv f1 (fifo_write g d)).
  { destruct H. pose proof (br_nreadb _ _ R). split; simpl; try done.
    - by rewrite Hacc, fi_hist0.
    - rewrite fi_hist0 in *. by rewrite fi_to0, ztake_app_le by lia. }
  exists fd1, (if fd_eof fd1 then end_stream f1 else f1). split; [|split; [|split; [|split]]].
  - unfold read_into. mrun. erewrite run_zoom by exact Er. unfold on_flow. mrun. simpl. by destruct (fd_eof fd1).
  - rewrite E1. split; [apply u32_range|apply Hfd].
  - assert (flow_ok f1) by by exists (fifo_write g d). destruct (fd_eof fd1); [by apply flow_ok_end|done].
  - rewrite E1. simpl. apply register_changes, Hfd.
  - assert (Hlen : zlen (fl_from f1) <= zlen (fl_from f) + BUFFER_SIZE) by (simpl; rewrite zlen_app; lia).
    by destruct (fd_eof fd1).
Qed.

Lemma write_from_ok kernel finish fd f : honest_write kernel -> fd_ok fd -> flow_ok f ->
  (forall fd1, fd_ok fd1 -> exists fd2, finish fd1 = (Ok tt, fd2) /\ fd_ok fd2 /\
    (fd_write_count fd2 = fd_write_count fd1 \/ fd_write_count fd2 = u32 (fd_write_count fd1 + 1))) ->
  exists fd' f', write_from kernel finish (fd, f) = (Ok tt, (fd', f')) /\ fd_ok fd' /\ flow_ok f' /\
    fd_write_count fd' <> fd_write_count fd /\ fl_from f' = fl_from f.
Proof.
  intros Hk Hfd (g & H) Hfin. pose proof (fi_stream _ _ H) as R. pose proof (bs_buffer_size_spec _ _ R) as Hsize.
  set (amount := Z.min max_copy_length (ByteStream_buffer_size (fl_stream f))).
  set (data := ByteStream_peek_output (fl_stream f) amount).
  assert (Hamount : 0 <= amount <= zlen (fifo_pending g)) by (unfold amount, max_copy_length; rewrite Hsize; zlia).
  assert (Hdata : data = ztake amount (fifo_pending g)) by (apply (bs_peek_spec _ _ R); lia).
  assert (Hlen : zlen data = amount) by (rewrite Hdata; by apply zlen_ztake).
  destruct (Hk data) as (n & En & Hn & Hpos). destruct (bs_pop_spec _ _ R n) as (st & Ep & R1); [lia|].
  set (fd1 := register_write fd). assert (Hfd1 : fd_ok fd1) by (split; [apply Hfd|apply u32_range]).
  set (f1 := fl_set_stream st (fl_log_to (ztake n data) f)).
  assert (H1 : flow_inv f1 (fifo_pop g n)).
  { destruct H. pose proof (br_nreadb _ _ R). split; simpl; try done.
    assert (E : ztake n data = ztake n (fifo_pending g)) by (rewrite Hdata; unfold ztake; rewrite take_take; f_equal; lia).
    rewrite E, fi_to0, <- fi_hist0. apply pop_take; lia. }
  destruct (Hfin fd1 Hfd1) as (fd2 & Ef & Hfd2 & Hc).
  exists (if ByteStream_eof st then fd2 else fd1), (if ByteStream_eof st then fl_set_shutdown true f1 else f1).
  split; [|split; [|split; [|split]]].
  - unfold write_from. mrun. cbn [snd]. fold amount. fold data. rewrite En.
    erewrite run_zoom by (apply write_once_spec; [lia|done|unfold amount, max_copy_length in *; lia]).
    unfold on_flow. mrun. rewrite Ep. mrun. destruct (ByteStream_eof st); [|done]. by erewrite run_zoom by exact Ef.
  - by destruct (ByteStream_eof st).
  - exists (fifo_pop g n). destruct (ByteStream_eof st) eqn:Ee; [|done]. destruct H1. split; try done. intros _.
    rewrite (bs_eof_spec st _ fi_stream0) in Ee. by apply andb_prop in Ee as [_ Ee].
  - destruct Hfd as [_ Hw]. destruct (ByteStream_eof st); [|by apply register_changes].
    destruct Hc as [->| ->]; [by apply register_changes|by apply register_changes_twice].
  - by destruct (ByteStream_eof st).
Qed.

Lemma shutdown_finishes fd : fd_ok fd -> exists fd2, Socket_shutdown SHUT_WR 0 fd = (Ok tt, fd2) /\ fd_ok fd2 /\
  (fd_write_count fd2 = fd_write_count fd \/ fd_write_count fd2 = u32 (fd_write_count fd + 1)).
Proof. intros Hfd. exists (register_write fd). split; [done|]. split; [split; [apply Hfd|apply u32_range]|by right]. Qed.

Lemma close_finishes fd : fd_ok fd -> exists fd2, FDWrapper_close 0 fd = (Ok tt, fd2) /\ fd_ok fd2 /\
  (fd_write_count fd2 = fd_write_count fd \/ fd_write_count fd2 = u32 (fd_write_count fd + 1)).
Proof. intros Hfd. eexists. split; [reflexivity|]. split; [apply Hfd|by left]. Qed.

(** ** One turn *)

Record copy_env_ok (e : CopyEnv) : Prop := {
  co_input : honest_read (ce_input_read e);
  co_socket : honest_read (ce_socket_read e);
  co_send : honest_write (ce_socket_write e);
  co_print : honest_write (ce_output_write e);
  co_shutdown : ce_shutdown e = 0;
  co_close : ce_close e = 0;
  co_poll asked : match ce_poll e asked with
                  | poll_failed _ => True
                  | poll_ready revents => length revents = length asked /\
                      Forall (fun v => any_bit v (Z.lor POLLERR POLLNVAL) = false) revents
                  end
}.

Record copy_ok (s : StreamCopy) : Prop := {
  ck_input : fd_ok (sc_input s);
  ck_socket : fd_ok (sc_socket s);
  ck_output : fd_ok (sc_output s);
  ck_outbound : flow_ok (sc_outbound s);
  ck_inbound : flow_ok (sc_inbound s)
}.

Definition copy_rank (t : copy_rule_id) : Z :=
  match t with Read_input => 1 | Write_socket => 2 | Read_socket => 3 | Write_output => 4 end.
Definition copy_before (t t' : copy_rule_id) : Prop := copy_rank t < copy_rank t'.

Section Turn.
Context (e : CopyEnv) (He : copy_env_ok e) (bound : Z) (Hbound : bound + BUFFER_SIZE < W64).

(** At the start of the turn at most [bound] bytes have come in on either side; each side
    is read at most once. *)
Definition below (b : Z) (f : flow) : Prop := zlen (fl_from f) <= b.

Definition copy_inv (s : StreamCopy) : Prop := sc_env s = e /\ copy_ok s /\
  below (bound + BUFFER_SIZE) (sc_outbound s) /\ below (bound + BUFFER_SIZE) (sc_inbound s).
Definition copy_inv0 (s : StreamCopy) : Prop := copy_inv s /\ below bound (sc_outbound s) /\ below bound (sc_inbound s).
Definition copy_enabled (t : copy_rule_id) (s : StreamCopy) : Prop :=
  match t with
  | Read_input => below bound (sc_outbound s)
  | Read_socket => below bound (sc_inbound s)
  | _ => True
  end.

Lemma copy_callbacks_cooperate t s : copy_inv s -> copy_enabled t s ->
  exists s', ru_callback (copy_rule t) s = (Ok tt, s') /\ copy_inv s' /\ True /\
    (service_count (copy_rule t) s =? service_count (copy_rule t) s') && ru_interest (copy_rule t) s' = false /\
    forall t', copy_before t t' -> copy_enabled t' s -> copy_enabled t' s'.
Proof.
  intros (Ee & [Hi Hs Ho Hout Hin] & Bo & Bi) Hen. destruct s as [input socket output outbound inbound env].
  cbn [sc_env sc_input sc_socket sc_output sc_outbound sc_inbound] in *. subst env. unfold below in *.
  assert (Hbusy : forall a b x, b <> a -> (a =? b) && x = false) by (intros a b x Hne; by rewrite (proj2 (Z.eqb_neq a b)) by done).
  destruct t; cbn [copy_rule ru_callback ru_interest service_count ru_direction ru_fd copy_enabled] in *;
    unfold below in *; cbn [sc_outbound sc_inbound] in *.
  - destruct (read_into_ok (ce_input_read e) input outbound) as (fd & f & E & Hfd & Hf & Hc & Hb); [apply He|done|done|lia|].
    exists (mkCopy fd socket output f inbound e). split; [unfold copy_rule1_callback, at_input, zoom; mrun; simpl; by rewrite E|].
    split; [split; [done|]; split; [done|]; unfold below; simpl; lia|]. split; [done|].
    split; [by apply Hbusy|]. by intros [] Hlt.
  - destruct (write_from_ok (ce_socket_write e) (Socket_shutdown SHUT_WR (ce_shutdown e)) socket outbound)
      as (fd & f & E & Hfd & Hf & Hc & Hb); [apply He|done|done|rewrite (co_shutdown _ He); apply shutdown_finishes|].
    exists (mkCopy input fd output f inbound e). split; [unfold copy_rule2_callback, to_socket, zoom; mrun; simpl; by rewrite E|].
    split; [split; [done|]; split; [done|]; unfold below; simpl; by rewrite Hb|]. split; [done|].
    split; [by apply Hbusy|]. by intros [] Hlt.
  - destruct (read_into_ok (ce_socket_read e) socket inbound) as (fd & f & E & Hfd & Hf & Hc & Hb); [apply He|done|done|lia|].
    exists (mkCopy input fd output outbound f e). split; [unfold copy_rule3_callback, from_socket, zoom; mrun; simpl; by rewrite E|].
    split; [split; [done|]; split; [done|]; unfold below; simpl; lia|]. split; [done|].
    split; [by apply Hbusy|]. by intros [] Hlt.
  - destruct (write_from_ok (ce_output_write e) (FDWrapper_close (ce_close e)) output inbound)
      as (fd & f & E & Hfd & Hf & Hc & Hb); [apply He|done|done|rewrite (co_close _ He); apply close_finishes|].
    exists (mkCopy input socket fd outbound f e). split; [unfold copy_rule4_callback, at_output, zoom; mrun; simpl; by rewrite E|].
    split; [split; [done|]; split; [done|]; unfold below; simpl; by rewrite Hb|]. split; [done|].
    split; [by apply Hbusy|]. by intros [] Hlt.
Qed.

Lemma copy_cancels_cooperate t s : copy_inv s ->
  exists s', ru_cancel (copy_rule t) s = (Ok tt, s') /\ copy_inv s' /\ True /\ (copy_inv0 s -> copy_inv0 s') /\
    forall t', copy_before t' t \/ copy_before t t' -> copy_enabled t' s -> copy_enabled t' s'.
Proof.
  intros (Ee & [] & Bo & Bi). destruct s as [input socket output outbound inbound env].
  pose proof (flow_ok_end _ ck_outbound0). pose proof (flow_ok_end _ ck_inbound0).
  destruct t; (eexists; split; [reflexivity|]; split; [done|]; split; [done|]; split; [|by intros []]; by intros (_ & ?)).
Qed.

Lemma copy_turn_ok ids rules s : rules = map copy_rule ids -> StronglySorted copy_before ids -> copy_ok s ->
  below bound (sc_outbound s) -> below bound (sc_inbound s) ->
  exists ret ids' s', copy_turn e (rules, s) = (Ok ret, (map copy_rule ids', s')) /\ StronglySorted copy_before ids' /\
    copy_ok s' /\ below (bound + BUFFER_SIZE) (sc_outbound s') /\ below (bound + BUFFER_SIZE) (sc_inbound s').
Proof.
  intros -> Hids Hs Bo Bi.
  destruct (wait_cooperates copy_rule copy_before copy_inv copy_inv0 (fun _ _ => True) copy_enabled)
    with (poll := fun asked s0 => (ce_poll (sc_env s0) asked, s0)) (ids := ids) (w := sc_set_env e s)
    as (ret & ids' & s' & E & (_ & Hs' & Bo' & Bi') & _ & Hsub); try done.
  - by intros s0 [? _].
  - intros [] s0 (_ & H1 & H2) _; done.
  - apply copy_cancels_cooperate.
  - apply copy_callbacks_cooperate.
  - split; [|done]. split; [done|]. split; [by destruct Hs|]. unfold below, BUFFER_SIZE in *. simpl. lia.
  - intros asked s0 [-> _]. exists (ce_poll e asked). split; [done|apply (co_poll _ He)].
  - exists ret, ids', s'. split; [exact E|]. split; [by apply (sorted_sublist copy_before _ _ Hsub)|done].
Qed.
End Turn.

(** ** The whole run *)

(** What was read from the source is what was written to the sink, followed by what the
    stream still holds, which is within the buffer's size; the sink is shut down only after
    the stream was ended. *)
Definition carries (f : flow) : Prop :=
  fl_from f = fl_to f ++ ByteStream_peek_output (fl_stream f) (ByteStream_buffer_size (fl_stream f)) /\
  0 <= ByteStream_buffer_size (fl_stream f) <= buffer_size /\
  (fl_shutdown f = true -> ByteStream_input_ended (fl_stream f) = true).

Lemma flow_ok_carries f : flow_ok f -> carries f.
Proof.
  intros (g & [R Hh Ht Hc Hs]). unfold carries. rewrite (bs_buffer_size_spec _ _ R), (bs_peek_spec _ _ R) by apply zlen_nonneg.
  split; [|split; [rewrite <- Hc; split; [apply zlen_nonneg|apply R]|]].
  - rewrite ztake_all by lia. rewrite Ht. unfold fifo_pending. rewrite Hh. symmetry. apply take_drop.
  - unfold ByteStream_input_ended. by rewrite (br_ended _ _ R).
Qed.

Lemma copy_until_exit_ok envs : forall bound ids s, Forall copy_env_ok envs -> StronglySorted copy_before ids -> copy_ok s ->
  below bound (sc_outbound s) -> below bound (sc_inbound s) -> bound + zlen envs * BUFFER_SIZE < W64 ->
  exists r l, copy_until_exit envs (map copy_rule ids, s) = (r, l) /\ (r = Ok tt \/ r = NoFuel) /\ copy_ok (snd l).
Proof.
  induction envs as [|e envs IH]; intros bound ids s He Hids Hs Bo Bi Hb; cbn [copy_until_exit].
  { exists NoFuel, (map copy_rule ids, s). split; [done|]. split; [by right|done]. }
  apply Forall_cons in He as [He1 He]. rewrite zlen_cons in Hb. unfold BUFFER_SIZE in *.
  destruct (copy_turn_ok e He1 bound ltac:(unfold BUFFER_SIZE; zlia) ids _ s eq_refl Hids Hs Bo Bi)
    as (ret & ids1 & s1 & E & Hids1 & Hs1 & Bo1 & Bi1).
  erewrite run_bind by exact E. unfold BUFFER_SIZE in *.
  destruct ret; [| |by exists (Ok tt), (map copy_rule ids1, s1); split; [|split; [left|]]];
    by apply (IH (bound + 1024 * 1024)); [..|zlia].
Qed.

Lemma copy_rules_sorted : StronglySorted copy_before all_copy_rules.
Proof. repeat (constructor; [|repeat constructor]). constructor. Qed.

Definition nonblocking_ok (fl : (Z + Z) * Z) : Prop := exists flags, 0 <= flags /\ fl = (inr flags, 0).

Lemma stream_copy_starts fl1 fl2 fl3 envs s : nonblocking_ok fl1 -> nonblocking_ok fl2 -> nonblocking_ok fl3 ->
  bidirectional_stream_copy fl1 fl2 fl3 envs ([], s) = copy_until_exit envs (map copy_rule all_copy_rules, s).
Proof.
  intros (x & Hx & ->) (y & Hy & ->) (z & Hz & ->). unfold bidirectional_stream_copy.
  destruct (set_blocking_spec false x Hx) as (? & E1 & _), (set_blocking_spec false y Hy) as (? & E2 & _),
    (set_blocking_spec false z Hz) as (? & E3 & _).
  cbn [fst snd]. rewrite E1. mrun. rewrite E2. mrun. rewrite E3. mrun. reflexivity.
Qed.

(** C25: [bidirectional_stream_copy] loses, invents and reorders nothing. With a kernel that
    reports no errors, reads no more than asked and accepts at least a byte of each write,
    the program either returns or is still running after the given turns (it never throws,
    in particular never a busy wait), and in both directions the bytes read from the source
    are the bytes written to the sink followed by those buffered, at most 1 MiB. *)
Theorem stream_copy_carries_both_streams fl1 fl2 fl3 socket env envs :
  nonblocking_ok fl1 -> nonblocking_ok fl2 -> nonblocking_ok fl3 -> fd_ok socket -> Forall copy_env_ok envs ->
  zlen envs * BUFFER_SIZE < W64 ->
  let '(r, (_, s)) := bidirectional_stream_copy fl1 fl2 fl3 envs ([], copy_start socket env) in
  (r = Ok tt \/ r = NoFuel) /\ carries (sc_outbound s) /\ carries (sc_inbound s).
Proof.
  intros H1 H2 H3 Hfd He Hb. rewrite stream_copy_starts by done.
  destruct (copy_until_exit_ok envs 0 all_copy_rules (copy_start socket env)) as (r & [rules s] & -> & Hr & []);
    [done|apply copy_rules_sorted| |done|done|done|].
  - split; try apply flow_ok_new; done.
  - split; [done|]. split; by apply flow_ok_carries.
Qed.

(** Both sources ended, both streams drained, both sinks shut down. *)
Record finished (s : StreamCopy) : Prop := {
  fn_input : fd_eof (sc_input s) = true;
  fn_socket : fd_eof (sc_socket s) = true;
  fn_outbound : ByteStream_buffer_empty (fl_stream (sc_outbound s)) = true /\ fl_shutdown (sc_outbound s) = true;
  fn_inbound : ByteStream_buffer_empty (fl_stream (sc_inbound s)) = true /\ fl_shutdown (sc_inbound s) = true
}.

Definition same_logs (s s' : StreamCopy) : Prop :=
  fl_to (sc_outbound s') = fl_to (sc_outbound s) /\ fl_to (sc_inbound s') = fl_to (sc_inbound s).

Lemma finished_cancels t s : finished s -> exists s', ru_cancel (copy_rule t) s = (Ok tt, s') /\ finished s' /\ same_logs s s'.
Proof. intros []. destruct t; (eexists; split; [reflexivity|]; by split). Qed.

Lemma finished_drained f : ByteStream_buffer_empty (fl_stream f) = true -> fl_shutdown f = true -> drain_interest f = false.
Proof. intros H1 H2. unfold drain_interest. by rewrite H1, H2, andb_false_r. Qed.

Lemma setup_finished ids : forall kept pollfds s, finished s -> exists pollfds' rules s',
  setup_loop kept (map copy_rule ids) pollfds false s = (Ok (pollfds', false), (rules, s')) /\ same_logs s s'.
Proof.
  induction ids as [|t ids IH]; intros kept pollfds s Hf; cbn [map setup_loop]; [by exists pollfds, kept, s|].
  assert (Hcancel : exists pollfds' rules s', cancel_rule kept (copy_rule t) (map copy_rule ids)
    (setup_loop kept (map copy_rule ids) pollfds false) s = (Ok (pollfds', false), (rules, s')) /\ same_logs s s').
  { unfold cancel_rule. destruct (finished_cancels t s Hf) as (s1 & -> & Hf1 & [L1 L2]).
    destruct (IH kept pollfds s1 Hf1) as (p & rs & s2 & -> & [L3 L4]). exists p, rs, s2. split; [done|]. split; congruence. }
  pose proof Hf as [F1 F2 [F3 F4] [F5 F6]].
  destruct t; cbn [copy_rule ru_direction ru_fd ru_interest] in *; rewrite ?F1, ?F2; cbn [orb]; try exact Hcancel;
    (destruct (fd_closed _); [exact Hcancel|]; unfold copy_rule2_interest, copy_rule4_interest;
     rewrite finished_drained by done; by apply IH).
Qed.

(** C26: the copy ends. When both sources have reached their end, both streams are drained and both
    sinks are shut down, the next turn finds nothing to poll and the program returns,
    whatever rules are left and whatever the kernel would answer, and has written nothing more. *)
Theorem stream_copy_returns_when_done ids s env envs : finished s ->
  exists l, copy_until_exit (env :: envs) (map copy_rule ids, s) = (Ok tt, l) /\ same_logs s (snd l).
Proof.
  intros Hf. assert (Hf1 : finished (sc_set_env env s)) by by destruct Hf.
  destruct (setup_finished ids [] [] _ Hf1) as (p & rules & s' & E & L). exists (rules, s'). split; [|exact L].
  cbn [copy_until_exit]. erewrite run_bind by (unfold copy_turn, wait_next_event; cbn [fst snd]; rewrite E; reflexivity). done.
Qed.

(** ** A run *)

(** Whatever is asked for is ready; everything written is accepted. *)
Definition eager (input socket : bytes) : CopyEnv :=
  mkCopyEnv (fun asked => poll_ready (map (fun ev => Z.land ev (Z.lor POLLIN POLLOUT)) asked)) (fun n => inr (ztake n input)) (fun n => inr (ztake n socket)) (fun b => inr (zlen b)) (fun b => inr (zlen b)) 0 0.

(** Data arrives from both sides, both sides end, the program returns. *)
Definition demo_envs : list CopyEnv :=
  [eager [byte_of 104; byte_of 105] [byte_of 121; byte_of 111]; eager [] []; eager [] []].

Definition demo_copy : res unit * (list (Rule StreamCopy) * StreamCopy) :=
  bidirectional_stream_copy (inr 2, 0) (inr 2, 0) (inr 2, 0) demo_envs ([], copy_start FDWrapper_new (eager [] [])).

Example demo_copy_ends : fst demo_copy = Ok tt /\
  fl_to (sc_outbound (snd (snd demo_copy))) = [byte_of 104; byte_of 105] /\
  fl_to (sc_inbound (snd (snd demo_copy))) = [byte_of 121; byte_of 111] /\
  fd_closed (sc_output (snd (snd demo_copy))) = true.
Proof. by vm_compute. Qed.

Lemma truncated_read d : honest_read (fun n => inr (ztake n d)).
Proof. intros n Hn. exists (ztake n d). split; [done|]. rewrite zlen_ztake_min by done. lia. Qed.

Lemma whole_write : honest_write (fun b => inr (zlen b)).
Proof. intros b. exists (zlen b). split; [done|]. split; [zlia|]. intros Hb. destruct b; [done|]. rewrite zlen_cons. zlia. Qed.

Lemma eager_ok input socket : copy_env_ok (eager input socket).
Proof.
  split; try done; try apply truncated_read; try apply whole_write. intros asked. cbn [ce_poll eager].
  split; [apply length_map|]. apply Forall_map, Forall_forall. intros x _. cbn. unfold any_bit. by rewrite <- Z.land_assoc, Z.land_0_r.
Qed.

Lemma stream_copy_carries_both_streams_witness :
  fst demo_copy = Ok tt \/ fst demo_copy = NoFuel.
Proof.
  assert (Hfl : nonblocking_ok (inr 2, 0)) by (exists 2; done).
  pose proof (stream_copy_carries_both_streams (inr 2, 0) (inr 2, 0) (inr 2, 0) FDWrapper_new (eager [] []) demo_envs
    Hfl Hfl Hfl) as H. fold demo_copy in H.
  destruct demo_copy as [r [rules s]]. apply H; [done| |done]. by repeat (apply Forall_cons; split; [apply eager_ok|]).
Defined.

Definition done_copy : StreamCopy :=
  let ended := mkFlow [] (ByteStream_end_input (ByteStream_new buffer_size)) true [] in
  mkCopy (mkFD true false 1 0) (mkFD true false 1 2) (mkFD true true 0 1) ended ended (eager [] []).

Lemma stream_copy_returns_when_done_witness : exists l,
  copy_until_exit [eager [] []] (map copy_rule [Write_socket; Write_output], done_copy) = (Ok tt, l).
Proof.
  destruct (stream_copy_returns_when_done [Write_socket; Write_output] done_copy (eager [] []) []) as (l & E & _).
  - by split.
  - by exists l.
Defined.
