(* ===== verification/Lab7.v ===== *)
(** * Two hosts behind two routers

    Models [apps/lab7.cc]: a TCP socket on a private network, whose Ethernet frames a thread
    passes through a [Router] to a UDP socket and back. The thread's event loop has four
    rules; the kernel's answers in one turn are a [NetEnv], and what the thread writes is
    logged by its devices. The program prints a summary of each frame if asked to; that is
    left out. *)

From stdpp Require Import sorting.
From Stdlib Require Import String.
From S2P Require Import Prelude WrappingInts Buffers Checksum Parser TCPSegments IPv4 Ethernet Addresses Sender Connection Emitted Adapters Interface Frames Router Simulator FileDescriptors EventLoop Devices TapAdapter SpongeSocket.

(** What the program needs of the kernel for every datagram it sends, and the iteration
    orders of the interfaces' maps. *)
Section Lab7.
Context (writev : bytes -> list (Z + Z)).
Context (arp_order : gmap Z ARP_Entry -> list Z) (pending_order : gmap Z Z -> list Z).

(** ** The adapter

    [NetworkInterfaceAdapter] repeats the code of [TCPOverIPv4OverEthernetAdapter] for the
    first end of a pair of datagram sockets, [ta_tap] here; its constructor sends nothing.
    The second end is [frame_fd()], which the thread holds. *)

Definition NetworkInterfaceAdapter_new (eth_address : EthernetAddress) (ip_address next_hop : Address) : TCPOverIPv4OverEthernetAdapter :=
  mkTap FdAdapterBase_default (mkDevice FDWrapper_new []) (NetworkInterface_new eth_address ip_address) next_hop.

Definition NetworkInterfaceAdapter_read (kernel : Z + bytes) : method TCPOverIPv4OverEthernetAdapter (option TCPSegment) :=
  TapAdapter_read writev kernel.
Definition NetworkInterfaceAdapter_write (seg : TCPSegment) : method TCPOverIPv4OverEthernetAdapter unit :=
  TapAdapter_write writev seg.
Definition NetworkInterfaceAdapter_tick (ms_since_last_tick : Z) : method TCPOverIPv4OverEthernetAdapter unit :=
  TapAdapter_tick writev arp_order pending_order ms_since_last_tick.

(** ** The socket

    [TCPSocketLab7] keeps its local address, which goes with the socket here. [ip()] and
    [Address{ip, port}] go through the printed address. *)

Abbreviation lab7_socket := (TCPSpongeSocket TCPOverIPv4OverEthernetAdapter (Z + bytes)).
Abbreviation lab7_looped := (method (list (Rule lab7_socket) * lab7_socket)).

(** The local address with the random port, and the configuration. *)
Definition connect_config (local_address address : Address) (random : Z) : res (Address * FdAdapterConfig) :=
  ip ← ipv4_numeric local_address;
  local_address ← Address_of_ip_port ip (u16 random);
  Ok (local_address, mkFdAdapterConfig local_address address 0 0).

Definition TCPSocketLab7_connect (local_address address : Address) (random_port random : Z) (envs : list (Env (Z + bytes))) (base_time : Z)
  : lab7_looped Address :=
  '(local_address, multiplexer_config) ← lift (connect_config local_address address random_port);
  _ ← TCPSpongeSocket_connect (FA := TapAdapter writev arp_order pending_order) TCPConfig_default multiplexer_config random envs base_time;
  mret local_address.

(** The new local address. *)
Definition TCPSocketLab7_bind (local_address address : Address) : res Address :=
  ip ← ipv4_numeric local_address;
  ip' ← ipv4_numeric address;
  if negb (ip' =? ip) then Throw (runtime_error "Cannot bind to address")
  else port ← Address_port address; Address_of_ip_port ip port.

Definition listen_config (local_address : Address) : FdAdapterConfig := mkFdAdapterConfig local_address (inet 0 0) 0 0.

Definition TCPSocketLab7_listen_and_accept (local_address : Address) (random : Z) (envs : list (Env (Z + bytes))) (base_time : Z)
  : lab7_looped unit :=
  TCPSpongeSocket_listen_and_accept (FA := TapAdapter writev arp_order pending_order) TCPConfig_default (listen_config local_address)
    random envs base_time.

(** ** The router *)

Definition lab7_interface (rd : nat -> Z) (k : nat) (address : Address) : AsyncNetworkInterface :=
  AsyncNetworkInterface_new (NetworkInterface_new (random_router_ethernet_address rd (6 * k)) address).

(** [host_side], [internet_side] and the router; the addresses of the router's interfaces
    are the first that are drawn. *)
Definition lab7_router (is_client : bool) (rd : nat -> Z) : Z * Z * Router :=
  if is_client then
    let '(host_side, r) := add_interface (lab7_interface rd 0 (host_at 192 168 0 1)) Router_new in
    let '(internet_side, r) := add_interface (lab7_interface rd 1 (host_at 10 0 0 192)) r in
    let r := add_route (ip 192 168 0 0) 16 None host_side r in
    let r := add_route (ip 10 0 0 0) 8 None internet_side r in
    let r := add_route (ip 172 16 0 0) 12 (Some (host_at 10 0 0 172)) internet_side r in
    (host_side, internet_side, r)
  else
    let '(host_side, r) := add_interface (lab7_interface rd 0 (host_at 172 16 0 1)) Router_new in
    let '(internet_side, r) := add_interface (lab7_interface rd 1 (host_at 10 0 0 172)) r in
    let r := add_route (ip 172 16 0 0) 12 None host_side r in
    let r := add_route (ip 10 0 0 0) 8 None internet_side r in
    let r := add_route (ip 192 168 0 0) 16 (Some (host_at 10 0 0 192)) internet_side r in
    (host_side, internet_side, r).

(** The adapter of [sock]. *)
Definition lab7_adapter (is_client : bool) (rd : nat -> Z) : TCPOverIPv4OverEthernetAdapter :=
  if is_client then NetworkInterfaceAdapter_new (random_host_ethernet_address rd 12) (host_at 192 168 0 50) (host_at 192 168 0 1)
  else NetworkInterfaceAdapter_new (random_host_ethernet_address rd 12) (host_at 172 16 0 100) (host_at 172 16 0 1).

(** ** The network thread *)

(** The kernel's answers in one turn: what the frame socket and the Internet socket have to
    read, the answer to [sendmsg], what [poll] reports; and the flag the main thread sets. *)
Record NetEnv : Type := mkNetEnv {
  ne_host_read : Z + bytes;
  ne_internet_read : Z + bytes;
  ne_sendmsg : bytes -> Z + Z;
  ne_poll : list Z -> poll_outcome;
  ne_exit_flag : bool
}.

Record NetworkThread : Type := mkThread {
  nt_frame_fd : Device bytes;
  nt_internet_socket : Device bytes;
  nt_router : Router;
  nt_host_side : Z;
  nt_internet_side : Z;
  nt_env : NetEnv
}.

Definition nt_set_frame_fd (v : Device bytes) (t : NetworkThread) : NetworkThread :=
  mkThread v (nt_internet_socket t) (nt_router t) (nt_host_side t) (nt_internet_side t) (nt_env t).
Definition nt_set_internet_socket (v : Device bytes) (t : NetworkThread) : NetworkThread :=
  mkThread (nt_frame_fd t) v (nt_router t) (nt_host_side t) (nt_internet_side t) (nt_env t).
Definition nt_set_router (v : Router) (t : NetworkThread) : NetworkThread :=
  mkThread (nt_frame_fd t) (nt_internet_socket t) v (nt_host_side t) (nt_internet_side t) (nt_env t).
Definition nt_set_env (v : NetEnv) (t : NetworkThread) : NetworkThread :=
  mkThread (nt_frame_fd t) (nt_internet_socket t) (nt_router t) (nt_host_side t) (nt_internet_side t) v.

Abbreviation net := (method NetworkThread).
Abbreviation on_router := (zoom nt_router nt_set_router).

(** A call on the object [interface(n)] refers to. *)
Definition on_interface {X} (n : Z) (m : method AsyncNetworkInterface X) : method Router X := fun r =>
  match Router_interface r n with
  | Ok i => let '(x, i') := m i in (x, set_interface n i' r)
  | Throw e => (Throw e, r)
  | NoFuel => (NoFuel, r)
  end.

(** What both rules for incoming frames do with the bytes they read. *)
Definition receive_and_route (side : Z) (str : bytes) : net unit :=
  '(result, frame) ← lift (EthernetFrame_parse EthernetFrame_default (Buffer_of_string str));
  if negb (bool_decide (result = NoError)) then mret tt
  else
    _ ← on_router (on_interface side (AsyncNetworkInterface_recv_frame frame));
    on_router route.

(** [f.front()] and [f.pop()] for [f = router.interface(side).frames_out()]. *)
Definition front_frame (side : Z) : net EthernetFrame :=
  i ← on_router (on_interface side (gets id));
  match frames_of i with
  | frame :: _ => mret frame
  | [] => lift (Throw (UB "front of an empty queue"))
  end.
Definition pop_frame (side : Z) : net unit :=
  on_router (on_interface side (modify (fun i => set_frames (tail (frames_of i)) i))).
Definition has_frames (side : Z) (t : NetworkThread) : bool :=
  match Router_interface (nt_router t) side with Ok i => negb (bool_decide (frames_of i = [])) | _ => false end.

(** Frames from host to router. *)
Definition host_to_router : net unit :=
  env ← gets nt_env;
  side ← gets nt_host_side;
  str ← zoom nt_frame_fd nt_set_frame_fd (Device_read (ne_host_read env));
  receive_and_route side str.

(** Frames from router to host. *)
Definition router_to_host : net unit :=
  side ← gets nt_host_side;
  frame ← front_frame side;
  _ ← zoom nt_frame_fd nt_set_frame_fd (Device_write writev (EthernetFrame_serialize frame));
  pop_frame side.

(** Frames from router to Internet. *)
Definition router_to_internet : net unit :=
  env ← gets nt_env;
  side ← gets nt_internet_side;
  frame ← front_frame side;
  let views := BufferViewList_of_BufferList (EthernetFrame_serialize frame) in
  _ ← zoom nt_internet_socket nt_set_internet_socket (zoom dv_fd dv_set_fd (UDPSocket_sendto views (ne_sendmsg env (concat views))));
  _ ← zoom nt_internet_socket nt_set_internet_socket (modify (dv_log (concat views)));
  pop_frame side.

(** Frames from Internet to router. *)
Definition internet_to_router : net unit :=
  env ← gets nt_env;
  side ← gets nt_internet_side;
  str ← zoom nt_internet_socket nt_set_internet_socket (Device_read (ne_internet_read env));
  receive_and_route side str.

Inductive net_rule_id : Type := Host_to_router | Router_to_host | Router_to_internet | Internet_to_router.

Definition net_rule (t : net_rule_id) : Rule NetworkThread :=
  let frame_fd t := dv_fd (nt_frame_fd t) in
  let internet_socket t := dv_fd (nt_internet_socket t) in
  match t with
  | Host_to_router => mkRule frame_fd Direction_In host_to_router (fun _ => true) (mret tt)
  | Router_to_host => mkRule frame_fd Direction_Out router_to_host (fun t => has_frames (nt_host_side t) t) (mret tt)
  | Router_to_internet => mkRule internet_socket Direction_Out router_to_internet (fun t => has_frames (nt_internet_side t) t) (mret tt)
  | Internet_to_router => mkRule internet_socket Direction_In internet_to_router (fun _ => true) (mret tt)
  end.

Definition all_net_rules : list net_rule_id := [Host_to_router; Router_to_host; Router_to_internet; Internet_to_router].

Abbreviation net_loop := (method (list (Rule NetworkThread) * NetworkThread)).
Definition on_thread {X} (m : net X) : net_loop X := zoom snd (fun t l => (fst l, t)) m.

(** [router.interface(side).tick(50)]; fuel 2, as an overdue request is looked at twice. *)
Definition tick_side (side : Z) : net unit :=
  on_router (on_interface side (on_base (fun s =>
    NetworkInterface_tick 2 (arp_order (ni_arp_table s)) (pending_order (ni_waiting_arp_response_ip_addr s)) 50 s))).

(** One pass of [while (true)]: whether the thread returns. *)
Definition network_turn (env : NetEnv) : net_loop bool :=
  r ← (fun l => wait_next_event (fun asked t => (ne_poll (nt_env t) asked, t)) (fst l) (nt_set_env env (snd l)));
  match r with
  | Exit => mret true
  | _ =>
      t ← on_thread (gets id);
      _ ← on_thread (tick_side (nt_host_side t));
      _ ← on_thread (tick_side (nt_internet_side t));
      mret (ne_exit_flag env)
  end.

(** [NoFuel] when the thread is still running after the given turns. *)
Fixpoint network_loop (envs : list NetEnv) : net_loop unit :=
  match envs with
  | [] => lift NoFuel
  | env :: envs' => stop ← network_turn env; if stop : bool then mret tt else network_loop envs'
  end.

(** The thread's function: an exception ends it and is printed. Undefined behaviour cannot
    be caught. *)
Definition network_thread (envs : list NetEnv) : net_loop (option exn) := fun l =>
  match (_ ← modify (fun l => (fold_left (fun rules t => add_rule (net_rule t) rules) all_net_rules (fst l), snd l));
         network_loop envs) l with
  | (Ok _, l') => (Ok None, l')
  | (Throw (UB s), l') => (Throw (UB s), l')
  | (Throw e, l') => (Ok (Some e), l')
  | (NoFuel, l') => (NoFuel, l')
  end.

(** The empty datagrams that tell the bouncer where we are. *)
Definition announce (sendmsg : bytes -> Z + Z) : method (Device bytes) unit :=
  let once : method (Device bytes) unit :=
    _ ← zoom dv_fd dv_set_fd (UDPSocket_sendto (BufferViewList_of_string []) (sendmsg []));
    modify (dv_log []) in
  _ ← once; _ ← once; once.

(** What [program_body] sets up before it starts the thread; [env] is that of the first turn. *)
Definition lab7_thread (is_client : bool) (rd : nat -> Z) (env : NetEnv) : res NetworkThread :=
  let '(r, internet_socket) := announce (ne_sendmsg env) (mkDevice FDWrapper_new []) in
  _ ← r;
  let '(host_side, internet_side, router) := lab7_router is_client rd in
  Ok (mkThread (mkDevice FDWrapper_new []) internet_socket router host_side internet_side env).
End Lab7.

(** ** What crosses the router

    Three properties of datagrams: [Dh] of those the host sends, [Do] of those the router
    sends to the Internet, [Di] of those that come from there and go to the host. *)
Section Crossing.
Context (table : list route_item) (Dh Do Di : InternetDatagram -> Prop).

(** The routes send the host's datagrams to the Internet side, number 1, and those from
    the Internet to the host side, number 0. *)
Record crossing : Prop := {
  cr_host_valid d : Dh d -> datagram_valid d;
  cr_out_valid d : Do d -> datagram_valid d;
  cr_in_valid d : Di d -> datagram_valid d;
  cr_out d it : Dh d -> best_of (ip_dst (ipd_header d)) table (Some it) -> rt_interface_num it = 1 /\ Do (decremented d);
  cr_in d it : Di d -> best_of (ip_dst (ipd_header d)) table (Some it) -> rt_interface_num it = 0 /\ Di (decremented d)
}.
Context (Hcr : crossing).

(** The router's two interfaces. *)
Record sides (r : Router) (h n : AsyncNetworkInterface) : Prop := {
  sd_interfaces : ro_interfaces r = [h; n];
  sd_table : ro_route_table r = table;
  sd_host : ni_holds Di (ai_interface h);
  sd_internet : ni_holds Do (ai_interface n)
}.

(** Frames that wait to be sent are not dropped. *)
Definition keeps_frames (i i' : AsyncNetworkInterface) : Prop := frames_of i <> [] -> frames_of i' <> [].

Lemma sent_keeps s d hop ip s' : sent s d hop ip s' -> ni_frames_out s <> [] -> ni_frames_out s' <> [].
Proof.
  unfold sent. intros H Hf. destruct (ni_arp_table s !! ip); [destruct H as (f & _ & ->)|];
    [|destruct (ni_waiting_arp_response_ip_addr s !! ip); [by subst|destruct H as (f & _ & ->)]];
    cbn; by intros [? _]%app_eq_nil.
Qed.

Lemma received_keeps s frame b o s' : received s frame b o s' -> ni_frames_out s <> [] -> ni_frames_out s' <> [].
Proof.
  unfold received. intros H Hf. destruct (decide _); [|by destruct H as [_ ->]].
  destruct (_ =? TYPE_IPv4); [by destruct H as [-> _]|]. destruct (_ =? TYPE_ARP); [|by destruct H as [_ ->]].
  destruct H as (_ & r & m & _ & H). destruct (_ && _); [|by subst]. destruct H as (replies & fs & -> & _).
  cbn. by intros [? _]%app_eq_nil.
Qed.

Lemma valid_ok d : datagram_valid d -> dgram_ok d.
Proof.
  intros V. destruct (IPv4Datagram_serialize_ok d V) as (v & _ & _ & E). split; [by eexists|]. destruct V as ([] & _). done.
Qed.

(** Forwarding keeps the two sides apart. *)
Section Route.
Context (h0 n0 : AsyncNetworkInterface).

Definition apart (r : Router) : Prop := exists h n, sides r h n /\ keeps_frames h0 h /\ keeps_frames n0 n.

Lemma apart_forwarded r d r' d' : ro_inv r -> apart r -> dgram_ok d -> Dh d \/ Di d -> forwarded r d r' d' -> apart r'.
Proof.
  intros I (h & n & [Ei Et Hh Hn] & Kh & Kn) _ HQ (o & Hb & Hf). destruct o as [it|]; [|destruct Hf as [-> _]; by exists h, n].
  destruct Hf as [-> Hf]. destruct (1 <? ip_ttl (ipd_header d)); [|subst r'; by exists h, n].
  destruct Hf as (i & i' & hop & k & Ezn & _ & Ek & Hs & ->). rewrite Et in Hb. rewrite Ei in Ezn. pose proof (ipv4_numeric_range _ _ Ek) as Hk.
  pose proof (rv_interfaces _ I) as Hall. rewrite Ei in Hall. apply Forall_cons in Hall as [[Ih _] Hall]. apply Forall_cons in Hall as [[In _] _].
  destruct HQ as [Hd|Hd].
  - destruct (cr_out Hcr d it Hd Hb) as [E1 Hd']. rewrite E1 in *. injection Ezn as <-. exists h, (mkAsync i' (ai_datagrams_out n)).
    split; [split; cbn; try done; [by rewrite Ei|]|split; [done|]].
    + by apply (sent_holds Do (cr_out_valid Hcr) (ai_interface n) (decremented d) hop k).
    + intros Hne. apply (sent_keeps _ _ _ _ _ Hs). by apply Kn.
  - destruct (cr_in Hcr d it Hd Hb) as [E0 Hd']. rewrite E0 in *. injection Ezn as <-. exists (mkAsync i' (ai_datagrams_out h)), n.
    split; [split; cbn; try done; [by rewrite Ei|]|split; [|done]].
    + by apply (sent_holds Di (cr_in_valid Hcr) (ai_interface h) (decremented d) hop k).
    + intros Hne. apply (sent_keeps _ _ _ _ _ Hs). by apply Kh.
Qed.

Lemma apart_pop i r : apart r -> apart (pop_queue i r).
Proof.
  intros (h & n & [Ei Et Hh Hn] & Kh & Kn). unfold pop_queue. rewrite Ei.
  destruct i as [|[|i]]; cbn; eexists _, _; (split; [split; [reflexivity|done|done|done]|done]).
Qed.
End Route.
End Crossing.

(** ** The thread *)

Lemma run_on_interface {X} n i (m : method AsyncNetworkInterface X) x i' r : Router_interface r n = Ok i -> m i = (x, i') ->
  on_interface n m r = (x, set_interface n i' r).
Proof. intros Ei Em. unfold on_interface. by rewrite Ei, Em. Qed.

(** A datagram socket takes a frame whole. *)
Lemma Device_write_whole writev bl dev : writev (BufferList_concatenate bl) = [inr (zlen (BufferList_concatenate bl))] ->
  0 < zlen (BufferList_concatenate bl) < W64 ->
  Device_write writev bl dev = (Ok tt, mkDevice (register_write (dv_fd dev)) (dv_written dev ++ [BufferList_concatenate bl])).
Proof.
  intros Hw Hl. unfold Device_write. rewrite <- views_concat in *. rewrite Hw. set (views := BufferViewList_of_BufferList bl) in *.
  erewrite run_zoom; [reflexivity|]. cbn [FileDescriptor_write]. rewrite SystemCall_ok by lia. mrun. rewrite views_size_spec by lia.
  destruct (Z.eqb_spec (zlen (concat views)) 0); [lia|]. cbn [andb]. destruct (Z.ltb_spec (zlen (concat views)) (zlen (concat views))); [lia|]. mrun.
  destruct (views_remove_prefix views (zlen (concat views))) as (l' & -> & Hc); [lia|lia|]. mrun.
  assert (zlen (concat l') = 0) as Hz by (rewrite Hc, zlen_zdrop by lia; lia).
  rewrite (views_size_spec l') by lia. by rewrite Hz.
Qed.

Section Thread.
Context (writev : bytes -> list (Z + Z)) (Hwritev : forall d, writev d = [inr (zlen d)]).
Context (arp_order : gmap Z ARP_Entry -> list Z) (pending_order : gmap Z Z -> list Z).
Context (Harp : forall m, order_of (arp_order m) m) (Hpending : forall m, order_of (pending_order m) m).
Context (table : list route_item) (Dh Do Di : InternetDatagram -> Prop) (Hcr : crossing table Dh Do Di).

(** Between callbacks no datagram waits to be routed. The empty datagrams were sent to the
    bouncer first. *)
Record thread_inv (t : NetworkThread) : Prop := {
  ti_router : ro_inv (nt_router t);
  ti_sides : exists h n, sides table Do Di (nt_router t) h n /\ ai_datagrams_out h = [] /\ ai_datagrams_out n = [];
  ti_host_side : nt_host_side t = 0;
  ti_internet_side : nt_internet_side t = 1;
  ti_frame_fd : fd_ok (dv_fd (nt_frame_fd t));
  ti_internet_fd : fd_ok (dv_fd (nt_internet_socket t));
  ti_to_host : Forall (on_the_wire Di) (dv_written (nt_frame_fd t));
  ti_to_internet : Forall (fun bs => bs = [] \/ on_the_wire Do bs) (dv_written (nt_internet_socket t))
}.

(** From [t] to [t'] no frame was lost. *)
Definition frames_stay (t t' : NetworkThread) : Prop :=
  forall side, has_frames side t = true -> has_frames side t' = true.

Lemma has_frames_0 t h n : sides table Do Di (nt_router t) h n -> has_frames 0 t = negb (bool_decide (frames_of h = [])).
Proof. intros [E _ _ _]. unfold has_frames, Router_interface. by rewrite E. Qed.
Lemma has_frames_1 t h n : sides table Do Di (nt_router t) h n -> has_frames 1 t = negb (bool_decide (frames_of n = [])).
Proof. intros [E _ _ _]. unfold has_frames, Router_interface. by rewrite E. Qed.

Lemma has_frames_other t h n side : sides table Do Di (nt_router t) h n -> has_frames side t = true -> side = 0 \/ side = 1.
Proof.
  intros [E _ _ _]. unfold has_frames, Router_interface. rewrite E. unfold znth. destruct (Z.ltb_spec side 0); [done|].
  destruct (Z.to_nat side) as [|[|k]] eqn:Ek; cbn [lookup list_lookup]; intros Hf; [lia|lia|done].
Qed.

Lemma stays t t' h n h' n' : sides table Do Di (nt_router t) h n -> sides table Do Di (nt_router t') h' n' ->
  keeps_frames h h' -> keeps_frames n n' -> frames_stay t t'.
Proof.
  intros S S' Kh Kn side Hf. destruct (has_frames_other t h n side S Hf) as [-> | ->].
  - rewrite (has_frames_0 _ _ _ S) in Hf. rewrite (has_frames_0 _ _ _ S').
    rewrite negb_true_iff, bool_decide_eq_false in *. by apply Kh.
  - rewrite (has_frames_1 _ _ _ S) in Hf. rewrite (has_frames_1 _ _ _ S').
    rewrite negb_true_iff, bool_decide_eq_false in *. by apply Kn.
Qed.

(** Routing what the interfaces have received. *)
Lemma route_apart t r h n h1 n1 : thread_inv t -> sides table Do Di (nt_router t) h n -> ro_inv r -> sides table Do Di r h1 n1 ->
  keeps_frames h h1 -> keeps_frames n n1 -> Forall (fun d => Dh d \/ Di d) (ai_datagrams_out h1 ++ ai_datagrams_out n1) ->
  exists r', route r = (Ok tt, r') /\ thread_inv (nt_set_router r' t) /\ frames_stay t (nt_set_router r' t).
Proof.
  intros Ht S I S1 Kh Kn HQ.
  destruct (route_spec (apart table Do Di h n) (fun d => Dh d \/ Di d)) with (r := r) as (r' & E & I' & (h' & n' & S' & Kh' & Kn') & _ & Hq).
  - intros. by eapply (apart_forwarded table Dh Do Di Hcr).
  - apply apart_pop.
  - done.
  - by exists h1, n1.
  - unfold queues. rewrite (sd_interfaces _ _ _ _ _ _ S1). apply Forall_app in HQ as [Q1 Q2]. by repeat constructor.
  - exists r'. split; [done|]. rewrite (sd_interfaces _ _ _ _ _ _ S') in Hq. apply Forall_cons in Hq as [Eh Hq]. apply Forall_cons in Hq as [En _].
    split; [|by apply (stays t _ h n h' n')]. destruct Ht. split; try done. by exists h', n'.
Qed.

(** A frame for the interface [i]. *)
Lemma async_recv i frame b bs (D0 D : InternetDatagram -> Prop) : ni_inv (ai_interface i) -> ni_holds D0 (ai_interface i) ->
  (forall d, D0 d -> datagram_valid d) -> ai_datagrams_out i = [] -> ef_payload frame = [b] -> Buffer_wf b ->
  EthernetFrame_parse EthernetFrame_default (Buffer_of_string bs) = Ok (NoError, frame) -> (forall d, datagram_in bs d -> D d) ->
  exists i', AsyncNetworkInterface_recv_frame frame i = (Ok tt, i') /\ ni_inv (ai_interface i') /\ ni_holds D0 (ai_interface i') /\
    keeps_frames i i' /\ Forall D (ai_datagrams_out i').
Proof.
  intros I Hh HV Hq Hp Hb Ep HD. destruct (recv_frame_spec (ai_interface i) frame b I Hp Hb) as (o & s' & E & R & I').
  pose proof (received_holds D0 HV _ _ _ _ _ I Hb Hh R) as Hh'. unfold AsyncNetworkInterface_recv_frame.
  erewrite run_bind by (unfold on_base; rewrite E; reflexivity).
  assert (K : keeps_frames i (mkAsync s' (ai_datagrams_out i))) by (intros Hne; by apply (received_keeps _ _ _ _ _ R)).
  destruct o as [d|]; [|eexists; split; [reflexivity|]; cbn; split; [done|]; split; [done|]; split; [done|]; by rewrite Hq].
  eexists. split; [reflexivity|]. cbn. split; [done|]. split; [done|]. split; [done|]. rewrite Hq. apply Forall_singleton. apply HD.
  unfold received in R. destruct (decide _) as [_|_]; [|by destruct R].
  destruct (Z.eqb_spec (eh_type (ef_header frame)) TYPE_IPv4) as [Ht|]; [|destruct (_ =? TYPE_ARP); by destruct R].
  destruct R as (_ & r & d' & Ed & Eo). case_bool_decide as Hr; [|done]. injection Eo as ->. subst r.
  destruct frame as [hd pl]. cbn in Hp. subst pl. by exists hd, b.
Qed.

(** The routes stay within the interfaces when one of them is replaced. *)
Lemma ro_inv_replace r n i a : ro_inv r -> znth (ro_interfaces r) n = Some a -> ni_inv (ai_interface i) -> Forall dgram_ok (ai_datagrams_out i) ->
  ro_inv (set_interface n i r).
Proof.
  intros [Ri Rt] Hz Hi Hq. split; cbn.
  - apply Forall_insert; [done|]. by split.
  - eapply Forall_impl; [exact Rt|]. intros it (? & ? & ?). split; [done|]. split; [unfold zlen in *; by rewrite length_insert|done].
Qed.

Lemma sides_inv t : thread_inv t -> exists h n, sides table Do Di (nt_router t) h n /\ ai_datagrams_out h = [] /\ ai_datagrams_out n = [] /\
  ni_inv (ai_interface h) /\ ni_inv (ai_interface n).
Proof.
  intros Ht. destruct (ti_sides _ Ht) as (h & n & S & Qh & Qn). exists h, n. split; [done|]. split; [done|]. split; [done|].
  pose proof (rv_interfaces _ (ti_router _ Ht)) as Hall. rewrite (sd_interfaces _ _ _ _ _ _ S) in Hall.
  apply Forall_cons in Hall as [[Ih _] Hall]. apply Forall_cons in Hall as [[In _] _]. done.
Qed.

(** A frame that comes in on the host side, or on the other. *)
Lemma receive_ok (host : bool) bs t : thread_inv t -> zlen bs <= BUFFER_SIZE ->
  (forall d, datagram_in bs d -> if host then Dh d else Di d) ->
  exists r', receive_and_route (if host then 0 else 1) bs t = (Ok tt, nt_set_router r' t) /\
    thread_inv (nt_set_router r' t) /\ frames_stay t (nt_set_router r' t).
Proof.
  intros Ht Hbs HD. destruct (EthernetFrame_parse_total BUFFER_SIZE EthernetFrame_default (Buffer_of_string bs)) as (r & hd & b & Ep & Hb).
  { split; [apply Buffer_wf_of_string; unfold BUFFER_SIZE in Hbs; lia|done]. }
  unfold receive_and_route. rewrite Ep. mrun. case_bool_decide as Hr; cbn [negb].
  2:{ exists (nt_router t). destruct t. split; [done|]. split; [done|]. by intros side. }
  subst r. destruct (sides_inv t Ht) as (h & n & S & Qh & Qn & Ih & In). pose proof S as [Ei Et Hh Hn].
  set (frame := mkEthernetFrame hd [b]) in *.
  destruct host.
  - destruct (async_recv h frame b bs Di Dh Ih Hh (cr_in_valid _ _ _ _ Hcr) Qh eq_refl (proj1 Hb) Ep HD) as (h1 & E & I1 & H1 & K & Q1).
    erewrite run_zoom by (apply (run_on_interface 0 h); [unfold Router_interface; by rewrite Ei|exact E]).
    destruct (route_apart t (set_interface 0 h1 (nt_router t)) h n h1 n Ht S) as (r' & Er & H' & K'); try done.
    + apply (ro_inv_replace _ 0 _ h); [apply Ht|by rewrite Ei|done|]. eapply Forall_impl; [exact Q1|]. intros d Hd. by apply valid_ok, (cr_host_valid _ _ _ _ Hcr).
    + split; cbn; try done. by rewrite Ei.
    + by intros ?.
    + rewrite Qn, app_nil_r. eapply Forall_impl; [exact Q1|]. intros d Hd. by left.
    + exists r'. split; [|done]. by erewrite zoom_eq by exact Er.
  - destruct (async_recv n frame b bs Do Di In Hn (cr_out_valid _ _ _ _ Hcr) Qn eq_refl (proj1 Hb) Ep HD) as (n1 & E & I1 & H1 & K & Q1).
    erewrite run_zoom by (apply (run_on_interface 1 n); [unfold Router_interface; by rewrite Ei|exact E]).
    destruct (route_apart t (set_interface 1 n1 (nt_router t)) h n h n1 Ht S) as (r' & Er & H' & K'); try done.
    + apply (ro_inv_replace _ 1 _ n); [apply Ht|by rewrite Ei|done|]. eapply Forall_impl; [exact Q1|]. intros d Hd. by apply valid_ok, (cr_in_valid _ _ _ _ Hcr).
    + split; cbn; try done. by rewrite Ei.
    + by intros ?.
    + rewrite Qh, app_nil_l. eapply Forall_impl; [exact Q1|]. intros d Hd. by right.
    + exists r'. split; [|done]. by erewrite zoom_eq by exact Er.
Qed.

(** Taking the first frame of an interface. *)
Lemma pop_ok side i (t : NetworkThread) : Router_interface (nt_router t) side = Ok i ->
  pop_frame side t = (Ok tt, nt_set_router (set_interface side (set_frames (tail (frames_of i)) i) (nt_router t)) t).
Proof. intros Ei. unfold pop_frame. by erewrite zoom_eq by (apply (run_on_interface side i); [exact Ei|reflexivity]). Qed.

Lemma front_ok side i f l (t : NetworkThread) : Router_interface (nt_router t) side = Ok i -> frames_of i = f :: l ->
  set_interface side i (nt_router t) = nt_router t -> front_frame side t = (Ok f, t).
Proof.
  intros Ei Ef Es. unfold front_frame. erewrite run_zoom by (apply (run_on_interface side i); [exact Ei|reflexivity]).
  rewrite Es. unfold id. rewrite Ef. by destruct t.
Qed.

Lemma set_frames_inv l i : ni_inv (ai_interface i) -> ni_inv (ai_interface (set_frames l i)).
Proof. by intros []. Qed.

(** ** One turn *)

(** An honest kernel: it hands over frames of the host and of the Internet, sends what it is
    given, and reports no error. *)
Record net_env_ok (e : NetEnv) : Prop := {
  no_host : exists bs, ne_host_read e = inr bs /\ zlen bs <= BUFFER_SIZE /\ forall d, datagram_in bs d -> Dh d;
  no_internet : exists bs, ne_internet_read e = inr bs /\ zlen bs <= BUFFER_SIZE /\ forall d, datagram_in bs d -> Di d;
  no_send bs : ne_sendmsg e bs = inr (zlen bs);
  no_poll asked : match ne_poll e asked with
                  | poll_failed _ => True
                  | poll_ready revents => length revents = length asked /\
                      Forall (fun v => any_bit v (Z.lor POLLERR POLLNVAL) = false) revents
                  end
}.

Lemma to_router_ok (host : bool) e t : net_env_ok e -> nt_env t = e -> thread_inv t ->
  exists t', (if host then host_to_router else internet_to_router) t = (Ok tt, t') /\ nt_env t' = e /\ thread_inv t' /\ frames_stay t t' /\
    let fd t := dv_fd ((if host then nt_frame_fd else nt_internet_socket) t) in fd_read_count (fd t') <> fd_read_count (fd t).
Proof.
  intros He Ee Ht. destruct (no_host _ He) as (bh & Eh & Lh & Hh), (no_internet _ He) as (bi & Ei & Li & Hi).
  destruct host; unfold host_to_router, internet_to_router; mrun; rewrite Ee.
  - rewrite Eh, (ti_host_side _ Ht). erewrite run_zoom by (by apply Device_read_spec).
    match goal with |- context [receive_and_route _ _ ?x] => set (t1 := x) end.
    assert (Ht1 : thread_inv t1) by (destruct Ht as [? ? ? ? []]; split; try done; split; [apply u32_range|done]).
    destruct (receive_ok true bh t1 Ht1 Lh Hh) as (r' & E & H' & K). exists (nt_set_router r' t1). split; [exact E|].
    split; [done|]. split; [done|]. split; [exact K|]. apply register_changes, (ti_frame_fd _ Ht).
  - rewrite Ei, (ti_internet_side _ Ht). erewrite run_zoom by (by apply Device_read_spec).
    match goal with |- context [receive_and_route _ _ ?x] => set (t1 := x) end.
    assert (Ht1 : thread_inv t1) by (destruct Ht as [? ? ? ? ? []]; split; try done; split; [apply u32_range|done]).
    destruct (receive_ok false bi t1 Ht1 Li Hi) as (r' & E & H' & K). exists (nt_set_router r' t1). split; [exact E|].
    split; [done|]. split; [done|]. split; [exact K|]. apply register_changes, (ti_internet_fd _ Ht).
Qed.

(** Replacing an interface by itself. *)
Lemma set_interface_same r n i : znth (ro_interfaces r) n = Some i -> set_interface n i r = r.
Proof.
  unfold znth. destruct (_ <? _); [done|]. intros E. unfold set_interface. rewrite list_insert_id by done. by destruct r.
Qed.

Lemma popped_holds D i f l : ni_holds D (ai_interface i) -> frames_of i = f :: l ->
  ni_holds D (ai_interface (set_frames (tail (frames_of i)) i)) /\ good_frame D f.
Proof.
  intros [Hw Hf] Ef. unfold frames_of in Ef. rewrite Ef in Hf. apply Forall_cons in Hf as [Hf Hl]. split; [|done].
  split; [exact Hw|]. cbn. unfold frames_of. by rewrite Ef.
Qed.

Lemma router_to_host_ok e t : nt_env t = e -> thread_inv t -> has_frames 0 t = true ->
  exists t', router_to_host writev t = (Ok tt, t') /\ nt_env t' = e /\ thread_inv t' /\ has_frames 1 t' = has_frames 1 t /\
    fd_write_count (dv_fd (nt_frame_fd t')) <> fd_write_count (dv_fd (nt_frame_fd t)).
Proof.
  intros Ee Ht Hf. destruct (sides_inv t Ht) as (h & n & S & Qh & Qn & Ih & In). pose proof S as [Ei Et Hh Hn].
  rewrite (has_frames_0 t h n S), negb_true_iff, bool_decide_eq_false in Hf. destruct (frames_of h) as [|f l] eqn:Ef; [done|].
  destruct (popped_holds Di h f l Hh Ef) as [Hp Hg]. pose proof (frame_length Di f Hg) as Hl. pose proof (gf_size _ _ Hg) as Hsz.
  assert (Er : Router_interface (nt_router t) 0 = Ok h) by (unfold Router_interface; by rewrite Ei).
  unfold router_to_host. mrun. rewrite (ti_host_side _ Ht).
  erewrite run_bind by (apply (front_ok 0 h f l); [done|done|apply set_interface_same; by rewrite Ei]).
  erewrite run_zoom by (apply Device_write_whole; [apply Hwritev|zlia]).
  match goal with |- context [pop_frame _ ?x] => set (t1 := x) end.
  rewrite (pop_ok 0 h t1) by done. eexists. split; [reflexivity|]. split; [done|]. cbn [nt_set_router t1 nt_set_frame_fd].
  set (h' := set_frames _ h) in *. change (nt_router t1) with (nt_router t).
  assert (S' : sides table Do Di (set_interface 0 h' (nt_router t)) h' n) by (split; cbn; try done; by rewrite Ei).
  split; [|split].
  - destruct Ht as [I _ ? ? [] ? ? ?]. split; cbn; try done.
    + apply (ro_inv_replace _ 0 _ h); [done|by rewrite Ei|by apply set_frames_inv|unfold h'; cbn; by rewrite Qh].
    + by exists h', n.
    + split; [done|]. apply u32_range.
    + apply Forall_app. split; [done|]. apply Forall_singleton. by exists f.
  - by rewrite (has_frames_1 _ h n S), (has_frames_1 _ h' n).
  - apply register_changes, (ti_frame_fd _ Ht).
Qed.

Lemma router_to_internet_ok e t : net_env_ok e -> nt_env t = e -> thread_inv t -> has_frames 1 t = true ->
  exists t', router_to_internet t = (Ok tt, t') /\ nt_env t' = e /\ thread_inv t' /\
    fd_write_count (dv_fd (nt_internet_socket t')) <> fd_write_count (dv_fd (nt_internet_socket t)).
Proof.
  intros He Ee Ht Hf. destruct (sides_inv t Ht) as (h & n & S & Qh & Qn & Ih & In). pose proof S as [Ei Et Hh Hn].
  rewrite (has_frames_1 t h n S), negb_true_iff, bool_decide_eq_false in Hf. destruct (frames_of n) as [|f l] eqn:Ef; [done|].
  destruct (popped_holds Do n f l Hn Ef) as [Hp Hg]. pose proof (frame_length Do f Hg) as Hl. pose proof (gf_size _ _ Hg) as Hsz.
  assert (Er : Router_interface (nt_router t) 1 = Ok n) by (unfold Router_interface; by rewrite Ei).
  unfold router_to_internet. mrun. rewrite (ti_internet_side _ Ht), Ee.
  erewrite run_bind by (apply (front_ok 1 n f l); [done|done|apply set_interface_same; by rewrite Ei]).
  cbv zeta. rewrite views_concat.
  erewrite run_zoom by (eapply zoom_eq; unfold UDPSocket_sendto, sendmsg_helper; rewrite (no_send _ He), SystemCall_ok by zlia;
    rewrite res_bind_Ok, views_size_spec, views_concat by (rewrite views_concat; zlia); rewrite u64_id by zlia;
    rewrite Z.eqb_refl; cbn [negb]; mrun; reflexivity).
  erewrite run_zoom by reflexivity.
  match goal with |- context [pop_frame _ ?x] => set (t1 := x) end.
  rewrite (pop_ok 1 n t1) by done. eexists. split; [reflexivity|]. split; [done|]. cbn [nt_set_router t1 nt_set_internet_socket].
  set (n' := set_frames _ n) in *. change (nt_router t1) with (nt_router t).
  assert (S' : sides table Do Di (set_interface 1 n' (nt_router t)) h n') by (split; cbn; try done; by rewrite Ei).
  split.
  - destruct Ht as [I _ ? ? ? [] ? ?]. split; cbn; try done.
    + apply (ro_inv_replace _ 1 _ n); [done|by rewrite Ei|by apply set_frames_inv|unfold n'; cbn; by rewrite Qn].
    + by exists h, n'.
    + split; [done|]. apply u32_range.
    + apply Forall_app. split; [done|]. apply Forall_singleton. right. by exists f.
  - apply register_changes, (ti_internet_fd _ Ht).
Qed.

Definition net_rank (t : net_rule_id) : Z :=
  match t with Host_to_router => 1 | Router_to_host => 2 | Router_to_internet => 3 | Internet_to_router => 4 end.
Definition net_before (t t' : net_rule_id) : Prop := net_rank t < net_rank t'.

Lemma all_net_rules_sorted : StronglySorted net_before all_net_rules.
Proof. unfold all_net_rules, net_before. repeat constructor. Qed.

Section Turn.
Context (e : NetEnv) (He : net_env_ok e).

Definition net_inv (t : NetworkThread) : Prop := nt_env t = e /\ thread_inv t.
Definition net_enabled (r : net_rule_id) (t : NetworkThread) : Prop :=
  match r with
  | Router_to_host => has_frames 0 t = true
  | Router_to_internet => has_frames 1 t = true
  | _ => True
  end.

Lemma net_callbacks_cooperate r t : net_inv t -> net_enabled r t ->
  exists t', ru_callback (net_rule writev r) t = (Ok tt, t') /\ net_inv t' /\ True /\
    (service_count (net_rule writev r) t =? service_count (net_rule writev r) t') && ru_interest (net_rule writev r) t' = false /\
    forall r', net_before r r' -> net_enabled r' t -> net_enabled r' t'.
Proof.
  intros [Ee Ht] Hen. assert (Hbusy : forall a b x, b <> a -> (a =? b) && x = false) by (intros a b x Hne; by rewrite (proj2 (Z.eqb_neq a b)) by done).
  destruct r; cbn [net_rule ru_callback ru_interest service_count ru_direction ru_fd net_enabled] in *.
  - destruct (to_router_ok true e t He Ee Ht) as (t' & E & Ee' & Ht' & K & Hc). exists t'. split; [exact E|]. split; [done|]. split; [done|].
    split; [by apply Hbusy|]. intros [] _ Hr; try done; by apply K.
  - destruct (router_to_host_ok e t Ee Ht Hen) as (t' & E & Ee' & Ht' & K & Hc). exists t'. split; [exact E|]. split; [done|]. split; [done|].
    split; [by apply Hbusy|]. intros [] Hlt Hr; try done. cbn in *. by rewrite K.
  - destruct (router_to_internet_ok e t He Ee Ht Hen) as (t' & E & Ee' & Ht' & Hc). exists t'. split; [exact E|]. split; [done|]. split; [done|].
    split; [by apply Hbusy|]. by intros [] Hlt.
  - destruct (to_router_ok false e t He Ee Ht) as (t' & E & Ee' & Ht' & K & Hc). exists t'. split; [exact E|]. split; [done|]. split; [done|].
    split; [by apply Hbusy|]. by intros [] Hlt.
Qed.

Lemma net_wait_ok ids t : thread_inv t -> StronglySorted net_before ids ->
  exists ret ids' t', wait_next_event (fun asked t => (ne_poll (nt_env t) asked, t)) (map (net_rule writev) ids) (nt_set_env e t)
      = (Ok ret, (map (net_rule writev) ids', t')) /\ thread_inv t' /\ ids' `sublist_of` ids.
Proof.
  intros Ht Hs. destruct (wait_cooperates (net_rule writev) net_before net_inv net_inv (fun _ _ => True) net_enabled) with
    (poll := fun asked t => (ne_poll (nt_env t) asked, t)) (ids := ids) (w := nt_set_env e t) as (ret & ids' & t' & E & [_ Ht'] & _ & Hsub); try done.
  - intros [] w [_ Hw] Hi; cbn in *; try done; [by rewrite <- (ti_host_side _ Hw)|by rewrite <- (ti_internet_side _ Hw)].
  - intros r w Hw. exists w. by destruct r.
  - exact net_callbacks_cooperate.
  - split; [done|]. by destruct Ht.
  - intros asked w [Ew _]. eexists. split; [reflexivity|]. rewrite Ew. apply (no_poll _ He).
  - by exists ret, ids', t'.
Qed.
End Turn.

(** Time passes on one of the interfaces. *)
Lemma tick_side_ok (host : bool) t : thread_inv t ->
  exists t', tick_side arp_order pending_order (if host then 0 else 1) t = (Ok tt, t') /\ thread_inv t'.
Proof.
  intros Ht. destruct (sides_inv t Ht) as (h & n & S & Qh & Qn & Ih & In). pose proof S as [Ei Et Hh Hn].
  assert (Htick : forall i D, ni_inv (ai_interface i) -> ni_holds D (ai_interface i) -> exists s',
    on_base (fun s => NetworkInterface_tick 2 (arp_order (ni_arp_table s)) (pending_order (ni_waiting_arp_response_ip_addr s)) 50 s) i
      = (Ok tt, mkAsync s' (ai_datagrams_out i)) /\ ni_inv s' /\ ni_holds D s').
  { intros i D I H. destruct (tick_spec (ai_interface i) 50 (arp_order (ni_arp_table (ai_interface i)))
      (pending_order (ni_waiting_arp_response_ip_addr (ai_interface i))) I) as (s' & E & T & I'); [lia|apply Harp|apply Hpending|].
    exists s'. split; [unfold on_base; by rewrite E|]. split; [done|]. by apply (ticked_holds D 50 _ (ai_interface i) s' I (Hpending _) H). }
  unfold tick_side. destruct host.
  - destruct (Htick h Di Ih Hh) as (s' & E & I' & H').
    erewrite zoom_eq by (apply (run_on_interface 0 h); [unfold Router_interface; by rewrite Ei|exact E]). eexists. split; [reflexivity|].
    destruct Ht. split; try done; cbn.
    + apply (ro_inv_replace _ 0 _ h); [done|by rewrite Ei|done|cbn; by rewrite Qh].
    + exists (mkAsync s' (ai_datagrams_out h)), n. split; [split; cbn; try done; by rewrite Ei|done].
  - destruct (Htick n Do In Hn) as (s' & E & I' & H').
    erewrite zoom_eq by (apply (run_on_interface 1 n); [unfold Router_interface; by rewrite Ei|exact E]). eexists. split; [reflexivity|].
    destruct Ht. split; try done; cbn.
    + apply (ro_inv_replace _ 1 _ n); [done|by rewrite Ei|done|cbn; by rewrite Qn].
    + exists h, (mkAsync s' (ai_datagrams_out n)). split; [split; cbn; try done; by rewrite Ei|done].
Qed.

Lemma network_turn_ok e ids t : net_env_ok e -> thread_inv t -> StronglySorted net_before ids ->
  exists stop ids' t', network_turn arp_order pending_order e (map (net_rule writev) ids, t) = (Ok stop, (map (net_rule writev) ids', t')) /\
    thread_inv t' /\ ids' `sublist_of` ids.
Proof.
  intros He Ht Hs. destruct (net_wait_ok e He ids t Ht Hs) as (ret & ids1 & t1 & E & H1 & Hsub).
  unfold network_turn. erewrite run_bind by exact E.
  assert (Hrest : exists stop ids' t', (t ← on_thread (gets id); _ ← on_thread (tick_side arp_order pending_order (nt_host_side t));
      _ ← on_thread (tick_side arp_order pending_order (nt_internet_side t)); mret (ne_exit_flag e))
      (map (net_rule writev) ids1, t1) = (Ok stop, (map (net_rule writev) ids', t')) /\ thread_inv t' /\ ids' `sublist_of` ids).
  { unfold on_thread. erewrite run_zoom by reflexivity. cbn [fst snd id]. rewrite (ti_host_side _ H1), (ti_internet_side _ H1).
    destruct (tick_side_ok true t1 H1) as (t2 & E2 & H2). erewrite run_zoom by exact E2.
    destruct (tick_side_ok false t2 H2) as (t3 & E3 & H3). erewrite run_zoom by exact E3. by exists (ne_exit_flag e), ids1, t3. }
  destruct ret; [exact Hrest|exact Hrest|by exists true, ids1, t1].
Qed.

(** A run of the loop: it returns or goes on, and never throws. *)
Lemma network_loop_ok envs : forall ids t, Forall net_env_ok envs -> thread_inv t -> StronglySorted net_before ids ->
  exists r ids' t', network_loop arp_order pending_order envs (map (net_rule writev) ids, t) = (r, (map (net_rule writev) ids', t')) /\
    (r = Ok tt \/ r = NoFuel) /\ thread_inv t'.
Proof.
  induction envs as [|e envs IH]; intros ids t He Ht Hs; cbn [network_loop].
  { exists NoFuel, ids, t. split; [done|]. split; [by right|done]. }
  apply Forall_cons in He as [He Hes]. destruct (network_turn_ok e ids t He Ht Hs) as (stop & ids1 & t1 & E & H1 & Hsub).
  erewrite run_bind by exact E. destruct stop; [exists (Ok tt), ids1, t1; split; [done|]; split; [by left|done]|].
  apply IH; [done|done|by eapply sorted_sublist].
Qed.
End Thread.

(** The properties may be weakened. *)
Lemma thread_inv_mono table (Do Di Do' Di' : InternetDatagram -> Prop) t : (forall d, Do d -> Do' d) -> (forall d, Di d -> Di' d) ->
  thread_inv table Do Di t -> thread_inv table Do' Di' t.
Proof.
  intros Ho Hi []. split; try done.
  - destruct ti_sides0 as (h & n & [] & ? & ?). exists h, n. split; [|done].
    split; try done; by eapply ni_holds_mono.
  - eapply Forall_impl; [eassumption|]. intros bs. by apply on_the_wire_mono.
  - eapply Forall_impl; [eassumption|]. intros bs [?|?]; [by left|right; by eapply on_the_wire_mono].
Qed.

(** ** The two sides of the program *)

Definition host_ip (is_client : bool) : Z := if is_client then ip 192 168 0 50 else ip 172 16 0 100.
Definition peer_ip (is_client : bool) : Z := host_ip (negb is_client).

(** A property of datagrams that forwarding and the wire keep. *)
Record travels (P : InternetDatagram -> Prop) : Prop := {
  tv_valid d : P d -> datagram_valid d;
  tv_arrives d d' : P d -> arrives d d' -> P d';
  tv_decremented d : P d -> P (decremented d)
}.

(** A datagram of [P] from [x] to [y]; a host that has no peer yet sends to 0.0.0.0. *)
Definition from_to (P : InternetDatagram -> Prop) (x y : Z) (d : InternetDatagram) : Prop :=
  P d /\ ip_src (ipd_header d) = x /\ ip_dst (ipd_header d) = y.
Definition from_host (P : InternetDatagram -> Prop) (x y : Z) (d : InternetDatagram) : Prop :=
  from_to P x y d \/ from_to P x 0 d.

Lemma from_to_travels P x y : travels P -> travels (from_to P x y).
Proof.
  intros [Hv Ha Hd]. split.
  - intros d (HP & _). by apply Hv.
  - intros d d' (HP & Hs & Ht) Harr. split; [by apply (Ha d)|]. destruct Harr as (v & _ & -> & _). done.
  - intros d (HP & Hs & Ht). split; [by apply Hd|done].
Qed.

Lemma from_host_travels P x y : travels P -> travels (from_host P x y).
Proof.
  intros HP. destruct (from_to_travels P x y HP) as [V1 A1 D1], (from_to_travels P x 0 HP) as [V2 A2 D2]. split.
  - intros d [H|H]; auto.
  - intros d d' [H|H] Ha; [left|right]; eauto.
  - intros d [H|H]; [left|right]; auto.
Qed.

(** What a receiver finds in an empty datagram, and in the bytes of a frame on the wire. *)
Lemma nothing_in_nothing d : datagram_in [] d -> False.
Proof.
  intros (h & b & Ep & Ht & _).
  assert (E : exists h' b', EthernetFrame_parse EthernetFrame_default (Buffer_of_string []) = Ok (NoError, mkEthernetFrame h' [b']) /\ eh_type h' = 0)
    by (eexists _, _; split; vm_compute; reflexivity).
  destruct E as (h' & b' & E & E0). rewrite Ep in E. injection E as -> _. by rewrite E0 in Ht.
Qed.

Lemma wire_datagrams P bs d : travels P -> bs = [] \/ on_the_wire P bs -> datagram_in bs d -> P d.
Proof.
  intros HP [-> |Hw] Hd; [by destruct (nothing_in_nothing d)|]. destruct Hd as (h & b & Ep & Ht & Ed).
  destruct (read_off_the_wire P (tv_valid P HP) bs h b d Hw Ep Ht Ed) as (d0 & H0 & Ha). by apply (tv_arrives P HP d0).
Qed.

Definition lab7_table (is_client : bool) : list route_item :=
  if is_client then
    [mkRoute (ip 192 168 0 0) 16 None 0; mkRoute (ip 10 0 0 0) 8 None 1; mkRoute (ip 172 16 0 0) 12 (Some (host_at 10 0 0 172)) 1]
  else
    [mkRoute (ip 172 16 0 0) 12 None 0; mkRoute (ip 10 0 0 0) 8 None 1; mkRoute (ip 192 168 0 0) 16 (Some (host_at 10 0 0 192)) 1].

Lemma lab7_routes is_client dst it : best_of dst (lab7_table is_client) (Some it) ->
  (dst = peer_ip is_client -> rt_interface_num it = 1) /\ (dst = host_ip is_client -> rt_interface_num it = 0) /\ dst <> 0.
Proof.
  intros Hb. pose proof (best_of_in _ _ _ Hb) as Hin. destruct Hb as [Hp _]. unfold in_prefix in Hp.
  destruct is_client; cbn in Hin; repeat (apply elem_of_cons in Hin as [->|Hin]); try (by apply elem_of_nil in Hin);
    cbn [rt_interface_num rt_route_prefix rt_prefix_length] in *; (split; [|split]); intros ->; try done; by vm_compute in Hp.
Qed.

(** The host's datagrams to its peer go to the Internet, those of the peer to the host; one
    without a destination goes nowhere. *)
Lemma lab7_crossing is_client (P Q : InternetDatagram -> Prop) : travels P -> travels Q ->
  let x := host_ip is_client in let y := peer_ip is_client in
  crossing (lab7_table is_client) (from_host P x y) (from_to P x y) (from_to Q y x).
Proof.
  intros HP HQ x y. destruct (from_to_travels P x y HP), (from_to_travels Q y x HQ). split; try done.
  - apply (tv_valid _ (from_host_travels P x y HP)).
  - intros d it Hd Hb. destruct (lab7_routes is_client _ it Hb) as (Hy & _ & H0).
    destruct Hd as [Hd|(_ & _ & Ed)]; [|done]. split; [apply Hy, Hd|by apply tv_decremented0].
  - intros d it Hd Hb. destruct (lab7_routes is_client _ it Hb) as (_ & Hx & _). split; [apply Hx, Hd|by apply tv_decremented1].
Qed.

Lemma lab7_thread_start is_client rd env (Do Di : InternetDatagram -> Prop) : ne_sendmsg env [] = inr 0 ->
  exists t, lab7_thread is_client rd env = Ok t /\ thread_inv (lab7_table is_client) Do Di t.
Proof.
  intros Hs. unfold lab7_thread. assert (Ha : announce (ne_sendmsg env) (mkDevice FDWrapper_new [])
    = (Ok tt, mkDevice (mkFD false false 0 3) [[]; []; []])) by (unfold announce; rewrite Hs; reflexivity).
  rewrite Ha, res_bind_Ok.
  assert (Hi : forall k a, 0 <= a < W32 -> ni_inv (ai_interface (lab7_interface rd k (inet a 0))) /\ Forall dgram_ok []).
  { intros k a Hr. split; [|constructor]. apply ni_inv_new; [apply router_address_valid|done]. }
  assert (Hn : forall k a D, ni_holds D (ai_interface (lab7_interface rd k a))) by (intros k a D; by split; constructor).
  assert (Hroutes : forall b, Forall (fun it => route_ok it /\ 0 <= rt_interface_num it < 2 /\
    forall a, rt_next_hop it = Some a -> exists ip, ipv4_numeric a = Ok ip) (lab7_table b)).
  { intros []; repeat (apply Forall_cons; split; [split; [split; vm_compute; split; congruence|]; split; [cbn; lia|]; intros a [= <-]; by eexists|]); done. }
  destruct is_client; (eexists; split; [reflexivity|]); split; cbn; try done; try by split.
  all: try (split; [repeat (apply Forall_cons; split; [apply Hi; by vm_compute|]); constructor|]; first [apply (Hroutes true)|apply (Hroutes false)]).
  all: try (eexists _, _; split; [split; [reflexivity|reflexivity|apply Hn|apply Hn]|done]).
  all: repeat (apply Forall_cons; split; [by left|]); constructor.
Qed.

(** ** Theorems *)

(** the network thread of either host routes and never dies: as long as its host sends
    datagrams from its own address to its peer (or, before it has a peer, to 0.0.0.0), and
    the Internet delivers only datagrams of the peer to the host, in whatever order and
    with ARP or empty frames in between, the thread ends only when it is told to. What it
    sends to the Internet are frames with the host's datagrams, what it sends to the host
    are frames with the peer's; whatever else of the datagrams the wire and a hop leave
    unchanged, they keep. *)
Theorem network_thread_routes writev arp_order pending_order is_client rd (P Q : InternetDatagram -> Prop) env0 envs :
  (forall d, writev d = [inr (zlen d)]) -> (forall m, order_of (arp_order m) m) -> (forall m, order_of (pending_order m) m) ->
  travels P -> travels Q -> ne_sendmsg env0 [] = inr 0 ->
  let x := host_ip is_client in let y := peer_ip is_client in
  Forall (net_env_ok (from_host P x y) (from_to Q y x)) envs ->
  exists t0 r rules t, lab7_thread is_client rd env0 = Ok t0 /\
    network_thread writev arp_order pending_order envs ([], t0) = (r, (rules, t)) /\ (r = Ok None \/ r = NoFuel) /\
    Forall (on_the_wire (from_to Q y x)) (dv_written (nt_frame_fd t)) /\
    Forall (fun bs => bs = [] \/ on_the_wire (from_to P x y) bs) (dv_written (nt_internet_socket t)).
Proof.
  intros Hw Ha Hp HP HQ Hs x y Henvs. destruct (lab7_thread_start is_client rd env0 (from_to P x y) (from_to Q y x) Hs) as (t0 & E0 & H0).
  destruct (network_loop_ok writev Hw arp_order pending_order Ha Hp (lab7_table is_client) (from_host P x y) (from_to P x y) (from_to Q y x)
    (lab7_crossing is_client P Q HP HQ) envs all_net_rules t0 Henvs H0 all_net_rules_sorted) as (r & ids & t & E & Hr & Ht).
  exists t0, (match r with NoFuel => NoFuel | _ => Ok None end), (map (net_rule writev) ids), t. split; [done|].
  split; [|split; [destruct Hr as [-> | ->]; auto|split; apply Ht]].
  unfold network_thread. erewrite run_bind by reflexivity. cbn [fold_left add_rule app fst snd all_net_rules].
  change [net_rule writev Host_to_router; net_rule writev Router_to_host; net_rule writev Router_to_internet; net_rule writev Internet_to_router]
    with (map (net_rule writev) all_net_rules). rewrite E. by destruct Hr as [-> | ->].
Qed.

(** A turn in which the rules marked ready have their event, and what the two sockets
    deliver. *)
Definition demo_net_env (ready : list bool) (host internet : bytes) (exit_flag : bool) : NetEnv :=
  mkNetEnv (inr host) (inr internet) (fun b => inr (zlen b))
    (fun asked => poll_ready (imap (fun k a => if default false (ready !! k) then Z.land a (Z.lor POLLIN POLLOUT) else 0) asked)) exit_flag.

Definition demo_net (envs : list NetEnv) : res (option exn) * (list (Rule NetworkThread) * NetworkThread) :=
  match lab7_thread true demo_rd (demo_net_env [] [] [] false) with
  | Ok t => network_thread whole_writev keys_of keys_of envs ([], t)
  | _ => (NoFuel, ([], mkThread (mkDevice FDWrapper_new []) (mkDevice FDWrapper_new []) Router_new 0 0 (demo_net_env [] [] [] false)))
  end.

Lemma valid_travels : travels datagram_valid.
Proof. split; [done|apply arrives_valid|apply decremented_valid]. Qed.

Lemma demo_net_env_ok ready exit_flag (Dh Di : InternetDatagram -> Prop) : net_env_ok Dh Di (demo_net_env ready [] [] exit_flag).
Proof.
  assert (Hnone : forall D : InternetDatagram -> Prop, exists bs : bytes, @inr Z bytes [] = inr bs /\ zlen bs <= BUFFER_SIZE /\ forall d, datagram_in bs d -> D d).
  { intros D. exists []. split; [done|]. split; [done|]. intros d Hd. by destruct (nothing_in_nothing d). }
  split; [apply Hnone|apply Hnone|done|]. intros asked. cbn. split; [apply length_imap|].
  apply Forall_lookup. intros k v Hk. rewrite list_lookup_imap in Hk. destruct (asked !! k) as [a|]; [|done]. injection Hk as <-.
  destruct (default false _); [|done]. unfold any_bit. by rewrite <- Z.land_assoc, Z.land_0_r.
Qed.

Lemma network_thread_routes_witness : exists t0 r rules t, lab7_thread true demo_rd (demo_net_env [] [] [] false) = Ok t0 /\
  network_thread whole_writev keys_of keys_of [demo_net_env [true; false; false; true] [] [] false; demo_net_env [] [] [] true] ([], t0) = (r, (rules, t)) /\
  (r = Ok None \/ r = NoFuel).
Proof.
  destruct (network_thread_routes whole_writev keys_of keys_of true demo_rd datagram_valid datagram_valid (demo_net_env [] [] [] false)
    [demo_net_env [true; false; false; true] [] [] false; demo_net_env [] [] [] true]) as (t0 & r & rules & t & E0 & E & Hr & _).
  - intros d. reflexivity.
  - intros m. apply keys_of_order.
  - intros m. apply keys_of_order.
  - apply valid_travels.
  - apply valid_travels.
  - reflexivity.
  - apply Forall_cons. split; [apply demo_net_env_ok|]. apply Forall_cons. split; [apply demo_net_env_ok|constructor].
  - exists t0, r, rules, t. split; [exact E0|]. split; [exact E|exact Hr].
Defined.

(** *** Where the thread goes wrong *)

(** an empty datagram at the Internet socket, which anyone can send, is taken for the end
    of the file: in the next turn the rule for frames from the Internet is cancelled, and
    the thread goes on without ever reading from there again. *)
Theorem empty_datagram_deafens_thread :
  map ru_direction (fst (snd (demo_net [demo_net_env [false; false; false; true] [] [] false; demo_net_env [] [] [] false])))
  = [Direction_In; Direction_Out; Direction_Out].
Proof. vm_compute. reflexivity. Qed.

(** The client's adapter, connected, and the frame it first sends: a request for the address
    of the router. *)
Definition demo_lab7_adapter : TCPOverIPv4OverEthernetAdapter :=
  ta_set_base (mkFdAdapterBase (mkFdAdapterConfig (inet (host_ip true) 5000) (inet (peer_ip true) 1234) 0 0) false) (lab7_adapter true demo_rd).
Definition demo_host_frame : bytes :=
  default [] (head (dv_written (ta_tap (snd (TapAdapter_write whole_writev sample_segment demo_lab7_adapter))))).

(** An IPv4 frame to the client's router with a datagram of version 6 to the client. *)
Definition demo_poison : bytes :=
  BufferList_concatenate (EthernetFrame_serialize (mkEthernetFrame
    (mkEthernetHeader (random_router_ethernet_address demo_rd 6) demo_eth TYPE_IPv4)
    [Buffer_of_string (map byte_of [101;0;0;20; 0;0;64;0; 64;6;0;0; 172;16;0;100; 192;168;0;50])])).

(** one malformed datagram ends the thread: a frame with a datagram of version 6 passes
    [recv_frame], [route] throws when it tries to send it on to the host, and the handler of
    the thread ends it; the program goes on without a network. *)
Theorem malformed_datagram_ends_thread :
  fst (demo_net [demo_net_env [true; false; false; false] demo_host_frame [] false; demo_net_env [false; true; false; true] [] demo_poison false])
  = Ok (Some (runtime_error "wrong IP version")).
Proof. vm_compute. reflexivity. Qed.
