(* ===== verification/Programs.v ===== *)
(** * The programs

    The [main] functions of [apps/tcp_native.cc], [tcp_udp.cc], [tcp_ipv4.cc],
    [tcp_ip_ethernet.cc], [webget.cc] and [lab7.cc], with the scopes of their objects: a socket
    is destroyed however the block it lives in is left, and an exception becomes the exit
    status. What the kernel and the C library answer is an argument. *)

From Stdlib Require Import String Ascii.
From S2P Require Import Prelude WrappingInts Buffers ByteStreams Reassembler TCPSegments Receiver Sender Connection EndToEnd Emitted Addresses Adapters CommandLine Ethernet Interface Router Simulator FileDescriptors Handles Sockets EventLoop Devices TapAdapter SpongeSocket SocketLoop SocketNet SocketThread StreamCopy Lab7.

Definition EXIT_SUCCESS : Z := 0.
Definition EXIT_FAILURE : Z := 1.

(** [try { ... } catch (const exception &e) { ... return EXIT_FAILURE; } return EXIT_SUCCESS;]
    Undefined behaviour cannot be caught. *)
Definition exit_status (r : res (run unit)) : res Z :=
  match r with
  | Ok (Returns _) => Ok EXIT_SUCCESS
  | Ok (Exits code) => Ok code
  | Throw (UB s) => Throw (UB s)
  | Throw _ => Ok EXIT_FAILURE
  | NoFuel => NoFuel
  end.

(** ** tcp_native *)

Section Native.
Context (getaddrinfo : string -> string -> Z + option bytes).

(** The calls of the program on the kernel. *)
Record Kernel : Type := mkKernel {
  k_socket : Z -> Z -> Z + Z;
  k_setsockopt : Z -> Z -> Z -> bytes -> Z;
  k_bind : Z -> bytes -> Z;
  k_listen : Z -> Z -> Z;
  k_accept : Z -> Z + Z;
  k_connect : Z -> bytes -> Z;
  k_getsockopt : Z -> Z -> Z + Z * Z
}.

(** A local object [h] of a function, destroyed when the block [body] is left. *)
Definition local_object (h : nat) (make body : world unit) : world unit :=
  _ ← make;
  ((fun w => match body w with
             | (NoFuel, w') => (NoFuel, w')
             | (r, w') => (r, FileDescriptor_destroy h w')
             end) : world unit).

(** Server mode: the listening socket is [l], what is returned is [h]. *)
Definition native_server (k : Kernel) (l tmp h : nat) (host port : string) : world unit :=
  _ ← TCPSocket_new l (k_socket k);
  with_temporary l
    (_ ← set_reuseaddr l (k_setsockopt k);
     address ← lift (Address_resolve getaddrinfo host port);
     _ ← Socket_bind l address (k_bind k);
     _ ← TCPSocket_listen l 16 (k_listen k);
     accept_socket l tmp h (k_accept k) (k_getsockopt k)).

(** Client mode: [connecting_socket] is [h] itself, since it is what is returned. *)
Definition native_client (k : Kernel) (h : nat) (host port : string) : world unit :=
  _ ← TCPSocket_new h (k_socket k);
  constructor_body h
    (address ← lift (Address_resolve getaddrinfo host port);
     Socket_connect_to h address (k_connect k)).

Definition native_socket (k : Kernel) (server_mode : bool) (argv : list string) (l tmp h : nat) : world unit :=
  if server_mode then
    host ← lift (argv_at argv 2);
    port ← lift (argv_at argv 3);
    native_server k l tmp h host port
  else
    host ← lift (argv_at argv 1);
    port ← lift (argv_at argv 2);
    native_client k h host port.

(** [bidirectional_stream_copy(socket)] on the object [h]; what it is given by the kernel are
    the answers of [fcntl] for the three descriptors and the turns of its event loop. *)
Definition copy_socket (h : nat) (socket_fl input_fl output_fl : (Z + Z) * Z) (start : CopyEnv) (envs : list CopyEnv) : world unit :=
  on_cell h (fun fd =>
    let '(r, (_, s)) := bidirectional_stream_copy socket_fl input_fl output_fl envs ([], copy_start fd start) in (r, sc_socket s)).

Definition native_main (k : Kernel) (argv : list string) (socket_fl input_fl output_fl : (Z + Z) * Z) (start : CopyEnv) (envs : list CopyEnv)
    (l tmp h : nat) (w : World) : res Z * World :=
  let argc := zlen argv in
  let server_mode := match znth argv 1 with Some a => strncmp_eq "-l" a 3 | None => false end in
  if (argc <? 3) || (server_mode && (argc <? 4)) then (Ok EXIT_FAILURE, w)
  else
    let '(r, w') := local_object h (native_socket k server_mode argv l tmp h) (copy_socket h socket_fl input_fl output_fl start envs) w in
    (exit_status (Returns <$> r), w').

(** *** What the program has open *)

(** The result of a call that answers 0 or an [errno], and of one that hands out a number. *)
Definition checked (what : string) (errno : Z) : res unit := if errno =? 0 then Ok tt else Throw (unix_error what errno).
Definition handed (what : string) (kernel : Z + Z) : res Z := match kernel with inl errno => Throw (refused what errno) | inr n => Ok n end.

(** The result of the calls in server mode: the number of the accepted socket. *)
Definition server_result (k : Kernel) (host port : string) : res Z :=
  n ← handed "socket" (k_socket k AF_INET SOCK_STREAM);
  _ ← checked "setsockopt" (k_setsockopt k n SOL_SOCKET SO_REUSEADDR (map byte_of [1; 0; 0; 0]));
  address ← Address_resolve getaddrinfo host port;
  _ ← checked "bind" (k_bind k n (sockaddr_of address));
  _ ← checked "listen" (k_listen k n 16);
  n' ← handed "accept" (k_accept k n);
  _ ← Socket_verify AF_INET SOCK_STREAM (k_getsockopt k n' SO_DOMAIN) (k_getsockopt k n' SO_TYPE);
  Ok n'.

Definition client_result (k : Kernel) (host port : string) : res Z :=
  n ← handed "socket" (k_socket k AF_INET SOCK_STREAM);
  address ← Address_resolve getaddrinfo host port;
  _ ← checked "connect" (k_connect k n (sockaddr_of address));
  Ok n.

(** Nothing but the new socket [h], on the number [n], is left. *)
Definition holds_only (w w' : World) (h : nat) (r : res Z) : Prop :=
  match r with
  | Ok n => n ∉ w_open w /\ exists l, w_cells w !! l = None /\ w' = made_at l h n w
  | _ => w' = w
  end.

Lemma call_checked what h kernel w n : fd_num h w = (Ok n, w) -> socket_call what h kernel w = (checked what (kernel n), w).
Proof. intros E. by apply socket_call_eq. Qed.

Lemma native_client_eq k h host port w : own_inv w -> w_handles w !! h = None -> unused w (k_socket k AF_INET SOCK_STREAM) ->
  exists w', native_client k h host port w = (const tt <$> client_result k host port, w') /\ holds_only w w' h (client_result k host port).
Proof.
  intros H Hh Hu. unfold native_client, client_result, TCPSocket_new, Socket_new. unfold mbind at 1, method_bind at 1. rewrite new_made by done.
  destruct (k_socket k AF_INET SOCK_STREAM) as [errno|n]; cbn [handed]; [exists w; split; exact eq_refl|]. destruct Hu as [H0 Hn]. rewrite res_bind_Ok.
  assert (Hd : FileDescriptor_destroy h (made h n w) = w) by (apply made_destroy; [done|done|apply fresh_cell|done|done]).
  unfold constructor_body. destruct (Address_resolve getaddrinfo host port) as [address|e|]; [|exists w; split; [unfold mbind, method_bind, lift; cbn; by rewrite Hd|exact eq_refl]..].
  rewrite run_lift, res_bind_Ok. unfold Socket_connect_to. erewrite call_checked by apply made_fd_num. unfold checked. cbv beta.
  destruct (_ =? 0); cbn; [|exists w; split; [by rewrite Hd|exact eq_refl]]. exists (made h n w). split; [done|]. split; [done|]. exists (fresh (dom (w_cells w))). split; [apply fresh_cell|done].
Qed.

(** The listening socket after it was read once, and the accepted one beside it. *)
Lemma accept_beside w k l tmp h n : own_inv w -> 0 <= n -> n ∉ w_open w -> NoDup [l; tmp; h] -> Forall (fun h => w_handles w !! h = None) [l; tmp; h] ->
  unused (made l n w) (k_accept k n) ->
  let r := n' ← handed "accept" (k_accept k n);
           _ ← Socket_verify AF_INET SOCK_STREAM (k_getsockopt k n' SO_DOMAIN) (k_getsockopt k n' SO_TYPE); Ok n' in
  exists w', with_temporary l (accept_socket l tmp h (k_accept k) (k_getsockopt k)) (made l n w) = (const tt <$> r, w') /\ holds_only w w' h r.
Proof.
  intros H H0 Hn Hd Hf Hu r. apply Forall_cons in Hf as [Hl Hf]. apply Forall_cons in Hf as [Ht Hf]. apply Forall_cons in Hf as [Hh _].
  assert (l <> tmp /\ l <> h /\ tmp <> h) as (? & ? & ?) by (repeat apply NoDup_cons in Hd as [? Hd]; set_solver).
  set (loc := fresh (dom (w_cells w))). assert (Hloc : w_cells w !! loc = None) by apply fresh_cell.
  assert (Hi : own_inv (made l n w)) by (by apply made_inv; [|exact Hloc|..]). set (st := register_read FDWrapper_new).
  pose proof (accept_eq (made l n w) l loc (mkCell n FDWrapper_new) tmp h (k_accept k) (k_getsockopt k) Hi) as E.
  assert (Ew : snd (on_cell l (modify register_read) (made l n w)) = made_with st loc l n w).
  { erewrite on_cell_eq by apply lookup_insert_eq. unfold made, made_with, w_set_cells. cbn. by rewrite insert_insert_eq. }
  cbv zeta in E. rewrite Ew in E. change (made l n w) with (made_at loc l n w) in E.
  rewrite (made_fresh _ _ _ _ _ tmp), (made_fresh _ _ _ _ _ h) in E by done.
  specialize (E ltac:(apply lookup_insert_eq) ltac:(apply lookup_insert_eq) Ht Hh ltac:(done) Hu). cbn [ce_fd] in E.
  assert (Hdl : FileDescriptor_destroy l (made_with st loc l n w) = w) by by apply made_destroy.
  unfold with_temporary, made at 1. fold loc. rewrite E. clear E. unfold r. destruct (k_accept k n) as [errno|n']; cbn [handed].
  { exists w. split; [|exact eq_refl]. by rewrite Hdl. }
  destruct Hu as [H0' Hn']. rewrite res_bind_Ok. destruct (Socket_verify _ _ _ _) as [[]|e|]; [|exists w; split; [by rewrite Hdl|exact eq_refl]..].
  set (loc' := fresh (dom (w_cells (made_with st loc l n w)))). assert (Hloc' : loc <> loc' /\ w_cells w !! loc' = None).
  { pose proof (fresh_cell (made_with st loc l n w)) as Hc. fold loc' in Hc. cbn in Hc. apply lookup_insert_None in Hc. naive_solver. }
  destruct Hloc' as [Hne Hnone]. unfold made. fold loc'. rewrite made_made by done. cbn in Hn'. rewrite made_destroy.
  - eexists. split; [reflexivity|]. split; [set_solver|]. by exists loc'.
  - apply made_inv; [done|done|done|set_solver|done].
  - done.
  - by rewrite made_cells.
  - cbn. set_solver.
  - by rewrite made_fresh.
Qed.

Lemma native_server_eq k l tmp h host port w : own_inv w -> NoDup [l; tmp; h] -> Forall (fun h => w_handles w !! h = None) [l; tmp; h] ->
  unused w (k_socket k AF_INET SOCK_STREAM) ->
  (forall n, k_socket k AF_INET SOCK_STREAM = inr n -> unused (made l n w) (k_accept k n)) ->
  exists w', native_server k l tmp h host port w = (const tt <$> server_result k host port, w') /\ holds_only w w' h (server_result k host port).
Proof.
  intros H Hd Hf Hu Ha. unfold native_server, server_result, TCPSocket_new, Socket_new. unfold mbind at 1, method_bind at 1. rewrite new_made by done.
  destruct (k_socket k AF_INET SOCK_STREAM) as [errno|n] eqn:Es; cbn [handed]; [exists w; split; exact eq_refl|]. destruct Hu as [H0 Hn]. rewrite res_bind_Ok.
  assert (Hl : w_handles w !! l = None) by (by apply Forall_cons in Hf as [? _]).
  assert (Hdl : FileDescriptor_destroy l (made l n w) = w) by (apply made_destroy; [done|done|apply fresh_cell|done|done]).
  pose proof (accept_beside w k l tmp h n H H0 Hn Hd Hf (Ha n eq_refl)) as Hacc. cbv zeta in Hacc. unfold with_temporary in *.
  unfold set_reuseaddr, Socket_setsockopt, Socket_bind, TCPSocket_listen.
  assert (Hcall : forall what kernel (m : unit -> world unit), (u ← socket_call what l kernel; m u) (made l n w) =
    match checked what (kernel n) with Ok u => m u (made l n w) | Throw e => (Throw e, made l n w) | NoFuel => (NoFuel, made l n w) end).
  { intros what kernel m. unfold mbind at 1, method_bind at 1. by erewrite call_checked by apply made_fd_num. }
  rewrite Hcall. cbv beta. destruct (checked _ _) as [[]|e|]; [|exists w; split; [by rewrite Hdl|exact eq_refl]..]. rewrite res_bind_Ok.
  destruct (Address_resolve getaddrinfo host port) as [address|e|];
    [|exists w; split; [unfold mbind, method_bind, lift; cbn; by rewrite Hdl|exact eq_refl]..].
  rewrite run_lift, res_bind_Ok.
  rewrite Hcall. cbv beta. destruct (checked _ _) as [[]|e|]; [|exists w; split; [by rewrite Hdl|exact eq_refl]..]. rewrite res_bind_Ok.
  rewrite Hcall. cbv beta. destruct (checked _ _) as [[]|e|]; [|exists w; split; [by rewrite Hdl|exact eq_refl]..]. rewrite res_bind_Ok. exact Hacc.
Qed.

(** What the fresh names and the kernel's numbers have to be. *)
Record native_ready (k : Kernel) (l tmp h : nat) (w : World) : Prop := {
  nr_reached : reach own_step World_empty w;
  nr_names : NoDup [l; tmp; h];
  nr_fresh : Forall (fun h => w_handles w !! h = None) [l; tmp; h];
  nr_socket : unused w (k_socket k AF_INET SOCK_STREAM);
  nr_accept n : k_socket k AF_INET SOCK_STREAM = inr n -> unused (made l n w) (k_accept k n)
}.

(** The two modes, on a command line that has the arguments. *)
Definition native_result (k : Kernel) (server_mode : bool) (argv : list string) : res Z :=
  if server_mode then host ← argv_at argv 2; port ← argv_at argv 3; server_result k host port
  else host ← argv_at argv 1; port ← argv_at argv 2; client_result k host port.

Lemma native_socket_eq k server_mode argv l tmp h w : native_ready k l tmp h w ->
  exists w', native_socket k server_mode argv l tmp h w = (const tt <$> native_result k server_mode argv, w') /\
    holds_only w w' h (native_result k server_mode argv).
Proof.
  intros [Hre Hd Hf Hs Ha]. pose proof (reach_invariant own_step own_inv _ _ own_step_inv own_inv_empty Hre) as H.
  assert (Hh : w_handles w !! h = None) by (by do 2 apply Forall_cons in Hf as [_ Hf]; apply Forall_cons in Hf as [? _]).
  assert (Harg : forall i (m : string -> world unit) (f : string -> res Z),
    (forall a, exists w', m a w = (const tt <$> f a, w') /\ holds_only w w' h (f a)) ->
    exists w', (a ← lift (argv_at argv i); m a) w = (const tt <$> (a ← argv_at argv i; f a), w') /\ holds_only w w' h (a ← argv_at argv i; f a)).
  { intros i m f Hm. destruct (argv_at argv i) as [a|e|]; [rewrite run_lift, res_bind_Ok; apply Hm|exists w; split; exact eq_refl..]. }
  unfold native_socket, native_result. destruct server_mode.
  - apply Harg. intros host. apply Harg. intros port. by apply native_server_eq.
  - apply Harg. intros host. apply Harg. intros port. by apply native_client_eq.
Qed.

Lemma copy_socket_eq h l n w fl1 fl2 fl3 start envs : exists st, fd_closed st = false /\
  copy_socket h fl1 fl2 fl3 start envs (made_at l h n w) =
  (fst (bidirectional_stream_copy fl1 fl2 fl3 envs ([], copy_start FDWrapper_new start)), made_with st l h n w).
Proof.
  pose proof (stream_copy_keeps fl1 fl2 fl3 envs (copy_start FDWrapper_new start)) as Hk. unfold copy_socket.
  erewrite on_cell_eq by apply lookup_insert_eq. cbn [ce_state ce_fd]. destruct (bidirectional_stream_copy _ _ _ _ _) as [r [rules s]]. cbn [fst snd] in *.
  exists (sc_socket s). split; [exact Hk|]. unfold made_with, w_set_cells. cbn. by rewrite insert_insert_eq.
Qed.
End Native.

(** ** The programs on a TCPSpongeSocket *)

Section Sponge.
Context {A I : Type} {FA : FdAdapter A I}.

(** What goes on around a session: the draw of the initial sequence number, the passes of the
    loop while the connection is set up, those of the TCP thread while the owner copies,
    the copying itself, what [shutdown] answers, and the passes of the thread while the
    owner waits for it, in [wait_until_closed] and in the destructor. *)
Record Around : Type := mkAround {
  ar_random : Z;
  ar_start : list (Env I);
  ar_base_time : Z;
  ar_time : Z;
  ar_meanwhile : list (Env I);
  ar_socket_fl : (Z + Z) * Z;
  ar_input_fl : (Z + Z) * Z;
  ar_output_fl : (Z + Z) * Z;
  ar_copy_start : CopyEnv;
  ar_copy : list CopyEnv;
  ar_shutdown : Z;
  ar_wait : list (Env I);
  ar_unwind : list (Env I)
}.

Definition start_session (listen : bool) (c_fsm : TCPConfig) (c_filt : FdAdapterConfig) (a : Around) : method (Process A I) unit :=
  if listen then Socket_listen_and_accept c_fsm c_filt (ar_random a) (ar_start a) (ar_base_time a) (ar_time a)
  else Socket_connect c_fsm c_filt (ar_random a) (ar_start a) (ar_base_time a) (ar_time a).

(** [bidirectional_stream_copy(tcp_socket)] while the thread makes its passes; the two share
    the owner's descriptor, of which the thread only moves the counters. *)
Definition copy_streams (a : Around) : method (Process A I) unit := fun p =>
  let p := fold_left (fun p e => thread_step e p) (ar_meanwhile a) p in
  if po_terminated p then (NoFuel, p)
  else
    let '(r, (_, s)) := bidirectional_stream_copy (ar_socket_fl a) (ar_input_fl a) (ar_output_fl a) (ar_copy a)
                          ([], copy_start (ss_owner (po_socket p)) (ar_copy_start a)) in
    (r, po_set_loop (po_rules p, ss_set_owner (sc_socket s) (po_socket p)) p).

(** The block of the socket: its destructor runs however the block is left. *)
Definition in_scope {X} (unwind : list (Env I)) (body : method (Process A I) X) : method (Process A I) X := fun p =>
  match body p with
  | (NoFuel, p') => (NoFuel, p')
  | (r, p') =>
      match TCPSpongeSocket_destroy unwind p' with
      | (Ok _, p'') => (r, p'')
      | (Throw e, p'') => (Throw e, p'')
      | (NoFuel, p'') => (NoFuel, p'')
      end
  end.

(** A call on the owner's descriptor. *)
Definition on_owner {X} (m : method FDWrapper X) : method (Process A I) X := on_loop (on_socket (zoom ss_owner ss_set_owner m)).

Definition session (listen : bool) (c_fsm : TCPConfig) (c_filt : FdAdapterConfig) (a : Around) : method (Process A I) unit :=
  in_scope (ar_unwind a)
    (_ ← start_session listen c_fsm c_filt a;
     _ ← copy_streams a;
     wait_until_closed (ar_shutdown a) (ar_wait a)).

(** A socket in a process of its own. *)
Definition process_of (s : TCPSpongeSocket A I) : Process A I := mkProcess [] s false Not_joinable false.

(** The common part of the three programs: [config] is what [get_config] returns, [build] makes
    the socket; the process is [None] when it never had one. *)
Definition sponge_main {X} (argv : list string) (config : res (run (TCPConfig * FdAdapterConfig * bool * X)))
    (build : FdAdapterConfig -> bool -> X -> res (TCPSpongeSocket A I)) (a : Around) : res Z * option (Process A I) :=
  if zlen argv <? 3 then (Ok EXIT_FAILURE, None)
  else
    match config with
    | Ok (Exits code) => (Ok code, None)
    | Ok (Returns (c_fsm, c_filt, listen, x)) =>
        match build c_filt listen x with
        | Ok s => let '(r, p) := session listen c_fsm c_filt a (process_of s) in (exit_status (Returns <$> r), Some p)
        | Throw e => (exit_status (Throw e), None)
        | NoFuel => (NoFuel, None)
        end
    | Throw e => (exit_status (Throw e), None)
    | NoFuel => (NoFuel, None)
    end.
End Sponge.
#[global] Arguments Around I : clear implicits.

(** The kernel's answers when a socket is built: [socketpair], [getsockopt] on both ends,
    [fcntl]. *)
Record Ends : Type := mkEnds {
  ends_pair : Z + Z * Z;
  ends_owner : sockopts;
  ends_data : sockopts;
  ends_fcntl : (Z + Z) * Z
}.

Definition build_socket {A I} {FA : FdAdapter A I} (k : Ends) (adapter : A) (env : Env I) : res (TCPSpongeSocket A I) :=
  TCPSpongeSocket_construct adapter env (ends_pair k) (ends_owner k) (ends_data k) (ends_fcntl k).

(** A wrapper of the number that a system call answers. *)
Definition opened_fd (attempt : string) (kernel : Z + Z) : res FDWrapper :=
  fd ← match kernel with inl errno => SystemCall attempt (-1) errno 0 | inr n => SystemCall attempt n 0 0 end;
  FileDescriptor_of fd.

Section Three.
Context (loss_rate : string -> option Z) (getaddrinfo : string -> string -> Z + option bytes).
Context {R : Type} (rng : R -> Z * R) (seed : R).

(** [tcp_udp]: the UDP socket is bound in server mode. *)
Definition tcp_udp_main (sendmsg : Address -> bytes -> Z + Z) (argv : list string) (socket : Z + Z) (bind : bytes -> Z) (k : Ends)
    (env : Env (Z + Address * bytes)) (a : Around (Z + Address * bytes)) :=
  let FA := LossyAdapter (FA := UDPSocketAdapter sendmsg) rng in
  sponge_main (FA := FA) argv
    (c ← udp_get_config loss_rate getaddrinfo argv;
     Ok (match c with Returns (c_fsm, c_filt, listen) => Returns (c_fsm, c_filt, listen, tt) | Exits code => Exits code end))
    (fun c_filt listen _ =>
       udp_sock ← opened_fd "socket" socket;
       _ ← (if listen : bool then
              let e := bind (sockaddr_of (fa_source c_filt)) in _ ← SystemCall "bind" (answer e) e 0; Ok tt
            else Ok tt);
       build_socket (FA := FA) k (mkLossy seed (mkUDP FdAdapterBase_default (mkDevice udp_sock []))) env) a.

Definition TUN_DFLT : string := "tun144".

(** [TunTapFD(devname, is_tun)] without the number: [ioctl] answers to the request. *)
Definition device_fd (devname : string) (is_tun : bool) (open : Z + Z) (ioctl : ifreq -> Z) : res FDWrapper :=
  fd ← opened_fd "open" open;
  let e := ioctl (tun_req (list_byte_of_string devname) is_tun) in
  _ ← SystemCall "ioctl" (answer e) e 0;
  Ok fd.

Definition tcp_ipv4_main (writev : bytes -> list (Z + Z)) (random : Z) (argv : list string) (open : Z + Z) (ioctl : ifreq -> Z) (k : Ends)
    (env : Env (Z + bytes)) (a : Around (Z + bytes)) :=
  let FA := LossyAdapter (FA := TunFdAdapter writev) rng in
  sponge_main (FA := FA) argv (ipv4_get_config loss_rate getaddrinfo random argv)
    (fun _ _ tun_dev_name =>
       tun ← device_fd (default TUN_DFLT tun_dev_name) true open ioctl;
       build_socket (FA := FA) k (mkLossy seed (mkTun FdAdapterBase_default (mkDevice tun []))) env) a.

(** The address is drawn before the command line is read; there is no server mode. *)
Definition tcp_ip_ethernet_main (writev : bytes -> list (Z + Z)) (arp_order : gmap Z ARP_Entry -> list Z)
    (pending_order : gmap Z Z -> list Z) (random : Z) (random_bytes : list Z) (argv : list string) (open : Z + Z) (ioctl : ifreq -> Z) (k : Ends)
    (env : Env (Z + bytes)) (a : Around (Z + bytes)) :=
  let FA := TapAdapter writev arp_order pending_order in
  sponge_main (FA := FA) argv
    (c ← ethernet_get_config getaddrinfo random argv;
     Ok (match c with
         | Returns (c_fsm, c_filt, next_hop, tap_dev_name) => Returns (c_fsm, c_filt, false, (next_hop, tap_dev_name))
         | Exits code => Exits code
         end))
    (fun c_filt _ '(next_hop, tap_dev_name) =>
       _ ← device_fd tap_dev_name false open ioctl;
       adapter ← TapAdapter_new writev (random_private_ethernet_address random_bytes) (fa_source c_filt) next_hop;
       build_socket (FA := FA) k adapter env) a.
End Three.

(** ** webget *)

Definition crlf : string := String "013"%char (String "010"%char "").

Definition http_request (host path : string) : string :=
  "GET " +:+ path +:+ " HTTP/1.1" +:+ crlf +:+ "Host: " +:+ host +:+ crlf +:+ "Connection: close" +:+ crlf +:+ crlf.

(** [while (!client_sock.eof()) { cout << client_sock.read(); }], with what is printed. *)
Fixpoint print_all (kernel : list (Z -> Z + bytes)) (printed : bytes) : method FDWrapper bytes :=
  eof ← gets fd_eof;
  if eof : bool then mret printed
  else
    match kernel with
    | [] => lift NoFuel
    | k :: kernel' => data ← FileDescriptor_read SIZE_MAX k; print_all kernel' (printed ++ data)
    end.

Section Webget.
Context (getaddrinfo : string -> string -> Z + option bytes).
Context (writev : bytes -> list (Z + Z)) (arp_order : gmap Z ARP_Entry -> list Z) (pending_order : gmap Z Z -> list Z).
#[local] Instance Webget_adapter : FdAdapter TCPOverIPv4OverEthernetAdapter (Z + bytes) := TapAdapter writev arp_order pending_order.

(** [FullStackSocket()] *)
Definition FullStackSocket_new (random_bytes : list Z) (open : Z + Z) (ioctl : ifreq -> Z) (k : Ends) (env : Env (Z + bytes))
  : res (TCPSpongeSocket TCPOverIPv4OverEthernetAdapter (Z + bytes)) :=
  _ ← device_fd "tap10" false open ioctl;
  adapter ← TapAdapter_new writev (random_private_ethernet_address random_bytes) (inet LOCAL_TAP_IP_ADDRESS 0) (inet LOCAL_TAP_NEXT_HOP_ADDRESS 0);
  build_socket k adapter env.

(** [get_URL] once the socket is there: [port] is the random local port, [sent] what [writev]
    answers to the request, [reads] what the owner's reads get. *)
Definition get_URL (host path : string) (port : Z) (a : Around (Z + bytes)) (sent : list (Z + Z)) (reads : list (Z -> Z + bytes))
  : method (Process TCPOverIPv4OverEthernetAdapter (Z + bytes)) bytes :=
  in_scope (ar_unwind a)
    (address ← lift (Address_resolve getaddrinfo host "http");
     _ ← Socket_connect helper_tcp_config (FullStackSocket_config address port) (ar_random a) (ar_start a) (ar_base_time a) (ar_time a);
     _ ← modify (fun p => fold_left (fun p e => thread_step e p) (ar_meanwhile a) p);
     _ ← on_owner (FileDescriptor_write sent (BufferViewList_of_string (list_byte_of_string (http_request host path))) true 0);
     printed ← on_owner (print_all reads []);
     _ ← wait_until_closed (ar_shutdown a) (ar_wait a);
     mret printed).

(** The exit status of [abort()] as the shell reports it. *)
Definition ABORTED : Z := 134.

(** The status, with what was printed when all went well. *)
Definition webget_main (argv : list string) (random_bytes : list Z) (open : Z + Z) (ioctl : ifreq -> Z) (k : Ends) (env : Env (Z + bytes))
    (port : Z) (a : Around (Z + bytes)) (sent : list (Z + Z)) (reads : list (Z -> Z + bytes)) : res (Z * bytes) :=
  match argv with
  | [] => Ok (ABORTED, [])
  | [_; host; path] =>
      let r := s ← FullStackSocket_new random_bytes open ioctl k env;
               fst (get_URL host path port a sent reads (process_of s)) in
      status ← exit_status ((fun _ => Returns tt) <$> r);
      Ok (status, match r with Ok printed => printed | _ => [] end)
  | _ => Ok (EXIT_FAILURE, [])
  end.
End Webget.

(** ** lab7 *)

Section Lab7Main.
Context (getaddrinfo : string -> string -> Z + option bytes).
Context (writev : bytes -> list (Z + Z)) (arp_order : gmap Z ARP_Entry -> list Z) (pending_order : gmap Z Z -> list Z).
#[local] Instance Lab7_adapter : FdAdapter TCPOverIPv4OverEthernetAdapter (Z + bytes) := TapAdapter writev arp_order pending_order.

Definition lab7_server_address : Address := inet (ip 172 16 0 100) 1234.
Definition lab7_local_address (is_client : bool) : Address := inet (if is_client then ip 192 168 0 50 else ip 172 16 0 100) 0.

(** The [try] block of [program_body]. *)
Definition lab7_session (is_client : bool) (port : Z) (a : Around (Z + bytes)) : method (Process TCPOverIPv4OverEthernetAdapter (Z + bytes)) unit :=
  abort ← gets po_abort;
  let envs := map (with_abort abort) (ar_start a) in
  _ ← (if is_client then
         _ ← on_loop (TCPSocketLab7_connect writev arp_order pending_order (lab7_local_address is_client) lab7_server_address port (ar_random a) envs (ar_base_time a));
         mret tt
       else
         local_address ← lift (TCPSocketLab7_bind (lab7_local_address is_client) lab7_server_address);
         on_loop (TCPSocketLab7_listen_and_accept writev arp_order pending_order local_address (ar_random a) envs (ar_base_time a)));
  _ ← start_thread (ar_time a);
  _ ← copy_streams a;
  wait_until_closed (ar_shutdown a) (ar_wait a).

(** [program_body]: the network thread runs beside the session on [net_envs], the last of
    which see the exit flag; it is joined before the socket is destroyed. The exception
    of the session is printed and dropped. *)
Definition program_body (is_client : bool) (bounce_host bounce_port : string) (rd : nat -> Z) (socket : Z + Z) (k : Ends)
    (env : Env (Z + bytes)) (net_env : NetEnv) (net_envs : list NetEnv) (port : Z) (a : Around (Z + bytes))
  : res unit * option (Process TCPOverIPv4OverEthernetAdapter (Z + bytes)) :=
  match (_ ← opened_fd "socket" socket;
         _ ← Address_resolve getaddrinfo bounce_host bounce_port;
         net ← lab7_thread is_client rd net_env;
         s ← build_socket k (lab7_adapter is_client rd) env;
         Ok (net, s)) with
  | Ok (net, s) =>
      match lab7_session is_client port a (process_of s) with
      | (NoFuel, p) => (NoFuel, Some p)
      | (Throw (UB e), p) => (Throw (UB e), Some p)
      | (_, p) =>
          match fst (network_thread writev arp_order pending_order net_envs ([], net)) with
          | Ok _ => let '(r, p') := TCPSpongeSocket_destroy (ar_unwind a) p in (r, Some p')
          | Throw e => (Throw e, Some p)
          | NoFuel => (NoFuel, Some p)
          end
      end
  | Throw e => (Throw e, None)
  | NoFuel => (NoFuel, None)
  end.

(** [argv[1]] is compared as a string; a fifth word of any kind turns debugging on. *)
Definition lab7_main (argv : list string) (body : bool -> string -> string -> bool -> res unit) : res Z :=
  match argv with
  | [] => Ok ABORTED
  | _ :: mode :: host :: port :: rest =>
      if bool_decide (zlen rest <= 1) && (bool_decide (mode = "client"%string) || bool_decide (mode = "server"%string))
      then exit_status (Returns <$> body (bool_decide (mode = "client"%string)) host port (bool_decide (zlen rest = 1)))
      else Ok EXIT_FAILURE
  | _ => Ok EXIT_FAILURE
  end.
End Lab7Main.

(** ** Ending a session *)

Section Ending.
Context {A I : Type} {FA : FdAdapter A I} {AC : AdapterContract FA}.
Context {Q : TCPReceiver -> bytes -> Prop} {P : TCPReceiver -> TCPSegment -> Prop} {RC : ReceiverContract Q P}.
Implicit Types (p : Process A I).

(** The kernel makes no errors in the passes of the thread. *)
Fixpoint passes_ready (envs : list (Env I)) p : Prop :=
  match envs with
  | [] => True
  | e :: envs' => (forall base_time, po_thread p = Running base_time -> turn_ready P e base_time (po_socket p)) /\ passes_ready envs' (thread_step e p)
  end.

Lemma pass_alive start p e : alive Q P start p -> (forall base_time, po_thread p = Running base_time -> turn_ready P e base_time (po_socket p)) ->
  alive Q P start (thread_step e p).
Proof.
  intros Hp He. destruct (po_thread p) as [|base_time|] eqn:Et; [unfold thread_step; by rewrite Et| |unfold thread_step; by rewrite Et].
  by eapply turn_alive; [..|apply He].
Qed.

Lemma passes_alive start envs : forall p, alive Q P start p -> passes_ready envs p -> alive Q P start (fold_left (fun p e => thread_step e p) envs p).
Proof. induction envs as [|e envs IH]; intros p Hp; [done|]. intros [He Hr]. apply IH; [by apply pass_alive|done]. Qed.

Lemma join_alive start envs : forall p, alive Q P start p -> passes_ready envs p -> joinable (po_thread p) = true ->
  alive Q P start (snd (join envs p)) /\
  ((fst (join envs p) = Ok tt /\ po_thread (snd (join envs p)) = Not_joinable) \/ fst (join envs p) = NoFuel).
Proof.
  assert (Hend : forall envs p, alive Q P start p -> po_thread p = Finished -> join envs p = (Ok tt, po_set_thread Not_joinable p)).
  { intros envs' p Hp Et. destruct envs'; cbn [join]; by rewrite (al_terminated _ _ Hp), Et. }
  assert (Hdone : forall p, alive Q P start p -> po_thread p = Finished -> alive Q P start (po_set_thread Not_joinable p)).
  { intros p Hp Et. eapply life_step_alive; [exact Hp|by constructor]. }
  induction envs as [|e envs IH]; intros p Hp Hr Hj; (destruct (po_thread p) as [|base_time|] eqn:Et; [done| |rewrite Hend by done; split; [by apply Hdone|by left]]).
  - cbn [join]. rewrite (al_terminated _ _ Hp), Et. split; [done|by right].
  - cbn [join]. rewrite (al_terminated _ _ Hp), Et. destruct Hr as [He Hr]. pose proof (pass_alive start p e Hp ltac:(intros b ?; apply He; congruence)) as Hp'.
    apply IH; [done|done|]. unfold thread_step. rewrite Et. repeat case_match; cbn; by rewrite ?Et.
Qed.

Lemma owner_alive {X} start (m : method FDWrapper X) p : alive Q P start p -> alive Q P start (snd (on_owner m p)).
Proof.
  intros Hp. unfold on_owner, on_loop, on_socket, zoom. cbn [fst snd]. destruct (m (ss_owner (po_socket p))) as [r v]. cbn [fst snd]. by apply alive_owner.
Qed.

Lemma copy_alive start a p : alive Q P start p -> passes_ready (ar_meanwhile a) p -> alive Q P start (snd (copy_streams a p)).
Proof.
  intros Hp Hr. unfold copy_streams. pose proof (passes_alive start _ p Hp Hr) as Hp'. rewrite (al_terminated _ _ Hp').
  destruct (bidirectional_stream_copy _ _ _ _ _) as [r [rules s]]. by apply alive_owner.
Qed.

Lemma wait_alive start kernel envs p : alive Q P start p -> passes_ready envs (snd (on_owner (Socket_shutdown SHUT_RDWR kernel) p)) ->
  alive Q P start (snd (wait_until_closed kernel envs p)).
Proof.
  intros Hp Hr. pose proof (owner_alive start (Socket_shutdown SHUT_RDWR kernel) p Hp) as Hp'. unfold wait_until_closed.
  fold (on_owner (A := A) (I := I) (Socket_shutdown SHUT_RDWR kernel)). unfold mbind at 1, method_bind at 1.
  destruct (on_owner _ p) as [[u|e|] p']; cbn [snd] in *; [|done..]. rewrite run_gets. destruct (joinable (po_thread p')) eqn:Hj; [|done].
  by apply join_alive.
Qed.

(** The destructor in any state the body can leave. *)
Lemma destroy_joins start p unwind : alive Q P start p ->
  (forall base_time, po_thread p = Running base_time -> exists e envs, unwind = e :: envs /\ turn_ready P e base_time (po_socket p)) ->
  exists p', TCPSpongeSocket_destroy unwind p = (Ok tt, p') /\ alive Q P start p' /\ po_thread p' = Not_joinable.
Proof.
  intros Hp Hu. destruct (po_thread p) as [|base_time|] eqn:Et.
  - exists p. unfold TCPSpongeSocket_destroy. by rewrite Et.
  - destruct (Hu base_time eq_refl) as (e & envs & -> & He). apply abort_joins; [done|by rewrite Et|]. intros b Eb. congruence.
  - assert (Ha : alive Q P start (po_set_abort true p)) by (eapply life_step_alive; [exact Hp|apply life_abort; by rewrite Et]).
    unfold TCPSpongeSocket_destroy. rewrite Et. cbn [joinable].
    exists (po_set_thread Not_joinable (po_set_abort true p)). split; [|split; [|done]].
    + destruct unwind; cbn [join]; rewrite (al_terminated _ _ Ha); cbn [po_set_abort po_thread]; by rewrite Et.
    + eapply life_step_alive; [exact Ha|]. by constructor.
Qed.
End Ending.
#[global] Arguments passes_ready {A I FA AC} P envs p.

(** ** Theorems *)

(** a program leaves no thread behind. Once its socket is connected, the program copies and
    waits while the TCP thread makes its passes under a kernel without errors; when this
    block is left, because the connection is closed or by any exception of the copying
    or of [shutdown], the destructor returns, the thread is joined and the connection
    is gone, the process was never terminated, and the result, from which the exit
    status is made, is that of the block. *)
Theorem socket_programs_join_thread {A I} {FA : FdAdapter A I} {AC : AdapterContract FA}
    (Q : TCPReceiver -> bytes -> Prop) (P : TCPReceiver -> TCPSegment -> Prop) (RC : ReceiverContract Q P) start (p : Process A I) (a : Around I) :
  let body := _ ← copy_streams a; wait_until_closed (ar_shutdown a) (ar_wait a) in
  alive Q P start p -> passes_ready P (ar_meanwhile a) p ->
  passes_ready P (ar_wait a) (snd (on_owner (Socket_shutdown SHUT_RDWR (ar_shutdown a)) (snd (copy_streams a p)))) ->
  (forall base_time, po_thread (snd (body p)) = Running base_time ->
     exists e envs, ar_unwind a = e :: envs /\ turn_ready P e base_time (po_socket (snd (body p)))) ->
  exists p', in_scope (ar_unwind a) body p = (fst (body p), p') /\ po_terminated p' = false /\
    (fst (body p) <> NoFuel -> po_thread p' = Not_joinable /\ ss_tcp (po_socket p') = None).
Proof.
  intros body Hp Hm Hw Hu. pose proof (copy_alive start a p Hp Hm) as Hc. pose proof (wait_alive start (ar_shutdown a) (ar_wait a) _ Hc Hw) as Hwt.
  assert (Hb : alive Q P start (snd (body p))).
  { unfold body, mbind, method_bind. destruct (copy_streams a p) as [[u|e|] p1]; done. }
  destruct (destroy_joins start (snd (body p)) (ar_unwind a) Hb Hu) as (p' & Ed & Hp' & Hn'). unfold in_scope.
  destruct (body p) as [r p1]. cbn [fst snd] in *. assert (Hnone : ss_tcp (po_socket p') = None).
  { destruct Hp' as [_ (c & f & _ & Hx)]. by rewrite Hn' in Hx. }
  destruct r as [u|e|]; [exists p'; rewrite Ed|exists p'; rewrite Ed|exists p1].
  - split; [done|]. split; [apply Hp'|done].
  - split; [done|]. split; [apply Hp'|done].
  - split; [done|]. split; [apply Hb|done].
Qed.

(** A read that gets what the kernel has. *)
Lemma whole_read (kernel : Z -> Z + bytes) d fd : kernel BUFFER_SIZE = inr d -> zlen d <= BUFFER_SIZE ->
  exists fd', FileDescriptor_read SIZE_MAX kernel fd = (Ok d, fd') /\ fd_eof fd' = fd_eof fd || (zlen d =? 0).
Proof.
  intros Ek Hl. unfold FileDescriptor_read. change (Z.min BUFFER_SIZE SIZE_MAX) with BUFFER_SIZE. rewrite Ek, SystemCall_ok by zlia. mrun.
  destruct (Z.ltb_spec BUFFER_SIZE (zlen d)); [lia|]. mrun. eexists. split; [reflexivity|].
  change (0 <? SIZE_MAX) with true. cbn [andb]. destruct (zlen d =? 0); [by rewrite orb_true_r|by rewrite orb_false_r].
Qed.

(** [webget] prints the whole response: whatever the pieces are in which the owner's reads
    get it, the loop prints all of them, in order, and ends at the end of the stream. *)
Theorem webget_prints_response chunks fd : fd_eof fd = false -> Forall (fun d => 0 < zlen d <= BUFFER_SIZE) chunks ->
  exists fd', print_all (map (fun d _ => inr d) chunks ++ [fun _ => inr []]) [] fd = (Ok (concat chunks), fd') /\ fd_eof fd' = true.
Proof.
  assert (Hall : Forall (fun d => 0 < zlen d <= BUFFER_SIZE) chunks -> forall printed fd, fd_eof fd = false ->
    exists fd', print_all (map (fun d _ => inr d) chunks ++ [fun _ => inr []]) printed fd = (Ok (printed ++ concat chunks), fd') /\ fd_eof fd' = true);
    [|intros He Hc; by apply (Hall Hc [])].
  intros Hc. induction Hc as [|d chunks Hd Hc IH]; intros printed fd0 He; cbn [map app print_all concat]; rewrite run_gets, He.
  - destruct (whole_read (fun _ => inr []) [] fd0) as (fd' & E & He'); [done|done|]. erewrite run_bind by exact E. cbn [print_all]. rewrite run_gets, He', orb_true_r.
    rewrite app_nil_r. exists fd'. by rewrite He', orb_true_r.
  - destruct (whole_read (fun _ => inr d) d fd0) as (fd' & E & He'); [done|lia|]. erewrite run_bind by exact E. rewrite app_assoc. apply IH.
    rewrite He', He. by destruct (Z.eqb_spec (zlen d) 0); [lia|].
Qed.

(** [tcp_native] has open what it should. In server mode the socket that is copied is the
    accepted one, and the listening socket is closed before the copying begins; in client
    mode it is the connected one. The setup fails with the error of the call that failed,
    and then nothing is open; and whenever the program ends, in whatever way, every
    descriptor it opened is closed, and the exit status tells whether all went well. *)
Theorem tcp_native_closes_everything getaddrinfo k argv fl1 fl2 fl3 start envs l tmp h w : native_ready k l tmp h w ->
  let server_mode := match znth argv 1 with Some a => strncmp_eq "-l" a 3 | None => false end in
  (zlen argv <? 3) || (server_mode && (zlen argv <? 4)) = false ->
  let r := native_result getaddrinfo k server_mode argv in
  let copied := fst (bidirectional_stream_copy fl1 fl2 fl3 envs ([], copy_start FDWrapper_new start)) in
  (exists w', native_socket getaddrinfo k server_mode argv l tmp h w = (const tt <$> r, w') /\ holds_only w w' h r) /\
  exists w', native_main getaddrinfo k argv fl1 fl2 fl3 start envs l tmp h w = (exit_status (Returns <$> (_ ← r; copied)), w') /\
    ((_ ← r; copied) <> NoFuel -> w' = w).
Proof.
  intros Hn server_mode Ha r copied. destruct (native_socket_eq getaddrinfo k server_mode argv l tmp h w Hn) as (w1 & E1 & H1). split; [by exists w1|].
  unfold native_main. fold server_mode. rewrite Ha.
  unfold local_object. unfold mbind at 1, method_bind at 1. rewrite E1. fold r in H1 |- *. destruct Hn as [Hre Hd Hf Hs Hacc].
  pose proof (reach_invariant own_step own_inv _ _ own_step_inv own_inv_empty Hre) as Hi.
  destruct r as [n|e|] eqn:Er; cbn [fmap res_fmap]; [|exists w1; split; [done|by intros _]..].
  destruct H1 as (Hno & loc & Hloc & ->). destruct (copy_socket_eq h loc n w fl1 fl2 fl3 start envs) as (st & Hst & Ec). rewrite Ec. fold copied. rewrite res_bind_Ok.
  assert (Hh : w_handles w !! h = None) by (by do 2 apply Forall_cons in Hf as [_ Hf]; apply Forall_cons in Hf as [? _]).
  destruct copied as [[]|e|]; [| |by eexists]; (eexists; split; [reflexivity|]; intros _; by apply made_destroy).
Qed.

(** *** Witnesses *)

(** The TCP thread runs; the owner's copying fails at once, and the destructor ends the thread. *)
Definition demo_around : Around (Z + bytes) :=
  mkAround 0 [] 0 0 [] (inl 9, 0) (inr 0, 0) (inr 0, 0) (eager [] []) [] 0 [] [demo_env None [] 1].

Lemma socket_programs_join_thread_witness : exists p',
  in_scope (ar_unwind demo_around) (_ ← copy_streams demo_around; wait_until_closed 0 []) (snd (start_thread 0 demo_idle)) =
    (Throw (unix_error "fcntl" 9), p') /\ po_thread p' = Not_joinable.
Proof.
  destruct (socket_programs_join_thread rv_sound any_segment receiver_sound_contract
    (TCPConnection_new demo_cfg 0, [], []) (snd (start_thread 0 demo_idle)) demo_around) as (p' & E & _ & H).
  - apply (alive_started demo_idle (TCPConnection_new demo_cfg 0) (mkFifo [] 0 64000 false false) [R1; R2; R3; R4] 0);
      [reflexivity|reflexivity|apply demo_sock_inv|reflexivity|apply all_rules_sorted].
  - exact Logic.I.
  - exact Logic.I.
  - intros base_time Hb. eexists _, []. split; [reflexivity|]. change (Running 0 = Running base_time) in Hb. injection Hb as <-. apply (demo_turn_ready []).
  - exists p'. split; [exact E|]. apply H. discriminate.
Defined.

Definition demo_kernel : Kernel :=
  mkKernel (fun _ _ => inr 3) (fun _ _ _ _ => 0) (fun _ _ => 0) (fun _ _ => 0) (fun _ => inr 4) (fun _ _ => 111)
    (fun _ o => inr (if o =? SO_DOMAIN then AF_INET else SOCK_STREAM, 4)).

Lemma demo_native_ready : native_ready demo_kernel 0 1 2 World_empty.
Proof.
  split.
  - apply reach_refl.
  - repeat (apply NoDup_cons; split; [set_solver|]). apply NoDup_nil_2.
  - by repeat constructor.
  - split; [lia|set_solver].
  - intros n [= <-]. split; [lia|set_solver].
Qed.

(** The server accepts number 4 and then cannot set it to non-blocking; the client cannot connect. *)
Lemma tcp_native_closes_everything_witness :
  (exists w', native_main demo_getaddrinfo demo_kernel ["tcp_native"; "-l"; "localhost"; "80"]%string (inl 9, 0) (inr 0, 0) (inr 0, 0) (eager [] []) [] 0 1 2 World_empty
     = (Ok EXIT_FAILURE, w') /\ w' = World_empty).
Proof.
  destruct (tcp_native_closes_everything demo_getaddrinfo demo_kernel ["tcp_native"; "-l"; "localhost"; "80"]%string (inl 9, 0) (inr 0, 0) (inr 0, 0)
    (eager [] []) [] 0 1 2 World_empty demo_native_ready) as (_ & w' & E & H); [reflexivity|]. exists w'. split; [exact E|]. apply H. vm_compute. discriminate.
Defined.

Lemma webget_prints_response_witness : exists fd',
  print_all [fun _ => inr (list_byte_of_string "HTTP/1.1 "); fun _ => inr (list_byte_of_string "200 OK"); fun _ => inr []] [] FDWrapper_new =
  (Ok (list_byte_of_string "HTTP/1.1 200 OK"), fd').
Proof.
  destruct (webget_prints_response [list_byte_of_string "HTTP/1.1 "; list_byte_of_string "200 OK"] FDWrapper_new) as (fd' & E & _).
  - reflexivity.
  - repeat constructor; vm_compute; congruence.
  - exists fd'. exact E.
Defined.
