(* ===== verification/Lab7Net.v ===== *)
(** * TCP across two routers

    The whole of [apps/lab7.cc] at both ends: two [TCPSpongeSocket]s on private networks,
    each with its adapter and its network thread, joined by the Internet and the bouncer,
    which may lose, duplicate, delay and reorder frames. A segment crosses two event loops
    and two routers, is resolved by ARP three times, and changes its Ethernet headers and
    its time to live on the way. *)

From stdpp Require Import sorting.
From S2P Require Import Prelude WrappingInts Buffers ByteStreams Reassembler Checksum Parser TCPSegments Receiver Sender Connection EndToEnd Emitted IPv4 Ethernet Addresses Adapters Interface Frames Router Simulator FileDescriptors EventLoop Devices TapAdapter SpongeSocket SocketLoop SocketNet Lab7.

(** What a datagram carries survives the wire and a hop. *)
Lemma transports_same seg d d' : transports seg d -> datagram_valid d' ->
  IPv4Header_pseudo_cksum (ipd_header d') = IPv4Header_pseudo_cksum (ipd_header d) ->
  BufferList_concatenate (ipd_payload d') = BufferList_concatenate (ipd_payload d) -> transports seg d'.
Proof. intros [_ Ht] V Ep Eb. split; [done|]. intros b Hb Hs. rewrite Ep. apply Ht; [done|congruence]. Qed.

Lemma holds_travels S : travels (holds S).
Proof.
  split.
  - apply holds_valid.
  - intros d d' (seg & Hs & Ht) Ha. exists seg. split; [done|]. pose proof (arrives_valid _ _ (proj1 Ht) Ha) as V.
    destruct Ha as (v & _ & Hh & _ & Hp). apply (transports_same seg d); [done|done|by rewrite Hh|done].
  - intros d (seg & Hs & Ht). exists seg. split; [done|].
    apply (transports_same seg d); [done|by apply decremented_valid, Ht|done|done].
Qed.

Section Lab7Net.
Context (writev : bytes -> list (Z + Z)) (Hwritev : forall d, writev d = [inr (zlen d)]).
Context (arp_order : gmap Z ARP_Entry -> list Z) (pending_order : gmap Z Z -> list Z).
Context (Harp : forall m, order_of (arp_order m) m) (Hpending : forall m, order_of (pending_order m) m).

Lemma whole_accepts : accepts_all writev.
Proof. intros d Hd. rewrite Hwritev. apply (whole_writev_accepts d Hd). Qed.

(** ** The contract of an adapter behind a router

    The host is at [x] and its peer, known or not yet, at [y]; the network delivers
    datagrams from [y] to [x]. *)

Definition based (x y : Z) (b : FdAdapterBase) : Prop := exists sport dst dport,
  connects b x sport dst dport /\ (dst = y \/ dst = 0) /\ 0 <= sport < W16 /\ 0 <= dport < W16.

Definition for_host (x y : Z) (i : Z + bytes) : Prop := exists bs, i = inr bs /\ zlen bs <= BUFFER_SIZE /\
  forall d, datagram_in bs d -> ip_src (ipd_header d) = y /\ ip_dst (ipd_header d) = x.

Section Side.
Context (x y : Z) (Hx : 0 <= x < W32) (Hy : 0 <= y < W32).

Lemma based_inet b : based x y b -> inet_adapter b.
Proof. intros (sport & dst & dport & C & Hd & ? & ?). exists x, sport, dst, dport. split; [done|]. destruct Hd as [-> | ->]; repeat split; lia. Qed.

Record side_inv (S : TCPSegment -> Prop) (a : TCPOverIPv4OverEthernetAdapter) : Prop := {
  sv_tap : tap_inv (from_host (holds S) x y) a;
  sv_base : based x y (ta_base a)
}.

Lemma from_host_valid S d : from_host (holds S) x y d -> datagram_valid d.
Proof. apply (tv_valid _ (from_host_travels (holds S) x y (holds_travels S))). Qed.

(** Reading keeps the configuration between the two hosts. *)
Lemma side_read S a bs : side_inv S a -> zlen bs <= BUFFER_SIZE ->
  (forall d, datagram_in bs d -> ip_src (ipd_header d) = y /\ ip_dst (ipd_header d) = x) ->
  exists o a', TapAdapter_read writev (inr bs) a = (Ok o, a') /\ side_inv S a' /\
    fd_read_count (dv_fd (ta_tap a')) = u32 (fd_read_count (dv_fd (ta_tap a)) + 1) /\ readable BUFFER_SIZE o /\
    forall seg, o = Some seg -> exists h b, datagram_in bs (mkIPv4Datagram h [b]) /\ Buffer_wf b /\
      TCPSegment_parse TCPSegment_default b (IPv4Header_pseudo_cksum h) = Ok (NoError, seg).
Proof.
  intros [Ht Hb] Hl HD. destruct (tap_fd_read writev whole_accepts _ (from_host_valid S) a bs Ht Hl) as (o & a' & E & Ht' & Hc & Ho & Hu).
  exists o, a'. split; [done|]. destruct o as [seg|]; cbn [unwrapped_from] in Hu.
  - destruct Hu as (h & b & Hd & Hun & Hbw & Et). split; [|split; [done|split; [done|intros s [= <-]; by exists h, b]]].
    split; [done|]. destruct (HD _ Hd) as [Es Ed]. cbn [ipd_header] in Es, Ed. destruct Hun as (_ & _ & C & _). rewrite Es, Ed in C.
    destruct Ho as [Hty _]. exists (th_dport (ts_header seg)), y, (th_sport (ts_header seg)). split; [done|].
    split; [by left|]. split; apply Hty.
  - split; [|split; [done|split; [done|done]]]. split; [done|]. by rewrite Hu.
Qed.

Lemma side_write S a seg : side_inv S a -> seg_wire seg -> S seg ->
  exists a', TapAdapter_write writev seg a = (Ok tt, a') /\ side_inv S a'.
Proof.
  intros [Ht Hb] Hw HS. destruct (wrap_holds S (ta_base a) seg (based_inet _ Hb) Hw HS) as (src & dst & d & seg' & Ew & Hd & Es & Ed & Esrc & Edst).
  destruct (tap_write_ok writev whole_accepts _ (from_host_valid S) a seg Ht Hw) as (a' & E & Ht' & Hb').
  { intros d1 seg1 E1. rewrite Ew in E1. injection E1 as <- _. destruct Hb as (sport & dst0 & dport & [C1 C2] & Hdst & _ & _).
    rewrite C1, ipv4_numeric_inet in Esrc by done. injection Esrc as <-.
    rewrite C2, ipv4_numeric_inet in Edst by (destruct Hdst as [-> | ->]; lia). injection Edst as <-.
    destruct Hdst as [-> | ->]; [left|right]; done. }
  exists a'. split; [done|]. split; [done|]. by rewrite Hb'.
Qed.

Lemma side_tick S a ms : side_inv S a -> 0 <= ms < 5000 ->
  exists a', TapAdapter_tick writev arp_order pending_order ms a = (Ok tt, a') /\ side_inv S a'.
Proof.
  intros [Ht Hb] Hms. destruct (tap_tick_ok writev arp_order pending_order whole_accepts Harp Hpending _ a ms Ht Hms) as (a' & E & Ht' & Hb').
  exists a'. split; [done|]. split; [done|]. by rewrite Hb'.
Qed.

Program Definition side_contract : AdapterContract (TapAdapter writev arp_order pending_order) := {|
  ac_inv := side_inv;
  ac_datagram := for_host x y;
  ac_elapsed := fun ms => 0 <= ms < 5000;
  ac_limit := BUFFER_SIZE;
  ac_base := based x y
|}.
Next Obligation.
  intros S S' a HS [Ht Hb]. split; [|done]. eapply tap_inv_mono; [|exact Ht].
  intros d [(H & ?)|(H & ?)]; [left|right]; (split; [by eapply holds_mono|done]).
Qed.
Next Obligation. intros S a [Ht _]. apply Ht. Qed.
Next Obligation.
  intros S a i H (bs & -> & Hl & HD). destruct (side_read S a bs H Hl HD) as (o & a' & E & Ha & Hc & Ho & _). by exists o, a'.
Qed.
Next Obligation. apply side_write. Qed.
Next Obligation. apply side_tick. Qed.
Next Obligation.
  intros S a b [Ht Hb] Hb'. split; [|done]. destruct Ht. split; try done. by apply based_inet.
Qed.
End Side.

(** ** The hosts *)

Abbreviation lab7_socket := (TCPSpongeSocket TCPOverIPv4OverEthernetAdapter (Z + bytes)).

(** A host: the rules left in its event loops, its socket and its network thread. *)
Record lab7_host : Type := mkLab7Host {
  lh_rules : list rule_id;
  lh_socket : lab7_socket;
  lh_net_rules : list net_rule_id;
  lh_net : NetworkThread
}.

(** The frames a host's adapter sent to its router, and those the router sent. *)
Definition host_frames (h : lab7_host) : list bytes := dv_written (ta_tap (ss_datagram_adapter (lh_socket h))).
Definition router_frames (h : lab7_host) : list bytes := dv_written (nt_frame_fd (lh_net h)).
Definition internet_frames (h : lab7_host) : list bytes := dv_written (nt_internet_socket (lh_net h)).

(** A socket delivers one of [frames], any time and any number of times, or nothing. *)
Definition delivers (frames : list bytes) (kernel : Z + bytes) : Prop := exists bs, kernel = inr bs /\ (bs = [] \/ bs ∈ frames).

(** The conditions on a turn of the TCP thread: the device delivers frames that the router
    sent, in any order and any number of times; the system calls report no error; less than
    5 s have passed since the last turn, as 5 s or more would leave [NetworkInterface::tick]
    in its loop for good; and the owner writes less than 2^31 bytes. *)
Record socket_turn (e : Env (Z + bytes)) (base_time : Z) (h : lab7_host) : Prop := {
  st_datagram : delivers (router_frames h) (en_datagram e);
  st_read n : 0 <= n -> exists d, en_owner_read e n = inr d /\ zlen d <= n;
  st_write b : exists n, en_owner_write e b = inr n /\ 0 <= n <= zlen b /\ (b <> [] -> 0 < n);
  st_shutdown : en_shutdown e = 0;
  st_poll asked : match en_poll e asked with
                  | poll_failed _ => True
                  | poll_ready revents => length revents = length asked /\
                      Forall (fun v => any_bit v (Z.lor POLLERR POLLNVAL) = false) revents
                  end;
  st_elapsed : 0 <= en_time e -64 base_time < 5000;
  st_room : owner_room (lh_socket h)
}.

(** The conditions on a turn of the network thread: it reads frames of the host's adapter and
    frames that the peer [p] sent to the Internet, in any order and any number of times, and
    its system calls report no error. *)
Record net_turn (e : NetEnv) (h p : lab7_host) : Prop := {
  nu_host : delivers (host_frames h) (ne_host_read e);
  nu_internet : delivers (internet_frames p) (ne_internet_read e);
  nu_send bs : ne_sendmsg e bs = inr (zlen bs);
  nu_poll asked : match ne_poll e asked with
                  | poll_failed _ => True
                  | poll_ready revents => length revents = length asked /\
                      Forall (fun v => any_bit v (Z.lor POLLERR POLLNVAL) = false) revents
                  end
}.

#[local] Instance lab7_FA : FdAdapter TCPOverIPv4OverEthernetAdapter (Z + bytes) := TapAdapter writev arp_order pending_order.

(** A pass of the TCP thread and of the network thread. *)
Definition socket_pass (e : Env (Z + bytes)) (base_time : Z) (h : lab7_host) :=
  tcp_loop_body e base_time (map socket_rule (lh_rules h), lh_socket h).
Definition net_pass (e : NetEnv) (h : lab7_host) :=
  network_turn arp_order pending_order e (map (net_rule writev) (lh_net_rules h), lh_net h).

(** What a host does beside its peer [p]. *)
Inductive host_step (p : lab7_host) : lab7_host -> lab7_host -> Prop :=
| step_socket e base_time r h rules' s' : socket_turn e base_time h ->
    socket_pass e base_time h = (r, (map socket_rule rules', s')) ->
    rules' `sublist_of` lh_rules h -> host_step p h (mkLab7Host rules' s' (lh_net_rules h) (lh_net h))
| step_net e r h rules' t' : net_turn e h p ->
    net_pass e h = (r, (map (net_rule writev) rules', t')) ->
    rules' `sublist_of` lh_net_rules h -> host_step p h (mkLab7Host (lh_rules h) (lh_socket h) rules' t')
| step_connect r h s' : on_tcp TCPConnection_connect (lh_socket h) = (r, s') ->
    host_step p h (mkLab7Host (lh_rules h) s' (lh_net_rules h) (lh_net h)).

(** Client and server take turns in any order. *)
Inductive lab7_step : lab7_host * lab7_host -> lab7_host * lab7_host -> Prop :=
| step_client c s c' : host_step s c c' -> lab7_step (c, s) (c', s)
| step_server c s s' : host_step c s s' -> lab7_step (c, s) (c, s').

(** ** The invariant *)

Lemma host_ip_range b : 0 <= host_ip b < W32.
Proof. by destruct b. Qed.

Abbreviation side b := (side_contract (host_ip b) (peer_ip b) (host_ip_range b) (host_ip_range (negb b))).

(** The segments of a connection, and the datagrams with them. *)
Abbreviation segments isn f := (sent_ok isn (ff_hist f) (ff_ended f)).
Definition datagrams (b : bool) (isn : WrappingInt32) (f : fifo) : InternetDatagram -> Prop :=
  from_to (holds (segments isn f)) (host_ip b) (peer_ip b).

(** The host [h], client or server, with its connection [c], whose outgoing stream is [f] and
    whose peer's is [g]. *)
Record host_inv (b : bool) (isn : WrappingInt32) (cap : Z) (h : lab7_host) (c : TCPConnection) (f : fifo) (peer : WrappingInt32) (g : fifo) : Prop := {
  hv_half : half (side b) isn cap (lh_rules h) (lh_socket h) c f peer g;
  hv_net : thread_inv (lab7_table b) (datagrams b isn f) (datagrams (negb b) peer g) (lh_net h);
  hv_rules : StronglySorted net_before (lh_net_rules h)
}.

Lemma datagrams_evolve b isn f f' d : evolves f f' -> datagrams b isn f d -> datagrams b isn f' d.
Proof. intros [_ He] [H ?]. split; [|done]. eapply holds_mono; [|exact H]. intros x. apply He. Qed.

Lemma host_inv_peer b isn cap h c f peer g g' : evolves g g' -> host_inv b isn cap h c f peer g -> host_inv b isn cap h c f peer g'.
Proof.
  intros He [Hh Hn Hr]. split; [by eapply half_peer_evolves| |done]. eapply thread_inv_mono; [..|exact Hn]; [done|].
  intros d. by apply datagrams_evolve.
Qed.

Lemma host_frames_ok b isn cap h c f peer g : host_inv b isn cap h c f peer g ->
  Forall (on_the_wire (from_host (holds (segments isn f)) (host_ip b) (peer_ip b))) (host_frames h).
Proof. intros [[Ha Hi _] _ _]. rewrite <- Hi. apply (ti_sent _ _ (sv_tap _ _ _ _ (si_adapter _ _ _ Ha))). Qed.

(** What a socket delivers carries only datagrams of [D]. *)
Lemma delivers_ok (D : InternetDatagram -> Prop) frames kernel : travels D -> Forall (fun bs => bs = [] \/ on_the_wire D bs) frames ->
  delivers frames kernel -> exists bs, kernel = inr bs /\ zlen bs <= BUFFER_SIZE /\ (bs = [] \/ on_the_wire D bs) /\ forall d, datagram_in bs d -> D d.
Proof.
  intros HD Hf (bs & -> & Hb). exists bs. split; [done|].
  assert (Hw : bs = [] \/ on_the_wire D bs) by (destruct Hb as [->|Hb]; [by left|]; rewrite Forall_forall in Hf; by apply Hf).
  split; [|split; [done|intros d; by apply wire_datagrams]].
  destruct Hw as [->|Hw]; [done|]. pose proof (on_the_wire_length D bs Hw). unfold BUFFER_SIZE. lia.
Qed.

Lemma datagrams_travel b isn f : travels (datagrams b isn f).
Proof. apply from_to_travels, holds_travels. Qed.

(** A turn of the TCP thread. *)
Lemma socket_turn_ok b ia ib ca h conn_a f g e base_time : wi_ok ib -> ca + W32 < W64 -> zlen (ff_hist g) + 2 <= W31 ->
  host_inv b ia ca h conn_a f ib g -> socket_turn e base_time h ->
  exists o rules' s' conn_a' f', tcp_loop_body e base_time (map socket_rule (lh_rules h), lh_socket h) = (Ok o, (map socket_rule rules', s')) /\
    host_inv b ia ca (mkLab7Host rules' s' (lh_net_rules h) (lh_net h)) conn_a' f' ib g /\ evolves f f' /\ rules' `sublist_of` lh_rules h.
Proof.
  intros Hib Hca Hg [Hh Hn Hr] [Hd Hread Hwrite Hsh Hpoll Hel Hroom].
  destruct (delivers_ok (datagrams (negb b) ib g) (router_frames h) (en_datagram e) (datagrams_travel _ _ _)) as (bs & Ei & Hl & Hw & HD); [|done|].
  { eapply Forall_impl; [apply (ti_to_host _ _ _ _ Hn)|]. intros bs Hbs. by right. }
  assert (Hto : forall d, datagram_in bs d -> ip_src (ipd_header d) = peer_ip b /\ ip_dst (ipd_header d) = host_ip b).
  { intros d Hdg. destruct (HD d Hdg) as (_ & Es & Et). unfold peer_ip in *. rewrite negb_involutive in Et. done. }
  destruct (half_turn_from (side b) ia ib ca (lh_rules h) (lh_socket h) conn_a f g e base_time Hib Hca Hg Hh)
    as (o & rules' & s' & conn_a' & f' & E & Hh' & Hev & Hsub); [|done|done| |].
  - split; try done. by exists bs.
  - intros seg a' Er. rewrite Ei in Er. cbn in Er.
    destruct (side_read (host_ip b) (peer_ip b) _ (ss_datagram_adapter (lh_socket h)) bs
      (si_adapter _ _ _ (ha_inv _ _ _ _ _ _ _ _ _ Hh)) Hl Hto) as (o & a1 & E1 & _ & _ & _ & Hs).
    rewrite E1 in Er. injection Er as -> _. destruct (Hs seg eq_refl) as (hd & bf & Hdg & Hbw & Et).
    destruct Hw as [->|Hw]; [by destruct (nothing_in_nothing _ Hdg)|].
    assert (Hw' : on_the_wire (holds (segments ib g)) bs) by (eapply on_the_wire_mono; [|exact Hw]; by intros d [? _]).
    destruct (wire_holds _ bs hd bf seg Hw' Hdg Hbw Et) as (seg0 & Hs0 & Hsame). eexists. by eapply same_data_sent.
  - exists o, rules', s', conn_a', f'. split; [done|]. split; [|by split]. split; [done| |done].
    eapply thread_inv_mono; [..|exact Hn]; [|done]. intros d. by apply datagrams_evolve.
Qed.

(** A turn of the network thread. *)
Lemma net_turn_ok b ia ib ca cb h p conn_a f conn_b g e : host_inv b ia ca h conn_a f ib g -> host_inv (negb b) ib cb p conn_b g ia f ->
  net_turn e h p ->
  exists stop rules' t', network_turn arp_order pending_order e (map (net_rule writev) (lh_net_rules h), lh_net h)
      = (Ok stop, (map (net_rule writev) rules', t')) /\
    host_inv b ia ca (mkLab7Host (lh_rules h) (lh_socket h) rules' t') conn_a f ib g /\ rules' `sublist_of` lh_net_rules h.
Proof.
  intros Hh Hp [Hnh Hni Hns Hnp]. set (P := holds (segments ia f)). set (Q := holds (segments ib g)).
  pose proof (lab7_crossing b P Q (holds_travels _) (holds_travels _)) as Hcr.
  assert (He : net_env_ok (from_host P (host_ip b) (peer_ip b)) (datagrams (negb b) ib g) e).
  { split; [..|done|done].
    - destruct (delivers_ok (from_host P (host_ip b) (peer_ip b)) (host_frames h) (ne_host_read e)) as (bs & ? & ? & _ & ?); [by apply from_host_travels, holds_travels| |done|by exists bs].
      eapply Forall_impl; [by eapply host_frames_ok|]. intros bs Hbs. by right.
    - destruct (delivers_ok (datagrams (negb b) ib g) (internet_frames p) (ne_internet_read e)) as (bs & ? & ? & _ & ?);
        [apply datagrams_travel|apply (ti_to_internet _ _ _ _ (hv_net _ _ _ _ _ _ _ _ Hp))|done|by exists bs]. }
  assert (Ed : datagrams (negb b) ib g = from_to Q (peer_ip b) (host_ip b)) by (unfold datagrams, peer_ip; by rewrite negb_involutive).
  destruct Hh as [Hha Hn Hr]. rewrite Ed in He, Hn.
  destruct (network_turn_ok writev Hwritev arp_order pending_order Harp Hpending (lab7_table b) _ _ _ Hcr e (lh_net_rules h) (lh_net h) He Hn Hr)
    as (stop & rules' & t' & E & Ht' & Hsub).
  exists stop, rules', t'. split; [exact E|]. split; [|done]. split; [done|cbn [lh_net]; by rewrite Ed|by eapply sorted_sublist].
Qed.

Lemma host_total b isn cap h c f peer g : host_inv b isn cap h c f peer g -> zlen (ff_hist f) + 2 <= W31.
Proof. intros Hh. apply (ci_total _ _ _ (si_conn _ _ _ (ha_inv _ _ _ _ _ _ _ _ _ (hv_half _ _ _ _ _ _ _ _ Hh)))). Qed.

Lemma host_step_inv b ia ib ca cb h p h' conn_a f conn_b g : wi_ok ib -> ca + W32 < W64 ->
  host_inv b ia ca h conn_a f ib g -> host_inv (negb b) ib cb p conn_b g ia f -> host_step p h h' ->
  exists conn_a' f', host_inv b ia ca h' conn_a' f' ib g /\ evolves f f'.
Proof.
  intros Hib Hca Hh Hp Hs. destruct Hs as [e bt r h rules' s' Hturn E Hsub|e r h rules' t' Hturn E Hsub|r h s' E].
  - destruct (socket_turn_ok b ia ib ca h conn_a f g e bt Hib Hca (host_total _ _ _ _ _ _ _ _ Hp) Hh Hturn)
      as (o & rules1 & s1 & conn' & f' & E1 & [Hh1 Hn1 Hr1] & Hev & _). unfold socket_pass in E. rewrite E in E1. injection E1 as _ _ <-.
    exists conn', f'. split; [|done]. split; [|done|done]. split; try apply Hh1.
    eapply sorted_sublist; [exact Hsub|apply (hv_half _ _ _ _ _ _ _ _ Hh)].
  - destruct (net_turn_ok b ia ib ca cb h p conn_a f conn_b g e Hh Hp Hturn) as (stop & rules1 & t1 & E1 & [Hh1 Hn1 Hr1] & _).
    unfold net_pass in E. rewrite E in E1. injection E1 as _ _ <-. exists conn_a, f. split; [|apply evolves_refl]. split; [done|done|].
    eapply sorted_sublist; [exact Hsub|apply Hh].
  - destruct (half_connect (side b) ia ca (lh_rules h) (lh_socket h) conn_a f ib g (hv_half _ _ _ _ _ _ _ _ Hh) Hib Hca (host_total _ _ _ _ _ _ _ _ Hp))
      as (s1 & conn' & f' & E1 & Hh1 & Hev & _). rewrite E in E1. injection E1 as _ <-.
    exists conn', f'. split; [|done]. split; [done| |apply Hh]. eapply thread_inv_mono; [..|apply Hh]; [|done].
    intros d. by apply datagrams_evolve.
Qed.

Definition lab7_inv (ia ib : WrappingInt32) (ca cb : Z) (n : lab7_host * lab7_host) : Prop := exists conn_a f conn_b g,
  host_inv true ia ca (fst n) conn_a f ib g /\ host_inv false ib cb (snd n) conn_b g ia f.

Lemma lab7_step_inv ia ib ca cb n n' : wi_ok ia -> wi_ok ib -> ca + W32 < W64 -> cb + W32 < W64 ->
  lab7_inv ia ib ca cb n -> lab7_step n n' -> lab7_inv ia ib ca cb n'.
Proof.
  intros Hia Hib Hca Hcb (conn_a & f & conn_b & g & Ha & Hb) Hs. destruct Hs as [c s c' Hs|c s s' Hs]; cbn [fst snd] in *.
  - destruct (host_step_inv true ia ib ca cb c s c' conn_a f conn_b g Hib Hca Ha Hb Hs) as (conn' & f' & Ha' & Hev).
    exists conn', f', conn_b, g. split; [done|]. by eapply host_inv_peer.
  - destruct (host_step_inv false ib ia cb ca s c s' conn_b g conn_a f Hia Hcb Hb Ha Hs) as (conn' & g' & Hb' & Hev).
    exists conn_a, f, conn', g'. split; [by eapply host_inv_peer|done].
Qed.

(** ** The start *)

(** The client's socket after [connect] has configured it, the server's after [bind] and
    [listen_and_accept]. *)
Definition lab7_base (is_client : bool) (random_port : Z) : res FdAdapterBase :=
  if is_client then
    '(_, cfg) ← connect_config (inet (host_ip true) 0) (inet (host_ip false) 1234) random_port;
    Ok (mkFdAdapterBase cfg false)
  else
    local ← TCPSocketLab7_bind (inet (host_ip false) 0) (inet (host_ip false) 1234);
    Ok (mkFdAdapterBase (listen_config local) true).

Definition lab7_start (is_client : bool) (rd : nat -> Z) (random_port random : Z) (env : Env (Z + bytes)) (net_env : NetEnv) : res lab7_host :=
  base ← lab7_base is_client random_port;
  t ← lab7_thread is_client rd net_env;
  Ok (mkLab7Host [R1; R2; R3; R4] (opened TCPConfig_default random (ta_set_base base (lab7_adapter is_client rd)) env) all_net_rules t).

Lemma lab7_base_ok b port : exists base, lab7_base b port = Ok base /\ based (host_ip b) (peer_ip b) base.
Proof.
  destruct b.
  - unfold lab7_base, connect_config. rewrite ipv4_numeric_inet by apply host_ip_range. rewrite res_bind_Ok, of_ip_port_inet, res_bind_Ok.
    eexists. split; [reflexivity|]. exists (u16 port), (host_ip false), 1234. split; [done|]. split; [by left|]. split; [apply u16_range|lia].
  - unfold lab7_base, TCPSocketLab7_bind. rewrite !ipv4_numeric_inet by apply host_ip_range. rewrite !res_bind_Ok, Z.eqb_refl. cbn [negb].
    rewrite port_inet, res_bind_Ok, of_ip_port_inet, res_bind_Ok by lia. eexists. split; [reflexivity|].
    exists 1234, 0, 0. split; [done|]. split; [by right|lia].
Qed.

Lemma lab7_adapter_fresh b rd base : based (host_ip b) (peer_ip b) base ->
  side_inv (host_ip b) (peer_ip b) (fun _ => False) (ta_set_base base (lab7_adapter b rd)).
Proof.
  intros Hb. split; [|done]. pose proof (based_inet _ _ (host_ip_range b) (host_ip_range (negb b)) base Hb) as Hi.
  destruct b; (split; cbn; try done; [apply ni_inv_new; [apply (host_address_valid rd 12)|by vm_compute]|eexists; by apply ipv4_numeric_inet]).
Qed.

Lemma lab7_start_ok b rd port random env net_env peer cap : ne_sendmsg net_env [] = inr 0 ->
  exists h, lab7_start b rd port random env net_env = Ok h /\
    host_inv b (isn_of TCPConfig_default random) DEFAULT_CAPACITY h (TCPConnection_new TCPConfig_default random)
      (mkFifo [] 0 DEFAULT_CAPACITY false false) peer (mkFifo [] 0 cap false false).
Proof.
  intros Hs. destruct (lab7_base_ok b port) as (base & Eb & Hb).
  destruct (lab7_thread_start b rd net_env (datagrams b (isn_of TCPConfig_default random) (mkFifo [] 0 DEFAULT_CAPACITY false false))
    (datagrams (negb b) peer (mkFifo [] 0 cap false false)) Hs) as (t & Et & Ht).
  unfold lab7_start. rewrite Eb, res_bind_Ok, Et, res_bind_Ok. eexists. split; [reflexivity|].
  split; [|done|apply all_net_rules_sorted]. apply half_new; [by split|done|]. by apply lab7_adapter_fresh.
Qed.

(** Every frame of a host, its own and its router's, is one that parses. *)
Lemma host_wires b isn cap h c f peer g : host_inv b isn cap h c f peer g ->
  Forall (on_the_wire datagram_valid) (host_frames h) /\ Forall (on_the_wire datagram_valid) (router_frames h) /\
  Forall (fun bs => bs = [] \/ on_the_wire datagram_valid bs) (internet_frames h).
Proof.
  intros Hh. split; [|split].
  - eapply Forall_impl; [by eapply host_frames_ok|]. intros bs. apply on_the_wire_mono. intros d. apply from_host_valid.
  - eapply Forall_impl; [apply (ti_to_host _ _ _ _ (hv_net _ _ _ _ _ _ _ _ Hh))|]. intros bs. apply on_the_wire_mono.
    apply (tv_valid _ (datagrams_travel _ _ _)).
  - eapply Forall_impl; [apply (ti_to_internet _ _ _ _ (hv_net _ _ _ _ _ _ _ _ Hh))|]. intros bs [->|Hb]; [by left|right].
    eapply on_the_wire_mono; [|exact Hb]. apply (tv_valid _ (datagrams_travel _ _ _)).
Qed.

Lemma lab7_reach_inv rdc rds portc ports xc xs envc envs nec nes c0 s0 n :
  ne_sendmsg nec [] = inr 0 -> ne_sendmsg nes [] = inr 0 ->
  lab7_start true rdc portc xc envc nec = Ok c0 -> lab7_start false rds ports xs envs nes = Ok s0 ->
  reach lab7_step (c0, s0) n -> lab7_inv (isn_of TCPConfig_default xc) (isn_of TCPConfig_default xs) DEFAULT_CAPACITY DEFAULT_CAPACITY n.
Proof.
  intros Hsc Hss Ec Es. assert (Hok : cfg_ok TCPConfig_default) by (by split).
  pose proof (isn_of_ok TCPConfig_default xc Hok). pose proof (isn_of_ok TCPConfig_default xs Hok).
  apply reach_invariant; [intros n1 n2; by apply lab7_step_inv|].
  destruct (lab7_start_ok true rdc portc xc envc nec (isn_of TCPConfig_default xs) DEFAULT_CAPACITY Hsc) as (c1 & Ec1 & Hc).
  destruct (lab7_start_ok false rds ports xs envs nes (isn_of TCPConfig_default xc) DEFAULT_CAPACITY Hss) as (s1 & Es1 & Hs).
  rewrite Ec in Ec1. injection Ec1 as <-. rewrite Es in Es1. injection Es1 as <-. by eexists _, _, _, _.
Qed.

(** A turn of a host's socket and then of its network thread, as steps. *)
Lemma host_turn_steps b ia ib ca cb h p conn_a f conn_b g e base_time ne : wi_ok ib -> ca + W32 < W64 ->
  host_inv b ia ca h conn_a f ib g -> host_inv (negb b) ib cb p conn_b g ia f -> socket_turn e base_time h ->
  (forall rules s, net_turn (ne s) (mkLab7Host rules s (lh_net_rules h) (lh_net h)) p) ->
  exists h1 h2 o stop, host_step p h h1 /\ host_step p h1 h2 /\
    tcp_loop_body e base_time (map socket_rule (lh_rules h), lh_socket h) = (Ok o, (map socket_rule (lh_rules h2), lh_socket h2)) /\
    network_turn arp_order pending_order (ne (lh_socket h2)) (map (net_rule writev) (lh_net_rules h), lh_net h)
      = (Ok stop, (map (net_rule writev) (lh_net_rules h2), lh_net h2)).
Proof.
  intros Hib Hca Hh Hp Hst Hnt.
  destruct (socket_turn_ok b ia ib ca h conn_a f g e base_time Hib Hca (host_total _ _ _ _ _ _ _ _ Hp) Hh Hst)
    as (o & rules' & s' & conn' & f' & E & Hh1 & Hev & Hsub).
  destruct (net_turn_ok b ia ib ca cb _ p conn' f' conn_b g (ne s') Hh1 (host_inv_peer _ _ _ _ _ _ _ _ _ Hev Hp) (Hnt rules' s'))
    as (stop & nrules & t' & E2 & _ & Hsub2). cbn [lh_net_rules lh_net lh_rules lh_socket] in *.
  eexists _, (mkLab7Host rules' s' nrules t'), o, stop.
  split; [by apply (step_socket p e base_time (Ok o) h rules' s')|]. split; [|by split].
  by apply (step_net p (ne s') (Ok stop) (mkLab7Host rules' s' (lh_net_rules h) (lh_net h)) nrules t').
Qed.
End Lab7Net.


(** ** A run *)

#[export] Instance demo_lab7_FA : FdAdapter TCPOverIPv4OverEthernetAdapter (Z + bytes) := TapAdapter whole_writev keys_of keys_of.

(** A turn in which every rule is ready that asked, except those for which there is nothing
    to read. *)
Definition demo_net_turn (host internet : option bytes) : NetEnv :=
  demo_net_env [negb (is_none host); true; true; negb (is_none internet)] (default [] host) (default [] internet) false.

(** The event loops of a host, and how many frames of each kind it has read. *)
Record demo_side : Type := mkDemoSide {
  dm_loop : list (Rule (TCPSpongeSocket TCPOverIPv4OverEthernetAdapter (Z + bytes))) * TCPSpongeSocket TCPOverIPv4OverEthernetAdapter (Z + bytes);
  dm_net : list (Rule NetworkThread) * NetworkThread;
  dm_read : nat;
  dm_host_read : nat;
  dm_internet_read : nat
}.

Definition dm_internet_frames (d : demo_side) : list bytes := dv_written (nt_internet_socket (snd (dm_net d))).

Definition advance (o : option bytes) (n : nat) : nat := if is_none o then n else S n.

(** The socket's turn and the network thread's, each with the next frame in order. *)
Definition demo_side_turn (data : bytes) (time : Z) (peer : list bytes) (d : demo_side) : demo_side :=
  let i := dv_written (nt_frame_fd (snd (dm_net d))) !! dm_read d in
  let l := snd (tcp_loop_body (demo_env i data (time + 1)) time (dm_loop d)) in
  let a := dv_written (ta_tap (ss_datagram_adapter (snd l))) !! dm_host_read d in
  let b := peer !! dm_internet_read d in
  let t := snd (network_turn keys_of keys_of (demo_net_turn a b) (dm_net d)) in
  mkDemoSide l t (advance i (dm_read d)) (advance a (dm_host_read d)) (advance b (dm_internet_read d)).

Fixpoint demo_lab7_turns (plan : list (bytes * bytes)) (time : Z) (c s : demo_side) : demo_side * demo_side :=
  match plan with
  | [] => (c, s)
  | (dc, ds) :: plan' =>
      let c := demo_side_turn dc time (dm_internet_frames s) c in
      let s := demo_side_turn ds time (dm_internet_frames c) s in
      demo_lab7_turns plan' (time + 1) c s
  end.

Definition demo_lab7_host (is_client : bool) (seed : nat) : res lab7_host :=
  lab7_start whole_writev keys_of keys_of is_client (fun k => demo_rd (seed + k)) 5000 7 (demo_env None [] 0) (demo_net_env [] [] [] false).

(** A host as the run sees it; the client has connected. *)
Definition demo_view (i j k : nat) (h : lab7_host) : demo_side :=
  mkDemoSide (map socket_rule (lh_rules h), lh_socket h) (map (net_rule whole_writev) (lh_net_rules h), lh_net h) i j k.

Definition demo_connected (h : lab7_host) : lab7_host :=
  mkLab7Host (lh_rules h) (snd (on_tcp TCPConnection_connect (lh_socket h))) (lh_net_rules h) (lh_net h).

(** The conditions of each turn, as a test. *)
Definition demo_room (d : demo_side) : bool := zlen (ss_from_owner (snd (dm_loop d))) + BUFFER_SIZE + 2 <=? W31.

Fixpoint demo_lab7_ok (plan : list (bytes * bytes)) (time : Z) (c s : demo_side) : bool :=
  match plan with
  | [] => true
  | (dc, ds) :: plan' =>
      let c' := demo_side_turn dc time (dm_internet_frames s) c in
      let s' := demo_side_turn ds time (dm_internet_frames c') s in
      demo_room c && demo_room s && demo_lab7_ok plan' (time + 1) c' s'
  end.

Lemma lookup_delivers (frames : list bytes) k : delivers frames (inr (default [] (frames !! k))).
Proof.
  eexists. split; [done|]. destruct (frames !! k) as [bs|] eqn:E; [right|by left]. by apply (list_elem_of_lookup_2 _ k).
Qed.

Lemma demo_socket_turn h k data time : demo_room (demo_view 0 0 0 h) = true ->
  socket_turn (demo_env (router_frames h !! k) data (time + 1)) time h.
Proof.
  intros Hroom%Z.leb_le. pose proof (demo_env_ok data (time + 1)) as [_ Hr Hw Hsh _]. split; try done.
  - apply lookup_delivers.
  - intros asked. destruct asked as [|r1 [|r2 rest]]; cbn; [done|split; [done|by apply Forall_singleton]|].
    split; [by rewrite length_map|]. constructor; [destruct (is_none _); [done|by apply no_error_bits]|].
    constructor; [destruct (is_empty data); [done|by apply no_error_bits]|].
    apply Forall_map. apply Forall_forall. intros r _. by apply no_error_bits.
  - cbn [en_time demo_env]. replace ((time + 1) -64 time) with (u64 1) by (f_equal; lia). done.
Qed.

Lemma demo_net_turn_ok h p j k : net_turn (demo_net_turn (host_frames h !! j) (internet_frames p !! k)) h p.
Proof.
  split; [apply lookup_delivers|apply lookup_delivers|done|]. intros asked. cbn. split; [apply length_imap|].
  apply Forall_lookup. intros n v. rewrite list_lookup_imap, fmap_Some. intros (a & _ & ->).
  destruct (default _ _); [by apply no_error_bits|done].
Qed.

(** A turn of a side is two steps of its host. *)
Lemma demo_side_steps b ia ib ca cb h p conn_a f conn_b g i j k data time : wi_ok ib -> ca + W32 < W64 ->
  host_inv whole_writev (fun _ => eq_refl) keys_of keys_of keys_of_order keys_of_order b ia ca h conn_a f ib g ->
  host_inv whole_writev (fun _ => eq_refl) keys_of keys_of keys_of_order keys_of_order (negb b) ib cb p conn_b g ia f ->
  demo_room (demo_view i j k h) = true ->
  exists h1 h2 i' j' k', host_step whole_writev keys_of keys_of p h h1 /\ host_step whole_writev keys_of keys_of p h1 h2 /\
    demo_side_turn data time (internet_frames p) (demo_view i j k h) = demo_view i' j' k' h2.
Proof.
  intros Hib Hca Hh Hp Hroom.
  destruct (host_turn_steps whole_writev (fun _ => eq_refl) keys_of keys_of keys_of_order keys_of_order b ia ib ca cb h p conn_a f conn_b g
    (demo_env (router_frames h !! i) data (time + 1)) time
    (fun s => demo_net_turn (dv_written (ta_tap (ss_datagram_adapter s)) !! j) (internet_frames p !! k)) Hib Hca Hh Hp)
    as (h1 & h2 & o & stop & S1 & S2 & E1 & E2); [by apply demo_socket_turn|intros rules s; by apply (demo_net_turn_ok (mkLab7Host rules s _ _))|].
  exists h1, h2. eexists _, _, _. split; [exact S1|]. split; [exact S2|].
  unfold demo_side_turn, demo_view, demo_lab7_FA. unfold lab7_FA in E1, E2. cbn [dm_loop dm_net dm_read dm_host_read dm_internet_read snd].
  unfold router_frames in E1. rewrite E1. cbn [snd]. rewrite E2. reflexivity.
Qed.

Abbreviation demo_step := (lab7_step whole_writev keys_of keys_of).

Lemma demo_lab7_reach c0 s0 plan : demo_lab7_host true 0 = Ok c0 -> demo_lab7_host false 100 = Ok s0 ->
  forall time ic jc kc iv js ks c s, reach demo_step (c0, s0) (c, s) ->
  demo_lab7_ok plan time (demo_view ic jc kc c) (demo_view iv js ks s) = true ->
  exists c' s' ic' jc' kc' iv' js' ks', reach demo_step (c0, s0) (c', s') /\
    demo_lab7_turns plan time (demo_view ic jc kc c) (demo_view iv js ks s) = (demo_view ic' jc' kc' c', demo_view iv' js' ks' s').
Proof.
  intros Ec Es. assert (Hi : wi_ok (isn_of TCPConfig_default 7)) by (apply isn_of_ok; by split).
  assert (Hcap : DEFAULT_CAPACITY + W32 < W64) by done.
  assert (Hinv : forall n, reach demo_step (c0, s0) n -> lab7_inv whole_writev (fun _ => eq_refl) keys_of keys_of keys_of_order keys_of_order
    (isn_of TCPConfig_default 7) (isn_of TCPConfig_default 7) DEFAULT_CAPACITY DEFAULT_CAPACITY n).
  { intros n. by apply (lab7_reach_inv whole_writev (fun _ => eq_refl) keys_of keys_of keys_of_order keys_of_order
      (fun k => demo_rd (0 + k)) (fun k => demo_rd (100 + k)) 5000 5000 7 7 (demo_env None [] 0) (demo_env None [] 0)
      (demo_net_env [] [] [] false) (demo_net_env [] [] [] false) c0 s0 n eq_refl eq_refl Ec Es). }
  induction plan as [|[dc ds] plan IH]; intros time ic jc kc iv js ks c s Hr Hok; [by eexists _, _, _, _, _, _, _, _|].
  cbn [demo_lab7_ok demo_lab7_turns] in *. apply andb_prop in Hok as [[Hc Hs]%andb_prop Hok].
  destruct (Hinv _ Hr) as (ca & f & cb & g & Ha & Hb).
  destruct (demo_side_steps true _ _ _ _ c s ca f cb g ic jc kc dc time Hi Hcap Ha Hb Hc) as (c1 & c2 & i1 & j1 & k1 & S1 & S2 & E1).
  assert (Hr2 : reach demo_step (c0, s0) (c2, s)) by (eapply reach_step; [eapply reach_step; [exact Hr|by constructor]|by constructor]).
  destruct (Hinv _ Hr2) as (ca2 & f2 & cb2 & g2 & Ha2 & Hb2).
  destruct (demo_side_steps false _ _ _ _ s c2 cb2 g2 ca2 f2 iv js ks ds time Hi Hcap Hb2 Ha2 Hs) as (s1 & s2 & i3 & j3 & k3 & S3 & S4 & E2).
  assert (Hr4 : reach demo_step (c0, s0) (c2, s2)) by (eapply reach_step; [eapply reach_step; [exact Hr2|by constructor]|by constructor]).
  change (dm_internet_frames (demo_view iv js ks s)) with (internet_frames s) in *. rewrite E1 in Hok |- *.
  change (dm_internet_frames (demo_view i1 j1 k1 c2)) with (internet_frames c2) in *. rewrite E2 in Hok |- *. by apply IH.
Qed.

Abbreviation demo_lab7_plan := (replicate 20 ([], []) ++ [(text [104; 105], text [111; 107])] ++ replicate 12 ([], [])).

(** ARP on three links, the handshake, and a word each way, across both routers. *)
Lemma demo_lab7_talks : exists c0 s0 c s, demo_lab7_host true 0 = Ok c0 /\ demo_lab7_host false 100 = Ok s0 /\
  reach demo_step (c0, s0) (c, s) /\
  ss_from_owner (lh_socket c) = text [104; 105] /\ ss_to_owner (lh_socket s) = text [104; 105] /\
  ss_from_owner (lh_socket s) = text [111; 107] /\ ss_to_owner (lh_socket c) = text [111; 107].
Proof.
  destruct (demo_lab7_host true 0) as [c0| |] eqn:Ec; [|vm_compute in Ec; discriminate Ec..].
  destruct (demo_lab7_host false 100) as [s0| |] eqn:Es; [|vm_compute in Es; discriminate Es..].
  assert (H0 : reach demo_step (c0, s0) (demo_connected c0, s0)).
  { eapply reach_step; [apply reach_refl|]. constructor. eapply step_connect. apply surjective_pairing. }
  destruct (demo_lab7_reach c0 s0 demo_lab7_plan Ec Es 0 0 0 3 0 0 3 _ _ H0) as (c & s & i & j & k & i' & j' & k' & Hr & E).
  { vm_compute in Ec, Es. injection Ec as <-. injection Es as <-. vm_compute. reflexivity. }
  exists c0, s0, c, s. split; [done|]. split; [done|]. split; [exact Hr|].
  pose proof (f_equal (fun x => (ss_from_owner (snd (dm_loop (fst x))), ss_to_owner (snd (dm_loop (snd x))))) E) as E1.
  pose proof (f_equal (fun x => (ss_from_owner (snd (dm_loop (snd x))), ss_to_owner (snd (dm_loop (fst x))))) E) as E2.
  cbn [fst snd dm_loop demo_view] in E1, E2. apply pair_equal_spec in E1 as [<- <-]. apply pair_equal_spec in E2 as [<- <-].
  vm_compute in Ec, Es. injection Ec as <-. injection Es as <-.
  split; [vm_compute; reflexivity|]. split; [vm_compute; reflexivity|]. split; vm_compute; reflexivity.
Qed.

