(* ===== verification/Bouncer.v ===== *)
(** * The bouncer

    Models [apps/bouncer.cc]: pairs of UDP sockets on neighbouring ports, each of which
    learns where its peer is from the datagrams it receives; what comes in on one socket of
    a pair goes out on the other to that one's peer. The kernel's answers in one turn of the
    event loop are a [BouncerEnv]; what was received is logged beside the program's state. *)

From stdpp Require Import sorting.
From S2P Require Import Prelude Buffers Addresses FileDescriptors EventLoop Devices.

(** ** Setting up *)

(** [for (uint16_t lower_port = 1024; lower_port <= 64000; lower_port += 2)]: the ports of
    the sockets, in the order of the vector. [bind port] is 0 or the [errno]. The fuel bounds
    the turns of a loop whose counter has 16 bits. *)
Fixpoint bind_sockets (fuel : nat) (bind : Z -> Z) (lower_port : Z) : res (list Z) :=
  match fuel with
  | O => NoFuel
  | S fuel' =>
      if lower_port <=? 64000 then
        _ ← SystemCall "bind" (answer (bind lower_port)) (bind lower_port) 0;
        let upper_port := u16 (lower_port + 1) in
        _ ← SystemCall "bind" (answer (bind upper_port)) (bind upper_port) 0;
        rest ← bind_sockets fuel' bind (u16 (lower_port + 2));
        Ok (lower_port :: upper_port :: rest)
      else Ok []
  end.

Definition bouncer_ports (bind : Z -> Z) : res (list Z) := bind_sockets (Z.to_nat 65536) bind 1024.

(** The room reserved in the vectors; the rules hold references into them. *)
Definition reserved : Z := 66000.

(** ** The rules *)

(** What [recvfrom] answers on each socket, the answer to [sendmsg], and [poll]. *)
Record BouncerEnv : Type := mkBouncerEnv {
  be_recv : nat -> Z + Address * bytes;
  be_sendmsg : Address -> bytes -> Z + Z;
  be_poll : list Z -> poll_outcome
}.

(** [sockets] and [peers], and the datagrams received: on which socket, from whom, what. *)
Record Bouncer : Type := mkBouncer {
  bo_sockets : list (Device (Address * bytes));
  bo_peers : list (option Address);
  bo_received : list (nat * (Address * bytes));
  bo_env : BouncerEnv
}.

Definition bo_set_env (e : BouncerEnv) (b : Bouncer) : Bouncer := mkBouncer (bo_sockets b) (bo_peers b) (bo_received b) e.

Definition Bouncer_new (n : nat) (env : BouncerEnv) : Bouncer :=
  mkBouncer (replicate n (mkDevice FDWrapper_new [])) (replicate n None) [] env.

Abbreviation bounce_method := (method Bouncer).

(** A call on [sockets.at(i)]. *)
Definition on_udp {X} (i : nat) (m : method (Device (Address * bytes)) X) : bounce_method X := fun b =>
  match bo_sockets b !! i with
  | Some d => let '(r, d') := m d in (r, mkBouncer (<[i := d']> (bo_sockets b)) (bo_peers b) (bo_received b) (bo_env b))
  | None => (Throw (out_of_range "vector::at"), b)
  end.

Definition peer_of (i : nat) : bounce_method (option Address) := fun b =>
  match bo_peers b !! i with
  | Some p => (Ok p, b)
  | None => (Throw (out_of_range "vector::at"), b)
  end.

Definition learn (i : nat) (a : Address) (b : Bouncer) : Bouncer :=
  mkBouncer (bo_sockets b) (<[i := Some a]> (bo_peers b)) (bo_received b) (bo_env b).
Definition hear (i : nat) (rec : Address * bytes) (b : Bouncer) : Bouncer :=
  mkBouncer (bo_sockets b) (bo_peers b) (bo_received b ++ [(i, rec)]) (bo_env b).

(** The callback of socket [x], whose partner is [y]. *)
Definition bounce (x y : nat) : bounce_method unit :=
  env ← gets bo_env;
  rec ← on_udp x (zoom dv_fd dv_set_fd (UDPSocket_recv 65536 (be_recv env x)));
  _ ← modify (hear x rec);
  x_peer ← peer_of x;
  _ ← ((match x_peer with
        | Some a => if negb (Address_eqb a (fst rec)) then modify (learn x (fst rec)) else mret tt
        | None => modify (learn x (fst rec))
        end) : bounce_method unit);
  y_peer ← peer_of y;
  match y_peer with
  | Some a =>
      if negb (zlen (snd rec) =? 0) then
        _ ← on_udp y (zoom dv_fd dv_set_fd (UDPSocket_sendto (BufferViewList_of_string (snd rec)) (be_sendmsg env a (snd rec))));
        on_udp y (modify (dv_log (a, snd rec)))
      else mret tt
  | None => mret tt
  end.

(** The sockets of a pair follow each other. *)
Definition partner (i : nat) : nat := if Nat.even i then S i else Nat.pred i.

Definition bounce_rule (i : nat) : Rule Bouncer :=
  mkRule (fun b => match bo_sockets b !! i with Some d => dv_fd d | None => FDWrapper_new end) Direction_In
    (bounce i (partner i)) (fun _ => true) (mret tt).

Abbreviation bouncer_loop := (method (list (Rule Bouncer) * Bouncer)).

Definition bouncer_turn (env : BouncerEnv) : bouncer_loop Result := fun l =>
  wait_next_event (fun asked b => (be_poll (bo_env b) asked, b)) (fst l) (bo_set_env env (snd l)).

(** [while (EventLoop::Result::Exit != loop.wait_next_event(-1))]; [NoFuel] when it is still
    running after the given turns. *)
Fixpoint bouncer_run (envs : list BouncerEnv) : bouncer_loop unit :=
  match envs with
  | [] => lift NoFuel
  | env :: envs' => r ← bouncer_turn env; match r with Exit => mret tt | _ => bouncer_run envs' end
  end.

(** The rules of all the sockets and the loop. *)
Definition bounce_between (n : nat) (env : BouncerEnv) (envs : list BouncerEnv) : res unit * Bouncer :=
  let '(r, (_, b)) := bouncer_run envs (fold_left (fun rules i => add_rule (bounce_rule i) rules) (seq 0 n) [], Bouncer_new n env) in (r, b).

(** [program_body] *)
Definition bouncer_program (bind : Z -> Z) (env : BouncerEnv) (envs : list BouncerEnv) : res unit * Bouncer :=
  match bouncer_ports bind with
  | Ok ports => bounce_between (length ports) env envs
  | Throw e => (Throw e, Bouncer_new 0 env)
  | NoFuel => (NoFuel, Bouncer_new 0 env)
  end.

(** ** Ports *)

(** The loop from [lower] on, when [k] pairs are left. *)
Lemma bind_sockets_spec bind k : (forall p, bind p = 0) -> forall fuel lower, (k < fuel)%nat -> 0 <= lower -> lower + 2 * Z.of_nat k = 64002 ->
  bind_sockets fuel bind lower = Ok (seqZ lower (2 * Z.of_nat k)).
Proof.
  intros Hb. induction k as [|k IH]; intros [|fuel] lower Hf Hl Hk; try lia; cbn [bind_sockets].
  { by destruct (Z.leb_spec lower 64000); [lia|]. }
  destruct (Z.leb_spec lower 64000); [|lia].
  rewrite !Hb. cbn [SystemCall answer Z.leb Z.compare orb Z.eqb mbind res_bind].
  rewrite (u16_id (lower + 1)), (u16_id (lower + 2)) by lia. rewrite (IH fuel (lower + 2)) by lia. cbn [mbind res_bind]. f_equal.
  rewrite (seqZ_cons lower) by lia. rewrite (seqZ_cons (Z.succ lower)) by lia.
  replace (Z.succ (Z.succ lower)) with (lower + 2) by lia. replace (Z.pred (Z.pred (2 * Z.of_nat (S k)))) with (2 * Z.of_nat k) by lia. done.
Qed.

(** The sockets' ports are 1024 to 64001; the vectors never grow beyond what was reserved,
    so that the rules' references stay valid. *)
Lemma bouncer_ports_spec bind : (forall p, bind p = 0) ->
  bouncer_ports bind = Ok (seqZ 1024 (2 * 31489)) /\ zlen (seqZ 1024 (2 * 31489)) <= reserved.
Proof.
  intros Hb. split; [|unfold zlen; rewrite length_seqZ, Z2Nat.id by lia; by unfold reserved].
  apply (bind_sockets_spec bind (Z.to_nat 31489) Hb); lia.
Qed.

(** ** Pairs *)

Lemma partner_partner i : partner (partner i) = i.
Proof.
  unfold partner. destruct (Nat.even i) eqn:E.
  - rewrite Nat.even_succ, <- Nat.negb_even, E. done.
  - destruct i as [|i]; [done|]. cbn [Nat.pred]. rewrite Nat.even_succ, <- Nat.negb_even in E. apply negb_false_iff in E. by rewrite E.
Qed.

Lemma partner_ne i : partner i <> i.
Proof. unfold partner. destruct (Nat.even i) eqn:E; [lia|]. destruct i; [done|simpl; lia]. Qed.

Lemma partner_lt i k : (i < 2 * k)%nat -> (partner i < 2 * k)%nat.
Proof.
  unfold partner. destruct (Nat.even i) eqn:E; [|lia]. apply Nat.even_spec in E as [m ->]. lia.
Qed.

Lemma Address_eqb_refl a : Address_eqb a a = true.
Proof. unfold Address_eqb. rewrite Z.eqb_refl. by apply bool_decide_eq_true_2. Qed.

(** ** Relaying *)

(** The peer after a datagram from [src]: the address is kept if it compares equal. *)
Definition new_peer (p : option Address) (src : Address) : option Address :=
  match p with Some a => if Address_eqb a src then Some a else Some src | None => Some src end.

(** What a socket with peer [p] sends when its partner receives [payload]. *)
Definition outgoing (p : option Address) (payload : bytes) : list (Address * bytes) :=
  match p with Some a => if negb (zlen payload =? 0) then [(a, payload)] else [] | None => [] end.

(** The specification, over the datagrams received by all the sockets in their order: the
    peer of socket [i], and everything it has to send. *)
Fixpoint heard (i : nat) (p : option Address) (log : list (nat * (Address * bytes))) : option Address :=
  match log with
  | [] => p
  | (j, (src, _)) :: log' => heard i (if Nat.eqb j i then new_peer p src else p) log'
  end.

Fixpoint relayed (i : nat) (p : option Address) (log : list (nat * (Address * bytes))) : list (Address * bytes) :=
  match log with
  | [] => []
  | (j, (src, payload)) :: log' =>
      if Nat.eqb j i then relayed i (new_peer p src) log'
      else (if Nat.eqb j (partner i) then outgoing p payload else []) ++ relayed i p log'
  end.

Lemma heard_snoc i log j src payload : forall p,
  heard i p (log ++ [(j, (src, payload))]) = if Nat.eqb j i then new_peer (heard i p log) src else heard i p log.
Proof. induction log as [|[j' [src' pl']] log IH]; intros p; cbn; [by destruct (Nat.eqb j i)|apply IH]. Qed.

Lemma relayed_snoc i log j src payload : forall p,
  relayed i p (log ++ [(j, (src, payload))]) = relayed i p log ++
    (if Nat.eqb j i then [] else if Nat.eqb j (partner i) then outgoing (heard i p log) payload else []).
Proof.
  induction log as [|[j' [src' pl']] log IH]; intros p; cbn.
  - destruct (Nat.eqb j i); [done|]. apply app_nil_r.
  - destruct (Nat.eqb j' i); rewrite IH; [done|]. by rewrite app_assoc.
Qed.

(** The senders socket [i] heard from. *)
Definition senders (i : nat) (log : list (nat * (Address * bytes))) : list Address :=
  map (fun e => fst (snd e)) (List.filter (fun e => Nat.eqb (fst e) i) log).

Lemma senders_snoc i log j src payload :
  senders i (log ++ [(j, (src, payload))]) = senders i log ++ if Nat.eqb j i then [src] else [].
Proof. unfold senders. rewrite List.filter_app, map_app. f_equal. cbn. by destruct (Nat.eqb j i). Qed.

(** Socket [i], its device [d] and its peer [p], after the datagrams [log]: the peer is the
    sender of the last datagram on [i]; what went out is what the specification says; each
    went to an address from which this socket had received. *)
Record relays (i : nat) (d : Device (Address * bytes)) (p : option Address) (log : list (nat * (Address * bytes))) : Prop := {
  rl_fd : fd_ok (dv_fd d);
  rl_heard : p = heard i None log;
  rl_peer : match last (senders i log) with
            | None => p = None
            | Some src => exists a, p = Some a /\ Address_eqb a src = true
            end;
  rl_sent : dv_written d = relayed i None log;
  rl_dest : Forall (fun x => exists src, src ∈ senders i log /\ Address_eqb (fst x) src = true) (dv_written d)
}.

(** The socket received a datagram. *)
Lemma relays_received i d fd' p log rec : relays i d p log -> fd_ok fd' ->
  relays i (mkDevice fd' (dv_written d)) (new_peer p (fst rec)) (log ++ [(i, rec)]).
Proof.
  destruct rec as [src payload]. intros [Hf Hh Hp Hs Hd] Hfd. split; [done|..]; cbn [fst dv_written].
  - by rewrite heard_snoc, Nat.eqb_refl, <- Hh.
  - rewrite senders_snoc, Nat.eqb_refl, last_snoc. unfold new_peer. destruct p as [a|]; [|eexists; split; [done|apply Address_eqb_refl]].
    destruct (Address_eqb a src) eqn:E; [by exists a|eexists; split; [done|apply Address_eqb_refl]].
  - by rewrite relayed_snoc, Nat.eqb_refl, app_nil_r.
  - eapply Forall_impl; [exact Hd|]. intros x (src' & Hin & He). exists src'. split; [|done].
    rewrite senders_snoc. apply elem_of_app. by left.
Qed.

(** Another socket received one: its partner sends it on. *)
Lemma relays_other i d fd' p log j rec : relays i d p log -> fd_ok fd' -> j <> i ->
  relays i (mkDevice fd' (dv_written d ++ if Nat.eqb j (partner i) then outgoing p (snd rec) else [])) p (log ++ [(j, rec)]).
Proof.
  destruct rec as [src payload]. intros [Hf Hh Hp Hs Hd] Hfd Hne. apply Nat.eqb_neq in Hne.
  split; [done|..]; cbn [snd dv_written].
  - by rewrite heard_snoc, Hne.
  - by rewrite senders_snoc, Hne, app_nil_r.
  - by rewrite relayed_snoc, Hne, Hs, <- Hh.
  - rewrite senders_snoc, Hne, app_nil_r. apply Forall_app. split; [done|]. destruct (Nat.eqb j (partner i)); [|done].
    destruct p as [a|]; cbn [outgoing]; [|done]. destruct (negb _); [|done]. apply Forall_singleton.
    destruct (last (senders i log)) as [src'|] eqn:El; [|done]. destruct Hp as (a' & [= <-] & He).
    exists src'. split; [|done]. by apply last_Some_elem_of.
Qed.

(** ** The program's state *)

Section Run.
Context (pairs : nat).
Abbreviation n := (2 * pairs)%nat.

Record bouncer_inv (b : Bouncer) : Prop := {
  bi_sockets : length (bo_sockets b) = n;
  bi_peers : length (bo_peers b) = n;
  bi_relays i d p : bo_sockets b !! i = Some d -> bo_peers b !! i = Some p -> relays i d p (bo_received b)
}.

(** A kernel that delivers datagrams no larger than the sockets take, and sends what it is
    given. *)
Record bouncer_env_ok (e : BouncerEnv) : Prop := {
  eb_recv i : exists src payload, be_recv e i = inr (src, payload) /\ zlen payload <= 65536;
  eb_send a b : be_sendmsg e a b = inr (zlen b);
  eb_poll asked : match be_poll e asked with
                  | poll_failed _ => True
                  | poll_ready revents => length revents = length asked /\
                      Forall (fun v => any_bit v (Z.lor POLLERR POLLNVAL) = false) revents
                  end
}.

Lemma run_on_udp {X} i d (m : method (Device (Address * bytes)) X) r d' b : bo_sockets b !! i = Some d -> m d = (r, d') ->
  on_udp i m b = (r, mkBouncer (<[i := d']> (bo_sockets b)) (bo_peers b) (bo_received b) (bo_env b)).
Proof. intros Ed Em. unfold on_udp. by rewrite Ed, Em. Qed.

Lemma recv_ok src payload fd : zlen payload <= 65536 -> UDPSocket_recv 65536 (inr (src, payload)) fd = (Ok (src, payload), register_read fd).
Proof.
  intros Hl. unfold UDPSocket_recv. rewrite SystemCall_ok by zlia. mrun. destruct (Z.ltb_spec 65536 (zlen payload)); [lia|]. mrun.
  unfold mret, method_ret. by rewrite ztake_all by lia.
Qed.

Lemma sendto_ok payload fd : zlen payload <= 65536 -> UDPSocket_sendto (BufferViewList_of_string payload) (inr (zlen payload)) fd = (Ok tt, register_write fd).
Proof.
  intros Hl. unfold UDPSocket_sendto, sendmsg_helper. rewrite SystemCall_ok by zlia. rewrite res_bind_Ok, views_size_spec; simpl; rewrite app_nil_r; [|lia].
  rewrite u64_id by zlia. rewrite Z.eqb_refl. mrun. done.
Qed.

(** What the callback does, in one equation. *)
Lemma bounce_eq x b dx px dy py src payload : bouncer_env_ok (bo_env b) ->
  bo_sockets b !! x = Some dx -> bo_peers b !! x = Some px ->
  bo_sockets b !! partner x = Some dy -> bo_peers b !! partner x = Some py ->
  be_recv (bo_env b) x = inr (src, payload) -> zlen payload <= 65536 ->
  let out := outgoing py payload in
  bounce x (partner x) b = (Ok tt, mkBouncer
    (<[partner x := mkDevice (match out with [] => dv_fd dy | _ => register_write (dv_fd dy) end) (dv_written dy ++ out)]>
      (<[x := mkDevice (register_read (dv_fd dx)) (dv_written dx)]> (bo_sockets b)))
    (<[x := new_peer px src]> (bo_peers b)) (bo_received b ++ [(x, (src, payload))]) (bo_env b)).
Proof.
  intros He Edx Epx Edy Epy Er Hl out. pose proof (partner_ne x) as Hne. unfold bounce. mrun. rewrite Er.
  erewrite run_bind by (apply (run_on_udp x dx); [exact Edx|by apply zoom_eq; apply recv_ok]). mrun.
  unfold hear at 1. cbn [bo_sockets bo_peers bo_received bo_env].
  set (S1 := <[x := _]> (bo_sockets b)). set (R1 := bo_received b ++ _).
  erewrite run_bind by (unfold peer_of; cbn [bo_peers]; by rewrite Epx).
  erewrite run_bind with (s' := mkBouncer S1 (<[x := new_peer px src]> (bo_peers b)) R1 (bo_env b)) (a := tt).
  2:{ unfold new_peer. destruct px as [a|]; [|done]. cbn [fst]. destruct (Address_eqb a src); cbn [negb]; [|done].
      by rewrite list_insert_id. }
  erewrite run_bind by (unfold peer_of; cbn [bo_peers]; rewrite list_lookup_insert_ne by done; by rewrite Epy).
  assert (Edy1 : S1 !! partner x = Some dy) by (unfold S1; by rewrite list_lookup_insert_ne).
  assert (Hid : <[partner x := mkDevice (dv_fd dy) (dv_written dy ++ [])]> S1 = S1).
  { rewrite app_nil_r. apply list_insert_id. rewrite Edy1. by destruct dy. }
  unfold out, outgoing. cbn [fst snd]. destruct py as [a|]; [|by rewrite Hid].
  destruct (negb (zlen payload =? 0)); [|by rewrite Hid].
  rewrite (eb_send _ He).
  erewrite run_bind by (apply (run_on_udp (partner x) dy); [exact Edy1|by apply zoom_eq; apply sendto_ok]).
  erewrite run_on_udp; [|cbn [bo_sockets]; rewrite list_lookup_insert_eq by (by eapply lookup_lt_Some); reflexivity|reflexivity].
  cbn [bo_sockets bo_peers bo_received bo_env]. by rewrite list_insert_insert_eq.
Qed.

Lemma bounce_ok x b : (x < n)%nat -> bouncer_env_ok (bo_env b) -> bouncer_inv b ->
  exists b', bounce x (partner x) b = (Ok tt, b') /\ bouncer_inv b' /\ bo_env b' = bo_env b /\
    service_count (bounce_rule x) b' <> service_count (bounce_rule x) b.
Proof.
  intros Hx He [Ls Lp HR]. pose proof (partner_lt x pairs Hx) as Hy. pose proof (partner_ne x) as Hne. pose proof (partner_partner x) as Hpp.
  destruct (lookup_lt_is_Some_2 (bo_sockets b) x) as [dx Edx]; [lia|]. destruct (lookup_lt_is_Some_2 (bo_peers b) x) as [px Epx]; [lia|].
  destruct (lookup_lt_is_Some_2 (bo_sockets b) (partner x)) as [dy Edy]; [lia|].
  destruct (lookup_lt_is_Some_2 (bo_peers b) (partner x)) as [py Epy]; [lia|].
  destruct (eb_recv _ He x) as (src & payload & Er & Hl).
  pose proof (HR x dx px Edx Epx) as Rx. pose proof (HR (partner x) dy py Edy Epy) as Ry.
  eexists. split; [by apply (bounce_eq x b dx px dy py src payload)|]. split; [|split; [done|]].
  - split; cbn [bo_sockets bo_peers bo_received]; rewrite ?length_insert; try done.
    intros i d p Ed Ep. destruct (decide (i = x)) as [->|Hix].
    + rewrite list_lookup_insert_ne, list_lookup_insert_eq in Ed by (rewrite ?length_insert; (done || lia)). injection Ed as <-.
      rewrite list_lookup_insert_eq in Ep by lia. injection Ep as <-.
      apply (relays_received x dx _ px _ (src, payload) Rx). split; [apply u32_range|apply (rl_fd _ _ _ _ Rx)].
    + rewrite list_lookup_insert_ne in Ep by done. destruct (decide (i = partner x)) as [->|Hiy].
      * rewrite list_lookup_insert_eq in Ed by (rewrite length_insert; lia). injection Ed as <-.
        rewrite Epy in Ep. injection Ep as <-.
        pose proof (relays_other (partner x) dy (match outgoing py payload with [] => dv_fd dy | _ => register_write (dv_fd dy) end)
          py (bo_received b) x (src, payload) Ry) as Ro. rewrite Hpp, Nat.eqb_refl in Ro. apply Ro; [|done].
        destruct (rl_fd _ _ _ _ Ry) as [? ?]. destruct (outgoing _ _); split; try done. apply u32_range.
      * rewrite !list_lookup_insert_ne in Ed by done. pose proof (HR i d p Ed Ep) as Ri.
        assert (Hpi : Nat.eqb x (partner i) = false) by (apply Nat.eqb_neq; intros ->; by rewrite partner_partner in Hiy).
        pose proof (relays_other i d (dv_fd d) p (bo_received b) x (src, payload) Ri (rl_fd _ _ _ _ Ri) ltac:(done)) as Ro.
        rewrite Hpi, app_nil_r in Ro. by destruct d.
  - unfold service_count, bounce_rule. cbn [ru_direction ru_fd bo_sockets]. rewrite list_lookup_insert_ne, list_lookup_insert_eq by (done || lia).
    rewrite Edx. apply register_changes, (rl_fd _ _ _ _ Rx).
Qed.

(** *** The event loop *)

(** The rules by their socket; a number without a socket stands for a rule that never asks
    for anything. *)
Definition pair_rule (t : nat) : Rule Bouncer :=
  if decide (t < n)%nat then bounce_rule t else mkRule (fun _ => FDWrapper_new) Direction_In (mret tt) (fun _ => false) (mret tt).

Lemma pair_rules : map bounce_rule (seq 0 n) = map pair_rule (seq 0 n).
Proof. apply map_ext_in. intros t Ht%in_seq. unfold pair_rule. by rewrite decide_True by lia. Qed.

Lemma bouncer_turn_ok e ids b : bouncer_env_ok e -> bouncer_inv b -> StronglySorted lt ids ->
  exists ret ids' b', bouncer_turn e (map pair_rule ids, b) = (Ok ret, (map pair_rule ids', b')) /\ bouncer_inv b' /\ StronglySorted lt ids'.
Proof.
  intros He Hb Hs. unfold bouncer_turn. cbn [fst snd].
  destruct (wait_cooperates pair_rule lt (fun b => bo_env b = e /\ bouncer_inv b) (fun b => bo_env b = e /\ bouncer_inv b) (fun _ _ => True)
    (fun t _ => (t < n)%nat)) with (poll := fun (asked : list Z) b => (be_poll (bo_env b) asked, b)) (ids := ids) (w := bo_set_env e b)
    as (ret & ids' & b' & E & [_ Hb'] & _ & Hsub); try done.
  - intros t w _. unfold pair_rule. by case_decide.
  - intros t w [Ew Hw]. exists w. unfold pair_rule. by case_decide.
  - intros t w [Ew Hw] Ht. unfold pair_rule. rewrite decide_True by done.
    destruct (bounce_ok t w Ht) as (w' & E & Hw' & Ee & Hc); [by rewrite Ew|done|].
    exists w'. split; [exact E|]. split; [by rewrite Ee|]. split; [done|]. split; [|done].
    apply andb_false_intro1, Z.eqb_neq. congruence.
  - split; [done|]. by destruct Hb.
  - intros asked w [Ew _]. eexists. split; [reflexivity|]. rewrite Ew. apply (eb_poll _ He).
  - exists ret, ids', b'. split; [done|]. split; [done|]. by apply (sorted_sublist lt _ _ Hsub).
Qed.

Lemma bouncer_run_ok envs : Forall bouncer_env_ok envs -> forall ids b, bouncer_inv b -> StronglySorted lt ids ->
  exists r l b', bouncer_run envs (map pair_rule ids, b) = (r, (l, b')) /\ (r = Ok tt \/ r = NoFuel) /\ bouncer_inv b'.
Proof.
  induction 1 as [|e envs He _ IH]; intros ids b Hb Hs.
  { exists NoFuel, (map pair_rule ids), b. split; [done|]. by split; [right|]. }
  destruct (bouncer_turn_ok e ids b He Hb Hs) as (ret & ids' & b' & E & Hb' & Hs'). cbn [bouncer_run].
  erewrite run_bind by exact E. destruct ret; try by apply IH. eexists _, _, b'. split; [reflexivity|]. by split; [left|].
Qed.

Lemma Bouncer_new_inv env : bouncer_inv (Bouncer_new n env).
Proof.
  split; cbn; try apply length_replicate. intros i d p [-> _]%lookup_replicate [-> _]%lookup_replicate. by split.
Qed.
End Run.

(** ** Theorems *)

Lemma add_rules {W} (f : nat -> Rule W) l : forall acc, fold_left (fun rules i => add_rule (f i) rules) l acc = acc ++ map f l.
Proof. induction l as [|i l IH]; intros acc; cbn; [by rewrite app_nil_r|]. rewrite IH. unfold add_rule. by rewrite <- app_assoc. Qed.

Lemma seq_sorted a k : StronglySorted lt (seq a k).
Proof.
  revert a. induction k as [|k IH]; intros a; cbn; constructor; [done|]. apply Forall_forall. intros x Hx%elem_of_seq. lia.
Qed.

Lemma bounce_between_ok k env envs r b : Forall bouncer_env_ok envs -> bounce_between (2 * k) env envs = (r, b) ->
  (r = Ok tt \/ r = NoFuel) /\ bouncer_inv k b.
Proof.
  intros He E. unfold bounce_between in E. rewrite add_rules, (pair_rules k) in E. cbn [app] in E.
  destruct (bouncer_run_ok k envs He (seq 0 (2 * k)) (Bouncer_new (2 * k) env) (Bouncer_new_inv _ _) (seq_sorted _ _)) as (r' & l & b' & E' & Hr & Hb).
  rewrite E' in E. injection E as <- <-. done.
Qed.

Lemma bouncer_program_bound bind ports env envs : bouncer_ports bind = Ok ports -> bouncer_program bind env envs = bounce_between (length ports) env envs.
Proof. unfold bouncer_program. by intros ->. Qed.

(** A datagram from [src] on every socket that is polled, while [poll] reports the sockets
    of [ready]. *)
Definition datagrams_from (src : Address) (payload : bytes) (ready : list nat) : BouncerEnv :=
  mkBouncerEnv (fun _ => inr (src, payload)) (fun _ b => inr (zlen b))
    (fun asked => poll_ready (imap (fun i _ => if bool_decide (i ∈ ready) then POLLIN else 0) asked)).

Lemma datagrams_from_ok src payload ready : zlen payload <= 65536 -> bouncer_env_ok (datagrams_from src payload ready).
Proof.
  intros Hl. split; cbn; [by eexists _, _|done|]. intros asked. split; [apply length_imap|].
  apply Forall_forall. intros v Hv. apply elem_of_lookup_imap in Hv as (i & e & -> & _). by case_bool_decide.
Qed.

(** C27: The bouncer on ports that can all be bound and with a kernel that delivers and sends
    datagrams: the program binds a socket to each port from 1024 to 64001 and runs its
    loop over them; in any number of turns of the loop over any number of pairs, none of
    the callbacks throws, and every socket [i], whichever datagrams arrive on whichever
    socket in whichever order, holds the address of the last sender heard on it as its
    peer and has sent exactly [relayed i None log]: for each non-empty datagram its partner
    received after [i] first heard from a peer, in their order, its payload, to the peer of
    [i] at that moment. *)
Theorem bouncer_relays bind env envs : (forall p, bind p = 0) -> Forall bouncer_env_ok envs ->
  bouncer_ports bind = Ok (seqZ 1024 62978) /\ 62978 <= reserved /\
  bouncer_program bind env envs = bounce_between (2 * Z.to_nat 31489) env envs /\
  forall k, exists r b, bounce_between (2 * k) env envs = (r, b) /\ (r = Ok tt \/ r = NoFuel) /\
    length (bo_sockets b) = (2 * k)%nat /\
    forall i d, bo_sockets b !! i = Some d -> exists p, bo_peers b !! i = Some p /\ relays i d p (bo_received b).
Proof.
  intros Hbind He. destruct (bouncer_ports_spec bind Hbind) as [Ep _].
  split; [exact Ep|]. split; [done|]. split.
  - rewrite (bouncer_program_bound _ _ env envs Ep), length_seqZ.
    by replace (Z.to_nat (2 * 31489)) with (2 * Z.to_nat 31489)%nat by lia.
  - intros k. destruct (bounce_between (2 * k) env envs) as [r b] eqn:E. exists r, b. split; [done|].
    destruct (bounce_between_ok k env envs r b He E) as [Hr [Ls Lp HR]]. split; [done|]. split; [done|].
    intros i d Ed. pose proof (lookup_lt_Some _ _ _ Ed) as Hi. rewrite Ls in Hi.
    destruct (lookup_lt_is_Some_2 (bo_peers b) i) as [p Epi]; [lia|]. exists p. split; [done|by apply HR].
Qed.

(** One pair: the upper socket hears from a peer, then the lower one from another; what
    the lower one received goes to the upper one's peer. *)
Lemma bouncer_relays_witness : exists r b d p, bounce_between (2 * 1) (datagrams_from (inet 1 7) [] [])
    [datagrams_from (inet 1 7) [Byte.x61] [1%nat]; datagrams_from (inet 2 7) [Byte.x62] [0%nat]] = (r, b) /\
  bo_received b = [(1%nat, (inet 1 7, [Byte.x61])); (0%nat, (inet 2 7, [Byte.x62]))] /\
  bo_sockets b !! 1%nat = Some d /\ relays 1 d p (bo_received b) /\
  relayed 1 None (bo_received b) = [(inet 1 7, [Byte.x62])].
Proof.
  destruct (bouncer_relays (fun _ => 0) (datagrams_from (inet 1 7) [] [])
    [datagrams_from (inet 1 7) [Byte.x61] [1%nat]; datagrams_from (inet 2 7) [Byte.x62] [0%nat]]) as (_ & _ & _ & H).
  - reflexivity.
  - do 2 (apply Forall_cons; split; [by apply datagrams_from_ok|]). by apply Forall_nil.
  - destruct (H 1%nat) as (r & b & E & _ & Hl & HR). destruct (lookup_lt_is_Some_2 (bo_sockets b) 1) as [d Ed]; [lia|].
    destruct (HR 1%nat d Ed) as (p & _ & Hrel).
    assert (Elog : bo_received b = [(1%nat, (inet 1 7, [Byte.x61])); (0%nat, (inet 2 7, [Byte.x62]))]).
    { pose proof (f_equal (fun x => bo_received (snd x)) E) as Eb. cbn [snd] in Eb. rewrite <- Eb. vm_compute. reflexivity. }
    exists r, b, d, p. split; [exact E|]. split; [exact Elog|]. split; [exact Ed|]. split; [exact Hrel|].
    rewrite Elog. vm_compute. reflexivity.
Defined.

(** The upper socket of a pair hears from a peer; what the lower one receives then goes
    there, and an empty datagram does not. *)
Example bounced : let '(r, b) := bounce_between 2 (datagrams_from (inet 1 7) [] [])
    [datagrams_from (inet 1 7) [Byte.x61] [1%nat]; datagrams_from (inet 2 7) [Byte.x62] [0%nat];
     datagrams_from (inet 3 7) [] [0%nat]] in
  r = NoFuel /\ bo_peers b = [Some (inet 3 7); Some (inet 1 7)] /\
  map dv_written (bo_sockets b) = [[]; [(inet 1 7, [Byte.x62])]].
Proof. by vm_compute. Qed.
